(* ===== verification/_CoqProject ===== *)
-Q . S2P
Prelude.v
Memory.v
E820.v
E820Build.v
SeaE820.v
Coreboot.v
Machine.v
Firmware.v
Chipset.v
Unlock.v
IntelPit.v
Thunk.v
Acpi.v
SeaZone.v
SeaMalloc.v
SeaPmm.v
SeaRom.v
OptionRom.v
Video.v
Palette.v
SeaString.v
SeaTables.v
SeaCsm.v
Boot.v
CcInt.v
CcBits.v
CcPop.v
CcArith.v
CcDiv.v
CcDivWide.v
CcDivTi.v
CcDivSigned.v
Nanoprintf.v
VgaState.v
VgaPal.v
VgaCb.v
VgaFb.v
VgaDraw.v
VgaScroll.v
VgaMode.v
VgaVbe.v
VgaVbeSpec.v
VgaBios.v
VgaText.v
VgaCursor.v
VgaModeSpec.v
Console.v
SeaKbd.v
SeaBlock.v
SeaDisk.v
SeaDiskSpec.v
SeaCd.v
SeaEdd.v
SeaTimer.v
SeaClock.v
SeaClockSpec.v
SeaBoot.v
SeaBootSpec.v
Display.v
