(* ===== verification/Prelude.v ===== *)
(** CSMWrap: a model of the UEFI loader and of the BIOS it boots.

    * The program

    CSMWrap (under src/src) is a UEFI application that starts SeaBIOS, built
    as a compatibility support module (CSM), on machines whose firmware has
    none.  [efi_main] opens the ROM area below 1 MB for writing, applies a
    workaround for the timer of Intel chipsets, finds the ACPI tables, chooses
    how the display is driven, prepares tables in low memory, leaves UEFI,
    translates the UEFI memory map to an E820 map, copies the two ROM images
    to their place and calls the module four times through a real-mode thunk:
    initialise, run the video option ROM, prepare to boot, boot.  SeaBIOS
    (under src/seabios) takes the memory it was given into its allocator,
    hands memory to option ROMs (the POST memory manager, PMM), copies the
    firmware's tables into the F segment, builds its own E820 map, orders and
    boots what can be booted, and serves the keyboard, the disks and the
    clock.  Its video BIOS (under src/seabios/vgasrc)
    drives the framebuffer of the firmware.  The compiler run-time
    (src/cc-runtime) and a formatter (src/nanoprintf) are linked in.

    * The files

    Shared: [Prelude] (fixed-width integers as [Z] with [wrap], bit lemmas,
    tactics and hint databases) and [Memory] (flat memory [Z -> Z] with
    little-endian loads and stores; [src/libc.c]).

    The memory map: [E820] ([src/e820.c] as in-place array code, a list
    reference, and what an address is reported as), [E820Build]
    ([build_e820_map]), [SeaE820] ([seabios/src/e820map.c]).

    The display as CSMWrap sees it: [Coreboot] ([src/coreboot.c] and the lookup
    of [seabios/src/fw/coreboot.c]), [OptionRom] and [Video] ([src/video.c]),
    [Palette] ([src/cbvga_palette_emulator.c]).

    The machine: [Machine] ([src/io.h] over the class [Machine] of an abstract
    machine state, and the class [PciMechanism]), [Firmware] (the class
    [BootServices], GUIDs, the configuration table), [Chipset] (a concrete
    machine with its attribute registers, an instance of the classes),
    [Unlock] ([src/unlock_region.c]), [IntelPit]
    ([src/intel_workarounds.c]), [Thunk] ([src/x86thunk.c]), [Acpi]
    ([src/acpi.c]).

    SeaBIOS, memory and tables: [SeaZone] and [SeaMalloc] (the allocator of
    [seabios/src/malloc.c]: one list of ranges, then the five zones and the
    structures that track blocks), [SeaPmm] ([seabios/src/pmm.c]), [SeaRom]
    (the option ROM area of [malloc.c]), [SeaString]
    ([seabios/src/string.c]), [SeaTables] ([seabios/src/fw/biostables.c]),
    [SeaCsm] ([seabios/src/fw/csm.c], and the relocation of
    [seabios/src/post.c]).

    The loader: [Boot] ([src/csmwrap.c]): [efi_main] as a program over all the
    classes, and the theorems that join the two sides.

    Run-time: [CcInt] (integers of C and the monad [outcome], in which
    undefined behaviour is a value), [CcBits], [CcPop], [CcArith], [CcDiv],
    [CcDivWide], [CcDivTi], [CcDivSigned] ([cc-runtime.c]), [Nanoprintf]
    ([nanoprintf.h], [src/printf.c]).

    The video BIOS ([seabios/vgasrc]): [VgaState] (its variables, segmented
    memory, the BIOS data area, the class [Layout] of link addresses), [VgaPal]
    (the palette emulator), [VgaCb] (modes, [cbvga.c]), [VgaFb] (drawing,
    [vgafb.c]), [VgaMode] (setting modes, the cursor, [vgabios.c],
    [swcursor.c]), [VgaVbe] ([vbe.c]), [VgaBios] (interrupt 10h and
    [vgainit.c]).  What they do is shown in [VgaDraw], [VgaScroll],
    [VgaVbeSpec], [VgaText], [VgaCursor], [VgaModeSpec] and collected in
    [Console]; [Display] joins CSMWrap and the video BIOS.

    SeaBIOS services: [SeaKbd] (scan codes and interrupt 16h,
    [seabios/src/kbd.c], with a reference keyboard), [SeaBlock] (drives,
    geometry, drive parameters and the dispatch of requests,
    [seabios/src/block.c]), [SeaDisk] (interrupts 13h and 40h,
    [seabios/src/disk.c]), [SeaDiskSpec] (what they do), [SeaEdd] (what they
    report), [SeaCd] (booting from a CD, [seabios/src/cdrom.c]), [SeaTimer]
    (delays, [seabios/src/hw/timer.c]), [SeaClock] (interrupts 08h, 1Ah, 70h and
    the waits of 15h, [seabios/src/clock.c], and the clock chip,
    [seabios/src/hw/rtc.c]), [SeaClockSpec] (what they do), [SeaBoot] (boot
    order, boot menu and interrupts 18h and 19h, [seabios/src/boot.c]),
    [SeaBootSpec] (what they do).

    * How the code is rendered

    A C function is a Rocq function of the same name.  Code that only touches
    memory or tables passes them explicitly; code that touches hardware or
    firmware is a state-passing program [M W A] over an unknown state [W]
    whose primitive operations are the methods of a class, so its theorems
    hold for every machine, and the witnesses instantiate the class.  Pointers
    are addresses, structures in shared memory are read and written at their
    C offsets for the 64-bit build of CSMWrap and the 32-bit build of SeaBIOS,
    and an arithmetic result is wrapped to the width of its C type.  SeaBIOS
    is in the configuration CSMWrap builds (allocations in upper memory,
    relocated init code, option ROMs and boot enabled, no virtual machine);
    the video BIOS is the one for a coreboot framebuffer with text emulation,
    VESA functions and no VGA ports.  The intrusive lists of the allocator are
    lists of descriptors that know where they live, so [container_of] and the
    addresses of descriptors are modelled.  Services that wait (the keyboard)
    run against a schedule of what arrives at each wait.  The drivers of disk
    controllers are the class [BlockHost], and what the services rely on in
    them is the class [BlockMedia].  Timers are the classes [ClockHost] and
    [Timers], the clock chip [Cmos], and the code the boot loader calls or
    starts is the class [BootHost].

    Loops with a bound are recursive on it.  Loops without one take a fuel
    argument and return [None] or [Undefined] when it runs out; the theorems
    say what fuel is enough ([legacy_rom_correct], [video_init_chooses]: the
    length of the ROM; [smbios_next_progress]: the length of the blob;
    [printf_typed]: the length of the format; [large_loop_fuel]: 16 halvings;
    a disk request nests twice, shown by [image_read_call]; [delay_waits]: the
    ticks of the delay; [glob_match]: the lengths of pattern and path; an entry
    of the boot list a turn, [boots_first_disk]) or that none is
    ([legacy_rom_zero_length_hangs]).

    * What is shown

    The memory map.  [e820_add_refines], [e820_add_exact]: the array code is
    the list reference and changes exactly the range.  [build_e820_map_exact],
    [build_e820_map_sound]: the map built from the UEFI map.
    [sea_e820_add_equiv], [replay_identity]: SeaBIOS's copy of the code.
    [e820_end_to_end] composes these with the hand-over.

    The allocator.  [malloc_palloc_correct], [malloc_pfree_correct],
    [handle_finds_block]; [pmm_session_safe], [pmm_allocate_correct],
    [pmm_query_honest]; [rom_confirm_ok], [dispatch_oprom_safe],
    [get_table_address_granted]; [copy_table_publishes], [mptable_copy_valid];
    [donated_memory_end_to_end] from the init table CSMWrap fills in, with the
    exact set of addresses each zone manages ([manages]).

    The display.  [legacy_rom_correct], [video_init_chooses],
    [coreboot_roundtrip]; [display_reaches_vbe] from the graphics output of the
    firmware to function 4F01h of the video BIOS; [listed_modes_found];
    [text_mode_types] (a terminal, as a refinement: [displays] ties the pixels
    to the picture [tty_type] computes), [char_write_read],
    [scroll_exact], [pixel_write_read], [cursor_transparent],
    [state_save_restore].

    Keyboard and disks.  [keyboard_refines], [typed_text_read];
    [mapped_disk_readable], [disk_write_read], [geometry_reported],
    [edd_reports_disk], [image_read_call], [cd_boot_image].

    Clock and boot.  [delay_waits], [boot_clock], [timer_exact], [user_wait],
    [clock_set_read]; [boot_list_ordered], [menu_choice], [glob_match], and
    [boots_first_disk] from the boot list to the code at 7C00h.

    The machine.  [pci_accessors_reach], [test_bios_region_rw_exact],
    [unlock_opens_region], [workaround_ungates_timer], [far_call_marshals],
    [prepare_descriptors], [epoch_counts_days], [pci_handle_reaches],
    [acpi_init_selects], [legacy_entered_when_ready] (what was done before the
    module is entered, and the console output after UEFI was left),
    [exit_boot_services_bounded].  The semantics of the attribute registers and
    of the P2SB bridge in [Chipset] are those of the data sheets; some comments
    of [src/unlock_region.c] say otherwise, as [Chipset] notes.

    The run-time.  [unsigned_division_correct], [signed_division_correct];
    [printf_typed], [number_roundtrip].

    Behaviour that is probably not meant: [boot_table_never_read],
    [smbios_above_4g_truncated], [large_vbios_overwrites_csm],
    [smbios_30_entry_ignored], [legacy_rom_zero_length_hangs],
    [io_map_overruns], [workaround_ungates_timer] (a hidden bridge),
    [pmm_length_wraps], [debug_prints_source], [scroll_down_wraps], [setup_divides_by_zero],
    [red_matched_to_blue], [one_control_released], [edd_size_short],
    [boot_clock] (after 21:50:34), [alarm_off_answer].

    * What is not modelled

    The assembly of the real-mode switch (a parameter of [Thunk]), the ACPI
    interpreter, the drivers of SeaBIOS that operate a device (storage
    controllers, USB, network, serial ports: the record [drivers] of
    [SeaCsm] and the classes of [SeaKbd] and [SeaBlock]), its set-up of option
    ROMs, virtual machines and coreboot payloads, its services for mice, serial
    ports, PCI and plug and play, and the video drivers CSMWrap does not
    build. *)

From stdpp Require Import base numbers list gmap.
From Stdlib Require Import ZArith Lia Btauto.

#[global] Open Scope Z_scope.

(** * Fixed-width integers

    A C unsigned integer of width [w] is a [Z] with [0 <= z < 2^w]; every
    arithmetic result the source stores in such a type goes through [wrap]. *)

Definition wrap (w z : Z) : Z := z mod 2 ^ w.

Declare Scope csm_scope.
Delimit Scope csm_scope with csm.
#[global] Open Scope csm_scope.

Notation "'u8'" := (wrap 8) : csm_scope.
Notation "'u16'" := (wrap 16) : csm_scope.
Notation "'u32'" := (wrap 32) : csm_scope.
Notation "'u64'" := (wrap 64) : csm_scope.

(** [z] is a value of the unsigned type of width [w]. *)
Definition fits (w z : Z) : Prop := 0 <= z < 2 ^ w.

#[export] Instance fits_dec w z : Decision (fits w z).
Proof. unfold fits. apply _. Defined.

(** The C comparison of a [z] of unsigned width [w] reinterpreted as signed. *)
Definition to_signed (w z : Z) : Z :=
  if wrap w z <? 2 ^ (w - 1) then wrap w z else wrap w z - 2 ^ w.

(** The powers of two that occur in the widths, as literals [lia] can use. *)
Lemma pow2_8 : 2 ^ 8 = 256. Proof. reflexivity. Qed.
Lemma pow2_16 : 2 ^ 16 = 65536. Proof. reflexivity. Qed.
Lemma pow2_32 : 2 ^ 32 = 4294967296. Proof. reflexivity. Qed.
Lemma pow2_64 : 2 ^ 64 = 18446744073709551616. Proof. reflexivity. Qed.

Create HintDb word.
Create Rewrite HintDb word.
Create Rewrite HintDb wrap.
#[export] Hint Rewrite pow2_8 pow2_16 pow2_32 pow2_64 : word.

(** [word_lia] normalises widths and solves linear goals about them. *)
Ltac word_norm := unfold fits, wrap in *; autorewrite with word in *.
Ltac word_lia := word_norm; Z.div_mod_to_equations; lia.

Lemma wrap_fits w z : 0 <= w -> fits w (wrap w z).
Proof. intros Hw. apply Z.mod_pos_bound. apply Z.pow_pos_nonneg; lia. Qed.

Lemma wrap_small w z : fits w z -> wrap w z = z.
Proof. apply Z.mod_small. Qed.

Lemma wrap_wrap w z : wrap w (wrap w z) = wrap w z.
Proof. apply Zmod_mod. Qed.

Lemma wrap_add_l w a b : wrap w (wrap w a + b) = wrap w (a + b).
Proof. apply Zplus_mod_idemp_l. Qed.

Lemma wrap_add_r w a b : wrap w (a + wrap w b) = wrap w (a + b).
Proof. apply Zplus_mod_idemp_r. Qed.

Lemma wrap_sub_l w a b : wrap w (wrap w a - b) = wrap w (a - b).
Proof. apply Zminus_mod_idemp_l. Qed.

Lemma wrap_sub_r w a b : wrap w (a - wrap w b) = wrap w (a - b).
Proof. apply Zminus_mod_idemp_r. Qed.

#[export] Hint Rewrite wrap_wrap wrap_add_l wrap_add_r wrap_sub_l wrap_sub_r : wrap.

Lemma wrap_wrap_le w v z : 0 <= w <= v -> wrap w (wrap v z) = wrap w z.
Proof.
  intros Hwv. unfold wrap. symmetry.
  replace v with (w + (v - w)) by lia. rewrite Z.pow_add_r by lia.
  rewrite Z.rem_mul_r by lia.
  rewrite Z.mul_comm, Z_mod_plus_full. by rewrite Zmod_mod.
Qed.

#[export] Hint Resolve wrap_fits : word.

(** * Bitwise equality

    Bit [i] of masks, shifts and [wrap], to compare two integers bit by bit. *)

Lemma wrap_testbit w z i : 0 <= w -> 0 <= i ->
  Z.testbit (wrap w z) i = (i <? w) && Z.testbit z i.
Proof.
  intros Hw Hi. unfold wrap. destruct (Z.ltb_spec i w).
  - by rewrite Z.mod_pow2_bits_low by lia.
  - by rewrite Z.mod_pow2_bits_high by lia.
Qed.

Lemma land_ones_wrap w z : 0 <= w -> Z.land z (Z.ones w) = wrap w z.
Proof. intros. by rewrite Z.land_ones. Qed.

Lemma land_255 z : Z.land z 255 = wrap 8 z.
Proof. exact (land_ones_wrap 8 z ltac:(lia)). Qed.

Lemma land_65535 z : Z.land z 65535 = wrap 16 z.
Proof. exact (land_ones_wrap 16 z ltac:(lia)). Qed.

Lemma land_u32_max z : Z.land z 4294967295 = wrap 32 z.
Proof. exact (land_ones_wrap 32 z ltac:(lia)). Qed.

Lemma land_1 z : Z.land z 1 = z mod 2.
Proof. exact (Z.land_ones z 1 ltac:(lia)). Qed.

Lemma land_3 z : Z.land z 3 = z mod 4.
Proof. exact (Z.land_ones z 2 ltac:(lia)). Qed.

Lemma land_7 z : Z.land z 7 = z mod 8.
Proof. exact (Z.land_ones z 3 ltac:(lia)). Qed.

Lemma land_15 z : Z.land z 15 = z mod 16.
Proof. exact (Z.land_ones z 4 ltac:(lia)). Qed.

Lemma land_31 z : Z.land z 31 = z mod 32.
Proof. exact (Z.land_ones z 5 ltac:(lia)). Qed.

Lemma fits_testbit_high w z i : fits w z -> 0 <= w <= i -> Z.testbit z i = false.
Proof.
  intros Hz Hi. rewrite <- (wrap_small w z Hz). unfold wrap.
  by rewrite Z.mod_pow2_bits_high by lia.
Qed.

Lemma fits_mono w v z : 0 <= w <= v -> fits w z -> fits v z.
Proof.
  intros Hwv [Hl Hh]. split; [done|].
  apply Z.lt_le_trans with (2 ^ w); [done|]. apply Z.pow_le_mono_r; lia.
Qed.

Lemma fits_lor w a b : 0 <= w -> fits w a -> fits w b -> fits w (Z.lor a b).
Proof.
  intros Hw Ha Hb. split; [apply Z.lor_nonneg; unfold fits in *; lia|].
  rewrite <- (wrap_small w a Ha), <- (wrap_small w b Hb).
  rewrite <- !land_ones_wrap, <- Z.land_lor_distr_l, land_ones_wrap by lia.
  apply wrap_fits; lia.
Qed.

Lemma fits_mask w a b : 0 <= w -> fits w a -> fits w (Z.land a b).
Proof.
  intros Hw Ha. rewrite <- (wrap_small w a Ha).
  rewrite <- land_ones_wrap, <- Z.land_assoc, (Z.land_comm (Z.ones w)),
    Z.land_assoc, land_ones_wrap by lia.
  by apply wrap_fits.
Qed.

Lemma fits_land_l w a b : 0 <= w -> 0 <= b -> fits w a -> fits w (Z.land a b).
Proof. intros Hw _. by apply fits_mask. Qed.

Lemma fits_lxor w a b : 0 <= w -> fits w a -> fits w b -> fits w (Z.lxor a b).
Proof.
  intros Hw Ha Hb. rewrite <- (wrap_small w a Ha), <- (wrap_small w b Hb).
  assert (Z.lxor (wrap w a) (wrap w b) = wrap w (Z.lxor a b)) as ->; [|by apply wrap_fits].
  apply Z.bits_inj'. intros k Hk. rewrite wrap_testbit, !Z.lxor_spec, !wrap_testbit by lia. by destruct (k <? w).
Qed.

Lemma fits_ldiff w a b : 0 <= w -> fits w a -> fits w (Z.ldiff a b).
Proof.
  intros Hw Ha. split; [apply Z.ldiff_nonneg; unfold fits in *; lia|].
  assert (Z.ldiff a b = wrap w (Z.ldiff a b)) as ->; [|apply wrap_fits; lia].
  apply Z.bits_inj'. intros i Hi. rewrite wrap_testbit, Z.ldiff_spec by lia.
  destruct (Z.ltb_spec i w); [done|]. by rewrite (fits_testbit_high w a) by (done || lia).
Qed.

Lemma fits_shiftl w n a : 0 <= n <= w -> fits (w - n) a -> fits w (Z.shiftl a n).
Proof.
  intros Hn [Hl Hh]. rewrite Z.shiftl_mul_pow2 by lia.
  replace (2 ^ w) with (2 ^ (w - n) * 2 ^ n)
    by (rewrite <- Z.pow_add_r by lia; f_equal; lia).
  assert (0 < 2 ^ n) by (apply Z.pow_pos_nonneg; lia).
  unfold fits. replace (2 ^ w) with (2 ^ (w - n) * 2 ^ n)
    by (rewrite <- Z.pow_add_r by lia; f_equal; lia). nia.
Qed.

(** Clearing the low [n] bits of a [w]-bit value. *)
Lemma land_clear_low w n z :
  0 <= n <= w -> fits w z -> Z.land z (Z.shiftl (Z.ones (w - n)) n) = z - z mod 2 ^ n.
Proof.
  intros Hn Hz.
  replace (z - z mod 2 ^ n) with (Z.shiftl (Z.shiftr z n) n).
  2: { rewrite Z.shiftl_mul_pow2, Z.shiftr_div_pow2 by lia.
       pose proof (Z.div_mod z (2 ^ n) ltac:(lia)). lia. }
  apply Z.bits_inj'. intros i Hi. rewrite Z.land_spec, !Z.shiftl_spec by lia.
  destruct (Z.lt_ge_cases i n).
  { rewrite !(Z.testbit_neg_r _ (i - n)) by lia. apply andb_false_r. }
  rewrite Z.shiftr_spec by lia. replace (i - n + n) with i by lia.
  rewrite Z.testbit_ones by lia. destruct (Z.lt_ge_cases i w).
  - destruct (Z.leb_spec 0 (i - n)), (Z.ltb_spec (i - n) (w - n)); try lia. apply andb_true_r.
  - by rewrite (fits_testbit_high w z) by (done || lia).
Qed.

(** Disjoint bits add up. *)
Lemma lor_add_shift w a b : 0 <= w -> fits w a ->
  Z.lor a (Z.shiftl b w) = a + b * 2 ^ w.
Proof.
  intros Hw Ha. rewrite <- Z.shiftl_mul_pow2 by lia.
  symmetry. rewrite Z.add_nocarry_lxor, Z.lxor_lor; [done| |];
    apply Z.bits_inj'; intros i Hi; rewrite Z.land_spec, Z.bits_0;
    (destruct (Z.lt_ge_cases i w);
     [rewrite (Z.shiftl_spec_low b) by lia; apply andb_false_r
     |rewrite (fits_testbit_high w a i) by (done || lia); done]).
Qed.

(** * Little-endian bytes *)

Fixpoint le_bytes (n : nat) (z : Z) : list Z :=
  match n with
  | O => []
  | S n' => u8 z :: le_bytes n' (Z.shiftr z 8)
  end.

Fixpoint le_val (bs : list Z) : Z :=
  match bs with
  | [] => 0
  | b :: bs' => b + 256 * le_val bs'
  end.

Lemma length_le_bytes n z : length (le_bytes n z) = n.
Proof. revert z; induction n as [|n IH]; intros z; simpl; [done|]. by rewrite IH. Qed.

Lemma le_bytes_fits n z : Forall (fits 8) (le_bytes n z).
Proof.
  revert z; induction n as [|n IH]; intros z; simpl; constructor; [|done].
  apply wrap_fits; lia.
Qed.

Lemma le_val_le_bytes n z : le_val (le_bytes n z) = wrap (8 * Z.of_nat n) z.
Proof.
  revert z; induction n as [|n IH]; intros z; cbn [le_bytes le_val].
  - unfold wrap. by rewrite Z.mul_0_r, Z.mod_1_r.
  - rewrite IH. unfold wrap. rewrite Z.shiftr_div_pow2 by lia.
    replace (8 * Z.of_nat (S n)) with (8 + 8 * Z.of_nat n) by lia.
    rewrite Z.pow_add_r by lia. change (2 ^ 8) with 256.
    rewrite Z.rem_mul_r; lia.
Qed.

Lemma le_val_fits bs :
  Forall (fits 8) bs -> fits (8 * Z.of_nat (length bs)) (le_val bs).
Proof.
  induction 1 as [|b bs Hb Hbs IH]; [done|].
  cbn [le_val]. rewrite length_cons.
  replace (8 * Z.of_nat (S (length bs))) with (8 + 8 * Z.of_nat (length bs)) by lia.
  unfold fits in *. rewrite Z.pow_add_r by lia. change (2 ^ 8) with 256 in *. nia.
Qed.

Lemma le_bytes_le_val bs :
  Forall (fits 8) bs -> le_bytes (length bs) (le_val bs) = bs.
Proof.
  induction 1 as [|b bs Hb Hbs IH]; [done|].
  cbn [length le_bytes le_val]. unfold fits in Hb. change (2 ^ 8) with 256 in Hb.
  f_equal.
  - unfold wrap. change (2 ^ 8) with 256. rewrite Z.mul_comm, Z_mod_plus_full.
    by apply Z.mod_small.
  - rewrite Z.shiftr_div_pow2 by lia. change (2 ^ 8) with 256.
    rewrite Z.mul_comm, Z.div_add, Z.div_small by lia. by rewrite Z.add_0_l.
Qed.

(** * Automation for executable tests *)

(** Case analysis on the first boolean comparison of the goal. *)
Ltac ztest :=
  match goal with
  | |- context [?a <? ?b] => destruct (Z.ltb_spec a b)
  | |- context [?a <=? ?b] => destruct (Z.leb_spec a b)
  | |- context [?a =? ?b] => destruct (Z.eqb_spec a b)
  end.

Ltac ztest_in H :=
  match type of H with
  | context [?a <? ?b] => destruct (Z.ltb_spec a b)
  | context [?a <=? ?b] => destruct (Z.leb_spec a b)
  | context [?a =? ?b] => destruct (Z.eqb_spec a b)
  end.

(** All comparisons of the goal, contradictory branches closed by [lia]. *)
Ltac ztests := repeat (ztest; simpl; try lia).

(** Evaluate the sums and differences of literals in the goal. *)
Ltac zliteral z := match z with Z0 => idtac | Zpos ?p => zpositive p | Zneg ?p => zpositive p end
with zpositive p :=
  match p with xH => idtac | xO ?q => zpositive q | xI ?q => zpositive q end.

Ltac zeval :=
  repeat match goal with
  | |- context [Z.add ?a ?b] =>
    zliteral a; zliteral b; let c := eval vm_compute in (a + b) in change (a + b) with c
  | |- context [Z.sub ?a ?b] =>
    zliteral a; zliteral b; let c := eval vm_compute in (a - b) in change (a - b) with c
  | |- context [Z.mul ?a ?b] =>
    zliteral a; zliteral b; let c := eval vm_compute in (a * b) in change (a * b) with c
  | |- context [Z.to_nat ?a] =>
    zliteral a; let c := eval vm_compute in (Z.to_nat a) in change (Z.to_nat a) with c
  | |- context [wrap ?w ?a] =>
    zliteral w; zliteral a; let c := eval vm_compute in (wrap w a) in change (wrap w a) with c
  | |- context [Z.of_nat 4%nat] => change (Z.of_nat 4) with 4
  end.

(** * Lists *)

(** The element-wise effect of [memmove(&a[dst], &a[src], n * sizeof *a)] on
    an array that holds the whole source and destination range. *)
Definition array_move {A} (dst src n : nat) (a : list A) : list A :=
  take dst a ++ take n (drop src a) ++ drop (dst + n) a.

Lemma length_array_move {A} dst src n (a : list A) :
  (dst + n <= length a)%nat -> (src + n <= length a)%nat ->
  length (array_move dst src n a) = length a.
Proof.
  intros. unfold array_move. rewrite !length_app, !length_take, !length_drop. lia.
Qed.

(** Shifting the tail of an array up by one and storing into the gap. *)
Lemma array_move_up {A} (pre post junk : list A) (j e : A) i n :
  i = length pre -> n = length post ->
  <[i := e]> (array_move (i + 1) i n (pre ++ post ++ j :: junk)) =
  pre ++ e :: post ++ junk.
Proof.
  intros -> ->. unfold array_move.
  rewrite drop_app_length, take_app_length.
  replace (length pre + 1 + length post)%nat with (length pre + (length post + 1))%nat by lia.
  rewrite <- drop_drop, drop_app_length, <- drop_drop, drop_app_length.
  cbn [drop]. rewrite drop_0.
  assert (exists x, take (length pre + 1) (pre ++ post ++ j :: junk) = pre ++ [x]) as [x ->].
  { destruct post as [|p post]; eexists;
      (rewrite take_app_add' by done; simpl; rewrite take_0; done). }
  rewrite <- app_assoc. simpl. rewrite insert_app_r_alt by lia.
  rewrite Nat.sub_diag. done.
Qed.

(** Shifting the tail of an array down over the element at [i]. *)
Lemma array_move_down {A} (pre post junk : list A) (e : A) i n :
  i = length pre -> n = length post ->
  array_move i (i + 1) n (pre ++ e :: post ++ junk) =
  pre ++ post ++ drop n (e :: post) ++ junk.
Proof.
  intros -> ->. unfold array_move.
  rewrite take_app_length. f_equal.
  rewrite <- (drop_drop (pre ++ _) 1), drop_app_length. cbn [drop].
  rewrite drop_0, take_app_length. f_equal.
  rewrite <- drop_drop, drop_app_length.
  change (e :: post ++ junk) with ((e :: post) ++ junk).
  rewrite drop_app_le by (simpl; lia). done.
Qed.

(** * Bit scans *)

(** The lowest set bit of [x] from bit [i] on, within [fuel] bits. *)
Fixpoint ffs_from (fuel : nat) (i x : Z) : Z :=
  match fuel with
  | O => i
  | S fuel' => if Z.testbit x i then i else ffs_from fuel' (i + 1) x
  end.

Lemma ffs_from_spec fuel i x j :
  0 <= i -> (forall k, 0 <= k < i -> Z.testbit x k = false) ->
  i <= j < i + Z.of_nat fuel -> Z.testbit x j = true ->
  let r := ffs_from fuel i x in
  i <= r <= j /\ Z.testbit x r = true /\ forall k, 0 <= k < r -> Z.testbit x k = false.
Proof.
  revert i. induction fuel as [|fuel IH]; intros i Hi Hlow Hj Ht; [lia|]. simpl.
  destruct (Z.testbit x i) eqn:Hb; [split; [lia|done]|].
  destruct (IH (i + 1)) as (H1 & H2 & H3).
  - lia.
  - intros k Hk. destruct (Z.eq_dec k i) as [->|]; [done|]. apply Hlow. lia.
  - assert (j <> i) by congruence. lia.
  - done.
  - split; [lia|done].
Qed.

(** The number of set bits among the [fuel] bits from [i] on. *)
Fixpoint count_bits (fuel : nat) (i x : Z) : Z :=
  match fuel with
  | O => 0
  | S fuel' => Z.b2z (Z.testbit x i) + count_bits fuel' (i + 1) x
  end.

(** A field of [size] ones at bit [pos]. *)
Definition field_mask (pos size : Z) : Z := Z.shiftl (Z.ones size) pos.

Lemma field_mask_testbit pos size i :
  0 <= pos -> 0 <= size -> 0 <= i ->
  Z.testbit (field_mask pos size) i = (pos <=? i) && (i <? pos + size).
Proof.
  intros Hp Hs Hi. unfold field_mask. rewrite Z.shiftl_spec by done.
  destruct (Z.leb_spec pos i).
  - rewrite Z.testbit_ones_nonneg by lia. destruct (Z.ltb_spec i (pos + size)); ztests; done.
  - by rewrite Z.testbit_neg_r by lia.
Qed.

Lemma count_field fuel i pos size :
  0 <= pos -> 0 <= size -> 0 <= i ->
  count_bits fuel i (field_mask pos size) =
  Z.max 0 (Z.min (i + Z.of_nat fuel) (pos + size) - Z.max i pos).
Proof.
  intros Hp Hs. revert i. induction fuel as [|fuel IH]; intros i Hi; cbn [count_bits]; [lia|].
  rewrite IH, field_mask_testbit by lia.
  destruct (Z.leb_spec pos i), (Z.ltb_spec i (pos + size)); cbn [andb Z.b2z]; lia.
Qed.

Lemma ffs_field fuel pos size :
  0 <= pos -> 0 < size -> pos < Z.of_nat fuel -> ffs_from fuel 0 (field_mask pos size) = pos.
Proof.
  intros Hp Hs Hf. destruct (ffs_from_spec fuel 0 (field_mask pos size) pos) as (H1 & H2 & H3).
  - lia.
  - intros; lia.
  - lia.
  - rewrite field_mask_testbit by lia. ztests; done.
  - rewrite field_mask_testbit, andb_true_iff in H2 by lia. lia.
Qed.
