(* ===== verification/Memory.v ===== *)
(** Flat byte memory and the C library of CSMWrap ([src/libc.c]).

    Physical memory is identity mapped while CSMWrap runs, so a pointer is its
    address and memory is one function from addresses to bytes.  The file
    gives little-endian loads and stores of it, and the four functions of
    [libc.c] as the loops the source has, with what they compute. *)

From stdpp Require Import base numbers list.
From Stdlib Require Import ZArith Lia.
From S2P Require Import Prelude.

Definition mem : Type := Z -> Z.

(** Two memories are the same when every byte is: the equivalence the loops
    are compared under. *)
#[export] Instance mem_equiv : Equiv mem := fun m1 m2 => forall a, m1 a = m2 a.

#[export] Instance mem_equivalence : Equivalence (≡@{mem}).
Proof.
  split.
  - intros m a; done.
  - intros m1 m2 H a; by rewrite H.
  - intros m1 m2 m3 H1 H2 a; by rewrite H1.
Qed.

Definition mem_ok (m : mem) : Prop := forall a, fits 8 (m a).

Definition store8 (m : mem) (a v : Z) : mem :=
  fun x => if x =? a then u8 v else m x.

#[export] Instance store8_proper : Proper ((≡) ==> (=) ==> (=) ==> (≡)) store8.
Proof. intros m1 m2 H a ? <- v ? <- x. unfold store8. by rewrite (H x). Qed.

Lemma store8_eq m a v : store8 m a v a = u8 v.
Proof. unfold store8. by rewrite Z.eqb_refl. Qed.

Lemma store8_ne m a v x : x <> a -> store8 m a v x = m x.
Proof. intros. unfold store8. by destruct (Z.eqb_spec x a). Qed.

Lemma store8_ok m a v : mem_ok m -> mem_ok (store8 m a v).
Proof.
  intros H x. unfold store8. destruct (x =? a); [apply wrap_fits; lia|apply H].
Qed.

(** * Bytes and little-endian words *)

Fixpoint load_bytes (m : mem) (a : Z) (n : nat) : list Z :=
  match n with
  | O => []
  | S n' => m a :: load_bytes m (a + 1) n'
  end.

Fixpoint store_bytes (m : mem) (a : Z) (bs : list Z) : mem :=
  match bs with
  | [] => m
  | b :: bs' => store_bytes (store8 m a b) (a + 1) bs'
  end.

(** Loads and stores of an unsigned of [n] bytes. *)
Definition load (n : nat) (m : mem) (a : Z) : Z := le_val (load_bytes m a n).
Definition store (n : nat) (m : mem) (a v : Z) : mem := store_bytes m a (le_bytes n v).

Abbreviation load16 := (load 2).
Abbreviation load32 := (load 4).
Abbreviation load64 := (load 8).
Abbreviation store16 := (store 2).
Abbreviation store32 := (store 4).
Abbreviation store64 := (store 8).

Lemma length_load_bytes m a n : length (load_bytes m a n) = n.
Proof. revert a; induction n as [|n IH]; intros a; simpl; [done|]. by rewrite IH. Qed.

Lemma lookup_load_bytes m a n i :
  (i < n)%nat -> load_bytes m a n !! i = Some (m (a + Z.of_nat i)).
Proof.
  revert a i; induction n as [|n IH]; intros a i Hi; [lia|].
  destruct i as [|i]; simpl; [by rewrite Z.add_0_r|].
  rewrite IH by lia. do 2 f_equal. lia.
Qed.

Lemma load_bytes_ext m m' a n :
  (forall x, a <= x < a + Z.of_nat n -> m x = m' x) -> load_bytes m a n = load_bytes m' a n.
Proof.
  revert a; induction n as [|n IH]; intros a H; simpl; [done|].
  f_equal; [apply H; lia|]. apply IH. intros x Hx. apply H. lia.
Qed.

Lemma load_ext n m m' a :
  (forall x, a <= x < a + Z.of_nat n -> m x = m' x) -> load n m a = load n m' a.
Proof. intros H. unfold load. by rewrite (load_bytes_ext m m' a n H). Qed.

(** Equal blocks at two addresses. *)
Lemma load_bytes_shift m m' a a' n :
  (forall i, 0 <= i < Z.of_nat n -> m (a + i) = m' (a' + i)) -> load_bytes m a n = load_bytes m' a' n.
Proof.
  revert a a'. induction n as [|n IH]; intros a a' H; simpl; [done|]. f_equal.
  - rewrite <- (Z.add_0_r a), <- (Z.add_0_r a'). apply H. lia.
  - apply IH. intros i Hi. rewrite <- !Z.add_assoc. apply H. lia.
Qed.

Lemma load_bytes_fits m a n : mem_ok m -> Forall (fits 8) (load_bytes m a n).
Proof. intros H. revert a; induction n; intros a; simpl; constructor; auto. Qed.

Lemma load_bytes_app m a n1 n2 :
  load_bytes m a (n1 + n2) = load_bytes m a n1 ++ load_bytes m (a + Z.of_nat n1) n2.
Proof.
  revert a; induction n1 as [|n1 IH]; intros a; simpl; [by rewrite Z.add_0_r|].
  rewrite IH. do 3 f_equal. lia.
Qed.

#[export] Instance load_proper n : Proper ((≡) ==> (=) ==> (=)) (load n).
Proof.
  intros m1 m2 H a ? <-. unfold load. f_equal. apply load_bytes_ext. intros; apply H.
Qed.

Lemma load_fits n m a : mem_ok m -> fits (8 * Z.of_nat n) (load n m a).
Proof.
  intros H. pose proof (le_val_fits _ (load_bytes_fits m a n H)) as Hl.
  by rewrite length_load_bytes in Hl.
Qed.

Lemma store_bytes_out m a bs x :
  x < a \/ a + Z.of_nat (length bs) <= x -> store_bytes m a bs x = m x.
Proof.
  revert m a; induction bs as [|b bs IH]; intros m a Hx; simpl in *; [done|].
  rewrite IH by lia. apply store8_ne. lia.
Qed.

Lemma store_bytes_in m a bs x b :
  bs !! Z.to_nat (x - a) = Some b -> a <= x -> fits 8 b -> store_bytes m a bs x = b.
Proof.
  revert m a; induction bs as [|c bs IH]; intros m a Hl Hx Hb; [done|]. simpl.
  destruct (decide (x = a)) as [->|Hne].
  - rewrite store_bytes_out by lia. rewrite store8_eq.
    rewrite Z.sub_diag in Hl. simplify_eq/=. by apply wrap_small.
  - apply IH; [|lia|done].
    replace (Z.to_nat (x - a)) with (S (Z.to_nat (x - (a + 1)))) in Hl by lia. done.
Qed.

Lemma store_bytes_ok m a bs : mem_ok m -> mem_ok (store_bytes m a bs).
Proof. revert m a; induction bs as [|b bs IH]; intros m a H; simpl; [done|]. by apply IH, store8_ok. Qed.

Lemma load_store_bytes_same m a bs :
  Forall (fits 8) bs -> load_bytes (store_bytes m a bs) a (length bs) = bs.
Proof.
  intros Hbs. apply list_eq. intros i.
  destruct (decide (i < length bs)%nat) as [Hi|Hi].
  - rewrite lookup_load_bytes by done.
    destruct (lookup_lt_is_Some_2 bs i Hi) as [b Hb]. rewrite Hb. f_equal.
    apply store_bytes_in; [|lia|].
    + replace (Z.to_nat (a + Z.of_nat i - a)) with i by lia. done.
    + rewrite Forall_lookup in Hbs. eauto.
  - rewrite !lookup_ge_None_2; [done|lia|rewrite length_load_bytes; lia].
Qed.

(** A word that was just stored reads back. *)
Lemma load_store_same n m a v : load n (store n m a v) a = wrap (8 * Z.of_nat n) v.
Proof.
  unfold load, store.
  pose proof (load_store_bytes_same m a _ (le_bytes_fits n v)) as H.
  rewrite length_le_bytes in H. rewrite H. apply le_val_le_bytes.
Qed.

Lemma take_le_bytes b n z : (b <= n)%nat -> take b (le_bytes n z) = le_bytes b z.
Proof.
  revert n z; induction b as [|b IH]; intros [|n] z Hn; try lia; [done..|]. cbn [le_bytes take].
  f_equal. apply IH. lia.
Qed.

Lemma take_load_bytes b n m a : (b <= n)%nat -> take b (load_bytes m a n) = load_bytes m a b.
Proof.
  intros Hb. replace n with (b + (n - b))%nat by lia. rewrite load_bytes_app, take_app_length'; [done|].
  by rewrite length_load_bytes.
Qed.

(** A narrow load of a wide store. *)
Lemma load_store_prefix b n m a v : (b <= n)%nat -> load b (store n m a v) a = wrap (8 * Z.of_nat b) v.
Proof.
  intros Hb. unfold load, store. rewrite <- (take_load_bytes b n) by done.
  pose proof (load_store_bytes_same m a _ (le_bytes_fits n v)) as H. rewrite length_le_bytes in H.
  rewrite H, take_le_bytes by done. apply le_val_le_bytes.
Qed.

Lemma load_prefix b n m a : mem_ok m -> (b <= n)%nat -> wrap (8 * Z.of_nat b) (load n m a) = load b m a.
Proof.
  intros Hok Hb. rewrite <- le_val_le_bytes, <- (take_le_bytes b n) by done. unfold load.
  pose proof (le_bytes_le_val _ (load_bytes_fits m a n Hok)) as H. rewrite length_load_bytes in H.
  by rewrite H, take_load_bytes.
Qed.

Lemma store_out n m a v x :
  x < a \/ a + Z.of_nat n <= x -> store n m a v x = m x.
Proof. intros. apply store_bytes_out. rewrite length_le_bytes. lia. Qed.

(** A store elsewhere does not change a word. *)
Lemma load_store_other n k m a b v :
  b + Z.of_nat n <= a \/ a + Z.of_nat k <= b -> load n (store k m a v) b = load n m b.
Proof.
  intros H. unfold load. f_equal. apply load_bytes_ext. intros x Hx.
  apply store_out. lia.
Qed.

Lemma store_ok n m a v : mem_ok m -> mem_ok (store n m a v).
Proof. apply store_bytes_ok. Qed.

Lemma load_store8_other n m a b v :
  b + Z.of_nat n <= a \/ a < b -> load n (store8 m a v) b = load n m b.
Proof. intros H. apply load_ext. intros x Hx. apply store8_ne. lia. Qed.

#[export] Hint Resolve store8_ok store_bytes_ok store_ok : word.

(** Reads through the stores around them. *)
Ltac loads :=
  repeat first [rewrite load_store_same | rewrite load_store_other by lia
               | rewrite load_store8_other by lia | rewrite store8_eq
               | rewrite store8_ne by lia | rewrite store_out by lia].

#[global] Arguments load : simpl never.
#[global] Arguments store : simpl never.

(** * [libc.c] *)

Module Libc.

(** [for (i = 0; i < n; i++) pdest[i] = psrc[i];] from index [i], [k]
    iterations left. *)
Fixpoint copy_up (k : nat) (i : Z) (m : mem) (dest src : Z) : mem :=
  match k with
  | O => m
  | S k' => copy_up k' (i + 1) (store8 m (dest + i) (m (src + i))) dest src
  end.

(** [for (i = n; i > 0; i--) pdest[i-1] = psrc[i-1];]. *)
Fixpoint copy_down (i : nat) (m : mem) (dest src : Z) : mem :=
  match i with
  | O => m
  | S i' =>
    copy_down i' (store8 m (dest + Z.of_nat i') (m (src + Z.of_nat i'))) dest src
  end.

Definition memcpy (m : mem) (dest src : Z) (n : nat) : mem := copy_up n 0 m dest src.

Fixpoint memset_loop (k : nat) (i : Z) (m : mem) (s c : Z) : mem :=
  match k with
  | O => m
  | S k' => memset_loop k' (i + 1) (store8 m (s + i) (u8 c)) s c
  end.

Definition memset (m : mem) (s c : Z) (n : nat) : mem := memset_loop n 0 m s c.

Definition memmove (m : mem) (dest src : Z) (n : nat) : mem :=
  if dest <? src then copy_up n 0 m dest src
  else if src <? dest then copy_down n m dest src
  else m.

Fixpoint memcmp_loop (k : nat) (i : Z) (m : mem) (s1 s2 : Z) : Z :=
  match k with
  | O => 0
  | S k' =>
    if m (s1 + i) =? m (s2 + i) then memcmp_loop k' (i + 1) m s1 s2
    else if m (s1 + i) <? m (s2 + i) then -1 else 1
  end.

Definition memcmp (m : mem) (s1 s2 : Z) (n : nat) : Z := memcmp_loop n 0 m s1 s2.

(** The block copy the copying functions are meant to perform: the source is
    read before anything is written. *)
Definition block_copy (m : mem) (dest src : Z) (n : nat) : mem :=
  fun a => if (dest <=? a) && (a <? dest + Z.of_nat n) then m (src + (a - dest)) else m a.

Lemma copy_up_spec k i m dest src :
  mem_ok m -> 0 <= i ->
  dest <= src \/ src + i + Z.of_nat k <= dest + i \/ dest + i + Z.of_nat k <= src + i ->
  copy_up k i m dest src ≡ block_copy m (dest + i) (src + i) k.
Proof.
  intros Hok. revert i m Hok. induction k as [|k IH]; intros i m Hok Hi Hdir a; simpl.
  - unfold block_copy. ztests; done.
  - rewrite (IH (i + 1)); [|by apply store8_ok|lia|lia].
    unfold block_copy, store8.
    rewrite (wrap_small 8 (m (src + i))) by apply Hok.
    repeat (ztest; simpl; try lia; try done); f_equal; lia.
Qed.

Lemma copy_down_spec k m dest src :
  mem_ok m -> src <= dest ->
  copy_down k m dest src ≡ block_copy m dest src k.
Proof.
  intros Hok Hle. revert m Hok. induction k as [|k IH]; intros m Hok a; cbn [copy_down].
  - unfold block_copy. ztests; done.
  - rewrite IH by by apply store8_ok. unfold block_copy, store8.
    rewrite (wrap_small 8 (m _)) by apply Hok.
    repeat (ztest; simpl; try lia; try done); f_equal; lia.
Qed.

Lemma memset_loop_spec k i m s c :
  memset_loop k i m s c ≡
  fun a => if (s + i <=? a) && (a <? s + i + Z.of_nat k) then u8 c else m a.
Proof.
  revert i m. induction k as [|k IH]; intros i m a; simpl.
  - ztests; done.
  - rewrite IH. unfold store8. rewrite wrap_wrap.
    repeat (ztest; simpl; try lia; try done).
Qed.

Lemma memset_at m s c n a :
  memset m s c n a = if (s <=? a) && (a <? s + Z.of_nat n) then u8 c else m a.
Proof. unfold memset. rewrite (memset_loop_spec n 0 m s c a). by rewrite Z.add_0_r. Qed.

Lemma memset_ok m s c n : mem_ok m -> mem_ok (memset m s c n).
Proof.
  intros H a. rewrite memset_at. case_match; [apply wrap_fits; lia|apply H].
Qed.

Lemma block_copy_ok m dest src n : mem_ok m -> mem_ok (block_copy m dest src n).
Proof. intros H a. unfold block_copy. case_match; apply H. Qed.

(** The result of [memcmp] is decided by the first position at which the two
    blocks differ. *)
Lemma memcmp_loop_spec k i m s1 s2 :
  (memcmp_loop k i m s1 s2 = 0 /\
   forall j, 0 <= j < Z.of_nat k -> m (s1 + i + j) = m (s2 + i + j)) \/
  (exists j, 0 <= j < Z.of_nat k /\ m (s1 + i + j) <> m (s2 + i + j) /\
     (forall j', 0 <= j' < j -> m (s1 + i + j') = m (s2 + i + j')) /\
     memcmp_loop k i m s1 s2 = if m (s1 + i + j) <? m (s2 + i + j) then -1 else 1).
Proof.
  revert i. induction k as [|k IH]; intros i; cbn [memcmp_loop].
  { left. split; [done|]. intros; lia. }
  destruct (Z.eqb_spec (m (s1 + i)) (m (s2 + i))) as [Heq|Hne].
  - destruct (IH (i + 1)) as [[H0 Hall]|(j & Hj & Hne & Hpre & Hres)].
    + left. split; [done|]. intros j Hj.
      destruct (decide (j = 0)) as [->|]; [by rewrite !Z.add_0_r|].
      specialize (Hall (j - 1) ltac:(lia)).
      replace (s1 + (i + 1) + (j - 1)) with (s1 + i + j) in Hall by lia.
      by replace (s2 + (i + 1) + (j - 1)) with (s2 + i + j) in Hall by lia.
    + right. exists (j + 1).
      replace (s1 + i + (j + 1)) with (s1 + (i + 1) + j) by lia.
      replace (s2 + i + (j + 1)) with (s2 + (i + 1) + j) by lia.
      repeat split; try lia; try done. intros j' Hj'.
      destruct (decide (j' = 0)) as [->|]; [by rewrite !Z.add_0_r|].
      specialize (Hpre (j' - 1) ltac:(lia)).
      replace (s1 + (i + 1) + (j' - 1)) with (s1 + i + j') in Hpre by lia.
      by replace (s2 + (i + 1) + (j' - 1)) with (s2 + i + j') in Hpre by lia.
  - right. exists 0. rewrite !Z.add_0_r. repeat split; try lia; try done.
Qed.

Lemma memcpy_at m dest src n a :
  mem_ok m -> dest <= src \/ src + Z.of_nat n <= dest ->
  memcpy m dest src n a = block_copy m dest src n a.
Proof.
  intros Hok Hd. unfold memcpy. rewrite (copy_up_spec n 0) by (done || lia).
  by rewrite !Z.add_0_r.
Qed.

Lemma memcpy_ok m dest src n :
  mem_ok m -> dest <= src \/ src + Z.of_nat n <= dest -> mem_ok (memcpy m dest src n).
Proof. intros Hok Hd a. rewrite memcpy_at by done. by apply block_copy_ok. Qed.

#[global] Arguments memcpy : simpl never.
#[global] Arguments memset : simpl never.
#[global] Arguments memmove : simpl never.

(** [memmove] is the block copy whatever the overlap of its two ranges:
    every destination byte becomes the byte the source range held before the
    call, and nothing else changes. *)
Lemma memmove_block_copy m dest src n :
  mem_ok m -> memmove m dest src n ≡ block_copy m dest src n.
Proof.
  intros Hok. unfold memmove. destruct (Z.ltb_spec dest src).
  - rewrite copy_up_spec by (done || lia). by rewrite !Z.add_0_r.
  - destruct (Z.ltb_spec src dest); [apply copy_down_spec; (done || lia)|].
    intros a. unfold block_copy. ztests; try done. f_equal. lia.
Qed.

(** [memcmp] is zero exactly on equal blocks, and otherwise its sign is
    that of the first differing byte, compared unsigned. *)
Lemma memcmp_cases m s1 s2 n :
  (memcmp m s1 s2 n = 0 <-> load_bytes m s1 n = load_bytes m s2 n) /\
  (memcmp m s1 s2 n <> 0 ->
   exists j, 0 <= j < Z.of_nat n /\
     (forall j', 0 <= j' < j -> m (s1 + j') = m (s2 + j')) /\
     memcmp m s1 s2 n = if m (s1 + j) <? m (s2 + j) then -1 else 1).
Proof.
  unfold memcmp.
  destruct (memcmp_loop_spec n 0 m s1 s2) as [[H0 Hall]|(j & Hj & Hne & Hpre & Hres)];
    rewrite !Z.add_0_r in *.
  - split; [|done]. split; [intros _|done]. apply list_eq. intros i.
    destruct (decide (i < n)%nat).
    + rewrite !lookup_load_bytes by done. by rewrite Hall by lia.
    + rewrite !lookup_ge_None_2; rewrite ?length_load_bytes; done || lia.
  - split; [|intros _; exists j; by split]. split.
    + rewrite Hres. by destruct (_ <? _).
    + intros Heq. exfalso. apply Hne.
      pose proof (lookup_load_bytes m s1 n (Z.to_nat j) ltac:(lia)) as H1.
      rewrite Heq, lookup_load_bytes, Z2Nat.id in H1 by lia. congruence.
Qed.

Lemma memcmp_zero m s1 s2 n :
  memcmp m s1 s2 n = 0 <-> load_bytes m s1 n = load_bytes m s2 n.
Proof. apply memcmp_cases. Qed.

Lemma memmove_block_copy_witness :
  load_bytes (memmove (fun a => u8 a) 0x102 0x100 4) 0x100 6 = [0; 1; 0; 1; 2; 3].
Proof.
  rewrite (load_bytes_ext _ (block_copy (fun a => u8 a) 0x102 0x100 4)).
  - reflexivity.
  - intros x _. apply memmove_block_copy. intros a. apply wrap_fits. lia.
Defined.

End Libc.
