(* ===== verification/E820.v ===== *)
(** The E820 memory map of CSMWrap ([src/e820.c]).

    [struct low_stub] keeps the map as an array of [E820_MAX_ENTRIES] entries
    and a count; [remove_e820], [insert_e820] and [e820_add] work on that
    array by index.  The file has three layers:

    - [Array]: the array operations as the source writes them, loops by index
      with the number of iterations they can make as fuel;
    - [Ranges]: the same update on the list of the live entries, without
      indices, as the reference the array code is proved equal to;
    - the meaning of a list of entries as a map from addresses to memory
      types ([type_at]), and the theorems that [e820_add] updates exactly the
      range it is given. *)

From stdpp Require Import base numbers list.
From Stdlib Require Import ZArith Lia Sorted.
From S2P Require Import Prelude.

(** [EFI_E820_ENTRY64] of [src/edk2/E820.h] (and [struct e820entry] of
    SeaBIOS, which has the same three fields). *)
Record EFI_E820_ENTRY64 := mkE820 {
  BaseAddr : Z;
  Length : Z;
  Type_ : Z
}.

#[export] Instance e820_entry_eq_dec : EqDecision EFI_E820_ENTRY64.
Proof. solve_decision. Defined.

(** [uint64_t e_end = e->BaseAddr + e->Length]. *)
Definition e_end (e : EFI_E820_ENTRY64) : Z := u64 (BaseAddr e + Length e).

(** [EFI_ACPI_MEMORY_TYPE]. *)
Definition EfiAcpiAddressRangeMemory : Z := 1.
Definition EfiAcpiAddressRangeReserved : Z := 2.
Definition EfiAcpiAddressRangeACPI : Z := 3.
Definition EfiAcpiAddressRangeNVS : Z := 4.

(** [#define EfiAcpiAddressRangeHole (-1UL)], on an LP64 build. *)
Definition EfiAcpiAddressRangeHole : Z := 2 ^ 64 - 1.

Definition E820_MAX_ENTRIES : Z := 128.

(** * The array code *)

Module Array.

(** The part of [struct low_stub] the map lives in. *)
Record low_map := mkMap {
  e820_map : list EFI_E820_ENTRY64;
  e820_entries : Z
}.

Definition entry_at (s : low_map) (i : Z) : EFI_E820_ENTRY64 :=
  nth (Z.to_nat i) (e820_map s) (mkE820 0 0 0).

Definition set_entry (s : low_map) (i : Z) (e : EFI_E820_ENTRY64) : low_map :=
  mkMap (<[Z.to_nat i := e]> (e820_map s)) (e820_entries s).

(** The capacity is a parameter of the three operations, because SeaBIOS has
    the same code over an array of its own size; CSMWrap uses
    [E820_MAX_ENTRIES]. *)
Section Ops.
Context (max_entries hole : Z).

Definition remove_e820 (s : low_map) (i : Z) : low_map :=
  if (i <? 0) || (e820_entries s <=? i) then s
  else
    let count := e820_entries s - 1 in
    mkMap (array_move (Z.to_nat i) (Z.to_nat (i + 1)) (Z.to_nat (count - i)) (e820_map s))
          count.

Definition insert_e820 (s : low_map) (i start size type : Z) : low_map :=
  if max_entries <=? e820_entries s then s
  else
    let moved := array_move (Z.to_nat (i + 1)) (Z.to_nat i)
                            (Z.to_nat (e820_entries s - i)) (e820_map s) in
    set_entry (mkMap moved (e820_entries s + 1)) i (mkE820 start size (u32 type)).

(** The [for] loop of [e820_add]: the position of the new item, splitting the
    item it falls into.  Returns the index, the map, and [start] and [size]
    as the merge branch leaves them. *)
Fixpoint find_position (fuel : nat) (s : low_map) (i start stop size type : Z)
  : Z * low_map * Z * Z :=
  match fuel with
  | O => (i, s, start, size)
  | S fuel' =>
    if i <? e820_entries s then
      let e := entry_at s i in
      let stop_e := e_end e in
      if stop_e <? start then find_position fuel' s (i + 1) start stop size type
      else if BaseAddr e <? start then
        if type =? Type_ e then
          (i, s, BaseAddr e, u64 (size + (start - BaseAddr e)))
        else
          let s1 := set_entry s i (mkE820 (BaseAddr e) (u64 (start - BaseAddr e)) (Type_ e)) in
          let s2 := if stop <? stop_e
                    then insert_e820 s1 (i + 1) stop (u64 (stop_e - stop)) (Type_ e)
                    else s1 in
          (i + 1, s2, start, size)
      else (i, s, start, size)
    else (i, s, start, size)
  end.

(** The [while] loop of [e820_add]: items the new range overlaps are removed,
    cut at its end, or merged into it. *)
Fixpoint absorb (fuel : nat) (s : low_map) (i stop size type : Z) : low_map * Z :=
  match fuel with
  | O => (s, size)
  | S fuel' =>
    if i <? e820_entries s then
      let e := entry_at s i in
      if stop <? BaseAddr e then (s, size)
      else
        let stop_e := e_end e in
        if stop_e <=? stop then absorb fuel' (remove_e820 s i) i stop size type
        else
          let e' := mkE820 stop (u64 (stop_e - stop)) (Type_ e) in
          let s1 := set_entry s i e' in
          if type =? Type_ e' then (remove_e820 s1 i, u64 (size + Length e'))
          else (s1, size)
    else (s, size)
  end.

(** Each iteration of the first loop advances [i] below the count, and each
    iteration of the second but the last removes an item, so the count bounds
    the first and one more than the count (an insertion may have happened in
    between) the second. *)
Definition e820_add (s : low_map) (start size type : Z) : low_map :=
  if size =? 0 then s
  else
    let stop := u64 (start + size) in
    let '(i, s1, start1, size1) :=
      find_position (Z.to_nat (e820_entries s)) s 0 start stop size type in
    let '(s2, size2) :=
      absorb (S (Z.to_nat (e820_entries s1))) s1 i stop size1 type in
    if type =? hole then s2 else insert_e820 s2 i start1 size2 type.

End Ops.

(** [e820_remove]: a range with the type that is never stored. *)
Definition e820_remove (max_entries hole : Z) (s : low_map) (start size : Z) : low_map :=
  e820_add max_entries hole s start size hole.

End Array.

(** * The reference on lists of live entries *)

Module Ranges.
Section Ops.
Context (hole : Z).

Implicit Types (l : list EFI_E820_ENTRY64) (room : nat).

(** What the second loop makes of the entries from the insertion point on:
    how much the new range grows, and the entries that remain. *)
Fixpoint absorb (stop type : Z) l : Z * list EFI_E820_ENTRY64 :=
  match l with
  | [] => (0, [])
  | e :: r =>
    if stop <? BaseAddr e then (0, l)
    else if e_end e <=? stop then absorb stop type r
    else if type =? Type_ e then (u64 (e_end e - stop), r)
    else (0, mkE820 stop (u64 (e_end e - stop)) (Type_ e) :: r)
  end.

(** [room] is the number of free slots of the array. *)
Definition insert_here room (e : EFI_E820_ENTRY64) l : list EFI_E820_ENTRY64 :=
  match room with O => l | S _ => e :: l end.

Definition absorb_insert room (start stop size type : Z) l : list EFI_E820_ENTRY64 :=
  let '(grow, r) := absorb stop type l in
  if type =? hole then r
  else insert_here (room + (length l - length r)) (mkE820 start (u64 (size + grow)) (u32 type)) r.

Fixpoint add room (start stop size type : Z) l : list EFI_E820_ENTRY64 :=
  match l with
  | [] => absorb_insert room start stop size type []
  | e :: r =>
    if e_end e <? start then e :: add room start stop size type r
    else if BaseAddr e <? start then
      if type =? Type_ e then
        absorb_insert room (BaseAddr e) stop (u64 (size + (start - BaseAddr e))) type l
      else
        let cut := mkE820 (BaseAddr e) (u64 (start - BaseAddr e)) (Type_ e) in
        let tail := mkE820 stop (u64 (e_end e - stop)) (u32 (Type_ e)) in
        cut :: (if stop <? e_end e
                then absorb_insert (room - 1) start stop size type (insert_here room tail r)
                else absorb_insert room start stop size type r)
    else absorb_insert room start stop size type l
  end.

Definition e820_add room l (start size type : Z) : list EFI_E820_ENTRY64 :=
  if size =? 0 then l else add room start (u64 (start + size)) size type l.

End Ops.
End Ranges.

(** The live entries of a table, as a consumer reads them. *)
Definition live (s : Array.low_map) : list EFI_E820_ENTRY64 :=
  take (Z.to_nat (Array.e820_entries s)) (Array.e820_map s).

(** * The array code computes the reference

    [rep] relates an array state to the list of its live entries; the rest of
    the array holds entries nobody reads. *)

Section Refinement.
Context (max_entries hole : Z).

Definition rep (s : Array.low_map) (l : list EFI_E820_ENTRY64) : Prop :=
  exists junk, Array.e820_map s = l ++ junk /\
    Array.e820_entries s = Z.of_nat (length l) /\
    Z.of_nat (length l + length junk) = max_entries.

Lemma live_rep s l : rep s l -> live s = l.
Proof.
  intros (junk & Hm & Hn & _). unfold live. rewrite Hm, Hn, Nat2Z.id.
  apply take_app_length.
Qed.

(** A table whose count is within its array. *)
Definition table_ok (s : Array.low_map) : Prop :=
  Z.of_nat (length (Array.e820_map s)) = max_entries /\ 0 <= Array.e820_entries s <= max_entries.

Lemma table_rep s : table_ok s -> rep s (live s).
Proof.
  intros [Hlen Hn]. exists (drop (Z.to_nat (Array.e820_entries s)) (Array.e820_map s)).
  unfold live. rewrite take_drop. split; [done|]. rewrite length_take, length_drop. lia.
Qed.

Lemma rep_table s l : rep s l -> table_ok s.
Proof.
  intros (junk & Hm & Hn & Hmax). unfold table_ok. rewrite Hm, length_app. lia.
Qed.

Lemma entry_at_app pre e post n :
  Array.entry_at (Array.mkMap (pre ++ e :: post) n) (Z.of_nat (length pre)) = e.
Proof.
  unfold Array.entry_at. simpl. rewrite Nat2Z.id, app_nth2, Nat.sub_diag by lia. done.
Qed.

Lemma set_entry_app pre e e' post n :
  Array.set_entry (Array.mkMap (pre ++ e :: post) n) (Z.of_nat (length pre)) e' =
  Array.mkMap (pre ++ e' :: post) n.
Proof.
  unfold Array.set_entry. simpl. rewrite Nat2Z.id.
  rewrite insert_app_r_alt, Nat.sub_diag by lia. done.
Qed.

Lemma remove_app pre e post junk n :
  n = Z.of_nat (length pre + S (length post)) ->
  Array.remove_e820 (Array.mkMap (pre ++ e :: post ++ junk) n) (Z.of_nat (length pre)) =
  Array.mkMap (pre ++ post ++ (drop (length post) (e :: post) ++ junk))
              (Z.of_nat (length pre + length post)).
Proof.
  intros ->. unfold Array.remove_e820. simpl.
  destruct (Z.ltb_spec (Z.of_nat (length pre)) 0); [lia|].
  destruct (Z.leb_spec (Z.of_nat (length pre + S (length post))) (Z.of_nat (length pre))); [lia|].
  simpl. f_equal; [|lia].
  rewrite <- (array_move_down pre post junk e (length pre) (length post)) by done.
  f_equal; lia.
Qed.

Lemma insert_app pre post j junk n start size type :
  n = Z.of_nat (length pre + length post) -> n < max_entries ->
  Array.insert_e820 max_entries (Array.mkMap (pre ++ post ++ j :: junk) n)
    (Z.of_nat (length pre)) start size type =
  Array.mkMap (pre ++ mkE820 start size (u32 type) :: post ++ junk)
    (Z.of_nat (length pre + S (length post))).
Proof.
  intros -> Hn. unfold Array.insert_e820. simpl.
  destruct (Z.leb_spec max_entries (Z.of_nat (length pre + length post))); [lia|].
  unfold Array.set_entry. simpl. f_equal; [|lia].
  rewrite <- (array_move_up pre post junk j _ (length pre) (length post)) by done.
  f_equal; [lia|]. f_equal; lia.
Qed.

Lemma insert_full s i start size type :
  max_entries <= Array.e820_entries s ->
  Array.insert_e820 max_entries s i start size type = s.
Proof.
  intros. unfold Array.insert_e820.
  destruct (Z.leb_spec max_entries (Array.e820_entries s)); [done|lia].
Qed.

Lemma length_drop_last {A} (e : A) l : length (drop (length l) (e :: l)) = 1%nat.
Proof. rewrite length_drop. simpl. lia. Qed.

Lemma absorb_shorter stop type l :
  (length (Ranges.absorb stop type l).2 <= length l)%nat.
Proof.
  induction l as [|e r IH]; simpl; [lia|].
  repeat (case_match; simpl in *; try lia).
Qed.

Lemma absorb_rep pre l junk stop size type fuel :
  fits 64 size -> (length l < fuel)%nat ->
  exists junk',
    Array.absorb fuel (Array.mkMap (pre ++ l ++ junk) (Z.of_nat (length pre + length l)))
      (Z.of_nat (length pre)) stop size type =
    (Array.mkMap (pre ++ (Ranges.absorb stop type l).2 ++ junk')
       (Z.of_nat (length pre + length (Ranges.absorb stop type l).2)),
     u64 (size + (Ranges.absorb stop type l).1)) /\
    (length junk' + length (Ranges.absorb stop type l).2 = length junk + length l)%nat.
Proof.
  intros Hsize. revert junk fuel. induction l as [|e r IH]; intros junk fuel Hfuel;
    (destruct fuel as [|fuel]; [simpl in *; lia|]);
    cbn [Array.absorb Array.e820_entries].
  - destruct (Z.ltb_spec (Z.of_nat (length pre)) (Z.of_nat (length pre + length (@nil EFI_E820_ENTRY64))));
      [simpl in *; lia|].
    simpl. rewrite Z.add_0_r, (wrap_small 64 size) by done. eauto.
  - destruct (Z.ltb_spec (Z.of_nat (length pre)) (Z.of_nat (length pre + length (e :: r))));
      [|simpl in *; lia].
    simpl app. rewrite entry_at_app. cbn [Ranges.absorb].
    destruct (stop <? BaseAddr e).
    { simpl. rewrite Z.add_0_r, (wrap_small 64 size) by done. eexists; split; [done|]. simpl; lia. }
    destruct (e_end e <=? stop).
    { rewrite remove_app by (simpl; lia).
      destruct (IH (drop (length r) (e :: r) ++ junk) fuel) as (junk' & -> & Hlen);
        [simpl in *; lia|].
      eexists; split; [done|]. rewrite length_app, length_drop_last in Hlen. simpl in *; lia. }
    rewrite set_entry_app. cbn [Type_ Length].
    destruct (type =? Type_ e).
    { rewrite remove_app by (simpl; lia). eexists; split; [done|].
      rewrite length_app, length_drop_last. simpl; lia. }
    simpl. rewrite Z.add_0_r, (wrap_small 64 size) by done. eexists; split; [done|]. simpl; lia.
Qed.

(** The second loop and the final insertion, from position [length pre]. *)
Lemma absorb_insert_rep pre l junk start stop size type fuel :
  fits 64 size -> (length l < fuel)%nat ->
  Z.of_nat (length pre + length l + length junk) = max_entries ->
  rep (let '(s2, size2) :=
         Array.absorb fuel (Array.mkMap (pre ++ l ++ junk) (Z.of_nat (length pre + length l)))
           (Z.of_nat (length pre)) stop size type in
       if type =? hole then s2
       else Array.insert_e820 max_entries s2 (Z.of_nat (length pre)) start size2 type)
      (pre ++ Ranges.absorb_insert hole (length junk) start stop size type l).
Proof.
  intros Hsize Hfuel Hmax.
  destruct (absorb_rep pre l junk stop size type fuel Hsize Hfuel) as (junk' & -> & Hlen).
  unfold Ranges.absorb_insert.
  pose proof (absorb_shorter stop type l) as Hle.
  destruct (Ranges.absorb stop type l) as [grow r]; simpl in *.
  destruct (type =? hole).
  - exists junk'. simpl. rewrite <- app_assoc, !length_app. repeat split; lia.
  - assert (length junk + (length l - length r) = length junk')%nat as -> by lia.
    destruct junk' as [|j junk']; simpl.
    + rewrite insert_full by (simpl in *; lia).
      exists []. simpl. rewrite !length_app. rewrite <- app_assoc. repeat split; simpl in *; lia.
    + rewrite insert_app by (simpl in *; lia).
      exists junk'. simpl. rewrite <- app_assoc, !length_app. simpl in *. repeat split; lia.
Qed.

(** The entry the new range starts in, cut off before it and, when it reaches
    beyond, put back after it. *)
Lemma add_rep_cut pre e r junk cut start stop size type :
  fits 64 size -> Z.of_nat (length pre + length (e :: r) + length junk) = max_entries ->
  rep (let s1 := Array.mkMap (pre ++ cut :: r ++ junk) (Z.of_nat (length pre + length (e :: r))) in
       let s2 := if stop <? e_end e
                 then Array.insert_e820 max_entries s1 (Z.of_nat (length pre) + 1) stop
                        (u64 (e_end e - stop)) (Type_ e)
                 else s1 in
       let '(s3, size2) :=
         Array.absorb (S (Z.to_nat (Array.e820_entries s2))) s2 (Z.of_nat (length pre) + 1) stop size type in
       if type =? hole then s3
       else Array.insert_e820 max_entries s3 (Z.of_nat (length pre) + 1) start size2 type)
      (pre ++ cut ::
       (if stop <? e_end e
        then Ranges.absorb_insert hole (length junk - 1) start stop size type
               (Ranges.insert_here (length junk) (mkE820 stop (u64 (e_end e - stop)) (u32 (Type_ e))) r)
        else Ranges.absorb_insert hole (length junk) start stop size type r)).
Proof.
  intros Hsize Hmax. cbv zeta. remember (pre ++ [cut]) as pre1 eqn:Hpre1.
  assert (forall X, pre ++ cut :: X = pre1 ++ X) as Hcut by (intros; subst pre1; by rewrite <- app_assoc).
  assert (length pre1 = S (length pre)) as Hlen1 by (subst pre1; rewrite length_app; simpl; lia).
  rewrite !Hcut. clear Hpre1 Hcut.
  replace (Z.of_nat (length pre) + 1) with (Z.of_nat (length pre1)) by lia.
  replace (length pre + length (e :: r))%nat with (length pre1 + length r)%nat by (simpl; lia).
  assert (Z.of_nat (length pre1 + length r + length junk) = max_entries) as Hmax' by (simpl in *; lia).
  destruct (stop <? e_end e) eqn:E4.
  - destruct junk as [|j junk]; simpl Ranges.insert_here.
    + rewrite insert_full by (simpl in *; lia). cbn [Array.e820_entries].
      apply (absorb_insert_rep pre1 r []); [done|lia|done].
    + rewrite insert_app by (simpl in *; lia). cbn [Array.e820_entries].
      replace (length (j :: junk) - 1)%nat with (length junk) by (simpl; lia).
      apply (absorb_insert_rep pre1 (mkE820 stop (u64 (e_end e - stop)) (u32 (Type_ e)) :: r) junk);
        [done|simpl; lia|simpl in *; lia].
  - cbn [Array.e820_entries]. apply absorb_insert_rep; [done|lia|done].
Qed.

Lemma add_rep pre l junk start stop size type fuel :
  fits 64 size -> fits 64 start -> (length l <= fuel)%nat ->
  Z.of_nat (length pre + length l + length junk) = max_entries ->
  rep (let '(i, s1, start1, size1) :=
         Array.find_position max_entries fuel
           (Array.mkMap (pre ++ l ++ junk) (Z.of_nat (length pre + length l)))
           (Z.of_nat (length pre)) start stop size type in
       let '(s2, size2) :=
         Array.absorb (S (Z.to_nat (Array.e820_entries s1))) s1 i stop size1 type in
       if type =? hole then s2
       else Array.insert_e820 max_entries s2 i start1 size2 type)
      (pre ++ Ranges.add hole (length junk) start stop size type l).
Proof.
  intros Hsize Hstart. revert pre fuel. induction l as [|e r IH]; intros pre fuel Hfuel Hmax.
  - assert (Array.find_position max_entries fuel
      (Array.mkMap (pre ++ [] ++ junk) (Z.of_nat (length pre + length (@nil EFI_E820_ENTRY64))))
      (Z.of_nat (length pre)) start stop size type =
      (Z.of_nat (length pre), Array.mkMap (pre ++ [] ++ junk)
         (Z.of_nat (length pre + length (@nil EFI_E820_ENTRY64))), start, size)) as ->.
    { destruct fuel; [done|]. simpl.
      destruct (Z.ltb_spec (Z.of_nat (length pre)) (Z.of_nat (length pre + 0))); [lia|done]. }
    cbn [Array.e820_entries]. cbn [Ranges.add].
    apply absorb_insert_rep; [done|simpl; lia|done].
  - destruct fuel as [|fuel]; [simpl in *; lia|].
    cbn [Array.find_position Array.e820_entries].
    destruct (Z.ltb_spec (Z.of_nat (length pre)) (Z.of_nat (length pre + length (e :: r))));
      [|simpl in *; lia].
    simpl app. rewrite entry_at_app. cbn [Ranges.add].
    destruct (e_end e <? start) eqn:E1.
    { specialize (IH (pre ++ [e]) fuel). rewrite length_app in IH.
      rewrite <- !app_assoc in IH. simpl in IH, Hfuel, Hmax.
      replace (Z.of_nat (length pre) + 1) with (Z.of_nat (length pre + 1)) by lia.
      replace (length pre + length (e :: r))%nat with (length pre + 1 + length r)%nat
        by (simpl; lia).
      apply IH; lia. }
    destruct (BaseAddr e <? start) eqn:E2.
    2: { cbn [Array.e820_entries].
         apply (absorb_insert_rep pre (e :: r) junk); [done|simpl; lia|done]. }
    destruct (type =? Type_ e) eqn:E3.
    { cbn [Array.e820_entries].
      apply (absorb_insert_rep pre (e :: r) junk); [|simpl; lia|done].
      apply wrap_fits; lia. }
    rewrite set_entry_app. apply add_rep_cut; [done|simpl in *; lia].
Qed.

Lemma e820_add_rep s l start size type :
  fits 64 start -> fits 64 size -> rep s l ->
  rep (Array.e820_add max_entries hole s start size type)
      (Ranges.e820_add hole (Z.to_nat max_entries - length l) l start size type).
Proof.
  intros Hstart Hsize (junk & Harr & Hn & Hmax). destruct s as [arr n]; simpl in *.
  unfold Array.e820_add, Ranges.e820_add. subst arr n. cbn [Array.e820_entries].
  destruct (size =? 0).
  { exists junk; simpl. done. }
  rewrite Nat2Z.id.
  replace (Z.to_nat max_entries - length l)%nat with (length junk) by lia.
  apply (add_rep [] l junk); [done|done|lia|simpl; lia].
Qed.

(** C11: the array code of [e820_add], with its in-place shifts, splits and
    merges, never leaves its array or its count out of range, and its live
    entries are those of the list reference [Ranges.e820_add], for a table in
    any state and any range. *)
Theorem e820_add_refines s start size type :
  table_ok s -> fits 64 start -> fits 64 size ->
  table_ok (Array.e820_add max_entries hole s start size type) /\
  live (Array.e820_add max_entries hole s start size type) =
  Ranges.e820_add hole (Z.to_nat (max_entries - Array.e820_entries s)) (live s) start size type.
Proof.
  intros Hok Hstart Hsize. pose proof (table_rep s Hok) as Hrep.
  pose proof (e820_add_rep s _ start size type Hstart Hsize Hrep) as Hrep'.
  split; [by eapply rep_table|]. rewrite (live_rep _ _ Hrep').
  destruct Hrep as (junk & _ & Hn & _). f_equal. lia.
Qed.

End Refinement.

(** * The meaning of a list of entries *)

(** The end of an entry as an integer, without wrap-around. *)
Definition stop_of (e : EFI_E820_ENTRY64) : Z := BaseAddr e + Length e.

Definition covers (e : EFI_E820_ENTRY64) (a : Z) : bool :=
  (BaseAddr e <=? a) && (a <? stop_of e).

(** The type an E820 consumer reads for address [a]: the first entry that
    contains it. *)
Fixpoint type_at (l : list EFI_E820_ENTRY64) (a : Z) : option Z :=
  match l with
  | [] => None
  | e :: r => if covers e a then Some (Type_ e) else type_at r a
  end.

Lemma type_at_covered l e a : e ∈ l -> covers e a = true -> is_Some (type_at l a).
Proof.
  induction 1 as [l|e f l He IH]; intros Hc; cbn [type_at].
  - rewrite Hc. eauto.
  - destruct (covers f a); eauto.
Qed.

Lemma type_at_inv l a t : type_at l a = Some t -> exists e, e ∈ l /\ covers e a = true.
Proof.
  induction l as [|e l IH]; cbn [type_at]; [done|]. destruct (covers e a) eqn:Hc.
  - intros _. exists e. split; [by left|done].
  - intros Ht. destruct (IH Ht) as (f & Hf & Hcf). exists f. split; [by right|done].
Qed.

(** An entry is not empty, does not wrap around the end of the address space,
    and its type is a stored one. *)
Definition entry_ok (hole : Z) (e : EFI_E820_ENTRY64) : Prop :=
  0 <= BaseAddr e /\ 0 < Length e /\ stop_of e < 2 ^ 64 /\
  fits 32 (Type_ e) /\ Type_ e <> hole.

(** Neighbours do not overlap, and have different types when they touch: the
    map has no two entries that could be one. *)
Definition apart (e f : EFI_E820_ENTRY64) : Prop :=
  stop_of e < BaseAddr f \/ (stop_of e = BaseAddr f /\ Type_ e <> Type_ f).

Definition wf (hole : Z) (l : list EFI_E820_ENTRY64) : Prop :=
  Forall (entry_ok hole) l /\ Sorted apart l.

#[export] Instance wf_dec hole l : Decision (wf hole l).
Proof.
  unfold wf. apply and_dec.
  - apply Forall_dec. intros e. unfold entry_ok. apply _.
  - induction l as [|e r IH]; [left; constructor|].
    destruct IH as [IH|IH]; [|right; inversion 1; done].
    destruct r as [|f r].
    + left. repeat constructor.
    + assert (Decision (apart e f)) as [Ha|Ha] by (unfold apart; apply _).
      * left. constructor; [done|by constructor].
      * right. inversion 1 as [|? ? ? Hd]; inversion Hd; done.
Defined.

(** What adding [start, stop) with [type] to the map should report at [a]. *)
Definition add_spec (hole start stop type : Z) (old : Z -> option Z) (a : Z) : option Z :=
  if (start <=? a) && (a <? stop) then (if type =? hole then None else Some type)
  else old a.

Section Meaning.
Context (hole : Z).

Implicit Types (l r : list EFI_E820_ENTRY64) (e f : EFI_E820_ENTRY64).

Lemma e_end_ok e : entry_ok hole e -> e_end e = stop_of e.
Proof. intros (H0 & H1 & H2 & _). apply wrap_small. unfold fits, stop_of in *. lia. Qed.

Lemma wf_nil : wf hole [].
Proof. split; constructor. Qed.

Lemma wf_cons e r : wf hole (e :: r) <-> entry_ok hole e /\ HdRel apart e r /\ wf hole r.
Proof.
  unfold wf. rewrite Forall_cons. split.
  - intros ((He & Hr) & Hs). inversion Hs; subst. done.
  - intros (He & Hd & Hr & Hs). split; [done|]. by constructor.
Qed.

Lemma wf_above e r : wf hole (e :: r) -> Forall (fun f => stop_of e <= BaseAddr f) r.
Proof.
  revert e. induction r as [|f r IH]; intros e Hwf; [constructor|].
  apply wf_cons in Hwf as (He & Hd & Hr). inversion Hd as [|? ? Ha]; subst.
  assert (stop_of e <= BaseAddr f) by (unfold apart in Ha; lia).
  constructor; [done|]. eapply Forall_impl; [by apply IH|].
  intros g Hg; simpl in *. apply wf_cons in Hr as ((? & ? & _) & _).
  unfold stop_of in *. lia.
Qed.

Lemma type_at_below l x a :
  Forall (fun f => x <= BaseAddr f) l -> a < x -> type_at l a = None.
Proof.
  induction 1 as [|f r Hf Hr IH]; intros Ha; [done|].
  simpl. unfold covers. destruct (Z.leb_spec (BaseAddr f) a); [lia|]. by apply IH.
Qed.

Lemma HdRel_forall e r : Forall (apart e) r -> HdRel apart e r.
Proof. intros H; destruct H; constructor; done. Qed.

Ltac ends :=
  unfold covers, apart, entry_ok, add_spec in *; unfold stop_of, fits in *;
  cbn [BaseAddr Length Type_] in *; rewrite ?pow2_64, ?pow2_32 in *.

(** What the second loop leaves, as a range that ends at [stop + grow] and the
    entries beyond it. *)
Lemma absorb_meaning stop type l :
  wf hole l -> 0 <= stop < 2 ^ 64 ->
  let '(grow, r) := Ranges.absorb stop type l in
  wf hole r /\ 0 <= grow /\ stop + grow < 2 ^ 64 /\
  Forall (fun f => stop + grow < BaseAddr f \/
                   (stop + grow = BaseAddr f /\ type <> Type_ f)) r /\
  (forall a, stop + grow <= a -> type_at r a = type_at l a) /\
  (forall a, stop <= a < stop + grow -> type_at l a = Some type).
Proof.
  intros Hwf Hstop. induction l as [|e r IH]; cbn [Ranges.absorb].
  { repeat split; try constructor; try lia; done. }
  pose proof (wf_above _ _ Hwf) as Habove.
  pose proof Hwf as Hwf0. apply wf_cons in Hwf as (He & Hd & Hr).
  rewrite (e_end_ok e He).
  destruct (Z.ltb_spec stop (BaseAddr e)).
  { split; [done|]. repeat split; try lia; try done.
    constructor; [lia|]. eapply Forall_impl; [exact Habove|].
    intros f Hf; ends. lia. }
  destruct (Z.leb_spec (stop_of e) stop).
  { specialize (IH Hr). destruct (Ranges.absorb stop type r) as [grow r'].
    destruct IH as (Hr' & Hg & Hsg & Hsep & Heq & Hin).
    split; [done|]. repeat split; try done; intros a Ha;
      (simpl; destruct (covers e a) eqn:Hc; [ends; lia|by auto]). }
  rewrite wrap_small by (ends; lia).
  destruct (Z.eqb_spec type (Type_ e)) as [->|Hne].
  - split; [done|]. repeat split; try (ends; lia).
    + replace (stop + (stop_of e - stop)) with (stop_of e) by lia.
      clear -Hwf0 Habove Hd. induction r as [|f r IH]; [constructor|].
      inversion Hd; subst. inversion Habove; subst. constructor; [ends; lia|].
      assert (wf hole (f :: r)) as Hf by (apply wf_cons in Hwf0 as (_ & _ & ?); done).
      pose proof (wf_above _ _ Hf) as Hab. apply wf_cons in Hf as (Hok & _).
      eapply Forall_impl; [exact Hab|]. intros g Hg; ends; lia.
    + intros a Ha. simpl. destruct (covers e a) eqn:Hc; [ends; lia|done].
    + intros a Ha. simpl. destruct (covers e a) eqn:Hc; [done|ends; lia].
  - split.
    { apply wf_cons. split; [ends; lia|]. split; [|done].
      destruct Hd as [|f r Ha]; constructor. ends; lia. }
    repeat split; try lia; try (ends; lia).
    + constructor; [ends; lia|]. eapply Forall_impl; [exact Habove|].
      intros f Hf; ends; lia.
    + intros a Ha. simpl. unfold covers. ends.
      destruct (Z.leb_spec stop a), (Z.leb_spec (BaseAddr e) a),
        (Z.ltb_spec a (stop + (BaseAddr e + Length e - stop))),
        (Z.ltb_spec a (BaseAddr e + Length e)); simpl; try lia; done.
Qed.

(** The types a call may be given. *)
Definition type_arg (type : Z) : Prop := type = hole \/ (fits 32 type /\ type <> hole).

Lemma hole_not_stored l a : wf hole l -> type_at l a <> Some hole.
Proof.
  intros [Hok _]. induction l as [|e l IH]; simpl; [done|].
  inversion Hok as [|? ? He]; subst. destruct (covers e a); [|by apply IH].
  intros He'. injection He' as He'. by apply He.
Qed.

(** The entry for the new range, grown by what it absorbed, before the rest. *)
Lemma grown_entry start stop grow type r l :
  wf hole r -> 0 <= start < stop -> 0 <= grow -> stop + grow < 2 ^ 64 -> type <> hole -> fits 32 type ->
  Forall (fun f => stop + grow < BaseAddr f \/ (stop + grow = BaseAddr f /\ type <> Type_ f)) r ->
  (forall a, type_at r a = if (start <=? a) && (a <? stop + grow) then None else type_at l a) ->
  (forall a, stop <= a < stop + grow -> type_at l a = Some type) ->
  let n := mkE820 start (u64 (stop - start + grow)) (u32 type) in
  wf hole (n :: r) /\
  forall a, type_at (n :: r) a = add_spec hole start stop type (type_at l) a.
Proof.
  intros Hr Hstart Hg Hsg Hne Hfit Hsep Hrest Hin. cbv zeta. set (n := mkE820 _ _ _).
  assert (Length n = stop + grow - start) as Hn
    by (subst n; cbn [Length]; rewrite wrap_small; ends; lia).
  assert (Type_ n = type) as Hty by (subst n; simpl; by rewrite wrap_small).
  assert (BaseAddr n = start) as Hb by done. split.
  - apply wf_cons. split; [|split; [|done]].
    + unfold entry_ok, stop_of. rewrite Hn, Hty, Hb. repeat split; try lia; apply Hfit.
    + apply HdRel_forall. eapply Forall_impl; [exact Hsep|].
      intros f Hf; simpl in Hf. unfold apart, stop_of. rewrite Hn, Hty, Hb. lia.
  - intros a. cbn [type_at]. unfold covers, stop_of. rewrite Hn, Hb, Hty, Hrest.
    unfold add_spec. destruct (Z.eqb_spec type hole); [done|].
    destruct (Z.leb_spec start a), (Z.ltb_spec a (start + (stop + grow - start))),
      (Z.ltb_spec a (stop + grow)), (Z.ltb_spec a stop); simpl; try lia; try done.
    symmetry. apply Hin. lia.
Qed.

Lemma absorb_insert_meaning room start stop size type l :
  wf hole l -> 0 <= start < stop -> stop < 2 ^ 64 -> size = stop - start ->
  type_arg type -> Forall (fun f => start <= BaseAddr f) l ->
  let res := Ranges.absorb_insert hole room start stop size type l in
  wf hole res /\
  Forall (fun f => start < BaseAddr f \/ (start = BaseAddr f /\ Type_ f = type)) res /\
  (forall a, type_at res a = None \/
             type_at res a = add_spec hole start stop type (type_at l) a) /\
  ((1 <= room)%nat \/ type = hole ->
   forall a, type_at res a = add_spec hole start stop type (type_at l) a) /\
  (length res <= S (length l))%nat.
Proof.
  intros Hwf Hstart Hstop -> Htype Hge. unfold Ranges.absorb_insert.
  pose proof (absorb_meaning stop type l Hwf ltac:(lia)) as Habs.
  pose proof (absorb_shorter stop type l) as Hlen.
  destruct (Ranges.absorb stop type l) as [grow r]; simpl in Hlen.
  destruct Habs as (Hr & Hg & Hsg & Hsep & Heq & Hin).
  assert (Forall (fun f => stop + grow <= BaseAddr f) r) as Hbelow
    by (eapply Forall_impl; [exact Hsep|]; intros f Hf; simpl in *; lia).
  assert (forall a, type_at r a = if (start <=? a) && (a <? stop + grow) then None
                                  else type_at l a) as Hrest.
  { intros a. destruct (Z.leb_spec start a); simpl.
    - destruct (Z.ltb_spec a (stop + grow)).
      + by apply (type_at_below _ _ _ Hbelow).
      + apply Heq; lia.
    - rewrite (type_at_below r (stop + grow)) by (done || lia).
      symmetry. by apply (type_at_below _ _ _ Hge). }
  assert (forall a, type_at r a = None \/
            type_at r a = add_spec hole start stop type (type_at l) a) as Hsound.
  { intros a. rewrite Hrest. unfold add_spec.
    destruct (Z.leb_spec start a), (Z.ltb_spec a (stop + grow)), (Z.ltb_spec a stop);
      simpl; try lia; auto. }
  assert (Forall (fun f => start < BaseAddr f \/ (start = BaseAddr f /\ Type_ f = type)) r)
    as Hfar by (eapply Forall_impl; [exact Hbelow|]; intros f Hf; simpl in *; lia).
  destruct (Z.eqb_spec type hole) as [->|Hne].
  - do 3 (split; [done|]). split; [|lia]. intros _ a. rewrite Hrest. unfold add_spec.
    rewrite Z.eqb_refl.
    destruct (Z.leb_spec start a), (Z.ltb_spec a (stop + grow)), (Z.ltb_spec a stop);
      simpl; try lia; try done.
    rewrite (Hin a ltac:(lia)).
    (* the hole type is never stored, so nothing merges with it *)
    by destruct (hole_not_stored l a Hwf (Hin a ltac:(lia))).
  - destruct Htype as [?|[Hfit _]]; [done|].
    destruct (grown_entry start stop grow type r l) as [Hwfn Hex]; [done..|].
    set (n := mkE820 start (u64 (stop - start + grow)) (u32 type)) in *.
    assert (BaseAddr n = start /\ Type_ n = type) as [Hb Hty] by (split; [done|subst n; simpl; by rewrite wrap_small]).
    clearbody n. unfold Ranges.insert_here.
    destruct (room + (length l - length r))%nat eqn:Hroom.
    + do 3 (split; [done|]). split; [|lia]. intros [?|?]; [lia|done].
    + split; [done|]. split; [constructor; [right; done|done]|].
      split; [auto|]. split; [auto|simpl; lia].
Qed.

(** No entry of [l] has [start, stop) strictly inside it: the only case in
    which [e820_add] needs two free slots. *)
Definition no_split (start stop : Z) l : Prop :=
  Forall (fun e => ~ (BaseAddr e < start /\ stop < stop_of e)) l.

(** What a call has to satisfy, as one property of its argument and result. *)
Record add_ok (room : nat) (start stop type : Z) l (res : list EFI_E820_ENTRY64) : Prop := {
  ok_wf : wf hole res;
  ok_head : forall e0, stop_of e0 < start -> HdRel apart e0 l -> HdRel apart e0 res;
  ok_sound : forall a, type_at res a = None \/
               type_at res a = add_spec hole start stop type (type_at l) a;
  ok_exact : (2 <= room)%nat \/ ((1 <= room)%nat /\ no_split start stop l) ->
               forall a, type_at res a = add_spec hole start stop type (type_at l) a;
  ok_length : (length res <= length l + 2)%nat;
  ok_length1 : no_split start stop l -> (length res <= length l + 1)%nat
}.

(** The first entry lies below the new range and is kept. *)
Lemma add_ok_skip room start stop type e r res :
  wf hole (e :: r) -> stop_of e < start ->
  add_ok room start stop type r res -> add_ok room start stop type (e :: r) (e :: res).
Proof.
  intros Hwf Hlt [H1 H2 H3 H4 H5 H6]. apply wf_cons in Hwf as (He & Hd & Hr).
  assert (forall a, covers e a = true ->
    Some (Type_ e) = add_spec hole start stop type (type_at (e :: r)) a) as Hcov.
  { intros a Ha. unfold add_spec. cbn [type_at]. rewrite Ha. ends.
    destruct (Z.leb_spec start a); [lia|done]. }
  assert (forall a, covers e a = false ->
    add_spec hole start stop type (type_at r) a =
    add_spec hole start stop type (type_at (e :: r)) a) as Hncov.
  { intros a Ha. unfold add_spec. cbn [type_at]. by rewrite Ha. }
  split.
  - apply wf_cons; auto.
  - intros e0 _ Hd0. inversion Hd0; subst. by constructor.
  - intros a. cbn [type_at]. destruct (covers e a) eqn:Hc; [right; by apply Hcov|].
    rewrite <- Hncov by done. apply H3.
  - intros Hroom a. cbn [type_at]. destruct (covers e a) eqn:Hc; [by apply Hcov|].
    rewrite <- Hncov by done. apply H4. destruct Hroom as [?|[? Hns]]; [by left|right].
    split; [done|]. by inversion Hns.
  - simpl; lia.
  - intros Hns. inversion Hns; subst. simpl. specialize (H6 ltac:(done)). lia.
Qed.

(** The new range starts at or below every entry. *)
Lemma add_ok_here room start stop size type l :
  wf hole l -> 0 <= start < stop -> stop < 2 ^ 64 -> size = stop - start ->
  type_arg type -> Forall (fun f => start <= BaseAddr f) l ->
  add_ok room start stop type l (Ranges.absorb_insert hole room start stop size type l).
Proof.
  intros Hwf Hstart Hstop Hsize Htype Hge.
  destruct (absorb_insert_meaning room start stop size type l Hwf Hstart Hstop Hsize
              Htype Hge) as (H1 & H2 & H3 & H4 & H5).
  split; [done| |done| |lia|lia].
  - intros e0 He0 _. apply HdRel_forall. eapply Forall_impl; [exact H2|].
    intros f Hf; ends; lia.
  - intros ?; apply H4; lia.
Qed.

(** The new range starts inside (or at the end of) an entry of its own type
    and is extended down to the start of that entry. *)
Lemma add_ok_merge room start stop size e r :
  wf hole (e :: r) -> 0 <= start < stop -> stop < 2 ^ 64 -> size = stop - start ->
  BaseAddr e < start <= stop_of e ->
  add_ok room start stop (Type_ e) (e :: r)
    (Ranges.absorb_insert hole room (BaseAddr e) stop
       (u64 (size + (start - BaseAddr e))) (Type_ e) (e :: r)).
Proof.
  intros Hwf Hstart Hstop Hsize Hin.
  pose proof (wf_above _ _ Hwf) as Habove.
  pose proof Hwf as Hwf0. apply wf_cons in Hwf0 as (He & Hd & Hr).
  assert (Forall (fun f => BaseAddr e <= BaseAddr f) (e :: r)) as Hge.
  { constructor; [lia|]. eapply Forall_impl; [exact Habove|]. intros f Hf; ends; lia. }
  destruct (absorb_insert_meaning room (BaseAddr e) stop
              (u64 (size + (start - BaseAddr e))) (Type_ e) (e :: r) Hwf
              ltac:(ends; lia) Hstop ltac:(rewrite wrap_small; ends; lia)
              ltac:(right; split; apply He) Hge) as (H1 & H2 & H3 & H4 & H5).
  assert (forall a, add_spec hole (BaseAddr e) stop (Type_ e) (type_at (e :: r)) a =
                    add_spec hole start stop (Type_ e) (type_at (e :: r)) a) as Hsame.
  { intros a. unfold add_spec. cbn [type_at]. ends.
    destruct (Z.eqb_spec (Type_ e) hole); [lia|].
    destruct (Z.leb_spec (BaseAddr e) a), (Z.ltb_spec a stop), (Z.leb_spec start a),
      (Z.ltb_spec a (BaseAddr e + Length e)); simpl; try lia; done. }
  split; [done| | | |simpl in *; lia|simpl in *; lia].
  - intros e0 He0 Hd0. inversion Hd0; subst. apply HdRel_forall.
    eapply Forall_impl; [exact H2|]. intros f Hf; ends. destruct Hf as [?|[? ->]]; lia.
  - intros a. rewrite <- Hsame. apply H3.
  - intros ? a. rewrite <- Hsame. apply H4. lia.
Qed.

(** The part of an entry of another type below the new range. *)
Definition cut_at (start : Z) (e : EFI_E820_ENTRY64) : EFI_E820_ENTRY64 :=
  mkE820 (BaseAddr e) (start - BaseAddr e) (Type_ e).

(** Cutting an entry at [start], in front of a result [res] for the rest. *)
Lemma cut_wf start stop type e r res :
  entry_ok hole e -> BaseAddr e < start <= stop_of e -> type <> Type_ e ->
  0 <= start < stop -> stop < 2 ^ 64 -> wf hole res ->
  Forall (fun f => start < BaseAddr f \/ (start = BaseAddr f /\ Type_ f = type)) res ->
  wf hole (cut_at start e :: res) /\
  (forall e0, stop_of e0 < start -> HdRel apart e0 (e :: r) ->
              HdRel apart e0 (cut_at start e :: res)) /\
  (forall a, covers (cut_at start e) a = true ->
     Some (Type_ e) = add_spec hole start stop type (type_at (e :: r)) a).
Proof.
  intros He Hin Hne Hstart Hstop Hres Hfar. split; [|split].
  - apply wf_cons. split; [unfold cut_at; ends; lia|]. split; [|done]. apply HdRel_forall.
    eapply Forall_impl; [exact Hfar|]. intros f Hf. unfold cut_at. ends.
    destruct Hf as [?|[? ->]]; [lia|]. right. split; [lia|]. by apply not_eq_sym.
  - intros e0 _ Hd0. inversion Hd0 as [|? ? Ha]; subst. constructor. exact Ha.
  - intros a Ha. unfold add_spec. cbn [type_at]. unfold cut_at in Ha. ends.
    destruct (Z.leb_spec (BaseAddr e) a), (Z.leb_spec start a),
      (Z.ltb_spec a (BaseAddr e + Length e)); simpl in *; try lia; done.
Qed.

(** The new range reaches the end of the cut entry. *)
Lemma add_ok_cut room start stop size type e r :
  wf hole (e :: r) -> 0 <= start < stop -> stop < 2 ^ 64 -> size = stop - start ->
  type_arg type -> BaseAddr e < start <= stop_of e -> type <> Type_ e -> stop_of e <= stop ->
  add_ok room start stop type (e :: r)
    (cut_at start e :: Ranges.absorb_insert hole room start stop size type r).
Proof.
  intros Hwf Hstart Hstop Hsize Htype Hin Hne Hle.
  pose proof (wf_above _ _ Hwf) as Habove. apply wf_cons in Hwf as (He & Hd & Hr).
  assert (Forall (fun f => start <= BaseAddr f) r) as Hger
    by (eapply Forall_impl; [exact Habove|]; intros f Hf; ends; lia).
  destruct (absorb_insert_meaning room start stop size type r Hr Hstart Hstop Hsize
              Htype Hger) as (H1 & H2 & H3 & H4 & H5).
  destruct (cut_wf start stop type e r _ He Hin Hne Hstart Hstop H1 H2) as (Hw & Hh & Hc).
  assert (forall a, covers (cut_at start e) a = false ->
    add_spec hole start stop type (type_at r) a =
    add_spec hole start stop type (type_at (e :: r)) a) as Hrest.
  { intros a Ha. unfold add_spec. cbn [type_at]. unfold cut_at in Ha. ends.
    destruct (Z.leb_spec start a), (Z.ltb_spec a stop), (Z.leb_spec (BaseAddr e) a),
      (Z.ltb_spec a (BaseAddr e + Length e)); simpl in *; try lia; done. }
  split; [done|done| | |simpl; lia|simpl; lia].
  - intros a. cbn [type_at]. destruct (covers (cut_at start e) a) eqn:E; [right; by apply Hc|].
    rewrite <- Hrest by done. apply H3.
  - intros Hroom a. cbn [type_at]. destruct (covers (cut_at start e) a) eqn:E; [by apply Hc|].
    rewrite <- Hrest by done. apply H4. lia.
Qed.

(** The part of a cut entry beyond the new range. *)
Definition tail_from (stop : Z) (e : EFI_E820_ENTRY64) : EFI_E820_ENTRY64 :=
  mkE820 stop (stop_of e - stop) (Type_ e).

(** The new range lies strictly inside an entry of another type, which is
    split in three. *)
Lemma add_ok_split room start stop size type e r :
  wf hole (e :: r) -> 0 <= start < stop -> stop < 2 ^ 64 -> size = stop - start ->
  type_arg type -> BaseAddr e < start -> stop < stop_of e -> type <> Type_ e ->
  add_ok room start stop type (e :: r)
    (cut_at start e ::
     Ranges.absorb_insert hole (room - 1) start stop size type
       (Ranges.insert_here room (tail_from stop e) r)).
Proof.
  intros Hwf Hstart Hstop Hsize Htype Hb Hlt Hne.
  pose proof (wf_above _ _ Hwf) as Habove. apply wf_cons in Hwf as (He & Hd & Hr).
  assert (wf hole (Ranges.insert_here room (tail_from stop e) r)) as Hwft.
  { destruct room; simpl; [done|]. apply wf_cons. split; [unfold tail_from; ends; lia|].
    split; [|done]. destruct Hd as [|f r' Ha]; constructor. unfold tail_from. ends. lia. }
  assert (Forall (fun f => start <= BaseAddr f) (Ranges.insert_here room (tail_from stop e) r))
    as Hget.
  { assert (Forall (fun f => start <= BaseAddr f) r)
      by (eapply Forall_impl; [exact Habove|]; intros f Hf; ends; lia).
    destruct room; simpl; [done|]. constructor; [simpl; lia|done]. }
  destruct (absorb_insert_meaning (room - 1) start stop size type _ Hwft Hstart Hstop Hsize
              Htype Hget) as (H1 & H2 & H3 & H4 & H5).
  destruct (cut_wf start stop type e r _ He ltac:(lia) Hne Hstart Hstop H1 H2)
    as (Hw & Hh & Hc).
  assert (forall a, covers (cut_at start e) a = false ->
    add_spec hole start stop type (type_at (tail_from stop e :: r)) a =
    add_spec hole start stop type (type_at (e :: r)) a) as Htail.
  { intros a Ha. unfold add_spec. cbn [type_at]. unfold cut_at, tail_from in *. ends.
    destruct (Z.leb_spec start a), (Z.ltb_spec a stop), (Z.leb_spec (BaseAddr e) a),
      (Z.ltb_spec a (BaseAddr e + Length e)), (Z.leb_spec stop a),
      (Z.ltb_spec a (stop + (BaseAddr e + Length e - stop))); simpl in *; try lia; done. }
  split; [done|done| | |destruct room; simpl in *; lia|intros Hns; inversion Hns; lia].
  - intros a. cbn [type_at]. destruct (covers (cut_at start e) a) eqn:E; [right; by apply Hc|].
    rewrite <- Htail by done. destruct room as [|room]; [|apply H3].
    destruct (H3 a) as [-> | ->]; [by left|]. unfold add_spec. cbn [type_at Ranges.insert_here].
    destruct (covers (tail_from stop e) a) eqn:E'; [|by right].
    unfold tail_from in E'. destruct (Z.leb_spec start a), (Z.ltb_spec a stop); simpl;
      try (by right); left; (eapply type_at_below; [exact Habove|]); ends; lia.
  - intros Hroom a. cbn [type_at]. destruct (covers (cut_at start e) a) eqn:E; [by apply Hc|].
    destruct Hroom as [?|[_ Hns]]; [|inversion Hns; lia].
    rewrite <- Htail by done. destruct room as [|room]; [lia|]. apply H4. lia.
Qed.

Lemma add_meaning room start stop size type l :
  wf hole l -> 0 <= start < stop -> stop < 2 ^ 64 -> size = stop - start ->
  type_arg type ->
  add_ok room start stop type l (Ranges.add hole room start stop size type l).
Proof.
  intros Hwf Hstart Hstop Hsize Htype. induction l as [|e r IH].
  { apply add_ok_here; auto using wf_nil. }
  pose proof (wf_above _ _ Hwf) as Habove.
  pose proof Hwf as Hwf0. apply wf_cons in Hwf0 as (He & Hd & Hr).
  cbn [Ranges.add]. rewrite (e_end_ok e He).
  destruct (Z.ltb_spec (stop_of e) start); [by apply add_ok_skip; auto|].
  destruct (Z.ltb_spec (BaseAddr e) start).
  2: { apply add_ok_here; auto. constructor; [lia|].
       eapply Forall_impl; [exact Habove|]. intros f Hf; ends; lia. }
  destruct (Z.eqb_spec type (Type_ e)) as [->|Hne]; [by apply add_ok_merge|].
  rewrite (wrap_small 64 (start - BaseAddr e)) by (ends; lia).
  rewrite (wrap_small 32 (Type_ e)) by apply He.
  destruct (Z.ltb_spec stop (stop_of e)); [|by apply add_ok_cut].
  rewrite (wrap_small 64 (stop_of e - stop)) by (ends; lia).
  by apply add_ok_split.
Qed.

End Meaning.

(** * The operation as its callers see it *)

Section Operation.
Context (max_entries hole : Z).

Lemma add_result s start size type :
  table_ok max_entries s -> wf hole (live s) ->
  0 <= start -> 0 < size -> start + size < 2 ^ 64 -> type_arg hole type ->
  add_ok hole (Z.to_nat (max_entries - Array.e820_entries s)) start (start + size) type (live s)
    (live (Array.e820_add max_entries hole s start size type)).
Proof.
  intros Hok Hwf Hstart Hsize Hend Htype. pose proof (table_rep _ s Hok) as Hrep.
  pose proof (e820_add_rep _ hole s _ start size type ltac:(unfold fits; lia)
                ltac:(unfold fits; lia) Hrep) as Hrep'.
  rewrite (live_rep _ _ _ Hrep'). unfold Ranges.e820_add.
  destruct (Z.eqb_spec size 0); [lia|]. rewrite wrap_small by (unfold fits; lia).
  destruct Hrep as (junk & _ & Hn & _).
  replace (Z.to_nat (max_entries - Array.e820_entries s))
    with (Z.to_nat max_entries - length (live s))%nat by lia.
  apply add_meaning; done || lia.
Qed.

(** Adding a range to a sorted map of disjoint, unmergeable entries keeps
    it one, and what the map reports never contradicts the request: at each
    address the new map has no entry or has the type of the range inside it
    and the old answer outside it. *)
Lemma e820_add_sound s start size type :
  table_ok max_entries s -> wf hole (live s) ->
  0 <= start -> 0 < size -> start + size < 2 ^ 64 -> type_arg hole type ->
  wf hole (live (Array.e820_add max_entries hole s start size type)) /\
  forall a, type_at (live (Array.e820_add max_entries hole s start size type)) a = None \/
    type_at (live (Array.e820_add max_entries hole s start size type)) a =
    add_spec hole start (start + size) type (type_at (live s)) a.
Proof. intros. by destruct (add_result s start size type) as [Hw _ Ht _ _ _]. Qed.

(** With two free slots the new map reports exactly the type of the range
    inside it and the old answer outside it; for the hole type (removal),
    nothing inside it. *)
Lemma e820_add_exact s start size type :
  table_ok max_entries s -> wf hole (live s) ->
  0 <= start -> 0 < size -> start + size < 2 ^ 64 -> type_arg hole type ->
  Array.e820_entries s + 2 <= max_entries ->
  forall a, type_at (live (Array.e820_add max_entries hole s start size type)) a =
    add_spec hole start (start + size) type (type_at (live s)) a.
Proof.
  intros Hok Hwf Hstart Hsize Hend Htype Hroom.
  destruct (add_result s start size type Hok Hwf Hstart Hsize Hend Htype) as [_ _ _ H4 _ _].
  apply H4. left. lia.
Qed.

End Operation.

(** A table with one free area between two entries, used by the witnesses. *)
Definition sample_table : Array.low_map :=
  Array.mkMap ([mkE820 0 0x80000 1; mkE820 0x100000 0x700000 1] ++
               replicate 126 (mkE820 0 0 0)) 2.

Lemma sample_table_ok :
  table_ok E820_MAX_ENTRIES sample_table /\ wf EfiAcpiAddressRangeHole (live sample_table).
Proof.
  split; [vm_compute; intuition congruence|].
  apply (bool_decide_unpack _). vm_compute. exact I.
Qed.

Lemma e820_add_refines_witness :
  live (Array.e820_add E820_MAX_ENTRIES EfiAcpiAddressRangeHole sample_table 0x200000 0x1000 2) =
  [mkE820 0 0x80000 1; mkE820 0x100000 0x100000 1; mkE820 0x200000 0x1000 2;
   mkE820 0x201000 0x5ff000 1].
Proof.
  rewrite (proj2 (e820_add_refines E820_MAX_ENTRIES EfiAcpiAddressRangeHole sample_table
                    0x200000 0x1000 2 (proj1 sample_table_ok)
                    ltac:(unfold fits; lia) ltac:(unfold fits; lia))).
  vm_compute. reflexivity.
Defined.

Lemma e820_add_sound_witness :
  wf EfiAcpiAddressRangeHole
    (live (Array.e820_add E820_MAX_ENTRIES EfiAcpiAddressRangeHole sample_table 0x60000 0x100000 2)).
Proof.
  apply (e820_add_sound E820_MAX_ENTRIES EfiAcpiAddressRangeHole sample_table 0x60000 0x100000 2
           (proj1 sample_table_ok) (proj2 sample_table_ok)); try lia.
  right. unfold fits, EfiAcpiAddressRangeHole. lia.
Defined.

Lemma e820_add_exact_witness :
  type_at (live (Array.e820_add E820_MAX_ENTRIES EfiAcpiAddressRangeHole sample_table
                   0x60000 0x100000 EfiAcpiAddressRangeHole)) 0x70000 = None.
Proof.
  rewrite (e820_add_exact E820_MAX_ENTRIES EfiAcpiAddressRangeHole sample_table 0x60000 0x100000
             EfiAcpiAddressRangeHole (proj1 sample_table_ok) (proj2 sample_table_ok));
    try lia; [reflexivity|by left|by vm_compute].
Defined.
