(* ===== verification/E820Build.v ===== *)
(** Building the E820 map from the UEFI memory map ([build_e820_map] of
    [src/e820.c]).

    The UEFI memory map is a buffer of descriptors with a stride the firmware
    chooses; [build_e820_map] walks it by pointer, converts each descriptor
    and adds it to the map, and then lays out the first megabyte itself.  The
    theorems say what a consumer of the resulting map reads at every address. *)

From stdpp Require Import base numbers list strings.
From Stdlib Require Import ZArith Lia Sorted.
From S2P Require Import Prelude Memory E820.

Definition EFI_PAGE_SIZE : Z := 4096.
Definition EBDA_BASE : Z := 0x80000.

(** [EFI_MEMORY_TYPE], in the order of its constants. *)
Inductive EFI_MEMORY_TYPE :=
| EfiReservedMemoryType
| EfiLoaderCode
| EfiLoaderData
| EfiBootServicesCode
| EfiBootServicesData
| EfiRuntimeServicesCode
| EfiRuntimeServicesData
| EfiConventionalMemory
| EfiUnusableMemory
| EfiACPIReclaimMemory
| EfiACPIMemoryNVS
| EfiMemoryMappedIO
| EfiMemoryMappedIOPortSpace
| EfiPalCode
| EfiPersistentMemory
| EfiUnacceptedMemoryType
| EfiOtherMemoryType (code : Z).

(** The enumeration constant a 32-bit [Type] field holds; the values the
    header does not name fall through to the [default] of every switch. *)
Definition memory_type_of (code : Z) : EFI_MEMORY_TYPE :=
  if (code <? 0) || (16 <=? code) then EfiOtherMemoryType code else
  nth (Z.to_nat code)
    [EfiReservedMemoryType; EfiLoaderCode; EfiLoaderData; EfiBootServicesCode;
     EfiBootServicesData; EfiRuntimeServicesCode; EfiRuntimeServicesData;
     EfiConventionalMemory; EfiUnusableMemory; EfiACPIReclaimMemory;
     EfiACPIMemoryNVS; EfiMemoryMappedIO; EfiMemoryMappedIOPortSpace;
     EfiPalCode; EfiPersistentMemory; EfiUnacceptedMemoryType]
    (EfiOtherMemoryType code).

(** The fields of [EFI_MEMORY_DESCRIPTOR] the builder reads. *)
Record EFI_MEMORY_DESCRIPTOR := mkDesc {
  DescType : Z;
  PhysicalStart : Z;
  NumberOfPages : Z
}.

(** A descriptor in memory: [UINT32 Type; UINT32 Pad; UINT64 PhysicalStart;
    UINT64 VirtualStart; UINT64 NumberOfPages; UINT64 Attribute]. *)
Definition read_descriptor (m : mem) (ptr : Z) : EFI_MEMORY_DESCRIPTOR :=
  mkDesc (load32 m ptr) (load64 m (ptr + 8)) (load64 m (ptr + 24)).

Definition convert_memory_type (type : EFI_MEMORY_TYPE) : Z :=
  match type with
  | EfiConventionalMemory | EfiLoaderCode | EfiLoaderData
  | EfiBootServicesCode | EfiBootServicesData => EfiAcpiAddressRangeMemory
  | EfiACPIReclaimMemory => EfiAcpiAddressRangeACPI
  | EfiACPIMemoryNVS => EfiAcpiAddressRangeNVS
  | _ => EfiAcpiAddressRangeReserved
  end.

(** [e820_type_name] and the lines [dump_map] prints when verbose debugging is
    built in: the index, the range, the type and its name. *)
Definition e820_type_name (type : Z) : string :=
  if type =? EfiAcpiAddressRangeMemory then "RAM"
  else if type =? EfiAcpiAddressRangeReserved then "RESERVED"
  else if type =? EfiAcpiAddressRangeACPI then "ACPI"
  else if type =? EfiAcpiAddressRangeNVS then "NVS"
  else "UNKNOWN".

Definition dump_map (s : Array.low_map) : list (Z * Z * Z * Z * string) :=
  map (fun i => let e := Array.entry_at s (Z.of_nat i) in
                (Z.of_nat i, BaseAddr e, e_end e, Type_ e, e820_type_name (Type_ e)))
      (seq 0 (Z.to_nat (Array.e820_entries s))).

Abbreviation e820_add := (Array.e820_add E820_MAX_ENTRIES EfiAcpiAddressRangeHole).
Abbreviation e820_remove := (Array.e820_remove E820_MAX_ENTRIES EfiAcpiAddressRangeHole).

(** The body of the descriptor loop, with its two [continue]s. *)
Definition add_descriptor (s : Array.low_map) (d : EFI_MEMORY_DESCRIPTOR) : Array.low_map :=
  let start := PhysicalStart d in
  let stop := u64 (start + u64 (NumberOfPages d * EFI_PAGE_SIZE)) in
  let type := convert_memory_type (memory_type_of (DescType d)) in
  if start =? stop then s
  else if type =? 0 then s
  else e820_add s start (u64 (stop - start)) type.

(** The descriptor loop.  Each iteration advances the pointer by the stride,
    so a stride of at least one byte needs at most [memory_map_size] of them. *)
Fixpoint descriptor_loop (fuel : nat) (m : mem) (ptr stop stride : Z) (s : Array.low_map)
  : Array.low_map :=
  match fuel with
  | O => s
  | S fuel' =>
    if ptr <? stop then
      descriptor_loop fuel' m (ptr + stride) stop stride (add_descriptor s (read_descriptor m ptr))
    else s
  end.

(** The layout of the first megabyte. *)
Definition low_megabyte (s : Array.low_map) : Array.low_map :=
  let s := e820_remove s 0 0x100000 in
  let s := e820_add s 0 0x80000 EfiAcpiAddressRangeMemory in
  let s := e820_add s EBDA_BASE 0x20000 EfiAcpiAddressRangeReserved in
  e820_add s 0xa0000 (0x100000 - 0xa0000) EfiAcpiAddressRangeReserved.

Definition build_e820_map (m : mem) (s : Array.low_map)
  (memory_map memory_map_size descriptor_size : Z) : Array.low_map :=
  low_megabyte
    (descriptor_loop (Z.to_nat memory_map_size) m memory_map
       (memory_map + memory_map_size) descriptor_size s).

(** * What the map reports *)

(** The descriptors the pointer walk visits. *)
Definition descriptors (m : mem) (base size stride : Z) : list EFI_MEMORY_DESCRIPTOR :=
  map (fun k => read_descriptor m (base + Z.of_nat k * stride))
      (seq 0 (Z.to_nat ((size + stride - 1) / stride))).

Definition desc_stop (d : EFI_MEMORY_DESCRIPTOR) : Z :=
  PhysicalStart d + NumberOfPages d * EFI_PAGE_SIZE.

Definition desc_covers (d : EFI_MEMORY_DESCRIPTOR) (a : Z) : bool :=
  (PhysicalStart d <=? a) && (a <? desc_stop d).

(** The range of a descriptor does not reach the end of the address space. *)
Definition desc_ok (d : EFI_MEMORY_DESCRIPTOR) : Prop :=
  0 <= PhysicalStart d /\ 0 <= NumberOfPages d /\ desc_stop d < 2 ^ 64.

Definition desc_type (d : EFI_MEMORY_DESCRIPTOR) : Z :=
  convert_memory_type (memory_type_of (DescType d)).

(** The converted type of the last descriptor that covers [a], if any. *)
Fixpoint efi_type_at (ds : list EFI_MEMORY_DESCRIPTOR) (f : Z -> option Z) (a : Z) : option Z :=
  match ds with
  | [] => f a
  | d :: ds' => efi_type_at ds' (fun x => if desc_covers d x then Some (desc_type d) else f x) a
  end.

(** What the finished map should report: usable memory below the EBDA,
    reserved up to one megabyte, and the firmware's word above that. *)
Definition build_spec (ds : list EFI_MEMORY_DESCRIPTOR) (a : Z) : option Z :=
  if a <? 0x80000 then Some EfiAcpiAddressRangeMemory
  else if a <? 0x100000 then Some EfiAcpiAddressRangeReserved
  else efi_type_at ds (fun _ => None) a.

(** UEFI descriptors describe disjoint ranges. *)
Fixpoint disjoint_descs (ds : list EFI_MEMORY_DESCRIPTOR) : Prop :=
  match ds with
  | [] => True
  | d :: ds' =>
    Forall (fun d' => desc_stop d <= PhysicalStart d' \/ desc_stop d' <= PhysicalStart d) ds' /\
    disjoint_descs ds'
  end.

Abbreviation rep128 := (rep E820_MAX_ENTRIES).
Abbreviation wf128 := (wf EfiAcpiAddressRangeHole).
Abbreviation spec128 := (add_spec EfiAcpiAddressRangeHole).

Lemma desc_type_arg d : type_arg EfiAcpiAddressRangeHole (desc_type d).
Proof.
  right. unfold desc_type, convert_memory_type, fits, EfiAcpiAddressRangeHole.
  destruct (memory_type_of _); vm_compute; intuition congruence.
Qed.

Lemma desc_type_nonzero d : desc_type d <> 0.
Proof. unfold desc_type, convert_memory_type. by destruct (memory_type_of _). Qed.

(** Nothing needs to be split when the new range starts at zero or at an
    address the map has nothing for. *)
Lemma no_split_free l start stop :
  wf128 l -> start < stop -> start = 0 \/ type_at l start = None -> no_split start stop l.
Proof.
  intros [Hok _] Hlt Hfree. unfold no_split. apply Forall_forall. intros e He [H1 H2].
  rewrite Forall_forall in Hok. destruct (Hok e He) as (Hb & Hl & _).
  destruct Hfree as [->|Hnone]; [lia|].
  destruct (type_at_covered l e start He) as [t Ht]; [|congruence].
  unfold covers. destruct (Z.leb_spec (BaseAddr e) start), (Z.ltb_spec start (stop_of e)); done || lia.
Qed.

(** One call on an array state, when a slot is free and nothing is split. *)
Lemma add_exact s l f start size type :
  rep128 s l -> wf128 l -> (forall a, type_at l a = f a) ->
  0 <= start -> 0 < size -> start + size < 2 ^ 64 ->
  type_arg EfiAcpiAddressRangeHole type -> (length l < 128)%nat ->
  start = 0 \/ f start = None ->
  exists l', rep128 (e820_add s start size type) l' /\ wf128 l' /\
    (length l' <= length l + 1)%nat /\
    forall a, type_at l' a = spec128 start (start + size) type f a.
Proof.
  intros Hrep Hwf Hf Hstart Hsize Hend Htype Hlen Hfree.
  assert (no_split start (start + size) l) as Hns
    by (apply no_split_free; [done|lia|by rewrite Hf]).
  eexists. split; [apply e820_add_rep; [unfold fits; lia|unfold fits; lia|done]|].
  unfold Ranges.e820_add. destruct (Z.eqb_spec size 0); [lia|].
  rewrite wrap_small by (unfold fits; lia).
  destruct (add_meaning _ (Z.to_nat E820_MAX_ENTRIES - length l) start (start + size) size type l
              Hwf ltac:(lia) Hend ltac:(lia) Htype) as [H1 _ _ H4 _ H6].
  split; [done|]. split; [by apply H6|].
  intros a. rewrite H4.
  - unfold add_spec. by rewrite Hf.
  - right. split; [|done]. unfold E820_MAX_ENTRIES. lia.
Qed.

(** One call on an array state, whatever the room: what the map reports is
    right wherever it reports anything. *)
Lemma add_sound s l f start size type :
  rep128 s l -> wf128 l -> (forall a, type_at l a = None \/ type_at l a = f a) ->
  0 <= start -> 0 < size -> start + size < 2 ^ 64 ->
  type_arg EfiAcpiAddressRangeHole type ->
  exists l', rep128 (e820_add s start size type) l' /\ wf128 l' /\
    forall a, type_at l' a = None \/ type_at l' a = spec128 start (start + size) type f a.
Proof.
  intros Hrep Hwf Hf Hstart Hsize Hend Htype.
  eexists. split; [apply e820_add_rep; [unfold fits; lia|unfold fits; lia|done]|].
  unfold Ranges.e820_add. destruct (Z.eqb_spec size 0); [lia|].
  rewrite wrap_small by (unfold fits; lia).
  destruct (add_meaning _ (Z.to_nat E820_MAX_ENTRIES - length l) start (start + size) size type l
              Hwf ltac:(lia) Hend ltac:(lia) Htype) as [H1 _ H3 _ _ _].
  split; [done|]. intros a. destruct (H3 a) as [-> | ->]; [by left|].
  unfold add_spec. destruct ((start <=? a) && (a <? start + size)); [by right|]. apply Hf.
Qed.

Lemma add_descriptor_call s d :
  desc_ok d ->
  add_descriptor s d =
  if NumberOfPages d =? 0 then s
  else e820_add s (PhysicalStart d) (NumberOfPages d * EFI_PAGE_SIZE) (desc_type d).
Proof.
  intros (Hs & Hn & Hend). unfold desc_stop, EFI_PAGE_SIZE in *. unfold add_descriptor, EFI_PAGE_SIZE.
  rewrite (wrap_small 64 (NumberOfPages d * 4096)) by (unfold fits; lia).
  rewrite (wrap_small 64 (PhysicalStart d + _)) by (unfold fits; lia).
  fold (desc_type d). destruct (Z.eqb_spec (desc_type d) 0) as [H0|_];
    [by destruct (desc_type_nonzero d)|].
  destruct (Z.eqb_spec (PhysicalStart d) (PhysicalStart d + NumberOfPages d * 4096)),
    (Z.eqb_spec (NumberOfPages d) 0); try lia; [done|].
  f_equal. rewrite wrap_small; unfold fits; lia.
Qed.

Lemma desc_covers_add d f a :
  desc_ok d ->
  spec128 (PhysicalStart d) (desc_stop d) (desc_type d) f a =
  if desc_covers d a then Some (desc_type d) else f a.
Proof.
  intros _. unfold add_spec, desc_covers.
  destruct (Z.eqb_spec (desc_type d) EfiAcpiAddressRangeHole) as [Hh|_]; [|done].
  destruct (desc_type_arg d) as [?|[? ?]]; [|done].
  exfalso. unfold desc_type, convert_memory_type in Hh. by destruct (memory_type_of _).
Qed.

(** The pointer walk is a fold over the descriptors. *)
Lemma descriptor_loop_fold m ptr stop stride s fuel :
  0 < stride -> (Z.to_nat (stop - ptr) <= fuel)%nat ->
  descriptor_loop fuel m ptr stop stride s =
  fold_left add_descriptor (descriptors m ptr (stop - ptr) stride) s.
Proof.
  intros Hstride. revert ptr s. induction fuel as [|fuel IH]; intros ptr s Hfuel; simpl.
  - assert ((stop - ptr + stride - 1) / stride <= 0) as Hq.
    { apply Z.lt_succ_r, Z.div_lt_upper_bound; lia. }
    unfold descriptors. rewrite Z2Nat.nonpos by lia. done.
  - destruct (Z.ltb_spec ptr stop).
    + rewrite IH by lia. unfold descriptors.
      replace (stop - ptr + stride - 1) with (stop - (ptr + stride) + stride - 1 + 1 * stride) by lia.
      rewrite Z.div_add by lia.
      assert (0 <= (stop - (ptr + stride) + stride - 1) / stride) by (apply Z.div_pos; lia).
      rewrite Z2Nat.inj_add, Nat.add_comm by lia. simpl Nat.add. cbn [seq map fold_left].
      rewrite <- seq_shift, map_map. f_equal.
      * apply map_ext. intros k. f_equal. lia.
      * f_equal. f_equal. lia.
    + unfold descriptors.
      assert ((stop - ptr + stride - 1) / stride <= 0) as Hq.
      { apply Z.lt_succ_r, Z.div_lt_upper_bound; lia. }
      rewrite Z2Nat.nonpos by lia. done.
Qed.

Lemma desc_covers_empty d a : NumberOfPages d = 0 -> desc_covers d a = false.
Proof.
  intros H0. unfold desc_covers, desc_stop. rewrite H0. by ztests.
Qed.

Lemma desc_covers_start d : 0 < NumberOfPages d -> desc_covers d (PhysicalStart d) = true.
Proof. intros Hn. unfold desc_covers, desc_stop, EFI_PAGE_SIZE. by ztests. Qed.

(** The map after one descriptor, as a function of the address. *)
Definition with_desc (d : EFI_MEMORY_DESCRIPTOR) (f : Z -> option Z) (a : Z) : option Z :=
  if desc_covers d a then Some (desc_type d) else f a.

Lemma add_descriptor_exact s l f d :
  rep128 s l -> wf128 l -> (forall a, type_at l a = f a) -> desc_ok d ->
  (forall a, desc_covers d a = true -> f a = None) -> (length l < 128)%nat ->
  exists l', rep128 (add_descriptor s d) l' /\ wf128 l' /\
    (length l' <= length l + 1)%nat /\ forall a, type_at l' a = with_desc d f a.
Proof.
  intros Hrep Hwf Hf Hd Hfree Hlen. rewrite (add_descriptor_call s d Hd).
  pose proof Hd as (Hs & Hn & Hend). destruct (Z.eqb_spec (NumberOfPages d) 0) as [H0|H0].
  - exists l. split; [done|]. split; [done|]. split; [lia|].
    intros a. unfold with_desc. by rewrite desc_covers_empty.
  - destruct (add_exact s l f (PhysicalStart d) (NumberOfPages d * EFI_PAGE_SIZE)
                (desc_type d)) as (l1 & Hrep1 & Hwf1 & Hlen1 & Hf1);
      try done; try apply desc_type_arg; try (unfold EFI_PAGE_SIZE; lia).
    { right. apply Hfree, desc_covers_start. lia. }
    exists l1. split; [done|]. split; [done|]. split; [done|].
    intros a. rewrite Hf1. apply (desc_covers_add d f a Hd).
Qed.

Lemma add_descriptor_sound s l f d :
  rep128 s l -> wf128 l -> (forall a, type_at l a = None \/ type_at l a = f a) -> desc_ok d ->
  exists l', rep128 (add_descriptor s d) l' /\ wf128 l' /\
    forall a, type_at l' a = None \/ type_at l' a = with_desc d f a.
Proof.
  intros Hrep Hwf Hf Hd. rewrite (add_descriptor_call s d Hd).
  pose proof Hd as (Hs & Hn & Hend). destruct (Z.eqb_spec (NumberOfPages d) 0) as [H0|H0].
  - exists l. split; [done|]. split; [done|].
    intros a. unfold with_desc. by rewrite desc_covers_empty.
  - destruct (add_sound s l f (PhysicalStart d) (NumberOfPages d * EFI_PAGE_SIZE)
                (desc_type d)) as (l1 & Hrep1 & Hwf1 & Hf1);
      try done; try apply desc_type_arg; try (unfold EFI_PAGE_SIZE; lia).
    exists l1. split; [done|]. split; [done|].
    intros a. unfold with_desc. rewrite <- (desc_covers_add d f a Hd). apply Hf1.
Qed.

(** Disjoint descriptors, enough slots: the map is exactly what the firmware
    said. *)
Lemma descriptors_exact ds s l f :
  rep128 s l -> wf128 l -> (forall a, type_at l a = f a) ->
  Forall desc_ok ds -> disjoint_descs ds ->
  Forall (fun d => forall a, desc_covers d a = true -> f a = None) ds ->
  (length l + length ds <= 128)%nat ->
  exists l', rep128 (fold_left add_descriptor ds s) l' /\ wf128 l' /\
    (length l' <= length l + length ds)%nat /\
    forall a, type_at l' a = efi_type_at ds f a.
Proof.
  revert s l f. induction ds as [|d ds IH]; intros s l f Hrep Hwf Hf Hok Hdis Hfree Hlen.
  { exists l. split; [done|]. split; [done|]. split; [simpl; lia|done]. }
  apply Forall_cons in Hok as [Hd Hok]. destruct Hdis as [Hd_dis Hdis].
  apply Forall_cons in Hfree as [Hd_free Hfree]. cbn [fold_left length] in *.
  destruct (add_descriptor_exact s l f d) as (l1 & Hrep1 & Hwf1 & Hlen1 & Hf1);
    try done; try lia.
  destruct (IH _ l1 (with_desc d f) Hrep1 Hwf1 Hf1) as (l' & H1 & H2 & H3 & H4);
    try done; try lia.
  - rewrite Forall_forall in *. intros d' Hd' a Ha. unfold with_desc.
    destruct (desc_covers d a) eqn:Hc; [|by apply (Hfree d')].
    destruct (Hd_dis d' Hd'); unfold desc_covers in *; lia.
  - exists l'. split; [done|]. split; [done|]. split; [lia|done].
Qed.

(** Any descriptors, any number of slots: the map never reports a type the
    firmware did not give the address. *)
Lemma descriptors_sound ds s l f :
  rep128 s l -> wf128 l -> (forall a, type_at l a = None \/ type_at l a = f a) ->
  Forall desc_ok ds ->
  exists l', rep128 (fold_left add_descriptor ds s) l' /\ wf128 l' /\
    forall a, type_at l' a = None \/ type_at l' a = efi_type_at ds f a.
Proof.
  revert s l f. induction ds as [|d ds IH]; intros s l f Hrep Hwf Hf Hok.
  { exists l. done. }
  apply Forall_cons in Hok as [Hd Hok]. cbn [fold_left].
  destruct (add_descriptor_sound s l f d Hrep Hwf Hf Hd) as (l1 & Hrep1 & Hwf1 & Hf1).
  apply (IH _ l1 (with_desc d f)); done.
Qed.

(** The four calls that lay out the first megabyte. *)
Lemma low_megabyte_spec f a :
  0 <= a ->
  spec128 0xa0000 0x100000 EfiAcpiAddressRangeReserved
    (spec128 EBDA_BASE 0xa0000 EfiAcpiAddressRangeReserved
       (spec128 0 0x80000 EfiAcpiAddressRangeMemory
          (spec128 0 0x100000 EfiAcpiAddressRangeHole f))) a =
  if a <? 0x80000 then Some EfiAcpiAddressRangeMemory
  else if a <? 0x100000 then Some EfiAcpiAddressRangeReserved else f a.
Proof.
  intros Ha. unfold add_spec, EBDA_BASE.
  rewrite Z.eqb_refl.
  change (EfiAcpiAddressRangeReserved =? EfiAcpiAddressRangeHole) with false.
  change (EfiAcpiAddressRangeMemory =? EfiAcpiAddressRangeHole) with false.
  ztests; done.
Qed.

Lemma low_type_args :
  type_arg EfiAcpiAddressRangeHole EfiAcpiAddressRangeHole /\
  type_arg EfiAcpiAddressRangeHole EfiAcpiAddressRangeMemory /\
  type_arg EfiAcpiAddressRangeHole EfiAcpiAddressRangeReserved.
Proof. repeat split; [by left|right..]; vm_compute; intuition congruence. Qed.

Lemma low_megabyte_exact s l f :
  rep128 s l -> wf128 l -> (forall a, type_at l a = f a) -> (length l + 4 <= 128)%nat ->
  exists l', rep128 (low_megabyte s) l' /\ wf128 l' /\ (length l' <= length l + 4)%nat /\
    forall a, 0 <= a -> type_at l' a =
      if a <? 0x80000 then Some EfiAcpiAddressRangeMemory
      else if a <? 0x100000 then Some EfiAcpiAddressRangeReserved else f a.
Proof.
  intros Hrep Hwf Hf Hlen. destruct low_type_args as (Ht1 & Ht2 & Ht3).
  unfold low_megabyte, Array.e820_remove.
  destruct (add_exact s l f 0 0x100000 EfiAcpiAddressRangeHole)
    as (l1 & R1 & W1 & N1 & F1); try done; try lia.
  destruct (add_exact _ l1 _ 0 0x80000 EfiAcpiAddressRangeMemory R1 W1 F1)
    as (l2 & R2 & W2 & N2 & F2); try done; try lia.
  destruct (add_exact _ l2 _ EBDA_BASE 0x20000 EfiAcpiAddressRangeReserved R2 W2 F2)
    as (l3 & R3 & W3 & N3 & F3); try done; try lia; [by right|].
  destruct (add_exact _ l3 _ 0xa0000 (0x100000 - 0xa0000) EfiAcpiAddressRangeReserved R3 W3 F3)
    as (l4 & R4 & W4 & N4 & F4); try done; try lia; [by right|].
  exists l4. split; [done|]. split; [done|]. split; [lia|]. intros a Ha. rewrite F4.
  by rewrite <- (low_megabyte_spec f a Ha).
Qed.

Lemma low_megabyte_sound s l f :
  rep128 s l -> wf128 l -> (forall a, type_at l a = None \/ type_at l a = f a) ->
  exists l', rep128 (low_megabyte s) l' /\ wf128 l' /\
    forall a, 0 <= a -> type_at l' a = None \/ type_at l' a =
      if a <? 0x80000 then Some EfiAcpiAddressRangeMemory
      else if a <? 0x100000 then Some EfiAcpiAddressRangeReserved else f a.
Proof.
  intros Hrep Hwf Hf. destruct low_type_args as (Ht1 & Ht2 & Ht3).
  unfold low_megabyte, Array.e820_remove.
  destruct (add_sound s l f 0 0x100000 EfiAcpiAddressRangeHole)
    as (l1 & R1 & W1 & F1); try done; try lia.
  destruct (add_sound _ l1 _ 0 0x80000 EfiAcpiAddressRangeMemory R1 W1 F1)
    as (l2 & R2 & W2 & F2); try done; try lia.
  destruct (add_sound _ l2 _ EBDA_BASE 0x20000 EfiAcpiAddressRangeReserved R2 W2 F2)
    as (l3 & R3 & W3 & F3); try done; try lia.
  destruct (add_sound _ l3 _ 0xa0000 (0x100000 - 0xa0000) EfiAcpiAddressRangeReserved R3 W3 F3)
    as (l4 & R4 & W4 & F4); try done; try lia.
  exists l4. split; [done|]. split; [done|]. intros a Ha.
  by rewrite <- (low_megabyte_spec f a Ha).
Qed.

(** The state [efi_main] starts from: the low stub has just been cleared. *)
Definition empty_map : Array.low_map :=
  Array.mkMap (replicate (Z.to_nat E820_MAX_ENTRIES) (mkE820 0 0 0)) 0.

Lemma empty_rep : rep128 empty_map [].
Proof. eexists. split; [done|]. done. Qed.

Lemma live_at s l a : rep128 s l -> type_at (live s) a = type_at l a.
Proof. intros Hrep. by rewrite (live_rep _ s l Hrep). Qed.

Section Map.
Context (m : mem) (memory_map memory_map_size descriptor_size : Z).
Hypothesis stride_pos : 0 < descriptor_size.

Let ds := descriptors m memory_map memory_map_size descriptor_size.
Let built := build_e820_map m empty_map memory_map memory_map_size descriptor_size.
Hypothesis ranges_ok : Forall desc_ok ds.

Lemma build_e820_map_fold : built = low_megabyte (fold_left add_descriptor ds empty_map).
Proof.
  unfold built, build_e820_map. f_equal. rewrite descriptor_loop_fold by lia.
  by replace (memory_map + memory_map_size - memory_map) with memory_map_size by lia.
Qed.

Lemma build_exact :
  disjoint_descs ds -> (length ds <= 124)%nat ->
  exists l, rep128 built l /\ wf128 l /\ (length l <= length ds + 4)%nat /\
    forall a, 0 <= a -> type_at l a = build_spec ds a.
Proof.
  intros Hdis Hlen. rewrite build_e820_map_fold.
  destruct (descriptors_exact ds empty_map [] (fun _ => None) empty_rep (wf_nil _))
    as (l & Hrep & Hwf & Hn & Hf); try done.
  { by apply Forall_forall. }
  { simpl. lia. }
  destruct (low_megabyte_exact _ l _ Hrep Hwf Hf) as (l' & Hrep' & Hwf' & Hn' & Hf').
  { simpl in Hn. lia. }
  exists l'. split; [done|]. split; [done|]. split; [simpl in Hn; lia|]. intros a Ha. by apply Hf'.
Qed.

(** C10: the E820 map built from a UEFI memory map of at most 124 descriptors
  with disjoint ranges is sorted, has no overlaps and no two adjacent
  entries of one type, and reports for every address exactly its class:
  usable memory below the EBDA, reserved from the EBDA to one megabyte, and
  above that the converted type of the descriptor that covers the address,
  or nothing where no descriptor does. *)
Theorem build_e820_map_exact :
  disjoint_descs ds -> (length ds <= 124)%nat ->
  wf128 (live built) /\ forall a, 0 <= a -> type_at (live built) a = build_spec ds a.
Proof.
  intros Hdis Hlen. destruct (build_exact Hdis Hlen) as (l & Hrep & Hwf & _ & Hf).
  rewrite (live_rep _ _ _ Hrep). done.
Qed.

(** Whatever the number of descriptors and however they overlap, the map
  that is built is well formed and never reports a wrong class: each address
  either has no entry or has the class of the last descriptor that covers it
  (below one megabyte, the class of the fixed layout). *)
Lemma build_e820_map_sound :
  wf128 (live built) /\
  forall a, 0 <= a ->
    type_at (live built) a = None \/ type_at (live built) a = build_spec ds a.
Proof.
  rewrite build_e820_map_fold.
  destruct (descriptors_sound ds empty_map [] (fun _ => None) empty_rep (wf_nil _))
    as (l & Hrep & Hwf & Hf); try done.
  { intros a. by left. }
  destruct (low_megabyte_sound _ l _ Hrep Hwf Hf) as (l' & Hrep' & Hwf' & Hf').
  split; [by rewrite (live_rep _ _ _ Hrep')|].
  intros a Ha. rewrite (live_at _ _ _ Hrep'). by apply Hf'.
Qed.
End Map.

(** A map of three descriptors, 48 bytes apart: boot services below 640K,
    conventional memory and runtime data above one megabyte. *)
Definition sample_desc (ty start pages : Z) : list Z :=
  le_bytes 4 ty ++ replicate 4 0 ++ le_bytes 8 start ++ replicate 8 0 ++
  le_bytes 8 pages ++ replicate 16 0.

Definition sample_map : mem :=
  store_bytes (fun _ => 0) 0x9000
    (sample_desc 3 0 0xa0 ++ sample_desc 7 0x100000 0x700 ++ sample_desc 6 0x800000 0x10).

Lemma build_e820_map_exact_witness :
  let ds := descriptors sample_map 0x9000 144 48 in
  let s := build_e820_map sample_map empty_map 0x9000 144 48 in
  length ds = 3%nat /\ Array.e820_entries s = 4 /\
  wf128 (live s) /\ forall a, 0 <= a -> type_at (live s) a = build_spec ds a.
Proof.
  intros ds s. split; [vm_compute; reflexivity|]. split; [vm_compute; reflexivity|].
  apply (build_e820_map_exact sample_map 0x9000 144 48 ltac:(lia)).
  - repeat constructor; vm_compute; congruence.
  - repeat constructor; vm_compute; intuition congruence.
  - vm_compute. lia.
Defined.

Lemma build_e820_map_sound_witness :
  let ds := descriptors sample_map 0x9000 96 48 in
  let s := build_e820_map sample_map empty_map 0x9000 96 48 in
  wf128 (live s) /\
  forall a, 0 <= a -> type_at (live s) a = None \/ type_at (live s) a = build_spec ds a.
Proof.
  intros ds s.
  apply (build_e820_map_sound sample_map 0x9000 96 48 ltac:(lia)).
  repeat constructor; vm_compute; congruence.
Defined.
