(* ===== verification/SeaE820.v ===== *)
(** The E820 map of SeaBIOS ([seabios/src/e820map.c]): the array code, its
    equality with CSMWrap's copy of the same algorithm, the query
    [e820_is_used], and the replay of a finished map into an empty one, which
    is how the map crosses from CSMWrap to SeaBIOS. *)

From stdpp Require Import base numbers list strings.
From Stdlib Require Import ZArith Lia Sorted.
From S2P Require Import Prelude E820.

Import Array (low_map, mkMap, e820_map, e820_entries, entry_at, set_entry).

(** * The array code *)

Definition BUILD_MAX_E820 : Z := 128.

(** [#define E820_HOLE ((u32)-1)]. *)
Definition E820_HOLE : Z := 2 ^ 32 - 1.

Definition E820_RAM : Z := 1.
Definition E820_RESERVED : Z := 2.
Definition E820_ACPI : Z := 3.
Definition E820_NVS : Z := 4.
Definition E820_UNUSABLE : Z := 5.

(** The statics [e820_list] and [e820_count], as they are at startup. *)
Definition e820_list_init : low_map :=
  mkMap (replicate (Z.to_nat BUILD_MAX_E820) (mkE820 0 0 0)) 0.

(** No guard on [i] here: every caller passes an index below the count. *)
Definition remove_e820 (s : low_map) (i : Z) : low_map :=
  let count := e820_entries s - 1 in
  mkMap (array_move (Z.to_nat i) (Z.to_nat (i + 1)) (Z.to_nat (count - i)) (e820_map s)) count.

Definition insert_e820 (s : low_map) (i start size type : Z) : low_map :=
  if BUILD_MAX_E820 <=? e820_entries s then s
  else
    let moved := array_move (Z.to_nat (i + 1)) (Z.to_nat i)
                            (Z.to_nat (e820_entries s - i)) (e820_map s) in
    set_entry (mkMap moved (e820_entries s + 1)) i (mkE820 start size type).

Definition e820_type_name (type : Z) : string :=
  if type =? E820_RAM then "RAM"
  else if type =? E820_RESERVED then "RESERVED"
  else if type =? E820_ACPI then "ACPI"
  else if type =? E820_NVS then "NVS"
  else if type =? E820_UNUSABLE then "UNUSABLE"
  else "UNKNOWN".

(** The lines [dump_map] prints: index, range, type and type name. *)
Definition dump_map (s : low_map) : list (Z * Z * Z * Z * string) :=
  map (fun i => let e := entry_at s (Z.of_nat i) in
                (Z.of_nat i, BaseAddr e, e_end e, Type_ e, e820_type_name (Type_ e)))
      (seq 0 (Z.to_nat (e820_entries s))).

Fixpoint find_position (fuel : nat) (s : low_map) (i start stop size type : Z)
  : Z * low_map * Z * Z :=
  match fuel with
  | O => (i, s, start, size)
  | S fuel' =>
    if i <? e820_entries s then
      let e := entry_at s i in
      if e_end e <? start then find_position fuel' s (i + 1) start stop size type
      else if BaseAddr e <? start then
        if type =? Type_ e then
          (i, s, BaseAddr e, u64 (size + (start - BaseAddr e)))
        else
          let s1 := set_entry s i (mkE820 (BaseAddr e) (u64 (start - BaseAddr e)) (Type_ e)) in
          let s2 := if stop <? e_end e
                    then insert_e820 s1 (i + 1) stop (u64 (e_end e - stop)) (Type_ e)
                    else s1 in
          (i + 1, s2, start, size)
      else (i, s, start, size)
    else (i, s, start, size)
  end.

Fixpoint absorb (fuel : nat) (s : low_map) (i stop size type : Z) : low_map * Z :=
  match fuel with
  | O => (s, size)
  | S fuel' =>
    if i <? e820_entries s then
      let e := entry_at s i in
      if stop <? BaseAddr e then (s, size)
      else if e_end e <=? stop then absorb fuel' (remove_e820 s i) i stop size type
      else
        let e' := mkE820 stop (u64 (e_end e - stop)) (Type_ e) in
        let s1 := set_entry s i e' in
        if type =? Type_ e' then (remove_e820 s1 i, u64 (size + Length e'))
        else (s1, size)
    else (s, size)
  end.

Definition e820_add (s : low_map) (start size type : Z) : low_map :=
  if size =? 0 then s
  else
    let stop := u64 (start + size) in
    let '(i, s1, start1, size1) :=
      find_position (Z.to_nat (e820_entries s)) s 0 start stop size type in
    let '(s2, size2) :=
      absorb (S (Z.to_nat (e820_entries s1))) s1 i stop size1 type in
    if type =? E820_HOLE then s2 else insert_e820 s2 i start1 size2 type.

Definition e820_remove (s : low_map) (start size : Z) : low_map :=
  e820_add s start size E820_HOLE.

(** [e820_is_used]: the [for] loop with its two [continue]s, from index [i]. *)
Fixpoint is_used_from (fuel : nat) (s : low_map) (i start size : Z) : Z :=
  match fuel with
  | O => 0
  | S fuel' =>
    if i <? e820_entries s then
      let e := entry_at s i in
      if u64 (start + size) <=? BaseAddr e then is_used_from fuel' s (i + 1) start size
      else if e_end e <=? start then is_used_from fuel' s (i + 1) start size
      else 1
    else 0
  end.

Definition e820_is_used (s : low_map) (start size : Z) : Z :=
  is_used_from (Z.to_nat (e820_entries s)) s 0 start size.

(** * Same code as CSMWrap's

    The two copies differ in the guard of [remove_e820] and in the width of
    the type argument; neither shows in a call. *)

Lemma remove_same s i :
  0 <= i < e820_entries s -> remove_e820 s i = Array.remove_e820 s i.
Proof. intros Hi. unfold remove_e820, Array.remove_e820. by ztests. Qed.

Lemma insert_same s i start size type :
  fits 32 type ->
  insert_e820 s i start size type = Array.insert_e820 BUILD_MAX_E820 s i start size type.
Proof. intros Ht. unfold insert_e820, Array.insert_e820. by rewrite (wrap_small 32 type). Qed.

Lemma absorb_same fuel s i stop size type :
  0 <= i -> absorb fuel s i stop size type = Array.absorb fuel s i stop size type.
Proof.
  intros Hi. revert s. induction fuel as [|fuel IH]; intros s; cbn [absorb Array.absorb]; [done|].
  destruct (Z.ltb_spec i (e820_entries s)); [|done].
  destruct (stop <? _); [done|]. destruct (e_end _ <=? stop).
  - rewrite remove_same by lia. apply IH.
  - destruct (type =? _); [|done]. rewrite remove_same by (simpl; lia). done.
Qed.

(** Every live entry has a 32-bit type. *)
Definition types_fit (s : low_map) : Prop :=
  Forall (fun e => fits 32 (Type_ e)) (take (Z.to_nat (e820_entries s)) (e820_map s)).

Lemma entry_at_fits s i :
  types_fit s -> 0 <= i < e820_entries s -> fits 32 (Type_ (entry_at s i)).
Proof.
  intros Hs Hi. unfold entry_at. destruct (lt_dec (Z.to_nat i) (length (e820_map s))).
  - destruct (lookup_lt_is_Some_2 (e820_map s) (Z.to_nat i)) as [e He]; [done|].
    rewrite (nth_lookup_Some _ _ _ _ He).
    unfold types_fit in Hs. rewrite Forall_lookup in Hs. apply (Hs (Z.to_nat i)).
    by rewrite lookup_take_lt by lia.
  - rewrite nth_overflow by lia. unfold fits. simpl. lia.
Qed.

Lemma find_position_same fuel s i start stop size type :
  types_fit s -> 0 <= i ->
  find_position fuel s i start stop size type =
  Array.find_position BUILD_MAX_E820 fuel s i start stop size type.
Proof.
  intros Hs. revert i. induction fuel as [|fuel IH]; intros i Hi;
    cbn [find_position Array.find_position]; [done|].
  destruct (Z.ltb_spec i (e820_entries s)); [|done]. destruct (_ <? start); [apply IH; lia|].
  destruct (_ <? start); [|done]. destruct (type =? _); [done|].
  destruct (stop <? _); [|done].
  rewrite insert_same by (by apply entry_at_fits). done.
Qed.

Lemma find_position_index max fuel s i start stop size type :
  0 <= i -> 0 <= (Array.find_position max fuel s i start stop size type).1.1.1.
Proof.
  revert i. induction fuel as [|fuel IH]; intros i Hi; cbn [Array.find_position]; [done|].
  repeat case_match; simpl; try done; [apply IH; lia|lia..].
Qed.

Lemma e820_add_same s start size type :
  types_fit s -> fits 32 type ->
  e820_add s start size type = Array.e820_add BUILD_MAX_E820 E820_HOLE s start size type.
Proof.
  intros Hs Ht. unfold e820_add, Array.e820_add. destruct (size =? 0); [done|].
  rewrite find_position_same by (done || lia).
  pose proof (find_position_index BUILD_MAX_E820 (Z.to_nat (e820_entries s)) s 0 start
                (u64 (start + size)) size type ltac:(lia)) as Hi.
  destruct (Array.find_position _ _ _ _ _ _ _ _) as [[[i s1] start1] size1]. simpl in Hi.
  rewrite absorb_same by done. destruct (Array.absorb _ _ _ _ _ _) as [s2 size2].
  destruct (type =? E820_HOLE); [done|]. by apply insert_same.
Qed.

Abbreviation rep_sea := (rep BUILD_MAX_E820).
Abbreviation wf_sea := (wf E820_HOLE).

Lemma rep_types_fit s l : rep_sea s l -> wf_sea l -> types_fit s.
Proof.
  intros (junk & Hm & Hn & _) [Hok _]. unfold types_fit.
  rewrite Hm, Hn, Nat2Z.id, take_app_length.
  eapply Forall_impl; [done|]. intros e (_ & _ & _ & H & _). exact H.
Qed.

Lemma sea_add_rep s l start size type :
  rep_sea s l -> wf_sea l -> fits 64 start -> fits 64 size -> fits 32 type ->
  rep_sea (e820_add s start size type)
    (Ranges.e820_add E820_HOLE (Z.to_nat BUILD_MAX_E820 - length l) l start size type).
Proof.
  intros Hrep Hwf Hstart Hsize Htype.
  rewrite e820_add_same by (done || by eapply rep_types_fit).
  by apply e820_add_rep.
Qed.

(** * Replaying a map

    Adding the entries of a well-formed list in order to the map of the
    entries before them leaves every one of them as it is. *)

Lemma absorb_insert_last room e :
  entry_ok E820_HOLE e -> (0 < room)%nat ->
  Ranges.absorb_insert E820_HOLE room (BaseAddr e) (stop_of e) (Length e) (Type_ e) [] = [e].
Proof.
  intros (Hb & Hl & Hs & Ht & Hh) Hroom. unfold Ranges.absorb_insert. simpl.
  destruct (Z.eqb_spec (Type_ e) E820_HOLE); [done|].
  destruct room; [lia|]. simpl. unfold stop_of in Hs.
  rewrite Z.add_0_r, (wrap_small 64 (Length e)), (wrap_small 32 (Type_ e))
    by (unfold fits in *; lia).
  by destruct e.
Qed.

Lemma wf_snoc l e : wf_sea (l ++ [e]) -> entry_ok E820_HOLE e /\ Forall (fun f => stop_of f <= BaseAddr e) l.
Proof.
  induction l as [|f l IH]; intros Hwf.
  - apply wf_cons in Hwf as (He & _). by split.
  - pose proof (wf_above _ f (l ++ [e]) Hwf) as Ha. apply wf_cons in Hwf as (Hf & _ & Hwf).
    destruct (IH Hwf) as [He Hl]. split; [done|]. constructor; [|done].
    rewrite Forall_app in Ha. destruct Ha as [_ Ha]. by inversion Ha.
Qed.

Lemma add_last l e room :
  wf_sea (l ++ [e]) -> (0 < room)%nat ->
  Ranges.add E820_HOLE room (BaseAddr e) (stop_of e) (Length e) (Type_ e) l = l ++ [e].
Proof.
  induction l as [|f l IH]; intros Hwf Hroom.
  - apply wf_cons in Hwf as (He & _). by apply absorb_insert_last.
  - pose proof (wf_snoc (f :: l) e Hwf) as (He & Hbelow).
    apply Forall_cons in Hbelow as [Hfe Hle].
    simpl in Hwf. pose proof (wf_above _ _ _ Hwf) as Habove.
    apply wf_cons in Hwf as (Hf & Hd & Hwf).
    pose proof Hf as (Hb & Hl & Hs & _).
    cbn [Ranges.add]. rewrite (e_end_ok _ f Hf).
    destruct (Z.ltb_spec (stop_of f) (BaseAddr e)); [simpl; f_equal; by apply IH|].
    destruct (Z.ltb_spec (BaseAddr f) (BaseAddr e)); [|unfold stop_of in *; lia].
    destruct l as [|g l].
    + inversion Hd as [|? ? Hap]; subst. destruct Hap as [?|[Heq Hne]]; [lia|].
      destruct (Z.eqb_spec (Type_ e) (Type_ f)); [congruence|].
      destruct (Z.ltb_spec (stop_of e) (stop_of f)).
      { destruct He as (_ & Hle' & _). unfold stop_of in *. lia. }
      rewrite absorb_insert_last by done. simpl. f_equal.
      unfold stop_of in *. rewrite wrap_small by (unfold fits; lia).
      destruct f; simpl in *. f_equal. lia.
    + exfalso. apply Forall_cons in Hle as [Hge _].
      apply Forall_cons in Habove as [Hfg _].
      apply wf_cons in Hwf as ((_ & Hgl & _) & _). unfold stop_of in *. lia.
Qed.

(** The [for] loop of [handle_csm_0002] over the entries of the table. *)
Definition replay (s : low_map) (l : list EFI_E820_ENTRY64) : low_map :=
  fold_left (fun s e => e820_add s (BaseAddr e) (Length e) (Type_ e)) l s.

Lemma wf_prefix l r : wf_sea (l ++ r) -> wf_sea l.
Proof.
  induction l as [|e l IH]; intros Hwf; [apply wf_nil|].
  simpl in Hwf. apply wf_cons in Hwf as (He & Hd & Hwf). apply wf_cons.
  split; [done|]. split; [|by apply IH]. destruct l; inversion Hd; by constructor.
Qed.

Lemma replay_rep s l r :
  rep_sea s l -> wf_sea (l ++ r) -> Z.of_nat (length (l ++ r)) <= BUILD_MAX_E820 ->
  rep_sea (replay s r) (l ++ r).
Proof.
  revert s l. induction r as [|e r IH]; intros s l Hrep Hwf Hlen.
  { simpl. by rewrite app_nil_r. }
  rewrite cons_middle, app_assoc in Hwf, Hlen |- *.
  apply IH; [|done|done].
  pose proof (wf_prefix _ _ Hwf) as Hle. pose proof (wf_snoc _ _ Hle) as [He _].
  pose proof He as (Hb & Hl & Hs & Ht & _). unfold stop_of in Hs.
  rewrite !length_app in Hlen. simpl in Hlen.
  pose proof (sea_add_rep s l (BaseAddr e) (Length e) (Type_ e) Hrep (wf_prefix _ _ Hle)
                ltac:(unfold fits; lia) ltac:(unfold fits; lia) Ht) as Hadd.
  unfold Ranges.e820_add in Hadd. destruct (Z.eqb_spec (Length e) 0); [lia|].
  rewrite wrap_small in Hadd by (unfold fits; lia). fold (stop_of e) in Hadd.
  rewrite add_last in Hadd by (done || lia). exact Hadd.
Qed.

Lemma list_init_rep : rep_sea e820_list_init [].
Proof. eexists. split; [done|]. done. Qed.

(** Replaying the entries of any sorted, unmergeable map of at most 128
    entries through SeaBIOS's [e820_add], starting from its empty list,
    reproduces the map entry by entry: nothing is merged, split, reordered or
    dropped on the way. *)
Lemma replay_identity l :
  wf_sea l -> Z.of_nat (length l) <= BUILD_MAX_E820 -> live (replay e820_list_init l) = l.
Proof.
  intros Hwf Hlen. apply (live_rep BUILD_MAX_E820).
  by apply (replay_rep e820_list_init [] l list_init_rep).
Qed.

(** SeaBIOS's copy of the map code and CSMWrap's, which differ in the
    guard of [remove_e820], compute the same table from the same table for
    every 32-bit type. *)
Lemma sea_e820_add_equiv s start size type :
  table_ok BUILD_MAX_E820 s -> wf_sea (live s) -> fits 32 type ->
  e820_add s start size type = Array.e820_add E820_MAX_ENTRIES E820_HOLE s start size type.
Proof.
  intros Hok Hwf Ht. apply e820_add_same; [|done].
  eapply rep_types_fit; [by apply table_rep|done].
Qed.

(** * [e820_is_used] *)

Lemma is_used_list pre l junk fuel start size :
  Forall (entry_ok E820_HOLE) l -> (length l <= fuel)%nat ->
  0 <= start -> 0 < size -> start + size < 2 ^ 64 ->
  is_used_from fuel (mkMap (pre ++ l ++ junk) (Z.of_nat (length pre + length l)))
    (Z.of_nat (length pre)) start size =
  (if existsb (fun e => (BaseAddr e <? start + size) && (start <? stop_of e)) l then 1 else 0).
Proof.
  intros Hok Hfuel Hs Hz He. revert pre fuel Hfuel.
  induction l as [|e l IH]; intros pre fuel Hfuel.
  { destruct fuel; cbn [is_used_from e820_entries]; [done|]. simpl length. by ztests. }
  apply Forall_cons in Hok as [Heok Hok].
  destruct fuel as [|fuel]; [simpl in Hfuel; lia|]. simpl in Hfuel.
  cbn [is_used_from e820_entries]. simpl length.
  destruct (Z.ltb_spec (Z.of_nat (length pre)) (Z.of_nat (length pre + S (length l)))); [|lia].
  simpl app. rewrite entry_at_app, (e_end_ok _ e Heok), (wrap_small 64 (start + size))
    by (unfold fits; lia).
  assert (is_used_from fuel
            (mkMap (pre ++ e :: l ++ junk) (Z.of_nat (length pre + S (length l))))
            (Z.of_nat (length pre) + 1) start size =
          (if existsb (fun e => (BaseAddr e <? start + size) && (start <? stop_of e)) l
           then 1 else 0)) as Hnext.
  { rewrite <- (IH Hok (pre ++ [e]) fuel ltac:(lia)), <- app_assoc, length_app. simpl.
    do 2 f_equal; lia. }
  cbn [existsb]. destruct (Z.leb_spec (start + size) (BaseAddr e)),
    (Z.leb_spec (stop_of e) start), (Z.ltb_spec (BaseAddr e) (start + size)),
    (Z.ltb_spec start (stop_of e)); try lia; simpl; done.
Qed.

(** [e820_is_used] answers 1 exactly when some address of the range has an
    entry in the map, whatever the type. *)
Lemma e820_is_used_spec s start size :
  table_ok BUILD_MAX_E820 s -> wf_sea (live s) ->
  0 <= start -> 0 < size -> start + size < 2 ^ 64 ->
  (e820_is_used s start size = 1 <->
   exists a, start <= a < start + size /\ is_Some (type_at (live s) a)) /\
  (e820_is_used s start size = 0 \/ e820_is_used s start size = 1).
Proof.
  intros Hok Hwf Hs Hz He.
  assert (e820_is_used s start size =
          (if existsb (fun e => (BaseAddr e <? start + size) && (start <? stop_of e)) (live s)
           then 1 else 0)) as ->.
  { destruct (table_rep _ s Hok) as (junk & Hm & Hn & _). unfold e820_is_used.
    rewrite <- (is_used_list [] (live s) junk (Z.to_nat (e820_entries s))); try done; try lia.
    - f_equal. destruct s as [arr n]. cbn [e820_map e820_entries] in *. simpl.
      by f_equal.
    - apply Hwf. }
  destruct (existsb _ _) eqn:Hex; (split; [|by auto]); split; try done.
  - intros _. apply existsb_exists in Hex as (e & Hin & Hov). cbv beta in Hov.
    exists (Z.max start (BaseAddr e)).
    destruct Hwf as [Hall _]. rewrite List.Forall_forall in Hall.
    destruct (Hall e Hin) as (Hb & Hl & _). unfold stop_of in *.
    split; [lia|]. apply (type_at_covered _ e); [by apply list_elem_of_In|].
    unfold covers, stop_of. lia.
  - intros (a & Ha & [t Ht]). exfalso. apply not_true_iff_false in Hex. apply Hex.
    destruct (type_at_inv _ _ _ Ht) as (e & Hin & Hc). apply existsb_exists.
    exists e. split; [by apply list_elem_of_In|]. unfold covers in Hc. cbv beta. lia.
Qed.

(** A finished map as CSMWrap hands it over: low memory, the reserved area
    that touches it, and memory above one megabyte. *)
Definition sea_sample_map : list EFI_E820_ENTRY64 :=
  [mkE820 0 0x80000 1; mkE820 0x80000 0x80000 2; mkE820 0x100000 0x700000 1;
   mkE820 0xfee00000 0x1000 2].

Lemma sea_sample_wf : wf_sea sea_sample_map.
Proof. apply (bool_decide_unpack _). vm_compute. exact I. Qed.

Definition sea_sample_table : low_map :=
  mkMap (sea_sample_map ++ replicate 124 (mkE820 0 0 0)) 4.

Lemma sea_sample_ok : table_ok BUILD_MAX_E820 sea_sample_table.
Proof. vm_compute. intuition congruence. Qed.

Lemma replay_identity_witness :
  live (replay e820_list_init sea_sample_map) = sea_sample_map.
Proof. apply replay_identity; [exact sea_sample_wf|vm_compute; congruence]. Defined.

Lemma sea_e820_add_equiv_witness :
  e820_add sea_sample_table 0x7e0000 0x20000 E820_RESERVED =
  Array.e820_add E820_MAX_ENTRIES E820_HOLE sea_sample_table 0x7e0000 0x20000 E820_RESERVED.
Proof.
  apply sea_e820_add_equiv; [exact sea_sample_ok|exact sea_sample_wf|unfold fits, E820_RESERVED; lia].
Defined.

Lemma e820_is_used_spec_witness :
  e820_is_used sea_sample_table 0xfee00800 0x10 = 1 /\
  exists a, 0xfee00800 <= a < 0xfee00800 + 0x10 /\ is_Some (type_at (live sea_sample_table) a).
Proof.
  split; [vm_compute; reflexivity|].
  apply (proj1 (e820_is_used_spec sea_sample_table 0xfee00800 0x10 sea_sample_ok sea_sample_wf
                  ltac:(lia) ltac:(lia) ltac:(lia))).
  vm_compute. reflexivity.
Defined.
