(* ===== verification/Coreboot.v ===== *)
(** The coreboot table: CSMWrap writes it ([src/coreboot.c]) and SeaBIOS and
    SeaVGABIOS look for it ([seabios/src/fw/coreboot.c]).

    The two sides have different checksum loops: the producer folds the carry
    back after every byte, the consumer adds 16-bit words in 32 bits and folds
    twice at the end.  The file shows that the two agree, and that what
    [build_coreboot_table] writes is what [find_cb_table] finds. *)

From stdpp Require Import base numbers list.
From Stdlib Require Import ZArith Lia.
From S2P Require Import Prelude Memory.

(** * Layout *)

Definition CB_TABLE_START : Z := 0x500.
Definition CB_HEADER_SIGNATURE : Z := 0x4F49424C.
Definition CB_TAG_FRAMEBUFFER : Z := 0x12.
Definition CB_TAG_FORWARD : Z := 0x11.

Definition sizeof_cb_header : Z := 24.
Definition sizeof_cb_framebuffer : Z := 40.

(** Byte offsets of the fields of [struct cb_header]. *)
Definition off_signature : Z := 0.
Definition off_header_bytes : Z := 4.
Definition off_header_checksum : Z := 8.
Definition off_table_bytes : Z := 12.
Definition off_table_checksum : Z := 16.
Definition off_table_entries : Z := 20.

(** [struct cb_framebuffer]; three bytes of padding follow the last field. *)
Record cb_framebuffer := mkFramebuffer {
  fb_tag : Z;
  fb_size : Z;
  physical_address : Z;
  x_resolution : Z;
  y_resolution : Z;
  bytes_per_line : Z;
  bits_per_pixel : Z;
  red_mask_pos : Z;
  red_mask_size : Z;
  green_mask_pos : Z;
  green_mask_size : Z;
  blue_mask_pos : Z;
  blue_mask_size : Z;
  reserved_mask_pos : Z;
  reserved_mask_size : Z
}.

#[export] Instance cb_framebuffer_eq_dec : EqDecision cb_framebuffer.
Proof. solve_decision. Defined.

Definition read_framebuffer (m : mem) (a : Z) : cb_framebuffer :=
  mkFramebuffer (load32 m a) (load32 m (a + 4)) (load64 m (a + 8))
    (load32 m (a + 16)) (load32 m (a + 20)) (load32 m (a + 24))
    (m (a + 28)) (m (a + 29)) (m (a + 30)) (m (a + 31)) (m (a + 32)) (m (a + 33))
    (m (a + 34)) (m (a + 35)) (m (a + 36)).

(** [enum csmwrap_video_type]. *)
Inductive csmwrap_video_type :=
| CSMWRAP_VIDEO_NONE
| CSMWRAP_VIDEO_OPROM
| CSMWRAP_VIDEO_SEAVGABIOS
| CSMWRAP_VIDEO_FALLBACK.

#[export] Instance csmwrap_video_type_eq_dec : EqDecision csmwrap_video_type.
Proof. solve_decision. Defined.

(** * The producer *)

(** The loop of [CbCheckSum16] from index [idx], [k] iterations left. *)
Fixpoint cb_sum (k : nat) (idx : Z) (m : mem) (ptr sum : Z) : Z :=
  match k with
  | O => sum
  | S k' =>
    let tmp := m (ptr + idx) in
    let tmp := if idx mod 2 =? 1 then u32 (Z.shiftl tmp 8) else tmp in
    let sum := u32 (sum + tmp) in
    let sum := if 0x10000 <=? sum
               then Z.land (u32 (sum + Z.shiftr sum 16)) 0xFFFF else sum in
    cb_sum k' (idx + 1) m ptr sum
  end.

Definition CbCheckSum16 (m : mem) (buffer : Z) (len : nat) : Z :=
  u16 (Z.land (u32 (Z.lnot (cb_sum len 0 m buffer 0))) 0xFFFF).

(** [build_coreboot_table]; [cb_fb] is the address of [priv->cb_fb]. *)
Definition build_coreboot_table (m : mem) (video_type : csmwrap_video_type) (cb_fb : Z) : mem :=
  let p := CB_TABLE_START in
  let header := p in
  let m := Libc.memset m header 0 (Z.to_nat sizeof_cb_header) in
  let m := store32 m (header + off_signature) CB_HEADER_SIGNATURE in
  let m := store32 m (header + off_header_bytes) sizeof_cb_header in
  let p := p + load32 m (header + off_header_bytes) in
  let tables := p in
  let '(m, p, table_entries) :=
    if decide (video_type = CSMWRAP_VIDEO_OPROM) then (m, p, 0)
    else
      let framebuffer := p in
      let m := Libc.memcpy m framebuffer cb_fb (Z.to_nat sizeof_cb_framebuffer) in
      let m := store32 m framebuffer CB_TAG_FRAMEBUFFER in
      let m := store32 m (framebuffer + 4) sizeof_cb_framebuffer in
      (m, p + load32 m (framebuffer + 4), 1) in
  let m := store32 m (header + off_table_entries) table_entries in
  let m := store32 m (header + off_table_bytes) (u32 (p - tables)) in
  let m := store32 m (header + off_table_checksum)
             (CbCheckSum16 m tables (Z.to_nat (load32 m (header + off_table_bytes)))) in
  store32 m (header + off_header_checksum)
    (CbCheckSum16 m header (Z.to_nat (load32 m (header + off_header_bytes)))).

(** * The consumer *)

(** The [while] loop of [ipchksum]; returns the sum, the pointer and what is
    left of [count]. *)
Fixpoint ip_words (fuel : nat) (m : mem) (p count sum : Z) : Z * Z * Z :=
  match fuel with
  | O => (sum, p, count)
  | S fuel' =>
    if 1 <? count then ip_words fuel' m (p + 2) (count - 2) (u32 (sum + load16 m p))
    else (sum, p, count)
  end.

Definition ipchksum (m : mem) (buf count : Z) : Z :=
  let '(sum, p, count) := ip_words (Z.to_nat count) m buf count 0 in
  let sum := if count =? 0 then sum else u32 (sum + m p) in
  let sum := u32 (Z.shiftr sum 16 + Z.land sum 0xffff) in
  let sum := u32 (sum + Z.shiftr sum 16) in
  u16 (Z.lnot sum).

(** [find_cb_header(addr, len)]: one candidate every 16 bytes. *)
Definition header_valid (m : mem) (addr : Z) : bool :=
  (load32 m (addr + off_signature) =? CB_HEADER_SIGNATURE) &&
  (let tsize := load32 m (addr + off_table_bytes) in
   negb (tsize =? 0) &&
   (ipchksum m addr sizeof_cb_header =? 0) &&
   (ipchksum m (addr + sizeof_cb_header) (to_signed 32 tsize) =?
      load32 m (addr + off_table_checksum))).

Fixpoint find_header_loop (fuel : nat) (m : mem) (addr stop : Z) : option Z :=
  match fuel with
  | O => None
  | S fuel' =>
    if addr <? stop then
      if header_valid m addr then Some addr else find_header_loop fuel' m (u32 (addr + 16)) stop
    else None
  end.

Definition find_cb_header (m : mem) (addr len : Z) : option Z :=
  find_header_loop (Z.to_nat len) m addr (u32 (addr + len)).

Fixpoint subtable_loop (fuel : nat) (m : mem) (tbl i count tag : Z) : option Z :=
  match fuel with
  | O => None
  | S fuel' =>
    if i <? count then
      if load32 m tbl =? tag then Some tbl
      else subtable_loop fuel' m (u32 (tbl + load32 m (tbl + 4))) (i + 1) count tag
    else None
  end.

Definition find_cb_subtable (m : mem) (cbh tag : Z) : option Z :=
  let count := load32 m (cbh + off_table_entries) in
  subtable_loop (Z.to_nat count) m (cbh + sizeof_cb_header) 0 count tag.

(** [find_cb_table]: the table in the first page, or the one it forwards to. *)
Definition find_cb_table (m : mem) : option Z :=
  match find_cb_header m 0 0x1000 with
  | None => None
  | Some cbh =>
    match find_cb_subtable m cbh CB_TAG_FORWARD with
    | Some cbf => find_cb_header m (u32 (load64 m (cbf + 8))) 0x100
    | None => Some cbh
    end
  end.

(** * One's complement sums *)

(** The sum of the little-endian 16-bit words of a byte string; [odd] says on
    which half of a word it starts. *)
Fixpoint word_sum (odd : bool) (bs : list Z) : Z :=
  match bs with
  | [] => 0
  | b :: bs' => (if odd then 256 * b else b) + word_sum (negb odd) bs'
  end.

(** End-around carry: the value in 0..65535 a sum of words comes to. *)
Definition carry_fold (z : Z) : Z := if z =? 0 then 0 else (z - 1) mod 65535 + 1.

Lemma word_sum_nonneg odd bs : Forall (fits 8) bs -> 0 <= word_sum odd bs.
Proof.
  intros Hbs. revert odd. induction Hbs as [|b bs Hb _ IH]; intros odd; simpl; [lia|].
  specialize (IH (negb odd)). unfold fits in Hb. destruct odd; lia.
Qed.

Lemma word_sum_app odd bs cs :
  word_sum odd (bs ++ cs) =
  word_sum odd bs + word_sum (if Nat.even (length bs) then odd else negb odd) cs.
Proof.
  revert odd. induction bs as [|b bs IH]; intros odd; [done|].
  cbn [word_sum app length]. rewrite IH. rewrite Nat.even_succ, <- Nat.negb_even.
  destruct odd, (Nat.even (length bs)); simpl; lia.
Qed.

Lemma carry_fold_range z : 0 <= carry_fold z <= 65535.
Proof.
  unfold carry_fold. destruct (z =? 0); [lia|].
  pose proof (Z.mod_pos_bound (z - 1) 65535 ltac:(lia)). lia.
Qed.

Lemma carry_fold_small z : 0 <= z <= 65535 -> carry_fold z = z.
Proof.
  intros Hz. unfold carry_fold. destruct (Z.eqb_spec z 0); [done|].
  rewrite Z.mod_small; lia.
Qed.

(** Any way of dropping multiples of 65535 gives the same value, as long as it
    stops at a positive one. *)
Lemma carry_fold_cong y z k : 0 < y -> 0 < z -> z = y + k * 65535 -> carry_fold z = carry_fold y.
Proof.
  intros Hy Hz ->. unfold carry_fold.
  destruct (Z.eqb_spec (y + k * 65535) 0), (Z.eqb_spec y 0); try lia.
  replace (y + k * 65535 - 1) with (y - 1 + k * 65535) by lia. by rewrite Z_mod_plus_full.
Qed.

Lemma carry_fold_zero z : carry_fold z = 0 <-> z = 0.
Proof.
  unfold carry_fold. destruct (Z.eqb_spec z 0); [done|].
  pose proof (Z.mod_pos_bound (z - 1) 65535 ltac:(lia)). lia.
Qed.

Lemma carry_fold_decomp z : 0 <= z -> exists k, 0 <= k /\ z = carry_fold z + k * 65535.
Proof.
  intros Hz. unfold carry_fold. destruct (Z.eqb_spec z 0) as [->|]; [by exists 0|].
  exists ((z - 1) / 65535). split; [apply Z.div_pos; lia|].
  pose proof (Z.div_mod (z - 1) 65535 ltac:(lia)). lia.
Qed.

Lemma carry_fold_add a b :
  0 <= a -> 0 <= b -> carry_fold (carry_fold a + b) = carry_fold (a + b).
Proof.
  intros Ha Hb. destruct (carry_fold_decomp a Ha) as (k & Hk & Hka).
  pose proof (carry_fold_range a).
  destruct (Z.eq_dec (carry_fold a + b) 0) as [H0|H0].
  - assert (a = 0) by (apply carry_fold_zero; lia). subst. by rewrite (proj2 (carry_fold_zero 0)).
  - symmetry. apply (carry_fold_cong _ _ k); lia.
Qed.

(** One step of the producer's loop keeps the folded sum. *)
Lemma cb_step sum t :
  0 <= sum <= 65535 -> 0 <= t <= 65280 ->
  (if 0x10000 <=? u32 (sum + t)
   then Z.land (u32 (u32 (sum + t) + Z.shiftr (u32 (sum + t)) 16)) 0xFFFF
   else u32 (sum + t)) = carry_fold (sum + t).
Proof.
  intros Hs Ht. rewrite !(wrap_small 32 (sum + t)) by (word_norm; lia).
  destruct (Z.leb_spec 0x10000 (sum + t)); [|by rewrite carry_fold_small by lia].
  rewrite land_65535, Z.shiftr_div_pow2 by lia.
  rewrite (carry_fold_cong (sum + t - 65535) (sum + t) 1), carry_fold_small by lia.
  word_lia.
Qed.

Lemma cb_sum_spec k idx m ptr a :
  mem_ok m -> 0 <= idx -> 0 <= a ->
  cb_sum k idx m ptr (carry_fold a) =
  carry_fold (a + word_sum (Z.odd idx) (load_bytes m (ptr + idx) k)).
Proof.
  intros Hok. revert idx a. induction k as [|k IH]; intros idx a Hidx Ha; simpl.
  { by rewrite Z.add_0_r. }
  pose proof (Hok (ptr + idx)) as Hb. unfold fits in Hb. change (2 ^ 8) with 256 in Hb.
  set (t := if Z.odd idx then 256 * m (ptr + idx) else m (ptr + idx)).
  assert ((if idx mod 2 =? 1 then u32 (Z.shiftl (m (ptr + idx)) 8) else m (ptr + idx)) = t) as ->.
  { subst t. rewrite Zmod_odd. destruct (Z.odd idx); simpl; [|done].
    rewrite Z.shiftl_mul_pow2, wrap_small by (word_norm; lia). lia. }
  assert (0 <= t <= 65280) by (subst t; destruct (Z.odd idx); lia).
  rewrite (cb_step (carry_fold a) t) by (done || apply carry_fold_range).
  rewrite carry_fold_add by lia. rewrite IH by lia.
  rewrite Z.add_1_r, Z.odd_succ, <- Z.negb_odd. f_equal.
  replace (ptr + Z.succ idx) with (ptr + idx + 1) by lia. lia.
Qed.

Lemma complement_16 z : 0 <= z <= 65535 -> u16 (Z.lnot z) = 65535 - z.
Proof. intros Hz. unfold Z.lnot. word_lia. Qed.

Lemma CbCheckSum16_spec m buffer len :
  mem_ok m ->
  CbCheckSum16 m buffer len = 65535 - carry_fold (word_sum false (load_bytes m buffer len)).
Proof.
  intros Hok. unfold CbCheckSum16.
  pose proof (cb_sum_spec len 0 m buffer 0 Hok ltac:(lia) ltac:(lia)) as H.
  simpl in H. rewrite Z.add_0_r in H. change (carry_fold 0) with 0 in H. rewrite H.
  rewrite land_65535, wrap_wrap, wrap_wrap_le by lia.
  apply complement_16, carry_fold_range.
Qed.

(** The consumer's loop adds the words without wrapping while they fit. *)
Lemma ip_words_spec fuel m p n sum :
  mem_ok m -> (n <= fuel)%nat -> 0 <= sum ->
  sum + word_sum false (load_bytes m p n) < 2 ^ 32 ->
  exists p' (r : bool), ip_words fuel m p (Z.of_nat n) sum =
      (sum + word_sum false (load_bytes m p n) - (if r then m p' else 0), p', if r then 1 else 0).
Proof.
  intros Hok. revert p n sum. induction fuel as [|fuel IH]; intros p n sum Hn Hs Hlt.
  { destruct n; [|lia]. exists p, false. simpl. do 2 f_equal; lia. }
  cbn [ip_words]. destruct n as [|[|n]].
  - exists p, false. simpl. do 2 f_equal; lia.
  - exists p, true. simpl. do 2 f_equal; lia.
  - destruct (Z.ltb_spec 1 (Z.of_nat (S (S n)))); [|lia].
    assert (load16 m p = m p + 256 * m (p + 1)) as Hw.
    { unfold load. cbn [load_bytes le_val]. lia. }
    cbn [load_bytes word_sum negb] in Hlt |- *.
    pose proof (word_sum_nonneg false _ (load_bytes_fits m (p + 1 + 1) n Hok)) as Hnn.
    pose proof (Hok p) as H0. pose proof (Hok (p + 1)) as H1. unfold fits in H0, H1.
    rewrite Hw, wrap_small by (unfold fits; lia).
    replace (Z.of_nat (S (S n)) - 2) with (Z.of_nat n) by lia.
    replace (p + 1 + 1) with (p + 2) in * by lia.
    destruct (IH (p + 2) n (sum + (m p + 256 * m (p + 1)))) as (p' & r & ->); try lia.
    exists p', r. do 2 f_equal. lia.
Qed.

Lemma fold_twice s :
  0 <= s < 2 ^ 32 ->
  let f := u32 (Z.shiftr s 16 + Z.land s 0xffff) in
  u16 (Z.lnot (u32 (f + Z.shiftr f 16))) = 65535 - carry_fold s.
Proof.
  intros Hs. cbv zeta. rewrite land_65535, !Z.shiftr_div_pow2 by lia.
  set (hi := s / 2 ^ 16). set (lo := wrap 16 s).
  assert (s = hi * 65536 + lo /\ 0 <= hi < 65536 /\ 0 <= lo < 65536) as (Hd & Hhi & Hlo).
  { subst hi lo. word_lia. }
  rewrite !(wrap_small 32 (hi + lo)) by (word_norm; lia).
  destruct (Z.eq_dec s 0) as [H0|H0].
  { assert (hi = 0 /\ lo = 0) as [-> ->] by lia. rewrite H0. reflexivity. }
  rewrite (carry_fold_cong (hi + lo) s hi) by lia.
  change (2 ^ 16) with 65536.
  destruct (Z_lt_dec (hi + lo) 65536).
  - rewrite (Z.div_small (hi + lo)), Z.add_0_r, (wrap_small 32 (hi + lo)) by (word_norm; lia).
    rewrite carry_fold_small by lia. apply complement_16. lia.
  - rewrite (carry_fold_cong (hi + lo - 65535) (hi + lo) 1), carry_fold_small by lia.
    unfold Z.lnot. word_lia.
Qed.

Lemma ipchksum_spec m buf n :
  mem_ok m -> word_sum false (load_bytes m buf n) < 2 ^ 32 ->
  ipchksum m buf (Z.of_nat n) = 65535 - carry_fold (word_sum false (load_bytes m buf n)).
Proof.
  intros Hok Hlt. unfold ipchksum. rewrite Nat2Z.id.
  pose proof (word_sum_nonneg false _ (load_bytes_fits m buf n Hok)) as Hnn.
  destruct (ip_words_spec n m buf n 0) as (p' & r & ->); try done; try lia.
  set (w := word_sum false (load_bytes m buf n)) in *.
  assert ((if (if r then 1 else 0) =? 0 then 0 + w - (if r then m p' else 0)
           else u32 (0 + w - (if r then m p' else 0) + m p')) = w) as ->.
  { destruct r; simpl; [|lia]. rewrite wrap_small; unfold fits; lia. }
  apply fold_twice. lia.
Qed.

Lemma word_sum_bound odd bs :
  Forall (fits 8) bs -> word_sum odd bs <= 65280 * Z.of_nat (length bs).
Proof.
  intros Hbs. revert odd. induction Hbs as [|b bs Hb _ IH]; intros odd; simpl length; simpl; [lia|].
  specialize (IH (negb odd)). unfold fits in Hb. change (2 ^ 8) with 256 in Hb.
  destruct odd; lia.
Qed.

(** The two checksum routines, one folding the carry after every byte and
    the other adding words and folding at the end, give the same value on
    every block of up to 64 KB. *)
Lemma checksum_same m buffer len :
  mem_ok m -> Z.of_nat len <= 65536 ->
  ipchksum m buffer (Z.of_nat len) = CbCheckSum16 m buffer len.
Proof.
  intros Hok Hlen. rewrite CbCheckSum16_spec by done. apply ipchksum_spec; [done|].
  pose proof (word_sum_bound false _ (load_bytes_fits m buffer len Hok)) as Hb.
  rewrite length_load_bytes in Hb. lia.
Qed.

Lemma CbCheckSum16_ext m m' a n :
  mem_ok m -> mem_ok m' -> load_bytes m a n = load_bytes m' a n ->
  CbCheckSum16 m a n = CbCheckSum16 m' a n.
Proof. intros H H' Heq. by rewrite !CbCheckSum16_spec, Heq. Qed.

Lemma word_sum_pos odd bs : Forall (fits 8) bs -> le_val bs <> 0 -> 0 < word_sum odd bs.
Proof.
  intros Hbs. revert odd. induction Hbs as [|b bs Hb Hbs IH]; intros odd Hv; [done|].
  cbn [le_val word_sum] in *. pose proof (word_sum_nonneg (negb odd) bs Hbs).
  unfold fits in Hb. destruct (Z.eq_dec b 0) as [->|Hb0].
  - specialize (IH (negb odd) ltac:(lia)). destruct odd; lia.
  - destruct odd; lia.
Qed.

(** Storing the checksum of a block into a zero field of it makes the
    consumer's checksum of the block zero. *)
Lemma store_checksum m a n1 n2 :
  mem_ok m -> Nat.even n1 = true -> load32 m a <> 0 -> (4 <= n1)%nat ->
  load_bytes m (a + Z.of_nat n1) 4 = [0; 0; 0; 0] -> Z.of_nat (n1 + (4 + n2)) <= 65536 ->
  ipchksum (store32 m (a + Z.of_nat n1) (CbCheckSum16 m a (n1 + (4 + n2)))) a
    (Z.of_nat (n1 + (4 + n2))) = 0.
Proof.
  intros Hok Heven Hsig Hn1 Hzero Hlen.
  set (W := word_sum false (load_bytes m a (n1 + (4 + n2)))).
  assert (0 < W) as HW.
  { unfold W. replace (n1 + (4 + n2))%nat with (4 + (n1 + n2))%nat by lia.
    rewrite load_bytes_app, word_sum_app.
    pose proof (word_sum_pos false _ (load_bytes_fits m a 4 Hok) Hsig).
    rewrite length_load_bytes. simpl (Nat.even 4).
    pose proof (word_sum_nonneg false _ (load_bytes_fits m (a + Z.of_nat 4) (n1 + n2) Hok)). lia. }
  rewrite CbCheckSum16_spec by done. fold W.
  pose proof (carry_fold_range W) as Hcf. set (c := 65535 - carry_fold W).
  set (m' := store32 m (a + Z.of_nat n1) c).
  assert (mem_ok m') as Hok' by (by apply store_ok).
  assert (word_sum false (load_bytes m' a (n1 + (4 + n2))) = W + c) as HW'.
  { unfold W. rewrite !load_bytes_app, !word_sum_app, !length_load_bytes, Heven, Hzero.
    rewrite (load_bytes_ext m' m a n1) by (intros; apply store_out; lia).
    rewrite (load_bytes_ext m' m (a + Z.of_nat n1 + Z.of_nat 4) n2)
      by (intros; apply store_out; lia).
    pose proof (load_store_bytes_same m (a + Z.of_nat n1) _ (le_bytes_fits 4 c)) as Hc.
    rewrite length_le_bytes in Hc. unfold m', store. rewrite Hc.
    cbn [le_bytes word_sum negb]. rewrite !Z.shiftr_div_pow2 by lia.
    subst c. word_lia. }
  rewrite ipchksum_spec, HW' by (done || rewrite HW'; pose proof (word_sum_bound false _
    (load_bytes_fits m a (n1 + (4 + n2)) Hok)) as Hb; rewrite length_load_bytes in Hb; fold W in Hb; lia).
  destruct (carry_fold_decomp W ltac:(lia)) as (k & Hk & Hd).
  rewrite (carry_fold_cong 65535 (W + c) k) by lia. reflexivity.
Qed.

#[global] Arguments CbCheckSum16 : simpl never.

(** * What the producer writes *)

Definition with_header (m : mem) : mem :=
  store32 (store32 (Libc.memset m 0x500 0 24) 0x500 CB_HEADER_SIGNATURE) 0x504 24.

Definition with_framebuffer (m : mem) (cb_fb : Z) : mem :=
  store32 (store32 (Libc.memcpy (with_header m) 0x518 cb_fb 40) 0x518 CB_TAG_FRAMEBUFFER) 0x51c 40.

(** The last part: the counts and the two checksums. *)
Definition seal (m : mem) (entries bytes : Z) : mem :=
  let m := store32 m 0x514 entries in
  let m := store32 m 0x50c bytes in
  let m := store32 m 0x510 (CbCheckSum16 m 0x518 (Z.to_nat bytes)) in
  store32 m 0x508 (CbCheckSum16 m 0x500 24).

Section Producer.
Context (m : mem) (cb_fb : Z).
Hypothesis m_ok : mem_ok m.
Hypothesis fb_outside : 0x540 <= cb_fb.

Lemma with_header_ok : mem_ok (with_header m).
Proof. unfold with_header. do 2 apply store_ok. by apply Libc.memset_ok. Qed.

Lemma with_framebuffer_ok : mem_ok (with_framebuffer m cb_fb).
Proof.
  unfold with_framebuffer. do 2 apply store_ok.
  apply Libc.memcpy_ok; [apply with_header_ok|lia].
Qed.

Lemma with_framebuffer_frame x :
  x < 0x518 \/ 0x540 <= x -> with_framebuffer m cb_fb x = with_header m x.
Proof.
  intros Hx. unfold with_framebuffer. rewrite !store_out by lia.
  rewrite Libc.memcpy_at by (apply with_header_ok || lia).
  unfold Libc.block_copy. by ztests.
Qed.

Lemma load_with_framebuffer n x :
  x + Z.of_nat n <= 0x518 -> load n (with_framebuffer m cb_fb) x = load n (with_header m) x.
Proof.
  intros Hx. apply load_ext. intros y Hy. apply with_framebuffer_frame. lia.
Qed.

Lemma with_header_bytes : load32 (with_header m) 0x504 = 24.
Proof. unfold with_header. rewrite load_store_same. reflexivity. Qed.

Lemma with_header_signature : load32 (with_header m) 0x500 = CB_HEADER_SIGNATURE.
Proof. unfold with_header. rewrite load_store_other by lia. by rewrite load_store_same. Qed.

Lemma with_header_zero : load_bytes (with_header m) 0x508 4 = [0; 0; 0; 0].
Proof.
  unfold with_header. cbn [load_bytes]. rewrite !store_out by lia.
  by rewrite !Libc.memset_at.
Qed.

Lemma build_with_framebuffer vt :
  vt <> CSMWRAP_VIDEO_OPROM ->
  build_coreboot_table m vt cb_fb = seal (with_framebuffer m cb_fb) 1 40.
Proof.
  intros Hvt. unfold build_coreboot_table. rewrite decide_False by done.
  unfold CB_TABLE_START, off_signature, off_header_bytes, off_table_bytes, off_table_entries,
    off_table_checksum, off_header_checksum, sizeof_cb_header, sizeof_cb_framebuffer. zeval.
  fold (with_header m). rewrite with_header_bytes. zeval. rewrite !load_store_same. zeval.
  fold (with_framebuffer m cb_fb). rewrite !load_store_other by lia.
  rewrite load_with_framebuffer by lia. rewrite with_header_bytes. reflexivity.
Qed.

Lemma build_without_framebuffer :
  build_coreboot_table m CSMWRAP_VIDEO_OPROM cb_fb = seal (with_header m) 0 0.
Proof.
  unfold build_coreboot_table. rewrite decide_True by done.
  unfold CB_TABLE_START, off_signature, off_header_bytes, off_table_bytes, off_table_entries,
    off_table_checksum, off_header_checksum, sizeof_cb_header. zeval.
  fold (with_header m). rewrite with_header_bytes. zeval. rewrite !load_store_same. zeval.
  rewrite !load_store_other by lia. rewrite with_header_bytes. reflexivity.
Qed.

End Producer.

(** The effect of the last part on a header whose checksum field is zero. *)
Section Seal.
Context (m : mem) (entries bytes : Z).
Hypothesis m_ok : mem_ok m.
Hypothesis sig : load32 m 0x500 = CB_HEADER_SIGNATURE.
Hypothesis checksum_zero : load_bytes m 0x508 4 = [0; 0; 0; 0].
Hypothesis bytes_small : 0 <= bytes <= 65536.
Hypothesis entries_fit : fits 32 entries.

Lemma seal_frame x : x < 0x508 \/ 0x518 <= x -> seal m entries bytes x = m x.
Proof. intros Hx. unfold seal. by rewrite !store_out by lia. Qed.

Lemma load_seal n x :
  x + Z.of_nat n <= 0x508 \/ 0x518 <= x -> load n (seal m entries bytes) x = load n m x.
Proof. intros Hx. apply load_ext. intros y Hy. apply seal_frame. lia. Qed.

Lemma seal_ok : mem_ok (seal m entries bytes).
Proof. unfold seal. by repeat apply store_ok. Qed.

Lemma seal_entries : load32 (seal m entries bytes) 0x514 = entries.
Proof. unfold seal. loads. by apply wrap_small. Qed.

Lemma seal_bytes : load32 (seal m entries bytes) 0x50c = bytes.
Proof. unfold seal. loads. apply wrap_small. word_norm. lia. Qed.

Lemma seal_header_sum : ipchksum (seal m entries bytes) 0x500 24 = 0.
Proof.
  unfold seal. set (m' := store32 (store32 (store32 m _ _) _ _) _ _).
  apply (store_checksum m' 0x500 8 12); try done; try lia.
  - subst m'. by repeat apply store_ok.
  - subst m'. rewrite !load_store_other, sig by lia. done.
Qed.

Lemma seal_table_sum :
  ipchksum (seal m entries bytes) 0x518 bytes = load32 (seal m entries bytes) 0x510.
Proof.
  rewrite <- (Z2Nat.id bytes) at 2 by lia.
  rewrite checksum_same by (apply seal_ok || lia).
  unfold seal at 2. loads. change (8 * Z.of_nat 4) with 32.
  rewrite !CbCheckSum16_spec by (apply seal_ok || by repeat apply store_ok).
  rewrite (load_bytes_ext (seal m entries bytes) (store32 (store32 m 0x514 entries) 0x50c bytes))
    by (intros x Hx; rewrite seal_frame by lia; by rewrite !store_out by lia).
  symmetry. apply wrap_small. unfold fits. change (2 ^ 32) with 4294967296.
  match goal with |- context [carry_fold ?z] => pose proof (carry_fold_range z) end. lia.
Qed.

Lemma seal_valid : header_valid (seal m entries bytes) 0x500 = negb (bytes =? 0).
Proof.
  unfold header_valid, off_signature, off_table_bytes, off_table_checksum, sizeof_cb_header.
  zeval. rewrite load_seal, sig, seal_bytes, seal_header_sum by lia.
  assert (to_signed 32 bytes = bytes) as ->.
  { unfold to_signed. rewrite !wrap_small by (word_norm; lia). change (2 ^ (32 - 1)) with 2147483648.
    ztests; lia. }
  rewrite seal_table_sum, !Z.eqb_refl. by rewrite !andb_true_r.
Qed.

End Seal.

(** * What the consumer finds *)

Lemma header_no_signature m a :
  load32 m a <> CB_HEADER_SIGNATURE -> header_valid m a = false.
Proof.
  intros H. unfold header_valid, off_signature. rewrite Z.add_0_r.
  by destruct (Z.eqb_spec (load32 m a) CB_HEADER_SIGNATURE).
Qed.

(** The scan passes over the candidates that are not headers. *)
Lemma find_header_skip k fuel m addr stop :
  0 <= addr -> (k <= fuel)%nat -> stop + 16 < 2 ^ 32 -> addr + 16 * Z.of_nat k <= stop ->
  (forall j, 0 <= j < Z.of_nat k -> header_valid m (addr + 16 * j) = false) ->
  find_header_loop fuel m addr stop = find_header_loop (fuel - k) m (addr + 16 * Z.of_nat k) stop.
Proof.
  revert fuel addr. induction k as [|k IH]; intros fuel addr Haddr Hfuel Hstop Hlt Hbad.
  { rewrite Nat.sub_0_r. f_equal. lia. }
  destruct fuel as [|fuel]; [lia|]. cbn [find_header_loop].
  destruct (Z.ltb_spec addr stop); [|lia].
  specialize (Hbad 0 ltac:(lia)) as H0. rewrite Z.mul_0_r, Z.add_0_r in H0. rewrite H0.
  rewrite wrap_small by (unfold fits; lia). rewrite IH; try lia.
  - f_equal. lia.
  - intros j Hj. replace (addr + 16 + 16 * j) with (addr + 16 * (j + 1)) by lia. apply Hbad. lia.
Qed.

Lemma find_header_first k m :
  0 <= k < 256 -> header_valid m (16 * k) = true ->
  (forall j, 0 <= j < k -> header_valid m (16 * j) = false) ->
  find_cb_header m 0 0x1000 = Some (16 * k).
Proof.
  intros Hk Hvalid Hbad. unfold find_cb_header. rewrite wrap_small by (unfold fits; lia).
  rewrite (find_header_skip (Z.to_nat k)) by (lia || intros j Hj; apply Hbad; lia).
  replace (0 + 16 * Z.of_nat (Z.to_nat k)) with (16 * k) by lia.
  destruct (Z.to_nat 0x1000 - Z.to_nat k)%nat as [|n] eqn:Hn; [lia|].
  cbn [find_header_loop]. rewrite Hvalid. destruct (Z.ltb_spec (16 * k) (0 + 0x1000)); [done|lia].
Qed.

Lemma find_header_none m :
  (forall j, 0 <= j < 256 -> header_valid m (16 * j) = false) -> find_cb_header m 0 0x1000 = None.
Proof.
  intros Hbad. unfold find_cb_header. rewrite wrap_small by (unfold fits; lia).
  rewrite (find_header_skip 256) by (lia || intros j Hj; apply Hbad; lia).
  destruct (Z.to_nat 0x1000 - 256)%nat as [|n]; [done|]. cbn [find_header_loop].
  destruct (Z.ltb_spec (0 + 16 * Z.of_nat 256) (0 + 0x1000)); [lia|done].
Qed.

(** The framebuffer record as the table carries it. *)
Definition as_table_entry (fb : cb_framebuffer) : cb_framebuffer :=
  mkFramebuffer CB_TAG_FRAMEBUFFER sizeof_cb_framebuffer (physical_address fb)
    (x_resolution fb) (y_resolution fb) (bytes_per_line fb) (bits_per_pixel fb)
    (red_mask_pos fb) (red_mask_size fb) (green_mask_pos fb) (green_mask_size fb)
    (blue_mask_pos fb) (blue_mask_size fb) (reserved_mask_pos fb) (reserved_mask_size fb).

Section RoundTrip.
Context (m : mem) (cb_fb : Z).
Hypothesis m_ok : mem_ok m.
Hypothesis fb_outside : 0x540 <= cb_fb.

Lemma framebuffer_byte i :
  8 <= i < 40 -> with_framebuffer m cb_fb (0x518 + i) = m (cb_fb + i).
Proof.
  intros Hi. unfold with_framebuffer. rewrite !store_out by lia.
  rewrite Libc.memcpy_at by (lia || by apply with_header_ok).
  unfold Libc.block_copy. ztests. replace (cb_fb + (0x518 + i - 0x518)) with (cb_fb + i) by lia.
  unfold with_header. rewrite !store_out, Libc.memset_at by lia. by ztests.
Qed.

Lemma framebuffer_load n i :
  8 <= i -> i + Z.of_nat n <= 40 ->
  load n (with_framebuffer m cb_fb) (0x518 + i) = load n m (cb_fb + i).
Proof.
  intros H1 H2. unfold load. f_equal. apply list_eq. intros j.
  destruct (decide (j < n)%nat).
  - rewrite !lookup_load_bytes by done. f_equal.
    rewrite <- !Z.add_assoc. apply framebuffer_byte. lia.
  - rewrite !lookup_ge_None_2; rewrite ?length_load_bytes; done || lia.
Qed.

Lemma framebuffer_read :
  read_framebuffer (seal (with_framebuffer m cb_fb) 1 40) 0x518 =
  as_table_entry (read_framebuffer m cb_fb).
Proof.
  unfold read_framebuffer, as_table_entry. cbn [physical_address x_resolution y_resolution
    bytes_per_line bits_per_pixel red_mask_pos red_mask_size green_mask_pos green_mask_size
    blue_mask_pos blue_mask_size reserved_mask_pos reserved_mask_size].
  rewrite !load_seal by lia. rewrite !seal_frame by lia.
  rewrite (framebuffer_load 8 8), (framebuffer_load 4 16), (framebuffer_load 4 20),
    (framebuffer_load 4 24) by lia. rewrite !framebuffer_byte by lia.
  f_equal; unfold with_framebuffer; loads; done.
Qed.

Lemma build_low vt a :
  a + 4 <= 0x500 -> load32 (build_coreboot_table m vt cb_fb) a = load32 m a.
Proof.
  intros Ha. apply load_ext. intros x Hx.
  destruct (decide (vt = CSMWRAP_VIDEO_OPROM)) as [->|Hvt].
  - rewrite build_without_framebuffer, seal_frame by (done || lia).
    unfold with_header. rewrite !store_out, Libc.memset_at by lia. by ztests.
  - rewrite build_with_framebuffer, seal_frame, with_framebuffer_frame by (done || lia).
    unfold with_header. rewrite !store_out, Libc.memset_at by lia. by ztests.
Qed.

(** SeaBIOS finds the table and reads the record back. *)
Lemma table_found vt :
  vt <> CSMWRAP_VIDEO_OPROM ->
  (forall k, 0 <= k < 80 -> load32 m (16 * k) <> CB_HEADER_SIGNATURE) ->
  let m' := build_coreboot_table m vt cb_fb in
  find_cb_table m' = Some CB_TABLE_START /\
  find_cb_subtable m' CB_TABLE_START CB_TAG_FRAMEBUFFER = Some 0x518 /\
  read_framebuffer m' 0x518 = as_table_entry (read_framebuffer m cb_fb).
Proof.
  intros Hvt Hsig m'.
  assert (Hm' : m' = seal (with_framebuffer m cb_fb) 1 40) by (by apply build_with_framebuffer).
  pose proof (with_framebuffer_ok m cb_fb m_ok fb_outside) as Hok.
  assert (Htag : load32 m' 0x518 = CB_TAG_FRAMEBUFFER).
  { rewrite Hm', load_seal by lia. unfold with_framebuffer. by loads. }
  assert (Hentries : load32 m' 0x514 = 1) by (by rewrite Hm', seal_entries).
  assert (Hvalid : header_valid m' 0x500 = true).
  { rewrite Hm', seal_valid; [done|done| | |lia|unfold fits; lia].
    - rewrite load_with_framebuffer by (done || lia). apply with_header_signature.
    - rewrite (load_bytes_ext _ (with_header m)); [apply with_header_zero|].
      intros x Hx. apply with_framebuffer_frame; [done|lia|lia]. }
  assert (Hfind : find_cb_header m' 0 0x1000 = Some 0x500).
  { apply (find_header_first 80); [lia|done|]. intros j Hj. apply header_no_signature.
    unfold m'. rewrite build_low by lia. by apply Hsig. }
  split; [|split].
  - unfold find_cb_table. rewrite Hfind. unfold find_cb_subtable, off_table_entries, sizeof_cb_header.
    zeval. rewrite Hentries. change (Z.to_nat 1) with 1%nat. cbn [subtable_loop].
    by rewrite Htag.
  - unfold find_cb_subtable, CB_TABLE_START, off_table_entries, sizeof_cb_header. zeval.
    rewrite Hentries. change (Z.to_nat 1) with 1%nat. cbn [subtable_loop]. by rewrite Htag.
  - rewrite Hm'. apply framebuffer_read.
Qed.

(** C6: with no coreboot signature in the interrupt vectors and the BIOS data
    area below it, SeaBIOS finds the table CSMWrap wrote at 0x500 (signature,
    size and both checksums pass), takes no forward entry, finds the
    framebuffer record in it, and reads every field of [priv->cb_fb] back. *)
Theorem coreboot_roundtrip vt :
  vt <> CSMWRAP_VIDEO_OPROM ->
  (forall k, 0 <= k < 80 -> load32 m (16 * k) <> CB_HEADER_SIGNATURE) ->
  let m' := build_coreboot_table m vt cb_fb in
  find_cb_table m' = Some CB_TABLE_START /\
  find_cb_subtable m' CB_TABLE_START CB_TAG_FRAMEBUFFER = Some 0x518 /\
  read_framebuffer m' 0x518 = as_table_entry (read_framebuffer m cb_fb).
Proof. apply table_found. Qed.

(** When a video option ROM drives the display the table carries no
    framebuffer, and SeaBIOS reports no coreboot table at all: the header at
    0x500 has no entries and is passed over. *)
Lemma coreboot_absent_for_oprom :
  (forall k, 0 <= k < 256 -> load32 m (16 * k) <> CB_HEADER_SIGNATURE) ->
  find_cb_table (build_coreboot_table m CSMWRAP_VIDEO_OPROM cb_fb) = None.
Proof.
  intros Hsig. rewrite build_without_framebuffer.
  set (m' := seal (with_header m) 0 0).
  assert (find_cb_header m' 0 0x1000 = None) as Hnone; [|unfold find_cb_table; by rewrite Hnone].
  apply find_header_none. intros j Hj.
  destruct (decide (j = 80)) as [->|Hj80].
  { change (16 * 80) with 0x500. unfold m'.
    rewrite seal_valid; [done|by apply with_header_ok|apply with_header_signature|
      apply with_header_zero|lia|unfold fits; lia]. }
  apply header_no_signature. destruct (decide (j = 81)) as [->|Hj81].
  { change (16 * 81) with 0x510. unfold m', seal. loads.
    rewrite CbCheckSum16_spec by (do 2 apply store_ok; by apply with_header_ok). done. }
  assert (load32 m' (16 * j) = load32 m (16 * j)) as ->; [|by apply Hsig].
  apply load_ext. intros x Hx. unfold m'. rewrite seal_frame by lia.
  unfold with_header. rewrite !store_out, Libc.memset_at by lia. by ztests.
Qed.

End RoundTrip.

(** A blank memory with a framebuffer record at 0x9000. *)
Definition sample_fb_mem : mem :=
  store_bytes (fun _ => 0) 0x9000
    (le_bytes 4 0 ++ le_bytes 4 0 ++ le_bytes 8 0x80000000 ++ le_bytes 4 1024 ++
     le_bytes 4 768 ++ le_bytes 4 4096 ++ [32; 16; 8; 8; 8; 0; 8; 24; 8; 0; 0; 0]).

Lemma sample_fb_mem_ok : mem_ok sample_fb_mem.
Proof. apply store_bytes_ok. intros a. unfold fits. lia. Qed.

Lemma sample_fb_mem_low k : 0 <= k < 256 -> load32 sample_fb_mem (16 * k) <> CB_HEADER_SIGNATURE.
Proof.
  intros Hk. rewrite (load_ext 4 _ (fun _ => 0)); [by vm_compute|].
  intros x Hx. apply store_bytes_out. lia.
Qed.

Lemma checksum_same_witness : ipchksum sample_fb_mem 0x9000 37 = CbCheckSum16 sample_fb_mem 0x9000 37.
Proof. apply (checksum_same sample_fb_mem 0x9000 37 sample_fb_mem_ok). lia. Defined.

Lemma coreboot_roundtrip_witness :
  let m' := build_coreboot_table sample_fb_mem CSMWRAP_VIDEO_SEAVGABIOS 0x9000 in
  find_cb_table m' = Some 0x500 /\ x_resolution (read_framebuffer m' 0x518) = 1024.
Proof.
  destruct (coreboot_roundtrip sample_fb_mem 0x9000 sample_fb_mem_ok ltac:(lia)
              CSMWRAP_VIDEO_SEAVGABIOS ltac:(done)
              (fun k Hk => sample_fb_mem_low k ltac:(lia))) as (H1 & _ & H2).
  split; [exact H1|]. rewrite H2. vm_compute. reflexivity.
Defined.

Lemma coreboot_absent_for_oprom_witness :
  find_cb_table (build_coreboot_table sample_fb_mem CSMWRAP_VIDEO_OPROM 0x9000) = None.
Proof.
  exact (coreboot_absent_for_oprom sample_fb_mem 0x9000 sample_fb_mem_ok sample_fb_mem_low).
Defined.
