(* ===== verification/Machine.v ===== *)
(** The machine CSMWrap runs on, as its code sees it, and the accessors of
    [src/io.h].

    A program that touches hardware is a state-passing function over an
    unknown machine state [W]; the class [Machine] lists the instructions the
    accessors are built from (port input and output, volatile memory access,
    cache-line flush, model-specific registers and the time-stamp counter).
    [PciMechanism] adds what the PCI local bus specification says of ports
    0xCF8 and 0xCFC, and the theorems show that the accessors of [io.h] reach
    exactly the configuration register they name. *)

From stdpp Require Import base numbers list.
From Stdlib Require Import ZArith Lia.
From S2P Require Import Prelude.

(** * State-passing programs *)

Definition M (W A : Type) : Type := W -> A * W.

#[export] Instance M_ret {W} : MRet (M W) := fun A x w => (x, w).
#[export] Instance M_bind {W} : MBind (M W) := fun A B k m w => let '(x, w') := m w in k x w'.
#[export] Instance M_fmap {W} : FMap (M W) := fun A B f m w => let '(x, w') := m w in (f x, w').

(** Running a program step by step. *)
Lemma run_ret {W A} (x : A) (w : W) : (mret x : M W A) w = (x, w).
Proof. reflexivity. Qed.

Lemma run_bind {W A B} (m : M W A) (k : A -> M W B) (w : W) :
  (m ≫= k) w = k (m w).1 (m w).2.
Proof. unfold mbind, M_bind. by destruct (m w). Qed.

(** A step whose outcome is known. *)
Lemma run_step {W A B} (m : M W A) (k : A -> M W B) (w w' : W) (x : A) :
  m w = (x, w') -> (m ≫= k) w = k x w'.
Proof. intros H. unfold mbind, M_bind. by rewrite H. Qed.

(** * Instructions *)

Class Machine (W : Type) := {
  in_port : nat -> Z -> M W Z;             (* bytes, port *)
  out_port : nat -> Z -> Z -> M W unit;    (* bytes, port, value *)
  read_mem : nat -> Z -> M W Z;            (* volatile load *)
  write_mem : nat -> Z -> Z -> M W unit;   (* volatile store *)
  clflush : Z -> M W unit;
  rdmsr_asm : Z -> M W (Z * Z);            (* edx, eax *)
  wrmsr_asm : Z -> Z -> Z -> M W unit;     (* ecx, edx, eax *)
  rdtsc_asm : M W (Z * Z)
}.

(** * [io.h] *)

Section Io.
Context {W : Type} `{Machine W}.

Definition readb (addr : Z) : M W Z := read_mem 1 addr.
Definition readw (addr : Z) : M W Z := read_mem 2 addr.
Definition readl (addr : Z) : M W Z := read_mem 4 addr.
Definition readq (addr : Z) : M W Z := read_mem 8 addr.
Definition writeb (addr val : Z) : M W unit := write_mem 1 addr (u8 val).
Definition writew (addr val : Z) : M W unit := write_mem 2 addr (u16 val).
Definition writel (addr val : Z) : M W unit := write_mem 4 addr (u32 val).

(** The [%w1] operand of the instructions is the low half of the port. *)
Definition inb (port : Z) : M W Z := in_port 1 (u16 port).
Definition inw (port : Z) : M W Z := in_port 2 (u16 port).
Definition inl (port : Z) : M W Z := in_port 4 (u16 port).
Definition outb (port data : Z) : M W unit := out_port 1 (u16 port) (u8 data).
Definition outw (port data : Z) : M W unit := out_port 2 (u16 port) (u16 data).
Definition outl (port data : Z) : M W unit := out_port 4 (u16 port) (u32 data).

Definition PCI_CONFIG_ADDRESS : Z := 0xcf8.
Definition PCI_CONFIG_DATA : Z := 0xcfc.

Definition pci_address (bus slot function offset : Z) : Z :=
  u32 (Z.lor (Z.lor (Z.lor (Z.lor 0x80000000 (Z.shiftl (Z.land bus 0xff) 16))
                      (Z.shiftl (Z.land slot 0x1f) 11))
               (Z.shiftl (Z.land function 0x7) 8))
        (Z.land offset 0xff)).

Definition pciSetAddress (bus slot function offset : Z) : M W unit :=
  outl PCI_CONFIG_ADDRESS (pci_address bus slot function offset).

Definition pciConfigReadByte (bus slot function offset : Z) : M W Z :=
  pciSetAddress bus slot function offset ;;
  inb (PCI_CONFIG_DATA + Z.land offset 3).

Definition pciConfigReadWord (bus slot function offset : Z) : M W Z :=
  pciSetAddress bus slot function offset ;;
  inw (PCI_CONFIG_DATA + Z.land offset 2).

Definition pciConfigReadDWord (bus slot function offset : Z) : M W Z :=
  pciSetAddress bus slot function offset ;;
  inl PCI_CONFIG_DATA.

Definition pciConfigWriteByte (bus slot function offset data : Z) : M W unit :=
  pciSetAddress bus slot function offset ;;
  outb (PCI_CONFIG_DATA + Z.land offset 3) data.

Definition pciConfigWriteWord (bus slot function offset data : Z) : M W unit :=
  pciSetAddress bus slot function offset ;;
  outw (PCI_CONFIG_DATA + Z.land offset 2) data.

Definition pciConfigWriteDWord (bus slot function offset data : Z) : M W unit :=
  pciSetAddress bus slot function offset ;;
  outl PCI_CONFIG_DATA data.

Definition rdmsr (index : Z) : M W Z :=
  '(edx, eax) ← rdmsr_asm (u32 index);
  mret (Z.lor (Z.shiftl edx 32) eax).

Definition wrmsr (index val : Z) : M W unit :=
  wrmsr_asm (u32 index) (u32 (Z.shiftr val 32)) (u32 val).

Definition rdtsc : M W Z :=
  '(edx, eax) ← rdtsc_asm;
  mret (Z.lor (Z.shiftl edx 32) eax).

(** [delay]: spin until the counter reaches the stop value.  The loop has no
    bound of its own, so the fuel is a parameter and the result says whether
    the loop ended. *)
Fixpoint delay_loop (fuel : nat) (next_stop : Z) : M W bool :=
  match fuel with
  | O => mret false
  | S fuel' =>
    now ← rdtsc;
    if now <? next_stop then delay_loop fuel' next_stop else mret true
  end.

Definition delay (fuel : nat) (cycles : Z) : M W bool :=
  now ← rdtsc;
  delay_loop fuel (u64 (now + cycles)).

End Io.

(** * PCI configuration mechanism #1

    What the PCI specification says of the two ports: a 32-bit write to 0xCF8
    latches an address; while its bit 31 is set, an access of [n] bytes at
    0xCFC + k goes to byte [k] of the latched doubleword of the latched
    function.  Bits 1:0 of the latch are not used. *)

Definition latch_bdf (a : Z) : Z := Z.land (Z.shiftr a 8) 0xffff.
Definition latch_reg (a : Z) : Z := Z.land a 0xfc.

(** The access stays within the doubleword. *)
Definition data_lane (n : nat) (k : Z) : Prop :=
  (n = 1%nat \/ n = 2%nat \/ n = 4%nat) /\ 0 <= k /\ k + Z.of_nat n <= 4.

Class PciMechanism (W : Type) `{Machine W} := {
  latch : W -> Z;
  set_latch : Z -> W -> W;
  cfg_read : nat -> Z -> Z -> M W Z;             (* bytes, function, register *)
  cfg_write : nat -> Z -> Z -> Z -> M W unit;    (* bytes, function, register, value *)
  latch_set : forall a w, latch (set_latch a w) = a;
  address_out : forall a w, fits 32 a -> out_port 4 0xcf8 a w = (tt, set_latch a w);
  data_in : forall n k w, data_lane n k -> Z.testbit (latch w) 31 = true ->
    in_port n (0xcfc + k) w = cfg_read n (latch_bdf (latch w)) (latch_reg (latch w) + k) w;
  data_out : forall n k v w, data_lane n k -> Z.testbit (latch w) 31 = true ->
    out_port n (0xcfc + k) v w = cfg_write n (latch_bdf (latch w)) (latch_reg (latch w) + k) v w
}.

(** The number of a function: bus, device and function. *)
Definition pci_bdf (bus slot function : Z) : Z :=
  bus mod 256 * 256 + slot mod 32 * 8 + function mod 8.

Lemma pci_address_sum bus slot function offset :
  pci_address bus slot function offset =
  2 ^ 31 + bus mod 256 * 2 ^ 16 + slot mod 32 * 2 ^ 11 + function mod 8 * 2 ^ 8 + offset mod 256.
Proof.
  unfold pci_address.
  rewrite !land_255, land_31, land_7. unfold wrap at 2 3. rewrite pow2_8.
  assert (Hb := Z.mod_pos_bound bus 256 ltac:(lia)).
  assert (Hs := Z.mod_pos_bound slot 32 ltac:(lia)).
  assert (Hf := Z.mod_pos_bound function 8 ltac:(lia)).
  assert (Ho := Z.mod_pos_bound offset 256 ltac:(lia)).
  set (b := bus mod 256) in *. set (s := slot mod 32) in *. set (f := function mod 8) in *.
  set (o := offset mod 256) in *.
  rewrite (Z.lor_comm _ o), (Z.lor_comm _ (Z.shiftl f 8)), (Z.lor_comm _ (Z.shiftl s 11)),
    (Z.lor_comm _ (Z.shiftl b 16)).
  change 0x80000000 with (Z.shiftl 1 31).
  assert (fits 31 (Z.shiftl b 16)) by (apply (fits_shiftl 31 16); unfold fits; lia).
  rewrite (lor_add_shift 31 (Z.shiftl b 16) 1) by (done || lia).
  rewrite (Z.shiftl_mul_pow2 b) by lia.
  replace (b * 2 ^ 16 + 1 * 2 ^ 31) with (Z.shiftl (b + 2 ^ 15) 16)
    by (rewrite Z.shiftl_mul_pow2; lia).
  assert (fits 16 (Z.shiftl s 11)) by (apply (fits_shiftl 16 11); unfold fits; lia).
  rewrite (lor_add_shift 16) by (done || lia). rewrite (Z.shiftl_mul_pow2 s) by lia.
  replace (s * 2 ^ 11 + (b + 2 ^ 15) * 2 ^ 16) with (Z.shiftl (s + (b + 2 ^ 15) * 2 ^ 5) 11)
    by (rewrite Z.shiftl_mul_pow2; lia).
  assert (fits 11 (Z.shiftl f 8)) by (apply (fits_shiftl 11 8); unfold fits; lia).
  rewrite (lor_add_shift 11) by (done || lia). rewrite (Z.shiftl_mul_pow2 f) by lia.
  replace (f * 2 ^ 8 + (s + (b + 2 ^ 15) * 2 ^ 5) * 2 ^ 11)
    with (Z.shiftl (f + (s + (b + 2 ^ 15) * 2 ^ 5) * 2 ^ 3) 8) by (rewrite Z.shiftl_mul_pow2; lia).
  rewrite (lor_add_shift 8) by (unfold fits; lia).
  rewrite wrap_small; [lia|unfold fits; lia].
Qed.

Lemma pci_address_decode bus slot function offset :
  let a := pci_address bus slot function offset in
  fits 32 a /\ Z.testbit a 31 = true /\
  latch_bdf a = pci_bdf bus slot function /\
  latch_reg a = 4 * ((offset mod 256) / 4).
Proof.
  cbv zeta. rewrite pci_address_sum.
  assert (Hb := Z.mod_pos_bound bus 256 ltac:(lia)).
  assert (Hs := Z.mod_pos_bound slot 32 ltac:(lia)).
  assert (Hf := Z.mod_pos_bound function 8 ltac:(lia)).
  assert (Ho := Z.mod_pos_bound offset 256 ltac:(lia)).
  unfold latch_bdf, latch_reg, pci_bdf. rewrite land_65535.
  set (b := bus mod 256) in *. set (s := slot mod 32) in *. set (f := function mod 8) in *.
  set (o := offset mod 256) in *.
  split; [unfold fits; lia|]. split.
  { apply Z.testbit_true; [lia|]. change (2 ^ 31) with 2147483648. Z.div_mod_to_equations. lia. }
  split; [rewrite Z.shiftr_div_pow2 by lia; unfold wrap; Z.div_mod_to_equations; lia|].
  change 0xfc with (Z.shiftl (Z.ones 6) 2).
  apply Z.bits_inj'. intros i Hi.
  rewrite Z.land_spec, Z.shiftl_spec by lia.
  replace (4 * (o / 4)) with (Z.shiftl (Z.shiftr o 2) 2)
    by (rewrite Z.shiftl_mul_pow2, Z.shiftr_div_pow2 by lia;
        change (2 ^ 2) with 4; lia).
  rewrite Z.shiftl_spec by lia. destruct (Z.lt_ge_cases i 2).
  { rewrite (Z.testbit_neg_r (Z.ones 6)), (Z.testbit_neg_r (Z.shiftr o 2)) by lia. apply andb_false_r. }
  rewrite Z.shiftr_spec by lia. replace (i - 2 + 2) with i by lia.
  rewrite Z.testbit_ones by lia. destruct (Z.lt_ge_cases i 8).
  - replace (2 ^ 31 + b * 2 ^ 16 + s * 2 ^ 11 + f * 2 ^ 8 + o)
      with (o + (2 ^ 23 + b * 2 ^ 8 + s * 2 ^ 3 + f) * 2 ^ 8) by lia.
    rewrite <- (Z.mod_pow2_bits_low _ 8 i), Z_mod_plus_full, Z.mod_pow2_bits_low by lia.
    ztests. by rewrite andb_true_r.
  - rewrite (fits_testbit_high 8 o) by (unfold fits; lia). ztests; apply andb_false_r.
Qed.

Section Access.
Context {W : Type} `{PciMechanism W}.
Implicit Types (w : W).

Lemma set_address_run bus slot function offset w :
  pciSetAddress bus slot function offset w =
  (tt, set_latch (pci_address bus slot function offset) w).
Proof.
  unfold pciSetAddress, outl. change (u16 PCI_CONFIG_ADDRESS) with 0xcf8.
  rewrite wrap_small by apply (pci_address_decode bus slot function offset).
  apply address_out, (pci_address_decode bus slot function offset).
Qed.

(** The data port of a lane. *)
Lemma data_port k : 0 <= k < 4 -> u16 (PCI_CONFIG_DATA + k) = 0xcfc + k.
Proof. intros Hk. apply wrap_small. unfold fits, PCI_CONFIG_DATA. lia. Qed.

Lemma read_run n k bus slot function offset w :
  data_lane n k ->
  in_port n (u16 (PCI_CONFIG_DATA + k)) (set_latch (pci_address bus slot function offset) w) =
  cfg_read n (pci_bdf bus slot function) (4 * ((offset mod 256) / 4) + k)
    (set_latch (pci_address bus slot function offset) w).
Proof.
  intros Hl. destruct (pci_address_decode bus slot function offset) as (_ & Ht & Hb & Hr).
  pose proof Hl as ([-> | [-> | ->]] & Hk & Hk4); rewrite data_port by (simpl in *; lia);
    rewrite data_in by (rewrite ?latch_set; done); by rewrite latch_set, Hb, Hr.
Qed.

Lemma write_run n k v bus slot function offset w :
  data_lane n k ->
  out_port n (u16 (PCI_CONFIG_DATA + k)) v (set_latch (pci_address bus slot function offset) w) =
  cfg_write n (pci_bdf bus slot function) (4 * ((offset mod 256) / 4) + k) v
    (set_latch (pci_address bus slot function offset) w).
Proof.
  intros Hl. destruct (pci_address_decode bus slot function offset) as (_ & Ht & Hb & Hr).
  pose proof Hl as ([-> | [-> | ->]] & Hk & Hk4); rewrite data_port by (simpl in *; lia);
    rewrite data_out by (rewrite ?latch_set; done); by rewrite latch_set, Hb, Hr.
Qed.

Lemma lane_byte offset : data_lane 1 (offset mod 4).
Proof. pose proof (Z.mod_pos_bound offset 4). split; [auto|simpl; lia]. Qed.

Lemma land_2 offset : Z.land offset 2 = 2 * ((offset mod 4) / 2).
Proof.
  replace (Z.land offset 2) with (Z.land (Z.land offset 3) 2)
    by (rewrite <- Z.land_assoc; done).
  rewrite land_3. pose proof (Z.mod_pos_bound offset 4 ltac:(lia)) as Hm.
  assert (offset mod 4 = 0 \/ offset mod 4 = 1 \/ offset mod 4 = 2 \/ offset mod 4 = 3)
    as [-> | [-> | [-> | ->]]] by lia; done.
Qed.

Lemma lane_word offset : data_lane 2 (2 * ((offset mod 4) / 2)).
Proof. split; [auto|]. simpl. Z.div_mod_to_equations. lia. Qed.

Lemma lane_dword : data_lane 4 0.
Proof. split; [auto|simpl; lia]. Qed.

Lemma read_byte_run bus slot function offset w :
  pciConfigReadByte bus slot function offset w =
  cfg_read 1 (pci_bdf bus slot function) (offset mod 256)
    (set_latch (pci_address bus slot function offset) w).
Proof.
  unfold pciConfigReadByte. rewrite (run_step _ _ _ _ _ (set_address_run _ _ _ _ _)).
  unfold inb. rewrite land_3, read_run by apply lane_byte. f_equal.
  Z.div_mod_to_equations. lia.
Qed.

Lemma write_byte_run bus slot function offset data w :
  pciConfigWriteByte bus slot function offset data w =
  cfg_write 1 (pci_bdf bus slot function) (offset mod 256) (u8 data)
    (set_latch (pci_address bus slot function offset) w).
Proof.
  unfold pciConfigWriteByte. rewrite (run_step _ _ _ _ _ (set_address_run _ _ _ _ _)).
  unfold outb. rewrite land_3, write_run by apply lane_byte. f_equal.
  Z.div_mod_to_equations. lia.
Qed.

Lemma read_word_run bus slot function offset w :
  pciConfigReadWord bus slot function offset w =
  cfg_read 2 (pci_bdf bus slot function) (2 * ((offset mod 256) / 2))
    (set_latch (pci_address bus slot function offset) w).
Proof.
  unfold pciConfigReadWord. rewrite (run_step _ _ _ _ _ (set_address_run _ _ _ _ _)).
  unfold inw. rewrite land_2, read_run by apply lane_word. f_equal.
  Z.div_mod_to_equations. lia.
Qed.

Lemma write_word_run bus slot function offset data w :
  pciConfigWriteWord bus slot function offset data w =
  cfg_write 2 (pci_bdf bus slot function) (2 * ((offset mod 256) / 2)) (u16 data)
    (set_latch (pci_address bus slot function offset) w).
Proof.
  unfold pciConfigWriteWord. rewrite (run_step _ _ _ _ _ (set_address_run _ _ _ _ _)).
  unfold outw. rewrite land_2, write_run by apply lane_word. f_equal.
  Z.div_mod_to_equations. lia.
Qed.

Lemma read_dword_run bus slot function offset w :
  pciConfigReadDWord bus slot function offset w =
  cfg_read 4 (pci_bdf bus slot function) (4 * ((offset mod 256) / 4))
    (set_latch (pci_address bus slot function offset) w).
Proof.
  unfold pciConfigReadDWord. rewrite (run_step _ _ _ _ _ (set_address_run _ _ _ _ _)).
  unfold inl. rewrite <- (Z.add_0_r PCI_CONFIG_DATA), read_run by apply lane_dword.
  f_equal. lia.
Qed.

Lemma write_dword_run bus slot function offset data w :
  pciConfigWriteDWord bus slot function offset data w =
  cfg_write 4 (pci_bdf bus slot function) (4 * ((offset mod 256) / 4)) (u32 data)
    (set_latch (pci_address bus slot function offset) w).
Proof.
  unfold pciConfigWriteDWord. rewrite (run_step _ _ _ _ _ (set_address_run _ _ _ _ _)).
  unfold outl. rewrite <- (Z.add_0_r PCI_CONFIG_DATA), write_run by apply lane_dword.
  f_equal. lia.
Qed.

(** Each of the six configuration accessors makes one access of its width,
    to the function (bus mod 256, slot mod 32, function mod 8) and to the
    register it was given: the very byte for the byte accessors, the enclosing
    aligned word or doubleword for the wider ones. *)
Lemma pci_accessors_reach bus slot function offset data w :
  let a := pci_address bus slot function offset in
  let f := pci_bdf bus slot function in
  let r := offset mod 256 in
  pciConfigReadByte bus slot function offset w = cfg_read 1 f r (set_latch a w) /\
  pciConfigReadWord bus slot function offset w = cfg_read 2 f (2 * (r / 2)) (set_latch a w) /\
  pciConfigReadDWord bus slot function offset w = cfg_read 4 f (4 * (r / 4)) (set_latch a w) /\
  pciConfigWriteByte bus slot function offset data w =
    cfg_write 1 f r (u8 data) (set_latch a w) /\
  pciConfigWriteWord bus slot function offset data w =
    cfg_write 2 f (2 * (r / 2)) (u16 data) (set_latch a w) /\
  pciConfigWriteDWord bus slot function offset data w =
    cfg_write 4 f (4 * (r / 4)) (u32 data) (set_latch a w).
Proof.
  cbv zeta. auto 10 using read_byte_run, read_word_run, read_dword_run, write_byte_run,
    write_word_run, write_dword_run.
Qed.

End Access.
