(* ===== verification/Firmware.v ===== *)
(** UEFI as CSMWrap calls it: status codes, the configuration table, and the
    boot and runtime services its components use, as an interface.

    A component's definitions take the services from the class, and its
    theorems name the behaviour of a service they rely on as a hypothesis. *)

From stdpp Require Import base numbers list.
From Stdlib Require Import ZArith Lia.
From S2P Require Import Prelude Memory Machine.

Definition EFIERR (n : Z) : Z := 2 ^ 63 + n.

Definition EFI_SUCCESS : Z := 0.
Definition EFI_UNSUPPORTED : Z := EFIERR 3.
Definition EFI_OUT_OF_RESOURCES : Z := EFIERR 9.
Definition EFI_NOT_FOUND : Z := EFIERR 14.

(** [#define EFI_ERROR(a) (((INTN)(a)) < 0)]. *)
Definition EFI_ERROR (status : Z) : bool := to_signed 64 status <? 0.

(** [EFI_TIME]; the time zone and daylight fields are not used. *)
Record EFI_TIME := mkTime {
  Year : Z;
  Month : Z;
  Day : Z;
  Hour : Z;
  Minute : Z;
  Second : Z;
  Nanosecond : Z
}.

(** The services.  Allocation returns the status and the address; the time
    services return the status and what they filled in. *)
Class BootServices (W : Type) := {
  Stall : Z -> M W unit;                     (* microseconds *)
  AllocatePool : Z -> M W (Z * Z);           (* bytes; status, address *)
  FreePool : Z -> M W unit;
  GetTime : M W (Z * EFI_TIME)
}.

(** * GUIDs and the configuration table *)

(** The 16 bytes of an [EFI_GUID]. *)
Definition guid (d1 d2 d3 : Z) (d4 : list Z) : list Z :=
  le_bytes 4 d1 ++ le_bytes 2 d2 ++ le_bytes 2 d3 ++ d4.

Definition ACPI_TABLE_GUID : list Z :=
  guid 0xeb9d2d30 0x2d88 0x11d3 [0x9a; 0x16; 0x0; 0x90; 0x27; 0x3f; 0xc1; 0x4d].
Definition ACPI_20_TABLE_GUID : list Z :=
  guid 0x8868e871 0xe4f1 0x11d3 [0xbc; 0x22; 0x0; 0x80; 0xc7; 0x3c; 0x88; 0x81].
Definition SMBIOS_TABLE_GUID : list Z :=
  guid 0xeb9d2d31 0x2d88 0x11d3 [0x9a; 0x16; 0x0; 0x90; 0x27; 0x3f; 0xc1; 0x4d].
Definition SMBIOS3_TABLE_GUID : list Z :=
  guid 0xf2fd1544 0x9794 0x4a2c [0x99; 0x2e; 0xe5; 0xbb; 0xcf; 0x20; 0xe3; 0x94].

(** [efi_guidcmp]: its arguments are copies, compared as 16 bytes each. *)
Definition efi_guidcmp (left right : list Z) : Z :=
  Libc.memcmp (store_bytes (store_bytes (fun _ => 0) 0 left) 16 right) 0 16 16.

Definition guid_ok (g : list Z) : Prop := length g = 16%nat /\ Forall (fits 8) g.

Lemma efi_guidcmp_zero left right :
  guid_ok left -> guid_ok right -> efi_guidcmp left right = 0 <-> left = right.
Proof.
  intros [Hl1 Hl2] [Hr1 Hr2]. unfold efi_guidcmp.
  rewrite Libc.memcmp_zero.
  pose proof (load_store_bytes_same (store_bytes (fun _ => 0) 0 left) 16 right Hr2) as Hr.
  rewrite Hr1 in Hr. rewrite Hr.
  rewrite (load_bytes_ext _ (store_bytes (fun _ => 0) 0 left)).
  - pose proof (load_store_bytes_same (fun _ => 0) 0 left Hl2) as Hl. rewrite Hl1 in Hl.
    by rewrite Hl.
  - intros x Hx. apply store_bytes_out. lia.
Qed.

Record EFI_CONFIGURATION_TABLE := mkTable {
  VendorGuid : list Z;
  VendorTable : Z
}.

(** The search loop over [gST->ConfigurationTable], with its [break]: the
    first table of vendor [g]. *)
Fixpoint find_vendor (tables : list EFI_CONFIGURATION_TABLE) (g : list Z)
  : option EFI_CONFIGURATION_TABLE :=
  match tables with
  | [] => None
  | t :: tables' => if efi_guidcmp (VendorGuid t) g =? 0 then Some t else find_vendor tables' g
  end.

Lemma find_vendor_spec tables g :
  guid_ok g -> Forall (fun t => guid_ok (VendorGuid t)) tables ->
  match find_vendor tables g with
  | Some t => exists pre post, tables = pre ++ t :: post /\ VendorGuid t = g /\
                Forall (fun t' => VendorGuid t' <> g) pre
  | None => Forall (fun t => VendorGuid t <> g) tables
  end.
Proof.
  intros Hg Ht. induction Ht as [|t tables Ht Hts IH]; simpl; [done|].
  destruct (Z.eqb_spec (efi_guidcmp (VendorGuid t) g) 0) as [H0|H0].
  - apply efi_guidcmp_zero in H0; [|done|done]. by exists [], tables.
  - assert (VendorGuid t <> g) as Hne by (by rewrite <- efi_guidcmp_zero).
    destruct (find_vendor tables g) as [t'|]; [|by constructor].
    destruct IH as (pre & post & -> & He & Hpre). exists (t :: pre), post.
    split; [done|]. split; [done|]. by constructor.
Qed.
