(* ===== verification/Chipset.v ===== *)
(** A PC chipset as its data sheet describes it: the machine the theorems on
    unlocking and on the platform workarounds are stated for.

    Reads and writes of the legacy region 0xC0000-0xFFFFF go to memory or to
    the ROM behind it, segment by segment.  On Intel host bridges the PAM
    (programmable attribute map) registers decide: one nibble per segment, bit
    0 for reads and bit 1 for writes, the top 64 KB in the high nibble of the
    first register.  On AMD processors the extended type byte of the fixed
    MTRR of each 4 KB page decides, bit 4 for reads and bit 3 for writes,
    while SYS_CFG enables them.

    Comments of [src/unlock_region.c] differ from the data sheets: line 23 takes
    the two nibbles for reads and writes, lines 145-151 and 165-171 give PAM1 to
    PAM6 one segment of 16 KB each instead of two, and line 192 says that 0x30
    enables reads only.  The values the code writes open the region under the
    semantics given here.

    Function 31.1 is the P2SB bridge of newer Intel chipsets: while its hide
    bit is set its registers read as ones, and behind its base address lies
    the register that gates the clock of the timer. *)

From stdpp Require Import base numbers list.
From Stdlib Require Import ZArith Lia.
From S2P Require Import Prelude Memory Machine.

Inductive chipset :=
| Pam (base : Z) (lockable : bool)   (* first PAM register; bit 0 of it locks *)
| AmdMtrr.

Record pc := mkPc {
  pc_chip : chipset;
  pc_latch : Z;              (* port 0xCF8 *)
  pc_cfg : Z -> Z -> Z;      (* configuration bytes by function and register *)
  pc_msr : Z -> Z;
  pc_ram : mem;
  pc_rom : mem;
  pc_pit : Z;                (* counter 0 of the timer *)
  pc_lane : bool;            (* which byte of it the next read returns *)
  pc_tsc : Z
}.

Definition SYS_CFG : Z := 0xC0010010.

(** Memory and ROM behind an address: is the read (the write) sent to memory? *)
Definition pam_nibble (base a : Z) : Z * Z :=
  if 0xF0000 <=? a then (base, 4)
  else let k := (a - 0xC0000) / 0x4000 in (base + 1 + k / 2, 4 * (k mod 2)).

Definition attributes (s : pc) (a : Z) : bool * bool :=
  match pc_chip s with
  | Pam base _ =>
    let '(reg, shift) := pam_nibble base a in
    (Z.testbit (pc_cfg s 0 reg) shift, Z.testbit (pc_cfg s 0 reg) (shift + 1))
  | AmdMtrr =>
    let page := (a - 0xC0000) / 0x1000 in
    let t := Z.shiftr (pc_msr s (0x268 + page / 8)) (8 * (page mod 8)) in
    let on := Z.testbit (pc_msr s SYS_CFG) 18 in
    (on && Z.testbit t 4, on && Z.testbit t 3)
  end.

Definition in_region (a : Z) : bool := (0xC0000 <=? a) && (a <? 0x100000).

Definition readable (s : pc) (a : Z) : bool := negb (in_region a) || (attributes s a).1.
Definition writable (s : pc) (a : Z) : bool := negb (in_region a) || (attributes s a).2.

(** What a read returns. *)
Definition visible (s : pc) : mem := fun a => if readable s a then pc_ram s a else pc_rom s a.

Definition with_ram (s : pc) (m : mem) : pc :=
  mkPc (pc_chip s) (pc_latch s) (pc_cfg s) (pc_msr s) m (pc_rom s) (pc_pit s) (pc_lane s) (pc_tsc s).
Definition with_latch (s : pc) (a : Z) : pc :=
  mkPc (pc_chip s) a (pc_cfg s) (pc_msr s) (pc_ram s) (pc_rom s) (pc_pit s) (pc_lane s) (pc_tsc s).
Definition with_cfg (s : pc) (c : Z -> Z -> Z) : pc :=
  mkPc (pc_chip s) (pc_latch s) c (pc_msr s) (pc_ram s) (pc_rom s) (pc_pit s) (pc_lane s) (pc_tsc s).
Definition with_msr (s : pc) (f : Z -> Z) : pc :=
  mkPc (pc_chip s) (pc_latch s) (pc_cfg s) f (pc_ram s) (pc_rom s) (pc_pit s) (pc_lane s) (pc_tsc s).
Definition with_pit (s : pc) (n : Z) (lane : bool) : pc :=
  mkPc (pc_chip s) (pc_latch s) (pc_cfg s) (pc_msr s) (pc_ram s) (pc_rom s) n lane (pc_tsc s).
Definition with_tsc (s : pc) (n : Z) : pc :=
  mkPc (pc_chip s) (pc_latch s) (pc_cfg s) (pc_msr s) (pc_ram s) (pc_rom s) (pc_pit s) (pc_lane s) n.

(** A store reaches the bytes that are writable. *)
Definition pc_store8 (s : pc) (a v : Z) : pc :=
  if writable s a then with_ram s (store8 (pc_ram s) a v) else s.

Fixpoint pc_store_bytes (s : pc) (a : Z) (bs : list Z) : pc :=
  match bs with
  | [] => s
  | b :: bs' => pc_store_bytes (pc_store8 s a b) (a + 1) bs'
  end.

(** Configuration space: the identification registers are read only, and a
    locked host bridge ignores writes to its PAM registers. *)
Definition cfg_locked (s : pc) (bdf reg : Z) : bool :=
  (reg <? 4) ||
  match pc_chip s with
  | Pam base true => (bdf =? 0) && (base <=? reg) && (reg <? base + 7) && Z.testbit (pc_cfg s 0 base) 0
  | _ => false
  end.

Definition pc_cfg_set8 (s : pc) (bdf reg v : Z) : pc :=
  if cfg_locked s bdf reg then s
  else with_cfg s (fun b r => if (b =? bdf) && (r =? reg) then u8 v else pc_cfg s b r).

Fixpoint pc_cfg_set (s : pc) (bdf reg : Z) (bs : list Z) : pc :=
  match bs with
  | [] => s
  | b :: bs' => pc_cfg_set (pc_cfg_set8 s bdf reg b) bdf (reg + 1) bs'
  end.

(** The P2SB bridge (device 31, function 1) and its hide bit. *)
Definition p2sb : Z := 0xF9.
Definition hidden (s : pc) (bdf : Z) : bool :=
  (bdf =? p2sb) && Z.testbit (pc_cfg s p2sb 0xe1) 0.

Definition cfg_byte (s : pc) (bdf reg : Z) : Z :=
  if hidden s bdf then 0xff else pc_cfg s bdf reg.

Fixpoint pc_cfg_get (s : pc) (bdf reg : Z) (n : nat) : list Z :=
  match n with O => [] | S n' => cfg_byte s bdf reg :: pc_cfg_get s bdf (reg + 1) n' end.

(** The doubleword stored at a register, hidden or not. *)
Definition cfg32 (s : pc) (bdf reg : Z) : Z :=
  pc_cfg s bdf reg + 256 * (pc_cfg s bdf (reg + 1) +
    256 * (pc_cfg s bdf (reg + 2) + 256 * pc_cfg s bdf (reg + 3))).

(** Where the clock gating register of the interrupt and timer unit is, and
    whether it gates the timer. *)
Definition itss_prc (s : pc) : Z :=
  cfg32 s p2sb 0x10 - cfg32 s p2sb 0x10 mod 16 + 2 ^ 32 * cfg32 s p2sb 0x14 + 0xC43300.
Definition pit_gated (s : pc) : bool :=
  (u16 (cfg32 s p2sb 0) =? 0x8086) && Z.testbit (load32 (pc_ram s) (itss_prc s)) 2.

Definition pc_cfg_read (n : nat) (bdf reg : Z) : M pc Z :=
  fun s => (le_val (pc_cfg_get s bdf reg n), s).

Definition pc_cfg_write (n : nat) (bdf reg v : Z) : M pc unit :=
  fun s => (tt, pc_cfg_set s bdf reg (le_bytes n v)).

Definition is_data_port (port : Z) : bool := (0xcfc <=? port) && (port <? 0xd00).

(** Ports: the two of the configuration mechanism and the timer.  A write to
    the timer's command port latches; while its clock is not gated, the
    counter moves between two readings. *)
Definition pc_in_port (n : nat) (port : Z) : M pc Z := fun s =>
  if is_data_port port then
    if Z.testbit (pc_latch s) 31
    then pc_cfg_read n (latch_bdf (pc_latch s)) (latch_reg (pc_latch s) + (port - 0xcfc)) s
    else (2 ^ (8 * Z.of_nat n) - 1, s)
  else if port =? 0x40 then
    if pc_lane s
    then (u8 (Z.shiftr (pc_pit s) 8),
          with_pit s (if pit_gated s then pc_pit s else u16 (pc_pit s - 1)) false)
    else (u8 (pc_pit s), with_pit s (pc_pit s) true)
  else (2 ^ (8 * Z.of_nat n) - 1, s).

Definition pc_out_port (n : nat) (port v : Z) : M pc unit := fun s =>
  if (port =? 0xcf8) && (n =? 4)%nat then (tt, with_latch s v)
  else if is_data_port port && Z.testbit (pc_latch s) 31 then
    pc_cfg_write n (latch_bdf (pc_latch s)) (latch_reg (pc_latch s) + (port - 0xcfc)) v s
  else if port =? 0x43 then (tt, with_pit s (pc_pit s) false)
  else (tt, s).

(** Model-specific registers: on AMD the attribute bits of the fixed MTRRs
    change only while SYS_CFG allows it. *)
Definition is_fixed_mtrr (i : Z) : bool :=
  (i =? 0x250) || (i =? 0x258) || (i =? 0x259) || ((0x268 <=? i) && (i <? 0x270)).

Definition mtrr_attribute_mask : Z := 0x1818181818181818.

Definition msr_value (s : pc) (i v : Z) : Z :=
  if is_fixed_mtrr i && negb (Z.testbit (pc_msr s SYS_CFG) 19)
  then Z.lor (Z.land (pc_msr s i) mtrr_attribute_mask) (Z.ldiff v mtrr_attribute_mask)
  else v.

Definition pc_rdmsr (i : Z) : M pc (Z * Z) := fun s =>
  ((Z.shiftr (pc_msr s i) 32, u32 (pc_msr s i)), s).

Definition pc_wrmsr (i edx eax : Z) : M pc unit := fun s =>
  let v := msr_value s i (Z.lor (Z.shiftl edx 32) eax) in
  (tt, with_msr s (fun j => if j =? i then v else pc_msr s j)).

#[export] Instance pc_machine : Machine pc := {|
  in_port := pc_in_port;
  out_port := pc_out_port;
  read_mem n a := fun s => (load n (visible s) a, s);
  write_mem n a v := fun s => (tt, pc_store_bytes s a (le_bytes n v));
  clflush a := mret tt;
  rdmsr_asm := pc_rdmsr;
  wrmsr_asm := pc_wrmsr;
  rdtsc_asm := fun s => ((Z.shiftr (pc_tsc s) 32, u32 (pc_tsc s)), with_tsc s (u64 (pc_tsc s + 1)))
|}.

#[export] Instance pc_pci : PciMechanism pc.
Proof.
  refine {| latch := pc_latch; set_latch := fun a s => with_latch s a;
            cfg_read := pc_cfg_read; cfg_write := pc_cfg_write |}.
  - done.
  - intros a s Ha. done.
  - intros n k s Hl Ht. simpl. unfold pc_in_port, is_data_port.
    destruct Hl as (Hn & Hk & Hk4).
    assert (k < 4) by (destruct Hn as [-> | [-> | ->]]; simpl in *; lia).
    rewrite Ht. destruct (Z.leb_spec 0xcfc (0xcfc + k)), (Z.ltb_spec (0xcfc + k) 0xd00); try lia.
    simpl. do 2 f_equal. lia.
  - intros n k v s Hl Ht. simpl. unfold pc_out_port, is_data_port.
    destruct Hl as (Hn & Hk & Hk4).
    assert (k < 4) by (destruct Hn as [-> | [-> | ->]]; simpl in *; lia).
    rewrite Ht. destruct (Z.eqb_spec (0xcfc + k) 0xcf8); [lia|].
    destruct (Z.leb_spec 0xcfc (0xcfc + k)), (Z.ltb_spec (0xcfc + k) 0xd00); try lia.
    simpl. do 2 f_equal. lia.
Defined.

(** Outside the legacy region everything is memory. *)
Lemma outside_region s a : 0x100000 <= a -> readable s a = true /\ writable s a = true.
Proof. intros Ha. unfold readable, writable, in_region. by ztests. Qed.

(** * Aligned words *)

(** An aligned word has one attribute. *)
Lemma attributes_word s a i :
  a mod 4 = 0 -> 0 <= i < 4 -> attributes s (a + i) = attributes s a.
Proof.
  intros Ha Hi. unfold attributes. destruct (pc_chip s) as [base lockable|].
  - assert (pam_nibble base (a + i) = pam_nibble base a) as ->; [|done].
    unfold pam_nibble. assert ((0xF0000 <=? a + i) = (0xF0000 <=? a)) as ->.
    { apply eq_true_iff_eq. rewrite !Z.leb_le. Z.div_mod_to_equations. lia. }
    assert ((a + i - 0xC0000) / 0x4000 = (a - 0xC0000) / 0x4000) as ->; [|done].
    Z.div_mod_to_equations. lia.
  - assert ((a + i - 0xC0000) / 0x1000 = (a - 0xC0000) / 0x1000) as ->; [|done].
    Z.div_mod_to_equations. lia.
Qed.

Lemma in_region_word a i : a mod 4 = 0 -> 0 <= i < 4 -> in_region (a + i) = in_region a.
Proof.
  intros Ha Hi. apply eq_true_iff_eq. unfold in_region.
  rewrite !andb_true_iff, !Z.leb_le, !Z.ltb_lt. Z.div_mod_to_equations. lia.
Qed.

Lemma readable_word s a i : a mod 4 = 0 -> 0 <= i < 4 -> readable s (a + i) = readable s a.
Proof. intros. unfold readable. by rewrite in_region_word, attributes_word. Qed.

Lemma writable_word s a i : a mod 4 = 0 -> 0 <= i < 4 -> writable s (a + i) = writable s a.
Proof. intros. unfold writable. by rewrite in_region_word, attributes_word. Qed.

Lemma store_bytes_uniform s a bs b :
  (forall i, 0 <= i < Z.of_nat (length bs) -> writable s (a + i) = b) ->
  pc_store_bytes s a bs = if b then with_ram s (store_bytes (pc_ram s) a bs) else s.
Proof.
  revert s a. induction bs as [|c bs IH]; intros s a Hw; simpl.
  { by destruct b, s. }
  assert (writable s a = b) as Ha by (rewrite <- (Z.add_0_r a); apply Hw; simpl; lia).
  unfold pc_store8. rewrite Ha. destruct b.
  - rewrite IH; [done|]. intros i Hi. change (writable s (a + 1 + i) = true).
    rewrite <- Z.add_assoc. apply Hw. simpl. lia.
  - apply IH. intros i Hi. rewrite <- Z.add_assoc. apply Hw. simpl. lia.
Qed.

Lemma store_word s a v :
  a mod 4 = 0 ->
  pc_store_bytes s a (le_bytes 4 v) =
  if writable s a then with_ram s (store32 (pc_ram s) a v) else s.
Proof.
  intros Ha. apply store_bytes_uniform. intros i Hi. rewrite length_le_bytes in Hi.
  apply writable_word; [done|lia].
Qed.

Lemma load_visible_word s a :
  a mod 4 = 0 ->
  load32 (visible s) a = load32 (if readable s a then pc_ram s else pc_rom s) a.
Proof.
  intros Ha. apply load_ext. intros x Hx. unfold visible.
  replace x with (a + (x - a)) at 1 by lia. rewrite readable_word by (done || lia).
  by destruct (readable s a).
Qed.
