(* ===== verification/Unlock.v ===== *)
(** Making the legacy BIOS region writable ([src/unlock_region.c]).

    The code probes the region word by word, asks the Legacy Region 2
    protocol if the firmware has one, and otherwise programs the chipset it
    recognises by the identification of the host bridge.  The first part
    models it over any [Machine]; the theorems about what the chipset does
    then are stated for the data-sheet machine of [Chipset]. *)

From stdpp Require Import base numbers list strings.
From Stdlib Require Import ZArith Lia.
From S2P Require Import Prelude Memory Machine Firmware Chipset.

(** * Constants *)

Definition BIOSROM_START : Z := 0xC8000.
Definition BIOSROM_END : Z := 0x100000.

Definition PAM_LOCK_BIT : Z := 0x01.
Definition PAM_LOCK_REG : Z := 0x80.
Definition PAM_ENABLE : Z := 0x33.
Definition MSR_SYS_CFG : Z := 0xC0010010.
Definition SYS_CFG_MTRR_FIX_DRAM_EN : Z := Z.shiftl 1 18.
Definition SYS_CFG_MTRR_FIX_DRAM_MOD_EN : Z := Z.shiftl 1 19.
Definition MTRR_WB_DRAM : Z := 0x1E1E1E1E1E1E1E1E.
Definition INTEL_VENDOR_ID : Z := 0x8086.
Definition AMD_VENDOR_ID : Z := 0x1022.

(** [EFI_LEGACY_REGION_ATTRIBUTE] and [EFI_LEGACY_REGION_DESCRIPTOR]. *)
Inductive EFI_LEGACY_REGION_ATTRIBUTE :=
| LegacyRegionDecoded
| LegacyRegionNotDecoded
| LegacyRegionWriteEnabled
| LegacyRegionWriteDisabled
| LegacyRegionBootLocked
| LegacyRegionNotLocked
| LegacyRegionOther (n : Z).

Record EFI_LEGACY_REGION_DESCRIPTOR := mkRegion {
  Start : Z;
  RegionLength : Z;
  Attribute : EFI_LEGACY_REGION_ATTRIBUTE;
  Granularity : Z
}.

(** The firmware protocol: locating it, and its three services; each returns
    its status. *)
Class LegacyRegion2 (W : Type) := {
  locate_region2 : M W Z;
  region2_decode : Z -> Z -> bool -> M W Z;
  region2_unlock : Z -> Z -> M W Z;
  region2_get_info : M W (Z * list EFI_LEGACY_REGION_DESCRIPTOR)
}.

(** * The code *)

Section Unlock.
Context {W : Type} `{Machine W} `{LegacyRegion2 W}.

Definition unlock_legacy_region_protocol : M W Z :=
  status ← locate_region2;
  if EFI_ERROR status then mret status else
  status ← region2_decode 0xC0000 0x40000 true;
  if EFI_ERROR status then mret status else
  status ← region2_unlock 0xC0000 0x40000;
  if EFI_ERROR status then mret status else
  mret EFI_SUCCESS.

Definition unlock_piix4_pam : M W Z :=
  pciConfigWriteByte 0 0 0 0x59 PAM_ENABLE ;;
  pciConfigWriteByte 0 0 0 0x5a PAM_ENABLE ;;
  pciConfigWriteByte 0 0 0 0x5b PAM_ENABLE ;;
  pciConfigWriteByte 0 0 0 0x5c PAM_ENABLE ;;
  pciConfigWriteByte 0 0 0 0x5d PAM_ENABLE ;;
  pciConfigWriteByte 0 0 0 0x5e PAM_ENABLE ;;
  pciConfigWriteByte 0 0 0 0x5f PAM_ENABLE ;;
  mret 0.

Definition unlock_q35_pam : M W Z :=
  pciConfigWriteByte 0 0 0 0x90 PAM_ENABLE ;;
  pciConfigWriteByte 0 0 0 0x91 PAM_ENABLE ;;
  pciConfigWriteByte 0 0 0 0x92 PAM_ENABLE ;;
  pciConfigWriteByte 0 0 0 0x93 PAM_ENABLE ;;
  pciConfigWriteByte 0 0 0 0x94 PAM_ENABLE ;;
  pciConfigWriteByte 0 0 0 0x95 PAM_ENABLE ;;
  pciConfigWriteByte 0 0 0 0x96 PAM_ENABLE ;;
  mret 0.

(** [-1], stored into the unsigned [status] of the caller. *)
Definition minus_one : Z := 2 ^ 64 - 1.

Definition unlock_skylake_pam : M W Z :=
  lock ← pciConfigReadByte 0 0 0 PAM_LOCK_REG;
  if negb (Z.land lock PAM_LOCK_BIT =? 0) then mret minus_one else
  pciConfigWriteByte 0 0 0 0x80 0x30 ;;
  pciConfigWriteByte 0 0 0 0x81 PAM_ENABLE ;;
  pciConfigWriteByte 0 0 0 0x82 PAM_ENABLE ;;
  pciConfigWriteByte 0 0 0 0x83 PAM_ENABLE ;;
  pciConfigWriteByte 0 0 0 0x84 PAM_ENABLE ;;
  pciConfigWriteByte 0 0 0 0x85 PAM_ENABLE ;;
  pciConfigWriteByte 0 0 0 0x86 PAM_ENABLE ;;
  mret 0.

Definition unlock_amd_mtrr : M W Z :=
  val ← rdmsr MSR_SYS_CFG;
  wrmsr MSR_SYS_CFG (Z.lor val SYS_CFG_MTRR_FIX_DRAM_MOD_EN) ;;
  wrmsr 0x250 MTRR_WB_DRAM ;;
  wrmsr 0x258 MTRR_WB_DRAM ;;
  wrmsr 0x259 0 ;;
  wrmsr 0x268 MTRR_WB_DRAM ;;
  wrmsr 0x269 MTRR_WB_DRAM ;;
  wrmsr 0x26A MTRR_WB_DRAM ;;
  wrmsr 0x26B MTRR_WB_DRAM ;;
  wrmsr 0x26C MTRR_WB_DRAM ;;
  wrmsr 0x26D MTRR_WB_DRAM ;;
  wrmsr 0x26E MTRR_WB_DRAM ;;
  wrmsr 0x26F MTRR_WB_DRAM ;;
  val ← rdmsr MSR_SYS_CFG;
  wrmsr MSR_SYS_CFG (Z.lor (Z.ldiff val SYS_CFG_MTRR_FIX_DRAM_MOD_EN) SYS_CFG_MTRR_FIX_DRAM_EN) ;;
  mret 0.

(** What is printed for an attribute. *)
Definition attribute_name (a : EFI_LEGACY_REGION_ATTRIBUTE) : string :=
  match a with
  | LegacyRegionDecoded => "Read Enabled"
  | LegacyRegionNotDecoded => "Read Disabled"
  | LegacyRegionWriteEnabled => "Write Enabled"
  | LegacyRegionWriteDisabled => "Write Disabled"
  | LegacyRegionBootLocked => "Boot Locked"
  | LegacyRegionNotLocked => "Not Locked"
  | LegacyRegionOther _ => "Unknown"
  end.

(** The status and the lines printed: index, first and last address,
    granularity and attribute. *)
Definition print_legacy_region_info : M W (Z * list (nat * Z * Z * Z * string)) :=
  '(status, descriptors) ← region2_get_info;
  if EFI_ERROR status then mret (status, [])
  else mret (EFI_SUCCESS,
    imap (fun i d => (i, Start d, u32 (Start d + RegionLength d - 1), Granularity d,
                      attribute_name (Attribute d))) descriptors).

(** The probe, [n] words from [ptr]: complement each word, see whether it
    took, and put it back. *)
Fixpoint test_words (n : nat) (ptr : Z) : M W bool :=
  match n with
  | O => mret true
  | S n' =>
    clflush ptr ;;
    val ← readl ptr;
    writel ptr (u32 (Z.lnot val)) ;;
    clflush ptr ;;
    back ← readl ptr;
    if negb (back =? u32 (Z.lnot val)) then mret false
    else writel ptr val ;; test_words n' (ptr + 4)
  end.

Definition test_bios_region_rw : M W bool :=
  test_words (Z.to_nat ((BIOSROM_END - BIOSROM_START) / 4)) BIOSROM_START.

Definition unlock_chipset (vendor_id device_id : Z) : M W Z :=
  if vendor_id =? INTEL_VENDOR_ID then
    if (device_id =? 0x1237) || (device_id =? 0x7190) || (device_id =? 0x71A0) ||
       (device_id =? 0x7194) || (device_id =? 0x7180)
    then unlock_piix4_pam
    else if (device_id =? 0x29C0) || (device_id =? 0x29E0) then unlock_q35_pam
    else unlock_skylake_pam
  else if vendor_id =? AMD_VENDOR_ID then unlock_amd_mtrr
  else mret EFI_UNSUPPORTED.

(** The chipset-specific part, from the identification of the host bridge. *)
Definition unlock_by_host_bridge : M W Z :=
  host_bridge_id ← pciConfigReadDWord 0 0 0 0x0;
  let vendor_id := u16 (Z.land host_bridge_id 0xFFFF) in
  let device_id := u16 (Z.land (Z.shiftr host_bridge_id 16) 0xFFFF) in
  status ← unlock_chipset vendor_id device_id;
  if status =? 0 then
    ok ← test_bios_region_rw;
    mret (if ok : bool then 0 else -1)
  else mret (-1).

Definition unlock_bios_region : M W Z :=
  already ← test_bios_region_rw;
  if already : bool then mret 0 else
  status ← locate_region2;
  if negb (EFI_ERROR status) then
    print_legacy_region_info ;;
    status ← unlock_legacy_region_protocol;
    if EFI_ERROR status then unlock_by_host_bridge
    else
      ok ← test_bios_region_rw;
      if ok : bool then mret 0 else unlock_by_host_bridge
  else unlock_by_host_bridge.

(** Whatever the machine and the firmware do, [unlock_bios_region] returns
    0 or -1, and returns 0 only when the last thing it did was a probe of the
    whole region that passed. *)
Lemma unlock_probed w w' r :
  unlock_bios_region w = (r, w') ->
  (r = 0 /\ exists w0, test_bios_region_rw w0 = (true, w')) \/ r = -1.
Proof.
  assert (forall w w' r, unlock_by_host_bridge w = (r, w') ->
            (r = 0 /\ exists w0, test_bios_region_rw w0 = (true, w')) \/ r = -1) as Hhb.
  { clear. intros w w' r. unfold unlock_by_host_bridge. rewrite !run_bind.
    destruct (_ =? 0); [|intros [= <- _]; by right].
    rewrite run_bind. set (w0 := (unlock_chipset _ _ _).2).
    destruct (test_bios_region_rw w0) as [[] w1] eqn:Ht; intros [= <- <-]; eauto. }
  unfold unlock_bios_region. rewrite run_bind.
  destruct (test_bios_region_rw w) as [[] w1] eqn:Ht.
  { intros [= <- <-]. eauto. }
  simpl. rewrite run_bind. destruct (negb _); [|apply Hhb].
  rewrite !run_bind. destruct (EFI_ERROR _); [apply Hhb|]. rewrite run_bind.
  set (w2 := (unlock_legacy_region_protocol _).2).
  destruct (test_bios_region_rw w2) as [[] w3] eqn:Ht2; [|apply Hhb].
  intros [= <- <-]. eauto.
Qed.

End Unlock.

(** * On the data-sheet machine *)

(** Bytes of memory and of the ROM are bytes. *)
Definition pc_ok (s : pc) : Prop := mem_ok (pc_ram s) /\ mem_ok (pc_rom s).

(** [s'] differs from [s] only in memory, and only where reads do not see it. *)
Definition unseen (s s' : pc) : Prop :=
  exists m, s' = with_ram s m /\ mem_ok m /\ forall a, readable s a = true -> m a = pc_ram s a.

Lemma unseen_refl s : pc_ok s -> unseen s s.
Proof. intros [H _]. exists (pc_ram s). by destruct s. Qed.

Lemma unseen_trans s1 s2 s3 : unseen s1 s2 -> unseen s2 s3 -> unseen s1 s3.
Proof.
  intros (m1 & -> & Hok1 & H1) (m2 & -> & Hok2 & H2). exists m2. split; [done|]. split; [done|].
  intros a Ha. rewrite H2 by exact Ha. by apply H1.
Qed.

Lemma unseen_ok s s' : pc_ok s -> unseen s s' -> pc_ok s'.
Proof. intros [_ Hrom] (m & -> & Hm & _). by split. Qed.

Lemma unseen_visible s s' : unseen s s' -> visible s' ≡ visible s.
Proof.
  intros (m & -> & _ & Hm) a. unfold visible.
  change (readable (with_ram s m) a) with (readable s a).
  destruct (readable s a) eqn:Hr; [|done]. by apply Hm.
Qed.

Lemma complement_differs v : fits 32 v -> u32 (Z.lnot v) <> v.
Proof. intros Hv. unfold Z.lnot. word_lia. Qed.

Lemma visible_ok s : pc_ok s -> mem_ok (visible s).
Proof. intros [H1 H2] a. unfold visible. destruct (readable s a); [apply H1|apply H2]. Qed.

(** Writing back the word that was read restores memory. *)
Lemma restore_word m a v x :
  mem_ok m -> store32 (store32 m a v) a (load32 m a) x = m x.
Proof.
  intros Hok. destruct (decide (a <= x < a + 4)) as [Hx|Hx].
  - unfold store. apply store_bytes_in; [|lia|apply Hok].
    unfold load. pose proof (le_bytes_le_val _ (load_bytes_fits m a 4 Hok)) as Hl.
    rewrite length_load_bytes in Hl. rewrite Hl, lookup_load_bytes by lia. do 2 f_equal. lia.
  - by rewrite !store_out by lia.
Qed.

(** Both attributes of a word. *)
Definition rw (s : pc) (a : Z) : bool := readable s a && writable s a.

Lemma rw_unseen s s' a : unseen s s' -> rw s' a = rw s a.
Proof. by intros (m & -> & _ & _). Qed.

Fixpoint all_rw (n : nat) (s : pc) (ptr : Z) : bool :=
  match n with O => true | S n' => rw s ptr && all_rw n' s (ptr + 4) end.

Lemma all_rw_spec n s ptr :
  all_rw n s ptr = true <-> forall k, 0 <= k < Z.of_nat n -> rw s (ptr + 4 * k) = true.
Proof.
  revert ptr. induction n as [|n IH]; intros ptr; cbn [all_rw].
  { split; [intros _ k Hk; lia|done]. }
  rewrite andb_true_iff, IH. split.
  - intros [H0 Hn] k Hk. destruct (decide (k = 0)) as [->|].
    + by rewrite Z.mul_0_r, Z.add_0_r.
    + replace (ptr + 4 * k) with (ptr + 4 + 4 * (k - 1)) by lia. apply Hn. lia.
  - intros Hall. split.
    + rewrite <- (Z.add_0_r ptr). apply (Hall 0). lia.
    + intros k Hk. replace (ptr + 4 + 4 * k) with (ptr + 4 * (k + 1)) by lia. apply Hall. lia.
Qed.

Lemma all_rw_unseen n s s' ptr : unseen s s' -> all_rw n s' ptr = all_rw n s ptr.
Proof.
  intros Hu. revert ptr. induction n as [|n IH]; intros ptr; simpl; [done|].
  by rewrite (rw_unseen s s'), IH.
Qed.

(** One word of the probe. *)
Lemma test_word n ptr s :
  pc_ok s -> ptr mod 4 = 0 ->
  exists s', unseen s s' /\
    test_words (S n) ptr s = if rw s ptr then test_words n (ptr + 4) s' else (false, s').
Proof.
  intros Hok Hptr. pose proof Hok as [Hram Hrom].
  set (val := load32 (visible s) ptr).
  assert (fits 32 val) as Hval by apply (load_fits 4), visible_ok, Hok.
  set (s1 := pc_store_bytes s ptr (le_bytes 4 (u32 (u32 (Z.lnot val))))).
  assert (test_words (S n) ptr s =
    (if negb (load32 (visible s1) ptr =? u32 (Z.lnot val)) then mret false
     else writel ptr val ;; test_words n (ptr + 4)) s1) as -> by reflexivity.
  unfold s1. rewrite store_word, wrap_wrap by done. unfold rw.
  destruct (writable s ptr) eqn:Hw.
  - set (m1 := store32 (pc_ram s) ptr (u32 (Z.lnot val))).
    assert (mem_ok m1) as Hm1 by (by apply store_ok).
    rewrite load_visible_word by done.
    change (readable (with_ram s m1) ptr) with (readable s ptr).
    destruct (readable s ptr) eqn:Hr; cbn [andb].
    + change (pc_ram (with_ram s m1)) with m1. unfold m1 at 1. rewrite load_store_same.
      change (8 * Z.of_nat 4) with 32. rewrite wrap_wrap, Z.eqb_refl. cbn [negb].
      exists (with_ram s (store32 m1 ptr val)). split.
      { exists (store32 m1 ptr val). split; [done|]. split; [by apply store_ok|].
        intros x Hx. unfold m1, val. rewrite load_visible_word, Hr by done. by apply restore_word. }
      assert (writel ptr val (with_ram s m1) = (tt, with_ram s (store32 m1 ptr val))) as Hwr.
      { change (writel ptr val (with_ram s m1))
          with (tt, pc_store_bytes (with_ram s m1) ptr (le_bytes 4 (u32 val))).
        rewrite store_word, (wrap_small 32 val) by done.
        change (writable (with_ram s m1) ptr) with (writable s ptr). by rewrite Hw. }
      by rewrite (run_step _ _ _ _ _ Hwr).
    + change (pc_rom (with_ram s m1)) with (pc_rom s). exists (with_ram s m1).
      assert (load32 (pc_rom s) ptr = val) as ->.
      { unfold val. by rewrite load_visible_word, Hr. }
      destruct (Z.eqb_spec val (u32 (Z.lnot val))); [by destruct (complement_differs val)|].
      split; [|done]. exists m1. split; [done|]. split; [done|]. intros x Hx.
      unfold m1. apply store_out. destruct (decide (ptr <= x < ptr + 4)); [|lia].
      replace x with (ptr + (x - ptr)) in Hx by lia.
      rewrite readable_word, Hr in Hx by (done || lia). done.
  - fold val. destruct (Z.eqb_spec val (u32 (Z.lnot val))); [by destruct (complement_differs val)|].
    rewrite andb_false_r. exists s. split; [by apply unseen_refl|done].
Qed.

Lemma test_words_spec n ptr s :
  pc_ok s -> ptr mod 4 = 0 ->
  exists s', test_words n ptr s = (all_rw n s ptr, s') /\ unseen s s'.
Proof.
  revert ptr s. induction n as [|n IH]; intros ptr s Hok Hptr.
  { exists s. split; [done|by apply unseen_refl]. }
  destruct (test_word n ptr s Hok Hptr) as (s1 & Hu & ->). cbn [all_rw].
  destruct (rw s ptr); [|by exists s1].
  destruct (IH (ptr + 4) s1) as (s2 & -> & Hu2).
  - by eapply unseen_ok.
  - Z.div_mod_to_equations. lia.
  - exists s2. split; [|by eapply unseen_trans]. simpl. by rewrite (all_rw_unseen n s s1).
Qed.

(** The probed part of the region is readable and writable memory. *)
Definition region_rw (s : pc) (first : Z) : Prop :=
  forall a, first <= a < BIOSROM_END -> readable s a = true /\ writable s a = true.

Lemma test_region s :
  pc_ok s ->
  exists b s', test_bios_region_rw s = (b, s') /\ unseen s s' /\
    (b = true <-> region_rw s BIOSROM_START).
Proof.
  intros Hok. unfold test_bios_region_rw.
  destruct (test_words_spec (Z.to_nat ((BIOSROM_END - BIOSROM_START) / 4)) BIOSROM_START s Hok)
    as (s' & Ht & Hu); [done|].
  eexists _, s'. split; [exact Ht|]. split; [done|]. rewrite all_rw_spec.
  change (Z.of_nat (Z.to_nat ((BIOSROM_END - BIOSROM_START) / 4))) with 57344.
  unfold region_rw, rw, BIOSROM_START, BIOSROM_END. split.
  - intros Hall a Ha. set (k := (a - 0xC8000) / 4).
    assert (a = 0xC8000 + 4 * k + (a - 0xC8000) mod 4 /\ 0 <= k < 57344 /\
            0 <= (a - 0xC8000) mod 4 < 4 /\ (0xC8000 + 4 * k) mod 4 = 0) as (Hk1 & Hk2 & Hk3 & Hk4).
    { subst k. Z.div_mod_to_equations. lia. }
    specialize (Hall k Hk2). apply andb_true_iff in Hall as [H1 H2].
    rewrite Hk1, readable_word, writable_word by done. done.
  - intros Hall k Hk. destruct (Hall (0xC8000 + 4 * k)) as [-> ->]; [lia|done].
Qed.

(** The probe of the legacy region is transparent and exact: it changes
    nothing a read can see nor anything but memory, in every setting of the
    chipset, and it passes exactly when the whole region from 0xC8000 to
    0xFFFFF is readable and writable memory. *)
Lemma test_bios_region_rw_exact s :
  pc_ok s ->
  exists b s', test_bios_region_rw s = (b, s') /\ (b = true <-> region_rw s BIOSROM_START) /\
    visible s' ≡ visible s /\ s' = with_ram s (pc_ram s').
Proof.
  intros Hok. destruct (test_region s Hok) as (b & s' & Ht & Hu & Hb).
  exists b, s'. split; [done|]. split; [done|]. split; [by apply unseen_visible|].
  by destruct Hu as (m & -> & _).
Qed.

(** ** Programming the PAM registers *)

Definition pam_set (r v : Z) (s : pc) : pc :=
  pc_cfg_set8 (with_latch s (pci_address 0 0 0 r)) 0 (r mod 256) (u8 v).

Lemma pam_step {A} r v (k : M pc A) s :
  (pciConfigWriteByte 0 0 0 r v ;; k) s = k (pam_set r v s).
Proof.
  apply (run_step _ (fun _ => k) s (pam_set r v s) tt). rewrite write_byte_run. unfold cfg_write, pc_pci, pc_cfg_write, pam_set.
  cbn [le_bytes pc_cfg_set]. by rewrite wrap_wrap.
Qed.

(** A PAM host bridge that takes writes. *)
Definition pam_free (s : pc) (base : Z) (lockable : bool) : Prop :=
  pc_chip s = Pam base lockable /\ 4 <= base < 200 /\
  (lockable = true -> Z.testbit (pc_cfg s 0 base) 0 = false).

Lemma pam_set_cfg s base l r v :
  pam_free s base l -> 4 <= r < 256 -> fits 8 v ->
  pc_cfg (pam_set r v s) = fun b x => if (b =? 0) && (x =? r) then v else pc_cfg s b x.
Proof.
  intros (Hc & Hb & Hl) Hr Hv. unfold pam_set, pc_cfg_set8.
  rewrite Z.mod_small by lia. unfold cfg_locked. cbn [pc_chip pc_cfg with_latch]. rewrite Hc.
  destruct (Z.ltb_spec r 4); [lia|]. cbn [orb].
  assert ((if l then (0 =? 0) && (base <=? r) && (r <? base + 7) && Z.testbit (pc_cfg s 0 base) 0
           else false) = false) as Hlock.
  { destruct l; [|done]. rewrite Hl by done. by rewrite andb_false_r. }
  destruct l; rewrite ?Hlock; cbn [pc_cfg with_cfg];
    rewrite (wrap_small 8 (u8 v)), wrap_small by (done || apply wrap_fits; lia); done.
Qed.

Lemma pam_set_chip r v s : pc_chip (pam_set r v s) = pc_chip s.
Proof. unfold pam_set, pc_cfg_set8. by destruct (cfg_locked _ _ _). Qed.

Lemma pam_set_mem r v s : pc_ram (pam_set r v s) = pc_ram s /\ pc_rom (pam_set r v s) = pc_rom s.
Proof. unfold pam_set, pc_cfg_set8. by destruct (cfg_locked _ _ _). Qed.

Lemma pam_set_ok r v s : pc_ok s -> pc_ok (pam_set r v s).
Proof. unfold pc_ok. destruct (pam_set_mem r v s) as [-> ->]. done. Qed.

Lemma pam_set_free s base l r v :
  pam_free s base l -> 4 <= r < 256 -> fits 8 v ->
  (r = base -> l = true -> Z.testbit v 0 = false) -> pam_free (pam_set r v s) base l.
Proof.
  intros Hf Hr Hv Hbit. pose proof Hf as (Hc & Hb & Hl). split; [by rewrite pam_set_chip|].
  split; [done|]. intros Htrue. rewrite (pam_set_cfg s base l) by done. simpl.
  destruct (Z.eqb_spec base r) as [->|]; [by apply Hbit|by apply Hl].
Qed.

(** The seven writes. *)
Definition pam_all (base v0 : Z) (s : pc) : pc :=
  fold_left (fun s i => pam_set (base + i) 0x33 s) [1; 2; 3; 4; 5; 6] (pam_set base v0 s).

Lemma pam_all_spec s base l v0 :
  pam_free s base l -> fits 8 v0 -> (l = true -> Z.testbit v0 0 = false) ->
  pam_free (pam_all base v0 s) base l /\
  pc_cfg (pam_all base v0 s) 0 base = v0 /\
  (forall i, 1 <= i <= 6 -> pc_cfg (pam_all base v0 s) 0 (base + i) = 0x33) /\
  (forall b r, b <> 0 \/ r < base \/ base + 7 <= r -> pc_cfg (pam_all base v0 s) b r = pc_cfg s b r).
Proof.
  intros Hf Hv Hbit. pose proof Hf as (_ & Hb & _).
  pose proof (pam_set_free s base l base v0 Hf ltac:(lia) Hv (fun _ => Hbit)) as Hf0.
  assert (forall i t, 1 <= i <= 6 -> pam_free t base l -> pam_free (pam_set (base + i) 0x33 t) base l)
    as Hstep.
  { intros i t Hi Ht. apply pam_set_free; [done|lia|unfold fits; lia|lia]. }
  unfold pam_all. cbn [fold_left].
  set (t0 := pam_set base v0 s) in *.
  set (t1 := pam_set (base + 1) 0x33 t0). assert (pam_free t1 base l) as Hf1 by (apply Hstep; done).
  set (t2 := pam_set (base + 2) 0x33 t1). assert (pam_free t2 base l) as Hf2 by (apply Hstep; done).
  set (t3 := pam_set (base + 3) 0x33 t2). assert (pam_free t3 base l) as Hf3 by (apply Hstep; done).
  set (t4 := pam_set (base + 4) 0x33 t3). assert (pam_free t4 base l) as Hf4 by (apply Hstep; done).
  set (t5 := pam_set (base + 5) 0x33 t4). assert (pam_free t5 base l) as Hf5 by (apply Hstep; done).
  set (t6 := pam_set (base + 6) 0x33 t5). assert (pam_free t6 base l) as Hf6 by (apply Hstep; done).
  assert (forall b r, pc_cfg t6 b r =
    if (b =? 0) && (base + 1 <=? r) && (r <=? base + 6) then 0x33
    else if (b =? 0) && (r =? base) then v0 else pc_cfg s b r) as Hcfg.
  { intros b r. unfold t6. rewrite (pam_set_cfg t5 base l) by (done || lia || unfold fits; lia).
    unfold t5. rewrite (pam_set_cfg t4 base l) by (done || lia || unfold fits; lia).
    unfold t4. rewrite (pam_set_cfg t3 base l) by (done || lia || unfold fits; lia).
    unfold t3. rewrite (pam_set_cfg t2 base l) by (done || lia || unfold fits; lia).
    unfold t2. rewrite (pam_set_cfg t1 base l) by (done || lia || unfold fits; lia).
    unfold t1. rewrite (pam_set_cfg t0 base l) by (done || lia || unfold fits; lia).
    unfold t0. rewrite (pam_set_cfg s base l) by (done || lia || unfold fits; lia).
    destruct (b =? 0); simpl; [|done]. ztests; done. }
  split; [done|]. split; [rewrite Hcfg; simpl; by ztests|].
  split; [intros i Hi; rewrite Hcfg; simpl; by ztests|].
  intros b r Hbr. rewrite Hcfg. destruct (Z.eqb_spec b 0); simpl; [|done]. ztests; done || lia.
Qed.

(** The region the methods open, which begins below the one that is probed. *)
Definition REGION_START : Z := 0xC0000.

(** All segments open. *)
Lemma pam_open s base l :
  pc_chip s = Pam base l -> Z.testbit (pc_cfg s 0 base) 4 = true ->
  Z.testbit (pc_cfg s 0 base) 5 = true ->
  (forall i, 1 <= i <= 6 -> pc_cfg s 0 (base + i) = 0x33) -> region_rw s REGION_START.
Proof.
  intros Hc H4 H5 Hall a Ha. unfold REGION_START, BIOSROM_END in Ha.
  assert (attributes s a = (true, true)) as Hattr.
  { unfold attributes. rewrite Hc. unfold pam_nibble. destruct (Z.leb_spec 0xF0000 a).
    { change (4 + 1) with 5. by rewrite H4, H5. }
    set (k := (a - 0xC0000) / 0x4000).
    assert (0 <= k < 12) as Hk by (subst k; Z.div_mod_to_equations; lia).
    replace (base + 1 + k / 2) with (base + (1 + k / 2)) by lia.
    rewrite Hall by (Z.div_mod_to_equations; lia).
    assert (k mod 2 = 0 \/ k mod 2 = 1) as [-> | ->]; [|done|done].
    pose proof (Z.mod_pos_bound k 2). lia. }
  unfold readable, writable. by rewrite Hattr, !orb_true_r.
Qed.

(** ** Programming the fixed MTRRs *)

Definition msr_set (i v : Z) (s : pc) : pc :=
  with_msr s (fun j => if j =? i then msr_value s i v else pc_msr s j).

Lemma msr_set_chip i v s : pc_chip (msr_set i v s) = pc_chip s.
Proof. done. Qed.

Lemma msr_set_at i v s j :
  pc_msr (msr_set i v s) j = if j =? i then msr_value s i v else pc_msr s j.
Proof. done. Qed.

Lemma msr_set_ok i v s : pc_ok s -> pc_ok (msr_set i v s).
Proof. done. Qed.

Lemma msr_value_sys s v : msr_value s SYS_CFG v = v.
Proof. done. Qed.

Lemma halves v : fits 64 v -> Z.lor (Z.shiftl (u32 (Z.shiftr v 32)) 32) (u32 v) = v.
Proof.
  intros Hv. rewrite Z.lor_comm, lor_add_shift by (lia || apply wrap_fits; lia).
  rewrite Z.shiftr_div_pow2 by lia. word_lia.
Qed.

Lemma wrmsr_step {A} i v (k : M pc A) s :
  fits 32 i -> fits 64 v -> (wrmsr i v ;; k) s = k (msr_set i v s).
Proof.
  intros Hi Hv. apply (run_step _ (fun _ => k) s (msr_set i v s) tt).
  unfold wrmsr, wrmsr_asm, pc_machine, pc_wrmsr, msr_set.
  rewrite (halves v Hv), (wrap_small 32 i Hi). done.
Qed.

Lemma rdmsr_run i s : fits 32 i -> fits 64 (pc_msr s i) -> rdmsr i s = (pc_msr s i, s).
Proof.
  intros Hi Hv. unfold rdmsr. rewrite run_bind. simpl. rewrite (wrap_small 32 i Hi).
  pose proof (halves (pc_msr s i) Hv) as Hh.
  rewrite (wrap_small 32 (Z.shiftr _ _)) in Hh
    by (rewrite Z.shiftr_div_pow2 by lia; word_lia).
  by rewrite run_ret, Hh.
Qed.

Definition msr_writes (l : list (Z * Z)) (s : pc) : pc :=
  fold_left (fun s iv => msr_set iv.1 iv.2 s) l s.

Lemma msr_writes_spec l s :
  Z.testbit (pc_msr s SYS_CFG) 19 = true -> Forall (fun iv => iv.1 <> SYS_CFG) l ->
  pc_chip (msr_writes l s) = pc_chip s /\ pc_ram (msr_writes l s) = pc_ram s /\
  pc_rom (msr_writes l s) = pc_rom s /\ pc_cfg (msr_writes l s) = pc_cfg s /\
  forall j, pc_msr (msr_writes l s) j =
    fold_left (fun acc iv => if j =? iv.1 then iv.2 else acc) l (pc_msr s j).
Proof.
  revert s. induction l as [|[i v] l IH]; intros s Hopen Hl; [done|].
  apply Forall_cons in Hl as [Hi Hl]. cbn [msr_writes fold_left fst snd] in *.
  assert (forall j, pc_msr (msr_set i v s) j = if j =? i then v else pc_msr s j) as Hm.
  { intros j. unfold msr_set. cbn [pc_msr with_msr]. unfold msr_value.
    by rewrite Hopen, andb_false_r. }
  destruct (IH (msr_set i v s)) as (H1 & H2 & H3 & H4 & H5); [|done|].
  { rewrite Hm. by destruct (Z.eqb_spec SYS_CFG i). }
  repeat (split; [done|]). intros j. by rewrite <- Hm.
Qed.

Definition mtrr_values : list (Z * Z) :=
  [(0x250, MTRR_WB_DRAM); (0x258, MTRR_WB_DRAM); (0x259, 0);
   (0x268, MTRR_WB_DRAM); (0x269, MTRR_WB_DRAM); (0x26A, MTRR_WB_DRAM);
   (0x26B, MTRR_WB_DRAM); (0x26C, MTRR_WB_DRAM); (0x26D, MTRR_WB_DRAM);
   (0x26E, MTRR_WB_DRAM); (0x26F, MTRR_WB_DRAM)].

Definition amd_opened (s : pc) : pc :=
  msr_writes mtrr_values (msr_set SYS_CFG (Z.lor (pc_msr s SYS_CFG) SYS_CFG_MTRR_FIX_DRAM_MOD_EN) s).

Definition amd_all (s : pc) : pc :=
  msr_set SYS_CFG
    (Z.lor (Z.ldiff (pc_msr (amd_opened s) SYS_CFG) SYS_CFG_MTRR_FIX_DRAM_MOD_EN)
       SYS_CFG_MTRR_FIX_DRAM_EN) (amd_opened s).

Lemma amd_opened_spec s :
  pc_chip (amd_opened s) = pc_chip s /\ pc_ram (amd_opened s) = pc_ram s /\
  pc_rom (amd_opened s) = pc_rom s /\ pc_cfg (amd_opened s) = pc_cfg s /\
  forall j, pc_msr (amd_opened s) j =
    fold_left (fun acc iv => if j =? iv.1 then iv.2 else acc) mtrr_values
      (if j =? SYS_CFG then Z.lor (pc_msr s SYS_CFG) SYS_CFG_MTRR_FIX_DRAM_MOD_EN else pc_msr s j).
Proof.
  apply (msr_writes_spec mtrr_values (msr_set SYS_CFG (Z.lor (pc_msr s SYS_CFG)
    SYS_CFG_MTRR_FIX_DRAM_MOD_EN) s)); [|repeat constructor; done].
  change (Z.testbit (Z.lor (pc_msr s SYS_CFG) SYS_CFG_MTRR_FIX_DRAM_MOD_EN) 19 = true).
  rewrite Z.lor_spec. apply orb_true_r.
Qed.

Lemma unlock_amd_run s :
  fits 64 (pc_msr s SYS_CFG) -> unlock_amd_mtrr s = (0, amd_all s).
Proof.
  intros Hfit. unfold unlock_amd_mtrr, MSR_SYS_CFG. fold SYS_CFG.
  assert (fits 32 SYS_CFG) as Hi by (unfold fits; done).
  assert (fits 64 (Z.lor (pc_msr s SYS_CFG) SYS_CFG_MTRR_FIX_DRAM_MOD_EN)) as Hl
    by (apply fits_lor; [lia|done|unfold fits; done]).
  rewrite (run_step _ _ _ _ _ (rdmsr_run SYS_CFG s Hi Hfit)).
  rewrite wrmsr_step by done. rewrite !wrmsr_step by (unfold fits; done).
  fold (msr_writes mtrr_values (msr_set SYS_CFG (Z.lor (pc_msr s SYS_CFG)
    SYS_CFG_MTRR_FIX_DRAM_MOD_EN) s)).
  destruct (amd_opened_spec s) as (_ & _ & _ & _ & Hm).
  assert (fits 64 (pc_msr (amd_opened s) SYS_CFG)) as Hf2 by (by rewrite Hm).
  change (msr_set 0x26F _ _) with (amd_opened s).
  rewrite (run_step _ _ _ _ _ (rdmsr_run SYS_CFG _ Hi Hf2)).
  rewrite wrmsr_step; [done|done|].
  apply fits_lor; [lia|by apply fits_ldiff|unfold fits; done].
Qed.

Lemma amd_open s : pc_chip s = AmdMtrr -> region_rw (amd_all s) REGION_START.
Proof.
  intros Hc a Ha. unfold REGION_START, BIOSROM_END in Ha.
  destruct (amd_opened_spec s) as (Hc' & _ & _ & _ & Hm).
  assert (attributes (amd_all s) a = (true, true)) as Hattr.
  { unfold attributes. unfold amd_all at 1. rewrite msr_set_chip, Hc', Hc.
    set (page := (a - 0xC0000) / 0x1000).
    assert (0 <= page < 64) as Hp by (subst page; Z.div_mod_to_equations; lia).
    assert (Z.testbit (pc_msr (amd_all s) SYS_CFG) 18 = true) as ->.
    { unfold amd_all. rewrite msr_set_at, Z.eqb_refl, msr_value_sys.
      rewrite Z.lor_spec. apply orb_true_r. }
    assert (pc_msr (amd_all s) (0x268 + page / 8) = MTRR_WB_DRAM) as ->.
    { unfold amd_all. rewrite msr_set_at.
      destruct (Z.eqb_spec (0x268 + page / 8) SYS_CFG) as [He|_].
      { unfold SYS_CFG in He. Z.div_mod_to_equations. lia. }
      rewrite Hm. set (q := page / 8).
      assert (q = 0 \/ q = 1 \/ q = 2 \/ q = 3 \/ q = 4 \/ q = 5 \/ q = 6 \/ q = 7) as Hq
        by (subst q; Z.div_mod_to_equations; lia).
      by destruct Hq as [-> | [-> | [-> | [-> | [-> | [-> | [-> | ->]]]]]]]. }
    set (q := page mod 8).
    assert (q = 0 \/ q = 1 \/ q = 2 \/ q = 3 \/ q = 4 \/ q = 5 \/ q = 6 \/ q = 7) as Hq
      by (pose proof (Z.mod_pos_bound page 8); subst q; lia).
    by destruct Hq as [-> | [-> | [-> | [-> | [-> | [-> | [-> | ->]]]]]]]. }
  unfold readable, writable. by rewrite Hattr, !orb_true_r.
Qed.

(** ** The whole function *)

(** The identification of the host bridge. *)
Definition bridge_id (s : pc) : Z := le_val (pc_cfg_get s 0 0 4).

(** A chipset the code knows, with the identification it has. *)
Definition known_chipset (s : pc) : Prop :=
  let vendor := u16 (bridge_id s) in
  let device := u16 (Z.shiftr (bridge_id s) 16) in
  match pc_chip s with
  | Pam base lockable =>
    vendor = 0x8086 /\
    ((base = 0x59 /\ lockable = false /\ device ∈ [0x1237; 0x7190; 0x71A0; 0x7194; 0x7180]) \/
     (base = 0x90 /\ lockable = false /\ device ∈ [0x29C0; 0x29E0]) \/
     (base = 0x80 /\ lockable = true /\
      device ∉ [0x1237; 0x7190; 0x71A0; 0x7194; 0x7180; 0x29C0; 0x29E0]))
  | AmdMtrr => vendor = 0x1022 /\ fits 64 (pc_msr s SYS_CFG)
  end.

(** The PAM registers are not locked. *)
Definition not_locked (s : pc) : Prop :=
  match pc_chip s with
  | Pam base true => Z.testbit (pc_cfg s 0 base) 0 = false
  | _ => True
  end.

Lemma unlock_piix4_run s : unlock_piix4_pam s = (0, pam_all 0x59 0x33 s).
Proof.
  unfold unlock_piix4_pam, PAM_ENABLE. rewrite !pam_step.
  unfold pam_all. cbn [fold_left]. zeval. reflexivity.
Qed.

Lemma unlock_q35_run s : unlock_q35_pam s = (0, pam_all 0x90 0x33 s).
Proof.
  unfold unlock_q35_pam, PAM_ENABLE. rewrite !pam_step.
  unfold pam_all. cbn [fold_left]. zeval. reflexivity.
Qed.

Lemma read_lock_run s :
  pciConfigReadByte 0 0 0 0x80 s = (pc_cfg s 0 0x80, with_latch s (pci_address 0 0 0 0x80)).
Proof.
  rewrite read_byte_run. unfold cfg_read, pc_pci, pc_cfg_read. cbn [pc_cfg_get le_val].
  rewrite Z.mul_0_r, Z.add_0_r. done.
Qed.

Lemma lock_bit v : negb (Z.land v 1 =? 0) = Z.testbit v 0.
Proof. rewrite land_1, <- Z.bit0_mod. by destruct (Z.testbit v 0). Qed.

Lemma unlock_skylake_run s :
  unlock_skylake_pam s =
  if Z.testbit (pc_cfg s 0 0x80) 0 then (minus_one, with_latch s (pci_address 0 0 0 0x80))
  else (0, pam_all 0x80 0x30 (with_latch s (pci_address 0 0 0 0x80))).
Proof.
  unfold unlock_skylake_pam, PAM_LOCK_REG, PAM_LOCK_BIT, PAM_ENABLE.
  rewrite (run_step _ _ _ _ _ (read_lock_run s)), lock_bit.
  destruct (Z.testbit _ 0); [done|]. rewrite !pam_step.
  unfold pam_all. cbn [fold_left]. zeval. reflexivity.
Qed.

Lemma bridge_id_run s :
  pciConfigReadDWord 0 0 0 0 s = (bridge_id s, with_latch s (pci_address 0 0 0 0)).
Proof. rewrite read_dword_run. done. Qed.

Lemma pam_all_ok base v0 s : pc_ok s -> pc_ok (pam_all base v0 s).
Proof. intros Hok. unfold pam_all. cbn [fold_left]. by repeat apply pam_set_ok. Qed.

Lemma amd_all_ok s : pc_ok s -> pc_ok (amd_all s).
Proof.
  intros Hok. apply msr_set_ok. destruct (amd_opened_spec s) as (_ & H1 & H2 & _ & _).
  unfold pc_ok. rewrite H1, H2. exact Hok.
Qed.

Lemma pam_all_open s base l v0 :
  pam_free s base l -> v0 = 0x33 \/ v0 = 0x30 -> (l = true -> v0 = 0x30) ->
  region_rw (pam_all base v0 s) REGION_START.
Proof.
  intros Hf Hv Hl. destruct (pam_all_spec s base l v0 Hf) as (Hf' & H0 & Hi & _).
  - destruct Hv as [-> | ->]; unfold fits; lia.
  - intros ->. by rewrite Hl.
  - apply (pam_open _ base l); [apply Hf'|..|done]; rewrite H0; by destruct Hv as [-> | ->].
Qed.

(** Which method the two identifiers select. *)
Section Selection.
Context {W : Type} `{Machine W}.

Lemma select_piix4 dev :
  dev ∈ [0x1237; 0x7190; 0x71A0; 0x7194; 0x7180] -> unlock_chipset 0x8086 dev = unlock_piix4_pam.
Proof.
  rewrite !elem_of_cons, elem_of_nil.
  by intros [-> | [-> | [-> | [-> | [-> | []]]]]].
Qed.

Lemma select_q35 dev : dev ∈ [0x29C0; 0x29E0] -> unlock_chipset 0x8086 dev = unlock_q35_pam.
Proof. rewrite !elem_of_cons, elem_of_nil. by intros [-> | [-> | []]]. Qed.

Lemma select_skylake dev :
  dev ∉ [0x1237; 0x7190; 0x71A0; 0x7194; 0x7180; 0x29C0; 0x29E0] ->
  unlock_chipset 0x8086 dev = unlock_skylake_pam.
Proof.
  rewrite !not_elem_of_cons. intros (H1 & H2 & H3 & H4 & H5 & H6 & H7 & _).
  unfold unlock_chipset. cbn [Z.eqb Pos.eqb INTEL_VENDOR_ID].
  by rewrite !(proj2 (Z.eqb_neq dev _)) by done.
Qed.

End Selection.

(** A known chipset that is not locked ends up with the region open. *)
Lemma unlock_chipset_opens s :
  pc_ok s -> known_chipset s -> not_locked s ->
  exists t, unlock_chipset (u16 (bridge_id s)) (u16 (Z.shiftr (bridge_id s) 16)) s = (0, t) /\
    pc_ok t /\ region_rw t REGION_START.
Proof.
  intros Hok Hknown Hlock. unfold known_chipset in Hknown. unfold not_locked in Hlock.
  destruct (pc_chip s) as [base l|] eqn:Hc.
  - destruct Hknown as [-> [(-> & -> & Hdev)|[(-> & -> & Hdev)|(-> & -> & Hdev)]]].
    + rewrite (select_piix4 _ Hdev), unlock_piix4_run. eexists. split; [reflexivity|].
      split; [by apply pam_all_ok|]. eapply (pam_all_open _ _ false); [|by left|done]. by split.
    + rewrite (select_q35 _ Hdev), unlock_q35_run. eexists. split; [reflexivity|].
      split; [by apply pam_all_ok|]. eapply (pam_all_open _ _ false); [|by left|done]. by split.
    + rewrite (select_skylake _ Hdev), unlock_skylake_run, Hlock.
      eexists. split; [reflexivity|]. split; [by apply pam_all_ok|].
      eapply (pam_all_open _ _ true); [|by right|done]. split; [done|]. by split.
  - destruct Hknown as [-> Hf]. change (unlock_chipset 0x1022 _) with unlock_amd_mtrr.
    rewrite unlock_amd_run by done.
    eexists. split; [reflexivity|]. split; [by apply amd_all_ok|by apply amd_open].
Qed.

Section Whole.
Context `{LegacyRegion2 pc}.
Hypothesis no_protocol : forall s, locate_region2 s = (EFI_NOT_FOUND, s).

Lemma unseen_fields s s' :
  unseen s s' -> pc_chip s' = pc_chip s /\ pc_cfg s' = pc_cfg s /\ pc_msr s' = pc_msr s.
Proof. by intros (m & -> & _). Qed.

Lemma unseen_bridge s s' : unseen s s' -> bridge_id s' = bridge_id s.
Proof. by intros (m & -> & _). Qed.

Lemma unseen_region s s' first : unseen s s' -> region_rw s first -> region_rw s' first.
Proof. by intros (m & -> & _). Qed.

(** The run up to the choice of method, when the first probe fails. *)
Lemma unlock_to_chipset s s1 :
  test_bios_region_rw s = (false, s1) ->
  unlock_bios_region s =
  (status ← unlock_chipset (u16 (bridge_id s1)) (u16 (Z.shiftr (bridge_id s1) 16));
   if status =? 0 then
     ok ← test_bios_region_rw; mret (if ok : bool then 0 else -1)
   else mret (-1)) (with_latch s1 (pci_address 0 0 0 0)).
Proof.
  intros Ht. unfold unlock_bios_region.
  rewrite (run_step _ _ _ _ _ Ht), (run_step _ _ _ _ _ (no_protocol s1)).
  change (EFI_ERROR EFI_NOT_FOUND) with true. cbn [negb].
  unfold unlock_by_host_bridge. rewrite (run_step _ _ _ _ _ (bridge_id_run s1)).
  rewrite !land_65535, !wrap_wrap. reflexivity.
Qed.

Lemma region_rw_above s first first' : first <= first' -> region_rw s first -> region_rw s first'.
Proof. intros Hle Hrw a Ha. apply Hrw. lia. Qed.

(** C28: with no Legacy Region 2 protocol, on a PIIX4, Q35 or Skylake-class
    host bridge whose PAM registers are not locked and on an AMD processor,
    [unlock_bios_region] returns 0.  If the region it probes, 0xC8000 to
    0xFFFFF, was not all readable and writable memory before, then 0xC0000 to
    0xFFFFF is after it, whatever the attributes were; if it was, nothing is
    programmed. *)
Theorem unlock_opens_region s :
  pc_ok s -> known_chipset s -> not_locked s ->
  exists s', unlock_bios_region s = (0, s') /\ region_rw s' BIOSROM_START /\
    (~ region_rw s BIOSROM_START -> region_rw s' REGION_START) /\
    (region_rw s BIOSROM_START ->
     pc_cfg s' = pc_cfg s /\ pc_msr s' = pc_msr s /\ visible s' ≡ visible s).
Proof.
  intros Hok Hknown Hlock. destruct (test_region s Hok) as (b & s1 & Ht & Hu & Hb).
  destruct (unseen_fields s s1 Hu) as (E1 & E2 & E3). destruct b.
  { exists s1. split; [by unfold unlock_bios_region; rewrite (run_step _ _ _ _ _ Ht)|].
    pose proof (proj1 Hb eq_refl) as Hopen. split; [by eapply unseen_region|]. split; [done|].
    intros _. split; [done|]. split; [done|]. by apply unseen_visible. }
  rewrite (unlock_to_chipset s s1 Ht).
  set (s2 := with_latch s1 (pci_address 0 0 0 0)).
  pose proof (unseen_ok s s1 Hok Hu) as Hok1.
  destruct (unlock_chipset_opens s2) as (t & Hrun & Hokt & Hrw).
  - exact Hok1.
  - unfold known_chipset, s2 in *. change (bridge_id (with_latch s1 _)) with (bridge_id s1).
    rewrite (unseen_bridge s s1 Hu). cbn [pc_chip with_latch pc_msr]. by rewrite E1, E3.
  - unfold not_locked, s2 in *. cbn [pc_chip with_latch pc_cfg]. by rewrite E1, E2.
  - change (bridge_id s2) with (bridge_id s1) in Hrun.
    rewrite (run_step _ _ _ _ _ Hrun). cbn [Z.eqb].
    destruct (test_region t Hokt) as (b2 & t2 & Ht2 & Hu2 & Hb2).
    assert (Hprobed : region_rw t BIOSROM_START) by (by apply (region_rw_above t REGION_START)).
    rewrite (run_step _ _ _ _ _ Ht2). rewrite (proj2 Hb2 Hprobed).
    exists t2. split; [done|]. split; [by eapply unseen_region|].
    split; [intros _; by eapply unseen_region|]. intros Hopen. by apply Hb in Hopen.
Qed.

(** On a Skylake-class host bridge with locked PAM registers and a region
    that is not writable, [unlock_bios_region] returns -1 and writes no
    configuration register and no MSR, and no read sees a difference. *)
Lemma unlock_locked_is_harmless s :
  pc_ok s -> known_chipset s -> pc_chip s = Pam 0x80 true ->
  Z.testbit (pc_cfg s 0 0x80) 0 = true -> ~ region_rw s BIOSROM_START ->
  exists s', unlock_bios_region s = (-1, s') /\ pc_cfg s' = pc_cfg s /\
    pc_msr s' = pc_msr s /\ visible s' ≡ visible s.
Proof.
  intros Hok Hknown Hchip Hlock Hrw. destruct (test_region s Hok) as (b & s1 & Ht & Hu & Hb).
  destruct b; [destruct Hrw; by apply Hb|].
  rewrite (unlock_to_chipset s s1 Ht). destruct (unseen_fields s s1 Hu) as (E1 & E2 & E3).
  unfold known_chipset in Hknown. rewrite Hchip in Hknown.
  destruct Hknown as [Hv [(? & _)|[(? & _)|(_ & _ & Hdev)]]]; [done|done|].
  rewrite (unseen_bridge s s1 Hu), Hv, (select_skylake _ Hdev).
  set (s2 := with_latch s1 (pci_address 0 0 0 0)).
  assert (unlock_skylake_pam s2 = (minus_one, with_latch s2 (pci_address 0 0 0 0x80))) as Hrun.
  { rewrite unlock_skylake_run. unfold s2. cbn [pc_cfg with_latch]. by rewrite E2, Hlock. }
  rewrite (run_step _ _ _ _ _ Hrun). exists (with_latch s2 (pci_address 0 0 0 0x80)).
  split; [reflexivity|]. unfold s2. cbn [pc_cfg pc_msr with_latch]. rewrite E2, E3.
  split; [done|]. split; [done|]. apply (unseen_visible s s1 Hu).
Qed.

End Whole.

(** * Witnesses *)

(** Firmware without the protocol. *)
#[local] Instance no_region2 : LegacyRegion2 pc := {|
  locate_region2 := mret EFI_NOT_FOUND;
  region2_decode _ _ _ := mret EFI_NOT_FOUND;
  region2_unlock _ _ := mret EFI_NOT_FOUND;
  region2_get_info := mret (EFI_NOT_FOUND, [])
|}.

Lemma no_region2_absent (s : pc) : locate_region2 s = (EFI_NOT_FOUND, s).
Proof. reflexivity. Qed.

(** A 440FX with everything closed, and a locked newer bridge. *)
Definition sample_pc (chip : chipset) (device pam0 : Z) : pc :=
  mkPc chip 0
    (fun b r => if (b =? 0) && (r <? 4) then nth (Z.to_nat r) [0x86; 0x80; u8 device; Z.shiftr device 8] 0
                else if (b =? 0) && (r =? 0x80) then pam0 else 0)
    (fun _ => 0) (fun _ => 0) (fun _ => 0xff) 0 false 0.

Lemma sample_pc_ok chip device pam0 : pc_ok (sample_pc chip device pam0).
Proof. split; intros a; unfold fits; simpl; lia. Qed.

Lemma pci_accessors_reach_witness :
  pciConfigReadByte 0 31 1 0xe1 (sample_pc AmdMtrr 0 0) =
  (0, with_latch (sample_pc AmdMtrr 0 0) 0x8000f9e1).
Proof.
  rewrite (proj1 (pci_accessors_reach 0 31 1 0xe1 0 (sample_pc AmdMtrr 0 0))). reflexivity.
Defined.

Lemma unlock_probed_witness :
  let s := sample_pc AmdMtrr 0x1234 0 in
  let r := unlock_bios_region s in
  (r.1 = 0 /\ exists w0, test_bios_region_rw w0 = (true, r.2)) \/ r.1 = -1.
Proof.
  intros s r. apply (unlock_probed s r.2 r.1). apply surjective_pairing.
Defined.

Lemma test_bios_region_rw_exact_witness :
  exists b s', test_bios_region_rw (sample_pc (Pam 0x59 false) 0x1237 0) = (b, s') /\
    visible s' ≡ visible (sample_pc (Pam 0x59 false) 0x1237 0).
Proof.
  destruct (test_bios_region_rw_exact (sample_pc (Pam 0x59 false) 0x1237 0) (sample_pc_ok _ _ _))
    as (b & s' & H1 & _ & H2 & _).
  exists b, s'. split; [exact H1|exact H2].
Defined.

Lemma unlock_opens_region_witness :
  exists s', unlock_bios_region (sample_pc (Pam 0x59 false) 0x1237 0) = (0, s') /\
    region_rw s' 0xC0000.
Proof.
  destruct (unlock_opens_region no_region2_absent (sample_pc (Pam 0x59 false) 0x1237 0)
           (sample_pc_ok _ _ _)) as (s' & Hrun & _ & Hopen & _); [|done|].
  - split; [reflexivity|]. left. split; [done|]. split; [done|]. by left.
  - exists s'. split; [exact Hrun|]. apply Hopen. intros Hrw.
    destruct (Hrw BIOSROM_START) as [Hr _]; [unfold BIOSROM_START, BIOSROM_END; lia|].
    vm_compute in Hr. discriminate.
Defined.

Lemma unlock_locked_is_harmless_witness :
  exists s', unlock_bios_region (sample_pc (Pam 0x80 true) 0x191f 1) = (-1, s') /\
    pc_cfg s' = pc_cfg (sample_pc (Pam 0x80 true) 0x191f 1).
Proof.
  set (s := sample_pc (Pam 0x80 true) 0x191f 1).
  assert (known_chipset s) as Hknown.
  { split; [reflexivity|]. do 2 right. split; [reflexivity|]. split; [reflexivity|].
    apply (bool_decide_unpack _). vm_compute. exact I. }
  assert (~ region_rw s BIOSROM_START) as Hrw.
  { intros Hrw. destruct (Hrw BIOSROM_START) as [Hr _]; [unfold BIOSROM_START, BIOSROM_END; lia|].
    vm_compute in Hr. discriminate. }
  destruct (unlock_locked_is_harmless no_region2_absent s (sample_pc_ok _ _ _) Hknown
              eq_refl eq_refl Hrw) as (s' & H1 & H2 & _).
  exists s'. split; [exact H1|exact H2].
Defined.
