(* ===== verification/IntelPit.v ===== *)
(** The Intel platform workaround ([src/intel_workarounds.c]): ungate the
    clock of the 8254 timer through the P2SB bridge, and test that the timer
    counts.

    The bridge may be hidden; the code unhides it, clears the gating bit of
    the register behind its base address and hides it again.  The calls are
    modelled over any machine; the theorems say what they do on the data-sheet
    machine. *)

From stdpp Require Import base numbers list.
From Stdlib Require Import ZArith Lia.
From S2P Require Import Prelude Memory Machine Firmware Chipset.

Definition PCI_DEVICE_NUMBER_PCH_P2SB : Z := 31.
Definition PCI_FUNCTION_NUMBER_PCH_P2SB : Z := 1.
Definition SBREG_BAR : Z := 0x10.
Definition SBREG_BARH : Z := 0x14.
Definition PID_ITSS : Z := 0xC4.
Definition R_PCH_PCR_ITSS_ITSSPRC : Z := 0x3300.
Definition B_PCH_PCR_ITSS_ITSSPRC_8254CGE : Z := Z.shiftl 1 2.
Definition R_P2SB_CFG_P2SBC : Z := 0xe0.
Definition B_P2SB_CFG_P2SBC_HIDE : Z := Z.shiftl 1 8.
Definition PORT_PIT_COUNTER0 : Z := 0x40.
Definition PORT_PIT_MODE : Z := 0x43.
(** [PM_SEL_READBACK | PM_READ_VALUE | PM_READ_COUNTER0]. *)
Definition PM_LATCH_COUNTER0 : Z := Z.lor (Z.lor (Z.shiftl 3 6) (Z.shiftl 1 4)) (Z.shiftl 1 1).

Definition PCH_PCR_ADDRESS (base pid offset : Z) : Z :=
  Z.lor (Z.lor (Z.lor base (u32 (Z.shiftl (Z.land offset 0x0F0000) 8)))
               (Z.shiftl (u8 pid) 16))
        (u16 (Z.land offset 0xFFFF)).

Section Workaround.
Context {W : Type} `{Machine W} `{BootServices W}.

Definition p2sb_read (offset : Z) : M W Z :=
  pciConfigReadDWord 0 PCI_DEVICE_NUMBER_PCH_P2SB PCI_FUNCTION_NUMBER_PCH_P2SB offset.
Definition p2sb_write (offset v : Z) : M W unit :=
  pciConfigWriteDWord 0 PCI_DEVICE_NUMBER_PCH_P2SB PCI_FUNCTION_NUMBER_PCH_P2SB offset v.

(** A 16-bit reading of counter 0, low byte first. *)
Definition read_counter0 : M W Z :=
  outb PORT_PIT_MODE PM_LATCH_COUNTER0 ;;
  lo ← inb PORT_PIT_COUNTER0;
  hi ← inb PORT_PIT_COUNTER0;
  mret (u16 (Z.lor lo (Z.shiftl hi 8))).

(** The code from the label [test_pit]. *)
Definition test_pit : M W Z :=
  v1 ← read_counter0;
  Stall 1000 ;;
  v2 ← read_counter0;
  if v1 =? v2 then mret (-1) else mret 0.

(** Disable the gating bit behind the bridge. *)
Definition clear_8254cge : M W unit :=
  bar ← p2sb_read SBREG_BAR;
  barh ← p2sb_read SBREG_BARH;
  let base := Z.lor (Z.land bar (u32 (Z.lnot 0x0F))) (u64 (Z.shiftl (Z.land barh 0xFFFFFFFF) 32)) in
  reg ← readl (PCH_PCR_ADDRESS base PID_ITSS R_PCH_PCR_ITSS_ITSSPRC);
  writel (PCH_PCR_ADDRESS base PID_ITSS R_PCH_PCR_ITSS_ITSSPRC)
    (Z.ldiff reg B_PCH_PCR_ITSS_ITSSPRC_8254CGE).

Definition pit_8254cge_workaround : M W Z :=
  reg ← p2sb_read 0x0;
  let p2sb_hide := Z.land reg 0xFFFF =? 0xffff in
  (if p2sb_hide then
     reg ← p2sb_read R_P2SB_CFG_P2SBC;
     p2sb_write R_P2SB_CFG_P2SBC (Z.ldiff reg B_P2SB_CFG_P2SBC_HIDE)
   else mret tt) ;;
  reg ← p2sb_read 0x0;
  if negb (Z.land reg 0xFFFF =? 0x8086) then test_pit
  else
    clear_8254cge ;;
    (if p2sb_hide then
       reg ← p2sb_read R_P2SB_CFG_P2SBC;
       p2sb_write R_P2SB_CFG_P2SBC (Z.lor reg B_P2SB_CFG_P2SBC_HIDE)
     else mret tt) ;;
    test_pit.

(** The result of the workaround is not used. *)
Definition apply_intel_platform_workarounds : M W Z :=
  vendor_id ← pciConfigReadWord 0 0 0 0x0;
  if negb (vendor_id =? 0x8086) then mret 0
  else pit_8254cge_workaround ;; mret 0.

(** On a machine whose host bridge is not Intel's, the workaround makes the
    one configuration read that finds that out and nothing else. *)
Lemma workaround_skips_others `{!PciMechanism W} w :
  let r := cfg_read 2 0 0 (set_latch 0x80000000 w) in
  r.1 <> 0x8086 -> apply_intel_platform_workarounds w = (0, r.2).
Proof.
  intros r Hr. unfold apply_intel_platform_workarounds. rewrite run_bind, read_word_run.
  change (pci_address 0 0 0 0) with 0x80000000. change (pci_bdf 0 0 0) with 0.
  change (2 * (0 mod 256 / 2)) with 0. fold r.
  destruct (Z.eqb_spec r.1 0x8086); [done|]. reflexivity.
Qed.

End Workaround.

(** * On the data-sheet machine *)

#[local] Instance pc_services : BootServices pc := {|
  Stall _ := mret tt;
  AllocatePool _ := mret (EFI_OUT_OF_RESOURCES, 0);
  FreePool _ := mret tt;
  GetTime := mret (EFI_SUCCESS, mkTime 1970 1 1 0 0 0 0)
|}.

Abbreviation latch_at s off := (with_latch s (pci_address 0 31 1 off)).

Lemma p2sb_read_run s off :
  0 <= off < 256 -> off mod 4 = 0 ->
  p2sb_read off s = (if hidden s p2sb then 0xFFFFFFFF else cfg32 s p2sb off, latch_at s off).
Proof.
  intros Ho Ha. unfold p2sb_read, PCI_DEVICE_NUMBER_PCH_P2SB, PCI_FUNCTION_NUMBER_PCH_P2SB.
  rewrite read_dword_run. unfold cfg_read, pc_pci, pc_cfg_read.
  change (pci_bdf 0 _ _) with p2sb.
  replace (4 * (off mod 256 / 4)) with off by (Z.div_mod_to_equations; lia).
  cbn [pc_cfg_get le_val set_latch]. unfold cfg_byte.
  change (hidden (latch_at s off) p2sb) with (hidden s p2sb). destruct (hidden s p2sb); [done|].
  unfold cfg32. cbn [pc_cfg with_latch]. f_equal. rewrite Z.mul_0_r, Z.add_0_r.
  replace (off + 1 + 1) with (off + 2) by lia. by replace (off + 2 + 1) with (off + 3) by lia.
Qed.

(** The control register after a write of [v]. *)
Definition set_p2sbc (s : pc) (v : Z) : pc :=
  pc_cfg_set (latch_at s 0xe0) p2sb 0xe0 (le_bytes 4 v).

Lemma p2sb_write_run s v :
  fits 32 v -> p2sb_write R_P2SB_CFG_P2SBC v s = (tt, set_p2sbc s v).
Proof.
  intros Hv. unfold p2sb_write, PCI_DEVICE_NUMBER_PCH_P2SB, PCI_FUNCTION_NUMBER_PCH_P2SB.
  rewrite write_dword_run, wrap_small by done. done.
Qed.

Lemma set8_unlocked s bdf reg v :
  bdf <> 0 -> 4 <= reg ->
  pc_cfg_set8 s bdf reg v =
  with_cfg s (fun b r => if (b =? bdf) && (r =? reg) then u8 v else pc_cfg s b r).
Proof.
  intros Hb Hr. unfold pc_cfg_set8, cfg_locked.
  destruct (Z.ltb_spec reg 4), (Z.eqb_spec bdf 0); try lia. simpl.
  destruct (pc_chip s) as [base []|]; done.
Qed.

Lemma set_p2sbc_cfg s v b r :
  pc_cfg (set_p2sbc s v) b r =
  if (b =? p2sb) && (0xe0 <=? r) && (r <? 0xe4)
  then u8 (Z.shiftr v (8 * (r - 0xe0))) else pc_cfg s b r.
Proof.
  unfold set_p2sbc. cbn [le_bytes pc_cfg_set]. rewrite !set8_unlocked by (done || lia).
  cbn [pc_cfg with_cfg with_latch]. rewrite !wrap_wrap, !Z.shiftr_shiftr by lia. zeval.
  destruct (b =? p2sb); [|done]. cbn [andb].
  destruct (Z.eqb_spec r 0xe3) as [->|]; [done|]. destruct (Z.eqb_spec r 0xe2) as [->|]; [done|].
  destruct (Z.eqb_spec r 0xe1) as [->|]; [done|]. destruct (Z.eqb_spec r 0xe0) as [->|]; [done|].
  destruct (Z.leb_spec 0xe0 r), (Z.ltb_spec r 0xe4); done || lia.
Qed.

(** Everything but the control register is as before. *)
Lemma set_p2sbc_same s v :
  pc_chip (set_p2sbc s v) = pc_chip s /\ pc_ram (set_p2sbc s v) = pc_ram s /\
  pc_rom (set_p2sbc s v) = pc_rom s /\ pc_msr (set_p2sbc s v) = pc_msr s /\
  pc_pit (set_p2sbc s v) = pc_pit s.
Proof.
  unfold set_p2sbc. cbn [le_bytes pc_cfg_set]. rewrite !set8_unlocked by (done || lia). done.
Qed.

Lemma set_p2sbc_cfg32 s v off :
  off + 4 <= 0xe0 -> cfg32 (set_p2sbc s v) p2sb off = cfg32 s p2sb off.
Proof. intros Ho. unfold cfg32. rewrite !set_p2sbc_cfg. cbn [Z.eqb]. ztests; done || lia. Qed.

Lemma set_p2sbc_value s v : fits 32 v -> cfg32 (set_p2sbc s v) p2sb 0xe0 = v.
Proof.
  intros Hv. unfold cfg32. rewrite !set_p2sbc_cfg. simpl.
  pose proof (le_val_le_bytes 4 v) as Hl. cbn [le_bytes le_val] in Hl.
  rewrite !Z.shiftr_shiftr in Hl by lia. change (8 * Z.of_nat 4) with 32 in Hl.
  rewrite (wrap_small 32 v) in Hl by done. simpl in Hl |- *. rewrite Z.shiftr_0_r.
  rewrite Z.mul_0_r, Z.add_0_r in Hl. exact Hl.
Qed.

Lemma set_p2sbc_hidden s v : hidden (set_p2sbc s v) p2sb = Z.testbit v 8.
Proof.
  unfold hidden. rewrite Z.eqb_refl, set_p2sbc_cfg.
  change (Z.testbit (u8 (Z.shiftr v 8)) 0 = Z.testbit v 8).
  rewrite wrap_testbit, Z.shiftr_spec by lia. done.
Qed.

(** ** The timer test *)

Lemma counter_value n : fits 16 n -> u16 (Z.lor (u8 n) (Z.shiftl (u8 (Z.shiftr n 8)) 8)) = n.
Proof.
  intros Hn. rewrite lor_add_shift by (lia || apply wrap_fits; lia).
  rewrite Z.shiftr_div_pow2 by lia. word_lia.
Qed.

Lemma read_counter0_run s :
  fits 16 (pc_pit s) ->
  read_counter0 s =
  (pc_pit s, with_pit s (if pit_gated s then pc_pit s else u16 (pc_pit s - 1)) false).
Proof.
  intros Hn. unfold read_counter0.
  assert (outb PORT_PIT_MODE PM_LATCH_COUNTER0 s = (tt, with_pit s (pc_pit s) false)) as H1
    by reflexivity.
  assert (inb PORT_PIT_COUNTER0 (with_pit s (pc_pit s) false) =
          (u8 (pc_pit s), with_pit s (pc_pit s) true)) as H2 by reflexivity.
  assert (inb PORT_PIT_COUNTER0 (with_pit s (pc_pit s) true) =
          (u8 (Z.shiftr (pc_pit s) 8),
           with_pit s (if pit_gated s then pc_pit s else u16 (pc_pit s - 1)) false)) as H3
    by reflexivity.
  rewrite (run_step _ _ _ _ _ H1), (run_step _ _ _ _ _ H2), (run_step _ _ _ _ _ H3).
  rewrite run_ret, counter_value by done. done.
Qed.

Lemma test_pit_run s :
  fits 16 (pc_pit s) ->
  exists n, test_pit s = (if pit_gated s then -1 else 0, with_pit s n false).
Proof.
  intros Hn. unfold test_pit. rewrite (run_step _ _ _ _ _ (read_counter0_run s Hn)).
  set (n1 := if pit_gated s then pc_pit s else u16 (pc_pit s - 1)).
  assert (Stall 1000 (with_pit s n1 false) = (tt, with_pit s n1 false)) as Hs by reflexivity.
  rewrite (run_step _ _ _ _ _ Hs).
  assert (fits 16 (pc_pit (with_pit s n1 false))) as Hn1.
  { unfold n1. simpl. destruct (pit_gated s); [done|apply wrap_fits; lia]. }
  rewrite (run_step _ _ _ _ _ (read_counter0_run _ Hn1)).
  change (pit_gated (with_pit s n1 false)) with (pit_gated s).
  change (pc_pit (with_pit s n1 false)) with n1. unfold n1. destruct (pit_gated s).
  - rewrite Z.eqb_refl. eexists. reflexivity.
  - destruct (Z.eqb_spec (pc_pit s) (u16 (pc_pit s - 1))); [|eexists; reflexivity].
    exfalso. word_lia.
Qed.

(** ** Through the bridge *)

(** A P2SB bridge with a base address aligned to its 16 MB. *)
Definition p2sb_present (s : pc) : Prop :=
  (forall r, fits 8 (pc_cfg s p2sb r)) /\ u16 (cfg32 s p2sb 0) = 0x8086 /\
  (cfg32 s p2sb 0x10 / 16) mod 2 ^ 20 = 0.

Lemma cfg32_fits s r : (forall r, fits 8 (pc_cfg s p2sb r)) -> fits 32 (cfg32 s p2sb r).
Proof.
  intros H. pose proof (H r). pose proof (H (r + 1)). pose proof (H (r + 2)).
  pose proof (H (r + 3)). unfold cfg32. word_norm. lia.
Qed.

Lemma bar_address bar barh :
  fits 32 bar -> fits 32 barh -> (bar / 16) mod 2 ^ 20 = 0 ->
  PCH_PCR_ADDRESS (Z.lor (Z.land bar (u32 (Z.lnot 0x0F))) (u64 (Z.shiftl (Z.land barh 0xFFFFFFFF) 32)))
    PID_ITSS R_PCH_PCR_ITSS_ITSSPRC = bar - bar mod 16 + 2 ^ 32 * barh + 0xC43300.
Proof.
  intros Hbar Hbarh Hal. unfold PCH_PCR_ADDRESS.
  assert (Z.land bar (u32 (Z.lnot 0x0F)) = bar - bar mod 16) as ->.
  { exact (land_clear_low 32 4 bar ltac:(lia) Hbar). }
  rewrite land_u32_max, (wrap_small 32 barh) by done.
  assert (fits 64 (Z.shiftl barh 32)) by (by apply (fits_shiftl 64 32)).
  rewrite (wrap_small 64) by done.
  assert (fits 32 (bar - bar mod 16)) by (clear - Hbar; unfold fits in *; Z.div_mod_to_equations; lia).
  rewrite (lor_add_shift 32) by (done || lia).
  change (u32 (Z.shiftl (Z.land R_PCH_PCR_ITSS_ITSSPRC 0x0F0000) 8)) with 0.
  change (Z.shiftl (u8 PID_ITSS) 16) with 0xC40000.
  change (u16 (Z.land R_PCH_PCR_ITSS_ITSSPRC 0xFFFF)) with 0x3300.
  rewrite Z.lor_0_r, <- Z.lor_assoc. change (Z.lor 0xC40000 0x3300) with 0xC43300.
  set (q := bar / 16 / 2 ^ 20 + barh * 2 ^ 8).
  replace (bar - bar mod 16 + barh * 2 ^ 32) with (Z.shiftl q 24)
    by (subst q; rewrite Z.shiftl_mul_pow2 by lia; Z.div_mod_to_equations; lia).
  rewrite Z.lor_comm, lor_add_shift by (lia || unfold fits; lia).
  subst q. Z.div_mod_to_equations. lia.
Qed.

Lemma itss_prc_aligned s :
  p2sb_present s -> itss_prc s mod 4 = 0 /\ 0x100000 <= itss_prc s.
Proof.
  intros (Hf & _ & Hal). pose proof (cfg32_fits s 0x10 Hf) as Hb. pose proof (cfg32_fits s 0x14 Hf).
  unfold itss_prc, fits in *. split; Z.div_mod_to_equations; lia.
Qed.

(** The gating register with bit 2 cleared. *)
Definition ungated (s : pc) : mem :=
  store32 (pc_ram s) (itss_prc s) (Z.ldiff (load32 (pc_ram s) (itss_prc s)) 4).

Lemma clear_8254cge_run s :
  mem_ok (pc_ram s) -> p2sb_present s -> hidden s p2sb = false ->
  clear_8254cge s = (tt, with_ram (latch_at s 0x14) (ungated s)).
Proof.
  intros Hok Hp Hh. pose proof Hp as (Hf & _ & Hal).
  destruct (itss_prc_aligned s Hp) as [Hmod Hhigh]. unfold clear_8254cge, SBREG_BAR, SBREG_BARH.
  rewrite (run_step _ _ _ _ _ (p2sb_read_run s 0x10 ltac:(lia) eq_refl)), Hh.
  rewrite (run_step _ _ _ _ _ (p2sb_read_run (latch_at s 0x10) 0x14 ltac:(lia) eq_refl)).
  change (hidden (latch_at s 0x10) p2sb) with (hidden s p2sb). rewrite Hh.
  change (cfg32 (latch_at s 0x10) p2sb 0x14) with (cfg32 s p2sb 0x14).
  change (latch_at (latch_at s 0x10) 0x14) with (latch_at s 0x14). cbv zeta.
  rewrite bar_address by (done || by apply cfg32_fits). fold (itss_prc s).
  assert (readl (itss_prc s) (latch_at s 0x14) =
          (load32 (pc_ram s) (itss_prc s), latch_at s 0x14)) as Hread.
  { change (readl (itss_prc s) (latch_at s 0x14))
      with (load32 (visible (latch_at s 0x14)) (itss_prc s), latch_at s 0x14).
    rewrite load_visible_word by done.
    by rewrite (proj1 (outside_region (latch_at s 0x14) (itss_prc s) Hhigh)). }
  rewrite (run_step _ _ _ _ _ Hread).
  set (v := Z.ldiff _ B_PCH_PCR_ITSS_ITSSPRC_8254CGE).
  change (writel (itss_prc s) v (latch_at s 0x14))
    with (tt, pc_store_bytes (latch_at s 0x14) (itss_prc s) (le_bytes 4 (u32 v))).
  rewrite store_word by done.
  rewrite (proj2 (outside_region (latch_at s 0x14) (itss_prc s) Hhigh)).
  rewrite wrap_small; [done|]. apply fits_ldiff; [lia|]. apply (load_fits 4); done.
Qed.

Lemma ungated_bit s :
  mem_ok (pc_ram s) -> Z.testbit (load32 (ungated s) (itss_prc s)) 2 = false.
Proof.
  intros Hok. unfold ungated. rewrite load_store_same. change (8 * Z.of_nat 4) with 32.
  rewrite wrap_testbit, Z.ldiff_spec by lia. change (Z.testbit 4 2) with true.
  by rewrite andb_false_r.
Qed.

(** The state once the bridge can be seen, and whether it was hidden. *)
Definition unhide (s : pc) : pc :=
  if hidden s p2sb then set_p2sbc (latch_at (latch_at s 0) 0xe0) 0xFFFFFEFF else latch_at s 0.

Lemma unhide_spec s :
  p2sb_present s ->
  hidden (unhide s) p2sb = false /\ p2sb_present (unhide s) /\ itss_prc (unhide s) = itss_prc s /\
  pc_ram (unhide s) = pc_ram s /\ pc_pit (unhide s) = pc_pit s.
Proof.
  intros Hp. unfold unhide. destruct (hidden s p2sb) eqn:Hh; [|done].
  set (t := latch_at (latch_at s 0) 0xe0). rewrite set_p2sbc_hidden.
  destruct (set_p2sbc_same t 0xFFFFFEFF) as (_ & Hram & _ & _ & Hpit). rewrite Hram, Hpit.
  assert (itss_prc (set_p2sbc t 0xFFFFFEFF) = itss_prc s) as Hi.
  { unfold itss_prc. by rewrite !set_p2sbc_cfg32 by lia. }
  split; [done|]. split; [|done]. destruct Hp as (Hf & Hv & Hal). split; [|split].
  - intros r. rewrite set_p2sbc_cfg. case_match; [apply wrap_fits; lia|apply Hf].
  - rewrite set_p2sbc_cfg32 by lia. exact Hv.
  - rewrite set_p2sbc_cfg32 by lia. exact Hal.
Qed.

Lemma low_half v : Z.land v 0xFFFF = u16 v.
Proof. apply land_65535. Qed.

(** The run up to the register behind the bridge. *)
Lemma workaround_prefix s :
  p2sb_present s ->
  pit_8254cge_workaround s =
  (clear_8254cge ;;
   (if hidden s p2sb then
      reg ← p2sb_read R_P2SB_CFG_P2SBC;
      p2sb_write R_P2SB_CFG_P2SBC (Z.lor reg B_P2SB_CFG_P2SBC_HIDE)
    else mret tt) ;; test_pit) (latch_at (unhide s) 0).
Proof.
  intros Hp. pose proof Hp as (Hf & Hv & _). destruct (unhide_spec s Hp) as (Hh & (_ & Hv' & _) & _).
  unfold pit_8254cge_workaround.
  rewrite (run_step _ _ _ _ _ (p2sb_read_run s 0 ltac:(lia) eq_refl)). cbv zeta.
  rewrite !low_half.
  assert ((u16 (if hidden s p2sb then 0xFFFFFFFF else cfg32 s p2sb 0) =? 0xffff) = hidden s p2sb) as ->.
  { destruct (hidden s p2sb); [done|]. by rewrite Hv. }
  assert ((if hidden s p2sb then
             reg ← p2sb_read R_P2SB_CFG_P2SBC;
             p2sb_write R_P2SB_CFG_P2SBC (Z.ldiff reg B_P2SB_CFG_P2SBC_HIDE)
           else mret tt) (latch_at s 0) = (tt, unhide s)) as Hun.
  { unfold unhide. destruct (hidden s p2sb) eqn:Hhid; [|done].
    rewrite (run_step _ _ _ _ _ (p2sb_read_run (latch_at s 0) 0xe0 ltac:(lia) eq_refl)).
    change (hidden (latch_at s 0) p2sb) with (hidden s p2sb). rewrite Hhid.
    rewrite p2sb_write_run by (unfold fits; done). reflexivity. }
  rewrite (run_step _ _ _ _ _ Hun).
  rewrite (run_step _ _ _ _ _ (p2sb_read_run (unhide s) 0 ltac:(lia) eq_refl)), Hh.
  rewrite !low_half, Hv'. reflexivity.
Qed.

(** The state after the gating register has been written, and after the
    bridge has been hidden again. *)
Definition cleared (s : pc) : pc :=
  with_ram (latch_at (unhide s) 0x14) (ungated (unhide s)).

Definition rehidden (s : pc) : pc :=
  if hidden s p2sb then set_p2sbc (latch_at (cleared s) 0xe0) 0xFFFFFFFF else cleared s.

Lemma rehide_run s :
  (if hidden s p2sb then
     reg ← p2sb_read R_P2SB_CFG_P2SBC;
     p2sb_write R_P2SB_CFG_P2SBC (Z.lor reg B_P2SB_CFG_P2SBC_HIDE)
   else mret tt) (cleared s) = (tt, rehidden s).
Proof.
  unfold rehidden. destruct (hidden s p2sb) eqn:Hh; [|done].
  rewrite (run_step _ _ _ _ _ (p2sb_read_run (cleared s) 0xe0 ltac:(lia) eq_refl)).
  change (hidden (cleared s) p2sb) with (hidden (unhide s) p2sb).
  change (cfg32 (cleared s) p2sb 0xe0) with (cfg32 (unhide s) p2sb 0xe0).
  unfold unhide at 1 2. rewrite Hh, set_p2sbc_hidden, set_p2sbc_value by (unfold fits; lia).
  rewrite p2sb_write_run by (unfold fits; done). reflexivity.
Qed.

Lemma rehidden_spec s :
  p2sb_present s ->
  hidden (rehidden s) p2sb = hidden s p2sb /\ itss_prc (rehidden s) = itss_prc s /\
  pc_ram (rehidden s) = ungated s /\ pc_pit (rehidden s) = pc_pit s.
Proof.
  intros Hp. destruct (unhide_spec s Hp) as (Hh & _ & Hi & Hram & Hpit).
  assert (ungated (unhide s) = ungated s) as Hu by (unfold ungated; by rewrite Hram, Hi).
  unfold rehidden. destruct (hidden s p2sb) eqn:Hhid.
  - rewrite set_p2sbc_hidden. set (t := latch_at (cleared s) 0xe0).
    destruct (set_p2sbc_same t 0xFFFFFFFF) as (_ & -> & _ & _ & ->).
    split; [done|]. split; [|by split].
    unfold itss_prc. rewrite !set_p2sbc_cfg32 by lia. exact Hi.
  - split; [exact Hh|]. split; [exact Hi|]. split; [exact Hu|exact Hpit].
Qed.

(** Nothing else of the machine: all ones are left in the control register of a
    bridge that was hidden. *)
Lemma rehidden_frame s :
  (forall b r, pc_cfg (rehidden s) b r =
     if hidden s p2sb && ((b =? p2sb) && (0xe0 <=? r) && (r <? 0xe4)) then 0xff else pc_cfg s b r) /\
  pc_msr (rehidden s) = pc_msr s /\ pc_rom (rehidden s) = pc_rom s /\ pc_chip (rehidden s) = pc_chip s.
Proof.
  unfold rehidden, cleared, unhide. destruct (hidden s p2sb); [|done]. cbn [andb].
  set (t := latch_at (latch_at s 0) 0xe0). set (u := with_ram _ _).
  destruct (set_p2sbc_same (latch_at u 0xe0) 0xFFFFFFFF) as (-> & _ & -> & -> & _).
  destruct (set_p2sbc_same t 0xFFFFFEFF) as (Hc & _ & Hr & Hm & _). split; [|by split].
  intros b r. rewrite set_p2sbc_cfg. destruct (_ && _) eqn:E.
  - rewrite !andb_true_iff, Z.leb_le, Z.ltb_lt in E. assert (r = 0xe0 \/ r = 0xe1 \/ r = 0xe2 \/ r = 0xe3) as Hr4 by lia.
    by repeat (destruct Hr4 as [-> | Hr4]; [done|]); subst.
  - change (pc_cfg (set_p2sbc t 0xFFFFFEFF) b r = pc_cfg s b r). by rewrite set_p2sbc_cfg, E.
Qed.

(** C36: with a P2SB bridge present, hidden or not, the workaround finds the
    clock gating register behind it and clears bit 2 (8254CGE) of it, leaves the
    bridge hidden exactly when it was, and the timer then counts: the test
    passes.  No other memory, model-specific register or byte of configuration
    space changes, except that the control register of a bridge that was hidden
    is left with all bits set. *)
Theorem workaround_ungates_timer s :
  mem_ok (pc_ram s) -> p2sb_present s -> fits 16 (pc_pit s) ->
  exists s', pit_8254cge_workaround s = (0, s') /\ pit_gated s' = false /\
    hidden s' p2sb = hidden s p2sb /\
    pc_ram s' = store32 (pc_ram s) (itss_prc s) (Z.ldiff (load32 (pc_ram s) (itss_prc s)) 4) /\
    pc_rom s' = pc_rom s /\ pc_msr s' = pc_msr s /\
    (forall b r, ~ (hidden s p2sb = true /\ b = p2sb /\ 0xe0 <= r < 0xe4) -> pc_cfg s' b r = pc_cfg s b r) /\
    (hidden s p2sb = true -> cfg32 s' p2sb 0xe0 = 0xFFFFFFFF).
Proof.
  intros Hok Hp Hn. destruct (unhide_spec s Hp) as (Hh & Hp' & Hi & Hram & Hpit).
  destruct (rehidden_spec s Hp) as (Hhid & Hi' & Hram' & Hpit').
  destruct (rehidden_frame s) as (Hcfg & Hmsr & Hrom & _).
  assert (clear_8254cge (latch_at (unhide s) 0) = (tt, cleared s)) as Hclear.
  { apply (clear_8254cge_run (latch_at (unhide s) 0)); [|exact Hp'|exact Hh].
    change (mem_ok (pc_ram (unhide s))). by rewrite Hram. }
  rewrite (workaround_prefix s Hp), (run_step _ _ _ _ _ Hclear), (run_step _ _ _ _ _ (rehide_run s)).
  assert (pit_gated (rehidden s) = false) as Hg.
  { unfold pit_gated. rewrite Hram', Hi', ungated_bit by done. apply andb_false_r. }
  destruct (test_pit_run (rehidden s)) as [n Hrun]; [by rewrite Hpit'|].
  rewrite Hg in Hrun. exists (with_pit (rehidden s) n false). split; [exact Hrun|].
  split; [exact Hg|]. split; [exact Hhid|]. split; [exact Hram'|]. split; [exact Hrom|]. split; [exact Hmsr|]. split.
  - intros b r Hbr. change (pc_cfg (rehidden s) b r = pc_cfg s b r). rewrite Hcfg. destruct (hidden s p2sb); [|done].
    cbn [andb]. destruct (_ && _) eqn:E; [|done]. rewrite !andb_true_iff, Z.leb_le, Z.ltb_lt, Z.eqb_eq in E.
    exfalso. apply Hbr. split; [done|]. lia.
  - intros E. change (cfg32 (rehidden s) p2sb 0xe0 = 0xFFFFFFFF). unfold cfg32. rewrite !Hcfg, E. reflexivity.
Qed.

(** * Witnesses *)

(** A hidden bridge at 0xFD000000 with the timer gated. *)
Definition gated_pc : pc :=
  mkPc (Pam 0x80 true) 0
    (fun b r => if b =? p2sb then
       if r =? 0 then 0x86 else if r =? 1 then 0x80 else if r =? 0x13 then 0xfd
       else if r =? 0xe1 then 1 else 0
     else if r =? 0 then 0x86 else if r =? 1 then 0x80 else 0)
    (fun _ => 0) (fun a => if a =? 0xfdc43300 then 0x17 else 0) (fun _ => 0xff) 0x1234 false 0.

Lemma gated_pc_present : p2sb_present gated_pc.
Proof.
  split; [|by split]. intros r. simpl. unfold fits. ztests; lia.
Qed.

Lemma gated_pc_ram : mem_ok (pc_ram gated_pc).
Proof. intros a. simpl. unfold fits. ztests; lia. Qed.

Lemma workaround_ungates_timer_witness :
  pit_gated gated_pc = true /\ cfg32 gated_pc p2sb 0xe0 = 0x100 /\
  exists s', pit_8254cge_workaround gated_pc = (0, s') /\ pit_gated s' = false /\ cfg32 s' p2sb 0xe0 = 0xFFFFFFFF.
Proof.
  split; [vm_compute; reflexivity|]. split; [vm_compute; reflexivity|].
  destruct (workaround_ungates_timer gated_pc gated_pc_ram gated_pc_present) as (s' & H1 & H2 & _ & _ & _ & _ & _ & H3).
  - unfold fits. simpl. lia.
  - exists s'. split; [exact H1|]. split; [exact H2|]. apply H3. reflexivity.
Defined.

Lemma workaround_skips_others_witness :
  let s := with_cfg gated_pc (fun _ _ => 0x22) in
  (cfg_read 2 0 0 (set_latch 0x80000000 s)).1 = 0x2222 /\
  (apply_intel_platform_workarounds s).1 = 0.
Proof.
  intros s. split; [vm_compute; reflexivity|].
  rewrite (workaround_skips_others s); [reflexivity|]. vm_compute. discriminate.
Defined.
