(* ===== verification/Thunk.v ===== *)
(** The real-mode thunk ([src/x86thunk.c], [src/x86thunk.h]): the low-memory
    buffer with its descriptors, and the far call that marshals a register set
    into real mode and back.

    The 16-bit code itself is assembled from [Thunk16.asm]; here its image, the
    offsets it exports and the transfer to real mode ([InternalAsmThunk16]) are
    parameters. *)

From stdpp Require Import base numbers list.
From Stdlib Require Import ZArith Lia.
From S2P Require Import Prelude Memory.

(** * Data *)

(** [IA32_DWORD_REGS]; [EFLAGS] is the machine word of its union. *)
Record IA32_REGISTER_SET := mkIa32 {
  EDI : Z; ESI : Z; EBP : Z; ESP : Z; EBX : Z; EDX : Z; ECX : Z; EAX : Z;
  DS : Z; ES : Z; FS : Z; GS : Z; EFLAGS : Z; Eip : Z; CS : Z; SS : Z
}.

(** [EFI_IA32_REGISTER_SET]: the caller's view.  The word registers are the
    low halves of the fields, [Flags] the low half of [EFlags]. *)
Record EFI_IA32_REGISTER_SET := mkEfiRegs {
  rEAX : Z; rEBX : Z; rECX : Z; rEDX : Z; rESI : Z; rEDI : Z; rEFlags : Z;
  rES : Z; rCS : Z; rSS : Z; rDS : Z; rFS : Z; rGS : Z; rEBP : Z; rESP : Z
}.

Record THUNK_CONTEXT := mkContext {
  RealModeBuffer : Z;
  RealModeBufferSize : Z;
  ThunkAttributes : Z
}.

Definition THUNK_ATTRIBUTE_BIG_REAL_MODE : Z := 1.
Definition THUNK_ATTRIBUTE_DISABLE_A20_MASK_INT_15 : Z := 2.
Definition EFI_PAGE_SIZE : Z := 4096.

(** Replacing the low half of a register, and of a flags word. *)
Definition set_low16 (r v : Z) : Z := Z.lor (Z.ldiff r 0xFFFF) (u16 v).

(** Assignment to a bit field of [width] bits at [pos]. *)
Definition set_bits (pos width v r : Z) : Z :=
  Z.lor (Z.ldiff r (Z.shiftl (Z.ones width) pos)) (Z.shiftl (Z.land v (Z.ones width)) pos).

(** Positions of the bit fields of [EFI_FLAGS_REG]. *)
Definition CF_bit : Z := 0.
Definition Reserved1_bit : Z := 1.
Definition Reserved2_bit : Z := 3.
Definition Reserved3_bit : Z := 5.
Definition TF_bit : Z := 8.
Definition IF_bit : Z := 9.
Definition IOPL_bits : Z := 12.
Definition NT_bit : Z := 14.
Definition Reserved4_bit : Z := 15.

(** What the assembly file provides: the image and the offsets in it. *)
Record thunk16 := mkThunk16 {
  m16 : list Z;          (* the bytes from m16Start, m16Size of them *)
  m16Gdt : Z;
  m16GdtrBase : Z;
  mTransition : Z;
  mThunk16Attr : Z
}.

Section Thunk.
Context (T : thunk16).
(** [InternalAsmThunk16(regs, transition)]: runs real-mode code on memory and
    returns the registers it left. *)
Context (InternalAsmThunk16 : IA32_REGISTER_SET -> Z -> mem -> IA32_REGISTER_SET * mem).

Definition m16Size : Z := Z.of_nat (length (m16 T)).

Definition sizeof_IA32_DWORD_REGS : Z := 56.

(** [AsmGetThunk16Properties]: buffer size and extra stack size. *)
Definition AsmGetThunk16Properties : Z * Z := (m16Size, sizeof_IA32_DWORD_REGS + 8).

(** A byte with the low nibble and bit 7 cleared: [LimitHigh] and [G]. *)
Definition clear_limit (m : mem) (descriptor : Z) : mem :=
  let m := store8 m (descriptor + 6) (Z.ldiff (m (descriptor + 6)) 0x0f) in
  store8 m (descriptor + 6) (Z.ldiff (m (descriptor + 6)) 0x80).

Definition AsmPrepareThunk16 (m : mem) (ctx : THUNK_CONTEXT) : mem :=
  let buffer := RealModeBuffer ctx in
  let m := store_bytes m buffer (m16 T) in
  let gdt := buffer + m16Gdt T in
  let m := store16 m (gdt + 8 + 2) (Z.land (u32 buffer) (u32 (Z.lnot 0xf))) in
  let m := store8 m (gdt + 8 + 4) (Z.shiftr (u32 buffer) 16) in
  let m := store32 m (buffer + mTransition T)
             (u32 (load32 m (buffer + mTransition T) + Z.land (u32 buffer) 0xf)) in
  let m := if Z.land (ThunkAttributes ctx) THUNK_ATTRIBUTE_BIG_REAL_MODE =? 0
           then clear_limit (clear_limit m (gdt + 8)) (gdt + 16) else m in
  let m := store64 m (buffer + m16GdtrBase T) gdt in
  store32 m (buffer + mThunk16Attr T) (ThunkAttributes ctx).

(** [AsmThunk16]: the register set is replaced by the updated one. *)
Definition AsmThunk16 (regs : IA32_REGISTER_SET) (m : mem) (ctx : THUNK_CONTEXT)
  : IA32_REGISTER_SET * mem :=
  InternalAsmThunk16 regs (RealModeBuffer ctx) m.

Definition AsmPrepareAndThunk16 (regs : IA32_REGISTER_SET) (m : mem) (ctx : THUNK_CONTEXT)
  : IA32_REGISTER_SET * mem :=
  AsmThunk16 regs (AsmPrepareThunk16 m ctx) ctx.

(** [ThunkRegSet] before the stack is known. *)
Definition thunk_registers (R : EFI_IA32_REGISTER_SET) : IA32_REGISTER_SET :=
  mkIa32 (set_low16 0 (rEDI R)) (set_low16 0 (rESI R)) (set_low16 0 (rEBP R)) 0
    (set_low16 0 (rEBX R)) (set_low16 0 (rEDX R)) (rECX R) (set_low16 0 (rEAX R))
    (rDS R) (rES R) 0 0 (set_low16 0 (rEFlags R)) 0 0 0.

Definition with_entry (r : IA32_REGISTER_SET) (stack16 segment offset : Z) : IA32_REGISTER_SET :=
  mkIa32 (EDI r) (ESI r) (EBP r) (u16 stack16) (EBX r) (EDX r) (ECX r) (EAX r)
    (DS r) (ES r) (FS r) (GS r) (EFLAGS r) offset segment
    (u16 (Z.shiftl (Z.shiftr stack16 16) 12)).

(** The registers copied back to the caller. *)
Definition copy_back (R : EFI_IA32_REGISTER_SET) (r : IA32_REGISTER_SET) : EFI_IA32_REGISTER_SET :=
  mkEfiRegs (EAX r) (EBX r) (ECX r) (EDX r) (ESI r) (EDI r) (set_low16 (rEFlags R) (EFLAGS r))
    (ES r) (CS r) (SS r) (DS r) (rFS R) (rGS R) (EBP r) (rESP R).

(** Is there a stack to pass? *)
Definition has_stack (stack size : Z) : bool := negb (stack =? 0) && negb (size =? 0).

(** The stack pointer in low memory: two bytes below the end of the buffer,
    and below the arguments. *)
Definition stack16_of (ctx : THUNK_CONTEXT) (stack size : Z) : Z :=
  let top := RealModeBuffer ctx + RealModeBufferSize ctx - 2 in
  if has_stack stack size then top - 2 * (size / 2) else top.

Definition InternalLegacyBiosFarCall (ctx : THUNK_CONTEXT) (segment offset : Z)
  (R : EFI_IA32_REGISTER_SET) (stack stack_size : Z) (m : mem)
  : bool * EFI_IA32_REGISTER_SET * mem :=
  let stack16 := stack16_of ctx stack stack_size in
  let m := if has_stack stack stack_size
           then Libc.memcpy m stack16 stack (Z.to_nat stack_size) else m in
  let '(r, m) := AsmThunk16 (with_entry (thunk_registers R) stack16 segment offset) m ctx in
  let m := if has_stack stack stack_size
           then Libc.memcpy m stack stack16 (Z.to_nat stack_size) else m in
  let R := copy_back R r in
  (Z.testbit (rEFlags R) CF_bit, R, m).

(** The flags an entry point is called with. *)
Definition call_flags (interrupts flags : Z) : Z :=
  set_bits CF_bit 1 0 (set_bits TF_bit 1 0 (set_bits IF_bit 1 interrupts
    (set_bits NT_bit 1 0 (set_bits IOPL_bits 2 3 (set_bits Reserved4_bit 1 0
      (set_bits Reserved3_bit 1 0 (set_bits Reserved2_bit 1 0
        (set_bits Reserved1_bit 1 1 flags)))))))).

Definition with_flags (R : EFI_IA32_REGISTER_SET) (f : Z) : EFI_IA32_REGISTER_SET :=
  mkEfiRegs (rEAX R) (rEBX R) (rECX R) (rEDX R) (rESI R) (rEDI R) f
    (rES R) (rCS R) (rSS R) (rDS R) (rFS R) (rGS R) (rEBP R) (rESP R).

Definition LegacyBiosFarCall86 (ctx : THUNK_CONTEXT) (segment offset : Z)
  (R : EFI_IA32_REGISTER_SET) (stack stack_size : Z) (m : mem)
  : bool * EFI_IA32_REGISTER_SET * mem :=
  InternalLegacyBiosFarCall ctx segment offset (with_flags R (call_flags 1 (rEFlags R)))
    stack stack_size m.

(** [LegacyBiosInt86]: the vector is read from the table at address 0, and the
    flags are passed on the stack; [flags_at] is the address of the caller's
    [Regs->X.Flags]. *)
Definition LegacyBiosInt86 (ctx : THUNK_CONTEXT) (BiosInt : Z) (R : EFI_IA32_REGISTER_SET)
  (flags_at : Z) (m : mem) : bool * EFI_IA32_REGISTER_SET * mem :=
  let R := with_flags R (call_flags 0 (rEFlags R)) in
  let m := store16 m flags_at (rEFlags R) in
  let vector := load32 m (4 * BiosInt) in
  InternalLegacyBiosFarCall ctx (u16 (Z.shiftr vector 16)) (u16 vector) R flags_at 2 m.

(** [LegacyBiosInitializeThunkAndTable]: the context, the memory and the first
    free address. *)
Definition LegacyBiosInitializeThunkAndTable (m : mem) (memory_address data_size : Z)
  : THUNK_CONTEXT * mem * Z :=
  let data_pages := data_size / EFI_PAGE_SIZE + 1 in
  let ctx := mkContext (memory_address + data_pages * EFI_PAGE_SIZE) EFI_PAGE_SIZE
               (Z.lor THUNK_ATTRIBUTE_BIG_REAL_MODE THUNK_ATTRIBUTE_DISABLE_A20_MASK_INT_15) in
  let m := Libc.memset m (RealModeBuffer ctx) 0 (Z.to_nat (RealModeBufferSize ctx)) in
  let m := AsmPrepareThunk16 m ctx in
  (ctx, m, RealModeBuffer ctx + RealModeBufferSize ctx + EFI_PAGE_SIZE).

End Thunk.

(** * Bit fields *)

Lemma set_bits_testbit pos width v r i :
  0 <= pos -> 0 <= width -> 0 <= i ->
  Z.testbit (set_bits pos width v r) i =
  if (pos <=? i) && (i <? pos + width) then Z.testbit v (i - pos) else Z.testbit r i.
Proof.
  intros Hp Hw Hi. unfold set_bits. rewrite Z.lor_spec, Z.ldiff_spec, !Z.shiftl_spec by lia.
  destruct (Z.leb_spec pos i); simpl.
  - rewrite Z.land_spec, Z.testbit_ones by lia.
    destruct (Z.leb_spec 0 (i - pos)); [|lia]. simpl.
    destruct (Z.ltb_spec (i - pos) width), (Z.ltb_spec i (pos + width)); try lia; simpl.
    + by rewrite andb_false_r, andb_true_r.
    + by rewrite andb_true_r, andb_false_r, orb_false_r.
  - rewrite !(Z.testbit_neg_r _ (i - pos)) by lia. simpl. by rewrite andb_true_r, orb_false_r.
Qed.

Lemma set_low16_testbit r v i :
  0 <= i -> Z.testbit (set_low16 r v) i = if i <? 16 then Z.testbit v i else Z.testbit r i.
Proof.
  intros Hi. unfold set_low16. rewrite Z.lor_spec, Z.ldiff_spec, wrap_testbit by lia.
  change 0xFFFF with (Z.ones 16). rewrite Z.testbit_ones by lia.
  destruct (Z.leb_spec 0 i); [|lia]. destruct (i <? 16); simpl.
  - by rewrite andb_false_r.
  - by rewrite andb_true_r, orb_false_r.
Qed.

Lemma set_low16_zero v : set_low16 0 v = u16 v.
Proof. unfold set_low16. by rewrite Z.ldiff_0_l, Z.lor_0_l. Qed.

(** An entry point called through [LegacyBiosFarCall86] sees its flags with
    interrupts enabled, carry, trap and nested-task clear, I/O privilege 3 and
    the reserved bits at their architectural values, and every other flag as
    the caller gave it. *)
Lemma call_flags_spec flags i :
  0 <= i ->
  Z.testbit (call_flags 1 flags) i =
  if (i =? 1) || (i =? 9) || (i =? 12) || (i =? 13) then true
  else if (i =? 0) || (i =? 3) || (i =? 5) || (i =? 8) || (i =? 14) || (i =? 15) then false
  else Z.testbit flags i.
Proof.
  intros Hi. unfold call_flags, CF_bit, TF_bit, IF_bit, NT_bit, IOPL_bits, Reserved1_bit,
    Reserved2_bit, Reserved3_bit, Reserved4_bit.
  rewrite !set_bits_testbit by lia. zeval.
  destruct (Z.ltb_spec i 16).
  - assert (i = 0 \/ i = 1 \/ i = 2 \/ i = 3 \/ i = 4 \/ i = 5 \/ i = 6 \/ i = 7 \/ i = 8 \/
            i = 9 \/ i = 10 \/ i = 11 \/ i = 12 \/ i = 13 \/ i = 14 \/ i = 15) as Hcases by lia.
    repeat (destruct Hcases as [-> | Hcases]; [done|]). by subst.
  - repeat (ztest; simpl; try lia). done.
Qed.

(** * Addresses *)

(** The linear address of a real-mode pointer. *)
Definition linear (segment offset : Z) : Z := 16 * segment + offset.

Lemma stack_pointer_linear a :
  0 <= a < 0x100000 -> linear (u16 (Z.shiftl (Z.shiftr a 16) 12)) (u16 a) = a.
Proof.
  intros Ha. unfold linear. rewrite Z.shiftl_mul_pow2, Z.shiftr_div_pow2 by lia. word_lia.
Qed.

(** [EFI_SEGMENT] and [EFI_OFFSET]. *)
Definition EFI_SEGMENT (a : Z) : Z := Z.land (u16 (Z.shiftr a 4)) 0xf000.
Definition EFI_OFFSET (a : Z) : Z := u16 a.

Lemma land_f000 z : fits 16 z -> Z.land z 0xf000 = z - z mod 4096.
Proof. exact (land_clear_low 16 12 z ltac:(lia)). Qed.

Lemma land_not15 z : fits 32 z -> Z.land z (u32 (Z.lnot 0xf)) = z - z mod 16.
Proof. exact (land_clear_low 32 4 z ltac:(lia)). Qed.

(** A pointer below one megabyte, passed to the compatibility module as
    [EFI_SEGMENT]:[EFI_OFFSET], is the same linear address in real mode. *)
Lemma efi_far_pointer a :
  0 <= a < 0x100000 -> linear (EFI_SEGMENT a) (EFI_OFFSET a) = a.
Proof.
  intros Ha. unfold linear, EFI_SEGMENT, EFI_OFFSET.
  rewrite land_f000 by (apply wrap_fits; lia). rewrite Z.shiftr_div_pow2 by lia. word_lia.
Qed.

Lemma efi_far_pointer_witness : linear (EFI_SEGMENT 0x23080) (EFI_OFFSET 0x23080) = 0x23080.
Proof. apply efi_far_pointer. lia. Defined.

Lemma call_flags_spec_witness : Z.testbit (call_flags 1 0xffff) 8 = false.
Proof. rewrite call_flags_spec by lia. reflexivity. Defined.

(** * The far call *)

Lemma load_block_copy m dest src n :
  mem_ok m -> dest <= src \/ src + Z.of_nat n <= dest ->
  load_bytes (Libc.memcpy m dest src n) dest n = load_bytes m src n.
Proof.
  intros Hok Hd. apply list_eq. intros i. destruct (decide (i < n)%nat).
  - rewrite !lookup_load_bytes by done. f_equal. rewrite Libc.memcpy_at by done.
    unfold Libc.block_copy. ztests. f_equal. lia.
  - rewrite !lookup_ge_None_2; rewrite ?length_load_bytes; done || lia.
Qed.

Lemma copy_outside m dest src n x :
  mem_ok m -> dest <= src \/ src + Z.of_nat n <= dest -> x < dest \/ dest + Z.of_nat n <= x ->
  Libc.memcpy m dest src n x = m x.
Proof.
  intros Hok Hd Hx. rewrite Libc.memcpy_at by done. unfold Libc.block_copy. by destruct Hx; ztests.
Qed.

Section FarCall.
Context (InternalAsmThunk16 : IA32_REGISTER_SET -> Z -> mem -> IA32_REGISTER_SET * mem).
Context (ctx : THUNK_CONTEXT).
Hypothesis buffer_low :
  0 <= RealModeBuffer ctx /\ RealModeBuffer ctx + RealModeBufferSize ctx <= 0x100000.

(** A stack argument that fits the buffer and lies above it. *)
Definition stack_ok (stack size : Z) : Prop :=
  2 <= RealModeBufferSize ctx /\
  (has_stack stack size = true ->
   0 < size /\ size + 2 <= RealModeBufferSize ctx /\
   RealModeBuffer ctx + RealModeBufferSize ctx <= stack).

Lemma stack16_range stack size :
  stack_ok stack size ->
  RealModeBuffer ctx <= stack16_of ctx stack size < 0x100000 /\
  (has_stack stack size = true ->
   stack16_of ctx stack size + size < RealModeBuffer ctx + RealModeBufferSize ctx).
Proof.
  intros [H2 Hs]. unfold stack16_of. destruct (has_stack stack size) eqn:Hh.
  - specialize (Hs eq_refl) as (H0 & Hfit & Hout). Z.div_mod_to_equations. lia.
  - split; [lia|done].
Qed.

(** What the 16-bit code finds: the entry point, the marshalled registers and
    a stack pointer that is the linear address of the argument area. *)
Definition entry_ok (R : EFI_IA32_REGISTER_SET) (segment offset : Z)
  (r : IA32_REGISTER_SET) (sp : Z) : Prop :=
  CS r = segment /\ Eip r = offset /\ linear (SS r) (ESP r) = sp /\
  EAX r = u16 (rEAX R) /\ EBX r = u16 (rEBX R) /\ ECX r = rECX R /\ EDX r = u16 (rEDX R) /\
  ESI r = u16 (rESI R) /\ EDI r = u16 (rEDI R) /\ EBP r = u16 (rEBP R) /\
  DS r = rDS R /\ ES r = rES R /\ EFLAGS r = u16 (rEFlags R).

(** What the caller finds: every register as the real-mode code left it, the
    low word of the flags, and FS, GS and ESP its own. *)
Definition return_ok (R : EFI_IA32_REGISTER_SET) (r : IA32_REGISTER_SET) (R' : EFI_IA32_REGISTER_SET) : Prop :=
  rEAX R' = EAX r /\ rEBX R' = EBX r /\ rECX R' = ECX r /\ rEDX R' = EDX r /\ rESI R' = ESI r /\ rEDI R' = EDI r /\
  rEBP R' = EBP r /\ rDS R' = DS r /\ rES R' = ES r /\ rCS R' = CS r /\ rSS R' = SS r /\
  rFS R' = rFS R /\ rGS R' = rGS R /\ rESP R' = rESP R /\
  forall i, 0 <= i -> Z.testbit (rEFlags R') i = Z.testbit (if i <? 16 then EFLAGS r else rEFlags R) i.

Lemma copy_back_ok R r : return_ok R r (copy_back R r).
Proof.
  unfold return_ok, copy_back. cbn. repeat (split; [reflexivity|]). intros i Hi. rewrite set_low16_testbit by done.
  by destruct (i <? 16).
Qed.

(** C34: a far call enters real mode at the requested address with the word
    registers of the caller, the full ECX, and a stack pointer below one
    megabyte whose linear address is where the stack arguments were copied,
    inside the thunk's buffer, with no other memory changed; on return each of
    the caller's registers is the one the real-mode code left (but for FS, GS,
    ESP and the high word of the flags, which are kept), the stack arguments are
    copied back from the real-mode stack and no other memory is changed, and
    the result is the carry flag the code left. *)
Theorem far_call_marshals segment offset R stack size m :
  mem_ok m -> stack_ok stack size ->
  (forall r b m, mem_ok m -> mem_ok (InternalAsmThunk16 r b m).2) ->
  exists r sp m1,
    let '(r', m2) := InternalAsmThunk16 r (RealModeBuffer ctx) m1 in
    entry_ok R segment offset r sp /\ RealModeBuffer ctx <= sp < 0x100000 /\
    (stack <> 0 /\ size <> 0 -> sp + size < RealModeBuffer ctx + RealModeBufferSize ctx /\
     load_bytes m1 sp (Z.to_nat size) = load_bytes m stack (Z.to_nat size)) /\
    (forall x, x < sp \/ sp + size <= x \/ stack = 0 \/ size = 0 -> m1 x = m x) /\
    exists R' m3,
      InternalLegacyBiosFarCall InternalAsmThunk16 ctx segment offset R stack size m =
        (Z.testbit (EFLAGS r') 0, R', m3) /\ return_ok R r' R' /\
      (stack <> 0 /\ size <> 0 -> load_bytes m3 stack (Z.to_nat size) = load_bytes m2 sp (Z.to_nat size)) /\
      (forall x, x < stack \/ stack + size <= x \/ stack = 0 \/ size = 0 -> m3 x = m2 x).
Proof.
  intros Hok Hst Hcall. destruct (stack16_range stack size Hst) as [Hsp Hin].
  assert (stack <> 0 /\ size <> 0 <-> has_stack stack size = true) as Hhs.
  { unfold has_stack. rewrite andb_true_iff, !negb_true_iff, !Z.eqb_neq. done. }
  assert (forall x a b, x < a \/ b <= x \/ stack = 0 \/ size = 0 -> has_stack stack size = true -> x < a \/ b <= x) as Hout.
  { intros x a b Hx Hh%Hhs. lia. }
  set (sp := stack16_of ctx stack size) in *.
  set (r := with_entry (thunk_registers R) sp segment offset).
  set (m1 := if has_stack stack size then Libc.memcpy m sp stack (Z.to_nat size) else m).
  exists r, sp, m1. destruct (InternalAsmThunk16 r (RealModeBuffer ctx) m1) as [r' m2] eqn:Hrun.
  assert (has_stack stack size = true -> sp + size < stack /\ 0 < size) as Hapart.
  { intros Hh. specialize (Hin Hh). destruct Hst as [_ Hst]. specialize (Hst Hh). lia. }
  assert (mem_ok m1) as Hok1.
  { unfold m1. destruct (has_stack stack size) eqn:Hh; [|done].
    apply Libc.memcpy_ok; [done|]. specialize (Hapart eq_refl). lia. }
  assert (mem_ok m2) as Hok2.
  { pose proof (Hcall r (RealModeBuffer ctx) m1 Hok1) as H. by rewrite Hrun in H. }
  split; [|split; [done|split; [|split]]].
  - unfold entry_ok, r, with_entry, thunk_registers. simpl. rewrite !set_low16_zero.
    rewrite stack_pointer_linear by lia. done.
  - intros Hh%Hhs. split; [by apply Hin|]. unfold m1. rewrite Hh. specialize (Hapart Hh).
    rewrite load_block_copy by (done || lia). done.
  - intros x Hx. unfold m1. destruct (has_stack stack size) eqn:Hh; [|done].
    specialize (Hapart eq_refl). apply copy_outside; [done|lia|]. rewrite Z2Nat.id by lia. by apply Hout.
  - eexists (copy_back R r'), _. split; [|split; [apply copy_back_ok|split]].
    + unfold InternalLegacyBiosFarCall, AsmThunk16. fold sp. fold r. fold m1. rewrite Hrun.
      unfold copy_back. cbn [rEFlags]. rewrite set_low16_testbit by done. reflexivity.
    + intros Hh%Hhs. rewrite Hh. specialize (Hapart Hh). apply load_block_copy; [done|lia].
    + intros x Hx. destruct (has_stack stack size) eqn:Hh; [|done]. specialize (Hapart eq_refl).
      apply copy_outside; [done|lia|]. rewrite Z2Nat.id by lia. by apply Hout.
Qed.

End FarCall.

(** * The prepared buffer *)

(** The base address the processor decodes from a descriptor. *)
Definition descriptor_base (m : mem) (d : Z) : Z :=
  load16 m (d + 2) + 2 ^ 16 * m (d + 4) + 2 ^ 24 * m (d + 7).

Lemma clear_limit_out m d x : x <> d + 6 -> clear_limit m d x = m x.
Proof. intros Hx. unfold clear_limit. by rewrite !store8_ne. Qed.

Section Prepare.
Context (T : thunk16) (m : mem) (ctx : THUNK_CONTEXT).

(** The patched fields lie within the image and apart from each other. *)
Definition apart (a n b k : Z) : Prop := a + n <= b \/ b + k <= a.
Definition layout_ok : Prop :=
  m16Size T < 2 ^ 16 /\ 0 <= m16Gdt T /\ m16Gdt T + 24 <= m16Size T /\ 0 <= m16GdtrBase T /\
  m16GdtrBase T + 8 <= m16Size T /\ 0 <= mTransition T /\ mTransition T + 4 <= m16Size T /\
  0 <= mThunk16Attr T /\ mThunk16Attr T + 4 <= m16Size T /\
  apart (m16Gdt T) 24 (m16GdtrBase T) 8 /\ apart (m16Gdt T) 24 (mTransition T) 4 /\
  apart (m16Gdt T) 24 (mThunk16Attr T) 4 /\ apart (m16GdtrBase T) 8 (mTransition T) 4 /\
  apart (m16GdtrBase T) 8 (mThunk16Attr T) 4 /\ apart (mTransition T) 4 (mThunk16Attr T) 4.

Hypothesis image_bytes : Forall (fits 8) (m16 T).
Hypothesis layout : layout_ok.
Hypothesis attributes_fit : fits 32 (ThunkAttributes ctx).
Hypothesis buffer_range : 0 <= RealModeBuffer ctx < 2 ^ 24.

Let buffer := RealModeBuffer ctx.
Let gdt := buffer + m16Gdt T.
Let m' := AsmPrepareThunk16 T m ctx.

(** Everything but the patched fields is the image, and nothing outside the
    image is written. *)
Lemma prepare_byte x :
  let i := x - buffer in
  apart i 1 (m16Gdt T + 10) 3 -> i <> m16Gdt T + 14 -> i <> m16Gdt T + 22 ->
  apart i 1 (m16GdtrBase T) 8 -> apart i 1 (mTransition T) 4 -> apart i 1 (mThunk16Attr T) 4 ->
  m' x = store_bytes m buffer (m16 T) x.
Proof.
  cbv zeta. unfold apart. intros H1 H2 H3 H4 H5 H6. unfold m', AsmPrepareThunk16. fold buffer.
  rewrite !store_out by lia.
  destruct (_ =? 0); [rewrite !clear_limit_out by lia|]; rewrite store_out by lia;
    rewrite store8_ne by lia; by rewrite store_out by lia.
Qed.

Lemma image_byte i b :
  m16 T !! Z.to_nat i = Some b -> 0 <= i -> store_bytes m buffer (m16 T) (buffer + i) = b.
Proof.
  intros Hl Hi. apply store_bytes_in; [by replace (buffer + i - buffer) with i by lia|lia|].
  rewrite Forall_lookup in image_bytes. eauto.
Qed.

(** The three bytes of the base address of descriptor 1. *)
Lemma prepare_base :
  load16 m' (gdt + 8 + 2) = u16 (buffer - buffer mod 16) /\ m' (gdt + 8 + 4) = buffer / 2 ^ 16.
Proof.
  unfold layout_ok, apart in layout. unfold m', AsmPrepareThunk16. fold buffer. fold gdt.
  set (m1 := store_bytes m buffer (m16 T)). split.
  - rewrite load_store_other, load_store_other by (unfold gdt; lia).
    set (v := Z.land (u32 buffer) (u32 (Z.lnot 0xf))).
    assert (load16 (store16 m1 (gdt + 8 + 2) v) (gdt + 8 + 2) = u16 (buffer - buffer mod 16)) as <-.
    { rewrite load_store_same. change (8 * Z.of_nat 2) with 16. unfold v.
      rewrite (wrap_small 32 buffer) by (unfold fits, buffer; lia).
      rewrite land_not15 by (unfold fits, buffer; lia). done. }
    apply load_ext. intros x Hx.
    destruct (_ =? 0); [rewrite !clear_limit_out by lia|]; rewrite store_out by (unfold gdt in *; lia);
      by rewrite store8_ne by lia.
  - rewrite !store_out by (unfold gdt; lia).
    destruct (_ =? 0); [rewrite !clear_limit_out by lia|]; rewrite store_out by (unfold gdt; lia);
      rewrite store8_eq, (wrap_small 32 buffer), Z.shiftr_div_pow2
        by (unfold fits, buffer; lia || lia);
      apply wrap_small; unfold fits, buffer in *; Z.div_mod_to_equations; lia.
Qed.

Lemma prepare_transition :
  load32 m' (buffer + mTransition T) =
  u32 (load32 (store_bytes m buffer (m16 T)) (buffer + mTransition T) + buffer mod 16).
Proof.
  unfold layout_ok, apart in layout. unfold m', AsmPrepareThunk16. fold buffer. fold gdt.
  rewrite !load_store_other by lia.
  set (m0 := store8 _ (gdt + 8 + 4) _). set (ms := store32 m0 (buffer + mTransition T) _).
  assert (forall c : bool, load32 (if c then clear_limit (clear_limit ms (gdt + 8)) (gdt + 16) else ms)
            (buffer + mTransition T) = load32 ms (buffer + mTransition T)) as ->.
  { intros []; [|done]. apply load_ext. intros x Hx.
    by rewrite !clear_limit_out by (unfold gdt; lia). }
  unfold ms. rewrite load_store_same. change (8 * Z.of_nat 4) with 32.
  rewrite wrap_wrap, (wrap_small 32 buffer), land_15 by (unfold fits, buffer; lia).
  do 2 f_equal. apply load_ext. intros x Hx. unfold m0. rewrite store8_ne by (unfold gdt; lia).
  apply store_out. unfold gdt. lia.
Qed.

Lemma prepare_frame x : x < buffer \/ buffer + m16Size T <= x -> m' x = m x.
Proof.
  intros Hx. unfold layout_ok, apart in layout. rewrite prepare_byte by (unfold apart; lia).
  apply store_bytes_out. unfold m16Size in Hx. lia.
Qed.

(** After [AsmPrepareThunk16] the code descriptor has the base address of
    the buffer rounded down to a paragraph (its high byte comes from the
    image), the descriptor-table pointer is the address of the table in the
    buffer, the transition offset is advanced by the rest, the attributes are
    stored, and no byte outside the image is written. *)
Lemma prepare_descriptors :
  m16 T !! Z.to_nat (m16Gdt T + 15) = Some 0 ->
  descriptor_base m' (gdt + 8) = buffer - buffer mod 16 /\
  load64 m' (buffer + m16GdtrBase T) = gdt /\
  load32 m' (buffer + mTransition T) =
    u32 (load32 (store_bytes m buffer (m16 T)) (buffer + mTransition T) + buffer mod 16) /\
  load32 m' (buffer + mThunk16Attr T) = ThunkAttributes ctx /\
  (forall x, x < buffer \/ buffer + m16Size T <= x -> m' x = m x).
Proof.
  intros Hhigh. destruct prepare_base as [Hlow Hmid]. pose proof layout as HL.
  unfold layout_ok, apart in HL.
  assert (m' (gdt + 8 + 7) = 0) as Htop.
  { rewrite prepare_byte by (unfold apart, gdt; lia).
    replace (gdt + 8 + 7) with (buffer + (m16Gdt T + 15)) by (unfold gdt; lia).
    apply image_byte; [done|lia]. }
  split; [unfold descriptor_base; rewrite Hlow, Hmid, Htop; unfold buffer in *; word_lia|].
  split; [|split; [|split]].
  - unfold m', AsmPrepareThunk16. fold buffer. fold gdt.
    rewrite load_store_other, load_store_same by lia. apply wrap_small.
    unfold fits, gdt, buffer in *. lia.
  - exact prepare_transition.
  - unfold m', AsmPrepareThunk16. rewrite load_store_same. by apply wrap_small.
  - apply prepare_frame.
Qed.

End Prepare.

Lemma clear_limit_ok m d : mem_ok m -> mem_ok (clear_limit m d).
Proof. intros. unfold clear_limit. by do 2 apply store8_ok. Qed.

Lemma prepare_ok T m ctx : mem_ok m -> mem_ok (AsmPrepareThunk16 T m ctx).
Proof.
  intros Hm. unfold AsmPrepareThunk16. do 2 apply store_ok.
  destruct (_ =? 0); [do 2 apply clear_limit_ok|];
    apply store_ok, store8_ok, store_ok, store_bytes_ok, Hm.
Qed.

(** * The layout of low memory *)

(** [LegacyBiosInitializeThunkAndTable] places the page-sized thunk buffer
    on a page boundary after the data, without overlap and with less than a
    page in between, and returns the address one page beyond its end. *)
Lemma initialize_thunk_layout T m memory_address data_size :
  memory_address mod 4096 = 0 -> 0 <= data_size ->
  let '(ctx, _, first_free) := LegacyBiosInitializeThunkAndTable T m memory_address data_size in
  RealModeBuffer ctx mod 4096 = 0 /\ RealModeBufferSize ctx = 4096 /\
  memory_address + data_size < RealModeBuffer ctx <= memory_address + data_size + 4096 /\
  first_free = RealModeBuffer ctx + 2 * 4096.
Proof.
  intros Ha Hs. unfold LegacyBiosInitializeThunkAndTable, EFI_PAGE_SIZE.
  cbn [RealModeBuffer RealModeBufferSize]. Z.div_mod_to_equations. lia.
Qed.

(** * Witnesses *)

(** A 64-byte image: descriptors at 0, pointer at 24, transition at 32,
    attributes at 36. *)
Definition sample_thunk : thunk16 :=
  mkThunk16 (replicate 8 0 ++ [0xff; 0xff; 0; 0; 0; 0x9b; 0x8f; 0] ++
             [0xff; 0xff; 0; 0; 0; 0x93; 0x8f; 0] ++ replicate 40 0) 0 24 32 36.

Definition sample_context : THUNK_CONTEXT := mkContext 0x26008 4096 3.

Lemma prepare_descriptors_witness :
  descriptor_base (AsmPrepareThunk16 sample_thunk (fun _ => 0) sample_context) (0x26008 + 8) = 0x26000.
Proof.
  apply (prepare_descriptors sample_thunk (fun _ => 0) sample_context).
  - apply (bool_decide_unpack _). vm_compute. exact I.
  - unfold layout_ok, apart. vm_compute. intuition congruence.
  - unfold fits. simpl. lia.
  - simpl. lia.
  - reflexivity.
Defined.

Lemma initialize_thunk_layout_witness :
  (LegacyBiosInitializeThunkAndTable sample_thunk (fun _ => 0) 0x20000 23480).2 = 0x28000.
Proof.
  pose proof (initialize_thunk_layout sample_thunk (fun _ => 0) 0x20000 23480 eq_refl ltac:(lia)) as H.
  destruct (LegacyBiosInitializeThunkAndTable sample_thunk (fun _ => 0) 0x20000 23480)
    as [[ctx m'] first_free]. destruct H as (H1 & _ & H2 & ->). simpl.
  Z.div_mod_to_equations. lia.
Defined.

(** Real-mode code that returns its arguments with the carry flag set. *)
Definition sample_code (r : IA32_REGISTER_SET) (transition : Z) (m : mem) : IA32_REGISTER_SET * mem :=
  (mkIa32 (EDI r) (ESI r) (EBP r) (ESP r) (EBX r) (EDX r) (ECX r) (EAX r) (DS r) (ES r) (FS r)
     (GS r) (Z.lor (EFLAGS r) 1) (Eip r) (CS r) (SS r), m).

Lemma far_call_marshals_witness :
  exists R m3,
    InternalLegacyBiosFarCall sample_code sample_context 0xf000 0x1234
      (mkEfiRegs 2 0 0 0 0 0 0x202 0x2000 0 0 0 0 0 0 0) 0x200000 6 (fun a => u8 a) =
    (true, R, m3) /\ rEAX R = 2 /\
    load_bytes m3 0x200000 6 = load_bytes (fun a => u8 a) 0x200000 6.
Proof.
  destruct (far_call_marshals sample_code sample_context ltac:(simpl; lia) 0xf000 0x1234
    (mkEfiRegs 2 0 0 0 0 0 0x202 0x2000 0 0 0 0 0 0 0) 0x200000 6 (fun a => u8 a))
    as (r & sp & m1 & He & _ & Hargs & _ & R & m3 & Hrun & HR & Hback & _).
  - intros a. apply wrap_fits. lia.
  - split; [simpl; lia|]. intros _. simpl. lia.
  - intros r b m Hm. exact Hm.
  - exists R, m3. split; [rewrite Hrun; f_equal; f_equal|split].
    + change (Z.testbit (Z.lor (EFLAGS r) 1) 0 = true). rewrite Z.lor_spec. apply orb_true_r.
    + destruct HR as (-> & _). simpl. destruct He as (_ & _ & _ & -> & _). reflexivity.
    + change 6%nat with (Z.to_nat 6). rewrite Hback by lia. apply Hargs. lia.
Defined.
