(* ===== verification/Acpi.v ===== *)
(** The ACPI host layer ([src/acpi.c]): the services CSMWrap gives the uACPI
    interpreter (configuration space, port ranges, pool memory, time), and the
    discovery of the root pointer.

    The interpreter itself is vendored code that is only called; its entry
    points are parameters. *)

From stdpp Require Import base numbers list strings.
From Stdlib Require Import ZArith Lia.
From S2P Require Import Prelude Memory Machine Firmware Chipset.

(** * Status values *)

Definition UACPI_STATUS_OK : Z := 0.
Definition UACPI_STATUS_OUT_OF_MEMORY : Z := 2.
Definition UACPI_STATUS_NOT_FOUND : Z := 6.
Definition UACPI_STATUS_INVALID_ARGUMENT : Z := 7.
Definition UACPI_STATUS_UNIMPLEMENTED : Z := 8.

Definition uacpi_log_level_to_string (lvl : Z) : string :=
  if lvl =? 5 then "DEBUG"
  else if lvl =? 4 then "TRACE"
  else if lvl =? 3 then "INFO"
  else if lvl =? 2 then "WARN"
  else "ERROR".

(** * Time *)

Module Time.

(** [int] division truncates. *)
Definition get_jdn (days months years : Z) : Z :=
  Z.quot (1461 * (years + 4800 + Z.quot (months - 14) 12)) 4
  + Z.quot (367 * (months - 2 - 12 * Z.quot (months - 14) 12)) 12
  - Z.quot (3 * Z.quot (years + 4900 + Z.quot (months - 14) 12) 100) 4
  + days - 32075.

Definition NS_PER_S : Z := 1000000000.

(** The parameters have the widths of the C prototype: the nanoseconds are 16
    bits. *)
Definition get_unix_epoch (nanoseconds seconds minutes hours days months years : Z) : Z :=
  let jdn_current := u64 (get_jdn (u8 days) (u8 months) (u16 years)) in
  let jdn_1970 := u64 (get_jdn 1 1 1970) in
  let jdn_diff := u64 (jdn_current - jdn_1970) in
  u64 (jdn_diff * 60 * 60 * 24 * NS_PER_S + u8 hours * 3600 * NS_PER_S
       + u8 minutes * 60 * NS_PER_S + u8 seconds * NS_PER_S + u16 nanoseconds).

Definition epoch_of (t : EFI_TIME) : Z :=
  get_unix_epoch (Nanosecond t) (Second t) (Minute t) (Hour t) (Day t) (Month t) (Year t).

(** The calendar, as it is defined. *)
Definition leap (y : Z) : bool :=
  (y mod 4 =? 0) && (negb (y mod 100 =? 0) || (y mod 400 =? 0)).

Definition days_in_month (y m : Z) : Z :=
  if m =? 2 then (if leap y then 29 else 28)
  else if (m =? 4) || (m =? 6) || (m =? 9) || (m =? 11) then 30 else 31.

Record date := mkDate { year : Z; month : Z; day : Z }.

Definition valid (d : date) : Prop :=
  1900 <= year d <= 9999 /\ 1 <= month d <= 12 /\ 1 <= day d <= days_in_month (year d) (month d).

Definition next_day (d : date) : date :=
  if day d <? days_in_month (year d) (month d) then mkDate (year d) (month d) (day d + 1)
  else if month d <? 12 then mkDate (year d) (month d + 1) 1
  else mkDate (year d + 1) 1 1.

Definition jdn (d : date) : Z := get_jdn (day d) (month d) (year d).

(** Truncated division is floor division on the values that occur. *)
Lemma jdn_floor d m y :
  1 <= m <= 12 -> 1900 <= y ->
  get_jdn d m y =
  let a := if m <=? 2 then -1 else 0 in
  1461 * (y + 4800 + a) / 4 + 367 * (m - 2 - 12 * a) / 12 - 3 * ((y + 4900 + a) / 100) / 4
  + d - 32075.
Proof.
  intros Hm Hy. unfold get_jdn.
  assert (Z.quot (m - 14) 12 = if m <=? 2 then -1 else 0) as ->.
  { assert (m = 1 \/ m = 2 \/ m = 3 \/ m = 4 \/ m = 5 \/ m = 6 \/ m = 7 \/ m = 8 \/ m = 9 \/
            m = 10 \/ m = 11 \/ m = 12) as Hc by lia.
    repeat (destruct Hc as [-> | Hc]; [done|]). by subst. }
  set (a := if m <=? 2 then -1 else 0).
  assert (-1 <= a <= 0) by (subst a; destruct (m <=? 2); lia).
  assert (0 <= m - 2 - 12 * a) by (subst a; destruct (Z.leb_spec m 2); lia).
  rewrite !Z.quot_div_nonneg; [done|..]; try lia.
  - rewrite Z.quot_div_nonneg by lia. Z.div_mod_to_equations. lia.
Qed.

Lemma leap_spec y : leap y = true <-> y mod 4 = 0 /\ (y mod 100 <> 0 \/ y mod 400 = 0).
Proof.
  unfold leap. rewrite andb_true_iff, orb_true_iff, negb_true_iff, !Z.eqb_eq, Z.eqb_neq. done.
Qed.

Lemma jdn_next d : valid d -> jdn (next_day d) = jdn d + 1.
Proof.
  intros (Hy & Hm & Hd). destruct d as [y m dd]; simpl in *. unfold next_day, jdn. simpl.
  destruct (Z.ltb_spec dd (days_in_month y m)) as [Hlt|Hge].
  { simpl. unfold get_jdn. lia. }
  assert (dd = days_in_month y m) as -> by lia. clear Hd Hge.
  destruct (Z.ltb_spec m 12).
  - simpl. rewrite !jdn_floor by lia. unfold days_in_month. cbv zeta.
    assert (m = 1 \/ m = 2 \/ m = 3 \/ m = 4 \/ m = 5 \/ m = 6 \/ m = 7 \/ m = 8 \/ m = 9 \/
            m = 10 \/ m = 11) as Hc by lia.
    destruct (leap y) eqn:Hl;
      [apply leap_spec in Hl
      |assert (~ (y mod 4 = 0 /\ (y mod 100 <> 0 \/ y mod 400 = 0)))
         by (rewrite <- leap_spec; congruence)];
      repeat (destruct Hc as [-> | Hc]; [simpl; Z.div_mod_to_equations; lia|]);
      subst; simpl; Z.div_mod_to_equations; lia.
  - assert (m = 12) as -> by lia. simpl. rewrite !jdn_floor by lia. simpl.
    change (days_in_month y 12) with 31.
    replace (y + 1 + 4800 + -1) with (y + 4800 + 0) by lia.
    replace (y + 1 + 4900 + -1) with (y + 4900 + 0) by lia.
    change (367 * (1 - 2 - 12 * -1) / 12) with 336. change (367 * (12 - 2 - 12 * 0) / 12) with 305.
    lia.
Qed.

(** The date [n] days after 1970-01-01. *)
Definition civil (n : nat) : date := Nat.iter n next_day (mkDate 1970 1 1).

Lemma next_valid d : valid d -> jdn d < 5373484 -> valid (next_day d).
Proof.
  intros (Hy & Hm & Hd) Hj. destruct d as [y m dd]; simpl in *. unfold next_day; simpl.
  assert (Hb : forall y' m', 28 <= days_in_month y' m' <= 31).
  { intros y' m'. unfold days_in_month.
    repeat match goal with |- context [if ?b then _ else _] => destruct b end; lia. }
  destruct (Z.ltb_spec dd (days_in_month y m)); [unfold valid; simpl; lia|].
  destruct (Z.ltb_spec m 12).
  { pose proof (Hb y (m + 1)). unfold valid; simpl. lia. }
  assert (m = 12) as -> by lia. pose proof (Hb (y + 1) 1).
  assert (y <> 9999); [|unfold valid; simpl; lia].
  intros ->. change (days_in_month 9999 12) with 31 in *. assert (dd = 31) as -> by lia.
  vm_compute in Hj. done.
Qed.

(** The day number counts the days since 1970, through the year 9999. *)
Lemma civil_jdn n :
  Z.of_nat n <= 2932896 -> valid (civil n) /\ jdn (civil n) = 2440588 + Z.of_nat n.
Proof.
  induction n as [|n IH]; intros Hn.
  { split; [|done]. unfold valid, days_in_month; simpl. lia. }
  change (civil (S n)) with (next_day (civil n)).
  destruct IH as [Hv Hj]; [lia|]. split; [apply next_valid; [done|lia]|].
  rewrite jdn_next by done. lia.
Qed.

(** C35: the nanoseconds-since-1970 conversion is the calendar: on the date
    reached by stepping [n] days from 1970-01-01 through the months and leap
    years of the Gregorian calendar, and at any time of that day, the result is
    [n] days, the hours, minutes and seconds in nanoseconds, plus the low 16 bits
    of the nanosecond field, modulo 2^64.  Nothing wraps through 2554-07-20. *)
Theorem epoch_counts_days n h mi s ns :
  Z.of_nat n <= 2932896 -> 0 <= h < 24 -> 0 <= mi < 60 -> 0 <= s < 60 ->
  let d := civil n in
  let total := (((Z.of_nat n * 24 + h) * 60 + mi) * 60 + s) * NS_PER_S + ns mod 2 ^ 16 in
  get_unix_epoch ns s mi h (day d) (month d) (year d) = total mod 2 ^ 64 /\
  (Z.of_nat n <= 213502 -> total mod 2 ^ 64 = total).
Proof.
  intros Hn Hh Hmi Hs d total. destruct (civil_jdn n) as [(Hy & Hm & Hd) Hj]; [lia|].
  assert (days_in_month (year (civil n)) (month (civil n)) <= 31).
  { unfold days_in_month.
    repeat match goal with |- context [if ?b then _ else _] => destruct b end; lia. }
  pose proof (Z.mod_pos_bound ns (2 ^ 16)) as Hns. split.
  - unfold jdn in Hj. subst d. unfold get_unix_epoch. cbv zeta.
    rewrite (wrap_small 8 (day _)), (wrap_small 8 (month _)), (wrap_small 16 (year _)),
      (wrap_small 8 h), (wrap_small 8 mi), (wrap_small 8 s), Hj by (unfold fits; lia).
    change (u64 (get_jdn 1 1 1970)) with 2440588.
    rewrite (wrap_small 64 (2440588 + _)) by (unfold fits; lia).
    rewrite (wrap_small 64 (_ - 2440588)) by (unfold fits; lia).
    subst total. unfold wrap, NS_PER_S. f_equal. lia.
  - intros Hn'. apply Z.mod_small. subst total. unfold NS_PER_S in *. lia.
Qed.

(** 213502 days after 1970-01-01 it is 2554-07-20, and on the day after next the
    count has wrapped. *)
Lemma epoch_counts_days_witness :
  civil (Z.to_nat 213502) = mkDate 2554 7 20 /\
  get_unix_epoch 5 4 3 2 1 3 1972 = 68263384 * NS_PER_S + 5 /\
  get_unix_epoch 0 0 0 0 22 7 2554 < NS_PER_S * 86400.
Proof.
  split; [vm_compute; reflexivity|]. split.
  - destruct (epoch_counts_days 790 2 3 4 5) as [E El]; [vm_compute; discriminate|lia..|].
    change (civil 790) with (mkDate 1972 3 1) in E. cbn [day month year] in E. rewrite E. vm_compute. reflexivity.
  - vm_compute. reflexivity.
Defined.

End Time.

(** * The kernel interface of the interpreter *)

(** [uacpi_pci_address] and [struct mapped_io]. *)
Record uacpi_pci_address := mkPciAddress {
  pa_segment : Z;
  pa_bus : Z;
  pa_device : Z;
  pa_function : Z
}.

Definition sizeof_pci_address : Z := 6.
Definition sizeof_mapped_io : Z := 16.

Section Kernel.
Context {W : Type} `{Machine W} `{BootServices W}.

Definition uacpi_kernel_map (addr len : Z) : Z := addr.

(** [memcpy] copies the five fields and the byte of padding. *)
Definition uacpi_kernel_pci_device_open (address : uacpi_pci_address) (padding : Z)
  : M W (Z * option Z) :=
  '(status, handle) ← AllocatePool sizeof_pci_address;
  if negb (status =? EFI_SUCCESS) then mret (UACPI_STATUS_OUT_OF_MEMORY, None)
  else
    write_mem 2 handle (u16 (pa_segment address)) ;;
    write_mem 1 (handle + 2) (u8 (pa_bus address)) ;;
    write_mem 1 (handle + 3) (u8 (pa_device address)) ;;
    write_mem 1 (handle + 4) (u8 (pa_function address)) ;;
    write_mem 1 (handle + 5) (u8 padding) ;;
    mret (UACPI_STATUS_OK, Some handle).

Definition uacpi_kernel_pci_device_close (handle : Z) : M W unit := FreePool handle.

(** The fields of the address behind a handle. *)
Definition handle_address (device : Z) : M W (Z * Z * Z) :=
  bus ← read_mem 1 (device + 2);
  slot ← read_mem 1 (device + 3);
  function ← read_mem 1 (device + 4);
  mret (bus, slot, function).

Definition uacpi_kernel_pci_read8 (device offset : Z) : M W (Z * Z) :=
  '(bus, slot, function) ← handle_address device;
  value ← pciConfigReadByte bus slot function (u32 offset);
  mret (UACPI_STATUS_OK, value).

Definition uacpi_kernel_pci_read16 (device offset : Z) : M W (Z * Z) :=
  '(bus, slot, function) ← handle_address device;
  value ← pciConfigReadWord bus slot function (u32 offset);
  mret (UACPI_STATUS_OK, value).

Definition uacpi_kernel_pci_read32 (device offset : Z) : M W (Z * Z) :=
  '(bus, slot, function) ← handle_address device;
  value ← pciConfigReadDWord bus slot function (u32 offset);
  mret (UACPI_STATUS_OK, value).

Definition uacpi_kernel_pci_write8 (device offset value : Z) : M W Z :=
  '(bus, slot, function) ← handle_address device;
  pciConfigWriteByte bus slot function (u32 offset) value ;;
  mret UACPI_STATUS_OK.

Definition uacpi_kernel_pci_write16 (device offset value : Z) : M W Z :=
  '(bus, slot, function) ← handle_address device;
  pciConfigWriteWord bus slot function (u32 offset) value ;;
  mret UACPI_STATUS_OK.

Definition uacpi_kernel_pci_write32 (device offset value : Z) : M W Z :=
  '(bus, slot, function) ← handle_address device;
  pciConfigWriteDWord bus slot function (u32 offset) value ;;
  mret UACPI_STATUS_OK.

(** The block that is asked for has the size of a PCI address. *)
Definition uacpi_kernel_io_map (base len : Z) : M W (Z * option Z) :=
  '(status, handle) ← AllocatePool sizeof_pci_address;
  if negb (status =? EFI_SUCCESS) then mret (UACPI_STATUS_OUT_OF_MEMORY, None)
  else
    write_mem 8 handle (u64 base) ;;
    write_mem 8 (handle + 8) (u64 len) ;;
    mret (UACPI_STATUS_OK, Some handle).

Definition uacpi_kernel_io_unmap (handle : Z) : M W unit := FreePool handle.

(** The three reads and the three writes differ in the instruction. *)
Definition io_read (inp : Z -> M W Z) (handle offset : Z) : M W (Z * option Z) :=
  len ← read_mem 8 (handle + 8);
  if len <=? offset then mret (UACPI_STATUS_INVALID_ARGUMENT, None)
  else
    base ← read_mem 8 handle;
    value ← inp (base + offset);
    mret (UACPI_STATUS_OK, Some value).

Definition io_write (out : Z -> Z -> M W unit) (handle offset value : Z) : M W Z :=
  len ← read_mem 8 (handle + 8);
  if len <=? offset then mret UACPI_STATUS_INVALID_ARGUMENT
  else
    base ← read_mem 8 handle;
    out (base + offset) value ;;
    mret UACPI_STATUS_OK.

Definition uacpi_kernel_io_read8 : Z -> Z -> M W (Z * option Z) := io_read inb.
Definition uacpi_kernel_io_read16 : Z -> Z -> M W (Z * option Z) := io_read inw.
Definition uacpi_kernel_io_read32 : Z -> Z -> M W (Z * option Z) := io_read inl.
Definition uacpi_kernel_io_write8 : Z -> Z -> Z -> M W Z := io_write outb.
Definition uacpi_kernel_io_write16 : Z -> Z -> Z -> M W Z := io_write outw.
Definition uacpi_kernel_io_write32 : Z -> Z -> Z -> M W Z := io_write outl.

(** Locks, events and mutexes are one byte of pool; taking them does nothing.
    [None] is the null handle. *)
Definition alloc_or_null (size : Z) : M W (option Z) :=
  '(status, result) ← AllocatePool size;
  mret (if negb (status =? EFI_SUCCESS) then None else Some result).

Definition uacpi_kernel_create_spinlock : M W (option Z) := alloc_or_null 1.
Definition uacpi_kernel_create_event : M W (option Z) := alloc_or_null 1.
Definition uacpi_kernel_create_mutex : M W (option Z) := alloc_or_null 1.
Definition uacpi_kernel_alloc (size : Z) : M W (option Z) := alloc_or_null size.

Definition uacpi_kernel_free_spinlock (handle : Z) : M W unit := FreePool handle.
Definition uacpi_kernel_free_event (handle : Z) : M W unit := FreePool handle.
Definition uacpi_kernel_free_mutex (handle : Z) : M W unit := FreePool handle.
Definition uacpi_kernel_free (mem : option Z) : M W unit :=
  match mem with None => mret tt | Some p => FreePool p end.

Definition uacpi_kernel_lock_spinlock (handle : Z) : M W Z := mret 0.
Definition uacpi_kernel_wait_for_event (handle timeout : Z) : M W bool := mret true.
Definition uacpi_kernel_acquire_mutex (handle timeout : Z) : M W Z := mret UACPI_STATUS_OK.
Definition uacpi_kernel_get_thread_id : Z := 1.

Definition uacpi_kernel_handle_firmware_request : Z := UACPI_STATUS_UNIMPLEMENTED.
Definition uacpi_kernel_install_interrupt_handler : Z := UACPI_STATUS_OK.
Definition uacpi_kernel_uninstall_interrupt_handler : Z := UACPI_STATUS_UNIMPLEMENTED.
Definition uacpi_kernel_schedule_work : Z := UACPI_STATUS_UNIMPLEMENTED.
Definition uacpi_kernel_wait_for_work_completion : Z := UACPI_STATUS_UNIMPLEMENTED.

Definition uacpi_kernel_get_nanoseconds_since_boot (gTimeAtBoot : EFI_TIME) : M W Z :=
  '(status, time) ← GetTime;
  mret (if negb (status =? EFI_SUCCESS) then 0
        else u64 (Time.epoch_of time - Time.epoch_of gTimeAtBoot)).

Definition uacpi_kernel_stall (usec : Z) : M W unit := Stall (u8 usec).
Definition uacpi_kernel_sleep (msec : Z) : M W unit := Stall (u64 (msec * 1000)).

End Kernel.

(** * Pool memory

    What the code relies on of a block it was given: it is ordinary memory. *)

Class PoolMemory (W : Type) `{Machine W} `{BootServices W} := {
  pool_ram : W -> mem;
  in_pool : W -> Z -> Prop;
  pool_read : forall n a w, (forall x, a <= x < a + Z.of_nat n -> in_pool w x) ->
    read_mem n a w = (load n (pool_ram w) a, w);
  pool_write : forall n a v w, (forall x, a <= x < a + Z.of_nat n -> in_pool w x) ->
    exists w', write_mem n a v w = (tt, w') /\ pool_ram w' = store n (pool_ram w) a v /\
      forall x, in_pool w x -> in_pool w' x;
  pool_alloc : forall n w p w', AllocatePool n w = ((EFI_SUCCESS, p), w') ->
    forall x, p <= x < p + n -> in_pool w' x
}.

(** The block of a handle, in a state. *)
Definition handle_for `{PoolMemory W} (w : W) (p : Z) (address : uacpi_pci_address) : Prop :=
  (forall x, p <= x < p + sizeof_pci_address -> in_pool w x) /\
  pool_ram w (p + 2) = pa_bus address /\ pool_ram w (p + 3) = pa_device address /\
  pool_ram w (p + 4) = pa_function address.

Definition address_ok (address : uacpi_pci_address) : Prop :=
  fits 8 (pa_bus address) /\ fits 8 (pa_device address) /\ fits 8 (pa_function address).

(** A block that holds a mapped range of ports. *)
Definition io_handle_for `{PoolMemory W} (w : W) (p base len : Z) : Prop :=
  (forall x, p <= x < p + sizeof_mapped_io -> in_pool w x) /\
  load 8 (pool_ram w) p = base /\ load 8 (pool_ram w) (p + 8) = len.

Section Handles.
Context {W : Type} `{Machine W} `{!PciMechanism W} `{!BootServices W} `{!PoolMemory W}.
Implicit Types (w : W).

Lemma store_byte m a v : fits 8 v -> store 1 m a v = store8 m a v.
Proof. intros Hv. unfold store. simpl. by rewrite wrap_small. Qed.

Lemma load_byte m a : load 1 m a = m a.
Proof. unfold load. simpl. lia. Qed.

(** A chain of stores into one block. *)
Lemma pool_write_in p n k v w w1 :
  (forall x, p <= x < p + sizeof_pci_address -> in_pool w x) ->
  0 <= k -> k + Z.of_nat n <= sizeof_pci_address ->
  write_mem n (p + k) v w = (tt, w1) ->
  pool_ram w1 = store n (pool_ram w) (p + k) v /\
  (forall x, p <= x < p + sizeof_pci_address -> in_pool w1 x).
Proof.
  intros Hin Hk Hn Hw. destruct (pool_write n (p + k) v w) as (w' & Hw' & Hr & Hp).
  { intros x Hx. apply Hin. lia. }
  rewrite Hw' in Hw. simplify_eq. auto.
Qed.

Lemma open_run address padding w p w1 :
  address_ok address ->
  AllocatePool sizeof_pci_address w = ((EFI_SUCCESS, p), w1) ->
  exists w2, uacpi_kernel_pci_device_open address padding w = ((UACPI_STATUS_OK, Some p), w2) /\
    handle_for w2 p address.
Proof.
  intros (Hb & Hd & Hf) Ha. pose proof (pool_alloc _ _ _ _ Ha) as Hin.
  unfold uacpi_kernel_pci_device_open. rewrite (run_step _ _ _ _ _ Ha). simpl.
  destruct (write_mem 2 p (u16 (pa_segment address)) w1) as [[] wa] eqn:Hwa.
  rewrite (run_step _ _ _ _ _ Hwa).
  rewrite <- (Z.add_0_r p) in Hwa. apply pool_write_in in Hwa as [_ Hia]; [|done|done|done].
  destruct (write_mem 1 (p + 2) (u8 (pa_bus address)) wa) as [[] wb] eqn:Hwb.
  rewrite (run_step _ _ _ _ _ Hwb). apply pool_write_in in Hwb as [Hrb Hib]; [|done..].
  destruct (write_mem 1 (p + 3) (u8 (pa_device address)) wb) as [[] wc] eqn:Hwc.
  rewrite (run_step _ _ _ _ _ Hwc). apply pool_write_in in Hwc as [Hrc Hic]; [|done..].
  destruct (write_mem 1 (p + 4) (u8 (pa_function address)) wc) as [[] wd] eqn:Hwd.
  rewrite (run_step _ _ _ _ _ Hwd). apply pool_write_in in Hwd as [Hrd Hid]; [|done..].
  destruct (write_mem 1 (p + 5) (u8 padding) wd) as [[] we] eqn:Hwe.
  rewrite (run_step _ _ _ _ _ Hwe). apply pool_write_in in Hwe as [Hre Hie]; [|done..].
  exists we. split; [done|]. split; [done|].
  rewrite Hre, Hrd, Hrc, Hrb, !store_byte by (apply wrap_fits; lia).
  split_and!; rewrite ?store8_eq, ?store8_ne, ?store8_eq, ?store8_ne, ?store8_eq by lia;
    rewrite !wrap_small by (done || by apply wrap_fits); done.
Qed.

Lemma address_run address p w :
  handle_for w p address ->
  handle_address p w = ((pa_bus address, pa_device address, pa_function address), w).
Proof.
  intros (Hin & H2 & H3 & H4). unfold handle_address.
  assert (forall k, 2 <= k <= 4 -> read_mem 1 (p + k) w = (pool_ram w (p + k), w)) as Hr.
  { intros k Hk. rewrite <- (load_byte (pool_ram w)). apply pool_read. intros x Hx. apply Hin.
    unfold sizeof_pci_address. lia. }
  rewrite (run_step _ _ _ _ _ (Hr 2 ltac:(lia))), (run_step _ _ _ _ _ (Hr 3 ltac:(lia))),
    (run_step _ _ _ _ _ (Hr 4 ltac:(lia))), H2, H3, H4. done.
Qed.

(** A configuration-space handle stands for the function it was opened
    for.  Opening asks the pool for the address structure and fills it in; as
    long as nothing overwrites the block, the six accessors make one access of
    their width to that bus, device and function, at the register asked for. *)
Lemma pci_handle_reaches address padding w p w1 :
  address_ok address ->
  AllocatePool sizeof_pci_address w = ((EFI_SUCCESS, p), w1) ->
  exists w2, uacpi_kernel_pci_device_open address padding w = ((UACPI_STATUS_OK, Some p), w2) /\
    handle_for w2 p address /\
    forall w3 offset v, handle_for w3 p address ->
      let f := pci_bdf (pa_bus address) (pa_device address) (pa_function address) in
      let r := u32 offset mod 256 in
      let wl := set_latch (pci_address (pa_bus address) (pa_device address)
                             (pa_function address) (u32 offset)) w3 in
      let read '(x, w') := ((UACPI_STATUS_OK, x), w') in
      let wrote '(_, w') := (UACPI_STATUS_OK, w') in
      uacpi_kernel_pci_read8 p offset w3 = read (cfg_read 1 f r wl) /\
      uacpi_kernel_pci_read16 p offset w3 = read (cfg_read 2 f (2 * (r / 2)) wl) /\
      uacpi_kernel_pci_read32 p offset w3 = read (cfg_read 4 f (4 * (r / 4)) wl) /\
      uacpi_kernel_pci_write8 p offset v w3 = wrote (cfg_write 1 f r (u8 v) wl) /\
      uacpi_kernel_pci_write16 p offset v w3 = wrote (cfg_write 2 f (2 * (r / 2)) (u16 v) wl) /\
      uacpi_kernel_pci_write32 p offset v w3 = wrote (cfg_write 4 f (4 * (r / 4)) (u32 v) wl).
Proof.
  intros Hok Ha. destruct (open_run address padding w p w1 Hok Ha) as (w2 & Ho & Hh).
  exists w2. split; [done|]. split; [done|]. intros w3 offset v H3. cbv zeta.
  pose proof (address_run address p w3 H3) as Hadr.
  unfold uacpi_kernel_pci_read8, uacpi_kernel_pci_read16, uacpi_kernel_pci_read32,
    uacpi_kernel_pci_write8, uacpi_kernel_pci_write16, uacpi_kernel_pci_write32.
  rewrite !(run_step _ _ _ _ _ Hadr), !run_bind.
  rewrite read_byte_run, read_word_run, read_dword_run, write_byte_run, write_word_run,
    write_dword_run.
  repeat match goal with |- context [cfg_read ?n ?f ?r ?w] => destruct (cfg_read n f r w)
    | |- context [cfg_write ?n ?f ?r ?x ?w] => destruct (cfg_write n f r x w) end.
  done.
Qed.

Lemma io_fields_run w p base len :
  io_handle_for w p base len -> read_mem 8 p w = (base, w) /\ read_mem 8 (p + 8) w = (len, w).
Proof.
  unfold io_handle_for, sizeof_mapped_io. intros (Hin & <- & <-).
  split; apply pool_read; intros x Hx; apply Hin; lia.
Qed.

Lemma io_read_run inp w p base len offset :
  io_handle_for w p base len ->
  io_read inp p offset w =
  if len <=? offset then ((UACPI_STATUS_INVALID_ARGUMENT, None), w)
  else let '(v, w') := inp (base + offset) w in ((UACPI_STATUS_OK, Some v), w').
Proof.
  intros [Hb Hl]%io_fields_run. unfold io_read. rewrite (run_step _ _ _ _ _ Hl).
  destruct (len <=? offset); [done|]. rewrite (run_step _ _ _ _ _ Hb), run_bind.
  by destruct (inp (base + offset) w).
Qed.

Lemma io_write_run out w p base len offset value :
  io_handle_for w p base len ->
  io_write out p offset value w =
  if len <=? offset then (UACPI_STATUS_INVALID_ARGUMENT, w)
  else let '(_, w') := out (base + offset) value w in (UACPI_STATUS_OK, w').
Proof.
  intros [Hb Hl]%io_fields_run. unfold io_write. rewrite (run_step _ _ _ _ _ Hl).
  destruct (len <=? offset); [done|]. rewrite (run_step _ _ _ _ _ Hb), run_bind.
  by destruct (out (base + offset) value w).
Qed.

(** A port-range handle guards its range.  At an offset past the length
    all six accessors refuse and touch no port; inside it, each makes one
    access of its width at base plus offset, which for a range inside the
    64 KB of port space is a port of the range. *)
Lemma io_handle_guards w p base len offset v :
  io_handle_for w p base len -> 0 <= base -> base + len <= 0x10000 -> 0 <= offset ->
  let read n := let '(x, w') := in_port n (base + offset) w in ((UACPI_STATUS_OK, Some x), w') in
  let wrote n x := let '(_, w') := out_port n (base + offset) x w in (UACPI_STATUS_OK, w') in
  if offset <? len then
    base <= base + offset < base + len /\
    uacpi_kernel_io_read8 p offset w = read 1%nat /\
    uacpi_kernel_io_read16 p offset w = read 2%nat /\
    uacpi_kernel_io_read32 p offset w = read 4%nat /\
    uacpi_kernel_io_write8 p offset v w = wrote 1%nat (u8 v) /\
    uacpi_kernel_io_write16 p offset v w = wrote 2%nat (u16 v) /\
    uacpi_kernel_io_write32 p offset v w = wrote 4%nat (u32 v)
  else
    Forall (fun read => read p offset w = ((UACPI_STATUS_INVALID_ARGUMENT, None), w))
      [uacpi_kernel_io_read8; uacpi_kernel_io_read16; uacpi_kernel_io_read32] /\
    Forall (fun write => write p offset v w = (UACPI_STATUS_INVALID_ARGUMENT, w))
      [uacpi_kernel_io_write8; uacpi_kernel_io_write16; uacpi_kernel_io_write32].
Proof.
  intros Hh Hb Hl Ho. cbv zeta.
  unfold uacpi_kernel_io_read8, uacpi_kernel_io_read16, uacpi_kernel_io_read32,
    uacpi_kernel_io_write8, uacpi_kernel_io_write16, uacpi_kernel_io_write32.
  destruct (Z.ltb_spec offset len) as [Hlt|Hge].
  - rewrite !(io_read_run _ w p base len) by done.
    rewrite !(io_write_run _ w p base len) by done.
    rewrite (proj2 (Z.leb_gt _ _)) by done. unfold inb, inw, inl, outb, outw, outl.
    rewrite (wrap_small 16 (base + offset)) by (unfold fits; lia). split; [lia|done].
  - split; repeat constructor.
    all: (rewrite (io_read_run _ w p base len) by done) || (rewrite (io_write_run _ w p base len) by done).
    all: by rewrite (proj2 (Z.leb_le _ _)).
Qed.

End Handles.

(** ** A pool on the data-sheet machine

    Blocks are handed out one after the other, rounded up to eight bytes as
    the UEFI specification has it; the address of the next block is kept in
    memory. *)

Definition pool_next : Z := 0x1000000.

Definition bump (n : Z) : M pc (Z * Z) := fun s =>
  let p := load 8 (pc_ram s) pool_next in
  if 0x100000 <=? p then
    ((EFI_SUCCESS, p), with_ram s (store 8 (pc_ram s) pool_next (p + 8 * ((n + 7) / 8))))
  else ((EFI_OUT_OF_RESOURCES, 0), s).

#[local] Instance bump_services : BootServices pc := {|
  Stall _ := mret tt;
  AllocatePool := bump;
  FreePool _ := mret tt;
  GetTime := mret (EFI_SUCCESS, mkTime 1970 1 1 0 0 0 0)
|}.

#[local] Instance bump_pool : PoolMemory pc.
Proof.
  refine {| pool_ram := pc_ram; in_pool := fun _ x => 0x100000 <= x |}.
  - intros n a s Hin. simpl. f_equal. apply load_ext. intros x Hx. unfold visible.
    by rewrite (proj1 (outside_region s x (Hin x Hx))).
  - intros n a v s Hin. simpl. eexists. split; [done|].
    rewrite (store_bytes_uniform s a (le_bytes n v) true).
    + by split.
    + intros i Hi. rewrite length_le_bytes in Hi. apply outside_region, Hin. lia.
  - intros n s p s' Ha x Hx. simpl in Ha. unfold bump in Ha. revert Ha.
    destruct (Z.leb_spec 0x100000 (load 8 (pc_ram s) pool_next)); intros; simplify_eq. lia.
Defined.

(** A machine with an empty pool at 0x1000008. *)
Definition host_pc : pc :=
  mkPc AmdMtrr 0 (fun _ _ => 0) (fun _ => 0)
    (store 8 (fun _ => 0) pool_next (pool_next + 8)) (fun _ => 0) 0 false 0.

Lemma host_alloc n : exists w1, AllocatePool n host_pc = ((EFI_SUCCESS, pool_next + 8), w1).
Proof. by eexists. Qed.

Lemma pci_handle_reaches_witness :
  exists w2, uacpi_kernel_pci_device_open (mkPciAddress 0 0 31 1) 0 host_pc =
    ((UACPI_STATUS_OK, Some (pool_next + 8)), w2) /\
    exists w3, uacpi_kernel_pci_write8 (pool_next + 8) 0x41 0x77 w2 = (UACPI_STATUS_OK, w3) /\
    pc_cfg w3 p2sb 0x41 = 0x77.
Proof.
  destruct (host_alloc sizeof_pci_address) as [w1 Ha].
  destruct (pci_handle_reaches (mkPciAddress 0 0 31 1) 0 host_pc (pool_next + 8) w1)
    as (w2 & Ho & Hh & Hacc); [unfold address_ok, fits; simpl; lia|exact Ha|].
  exists w2. split; [exact Ho|]. destruct (Hacc w2 0x41 0x77 Hh) as (_ & _ & _ & Hw & _).
  clear Hacc Ho Ha. eexists. split; [exact Hw|].
  cbn [snd pc_cfg_set le_bytes]. unfold pc_cfg_set8, cfg_locked. cbn [pc_chip set_latch pc_pci with_latch].
  destruct (pc_chip w2) as [base []|]; reflexivity.
Defined.

(** A machine whose pool block at 0x1000008 holds the range of the keyboard
    controller. *)
Definition kbd_pc : pc :=
  with_ram host_pc (store 8 (store 8 (fun _ => 0) (pool_next + 8) 0x60) (pool_next + 16) 5).

Lemma io_handle_guards_witness :
  uacpi_kernel_io_read8 (pool_next + 8) 4 kbd_pc =
    (let '(v, w') := in_port 1 0x64 kbd_pc in ((UACPI_STATUS_OK, Some v), w')) /\
  uacpi_kernel_io_write8 (pool_next + 8) 5 0 kbd_pc = (UACPI_STATUS_INVALID_ARGUMENT, kbd_pc).
Proof.
  assert (io_handle_for kbd_pc (pool_next + 8) 0x60 5) as Hh.
  { split; [|split; vm_compute; reflexivity].
    unfold pool_next. simpl. lia. }
  split.
  - apply (io_handle_guards kbd_pc (pool_next + 8) 0x60 5 4 0); [exact Hh|lia..].
  - destruct (io_handle_guards kbd_pc (pool_next + 8) 0x60 5 5 0) as [_ Hw]; [exact Hh|lia..|].
    exact (Forall_inv Hw).
Defined.

(** Mapping a range of ports overruns its block.  The block has the size
    of a PCI address, so with a pool that hands out consecutive blocks the
    next handle overwrites the length: an access that the range refused is
    then let through. *)
Lemma io_map_overruns :
  exists h1 s1 h2 s2 v,
    uacpi_kernel_io_map 0x60 5 host_pc = ((UACPI_STATUS_OK, Some h1), s1) /\
    (uacpi_kernel_io_read8 h1 5 s1).1 = (UACPI_STATUS_INVALID_ARGUMENT, None) /\
    uacpi_kernel_pci_device_open (mkPciAddress 0 0 31 1) 0 s1 = ((UACPI_STATUS_OK, Some h2), s2) /\
    h1 + sizeof_pci_address <= h2 /\
    (uacpi_kernel_io_read8 h1 5 s2).1 = (UACPI_STATUS_OK, Some v).
Proof.
  set (s1 := (uacpi_kernel_io_map 0x60 5 host_pc).2).
  set (s2 := (uacpi_kernel_pci_device_open (mkPciAddress 0 0 31 1) 0 s1).2).
  assert (forall A (m : M pc A) s x, (m s).1 = x -> m s = (x, (m s).2)) as Hrun.
  { intros A m s x <-. by destruct (m s). }
  exists (pool_next + 8), s1, (pool_next + 16), s2, 0xff.
  split_and!; [apply Hrun| |apply Hrun|unfold sizeof_pci_address; lia|]; vm_compute; reflexivity.
Qed.

(** * The root pointer *)

(** The globals of [acpi.c]; what is freed is recorded in order, and how often
    the interpreter was reset. *)
Record acpi_state := mkAcpi {
  st_mem : mem;
  g_rsdp : Z;
  early_table_buffer : Z;
  fully_initialized : bool;
  freed : list Z;
  resets : nat
}.

Definition sizeof_rsdp_2_0 : nat := 36.
Definition sizeof_rsdp_1_0 : nat := 20.

Definition set_rsdp (s : acpi_state) (target : Z) (n : nat) (t : EFI_CONFIGURATION_TABLE)
  : acpi_state :=
  mkAcpi (Libc.memcpy (st_mem s) target (VendorTable t) n) (VendorTable t)
    (early_table_buffer s) (fully_initialized s) (freed s) (resets s).

Definition uacpi_kernel_get_rsdp (s : acpi_state) : Z * option Z :=
  if g_rsdp s =? 0 then (UACPI_STATUS_NOT_FOUND, None) else (UACPI_STATUS_OK, Some (g_rsdp s)).

(** Where the compatibility module wants the pointer, in the loaded image. *)
Definition rsdp_target (csm_bin csm_bin_base AcpiRsdPtrPointer : Z) : Z :=
  u64 (csm_bin + (AcpiRsdPtrPointer - csm_bin_base)).

(** The end of [acpi_init]: early table access.  The answer of [AllocatePool]
    and that of [uacpi_setup_early_table_access] are arguments. *)
Definition early_access (alloc : Z * Z) (setup : Z) (s : acpi_state) : bool * acpi_state :=
  if g_rsdp s =? 0 then (false, s)
  else
    let '(status, buffer) := alloc in
    if negb (status =? EFI_SUCCESS) then (false, s)
    else
      (setup =? UACPI_STATUS_OK,
       mkAcpi (st_mem s) (g_rsdp s) buffer (fully_initialized s) (freed s) (resets s)).

Definition acpi_init (tables : list EFI_CONFIGURATION_TABLE) (table_target : Z)
    (alloc : Z * Z) (setup : Z) (s : acpi_state) : bool * acpi_state :=
  let s1 := match find_vendor tables ACPI_20_TABLE_GUID with
            | Some t => set_rsdp s table_target sizeof_rsdp_2_0 t
            | None => s
            end in
  let s2 := if g_rsdp s1 =? 0 then
              match find_vendor tables ACPI_TABLE_GUID with
              | Some t => set_rsdp s1 table_target sizeof_rsdp_1_0 t
              | None => s1
              end
            else s1 in
  early_access alloc setup s2.

(** The buffer is given back once. *)
Definition free_early_buffer (s : acpi_state) : acpi_state :=
  if early_table_buffer s =? 0 then s
  else mkAcpi (st_mem s) (g_rsdp s) 0 (fully_initialized s)
         (freed s ++ [early_table_buffer s]) (resets s).

Definition acpi_full_init (initialize load namespace_initialize : Z) (s : acpi_state)
  : bool * acpi_state :=
  if negb (initialize =? UACPI_STATUS_OK) then (false, s)
  else if negb (load =? UACPI_STATUS_OK) then (false, s)
  else if negb (namespace_initialize =? UACPI_STATUS_OK) then (false, s)
  else
    let s1 := free_early_buffer s in
    (true, mkAcpi (st_mem s1) (g_rsdp s1) (early_table_buffer s1) true (freed s1) (resets s1)).

Definition acpi_prepare_exitbs (s : acpi_state) : acpi_state :=
  let s1 := if fully_initialized s
            then mkAcpi (st_mem s) (g_rsdp s) (early_table_buffer s) (fully_initialized s)
                   (freed s) (S (resets s))
            else s in
  free_early_buffer s1.

(** The state before [acpi_init]. *)
Definition acpi_start (m : mem) : acpi_state := mkAcpi m 0 0 false [] 0.

Definition first_table (tables : list EFI_CONFIGURATION_TABLE) (g : list Z)
    (t : EFI_CONFIGURATION_TABLE) : Prop :=
  exists pre post, tables = pre ++ t :: post /\ VendorGuid t = g /\
    Forall (fun t' => VendorGuid t' <> g) pre.

(** What the firmware publishes: well-formed GUIDs and tables that exist and do
    not overlap the slot the pointer is copied to. *)
Definition tables_ok (target : Z) (tables : list EFI_CONFIGURATION_TABLE) : Prop :=
  Forall (fun t => guid_ok (VendorGuid t) /\ VendorTable t <> 0 /\
                   (target + 36 <= VendorTable t \/ VendorTable t + 36 <= target)) tables.

(** The root pointer of table [t], [n] bytes of it, installed at the target. *)
Definition rsdp_installed (m : mem) (target : Z) (n : nat) (t : EFI_CONFIGURATION_TABLE)
    (s : acpi_state) : Prop :=
  uacpi_kernel_get_rsdp s = (UACPI_STATUS_OK, Some (VendorTable t)) /\
  load_bytes (st_mem s) target n = load_bytes m (VendorTable t) n /\
  forall x, ~ (target <= x < target + Z.of_nat n) -> st_mem s x = m x.

Lemma guid_ok_acpi : guid_ok ACPI_20_TABLE_GUID /\ guid_ok ACPI_TABLE_GUID.
Proof.
  split; (split; [done|]); unfold fits; apply (bool_decide_unpack _); vm_compute; exact I.
Qed.

Lemma find_first target tables g :
  guid_ok g -> tables_ok target tables ->
  match find_vendor tables g with
  | Some t => first_table tables g t /\ VendorTable t <> 0 /\
      (target + 36 <= VendorTable t \/ VendorTable t + 36 <= target)
  | None => Forall (fun t => VendorGuid t <> g) tables
  end.
Proof.
  intros Hg Ht. pose proof (find_vendor_spec tables g Hg) as Hf.
  destruct (find_vendor tables g) as [t|].
  - destruct Hf as (pre & post & -> & He & Hpre); [eapply Forall_impl; [done|by intros ? []]|].
    split; [by exists pre, post|]. apply Forall_app in Ht as [_ Ht].
    by apply Forall_inv in Ht as (_ & ? & ?).
  - apply Hf. eapply Forall_impl; [done|by intros ? []].
Qed.

Lemma set_rsdp_installed s target n t :
  mem_ok (st_mem s) -> (n <= 36)%nat -> VendorTable t <> 0 ->
  target + 36 <= VendorTable t \/ VendorTable t + 36 <= target ->
  rsdp_installed (st_mem s) target n t (set_rsdp s target n t).
Proof.
  intros Hm Hn Hv Hd. unfold rsdp_installed, uacpi_kernel_get_rsdp, set_rsdp. simpl.
  destruct (Z.eqb_spec (VendorTable t) 0); [done|]. split; [done|].
  split.
  - apply load_bytes_shift. intros i Hi. rewrite Libc.memcpy_at by (done || lia).
    unfold Libc.block_copy. ztests. f_equal. lia.
  - intros x Hx. rewrite Libc.memcpy_at by (done || lia). unfold Libc.block_copy. ztests; done.
Qed.

Lemma early_access_installed m target n t alloc setup :
  mem_ok m -> (n <= 36)%nat -> VendorTable t <> 0 ->
  target + 36 <= VendorTable t \/ VendorTable t + 36 <= target ->
  let '(ok, s) := early_access alloc setup (set_rsdp (acpi_start m) target n t) in
  rsdp_installed m target n t s /\
  ok = ((alloc.1 =? EFI_SUCCESS) && (setup =? UACPI_STATUS_OK)).
Proof.
  intros Hm Hn H0 Hd. unfold early_access. destruct alloc as [status buffer]. simpl.
  pose proof (set_rsdp_installed (acpi_start m) target n t Hm Hn H0 Hd) as Hi.
  destruct (Z.eqb_spec (VendorTable t) 0); [done|].
  destruct (status =? EFI_SUCCESS); simpl; split; exact Hi || done.
Qed.

(** The discovery of the ACPI root pointer.  The first ACPI 2.0 table of the
    firmware is preferred and its 36 bytes are copied into the compatibility
    module; without one, the first ACPI 1.0 table and its 20 bytes; nothing
    else in memory changes, and the interpreter is told the firmware's address.
    With neither, the call fails and changes nothing.  The call succeeds
    exactly when a table was found, the buffer was allocated and the
    interpreter accepted it. *)
Lemma acpi_init_selects m tables target alloc setup :
  mem_ok m -> tables_ok target tables ->
  let '(ok, s) := acpi_init tables target alloc setup (acpi_start m) in
  (exists t n, rsdp_installed m target n t s /\
     ((first_table tables ACPI_20_TABLE_GUID t /\ n = sizeof_rsdp_2_0) \/
      (Forall (fun t => VendorGuid t <> ACPI_20_TABLE_GUID) tables /\
       first_table tables ACPI_TABLE_GUID t /\ n = sizeof_rsdp_1_0)) /\
     ok = ((alloc.1 =? EFI_SUCCESS) && (setup =? UACPI_STATUS_OK))) \/
  (Forall (fun t => VendorGuid t <> ACPI_20_TABLE_GUID /\ VendorGuid t <> ACPI_TABLE_GUID) tables /\
   ok = false /\ s = acpi_start m /\ uacpi_kernel_get_rsdp s = (UACPI_STATUS_NOT_FOUND, None)).
Proof.
  intros Hm Ht. destruct guid_ok_acpi as [Hg2 Hg1]. unfold acpi_init.
  pose proof (find_first _ _ _ Hg2 Ht) as H2. pose proof (find_first _ _ _ Hg1 Ht) as H1.
  destruct (find_vendor tables ACPI_20_TABLE_GUID) as [t|].
  - destruct H2 as (Hf & H0 & Hd).
    rewrite (proj2 (Z.eqb_neq (g_rsdp (set_rsdp _ _ _ t)) 0) H0).
    pose proof (early_access_installed m target sizeof_rsdp_2_0 t alloc setup Hm
                  ltac:(done) H0 Hd) as He.
    destruct (early_access _ _ _) as [ok s]. destruct He. left. exists t, sizeof_rsdp_2_0. auto.
  - simpl. destruct (find_vendor tables ACPI_TABLE_GUID) as [t|].
    + destruct H1 as (Hf & H0 & Hd).
      pose proof (early_access_installed m target sizeof_rsdp_1_0 t alloc setup Hm
                    ltac:(unfold sizeof_rsdp_1_0; lia) H0 Hd) as He.
      destruct (early_access _ _ _) as [ok s]. destruct He. left. exists t, sizeof_rsdp_1_0. auto 6.
    + simpl. right. rewrite Forall_and. done.
Qed.

(** An attempt at full initialisation: the three statuses. *)
Definition attempt_ok (a : Z * Z * Z) : bool :=
  let '(i, l, n) := a in
  (i =? UACPI_STATUS_OK) && (l =? UACPI_STATUS_OK) && (n =? UACPI_STATUS_OK).

Definition attempt (s : acpi_state) (a : Z * Z * Z) : acpi_state :=
  let '(i, l, n) := a in (acpi_full_init i l n s).2.

(** Between discovery and exit: the buffer is held or was freed, and the
    interpreter has not been reset. *)
Definition held_or_freed (buffer : Z) (s : acpi_state) : Prop :=
  (early_table_buffer s = buffer /\ freed s = []) \/
  (early_table_buffer s = 0 /\ freed s = [buffer]).

Definition buffer_state (buffer : Z) (full : bool) (s : acpi_state) : Prop :=
  fully_initialized s = full /\ resets s = 0%nat /\ held_or_freed buffer s.

Lemma free_early_state buffer s :
  buffer <> 0 -> held_or_freed buffer s ->
  early_table_buffer (free_early_buffer s) = 0 /\ freed (free_early_buffer s) = [buffer] /\
  resets (free_early_buffer s) = resets s.
Proof.
  intros Hb [[He Hf] | [He Hf]]; unfold free_early_buffer; rewrite He.
  - destruct (Z.eqb_spec buffer 0); [done|]. simpl. by rewrite Hf.
  - simpl. auto.
Qed.

Lemma full_init_state buffer full a s :
  buffer <> 0 -> buffer_state buffer full s ->
  buffer_state buffer (full || attempt_ok a) (attempt s a).
Proof.
  destruct a as [[i l] n]. intros Hb Hs. unfold attempt, attempt_ok, acpi_full_init, UACPI_STATUS_OK.
  destruct (i =? 0), (l =? 0), (n =? 0); simpl; rewrite ?orb_false_r; [|done..].
  rewrite orb_true_r. destruct (free_early_state buffer s Hb) as (He & Hf & Hr); [apply Hs|].
  destruct Hs as (_ & Hr0 & _). unfold buffer_state, held_or_freed. simpl. rewrite Hr, Hr0. auto.
Qed.

Lemma attempts_state buffer full s attempts :
  buffer <> 0 -> buffer_state buffer full s ->
  buffer_state buffer (full || existsb attempt_ok attempts)
    (foldl attempt s attempts).
Proof.
  intros Hb. revert full s. induction attempts as [|a attempts IH]; intros full s Hs; simpl.
  - by rewrite orb_false_r.
  - rewrite orb_assoc. by apply IH, full_init_state.
Qed.

(** The early table buffer is given back exactly once.  After the root
    pointer was found and the buffer allocated, whatever the attempts at full
    initialisation that follow do, leaving boot services leaves the buffer
    freed once and forgotten, and resets the interpreter exactly when one of
    the attempts had succeeded. *)
Lemma early_buffer_freed_once m tables target buffer setup attempts :
  let s0 := (acpi_init tables target (EFI_SUCCESS, buffer) setup (acpi_start m)).2 in
  let s1 := foldl attempt s0 attempts in
  let s2 := acpi_prepare_exitbs s1 in
  g_rsdp s0 <> 0 -> buffer <> 0 ->
  early_table_buffer s2 = 0 /\ freed s2 = [buffer] /\
  resets s2 = if existsb attempt_ok attempts then 1%nat else 0%nat.
Proof.
  cbv zeta. set (s0 := (acpi_init _ _ _ _ _).2). intros Hg Hb.
  assert (buffer_state buffer false s0) as H0.
  { subst s0. unfold acpi_init, early_access, acpi_start in *.
    destruct (find_vendor tables ACPI_20_TABLE_GUID), (find_vendor tables ACPI_TABLE_GUID); simpl in *;
      repeat match goal with |- context [if ?b =? 0 then _ else _] => destruct (b =? 0) eqn:?; simpl in * end;
      unfold buffer_state, held_or_freed; simpl; auto; lia. }
  apply (attempts_state buffer false s0 attempts Hb) in H0. simpl in H0.
  set (s1 := foldl _ s0 attempts) in *. pose proof H0 as (Hf & Hr & _).
  unfold acpi_prepare_exitbs. rewrite Hf. destruct (existsb _ attempts).
  - destruct (free_early_state buffer (mkAcpi (st_mem s1) (g_rsdp s1) (early_table_buffer s1)
                true (freed s1) (S (resets s1))) Hb) as (-> & -> & ->); [apply H0|].
    simpl. by rewrite Hr.
  - destruct (free_early_state buffer s1 Hb) as (-> & -> & ->); [apply H0|]. done.
Qed.

(** A firmware with a vendor table of its own, an ACPI 1.0 and an ACPI 2.0 one. *)
Definition demo_tables : list EFI_CONFIGURATION_TABLE :=
  [mkTable SMBIOS_TABLE_GUID 0x3000; mkTable ACPI_TABLE_GUID 0x1000;
   mkTable ACPI_20_TABLE_GUID 0x2000].

Lemma demo_tables_ok : tables_ok 0xF0000 demo_tables.
Proof.
  repeat constructor; try (simpl; lia); unfold fits; apply (bool_decide_unpack _); vm_compute; exact I.
Qed.

Lemma acpi_init_selects_witness :
  load_bytes (st_mem (acpi_init demo_tables 0xF0000 (EFI_SUCCESS, 0x5000) 0
                        (acpi_start (fun a => u8 a))).2) 0xF0000 36 =
  load_bytes (fun a => u8 a) 0x2000 36.
Proof.
  pose proof (acpi_init_selects (fun a => u8 a) demo_tables 0xF0000 (EFI_SUCCESS, 0x5000) 0
    (fun a => wrap_fits 8 a ltac:(lia)) demo_tables_ok) as H.
  destruct (acpi_init _ _ _ _ _) as [ok s] eqn:He.
  destruct H as [(t & n & (_ & Hl & _) & [[Hf ->] | [Hn _]] & _) | [Hn _]].
  - destruct Hf as (pre & post & Hsplit & Hg & _).
    assert (t = mkTable ACPI_20_TABLE_GUID 0x2000) as ->; [|exact Hl].
    assert (In t demo_tables) as Hin by (rewrite Hsplit; apply in_elt).
    destruct Hin as [<- | [<- | [<- | []]]]; [discriminate Hg|discriminate Hg|reflexivity].
  - exfalso. do 2 apply Forall_inv_tail in Hn. by apply Forall_inv in Hn.
  - exfalso. do 2 apply Forall_inv_tail in Hn. by apply Forall_inv in Hn as [Hn _].
Defined.

Lemma early_buffer_freed_once_witness :
  let s0 := (acpi_init demo_tables 0xF0000 (EFI_SUCCESS, 0x5000) 0 (acpi_start (fun a => u8 a))).2 in
  freed (acpi_prepare_exitbs (foldl attempt s0 [(0, 6, 0); (0, 0, 0)])) = [0x5000] /\
  resets (acpi_prepare_exitbs (foldl attempt s0 [(0, 6, 0); (0, 0, 0)])) = 1%nat.
Proof.
  apply (early_buffer_freed_once (fun a => u8 a) demo_tables 0xF0000 0x5000 0
           [(0, 6, 0); (0, 0, 0)]); vm_compute; discriminate.
Defined.
