(* ===== verification/SeaZone.v ===== *)
(** The reservation lists of the SeaBIOS allocator ([seabios/src/malloc.c],
    "low-level memory reservations"): one zone is a list of ranges in
    descending order, each with the bytes at its start in use; allocation
    carves from the top of a range, and freeing gives the range to its lower
    neighbour.

    The theorems relate a zone to two sets of addresses, the used and the free
    ones: allocation moves an aligned block from free to used, finds a block
    whenever one fits, and freeing moves it back. *)

From stdpp Require Import base numbers list.
From Stdlib Require Import ZArith Lia Sorted.
From S2P Require Import Prelude.

(** * Alignment ([types.h]) *)

Definition ALIGN_DOWN (x a : Z) : Z := Z.land x (u32 (Z.lnot (a - 1))).
Definition ALIGN (x a : Z) : Z := Z.land (u32 (x + (a - 1))) (u32 (Z.lnot (a - 1))).

(** An alignment is a power of two. *)
Definition is_align (a : Z) : Prop := exists k, 0 <= k < 32 /\ a = 2 ^ k.

Lemma is_align_pos a : is_align a -> 0 < a.
Proof. intros (k & Hk & ->). apply Z.pow_pos_nonneg; lia. Qed.

Lemma align_down_spec x a : is_align a -> fits 32 x -> ALIGN_DOWN x a = x - x mod a.
Proof.
  intros (k & Hk & ->) Hx. unfold ALIGN_DOWN.
  replace (u32 (Z.lnot (2 ^ k - 1))) with (Z.shiftl (Z.ones (32 - k)) k).
  { apply land_clear_low; [lia|done]. }
  rewrite Z.shiftl_mul_pow2, Z.ones_equiv by lia. unfold wrap, Z.lnot.
  assert (2 ^ k * 2 ^ (32 - k) = 2 ^ 32) as Hp by (rewrite <- Z.pow_add_r by lia; f_equal; lia).
  assert (0 < 2 ^ k) by (apply Z.pow_pos_nonneg; lia).
  assert (0 < 2 ^ (32 - k)) by (apply Z.pow_pos_nonneg; lia).
  apply (Z.mod_unique _ _ (-1)); [left|]; nia.
Qed.

Lemma multiple_le a p q : 0 < a -> p mod a = 0 -> q mod a = 0 -> q < p + a -> q <= p.
Proof.
  intros Ha Hp Hq Hlt. apply Z.div_exact in Hp, Hq; [|lia..].
  rewrite Hp, Hq in Hlt |- *. apply Z.mul_le_mono_nonneg_l; [lia|].
  assert (a * (q / a) < a * (p / a + 1)) as Hl%Z.mul_lt_mono_pos_l by lia; lia.
Qed.

(** The largest aligned address of a block of [size] bytes ending by [e]. *)
Lemma align_down_block e size a :
  is_align a -> fits 32 e -> 0 <= size <= e ->
  let p := ALIGN_DOWN (u32 (e - size)) a in
  p mod a = 0 /\ 0 <= p /\ p + size <= e /\ e < p + size + a.
Proof.
  intros Ha He Hs. cbv zeta. pose proof (is_align_pos a Ha) as Hp.
  rewrite wrap_small by (unfold fits in *; lia). rewrite align_down_spec by (done || unfold fits in *; lia).
  pose proof (Z.mod_pos_bound (e - size) a Hp).
  pose proof (Z.mod_le (e - size) a ltac:(lia) Hp).
  split; [|lia]. rewrite Zminus_mod_idemp_r, Z.sub_diag. apply Z.mod_0_l. lia.
Qed.

(** * Data *)

(** Where a range descriptor lives: in the two slots of the tracking structure
    at some address, or in the temporary one of the call in progress. *)
Inductive slot := DetailInfo | DataInfo.
Inductive info_ref := InTemp (k : slot) | InDetail (addr : Z) (k : slot).

#[export] Instance slot_eq : EqDecision slot.
Proof. solve_decision. Defined.
#[export] Instance info_ref_eq : EqDecision info_ref.
Proof. solve_decision. Defined.

Record allocinfo_s := mkInfo {
  node : info_ref;
  range_start : Z;
  range_end : Z;
  alloc_size : Z
}.

Definition set_range_end (i : allocinfo_s) (e : Z) : allocinfo_s :=
  mkInfo (node i) (range_start i) e (alloc_size i).

Implicit Types (l : list allocinfo_s) (i : allocinfo_s).

(** * Operations on one list *)

(** [alloc_new]; [fill] is the descriptor to fill in. *)
Fixpoint alloc_new l (size align : Z) (fill : info_ref) : option (Z * list allocinfo_s) :=
  match l with
  | [] => None
  | i :: l' =>
    let alloc_end := u32 (range_start i + alloc_size i) in
    let new_range_end := ALIGN_DOWN (u32 (range_end i - size)) align in
    if (alloc_end <=? new_range_end) && (new_range_end <=? range_end i)
    then Some (new_range_end,
               mkInfo fill new_range_end (range_end i) size :: set_range_end i new_range_end :: l')
    else match alloc_new l' size align fill with
         | Some (p, l'') => Some (p, i :: l'')
         | None => None
         end
  end.

(** The insertion of [alloc_add]: before the first range that starts lower. *)
Fixpoint insert_range l (i : allocinfo_s) : list allocinfo_s :=
  match l with
  | [] => [i]
  | j :: l' => if range_start j <? range_start i then i :: j :: l' else j :: insert_range l' i
  end.

(** [alloc_free] of the descriptor [r]. *)
Fixpoint alloc_free (r : info_ref) l : list allocinfo_s :=
  match l with
  | [] => []
  | i :: l' =>
    if decide (node i = r) then
      match l' with
      | next :: l'' =>
        (if range_end next =? range_start i then set_range_end next (range_end i) else next) :: l''
      | [] => []
      end
    else i :: alloc_free r l'
  end.

(** The descriptor whose range starts at [data]. *)
Fixpoint find_start l (data : Z) : option allocinfo_s :=
  match l with
  | [] => None
  | i :: l' => if range_start i =? data then Some i else find_start l' data
  end.

(** [alloc_find_lowest]. *)
Fixpoint alloc_find_lowest l : option allocinfo_s :=
  match l with
  | [] => None
  | [i] => Some i
  | _ :: l' => alloc_find_lowest l'
  end.

(** The loop of [malloc_getspace]. *)
Definition info_space i : Z := u32 (range_end i - range_start i - alloc_size i).

Definition max_space l : Z :=
  fold_left (fun maxspace i => if maxspace <? info_space i then info_space i else maxspace) l 0.

(** * Used and free addresses *)

Definition alloc_end i : Z := range_start i + alloc_size i.

Definition used_by i (a : Z) : Prop := range_start i <= a < alloc_end i.
Definition free_in i (a : Z) : Prop := alloc_end i <= a < range_end i.

Definition used l (a : Z) : Prop := exists i, In i l /\ used_by i a.
Definition free l (a : Z) : Prop := exists i, In i l /\ free_in i a.

Definition info_ok i : Prop :=
  0 < range_start i /\ 0 <= alloc_size i /\ alloc_end i <= range_end i /\ range_end i < 2 ^ 32.

(** The next range of the list lies below, and directly below a block in use. *)
Definition below i j : Prop := range_end j <= range_start i.

Definition follows i l : Prop :=
  0 < alloc_size i -> exists j l', l = j :: l' /\ range_end j = range_start i.

Fixpoint zone_ok l : Prop :=
  match l with
  | [] => True
  | i :: l' => info_ok i /\ Forall (below i) l' /\ follows i l' /\ zone_ok l'
  end.

(** * Lists of ranges *)

Lemma used_app l1 l2 a : used (l1 ++ l2) a <-> used l1 a \/ used l2 a.
Proof. unfold used. setoid_rewrite in_app_iff. firstorder. Qed.

Lemma used_cons i l a : used (i :: l) a <-> used_by i a \/ used l a.
Proof. unfold used. simpl. firstorder congruence. Qed.

Lemma free_app l1 l2 a : free (l1 ++ l2) a <-> free l1 a \/ free l2 a.
Proof. unfold free. setoid_rewrite in_app_iff. firstorder. Qed.

Lemma free_cons i l a : free (i :: l) a <-> free_in i a \/ free l a.
Proof. unfold free. simpl. firstorder congruence. Qed.

Lemma free_in_set_end i e a : free_in (set_range_end i e) a <-> alloc_end i <= a < e.
Proof. done. Qed.

Lemma used_by_set_end i e a : used_by (set_range_end i e) a <-> used_by i a.
Proof. done. Qed.

(** A valid list splits into valid parts that lie above each other. *)
Lemma zone_ok_app l1 l2 :
  zone_ok (l1 ++ l2) ->
  zone_ok l2 /\ Forall info_ok l1 /\ Forall (fun i => Forall (below i) l2) l1.
Proof.
  induction l1 as [|i l1 IH]; simpl; [by auto|].
  intros (Hi & Hb & _ & Hz). destruct (IH Hz) as (H2 & Hok & Hbs).
  rewrite Forall_app in Hb. destruct Hb as [_ Hb]. auto.
Qed.

Lemma zone_ok_info l i : zone_ok l -> In i l -> info_ok i.
Proof.
  intros Hz Hi. apply in_split in Hi as (l1 & l2 & ->).
  apply zone_ok_app in Hz as ([Hi _] & _). done.
Qed.

(** Two distinct places of a list are disjoint. *)
Lemma zone_disjoint l1 i l2 j l3 :
  zone_ok (l1 ++ i :: l2 ++ j :: l3) -> range_end j <= range_start i.
Proof.
  intros (Hz & _)%zone_ok_app. destruct Hz as (_ & Hb & _).
  rewrite Forall_app, Forall_cons in Hb. by destruct Hb as (_ & ? & _).
Qed.

Lemma used_free_disjoint l a : zone_ok l -> used l a -> free l a -> False.
Proof.
  intros Hz (i & Hi & Hu) (j & Hj & Hf).
  apply in_split in Hi as (l1 & l2 & ->).
  pose proof (zone_ok_info _ j Hz Hj) as Hjok.
  pose proof (zone_ok_info _ i Hz ltac:(apply in_elt)) as Hiok.
  unfold used_by, free_in, info_ok, alloc_end in *.
  apply in_app_or in Hj as [Hj | [<- | Hj]]; [|lia|].
  - apply in_split in Hj as (l3 & l4 & ->). rewrite <- app_assoc in Hz. simpl in Hz.
    apply zone_disjoint in Hz. lia.
  - apply in_split in Hj as (l3 & l4 & ->). apply zone_disjoint in Hz. lia.
Qed.

(** * Allocation *)

(** The block found is the highest that fits, in the first range that has one. *)
Definition fits_in i (size align p : Z) : Prop :=
  p mod align = 0 /\ alloc_end i <= p /\ p + size <= range_end i.

Lemma guard_spec i size align :
  info_ok i -> is_align align -> 0 < size < 2 ^ 31 ->
  let p := ALIGN_DOWN (u32 (range_end i - size)) align in
  if (u32 (range_start i + alloc_size i) <=? p) && (p <=? range_end i)
  then fits_in i size align p /\ forall q, fits_in i size align q -> q <= p
  else forall q, ~ fits_in i size align q.
Proof.
  intros (Hs & Hz & He & Hr) Ha Hsz. cbv zeta. unfold fits_in, alloc_end in *.
  rewrite (wrap_small 32 (range_start i + _)) by (unfold fits; lia).
  pose proof (is_align_pos _ Ha) as Hpos.
  destruct (Z.le_gt_cases size (range_end i)) as [Hle|Hgt].
  - destruct (align_down_block (range_end i) size align Ha ltac:(unfold fits; lia) ltac:(lia))
      as (Hm & Hp0 & Hp1 & Hp2).
    set (p := ALIGN_DOWN _ _) in *.
    destruct (Z.leb_spec (range_start i + alloc_size i) p), (Z.leb_spec p (range_end i)); simpl;
      try lia.
    + split; [lia|]. intros q (Hq & Hq1 & Hq2). apply (multiple_le align p q Hpos Hm Hq). lia.
    + intros q (Hq & Hq1 & Hq2). pose proof (multiple_le align p q Hpos Hm Hq ltac:(lia)). lia.
  - unfold wrap. rewrite <- (Z.mod_unique (range_end i - size) (2 ^ 32) (-1) (range_end i - size + 2 ^ 32))
      by (try left; lia).
    rewrite align_down_spec by (done || unfold fits; lia).
    destruct Ha as (k & Hk & ->).
    assert (2 ^ k <= 2 ^ 31) by (apply Z.pow_le_mono_r; lia).
    pose proof (Z.mod_pos_bound (range_end i - size + 2 ^ 32) (2 ^ k) Hpos).
    destruct (Z.leb_spec (range_end i - size + 2 ^ 32 - (range_end i - size + 2 ^ 32) mod 2 ^ k)
                (range_end i)); [lia|]. rewrite andb_false_r. intros q Hq. lia.
Qed.

Lemma alloc_new_split l size align r :
  zone_ok l -> is_align align -> 0 < size < 2 ^ 31 ->
  match alloc_new l size align r with
  | Some (p, l') => exists pre i post, l = pre ++ i :: post /\
      l' = pre ++ mkInfo r p (range_end i) size :: set_range_end i p :: post /\
      fits_in i size align p /\ (forall q, fits_in i size align q -> q <= p) /\
      Forall (fun j => forall q, ~ fits_in j size align q) pre
  | None => Forall (fun j => forall q, ~ fits_in j size align q) l
  end.
Proof.
  intros Hz Ha Hs. induction l as [|i l IH]; simpl; [done|].
  destruct Hz as (Hi & _ & _ & Hz). pose proof (guard_spec i size align Hi Ha Hs) as Hg.
  cbv zeta in Hg. destruct (_ && _).
  - destruct Hg. by exists [], i, l.
  - specialize (IH Hz). destruct (alloc_new l size align r) as [[p l']|]; [|by constructor].
    destruct IH as (pre & j & post & -> & -> & Hf & Hmax & Hpre). exists (i :: pre), j, post.
    split; [done|]. split; [done|]. split; [done|]. split; [done|]. by constructor.
Qed.

(** Carving a block from the top of range [i]. *)
Section Carve.
Context (r : info_ref) (i : allocinfo_s) (p size align : Z).
Context (Hfit : fits_in i size align p) (Hsize : 0 < size).
Implicit Types (pre post : list allocinfo_s).

Definition carved pre post : list allocinfo_s :=
  pre ++ mkInfo r p (range_end i) size :: set_range_end i p :: post.

Lemma carved_head post : zone_ok (i :: post) -> zone_ok (carved [] post).
Proof.
  intros ((Hs & Hz & He & Hr) & Hb & Hf & Hpost). destruct Hfit as (_ & Hp & Hpe).
  unfold carved, info_ok, alloc_end in *. simpl.
  assert (forall j, below i j -> below (mkInfo r p (range_end i) size) j) as Hbelow.
  { unfold below. simpl. lia. }
  split; [unfold info_ok, alloc_end; simpl; lia|].
  split; [constructor; [unfold below; simpl; lia|by eapply Forall_impl]|].
  split; [by eexists _, _|]. split; [unfold info_ok, alloc_end; simpl; lia|]. by split.
Qed.

Lemma carved_ok pre post : zone_ok (pre ++ i :: post) -> zone_ok (carved pre post).
Proof.
  induction pre as [|h pre IH]; [apply carved_head|].
  intros (Hh & Hb & Hf & Hz). destruct Hfit as (_ & Hp & Hpe).
  rewrite Forall_app, Forall_cons in Hb. destruct Hb as (Hb1 & Hb2 & Hb3).
  destruct (zone_ok_app _ _ Hz) as (((Hs & Ha & _) & _) & _).
  split; [done|]. split.
  - rewrite Forall_app, !Forall_cons. split_and!; try done.
    unfold below, alloc_end in *. simpl. lia.
  - split; [|by apply IH]. intros H0. destruct (Hf H0) as (j & l' & Heq & He).
    destruct pre; simpl in *; simplify_eq; by eexists _, _.
Qed.

Lemma carved_used pre post a :
  used (carved pre post) a <-> used (pre ++ i :: post) a \/ p <= a < p + size.
Proof.
  unfold carved. rewrite !used_app, !used_cons, used_by_set_end.
  unfold used_by at 1, alloc_end. simpl. tauto.
Qed.

Lemma carved_free pre post a :
  zone_ok (pre ++ i :: post) ->
  free (carved pre post) a <-> free (pre ++ i :: post) a /\ ~ (p <= a < p + size).
Proof.
  intros Hz. destruct Hfit as (_ & Hp & Hpe).
  destruct (zone_ok_app _ _ Hz) as ((Hi & Hpost & _) & _ & Hpre).
  destruct Hi as (Hs & Ha & He & Hr). unfold alloc_end in *.
  unfold carved. rewrite !free_app, !free_cons, free_in_set_end.
  assert (free pre a -> ~ (p <= a < p + size)) as H1.
  { intros (j & Hj & Hfj). destruct (zone_ok_app _ _ Hz) as (_ & Hok & _).
    pose proof (proj1 (List.Forall_forall _ _) Hok j Hj) as (_ & ? & _).
    pose proof (proj1 (List.Forall_forall _ _) Hpre j Hj) as Hb%Forall_inv.
    unfold below, free_in, alloc_end in *. lia. }
  assert (free post a -> ~ (p <= a < p + size)) as H2.
  { intros (j & Hj & Hfj). pose proof (proj1 (List.Forall_forall _ _) Hpost j Hj) as Hb.
    unfold below, free_in, alloc_end in *. lia. }
  assert (free_in (mkInfo r p (range_end i) size) a <-> p + size <= a < range_end i) as -> by done.
  unfold free_in, alloc_end. intuition lia.
Qed.

Lemma carved_from_free pre post a : p <= a < p + size -> free (pre ++ i :: post) a.
Proof.
  intros Ha. exists i. split; [apply in_elt|]. destruct Hfit as (_ & Hp & Hpe).
  unfold free_in, alloc_end in *. lia.
Qed.

(** Giving it back restores the list. *)
Lemma free_carved pre post :
  Forall (fun j => node j <> r) pre ->
  alloc_free r (carved pre post) = pre ++ i :: post.
Proof.
  intros Hn. unfold carved. induction Hn as [|h pre Hh Hpre IH]; simpl.
  - rewrite decide_True by done. rewrite Z.eqb_refl. by destruct i.
  - rewrite decide_False by done. by rewrite IH.
Qed.

End Carve.

(** * Freeing *)

Definition absent (r : info_ref) l : Prop := Forall (fun j => node j <> r) l.

Section Merge.
Context (i j : allocinfo_s) (Hadj : range_end j = range_start i).
Implicit Types (pre post : list allocinfo_s).

Definition merged pre post : list allocinfo_s := pre ++ set_range_end j (range_end i) :: post.

Lemma alloc_free_split pre post :
  absent (node i) pre -> alloc_free (node i) (pre ++ i :: j :: post) = merged pre post.
Proof.
  intros Hn. unfold merged. induction Hn as [|h pre Hh Hpre IH]; simpl.
  - rewrite decide_True by done. by rewrite Hadj, Z.eqb_refl.
  - rewrite decide_False by done. by rewrite IH.
Qed.

Lemma merged_ok pre post : zone_ok (pre ++ i :: j :: post) -> zone_ok (merged pre post).
Proof.
  induction pre as [|h pre IH].
  - intros ((Hs & Hz & He & Hr) & _ & _ & (Hjs & Hjz & Hje & Hjr) & Hb & Hf & Hpost).
    unfold alloc_end in *. split; [unfold info_ok, alloc_end; simpl; lia|]. by split.
  - intros (Hh & Hb & Hf & Hz).
    rewrite Forall_app, !Forall_cons in Hb. destruct Hb as (Hb1 & Hb2 & Hb3 & Hb4).
    split; [done|]. split; [unfold merged; rewrite Forall_app, Forall_cons; done|].
    split; [|by apply IH]. intros H0. destruct (Hf H0) as (k & l' & Heq & He).
    destruct pre; simpl in *; simplify_eq; by eexists _, _.
Qed.

(** No other range covers the freed one. *)
Lemma others_apart pre post a :
  zone_ok (pre ++ i :: j :: post) -> range_start i <= a < range_end i ->
  ~ used pre a /\ ~ used (j :: post) a.
Proof.
  intros Hz Ha. destruct (zone_ok_app _ _ Hz) as ((Hi & Hb & _) & Hok & Hpre).
  split; intros (k & Hk & Hu).
  - pose proof (proj1 (List.Forall_forall _ _) Hpre k Hk) as Hbk%Forall_inv.
    unfold below, used_by in *. lia.
  - pose proof (proj1 (List.Forall_forall _ _) Hb k Hk) as Hbk.
    pose proof (zone_ok_info _ k Hz ltac:(apply in_or_app; right; by right)) as (_ & _ & ? & _).
    unfold below, used_by in *. lia.
Qed.

Lemma merged_used pre post a :
  zone_ok (pre ++ i :: j :: post) ->
  used (merged pre post) a <-> used (pre ++ i :: j :: post) a /\ ~ used_by i a.
Proof.
  intros Hz. destruct (zone_ok_app _ _ Hz) as (((_ & _ & He & _) & _) & _).
  assert (used_by i a -> ~ used pre a /\ ~ used (j :: post) a) as Ho.
  { intros Hu. apply others_apart; [done|]. unfold used_by in Hu. lia. }
  unfold merged. rewrite !used_app, !used_cons, used_by_set_end. rewrite used_cons in Ho. tauto.
Qed.

Lemma merged_free pre post a :
  zone_ok (pre ++ i :: j :: post) ->
  free (merged pre post) a <-> free (pre ++ i :: j :: post) a \/ used_by i a.
Proof.
  intros Hz. destruct (zone_ok_app _ _ Hz) as (((_ & Hi & He & _) & _ & _ & (_ & _ & Hj & _) & _) & _).
  unfold merged. rewrite !free_app, !free_cons, free_in_set_end.
  assert (alloc_end j <= a < range_end i <-> free_in i a \/ free_in j a \/ used_by i a) as ->.
  { unfold free_in, used_by, alloc_end in *. lia. }
  tauto.
Qed.

End Merge.

(** Freeing two blocks in either order is the same. *)
Lemma alloc_free_comm r1 r2 l :
  r1 <> r2 -> zone_ok l ->
  (forall i, In i l -> node i = r1 \/ node i = r2 -> 0 < alloc_size i) ->
  alloc_free r1 (alloc_free r2 l) = alloc_free r2 (alloc_free r1 l).
Proof.
  assert (forall r1 r2 i l, r1 <> r2 -> node i = r1 -> zone_ok (i :: l) ->
    (forall k, In k (i :: l) -> node k = r1 \/ node k = r2 -> 0 < alloc_size k) ->
    alloc_free r1 (alloc_free r2 (i :: l)) = alloc_free r2 (alloc_free r1 (i :: l))) as Hhead.
  { clear r1 r2 l. intros r1 r2 i l Hne Hi (_ & _ & Hf & Hz) Hpos.
    destruct Hf as (j & l' & -> & Hadj); [apply Hpos; [by left|by left]|].
    simpl. rewrite (decide_False (P := node i = r2)) by congruence.
    rewrite (decide_True (P := node i = r1)) by done. rewrite Hadj, Z.eqb_refl. simpl.
    destruct (decide (node j = r2)) as [Hj|Hj].
    - destruct Hz as (_ & _ & Hf & _). destruct Hf as (k & l'' & -> & Hk).
      { apply Hpos; [right; by left|by right]. }
      rewrite Hk, Z.eqb_refl. simpl. rewrite decide_True by done.
      by rewrite Z.eqb_refl.
    - rewrite decide_True by done. rewrite Hadj, Z.eqb_refl. done. }
  intros Hne. induction l as [|i l IH]; intros Hz Hpos; [done|].
  destruct (decide (node i = r1)) as [H1|H1]; [by apply Hhead|].
  destruct (decide (node i = r2)) as [H2|H2].
  { symmetry. apply Hhead; try done. intros k Hk [?|?]; apply Hpos; auto. }
  simpl. rewrite !decide_False by done. simpl. rewrite !decide_False by done. f_equal.
  destruct Hz as (_ & _ & _ & Hz). apply IH; [done|]. intros k Hk. apply Hpos. by right.
Qed.

(** * Lookup, renaming and insertion *)

Lemma find_start_used l i :
  zone_ok l -> In i l -> 0 < alloc_size i -> find_start l (range_start i) = Some i.
Proof.
  induction l as [|h l IH]; intros Hz Hi Hs; [done|]. destruct Hz as (Hh & Hb & _ & Hz). simpl.
  destruct Hi as [-> | Hi]; [by rewrite Z.eqb_refl|].
  destruct (Z.eqb_spec (range_start h) (range_start i)) as [He|_]; [|by apply IH].
  pose proof (proj1 (List.Forall_forall _ _) Hb i Hi) as Hbi.
  pose proof (zone_ok_info l i Hz Hi) as (_ & _ & ? & _). unfold below, alloc_end in *. lia.
Qed.

Lemma find_start_in l data i : find_start l data = Some i -> In i l /\ range_start i = data.
Proof.
  induction l as [|h l IH]; simpl; [done|].
  destruct (Z.eqb_spec (range_start h) data); [intros [= ->]; by split; [left|]|].
  intros [Hi ?]%IH. by split; [right|].
Qed.

Lemma find_start_none l data : Forall (fun i => range_start i <> data) l -> find_start l data = None.
Proof.
  induction 1 as [|h l Hh _ IH]; simpl; [done|]. by destruct (Z.eqb_spec (range_start h) data).
Qed.

Definition rename (f : info_ref -> info_ref) l : list allocinfo_s :=
  map (fun i => mkInfo (f (node i)) (range_start i) (range_end i) (alloc_size i)) l.

(** Allocation does not look at where descriptors live. *)
Lemma alloc_new_rename f l size align r :
  alloc_new (rename f l) size align (f r) =
  match alloc_new l size align r with
  | Some (p, l') => Some (p, rename f l')
  | None => None
  end.
Proof.
  induction l as [|i l IH]; simpl; [done|]. destruct (_ && _); [done|].
  rewrite IH. by destruct (alloc_new l size align r) as [[p l']|].
Qed.

Lemma rename_id f l : Forall (fun i => f (node i) = node i) l -> rename f l = l.
Proof.
  induction 1 as [|i l Hi _ IH]; simpl; [done|]. rewrite IH, Hi. by destruct i.
Qed.

(** A new empty range, above or below every other. *)
Definition apart_from i j : Prop :=
  (range_end j <= range_start i /\ range_start j < range_start i) \/ range_end i <= range_start j.

Lemma insert_range_in l i j : In j (insert_range l i) <-> j = i \/ In j l.
Proof.
  induction l as [|h l IH]; simpl; [firstorder congruence|].
  destruct (range_start h <? range_start i); simpl; [firstorder congruence|]. rewrite IH. tauto.
Qed.

Lemma insert_range_ok l i :
  zone_ok l -> info_ok i -> alloc_size i = 0 -> range_start i < range_end i ->
  Forall (apart_from i) l -> zone_ok (insert_range l i).
Proof.
  intros Hz Hi H0 Hne Hap. induction l as [|h l IH]; simpl.
  { split; [done|]. split; [done|]. split; [|done]. intros ?. lia. }
  destruct Hz as (Hh & Hb & Hf & Hz). apply Forall_cons in Hap as [Haph Hap].
  unfold apart_from in Haph. pose proof Hh as (_ & ? & ? & _). unfold alloc_end in *.
  destruct (Z.ltb_spec (range_start h) (range_start i)).
  - split; [done|]. split.
    + constructor; [unfold below; lia|]. apply (Forall_impl _ _ _ Hb). unfold below. lia.
    + split; [intros ?; lia|]. by split.
  - split; [done|]. split; [|split; [|by apply IH]].
    + apply List.Forall_forall. intros k [-> | Hk]%insert_range_in; [unfold below; lia|].
      by apply (proj1 (List.Forall_forall _ _) Hb).
    + intros Hpos. destruct (Hf Hpos) as (j & l' & -> & Hadj). simpl.
      apply Forall_cons in Hap as [Hj _]. unfold apart_from in Hj.
      destruct (Z.ltb_spec (range_start j) (range_start i)); [lia|by eexists _, _].
Qed.

Lemma insert_range_used l i a : alloc_size i = 0 -> used (insert_range l i) a <-> used l a.
Proof.
  intros H0. unfold used. setoid_rewrite insert_range_in. split.
  - intros (j & [-> | Hj] & Hu); [|by exists j]. unfold used_by, alloc_end in Hu. lia.
  - intros (j & Hj & Hu). exists j. auto.
Qed.

Lemma insert_range_free l i a :
  alloc_size i = 0 ->
  free (insert_range l i) a <-> free l a \/ range_start i <= a < range_end i.
Proof.
  intros H0. unfold free. setoid_rewrite insert_range_in. split.
  - intros (j & [-> | Hj] & Hu); [|left; by exists j]. unfold free_in, alloc_end in Hu. lia.
  - intros [(j & Hj & Hu) | Ha]; [exists j; auto|]. exists i. split; [auto|].
    unfold free_in, alloc_end. lia.
Qed.

(** * Free space *)

Lemma info_space_ok i : info_ok i -> info_space i = range_end i - alloc_end i.
Proof.
  intros (Hs & Hz & He & Hr). unfold info_space, alloc_end in *.
  rewrite wrap_small; [lia|unfold fits; lia].
Qed.

Lemma max_space_from l m :
  let r := fold_left (fun maxspace i => if maxspace <? info_space i then info_space i else maxspace) l m in
  m <= r /\ (forall i, In i l -> info_space i <= r) /\ (r = m \/ exists i, In i l /\ info_space i = r).
Proof.
  revert m. induction l as [|i l IH]; intros m; simpl; [split; [lia|]; split; [done|by left]|].
  destruct (IH (if m <? info_space i then info_space i else m)) as (H1 & H2 & H3).
  destruct (Z.ltb_spec m (info_space i)).
  - split; [lia|]. split; [intros k [<- | Hk]; [lia|by apply H2]|].
    right. destruct H3 as [-> | (k & Hk & <-)]; [exists i|exists k]; auto.
  - split; [lia|]. split; [intros k [<- | Hk]; [lia|by apply H2]|].
    destruct H3 as [-> | (k & Hk & <-)]; [by left|]. right. exists k. auto.
Qed.

(** The maximum is the free space of some range, and of none more. *)
Lemma max_space_spec l :
  (forall i, In i l -> info_space i <= max_space l) /\
  (0 < max_space l -> exists i, In i l /\ info_space i = max_space l).
Proof.
  destruct (max_space_from l 0) as (H1 & H2 & H3). fold (max_space l) in *.
  split; [done|]. intros Hpos. destruct H3 as [H3|H3]; [lia|done].
Qed.

(** * What allocation does to a zone *)

Lemma alloc_new_correct l size align r :
  zone_ok l -> is_align align -> 0 < size < 2 ^ 31 ->
  match alloc_new l size align r with
  | Some (p, l') =>
    zone_ok l' /\ p mod align = 0 /\ 0 < p /\
    (exists i, In i l /\ fits_in i size align p) /\
    (forall a, p <= a < p + size -> free l a) /\
    (forall a, used l' a <-> used l a \/ p <= a < p + size) /\
    (forall a, free l' a <-> free l a /\ ~ (p <= a < p + size)) /\
    (absent r l -> alloc_free r l' = l) /\
    (forall j, In j l' -> (node j = r /\ range_start j = p /\ alloc_size j = size) \/ exists i, In i l /\ node j = node i /\
       range_start j = range_start i /\ alloc_size j = alloc_size i) /\
    (exists j, In j l' /\ node j = r /\ range_start j = p /\ alloc_size j = size)
  | None => forall i p, In i l -> ~ fits_in i size align p
  end.
Proof.
  intros Hz Ha Hs. pose proof (alloc_new_split l size align r Hz Ha Hs) as Hn.
  destruct (alloc_new l size align r) as [[p l']|].
  - destruct Hn as (pre & i & post & -> & -> & Hf & _).
    pose proof (zone_ok_info _ i Hz ltac:(apply in_elt)) as (Hs0 & Hz0 & _).
    fold (carved r i p size pre post).
    split; [apply (carved_ok r i p size align); [done|lia|done]|]. split; [apply Hf|].
    split; [destruct Hf as (_ & Hp & _); unfold alloc_end in Hp; lia|].
    split; [exists i; split; [apply in_elt|done]|].
    split; [intros a; by apply (carved_from_free i p size align)|].
    split; [intros a; apply carved_used|].
    split; [intros a; apply (carved_free r i p size align); [done|lia|done]|].
    split; [intros [Hpre _]%Forall_app; by eapply free_carved|]. split.
    + intros j Hj. unfold carved in Hj.
      apply in_app_or in Hj as [Hj | [<- | [<- | Hj]]]; [|by left|..]; right.
      * exists j. split; [apply in_or_app; by left|done].
      * exists i. split; [apply in_elt|done].
      * exists j. split; [apply in_or_app; right; by right|done].
    + eexists. split; [apply in_elt|done].
  - intros i p Hi. apply (proj1 (List.Forall_forall _ _) Hn i Hi).
Qed.

(** The descriptor, start and size of a range; the end is left out. *)
Definition block_of i : info_ref * Z * Z := (node i, range_start i, alloc_size i).
Definition blocks l : list (info_ref * Z * Z) := map block_of l.

Lemma alloc_new_blocks l size align r p l' :
  alloc_new l size align r = Some (p, l') -> blocks l' ≡ₚ (r, p, size) :: blocks l.
Proof.
  revert p l'. induction l as [|i l IH]; intros p l' Hn; simpl in Hn; [done|].
  destruct (_ && _); [by simplify_eq|].
  destruct (alloc_new l size align r) as [[q l'']|]; [|done]. simplify_eq.
  simpl. rewrite IH by done. apply Permutation_swap.
Qed.

Lemma alloc_free_blocks l i :
  zone_ok l -> In i l -> 0 < alloc_size i -> NoDup (map node l) ->
  blocks l ≡ₚ block_of i :: blocks (alloc_free (node i) l).
Proof.
  induction l as [|h l IH]; intros Hz Hi Hs Hnd; [done|].
  destruct Hz as (_ & _ & Hf & Hz). simpl in Hnd. apply NoDup_cons in Hnd as [Hh Hnd].
  destruct Hi as [-> | Hi].
  - destruct (Hf Hs) as (j & l' & -> & Hadj). simpl. rewrite decide_True by done.
    by rewrite Hadj, Z.eqb_refl.
  - simpl. rewrite decide_False.
    + simpl. rewrite Permutation_swap. by apply perm_skip, IH.
    + intros Heq. apply Hh. rewrite Heq. by apply list_elem_of_In, in_map.
Qed.

Lemma alloc_free_absent l r : absent r l -> alloc_free r l = l.
Proof.
  induction 1 as [|h l Hh _ IH]; simpl; [done|]. rewrite decide_False by done. by rewrite IH.
Qed.

(** A zone loses no memory and hands none out twice.  Allocation returns an
    aligned block that was free, and afterwards exactly that block has moved
    from the free to the used addresses; freeing the block restores the zone
    exactly.  It fails only if no range has room for an aligned block of the
    size. *)
Lemma alloc_new_moves_block l size align r :
  zone_ok l -> is_align align -> 0 < size < 2 ^ 31 -> absent r l ->
  match alloc_new l size align r with
  | Some (p, l') =>
    zone_ok l' /\ p mod align = 0 /\
    (forall a, p <= a < p + size -> free l a /\ ~ used l a) /\
    (forall a, used l' a <-> used l a \/ p <= a < p + size) /\
    (forall a, free l' a <-> free l a /\ ~ (p <= a < p + size)) /\
    alloc_free r l' = l
  | None => forall i p, In i l -> ~ fits_in i size align p
  end.
Proof.
  intros Hz Ha Hs Hr. pose proof (alloc_new_correct l size align r Hz Ha Hs) as Hn.
  destruct (alloc_new l size align r) as [[p l']|]; [|done].
  destruct Hn as (Hz' & Hm & _ & _ & Hfr & Hu & Hf & Hid & _). split_and!; auto.
  intros a Hin. split; [by apply Hfr|]. intros Hua. by apply (used_free_disjoint l a Hz Hua), Hfr.
Qed.

(** Freeing a block in use puts exactly its bytes back: nothing else
    becomes free, nothing leaks, and the zone stays well formed. *)
Lemma alloc_free_correct l i :
  zone_ok l -> In i l -> 0 < alloc_size i -> NoDup (map node l) ->
  let l' := alloc_free (node i) l in
  zone_ok l' /\
  (forall a, used l' a <-> used l a /\ ~ used_by i a) /\
  (forall a, free l' a <-> free l a \/ used_by i a).
Proof.
  intros Hz Hi Hs Hnd. cbv zeta. apply in_split in Hi as (pre & post & ->).
  destruct (zone_ok_app _ _ Hz) as ((_ & _ & Hf & _) & _). destruct (Hf Hs) as (j & l' & -> & Hadj).
  rewrite alloc_free_split; [|done|].
  - split; [by apply merged_ok|]. split; intros a; [by apply merged_used|by apply merged_free].
  - apply List.Forall_forall. intros k Hk Heq. rewrite map_app in Hnd.
    apply NoDup_app in Hnd as (_ & Hd & _). apply (Hd (node k)).
    + apply list_elem_of_In, in_map, Hk.
    + rewrite Heq. left.
Qed.

(** * Room *)

(** Some range has [n] free bytes. *)
Definition room l (n : Z) : Prop := exists i, In i l /\ n <= range_end i - alloc_end i.

Lemma room_le l n n' : room l n -> n' <= n -> room l n'.
Proof. intros (i & Hi & Hn) Hle. exists i. split; [done|lia]. Qed.

Lemma room_rename f l n : room l n -> room (rename f l) n.
Proof.
  intros (i & Hi & Hn). exists (mkInfo (f (node i)) (range_start i) (range_end i) (alloc_size i)).
  split; [|exact Hn]. unfold rename. apply in_map_iff. eauto.
Qed.

Lemma room_insert l i n : room l n -> room (insert_range l i) n.
Proof. intros (j & Hj & Hn). exists j. split; [apply insert_range_in; by right|done]. Qed.

(** A range with room for the block and its alignment has a place for it. *)
Lemma room_place i size align :
  is_align align -> size + align <= range_end i - alloc_end i ->
  exists q, fits_in i size align q /\ range_end i - size - align < q.
Proof.
  intros Ha Hn. pose proof (is_align_pos _ Ha) as Hp.
  pose proof (Z.mod_pos_bound (range_end i - size) align Hp).
  exists (range_end i - size - (range_end i - size) mod align). unfold fits_in. split; [|lia]. split; [|lia].
  rewrite Zminus_mod_idemp_r, Z.sub_diag. apply Zmod_0_l.
Qed.

(** Allocation takes at most the size and the alignment off. *)
Lemma alloc_new_room l size align r n :
  zone_ok l -> is_align align -> 0 < size < 2 ^ 31 -> size + align <= n -> room l n ->
  exists p l', alloc_new l size align r = Some (p, l') /\ p <> 0 /\ room l' (n - size - align).
Proof.
  intros Hz Ha Hs Hn (j & Hj & Hr). pose proof (is_align_pos _ Ha) as Hp.
  destruct (room_place j size align Ha ltac:(lia)) as (q & Hq & Hlow).
  pose proof (alloc_new_split l size align r Hz Ha Hs) as H.
  destruct (alloc_new l size align r) as [[p l']|];
    [|by destruct (proj1 (List.Forall_forall _ _) H j Hj q)].
  destruct H as (pre & i & post & -> & -> & Hfit & Hmax & _). exists p, (carved r i p size pre post).
  split; [done|]. split.
  { pose proof (zone_ok_info _ i Hz ltac:(apply in_elt)) as (H1 & H2 & _). destruct Hfit as (_ & Hfit & _).
    unfold alloc_end in Hfit. lia. }
  unfold carved. apply in_app_or in Hj as [Hj|[->|Hj]].
  - exists j. split; [apply in_or_app; by left|lia].
  - specialize (Hmax q Hq). exists (set_range_end j p).
    split; [apply in_or_app; right; right; by left|]. unfold alloc_end in *. cbn. lia.
  - exists j. split; [apply in_or_app; right; right; by right|lia].
Qed.

(** A zone of one range. *)
Definition sample_zone : list allocinfo_s :=
  [mkInfo (InDetail 0x7000 DataInfo) 0x10000 0x20008 0].

Lemma sample_zone_ok : zone_ok sample_zone.
Proof.
  split; [unfold info_ok, alloc_end; simpl; lia|]. split; [done|]. split; [|done].
  intros H. simpl in H. lia.
Qed.

Lemma align_16 : is_align 16.
Proof. exists 4. split; [lia|done]. Qed.

Lemma alloc_new_moves_block_witness :
  exists l', alloc_new sample_zone 100 16 (InTemp DataInfo) = Some (0x1FFA0, l') /\
    (forall a, free l' a <-> free sample_zone a /\ ~ (0x1FFA0 <= a < 0x1FFA0 + 100)).
Proof.
  pose proof (alloc_new_moves_block sample_zone 100 16 (InTemp DataInfo) sample_zone_ok align_16
                ltac:(lia) ltac:(repeat constructor; discriminate)) as H.
  assert (alloc_new sample_zone 100 16 (InTemp DataInfo) = Some (0x1FFA0,
    [mkInfo (InTemp DataInfo) 0x1FFA0 0x20008 100;
     mkInfo (InDetail 0x7000 DataInfo) 0x10000 0x1FFA0 0])) as He by (vm_compute; reflexivity).
  rewrite He in H. eexists. split; [exact He|]. apply H.
Defined.

(** The same zone with a block in use. *)
Definition used_zone : list allocinfo_s :=
  [mkInfo (InDetail 0x7100 DataInfo) 0x1FFA0 0x20008 100;
   mkInfo (InDetail 0x7000 DataInfo) 0x10000 0x1FFA0 0].

Lemma alloc_free_correct_witness :
  let l' := alloc_free (InDetail 0x7100 DataInfo) used_zone in
  l' = sample_zone /\ forall a, free l' a <-> free used_zone a \/ 0x1FFA0 <= a < 0x1FFA0 + 100.
Proof.
  split; [reflexivity|].
  apply (alloc_free_correct used_zone (mkInfo (InDetail 0x7100 DataInfo) 0x1FFA0 0x20008 100)).
  - split; [unfold info_ok, alloc_end; simpl; lia|]. split; [repeat constructor; done|].
    split; [by eexists _, _|]. split; [unfold info_ok, alloc_end; simpl; lia|]. split; [done|].
    split; [|done]. intros H. simpl in H. lia.
  - by left.
  - simpl. lia.
  - apply (bool_decide_unpack _). vm_compute. exact I.
Defined.
