(* ===== verification/SeaMalloc.v ===== *)
(** The tracked allocations of the SeaBIOS allocator ([seabios/src/malloc.c]):
    five zones, the tracking structures that are themselves allocated from the
    temporary zones, handles, the option ROM area, and the set-up from the
    memory CSMWrap donates.

    The state is the five lists and the handle stored in each tracking
    structure; a descriptor is named by the structure it lives in. *)

From stdpp Require Import base numbers list gmap.
From Stdlib Require Import ZArith Lia.
From S2P Require Import Prelude SeaZone.

(** * State *)

Inductive zone_s := ZoneTmpLow | ZoneLow | ZoneFSeg | ZoneTmpHigh | ZoneHigh.

#[export] Instance zone_s_eq : EqDecision zone_s.
Proof. solve_decision. Defined.

Definition Zones : list zone_s := [ZoneTmpLow; ZoneLow; ZoneFSeg; ZoneTmpHigh; ZoneHigh].

Record heap := mkHeap {
  tmp_low : list allocinfo_s;
  low : list allocinfo_s;
  fseg : list allocinfo_s;
  tmp_high : list allocinfo_s;
  high : list allocinfo_s;
  handles : gmap Z Z           (* by address of the tracking structure *)
}.

Definition get (h : heap) (z : zone_s) : list allocinfo_s :=
  match z with
  | ZoneTmpLow => tmp_low h | ZoneLow => low h | ZoneFSeg => fseg h
  | ZoneTmpHigh => tmp_high h | ZoneHigh => high h
  end.

Definition put (h : heap) (z : zone_s) (l : list allocinfo_s) : heap :=
  match z with
  | ZoneTmpLow => mkHeap l (low h) (fseg h) (tmp_high h) (high h) (handles h)
  | ZoneLow => mkHeap (tmp_low h) l (fseg h) (tmp_high h) (high h) (handles h)
  | ZoneFSeg => mkHeap (tmp_low h) (low h) l (tmp_high h) (high h) (handles h)
  | ZoneTmpHigh => mkHeap (tmp_low h) (low h) (fseg h) l (high h) (handles h)
  | ZoneHigh => mkHeap (tmp_low h) (low h) (fseg h) (tmp_high h) l (handles h)
  end.

Definition map_zones (f : list allocinfo_s -> list allocinfo_s) (h : heap) : heap :=
  mkHeap (f (tmp_low h)) (f (low h)) (f (fseg h)) (f (tmp_high h)) (f (high h)) (handles h).

Definition set_handle (h : heap) (d handle : Z) : heap :=
  mkHeap (tmp_low h) (low h) (fseg h) (tmp_high h) (high h) (<[d := handle]> (handles h)).

Definition drop_handle (h : heap) (d : Z) : heap :=
  mkHeap (tmp_low h) (low h) (fseg h) (tmp_high h) (high h) (delete d (handles h)).

Definition MALLOC_DEFAULT_HANDLE : Z := 0xFFFFFFFF.
Definition MALLOC_MIN_ALIGN : Z := 16.

(** [struct allocdetail_s]: two descriptors of 20 bytes and the handle. *)
Definition sizeof_allocinfo : Z := 20.
Definition sizeof_allocdetail : Z := 44.

(** The physical address of a descriptor; the temporary one is on the stack. *)
Definition info_addr (r : info_ref) : option Z :=
  match r with
  | InTemp _ => None
  | InDetail d DetailInfo => Some d
  | InDetail d DataInfo => Some (d + sizeof_allocinfo)
  end.

(** * Reservations *)

(** [alloc_new] in a zone: 0 if it found nothing. *)
Definition alloc_new_in (h : heap) (z : zone_s) (size align : Z) (fill : info_ref) : Z * heap :=
  match alloc_new (get h z) size align fill with
  | Some (p, l) => (p, put h z l)
  | None => (0, h)
  end.

(** The two [hlist_replace] of [alloc_new_detail]. *)
Definition placed_at (d : Z) (r : info_ref) : info_ref :=
  match r with InTemp k => InDetail d k | _ => r end.

Definition alloc_new_detail (h : heap) (handle : Z) : option Z * heap :=
  let '(a1, h1) := alloc_new_in h ZoneTmpHigh sizeof_allocdetail MALLOC_MIN_ALIGN (InTemp DetailInfo) in
  let '(a2, h2) :=
    if a1 =? 0
    then alloc_new_in h1 ZoneTmpLow sizeof_allocdetail MALLOC_MIN_ALIGN (InTemp DetailInfo)
    else (a1, h1) in
  if a2 =? 0 then (None, h2)
  else (Some a2, set_handle (map_zones (rename (placed_at a2)) h2) a2 handle).

Definition hlist_del (r : info_ref) (l : list allocinfo_s) : list allocinfo_s :=
  filter (fun i => node i <> r) l.

Definition alloc_add (h : heap) (z : zone_s) (start stop : Z) : heap :=
  let h1 := put h z (insert_range (get h z) (mkInfo (InTemp DataInfo) start stop 0)) in
  let '(detail, h2) := alloc_new_detail h1 MALLOC_DEFAULT_HANDLE in
  match detail with
  | Some _ => h2
  | None => put h2 z (hlist_del (InTemp DataInfo) (get h2 z))
  end.

(** [alloc_find]: the zones in order, the first range that starts there. *)
Fixpoint find_in (h : heap) (zs : list zone_s) (data : Z) : option allocinfo_s :=
  match zs with
  | [] => None
  | z :: zs' =>
    match find_start (get h z) data with Some i => Some i | None => find_in h zs' data end
  end.

Definition alloc_find (h : heap) (data : Z) : option allocinfo_s := find_in h Zones data.

(** * Tracked allocations *)

(** [malloc_palloc].  [ZoneLow] cannot grow: CONFIG_MALLOC_UPPERMEMORY is set. *)
Definition malloc_palloc (h : heap) (z : zone_s) (size align : Z) : Z * heap :=
  if size =? 0 then (0, h)
  else
    let '(data, h1) := alloc_new_in h z size align (InTemp DataInfo) in
    if data =? 0 then (0, h1)
    else
      let '(detail, h2) := alloc_new_detail h1 MALLOC_DEFAULT_HANDLE in
      match detail with
      | None => (0, put h2 z (alloc_free (InTemp DataInfo) (get h2 z)))
      | Some _ => (data, h2)
      end.

Definition _malloc := malloc_palloc.

(** The descriptor of a block that [malloc_palloc] returned, and the tracking
    structure it lives in. *)
Definition tracked_block (h : heap) (data : Z) : option (allocinfo_s * Z) :=
  match alloc_find h data with
  | None => None
  | Some i =>
    if bool_decide (info_addr (node i) = Some data) || (alloc_size i =? 0) then None
    else match node i with InDetail d _ => Some (i, d) | InTemp _ => None end
  end.

Definition malloc_pfree (h : heap) (data : Z) : Z * heap :=
  match tracked_block h data with
  | None => (-1, h)
  | Some (i, d) =>
    let h1 := map_zones (alloc_free (node i)) h in
    let h2 := map_zones (alloc_free (InDetail d DetailInfo)) h1 in
    (0, drop_handle h2 d)
  end.

(** [free]; the flag says whether it reported an internal error. *)
Definition free_ptr (h : heap) (data : Z) : bool * heap :=
  if data =? 0 then (false, h)
  else let '(ret, h') := malloc_pfree h data in (negb (ret =? 0), h').

Definition malloc_getspace (h : heap) (z : zone_s) : Z :=
  let maxspace := max_space (get h z) in
  if negb (bool_decide (z = ZoneTmpHigh)) && negb (bool_decide (z = ZoneTmpLow)) then maxspace
  else
    let reserve := ALIGN sizeof_allocdetail MALLOC_MIN_ALIGN in
    if maxspace <=? reserve then 0 else u32 (maxspace - reserve).

Definition malloc_sethandle (h : heap) (data handle : Z) : heap :=
  match tracked_block h data with
  | None => h
  | Some (_, d) => set_handle h d (u32 handle)
  end.

(** The start of the range whose descriptor is in the data slot of [d]. *)
Fixpoint data_start (l : list allocinfo_s) (d : Z) : option Z :=
  match l with
  | [] => None
  | i :: l' => if decide (node i = InDetail d DataInfo) then Some (range_start i) else data_start l' d
  end.

Definition all_infos (h : heap) : list allocinfo_s := concat (map (get h) Zones).

Fixpoint find_handle_in (h : heap) (l : list allocinfo_s) (handle : Z) : option Z :=
  match l with
  | [] => None
  | i :: l' =>
    if bool_decide (info_addr (node i) = Some (range_start i)) then
      match node i with
      | InDetail d _ =>
        if bool_decide (handles h !! d = Some handle) then data_start (all_infos h) d
        else find_handle_in h l' handle
      | InTemp _ => find_handle_in h l' handle
      end
    else find_handle_in h l' handle
  end.

Definition malloc_findhandle (h : heap) (handle : Z) : Z :=
  default 0 (find_handle_in h (all_infos h) handle).

(** * Getting and setting zones *)

Lemma get_put h z z' l : get (put h z l) z' = if decide (z = z') then l else get h z'.
Proof. by destruct z, z'. Qed.

Lemma get_put_same h z l : get (put h z l) z = l.
Proof. by destruct z. Qed.

Lemma get_put_ne h z z' l : z <> z' -> get (put h z l) z' = get h z'.
Proof. by destruct z, z'. Qed.

Lemma put_get h z : put h z (get h z) = h.
Proof. by destruct h, z. Qed.

Lemma put_put h z l l' : put (put h z l) z l' = put h z l'.
Proof. by destruct z. Qed.

Lemma get_map f h z : get (map_zones f h) z = f (get h z).
Proof. by destruct z. Qed.

Lemma heap_ext h1 h2 :
  (forall z, get h1 z = get h2 z) -> handles h1 = handles h2 -> h1 = h2.
Proof.
  intros Hz Hh. pose proof (Hz ZoneTmpLow). pose proof (Hz ZoneLow). pose proof (Hz ZoneFSeg).
  pose proof (Hz ZoneTmpHigh). pose proof (Hz ZoneHigh). destruct h1, h2. simpl in *. congruence.
Qed.

Lemma handles_put h z l : handles (put h z l) = handles h.
Proof. by destruct z. Qed.

(** * The invariant *)

(** The addresses of the memory a zone was given. *)
Definition regions : Type := zone_s -> Z -> Prop.

Definition regions_apart (R : regions) : Prop :=
  forall z1 z2 a, R z1 a -> R z2 a -> z1 = z2.

(** Every list is well formed and within its zone's memory. *)
Definition zones_ok (R : regions) (h : heap) : Prop :=
  forall z, zone_ok (get h z) /\
    forall i, In i (get h z) ->
      R z (range_start i) /\ forall a, range_start i <= a < range_end i -> R z a.

Definition is_tmp (z : zone_s) : Prop := z = ZoneTmpHigh \/ z = ZoneTmpLow.

Definition all_blocks (h : heap) : list (info_ref * Z * Z) :=
  concat (map (fun z => blocks (get h z)) Zones).

Definition ref_of (b : info_ref * Z * Z) : info_ref := b.1.1.

(** The structure at [d] is allocated, and its data slot describes a range. *)
Definition detail_at (h : heap) (d : Z) : Prop :=
  In (InDetail d DetailInfo, d, sizeof_allocdetail) (all_blocks h).
Definition data_at (h : heap) (d : Z) : Prop :=
  exists start size, In (InDetail d DataInfo, start, size) (all_blocks h).

(** Descriptors live in allocated structures, each slot at most once, and each
    structure has a handle. *)
Definition refs_ok (h : heap) : Prop :=
  (forall b, In b (all_blocks h) ->
     exists d k, ref_of b = InDetail d k /\ detail_at h d /\ data_at h d) /\
  NoDup (map ref_of (all_blocks h)) /\
  (forall d, is_Some (handles h !! d) <-> detail_at h d).

Definition heap_ok (R : regions) (h : heap) : Prop := zones_ok R h /\ refs_ok h.

(** All zones together. *)
Definition heap_used (h : heap) (a : Z) : Prop := exists z, used (get h z) a.
Definition heap_free (h : heap) (z : zone_s) (a : Z) : Prop := free (get h z) a.

Lemma in_all_blocks h b : In b (all_blocks h) <-> exists z i, In i (get h z) /\ b = block_of i.
Proof.
  unfold all_blocks, blocks. rewrite in_concat. setoid_rewrite in_map_iff. split.
  - intros (l & (z & <- & _) & Hb). apply in_map_iff in Hb as (i & <- & Hi). eauto.
  - intros (z & i & Hi & ->). eexists. split; [exists z; split; [reflexivity|by destruct z; simpl; tauto]|].
    by apply in_map.
Qed.

Lemma all_blocks_put h z l b :
  blocks l ≡ₚ b :: blocks (get h z) -> all_blocks (put h z l) ≡ₚ b :: all_blocks h.
Proof.
  unfold all_blocks. intros Hl. destruct z; simpl in *; rewrite Hl; simpl; rewrite ?Permutation_middle; done.
Qed.

Lemma all_blocks_drop h z l b :
  blocks (get h z) ≡ₚ b :: blocks l -> all_blocks h ≡ₚ b :: all_blocks (put h z l).
Proof.
  intros Hl. rewrite <- (put_get h z) at 1. rewrite <- (put_put h z l (get h z)).
  apply all_blocks_put. by rewrite get_put_same.
Qed.

Lemma heap_used_blocks h a :
  heap_used h a <-> exists r s n, In (r, s, n) (all_blocks h) /\ s <= a < s + n.
Proof.
  unfold heap_used, used, used_by, alloc_end. setoid_rewrite in_all_blocks. split.
  - intros (z & i & Hi & Ha). exists (node i), (range_start i), (alloc_size i). split; [|done].
    by exists z, i.
  - intros (r & s & n & (z & i & Hi & [= -> -> ->]) & Ha). by exists z, i.
Qed.

Section Invariant.
Context (R : regions) (HR : regions_apart R).
Implicit Types (h : heap).

Lemma free_region h z a : zones_ok R h -> free (get h z) a -> R z a.
Proof.
  intros Hz (i & Hi & Hf). destruct (Hz z) as [Hzok Hr]. apply (Hr i Hi).
  pose proof (zone_ok_info _ i Hzok Hi) as (_ & ? & ? & _). unfold free_in, alloc_end in *. lia.
Qed.

Lemma used_region h z a : zones_ok R h -> used (get h z) a -> R z a.
Proof.
  intros Hz (i & Hi & Hf). destruct (Hz z) as [Hzok Hr]. apply (Hr i Hi).
  pose proof (zone_ok_info _ i Hzok Hi) as (_ & ? & ? & _). unfold used_by, alloc_end in *. lia.
Qed.

(** What is used anywhere is free nowhere. *)
Lemma heap_disjoint h z a : zones_ok R h -> heap_used h a -> heap_free h z a -> False.
Proof.
  intros Hz (z' & Hu) Hf. assert (z' = z) as ->.
  { eapply HR; [by apply (used_region h)|by apply (free_region h)]. }
  by apply (used_free_disjoint (get h z) a); [apply Hz|..].
Qed.

(** One reservation. *)
Lemma reserve_zones_ok h z size align r p l :
  zones_ok R h -> is_align align -> 0 < size < 2 ^ 31 ->
  alloc_new (get h z) size align r = Some (p, l) -> zones_ok R (put h z l).
Proof.
  intros Hz Ha Hs Hn z'. rewrite get_put. destruct (decide (z = z')) as [<-|]; [|apply Hz].
  pose proof (alloc_new_correct (get h z) size align r (proj1 (Hz z)) Ha Hs) as Hc.
  rewrite Hn in Hc. destruct Hc as (Hok & _ & _ & _ & Hfr & Hu & Hf & _ & Hnode & (n & Hnin & _)).
  split; [done|]. intros i Hi.
  assert (forall a, range_start i <= a < range_end i -> R z a) as Hrange.
  { intros a Hin. pose proof (zone_ok_info _ i Hok Hi) as Hiok.
    assert (used l a \/ free l a) as [Hua|Hfa].
    { destruct (Z.lt_ge_cases a (alloc_end i)); [left|right]; exists i;
        (split; [done|]); unfold used_by, free_in; lia. }
    - apply Hu in Hua as [Hua | Hua]; [by apply (used_region h)|].
      apply (free_region h); [done|]. by apply Hfr.
    - apply Hf in Hfa as [Hfa _]. by apply (free_region h). }
  split; [|done]. destruct (Hnode i Hi) as [(_ & -> & _) | (j & Hj & _ & -> & _)].
  - apply (free_region h); [done|]. apply Hfr. lia.
  - by apply (Hz z).
Qed.

(** The effect of one reservation on the used and free addresses. *)
Lemma reserve_effect h z size align r p l :
  zones_ok R h -> is_align align -> 0 < size < 2 ^ 31 ->
  alloc_new (get h z) size align r = Some (p, l) ->
  p mod align = 0 /\ 0 < p /\
  (forall a, p <= a < p + size -> heap_free h z a /\ R z a) /\
  (forall a, heap_used (put h z l) a <-> heap_used h a \/ p <= a < p + size) /\
  (forall z' a, heap_free (put h z l) z' a <->
     heap_free h z' a /\ ~ (z' = z /\ p <= a < p + size)).
Proof.
  intros Hz Ha Hs Hn.
  pose proof (alloc_new_correct (get h z) size align r (proj1 (Hz z)) Ha Hs) as Hc.
  rewrite Hn in Hc. destruct Hc as (_ & Hm & Hp & _ & Hfr & Hu & Hf & _).
  split; [done|]. split; [done|]. split; [|split].
  - intros a Hin. split; [by apply Hfr|]. apply (free_region h); [done|]. by apply Hfr.
  - intros a. unfold heap_used. split.
    + intros (z' & Hua). rewrite get_put in Hua. destruct (decide (z = z')) as [<-|].
      * apply Hu in Hua as [Hua|Hua]; [left; by exists z|by right].
      * left. by exists z'.
    + intros [(z' & Hua) | Hin].
      * exists z'. rewrite get_put. destruct (decide (z = z')) as [<-|]; [|done].
        apply Hu. by left.
      * exists z. rewrite get_put_same. apply Hu. by right.
  - intros z' a. unfold heap_free. rewrite get_put. destruct (decide (z = z')) as [<-|Hne].
    + rewrite Hf. split; intros [? Hno]; (split; [done|]);
        [intros [_ ?]; by apply Hno|intros ?; by apply Hno].
    + split; [intros ?; split; [done|]; intros [? _]; congruence|by intros [? _]].
Qed.

Lemma align_min : is_align MALLOC_MIN_ALIGN.
Proof. apply align_16. Qed.

Lemma detail_size : 0 < sizeof_allocdetail < 2 ^ 31.
Proof. unfold sizeof_allocdetail. lia. Qed.

(** Reserving a tracking structure. *)
Lemma alloc_new_detail_cases h handle :
  zones_ok R h ->
  alloc_new_detail h handle = (None, h) \/
  exists zt d l, is_tmp zt /\
    alloc_new (get h zt) sizeof_allocdetail MALLOC_MIN_ALIGN (InTemp DetailInfo) = Some (d, l) /\
    alloc_new_detail h handle =
      (Some d, set_handle (put (map_zones (rename (placed_at d)) h) zt (rename (placed_at d) l)) d handle).
Proof.
  intros Hz. unfold alloc_new_detail, alloc_new_in.
  assert (forall zt d l f, alloc_new (get h zt) sizeof_allocdetail MALLOC_MIN_ALIGN (InTemp DetailInfo)
            = Some (d, l) ->
          d <> 0 /\ map_zones f (put h zt l) = put (map_zones f h) zt (f l)) as Hd.
  { intros zt d l f Hn. split; [|by destruct zt].
    pose proof (reserve_effect h zt _ _ _ _ _ Hz align_min detail_size Hn) as (_ & ? & _). lia. }
  destruct (alloc_new (get h ZoneTmpHigh) _ _ _) as [[d l]|] eqn:Hhi.
  - destruct (Hd _ _ _ (rename (placed_at d)) Hhi) as [Hd0 Hput].
    rewrite !(proj2 (Z.eqb_neq d 0) Hd0), Hput. right. exists ZoneTmpHigh, d, l.
    split; [by left|done].
  - rewrite Z.eqb_refl. destruct (alloc_new (get h ZoneTmpLow) _ _ _) as [[d l]|] eqn:Hlo.
    + destruct (Hd _ _ _ (rename (placed_at d)) Hlo) as [Hd0 Hput].
      rewrite (proj2 (Z.eqb_neq d 0) Hd0), Hput. right. exists ZoneTmpLow, d, l.
      split; [by right|done].
    + left. done.
Qed.

Lemma rename_named d h z : refs_ok h -> rename (placed_at d) (get h z) = get h z.
Proof.
  intros [Hr _]. apply rename_id, List.Forall_forall. intros i Hi.
  destruct (Hr (block_of i)) as (e & k & Heq & _); [apply in_all_blocks; eauto|].
  unfold ref_of in Heq. simpl in Heq. by rewrite Heq.
Qed.

Lemma absent_temp h z k : refs_ok h -> absent (InTemp k) (get h z).
Proof.
  intros [Hr _]. apply List.Forall_forall. intros i Hi.
  destruct (Hr (block_of i)) as (e & k' & Heq & _); [apply in_all_blocks; eauto|].
  unfold ref_of in Heq. simpl in Heq. by rewrite Heq.
Qed.

(** [malloc_palloc] either changes nothing or makes two reservations, as if
    their descriptors had been in the tracking structure from the start. *)
Lemma palloc_cases h z size align :
  heap_ok R h -> is_align align -> 0 < size < 2 ^ 31 ->
  malloc_palloc h z size align = (0, h) \/
  exists p d zt l1 l2, is_tmp zt /\
    alloc_new (get h z) size align (InDetail d DataInfo) = Some (p, l1) /\
    alloc_new (get (put h z l1) zt) sizeof_allocdetail MALLOC_MIN_ALIGN (InDetail d DetailInfo)
      = Some (d, l2) /\
    malloc_palloc h z size align =
      (p, set_handle (put (put h z l1) zt l2) d MALLOC_DEFAULT_HANDLE).
Proof.
  intros [Hz Hr] Ha Hs. unfold malloc_palloc, alloc_new_in.
  rewrite (proj2 (Z.eqb_neq size 0)) by lia.
  destruct (alloc_new (get h z) size align (InTemp DataInfo)) as [[p l]|] eqn:Hn;
    [|left; by rewrite Z.eqb_refl].
  pose proof (reserve_effect h z _ _ _ _ _ Hz Ha Hs Hn) as (_ & Hp & _).
  pose proof (reserve_zones_ok h z _ _ _ _ _ Hz Ha Hs Hn) as Hz1.
  rewrite (proj2 (Z.eqb_neq p 0)) by lia.
  destruct (alloc_new_detail_cases (put h z l) MALLOC_DEFAULT_HANDLE Hz1)
    as [-> | (zt & d & l' & Ht & Hd & ->)].
  - left. rewrite get_put_same, put_put.
    pose proof (alloc_new_correct (get h z) size align (InTemp DataInfo) (proj1 (Hz z)) Ha Hs) as Hc.
    rewrite Hn in Hc. destruct Hc as (_ & _ & _ & _ & _ & _ & _ & Hback & _).
    by rewrite Hback, put_get by (by apply absent_temp).
  - right. exists p, d, zt, (rename (placed_at d) l), (rename (placed_at d) l').
    assert (map_zones (rename (placed_at d)) (put h z l) = put h z (rename (placed_at d) l)) as Hmap.
    { apply heap_ext; [|by rewrite handles_put; destruct z]. intros z'. rewrite get_map, !get_put.
      destruct (decide (z = z')); [done|by apply rename_named]. }
    split; [done|]. split; [|split].
    + rewrite <- (rename_named d h z Hr) at 1.
      change (InDetail d DataInfo) with (placed_at d (InTemp DataInfo)).
      by rewrite alloc_new_rename, Hn.
    + rewrite <- Hmap, get_map.
      change (InDetail d DetailInfo) with (placed_at d (InTemp DetailInfo)).
      by rewrite alloc_new_rename, Hd.
    + by rewrite Hmap.
Qed.

(** Giving back a reservation. *)
Lemma unreserve h z size align r p l z' :
  zones_ok R h -> is_align align -> 0 < size < 2 ^ 31 ->
  alloc_new (get h z) size align r = Some (p, l) -> (forall z', absent r (get h z')) ->
  alloc_free r (get (put h z l) z') = get h z'.
Proof.
  intros Hz Ha Hs Hn Hab. rewrite get_put. destruct (decide (z = z')) as [<-|].
  - pose proof (alloc_new_correct (get h z) size align r (proj1 (Hz z)) Ha Hs) as Hc.
    rewrite Hn in Hc. destruct Hc as (_ & _ & _ & _ & _ & _ & _ & Hback & _). by apply Hback.
  - by apply alloc_free_absent.
Qed.

(** ** Finding blocks *)

Lemma refs_unique h z1 z2 i1 i2 :
  NoDup (map ref_of (all_blocks h)) ->
  In i1 (get h z1) -> In i2 (get h z2) -> node i1 = node i2 -> z1 = z2.
Proof.
  intros Hnd H1 H2 Heq. unfold all_blocks in Hnd. rewrite concat_map, map_map in Hnd.
  assert (forall zs, NoDup (concat (map (fun z => map ref_of (blocks (get h z))) zs)) ->
            In z1 zs -> In z2 zs -> z1 = z2) as Hgen.
  { intros zs. induction zs as [|z zs IH]; simpl; [done|].
    intros (_ & Hd & Hnd')%NoDup_app.
    assert (forall z' i, In i (get h z') -> In z' zs ->
              node i ∈ concat (map (fun z => map ref_of (blocks (get h z))) zs)) as Hin.
    { intros z' i Hi Hz'. apply list_elem_of_In, in_concat. eexists. split; [by apply in_map|].
      unfold blocks. rewrite map_map. by apply (in_map node). }
    assert (forall i, In i (get h z) -> node i ∈ map ref_of (blocks (get h z))) as Hhd.
    { intros i Hi. apply list_elem_of_In. unfold blocks. rewrite map_map. by apply (in_map node). }
    intros [<- | Hz1] [<- | Hz2]; [done|..].
    - exfalso. apply (Hd (node i1)); [by apply Hhd|]. rewrite Heq. by apply (Hin z2).
    - exfalso. apply (Hd (node i2)); [by apply Hhd|]. rewrite <- Heq. by apply (Hin z1).
    - by apply IH. }
  apply (Hgen Zones Hnd); [destruct z1|destruct z2]; simpl; tauto.
Qed.

Lemma nodup_zone h z : NoDup (map ref_of (all_blocks h)) -> NoDup (map node (get h z)).
Proof.
  intros Hnd. assert (exists l1 l2, map ref_of (all_blocks h) = l1 ++ map node (get h z) ++ l2) as (l1 & l2 & He).
  { assert (map node (get h z) = map ref_of (blocks (get h z))) as ->
      by (unfold blocks; rewrite map_map; done).
    unfold all_blocks. rewrite concat_map, map_map.
    assert (In z Zones) as (zs1 & zs2 & ->)%in_split by (destruct z; simpl; tauto).
    rewrite map_app, concat_app. simpl. by eexists _, _. }
  rewrite He in Hnd. apply NoDup_app in Hnd as (_ & _ & Hnd). by apply NoDup_app in Hnd as (? & _).
Qed.

Lemma alloc_find_used h z i :
  zones_ok R h -> In i (get h z) -> 0 < alloc_size i -> alloc_find h (range_start i) = Some i.
Proof.
  intros Hz Hi Hs. unfold alloc_find.
  assert (forall zs, In z zs -> find_in h zs (range_start i) = Some i) as Hgen;
    [|apply Hgen; destruct z; simpl; tauto].
  intros zs. induction zs as [|z' zs IH]; [done|]. intros Hin. simpl.
  destruct (decide (z' = z)) as [->|Hne].
  - by rewrite find_start_used by (done || apply Hz).
  - rewrite find_start_none.
    + apply IH. destruct Hin as [->|Hin]; [done|by auto].
    + apply List.Forall_forall. intros j Hj Heq. apply Hne.
      apply (HR z' z (range_start i)); [rewrite <- Heq; by apply (Hz z')|by apply (Hz z)].
Qed.

(** Blocks with different descriptors do not overlap. *)
Lemma used_apart h z1 z2 i1 i2 a :
  zones_ok R h -> In i1 (get h z1) -> In i2 (get h z2) -> node i1 <> node i2 ->
  used_by i1 a -> used_by i2 a -> False.
Proof.
  intros Hz H1 H2 Hne Hu1 Hu2. assert (z1 = z2) as ->.
  { apply (HR z1 z2 a); apply (used_region h); [done|by exists i1|done|by exists i2]. }
  destruct (Hz z2) as [Hok _]. pose proof (zone_ok_info _ _ Hok H1) as (_ & ? & ? & _).
  pose proof (zone_ok_info _ _ Hok H2) as (_ & ? & ? & _).
  apply in_split in H1 as (la & lb & He). rewrite He in Hok, H2.
  unfold used_by in *. apply in_app_or in H2 as [H2 | [H2 | H2]]; [|congruence|].
  - apply in_split in H2 as (lc & ld & ->). rewrite <- app_assoc in Hok. apply zone_disjoint in Hok. lia.
  - apply in_split in H2 as (lc & ld & ->). apply zone_disjoint in Hok. lia.
Qed.

Lemma tracked_block_found h z i d :
  heap_ok R h -> In i (get h z) -> node i = InDetail d DataInfo -> 0 < alloc_size i ->
  tracked_block h (range_start i) = Some (i, d).
Proof.
  intros [Hz (Hr & _)] Hi Hn Hs. unfold tracked_block. rewrite (alloc_find_used h z i) by done.
  rewrite Hn. simpl. rewrite (proj2 (Z.eqb_neq _ _)) by lia. rewrite bool_decide_false; [done|].
  intros [= Heq]. destruct (Hr (block_of i)) as (e & k & He & Hd & _); [apply in_all_blocks; eauto|].
  unfold ref_of in He. simpl in He. rewrite Hn in He. simplify_eq.
  apply in_all_blocks in Hd as (z' & t & Ht & Hb). unfold block_of in Hb.
  injection Hb as Hb1 Hb2 Hb3.
  apply (used_apart h z z' i t (range_start i) Hz Hi Ht); [congruence|..];
    unfold used_by, alloc_end, sizeof_allocinfo, sizeof_allocdetail in *; lia.
Qed.

(** ** Freeing one block *)

Lemma map_free_one h z i :
  NoDup (map ref_of (all_blocks h)) -> In i (get h z) ->
  map_zones (alloc_free (node i)) h = put h z (alloc_free (node i) (get h z)).
Proof.
  intros Hnd Hi. apply heap_ext; [|by rewrite handles_put]. intros z'. rewrite get_map, get_put.
  destruct (decide (z = z')) as [<-|Hne]; [done|]. apply alloc_free_absent, List.Forall_forall.
  intros j Hj Heq. by apply Hne, (refs_unique h z z' i j).
Qed.

Lemma free_one h z i :
  zones_ok R h -> NoDup (map ref_of (all_blocks h)) -> In i (get h z) -> 0 < alloc_size i ->
  let h' := map_zones (alloc_free (node i)) h in
  zones_ok R h' /\ all_blocks h ≡ₚ block_of i :: all_blocks h' /\
  forall z' a, heap_free h' z' a <-> heap_free h z' a \/ (z' = z /\ used_by i a).
Proof.
  intros Hz Hnd Hi Hs. cbv zeta. rewrite (map_free_one h z i Hnd Hi).
  pose proof (nodup_zone h z Hnd) as Hnz.
  pose proof (alloc_free_blocks _ _ (proj1 (Hz z)) Hi Hs Hnz) as Hb.
  destruct (alloc_free_correct _ _ (proj1 (Hz z)) Hi Hs Hnz) as (Hok & Hu & Hf).
  split; [|split].
  - intros z'. rewrite get_put. destruct (decide (z = z')) as [<-|]; [|apply Hz].
    split; [done|]. intros j Hj.
    assert (In (block_of j) (blocks (get h z))) as (k & Hk & Hin)%in_map_iff.
    { rewrite Hb. right. by apply in_map. }
    injection Hk as _ Hst _. split; [rewrite <- Hst; by apply (Hz z)|]. intros a Ha.
    pose proof (zone_ok_info _ j Hok Hj) as Hjok.
    assert (used (alloc_free (node i) (get h z)) a \/ free (alloc_free (node i) (get h z)) a) as [Hua|Hfa].
    { destruct (Z.lt_ge_cases a (alloc_end j)); [left|right]; exists j;
        (split; [done|]); unfold used_by, free_in; lia. }
    + apply Hu in Hua as [Hua _]. by apply (used_region h).
    + apply Hf in Hfa as [Hfa | Hua]; [by apply (free_region h)|].
      apply (used_region h); [done|]. by exists i.
  - by apply all_blocks_drop.
  - intros z' a. unfold heap_free. rewrite get_put. destruct (decide (z = z')) as [<-|Hne].
    + rewrite Hf. tauto.
    + split; [by left|]. intros [?|[? _]]; [done|congruence].
Qed.

Lemma nodup_tail (b : info_ref * Z * Z) (l l' : list (info_ref * Z * Z)) :
  l ≡ₚ b :: l' -> NoDup (map ref_of l) -> NoDup (map ref_of l') /\ forall c, In c l' -> ref_of c <> ref_of b.
Proof.
  intros Hp Hnd. rewrite Hp in Hnd. simpl in Hnd. apply NoDup_cons in Hnd as [Hb Hnd].
  split; [done|]. intros c Hc Heq. apply Hb. rewrite <- Heq. by apply list_elem_of_In, in_map.
Qed.

(** Both slots of a new structure. *)
Lemma refs_fresh h d k b :
  refs_ok h -> ~ detail_at h d -> In b (all_blocks h) -> ref_of b <> InDetail d k.
Proof.
  intros [Hr _] Hfresh Hb Heq. destruct (Hr b Hb) as (e & k' & He & Hd & _).
  rewrite Heq in He. injection He as -> _. done.
Qed.

Lemma refs_pair h h3 d start size handle :
  refs_ok h -> ~ detail_at h d -> handles h3 = <[d := handle]> (handles h) ->
  all_blocks h3 ≡ₚ (InDetail d DetailInfo, d, sizeof_allocdetail) ::
    (InDetail d DataInfo, start, size) :: all_blocks h ->
  refs_ok h3.
Proof.
  intros Hrefs Hfresh Hins Hall. pose proof Hrefs as (Hr & Hnd & Hh).
  assert (detail_at h3 d) as Hd by (unfold detail_at; rewrite Hall; by left).
  assert (data_at h3 d) as Hda by (exists start, size; rewrite Hall; by right; left).
  assert (forall b, In b (all_blocks h) -> In b (all_blocks h3)) as Hin
    by (intros b Hb; rewrite Hall; by right; right).
  split; [|split].
  - intros b Hb. rewrite Hall in Hb. destruct Hb as [<- | [<- | Hb]]; [by eexists _, _..|].
    destruct (Hr b Hb) as (e & k & He & Hde & (s & n & Hs)). exists e, k.
    split; [done|]. split; [by apply Hin|]. exists s, n. by apply Hin.
  - rewrite Hall. simpl. apply NoDup_cons. split.
    { intros [He | Hb]%list_elem_of_In; [done|].
      apply in_map_iff in Hb as (b & He & Hb). by apply (refs_fresh h d DetailInfo b). }
    apply NoDup_cons. split; [|done].
    intros Hb%list_elem_of_In. apply in_map_iff in Hb as (b & He & Hb).
    by apply (refs_fresh h d DataInfo b).
  - intros e. rewrite Hins. destruct (decide (e = d)) as [->|Hne].
    + rewrite lookup_insert_eq. by split.
    + rewrite lookup_insert_ne by done. rewrite Hh. unfold detail_at.
      rewrite Hall. simpl. split; [by auto|].
      intros [? | [? | ?]]; [congruence|congruence|done].
Qed.

(** Both slots of a structure gone, the others are as before. *)
Lemma refs_unpair h h2 d start size :
  refs_ok h -> handles h2 = delete d (handles h) ->
  all_blocks h ≡ₚ (InDetail d DataInfo, start, size) ::
    (InDetail d DetailInfo, d, sizeof_allocdetail) :: all_blocks h2 ->
  refs_ok h2.
Proof.
  intros (Hr & Hnd & Hh) Hdel Hall.
  destruct (nodup_tail _ _ _ Hall Hnd) as [Hnd1 Hne1].
  destruct (nodup_tail _ _ _ (reflexivity _) Hnd1) as [Hnd2 Hne2].
  assert (forall c, In c (all_blocks h2) -> forall k, ref_of c <> InDetail d k) as Hgone.
  { intros c Hc []; [by apply (Hne2 c)|apply (Hne1 c); by right]. }
  assert (forall f s n k, f <> d -> In (InDetail f k, s, n) (all_blocks h) ->
            In (InDetail f k, s, n) (all_blocks h2)) as Hkeep.
  { intros f s n k Hf Hin. rewrite Hall in Hin.
    destruct Hin as [Hin | [Hin | Hin]]; [congruence|congruence|done]. }
  split; [|split; [done|]].
  - intros c Hc. destruct (Hr c) as (f & k & Hf & Hdf & (s & n & Hda)).
    { rewrite Hall. by right; right. }
    assert (f <> d) as Hfd by (intros ->; by apply (Hgone c Hc k)).
    exists f, k. split; [done|]. split; [by apply Hkeep|]. exists s, n. by apply Hkeep.
  - intros f. rewrite Hdel. destruct (decide (f = d)) as [->|Hfd].
    + rewrite lookup_delete_eq. split; [by intros []|]. intros Hin. by destruct (Hgone _ Hin DetailInfo).
    + rewrite lookup_delete_ne by done. rewrite Hh. unfold detail_at. split; [by apply Hkeep|].
      intros Hin. rewrite Hall. by right; right.
Qed.

(** Freeing a tracked block and its structure. *)
Lemma pfree_run h z i d :
  heap_ok R h -> In i (get h z) -> node i = InDetail d DataInfo -> 0 < alloc_size i ->
  exists h', malloc_pfree h (range_start i) = (0, h') /\ heap_ok R h' /\
    all_blocks h ≡ₚ block_of i :: (InDetail d DetailInfo, d, sizeof_allocdetail) :: all_blocks h'.
Proof.
  intros Hok Hi Hn Hs. pose proof (tracked_block_found h z i d Hok Hi Hn Hs) as Ht.
  unfold malloc_pfree. rewrite Ht. destruct Hok as [Hz (Hr & Hnd & Hh)].
  destruct (free_one h z i Hz Hnd Hi Hs) as (Hz1 & Hb1 & _).
  set (h1 := map_zones (alloc_free (node i)) h) in *.
  destruct (nodup_tail _ _ _ Hb1 Hnd) as [Hnd1 Hne1].
  destruct (Hr (block_of i)) as (e & k & He & Hd & _); [apply in_all_blocks; eauto|].
  unfold ref_of in He. simpl in He. rewrite Hn in He. simplify_eq.
  assert (In (InDetail e DetailInfo, e, sizeof_allocdetail) (all_blocks h1)) as Hd1.
  { unfold detail_at in Hd. rewrite Hb1 in Hd. destruct Hd as [Hd|Hd]; [|done].
    unfold block_of in Hd. rewrite Hn in Hd. done. }
  apply in_all_blocks in Hd1 as (z' & t & Htin & Htb).
  assert (node t = InDetail e DetailInfo) as Ht1 by (injection Htb; congruence).
  destruct (free_one h1 z' t Hz1 Hnd1 Htin) as (Hz2 & Hb2 & _).
  { injection Htb as _ _ <-. unfold sizeof_allocdetail. lia. }
  rewrite Ht1 in Hz2, Hb2. set (h2 := map_zones (alloc_free (InDetail e DetailInfo)) h1) in *.
  exists (drop_handle h2 e). split; [done|].
  assert (all_blocks h ≡ₚ block_of i :: (InDetail e DetailInfo, e, sizeof_allocdetail) ::
            all_blocks (drop_handle h2 e)) as Hall by (by rewrite Hb1, Hb2, Htb).
  split; [|done]. split; [exact Hz2|].
  apply (refs_unpair h (drop_handle h2 e) e (range_start i) (alloc_size i)); [by split|done|].
  unfold block_of in Hall. by rewrite Hn in Hall.
Qed.

(** Two reservations, the second for the structure the first is tracked in. *)
Section Pair.
Context (h : heap) (z zt : zone_s) (size align p d : Z) (l1 l2 : list allocinfo_s) (handle : Z).
Context (Hok : heap_ok R h) (Hal : is_align align) (Hsz : 0 < size < 2 ^ 31).
Context (Hdata : alloc_new (get h z) size align (InDetail d DataInfo) = Some (p, l1)).
Context (Hdet : alloc_new (get (put h z l1) zt) sizeof_allocdetail MALLOC_MIN_ALIGN
                  (InDetail d DetailInfo) = Some (d, l2)).

Definition paired : heap := set_handle (put (put h z l1) zt l2) d handle.

Lemma paired_mid : zones_ok R (put h z l1).
Proof. by apply (reserve_zones_ok h z size align (InDetail d DataInfo) p l1); [apply Hok|..]. Qed.

Lemma paired_zones : zones_ok R paired.
Proof.
  intros z'. apply (reserve_zones_ok (put h z l1) zt _ _ _ _ _ paired_mid align_min detail_size Hdet).
Qed.

Lemma paired_blocks :
  all_blocks paired ≡ₚ
  (InDetail d DetailInfo, d, sizeof_allocdetail) :: (InDetail d DataInfo, p, size) :: all_blocks h.
Proof.
  change (all_blocks paired) with (all_blocks (put (put h z l1) zt l2)).
  rewrite (all_blocks_put _ _ _ _ (alloc_new_blocks _ _ _ _ _ _ Hdet)).
  by rewrite (all_blocks_put _ _ _ _ (alloc_new_blocks _ _ _ _ _ _ Hdata)).
Qed.

(** The structure is carved from free memory, so nothing lived there. *)
Lemma detail_free a : d <= a < d + sizeof_allocdetail -> heap_free h zt a /\ ~ (zt = z /\ p <= a < p + size).
Proof.
  intros Ha. pose proof (reserve_effect _ _ _ _ _ _ _ paired_mid align_min detail_size Hdet)
    as (_ & _ & Hfr & _).
  destruct (Hfr a Ha) as [Hf _].
  pose proof (reserve_effect _ _ _ _ _ _ _ (proj1 Hok) Hal Hsz Hdata) as (_ & _ & _ & _ & Hf1).
  by apply Hf1 in Hf.
Qed.

Lemma detail_fresh : ~ detail_at h d.
Proof.
  intros Hd. pose proof detail_size.
  apply (heap_disjoint h zt d (proj1 Hok)); [|apply detail_free; lia].
  apply heap_used_blocks. do 3 eexists. split; [exact Hd|lia].
Qed.

Lemma fresh_refs k b : In b (all_blocks h) -> ref_of b <> InDetail d k.
Proof. apply refs_fresh; [apply Hok|apply detail_fresh]. Qed.

Lemma fresh_absent k z' : absent (InDetail d k) (get h z').
Proof.
  apply List.Forall_forall. intros i Hi. apply (fresh_refs k (block_of i)).
  apply in_all_blocks. eauto.
Qed.

Lemma paired_refs : refs_ok paired.
Proof.
  apply (refs_pair h paired d p size handle (proj2 Hok) detail_fresh); [|apply paired_blocks].
  change (handles paired) with (<[d:=handle]> (handles (put (put h z l1) zt l2))).
  by rewrite !handles_put.
Qed.

Lemma paired_ok : heap_ok R paired.
Proof. split; [apply paired_zones|apply paired_refs]. Qed.

Lemma mid_absent z' : absent (InDetail d DetailInfo) (get (put h z l1) z').
Proof.
  apply List.Forall_forall. intros i Hi Heq.
  assert (In (block_of i) (all_blocks (put h z l1))) as Hin by (apply in_all_blocks; eauto).
  rewrite (all_blocks_put _ _ _ _ (alloc_new_blocks _ _ _ _ _ _ Hdata)) in Hin.
  destruct Hin as [Hin|Hin].
  - unfold block_of in Hin. rewrite Heq in Hin. discriminate Hin.
  - by apply (fresh_refs DetailInfo _ Hin).
Qed.

Lemma paired_positive z' i k : In i (get paired z') -> node i = InDetail d k -> 0 < alloc_size i.
Proof.
  intros Hi Hn. assert (In (block_of i) (all_blocks paired)) as Hin by (apply in_all_blocks; eauto).
  rewrite paired_blocks in Hin. pose proof detail_size.
  destruct Hin as [Hin | [Hin | Hin]].
  - injection Hin as _ _ <-. lia.
  - injection Hin as _ _ <-. lia.
  - destruct (fresh_refs k _ Hin Hn).
Qed.

(** Freeing the data block undoes both reservations. *)
Lemma paired_undone : malloc_pfree paired p = (0, h).
Proof.
  assert (In (InDetail d DataInfo, p, size) (all_blocks paired)) as Hin
    by (rewrite paired_blocks; by right; left).
  apply in_all_blocks in Hin as (z0 & i & Hi & Hb).
  assert (node i = InDetail d DataInfo) as Hn by (unfold block_of in Hb; congruence).
  assert (range_start i = p) as Hst by (unfold block_of in Hb; congruence).
  pose proof (tracked_block_found paired z0 i d paired_ok Hi Hn (paired_positive z0 i _ Hi Hn)) as Ht.
  rewrite Hst in Ht. unfold malloc_pfree. rewrite Ht, Hn. f_equal. apply heap_ext.
  - intros z'. change (get (drop_handle ?h d) z') with (get h z'). rewrite !get_map.
    rewrite alloc_free_comm; [|done|apply paired_zones|].
    + change (get paired z') with (get (put (put h z l1) zt l2) z').
      rewrite (unreserve _ _ _ _ _ _ _ _ paired_mid align_min detail_size Hdet mid_absent).
      by rewrite (unreserve _ _ _ _ _ _ _ _ (proj1 Hok) Hal Hsz Hdata (fresh_absent DataInfo)).
    + intros j Hj [Hjn|Hjn]; by eapply paired_positive.
  - change (delete d (<[d:=handle]> (handles (put (put h z l1) zt l2))) = handles h).
    rewrite !handles_put. apply delete_insert_id.
    apply eq_None_not_Some. intros Hsome. apply detail_fresh. by apply (proj2 (proj2 (proj2 Hok))).
Qed.

End Pair.

(** ** Arbitrary addresses *)

Lemma same_ref h b1 b2 :
  NoDup (map ref_of (all_blocks h)) -> In b1 (all_blocks h) -> In b2 (all_blocks h) ->
  ref_of b1 = ref_of b2 -> b1 = b2.
Proof.
  induction (all_blocks h) as [|b l IH]; [done|]. simpl. intros [Hb Hnd]%NoDup_cons H1 H2 Heq.
  destruct H1 as [<-|H1], H2 as [<-|H2]; [done|..|by apply IH]; exfalso; apply Hb.
  - rewrite Heq. by apply list_elem_of_In, in_map.
  - rewrite <- Heq. by apply list_elem_of_In, in_map.
Qed.

Lemma find_in_some h zs data i :
  find_in h zs data = Some i -> exists z, In i (get h z) /\ range_start i = data.
Proof.
  induction zs as [|z zs IH]; simpl; [done|].
  destruct (find_start (get h z) data) as [j|] eqn:Hf; [|done].
  intros [= ->]. apply find_start_in in Hf. eauto.
Qed.

(** Only data blocks are tracked blocks. *)
Lemma tracked_block_inv h data i d :
  heap_ok R h -> tracked_block h data = Some (i, d) ->
  exists z, In i (get h z) /\ range_start i = data /\ node i = InDetail d DataInfo /\ 0 < alloc_size i.
Proof.
  intros [Hz (Hr & Hnd & _)]. unfold tracked_block, alloc_find.
  destruct (find_in h Zones data) as [j|] eqn:Hf; [|done].
  apply find_in_some in Hf as (z & Hj & Hst).
  case_bool_decide as Hself; [done|]. simpl. destruct (Z.eqb_spec (alloc_size j) 0); [done|].
  destruct (node j) as [k|e k] eqn:Hn; [done|]. intros [= -> ->]. exists z.
  pose proof (zone_ok_info _ i (proj1 (Hz z)) Hj) as (_ & ? & _).
  split; [done|]. split; [done|]. split; [|lia]. destruct k; [|done]. exfalso. apply Hself. simpl.
  assert (In (block_of i) (all_blocks h)) as Hin by (apply in_all_blocks; eauto).
  destruct (Hr _ Hin) as (e & k & He & Hd & _). unfold ref_of in He. simpl in He.
  rewrite Hn in He. simplify_eq.
  assert (block_of i = (InDetail e DetailInfo, e, sizeof_allocdetail)) as Hb
    by (by apply (same_ref h)).
  injection Hb as _ Hb _. congruence.
Qed.

(** * The contract of allocation *)

(** The block at [p] was granted: it is aligned, lies in the zone's memory and
    was free; its tracking structure is another block that was free, in a
    temporary zone; these two are all that becomes used; and freeing the block
    gives the original heap back. *)
Definition granted h z size align p h' : Prop :=
  p mod align = 0 /\
  (forall a, p <= a < p + size -> R z a /\ heap_free h z a /\ ~ heap_used h a) /\
  (exists zt d, is_tmp zt /\
     (forall a, d <= a < d + sizeof_allocdetail ->
        R zt a /\ heap_free h zt a /\ ~ (p <= a < p + size)) /\
     forall a, heap_used h' a <->
       heap_used h a \/ p <= a < p + size \/ d <= a < d + sizeof_allocdetail) /\
  malloc_pfree h' p = (0, h).

Lemma pair_granted h z zt size align p d l1 l2 handle :
  heap_ok R h -> is_align align -> 0 < size < 2 ^ 31 -> is_tmp zt ->
  alloc_new (get h z) size align (InDetail d DataInfo) = Some (p, l1) ->
  alloc_new (get (put h z l1) zt) sizeof_allocdetail MALLOC_MIN_ALIGN (InDetail d DetailInfo)
    = Some (d, l2) ->
  granted h z size align p (set_handle (put (put h z l1) zt l2) d handle).
Proof.
  intros Hok Ha Hs Ht Hd Hdet.
  pose proof (reserve_effect h z _ _ _ _ _ (proj1 Hok) Ha Hs Hd) as (Hm & Hp & Hfr & Hu & _).
  pose proof (detail_free h z zt size align p d l1 l2 Hok Ha Hs Hd Hdet) as Hdf.
  split; [done|]. split; [|split].
  - intros a Hin. destruct (Hfr a Hin) as [Hf Hr]. split; [done|]. split; [done|].
    intros Hua. by apply (heap_disjoint h z a (proj1 Hok)).
  - exists zt, d. split; [done|]. split.
    + intros a Hin. destruct (Hdf a Hin) as [Hf Hno].
      assert (R zt a) as Hrt by (by apply (free_region h); [apply Hok|]).
      split; [done|]. split; [done|]. intros Hpa. apply Hno. split; [|done].
      by apply (HR zt z a Hrt), Hfr.
    + intros a. change (heap_used (set_handle ?h _ _) a) with (heap_used h a).
      pose proof (reserve_effect (put h z l1) zt _ _ _ _ _
        (paired_mid h z size align p d l1 Hok Ha Hs Hd) align_min detail_size Hdet)
        as (_ & _ & _ & Hu2 & _).
      rewrite Hu2, Hu. tauto.
  - by eapply (paired_undone h z zt size align p d).
Qed.

Lemma palloc_grants h z size align :
  heap_ok R h -> is_align align -> 0 < size < 2 ^ 31 ->
  let '(p, h') := malloc_palloc h z size align in
  heap_ok R h' /\ (p = 0 -> h' = h) /\ (p <> 0 -> 0 < p /\ granted h z size align p h').
Proof.
  intros Hok Ha Hs.
  destruct (palloc_cases h z size align Hok Ha Hs) as [-> | (p & d & zt & l1 & l2 & Ht & Hd & Hdet & ->)];
    [done|].
  pose proof (reserve_effect h z _ _ _ _ _ (proj1 Hok) Ha Hs Hd) as (_ & Hp & _).
  split; [by eapply (paired_ok h z zt size align p d)|]. split; [lia|]. intros _. split; [done|].
  by apply pair_granted.
Qed.

(** C4: [malloc_palloc] in any zone of a well-formed heap keeps it well formed.
    On failure the heap is unchanged; on success the block is granted: aligned,
    from the zone's free memory, tracked by another block that was free,
    nothing else becomes used, and [malloc_pfree] of the block gives the
    original heap back. *)
Theorem malloc_palloc_correct h z size align :
  heap_ok R h -> is_align align -> 0 < size < 2 ^ 31 ->
  let '(p, h') := malloc_palloc h z size align in
  heap_ok R h' /\ (p = 0 -> h' = h) /\ (p <> 0 -> granted h z size align p h').
Proof.
  intros Hok Ha Hs. pose proof (palloc_grants h z size align Hok Ha Hs) as Hg.
  destruct (malloc_palloc h z size align) as [p h']. split; [apply Hg|]. split; [apply Hg|].
  intros Hp. by apply Hg.
Qed.

Lemma pfree_correct h data :
  heap_ok R h ->
  let '(ret, h') := malloc_pfree h data in
  heap_ok R h' /\
  ((ret = -1 /\ h' = h /\
    forall d n, In (InDetail d DataInfo, data, n) (all_blocks h) -> n = 0) \/
   (ret = 0 /\ exists d n, 0 < n /\
     all_blocks h ≡ₚ (InDetail d DataInfo, data, n) ::
       (InDetail d DetailInfo, d, sizeof_allocdetail) :: all_blocks h')).
Proof.
  intros Hok. destruct (tracked_block h data) as [[i d]|] eqn:Ht.
  - destruct (tracked_block_inv h data i d Hok Ht) as (z & Hi & <- & Hn & Hs).
    destruct (pfree_run h z i d Hok Hi Hn Hs) as (h' & -> & Hok' & Hb). split; [done|]. right.
    split; [done|]. exists d, (alloc_size i). split; [done|]. unfold block_of in Hb.
    by rewrite Hn in Hb.
  - unfold malloc_pfree. rewrite Ht. split; [done|]. left. split; [done|]. split; [done|].
    intros d n Hin. apply in_all_blocks in Hin as (z & i & Hi & Hb).
    injection Hb as Hn -> ->. pose proof (zone_ok_info _ i (proj1 (proj1 Hok z)) Hi) as (_ & ? & _).
    destruct (Z.eq_dec (alloc_size i) 0); [done|].
    rewrite (tracked_block_found h z i d) in Ht by (done || lia). done.
Qed.

(** C5: [malloc_pfree] of any address at all keeps the heap well formed.  It
    refuses, changing nothing, exactly when no tracked block starts there;
    otherwise it releases that block and its tracking structure and nothing
    else. *)
Theorem malloc_pfree_correct h data :
  heap_ok R h ->
  let '(ret, h') := malloc_pfree h data in
  heap_ok R h' /\
  ((ret = -1 /\ h' = h /\
    forall d n, In (InDetail d DataInfo, data, n) (all_blocks h) -> n = 0) \/
   (ret = 0 /\ exists d n, 0 < n /\
     all_blocks h ≡ₚ (InDetail d DataInfo, data, n) ::
       (InDetail d DetailInfo, d, sizeof_allocdetail) :: all_blocks h')).
Proof. apply pfree_correct. Qed.

Lemma sethandle_ok h data handle : heap_ok R h -> heap_ok R (malloc_sethandle h data handle).
Proof.
  intros Hok. unfold malloc_sethandle. destruct (tracked_block h data) as [[i d]|] eqn:Ht; [|done].
  destruct (tracked_block_inv h data i d Hok Ht) as (z & Hi & <- & Hn & Hs).
  destruct Hok as [Hz (Hr & Hnd & Hh)]. split; [exact Hz|]. split; [exact Hr|]. split; [exact Hnd|].
  intros e. simpl. change (detail_at (set_handle h d (u32 handle)) e) with (detail_at h e).
  destruct (decide (e = d)) as [->|Hne].
  - rewrite lookup_insert_eq. split; [intros _|by eauto].
    destruct (Hr (block_of i)) as (e & k & He & Hd & _); [apply in_all_blocks; eauto|].
    unfold ref_of in He. simpl in He. rewrite Hn in He. by simplify_eq.
  - by rewrite lookup_insert_ne.
Qed.

(** ** Handles *)

Lemma blocks_all_infos h : blocks (all_infos h) = all_blocks h.
Proof. unfold blocks, all_infos, all_blocks. by rewrite concat_map, map_map. Qed.

Lemma in_all_infos h i : In i (all_infos h) <-> exists z, In i (get h z).
Proof.
  unfold all_infos. rewrite in_concat. setoid_rewrite in_map_iff. split.
  - intros (l & (z & <- & _) & Hi). by exists z.
  - intros (z & Hi). exists (get h z). split; [|done]. exists z. by destruct z; simpl; tauto.
Qed.

Lemma data_start_found l d start n :
  NoDup (map ref_of (blocks l)) -> In (InDetail d DataInfo, start, n) (blocks l) ->
  data_start l d = Some start.
Proof.
  induction l as [|i l IH]; simpl; [done|]. intros [Hi Hnd]%NoDup_cons Hin.
  destruct Hin as [Hin|Hin].
  - injection Hin as Hn Hs _. by rewrite decide_True, Hs.
  - rewrite decide_False; [by apply IH|]. intros Heq. apply Hi.
    unfold ref_of at 1. simpl. rewrite Heq. apply list_elem_of_In.
    by apply (in_map ref_of) in Hin.
Qed.

(** A range does not start inside another block. *)
Lemma start_apart h z1 z2 i1 i2 :
  zones_ok R h -> In i1 (get h z1) -> In i2 (get h z2) -> node i1 <> node i2 ->
  range_start i2 < range_start i1 < alloc_end i2 -> False.
Proof.
  intros Hz H1 H2 Hne Hin. assert (z1 = z2) as ->.
  { apply (HR z1 z2 (range_start i1)); [by apply (Hz z1)|].
    apply (used_region h); [done|]. exists i2. split; [done|]. unfold used_by. lia. }
  destruct (Hz z2) as [Hok _]. pose proof (zone_ok_info _ _ Hok H1) as (_ & ? & ? & _).
  pose proof (zone_ok_info _ _ Hok H2) as (_ & ? & ? & _).
  apply in_split in H1 as (la & lb & He). rewrite He in Hok, H2. unfold alloc_end in *.
  apply in_app_or in H2 as [H2 | [H2 | H2]]; [|congruence|].
  - apply in_split in H2 as (lc & ld & ->). rewrite <- app_assoc in Hok. apply zone_disjoint in Hok. lia.
  - apply in_split in H2 as (lc & ld & ->). apply zone_disjoint in Hok. lia.
Qed.

(** The test of [malloc_findhandle] picks the tracking structures. *)
Lemma self_described h z i :
  heap_ok R h -> In i (get h z) -> info_addr (node i) = Some (range_start i) ->
  node i = InDetail (range_start i) DetailInfo.
Proof.
  intros [Hz (Hr & Hnd & _)] Hi Hself.
  destruct (Hr (block_of i)) as (d & k & He & Hd & _); [apply in_all_blocks; eauto|].
  unfold ref_of in He. simpl in He. rewrite He in *. destruct k; simpl in Hself; [congruence|].
  exfalso. apply in_all_blocks in Hd as (z' & t & Ht & Hb). injection Hb as Hn Hs Hsz.
  apply (start_apart h z z' i t Hz Hi Ht); [congruence|].
  injection Hself. unfold alloc_end, sizeof_allocinfo, sizeof_allocdetail in *. lia.
Qed.

Lemma find_handle_found h l d handle :
  heap_ok R h -> Forall (fun i => exists z, In i (get h z)) l ->
  (forall e, handles h !! e = Some handle <-> e = d) ->
  Exists (fun i => node i = InDetail d DetailInfo /\ range_start i = d) l ->
  find_handle_in h l handle = data_start (all_infos h) d.
Proof.
  intros Hok Hl Hh Hex. induction l as [|i l IH]; [by inversion Hex|]. simpl.
  apply Forall_cons in Hl as [(z & Hi) Hl].
  case_bool_decide as Hself.
  - pose proof (self_described h z i Hok Hi Hself) as Hn. rewrite Hn.
    case_bool_decide as Hm.
    + by apply Hh in Hm as ->.
    + apply IH; [done|]. inversion Hex as [? ? [Hn' ?]|]; subst; [|done].
      exfalso. apply Hm, Hh. congruence.
  - apply IH; [done|]. inversion Hex as [? ? [Hn' Hs']|]; subst; [|done].
    exfalso. apply Hself. by rewrite Hn'.
Qed.

(** A block can be found again by its handle: after [malloc_sethandle] of a
    tracked block with a handle no other block has, [malloc_findhandle] returns
    the block. *)
Lemma handle_finds_block h data d n handle :
  heap_ok R h -> In (InDetail d DataInfo, data, n) (all_blocks h) -> 0 < n ->
  (forall e, e <> d -> handles h !! e <> Some (u32 handle)) ->
  malloc_findhandle (malloc_sethandle h data handle) (u32 handle) = data.
Proof.
  intros Hok Hin Hn Huniq. pose proof (sethandle_ok h data handle Hok) as Hok'. revert Hok'.
  pose proof Hin as Hin'. apply in_all_blocks in Hin' as (z & i & Hi & Hb).
  injection Hb as Hnode Hst Hsz.
  unfold malloc_sethandle. rewrite Hst, (tracked_block_found h z i d) by (done || congruence || lia).
  set (h' := set_handle h d (u32 handle)). intros Hok'. unfold malloc_findhandle.
  rewrite (find_handle_found h' (all_infos h') d (u32 handle) Hok').
  - rewrite (data_start_found _ d data n); [by simpl|..]; rewrite blocks_all_infos; [apply Hok'|done].
  - apply List.Forall_forall. intros j Hj. by apply in_all_infos in Hj.
  - intros e. unfold h'. simpl. destruct (decide (e = d)) as [->|Hne].
    + rewrite lookup_insert_eq. by split.
    + rewrite lookup_insert_ne by done. split; [by intros ?%Huniq|done].
  - destruct Hok' as [_ (Hr & _)]. destruct (Hr _ Hin) as (e & k & He & Hd & _).
    unfold ref_of in He. simpl in He. injection He as <- _.
    apply in_all_blocks in Hd as (z' & t & Ht & Hbt). injection Hbt as Ht1 Ht2 _.
    apply List.Exists_exists. exists t. split; [apply in_all_infos; eauto|done].
Qed.

End Invariant.

(** * Adding memory *)

Lemma insert_range_blocks l i : blocks (insert_range l i) ≡ₚ block_of i :: blocks l.
Proof.
  induction l as [|j l IH]; simpl; [done|]. destruct (_ <? _); simpl; [done|].
  rewrite IH. apply Permutation_swap.
Qed.

Lemma rename_insert f l i :
  rename f (insert_range l i) =
  insert_range (rename f l) (mkInfo (f (node i)) (range_start i) (range_end i) (alloc_size i)).
Proof. induction l as [|j l IH]; simpl; [done|]. destruct (_ <? _); simpl; [done|]. by rewrite IH. Qed.

Lemma hlist_del_insert l i : absent (node i) l -> hlist_del (node i) (insert_range l i) = l.
Proof.
  intros Hab. assert (forall l, absent (node i) l -> hlist_del (node i) l = l) as Hid.
  { clear. induction 1 as [|j l Hj Hl IH]; [done|]. unfold hlist_del in *.
    rewrite filter_cons_True by done. by rewrite IH. }
  induction Hab as [|j l Hj Hl IH]; unfold hlist_del in *; simpl.
  - by rewrite filter_cons_False by (intros H; by apply H).
  - destruct (_ <? _).
    + rewrite filter_cons_False by (intros H; by apply H). by apply Hid, Forall_cons.
    + rewrite filter_cons_True by done. by rewrite IH.
Qed.

(** The zone's memory with a range added. *)
Definition add_region (R : regions) (z : zone_s) (start stop : Z) : regions :=
  fun z' a => R z' a \/ (z' = z /\ start <= a < stop).

(** The range is new to every zone. *)
Definition fresh_region (R : regions) (start stop : Z) : Prop :=
  0 < start < stop /\ stop < 2 ^ 32 /\ forall z a, start <= a < stop -> ~ R z a.

Section Add.
Context (R : regions) (HR : regions_apart R) (h : heap) (z : zone_s) (start stop : Z).
Context (Hok : heap_ok R h) (Hnew : fresh_region R start stop).

Abbreviation R' := (add_region R z start stop).

Lemma add_region_apart : regions_apart R'.
Proof.
  destruct Hnew as (_ & _ & Hf). intros z1 z2 a [H1|[-> H1]] [H2|[-> H2]]; [|..|done].
  - by apply (HR z1 z2 a).
  - by destruct (Hf z1 a H2).
  - by destruct (Hf z2 a H1).
Qed.

Lemma add_zones_mono : zones_ok R' h.
Proof.
  intros z'. destruct (proj1 Hok z') as [Hz Hr]. split; [done|]. intros i Hi.
  destruct (Hr i Hi) as [H1 H2]. split; [by left|]. intros a Ha. left. auto.
Qed.

Definition with_range (r : info_ref) : heap :=
  put h z (insert_range (get h z) (mkInfo r start stop 0)).

Lemma with_range_zones r : zones_ok R' (with_range r).
Proof.
  destruct Hnew as (Hs & He & Hf). intros z'. unfold with_range. rewrite get_put.
  destruct (decide (z = z')) as [<-|]; [|apply add_zones_mono].
  destruct (proj1 Hok z) as [Hz Hr]. split.
  - apply insert_range_ok; try done.
    + unfold info_ok, alloc_end. simpl. lia.
    + simpl. lia.
    + apply List.Forall_forall. intros j Hj. destruct (Hr j Hj) as [H1 H2]. unfold apart_from. simpl.
      assert (~ (start <= range_start j < stop)) by (intros Hin; by apply (Hf z (range_start j))).
      assert (~ (range_start j <= start < range_end j)).
      { intros Hin. apply (Hf z start); [lia|]. by apply H2. }
      lia.
  - intros i [-> | Hi]%insert_range_in; simpl.
    + split; [right; split; [done|lia]|]. intros a Ha. by right.
    + apply (add_zones_mono z). done.
Qed.

Lemma with_range_used r a : heap_used h a -> heap_used (with_range r) a.
Proof.
  intros (z' & Hu). exists z'. unfold with_range. rewrite get_put.
  destruct (decide (z = z')) as [<-|]; [|done]. by apply insert_range_used.
Qed.

(** Either nothing happens or the range is there, tracked by a structure carved
    from what is free, the new range included. *)
Lemma alloc_add_cases :
  alloc_add h z start stop = h \/
  exists zt d l, is_tmp zt /\
    alloc_new (get (with_range (InDetail d DataInfo)) zt) sizeof_allocdetail MALLOC_MIN_ALIGN
      (InDetail d DetailInfo) = Some (d, l) /\
    alloc_add h z start stop =
      set_handle (put (with_range (InDetail d DataInfo)) zt l) d MALLOC_DEFAULT_HANDLE.
Proof.
  unfold alloc_add. fold (with_range (InTemp DataInfo)).
  destruct (alloc_new_detail_cases R' (with_range (InTemp DataInfo)) MALLOC_DEFAULT_HANDLE
              (with_range_zones _)) as [-> | (zt & d & l & Ht & Hn & ->)].
  - left. unfold with_range. rewrite get_put_same, put_put.
    rewrite (hlist_del_insert _ (mkInfo (InTemp DataInfo) start stop 0)), put_get; [done|].
    by apply absent_temp, Hok.
  - right. exists zt, d, (rename (placed_at d) l).
    assert (map_zones (rename (placed_at d)) (with_range (InTemp DataInfo)) =
            with_range (InDetail d DataInfo)) as Hmap.
    { unfold with_range. apply heap_ext; [|by rewrite !handles_put; destruct z]. intros z'.
      rewrite get_map, !get_put. destruct (decide (z = z')).
      - rewrite rename_insert, rename_named by apply Hok. done.
      - apply rename_named, Hok. }
    split; [done|]. rewrite Hmap. split; [|done]. rewrite <- Hmap, get_map.
    change (InDetail d DetailInfo) with (placed_at d (InTemp DetailInfo)).
    by rewrite alloc_new_rename, Hn.
Qed.

Lemma alloc_add_ok : heap_ok R' (alloc_add h z start stop).
Proof.
  destruct alloc_add_cases as [-> | (zt & d & l & Ht & Hdet & ->)].
  - split; [apply add_zones_mono|apply Hok].
  - pose proof (with_range_zones (InDetail d DataInfo)) as Hz1. split.
    + intros z'. apply (reserve_zones_ok R' _ zt _ _ _ _ _ Hz1 align_min detail_size Hdet).
    + apply (refs_pair h _ d start 0 MALLOC_DEFAULT_HANDLE (proj2 Hok)).
      * intros Hd. pose proof (reserve_effect R' _ zt _ _ _ _ _ Hz1 align_min detail_size Hdet)
          as (_ & _ & Hfr & _). pose proof detail_size.
        apply (heap_disjoint R' add_region_apart _ zt d Hz1); [|apply Hfr; lia].
        apply with_range_used, heap_used_blocks. do 3 eexists. split; [exact Hd|lia].
      * simpl. unfold with_range. by rewrite !handles_put.
      * change (all_blocks (set_handle ?h _ _)) with (all_blocks h).
        rewrite (all_blocks_put _ _ _ _ (alloc_new_blocks _ _ _ _ _ _ Hdet)).
        unfold with_range. by rewrite (all_blocks_put _ _ _ _ (insert_range_blocks _ _)).
Qed.

(** A zone that is not temporary gets the range and nothing else. *)
Lemma alloc_add_get z' :
  ~ is_tmp z' ->
  get (alloc_add h z start stop) z' = get h z' \/
  z' = z /\ exists d, get (alloc_add h z start stop) z' =
                     insert_range (get h z) (mkInfo (InDetail d DataInfo) start stop 0).
Proof.
  intros Hnt. destruct alloc_add_cases as [-> | (zt & d & l & Ht & _ & ->)]; [by left|].
  change (get (set_handle ?h _ _) z') with (get h z'). rewrite get_put_ne by congruence.
  unfold with_range. rewrite get_put. destruct (decide (z = z')) as [<-|]; [right|by left]. eauto.
Qed.

End Add.

(** * The memory CSMWrap donates *)

Definition BUILD_MIN_HIGHTABLE : Z := 256 * 1024.

Definition empty_heap : heap := mkHeap [] [] [] [] [] ∅.

Definition malloc_csm_preinit (h : heap) (low_pmm low_pmm_size hi_pmm hi_pmm_size : Z) : heap :=
  let h1 :=
    if BUILD_MIN_HIGHTABLE <? hi_pmm_size then
      let hi_pmm_end := u32 (hi_pmm + hi_pmm_size) in
      let h0 := alloc_add h ZoneTmpHigh hi_pmm (u32 (hi_pmm_end - BUILD_MIN_HIGHTABLE)) in
      alloc_add h0 ZoneHigh (u32 (hi_pmm_end - BUILD_MIN_HIGHTABLE)) hi_pmm_end
    else alloc_add h ZoneTmpHigh hi_pmm (u32 (hi_pmm + hi_pmm_size)) in
  alloc_add h1 ZoneTmpLow low_pmm (u32 (low_pmm + low_pmm_size)).

Definition no_regions : regions := fun _ _ => False.

(** Which zone gets what. *)
Definition donated (low_pmm low_pmm_size hi_pmm hi_pmm_size : Z) : regions := fun z a =>
  match z with
  | ZoneTmpLow => low_pmm <= a < low_pmm + low_pmm_size
  | ZoneTmpHigh => hi_pmm <= a < hi_pmm + hi_pmm_size -
      (if BUILD_MIN_HIGHTABLE <? hi_pmm_size then BUILD_MIN_HIGHTABLE else 0)
  | ZoneHigh => BUILD_MIN_HIGHTABLE < hi_pmm_size /\
      hi_pmm + hi_pmm_size - BUILD_MIN_HIGHTABLE <= a < hi_pmm + hi_pmm_size
  | _ => False
  end.

Lemma empty_heap_ok R : heap_ok R empty_heap.
Proof.
  split.
  - intros z. by destruct z.
  - split; [done|]. split; [constructor|]. intros d. simpl. rewrite lookup_empty.
    split; [by intros []|done].
Qed.

Lemma heap_ok_ext R1 R2 h : (forall z a, R1 z a <-> R2 z a) -> heap_ok R1 h -> heap_ok R2 h.
Proof.
  intros Heq [Hz Hr]. split; [|done]. intros z. destruct (Hz z) as [H1 H2]. split; [done|].
  intros i Hi. destruct (H2 i Hi) as [H3 H4]. split; [by apply Heq|]. intros a Ha. by apply Heq, H4.
Qed.

(** One addition, with the regions that result. *)
Lemma add_step R R2 h z start stop :
  regions_apart R -> heap_ok R h -> fresh_region R start stop ->
  (forall z' a, add_region R z start stop z' a <-> R2 z' a) ->
  regions_apart R2 /\ heap_ok R2 (alloc_add h z start stop).
Proof.
  intros Ha Hok Hf Heq. split.
  - intros z1 z2 a H1%Heq H2%Heq. by apply (add_region_apart R Ha z start stop Hf z1 z2 a).
  - apply (heap_ok_ext _ _ _ Heq). by apply alloc_add_ok.
Qed.

Ltac region_cases :=
  unfold add_region, no_regions, donated, fresh_region; intros; split_and?;
  repeat match goal with z : zone_s |- _ => destruct z end; simpl in *;
  intuition (discriminate || lia).

(** The heap SeaBIOS sets up from the two donated ranges, low memory and
    high memory that do not overlap, is well formed and its zones cover exactly
    those ranges: the top 256 KB of the high one is permanent, the rest of it
    and the low one are temporary. *)
Lemma csm_preinit_ok low_pmm low_pmm_size hi_pmm hi_pmm_size :
  0 < low_pmm -> 0 < low_pmm_size -> low_pmm + low_pmm_size <= hi_pmm ->
  0 < hi_pmm_size -> hi_pmm + hi_pmm_size < 2 ^ 32 ->
  let R := donated low_pmm low_pmm_size hi_pmm hi_pmm_size in
  regions_apart R /\
  heap_ok R (malloc_csm_preinit empty_heap low_pmm low_pmm_size hi_pmm hi_pmm_size).
Proof.
  intros Hl Hls Hlh Hhs Hh. cbv zeta. unfold malloc_csm_preinit. cbv zeta.
  assert (regions_apart no_regions) as H0 by (by intros ? ?).
  rewrite (wrap_small 32 (low_pmm + _)), (wrap_small 32 (hi_pmm + _)) by (unfold fits; lia).
  assert (BUILD_MIN_HIGHTABLE = 262144) as HB by done.
  destruct (Z.ltb_spec BUILD_MIN_HIGHTABLE hi_pmm_size) as [Hbig|Hsmall].
  - rewrite (wrap_small 32 (_ - _)) by (unfold fits; lia).
    set (mid := hi_pmm + hi_pmm_size - BUILD_MIN_HIGHTABLE) in *.
    destruct (add_step no_regions (fun z a => z = ZoneTmpHigh /\ hi_pmm <= a < mid)
      empty_heap ZoneTmpHigh hi_pmm mid H0 (empty_heap_ok _)) as [A1 O1]; [region_cases..|].
    destruct (add_step _ (fun z a => (z = ZoneTmpHigh /\ hi_pmm <= a < mid) \/
                                     (z = ZoneHigh /\ mid <= a < hi_pmm + hi_pmm_size))
      _ ZoneHigh mid (hi_pmm + hi_pmm_size) A1 O1) as [A2 O2]; [region_cases..|].
    apply (add_step _ _ _ ZoneTmpLow low_pmm (low_pmm + low_pmm_size) A2 O2); [region_cases|].
    unfold donated. rewrite (proj2 (Z.ltb_lt _ _)) by done. region_cases.
  - destruct (add_step no_regions (fun z a => z = ZoneTmpHigh /\ hi_pmm <= a < hi_pmm + hi_pmm_size)
      empty_heap ZoneTmpHigh hi_pmm (hi_pmm + hi_pmm_size) H0 (empty_heap_ok _)) as [A1 O1];
      [region_cases..|].
    apply (add_step _ _ _ ZoneTmpLow low_pmm (low_pmm + low_pmm_size) A1 O1); [region_cases|].
    unfold donated. rewrite (proj2 (Z.ltb_ge _ _)) by done. region_cases.
Qed.

(** * Allocations that succeed *)

(** With room in the high temporary zone the structure that tracks a block is
    found, for 60 bytes of it. *)
Lemma detail_room h handle n :
  zone_ok (get h ZoneTmpHigh) -> 60 <= n -> room (get h ZoneTmpHigh) n ->
  exists d h', alloc_new_detail h handle = (Some d, h') /\ room (get h' ZoneTmpHigh) (n - 60) /\
    forall z, z <> ZoneTmpHigh -> get h' z = rename (placed_at d) (get h z).
Proof.
  intros Hz Hn Hr. unfold alloc_new_detail, alloc_new_in.
  destruct (alloc_new_room _ sizeof_allocdetail MALLOC_MIN_ALIGN (InTemp DetailInfo) n Hz align_min detail_size)
    as (p & l & -> & Hp & Hroom); [unfold sizeof_allocdetail, MALLOC_MIN_ALIGN; lia|done|].
  rewrite (proj2 (Z.eqb_neq p 0)), (proj2 (Z.eqb_neq p 0)) by done.
  eexists p, _. split; [reflexivity|]. split.
  - change (get (set_handle ?h _ _) ?z) with (get h z). rewrite get_map, get_put_same.
    apply room_rename. eapply room_le; [exact Hroom|]. unfold sizeof_allocdetail, MALLOC_MIN_ALIGN. lia.
  - intros z Hne. change (get (set_handle ?h _ _) z) with (get h z). by rewrite get_map, get_put_ne.
Qed.

(** The ranges of each zone are exactly the addresses [C] gives it: every one
    of them is used or can be allocated, and no other is. *)
Definition manages (h : heap) (C : regions) : Prop :=
  forall z a, used (get h z) a \/ free (get h z) a <-> C z a.

Lemma manages_ext h C1 C2 : (forall z a, C1 z a <-> C2 z a) -> manages h C1 -> manages h C2.
Proof. intros Heq H z a. by rewrite <- Heq. Qed.

Lemma manages_rename f h C : manages h C -> manages (map_zones (rename f) h) C.
Proof.
  intros H z a. rewrite <- (H z a), get_map. unfold used, free, used_by, free_in, rename, alloc_end.
  setoid_rewrite in_map_iff. split.
  - intros [(i & (j & <- & Hj) & Ha)|(i & (j & <- & Hj) & Ha)]; [left|right]; by exists j.
  - intros [(j & Hj & Ha)|(j & Hj & Ha)]; [left|right]; (eexists; split; [exists j; split; [reflexivity|done]|done]).
Qed.

Lemma manages_reserve R h z size align r p l C :
  zones_ok R h -> is_align align -> 0 < size < 2 ^ 31 ->
  alloc_new (get h z) size align r = Some (p, l) -> manages h C -> manages (put h z l) C.
Proof.
  intros Hz Ha Hs Hn H z' a. rewrite <- (H z' a), get_put. destruct (decide (z = z')) as [<-|]; [|done].
  pose proof (alloc_new_correct (get h z) size align r (proj1 (Hz z)) Ha Hs) as Hc.
  rewrite Hn in Hc. destruct Hc as (_ & _ & _ & _ & Hfr & Hu & Hf & _). rewrite Hu, Hf.
  specialize (Hfr a). assert (p <= a < p + size \/ ~ p <= a < p + size) as Hd by lia. tauto.
Qed.

Lemma manages_palloc R h z size align C :
  heap_ok R h -> is_align align -> 0 < size < 2 ^ 31 ->
  manages h C -> manages (malloc_palloc h z size align).2 C.
Proof.
  intros Hok Ha Hs H.
  destruct (palloc_cases R h z size align Hok Ha Hs) as [-> | (p & d & zt & l1 & l2 & _ & H1 & H2 & ->)]; [done|].
  pose proof (manages_reserve _ _ _ _ _ _ _ _ C (proj1 Hok) Ha Hs H1 H) as Hc.
  pose proof (reserve_zones_ok R h z _ _ _ _ _ (proj1 Hok) Ha Hs H1) as Hz1.
  exact (manages_reserve _ _ _ _ _ _ _ _ C Hz1 align_min detail_size H2 Hc).
Qed.

Section AddRoom.
Context (R : regions) (h : heap) (z : zone_s) (start stop n : Z).
Context (Hok : heap_ok R h) (Hnew : fresh_region R start stop) (Hn : 60 <= n).

Lemma add_room_with :
  room (get (with_range h z start stop (InTemp DataInfo)) ZoneTmpHigh) n ->
  room (get (alloc_add h z start stop) ZoneTmpHigh) (n - 60) /\
  (z <> ZoneTmpHigh -> get (alloc_add h z start stop) z <> []).
Proof.
  intros Hr. unfold alloc_add. fold (with_range h z start stop (InTemp DataInfo)).
  destruct (detail_room (with_range h z start stop (InTemp DataInfo)) MALLOC_DEFAULT_HANDLE n)
    as (d & h' & -> & Hroom & Hget); [by apply (with_range_zones R)|done|done|].
  split; [done|]. intros Hne. rewrite Hget by done. unfold with_range. rewrite get_put_same.
  destruct (get h z) as [|j l]; cbn; [done|]. by destruct (_ <? _).
Qed.

(** Adding memory to a zone succeeds when there is room for the structure. *)
Lemma add_room :
  room (get h ZoneTmpHigh) n ->
  room (get (alloc_add h z start stop) ZoneTmpHigh) (n - 60) /\
  (z <> ZoneTmpHigh -> get (alloc_add h z start stop) z <> []).
Proof.
  intros Hr. apply add_room_with. unfold with_range. rewrite get_put.
  destruct (decide (z = ZoneTmpHigh)) as [->|]; [by apply room_insert|done].
Qed.

Lemma with_range_manages r C : manages h C -> manages (with_range h z start stop r) (add_region C z start stop).
Proof.
  intros H z' a. unfold with_range, add_region. rewrite <- (H z' a), get_put.
  destruct (decide (z = z')) as [<-|]; [|intuition congruence].
  rewrite insert_range_used, insert_range_free by done. cbn [range_start range_end]. tauto.
Qed.

Lemma add_manages_with C :
  room (get (with_range h z start stop (InTemp DataInfo)) ZoneTmpHigh) n -> manages h C ->
  manages (alloc_add h z start stop) (add_region C z start stop).
Proof.
  intros Hr H. unfold alloc_add. fold (with_range h z start stop (InTemp DataInfo)).
  pose proof (with_range_zones R h z start stop Hok Hnew (InTemp DataInfo)) as Hz.
  destruct (detail_room _ MALLOC_DEFAULT_HANDLE n (proj1 (Hz ZoneTmpHigh)) Hn Hr) as (d & h' & E & _).
  destruct (alloc_new_detail_cases _ _ MALLOC_DEFAULT_HANDLE Hz) as [E' | (zt & e & l & _ & Hl & E')];
    rewrite E' in E |- *; [done|].
  assert (forall f x, put (map_zones f x) zt (f l) = map_zones f (put x zt l)) as Hput by (by destruct zt).
  rewrite Hput. apply (manages_rename (placed_at e) _ _).
  exact (manages_reserve _ _ _ _ _ _ _ _ _ Hz align_min detail_size Hl (with_range_manages _ _ H)).
Qed.

(** When there is room for the structure, the zone grows by the whole range. *)
Lemma add_manages C :
  room (get h ZoneTmpHigh) n -> manages h C ->
  manages (alloc_add h z start stop) (add_region C z start stop).
Proof.
  intros Hr. apply add_manages_with. unfold with_range. rewrite get_put.
  destruct (decide (z = ZoneTmpHigh)) as [->|]; [by apply room_insert|done].
Qed.

End AddRoom.

(** Memory added to the high temporary zone gives it room. *)
Lemma add_room_first R h start stop :
  heap_ok R h -> fresh_region R start stop -> 60 <= stop - start ->
  room (get (alloc_add h ZoneTmpHigh start stop) ZoneTmpHigh) (stop - start - 60).
Proof.
  intros Hok Hnew Hn. apply (add_room_with R h ZoneTmpHigh start stop); [done..|].
  unfold with_range. rewrite get_put_same. exists (mkInfo (InTemp DataInfo) start stop 0).
  split; [apply insert_range_in; by left|]. unfold alloc_end. cbn. lia.
Qed.

Lemma add_manages_first R h start stop C :
  heap_ok R h -> fresh_region R start stop -> 60 <= stop - start -> manages h C ->
  manages (alloc_add h ZoneTmpHigh start stop) (add_region C ZoneTmpHigh start stop).
Proof.
  intros Hok Hnew Hn. apply (add_manages_with R h ZoneTmpHigh start stop (stop - start)); [done..|].
  unfold with_range. rewrite get_put_same. exists (mkInfo (InTemp DataInfo) start stop 0).
  split; [apply insert_range_in; by left|]. unfold alloc_end. cbn. lia.
Qed.

Lemma empty_manages : manages empty_heap no_regions.
Proof. intros z a. split; [|done]. destruct z; by intros [(i & [] & _)|(i & [] & _)]. Qed.

Lemma palloc_room R h size align n :
  heap_ok R h -> is_align align -> 0 < size < 2 ^ 31 -> size + align + 60 <= n -> room (get h ZoneTmpHigh) n ->
  let '(p, h') := malloc_palloc h ZoneTmpHigh size align in
  p <> 0 /\ room (get h' ZoneTmpHigh) (n - size - align - 60).
Proof.
  intros [Hz _] Ha Hs Hn Hr. unfold malloc_palloc, alloc_new_in.
  pose proof (is_align_pos _ Ha). rewrite (proj2 (Z.eqb_neq size 0)) by lia.
  destruct (alloc_new_room _ size align (InTemp DataInfo) n (proj1 (Hz ZoneTmpHigh)) Ha Hs ltac:(lia) Hr)
    as (p & l & E & Hp & Hroom). rewrite E, (proj2 (Z.eqb_neq p 0)) by done.
  destruct (detail_room (put h ZoneTmpHigh l) MALLOC_DEFAULT_HANDLE (n - size - align))
    as (d & h' & -> & Hroom' & _).
  - by apply (reserve_zones_ok R _ _ _ _ _ _ _ Hz Ha Hs E).
  - lia.
  - by rewrite get_put_same.
  - done.
Qed.

(** A zone of its own with a large enough free range serves the request, when
    the tracking structure fits into the high temporary zone. *)
Lemma palloc_fits R h z size align :
  heap_ok R h -> is_align align -> 0 < size < 2 ^ 31 -> z <> ZoneTmpHigh ->
  room (get h z) (size + align) -> room (get h ZoneTmpHigh) 60 -> (malloc_palloc h z size align).1 <> 0.
Proof.
  intros [Hz _] Ha Hs Hne Hr Hd. unfold malloc_palloc, alloc_new_in. pose proof (is_align_pos _ Ha).
  rewrite (proj2 (Z.eqb_neq size 0)) by lia.
  destruct (alloc_new_room _ size align (InTemp DataInfo) (size + align) (proj1 (Hz z)) Ha Hs ltac:(lia) Hr)
    as (p & l & E & Hp & _). rewrite E, (proj2 (Z.eqb_neq p 0)) by done.
  destruct (detail_room (put h z l) MALLOC_DEFAULT_HANDLE 60) as (d & h' & -> & _); [|lia| |done].
  - rewrite get_put_ne by done. apply Hz.
  - by rewrite get_put_ne.
Qed.

(** The heap SeaBIOS sets up from donated memory holds all of it, and has room
    for what follows. *)
Lemma csm_preinit_room low_pmm low_pmm_size hi_pmm hi_pmm_size :
  0 < low_pmm -> 0 < low_pmm_size -> low_pmm + low_pmm_size <= hi_pmm ->
  BUILD_MIN_HIGHTABLE + 180 <= hi_pmm_size -> hi_pmm + hi_pmm_size < 2 ^ 32 ->
  room (get (malloc_csm_preinit empty_heap low_pmm low_pmm_size hi_pmm hi_pmm_size) ZoneTmpHigh)
    (hi_pmm_size - BUILD_MIN_HIGHTABLE - 180) /\
  manages (malloc_csm_preinit empty_heap low_pmm low_pmm_size hi_pmm hi_pmm_size)
    (donated low_pmm low_pmm_size hi_pmm hi_pmm_size).
Proof.
  intros Hl Hls Hlh Hhs Hh. unfold malloc_csm_preinit. cbv zeta.
  assert (regions_apart no_regions) as H0 by (by intros ? ?).
  assert (BUILD_MIN_HIGHTABLE = 262144) as HB by done.
  rewrite (wrap_small 32 (low_pmm + _)), (wrap_small 32 (hi_pmm + _)) by (unfold fits; lia).
  rewrite (proj2 (Z.ltb_lt BUILD_MIN_HIGHTABLE hi_pmm_size)) by lia.
  rewrite (wrap_small 32 (_ - _)) by (unfold fits; lia).
  set (mid := hi_pmm + hi_pmm_size - BUILD_MIN_HIGHTABLE) in *.
  assert (fresh_region no_regions hi_pmm mid) as F1 by (split; [lia|split; [lia|intros z a _ []]]).
  pose proof (alloc_add_ok _ H0 _ ZoneTmpHigh _ _ (empty_heap_ok _) F1) as O1.
  pose proof (add_region_apart _ H0 ZoneTmpHigh _ _ F1) as A1.
  pose proof (add_room_first _ _ _ _ (empty_heap_ok _) F1 ltac:(lia)) as R1.
  pose proof (add_manages_first _ _ _ _ _ (empty_heap_ok _) F1 ltac:(lia) empty_manages) as C1.
  assert (fresh_region (add_region no_regions ZoneTmpHigh hi_pmm mid) mid (hi_pmm + hi_pmm_size)) as F2
    by (split; [lia|split; [lia|intros z a Ha [[]|[_ ?]]; lia]]).
  pose proof (alloc_add_ok _ A1 _ ZoneHigh _ _ O1 F2) as O2.
  destruct (add_room _ _ ZoneHigh _ _ (mid - hi_pmm - 60) O1 F2 ltac:(lia) R1) as [R2 _].
  pose proof (add_manages _ _ ZoneHigh _ _ (mid - hi_pmm - 60) O1 F2 ltac:(lia) _ R1 C1) as C2.
  assert (fresh_region (add_region (add_region no_regions ZoneTmpHigh hi_pmm mid) ZoneHigh mid
            (hi_pmm + hi_pmm_size)) low_pmm (low_pmm + low_pmm_size)) as F3
    by (split; [lia|split; [lia|intros z a Ha [[[]|[_ ?]]|[_ ?]]; lia]]).
  destruct (add_room _ _ ZoneTmpLow _ _ (mid - hi_pmm - 60 - 60) O2 F3 ltac:(lia) R2) as [R3 _].
  pose proof (add_manages _ _ ZoneTmpLow _ _ (mid - hi_pmm - 60 - 60) O2 F3 ltac:(lia) _ R2 C2) as C3.
  split; [eapply room_le; [exact R3|]; lia|].
  refine (manages_ext _ _ _ _ C3). unfold donated. rewrite (proj2 (Z.ltb_lt _ _)) by lia. region_cases.
Qed.

(** ** A concrete heap: 352 KB of low memory, 4 MB of high memory *)

Definition sample_R : regions := donated 0x28000 0x58000 0x7F000000 0x400000.
Definition sample_heap : heap := malloc_csm_preinit empty_heap 0x28000 0x58000 0x7F000000 0x400000.

Lemma sample_heap_ok : regions_apart sample_R /\ heap_ok sample_R sample_heap.
Proof. apply csm_preinit_ok; lia. Qed.

Lemma csm_preinit_ok_witness : heap_ok sample_R sample_heap.
Proof. apply (csm_preinit_ok 0x28000 0x58000 0x7F000000 0x400000); lia. Defined.

Lemma malloc_palloc_correct_witness :
  exists h', malloc_palloc sample_heap ZoneTmpHigh 100 16 = (0x7F3BFF00, h') /\
    malloc_pfree h' 0x7F3BFF00 = (0, sample_heap).
Proof.
  pose proof (malloc_palloc_correct sample_R (proj1 sample_heap_ok) sample_heap ZoneTmpHigh 100 16
                (proj2 sample_heap_ok) align_16 ltac:(lia)) as H.
  assert ((malloc_palloc sample_heap ZoneTmpHigh 100 16).1 = 0x7F3BFF00) as Hp
    by (vm_compute; reflexivity).
  destruct (malloc_palloc sample_heap ZoneTmpHigh 100 16) as [p h']. cbn [fst] in Hp. subst p.
  exists h'. split; [reflexivity|]. apply H. lia.
Defined.

Lemma malloc_pfree_correct_witness :
  exists h', malloc_pfree sample_heap 0x28000 = (-1, h') /\ heap_ok sample_R h'.
Proof.
  pose proof (malloc_pfree_correct sample_R (proj1 sample_heap_ok) sample_heap 0x28000
                (proj2 sample_heap_ok)) as H.
  assert ((malloc_pfree sample_heap 0x28000).1 = -1) as Hr by (vm_compute; reflexivity).
  destruct (malloc_pfree sample_heap 0x28000) as [ret h']. cbn [fst] in Hr. subst ret.
  exists h'. split; [reflexivity|exact (proj1 H)].
Defined.

(** The same heap with one block of 100 bytes. *)
Definition one_block_heap : heap := (malloc_palloc sample_heap ZoneTmpHigh 100 16).2.

Lemma one_block_ok : heap_ok sample_R one_block_heap.
Proof.
  destruct (palloc_cases sample_R sample_heap ZoneTmpHigh 100 16 (proj2 sample_heap_ok)
              align_16 ltac:(lia)) as [He | (p & d & zt & l1 & l2 & Ht & Hd & Hdet & He)];
    unfold one_block_heap; rewrite He; cbn [snd].
  - exact (proj2 sample_heap_ok).
  - exact (paired_ok sample_R (proj1 sample_heap_ok) sample_heap ZoneTmpHigh zt 100 16 p d l1 l2
             MALLOC_DEFAULT_HANDLE (proj2 sample_heap_ok) align_16 ltac:(lia) Hd Hdet).
Qed.

Lemma handle_finds_block_witness :
  malloc_findhandle (malloc_sethandle one_block_heap 0x7F3BFF00 0x1234) 0x1234 = 0x7F3BFF00.
Proof.
  apply (handle_finds_block sample_R (proj1 sample_heap_ok) one_block_heap 0x7F3BFF00 0x7F3BFED0 100 0x1234).
  - exact one_block_ok.
  - assert ((InDetail 0x7F3BFED0 DataInfo, 0x7F3BFF00, 100) ∈ all_blocks one_block_heap) as Hin
      by (apply (bool_decide_unpack _); vm_compute; exact I).
    exact (proj1 (list_elem_of_In _ _) Hin).
  - lia.
  - intros e _ He.
    assert (map_Forall (fun _ v => v <> 0x1234) (handles one_block_heap)) as Hall
      by (apply (bool_decide_unpack _); vm_compute; exact I).
    exact (Hall e _ He eq_refl).
Defined.
