(* ===== verification/SeaPmm.v ===== *)
(** The POST memory manager of SeaBIOS ([seabios/src/pmm.c]) on top of the
    allocator: the handlers, and that any session of calls is safe. *)

From stdpp Require Import base numbers list gmap.
From Stdlib Require Import ZArith Lia.
From S2P Require Import Prelude E820 SeaE820 SeaZone SeaMalloc.

(** * Calls *)

Definition PMM_FUNCTION_NOT_SUPPORTED : Z := 0xFFFFFFFF.

(** The allocator and the E820 map. *)
Record bios := mkBios {
  b_heap : heap;
  b_e820 : Array.low_map
}.

Definition with_heap (b : bios) (h : heap) : bios := mkBios h (b_e820 b).

(** The argument words on the caller's stack. *)
Definition arg16 (args : list Z) (i : nat) : Z := u16 (nth i args 0).
Definition arg32 (args : list Z) (i : nat) : Z := arg16 args i + 2 ^ 16 * arg16 args (S i).

(** [bsf]: the index of the lowest set bit. *)
Definition ffs (x : Z) : Z := ffs_from 32 0 x.

Definition pmm_align (flags size : Z) : Z :=
  if Z.testbit flags 2 then
    let align := u32 (Z.shiftl 1 (ffs size)) in
    if align <? MALLOC_MIN_ALIGN then MALLOC_MIN_ALIGN else align
  else MALLOC_MIN_ALIGN.

Definition low_zone (flags : Z) : zone_s := if Z.testbit flags 3 then ZoneLow else ZoneTmpLow.
Definition high_zone (flags : Z) : zone_s := if Z.testbit flags 3 then ZoneHigh else ZoneTmpHigh.

(** The memory size request. *)
Definition pmm_space (h : heap) (flags : Z) : Z :=
  let spacelow := malloc_getspace h (low_zone flags) in
  let spacehigh := malloc_getspace h (high_zone flags) in
  match Z.land flags 3 with
  | 1 => spacelow
  | 2 => spacehigh
  | 3 => if spacehigh <? spacelow then spacelow else spacehigh
  | _ => 0
  end.

(** A permanent high block that does not fit [ZoneHigh] is taken from the
    temporary zone and reserved in the E820 map. *)
Definition pmm_high (b : bios) (flags size align : Z) : Z * bios :=
  let '(data, h) := malloc_palloc (b_heap b) (high_zone flags) size align in
  if (data =? 0) && Z.testbit flags 3 then
    let '(data', h') := malloc_palloc h ZoneTmpHigh size align in
    (data', mkBios h' (if data' =? 0 then b_e820 b
                       else SeaE820.e820_add (b_e820 b) data' size E820_RESERVED))
  else (data, with_heap b h).

Definition pmm_alloc (b : bios) (flags size align : Z) : Z * bios :=
  match Z.land flags 3 with
  | 1 => let '(data, h) := malloc_palloc (b_heap b) (low_zone flags) size align in
         (data, with_heap b h)
  | 2 => pmm_high b flags size align
  | 3 => let '(data, h) := malloc_palloc (b_heap b) (low_zone flags) size align in
         if data =? 0 then
           let '(data', h') := malloc_palloc h (high_zone flags) size align in
           (data', with_heap b h')
         else (data, with_heap b h)
  | _ => (0, b)
  end.

Definition handle_pmm00 (b : bios) (args : list Z) : Z * bios :=
  let length := arg32 args 1 in
  let handle := arg32 args 3 in
  let flags := arg16 args 5 in
  if length =? 0 then (pmm_space (b_heap b) flags, b)
  else
    let size := u32 (length * 16) in
    if to_signed 32 size <=? 0 then (0, b)
    else
      let '(data, b') := pmm_alloc b flags size (pmm_align flags size) in
      if negb (data =? 0) && negb (handle =? MALLOC_DEFAULT_HANDLE)
      then (data, with_heap b' (malloc_sethandle (b_heap b') data handle))
      else (data, b').

Definition handle_pmm01 (b : bios) (args : list Z) : Z * bios :=
  let handle := arg32 args 1 in
  (if handle =? MALLOC_DEFAULT_HANDLE then 0 else malloc_findhandle (b_heap b) handle, b).

Definition handle_pmm02 (b : bios) (args : list Z) : Z * bios :=
  let '(ret, h) := malloc_pfree (b_heap b) (arg32 args 1) in
  (if ret =? 0 then 0 else 1, with_heap b h).

Definition handle_pmmXX (b : bios) (args : list Z) : Z * bios := (PMM_FUNCTION_NOT_SUPPORTED, b).

Definition handle_pmm (b : bios) (args : list Z) : Z * bios :=
  match arg16 args 0 with
  | 0 => handle_pmm00 b args
  | 1 => handle_pmm01 b args
  | 2 => handle_pmm02 b args
  | _ => handle_pmmXX b args
  end.

(** * Alignment of a request *)

Lemma ffs_spec x :
  0 < x < 2 ^ 32 -> 0 <= ffs x < 32 /\ Z.testbit x (ffs x) = true /\
  forall k, 0 <= k < ffs x -> Z.testbit x k = false.
Proof.
  intros Hx. pose proof (Z.log2_nonneg x). pose proof (Z.bit_log2 x ltac:(lia)) as Hb.
  assert (Z.log2 x < 32) by (apply Z.log2_lt_pow2; lia).
  destruct (ffs_from_spec 32 0 x (Z.log2 x)) as (H1 & H2 & H3); [lia|lia|lia|done|].
  fold (ffs x) in *. split; [lia|done].
Qed.

Lemma ffs_divides x : 0 < x < 2 ^ 32 -> x mod 2 ^ ffs x = 0.
Proof.
  intros Hx. destruct (ffs_spec x Hx) as (Hr & _ & Hlow).
  apply Z.bits_inj'. intros n Hn. rewrite Z.bits_0. destruct (Z.lt_ge_cases n (ffs x)).
  - rewrite Z.mod_pow2_bits_low by lia. apply Hlow. lia.
  - apply Z.mod_pow2_bits_high. lia.
Qed.

Lemma pmm_align_ok flags size :
  0 < size < 2 ^ 31 -> is_align (pmm_align flags size) /\ MALLOC_MIN_ALIGN <= pmm_align flags size.
Proof.
  intros Hs. unfold pmm_align. destruct (ffs_spec size ltac:(lia)) as (Hf & _).
  destruct (Z.testbit flags 2); [|split; [apply align_min|lia]].
  rewrite Z.shiftl_mul_pow2, Z.mul_1_l by lia. rewrite wrap_small.
  - destruct (Z.ltb_spec (2 ^ ffs size) MALLOC_MIN_ALIGN); split; [apply align_min|lia| |lia].
    exists (ffs size). split; [lia|done].
  - split; [apply Z.pow_nonneg; lia|]. apply Z.pow_lt_mono_r; lia.
Qed.

(** * The contract of a call *)

(** The zones a request is served from, in the order they are tried: bit 0 asks
    for memory below 1 MB, bit 1 for memory above, bit 3 for permanent memory. *)
Definition zones_of (flags : Z) : list zone_s :=
  match Z.testbit flags 0, Z.testbit flags 1, Z.testbit flags 3 with
  | true, false, false => [ZoneTmpLow]
  | true, false, true => [ZoneLow]
  | false, true, false => [ZoneTmpHigh]
  | false, true, true => [ZoneHigh; ZoneTmpHigh]
  | true, true, false => [ZoneTmpLow; ZoneTmpHigh]
  | true, true, true => [ZoneLow; ZoneHigh]
  | false, false, _ => []
  end.

(** The alignment a request asks for: 16 or, with bit 2, the largest power of
    two that divides the size if that is more. *)
Definition aligned_request (flags size align : Z) : Prop :=
  if Z.testbit flags 2
  then exists k, 0 <= k /\ align = Z.max 16 (2 ^ k) /\ size mod 2 ^ k = 0 /\ size mod 2 ^ (k + 1) <> 0
  else align = 16.

Lemma pmm_align_request flags size : 0 < size < 2 ^ 31 -> aligned_request flags size (pmm_align flags size).
Proof.
  intros Hs. unfold aligned_request, pmm_align. destruct (Z.testbit flags 2); [|done].
  destruct (ffs_spec size ltac:(lia)) as (Hf & Hb & _). exists (ffs size). split; [lia|]. split; [|split].
  - rewrite Z.shiftl_mul_pow2, Z.mul_1_l by lia. rewrite wrap_small.
    + change MALLOC_MIN_ALIGN with 16. ztest; lia.
    + split; [apply Z.pow_nonneg; lia|]. apply Z.pow_lt_mono_r; lia.
  - apply ffs_divides. lia.
  - intros E. rewrite <- (Z.mod_pow2_bits_low size (ffs size + 1)), E, Z.bits_0 in Hb by lia. done.
Qed.

(** The E820 map after a grant: a permanent block in temporary memory is
    reserved. *)
Definition e820_after (b : bios) (flags : Z) (z : zone_s) (data size : Z) : Array.low_map :=
  if Z.testbit flags 3 && bool_decide (z = ZoneTmpHigh)
  then SeaE820.e820_add (b_e820 b) data size E820_RESERVED else b_e820 b.

Lemma land_3_cases flags :
  Z.land flags 3 = (if Z.testbit flags 0 then 1 else 0) + (if Z.testbit flags 1 then 2 else 0).
Proof.
  rewrite land_3, !Z.testbit_eqb by lia. change (2 ^ 0) with 1. change (2 ^ 1) with 2.
  rewrite Z.div_1_r. destruct (Z.eqb_spec (flags mod 2) 1), (Z.eqb_spec ((flags / 2) mod 2) 1);
    Z.div_mod_to_equations; lia.
Qed.

Lemma with_heap_same b : with_heap b (b_heap b) = b.
Proof. by destruct b. Qed.

Section Contract.
Context (R : regions) (HR : regions_apart R).
Implicit Types (b : bios).

(** The zone [z] has no room for a block. *)
Definition refuses (h : heap) (size align : Z) (z : zone_s) : Prop := (malloc_palloc h z size align).1 = 0.

(** What serving a request of [size] bytes amounts to: the first zone with room
    is taken. *)
Definition served b (flags size align data : Z) (b' : bios) : Prop :=
  heap_ok R (b_heap b') /\
  (data = 0 -> b' = b /\ Forall (refuses (b_heap b) size align) (zones_of flags)) /\
  (data <> 0 -> exists zs z zs', zones_of flags = zs ++ z :: zs' /\ Forall (refuses (b_heap b) size align) zs /\
     granted R (b_heap b) z size align data (b_heap b') /\
     b_e820 b' = e820_after b flags z data size).

(** An attempt in one zone. *)
Lemma zone_served b flags zs z zs' size align :
  heap_ok R (b_heap b) -> is_align align -> 0 < size < 2 ^ 31 -> zones_of flags = zs ++ z :: zs' ->
  Forall (refuses (b_heap b) size align) zs ->
  let '(data, h) := malloc_palloc (b_heap b) z size align in
  (data = 0 -> h = b_heap b /\ refuses (b_heap b) size align z) /\
  (data <> 0 -> served b flags size align data (mkBios h (e820_after b flags z data size))).
Proof.
  intros Hok Ha Hs Hz Hzs. pose proof (palloc_grants R HR (b_heap b) z size align Hok Ha Hs) as Hg.
  unfold refuses at 1. destruct (malloc_palloc (b_heap b) z size align) as [data h]. destruct Hg as (Hok1 & H0 & Hnz).
  split; [intros E; split; [by apply H0|done]|]. intros Hd. split; [done|]. split; [done|]. intros _.
  exists zs, z, zs'. split; [done|]. split; [done|]. split; [by apply Hnz|done].
Qed.

Lemma none_served b flags size align : heap_ok R (b_heap b) -> Forall (refuses (b_heap b) size align) (zones_of flags) ->
  served b flags size align 0 b.
Proof. by split; [|split]. Qed.

(** The zones of the code are those of the contract. *)
Lemma zones_of_low flags : Z.testbit flags 0 = true ->
  zones_of flags = low_zone flags :: if Z.testbit flags 1 then [high_zone flags] else [].
Proof. intros H0. unfold zones_of, low_zone, high_zone. rewrite H0. by destruct (Z.testbit flags 1), (Z.testbit flags 3). Qed.

Lemma zones_of_high flags : Z.testbit flags 0 = false -> Z.testbit flags 1 = true ->
  zones_of flags = high_zone flags :: if Z.testbit flags 3 then [ZoneTmpHigh] else [].
Proof. intros H0 H1. unfold zones_of, high_zone. rewrite H0, H1. by destruct (Z.testbit flags 3). Qed.

Lemma e820_after_low b flags data size : e820_after b flags (low_zone flags) data size = b_e820 b.
Proof. unfold e820_after, low_zone. by destruct (Z.testbit flags 3). Qed.

Lemma e820_after_high b flags data size : e820_after b flags (high_zone flags) data size = b_e820 b.
Proof. unfold e820_after, high_zone. by destruct (Z.testbit flags 3). Qed.

Lemma high_served b flags size align :
  heap_ok R (b_heap b) -> is_align align -> 0 < size < 2 ^ 31 ->
  Z.testbit flags 0 = false -> Z.testbit flags 1 = true ->
  let '(data, b') := pmm_high b flags size align in served b flags size align data b'.
Proof.
  intros Hok Ha Hs H0 H1. unfold pmm_high. pose proof (zones_of_high flags H0 H1) as Ez.
  pose proof (zone_served b flags [] (high_zone flags) _ size align Hok Ha Hs Ez (Forall_nil_2 _)) as Hg.
  destruct (malloc_palloc (b_heap b) (high_zone flags) size align) as [data h].
  destruct Hg as [Hz Hserve]. destruct (Z.eqb_spec data 0) as [->|Hd]; cbn [andb].
  2: { rewrite e820_after_high in Hserve. by apply Hserve. }
  destruct (Hz eq_refl) as [-> Hr]. destruct (Z.testbit flags 3) eqn:H3.
  2: { rewrite with_heap_same. apply none_served; [done|]. rewrite Ez. by constructor. }
  pose proof (zone_served b flags [high_zone flags] ZoneTmpHigh [] size align Hok Ha Hs Ez ltac:(by constructor)) as Hg.
  destruct (malloc_palloc (b_heap b) ZoneTmpHigh size align) as [data' h']. destruct Hg as [Hz' Hserve'].
  destruct (Z.eqb_spec data' 0) as [->|Hd'].
  - destruct (Hz' eq_refl) as [-> Hr']. replace (mkBios (b_heap b) (b_e820 b)) with b by (by destruct b).
    apply none_served; [done|]. rewrite Ez. by repeat constructor.
  - unfold e820_after in Hserve'. rewrite H3 in Hserve'. by apply Hserve'.
Qed.

Lemma alloc_served b flags size align :
  heap_ok R (b_heap b) -> is_align align -> 0 < size < 2 ^ 31 ->
  let '(data, b') := pmm_alloc b flags size align in served b flags size align data b'.
Proof.
  intros Hok Ha Hs. unfold pmm_alloc. rewrite land_3_cases. destruct (Z.testbit flags 0) eqn:H0.
  2: { destruct (Z.testbit flags 1) eqn:H1; simpl; [by apply high_served|]. apply none_served; [done|].
       unfold zones_of. by rewrite H0, H1. }
  pose proof (zones_of_low flags H0) as Ez.
  pose proof (zone_served b flags [] (low_zone flags) _ size align Hok Ha Hs Ez (Forall_nil_2 _)) as Hg.
  destruct (Z.testbit flags 1) eqn:H1; simpl; destruct (malloc_palloc (b_heap b) (low_zone flags) size align) as [data h];
    destruct Hg as [Hz Hserve]; rewrite e820_after_low in Hserve; (destruct (Z.eqb_spec data 0) as [->|Hd]; [|by apply Hserve]);
    destruct (Hz eq_refl) as [-> Hr].
  - pose proof (zone_served b flags [low_zone flags] (high_zone flags) [] size align Hok Ha Hs Ez ltac:(by constructor)) as Hg.
    destruct (malloc_palloc (b_heap b) (high_zone flags) size align) as [data' h']. destruct Hg as [Hz' Hserve'].
    rewrite e820_after_high in Hserve'. destruct (Z.eqb_spec data' 0) as [->|Hd']; [|by apply Hserve'].
    destruct (Hz' eq_refl) as [-> Hr']. rewrite with_heap_same. apply none_served; [done|]. rewrite Ez. by repeat constructor.
  - rewrite with_heap_same. apply none_served; [done|]. rewrite Ez. by constructor.
Qed.

Lemma signed_positive size :
  fits 32 size -> (to_signed 32 size <=? 0) = false -> 0 < size < 2 ^ 31.
Proof.
  intros [Hs0 Hs1] H%Z.leb_gt. unfold to_signed in H.
  rewrite wrap_small in H by done. destruct (Z.ltb_spec size (2 ^ (32 - 1))); lia.
Qed.

Lemma pmm00_served b args :
  let length := arg32 args 1 in
  let handle := arg32 args 3 in
  let flags := arg16 args 5 in
  let size := u32 (length * 16) in
  heap_ok R (b_heap b) -> length <> 0 ->
  let '(data, b') := handle_pmm00 b args in
  heap_ok R (b_heap b') /\ exists align, (0 < size < 2 ^ 31 -> aligned_request flags size align) /\
  (data = 0 -> b' = b /\ (0 < size < 2 ^ 31 -> Forall (refuses (b_heap b) size align) (zones_of flags))) /\
  (data <> 0 -> 0 < size < 2 ^ 31 /\ exists zs z zs' b1, zones_of flags = zs ++ z :: zs' /\
     Forall (refuses (b_heap b) size align) zs /\ granted R (b_heap b) z size align data (b_heap b1) /\
     b_e820 b1 = e820_after b flags z data size /\
     b' = if handle =? MALLOC_DEFAULT_HANDLE then b1
          else with_heap b1 (malloc_sethandle (b_heap b1) data handle)).
Proof.
  cbv zeta. intros Hok Hlen. unfold handle_pmm00.
  rewrite (proj2 (Z.eqb_neq _ _) Hlen). set (size := u32 (arg32 args 1 * 16)). set (flags := arg16 args 5).
  destruct (to_signed 32 size <=? 0) eqn:Hsz.
  { split; [done|]. exists (pmm_align flags size). split; [apply pmm_align_request|]. split; [|done]. intros _. split; [done|].
    intros Hs. unfold to_signed in Hsz. rewrite wrap_small in Hsz by (unfold fits; lia).
    destruct (Z.ltb_spec size (2 ^ (32 - 1))); apply Z.leb_le in Hsz; lia. }
  apply signed_positive in Hsz; [|apply wrap_fits; lia].
  pose proof (alloc_served b flags size (pmm_align flags size) Hok (proj1 (pmm_align_ok _ _ Hsz)) Hsz) as Hs.
  destruct (pmm_alloc b flags size _) as [data b1]. destruct Hs as (Hok1 & Hz & Hnz).
  assert (heap_ok R (b_heap (with_heap b1 (malloc_sethandle (b_heap b1) data (arg32 args 3))))) as Hok2 by (by apply sethandle_ok).
  destruct (Z.eqb_spec data 0) as [->|Hd]; cbn [negb andb].
  { split; [done|]. exists (pmm_align flags size). split; [apply pmm_align_request|]. split; [|done].
    intros _. destruct (Hz eq_refl) as [-> Hr]. done. }
  destruct (Hnz Hd) as (zs & z & zs' & Hmay & Hzs & Hg & He).
  destruct (arg32 args 3 =? MALLOC_DEFAULT_HANDLE); cbn [negb]; (split; [done|]);
    (exists (pmm_align flags size)); (split; [apply pmm_align_request|]); (split; [done|]); intros _; (split; [done|]);
    by exists zs, z, zs', b1.
Qed.

Lemma pmm00_ok b args : heap_ok R (b_heap b) -> heap_ok R (b_heap (handle_pmm00 b args).2).
Proof.
  intros Hok. destruct (Z.eq_dec (arg32 args 1) 0) as [H0|H0].
  - unfold handle_pmm00. by rewrite H0.
  - pose proof (pmm00_served b args Hok H0) as Hs. destruct (handle_pmm00 b args). apply Hs.
Qed.

Lemma handle_pmm_ok b args : heap_ok R (b_heap b) -> heap_ok R (b_heap (handle_pmm b args).2).
Proof.
  intros Hok. unfold handle_pmm.
  destruct (arg16 args 0) as [|[[p|p|]|[p|p|]|]|p]; try done; [by apply pmm00_ok|].
  unfold handle_pmm02. pose proof (pfree_correct R HR (b_heap b) (arg32 args 1) Hok) as Hf.
  destruct (malloc_pfree (b_heap b) (arg32 args 1)) as [ret h]. apply Hf.
Qed.

(** C33: a PMM allocation.  The request is served from the first zone its flags
    allow that has room (low before high memory, permanent memory with bit 3,
    and temporary high memory when permanent high memory has none), at the
    alignment they ask for, out of free memory and with nothing else affected; a
    permanent request that falls back on temporary memory reserves the block in
    the E820 map; the handle is recorded; and a request is refused, changing
    nothing, only when no such zone has room or its size in bytes is not
    between 1 and 2^31 - 1.  The heap stays well formed. *)
Theorem pmm_allocate_correct b args :
  let length := arg32 args 1 in
  let handle := arg32 args 3 in
  let flags := arg16 args 5 in
  let size := u32 (length * 16) in
  heap_ok R (b_heap b) -> length <> 0 ->
  let '(data, b') := handle_pmm00 b args in
  heap_ok R (b_heap b') /\ exists align, (0 < size < 2 ^ 31 -> aligned_request flags size align) /\
  (data = 0 -> b' = b /\ (0 < size < 2 ^ 31 -> Forall (refuses (b_heap b) size align) (zones_of flags))) /\
  (data <> 0 -> 0 < size < 2 ^ 31 /\ exists zs z zs' b1, zones_of flags = zs ++ z :: zs' /\
     Forall (refuses (b_heap b) size align) zs /\ granted R (b_heap b) z size align data (b_heap b1) /\
     b_e820 b1 = e820_after b flags z data size /\
     b' = if handle =? MALLOC_DEFAULT_HANDLE then b1
          else with_heap b1 (malloc_sethandle (b_heap b1) data handle)).
Proof. apply pmm00_served. Qed.

(** C3: the allocator invariant holds throughout any session of PMM calls, with
    any arguments whatsoever: at every point the blocks in use, tracking
    structures included, do not overlap and lie in the memory the zones were
    given. *)
Theorem pmm_session_safe b calls :
  heap_ok R (b_heap b) ->
  let b' := foldl (fun b args => (handle_pmm b args).2) b calls in
  heap_ok R (b_heap b') /\
  (forall r s n a, In (r, s, n) (all_blocks (b_heap b')) -> s <= a < s + n -> exists z, R z a) /\
  (forall r1 s1 n1 r2 s2 n2 a,
     In (r1, s1, n1) (all_blocks (b_heap b')) -> In (r2, s2, n2) (all_blocks (b_heap b')) ->
     r1 <> r2 -> s1 <= a < s1 + n1 -> ~ (s2 <= a < s2 + n2)).
Proof.
  intros Hok. cbv zeta.
  assert (heap_ok R (b_heap (foldl (fun b args => (handle_pmm b args).2) b calls))) as Hok'.
  { revert b Hok. induction calls as [|args calls IH]; intros b Hok; simpl; [done|].
    by apply IH, handle_pmm_ok. }
  set (b' := foldl _ b calls) in *. split; [done|]. split.
  - intros r s n a Hin Ha. apply in_all_blocks in Hin as (z & i & Hi & [= -> -> ->]).
    exists z. apply (used_region R (b_heap b')); [apply Hok'|]. by exists i.
  - intros r1 s1 n1 r2 s2 n2 a H1 H2 Hne Ha1 Ha2.
    apply in_all_blocks in H1 as (z1 & i1 & Hi1 & [= -> -> ->]).
    apply in_all_blocks in H2 as (z2 & i2 & Hi2 & [= -> -> ->]).
    by apply (used_apart R HR (b_heap b') z1 z2 i1 i2 a (proj1 Hok')).
Qed.

End Contract.

(** * The size query *)

(** Ranges end at multiples of 16, as the donated ones do. *)
Definition ends_aligned (l : list allocinfo_s) : Prop :=
  Forall (fun i => range_end i mod MALLOC_MIN_ALIGN = 0) l.

(** A multiple of 16 bytes fits a range with that much room. *)
Lemma room_fits i n :
  range_end i mod MALLOC_MIN_ALIGN = 0 -> n mod MALLOC_MIN_ALIGN = 0 -> n <= range_end i - alloc_end i ->
  fits_in i n MALLOC_MIN_ALIGN (range_end i - n).
Proof.
  intros He Hn Hr. split; [|lia]. unfold MALLOC_MIN_ALIGN in *. Z.div_mod_to_equations. lia.
Qed.

Lemma alloc_new_succeeds l size align r i p :
  zone_ok l -> is_align align -> 0 < size < 2 ^ 31 -> In i l -> fits_in i size align p ->
  exists q l', alloc_new l size align r = Some (q, l').
Proof.
  intros Hz Ha Hs Hi Hf. pose proof (alloc_new_correct l size align r Hz Ha Hs) as Hc.
  destruct (alloc_new l size align r) as [[q l']|]; [eauto|]. by destruct (Hc i p Hi).
Qed.

(** Room for [n] bytes and a tracking structure in one range is still room for
    the structure once [n] bytes are taken. *)
Lemma room_for_detail l n r q l' i :
  zone_ok l -> ends_aligned l -> n mod MALLOC_MIN_ALIGN = 0 -> 0 < n < 2 ^ 31 ->
  In i l -> n + 48 <= range_end i - alloc_end i ->
  alloc_new l n MALLOC_MIN_ALIGN r = Some (q, l') ->
  exists j p, In j l' /\ fits_in j sizeof_allocdetail MALLOC_MIN_ALIGN p.
Proof.
  intros Hz He Hn Hs Hi Hroom Hnew.
  pose proof (alloc_new_split l n MALLOC_MIN_ALIGN r Hz align_min Hs) as Hsp. rewrite Hnew in Hsp.
  destruct Hsp as (pre & k & post & -> & -> & Hf & Hmax & _).
  assert (forall j, range_end j mod MALLOC_MIN_ALIGN = 0 -> 48 <= range_end j - alloc_end j ->
            fits_in j sizeof_allocdetail MALLOC_MIN_ALIGN (range_end j - 48)) as Hdet.
  { intros j Hj Hr. destruct (room_fits j 48 Hj ltac:(done) Hr) as (H1 & H2 & H3).
    split; [done|]. unfold sizeof_allocdetail. lia. }
  apply Forall_app in He as [Hpre He]. apply Forall_cons in He as [Hk Hpost].
  apply in_app_or in Hi as [Hi | [<- | Hi]].
  - exists i. eexists. split; [apply in_or_app; by left|]. apply Hdet; [|lia].
    by apply (proj1 (List.Forall_forall _ _) Hpre).
  - exists (set_range_end k q), (q - 48). split; [apply in_or_app; right; right; by left|].
    assert (q = range_end k - n) as ->.
    { pose proof (Hmax _ (room_fits k n Hk Hn ltac:(lia))). destruct Hf as (_ & _ & ?). lia. }
    apply (Hdet (set_range_end k (range_end k - n))); simpl; [|unfold alloc_end in *; simpl; lia].
    unfold MALLOC_MIN_ALIGN in *. Z.div_mod_to_equations. lia.
  - exists i. eexists. split; [apply in_or_app; right; right; by right|]. apply Hdet; [|lia].
    by apply (proj1 (List.Forall_forall _ _) Hpost).
Qed.

Section Query.
Context (R : regions).

Lemma detail_none h handle zt :
  zones_ok R h -> (alloc_new_detail h handle).1 = None -> is_tmp zt ->
  alloc_new (get h zt) sizeof_allocdetail MALLOC_MIN_ALIGN (InTemp DetailInfo) = None.
Proof.
  intros Hz Hnone Ht. unfold alloc_new_detail, alloc_new_in in Hnone.
  assert (forall z d l, alloc_new (get h z) sizeof_allocdetail MALLOC_MIN_ALIGN (InTemp DetailInfo)
            = Some (d, l) -> (d =? 0) = false) as Hd.
  { intros z d l Hn. apply Z.eqb_neq.
    pose proof (reserve_effect R h z _ _ _ _ _ Hz align_min detail_size Hn) as (_ & ? & _). lia. }
  destruct (alloc_new (get h ZoneTmpHigh) _ _ _) as [[d l]|] eqn:Hhi.
  - rewrite (Hd _ _ _ Hhi), (Hd _ _ _ Hhi) in Hnone. done.
  - rewrite Z.eqb_refl in Hnone.
    destruct (alloc_new (get h ZoneTmpLow) _ _ _) as [[d l]|] eqn:Hlo.
    + rewrite (Hd _ _ _ Hlo) in Hnone. done.
    + by destruct Ht as [-> | ->].
Qed.

Lemma tmp_space h z n :
  zones_ok R h -> is_tmp z -> 0 < n -> n <= malloc_getspace h z ->
  exists i, In i (get h z) /\ n + 48 <= range_end i - alloc_end i.
Proof.
  intros Hz Ht Hn Hsp. unfold malloc_getspace in Hsp.
  destruct (max_space_spec (get h z)) as [_ Hmax]. change (ALIGN sizeof_allocdetail MALLOC_MIN_ALIGN) with 48 in Hsp.
  assert (negb (bool_decide (z = ZoneTmpHigh)) && negb (bool_decide (z = ZoneTmpLow)) = false) as Hb
    by (by destruct Ht as [-> | ->]).
  rewrite Hb in Hsp. destruct (Z.leb_spec (max_space (get h z)) 48); [lia|].
  destruct Hmax as (i & Hi & Hs); [lia|]. exists i. split; [done|].
  rewrite <- info_space_ok by (by apply (zone_ok_info (get h z)); [apply Hz|]). rewrite Hs.
  assert (fits 32 (max_space (get h z))) as Hf by (rewrite <- Hs; apply wrap_fits; lia).
  rewrite wrap_small in Hsp by (unfold fits in *; lia). lia.
Qed.

Lemma query_honest h z n :
  heap_ok R h -> is_tmp z -> ends_aligned (get h z) ->
  0 < n < 2 ^ 31 -> n mod MALLOC_MIN_ALIGN = 0 -> n <= malloc_getspace h z ->
  (malloc_palloc h z n MALLOC_MIN_ALIGN).1 <> 0.
Proof.
  intros Hok Ht He Hn Hm Hsp. pose proof (proj1 Hok) as Hz. destruct (Hz z) as [Hzz _].
  destruct (tmp_space h z n Hz Ht ltac:(lia) Hsp) as (i & Hi & Hroom).
  assert (range_end i mod MALLOC_MIN_ALIGN = 0) as Hie by (by apply (proj1 (List.Forall_forall _ _) He)).
  destruct (alloc_new_succeeds (get h z) n MALLOC_MIN_ALIGN (InTemp DataInfo) i (range_end i - n))
    as (q & l' & Hq); [done|apply align_min|done|done|apply room_fits; [done|done|lia]|].
  pose proof (reserve_effect R h z _ _ _ _ _ Hz align_min Hn Hq) as (_ & Hq0 & _).
  pose proof (reserve_zones_ok R h z _ _ _ _ _ Hz align_min Hn Hq) as Hz1.
  unfold malloc_palloc, alloc_new_in. rewrite Hq.
  rewrite (proj2 (Z.eqb_neq n 0)), (proj2 (Z.eqb_neq q 0)) by lia.
  destruct (alloc_new_detail (put h z l') MALLOC_DEFAULT_HANDLE) as [[d|] h2] eqn:Hd; [simpl; lia|].
  exfalso. destruct (room_for_detail (get h z) n _ q l' i Hzz He Hm Hn Hi Hroom Hq) as (j & p & Hj & Hf).
  pose proof (detail_none (put h z l') MALLOC_DEFAULT_HANDLE z Hz1 ltac:(by rewrite Hd) Ht) as Hnone.
  rewrite get_put_same in Hnone.
  pose proof (alloc_new_correct l' sizeof_allocdetail MALLOC_MIN_ALIGN (InTemp DetailInfo)) as Hc.
  rewrite Hnone in Hc. apply (Hc ltac:(rewrite <- (get_put_same h z l'); apply Hz1) align_min detail_size j p Hj Hf).
Qed.

(** A PMM size query for temporary memory tells the truth: a request made
    next, for any nonzero number of paragraphs up to the size it returned, is
    served. *)
Lemma pmm_query_honest b query request :
  let flags := arg16 query 5 in
  heap_ok R (b_heap b) -> ends_aligned (get (b_heap b) (low_zone flags)) ->
  ends_aligned (get (b_heap b) (high_zone flags)) ->
  arg32 query 1 = 0 -> flags = 1 \/ flags = 2 -> arg16 request 5 = flags ->
  0 < arg32 request 1 * 16 < 2 ^ 31 ->
  arg32 request 1 * 16 <= (handle_pmm00 b query).1 ->
  (handle_pmm00 b request).1 <> 0.
Proof.
  cbv zeta. intros Hok Hlo Hhi Hq Hfl Hreq Hlen Hle.
  unfold handle_pmm00 in Hle. rewrite Hq in Hle. cbn [Z.eqb fst] in Hle.
  set (n := arg32 request 1 * 16) in *. unfold handle_pmm00. fold n.
  rewrite (proj2 (Z.eqb_neq (arg32 request 1) 0)) by lia.
  rewrite (wrap_small 32 n) by (unfold fits; lia).
  assert ((to_signed 32 n <=? 0) = false) as ->.
  { apply Z.leb_gt. unfold to_signed. rewrite wrap_small by (unfold fits; lia).
    destruct (Z.ltb_spec n (2 ^ (32 - 1))); lia. }
  assert (n mod MALLOC_MIN_ALIGN = 0) as Hmod by apply Z_mod_mult.
  rewrite Hreq. destruct Hfl as [Hf|Hf]; rewrite Hf in *.
  - pose proof (query_honest (b_heap b) ZoneTmpLow n Hok ltac:(by right) Hlo Hlen Hmod Hle) as Hne.
    unfold pmm_alloc. simpl. change (low_zone 1) with ZoneTmpLow. change (pmm_align 1 n) with MALLOC_MIN_ALIGN.
    destruct (malloc_palloc (b_heap b) ZoneTmpLow n MALLOC_MIN_ALIGN) as [data h].
    by destruct (_ && _).
  - pose proof (query_honest (b_heap b) ZoneTmpHigh n Hok ltac:(by left) Hhi Hlen Hmod Hle) as Hne.
    unfold pmm_alloc, pmm_high. simpl. change (high_zone 2) with ZoneTmpHigh.
    change (pmm_align 2 n) with MALLOC_MIN_ALIGN.
    destruct (malloc_palloc (b_heap b) ZoneTmpHigh n MALLOC_MIN_ALIGN) as [data h].
    rewrite andb_false_r. by destruct (_ && _).
Qed.

End Query.

(** ** On the heap CSMWrap donates *)

Definition sample_bios : bios := mkBios sample_heap e820_list_init.

(** Function 0, 16 paragraphs, handle 0x12345678, temporary memory above 1 MB. *)
Definition sample_request : list Z := [0; 16; 0; 0x5678; 0x1234; 2].

Lemma pmm_allocate_correct_witness :
  exists b', handle_pmm00 sample_bios sample_request = (0x7F3BFE70, b') /\
    heap_ok sample_R (b_heap b') /\
    forall a, 0x7F3BFE70 <= a < 0x7F3BFE70 + 256 -> sample_R ZoneTmpHigh a.
Proof.
  pose proof (pmm_allocate_correct sample_R (proj1 sample_heap_ok) sample_bios sample_request
                (proj2 sample_heap_ok) ltac:(discriminate)) as H.
  assert ((handle_pmm00 sample_bios sample_request).1 = 0x7F3BFE70) as Hp by (vm_compute; reflexivity).
  destruct (handle_pmm00 sample_bios sample_request) as [data b']. cbn [fst] in Hp. subst data.
  exists b'. split; [reflexivity|]. destruct H as (Hok & align & _ & _ & Hg). split; [exact Hok|].
  destruct Hg as (_ & zs & z & zs' & b1 & Hz & _ & Hg & _); [discriminate|].
  change (zones_of (arg16 sample_request 5)) with [ZoneTmpHigh] in Hz.
  destruct zs as [|? [|]]; [|discriminate|discriminate]. injection Hz as <- <-.
  intros a Ha. apply Hg. exact Ha.
Defined.

Lemma pmm_session_safe_witness :
  let b' := foldl (fun b args => (handle_pmm b args).2) sample_bios
              [sample_request; [7; 1; 2]; [2; 0xFE70; 0x7F3B]; [2; 0xFE70; 0x7F3B]] in
  heap_ok sample_R (b_heap b').
Proof.
  apply (pmm_session_safe sample_R (proj1 sample_heap_ok) sample_bios
           [sample_request; [7; 1; 2]; [2; 0xFE70; 0x7F3B]; [2; 0xFE70; 0x7F3B]]
           (proj2 sample_heap_ok)).
Defined.

Lemma sample_ends z : ends_aligned (get sample_heap z).
Proof. destruct z; apply (bool_decide_unpack _); vm_compute; exact I. Qed.

Lemma pmm_query_honest_witness :
  (handle_pmm00 sample_bios [0; 0; 0; 0; 0; 1]).1 = 0x57FD0 /\
  (handle_pmm00 sample_bios [0; 0x57FD; 0; 0xFFFF; 0xFFFF; 1]).1 <> 0.
Proof.
  split; [vm_compute; reflexivity|].
  apply (pmm_query_honest sample_R sample_bios [0; 0; 0; 0; 0; 1]
           [0; 0x57FD; 0; 0xFFFF; 0xFFFF; 1] (proj2 sample_heap_ok) (sample_ends _) (sample_ends _)).
  - reflexivity.
  - left. reflexivity.
  - reflexivity.
  - vm_compute. split; reflexivity.
  - vm_compute. discriminate.
Defined.

(** The length of a PMM request is multiplied by 16 in 32 bits: a request for
    0x10000001 paragraphs, more than 4 GB, is granted 16 bytes. *)
Lemma pmm_length_wraps :
  let huge := [0; 0x0001; 0x1000; 0xFFFF; 0xFFFF; 2] in
  arg32 huge 1 * 16 = 2 ^ 32 + 16 /\
  exists data b', handle_pmm00 sample_bios huge = (data, b') /\ data <> 0 /\
    exists d, In (InDetail d DataInfo, data, 16) (all_blocks (b_heap b')).
Proof.
  split; [vm_compute; reflexivity|].
  set (b' := (handle_pmm00 sample_bios [0; 0x0001; 0x1000; 0xFFFF; 0xFFFF; 2]).2).
  exists 0x7F3BFF60, b'. split; [|split; [discriminate|]].
  - assert (forall A B (x : A * B) y, x.1 = y -> x = (y, x.2)) as Hp by (intros A B [] y <-; done).
    apply Hp. vm_compute. reflexivity.
  - exists 0x7F3BFF30.
    assert ((InDetail 0x7F3BFF30 DataInfo, 0x7F3BFF60, 16) ∈ all_blocks (b_heap b')) as Hin
      by (apply (bool_decide_unpack _); vm_compute; exact I).
    exact (proj1 (list_elem_of_In _ _) Hin).
Qed.
