(* ===== verification/SeaRom.v ===== *)
(** The option ROM area 0xC0000-0xF0000 of SeaBIOS and the last step of the
    allocator's set-up ([seabios/src/malloc.c]: [rom_get_max], [rom_reserve],
    [rom_confirm], [malloc_init], [calcRamSize], and the E820 part of
    [malloc_prepboot]).

    Option ROMs grow up from 0xC0000 while low-memory allocations grow down
    from the top of the same area; the theorems show that they never meet. *)

From stdpp Require Import base numbers list gmap.
From Stdlib Require Import ZArith Lia.
From S2P Require Import Prelude E820 SeaE820 SeaZone SeaMalloc.

Import Array (low_map, e820_entries, entry_at).

Definition OPTION_ROM_ALIGN : Z := 2048.
Definition OPROM_HEADER_RESERVE : Z := 16.
Definition BUILD_ROM_START : Z := 0xC0000.
Definition BUILD_LOWRAM_END : Z := 0xA0000.
Definition PAGE_SIZE : Z := 4096.

(** The allocator and the two static variables; [RomBase] points to the lowest
    range of [ZoneLow]. *)
Record rom_state := mkRom {
  r_heap : heap;
  RomEnd : Z;
  RomBase : info_ref
}.

(** Writing [range_start] of a descriptor. *)
Fixpoint set_start (r : info_ref) (start : Z) (l : list allocinfo_s) : list allocinfo_s :=
  match l with
  | [] => []
  | i :: l' =>
    if decide (node i = r) then mkInfo r start (range_end i) (alloc_size i) :: l'
    else i :: set_start r start l'
  end.

Fixpoint find_ref (r : info_ref) (l : list allocinfo_s) : option allocinfo_s :=
  match l with
  | [] => None
  | i :: l' => if decide (node i = r) then Some i else find_ref r l'
  end.

Section Rom.
(** The linker symbols. *)
Context (zonelow_base final_varlow_start : Z).

Definition rom_base_end (s : rom_state) : Z :=
  match find_ref (RomBase s) (get (r_heap s) ZoneLow) with Some i => range_end i | None => 0 end.

Definition rom_get_max (s : rom_state) : Z :=
  ALIGN_DOWN (u32 (rom_base_end s - OPROM_HEADER_RESERVE)) OPTION_ROM_ALIGN.

Definition rom_get_last (s : rom_state) : Z := RomEnd s.

Definition rom_reserve (s : rom_state) (size : Z) : option Z * rom_state :=
  let newend := ALIGN (u32 (RomEnd s + size)) OPTION_ROM_ALIGN in
  if rom_get_max s <? newend then (None, s)
  else
    let newend' := if newend <? zonelow_base then zonelow_base else newend in
    let l := set_start (RomBase s) (u32 (newend' + OPROM_HEADER_RESERVE)) (get (r_heap s) ZoneLow) in
    (Some (RomEnd s), mkRom (put (r_heap s) ZoneLow l) (RomEnd s) (RomBase s)).

Definition rom_confirm (s : rom_state) (size : Z) : Z * rom_state :=
  let '(new, s1) := rom_reserve s size in
  match new with
  | None => (-1, s1)
  | Some _ =>
    (0, mkRom (r_heap s1) (ALIGN (u32 (RomEnd s1 + size)) OPTION_ROM_ALIGN) (RomBase s1))
  end.

(** [calcRamSize]: from the last entry down, the first one of memory below
    4 GB. *)
Fixpoint ram_size_from (k : nat) (m : low_map) : Z :=
  match k with
  | O => 0
  | S k' =>
    let en := entry_at m (Z.of_nat k') in
    let stop := e_end en in
    if (stop <=? 0xFFFFFFFF) && ((Type_ en =? E820_ACPI) || (Type_ en =? E820_RAM))
    then u32 stop else ram_size_from k' m
  end.

Definition calcRamSize (m : low_map) : Z :=
  let rs := ram_size_from (Z.to_nat (e820_entries m)) m in
  if 1024 * 1024 <=? rs then rs else 1024 * 1024.

(** [malloc_init]: the low and the F-segment zone; the value is the E820 memory
    size. *)
Definition malloc_init (h : heap) (zonefseg_start zonefseg_end : Z) (m : low_map) : option rom_state * Z :=
  let h1 := alloc_add h ZoneLow (u32 (zonelow_base + OPROM_HEADER_RESERVE)) final_varlow_start in
  let base := alloc_find_lowest (get h1 ZoneLow) in
  let h2 := alloc_add h1 ZoneFSeg zonefseg_start zonefseg_end in
  (match base with Some i => Some (mkRom h2 BUILD_ROM_START (node i)) | None => None end, calcRamSize m).

(** The E820 updates of [malloc_prepboot]: low memory above the base size is
    reserved, whole pages of unused permanent memory are given back. *)
Definition malloc_prepboot_e820 (h : heap) (mem_size_kb : Z) (m : low_map) : low_map :=
  let endlow := mem_size_kb * 1024 in
  let m1 := SeaE820.e820_add m endlow (u32 (BUILD_LOWRAM_END - endlow)) E820_RESERVED in
  match alloc_find_lowest (get h ZoneHigh) with
  | None => m1
  | Some i =>
    let giveback := ALIGN_DOWN (u32 (range_end i - range_start i)) PAGE_SIZE in
    SeaE820.e820_add m1 (range_start i) giveback E820_RAM
  end.

(** * The invariant of the area *)

(** The lowest range of [ZoneLow] is the free one at the bottom of the area,
    and starts above the last option ROM. *)
Definition rom_ok (s : rom_state) : Prop :=
  exists pre i, get (r_heap s) ZoneLow = pre ++ [i] /\ node i = RomBase s /\ alloc_size i = 0 /\
    absent (RomBase s) pre /\
    zonelow_base + OPROM_HEADER_RESERVE <= range_start i /\ range_end i <= final_varlow_start /\
    0 <= RomEnd s /\ RomEnd s + OPROM_HEADER_RESERVE <= range_start i.

(** [ZoneLow] owns the area from [zonelow_base] up to the variables. *)
Definition low_region (R : regions) : Prop :=
  0 <= zonelow_base /\
  forall a, zonelow_base + OPROM_HEADER_RESERVE <= a <= final_varlow_start -> R ZoneLow a.

Lemma set_start_app pre i start :
  absent (node i) pre ->
  set_start (node i) start (pre ++ [i]) = pre ++ [mkInfo (node i) start (range_end i) (alloc_size i)].
Proof.
  induction 1 as [|j pre Hj _ IH]; simpl; [by rewrite decide_True|].
  rewrite decide_False by done. by rewrite IH.
Qed.

Lemma find_ref_app pre i : absent (node i) pre -> find_ref (node i) (pre ++ [i]) = Some i.
Proof.
  induction 1 as [|j pre Hj _ IH]; simpl; [by rewrite decide_True|]. by rewrite decide_False.
Qed.
End Rom.

Lemma align_up x a : is_align a -> 0 <= x -> x + a <= 2 ^ 32 ->
  ALIGN (u32 x) a mod a = 0 /\ x <= ALIGN (u32 x) a < x + a.
Proof.
  intros Ha Hx Hf. pose proof (is_align_pos a Ha). unfold ALIGN.
  rewrite (wrap_small 32 x) by (unfold fits; lia).
  rewrite (wrap_small 32 (x + _)) by (unfold fits; lia).
  fold (ALIGN_DOWN (x + (a - 1)) a). rewrite align_down_spec by (done || unfold fits; lia).
  pose proof (Z.mod_pos_bound (x + (a - 1)) a ltac:(lia)). split; [|lia].
  rewrite Zminus_mod_idemp_r, Z.sub_diag. apply Z.mod_0_l. lia.
Qed.

Lemma rom_align : is_align OPTION_ROM_ALIGN.
Proof. exists 11. split; [lia|done]. Qed.

Lemma zone_ok_last pre i j :
  zone_ok (pre ++ [i]) -> info_ok j -> range_end j = range_end i -> alloc_size j = 0 ->
  zone_ok (pre ++ [j]).
Proof.
  intros Hz Hj He H0. induction pre as [|h pre IH]; simpl in *.
  - split; [done|]. split; [done|]. split; [|done]. intros ?. lia.
  - destruct Hz as (Hh & Hb & Hf & Hz). split; [done|]. rewrite Forall_app in Hb |- *.
    split; [|split; [|by apply IH]].
    + split; [apply Hb|]. constructor; [|done]. destruct Hb as [_ Hb%Forall_inv].
      unfold below in *. lia.
    + intros Hs. destruct (Hf Hs) as (k & l & Heq & Hk). destruct pre as [|k' pre]; simpl in *.
      * simplify_eq. exists j, []. split; [done|]. lia.
      * simplify_eq. by eexists _, _.
Qed.

(** The start of an empty range does not matter to the tracking structures. *)
Lemma refs_restart h h' r start start' rest :
  refs_ok h -> all_blocks h ≡ₚ (r, start, 0) :: rest -> all_blocks h' ≡ₚ (r, start', 0) :: rest ->
  handles h' = handles h -> refs_ok h'.
Proof.
  intros (Hn & Hnd & Hh) Hb1 Hb2 Hhd.
  assert (forall d, detail_at h d <-> detail_at h' d) as Hdet.
  { intros d. unfold detail_at. rewrite Hb1, Hb2. unfold sizeof_allocdetail. simpl.
    split; intros [?|?]; (congruence || auto). }
  assert (forall d, data_at h d -> data_at h' d) as Hdat.
  { intros d (st & n & Hin). unfold data_at. setoid_rewrite Hb2. rewrite Hb1 in Hin.
    destruct Hin as [Hin|Hin]; [|by exists st, n; right]. injection Hin as -> _ _.
    exists start', 0. by left. }
  split; [|split].
  - intros b Hb. rewrite Hb2 in Hb.
    assert (exists b', In b' (all_blocks h) /\ ref_of b = ref_of b') as (b' & Hb' & ->).
    { destruct Hb as [<-|Hb]; [exists (r, start, 0)|exists b]; rewrite Hb1; split; try done;
        [by left|by right]. }
    destruct (Hn b' Hb') as (d & k & He & Hd & Hda). exists d, k.
    split; [done|]. split; [by apply Hdet|by apply Hdat].
  - rewrite Hb2. rewrite Hb1 in Hnd. done.
  - intros d. rewrite Hhd, Hh. apply Hdet.
Qed.

(** Changing the start of the lowest range, which is empty of blocks. *)
Lemma heap_ok_restart R h pre i start :
  heap_ok R h -> get h ZoneLow = pre ++ [i] -> alloc_size i = 0 ->
  0 < start <= range_end i -> (forall a, start <= a <= range_end i -> R ZoneLow a) ->
  heap_ok R (put h ZoneLow (pre ++ [mkInfo (node i) start (range_end i) (alloc_size i)])).
Proof.
  intros [Hz Hr] Hl H0 Hs HR. destruct (Hz ZoneLow) as [Hzl HRl]. rewrite Hl in Hzl, HRl.
  set (j := mkInfo (node i) start (range_end i) (alloc_size i)).
  assert (info_ok j) as Hj.
  { pose proof (zone_ok_info _ i Hzl ltac:(apply in_elt)) as (_ & _ & _ & ?).
    unfold info_ok, alloc_end. simpl. lia. }
  split.
  - intros z. rewrite get_put. destruct (decide (ZoneLow = z)) as [<-|]; [|apply Hz].
    split; [by apply (zone_ok_last pre i)|]. intros k Hk.
    apply in_app_or in Hk as [Hk | [<- | []]].
    + apply HRl. apply in_or_app. by left.
    + simpl. split; [apply HR; lia|]. intros a Ha. apply HR. lia.
  - assert (forall k, blocks (pre ++ [k]) ≡ₚ block_of k :: blocks pre) as Hk.
    { intros k. unfold blocks. rewrite map_app. simpl. by rewrite Permutation_app_comm. }
    apply (refs_restart h _ (node i) (range_start i) start (all_blocks (put h ZoneLow pre)) Hr).
    + rewrite <- H0. apply (all_blocks_drop h ZoneLow pre (block_of i)). by rewrite Hl.
    + rewrite <- (put_put h ZoneLow pre), <- H0.
      apply (all_blocks_put (put h ZoneLow pre) ZoneLow (pre ++ [j]) (block_of j)).
      by rewrite get_put_same.
    + apply handles_put.
Qed.

Section Safe.
Context (zonelow_base final_varlow_start : Z).
Context (R : regions) (HR : low_region zonelow_base final_varlow_start R).

(** What a state of the area promises: the heap is well formed and nothing that
    [ZoneLow] owns, used or free, is below the end of the last option ROM. *)
Definition rom_safe (s : rom_state) : Prop :=
  heap_ok R (r_heap s) /\ rom_ok zonelow_base final_varlow_start s.

Lemma rom_safe_apart s a :
  rom_safe s -> a < RomEnd s -> ~ used (get (r_heap s) ZoneLow) a /\ ~ free (get (r_heap s) ZoneLow) a.
Proof.
  intros [[Hz _] (pre & i & Hl & _ & _ & _ & _ & _ & _ & He)] Ha.
  unfold OPROM_HEADER_RESERVE in *. destruct (Hz ZoneLow) as [Hzl _].
  assert (forall k, In k (get (r_heap s) ZoneLow) -> RomEnd s < range_start k) as Hk.
  { intros k Hin. rewrite Hl in Hin, Hzl.
    pose proof (zone_ok_info _ i Hzl ltac:(apply in_elt)) as (_ & ? & ? & _). unfold alloc_end in *.
    apply in_app_or in Hin as [Hin | [<- | []]]; [|lia].
    apply in_split in Hin as (p1 & p2 & ->). rewrite <- app_assoc in Hzl. simpl in Hzl.
    apply zone_disjoint in Hzl. lia. }
  split; intros (k & Hin & Hu); specialize (Hk k Hin);
    pose proof (zone_ok_info _ k Hzl Hin) as (_ & ? & _);
    unfold used_by, free_in, alloc_end in *; lia.
Qed.

Lemma rom_reserve_safe s size :
  rom_safe s -> 0 <= size -> RomEnd s + size + OPTION_ROM_ALIGN <= 2 ^ 32 ->
  let newend := ALIGN (u32 (RomEnd s + size)) OPTION_ROM_ALIGN in
  if rom_get_max s <? newend then rom_reserve zonelow_base s size = (None, s)
  else exists h', rom_reserve zonelow_base s size = (Some (RomEnd s), mkRom h' (RomEnd s) (RomBase s)) /\
    rom_safe (mkRom h' newend (RomBase s)).
Proof.
  intros [Hok (pre & i & Hl & Hn & H0 & Hab & Hzb & Hfv & Hre & He)] Hs Hb. cbv zeta.
  destruct (align_up (RomEnd s + size) OPTION_ROM_ALIGN rom_align ltac:(lia) Hb) as (_ & Hu).
  unfold rom_reserve. set (newend := ALIGN _ _) in *.
  destruct (Z.ltb_spec (rom_get_max s) newend) as [|Hmax]; [done|].
  unfold rom_get_max, rom_base_end in Hmax. rewrite Hl, <- Hn in Hmax. rewrite <- Hn in Hab.
  rewrite find_ref_app in Hmax by done.
  destruct HR as [Hzb0 HRl]. unfold OPROM_HEADER_RESERVE in *.
  pose proof (zone_ok_info _ i (proj1 (proj1 Hok ZoneLow)) ltac:(rewrite Hl; apply in_elt))
    as (_ & ? & ? & Hi32). unfold alloc_end in *.
  destruct (align_down_block (range_end i) 16 OPTION_ROM_ALIGN rom_align
              ltac:(unfold fits; lia) ltac:(lia)) as (_ & _ & Hd & _).
  set (top := if newend <? zonelow_base then zonelow_base else newend).
  assert (newend <= top /\ zonelow_base <= top /\ top + 16 <= range_end i) as (Ht1 & Ht2 & Ht3)
    by (subst top; destruct (Z.ltb_spec newend zonelow_base); lia).
  rewrite (wrap_small 32) by (unfold fits; lia). rewrite Hl, <- Hn, set_start_app by done.
  eexists. split; [done|]. split; simpl.
  - apply (heap_ok_restart R (r_heap s) pre i (top + 16)); try done; [lia|]. intros a Ha. apply HRl. lia.
  - exists pre, (mkInfo (node i) (top + 16) (range_end i) (alloc_size i)). simpl.
    unfold OPROM_HEADER_RESERVE. split_and!; try done; lia.
Qed.

(** Option ROMs and low-memory allocations share 0xC0000-0xF0000 and never
    overlap.  Confirming a ROM either fails and changes nothing, because it
    would reach into allocated memory, or moves the end of the ROMs up to a
    2 KB boundary past the image; in both cases everything [ZoneLow] owns, used
    or free, stays above that end, and the heap stays well formed. *)
Lemma rom_confirm_ok s size :
  rom_safe s -> 0 <= size -> RomEnd s + size + OPTION_ROM_ALIGN <= 2 ^ 32 ->
  let '(ret, s') := rom_confirm zonelow_base s size in
  rom_safe s' /\
  ((ret = -1 /\ s' = s /\ rom_get_max s < RomEnd s + size + OPTION_ROM_ALIGN) \/
   (ret = 0 /\ RomEnd s' mod OPTION_ROM_ALIGN = 0 /\
    RomEnd s + size <= RomEnd s' < RomEnd s + size + OPTION_ROM_ALIGN)) /\
  forall a, a < RomEnd s' ->
    ~ used (get (r_heap s') ZoneLow) a /\ ~ free (get (r_heap s') ZoneLow) a.
Proof.
  intros Hs Hsz Hb. pose proof (rom_reserve_safe s size Hs Hsz Hb) as Hr. cbv zeta in Hr.
  destruct Hs as [Hok Hrom].
  assert (0 <= RomEnd s) by (by destruct Hrom as (? & ? & _ & _ & _ & _ & _ & _ & ? & _)).
  destruct (align_up (RomEnd s + size) OPTION_ROM_ALIGN rom_align ltac:(lia) Hb) as (Hm & Hu).
  unfold rom_confirm. set (newend := ALIGN _ _) in *.
  destruct (Z.ltb_spec (rom_get_max s) newend) as [Hmax|Hmax].
  - rewrite Hr. split; [done|]. split; [left; split_and!; [done|done|lia]|].
    intros a Ha. by apply rom_safe_apart.
  - destruct Hr as (h' & -> & Hsafe). split; [done|]. split; [by right|].
    intros a Ha. by apply rom_safe_apart.
Qed.

End Safe.

(** * Set-up and memory size *)

Lemma ram_size_from_spec k m :
  let counts en := e_end en <= 0xFFFFFFFF /\ (Type_ en = E820_ACPI \/ Type_ en = E820_RAM) in
  let r := ram_size_from k m in
  (exists i, (i < k)%nat /\ counts (entry_at m (Z.of_nat i)) /\ r = e_end (entry_at m (Z.of_nat i)) /\
     forall j, (i < j < k)%nat -> ~ counts (entry_at m (Z.of_nat j))) \/
  (r = 0 /\ forall j, (j < k)%nat -> ~ counts (entry_at m (Z.of_nat j))).
Proof.
  cbv zeta. induction k as [|k IH]; simpl; [right; split; [done|lia]|].
  set (en := entry_at m (Z.of_nat k)).
  destruct (Z.leb_spec (e_end en) 0xFFFFFFFF) as [Hle|Hgt], (Z.eqb_spec (Type_ en) E820_ACPI),
    (Z.eqb_spec (Type_ en) E820_RAM); simpl.
  1-3: left; exists k; fold en; split; [lia|]; split; [split; [done|auto]|]; split;
    [apply wrap_small; pose proof (wrap_fits 64 (BaseAddr en + Length en) ltac:(lia)) as [? ?];
     unfold fits, e_end in *; lia|intros j Hj; exfalso; lia].
  all: destruct IH as [(i & Hi & Hc & Hr & Hno) | [Hr Hno]]; [left|right].
  all: try (exists i; split; [lia|]; split; [done|]; split; [done|]; intros j Hj;
    destruct (Nat.eq_dec j k) as [->|]; [fold en; intros [? [?|?]]; (done || lia)|apply Hno; lia]).
  all: split; [done|]; intros j Hj; destruct (Nat.eq_dec j k) as [->|];
    [fold en; intros [? [?|?]]; (done || lia)|apply Hno; lia].
Qed.

(** The memory size SeaBIOS reports is at least 1 MB and otherwise the end of
    the last RAM or ACPI entry below 4 GB of the map: no later entry of these
    types ends below 4 GB. *)
Lemma calcRamSize_spec m :
  0 <= e820_entries m ->
  let counts i := 0 <= i < e820_entries m /\ e_end (entry_at m i) <= 0xFFFFFFFF /\
    (Type_ (entry_at m i) = E820_ACPI \/ Type_ (entry_at m i) = E820_RAM) in
  (exists i, counts i /\ calcRamSize m = Z.max (e_end (entry_at m i)) (1024 * 1024) /\
     forall j, i < j -> ~ counts j) \/
  (calcRamSize m = 1024 * 1024 /\ forall j, ~ counts j).
Proof.
  intros Hn. cbv zeta. unfold calcRamSize.
  assert (forall r, (if 1024 * 1024 <=? r then r else 1024 * 1024) = Z.max r (1024 * 1024)) as ->.
  { intros r. destruct (Z.leb_spec (1024 * 1024) r); lia. }
  destruct (ram_size_from_spec (Z.to_nat (e820_entries m)) m) as [(i & Hi & Hc & -> & Hno) | [-> Hno]].
  - left. exists (Z.of_nat i). split; [split; [lia|done]|]. split; [done|].
    intros j Hj [Hr Hcj]. apply (Hno (Z.to_nat j)); [lia|]. by rewrite Z2Nat.id by lia.
  - right. split; [done|]. intros j [Hr Hcj]. apply (Hno (Z.to_nat j)); [lia|].
    by rewrite Z2Nat.id by lia.
Qed.

(** After [malloc_init] on a well-formed heap whose low zone is still empty,
    with the low area and the F segment as new memory, the option ROM area is
    safe: no ROM has been placed yet and everything [ZoneLow] owns is above
    0xC0000. *)
Lemma malloc_init_safe R h zonelow_base final_varlow_start zonefseg_start zonefseg_end m s size :
  let R1 := add_region R ZoneLow (zonelow_base + OPROM_HEADER_RESERVE) (final_varlow_start + 1) in
  let R2 := add_region R1 ZoneFSeg zonefseg_start zonefseg_end in
  regions_apart R -> heap_ok R h -> get h ZoneLow = [] ->
  BUILD_ROM_START <= zonelow_base -> zonelow_base + OPROM_HEADER_RESERVE < final_varlow_start ->
  fresh_region R (zonelow_base + OPROM_HEADER_RESERVE) (final_varlow_start + 1) ->
  fresh_region R1 zonefseg_start zonefseg_end ->
  malloc_init zonelow_base final_varlow_start h zonefseg_start zonefseg_end m = (Some s, size) ->
  rom_safe zonelow_base final_varlow_start R2 s /\ RomEnd s = BUILD_ROM_START.
Proof.
  cbv zeta. intros HR Hok Hempty Hzb Hfv F1 F2. unfold malloc_init.
  set (lo := zonelow_base + OPROM_HEADER_RESERVE) in *. unfold BUILD_ROM_START in *.
  assert (u32 lo = lo) as Hlo.
  { apply wrap_small. destruct F1 as (? & ? & _). unfold fits. lia. }
  rewrite Hlo. set (R1 := add_region R ZoneLow lo (final_varlow_start + 1)) in *.
  assert (fresh_region R lo final_varlow_start) as F1'.
  { destruct F1 as (? & ? & F). split; [lia|]. split; [lia|]. intros z a Ha. apply F. lia. }
  pose proof (alloc_add_ok R HR h ZoneLow lo final_varlow_start Hok F1') as Ok1.
  destruct (alloc_add_get R h ZoneLow lo final_varlow_start Hok F1' ZoneLow)
    as [Hget | (_ & d & Hget)]; [by intros [?|?]|..]; rewrite Hempty in Hget; rewrite Hget; simpl; [done|].
  set (h1 := alloc_add h ZoneLow lo final_varlow_start) in *.
  assert (heap_ok R1 h1) as Ok1'.
  { destruct Ok1 as [Hz Hr]. split; [|done]. intros z. destruct (Hz z) as [Hzz Hzr].
    split; [done|]. intros i Hi. destruct (Hzr i Hi) as [H1 H2]. unfold R1, add_region in *. split.
    - destruct H1 as [?|[? ?]]; [by left|right; split; [done|lia]].
    - intros a Ha. destruct (H2 a Ha) as [?|[? ?]]; [by left|right; split; [done|lia]]. }
  pose proof (add_region_apart R HR ZoneLow lo (final_varlow_start + 1) F1) as HR1.
  intros [= <- _]. split; [|done]. split; cbn [r_heap].
  - apply (alloc_add_ok R1 HR1 h1 ZoneFSeg zonefseg_start zonefseg_end Ok1' F2).
  - destruct (alloc_add_get R1 h1 ZoneFSeg zonefseg_start zonefseg_end Ok1' F2 ZoneLow)
      as [Hg2 | (? & _)]; [by intros [?|?]| |done].
    exists [], (mkInfo (InDetail d DataInfo) lo final_varlow_start 0).
    cbn [r_heap RomBase RomEnd]. rewrite Hg2.
    unfold lo, OPROM_HEADER_RESERVE, BUILD_ROM_START in *. cbn [node alloc_size range_start range_end].
    split_and!; try done; [constructor|lia..].
Qed.

Lemma lowest_some l : l <> [] -> exists i, alloc_find_lowest l = Some i.
Proof. induction l as [|i [|j l] IH]; intros Hl; [done|by exists i|]. cbn. by apply IH. Qed.

(** With room for two tracking structures it finds its range, and the low and
    F-segment zones get all of their memory. *)
Lemma malloc_init_total R h zonelow_base final_varlow_start zonefseg_start zonefseg_end m n :
  let lo := zonelow_base + OPROM_HEADER_RESERVE in
  regions_apart R -> heap_ok R h -> fresh_region R lo final_varlow_start ->
  fresh_region (add_region R ZoneLow lo final_varlow_start) zonefseg_start zonefseg_end ->
  120 <= n -> room (get h ZoneTmpHigh) n ->
  exists s size, malloc_init zonelow_base final_varlow_start h zonefseg_start zonefseg_end m = (Some s, size) /\
    forall C, manages h C -> manages (r_heap s)
      (add_region (add_region C ZoneLow lo final_varlow_start) ZoneFSeg zonefseg_start zonefseg_end).
Proof.
  cbv zeta. intros Ha Hok Hf Hf2 Hn Hr. unfold malloc_init. pose proof Hf as (H1 & H2 & _).
  rewrite (wrap_small 32 (_ + _)) by (unfold fits; lia).
  destruct (add_room R h ZoneLow _ _ n Hok Hf ltac:(lia) Hr) as [Hr2 Hne].
  pose proof (alloc_add_ok R Ha h ZoneLow _ _ Hok Hf) as Hok2.
  destruct (lowest_some _ (Hne ltac:(done))) as [i ->]. eexists _, _. split; [reflexivity|]. intros C HC.
  apply (add_manages _ _ ZoneFSeg _ _ (n - 60) Hok2 Hf2 ltac:(lia) _ Hr2).
  exact (add_manages R h ZoneLow _ _ n Hok Hf ltac:(lia) C Hr HC).
Qed.

Lemma calcRamSize_spec_witness : calcRamSize sea_sample_table = 1024 * 1024 \/
  exists i, calcRamSize sea_sample_table = Z.max (e_end (entry_at sea_sample_table i)) (1024 * 1024).
Proof.
  destruct (calcRamSize_spec sea_sample_table) as [(i & _ & Hi & _) | [Hi _]].
  - vm_compute. discriminate.
  - right. exists i. exact Hi.
  - left. exact Hi.
Defined.

(** ** A concrete area: 0xE0000 up to 0xEE000, with 16 KB of the F segment *)

Definition rom_R : regions :=
  add_region (add_region sample_R ZoneLow (0xE0000 + OPROM_HEADER_RESERVE) (0xEE000 + 1))
    ZoneFSeg 0xF0000 0xF4000.

Definition sample_rom : rom_state :=
  default (mkRom empty_heap 0 (InTemp DataInfo))
    (malloc_init 0xE0000 0xEE000 sample_heap 0xF0000 0xF4000 e820_list_init).1.

Lemma sample_low_fresh : fresh_region sample_R (0xE0000 + OPROM_HEADER_RESERVE) (0xEE000 + 1).
Proof.
  unfold fresh_region, sample_R, donated, OPROM_HEADER_RESERVE, BUILD_MIN_HIGHTABLE.
  split; [lia|]. split; [lia|]. intros [] a Ha; simpl; lia.
Qed.

Lemma sample_fseg_fresh :
  fresh_region (add_region sample_R ZoneLow (0xE0000 + OPROM_HEADER_RESERVE) (0xEE000 + 1)) 0xF0000 0xF4000.
Proof.
  unfold fresh_region, add_region, sample_R, donated, OPROM_HEADER_RESERVE, BUILD_MIN_HIGHTABLE.
  split; [lia|]. split; [lia|]. intros [] a Ha; simpl; intuition (discriminate || lia).
Qed.

Lemma sample_rom_safe :
  rom_safe 0xE0000 0xEE000 rom_R sample_rom /\ RomEnd sample_rom = BUILD_ROM_START.
Proof.
  apply (malloc_init_safe sample_R sample_heap 0xE0000 0xEE000 0xF0000 0xF4000 e820_list_init
           sample_rom (malloc_init 0xE0000 0xEE000 sample_heap 0xF0000 0xF4000 e820_list_init).2).
  - exact (proj1 sample_heap_ok).
  - exact (proj2 sample_heap_ok).
  - vm_compute. reflexivity.
  - vm_compute. discriminate.
  - vm_compute. reflexivity.
  - exact sample_low_fresh.
  - exact sample_fseg_fresh.
  - vm_compute. reflexivity.
Qed.

Lemma sample_low_region : low_region 0xE0000 0xEE000 rom_R.
Proof.
  split; [lia|]. intros a Ha. left. right. split; [done|]. unfold OPROM_HEADER_RESERVE in *. lia.
Qed.

Lemma rom_confirm_ok_witness :
  exists s', rom_confirm 0xE0000 sample_rom 0x9400 = (0, s') /\ RomEnd s' = 0xC9800 /\
    rom_safe 0xE0000 0xEE000 rom_R s'.
Proof.
  pose proof (rom_confirm_ok 0xE0000 0xEE000 rom_R sample_low_region sample_rom 0x9400
                (proj1 sample_rom_safe) ltac:(lia)
                ltac:(rewrite (proj2 sample_rom_safe); unfold BUILD_ROM_START, OPTION_ROM_ALIGN; lia)) as H.
  assert ((rom_confirm 0xE0000 sample_rom 0x9400).1 = 0) as H0 by (vm_compute; reflexivity).
  assert (RomEnd (rom_confirm 0xE0000 sample_rom 0x9400).2 = 0xC9800) as H1 by (vm_compute; reflexivity).
  destruct (rom_confirm 0xE0000 sample_rom 0x9400) as [ret s']. cbn [fst snd] in H0, H1. subst ret.
  exists s'. split; [reflexivity|]. split; [exact H1|]. exact (proj1 H).
Defined.
