(* ===== verification/OptionRom.v ===== *)
(** The search for a legacy video ROM in a PCI expansion ROM
    ([GetPciLegacyRom] of [src/video.c]).

    An expansion ROM is a chain of images, each with a header and a PCI data
    structure.  The function walks the chain and picks the PC-AT image of the
    display device.  The file has the walk as the source writes it, with the
    number of iterations as fuel, the theorem that bounds that number, what
    the answer is, and the one kind of image on which the walk never ends. *)

From stdpp Require Import base numbers list relations.
From Stdlib Require Import ZArith Lia.
From S2P Require Import Prelude Memory Machine Firmware.

Definition PCI_EXPANSION_ROM_HEADER_SIGNATURE : Z := 0xaa55.
Definition PCI_DATA_STRUCTURE_SIGNATURE : Z := 0x52494350.
Definition PCI_CODE_TYPE_PCAT_IMAGE : Z := 0.

(** [EFI_PCI_ROM_HEADER] is a union of pointers. *)
Definition sizeof_EFI_PCI_ROM_HEADER : Z := 8.
Definition sizeof_PCI_DATA_STRUCTURE : Z := 24.

(** [PCI_EXPANSION_ROM_HEADER] at [raw]. *)
Definition rom_signature (m : mem) (raw : Z) : Z := load16 m raw.
Definition PcirOffset (m : mem) (raw : Z) : Z := load16 m (raw + 24).

(** [PCI_3_0_DATA_STRUCTURE] at [pcir]. *)
Definition pcir_signature (m : mem) (pcir : Z) : Z := load32 m pcir.
Definition VendorId (m : mem) (pcir : Z) : Z := load16 m (pcir + 4).
Definition DeviceId (m : mem) (pcir : Z) : Z := load16 m (pcir + 6).
Definition DeviceListOffset (m : mem) (pcir : Z) : Z := load16 m (pcir + 8).
Definition Length (m : mem) (pcir : Z) : Z := load16 m (pcir + 10).
Definition Revision (m : mem) (pcir : Z) : Z := m (pcir + 12).
Definition ImageLength (m : mem) (pcir : Z) : Z := load16 m (pcir + 16).
Definition CodeType (m : mem) (pcir : Z) : Z := m (pcir + 20).
Definition Indicator (m : mem) (pcir : Z) : Z := m (pcir + 21).
Definition MaxRuntimeImageLength (m : mem) (pcir : Z) : Z := load16 m (pcir + 22).
Definition ConfigUtilityCodeHeaderOffset (m : mem) (pcir : Z) : Z := load16 m (pcir + 24).

Section Search.

(** The arguments that do not change while the ROM is walked. *)
Context (m : mem) (Csm16Revision vendor device Rom ImageSize : Z).

Definition pcir_of (raw : Z) : Z := raw + PcirOffset m raw.

(** The device list: scanned up to its zero terminator.  [None] when the fuel
    ends first. *)
Fixpoint device_list (fuel : nat) (list : Z) : option bool :=
  match fuel with
  | O => None
  | S fuel' =>
    let id := load16 m list in
    if id =? 0 then Some false
    else if id =? device then Some true
    else device_list fuel' (list + 2)
  end.

(** [Match] for the image whose data structure is at [pcir]. *)
Definition image_match (fuel : nat) (pcir : Z) : option bool :=
  if VendorId m pcir =? vendor then
    if DeviceId m pcir =? device then Some true
    else if (3 <=? Revision m pcir) && negb (DeviceListOffset m pcir =? 0) then
      device_list fuel (pcir + DeviceListOffset m pcir)
    else Some false
  else Some false.

(** The guards at the head of the loop body: the three [break]s before the
    image is looked at, and the loop condition. *)
Definition image_present (raw : Z) : bool :=
  (rom_signature m raw =? PCI_EXPANSION_ROM_HEADER_SIGNATURE) &&
  negb ((PcirOffset m raw =? 0) || negb (Z.land (PcirOffset m raw) 3 =? 0) ||
        (ImageSize <? u64 (raw - Rom + PcirOffset m raw + sizeof_PCI_DATA_STRUCTURE))) &&
  (pcir_signature m (pcir_of raw) =? PCI_DATA_STRUCTURE_SIGNATURE) &&
  negb (ImageSize <? u64 (raw - Rom + ImageLength m (pcir_of raw) * 512)).

(** What a matching image is, by the revisions of the CSM and of the image. *)
Inductive choice := Best | Backup.

Definition grade (pcir : Z) : choice :=
  if 0x0300 <=? Csm16Revision then (if 3 <=? Revision m pcir then Best else Backup)
  else (if 3 <=? Revision m pcir then Backup else Best).

(** One pass of the body on a present image: leave the loop with
    [(BestImage, BackupImage)], or go on with [BackupImage]. *)
Inductive pass := Stop (best backup : option Z) | Next (backup : option Z).

Definition image_pass (fuel : nat) (raw : Z) (backup : option Z) : option pass :=
  let pcir := pcir_of raw in
  let step backup :=
    if Z.land (Indicator m pcir) 0x80 =? 0x80 then Stop None backup else Next backup in
  if CodeType m pcir =? PCI_CODE_TYPE_PCAT_IMAGE then
    match image_match fuel pcir with
    | None => None
    | Some true =>
      match grade pcir with
      | Best => Some (Stop (Some raw) backup)
      | Backup => Some (step (Some raw))
      end
    | Some false => Some (step backup)
    end
  else Some (step backup).

(** The loop: [(BestImage, BackupImage)] at its end. *)
Fixpoint walk (fuel dfuel : nat) (raw : Z) (backup : option Z) : option (option Z * option Z) :=
  match fuel with
  | O => None
  | S fuel' =>
    if image_present raw then
      match image_pass dfuel raw backup with
      | None => None
      | Some (Stop best backup') => Some (best, backup')
      | Some (Next backup') => walk fuel' dfuel (raw + 512 * ImageLength m (pcir_of raw)) backup'
      end
    else Some (None, backup)
  end.

(** What the function returns through its pointers; the three optional
    outputs are the last fields. *)
Record rom_answer := mkAnswer {
  ans_Rom : Z;
  ans_ImageSize : Z;
  ans_MaxRuntimeImageLength : Z;
  ans_OpRomRevision : Z;
  ans_ConfigUtilityCodeHeader : Z
}.

Definition answer_of (best : Z) : rom_answer :=
  let pcir := pcir_of best in
  mkAnswer best (ImageLength m pcir * 512)
    (if Revision m pcir <? 3 then 0 else MaxRuntimeImageLength m pcir * 512)
    (if 0x1C <=? Length m pcir then Revision m pcir else 0)
    (if (Revision m pcir <? 3) || (ConfigUtilityCodeHeaderOffset m pcir =? 0) then 0
     else best + ConfigUtilityCodeHeaderOffset m pcir).

(** [GetPciLegacyRom]: the status and the outputs, or [None] while the loops
    have not ended. *)
Definition GetPciLegacyRom (fuel dfuel : nat) : option (Z * option rom_answer) :=
  if ImageSize <? sizeof_EFI_PCI_ROM_HEADER then Some (EFI_NOT_FOUND, None)
  else
    match walk fuel dfuel Rom None with
    | None => None
    | Some (Some best, _) => Some (EFI_SUCCESS, Some (answer_of best))
    | Some (None, Some backup) => Some (EFI_SUCCESS, Some (answer_of backup))
    | Some (None, None) => Some (EFI_NOT_FOUND, None)
    end.

(** * Reference definitions *)

(** The image at [raw] is followed by the one at [raw']. *)
Definition followed_by (raw raw' : Z) : Prop :=
  image_present raw = true /\ Z.land (Indicator m (pcir_of raw)) 0x80 <> 0x80 /\
  raw' = raw + 512 * ImageLength m (pcir_of raw).

(** The positions the walk can reach from one of them, and from the start. *)
Abbreviation reaches_from := (rtc followed_by).
Abbreviation reaches := (reaches_from Rom).

(** The device is in the zero-terminated list at [list]. *)
Definition in_device_list (list : Z) : Prop :=
  exists k : nat, load16 m (list + 2 * Z.of_nat k) = device /\
    forall j : nat, (j <= k)%nat -> load16 m (list + 2 * Z.of_nat j) <> 0.

(** The image at [raw] is a PC-AT image for the device. *)
Definition matches (raw : Z) : Prop :=
  let pcir := pcir_of raw in
  CodeType m pcir = PCI_CODE_TYPE_PCAT_IMAGE /\ VendorId m pcir = vendor /\
  (DeviceId m pcir = device \/
   3 <= Revision m pcir /\ DeviceListOffset m pcir <> 0 /\
   in_device_list (pcir + DeviceListOffset m pcir)).

(** Every device list that the walk reads is terminated within [n] entries. *)
Definition lists_end (n : nat) : Prop :=
  forall raw, reaches raw -> image_present raw = true -> DeviceListOffset m (pcir_of raw) <> 0 ->
    exists k : nat, (k < n)%nat /\
      load16 m (pcir_of raw + DeviceListOffset m (pcir_of raw) + 2 * Z.of_nat k) = 0.

(** Every image on the way has a length. *)
Definition lengths_positive : Prop :=
  forall raw, reaches raw -> image_present raw = true -> ImageLength m (pcir_of raw) <> 0.

Context (m_ok : mem_ok m) (size_range : fits 63 ImageSize).

Lemma load16_range a : 0 <= load16 m a < 65536.
Proof. pose proof (load_fits 2 m a m_ok) as H. exact H. Qed.

(** The guards keep the image inside the ROM. *)
Lemma present_inside raw :
  Rom <= raw <= Rom + ImageSize -> image_present raw = true ->
  raw + ImageLength m (pcir_of raw) * 512 <= Rom + ImageSize /\
  raw + PcirOffset m raw + sizeof_PCI_DATA_STRUCTURE <= Rom + ImageSize.
Proof.
  intros Hr H. unfold image_present in H. rewrite !andb_true_iff, !negb_true_iff, !orb_false_iff in H.
  destruct H as [[[_ [_ Ho]] _] Hl]. apply Z.ltb_ge in Ho, Hl.
  pose proof (load16_range (raw + 24)). pose proof (load16_range (pcir_of raw + 16)).
  unfold fits, sizeof_PCI_DATA_STRUCTURE, PcirOffset, ImageLength in *.
  rewrite wrap_small in Ho by (unfold fits; lia). rewrite wrap_small in Hl by (unfold fits; lia).
  lia.
Qed.

Lemma reaches_inside raw : 0 <= ImageSize -> reaches raw -> Rom <= raw <= Rom + ImageSize.
Proof.
  intros Hs. apply (rtc_ind_r (fun r => Rom <= r <= Rom + ImageSize)); [lia|].
  clear raw. intros raw raw' _ (Hp & _ & ->) IH. destruct (present_inside raw IH Hp) as [H _].
  pose proof (load16_range (pcir_of raw + 16)). unfold ImageLength in *. lia.
Qed.

Lemma device_list_spec fuel list b :
  device_list fuel list = Some b ->
  if b then in_device_list list
  else forall k : nat, load16 m (list + 2 * Z.of_nat k) = device -> device <> 0 ->
    exists j : nat, (j < k)%nat /\ load16 m (list + 2 * Z.of_nat j) = 0.
Proof.
  revert list. induction fuel as [|fuel IH]; intros list; [done|]. cbn [device_list].
  destruct (Z.eqb_spec (load16 m list) 0) as [H0|H0].
  { intros [= <-] k Hk Hd. exists 0%nat. rewrite Z.mul_0_r, Z.add_0_r. split; [|done].
    destruct k; [|lia]. rewrite Z.mul_0_r, Z.add_0_r in Hk. congruence. }
  destruct (Z.eqb_spec (load16 m list) device) as [Hd|Hd].
  { intros [= <-]. exists 0%nat. rewrite Z.mul_0_r, Z.add_0_r. split; [done|].
    intros j Hj. replace j with 0%nat by lia. by rewrite Z.mul_0_r, Z.add_0_r. }
  intros H. specialize (IH _ H). destruct b.
  - destruct IH as (k & Hk & Hall). exists (S k).
    replace (list + 2 * Z.of_nat (S k)) with (list + 2 + 2 * Z.of_nat k) by lia.
    split; [done|]. intros [|j] Hj; [by rewrite Z.mul_0_r, Z.add_0_r|].
    replace (list + 2 * Z.of_nat (S j)) with (list + 2 + 2 * Z.of_nat j) by lia. apply Hall. lia.
  - intros [|k] Hk Hd0; [rewrite Z.mul_0_r, Z.add_0_r in Hk; done|].
    replace (list + 2 * Z.of_nat (S k)) with (list + 2 + 2 * Z.of_nat k) in Hk by lia.
    destruct (IH k Hk Hd0) as (j & Hj & Hz). exists (S j). split; [lia|].
    by replace (list + 2 * Z.of_nat (S j)) with (list + 2 + 2 * Z.of_nat j) by lia.
Qed.

Lemma image_match_spec fuel raw b :
  CodeType m (pcir_of raw) = PCI_CODE_TYPE_PCAT_IMAGE -> device <> 0 ->
  image_match fuel (pcir_of raw) = Some b -> if b then matches raw else ~ matches raw.
Proof.
  intros Hc Hd. unfold image_match, matches.
  destruct (Z.eqb_spec (VendorId m (pcir_of raw)) vendor) as [Hv|Hv];
    [|intros [= <-] (_ & ? & _); done].
  destruct (Z.eqb_spec (DeviceId m (pcir_of raw)) device) as [Hi|Hi];
    [intros [= <-]; auto|].
  destruct (Z.leb_spec 3 (Revision m (pcir_of raw))) as [Hr|Hr]; cbn [andb];
    [|intros [= <-] (_ & _ & [?|[? _]]); [done|lia]].
  destruct (Z.eqb_spec (DeviceListOffset m (pcir_of raw)) 0) as [Ho|Ho]; cbn [negb];
    [intros [= <-] (_ & _ & [?|(_ & ? & _)]); done|].
  intros H. pose proof (device_list_spec _ _ _ H) as Hs. destruct b.
  - split; [done|]. split; [done|]. right. done.
  - intros (_ & _ & [?|(_ & _ & k & Hk & Hall)]); [done|].
    destruct (Hs k Hk Hd) as (j & Hj & Hz). exact (Hall j ltac:(lia) Hz).
Qed.

(** A terminated list is scanned to the end. *)
Lemma device_list_total fuel list k :
  (k < fuel)%nat -> load16 m (list + 2 * Z.of_nat k) = 0 -> exists b, device_list fuel list = Some b.
Proof.
  revert list k. induction fuel as [|fuel IH]; intros list k Hk Hz; [lia|]. cbn [device_list].
  destruct (load16 m list =? 0) eqn:E0; [by eexists|].
  destruct (load16 m list =? device); [by eexists|].
  destruct k as [|k]; [rewrite Z.mul_0_r, Z.add_0_r in Hz; apply Z.eqb_neq in E0; done|].
  apply (IH (list + 2) k); [lia|].
  by replace (list + 2 + 2 * Z.of_nat k) with (list + 2 * Z.of_nat (S k)) by lia.
Qed.

Lemma image_pass_total n raw backup :
  lists_end n -> reaches raw -> image_present raw = true ->
  exists p, image_pass n raw backup = Some p.
Proof.
  intros He Hr Hp. assert (exists b, image_match n (pcir_of raw) = Some b) as [b Hb].
  { unfold image_match. destruct (VendorId m (pcir_of raw) =? vendor); [|by eexists].
    destruct (DeviceId m (pcir_of raw) =? device); [by eexists|].
    destruct (3 <=? Revision m (pcir_of raw)); [|by eexists].
    destruct (Z.eqb_spec (DeviceListOffset m (pcir_of raw)) 0) as [Ho|Ho]; [by eexists|].
    destruct (He raw Hr Hp Ho) as (k & Hk & Hz). by apply (device_list_total n _ k). }
  unfold image_pass. rewrite Hb. repeat case_match; simplify_eq; by eexists.
Qed.

Lemma image_pass_next fuel raw backup backup' :
  image_pass fuel raw backup = Some (Next backup') ->
  Z.land (Indicator m (pcir_of raw)) 0x80 <> 0x80.
Proof.
  unfold image_pass. destruct (Z.eqb_spec (Z.land (Indicator m (pcir_of raw)) 128) 128) as [|H];
    repeat case_match; naive_solver.
Qed.

(** Enough fuel: the walk ends when every image on the way has a length. *)
Lemma walk_total n fuel raw backup :
  lists_end n -> lengths_positive -> reaches raw ->
  Rom + ImageSize - raw < 512 * Z.of_nat fuel ->
  exists r, walk fuel n raw backup = Some r.
Proof.
  intros He Hl. revert raw backup. induction fuel as [|fuel IH]; intros raw backup Hr Hf.
  { pose proof (reaches_inside raw (proj1 size_range) Hr). lia. }
  cbn [walk]. destruct (image_present raw) eqn:Hp; [|by eexists].
  destruct (image_pass_total n raw backup He Hr Hp) as [p Hpass]. rewrite Hpass.
  destruct p as [best backup'|backup']; [by eexists|].
  pose proof (Hl raw Hr Hp) as Hpos. pose proof (load16_range (pcir_of raw + 16)).
  apply IH; [|unfold ImageLength in *; lia].
  eapply rtc_r; [done|]. split; [done|]. split; [|done]. by eapply image_pass_next.
Qed.

(** An image of the ROM that the walk may choose. *)
Definition candidate (from raw : Z) : Prop :=
  reaches_from from raw /\ image_present raw = true /\ matches raw.

Lemma candidate_self raw : image_present raw = true -> matches raw -> candidate raw raw.
Proof. intros. split; [apply rtc_refl|done]. Qed.

Lemma candidate_next from from' raw :
  followed_by from from' -> candidate from' raw -> candidate from raw.
Proof. intros Hf [Hr Hc]. split; [by eapply rtc_l|done]. Qed.

(** A candidate is the image itself or one after it. *)
Lemma candidate_inv from raw :
  candidate from raw -> raw = from /\ image_present from = true /\ matches from \/
  exists from', followed_by from from' /\ candidate from' raw.
Proof.
  intros (Hr & Hp & Hm). apply rtc_inv in Hr as [<-|(from' & Hf & Hr)]; [by left|].
  right. exists from'. split; [done|]. by split.
Qed.

(** What a pass does with the image, by whether it matches. *)
Lemma image_pass_spec fuel raw backup p :
  device <> 0 -> image_pass fuel raw backup = Some p ->
  match p with
  | Stop (Some best) _ => best = raw /\ matches raw /\ grade (pcir_of raw) = Best
  | Stop None backup' =>
    Z.land (Indicator m (pcir_of raw)) 0x80 = 0x80 /\
    (backup' = Some raw /\ matches raw /\ grade (pcir_of raw) = Backup \/
     backup' = backup /\ ~ matches raw)
  | Next backup' =>
    Z.land (Indicator m (pcir_of raw)) 0x80 <> 0x80 /\
    (backup' = Some raw /\ matches raw /\ grade (pcir_of raw) = Backup \/
     backup' = backup /\ ~ matches raw)
  end.
Proof.
  intros Hd. unfold image_pass.
  destruct (Z.eqb_spec (CodeType m (pcir_of raw)) PCI_CODE_TYPE_PCAT_IMAGE) as [Hc|Hc].
  - destruct (image_match fuel (pcir_of raw)) as [b|] eqn:Hb; [|done].
    pose proof (image_match_spec fuel raw b Hc Hd Hb) as Hm.
    destruct (Z.eqb_spec (Z.land (Indicator m (pcir_of raw)) 128) 128) as [Hi|Hi];
      destruct b, (grade (pcir_of raw)) eqn:Hg; intros [= <-]; auto 6.
  - assert (~ matches raw) by (by intros [? _]).
    destruct (Z.eqb_spec (Z.land (Indicator m (pcir_of raw)) 128) 128) as [Hi|Hi];
      intros [= <-]; auto 6.
Qed.

(** What the walk from [raw] finds: a best image, or else no image from here
    on is graded best and the backup is the last match, if there is one. *)
Definition walk_result (raw : Z) (backup best : option Z) (backup' : option Z) : Prop :=
  match best with
  | Some b => candidate raw b /\ grade (pcir_of b) = Best
  | None =>
    (forall r, candidate raw r -> grade (pcir_of r) = Backup) /\
    match backup' with
    | Some b => candidate raw b \/ backup = Some b /\ forall r, ~ candidate raw r
    | None => backup = None /\ forall r, ~ candidate raw r
    end
  end.

(** The last image, or a position with none. *)
Lemma no_successor raw r :
  (image_present raw = false \/ Z.land (Indicator m (pcir_of raw)) 0x80 = 0x80) ->
  candidate raw r -> r = raw /\ image_present raw = true /\ matches raw.
Proof.
  intros H Hc. destruct (candidate_inv raw r Hc) as [?|(raw' & (Hp & Hi & _) & _)]; [done|].
  destruct H; congruence.
Qed.

Lemma walk_correct dfuel fuel raw backup best backup' :
  device <> 0 -> walk fuel dfuel raw backup = Some (best, backup') ->
  walk_result raw backup best backup'.
Proof.
  intros Hd. revert raw backup. induction fuel as [|fuel IH]; intros raw backup; [done|].
  cbn [walk]. destruct (image_present raw) eqn:Hp.
  2:{ intros [= <- <-]. assert (forall r, ~ candidate raw r) as Hno.
      { intros r Hc. destruct (no_successor raw r (or_introl Hp) Hc) as (_ & ? & _). congruence. }
      split; [by intros r ?%Hno|]. destruct backup; auto. }
  destruct (image_pass dfuel raw backup) as [p|] eqn:Hpass; [|done].
  pose proof (image_pass_spec _ _ _ _ Hd Hpass) as Hs. destruct p as [[b|] bk|bk].
  - intros [= <- <-]. destruct Hs as (-> & Hm & Hg). split; [by apply candidate_self|done].
  - intros [= <- <-]. destruct Hs as [Hi Hs].
    assert (Hself := fun r => no_successor raw r (or_intror Hi)).
    destruct Hs as [(-> & Hm & Hg)|(-> & Hm)].
    + split; [by intros r (-> & _)%Hself|]. left. by apply candidate_self.
    + assert (forall r, ~ candidate raw r) as Hno by (by intros r (_ & _ & ?)%Hself).
      split; [by intros r ?%Hno|]. destruct backup; auto.
  - intros Hw. destruct Hs as [Hi Hs]. apply IH in Hw.
    set (raw' := raw + 512 * ImageLength m (pcir_of raw)) in *.
    assert (Hf : followed_by raw raw') by done.
    assert (Hinv : forall r, candidate raw r -> r = raw /\ matches raw \/ candidate raw' r).
    { intros r [(-> & _ & ?)|(r' & (_ & _ & ->) & ?)]%candidate_inv; auto. }
    assert (Hup := fun r => candidate_next raw raw' r Hf).
    destruct best as [b|]; [destruct Hw; split; auto|]. destruct Hw as [Hb Hw].
    destruct Hs as [(-> & Hm & Hg)|(-> & Hm)].
    + split; [by intros r [[-> _]|?]%Hinv; auto|].
      destruct backup' as [b|]; [|by destruct Hw].
      left. destruct Hw as [?|[[= <-] _]]; [auto|by apply candidate_self].
    + split; [by intros r [[-> ?]|?]%Hinv; auto|].
      assert ((forall r, ~ candidate raw' r) -> forall r, ~ candidate raw r) as Hlift.
      { intros Hno r [[_ ?]|?]%Hinv; [done|by eapply Hno]. }
      destruct backup' as [b|]; [destruct Hw as [?|[? ?]]|destruct Hw]; auto.
Qed.

(** A pass answers with the image it is at, or keeps the backup it had. *)
Lemma image_pass_sources fuel raw backup p :
  image_pass fuel raw backup = Some p ->
  match p with Stop best _ => best = None \/ best = Some raw | Next _ => True end /\
  (match p with Stop _ bk | Next bk => bk end = backup \/
   match p with Stop _ bk | Next bk => bk end = Some raw).
Proof.
  unfold image_pass.
  destruct (CodeType m (pcir_of raw) =? PCI_CODE_TYPE_PCAT_IMAGE), (image_match fuel (pcir_of raw)) as [[]|],
    (grade (pcir_of raw)), (Z.land (Indicator m (pcir_of raw)) 128 =? 128); intros [= <-]; auto.
Qed.

(** Whatever the walk answers is an image it reached. *)
Lemma walk_reached dfuel fuel raw backup best backup' r :
  (forall b, backup = Some b -> reaches b /\ image_present b = true) -> reaches raw ->
  walk fuel dfuel raw backup = Some (best, backup') ->
  best = Some r \/ backup' = Some r -> reaches r /\ image_present r = true.
Proof.
  intros Hb Hr. revert raw backup Hb Hr. induction fuel as [|fuel IH]; intros raw backup Hb Hr; [done|].
  cbn [walk]. destruct (image_present raw) eqn:Hp.
  2:{ intros [= <- <-] [?|?]; [done|auto]. }
  destruct (image_pass dfuel raw backup) as [p|] eqn:Hpass; [|done].
  destruct (image_pass_sources _ _ _ _ Hpass) as [Hbest Hbk].
  assert (Hbk' : forall b, match p with Stop _ bk | Next bk => bk end = Some b ->
                   reaches b /\ image_present b = true).
  { intros b Hsome. destruct Hbk as [Heq|Heq]; rewrite Heq in Hsome; [auto|].
    by injection Hsome as <-. }
  destruct p as [bst bk|bk].
  - intros [= <- <-] [-> | ->]; [|auto]. destruct Hbest as [| [= ->]]; done.
  - intros Hw Ha. eapply IH; [exact Hbk'| |exact Hw|exact Ha].
    eapply rtc_r; [done|]. split; [done|]. split; [|done]. by eapply image_pass_next.
Qed.

(** The image the search returns lies inside the ROM. *)
Lemma legacy_rom_inside fuel n status a :
  GetPciLegacyRom fuel n = Some (status, Some a) ->
  status = EFI_SUCCESS /\ Rom <= ans_Rom a /\ ans_Rom a + ans_ImageSize a <= Rom + ImageSize.
Proof.
  unfold GetPciLegacyRom. destruct (ImageSize <? _); [done|].
  destruct (walk fuel n Rom None) as [[best bk]|] eqn:Hw; [|done].
  assert (Hin : forall r, best = Some r \/ bk = Some r ->
            Rom <= ans_Rom (answer_of r) /\
            ans_Rom (answer_of r) + ans_ImageSize (answer_of r) <= Rom + ImageSize).
  { intros r Ha. destruct (walk_reached n fuel Rom None best bk r) as [Hre Hp]; [done|apply rtc_refl|done|done|].
    pose proof (reaches_inside r (proj1 size_range) Hre) as Hb. split; [simpl; lia|].
    apply (present_inside r Hb Hp). }
  destruct best as [b|]; [|destruct bk as [b|]; [|done]]; intros [= <- <-]; split; auto.
Qed.

Lemma legacy_rom_none fuel n status :
  GetPciLegacyRom fuel n = Some (status, None) -> status = EFI_NOT_FOUND.
Proof. unfold GetPciLegacyRom. repeat case_match; congruence. Qed.

(** It returns when the chain is finite. *)
Lemma legacy_rom_total fuel n :
  lists_end n -> lengths_positive -> ImageSize < 512 * Z.of_nat fuel ->
  exists r, GetPciLegacyRom fuel n = Some r.
Proof.
  intros He Hl Hf. unfold GetPciLegacyRom. destruct (ImageSize <? _); [by eexists|].
  destruct (walk_total n fuel Rom None He Hl (rtc_refl _ _) ltac:(lia)) as [[best bk] ->].
  repeat case_match; by eexists.
Qed.

(** What the search finds. *)
Lemma legacy_rom_finds fuel n :
  device <> 0 -> lists_end n -> lengths_positive -> ImageSize < 512 * Z.of_nat fuel ->
  sizeof_EFI_PCI_ROM_HEADER <= ImageSize ->
  (exists raw, GetPciLegacyRom fuel n = Some (EFI_SUCCESS, Some (answer_of raw)) /\
     candidate Rom raw /\
     Rom <= raw /\ raw + ans_ImageSize (answer_of raw) <= Rom + ImageSize /\
     (grade (pcir_of raw) = Backup -> forall r, candidate Rom r -> grade (pcir_of r) = Backup)) \/
  (GetPciLegacyRom fuel n = Some (EFI_NOT_FOUND, None) /\ forall r, ~ candidate Rom r).
Proof.
  intros Hd He Hl Hf Hs. unfold GetPciLegacyRom.
  rewrite (proj2 (Z.ltb_ge _ _) Hs).
  destruct (walk_total n fuel Rom None He Hl (rtc_refl _ _) ltac:(lia)) as [[best bk] Hw].
  rewrite Hw. pose proof (walk_correct _ _ _ _ _ _ Hd Hw) as Hr.
  assert (Hin : forall raw, candidate Rom raw ->
            Rom <= raw /\ raw + ans_ImageSize (answer_of raw) <= Rom + ImageSize).
  { intros raw (Hre & Hp & _). pose proof (reaches_inside raw (proj1 size_range) Hre) as Hb.
    split; [lia|]. apply (present_inside raw Hb Hp). }
  destruct best as [b|].
  - destruct Hr as [Hc Hg]. left. exists b. destruct (Hin b Hc). repeat (split; [done|]). congruence.
  - destruct Hr as [Hg Hr]. destruct bk as [b|].
    + destruct Hr as [Hc|[? _]]; [|done]. left. exists b. destruct (Hin b Hc).
      repeat (split; [done|]). auto.
    + destruct Hr as [_ Hno]. right. done.
Qed.

(** C29: on a ROM whose images have a length and whose device lists end, the
    search returns; what it returns is a PC-AT image of the chain for the
    device, with all its bytes inside the ROM, and an image of the revision
    the CSM does not want only when the chain has no other; it reports
    not-found exactly when no image of the chain matches. *)
Theorem legacy_rom_correct fuel n :
  device <> 0 -> lists_end n -> lengths_positive -> ImageSize < 512 * Z.of_nat fuel ->
  sizeof_EFI_PCI_ROM_HEADER <= ImageSize ->
  (exists raw, GetPciLegacyRom fuel n = Some (EFI_SUCCESS, Some (answer_of raw)) /\
     candidate Rom raw /\
     Rom <= raw /\ raw + ans_ImageSize (answer_of raw) <= Rom + ImageSize /\
     (grade (pcir_of raw) = Backup -> forall r, candidate Rom r -> grade (pcir_of r) = Backup)) \/
  (GetPciLegacyRom fuel n = Some (EFI_NOT_FOUND, None) /\ forall r, ~ candidate Rom r).
Proof. apply legacy_rom_finds. Qed.

(** An image with a zero length that is not the last one and is not a
    PC-AT image keeps the walk where it is: the search never returns, however
    long it runs. *)
Lemma legacy_rom_zero_length_hangs fuel n :
  sizeof_EFI_PCI_ROM_HEADER <= ImageSize -> image_present Rom = true ->
  ImageLength m (pcir_of Rom) = 0 -> Z.land (Indicator m (pcir_of Rom)) 0x80 = 0 ->
  CodeType m (pcir_of Rom) <> PCI_CODE_TYPE_PCAT_IMAGE ->
  GetPciLegacyRom fuel n = None.
Proof.
  intros Hs Hp Hl Hi Hc. unfold GetPciLegacyRom. rewrite (proj2 (Z.ltb_ge _ _) Hs).
  assert (walk fuel n Rom None = None) as ->; [|done].
  induction fuel as [|fuel IH]; [done|]. cbn [walk]. rewrite Hp.
  unfold image_pass. rewrite (proj2 (Z.eqb_neq _ _) Hc), Hi. cbn -[walk].
  by rewrite Hl, Z.mul_0_r, Z.add_0_r.
Qed.

End Search.

(** * A ROM of one image *)

(** A header and a data structure (vendor 0x8086, device 0x1234) of a 512-byte
    image at 0x10000; the code type, length, indicator and revision vary. *)
Definition one_image (code length indicator revision : Z) : mem :=
  store8 (store8 (store16 (store8 (store16 (store16 (store32
    (store16 (store16 (fun _ => 0) 0x10000 0xaa55) 0x10018 0x1c)
    0x1001c 0x52494350) 0x10020 0x8086) 0x10022 0x1234) 0x10028 revision)
    0x1002c length) 0x10030 code) 0x10031 indicator.

Lemma one_image_ok code length indicator revision : mem_ok (one_image code length indicator revision).
Proof. unfold one_image. repeat first [apply store8_ok|apply store_ok]. intros a. unfold fits. lia. Qed.

Lemma legacy_rom_zero_length_hangs_witness :
  GetPciLegacyRom (one_image 3 0 0 0) 0x300 0x8086 0x1234 0x10000 512 1000 1000 = None.
Proof. apply legacy_rom_zero_length_hangs; vm_compute; congruence. Defined.

Lemma one_image_reaches raw :
  rtc (followed_by (one_image 0 1 0x80 3) 0x10000 512) 0x10000 raw -> raw = 0x10000.
Proof.
  intros [->|(r & (_ & Hi & _) & _)]%rtc_inv; [done|]. exfalso. apply Hi. vm_compute. reflexivity.
Qed.

Lemma legacy_rom_correct_witness :
  GetPciLegacyRom (one_image 0 1 0x80 3) 0x300 0x8086 0x1234 0x10000 512 2 1 =
    Some (EFI_SUCCESS, Some (mkAnswer 0x10000 512 0 0 0)).
Proof.
  destruct (legacy_rom_correct (one_image 0 1 0x80 3) 0x300 0x8086 0x1234 0x10000 512
    (one_image_ok _ _ _ _) ltac:(unfold fits; lia) 2 1) as [(raw & He & (Hr & _) & _)|[He _]].
  - lia.
  - intros raw ->%one_image_reaches _ Ho. exfalso. apply Ho. vm_compute. reflexivity.
  - intros raw ->%one_image_reaches _. vm_compute. congruence.
  - lia.
  - unfold sizeof_EFI_PCI_ROM_HEADER. lia.
  - rewrite He. apply one_image_reaches in Hr as ->. vm_compute. reflexivity.
  - vm_compute in He. congruence.
Defined.
