(* ===== verification/Video.v ===== *)
(** The display set-up of CSMWrap ([src/video.c]): finding the graphics output
    and its PCI function, routing the VGA ranges to it, and choosing the video
    BIOS.

    The firmware protocols are an interface ([VideoServices]); interface
    structures the code reads fields of are read from memory.  [priv->cb_fb]
    is a structure in memory, so that the coreboot table is built from what
    this file stores.  Theorems: which video BIOS is chosen, that the
    framebuffer record describes the mode the firmware set, and what is asked
    of the PCI bridge. *)

From stdpp Require Import base numbers list relations.
From Stdlib Require Import ZArith Lia.
From S2P Require Import Prelude Memory Coreboot Machine Firmware OptionRom.

Definition EFI_GRAPHICS_OUTPUT_PROTOCOL_GUID : list Z :=
  guid 0x9042a9de 0x23dc 0x4a38 [0x96; 0xfb; 0x7a; 0xde; 0xd0; 0x80; 0x51; 0x6a].
Definition EFI_DEVICE_PATH_PROTOCOL_GUID : list Z :=
  guid 0x09576e91 0x6d3f 0x11d2 [0x8e; 0x39; 0x00; 0xa0; 0xc9; 0x69; 0x72; 0x3b].
Definition EFI_PCI_IO_PROTOCOL_GUID : list Z :=
  guid 0x4cf5b200 0x68b8 0x4ca5 [0x9e; 0xec; 0xb2; 0x3e; 0x3f; 0x50; 0x02; 0x9a].

Definition EFI_PCI_IO_ATTRIBUTE_VGA_MEMORY : Z := 0x8.
Definition EFI_PCI_IO_ATTRIBUTE_VGA_IO : Z := 0x10.
Definition EFI_PCI_IO_ATTRIBUTE_VGA_IO_16 : Z := 0x40000.

Definition EFI_1_10_BOOT_SERVICES_REVISION : Z := 0x1000a.

(** [return -1] from a function that returns [EFI_STATUS]. *)
Definition MINUS_ONE : Z := u64 (-1).

(** [EFI_GRAPHICS_PIXEL_FORMAT]. *)
Inductive EFI_GRAPHICS_PIXEL_FORMAT :=
| PixelRedGreenBlueReserved8BitPerColor
| PixelBlueGreenRedReserved8BitPerColor
| PixelBitMask
| PixelBltOnly
| PixelFormatMax.

(** [EFI_GRAPHICS_OUTPUT_MODE_INFORMATION]; the version is not used. *)
Record mode_information := mkModeInfo {
  HorizontalResolution : Z;
  VerticalResolution : Z;
  PixelFormat : EFI_GRAPHICS_PIXEL_FORMAT;
  RedMask : Z;
  GreenMask : Z;
  BlueMask : Z;
  ReservedMask : Z;
  PixelsPerScanLine : Z
}.

(** The services the file calls.  [QueryMode] returns the record that [info]
    points at. *)
Class VideoServices (W : Type) := {
  LocateHandleBuffer : list Z -> M W (Z * (Z * list Z));  (* guid; status, buffer, handles *)
  HandleProtocol : Z -> list Z -> M W (Z * Z);            (* handle, guid; status, interface *)
  LocateDevicePath : list Z -> Z -> M W (Z * Z);          (* guid, path; status, handle *)
  DisconnectController : Z -> M W Z;
  GetLocation : Z -> M W (Z * (Z * Z * Z * Z));           (* segment, bus, device, function *)
  PciRead : Z -> nat -> Z -> nat -> M W (Z * list Z);     (* width, offset, count; status, values *)
  AttributesSupported : Z -> M W (Z * Z);
  AttributesEnable : Z -> Z -> M W Z;
  QueryMode : Z -> Z -> M W (Z * mode_information)
}.

(** [struct csmwrap_priv]; [cb_fb] is the address of the member. *)
Record csmwrap_priv := mkPriv {
  csm_bin : Z;
  csm_efi_table : Z;
  csm_bin_base : Z;
  low_stub : Z;
  video_type : csmwrap_video_type;
  gop : Z;
  gop_handle : Z;
  vga_pci_io : Z;
  vga_pci_bus : Z;
  vga_pci_devfn : Z;
  cb_fb : Z
}.

(** The state: [priv], memory, and the two globals of the file. *)
Record video_state := mkVideo {
  v_priv : csmwrap_priv;
  v_mem : mem;
  vbios_loc : Z;
  vbios_size : Z
}.

Definition set_gop (g h : Z) (s : video_state) : video_state :=
  let p := v_priv s in
  mkVideo (mkPriv (csm_bin p) (csm_efi_table p) (csm_bin_base p) (low_stub p) (video_type p)
             g h (vga_pci_io p) (vga_pci_bus p) (vga_pci_devfn p) (cb_fb p))
    (v_mem s) (vbios_loc s) (vbios_size s).

Definition set_pci (io bus devfn : Z) (s : video_state) : video_state :=
  let p := v_priv s in
  mkVideo (mkPriv (csm_bin p) (csm_efi_table p) (csm_bin_base p) (low_stub p) (video_type p)
             (gop p) (gop_handle p) io bus devfn (cb_fb p))
    (v_mem s) (vbios_loc s) (vbios_size s).

(** [vbios_loc = ...; vbios_size = ...; priv->video_type = ...;]. *)
Definition set_vbios (loc size : Z) (t : csmwrap_video_type) (s : video_state) : video_state :=
  let p := v_priv s in
  mkVideo (mkPriv (csm_bin p) (csm_efi_table p) (csm_bin_base p) (low_stub p) t
             (gop p) (gop_handle p) (vga_pci_io p) (vga_pci_bus p) (vga_pci_devfn p) (cb_fb p))
    (v_mem s) loc size.

Definition set_mem (m : mem) (s : video_state) : video_state :=
  mkVideo (v_priv s) m (vbios_loc s) (vbios_size s).

(** [__builtin_ffs] and [__builtin_popcount] of an [unsigned int]. *)
Definition builtin_ffs (x : Z) : Z := if x =? 0 then 0 else ffs_from 32 0 x + 1.
Definition builtin_popcount (x : Z) : Z := count_bits 32 0 x.

(** The eight mask bytes of [cb_fb], in the order of the structure. *)
Definition put_masks (m : mem) (fb red_pos red_size green_pos green_size blue_pos blue_size
    reserved_pos reserved_size : Z) : mem :=
  let m := store8 m (fb + 29) red_pos in
  let m := store8 m (fb + 30) red_size in
  let m := store8 m (fb + 31) green_pos in
  let m := store8 m (fb + 32) green_size in
  let m := store8 m (fb + 33) blue_pos in
  let m := store8 m (fb + 34) blue_size in
  let m := store8 m (fb + 35) reserved_pos in
  store8 m (fb + 36) reserved_size.

(** The address, resolution, pitch and depth of [cb_fb]. *)
Definition put_geometry (m : mem) (fb address x y pitch bpp : Z) : mem :=
  let m := store64 m (fb + 8) address in
  let m := store32 m (fb + 16) x in
  let m := store32 m (fb + 20) y in
  let m := store32 m (fb + 24) (u32 pitch) in
  store8 m (fb + 28) bpp.

Section Video.
Context {W : Type} `{BootServices W} `{VideoServices W}.

(** The generated array [vgabios_bin]. *)
Context (vgabios_bin sizeof_vgabios_bin : Z).

(** ** [FindGopPciDevice] *)

(** The loop over the GOP handles: the first that answers.  [status] is what
    [Status] holds when the loop is entered. *)
Fixpoint first_gop (status : Z) (handles : list Z) : M W (Z * option (Z * Z)) :=
  match handles with
  | [] => mret (status, None)
  | h :: handles' =>
    '(status, g) ← HandleProtocol h EFI_GRAPHICS_OUTPUT_PROTOCOL_GUID;
    if EFI_ERROR status then first_gop status handles' else mret (status, Some (g, h))
  end.

(** From the device path of the GOP handle to its PCI function. *)
Definition locate_pci (handle : Z) (s : video_state) : M W (Z * video_state) :=
  '(status, io) ← HandleProtocol handle EFI_PCI_IO_PROTOCOL_GUID;
  if negb (EFI_ERROR status) then
    '(_, (_, bus, device, function)) ← GetLocation io;
    let s := set_pci io (u8 bus) (u8 (Z.lor (u64 (Z.shiftl device 3)) function)) s in
    '(_, _) ← PciRead io 2 0 1;
    '(status, _) ← PciRead io 2 2 1;
    mret (status, s)
  else mret (status, s).

(** [priv->gop] is null on entry, so it is null after the loop exactly when
    no handle answered with an interface. *)
Definition FindGopPciDevice (s : video_state) : M W (Z * video_state) :=
  '(status, (buffer, handles)) ← LocateHandleBuffer EFI_GRAPHICS_OUTPUT_PROTOCOL_GUID;
  if EFI_ERROR status then mret (status, s)
  else
    '(status, found) ← first_gop status handles;
    let '(g, h) := default (gop (v_priv s), gop_handle (v_priv s)) found in
    let s := set_gop g h s in
    if g =? 0 then FreePool buffer ;; mret (status, s)
    else
      '(status, path) ← HandleProtocol h EFI_DEVICE_PATH_PROTOCOL_GUID;
      FreePool buffer ;;
      if EFI_ERROR status then mret (status, s)
      else
        '(status, handle) ← LocateDevicePath EFI_PCI_IO_PROTOCOL_GUID path;
        if EFI_ERROR status then mret (status, s)
        else locate_pci handle s.

(** ** [csmwrap_pci_vgaarb] *)

(** The attributes to enable, from those the bridge supports; [None] for
    [unsupported]. *)
Definition vga_attributes (supported : Z) : option Z :=
  let both := Z.lor EFI_PCI_IO_ATTRIBUTE_VGA_IO EFI_PCI_IO_ATTRIBUTE_VGA_IO_16 in
  let attributes := Z.land supported both in
  if attributes =? 0 then None
  else
    let attributes := if attributes =? both then EFI_PCI_IO_ATTRIBUTE_VGA_IO else attributes in
    if Z.land supported EFI_PCI_IO_ATTRIBUTE_VGA_MEMORY =? 0 then None
    else Some (Z.lor attributes EFI_PCI_IO_ATTRIBUTE_VGA_MEMORY).

Definition csmwrap_pci_vgaarb (s : video_state) : M W Z :=
  let io := vga_pci_io (v_priv s) in
  if io =? 0 then mret MINUS_ONE
  else
    '(status, supported) ← AttributesSupported io;
    if EFI_ERROR status then mret status
    else
      match vga_attributes supported with
      | None => mret MINUS_ONE
      | Some attributes =>
        status ← AttributesEnable io attributes;
        if EFI_ERROR status then mret status else mret EFI_SUCCESS
      end.

(** ** [csmwrap_video_oprom_init] *)

Definition RomSize (m : mem) (io : Z) : Z := load64 m (io + 144).
Definition RomImage (m : mem) (io : Z) : Z := load64 m (io + 152).

(** The walk of the ROM is given [fuel] images and device lists of [dfuel]
    entries; [None] when they do not suffice. *)
Definition csmwrap_video_oprom_init (fuel dfuel : nat) (s : video_state)
  : M W (option (Z * video_state)) :=
  let io := vga_pci_io (v_priv s) in
  let m := v_mem s in
  if (io =? 0) || (RomImage m io =? 0) || (RomSize m io =? 0) then mret (Some (EFI_UNSUPPORTED, s))
  else
    '(_, header) ← PciRead io 4 0 16;
    let ids := nth 0 header 0 in
    match GetPciLegacyRom m 0x0300 (u16 ids) (u16 (Z.shiftr ids 16)) (RomImage m io) (RomSize m io)
            fuel dfuel with
    | None => mret None
    | Some (status, None) => mret (Some (status, s))
    | Some (status, Some a) =>
      mret (Some (EFI_SUCCESS, set_vbios (ans_Rom a) (ans_ImageSize a) CSMWRAP_VIDEO_OPROM s))
    end.

(** ** [csmwrap_video_seavgabios_init] *)

(** The [switch] on the pixel format: the mask bytes, or [None] for the
    [default] branch. *)
Definition mask_fields (m : mem) (fb : Z) (info : mode_information) : option mem :=
  match PixelFormat info with
  | PixelRedGreenBlueReserved8BitPerColor => Some (put_masks m fb 0 8 8 8 16 8 24 8)
  | PixelBlueGreenRedReserved8BitPerColor => Some (put_masks m fb 16 8 8 8 0 8 24 8)
  | PixelBitMask =>
    Some (put_masks m fb
      (builtin_ffs (RedMask info) - 1) (builtin_popcount (RedMask info))
      (builtin_ffs (GreenMask info) - 1) (builtin_popcount (GreenMask info))
      (builtin_ffs (BlueMask info) - 1) (builtin_popcount (BlueMask info))
      (builtin_ffs (ReservedMask info) - 1) (builtin_popcount (ReservedMask info)))
  | PixelBltOnly | PixelFormatMax => None
  end.

(** [gop->Mode], [Mode->Mode] and [Mode->FrameBufferBase]. *)
Definition gop_mode (m : mem) (g : Z) : Z := load64 m (g + 24).
Definition mode_number (m : mem) (mode : Z) : Z := load32 m (mode + 4).
Definition FrameBufferBase (m : mem) (mode : Z) : Z := load64 m (mode + 24).

Definition csmwrap_video_seavgabios_init (s : video_state) : M W (Z * video_state) :=
  let g := gop (v_priv s) in
  let fb := cb_fb (v_priv s) in
  if g =? 0 then mret (EFI_UNSUPPORTED, s)
  else
    let mode := gop_mode (v_mem s) g in
    let currentMode := if mode =? 0 then 0 else mode_number (v_mem s) mode in
    '(status, info) ← QueryMode g currentMode;
    if EFI_ERROR status then mret (MINUS_ONE, s)
    else
      let fb_addr := FrameBufferBase (v_mem s) mode in
      if fb_addr =? 0 then mret (EFI_UNSUPPORTED, s)
      else if 0xffffffff <? fb_addr then mret (EFI_UNSUPPORTED, s)
      else
        let m := put_geometry (v_mem s) fb fb_addr (HorizontalResolution info)
                   (VerticalResolution info) (PixelsPerScanLine info * 4) 32 in
        match mask_fields m fb info with
        | None => mret (EFI_UNSUPPORTED, set_mem m s)
        | Some m =>
          mret (EFI_SUCCESS,
                set_vbios vgabios_bin sizeof_vgabios_bin CSMWRAP_VIDEO_SEAVGABIOS (set_mem m s))
        end.

(** ** [csmwrap_video_fallback] *)

Definition csmwrap_video_fallback (s : video_state) : Z * video_state :=
  let fb := cb_fb (v_priv s) in
  let m := put_geometry (v_mem s) fb 0x000A0000 1024 768 (1024 * 4) 32 in
  let m := put_masks m fb 0 8 8 8 16 8 24 8 in
  (EFI_SUCCESS, set_vbios vgabios_bin sizeof_vgabios_bin CSMWRAP_VIDEO_FALLBACK (set_mem m s)).

(** ** [csmwrap_video_prepare_exitbs]

    [revision] and [has_disconnect] are the header of the boot services. *)
Definition csmwrap_video_prepare_exitbs (revision : Z) (has_disconnect : bool) (s : video_state)
  : M W Z :=
  if decide (video_type (v_priv s) = CSMWRAP_VIDEO_OPROM) then
    if gop_handle (v_priv s) =? 0 then mret EFI_UNSUPPORTED
    else if (revision <? EFI_1_10_BOOT_SERVICES_REVISION) && negb has_disconnect then
      mret EFI_UNSUPPORTED
    else
      status ← DisconnectController (gop_handle (v_priv s));
      if EFI_ERROR status then mret status else mret EFI_SUCCESS
  else mret EFI_SUCCESS.

(** ** [csmwrap_video_init] *)

Definition csmwrap_video_init (fuel dfuel : nat) (s : video_state) : M W (option (Z * video_state)) :=
  '(status, s) ← FindGopPciDevice s;
  if EFI_ERROR status && (gop (v_priv s) =? 0) then mret (Some (MINUS_ONE, s))
  else
    (if negb (vga_pci_io (v_priv s) =? 0) then csmwrap_pci_vgaarb s ;; mret () else mret ()) ;;
    if negb (vbios_loc s =? 0) then mret (Some (EFI_SUCCESS, s))
    else
      r ← csmwrap_video_oprom_init fuel dfuel s;
      match r with
      | None => mret None
      | Some (status, s) =>
        if status =? EFI_SUCCESS then mret (Some (EFI_SUCCESS, s))
        else
          '(status, s) ← csmwrap_video_seavgabios_init s;
          if status =? EFI_SUCCESS then mret (Some (EFI_SUCCESS, s))
          else
            let '(status, s) := csmwrap_video_fallback s in
            if status =? EFI_SUCCESS then mret (Some (EFI_SUCCESS, s))
            else mret (Some (EFI_UNSUPPORTED, s))
      end.

End Video.

(** * The attributes asked of the bridge *)

(** VGA arbitration asks the bridge only for what it supports: the legacy
    memory range together with exactly one of the two I/O decodings, the
    10-bit one when both are offered, and it gives up exactly when the memory
    range or both I/O decodings are missing. *)
Lemma vga_attributes_spec supported :
  let io := Z.testbit supported 4 in
  let io16 := Z.testbit supported 18 in
  let memory := Z.testbit supported 3 in
  vga_attributes supported =
    if memory && (io || io16) then
      Some (Z.lor (if io then EFI_PCI_IO_ATTRIBUTE_VGA_IO else EFI_PCI_IO_ATTRIBUTE_VGA_IO_16)
              EFI_PCI_IO_ATTRIBUTE_VGA_MEMORY)
    else None.
Proof.
  cbv zeta. unfold vga_attributes.
  assert (Hbit : forall k, 0 <= k -> Z.land supported (2 ^ k) = if Z.testbit supported k then 2 ^ k else 0).
  { intros k Hk. apply Z.bits_inj'. intros n Hn. rewrite Z.land_spec, Z.pow2_bits_eqb by done.
    destruct (Z.eqb_spec k n) as [<-|Hne].
    - destruct (Z.testbit supported k); [by rewrite Z.pow2_bits_true|by rewrite Z.bits_0].
    - rewrite andb_false_r. destruct (Z.testbit supported k); [|by rewrite Z.bits_0].
      by rewrite Z.pow2_bits_false. }
  rewrite Z.land_lor_distr_r.
  change EFI_PCI_IO_ATTRIBUTE_VGA_IO with (2 ^ 4). change EFI_PCI_IO_ATTRIBUTE_VGA_IO_16 with (2 ^ 18).
  change EFI_PCI_IO_ATTRIBUTE_VGA_MEMORY with (2 ^ 3). rewrite !Hbit by lia.
  by destruct (Z.testbit supported 3), (Z.testbit supported 4), (Z.testbit supported 18).
Qed.

(** * The framebuffer record *)

Lemma put_masks_ok m fb a b c d e f g h : mem_ok m -> mem_ok (put_masks m fb a b c d e f g h).
Proof. intros. unfold put_masks. by do 8 apply store8_ok. Qed.

Lemma put_geometry_ok m fb a x y p b : mem_ok m -> mem_ok (put_geometry m fb a x y p b).
Proof. intros. unfold put_geometry. apply store8_ok. by do 4 apply store_ok. Qed.

(** The record after both writes. *)
Lemma read_record m fb address x y pitch bpp rp rs gp gs bp bs vp vs :
  read_framebuffer (put_masks (put_geometry m fb address x y pitch bpp) fb rp rs gp gs bp bs vp vs) fb =
  mkFramebuffer (load32 m fb) (load32 m (fb + 4)) (u64 address) (u32 x) (u32 y) (u32 pitch) (u8 bpp)
    (u8 rp) (u8 rs) (u8 gp) (u8 gs) (u8 bp) (u8 bs) (u8 vp) (u8 vs).
Proof.
  unfold read_framebuffer, put_masks, put_geometry. f_equal; loads; try done.
  apply wrap_wrap.
Qed.

(** Neither write leaves the record. *)
Lemma record_frame m fb address x y pitch bpp rp rs gp gs bp bs vp vs a :
  a < fb \/ fb + sizeof_cb_framebuffer <= a ->
  put_masks (put_geometry m fb address x y pitch bpp) fb rp rs gp gs bp bs vp vs a = m a.
Proof. unfold sizeof_cb_framebuffer. intros Ha. unfold put_masks, put_geometry. by loads. Qed.

(** The colour masks of a mode, as the code prints them. *)
Definition printed_masks (info : mode_information) : Z * Z * Z :=
  match PixelFormat info with
  | PixelRedGreenBlueReserved8BitPerColor => (0xff, 0xff00, 0xff0000)
  | PixelBlueGreenRedReserved8BitPerColor => (0xff0000, 0xff00, 0xff)
  | PixelBitMask => (RedMask info, GreenMask info, BlueMask info)
  | PixelBltOnly | PixelFormatMax => (0, 0, 0)
  end.

(** A channel mask is one run of ones within the pixel. *)
Definition run_of_ones (mask : Z) : Prop :=
  exists pos size, 0 <= pos /\ 0 < size /\ pos + size <= 32 /\ mask = field_mask pos size.

Definition masks_ok (info : mode_information) : Prop :=
  let '(r, g, b) := printed_masks info in run_of_ones r /\ run_of_ones g /\ run_of_ones b.

(** Position and size of a run of ones give the mask back. *)
Lemma run_recovered mask :
  run_of_ones mask ->
  field_mask (u8 (builtin_ffs mask - 1)) (u8 (builtin_popcount mask)) = mask.
Proof.
  intros (pos & size & Hp & Hs & Hb & ->). unfold builtin_ffs, builtin_popcount.
  assert (field_mask pos size <> 0) as Hne.
  { intros Hz. pose proof (field_mask_testbit pos size pos Hp ltac:(lia) Hp) as Ht.
    rewrite Hz, Z.bits_0 in Ht. symmetry in Ht. apply andb_false_iff in Ht. lia. }
  rewrite (proj2 (Z.eqb_neq _ _) Hne), ffs_field, count_field by lia.
  rewrite !wrap_small by (unfold fits; lia). f_equal; lia.
Qed.

(** The record describes the mode: geometry, and each channel's mask. *)
Definition describes (r : cb_framebuffer) (address : Z) (info : mode_information) : Prop :=
  let '(red, green, blue) := printed_masks info in
  physical_address r = address /\
  x_resolution r = HorizontalResolution info /\ y_resolution r = VerticalResolution info /\
  bytes_per_line r = u32 (4 * PixelsPerScanLine info) /\ bits_per_pixel r = 32 /\
  field_mask (red_mask_pos r) (red_mask_size r) = red /\
  field_mask (green_mask_pos r) (green_mask_size r) = green /\
  field_mask (blue_mask_pos r) (blue_mask_size r) = blue.

Lemma mask_fields_describe m fb address info m' :
  fits 32 address -> fits 32 (HorizontalResolution info) -> fits 32 (VerticalResolution info) ->
  masks_ok info ->
  mask_fields (put_geometry m fb address (HorizontalResolution info) (VerticalResolution info)
                 (PixelsPerScanLine info * 4) 32) fb info = Some m' ->
  describes (read_framebuffer m' fb) address info /\
  (mem_ok m -> mem_ok m') /\
  forall a, a < fb \/ fb + sizeof_cb_framebuffer <= a -> m' a = m a.
Proof.
  intros Ha Hx Hy Hm. unfold masks_ok, mask_fields, describes, printed_masks in *.
  assert (Hpitch : u32 (PixelsPerScanLine info * 4) = u32 (4 * PixelsPerScanLine info))
    by (f_equal; lia).
  destruct (PixelFormat info); intros [= <-]; rewrite read_record;
    (split; [|split; [intros Hok; by apply put_masks_ok, put_geometry_ok
                     |intros a Hout; by apply record_frame]]); cbn;
    rewrite (wrap_small 64) by (apply (fits_mono 32); [lia|done]);
    rewrite !(wrap_small 32 (HorizontalResolution _)), !(wrap_small 32 (VerticalResolution _)) by done;
    rewrite Hpitch; repeat (split; [done|]).
  1, 2: repeat split; vm_compute; reflexivity.
  destruct Hm as (Hr & Hg & Hb). split; [|split]; by apply run_recovered.
Qed.

(** * The choice of a video BIOS *)

Section Choice.
Context {W : Type} `{BootServices W} `{VideoServices W}.
Context (vgabios_bin sizeof_vgabios_bin : Z).

(** Finding the device leaves everything but the device fields alone. *)
Definition keeps (s s' : video_state) : Prop :=
  v_mem s' = v_mem s /\ vbios_loc s' = vbios_loc s /\ vbios_size s' = vbios_size s /\
  video_type (v_priv s') = video_type (v_priv s) /\ cb_fb (v_priv s') = cb_fb (v_priv s).

Lemma locate_pci_keeps handle s w : keeps s (locate_pci handle s w).1.2.
Proof.
  unfold locate_pci. rewrite run_bind. destruct (HandleProtocol _ _ w) as [[status io] w1]. cbn [fst snd].
  destruct (negb _); [|done]. rewrite run_bind.
  destruct (GetLocation io w1) as [[? [[[? ?] ?] ?]] w2]. cbn [fst snd]. rewrite run_bind.
  destruct (PciRead io 2 0 1 w2) as [[? ?] w3]. cbn [fst snd]. rewrite run_bind.
  by destruct (PciRead io 2 2 1 w3) as [[? ?] w4].
Qed.

Lemma find_gop_keeps s w : keeps s (FindGopPciDevice s w).1.2.
Proof.
  unfold FindGopPciDevice. rewrite run_bind.
  destruct (LocateHandleBuffer _ w) as [[status [buffer handles]] w1]. cbn [fst snd].
  destruct (EFI_ERROR status); [done|]. rewrite run_bind.
  destruct (first_gop status handles w1) as [[status' found] w2]. cbn [fst snd].
  destruct (default _ found) as [g h]. destruct (g =? 0); rewrite run_bind; [done|].
  destruct (HandleProtocol _ _ w2) as [[st path] w3]. cbn [fst snd]. rewrite run_bind.
  destruct (EFI_ERROR st); [done|]. rewrite run_bind.
  destruct (LocateDevicePath _ _ _) as [[st' handle] w4]. cbn [fst snd].
  destruct (EFI_ERROR st'); [done|]. apply (locate_pci_keeps handle (set_gop g h s) w4).
Qed.

(** The ROM of a PCI function is a finite chain of images. *)
Definition rom_finite (m : mem) (fuel n : nat) (io : Z) : Prop :=
  fits 63 (RomSize m io) /\ RomSize m io < 512 * Z.of_nat fuel /\
  lists_end m (RomImage m io) (RomSize m io) n /\
  lengths_positive m (RomImage m io) (RomSize m io).

(** The ROM of the PCI function [io], identified by [ids], holds a PC-AT image
    for it at [raw]. *)
Definition offers (m : mem) (io ids raw : Z) : Prop :=
  io <> 0 /\ RomImage m io <> 0 /\ sizeof_EFI_PCI_ROM_HEADER <= RomSize m io /\
  candidate m (u16 ids) (u16 (Z.shiftr ids 16)) (RomImage m io) (RomSize m io) (RomImage m io) raw.

(** The identification of the display's function, as its configuration space
    answers it, and the machine after the question. *)
Definition has_rom (s : video_state) : bool :=
  let io := vga_pci_io (v_priv s) in
  negb ((io =? 0) || (RomImage (v_mem s) io =? 0) || (RomSize (v_mem s) io =? 0)).
Definition display_ids (s : video_state) (w : W) : Z :=
  nth 0 (PciRead (vga_pci_io (v_priv s)) 4 0 16 w).1.2 0.
Definition rom_asked (s : video_state) (w : W) : W :=
  if has_rom s then (PciRead (vga_pci_io (v_priv s)) 4 0 16 w).2 else w.

(** The option ROM is taken when it offers an image, and only then. *)
Definition rom_decides (s s' : video_state) (w : W) (taken : bool) : Prop :=
  let ids := display_ids s w in
  u16 (Z.shiftr ids 16) <> 0 ->
  if taken then offers (v_mem s) (vga_pci_io (v_priv s)) ids (vbios_loc s')
  else forall raw, ~ offers (v_mem s) (vga_pci_io (v_priv s)) ids raw.

Lemma oprom_init_spec fuel n s w :
  mem_ok (v_mem s) -> rom_finite (v_mem s) fuel n (vga_pci_io (v_priv s)) ->
  exists status s', csmwrap_video_oprom_init fuel n s w = (Some (status, s'), rom_asked s w) /\
    rom_decides s s' w (status =? EFI_SUCCESS) /\
    if status =? EFI_SUCCESS then
      video_type (v_priv s') = CSMWRAP_VIDEO_OPROM /\ v_mem s' = v_mem s /\
      RomImage (v_mem s) (vga_pci_io (v_priv s)) <= vbios_loc s' /\
      vbios_loc s' + vbios_size s' <=
        RomImage (v_mem s) (vga_pci_io (v_priv s)) + RomSize (v_mem s) (vga_pci_io (v_priv s)) /\
      vga_pci_io (v_priv s') = vga_pci_io (v_priv s) /\ cb_fb (v_priv s') = cb_fb (v_priv s) /\
      RomImage (v_mem s) (vga_pci_io (v_priv s)) <> 0
    else s' = s.
Proof.
  intros Hok (Hsize & Hf & He & Hl). unfold csmwrap_video_oprom_init, rom_asked, has_rom, rom_decides, offers.
  set (io := vga_pci_io (v_priv s)) in *. destruct (_ || _ || _) eqn:Hnone; cbn [negb].
  { exists EFI_UNSUPPORTED, s. split; [done|]. split; [|done]. intros _ raw (H1 & H2 & H3 & _).
    unfold sizeof_EFI_PCI_ROM_HEADER in H3.
    apply orb_true_iff in Hnone as [[?%Z.eqb_eq|?%Z.eqb_eq]%orb_true_iff|?%Z.eqb_eq]; lia. }
  apply orb_false_iff in Hnone as [[Hio%Z.eqb_neq Hrom%Z.eqb_neq]%orb_false_iff _].
  rewrite run_bind. unfold display_ids. fold io. destruct (PciRead io 4 0 16 w) as [[st header] w'].
  cbn [fst snd]. set (ids := nth 0 header 0).
  destruct (legacy_rom_total (v_mem s) 0x300 (u16 ids) (u16 (Z.shiftr ids 16))
    _ _ Hok Hsize fuel n He Hl Hf) as [[status answer] Hr].
  pose proof (legacy_rom_finds (v_mem s) 0x300 (u16 ids) (u16 (Z.shiftr ids 16))
    (RomImage (v_mem s) io) _ Hok Hsize fuel n) as Hfind. rewrite Hr in Hfind |- *.
  destruct answer as [a|].
  - destruct (legacy_rom_inside _ _ _ _ _ _ Hok Hsize _ _ _ _ Hr) as (_ & H1 & H2).
    eexists _, _. split; [reflexivity|]. simpl. split; [|by repeat split]. intros Hd.
    assert (Hs : sizeof_EFI_PCI_ROM_HEADER <= RomSize (v_mem s) io).
    { unfold GetPciLegacyRom in Hr. by destruct (Z.ltb_spec (RomSize (v_mem s) io) sizeof_EFI_PCI_ROM_HEADER). }
    do 3 (split; [done|]). destruct (Hfind Hd He Hl Hf Hs) as [(raw & [= _ ->] & Hc & _)|[? _]]; done.
  - pose proof (legacy_rom_none _ _ _ _ _ _ _ _ _ Hr) as ->. exists EFI_NOT_FOUND, s.
    split; [done|]. split; [|done]. intros Hd raw (_ & _ & Hs & Hc).
    destruct (Hfind Hd He Hl Hf Hs) as [(? & ? & _)|[_ Hno]]; [done|]. exact (Hno raw Hc).
Qed.

(** The modes the firmware reports are well formed. *)
Definition mode_ok (info : mode_information) : Prop :=
  fits 32 (HorizontalResolution info) /\ fits 32 (VerticalResolution info) /\
  (PixelFormat info <> PixelBltOnly -> PixelFormat info <> PixelFormatMax -> masks_ok info).

Context (modes_ok : forall g n w, mode_ok (QueryMode g n w).1.2).

(** The mode of the graphics output [g]: the answer of the firmware for the
    current mode number, and the base of the framebuffer. *)
Definition current_mode (m : mem) (g address : Z) (info : mode_information) : Prop :=
  let mode := gop_mode m g in
  let number := if mode =? 0 then 0 else mode_number m mode in
  address = FrameBufferBase m mode /\
  exists w status w', QueryMode g number w = ((status, info), w') /\ EFI_ERROR status = false.

(** [s'] uses the built-in SeaVGABIOS. *)
Definition built_in (s' : video_state) : Prop :=
  vbios_loc s' = vgabios_bin /\ vbios_size s' = sizeof_vgabios_bin.

(** [m'] is [m] but for the record at [fb], and is well formed. *)
Definition only_record (m m' : mem) (fb : Z) : Prop :=
  mem_ok m' /\ forall a, a < fb \/ fb + sizeof_cb_framebuffer <= a -> m' a = m a.

(** The firmware describes the current mode of [g], the framebuffer is below
    4 GiB and its pixels can be described. *)
Definition gop_usable (m : mem) (g : Z) (w : W) : Prop :=
  let mode := gop_mode m g in
  let answer := (QueryMode g (if mode =? 0 then 0 else mode_number m mode) w).1 in
  g <> 0 /\ EFI_ERROR answer.1 = false /\ 0 < FrameBufferBase m mode < 2 ^ 32 /\
  PixelFormat answer.2 <> PixelBltOnly /\ PixelFormat answer.2 <> PixelFormatMax.

Lemma seavgabios_init_spec s w :
  mem_ok (v_mem s) ->
  let '((status, s'), w') := csmwrap_video_seavgabios_init vgabios_bin sizeof_vgabios_bin s w in
  cb_fb (v_priv s') = cb_fb (v_priv s) /\
  only_record (v_mem s) (v_mem s') (cb_fb (v_priv s)) /\
  (status = EFI_SUCCESS -> video_type (v_priv s') = CSMWRAP_VIDEO_SEAVGABIOS /\ built_in s' /\
     exists address info, current_mode (v_mem s) (gop (v_priv s')) address info /\ 0 < address < 2 ^ 32 /\
       describes (read_framebuffer (v_mem s') (cb_fb (v_priv s))) address info).
Proof.
  intros Hok. unfold csmwrap_video_seavgabios_init.
  assert (Hsame : only_record (v_mem s) (v_mem s) (cb_fb (v_priv s))) by (split; done).
  destruct (gop (v_priv s) =? 0); [done|]. rewrite run_bind.
  set (mode := gop_mode _ _).
  match goal with |- context [QueryMode ?g ?n ?x] => pose proof (modes_ok g n x) as Hmode end.
  destruct (QueryMode _ _ w) as [[st info] w'] eqn:Hquery. cbn [fst snd] in *.
  destruct (EFI_ERROR st) eqn:Hst; [done|]. set (address := FrameBufferBase (v_mem s) mode).
  destruct (Z.eqb_spec address 0) as [|Hnz]; [done|].
  destruct (Z.ltb_spec 0xffffffff address) as [|Hlow]; [done|].
  pose proof (load_fits 8 (v_mem s) (mode + 24) Hok) as Hf64.
  change (load 8 (v_mem s) (mode + 24)) with address in Hf64.
  assert (Hfit : fits 32 address) by (unfold fits in *; lia).
  destruct Hmode as (Hx & Hy & Hm). cbv zeta.
  destruct (mask_fields _ _ info) as [m'|] eqn:Hfields.
  - assert (PixelFormat info <> PixelBltOnly /\ PixelFormat info <> PixelFormatMax) as [Hnb Hnm]
      by (unfold mask_fields in Hfields; by destruct (PixelFormat info)).
    destruct (mask_fields_describe _ _ _ _ _ Hfit Hx Hy (Hm Hnb Hnm) Hfields) as (Hd & Hmok & Hframe).
    cbn. split; [done|]. split; [by split; auto|]. intros _. split; [done|]. split; [done|].
    exists address, info. split; [|split; [unfold fits in *; lia|done]].
    split; [done|]. by exists w, st, w'.
  - cbn. split; [done|]. split; [|done]. split; [by apply put_geometry_ok|].
    unfold sizeof_cb_framebuffer. intros a Ha. unfold put_geometry. by loads.
Qed.

Lemma seavgabios_succeeds s w :
  mem_ok (v_mem s) ->
  (csmwrap_video_seavgabios_init vgabios_bin sizeof_vgabios_bin s w).1.1 = EFI_SUCCESS <->
  gop_usable (v_mem s) (gop (v_priv s)) w.
Proof.
  intros Hok. unfold csmwrap_video_seavgabios_init, gop_usable. set (mode := gop_mode _ _).
  destruct (Z.eqb_spec (gop (v_priv s)) 0) as [|Hg]; [by split; [|intros []]|]. rewrite run_bind.
  destruct (QueryMode _ _ w) as [[st info] w']. cbn [fst snd].
  destruct (EFI_ERROR st); [by split; [|intros (_ & ? & _)]|].
  pose proof (load_fits 8 (v_mem s) (mode + 24) Hok) as Hf.
  change (load 8 (v_mem s) (mode + 24)) with (FrameBufferBase (v_mem s) mode) in Hf. unfold fits in Hf.
  destruct (Z.eqb_spec (FrameBufferBase (v_mem s) mode) 0) as [|Hnz]; [split; [done|lia]|].
  destruct (Z.ltb_spec 0xffffffff (FrameBufferBase (v_mem s) mode)) as [|Hlow]; [split; [done|lia]|].
  unfold mask_fields. cbv zeta.
  by destruct (PixelFormat info); (split; [|intros (_ & _ & _ & ? & ?)]); repeat split; try lia.
Qed.

Lemma fallback_spec s :
  mem_ok (v_mem s) ->
  let s' := (csmwrap_video_fallback vgabios_bin sizeof_vgabios_bin s).2 in
  cb_fb (v_priv s') = cb_fb (v_priv s) /\
  only_record (v_mem s) (v_mem s') (cb_fb (v_priv s)) /\
  video_type (v_priv s') = CSMWRAP_VIDEO_FALLBACK /\ built_in s' /\
  physical_address (read_framebuffer (v_mem s') (cb_fb (v_priv s))) = 0xA0000.
Proof.
  intros Hok. unfold csmwrap_video_fallback, built_in, set_vbios, set_mem.
  cbn [fst snd v_priv v_mem cb_fb video_type vbios_loc vbios_size]. split; [done|]. split.
  - split; [by apply put_masks_ok, put_geometry_ok|]. intros a Ha. by apply record_frame.
  - split; [done|]. split; [done|]. by rewrite read_record.
Qed.

Lemma only_record_trans m1 m2 m3 fb :
  only_record m1 m2 fb -> only_record m2 m3 fb -> only_record m1 m3 fb.
Proof. intros [_ H1] [H2 H3]. split; [done|]. intros a Ha. by rewrite H3, H1. Qed.

(** What each outcome of the set-up leaves. *)
Definition chosen (s s' : video_state) : Prop :=
  let m := v_mem s in
  let fb := cb_fb (v_priv s) in
  cb_fb (v_priv s') = fb /\
  match video_type (v_priv s') with
  | CSMWRAP_VIDEO_NONE => False
  | CSMWRAP_VIDEO_OPROM =>
    let io := vga_pci_io (v_priv s') in
    v_mem s' = m /\ RomImage m io <> 0 /\ RomImage m io <= vbios_loc s' /\
    vbios_loc s' + vbios_size s' <= RomImage m io + RomSize m io
  | CSMWRAP_VIDEO_SEAVGABIOS =>
    built_in s' /\ only_record m (v_mem s') fb /\
    exists address info, current_mode m (gop (v_priv s')) address info /\ 0 < address < 2 ^ 32 /\
      describes (read_framebuffer (v_mem s') fb) address info
  | CSMWRAP_VIDEO_FALLBACK =>
    built_in s' /\ only_record m (v_mem s') fb /\
    physical_address (read_framebuffer (v_mem s') fb) = 0xA0000
  end.

(** When each outcome is chosen, by what the machine answers at [w]: the option
    ROM exactly when it offers an image, else SeaVGABIOS on the framebuffer
    exactly when the graphics output is usable, else the placeholder. *)
Definition decided (s s' : video_state) (w : W) : Prop :=
  rom_decides s s' w (bool_decide (video_type (v_priv s') = CSMWRAP_VIDEO_OPROM)) /\
  (video_type (v_priv s') = CSMWRAP_VIDEO_SEAVGABIOS <->
   video_type (v_priv s') <> CSMWRAP_VIDEO_OPROM /\
   gop_usable (v_mem s) (gop (v_priv s)) (rom_asked s w)).

(** The video BIOS that is chosen when the user gave none. *)
Lemma choice_spec fuel n s w :
  mem_ok (v_mem s) -> rom_finite (v_mem s) fuel n (vga_pci_io (v_priv s)) ->
  let run :=
    r ← csmwrap_video_oprom_init fuel n s;
    match r with
    | None => mret None
    | Some (status, s) =>
      if status =? EFI_SUCCESS then mret (Some (EFI_SUCCESS, s))
      else
        '(status, s) ← csmwrap_video_seavgabios_init vgabios_bin sizeof_vgabios_bin s;
        if status =? EFI_SUCCESS then mret (Some (EFI_SUCCESS, s))
        else
          let '(status, s) := csmwrap_video_fallback vgabios_bin sizeof_vgabios_bin s in
          if status =? EFI_SUCCESS then mret (Some (EFI_SUCCESS, s))
          else mret (Some (EFI_UNSUPPORTED, s))
    end : M W _ in
  exists s' w', run w = (Some (EFI_SUCCESS, s'), w') /\ chosen s s' /\ decided s s' w.
Proof.
  intros Hok Hrom. cbv zeta. destruct (oprom_init_spec fuel n s w Hok Hrom) as (st & s1 & Hrun & Hd & Ho).
  rewrite (run_step _ _ _ _ _ Hrun). destruct (st =? EFI_SUCCESS).
  { destruct Ho as (Ht & Hm & H1 & H2 & Hio & Hfb & Hnz). exists s1, (rom_asked s w). split; [done|].
    unfold chosen, decided. rewrite Ht, Hio. split; [done|]. split; [exact Hd|]. by split; [|intros []]. }
  subst s1. set (w1 := rom_asked s w) in *. pose proof (seavgabios_init_spec s w1 Hok) as Hs.
  pose proof (seavgabios_succeeds s w1 Hok) as Hiff.
  rewrite run_bind. destruct (csmwrap_video_seavgabios_init _ _ s w1) as [[st2 s2] w2]. cbn [fst snd] in *.
  destruct Hs as (Hfb & Hrec & Hs). destruct (Z.eqb_spec st2 EFI_SUCCESS) as [->|Hne].
  { destruct (Hs eq_refl) as (Ht & Hb & Hm). exists s2, w2. split; [done|]. unfold chosen, decided.
    rewrite Ht. split; [done|]. split; [exact Hd|]. by split; [split; [|apply Hiff]|]. }
  destruct (fallback_spec s2 (proj1 Hrec)) as (Hfb' & Hrec' & Ht & Hb & Ha).
  destruct (csmwrap_video_fallback _ _ s2) as [st3 s3] eqn:He. assert (st3 = EFI_SUCCESS) as -> by by injection He.
  cbn [fst snd] in *. exists s3, w2. split; [done|]. rewrite Hfb in *. unfold chosen, decided. rewrite Ht.
  split; [|split; [exact Hd|by split; [|intros [_ ?%Hiff]]]].
  split; [done|]. split; [done|]. split; [by eapply only_record_trans|done].
Qed.

(** The machine once the display's bridge decodes the VGA addresses. *)
Definition arbitrated (s : video_state) (w : W) : W :=
  if vga_pci_io (v_priv s) =? 0 then w else (csmwrap_pci_vgaarb s w).2.

(** The whole set-up. *)
Lemma init_spec fuel n s w :
  mem_ok (v_mem s) ->
  rom_finite (v_mem s) fuel n (vga_pci_io (v_priv (FindGopPciDevice s w).1.2)) ->
  exists status s' w',
    csmwrap_video_init vgabios_bin sizeof_vgabios_bin fuel n s w = (Some (status, s'), w') /\
    let '((found, s1), w1) := FindGopPciDevice s w in
    if EFI_ERROR found && (gop (v_priv s1) =? 0) then
      status = MINUS_ONE /\ gop (v_priv s') = 0 /\ keeps s s'
    else
      status = EFI_SUCCESS /\
      if vbios_loc s =? 0 then chosen s s' /\ decided s1 s' (arbitrated s1 w1) else keeps s s'.
Proof.
  intros Hok Hrom. unfold csmwrap_video_init. rewrite run_bind.
  pose proof (find_gop_keeps s w) as Hk. destruct (FindGopPciDevice s w) as [[st s1] w1].
  cbn [fst snd] in *. destruct Hk as (Hm & Hl & Hsz & Ht & Hfb).
  destruct (EFI_ERROR st && (gop (v_priv s1) =? 0)) eqn:Hfail.
  { apply andb_true_iff in Hfail as [_ Hg%Z.eqb_eq]. by exists MINUS_ONE, s1, w1. }
  rewrite run_bind. rewrite <- Hl.
  assert ((((if negb (vga_pci_io (v_priv s1) =? 0) then csmwrap_pci_vgaarb s1 ;; mret () else mret ())
    : M W unit) w1).2 = arbitrated s1 w1) as ->.
  { unfold arbitrated. destruct (vga_pci_io (v_priv s1) =? 0); cbn [negb]; [done|by rewrite run_bind]. }
  destruct (vbios_loc s1 =? 0); cbn [negb].
  - destruct (choice_spec fuel n s1 (arbitrated s1 w1)) as (s' & w' & Hrun & Hc & Hd);
      [by rewrite Hm|by rewrite Hm|].
    exists EFI_SUCCESS, s', w'. split; [exact Hrun|]. split; [done|]. split; [|exact Hd].
    unfold chosen in *. by rewrite <- Hm, <- Hfb.
  - by exists EFI_SUCCESS, s1, (arbitrated s1 w1).
Qed.

(** C30: the display set-up always returns, given well-formed modes and a finite
    option ROM chain.  It fails exactly when the search for a graphics output
    reports an error and found none.  A video BIOS the user supplied is kept.
    Otherwise, for a display whose device id is not 0, the option ROM is taken
    exactly when the display's function has a ROM that holds a PC-AT image for
    the function, and then the BIOS is such an image, inside the ROM.  If it is not
    taken, SeaVGABIOS on the framebuffer is taken exactly when the firmware
    describes the current mode, the base is not 0 and below 4 GiB and the
    pixel format can be described; the framebuffer record then describes that
    mode.  In every other case it is the built-in BIOS with the placeholder
    record at 0xA0000.  No byte of memory but the record is written. *)
Theorem video_init_chooses fuel n s w :
  mem_ok (v_mem s) ->
  rom_finite (v_mem s) fuel n (vga_pci_io (v_priv (FindGopPciDevice s w).1.2)) ->
  exists status s' w',
    csmwrap_video_init vgabios_bin sizeof_vgabios_bin fuel n s w = (Some (status, s'), w') /\
    let '((found, s1), w1) := FindGopPciDevice s w in
    if EFI_ERROR found && (gop (v_priv s1) =? 0) then
      status = MINUS_ONE /\ gop (v_priv s') = 0 /\ keeps s s'
    else
      status = EFI_SUCCESS /\
      if vbios_loc s =? 0 then chosen s s' /\ decided s1 s' (arbitrated s1 w1) else keeps s s'.
Proof. apply init_spec. Qed.

Lemma describes_table_entry r address info :
  describes r address info -> describes (as_table_entry r) address info.
Proof. done. Qed.

(** What SeaVGABIOS sees of the display is the mode the firmware set: when
    the set-up chooses the built-in video BIOS, the coreboot table that is
    then built is found by SeaBIOS and its framebuffer entry describes the
    current mode. *)
Lemma display_reaches_seavgabios fuel n s w :
  mem_ok (v_mem s) ->
  rom_finite (v_mem s) fuel n (vga_pci_io (v_priv (FindGopPciDevice s w).1.2)) ->
  0x540 <= cb_fb (v_priv s) -> vbios_loc s = 0 ->
  (forall k, 0 <= k < 80 -> load32 (v_mem s) (16 * k) <> CB_HEADER_SIGNATURE) ->
  exists status s' w',
    csmwrap_video_init vgabios_bin sizeof_vgabios_bin fuel n s w = (Some (status, s'), w') /\
    (status = EFI_SUCCESS -> video_type (v_priv s') = CSMWRAP_VIDEO_SEAVGABIOS ->
     let m' := build_coreboot_table (v_mem s') (video_type (v_priv s')) (cb_fb (v_priv s')) in
     find_cb_table m' = Some CB_TABLE_START /\
     find_cb_subtable m' CB_TABLE_START CB_TAG_FRAMEBUFFER = Some 0x518 /\
     exists address info, current_mode (v_mem s) (gop (v_priv s')) address info /\
       0 < address < 2 ^ 32 /\ describes (read_framebuffer m' 0x518) address info).
Proof.
  intros Hok Hrom Hfb Hv Hsig. destruct (init_spec fuel n s w Hok Hrom) as (st & s' & w' & Hrun & Hr).
  exists st, s', w'. split; [exact Hrun|]. intros -> Ht.
  destruct (FindGopPciDevice s w) as [[found s1] w1].
  destruct (_ && _) in Hr; [by destruct Hr|]. rewrite Hv in Hr. destruct Hr as [_ [[Hfb' Hr] _]].
  cbn in Hfb'. rewrite Ht in Hr |- *. destruct Hr as (_ & [Hok' Hframe] & address & info & Hc & Ha & Hd).
  rewrite Hfb'. destruct (table_found (v_mem s') (cb_fb (v_priv s)) Hok' Hfb CSMWRAP_VIDEO_SEAVGABIOS)
    as (H1 & H2 & H3); [done| |].
  { intros k Hk. rewrite (load_ext 4 _ (v_mem s)); [by apply Hsig|]. intros x Hx. apply Hframe. lia. }
  split; [exact H1|]. split; [exact H2|]. exists address, info. do 2 (split; [done|]).
  rewrite H3. by apply describes_table_entry.
Qed.

End Choice.

(** * A machine with a linear framebuffer *)

Definition demo_mode : mode_information :=
  mkModeInfo 1024 768 PixelBitMask 0xff0000 0xff00 0xff 0xff000000 1024.

(** One graphics output (interface 0x1000) on a PCI function without ROM. *)
#[local] Instance demo_boot : BootServices unit := {|
  Stall _ := mret ();
  AllocatePool _ := mret (EFI_OUT_OF_RESOURCES, 0);
  FreePool _ := mret ();
  GetTime := mret (EFI_UNSUPPORTED, mkTime 0 0 0 0 0 0 0)
|}.

#[local] Instance demo_video : VideoServices unit := {|
  LocateHandleBuffer _ := mret (EFI_SUCCESS, (0x100, [1]));
  HandleProtocol _ g :=
    mret (EFI_SUCCESS, if efi_guidcmp g EFI_GRAPHICS_OUTPUT_PROTOCOL_GUID =? 0 then 0x1000
                       else if efi_guidcmp g EFI_DEVICE_PATH_PROTOCOL_GUID =? 0 then 0x2000
                       else 0x3000);
  LocateDevicePath _ _ := mret (EFI_SUCCESS, 2);
  DisconnectController _ := mret EFI_SUCCESS;
  GetLocation _ := mret (EFI_SUCCESS, (0, 0, 2, 0));
  PciRead _ _ _ _ := mret (EFI_SUCCESS, [0x11111234]);
  AttributesSupported _ := mret (EFI_SUCCESS, 0x18);
  AttributesEnable _ _ := mret EFI_SUCCESS;
  QueryMode _ _ := mret (EFI_SUCCESS, demo_mode)
|}.

(** The mode structure at 0x1100 and the framebuffer at 0xE0000000. *)
Definition demo_mem : mem := store64 (store64 (fun _ => 0) 0x1018 0x1100) 0x1118 0xE0000000.

Definition demo_state : video_state :=
  mkVideo (mkPriv 0x400000 0x400010 0xE0000 0x20000 CSMWRAP_VIDEO_NONE 0 0 0 0 0 0x9000) demo_mem 0 0.

Lemma demo_mem_ok : mem_ok demo_mem.
Proof. unfold demo_mem. do 2 apply store_ok. intros a. unfold fits. lia. Qed.

Lemma demo_modes_ok : forall g n w, mode_ok (QueryMode g n w).1.2.
Proof.
  intros g n w. cbn. split; [unfold fits; cbn; lia|]. split; [unfold fits; cbn; lia|]. intros _.
  unfold masks_ok. cbn. repeat split; [exists 16, 8|exists 8, 8|exists 0, 8];
    (do 3 (split; [lia|]); vm_compute; reflexivity).
Qed.

Lemma demo_rom :
  rom_finite demo_mem 1 0 (vga_pci_io (v_priv (FindGopPciDevice demo_state ()).1.2)).
Proof.
  assert (vga_pci_io (v_priv (FindGopPciDevice demo_state ()).1.2) = 0x3000) as ->
    by (vm_compute; reflexivity).
  assert (RomSize demo_mem 0x3000 = 0 /\ RomImage demo_mem 0x3000 = 0) as [Hs Hi]
    by (split; vm_compute; reflexivity).
  unfold rom_finite. rewrite Hs, Hi. split; [unfold fits; lia|]. split; [lia|].
  assert (Hno : image_present demo_mem 0 0 0 = false) by (vm_compute; reflexivity).
  split; intros raw Hr Hp; exfalso;
    (apply rtc_inv in Hr as [<-|(r & (Hp' & _) & _)]; congruence).
Qed.

Lemma video_init_chooses_witness :
  exists s', csmwrap_video_init 0x500000 0x8000 1 0 demo_state () = (Some (EFI_SUCCESS, s'), ()) /\
    describes (read_framebuffer (v_mem s') 0x9000) 0xE0000000 demo_mode /\
    gop_usable demo_mem 0x1000 ().
Proof.
  destruct (video_init_chooses 0x500000 0x8000 demo_modes_ok 1 0 demo_state () demo_mem_ok demo_rom)
    as (st & s' & [] & Hrun & Hr).
  exists s'. assert (video_type (v_priv s') = CSMWRAP_VIDEO_SEAVGABIOS /\ st = EFI_SUCCESS /\
    describes (read_framebuffer (v_mem s') 0x9000) 0xE0000000 demo_mode) as (Ht & -> & Hd).
  { clear Hr. vm_compute in Hrun. injection Hrun as <- <-. vm_compute. by repeat split. }
  split; [done|]. split; [exact Hd|]. clear Hrun Hd.
  change (EFI_SUCCESS = EFI_SUCCESS /\ chosen 0x500000 0x8000 demo_state s' /\
    decided (FindGopPciDevice demo_state ()).1.2 s' ()) in Hr.
  destruct Hr as (_ & _ & _ & Hg). exact (proj2 (proj1 Hg Ht)).
Defined.

Lemma display_reaches_seavgabios_witness :
  exists s', csmwrap_video_init 0x500000 0x8000 1 0 demo_state () = (Some (EFI_SUCCESS, s'), ()) /\
    find_cb_table (build_coreboot_table (v_mem s') CSMWRAP_VIDEO_SEAVGABIOS 0x9000) = Some CB_TABLE_START.
Proof.
  destruct (display_reaches_seavgabios 0x500000 0x8000 demo_modes_ok 1 0 demo_state () demo_mem_ok demo_rom)
    as (st & s' & [] & Hrun & Hr).
  - vm_compute. congruence.
  - reflexivity.
  - intros k Hk. cbn [v_mem demo_state]. unfold demo_mem. loads. vm_compute. congruence.
  - exists s'. assert (st = EFI_SUCCESS /\ video_type (v_priv s') = CSMWRAP_VIDEO_SEAVGABIOS /\
      cb_fb (v_priv s') = 0x9000) as (-> & Ht & Hfb).
    { clear Hr. vm_compute in Hrun. injection Hrun as <- <-. by repeat split. }
    split; [done|]. destruct (Hr eq_refl Ht) as (H1 & _). rewrite Ht, Hfb in H1. exact H1.
Defined.
