(* ===== verification/Palette.v ===== *)
(** The palette tables CSMWrap keeps for the text-mode emulation
    ([src/cbvga_palette_emulator.c] and its header): 256 DAC entries of three
    6-bit channels, and the table of pixels computed from them. *)

From stdpp Require Import base numbers list.
From Stdlib Require Import ZArith Lia.
From S2P Require Import Prelude Memory.

(** [cbvga_palette] and [cbvga_palette_argb]. *)
Record palette_state := mkPalette {
  cbvga_palette : list (Z * Z * Z);
  cbvga_palette_argb : list Z
}.

Definition palette_start : palette_state := mkPalette (replicate 256 (0, 0, 0)) (replicate 256 0).

Definition argb (a r g b : Z) : Z :=
  Z.lor (Z.lor (Z.lor (u32 (Z.shiftl a 24)) (u32 (Z.shiftl r 16))) (u32 (Z.shiftl g 8))) b.

(** The body of the loop of [rebuild_argb_table], with the ARGB packing. *)
Definition rebuild_entry (dac : Z * Z * Z) : Z :=
  let '(r, g, b) := dac in
  let r8 := u8 (Z.shiftl r 2) in
  let g8 := u8 (Z.shiftl g 2) in
  let b8 := u8 (Z.shiftl b 2) in
  Z.lor (Z.lor (Z.lor (Z.shiftl 0xFF 24) (Z.shiftl r8 16)) (Z.shiftl g8 8)) b8.

Fixpoint rebuild_loop (k : nat) (i : nat) (palette : list (Z * Z * Z)) (table : list Z) : list Z :=
  match k with
  | O => table
  | S k' => rebuild_loop k' (S i) palette (<[i := rebuild_entry (nth i palette (0, 0, 0))]> table)
  end.

Definition rebuild_argb_table (s : palette_state) : palette_state :=
  mkPalette (cbvga_palette s) (rebuild_loop 256 0 (cbvga_palette s) (cbvga_palette_argb s)).

Definition default_vga16_6bit : list (Z * Z * Z) :=
  [(0, 0, 0); (0, 0, 42); (0, 42, 0); (0, 42, 42);
   (42, 0, 0); (42, 0, 42); (42, 21, 0); (42, 42, 42);
   (21, 21, 21); (21, 21, 63); (21, 63, 21); (21, 63, 63);
   (63, 21, 21); (63, 21, 63); (63, 63, 21); (63, 63, 63)].

(** The loop that copies [k] entries of the caller from index [i] on. *)
Fixpoint copy_entries (k i : nat) (m : mem) (p : Z) (palette : list (Z * Z * Z)) : list (Z * Z * Z) :=
  match k with
  | O => palette
  | S k' =>
    let q := p + Z.of_nat i * 3 in
    copy_entries k' (S i) m p (<[i := (m q, m (q + 1), m (q + 2))]> palette)
  end.

(** The loop that loads the default colours from index [i] on. *)
Fixpoint load_defaults (colours : list (Z * Z * Z)) (i : nat) (palette : list (Z * Z * Z))
  : list (Z * Z * Z) :=
  match colours with
  | [] => palette
  | c :: colours' => load_defaults colours' (S i) (<[i := c]> palette)
  end.

(** [entries] is a pointer into memory, null for the default palette. *)
Definition cbvga_palette_set_entries (m : mem) (entries count : Z) (s : palette_state) : palette_state :=
  let palette :=
    if (entries =? 0) || (count <=? 0) then load_defaults default_vga16_6bit 0 (replicate 256 (0, 0, 0))
    else
      let count := if 256 <? count then 256 else count in
      copy_entries (Z.to_nat count) 0 m entries (cbvga_palette s) in
  rebuild_argb_table (mkPalette palette (cbvga_palette_argb s)).

Definition cbvga_palette_lookup (s : palette_state) (idx : Z) : Z :=
  nth (Z.to_nat (Z.land idx 0xFF)) (cbvga_palette_argb s) 0.

(** The lines [cbvga_emul_dump_state] prints: index, DAC channels, pixel. *)
Definition cbvga_emul_dump_state (s : palette_state) : list (nat * (Z * Z * Z) * Z) :=
  (fun i => (i, nth i (cbvga_palette s) (0, 0, 0), nth i (cbvga_palette_argb s) 0)) <$> seq 0 16.

(** * Properties *)

Definition palette_ok (s : palette_state) : Prop :=
  length (cbvga_palette s) = 256%nat /\ length (cbvga_palette_argb s) = 256%nat.

Lemma rebuild_loop_length k i palette table :
  length (rebuild_loop k i palette table) = length table.
Proof.
  revert i table. induction k as [|k IH]; intros i table; [done|]. cbn [rebuild_loop].
  by rewrite IH, length_insert.
Qed.

Lemma rebuild_loop_nth k i palette table j :
  (i + k <= length table)%nat -> (j < length table)%nat ->
  nth j (rebuild_loop k i palette table) 0 =
    if (Nat.leb i j && Nat.ltb j (i + k))%bool then rebuild_entry (nth j palette (0, 0, 0)) else nth j table 0.
Proof.
  revert i table. induction k as [|k IH]; intros i table Hik Hj; cbn [rebuild_loop].
  - destruct (Nat.leb_spec i j), (Nat.ltb_spec j (i + 0)); simpl; done || lia.
  - rewrite IH by (rewrite length_insert; lia).
    destruct (decide (j = i)) as [->|Hne].
    + destruct (Nat.leb_spec (S i) i), (Nat.leb_spec i i), (Nat.ltb_spec i (i + S k)); simpl; try lia.
      rewrite !nth_lookup, list_lookup_insert_eq by lia. done.
    + rewrite !(nth_lookup _ _ 0), list_lookup_insert_ne by lia.
      destruct (Nat.leb_spec (S i) j), (Nat.leb_spec i j), (Nat.ltb_spec j (S i + k)),
        (Nat.ltb_spec j (i + S k)); simpl; done || lia.
Qed.

Lemma copy_entries_length k i m p palette : length (copy_entries k i m p palette) = length palette.
Proof.
  revert i palette. induction k as [|k IH]; intros i palette; [done|]. cbn [copy_entries].
  by rewrite IH, length_insert.
Qed.

Lemma copy_entries_nth k i m p palette j :
  (i + k <= length palette)%nat -> (j < length palette)%nat ->
  nth j (copy_entries k i m p palette) (0, 0, 0) =
    if (Nat.leb i j && Nat.ltb j (i + k))%bool then
      let q := p + Z.of_nat j * 3 in (m q, m (q + 1), m (q + 2))
    else nth j palette (0, 0, 0).
Proof.
  revert i palette. induction k as [|k IH]; intros i palette Hik Hj; cbn [copy_entries].
  - destruct (Nat.leb_spec i j), (Nat.ltb_spec j (i + 0)); simpl; done || lia.
  - rewrite IH by (rewrite length_insert; lia).
    destruct (decide (j = i)) as [->|Hne].
    + destruct (Nat.leb_spec (S i) i), (Nat.leb_spec i i), (Nat.ltb_spec i (i + S k)); simpl; try lia.
      rewrite nth_lookup, list_lookup_insert_eq by lia. done.
    + rewrite !(nth_lookup _ _ (0, 0, 0)), list_lookup_insert_ne by lia.
      destruct (Nat.leb_spec (S i) j), (Nat.leb_spec i j), (Nat.ltb_spec j (S i + k)),
        (Nat.ltb_spec j (i + S k)); simpl; done || lia.
Qed.

(** A 6-bit entry, as a pixel: each channel four times its DAC value. *)
Lemma rebuild_entry_scaled r g b :
  0 <= r < 64 -> 0 <= g < 64 -> 0 <= b < 64 ->
  rebuild_entry (r, g, b) = 0xFF000000 + 4 * r * 2 ^ 16 + 4 * g * 2 ^ 8 + 4 * b.
Proof.
  intros Hr Hg Hb. unfold rebuild_entry. rewrite !(Z.shiftl_mul_pow2 _ 2) by lia.
  rewrite !wrap_small by (unfold fits; lia).
  rewrite <- !Z.lor_assoc.
  rewrite (Z.lor_comm (Z.shiftl (g * 2 ^ 2) 8)), (Z.lor_comm (Z.shiftl (r * 2 ^ 2) 16)),
    (Z.lor_comm (Z.shiftl 255 24)).
  rewrite (lor_add_shift 8) by (unfold fits; lia).
  rewrite (lor_add_shift 16) by (unfold fits; lia).
  rewrite (lor_add_shift 24) by (unfold fits; lia). lia.
Qed.

Lemma set_entries_table m entries count s j :
  palette_ok s -> (j < 256)%nat ->
  let s' := cbvga_palette_set_entries m entries count s in
  palette_ok s' /\
  nth j (cbvga_palette_argb s') 0 = rebuild_entry (nth j (cbvga_palette s') (0, 0, 0)).
Proof.
  intros [Hp Ht] Hj. cbv zeta.
  assert (Hlen : length (cbvga_palette (cbvga_palette_set_entries m entries count s)) = 256%nat).
  { unfold cbvga_palette_set_entries. cbn [rebuild_argb_table cbvga_palette].
    destruct (_ || _); [vm_compute; reflexivity|by rewrite copy_entries_length]. }
  unfold cbvga_palette_set_entries in *. unfold palette_ok.
  cbn [rebuild_argb_table cbvga_palette cbvga_palette_argb] in *.
  split; [split; [done|by rewrite rebuild_loop_length]|].
  rewrite rebuild_loop_nth by lia.
  destruct (Nat.leb_spec 0 j), (Nat.ltb_spec j (0 + 256)); simpl; done || lia.
Qed.

(** After the palette is set, a lookup of any index, also a negative one
    or one past 255, is the pixel of the entry its low byte names, with every
    6-bit channel scaled by four and the alpha byte full; the first [count]
    entries (at most 256) are the caller's and the others are kept. *)
Lemma palette_lookup_set m entries count s idx :
  palette_ok s -> entries <> 0 -> 0 < count ->
  (forall a, entries <= a < entries + 768 -> 0 <= m a < 64) ->
  let s' := cbvga_palette_set_entries m entries count s in
  let i := idx mod 256 in
  palette_ok s' /\
  (if i <? count then
     cbvga_palette_lookup s' idx =
       0xFF000000 + 4 * m (entries + i * 3) * 2 ^ 16 + 4 * m (entries + i * 3 + 1) * 2 ^ 8 +
       4 * m (entries + i * 3 + 2)
   else cbvga_palette_lookup s' idx =
          rebuild_entry (nth (Z.to_nat i) (cbvga_palette s) (0, 0, 0))).
Proof.
  intros Hok He Hc Hm s' i.
  assert (Hi : 0 <= i < 256) by (apply Z.mod_pos_bound; lia).
  destruct (set_entries_table m entries count s (Z.to_nat i) Hok) as [Hok' Ht]; [lia|].
  fold s' in Hok', Ht. split; [done|].
  assert (Hl : cbvga_palette_lookup s' idx = nth (Z.to_nat i) (cbvga_palette_argb s') 0).
  { unfold cbvga_palette_lookup. rewrite land_255. unfold i. by rewrite <- pow2_8. }
  assert (Hn : nth (Z.to_nat i) (cbvga_palette s') (0, 0, 0) =
    if i <? count then (m (entries + i * 3), m (entries + i * 3 + 1), m (entries + i * 3 + 2))
    else nth (Z.to_nat i) (cbvga_palette s) (0, 0, 0)).
  { unfold s', cbvga_palette_set_entries. cbn [rebuild_argb_table cbvga_palette].
    rewrite (proj2 (Z.eqb_neq _ _) He). destruct (Z.leb_spec count 0); [lia|]. cbn [orb].
    destruct Hok as [Hp _]. set (k := Z.to_nat (if 256 <? count then 256 else count)).
    assert (Hk : Z.of_nat k = Z.min 256 count) by (subst k; destruct (Z.ltb_spec 256 count); lia).
    clearbody k. rewrite copy_entries_nth by (rewrite Hp; lia). rewrite Z2Nat.id by lia.
    destruct (Nat.leb_spec 0 (Z.to_nat i)), (Nat.ltb_spec (Z.to_nat i) (0 + k)),
      (Z.ltb_spec i count); cbn [andb];
      first [exfalso; lia|reflexivity]. }
  rewrite Hl, Ht, Hn. destruct (i <? count); [|done].
  apply rebuild_entry_scaled; apply Hm; lia.
Qed.

Lemma palette_lookup_set_witness :
  cbvga_palette_lookup (cbvga_palette_set_entries (fun a => a mod 64) 0x1000 4 palette_start) (-255) =
  0xFF000000 + 4 * 3 * 2 ^ 16 + 4 * 4 * 2 ^ 8 + 4 * 5.
Proof.
  destruct (palette_lookup_set (fun a => a mod 64) 0x1000 4 palette_start (-255)) as [_ H].
  - by split.
  - lia.
  - lia.
  - intros a _. apply Z.mod_pos_bound. lia.
  - cbn [Z.ltb] in H. change ((-255) mod 256) with 1 in H. exact H.
Defined.
