(* ===== verification/SeaString.v ===== *)
(** The string and memory operations of SeaBIOS ([seabios/src/string.c]), in
    32-bit flat mode, where a far pointer is the pointer.

    [memcpy] has a byte and a doubleword loop, [iomemcpy] copies in chunks and
    [memmove] picks a direction; the theorems show that each of them is the
    plain block copy, that the loops end, and what [strtcpy] leaves. *)

From stdpp Require Import base numbers list.
From Stdlib Require Import ZArith Lia.
From S2P Require Import Prelude Memory.

(** * Operations *)

(** [checksum]: the 8-bit sum of an area. *)
Fixpoint checksum_loop (k : nat) (i sum : Z) (m : mem) (buf : Z) : Z :=
  match k with
  | O => sum
  | S k' => checksum_loop k' (i + 1) (u8 (sum + m (buf + i))) m buf
  end.

Definition checksum (m : mem) (buf len : Z) : Z := checksum_loop (Z.to_nat (u32 len)) 0 0 m buf.

(** [strlen]; [None] when no terminator is met within the fuel. *)
Fixpoint strlen_loop (fuel : nat) (m : mem) (s p : Z) : option Z :=
  match fuel with
  | O => None
  | S fuel' => if m p =? 0 then Some (p - s) else strlen_loop fuel' m s (p + 1)
  end.

Definition strlen (fuel : nat) (m : mem) (s : Z) : option Z := strlen_loop fuel m s s.

Fixpoint memcmp (m : mem) (s1 s2 : Z) (n : nat) : Z :=
  match n with
  | O => 0
  | S n' =>
    if negb (m s1 =? m s2) then (if m s1 <? m s2 then -1 else 1) else memcmp m (s1 + 1) (s2 + 1) n'
  end.

(** [char] is signed. *)
Definition char_at (m : mem) (a : Z) : Z := to_signed 8 (m a).

Fixpoint strcmp (fuel : nat) (m : mem) (s1 s2 : Z) : option Z :=
  match fuel with
  | O => None
  | S fuel' =>
    if negb (char_at m s1 =? char_at m s2) then
      Some (if char_at m s1 <? char_at m s2 then -1 else 1)
    else if char_at m s1 =? 0 then Some 0
    else strcmp fuel' m (s1 + 1) (s2 + 1)
  end.

(** The loop [while (n)] of [memset], from the last byte down. *)
Fixpoint memset (m : mem) (s c : Z) (n : nat) : mem :=
  match n with
  | O => m
  | S n' => memset (store8 m (s + Z.of_nat n') c) s c n'
  end.

(** The string instructions [rep movsb] and [rep movsl]. *)
Fixpoint movsb (k : nat) (m : mem) (d s : Z) : mem :=
  match k with
  | O => m
  | S k' => movsb k' (store8 m d (m s)) (d + 1) (s + 1)
  end.

Fixpoint movsl (k : nat) (m : mem) (d s : Z) : mem :=
  match k with
  | O => m
  | S k' => movsl k' (store32 m d (load32 m s)) (d + 4) (s + 4)
  end.

Definition memcpy (m : mem) (d1 s1 len : Z) : mem :=
  if negb (Z.land (Z.lor (Z.lor (u32 d1) (u32 s1)) len) 3 =? 0) then movsb (Z.to_nat len) m d1 s1
  else movsl (Z.to_nat (len / 4)) m d1 s1.

(** [iomemcpy]: chunks of at most 2048 bytes, then the rest. *)
Fixpoint iomemcpy_loop (fuel : nat) (m : mem) (d s len : Z) : option (mem * Z * Z * Z) :=
  match fuel with
  | O => None
  | S fuel' =>
    if 3 <? len then
      let copylen := if 2048 <? len then 2048 else len in
      let copylen := copylen / 4 in
      let len := len - copylen * 4 in
      let m := movsl (Z.to_nat copylen) m d s in
      iomemcpy_loop fuel' m (d + copylen * 4) (s + copylen * 4) len
    else Some (m, d, s, len)
  end.

Definition iomemcpy (fuel : nat) (m : mem) (d s len : Z) : option mem :=
  match iomemcpy_loop fuel m d s len with
  | None => None
  | Some (m, d, s, len) => Some (if negb (len =? 0) then memcpy m d s len else m)
  end.

(** The backward loop of [memmove], from the last byte. *)
Fixpoint move_down (k : nat) (m : mem) (d s : Z) : mem :=
  match k with
  | O => m
  | S k' => move_down k' (store8 m d (m s)) (d - 1) (s - 1)
  end.

Definition memmove (m : mem) (d s len : Z) : mem :=
  if d <=? s then memcpy m d s len
  else move_down (Z.to_nat len) m (d + (len - 1)) (s + (len - 1)).

(** [strtcpy]: [while (--len && *src != 0) *d++ = *src++; *d = 0;] with a
    32-bit [len]; the recursion is on the characters left to copy. *)
Fixpoint strtcpy_loop (k : nat) (m : mem) (d src : Z) : mem * Z :=
  match k with
  | O => (m, d)
  | S k' => if m src =? 0 then (m, d) else strtcpy_loop k' (store8 m d (m src)) (d + 1) (src + 1)
  end.

Definition strtcpy (m : mem) (dest src len : Z) : mem :=
  let '(m, d) := strtcpy_loop (Z.to_nat (u32 (len - 1))) m dest src in
  store8 m d 0.

(** The outer option is the fuel, the inner one the null result. *)
Fixpoint strchr (fuel : nat) (m : mem) (s c : Z) : option (option Z) :=
  match fuel with
  | O => None
  | S fuel' =>
    if m s =? 0 then Some None
    else if char_at m s =? c then Some (Some s)
    else strchr fuel' m (s + 1) c
  end.

(** [nullTrailingSpace]: [k] characters are left before the start. *)
Fixpoint null_trailing (k : nat) (m : mem) (last : Z) : mem :=
  match k with
  | O => m
  | S k' => if char_at m last <=? 32 then null_trailing k' (store8 m last 0) (last - 1) else m
  end.

Fixpoint skip_blanks (fuel : nat) (m : mem) (buf : Z) : option Z :=
  match fuel with
  | O => None
  | S fuel' =>
    if negb (m buf =? 0) && (char_at m buf <=? 32) then skip_blanks fuel' m (buf + 1) else Some buf
  end.

Definition nullTrailingSpace (fuel : nat) (m : mem) (buf : Z) : option (mem * Z) :=
  match strlen fuel m buf with
  | None => None
  | Some len =>
    let m := null_trailing (Z.to_nat len) m (buf + len - 1) in
    match skip_blanks fuel m buf with None => None | Some p => Some (m, p) end
  end.

(** * Sums *)

(** The sum of the bytes, before it is cut to eight bits. *)
Definition byte_sum (m : mem) (a : Z) (n : nat) : Z := foldr Z.add 0 (load_bytes m a n).

Lemma byte_sum_app m a n1 n2 :
  byte_sum m a (n1 + n2) = byte_sum m a n1 + byte_sum m (a + Z.of_nat n1) n2.
Proof.
  unfold byte_sum. rewrite load_bytes_app. generalize (load_bytes m (a + Z.of_nat n1) n2) as l.
  induction (load_bytes m a n1) as [|b bs IH]; intros l; simpl; [lia|]. rewrite IH. lia.
Qed.

Lemma byte_sum_ext m m' a a' n :
  (forall i, 0 <= i < Z.of_nat n -> m (a + i) = m' (a' + i)) -> byte_sum m a n = byte_sum m' a' n.
Proof. intros H. unfold byte_sum. by rewrite (load_bytes_shift m m' a a' n H). Qed.

Lemma checksum_loop_spec k i sum m buf :
  fits 8 sum -> checksum_loop k i sum m buf = u8 (sum + byte_sum m (buf + i) k).
Proof.
  revert i sum. induction k as [|k IH]; intros i sum Hs; cbn [checksum_loop].
  - unfold byte_sum. cbn. rewrite Z.add_0_r. by rewrite wrap_small.
  - rewrite IH by (apply wrap_fits; lia). rewrite wrap_add_l. f_equal.
    change (S k) with (1 + k)%nat. rewrite byte_sum_app. unfold byte_sum at 2. cbn.
    replace (buf + i + Z.of_nat 1) with (buf + (i + 1)) by lia. lia.
Qed.

Lemma checksum_spec m buf len :
  fits 32 len -> checksum m buf len = u8 (byte_sum m buf (Z.to_nat len)).
Proof.
  intros H. unfold checksum. rewrite (wrap_small 32) by done.
  rewrite checksum_loop_spec by (unfold fits; lia). by rewrite !Z.add_0_r.
Qed.

(** * Copies *)

Definition block_copy := Libc.block_copy.

#[export] Instance movsb_proper k : Proper ((≡) ==> (=) ==> (=) ==> (≡)) (movsb k).
Proof.
  induction k as [|k IH]; intros m m' Hm d ? <- s ? <-; [done|]. cbn [movsb].
  apply IH; [apply store8_proper; [done|done|apply Hm]|done|done].
Qed.

(** Copying ascending is the block copy when no byte is overwritten before it
    is read. *)
Lemma movsb_spec k m d s :
  mem_ok m -> d <= s \/ s + Z.of_nat k <= d -> movsb k m d s ≡ block_copy m d s k.
Proof.
  revert m d s. induction k as [|k IH]; intros m d s Hok Hd a; cbn [movsb].
  - unfold block_copy, Libc.block_copy. ztests; done.
  - rewrite IH by (done || by apply store8_ok || lia). unfold block_copy, Libc.block_copy, store8.
    rewrite (wrap_small 8 (m s)) by apply Hok.
    repeat (ztest; simpl; try lia; try done); f_equal; lia.
Qed.

Lemma store_load n m d s :
  mem_ok m -> store n m d (load n m s) ≡ block_copy m d s n.
Proof.
  intros Hok a. unfold block_copy, Libc.block_copy, store, load.
  destruct (decide (d <= a < d + Z.of_nat n)) as [Hin|Hout].
  - ztest; [|lia]. ztest; [|lia]. cbn [andb].
    pose proof (le_bytes_le_val _ (load_bytes_fits m s n Hok)) as Hb. rewrite length_load_bytes in Hb.
    rewrite Hb. apply store_bytes_in; [|lia|apply Hok].
    rewrite lookup_load_bytes by lia. do 2 f_equal. lia.
  - rewrite store_bytes_out by (rewrite length_le_bytes; lia). repeat (ztest; simpl; try lia; try done).
Qed.

(** Doublewords do the same, when the distance is at least one of them. *)
Lemma movsl_spec k m d s :
  mem_ok m -> d = s \/ d + 4 <= s \/ s + 4 * Z.of_nat k <= d ->
  movsl k m d s ≡ block_copy m d s (4 * k).
Proof.
  revert m d s. induction k as [|k IH]; intros m d s Hok Hd a; cbn [movsl].
  - unfold block_copy, Libc.block_copy. ztests; done.
  - rewrite IH by (by apply store_ok || lia). unfold block_copy at 1, Libc.block_copy at 1.
    rewrite !(store_load 4 m d s Hok _). unfold block_copy, Libc.block_copy.
    repeat (ztest; simpl; try lia; try done); f_equal; lia.
Qed.

(** None of them writes outside the destination. *)
Lemma movsb_out k m d s a : a < d \/ d + Z.of_nat k <= a -> movsb k m d s a = m a.
Proof.
  revert m d s; induction k as [|k IH]; intros m d s Ha; [done|]. cbn [movsb].
  rewrite IH by lia. apply store8_ne. lia.
Qed.

Lemma movsl_out k m d s a : a < d \/ d + 4 * Z.of_nat k <= a -> movsl k m d s a = m a.
Proof.
  revert m d s; induction k as [|k IH]; intros m d s Ha; [done|]. cbn [movsl].
  rewrite IH by lia. apply store_out. lia.
Qed.

Lemma memcpy_out m d s len a : 0 <= len -> a < d \/ d + len <= a -> memcpy m d s len a = m a.
Proof.
  intros Hl Ha. unfold memcpy. destruct (negb _); [apply movsb_out; lia|].
  pose proof (Z.mul_div_le len 4 ltac:(lia)). pose proof (Z.div_pos len 4 Hl ltac:(lia)).
  apply movsl_out. lia.
Qed.

Lemma land_3_lor a b c :
  Z.land (Z.lor (Z.lor a b) c) 3 = 0 -> a mod 4 = 0 /\ b mod 4 = 0 /\ c mod 4 = 0.
Proof.
  intros H. rewrite !Z.land_lor_distr_l in H. apply Z.lor_eq_0_iff in H as [[Ha Hb]%Z.lor_eq_0_iff Hc].
  by rewrite !land_3 in *.
Qed.

Lemma memcpy_spec m d s len :
  mem_ok m -> fits 32 d -> fits 32 s -> 0 <= len ->
  d <= s \/ s + len <= d -> memcpy m d s len ≡ block_copy m d s (Z.to_nat len).
Proof.
  intros Hok Hfd Hfs Hl Hd. unfold memcpy. rewrite !wrap_small by done.
  destruct (Z.eqb_spec (Z.land (Z.lor (Z.lor d s) len) 3) 0) as [H3|H3]; cbn [negb].
  - apply land_3_lor in H3 as (H1 & H2 & H3).
    rewrite movsl_spec; [|done|].
    + replace (4 * Z.to_nat (len / 4))%nat with (Z.to_nat len); [done|].
      pose proof (Z.div_mod len 4 ltac:(lia)). pose proof (Z.div_pos len 4 Hl ltac:(lia)). lia.
    + pose proof (Z.div_mod d 4 ltac:(lia)). pose proof (Z.div_mod s 4 ltac:(lia)).
      pose proof (Z.div_mod len 4 ltac:(lia)). pose proof (Z.div_pos len 4 Hl ltac:(lia)). lia.
  - apply movsb_spec; [done|lia].
Qed.

Lemma move_down_spec k m d s :
  mem_ok m -> s <= d ->
  move_down k m (d + (Z.of_nat k - 1)) (s + (Z.of_nat k - 1)) ≡ block_copy m d s k.
Proof.
  revert m. induction k as [|k IH]; intros m Hok Hd a; cbn [move_down].
  - unfold block_copy, Libc.block_copy. ztests; done.
  - replace (d + (Z.of_nat (S k) - 1)) with (d + Z.of_nat k) by lia.
    replace (s + (Z.of_nat (S k) - 1)) with (s + Z.of_nat k) by lia.
    replace (d + Z.of_nat k - 1) with (d + (Z.of_nat k - 1)) by lia.
    replace (s + Z.of_nat k - 1) with (s + (Z.of_nat k - 1)) by lia.
    rewrite IH by (by apply store8_ok || lia). unfold block_copy, Libc.block_copy, store8.
    rewrite (wrap_small 8 (m _)) by apply Hok.
    repeat (ztest; simpl; try lia; try done); f_equal; lia.
Qed.

(** [memmove] is the block copy whatever the overlap of its two areas,
    although its ascending branch may move doublewords: those are used only
    when both addresses are multiples of four, so no byte is overwritten
    before it is read. *)
Lemma sea_memmove_block_copy m d s len :
  mem_ok m -> fits 32 d -> fits 32 s -> 0 <= len ->
  memmove m d s len ≡ Libc.block_copy m d s (Z.to_nat len).
Proof.
  intros Hok Hfd Hfs Hl. unfold memmove. destruct (Z.leb_spec d s).
  - apply memcpy_spec; auto.
  - replace len with (Z.of_nat (Z.to_nat len)) at 2 3 by lia. apply move_down_spec; [done|lia].
Qed.

Lemma block_copy_split m d s n1 n2 :
  d <= s \/ s + Z.of_nat (n1 + n2) <= d ->
  block_copy (block_copy m d s n1) (d + Z.of_nat n1) (s + Z.of_nat n1) n2 ≡ block_copy m d s (n1 + n2).
Proof.
  intros Hd a. unfold block_copy, Libc.block_copy.
  repeat (ztest; simpl; try lia; try done); f_equal; lia.
Qed.

Lemma block_copy_proper_at m m' d s n :
  m ≡ m' -> block_copy m d s n ≡ block_copy m' d s n.
Proof. intros H a. unfold block_copy, Libc.block_copy. case_match; apply H. Qed.

Lemma mem_ok_equiv m m' : m ≡ m' -> mem_ok m -> mem_ok m'.
Proof. intros He H a. rewrite <- (He a). apply H. Qed.

(** The chunk loop of [iomemcpy] ends within [len / 4 + 1] rounds. *)
Lemma iomemcpy_loop_spec fuel m d s len :
  mem_ok m -> 0 <= len < 4 * Z.of_nat fuel ->
  d = s \/ d + 4 <= s \/ s + len <= d ->
  exists m' k, iomemcpy_loop fuel m d s len = Some (m', d + k, s + k, len - k) /\
    0 <= k <= len /\ len - k < 4 /\ m' ≡ block_copy m d s (Z.to_nat k).
Proof.
  revert m d s len. induction fuel as [|fuel IH]; intros m d s len Hok Hl Hd; [lia|].
  cbn [iomemcpy_loop]. destruct (Z.ltb_spec 3 len) as [Hbig|Hsmall].
  2:{ exists m, 0. rewrite !Z.add_0_r, Z.sub_0_r. split; [done|]. repeat (split; [lia|]).
      intros a. unfold block_copy, Libc.block_copy. ztests; done. }
  set (c := (if 2048 <? len then 2048 else len) / 4).
  assert (Hc : 1 <= c /\ 4 * c <= len).
  { subst c. destruct (Z.ltb_spec 2048 len).
    - change (2048 / 4) with 512. lia.
    - pose proof (Z.div_mod len 4 ltac:(lia)). pose proof (Z.mod_pos_bound len 4 ltac:(lia)). lia. }
  clearbody c. set (m1 := movsl (Z.to_nat c) m d s).
  assert (Hm1 : m1 ≡ block_copy m d s (4 * Z.to_nat c)) by (apply movsl_spec; [done|lia]).
  destruct (IH m1 (d + c * 4) (s + c * 4) (len - c * 4)) as (m' & k & He & Hk & Hr & Hm').
  - eapply mem_ok_equiv; [symmetry; exact Hm1|by apply Libc.block_copy_ok].
  - lia.
  - lia.
  - exists m', (c * 4 + k). rewrite He. split; [by rewrite !Z.add_assoc, Z.sub_add_distr|]. split; [lia|]. split; [lia|].
    rewrite Hm', (block_copy_proper_at _ _ _ _ _ Hm1).
    replace (Z.to_nat (c * 4 + k)) with (4 * Z.to_nat c + Z.to_nat k)%nat by lia.
    replace (d + c * 4) with (d + Z.of_nat (4 * Z.to_nat c)) by lia.
    replace (s + c * 4) with (s + Z.of_nat (4 * Z.to_nat c)) by lia.
    apply block_copy_split. lia.
Qed.

(** [iomemcpy] ends, and its chunks of doublewords and the remaining bytes
    together are the block copy, for areas that are disjoint. *)
Lemma iomemcpy_block_copy fuel m d s len :
  mem_ok m -> 0 <= len < 4 * Z.of_nat fuel -> 0 <= d -> d + len <= 2 ^ 32 -> 0 <= s -> s + len <= 2 ^ 32 ->
  d + len <= s \/ s + len <= d ->
  exists m', iomemcpy fuel m d s len = Some m' /\ m' ≡ Libc.block_copy m d s (Z.to_nat len).
Proof.
  intros Hok Hl Hd1 Hd2 Hs1 Hs2 Hdis. unfold iomemcpy.
  destruct (decide (d = s \/ d + 4 <= s \/ s + len <= d)) as [Hdist|Hclose].
  - destruct (iomemcpy_loop_spec fuel m d s len Hok Hl Hdist) as (m1 & k & -> & Hk & Hr & Hm1).
    eexists. split; [reflexivity|].
    assert (Hok1 : mem_ok m1) by (eapply mem_ok_equiv; [symmetry; exact Hm1|by apply Libc.block_copy_ok]).
    destruct (Z.eqb_spec (len - k) 0) as [Hz|Hnz]; cbn [negb].
    + by replace (Z.to_nat len) with (Z.to_nat k) by lia.
    + rewrite memcpy_spec by (done || (unfold fits; lia) || lia).
      rewrite (block_copy_proper_at _ _ _ _ _ Hm1).
      replace (Z.to_nat len) with (Z.to_nat k + Z.to_nat (len - k))%nat by lia.
      replace (d + k) with (d + Z.of_nat (Z.to_nat k)) by lia.
      replace (s + k) with (s + Z.of_nat (Z.to_nat k)) by lia. apply block_copy_split. lia.
  - assert (len <= 3) as Hsmall by lia. destruct fuel as [|fuel]; [lia|]. cbn [iomemcpy_loop].
    destruct (Z.ltb_spec 3 len); [lia|]. eexists. split; [reflexivity|].
    destruct (Z.eqb_spec len 0) as [->|]; cbn [negb].
    + intros a. unfold Libc.block_copy. ztests; done.
    + apply memcpy_spec; (done || (unfold fits; lia) || lia).
Qed.

(** * Strings *)

(** The loop copies a prefix without terminators, up to a terminator or the
    given count. *)
Lemma strtcpy_loop_spec k m d src :
  mem_ok m -> d + Z.of_nat k <= src \/ src + Z.of_nat k <= d ->
  exists n : nat, (n <= k)%nat /\ (n = k \/ m (src + Z.of_nat n) = 0) /\
    (forall i, 0 <= i < Z.of_nat n -> m (src + i) <> 0) /\
    (strtcpy_loop k m d src).2 = d + Z.of_nat n /\
    (strtcpy_loop k m d src).1 ≡ block_copy m d src n.
Proof.
  revert m d src. induction k as [|k IH]; intros m d src Hok Hdis; cbn [strtcpy_loop].
  { exists 0%nat. change (Z.of_nat 0) with 0. rewrite !Z.add_0_r. split; [done|]. split; [by left|]. split; [lia|].
    split; [done|]. intros a. unfold block_copy, Libc.block_copy. ztests; done. }
  destruct (Z.eqb_spec (m src) 0) as [H0|H0].
  { exists 0%nat. change (Z.of_nat 0) with 0. rewrite !Z.add_0_r. split; [lia|]. split; [by right|]. split; [lia|].
    split; [done|]. intros a. unfold block_copy, Libc.block_copy. ztests; done. }
  destruct (IH (store8 m d (m src)) (d + 1) (src + 1)) as (n & Hn & Hend & Hnz & H2 & H1);
    [by apply store8_ok|lia|].
  exists (S n). split; [lia|]. split; [|split; [|split]].
  - destruct (decide (n = k)) as [->|Hnk]; [by left|]. destruct Hend as [?|Hz]; [done|]. right.
    rewrite store8_ne in Hz by lia. by replace (src + Z.of_nat (S n)) with (src + 1 + Z.of_nat n) by lia.
  - intros i Hi. destruct (decide (i = 0)) as [->|]; [by rewrite Z.add_0_r|].
    specialize (Hnz (i - 1) ltac:(lia)). rewrite store8_ne in Hnz by lia.
    by replace (src + i) with (src + 1 + (i - 1)) by lia.
  - rewrite H2. lia.
  - intros a. rewrite (H1 a). unfold block_copy, Libc.block_copy, store8.
    rewrite (wrap_small 8 (m src)) by apply Hok.
    repeat (ztest; simpl; try lia; try done); f_equal; lia.
Qed.

(** [strtcpy] into a buffer of [len] bytes never writes outside it, and
    leaves a terminated string there: the source up to its terminator, cut to
    [len - 1] characters when it is longer. *)
Lemma strtcpy_truncates m dest src len :
  mem_ok m -> 0 < len < 2 ^ 32 -> dest + len <= src \/ src + len <= dest ->
  let m' := strtcpy m dest src len in
  exists n, 0 <= n < len /\ (n = len - 1 \/ m (src + n) = 0) /\
    (forall i, 0 <= i < n -> m' (dest + i) = m (src + i) /\ m (src + i) <> 0) /\
    m' (dest + n) = 0 /\
    (forall a, a < dest \/ dest + len <= a -> m' a = m a).
Proof.
  intros Hok Hl Hdis. cbv zeta. unfold strtcpy. rewrite wrap_small by (unfold fits; lia).
  destruct (strtcpy_loop_spec (Z.to_nat (len - 1)) m dest src Hok ltac:(lia))
    as (n & Hn & Hend & Hnz & H2 & H1).
  destruct (strtcpy_loop _ m dest src) as [m1 d]. cbn [fst snd] in *. subst d.
  exists (Z.of_nat n). split; [lia|]. split; [destruct Hend; [left; lia|by right]|].
  split; [|split].
  - intros i Hi. split; [|auto]. rewrite store8_ne, (H1 (dest + i)) by lia.
    unfold block_copy, Libc.block_copy. ztests. f_equal. lia.
  - by rewrite store8_eq.
  - intros a Ha. rewrite store8_ne, (H1 a) by lia. unfold block_copy, Libc.block_copy. ztests; done.
Qed.

(** * Instances *)

Definition text_mem : mem := store_bytes (fun _ => 0) 0x100 [83; 101; 97; 66; 73; 79; 83].

Lemma text_mem_ok : mem_ok text_mem.
Proof. unfold text_mem. apply store_bytes_ok. intros a. unfold fits. lia. Qed.

Lemma sea_memmove_block_copy_witness :
  memmove text_mem 0x102 0x100 6 0x104 = 97.
Proof.
  rewrite (sea_memmove_block_copy text_mem 0x102 0x100 6 text_mem_ok);
    [vm_compute; reflexivity|unfold fits; lia..].
Defined.

Lemma iomemcpy_block_copy_witness :
  exists m', iomemcpy 10 text_mem 0x200 0x100 7 = Some m' /\ m' 0x206 = 83.
Proof.
  destruct (iomemcpy_block_copy 10 text_mem 0x200 0x100 7 text_mem_ok) as (m' & He & Hm); [lia..|].
  exists m'. split; [exact He|]. rewrite (Hm 0x206). vm_compute. reflexivity.
Defined.

Lemma strtcpy_truncates_witness : exists n, 0 <= n < 4 /\ strtcpy text_mem 0x200 0x100 4 (0x200 + n) = 0.
Proof.
  destruct (strtcpy_truncates text_mem 0x200 0x100 4 text_mem_ok) as (n & Hn & _ & _ & H0 & _); [lia..|].
  exists n. split; [exact Hn|exact H0].
Defined.
