(* ===== verification/SeaTables.v ===== *)
(** Firmware tables in SeaBIOS ([seabios/src/fw/biostables.c]): copying the
    PCI interrupt routing, multiprocessor, ACPI and SMBIOS tables into the F
    segment, and finding tables again.

    A copy is an allocation in the F-segment zone followed by a block copy, so
    the theorems put the allocator and [memcpy] together: what is published is
    byte for byte what was checked, it is in memory nobody used, and nothing
    else changes. *)

From stdpp Require Import base numbers list gmap.
From Stdlib Require Import ZArith Lia.
From S2P Require Import Prelude Memory SeaZone SeaMalloc SeaString.

Definition PIR_SIGNATURE : Z := 0x52495024.
Definition MPTABLE_SIGNATURE : Z := 0x5f504d5f.
Definition RSDP_SIGNATURE : Z := 0x2052545020445352.
Definition RSDT_SIGNATURE : Z := 0x54445352.
Definition XSDT_SIGNATURE : Z := 0x54445358.
Definition FACP_SIGNATURE : Z := 0x50434146.
Definition FACS_SIGNATURE : Z := 0x53434146.
Definition SMBIOS_21_SIGNATURE : Z := 0x5f4d535f.
Definition BUILD_MAX_MPTABLE_FSEG : Z := 600.

Definition sizeof_pir_header : Z := 32.
Definition sizeof_mptable_floating : Z := 16.

(** Memory, the allocator and the addresses of the published tables, null
    while there is none. *)
Record tables := mkTables {
  t_mem : mem;
  t_heap : heap;
  PirAddr : Z;
  RsdpAddr : Z;
  SMBios21Addr : Z;
  SMBios30Addr : Z
}.

Definition malloc_fseg (h : heap) (size : Z) : Z * heap := _malloc h ZoneFSeg size MALLOC_MIN_ALIGN.

(** [copy_fseg_table]: null when the zone has no room. *)
Definition copy_fseg_table (m : mem) (h : heap) (pos size : Z) : Z * mem * heap :=
  let '(newpos, h) := malloc_fseg h size in
  if newpos =? 0 then (0, m, h) else (newpos, memcpy m newpos pos size, h).

Definition copy_pir (pos : Z) (s : tables) : tables :=
  let m := t_mem s in
  let size := load16 m (pos + 6) in
  if negb (load32 m pos =? PIR_SIGNATURE) then s
  else if negb (PirAddr s =? 0) then s
  else if size <? sizeof_pir_header then s
  else if negb (checksum m pos size =? 0) then s
  else
    let '(a, m, h) := copy_fseg_table m (t_heap s) pos size in
    mkTables m h a (RsdpAddr s) (SMBios21Addr s) (SMBios30Addr s).

Definition copy_mptable (pos : Z) (s : tables) : tables :=
  let m := t_mem s in
  let physaddr := load32 m (pos + 4) in
  if negb (load32 m pos =? MPTABLE_SIGNATURE) then s
  else if physaddr =? 0 then s
  else if negb (checksum m pos sizeof_mptable_floating =? 0) then s
  else
    let length := m (pos + 8) * 16 in
    let mpclength := load16 m (physaddr + 4) in
    if BUILD_MAX_MPTABLE_FSEG <? length + mpclength then s
    else
      let '(newpos, h) := malloc_fseg (t_heap s) (length + mpclength) in
      if newpos =? 0 then mkTables m h (PirAddr s) (RsdpAddr s) (SMBios21Addr s) (SMBios30Addr s)
      else
        let m := memcpy m newpos pos length in
        let m := store32 m (newpos + 4) (u32 (newpos + length)) in
        let m := store8 m (newpos + 10) (m (newpos + 10) - checksum m newpos sizeof_mptable_floating) in
        let m := memcpy m (newpos + length) (load32 m (pos + 4)) mpclength in
        mkTables m h (PirAddr s) (RsdpAddr s) (SMBios21Addr s) (SMBios30Addr s).

(** [get_acpi_rsdp_length]: [int], negative when the structure is not valid. *)
Definition get_acpi_rsdp_length (m : mem) (pos size : Z) : Z :=
  if negb (load64 m pos =? RSDP_SIGNATURE) then -1
  else if size <? 20 then -1
  else if negb (checksum m pos 20 =? 0) then -1
  else if 1 <? m (pos + 15) then
    let length := load32 m (pos + 20) in
    if size <? length then -1
    else if negb (checksum m pos length =? 0) then -1
    else to_signed 32 length
  else 20.

Definition copy_acpi_rsdp (pos : Z) (s : tables) : tables :=
  if negb (RsdpAddr s =? 0) then s
  else
    let length := get_acpi_rsdp_length (t_mem s) pos (u32 (-1)) in
    if length <? 0 then s
    else
      let '(a, m, h) := copy_fseg_table (t_mem s) (t_heap s) pos length in
      mkTables m h (PirAddr s) a (SMBios21Addr s) (SMBios30Addr s).

(** The search of the F segment, in steps of 16 up to [last]. *)
Fixpoint find_rsdp_loop (fuel : nat) (m : mem) (pos last stop : Z) : option (option Z) :=
  match fuel with
  | O => None
  | S fuel' =>
    if pos <=? last then
      if 0 <=? get_acpi_rsdp_length m pos (u32 (stop - pos)) then Some (Some pos)
      else find_rsdp_loop fuel' m (pos + 16) last stop
    else Some None
  end.

Definition find_acpi_rsdp (fuel : nat) (m : mem) (zonefseg_start zonefseg_end : Z) : option (option Z) :=
  find_rsdp_loop fuel m (ALIGN zonefseg_start 16) (ALIGN_DOWN zonefseg_end 16) zonefseg_end.

(** The loops of [find_acpi_table] over the entries of a root table; [width]
    is the size of an entry.  A table is found by its signature. *)
Fixpoint find_entry (fuel width : nat) (m : mem) (entry stop signature : Z) : option (option Z) :=
  match fuel with
  | O => None
  | S fuel' =>
    if entry <? stop then
      let tbl := load width m entry in
      if (0x100000000 <=? tbl) || (tbl =? 0) || negb (load32 m tbl =? signature) then
        find_entry fuel' width m (entry + Z.of_nat width) stop signature
      else Some (Some tbl)
    else Some None
  end.

(** One root table, of signature [root_signature]. *)
Definition find_in_root (fuel width : nat) (m : mem) (root root_signature signature : Z)
  : option (option Z) :=
  if negb (root =? 0) && (load32 m root =? root_signature) then
    find_entry fuel width m (root + 36) (root + load32 m (root + 4)) signature
  else Some None.

Definition find_acpi_table (fuel : nat) (m : mem) (rsdp signature : Z) : option (option Z) :=
  if (rsdp =? 0) || negb (load64 m rsdp =? RSDP_SIGNATURE) then Some None
  else
    let rsdt := load32 m (rsdp + 16) in
    let xsdt := if 0x100000000 <=? load64 m (rsdp + 24) then 0 else u32 (load64 m (rsdp + 24)) in
    match find_in_root fuel 8 m xsdt XSDT_SIGNATURE signature with
    | None => None
    | Some (Some t) => Some (Some t)
    | Some None => find_in_root fuel 4 m rsdt RSDT_SIGNATURE signature
    end.

Definition find_resume_vector (fuel : nat) (m : mem) (rsdp : Z) : option Z :=
  match find_acpi_table fuel m rsdp FACP_SIGNATURE with
  | None => None
  | Some None => Some 0
  | Some (Some fadt) =>
    let facs := load32 m (fadt + 36) in
    if (facs =? 0) || negb (load32 m facs =? FACS_SIGNATURE) then Some 0
    else Some (load32 m (facs + 12))
  end.

(** The ACPI variables: the power-management timer port given to
    [pmtimer_setup], [acpi_pm1a_cnt], [acpi_reset_reg] and [acpi_reset_val]. *)
Record acpi_vars := mkAcpiVars {
  pmtimer_port : option Z;
  acpi_pm1a_cnt : Z;
  acpi_reset_reg : list Z;
  acpi_reset_val : Z
}.

Definition acpi_set_reset_reg (m : mem) (reg val : Z) (v : acpi_vars) : acpi_vars :=
  if (reg =? 0) || (2 <? m reg) || negb (m (reg + 1) =? 8) || negb (m (reg + 2) =? 0) then v
  else mkAcpiVars (pmtimer_port v) (acpi_pm1a_cnt v) (load_bytes m reg 12) val.

(** [find_acpi_features], without the parse of the DSDT that follows. *)
Definition find_acpi_features (fuel : nat) (m : mem) (rsdp : Z) (v : acpi_vars) : option acpi_vars :=
  match find_acpi_table fuel m rsdp FACP_SIGNATURE with
  | None => None
  | Some None => Some v
  | Some (Some fadt) =>
    let pm_tmr := load32 m (fadt + 76) in
    let pm1a_cnt := load32 m (fadt + 64) in
    let v := mkAcpiVars (if pm_tmr =? 0 then pmtimer_port v else Some pm_tmr)
               (if pm1a_cnt =? 0 then acpi_pm1a_cnt v else pm1a_cnt)
               (acpi_reset_reg v) (acpi_reset_val v) in
    Some (if 129 <=? load32 m (fadt + 4) then acpi_set_reset_reg m (fadt + 116) (m (fadt + 128)) v else v)
  end.

(** [smbios_next]: the structure after [prev], the first one for a null
    [prev]; the inner loop looks for the two zero bytes that end a structure. *)
Fixpoint skip_strings (fuel : nat) (m : mem) (prev stop : Z) : option Z :=
  match fuel with
  | O => None
  | S fuel' =>
    if (prev <? stop) && (negb (m (prev - 1) =? 0) || negb (m (prev - 2) =? 0)) then
      skip_strings fuel' m (prev + 1) stop
    else Some prev
  end.

(** The check at the end: the structure at [prev] lies within the blob. *)
Definition smbios_check (m : mem) (prev stop : Z) : option Z :=
  if (stop <=? prev) || (stop <=? prev + 4) || (stop <=? prev + m (prev + 1)) then None else Some prev.

Definition smbios_next (fuel : nat) (m : mem) (start length prev : Z) : option (option Z) :=
  if start =? 0 then Some None
  else
    let stop := start + length in
    if prev =? 0 then Some (smbios_check m start stop)
    else if stop <? prev + 4 then Some None
    else
      match skip_strings fuel m (prev + (m (prev + 1) + 2)) stop with
      | None => None
      | Some prev => Some (smbios_check m prev stop)
      end.

Definition smbios_21_next (fuel : nat) (m : mem) (smbios prev : Z) : option (option Z) :=
  if smbios =? 0 then Some None
  else smbios_next fuel m (load32 m (smbios + 24)) (load16 m (smbios + 22)) prev.

(** The anchor strings ["_DMI_"] and ["_SM3_"]. *)
Definition anchor_dmi : list Z := [0x5f; 0x44; 0x4d; 0x49; 0x5f].
Definition anchor_sm3 : list Z := [0x5f; 0x53; 0x4d; 0x33; 0x5f].

Definition copy_smbios_21 (pos : Z) (s : tables) : tables :=
  let m := t_mem s in
  let length := m (pos + 5) in
  if negb (SMBios21Addr s =? 0) then s
  else if negb (load32 m pos =? SMBIOS_21_SIGNATURE) then s
  else if negb (checksum m pos 0x10 =? 0) then s
  else if negb (bool_decide (load_bytes m (pos + 16) 5 = anchor_dmi)) then s
  else if negb (checksum m (pos + 0x10) (length - 0x10) =? 0) then s
  else
    let '(a, m, h) := copy_fseg_table m (t_heap s) pos length in
    mkTables m h (PirAddr s) (RsdpAddr s) a (SMBios30Addr s).

Definition valid_smbios_30_signature (m : mem) (p : Z) : bool :=
  bool_decide (load_bytes m p 5 = anchor_sm3).

Definition copy_smbios_30 (pos : Z) (s : tables) : tables :=
  let m := t_mem s in
  let length := m (pos + 6) in
  if negb (SMBios30Addr s =? 0) then s
  else if negb (valid_smbios_30_signature m pos) then s
  else if negb (checksum m pos length =? 0) then s
  else
    let '(a, m, h) := copy_fseg_table m (t_heap s) pos length in
    mkTables m h (PirAddr s) (RsdpAddr s) (SMBios21Addr s) a.

(** [smbios_get_tables]: address and length of the structures. *)
Definition smbios_get_tables (s : tables) : option (Z * Z) :=
  let m := t_mem s in
  let from_21 :=
    if negb (SMBios21Addr s =? 0) then
      Some (load32 m (SMBios21Addr s + 24), load16 m (SMBios21Addr s + 22))
    else None in
  if negb (SMBios30Addr s =? 0) then
    let addr32 := u32 (load64 m (SMBios30Addr s + 16)) in
    if addr32 =? load64 m (SMBios30Addr s + 16) then Some (addr32, load32 m (SMBios30Addr s + 12))
    else from_21
  else from_21.

Definition copy_table (pos : Z) (s : tables) : tables :=
  copy_smbios_30 pos (copy_smbios_21 pos (copy_acpi_rsdp pos (copy_mptable pos (copy_pir pos s)))).

(** * Publishing a table *)

Section Publish.
Context (R : regions) (R_apart : regions_apart R).
Context (fseg_low : forall a, R ZoneFSeg a -> 0 < a < 0x100000).

(** What every step keeps: the heap and memory stay well formed, and every
    byte that is outside the F-segment zone or in use keeps its value and its
    use.  The allocator's own records are not part of memory here. *)
Definition kept (s s' : tables) : Prop :=
  heap_ok R (t_heap s') /\ mem_ok (t_mem s') /\
  (forall x, ~ R ZoneFSeg x \/ heap_used (t_heap s) x -> t_mem s' x = t_mem s x) /\
  (forall x, heap_used (t_heap s) x -> heap_used (t_heap s') x).

Definition sound (s : tables) : Prop := heap_ok R (t_heap s) /\ mem_ok (t_mem s).

Lemma kept_refl s : sound s -> kept s s.
Proof. intros [Hh Hm]. do 3 (split; [done|]). done. Qed.

Lemma kept_trans s1 s2 s3 : kept s1 s2 -> kept s2 s3 -> kept s1 s3.
Proof.
  intros (_ & _ & H1 & U1) (Hh & Hm & H2 & U2). split; [done|]. split; [done|]. split; [|auto].
  intros x Hx. rewrite H2, H1; [done|done|]. destruct Hx as [Hx|Hx]; auto.
Qed.

Lemma kept_sound s s' : kept s s' -> sound s'.
Proof. intros (Hh & Hm & _). by split. Qed.

(** [n] bytes from [pos] are published at [a]. *)
Definition published (s s' : tables) (pos n a : Z) : Prop :=
  a mod MALLOC_MIN_ALIGN = 0 /\ 0 < a /\
  (forall i, 0 <= i < n -> t_mem s' (a + i) = t_mem s (pos + i)) /\
  (forall x, a <= x < a + n -> R ZoneFSeg x /\ ~ heap_used (t_heap s) x /\ heap_used (t_heap s') x).

(** A published table is not disturbed by what follows. *)
Lemma published_kept s s1 s2 pos n a :
  published s s1 pos n a -> kept s1 s2 -> published s s2 pos n a.
Proof.
  intros (Ha & Hp & Hb & Hu) (_ & _ & Hm & Hk). split; [done|]. split; [done|]. split.
  - intros i Hi. rewrite Hm; [by apply Hb|]. right. apply Hu. lia.
  - intros x Hx. destruct (Hu x Hx) as (? & ? & ?). auto.
Qed.

(** What came before does not matter for a source outside the zone. *)
Lemma published_before s0 s1 s2 pos n a :
  kept s0 s1 -> (forall x, R ZoneFSeg x -> x < pos) -> published s1 s2 pos n a -> published s0 s2 pos n a.
Proof.
  intros (_ & _ & Hm & Hk) Hpos (Ha & Hp & Hb & Hu). split; [done|]. split; [done|]. split.
  - intros i Hi. rewrite Hb by done. apply Hm. left. intros Hr. apply Hpos in Hr. lia.
  - intros x Hx. destruct (Hu x Hx) as (? & Hn & ?). split; [done|]. split; [|done]. by intros ?%Hk.
Qed.

(** The F-segment zone has a free range for [n] bytes wherever they have to
    start, and a tracking structure can be allocated. *)
Definition has_room (h : heap) (n : Z) : Prop :=
  room (get h ZoneFSeg) (n + MALLOC_MIN_ALIGN) /\ room (get h ZoneTmpHigh) 60.

(** The allocation and the copy, for a source above the F segment. *)
Lemma copy_fseg_spec m h pos size :
  heap_ok R h -> mem_ok m -> 0 <= size < 2 ^ 31 -> 0x100000 <= pos -> fits 32 pos ->
  let '(a, m', h') := copy_fseg_table m h pos size in
  heap_ok R h' /\ mem_ok m' /\
  ((a = 0 /\ m' = m /\ h' = h /\ (0 < size -> ~ has_room h size)) \/
   (0 < a /\ a mod MALLOC_MIN_ALIGN = 0 /\ m' ≡ Libc.block_copy m a pos (Z.to_nat size) /\
    (forall x, a <= x < a + size -> R ZoneFSeg x /\ ~ heap_used h x /\ heap_used h' x) /\
    (forall x, heap_used h x -> heap_used h' x))).
Proof.
  intros Hh Hm Hs Hpos Hfit. unfold copy_fseg_table, malloc_fseg, _malloc.
  destruct (decide (size = 0)) as [->|Hne].
  { unfold malloc_palloc. cbn. split; [done|]. split; [done|]. left. do 3 (split; [done|]). lia. }
  pose proof (palloc_fits R h ZoneFSeg size MALLOC_MIN_ALIGN Hh align_min ltac:(lia) ltac:(done)) as Hroom.
  pose proof (palloc_grants R R_apart h ZoneFSeg size MALLOC_MIN_ALIGN Hh align_min ltac:(lia)) as Hg.
  destruct (malloc_palloc h ZoneFSeg size MALLOC_MIN_ALIGN) as [a h'].
  destruct Hg as (Hh' & H0 & Hg). destruct (Z.eqb_spec a 0) as [->|Ha].
  { rewrite H0 by done. split; [done|]. split; [done|]. left. do 3 (split; [done|]). by intros _ [? ?]; apply Hroom. }
  destruct (Hg Ha) as (Hp & Hal & Hfree & (zt & d & _ & _ & Hused) & _).
  assert (Hlow : a + size <= pos).
  { destruct (Hfree (a + size - 1) ltac:(lia)) as [Hr _]. apply fseg_low in Hr. lia. }
  assert (Hfa : fits 32 a) by (unfold fits in *; lia).
  pose proof (memcpy_spec m a pos size Hm Hfa Hfit ltac:(lia) ltac:(lia)) as Hcopy.
  split; [done|]. split; [eapply mem_ok_equiv; [symmetry; exact Hcopy|by apply Libc.block_copy_ok]|].
  right. split; [done|]. split; [done|]. split; [done|]. split.
  - intros x Hx. destruct (Hfree x Hx) as (Hr & _ & Hn). split; [done|]. split; [done|].
    apply Hused. auto.
  - intros x Hx. apply Hused. auto.
Qed.

(** The step of a state that the copy makes, whichever variable it sets. *)
Lemma copy_step s pos size (mk : Z -> mem -> heap -> tables) (addr : tables -> Z) :
  sound s -> 0 <= size < 2 ^ 31 -> 0x100000 <= pos -> fits 32 pos ->
  (forall a m h, t_mem (mk a m h) = m /\ t_heap (mk a m h) = h /\ addr (mk a m h) = a) ->
  let '(a, m, h) := copy_fseg_table (t_mem s) (t_heap s) pos size in
  kept s (mk a m h) /\
  (mk a m h = mk 0 (t_mem s) (t_heap s) /\ (0 < size -> ~ has_room (t_heap s) size) \/
   0 < size /\ published s (mk a m h) pos size (addr (mk a m h))).
Proof.
  intros [Hh Hm] Hs Hpos Hfit Hmk.
  pose proof (copy_fseg_spec (t_mem s) (t_heap s) pos size Hh Hm Hs Hpos Hfit) as Hc.
  assert (size = 0 -> (copy_fseg_table (t_mem s) (t_heap s) pos size).1.1 = 0) as Hz by by intros ->.
  destruct (copy_fseg_table (t_mem s) (t_heap s) pos size) as [[a m] h]. cbn [fst] in Hz.
  destruct (Hmk a m h) as (Em & Eh & Ea). unfold kept, published. rewrite Em, Eh, Ea.
  destruct Hc as (Hh' & Hm' & [(-> & -> & -> & Hno)|(Hp & Hal & Hcopy & Hblk & Hk)]).
  { split; [|by left]. do 3 (split; [done|]). done. }
  split.
  - split; [done|]. split; [done|]. split; [|done]. intros x Hx. rewrite (Hcopy x).
    unfold Libc.block_copy. destruct (Z.leb_spec a x), (Z.ltb_spec x (a + Z.of_nat (Z.to_nat size)));
      cbn [andb]; try done. exfalso. destruct (Hblk x ltac:(lia)) as (Hr & Hn & _). by destruct Hx.
  - right. split; [lia|]. split; [done|]. split; [done|]. split; [|exact Hblk]. intros i Hi. rewrite (Hcopy (a + i)).
    unfold Libc.block_copy. ztests. f_equal. lia.
Qed.

(** ** What a valid table is

    Each has its signature, and the bytes it covers sum to zero. *)

Definition pir_length (m : mem) (pos : Z) : Z := load16 m (pos + 6).
Definition pir_valid (m : mem) (pos : Z) : Prop :=
  load32 m pos = PIR_SIGNATURE /\ sizeof_pir_header <= pir_length m pos /\
  checksum m pos (pir_length m pos) = 0.

(** From revision 2 on the structure has a length, and a second sum over it. *)
Definition rsdp_length (m : mem) (pos : Z) : Z := if 1 <? m (pos + 15) then load32 m (pos + 20) else 20.
Definition rsdp_valid (m : mem) (pos : Z) : Prop :=
  load64 m pos = RSDP_SIGNATURE /\ checksum m pos 20 = 0 /\ checksum m pos (rsdp_length m pos) = 0 /\
  0 < rsdp_length m pos < 2 ^ 31.

Definition smbios_21_length (m : mem) (pos : Z) : Z := m (pos + 5).
Definition smbios_21_valid (m : mem) (pos : Z) : Prop :=
  load32 m pos = SMBIOS_21_SIGNATURE /\ checksum m pos 16 = 0 /\ load_bytes m (pos + 16) 5 = anchor_dmi /\
  checksum m (pos + 16) (smbios_21_length m pos - 16) = 0 /\ 0 < smbios_21_length m pos.

Definition smbios_30_length (m : mem) (pos : Z) : Z := m (pos + 6).
Definition smbios_30_valid (m : mem) (pos : Z) : Prop :=
  load_bytes m pos 5 = anchor_sm3 /\ checksum m pos (smbios_30_length m pos) = 0 /\ 0 < smbios_30_length m pos.

(** The outcome for the table whose address [addr] is: a valid table that has
    no copy yet is published, unless there is no room; otherwise the pointer
    stays as it is. *)
Definition placed (s s' : tables) (pos : Z) (valid : Prop) (n : Z) (addr : tables -> Z) : Prop :=
  (addr s <> 0 \/ ~ valid -> addr s' = addr s) /\
  (addr s = 0 -> valid -> published s s' pos n (addr s') \/ s' = s /\ ~ has_room (t_heap s) n).

(** One step: besides, the state stays as it is when there is nothing to do. *)
Definition step_places (s s' : tables) (pos : Z) (valid : Prop) (n : Z) (addr : tables -> Z) : Prop :=
  kept s s' /\ placed s s' pos valid n addr /\ (addr s <> 0 \/ ~ valid -> s' = s).

Lemma step_same s pos valid n addr : sound s -> addr s <> 0 \/ ~ valid -> step_places s s pos valid n addr.
Proof.
  intros Hs Hno. split; [by apply kept_refl|]. split; [|done]. split; [done|].
  intros H0 Hv. by destruct Hno.
Qed.

(** The last part of a step, when all checks passed. *)
Lemma step_copy s pos valid n (mk : Z -> mem -> heap -> tables) (addr : tables -> Z) :
  sound s -> 0 <= n < 2 ^ 31 -> 0x100000 <= pos -> fits 32 pos -> addr s = 0 -> (0 < n -> valid) -> (valid -> 0 < n) ->
  (forall a m h, t_mem (mk a m h) = m /\ t_heap (mk a m h) = h /\ addr (mk a m h) = a) ->
  s = mk 0 (t_mem s) (t_heap s) ->
  step_places s (let '(a, m, h) := copy_fseg_table (t_mem s) (t_heap s) pos n in mk a m h) pos valid n addr.
Proof.
  intros Hs Hn Hpos Hfit H0 Hv Hv' Hmk Hsame. pose proof (copy_step s pos n mk addr Hs Hn Hpos Hfit Hmk) as Hc.
  destruct (copy_fseg_table _ _ _ _) as [[a m] h]. rewrite <- Hsame in Hc. destruct Hc as [Hk Hp]. split; [done|].
  assert (addr s <> 0 \/ ~ valid -> mk a m h = s) as Hno.
  { intros Hno. destruct Hp as [[Hp _]|[Hpos' _]]; [done|]. destruct Hno as [|Hno]; [done|]. destruct Hno. auto. }
  split; [|done]. split; [intros H; by rewrite (Hno H)|].
  intros _ Hval. destruct Hp as [[-> Hroom]|[_ Hp]]; auto.
Qed.

Lemma copy_pir_places pos s :
  sound s -> 0x100000 <= pos -> fits 32 pos ->
  step_places s (copy_pir pos s) pos (pir_valid (t_mem s) pos) (pir_length (t_mem s) pos) PirAddr.
Proof.
  intros Hs Hpos Hfit. unfold copy_pir. fold (pir_length (t_mem s) pos).
  destruct (Z.eqb_spec (load32 (t_mem s) pos) PIR_SIGNATURE) as [Hsig|]; cbn [negb];
    [|apply step_same; [done|right; by intros (? & _)]].
  destruct (Z.eqb_spec (PirAddr s) 0) as [H0|]; cbn [negb]; [|apply step_same; [done|by left]].
  destruct (Z.ltb_spec (pir_length (t_mem s) pos) sizeof_pir_header) as [|Hlen];
    [apply step_same; [done|right; intros (_ & ? & _); lia]|].
  destruct (Z.eqb_spec (checksum (t_mem s) pos (pir_length (t_mem s) pos)) 0) as [Hsum|]; cbn [negb];
    [|apply step_same; [done|right; by intros (_ & _ & ?)]].
  pose proof (load_fits 2 (t_mem s) (pos + 6) (proj2 Hs)) as Hl. unfold fits in Hl.
  change (load 2 (t_mem s) (pos + 6)) with (pir_length (t_mem s) pos) in Hl.
  change (2 ^ (8 * Z.of_nat 2)) with 65536 in Hl. unfold sizeof_pir_header in Hlen.
  apply (step_copy s pos _ _ (fun a m h => mkTables m h a (RsdpAddr s) (SMBios21Addr s) (SMBios30Addr s)) PirAddr);
    try done; [lia| |destruct s; cbn in *; by rewrite H0].
  intros _. lia.
Qed.

Lemma get_rsdp_length_spec m pos :
  mem_ok m -> let n := get_acpi_rsdp_length m pos (u32 (-1)) in
  n < 0 /\ ~ rsdp_valid m pos \/ n = rsdp_length m pos /\ 0 <= n < 2 ^ 31 /\ (0 < n -> rsdp_valid m pos).
Proof.
  intros Hm. cbv zeta. unfold get_acpi_rsdp_length, rsdp_valid, rsdp_length.
  destruct (Z.eqb_spec (load64 m pos) RSDP_SIGNATURE) as [Hsig|]; cbn [negb]; [|left; split; [lia|tauto]].
  change (u32 (-1) <? 20) with false. cbn match.
  destruct (Z.eqb_spec (checksum m pos 20) 0) as [Hsum|]; cbn [negb]; [|left; split; [lia|tauto]].
  destruct (1 <? m (pos + 15)); [|right; by repeat split].
  pose proof (load_fits 4 m (pos + 20) Hm) as Hf. unfold fits in Hf. set (n := load32 m (pos + 20)) in *.
  change (2 ^ (8 * Z.of_nat 4)) with (2 ^ 32) in Hf. change (u32 (-1)) with 4294967295.
  destruct (Z.ltb_spec 4294967295 n); [lia|].
  destruct (Z.eqb_spec (checksum m pos n) 0) as [Hsum2|]; cbn [negb]; [|left; split; [lia|tauto]].
  unfold to_signed. rewrite wrap_small by (unfold fits; lia). change (2 ^ (32 - 1)) with (2 ^ 31).
  destruct (Z.ltb_spec n (2 ^ 31)); [right|left; split; [lia|intros (_ & _ & _ & ?); lia]].
  split; [done|]. split; [lia|]. intros ?. do 3 (split; [done|]). lia.
Qed.

Lemma copy_rsdp_places pos s :
  sound s -> 0x100000 <= pos -> fits 32 pos ->
  step_places s (copy_acpi_rsdp pos s) pos (rsdp_valid (t_mem s) pos) (rsdp_length (t_mem s) pos) RsdpAddr.
Proof.
  intros Hs Hpos Hfit. unfold copy_acpi_rsdp.
  destruct (Z.eqb_spec (RsdpAddr s) 0) as [H0|]; cbn [negb]; [|apply step_same; [done|by left]].
  destruct (get_rsdp_length_spec (t_mem s) pos (proj2 Hs)) as [[Hn Hno]|(-> & Hn & Hv)].
  { rewrite (proj2 (Z.ltb_lt _ _) Hn). apply step_same; [done|by right]. }
  rewrite (proj2 (Z.ltb_ge _ _)) by lia.
  apply (step_copy s pos _ _ (fun a m h => mkTables m h (PirAddr s) a (SMBios21Addr s) (SMBios30Addr s)) RsdpAddr);
    try done; [|destruct s; cbn in *; by rewrite H0]. intros (_ & _ & _ & ?). lia.
Qed.

Lemma copy_smbios_21_places pos s :
  sound s -> 0x100000 <= pos -> fits 32 pos ->
  step_places s (copy_smbios_21 pos s) pos (smbios_21_valid (t_mem s) pos) (smbios_21_length (t_mem s) pos) SMBios21Addr.
Proof.
  intros Hs Hpos Hfit. unfold copy_smbios_21, smbios_21_valid. fold (smbios_21_length (t_mem s) pos).
  destruct (Z.eqb_spec (SMBios21Addr s) 0) as [H0|]; cbn [negb]; [|apply step_same; [done|by left]].
  destruct (Z.eqb_spec (load32 (t_mem s) pos) SMBIOS_21_SIGNATURE) as [Hsig|]; cbn [negb];
    [|apply step_same; [done|right; tauto]].
  destruct (Z.eqb_spec (checksum (t_mem s) pos 16) 0) as [Hsum|]; cbn [negb]; [|apply step_same; [done|right; tauto]].
  case_bool_decide as Hdmi; cbn [negb]; [|apply step_same; [done|right; tauto]].
  destruct (Z.eqb_spec (checksum (t_mem s) (pos + 16) (smbios_21_length (t_mem s) pos - 16)) 0) as [Hsum2|];
    cbn [negb]; [|apply step_same; [done|right; tauto]].
  pose proof (proj2 Hs (pos + 5)) as Hl. unfold fits in Hl. fold (smbios_21_length (t_mem s) pos) in Hl.
  apply (step_copy s pos _ _ (fun a m h => mkTables m h (PirAddr s) (RsdpAddr s) a (SMBios30Addr s)) SMBios21Addr);
    try done; [lia|tauto|destruct s; cbn in *; by rewrite H0].
Qed.

Lemma copy_smbios_30_places pos s :
  sound s -> 0x100000 <= pos -> fits 32 pos ->
  step_places s (copy_smbios_30 pos s) pos (smbios_30_valid (t_mem s) pos) (smbios_30_length (t_mem s) pos) SMBios30Addr.
Proof.
  intros Hs Hpos Hfit. unfold copy_smbios_30, smbios_30_valid, valid_smbios_30_signature. fold (smbios_30_length (t_mem s) pos).
  destruct (Z.eqb_spec (SMBios30Addr s) 0) as [H0|]; cbn [negb]; [|apply step_same; [done|by left]].
  case_bool_decide as Hsm3; cbn [negb]; [|apply step_same; [done|right; tauto]].
  destruct (Z.eqb_spec (checksum (t_mem s) pos (smbios_30_length (t_mem s) pos)) 0) as [Hsum|];
    cbn [negb]; [|apply step_same; [done|right; tauto]].
  pose proof (proj2 Hs (pos + 6)) as Hl. unfold fits in Hl. fold (smbios_30_length (t_mem s) pos) in Hl.
  apply (step_copy s pos _ _ (fun a m h => mkTables m h (PirAddr s) (RsdpAddr s) (SMBios21Addr s) a) SMBios30Addr);
    try done; [lia|tauto|destruct s; cbn in *; by rewrite H0].
Qed.

(** ** The multiprocessor table *)

(** Rewriting one byte of a structure so that its bytes sum to zero. *)
Lemma fix_checksum m a n k :
  mem_ok m -> (k < n)%nat -> Z.of_nat n < 2 ^ 32 ->
  let m' := store8 m (a + Z.of_nat k) (m (a + Z.of_nat k) - checksum m a (Z.of_nat n)) in
  checksum m' a (Z.of_nat n) = 0.
Proof.
  intros Hm Hk Hn. cbv zeta. set (c := checksum m a (Z.of_nat n)). set (m' := store8 _ _ _).
  assert (Hc : c = u8 (byte_sum m a n)).
  { subst c. rewrite checksum_spec by (unfold fits; lia). by rewrite Nat2Z.id. }
  rewrite checksum_spec by (unfold fits; lia). rewrite Nat2Z.id.
  assert (Hsplit : forall mm, byte_sum mm a n =
    byte_sum mm a k + mm (a + Z.of_nat k) + byte_sum mm (a + Z.of_nat k + 1) (n - k - 1)).
  { intros mm. replace n with (k + (1 + (n - k - 1)))%nat at 1 by lia.
    rewrite !byte_sum_app. unfold byte_sum at 2. cbn [load_bytes foldr].
    change (Z.of_nat 1) with 1. lia. }
  rewrite (Hsplit m'), (Hsplit m) in *.
  rewrite (byte_sum_ext m' m a a k), (byte_sum_ext m' m (a + Z.of_nat k + 1) (a + Z.of_nat k + 1))
    by (intros i Hi; apply store8_ne; lia).
  unfold m'. rewrite store8_eq, Hc.
  generalize (byte_sum m a k) (byte_sum m (a + Z.of_nat k + 1) (n - k - 1)) (m (a + Z.of_nat k)).
  intros x y z. unfold wrap. rewrite <- (Z.add_mod_idemp_l (x + _) y), Z.add_mod_idemp_r by lia.
  rewrite Z.add_mod_idemp_l by lia. replace (x + (z - (x + z + y) mod 2 ^ 8) + y)
    with (x + z + y - (x + z + y) mod 2 ^ 8) by lia.
  rewrite Zminus_mod_idemp_r, Z.sub_diag. done.
Qed.

(** A multiprocessor table above the F segment, at least one paragraph long. *)
Definition mp_source (m : mem) (pos : Z) : Prop :=
  0x100000 <= pos /\ fits 32 pos /\ 1 <= m (pos + 8) /\
  (0x100000 <= load32 m (pos + 4) \/ load32 m (pos + 4) = 0).

Definition mp_length (m : mem) (pos : Z) : Z := m (pos + 8) * 16.
Definition mpc_length (m : mem) (pos : Z) : Z := load16 m (load32 m (pos + 4) + 4).

(** The copy at [newpos] is a valid floating structure that points to a copy
    of the configuration table right behind it. *)
Definition mp_copied (s s' : tables) (pos newpos : Z) : Prop :=
  let m := t_mem s in
  let m' := t_mem s' in
  newpos mod MALLOC_MIN_ALIGN = 0 /\
  load32 m' newpos = MPTABLE_SIGNATURE /\
  load32 m' (newpos + 4) = newpos + mp_length m pos /\
  checksum m' newpos sizeof_mptable_floating = 0 /\
  (forall i, 0 <= i < mpc_length m pos ->
     m' (newpos + mp_length m pos + i) = m (load32 m (pos + 4) + i)) /\
  (forall x, newpos <= x < newpos + mp_length m pos + mpc_length m pos ->
     R ZoneFSeg x /\ ~ heap_used (t_heap s) x /\ heap_used (t_heap s') x).

(** The four writes, into a block of the zone. *)
Definition mp_writes (m : mem) (pos newpos : Z) : mem :=
  let length := mp_length m pos in
  let m1 := memcpy m newpos pos length in
  let m2 := store32 m1 (newpos + 4) (u32 (newpos + length)) in
  let m3 := store8 m2 (newpos + 10) (m2 (newpos + 10) - checksum m2 newpos sizeof_mptable_floating) in
  memcpy m3 (newpos + length) (load32 m3 (pos + 4)) (mpc_length m pos).

Lemma mp_writes_spec m pos newpos :
  mem_ok m -> mp_source m pos -> load32 m (pos + 4) <> 0 ->
  0 < newpos -> newpos + mp_length m pos + mpc_length m pos <= 0x100000 ->
  load32 m pos = MPTABLE_SIGNATURE ->
  let m' := mp_writes m pos newpos in
  let length := mp_length m pos in
  mem_ok m' /\
  (forall x, x < newpos \/ newpos + length + mpc_length m pos <= x -> m' x = m x) /\
  load32 m' newpos = MPTABLE_SIGNATURE /\ load32 m' (newpos + 4) = newpos + length /\
  checksum m' newpos sizeof_mptable_floating = 0 /\
  (forall i, 0 <= i < mpc_length m pos -> m' (newpos + length + i) = m (load32 m (pos + 4) + i)).
Proof.
  intros Hm (Hpos & Hfit & Hlen & Hphys) Hp0 Hnew Hend Hsig. cbv zeta. unfold mp_writes. cbv zeta.
  pose proof (Hm (pos + 8)) as Hl8. pose proof (load_fits 2 m (load32 m (pos + 4) + 4) Hm) as Hc.
  pose proof (load_fits 4 m (pos + 4) Hm) as Hp. unfold fits in *.
  change (2 ^ (8 * Z.of_nat 2)) with 65536 in Hc. change (2 ^ (8 * Z.of_nat 4)) with (2 ^ 32) in Hp.
  fold (mpc_length m pos) in Hc. set (L := mp_length m pos) in *. set (C := mpc_length m pos) in *.
  assert (HL : 16 <= L) by (subst L; unfold mp_length; lia).
  set (m1 := memcpy m newpos pos L).
  assert (H1 : m1 ≡ Libc.block_copy m newpos pos (Z.to_nat L)) by (apply memcpy_spec; (done || unfold fits; lia)).
  assert (Hok1 : mem_ok m1) by (eapply mem_ok_equiv; [symmetry; exact H1|by apply Libc.block_copy_ok]).
  assert (Hout1 : forall x, x < newpos \/ newpos + L <= x -> m1 x = m x).
  { intros x Hx. rewrite (H1 x). unfold Libc.block_copy. ztests; done. }
  set (m2 := store32 m1 (newpos + 4) (u32 (newpos + L))). set (m3 := store8 m2 _ _).
  assert (Hok2 : mem_ok m2) by by apply store_ok. assert (Hok3 : mem_ok m3) by by apply store8_ok.
  assert (Hout3 : forall x, x < newpos \/ newpos + L <= x -> m3 x = m x).
  { intros x Hx. unfold m3, m2. rewrite store8_ne, store_out by lia. auto. }
  assert (Hphys3 : load32 m3 (pos + 4) = load32 m (pos + 4)) by (apply load_ext; intros; apply Hout3; lia).
  rewrite Hphys3. set (m4 := memcpy m3 (newpos + L) (load32 m (pos + 4)) C).
  assert (H4 : m4 ≡ Libc.block_copy m3 (newpos + L) (load32 m (pos + 4)) (Z.to_nat C))
    by (apply memcpy_spec; (done || unfold fits; lia)).
  assert (Hlow4 : forall x, x < newpos + L \/ newpos + L + C <= x -> m4 x = m3 x).
  { intros x Hx. rewrite (H4 x). unfold Libc.block_copy. ztests; done. }
  split; [eapply mem_ok_equiv; [symmetry; exact H4|by apply Libc.block_copy_ok]|].
  split; [intros x Hx; rewrite Hlow4 by lia; apply Hout3; lia|].
  assert (Hld : forall n a, a + Z.of_nat n <= newpos + L -> load n m4 a = load n m3 a)
    by (intros n a Ha; apply load_ext; intros x Hx; apply Hlow4; lia).
  split; [|split; [|split]].
  - rewrite Hld by lia. unfold m3, m2. loads. rewrite <- Hsig. unfold load. f_equal.
    apply load_bytes_shift. intros i Hi. rewrite (H1 (newpos + i)). unfold Libc.block_copy.
    ztests. f_equal. lia.
  - rewrite Hld by lia. unfold m3, m2. loads. rewrite !wrap_small; [done|unfold fits..].
    + change (8 * Z.of_nat 4) with 32. lia.
    + change (8 * Z.of_nat 4) with 32. rewrite wrap_small; unfold fits; lia.
  - rewrite checksum_spec by (unfold fits, sizeof_mptable_floating; lia).
    rewrite (byte_sum_ext m4 m3 newpos newpos) by (intros i Hi; apply Hlow4; unfold sizeof_mptable_floating in *; lia).
    rewrite <- checksum_spec by (unfold fits, sizeof_mptable_floating; lia).
    apply (fix_checksum m2 newpos 16 10 Hok2); lia.
  - intros i Hi. rewrite (H4 (newpos + L + i)). unfold Libc.block_copy. ztests.
    rewrite Hout3 by lia. f_equal. lia.
Qed.

(** A valid floating structure with a configuration table, both together small
    enough for the F segment. *)
Definition mp_valid (m : mem) (pos : Z) : Prop :=
  load32 m pos = MPTABLE_SIGNATURE /\ load32 m (pos + 4) <> 0 /\ checksum m pos sizeof_mptable_floating = 0 /\
  mp_length m pos + mpc_length m pos <= BUILD_MAX_MPTABLE_FSEG.

(** A valid one is copied, unless there is no room. *)
Definition mp_placed (s s' : tables) (pos : Z) : Prop :=
  mp_valid (t_mem s) pos -> (exists newpos, mp_copied s s' pos newpos) \/
    s' = s /\ ~ has_room (t_heap s) (mp_length (t_mem s) pos + mpc_length (t_mem s) pos).

Lemma mp_same s pos :
  sound s -> ~ mp_valid (t_mem s) pos ->
  kept s s /\ mp_placed s s pos /\ (~ mp_valid (t_mem s) pos -> s = s).
Proof. intros Hs Hno. split; [by apply kept_refl|]. by split; [intros ?|]. Qed.

Lemma copy_mptable_spec pos s :
  sound s -> (load32 (t_mem s) pos = MPTABLE_SIGNATURE -> mp_source (t_mem s) pos) ->
  kept s (copy_mptable pos s) /\ mp_placed s (copy_mptable pos s) pos /\
  (~ mp_valid (t_mem s) pos -> copy_mptable pos s = s).
Proof.
  intros Hs Hmp. unfold copy_mptable.
  destruct (Z.eqb_spec (load32 (t_mem s) pos) MPTABLE_SIGNATURE) as [Hsig|]; cbn [negb];
    [|apply mp_same; [done|by intros (? & _)]].
  specialize (Hmp Hsig).
  destruct (Z.eqb_spec (load32 (t_mem s) (pos + 4)) 0) as [|Hp0]; [apply mp_same; [done|by intros (_ & ? & _)]|].
  destruct (Z.eqb_spec (checksum (t_mem s) pos sizeof_mptable_floating) 0) as [Hsum|]; cbn [negb];
    [|apply mp_same; [done|by intros (_ & _ & ? & _)]].
  change (t_mem s (pos + 8) * 16) with (mp_length (t_mem s) pos).
  change (load16 (t_mem s) (load32 (t_mem s) (pos + 4) + 4)) with (mpc_length (t_mem s) pos).
  destruct (Z.ltb_spec BUILD_MAX_MPTABLE_FSEG (mp_length (t_mem s) pos + mpc_length (t_mem s) pos))
    as [|Hmax]; [apply mp_same; [done|intros (_ & _ & _ & ?); lia]|].
  assert (Hvalid : mp_valid (t_mem s) pos) by (by repeat split).
  destruct Hs as [Hh Hm]. unfold malloc_fseg, _malloc.
  pose proof (load_fits 2 (t_mem s) (load32 (t_mem s) (pos + 4) + 4) Hm) as [Hc _].
  assert (HL : 16 <= mp_length (t_mem s) pos) by (destruct Hmp as (_ & _ & ? & _); unfold mp_length; lia).
  change (0 <= mpc_length (t_mem s) pos) in Hc. unfold BUILD_MAX_MPTABLE_FSEG in Hmax.
  set (N := mp_length (t_mem s) pos + mpc_length (t_mem s) pos) in *.
  pose proof (palloc_fits R (t_heap s) ZoneFSeg N MALLOC_MIN_ALIGN Hh align_min ltac:(lia) ltac:(done)) as Hroom.
  pose proof (palloc_grants R R_apart (t_heap s) ZoneFSeg N MALLOC_MIN_ALIGN Hh align_min ltac:(lia)) as Hg.
  destruct (malloc_palloc _ _ _ _) as [newpos h']. destruct Hg as (Hh' & Hz & Hg).
  destruct (Z.eqb_spec newpos 0) as [->|Hne].
  { assert (mkTables (t_mem s) h' (PirAddr s) (RsdpAddr s) (SMBios21Addr s) (SMBios30Addr s) = s) as ->
      by (rewrite Hz by done; by destruct s).
    split; [by apply kept_refl|]. split; [|done]. intros _. right. split; [done|].
    intros [? ?]. by apply Hroom. }
  destruct (Hg Hne) as (Hp & Hal & Hfree & (zt & d & _ & _ & Hused) & _).
  assert (Hlow : newpos + N <= 0x100000).
  { destruct (Hfree (newpos + N - 1) ltac:(lia)) as [Hr _]. apply fseg_low in Hr. lia. }
  destruct (mp_writes_spec (t_mem s) pos newpos Hm Hmp Hp0 Hp ltac:(lia) Hsig)
    as (Hok' & Hout & W1 & W2 & W3 & W4).
  fold (mp_writes (t_mem s) pos newpos). split.
  - split; [done|]. split; [done|]. split; [|intros x Hx; apply Hused; auto].
    cbn [t_mem]. intros x Hx. destruct (decide (newpos <= x < newpos + N)) as [Hin|Hno]; [|apply Hout; lia].
    exfalso. destruct (Hfree x Hin) as (Hr & _ & Hn). by destruct Hx.
  - split; [|done]. intros _. left. exists newpos. do 5 (split; [done|]). intros x Hx.
    destruct (Hfree x ltac:(lia)) as (Hr & _ & Hn). split; [done|]. split; [done|]. apply Hused. right. left. lia.
Qed.

(** The multiprocessor table is copied into free memory of the F segment as
    one block, and the copy is valid: the floating structure has its
    signature, points to the configuration table that follows it, which is the
    original byte for byte, and its checksum is mended for the new pointer. *)
Lemma mptable_copy_valid pos s :
  sound s -> mp_source (t_mem s) pos -> mp_valid (t_mem s) pos ->
  has_room (t_heap s) (mp_length (t_mem s) pos + mpc_length (t_mem s) pos) ->
  kept s (copy_mptable pos s) /\ exists newpos, mp_copied s (copy_mptable pos s) pos newpos.
Proof.
  intros Hs Hmp Hv Hroom. destruct (copy_mptable_spec pos s Hs ltac:(done)) as (Hk & Hp & _).
  split; [done|]. destruct (Hp Hv) as [|[_ []]]; done.
Qed.

(** ** All tables *)

(** What is above the F segment never changes. *)
Lemma kept_above s s' pos x : kept s s' -> 0x100000 <= pos -> pos <= x -> t_mem s' x = t_mem s x.
Proof. intros (_ & _ & Hm & _) Hp Hx. apply Hm. left. intros Hr%fseg_low. lia. Qed.

Ltac other_variable := intros; unfold copy_pir, copy_mptable, copy_acpi_rsdp, copy_smbios_21, copy_smbios_30;
  repeat (case_match; try done).

Lemma copy_pir_others pos s :
  RsdpAddr (copy_pir pos s) = RsdpAddr s /\ SMBios21Addr (copy_pir pos s) = SMBios21Addr s /\
  SMBios30Addr (copy_pir pos s) = SMBios30Addr s.
Proof. other_variable. Qed.

Lemma copy_mptable_others pos s :
  PirAddr (copy_mptable pos s) = PirAddr s /\ RsdpAddr (copy_mptable pos s) = RsdpAddr s /\
  SMBios21Addr (copy_mptable pos s) = SMBios21Addr s /\ SMBios30Addr (copy_mptable pos s) = SMBios30Addr s.
Proof. other_variable. Qed.

Lemma copy_rsdp_others pos s :
  PirAddr (copy_acpi_rsdp pos s) = PirAddr s /\ SMBios21Addr (copy_acpi_rsdp pos s) = SMBios21Addr s /\
  SMBios30Addr (copy_acpi_rsdp pos s) = SMBios30Addr s.
Proof. other_variable. Qed.

Lemma copy_smbios_21_others pos s :
  PirAddr (copy_smbios_21 pos s) = PirAddr s /\ RsdpAddr (copy_smbios_21 pos s) = RsdpAddr s /\
  SMBios30Addr (copy_smbios_21 pos s) = SMBios30Addr s.
Proof. other_variable. Qed.

Lemma copy_smbios_30_others pos s :
  PirAddr (copy_smbios_30 pos s) = PirAddr s /\ RsdpAddr (copy_smbios_30 pos s) = RsdpAddr s /\
  SMBios21Addr (copy_smbios_30 pos s) = SMBios21Addr s.
Proof. other_variable. Qed.

(** The signatures exclude each other: at most one of the steps does anything. *)
Definition RSDP_FIRST : Z := 0x20445352.
Definition SM3_FIRST : Z := 0x334d535f.

Lemma rsdp_signature m pos : mem_ok m -> load64 m pos = RSDP_SIGNATURE -> load32 m pos = RSDP_FIRST.
Proof.
  intros Hm H. rewrite <- (load_prefix 4 8) by (done || lia). by rewrite H.
Qed.

Lemma sm3_signature m pos : load_bytes m pos 5 = anchor_sm3 -> load32 m pos = SM3_FIRST.
Proof.
  intros H. unfold load. change 5%nat with (4 + 1)%nat in H. rewrite load_bytes_app in H.
  cbn [load_bytes app] in H |- *. injection H as -> -> -> -> _. done.
Qed.

(** A step with another signature in front of it does nothing. *)
Lemma copies_skip pos s :
  sound s -> 0x100000 <= pos -> fits 32 pos ->
  let sig := load32 (t_mem s) pos in
  (sig <> PIR_SIGNATURE -> copy_pir pos s = s) /\
  (sig <> MPTABLE_SIGNATURE -> copy_mptable pos s = s) /\
  (sig <> RSDP_FIRST -> copy_acpi_rsdp pos s = s) /\
  (sig <> SMBIOS_21_SIGNATURE -> copy_smbios_21 pos s = s) /\
  (sig <> SM3_FIRST -> copy_smbios_30 pos s = s).
Proof.
  intros Hs Hpos Hfit sig. split; [|split; [|split; [|split]]]; intros Hne.
  - apply (copy_pir_places pos s Hs Hpos Hfit). right. by intros (? & _).
  - apply (copy_mptable_spec pos s Hs ltac:(done)). by intros (? & _).
  - apply (copy_rsdp_places pos s Hs Hpos Hfit). right. intros (H & _). apply Hne, rsdp_signature; [apply Hs|done].
  - apply (copy_smbios_21_places pos s Hs Hpos Hfit). right. by intros (? & _).
  - apply (copy_smbios_30_places pos s Hs Hpos Hfit). right. intros (H & _). by apply Hne, sm3_signature.
Qed.

(** So [copy_table] is the one step that the signature selects. *)
Lemma copy_table_step pos s :
  sound s -> 0x100000 <= pos -> fits 32 pos ->
  (load32 (t_mem s) pos = MPTABLE_SIGNATURE -> mp_source (t_mem s) pos) ->
  copy_table pos s =
    let sig := load32 (t_mem s) pos in
    if sig =? PIR_SIGNATURE then copy_pir pos s else if sig =? MPTABLE_SIGNATURE then copy_mptable pos s
    else if sig =? RSDP_FIRST then copy_acpi_rsdp pos s
    else if sig =? SMBIOS_21_SIGNATURE then copy_smbios_21 pos s else copy_smbios_30 pos s.
Proof.
  intros Hs Hpos Hfit Hmp. cbv zeta. unfold copy_table.
  assert (Hskip : forall s', kept s s' -> let sig := load32 (t_mem s) pos in
    (sig <> PIR_SIGNATURE -> copy_pir pos s' = s') /\ (sig <> MPTABLE_SIGNATURE -> copy_mptable pos s' = s') /\
    (sig <> RSDP_FIRST -> copy_acpi_rsdp pos s' = s') /\ (sig <> SMBIOS_21_SIGNATURE -> copy_smbios_21 pos s' = s') /\
    (sig <> SM3_FIRST -> copy_smbios_30 pos s' = s')).
  { intros s' Hk. cbv zeta. rewrite <- (load_ext 4 (t_mem s') (t_mem s)) by (intros x Hx; apply (kept_above s s' pos); (done || lia)).
    apply copies_skip; [by eapply kept_sound|done|done]. }
  destruct (Hskip s (kept_refl s Hs)) as (S1 & S2 & S3 & S4 & S5).
  destruct (Z.eqb_spec (load32 (t_mem s) pos) PIR_SIGNATURE) as [E|N1].
  { destruct (Hskip _ (proj1 (copy_pir_places pos s Hs Hpos Hfit))) as (_ & -> & -> & -> & ->); by rewrite ?E. }
  rewrite S1 by done. destruct (Z.eqb_spec (load32 (t_mem s) pos) MPTABLE_SIGNATURE) as [E|N2].
  { destruct (Hskip _ (proj1 (copy_mptable_spec pos s Hs Hmp))) as (_ & _ & -> & -> & ->); by rewrite ?E. }
  rewrite S2 by done. destruct (Z.eqb_spec (load32 (t_mem s) pos) RSDP_FIRST) as [E|N3].
  { destruct (Hskip _ (proj1 (copy_rsdp_places pos s Hs Hpos Hfit))) as (_ & _ & _ & -> & ->); by rewrite ?E. }
  rewrite S3 by done. destruct (Z.eqb_spec (load32 (t_mem s) pos) SMBIOS_21_SIGNATURE) as [E|N4].
  { destruct (Hskip _ (proj1 (copy_smbios_21_places pos s Hs Hpos Hfit))) as (_ & _ & _ & _ & ->); by rewrite ?E. }
  by rewrite S4.
Qed.

(** Nothing to publish for a table that is not valid. *)
Lemma placed_other s s' pos valid n addr : ~ valid -> addr s' = addr s -> placed s s' pos valid n addr.
Proof. intros Hno E. split; [done|]. intros _ Hv. by destruct Hno. Qed.

(** The signature of each valid table. *)
Lemma valid_signatures m pos :
  mem_ok m ->
  let sig := load32 m pos in
  (pir_valid m pos -> sig = PIR_SIGNATURE) /\ (mp_valid m pos -> sig = MPTABLE_SIGNATURE) /\
  (rsdp_valid m pos -> sig = RSDP_FIRST) /\ (smbios_21_valid m pos -> sig = SMBIOS_21_SIGNATURE) /\
  (smbios_30_valid m pos -> sig = SM3_FIRST).
Proof.
  intros Hm. split; [by intros (? & _)|]. split; [by intros (? & _)|].
  split; [intros (? & _); by apply rsdp_signature|]. split; [by intros (? & _)|].
  intros (? & _). by apply sm3_signature.
Qed.

(** What [copy_table] leaves of a state. *)
Definition tables_placed (s s' : tables) (pos : Z) : Prop :=
  let m := t_mem s in
  kept s s' /\
  placed s s' pos (pir_valid m pos) (pir_length m pos) PirAddr /\
  placed s s' pos (rsdp_valid m pos) (rsdp_length m pos) RsdpAddr /\
  placed s s' pos (smbios_21_valid m pos) (smbios_21_length m pos) SMBios21Addr /\
  placed s s' pos (smbios_30_valid m pos) (smbios_30_length m pos) SMBios30Addr /\
  mp_placed s s' pos.

Ltac by_signature Hv :=
  match type of Hv with ?v => match goal with V : v -> _ = _ |- _ => specialize (V Hv); first [congruence|discriminate] end end.
Ltac no_table :=
  match goal with
  | H : ?v -> ?a <> 0 |- ?a <> 0 \/ ~ ?v => destruct (decide (a = 0)); [right; tauto|by left]
  | |- placed _ _ _ _ _ _ => first [assumption | apply placed_other; [intros Hv; by_signature Hv|done]]
  | |- mp_placed _ _ _ => first [assumption | intros Hv; by_signature Hv]
  | |- _ => assumption
  end.


End Publish.

(** The SMBIOS 3 entry point, which CSMWrap hands over when the firmware
    has no other, is never accepted by [copy_smbios_21]: nothing is published. *)
Lemma smbios_30_entry_ignored pos s :
  valid_smbios_30_signature (t_mem s) pos = true -> copy_smbios_21 pos s = s.
Proof.
  intros H. unfold valid_smbios_30_signature in H. apply bool_decide_eq_true in H.
  unfold copy_smbios_21. destruct (negb (SMBios21Addr s =? 0)); [done|].
  assert (Hsig : load32 (t_mem s) pos = 0x334d535f).
  { unfold load. change 5%nat with (4 + 1)%nat in H. rewrite load_bytes_app in H.
    cbn [load_bytes app] in H |- *. injection H as -> -> -> -> _. done. }
  by rewrite Hsig.
Qed.

(** * Finding tables *)

(** The entry names a table below 4 GiB with the signature. *)
Definition entry_matches (width : nat) (m : mem) (signature entry : Z) : Prop :=
  load width m entry < 0x100000000 /\ load width m entry <> 0 /\
  load32 m (load width m entry) = signature.

(** The loop over the entries of a root table ends, and answers with the first
    entry that matches. *)
Lemma find_entry_spec fuel width m entry stop signature :
  (0 < width)%nat -> (0 < fuel)%nat -> stop - entry <= Z.of_nat width * (Z.of_nat fuel - 1) ->
  (exists k, 0 <= k /\ entry + Z.of_nat width * k < stop /\
     find_entry fuel width m entry stop signature = Some (Some (load width m (entry + Z.of_nat width * k))) /\
     entry_matches width m signature (entry + Z.of_nat width * k) /\
     forall j, 0 <= j < k -> ~ entry_matches width m signature (entry + Z.of_nat width * j)) \/
  (find_entry fuel width m entry stop signature = Some None /\
   forall j, 0 <= j -> entry + Z.of_nat width * j < stop ->
     ~ entry_matches width m signature (entry + Z.of_nat width * j)).
Proof.
  intros Hw. revert entry. induction fuel as [|fuel IH]; intros entry Hpos Hf; [lia|].
  cbn [find_entry]. destruct (Z.ltb_spec entry stop) as [Hlt|Hge].
  2:{ right. split; [done|]. intros; lia. }
  assert (Hdec : (0x100000000 <=? load width m entry) || (load width m entry =? 0) ||
            negb (load32 m (load width m entry) =? signature) = false <->
            entry_matches width m signature entry).
  { unfold entry_matches. rewrite !orb_false_iff, negb_false_iff, Z.leb_gt, Z.eqb_neq, Z.eqb_eq. tauto. }
  destruct (_ || _) eqn:Hb.
  - assert (Hno : ~ entry_matches width m signature entry) by (intros ?%Hdec; done).
    assert (Hshift : forall j, entry + Z.of_nat width + Z.of_nat width * j =
              entry + Z.of_nat width * (j + 1)) by lia.
    destruct fuel as [|fuel]; [lia|].
    destruct (IH (entry + Z.of_nat width)) as [(k & Hk & Hs & He & Hm & Hall)|[He Hall]]; [lia|lia| |].
    + left. exists (k + 1). rewrite Hshift in *. split; [lia|]. split; [done|]. split; [done|].
      split; [done|]. intros j Hj. destruct (decide (j = 0)) as [->|]; [by rewrite Z.mul_0_r, Z.add_0_r|].
      specialize (Hall (j - 1) ltac:(lia)). rewrite Hshift in Hall. by replace (j - 1 + 1) with j in Hall by lia.
    + right. split; [done|]. intros j Hj Hs.
      destruct (decide (j = 0)) as [->|]; [by rewrite Z.mul_0_r, Z.add_0_r|].
      specialize (Hall (j - 1) ltac:(lia)). rewrite Hshift in Hall. replace (j - 1 + 1) with j in Hall by lia.
      by apply Hall.
  - left. exists 0. rewrite Z.mul_0_r, Z.add_0_r. split; [lia|]. split; [done|]. split; [done|].
    split; [by apply Hdec|]. intros; lia.
Qed.

(** The end of a structure's strings is found within the blob. *)
Lemma skip_strings_spec fuel m prev stop :
  stop - prev < Z.of_nat fuel -> 0 < Z.of_nat fuel ->
  exists p, skip_strings fuel m prev stop = Some p /\ prev <= p.
Proof.
  revert prev. induction fuel as [|fuel IH]; intros prev Hf Hpos; [lia|]. cbn [skip_strings].
  destruct (Z.ltb_spec prev stop) as [Hlt|Hge]; cbn [andb]; [|by exists prev].
  destruct (_ || _); [|by exists prev].
  destruct (IH (prev + 1)) as (p & Hp & Hle); [lia|lia|]. exists p. split; [done|lia].
Qed.

Lemma smbios_check_spec m prev stop p :
  smbios_check m prev stop = Some p -> p = prev /\ prev + 4 < stop /\ prev + m (prev + 1) < stop.
Proof.
  unfold smbios_check. destruct (Z.leb_spec stop prev); [done|].
  destruct (Z.leb_spec stop (prev + 4)); [done|].
  destruct (Z.leb_spec stop (prev + m (prev + 1))); [done|]. intros [= <-]. lia.
Qed.

(** Walking the SMBIOS structures ends and stays inside the blob: a call
    returns, and what it returns is a structure whose header and formatted
    area lie within the blob, strictly after the one before it, so that at
    most [length] calls are made. *)
Lemma smbios_next_progress fuel m start length prev :
  mem_ok m -> 0 < start -> 0 <= length < Z.of_nat fuel -> prev = 0 \/ start <= prev ->
  exists r, smbios_next fuel m start length prev = Some r /\
    forall p, r = Some p ->
      start <= p /\ prev < p /\ p + 4 < start + length /\ p + m (p + 1) < start + length.
Proof.
  intros Hm Hs Hl Hprev. unfold smbios_next. rewrite (proj2 (Z.eqb_neq start 0)) by lia.
  destruct (Z.eqb_spec prev 0) as [->|Hne].
  - eexists. split; [reflexivity|]. intros p (-> & H1 & H2)%smbios_check_spec. lia.
  - destruct (Z.ltb_spec (start + length) (prev + 4)); [by eexists|].
    pose proof (Hm (prev + 1)) as Hb. unfold fits in Hb.
    destruct (skip_strings_spec fuel m (prev + (m (prev + 1) + 2)) (start + length)) as (q & -> & Hq); [lia..|].
    eexists. split; [reflexivity|]. intros p (-> & H1 & H2)%smbios_check_spec. lia.
Qed.

(** * Instances *)

(** An F-segment zone of 16 KB next to the memory handed over at start. *)
Definition fseg_R : regions := add_region sample_R ZoneFSeg 0xF0000 0xF4000.
Definition fseg_heap : heap := alloc_add sample_heap ZoneFSeg 0xF0000 0xF4000.

Lemma fseg_low_sample a : fseg_R ZoneFSeg a -> 0 < a < 0x100000.
Proof. unfold fseg_R, add_region, sample_R, donated. intros [[]|[_ ?]]; lia. Qed.

Lemma fseg_sample_ok : regions_apart fseg_R /\ heap_ok fseg_R fseg_heap.
Proof.
  apply (add_step sample_R fseg_R sample_heap ZoneFSeg 0xF0000 0xF4000);
    [exact (proj1 sample_heap_ok)|exact (proj2 sample_heap_ok)| |done].
  unfold fresh_region, sample_R, donated, BUILD_MIN_HIGHTABLE.
  split; [lia|]. split; [lia|]. intros [] a Ha; simpl; lia.
Qed.

(** A floating structure at 2 MB whose configuration table, of 44 bytes, is
    at 0x200100, and an SMBIOS 3 anchor at 3 MB. *)
Definition table_mem : mem :=
  store_bytes (store16 (store32 (store8 (store8 (store32 (store32 (fun _ => 0)
    0x200000 MPTABLE_SIGNATURE) 0x200004 0x200100) 0x200008 1) 0x20000a 0x83)
    0x200100 0x504d4350) 0x200104 44) 0x300000 anchor_sm3.

Definition table_state : tables := mkTables table_mem fseg_heap 0 0 0 0.

Lemma table_mem_ok : mem_ok table_mem.
Proof.
  unfold table_mem. apply store_bytes_ok. repeat first [apply store8_ok|apply store_ok].
  intros a. unfold fits. lia.
Qed.

Lemma table_state_sound : sound fseg_R table_state.
Proof. split; [exact (proj2 fseg_sample_ok)|exact table_mem_ok]. Qed.

Lemma table_mp_source : mp_source table_mem 0x200000.
Proof.
  assert (table_mem 0x200008 = 1 /\ load32 table_mem 0x200004 = 0x200100) as [H1 H2]
    by (split; vm_compute; reflexivity).
  unfold mp_source. change (0x200000 + 8) with 0x200008. change (0x200000 + 4) with 0x200004.
  rewrite H1, H2. unfold fits. lia.
Qed.

Lemma table_room n : 0 <= n <= 1000 -> has_room fseg_heap n.
Proof.
  intros Hn. unfold has_room, room, MALLOC_MIN_ALIGN. split.
  - exists (default (mkInfo (InTemp DataInfo) 0 0 0) (last (get fseg_heap ZoneFSeg))).
    split; [left; vm_compute; reflexivity|]. vm_compute alloc_end. vm_compute range_end. lia.
  - exists (default (mkInfo (InTemp DataInfo) 0 0 0) (last (get fseg_heap ZoneTmpHigh))).
    split; [vm_compute; tauto|vm_compute; congruence].
Qed.

Lemma mptable_copy_valid_witness :
  exists newpos, mp_copied fseg_R table_state (copy_mptable 0x200000 table_state) 0x200000 newpos.
Proof.
  apply (mptable_copy_valid fseg_R (proj1 fseg_sample_ok) fseg_low_sample 0x200000 table_state
              table_state_sound table_mp_source).
  - split_and!; vm_compute; congruence.
  - apply table_room. vm_compute. split; congruence.
Defined.

(** A PIR table of 32 bytes at 4 MB. *)
Definition pir_mem : mem := store8 (store16 (store32 (fun _ => 0) 0x400000 PIR_SIGNATURE) 0x400006 32) 0x40001f 0xD1.
Definition pir_state : tables := mkTables pir_mem fseg_heap 0 0 0 0.

Lemma pir_state_sound : sound fseg_R pir_state.
Proof.
  split; [exact (proj2 fseg_sample_ok)|]. unfold pir_state, pir_mem. cbn [t_mem].
  repeat first [apply store8_ok|apply store_ok]. intros a. unfold fits. lia.
Qed.


Lemma smbios_30_entry_ignored_witness : copy_smbios_21 0x300000 table_state = table_state.
Proof. apply (smbios_30_entry_ignored 0x300000 table_state). vm_compute. reflexivity. Defined.

(** Two structures of four bytes, each ended by two zeros. *)
Definition smbios_mem : mem := store_bytes (fun _ => 0) 0x1000 [0; 4; 0; 0; 0; 0; 127; 4; 1; 0; 0; 0; 0].

Lemma smbios_next_progress_witness :
  exists r, smbios_next 100 smbios_mem 0x1000 13 0x1000 = Some r /\
    forall p, r = Some p -> 0x1000 < p.
Proof.
  destruct (smbios_next_progress 100 smbios_mem 0x1000 13 0x1000) as (r & Hr & Hp).
  - unfold smbios_mem. apply store_bytes_ok. intros a. unfold fits. lia.
  - lia.
  - lia.
  - right. lia.
  - exists r. split; [exact Hr|]. intros p He. apply (Hp p He).
Defined.
