(* ===== verification/SeaCsm.v ===== *)
(** The compatibility module of SeaBIOS ([seabios/src/fw/csm.c]): the entry
    points CSMWrap calls with a function number in AX and a table in ES:BX.

    The state puts together the parts the other files model: memory with the
    published tables and the allocator ([SeaTables]), the option ROM area
    ([SeaRom]) and the E820 map ([SeaE820]).  Driver code the handlers call
    (interfaces, devices, option ROMs, the boot itself) is a parameter. *)

From stdpp Require Import base numbers list gmap.
From Stdlib Require Import ZArith Lia.
From S2P Require Import Prelude Memory E820 SeaE820 SeaZone SeaMalloc SeaPmm SeaRom SeaString SeaTables.

(** * State *)

(** The registers of [struct bregs] the handlers use. *)
Record bregs := mkRegs { r_ax : Z; r_bx : Z; r_cx : Z; r_dx : Z; r_ds : Z; r_es : Z }.

Definition set_ax (v : Z) (r : bregs) : bregs :=
  mkRegs v (r_bx r) (r_cx r) (r_dx r) (r_ds r) (r_es r).
Definition set_bx (v : Z) (r : bregs) : bregs :=
  mkRegs (r_ax r) v (r_cx r) (r_dx r) (r_ds r) (r_es r).
Definition set_ds (v : Z) (r : bregs) : bregs :=
  mkRegs (r_ax r) (r_bx r) (r_cx r) (r_dx r) v (r_es r).
Definition set_al (v : Z) (r : bregs) : bregs := set_ax (Z.lor (Z.ldiff (r_ax r) 0xff) (u8 v)) r.

Record csm := mkCsm {
  c_tables : tables;
  c_RomEnd : Z;
  c_RomBase : info_ref;
  c_e820 : Array.low_map;
  csm_init_table : Z;
  csm_boot_table : Z;
  PICMask : Z;
  mmconfig : Z;            (* the base given to [pci_enable_mmconfig], 0 before *)
  c_acpi : acpi_vars;
  LegacyRamSize : Z
}.

Definition c_mem (c : csm) : mem := t_mem (c_tables c).
Definition c_heap (c : csm) : heap := t_heap (c_tables c).
Definition c_rom (c : csm) : rom_state := mkRom (c_heap c) (c_RomEnd c) (c_RomBase c).

Definition with_tables (t : tables) (c : csm) : csm :=
  mkCsm t (c_RomEnd c) (c_RomBase c) (c_e820 c) (csm_init_table c) (csm_boot_table c) (PICMask c)
    (mmconfig c) (c_acpi c) (LegacyRamSize c).
Definition set_mem (m : mem) (t : tables) : tables :=
  mkTables m (t_heap t) (PirAddr t) (RsdpAddr t) (SMBios21Addr t) (SMBios30Addr t).
Definition set_heap (h : heap) (t : tables) : tables :=
  mkTables (t_mem t) h (PirAddr t) (RsdpAddr t) (SMBios21Addr t) (SMBios30Addr t).
Definition set_PirAddr (a : Z) (t : tables) : tables :=
  mkTables (t_mem t) (t_heap t) a (RsdpAddr t) (SMBios21Addr t) (SMBios30Addr t).
Definition set_RsdpAddr (a : Z) (t : tables) : tables :=
  mkTables (t_mem t) (t_heap t) (PirAddr t) a (SMBios21Addr t) (SMBios30Addr t).
Definition with_rom (r : rom_state) (c : csm) : csm :=
  mkCsm (set_heap (r_heap r) (c_tables c)) (RomEnd r) (RomBase r) (c_e820 c) (csm_init_table c)
    (csm_boot_table c) (PICMask c) (mmconfig c) (c_acpi c) (LegacyRamSize c).
Definition with_e820 (e : Array.low_map) (c : csm) : csm :=
  mkCsm (c_tables c) (c_RomEnd c) (c_RomBase c) e (csm_init_table c) (csm_boot_table c) (PICMask c)
    (mmconfig c) (c_acpi c) (LegacyRamSize c).
Definition with_init_table (a : Z) (c : csm) : csm :=
  mkCsm (c_tables c) (c_RomEnd c) (c_RomBase c) (c_e820 c) a (csm_boot_table c) (PICMask c)
    (mmconfig c) (c_acpi c) (LegacyRamSize c).
Definition with_boot_table (a : Z) (c : csm) : csm :=
  mkCsm (c_tables c) (c_RomEnd c) (c_RomBase c) (c_e820 c) (csm_init_table c) a (PICMask c)
    (mmconfig c) (c_acpi c) (LegacyRamSize c).
Definition with_PICMask (v : Z) (c : csm) : csm :=
  mkCsm (c_tables c) (c_RomEnd c) (c_RomBase c) (c_e820 c) (csm_init_table c) (csm_boot_table c) v
    (mmconfig c) (c_acpi c) (LegacyRamSize c).
Definition with_mmconfig (v : Z) (c : csm) : csm :=
  mkCsm (c_tables c) (c_RomEnd c) (c_RomBase c) (c_e820 c) (csm_init_table c) (csm_boot_table c)
    (PICMask c) v (c_acpi c) (LegacyRamSize c).
Definition with_acpi (v : acpi_vars) (c : csm) : csm :=
  mkCsm (c_tables c) (c_RomEnd c) (c_RomBase c) (c_e820 c) (csm_init_table c) (csm_boot_table c)
    (PICMask c) (mmconfig c) v (LegacyRamSize c).
Definition with_ram_size (v : Z) (c : csm) : csm :=
  mkCsm (c_tables c) (c_RomEnd c) (c_RomBase c) (c_e820 c) (csm_init_table c) (csm_boot_table c)
    (PICMask c) (mmconfig c) (c_acpi c) v.

(** * Far pointers and tables *)

Definition MAKE_FLATPTR (seg off : Z) : Z := u32 (u32 (Z.shiftl (u32 seg) 4) + u32 off).
Definition FLATPTR_TO_SEG (p : Z) : Z := Z.shiftr (u32 p) 4.
Definition FLATPTR_TO_OFFSET (p : Z) : Z := Z.land (u32 p) 0xf.

Definition pci_to_bdf (bus dev fn : Z) : Z :=
  u16 (Z.lor (Z.lor (Z.shiftl bus 8) (Z.shiftl dev 3)) fn).
Definition pci_bus_devfn_to_bdf (bus devfn : Z) : Z := u16 (Z.lor (Z.shiftl bus 8) devfn).

(** [EFI_TO_COMPATIBILITY16_INIT_TABLE], [..._BOOT_TABLE],
    [EFI_DISPATCH_OPROM_TABLE] and [EFI_COMPATIBILITY16_TABLE]. *)
Definition HiPmmMemory (m : mem) (t : Z) : Z := load32 m (t + 4).
Definition HiPmmMemorySizeInBytes (m : mem) (t : Z) : Z := load32 m (t + 8).
Definition LowPmmMemory (m : mem) (t : Z) : Z := load32 m (t + 32).
Definition LowPmmMemorySizeInBytes (m : mem) (t : Z) : Z := load32 m (t + 36).
Definition SmbiosTable (m : mem) (t : Z) : Z := load32 m (t + 8).
Definition NumberBbsEntries (m : mem) (t : Z) : Z := load32 m (t + 8425).
Definition BbsTable (m : mem) (t : Z) : Z := load32 m (t + 8429).
Definition OpromSegment (m : mem) (t : Z) : Z := load16 m (t + 4).
Definition OpromPciBus (m : mem) (t : Z) : Z := m (t + 6).
Definition OpromPciDeviceFunction (m : mem) (t : Z) : Z := m (t + 7).
Definition E820Pointer (m : mem) (t : Z) : Z := load32 m (t + 34).
Definition E820Length (m : mem) (t : Z) : Z := load32 m (t + 38).
Definition IrqRoutingTablePointer (m : mem) (t : Z) : Z := load32 m (t + 42).
Definition IrqRoutingTableLength (m : mem) (t : Z) : Z := load32 m (t + 46).
Definition PciExpressBase (m : mem) (t : Z) : Z := load32 m (t + 78).

(** [BBS_TABLE], 69 bytes. *)
Definition sizeof_BBS_TABLE : Z := 69.
Definition BootPriority (m : mem) (bbs : Z) : Z := load16 m bbs.
Definition BbsBus (m : mem) (bbs : Z) : Z := load32 m (bbs + 2).
Definition BbsDevice (m : mem) (bbs : Z) : Z := load32 m (bbs + 6).
Definition BbsFunction (m : mem) (bbs : Z) : Z := load32 m (bbs + 10).

(** [struct e820entry], 20 bytes. *)
Definition sizeof_e820entry : Z := 20.
Definition read_e820entry (m : mem) (a : Z) : EFI_E820_ENTRY64 :=
  mkE820 (load64 m a) (load64 m (a + 8)) (load32 m (a + 16)).

Definition SEG_BIOS : Z := 0xf000.

(** The linker symbols. *)
Record linker := mkLinker {
  code32init_start : Z;
  code32init_end : Z;
  reloc_min_align : Z;
  reloc_abs_start : Z;
  reloc_abs_end : Z;
  reloc_rel_start : Z;
  reloc_rel_end : Z;
  reloc_init_start : Z;
  reloc_init_end : Z;
  code32flat_start : Z;
  zonelow_base : Z;
  final_varlow_start : Z;
  varlow_start : Z;
  varlow_end : Z;
  zonefseg_start : Z;
  zonefseg_end : Z;
  final_readonly_start : Z;
  csm_compat_table : Z;
  csm_rsdp : Z
}.

(** * Relocation ([seabios/src/post.c]) *)

Definition memalign_tmp (h : heap) (align size : Z) : Z * heap :=
  let '(ret, h) := _malloc h ZoneTmpHigh size align in
  if negb (ret =? 0) then (ret, h) else _malloc h ZoneTmpLow size align.

(** [updateRelocs] over the words from [reloc] on. *)
Fixpoint updateRelocs (k : nat) (m : mem) (dest reloc delta : Z) : mem :=
  match k with
  | O => m
  | S k' =>
    let a := u32 (dest + load32 m reloc) in
    updateRelocs k' (store32 m a (u32 (load32 m a + delta))) dest (reloc + 4) delta
  end.

(** Driver code: the interrupt controllers' mask, the preparation for code
    that changes itself, the hypervisor probe, the PnP entry, the interfaces
    set up after the allocator with the PCI probe, an option ROM call, the
    console, the devices up to the end of [prepareboot], and the boot. *)
Record drivers := mkDrivers {
  pic_irqmask_read : csm -> Z;
  pic_irqmask_write : Z -> csm -> csm;
  code_mutable_preinit : csm -> csm;
  qemu_preinit : csm -> csm;
  get_pnp_offset : Z;
  interfaces : csm -> csm;
  callrom : Z -> Z -> csm -> csm;
  enable_vga_console : csm -> csm;
  prepare_devices : csm -> csm;
  startBoot : csm -> csm
}.

Section Csm.
Context (L : linker).

(** [reloc_preinit] up to the call of the relocated function; [None] for the
    panic. *)
Definition reloc_preinit (c : csm) : option csm :=
  let initsize := u32 (code32init_end L - code32init_start L) in
  let '(codedest, h) := memalign_tmp (c_heap c) (reloc_min_align L) initsize in
  if codedest =? 0 then None
  else
    let codesrc := code32init_start L in
    let delta := u32 (codedest - codesrc) in
    let m := memcpy (c_mem c) codedest codesrc initsize in
    let words start stop := Z.to_nat ((stop - start + 3) / 4) in
    let m := updateRelocs (words (reloc_abs_start L) (reloc_abs_end L)) m codedest (reloc_abs_start L) delta in
    let m := updateRelocs (words (reloc_rel_start L) (reloc_rel_end L)) m codedest (reloc_rel_start L)
               (u32 (- delta)) in
    let m := updateRelocs (words (reloc_init_start L) (reloc_init_end L)) m (code32flat_start L)
               (reloc_init_start L) delta in
    Some (with_tables (set_heap h (set_mem m (c_tables c))) c).

Context (D : drivers) (acpi_fuel : nat).

(** * Handlers *)

Definition csm_return (r : bregs) (c : csm) : bregs * csm :=
  let rommax := rom_get_max (c_rom c) in
  let m := store32 (c_mem c) (csm_compat_table L + 83) rommax in
  let m := store32 m (csm_compat_table L + 87) (u32 (final_readonly_start L - rommax)) in
  let c := with_tables (set_mem m (c_tables c)) c in
  (r, with_PICMask (pic_irqmask_read D c) c).

(** The memory [malloc_init] writes: the low variables are moved to their final
    place and the F-segment zone is cleared. *)
Definition malloc_init_memory (m : mem) : mem :=
  let m := memmove m (final_varlow_start L) (varlow_start L) (u32 (varlow_end L - varlow_start L)) in
  memset m (zonefseg_start L) 0 (Z.to_nat (u32 (zonefseg_end L - zonefseg_start L))).

(** [malloc_init], which [interface_init] calls first, on the whole state;
    [None] when the low zone could not be added, which leaves [RomBase] null. *)
Definition init_allocator (c : csm) : option csm :=
  match malloc_init (zonelow_base L) (final_varlow_start L) (c_heap c) (zonefseg_start L)
          (zonefseg_end L) (c_e820 c) with
  | (Some r, size) =>
    let c := with_ram_size size (with_rom r c) in
    Some (with_tables (set_mem (malloc_init_memory (c_mem c)) (c_tables c)) c)
  | (None, _) => None
  end.

Definition csm_maininit (r : bregs) (c : csm) : option (bregs * csm) :=
  match init_allocator c with
  | None => None
  | Some c =>
    let c := interfaces D c in
    let m := store16 (c_mem c) (csm_compat_table L + 16) SEG_BIOS in
    let m := store16 m (csm_compat_table L + 18) (get_pnp_offset D) in
    Some (csm_return (set_ax 0 r) (with_tables (set_mem m (c_tables c)) c))
  end.

(** The memory the init table donates. *)
Definition donate (c : csm) : csm :=
  let m := c_mem c in
  let t := csm_init_table c in
  with_tables (set_heap (malloc_csm_preinit (c_heap c) (LowPmmMemory m t) (LowPmmMemorySizeInBytes m t)
                           (HiPmmMemory m t) (HiPmmMemorySizeInBytes m t)) (c_tables c)) c.

(** Legacy16InitializeYourself; it returns through [csm_maininit]. *)
Definition handle_csm_0000 (r : bregs) (c : csm) : option (bregs * csm) :=
  let c := with_init_table (MAKE_FLATPTR (r_es r) (r_bx r)) (qemu_preinit D c) in
  match reloc_preinit (donate c) with
  | None => None
  | Some c => csm_maininit r c
  end.

(** Legacy16UpdateBbs. *)
Definition handle_csm_0001 (r : bregs) (c : csm) : bregs * csm :=
  (set_ax 0 r, with_boot_table (MAKE_FLATPTR (r_es r) (r_bx r)) c).

(** The entries at the E820 pointer, added one by one. *)
Fixpoint add_entries (k : nat) (m : mem) (p : Z) (e : Array.low_map) : Array.low_map :=
  match k with
  | O => e
  | S k' =>
    let en := read_e820entry m p in
    add_entries k' m (p + sizeof_e820entry)
      (SeaE820.e820_add e (BaseAddr en) (E820.Length en) (Type_ en))
  end.

(** The map after the loop and the reservation of the high table area. *)
Definition prepare_e820 (c : csm) : Array.low_map :=
  let m := c_mem c in
  let t := csm_compat_table L in
  let e := add_entries (Z.to_nat (E820Length m t / sizeof_e820entry)) m (E820Pointer m t) (c_e820 c) in
  let size := HiPmmMemorySizeInBytes m (csm_init_table c) in
  if BUILD_MIN_HIGHTABLE <? size then
    let hi_pmm_end := u32 (HiPmmMemory m (csm_init_table c) + size) in
    SeaE820.e820_add e (u32 (hi_pmm_end - BUILD_MIN_HIGHTABLE)) BUILD_MIN_HIGHTABLE E820_RESERVED
  else e.

(** The tables the compatibility table and the boot table name. *)
Definition prepare_pir (c : csm) : csm :=
  let m := c_mem c in
  let t := csm_compat_table L in
  if negb (IrqRoutingTablePointer m t =? 0) && negb (IrqRoutingTableLength m t =? 0) then
    with_tables (set_PirAddr (IrqRoutingTablePointer m t) (c_tables c)) c
  else c.

Definition prepare_mmconfig (c : csm) : csm :=
  let base := PciExpressBase (c_mem c) (csm_compat_table L) in
  if negb (base =? 0) then with_mmconfig base c else c.

Definition prepare_rsdp (c : csm) : option csm :=
  if load64 (c_mem c) (csm_rsdp L) =? RSDP_SIGNATURE then
    match find_acpi_features acpi_fuel (c_mem c) (csm_rsdp L) (c_acpi c) with
    | None => None
    | Some v => Some (with_acpi v (with_tables (set_RsdpAddr (csm_rsdp L) (c_tables c)) c))
    end
  else Some c.

Definition prepare_smbios (c : csm) : csm :=
  let p := SmbiosTable (c_mem c) (csm_boot_table c) in
  if negb (p =? 0) then with_tables (copy_smbios_21 p (c_tables c)) c else c.

(** PrepareToBoot.  The BDA's count of hard disks is cleared before the
    devices are set up.  The parse of the DSDT at the end of
    [find_acpi_features], which fills the drivers' device list, is part of
    [prepare_devices]. *)
Definition handle_csm_0002 (r : bregs) (c : csm) : option (bregs * csm) :=
  let c := with_e820 (prepare_e820 c) c in
  match prepare_rsdp (prepare_mmconfig (prepare_pir c)) with
  | None => None
  | Some c =>
    let c := enable_vga_console D (prepare_smbios c) in
    let c := with_tables (set_mem (store8 (c_mem c) (MAKE_FLATPTR 0x40 0x75) 0) (c_tables c)) c in
    Some (set_ax 0 r, prepare_devices D c)
  end.

(** Boot: it comes back only when the boot failed. *)
Definition handle_csm_0003 (r : bregs) (c : csm) : bregs * csm := (set_ax 1 r, startBoot D c).

(** Legacy16DispatchOprom.  The size is the byte at offset 2 of the ROM
    header, read again after the call. *)
Definition handle_csm_0005 (r : bregs) (c : csm) : bregs * csm :=
  let table := MAKE_FLATPTR (r_es r) (r_bx r) in
  let rom := MAKE_FLATPTR (OpromSegment (c_mem c) table) 0 in
  let bdf := pci_bus_devfn_to_bdf (OpromPciBus (c_mem c) table) (OpromPciDeviceFunction (c_mem c) table) in
  let c := with_rom (rom_reserve (zonelow_base L) (c_rom c) (c_mem c (rom + 2) * 512)).2 c in
  let c := callrom D rom bdf c in
  let c := with_rom (rom_confirm (zonelow_base L) (c_rom c) (c_mem c (rom + 2) * 512)).2 c in
  (set_ax 0 (set_bx 0 r), c).

(** The alignment of Legacy16GetTableAddress: the lowest bit of DX. *)
Definition table_align (dx : Z) : Z :=
  if dx =? 0 then MALLOC_MIN_ALIGN
  else
    let align := u16 (Z.shiftl 1 (ffs dx)) in
    if align <? MALLOC_MIN_ALIGN then MALLOC_MIN_ALIGN else align.

(** Legacy16GetTableAddress. *)
Definition handle_csm_0006 (r : bregs) (c : csm) : bregs * csm :=
  let size := r_cx r in
  let align := table_align (r_dx r) in
  let region := if r_bx r =? 0 then 3 else r_bx r in
  let '(chunk, h) :=
    if negb (Z.land region 2 =? 0) then _malloc (c_heap c) ZoneLow size align else (0, c_heap c) in
  let '(chunk, h) :=
    if (chunk =? 0) && negb (Z.land region 1 =? 0) then _malloc h ZoneFSeg size align else (chunk, h) in
  let c := with_tables (set_heap h (c_tables c)) c in
  if negb (chunk =? 0) then
    (set_ax 0 (set_bx (FLATPTR_TO_OFFSET chunk) (set_ds (u16 (FLATPTR_TO_SEG chunk)) r)), c)
  else (set_ax 1 r, c).

(** The dispatcher; [None] when a handler does not return. *)
Definition handle_csm (r : bregs) (c : csm) : option (bregs * csm) :=
  let ret x := Some (csm_return x.1 x.2) in
  let c := code_mutable_preinit D c in
  let c := pic_irqmask_write D (PICMask c) c in
  match r_ax r with
  | 0 => handle_csm_0000 r c
  | 1 => ret (handle_csm_0001 r c)
  | 2 => match handle_csm_0002 r c with None => None | Some x => ret x end
  | 3 => ret (handle_csm_0003 r c)
  | 5 => ret (handle_csm_0005 r c)
  | 6 => ret (handle_csm_0006 r c)
  | _ => ret (set_al 1 r, c)
  end.

(** * Boot priorities *)

Definition BBS_DO_NOT_BOOT_FROM : Z := 0xFFFC.
Definition BBS_IGNORE_ENTRY : Z := 0xFFFF.

Definition csm_prio_to_seabios (csm_prio : Z) : Z :=
  if (csm_prio =? BBS_DO_NOT_BOOT_FROM) || (csm_prio =? BBS_IGNORE_ENTRY) then -1 else csm_prio + 1.

Definition bbs_entry (c : csm) (i : Z) : Z :=
  u32 (BbsTable (c_mem c) (csm_boot_table c) + i * sizeof_BBS_TABLE).

Definition csm_bootprio_ata (c : csm) (chanid slave : Z) : Z :=
  if csm_boot_table c =? 0 then -1
  else csm_prio_to_seabios (BootPriority (c_mem c) (bbs_entry c (1 + chanid * 2 + slave))).

Definition csm_bootprio_fdc (c : csm) : Z :=
  if csm_boot_table c =? 0 then -1
  else csm_prio_to_seabios (BootPriority (c_mem c) (bbs_entry c 0)).

(** The search of [csm_bootprio_pci] from entry [i] on. *)
Fixpoint bootprio_pci_from (k : nat) (c : csm) (i bdf : Z) : Z :=
  match k with
  | O => -1
  | S k' =>
    let b := bbs_entry c i in
    let m := c_mem c in
    if bdf =? pci_to_bdf (BbsBus m b) (BbsDevice m b) (BbsFunction m b) then
      csm_prio_to_seabios (BootPriority m b)
    else bootprio_pci_from k' c (i + 1) bdf
  end.

Definition csm_bootprio_pci (c : csm) (bdf : Z) : Z :=
  if csm_boot_table c =? 0 then -1
  else bootprio_pci_from (Z.to_nat (NumberBbsEntries (c_mem c) (csm_boot_table c) - 5)) c 5 bdf.

End Csm.

(** * The E820 map at boot *)

(** The table at [p] holds the entries [l]. *)
Definition table_holds (m : mem) (p : Z) (l : list EFI_E820_ENTRY64) : Prop :=
  forall i e, l !! i = Some e -> read_e820entry m (p + sizeof_e820entry * Z.of_nat i) = e.

Lemma table_holds_cons m p e l :
  table_holds m p (e :: l) -> read_e820entry m p = e /\ table_holds m (p + sizeof_e820entry) l.
Proof.
  intros H. split.
  - specialize (H 0%nat e eq_refl). by rewrite Z.mul_0_r, Z.add_0_r in H.
  - intros i f Hf. specialize (H (S i) f Hf). rewrite <- H. f_equal. unfold sizeof_e820entry. lia.
Qed.

(** The loop over the table is the replay of its entries. *)
Lemma add_entries_replay m p l e : table_holds m p l -> add_entries (length l) m p e = replay e l.
Proof.
  revert p e. induction l as [|en l IH]; intros p e H; [done|].
  apply table_holds_cons in H as [He Hl]. cbn [length add_entries replay fold_left].
  rewrite He. by apply IH.
Qed.

(** Adding a range to a map with two free slots. *)
Lemma sea_add_exact s l start size type :
  rep_sea s l -> wf_sea l -> 0 <= start -> 0 < size -> start + size < 2 ^ 64 ->
  type_arg E820_HOLE type -> (length l + 2 <= 128)%nat -> fits 32 type ->
  let s' := SeaE820.e820_add s start size type in
  wf_sea (live s') /\ forall a, type_at (live s') a = add_spec E820_HOLE start (start + size) type (type_at l) a.
Proof.
  intros Hrep Hwf Hs Hz He Ht Hl Hf. cbv zeta.
  pose proof (sea_add_rep s l start size type Hrep Hwf ltac:(unfold fits; lia) ltac:(unfold fits; lia) Hf) as Hr.
  rewrite (live_rep _ _ _ Hr). unfold Ranges.e820_add. destruct (Z.eqb_spec size 0); [lia|].
  rewrite wrap_small by (unfold fits; lia).
  destruct (add_meaning E820_HOLE (Z.to_nat BUILD_MAX_E820 - length l) start (start + size) size type l
              Hwf ltac:(lia) He ltac:(lia) Ht) as [H1 _ _ H4 _ _].
  split; [done|]. apply H4. left. unfold BUILD_MAX_E820. lia.
Qed.

(** At PrepareToBoot SeaBIOS's own E820 map becomes the table the
    compatibility table points to, entry for entry, except that the top 256 KB
    of the high memory CSMWrap donated are reported reserved; the result is
    sorted and without overlaps. *)
Lemma prepare_e820_spec L c l :
  let m := c_mem c in
  let t := csm_init_table c in
  c_e820 c = e820_list_init ->
  table_holds m (E820Pointer m (csm_compat_table L)) l ->
  E820Length m (csm_compat_table L) = sizeof_e820entry * Z.of_nat (length l) ->
  wf_sea l -> (length l + 2 <= 128)%nat ->
  0 < HiPmmMemory m t -> BUILD_MIN_HIGHTABLE < HiPmmMemorySizeInBytes m t ->
  HiPmmMemory m t + HiPmmMemorySizeInBytes m t < 2 ^ 32 ->
  let stop := HiPmmMemory m t + HiPmmMemorySizeInBytes m t in
  let e := prepare_e820 L c in
  wf_sea (live e) /\
  forall a, type_at (live e) a =
    if (stop - BUILD_MIN_HIGHTABLE <=? a) && (a <? stop) then Some E820_RESERVED else type_at l a.
Proof.
  cbv zeta. intros He Hl Hlen Hwf Hn Hhi Hbig Hend. unfold prepare_e820.
  assert (Hk : Z.to_nat (E820Length (c_mem c) (csm_compat_table L) / sizeof_e820entry) = length l).
  { rewrite Hlen, Z.mul_comm, Z.div_mul by done. apply Nat2Z.id. }
  rewrite Hk, (add_entries_replay _ _ _ _ Hl), He. clear Hk.
  set (hi := HiPmmMemory _ _) in *. set (size := HiPmmMemorySizeInBytes _ _) in *.
  destruct (Z.ltb_spec BUILD_MIN_HIGHTABLE size); [|lia].
  assert (HB : BUILD_MIN_HIGHTABLE = 262144) by done.
  rewrite (wrap_small 32 (hi + size)) by (unfold fits; lia). rewrite wrap_small by (unfold fits; lia).
  pose proof (replay_rep e820_list_init [] l list_init_rep Hwf) as Hrep. cbn [app] in Hrep.
  specialize (Hrep ltac:(unfold BUILD_MAX_E820; lia)).
  destruct (sea_add_exact _ l (hi + size - BUILD_MIN_HIGHTABLE) BUILD_MIN_HIGHTABLE E820_RESERVED Hrep Hwf)
    as [H1 H2]; [lia|lia|lia|by right|done|done|]. split; [done|].
  intros a. rewrite H2. unfold add_spec. by replace (hi + size - BUILD_MIN_HIGHTABLE + BUILD_MIN_HIGHTABLE)
    with (hi + size) by lia.
Qed.

(** * Initialisation *)

Lemma memalign_tmp_ok R h align size :
  regions_apart R -> heap_ok R h -> is_align align -> 0 < size < 2 ^ 31 ->
  heap_ok R (memalign_tmp h align size).2.
Proof.
  intros Ha Hh Hal Hs. unfold memalign_tmp, _malloc.
  pose proof (palloc_grants R Ha h ZoneTmpHigh size align Hh Hal Hs) as H1.
  destruct (malloc_palloc h ZoneTmpHigh size align) as [p h1]. destruct H1 as [H1 _].
  destruct (negb (p =? 0)); [done|].
  pose proof (palloc_grants R Ha h1 ZoneTmpLow size align H1 Hal Hs) as H2.
  destruct (malloc_palloc h1 ZoneTmpLow size align) as [q h2]. by destruct H2.
Qed.

(** A zone that owns no memory is empty. *)
Lemma empty_zone R h z : heap_ok R h -> (forall a, ~ R z a) -> get h z = [].
Proof.
  intros [Hz _] Hno. destruct (get h z) as [|i l] eqn:E; [done|]. exfalso.
  destruct (Hz z) as [_ Hr]. rewrite E in Hr. destruct (Hr i (or_introl eq_refl)) as [H _]. by eapply Hno.
Qed.

(** The zones after [malloc_init]. *)
Definition csm_regions (L : linker) (low low_size hi hi_size : Z) : regions :=
  add_region (add_region (donated low low_size hi hi_size)
                ZoneLow (zonelow_base L + OPROM_HEADER_RESERVE) (final_varlow_start L + 1))
    ZoneFSeg (zonefseg_start L) (zonefseg_end L).

(** The linker symbols leave room for both zones below 1 MB, and the donated
    memory is elsewhere. *)
Definition linker_ok (L : linker) (low low_size hi hi_size : Z) : Prop :=
  BUILD_ROM_START <= zonelow_base L /\
  zonelow_base L + OPROM_HEADER_RESERVE < final_varlow_start L /\
  final_varlow_start L + 1 <= zonefseg_start L /\ zonefseg_start L < zonefseg_end L <= 0x100000 /\
  is_align (reloc_min_align L) /\ 0 < code32init_end L - code32init_start L < 2 ^ 31 /\
  0 < low /\ 0 < low_size /\ low + low_size <= BUILD_ROM_START /\
  0x100000 <= hi /\ 0 < hi_size /\ hi + hi_size < 2 ^ 32.

Lemma linker_fresh L low low_size hi hi_size :
  linker_ok L low low_size hi hi_size ->
  fresh_region (donated low low_size hi hi_size)
    (zonelow_base L + OPROM_HEADER_RESERVE) (final_varlow_start L + 1) /\
  fresh_region (add_region (donated low low_size hi hi_size)
    ZoneLow (zonelow_base L + OPROM_HEADER_RESERVE) (final_varlow_start L + 1))
    (zonefseg_start L) (zonefseg_end L).
Proof.
  unfold linker_ok, fresh_region, add_region, donated, OPROM_HEADER_RESERVE, BUILD_ROM_START.
  assert (BUILD_MIN_HIGHTABLE = 262144) as HB by done.
  intros (? & ? & ? & ? & _ & _ & ? & ? & ? & ? & ? & ?). split.
  - split; [lia|]. split; [lia|]. intros [] a Ha; simpl; try lia;
      destruct (BUILD_MIN_HIGHTABLE <? hi_size); lia.
  - split; [lia|]. split; [lia|]. intros [] a Ha; simpl; destruct (BUILD_MIN_HIGHTABLE <? hi_size);
      intuition (discriminate || lia).
Qed.

(** Legacy16InitializeYourself on an init table that donates low memory and
    high memory: the allocator is built from the donated ranges, the init code
    is relocated into them or the code panics because neither temporary zone
    has room for it, and after the low and F-segment zones are added the heap
    is well formed, every zone has its own memory, and the option ROM area is
    empty and safe. *)
Lemma initialize_spec L c :
  let m := c_mem c in
  let t := csm_init_table c in
  let low := LowPmmMemory m t in
  let low_size := LowPmmMemorySizeInBytes m t in
  let hi := HiPmmMemory m t in
  let hi_size := HiPmmMemorySizeInBytes m t in
  c_heap c = empty_heap -> linker_ok L low low_size hi hi_size ->
  let R := csm_regions L low low_size hi hi_size in
  regions_apart R /\
  match reloc_preinit L (donate c) with
  | None => (memalign_tmp (c_heap (donate c)) (reloc_min_align L)
               (code32init_end L - code32init_start L)).1 = 0
  | Some c1 =>
    forall c2, init_allocator L c1 = Some c2 ->
      rom_safe (zonelow_base L) (final_varlow_start L) R (c_rom c2) /\ c_RomEnd c2 = BUILD_ROM_START
  end.
Proof.
  cbv zeta. intros Hempty HL. set (low := LowPmmMemory _ _) in *. set (lsz := LowPmmMemorySizeInBytes _ _) in *.
  set (hi := HiPmmMemory _ _) in *. set (hsz := HiPmmMemorySizeInBytes _ _) in *.
  destruct (linker_fresh L _ _ _ _ HL) as [F1 F2].
  destruct HL as (H1 & H2 & H3 & H4 & H5 & H6 & H7 & H8 & H9 & H10 & H11 & H12).
  unfold BUILD_ROM_START in H9.
  destruct (csm_preinit_ok low lsz hi hsz ltac:(lia) ltac:(lia) ltac:(lia) ltac:(lia) ltac:(lia)) as [Ha Hh].
  assert (Hd : c_heap (donate c) = malloc_csm_preinit empty_heap low lsz hi hsz).
  { unfold donate. cbn. by rewrite Hempty. }
  pose proof (add_region_apart _ (add_region_apart _ Ha _ _ _ F1) ZoneFSeg _ _ F2) as Hap.
  split; [exact Hap|]. unfold reloc_preinit.
  rewrite (wrap_small 32 (code32init_end L - _)) by (unfold fits; lia). rewrite Hd.
  pose proof (memalign_tmp_ok _ _ (reloc_min_align L) (code32init_end L - code32init_start L) Ha Hh H5 H6) as Hh1.
  destruct (memalign_tmp _ _ _) as [codedest h1]. cbn [fst snd] in *.
  destruct (Z.eqb_spec codedest 0) as [Hz|Hz]; [done|].
  intros c2. unfold init_allocator.
  match goal with |- context [c_heap (with_tables ?x ?y)] => change (c_heap (with_tables x y)) with h1 end.
  destruct (malloc_init _ _ h1 _ _ _) as [[r|] sz] eqn:Hi; cbn [fst]; [|done].
  intros Hc2. apply (f_equal (fun o => match o with Some x => x | None => c2 end)) in Hc2. cbn beta iota in Hc2.
  subst c2. destruct (malloc_init_safe _ _ _ _ _ _ _ _ _ Ha Hh1
    (empty_zone _ _ ZoneLow Hh1 ltac:(intros a [])) H1 H2 F1 F2 Hi) as [Hsafe Hend].
  split; [|exact Hend]. unfold c_rom. cbn. destruct r. exact Hsafe.
Qed.

(** The memory each zone has after [malloc_init]. *)
Definition csm_zones (L : linker) (low low_size hi hi_size : Z) : regions :=
  add_region (add_region (donated low low_size hi hi_size)
                ZoneLow (zonelow_base L + OPROM_HEADER_RESERVE) (final_varlow_start L))
    ZoneFSeg (zonefseg_start L) (zonefseg_end L).

(** With enough high memory for the init code and the tracking structures,
    neither the relocation nor the set-up of the allocator fails, and the
    zones hold all the memory there is for them. *)
Lemma initialize_total L c :
  let m := c_mem c in
  let t := csm_init_table c in
  let low := LowPmmMemory m t in
  let low_size := LowPmmMemorySizeInBytes m t in
  let hi := HiPmmMemory m t in
  let hi_size := HiPmmMemorySizeInBytes m t in
  c_heap c = empty_heap -> linker_ok L low low_size hi hi_size ->
  code32init_end L - code32init_start L + reloc_min_align L + BUILD_MIN_HIGHTABLE + 360 <= hi_size ->
  exists c1 c2, reloc_preinit L (donate c) = Some c1 /\ init_allocator L c1 = Some c2 /\
    manages (c_heap (donate c)) (donated low low_size hi hi_size) /\
    manages (c_heap c2) (csm_zones L low low_size hi hi_size).
Proof.
  cbv zeta. intros Hempty HL Hbig. set (low := LowPmmMemory _ _) in *. set (lsz := LowPmmMemorySizeInBytes _ _) in *.
  set (hi := HiPmmMemory _ _) in *. set (hsz := HiPmmMemorySizeInBytes _ _) in *.
  destruct (linker_fresh L _ _ _ _ HL) as [(F1 & F2 & F3) (G1 & G2 & G3)].
  destruct HL as (H1 & H2 & H3 & H4 & H5 & H6 & H7 & H8 & H9 & H10 & H11 & H12). unfold BUILD_ROM_START in H9.
  pose proof (is_align_pos _ H5) as Hal.
  destruct (csm_preinit_ok low lsz hi hsz ltac:(lia) ltac:(lia) ltac:(lia) ltac:(lia) ltac:(lia)) as [Ha Hh].
  pose proof (csm_preinit_room low lsz hi hsz ltac:(lia) ltac:(lia) ltac:(lia) ltac:(lia) ltac:(lia)) as [Hr HC].
  assert (Hd : c_heap (donate c) = malloc_csm_preinit empty_heap low lsz hi hsz).
  { unfold donate. cbn. by rewrite Hempty. }
  set (n := hsz - BUILD_MIN_HIGHTABLE - 180) in *. set (size := code32init_end L - code32init_start L) in *.
  pose proof (palloc_room _ _ size (reloc_min_align L) n Hh H5 H6 ltac:(lia) Hr) as Hp.
  pose proof (palloc_grants _ Ha _ ZoneTmpHigh size (reloc_min_align L) Hh H5 H6) as Hg.
  pose proof (manages_palloc _ _ ZoneTmpHigh size (reloc_min_align L) _ Hh H5 H6 HC) as HC1.
  unfold reloc_preinit. fold size. rewrite (wrap_small 32 size) by (unfold fits; lia). rewrite Hd.
  unfold memalign_tmp, _malloc.
  destruct (malloc_palloc _ ZoneTmpHigh _ _) as [p h1]. destruct Hp as [Hp Hroom]. destruct Hg as [Hok1 _].
  rewrite (proj2 (Z.eqb_neq p 0)) by done. cbn [negb]. rewrite (proj2 (Z.eqb_neq p 0)) by done.
  match goal with |- exists c1 c2, Some ?x = Some c1 /\ _ => exists x end. unfold init_allocator.
  match goal with |- context [c_heap (with_tables ?x ?y)] => change (c_heap (with_tables x y)) with h1 end.
  destruct (malloc_init_total _ h1 (zonelow_base L) (final_varlow_start L) (zonefseg_start L) (zonefseg_end L)
              (c_e820 c) (n - size - reloc_min_align L - 60) Ha Hok1) as (rom & rsize & E & HE);
    [split; [lia|split; [lia|intros z a Hz; apply F3; lia]]|
     split; [lia|split; [lia|intros z a Hz; specialize (G3 z a Hz); unfold add_region in *; intuition lia]]|lia|done|].
  match goal with |- context [c_e820 ?x] => change (c_e820 x) with (c_e820 c) end.
  rewrite E. eexists. split; [reflexivity|]. split; [reflexivity|]. split; [exact HC|].
  exact (HE _ HC1).
Qed.

(** * Table addresses *)

Lemma table_align_ok dx : fits 16 dx -> is_align (table_align dx).
Proof.
  intros Hf. unfold fits in Hf. unfold table_align. destruct (Z.eqb_spec dx 0); [apply align_min|].
  destruct (ffs_spec dx ltac:(lia)) as (Hr & Ht & _).
  assert (Hlt : ffs dx < 16).
  { destruct (Z.lt_ge_cases (ffs dx) 16) as [|Hge]; [done|exfalso].
    rewrite (fits_testbit_high 16) in Ht by (unfold fits; lia). done. }
  assert (2 ^ ffs dx < 2 ^ 16) by (apply Z.pow_lt_mono_r; lia).
  rewrite Z.shiftl_mul_pow2, Z.mul_1_l, wrap_small by (unfold fits; lia).
  destruct (_ <? _); [apply align_min|]. exists (ffs dx). split; [lia|done].
Qed.

Lemma far_pointer p : 0 <= p < 0x100000 -> 16 * u16 (FLATPTR_TO_SEG p) + FLATPTR_TO_OFFSET p = p.
Proof.
  intros Hp. unfold FLATPTR_TO_SEG, FLATPTR_TO_OFFSET. rewrite !(wrap_small 32) by (unfold fits; lia).
  rewrite Z.shiftr_div_pow2, land_15 by lia. change (2 ^ 4) with 16.
  pose proof (Z.div_mod p 16 ltac:(lia)). pose proof (Z.mod_pos_bound p 16 ltac:(lia)).
  rewrite wrap_small by (unfold fits; lia). lia.
Qed.

(** One attempt in a zone. *)
Lemma try_zone R h z size align :
  regions_apart R -> heap_ok R h -> is_align align -> 0 <= size < 2 ^ 31 ->
  let '(p, h') := _malloc h z size align in
  heap_ok R h' /\ (p = 0 -> h' = h) /\ (p <> 0 -> granted R h z size align p h').
Proof.
  intros Ha Hh Hal Hs. unfold _malloc. destruct (decide (size = 0)) as [->|Hne]; [done|].
  pose proof (palloc_grants R Ha h z size align Hh Hal ltac:(lia)) as Hg.
  destruct (malloc_palloc h z size align) as [p h']. destruct Hg as (H1 & H2 & H3).
  split; [done|]. split; [done|]. intros Hp. by apply H3.
Qed.

(** Legacy16GetTableAddress answers with an error and an unchanged heap, or
    with a far pointer to a block of the asked size in a segment the caller
    allowed (E000 for bit 1 of BX, F000 for bit 0, either for 0), aligned as
    DX asks and granted by the allocator, so that it overlaps nothing. *)
Lemma get_table_address_granted R r c :
  regions_apart R -> (forall z a, z = ZoneLow \/ z = ZoneFSeg -> R z a -> 0 < a < 0x100000) ->
  heap_ok R (c_heap c) -> fits 16 (r_cx r) -> fits 16 (r_dx r) ->
  let '(r', c') := handle_csm_0006 r c in
  heap_ok R (c_heap c') /\
  ((r_ax r' = 1 /\ c_heap c' = c_heap c) \/
   (r_ax r' = 0 /\ exists z,
      (z = ZoneLow /\ (r_bx r = 0 \/ Z.land (r_bx r) 2 <> 0) \/
       z = ZoneFSeg /\ (r_bx r = 0 \/ Z.land (r_bx r) 1 <> 0)) /\
      granted R (c_heap c) z (r_cx r) (table_align (r_dx r)) (16 * r_ds r' + r_bx r') (c_heap c'))).
Proof.
  intros Ha Hlow Hh Hcx Hdx. unfold handle_csm_0006. unfold fits in Hcx.
  pose proof (table_align_ok _ Hdx) as Hal. set (align := table_align (r_dx r)) in *.
  set (region := if r_bx r =? 0 then 3 else r_bx r).
  assert (Hreg : forall b, Z.land region b <> 0 -> r_bx r = 0 \/ Z.land (r_bx r) b <> 0).
  { intros b. unfold region. destruct (Z.eqb_spec (r_bx r) 0); auto. }
  assert (Hans : forall z p h', granted R (c_heap c) z (r_cx r) align p h' -> 0 < r_cx r ->
            z = ZoneLow \/ z = ZoneFSeg -> 16 * u16 (FLATPTR_TO_SEG p) + FLATPTR_TO_OFFSET p = p).
  { intros z p h' (_ & Hg & _) Hpos Hz. apply far_pointer.
    destruct (Hg p ltac:(lia)) as [Hr _]. apply (Hlow z p Hz) in Hr. lia. }
  assert (Hpos : forall z h p h', _malloc h z (r_cx r) align = (p, h') -> p <> 0 -> 0 < r_cx r).
  { intros z h p h' Hm Hp. destruct (decide (r_cx r = 0)) as [E|]; [|lia].
    rewrite E in Hm. injection Hm as <- _. done. }
  set (first := if negb (Z.land region 2 =? 0) then _malloc (c_heap c) ZoneLow (r_cx r) align else (0, c_heap c)).
  assert (H1 : heap_ok R first.2 /\ (first.1 = 0 -> first.2 = c_heap c) /\
            (first.1 <> 0 -> Z.land region 2 <> 0 /\ 0 < r_cx r /\
               granted R (c_heap c) ZoneLow (r_cx r) align first.1 first.2)).
  { unfold first. destruct (Z.eqb_spec (Z.land region 2) 0) as [|H2]; cbn [negb]; [done|].
    pose proof (try_zone R (c_heap c) ZoneLow (r_cx r) align Ha Hh Hal ltac:(lia)) as Ht.
    destruct (_malloc (c_heap c) ZoneLow (r_cx r) align) as [p h'] eqn:Hm. cbn [fst snd].
    destruct Ht as (? & ? & Hg). split; [done|]. split; [done|]. intros Hp. split; [done|].
    split; [by eapply Hpos|auto]. }
  clearbody first. destruct first as [p h]. cbn [fst snd] in H1. destruct H1 as (Hh1 & H0 & Hg1).
  destruct (Z.eqb_spec p 0) as [->|Hp]; cbn [andb].
  - rewrite H0 in * by done. destruct (Z.eqb_spec (Z.land region 1) 0) as [|H2]; cbn [negb].
    { cbn. split; [done|]. by left. }
    pose proof (try_zone R (c_heap c) ZoneFSeg (r_cx r) align Ha Hh Hal ltac:(lia)) as Ht.
    destruct (_malloc (c_heap c) ZoneFSeg (r_cx r) align) as [q h'] eqn:Hm. destruct Ht as (Hq & Hz & Hg).
    destruct (Z.eqb_spec q 0) as [->|Hq0]; cbn [negb].
    + cbn. split; [done|]. left. by rewrite Hz.
    + cbn. split; [done|]. right. split; [done|]. exists ZoneFSeg. split; [right; auto|].
      rewrite (Hans ZoneFSeg q h' (Hg Hq0) (Hpos _ _ _ _ Hm Hq0)) by auto. auto.
  - rewrite (proj2 (Z.eqb_neq p 0) Hp). cbn. destruct (Hg1 Hp) as (H2 & Hc & Hg). split; [done|].
    right. split; [done|]. exists ZoneLow. split; [left; auto|]. by rewrite (Hans ZoneLow p h Hg Hc) by auto.
Qed.

(** * Option ROMs *)

(** A lower end of the ROMs is as safe. *)
Lemma rom_safe_lower zb fv R h e e' base :
  0 <= e' <= e -> rom_safe zb fv R (mkRom h e base) -> rom_safe zb fv R (mkRom h e' base).
Proof.
  intros He [Hh (pre & i & H1 & H2 & H3 & H4 & H5 & H6 & H7 & H8)]. split; [done|].
  exists pre, i. cbn in *. unfold OPROM_HEADER_RESERVE in *. split_and!; try done; lia.
Qed.

Lemma rom_reserve_keeps zb fv R s size :
  rom_safe zb fv R s -> low_region zb fv R -> 0 <= size -> RomEnd s + size + OPTION_ROM_ALIGN <= 2 ^ 32 ->
  rom_safe zb fv R (rom_reserve zb s size).2 /\ RomEnd (rom_reserve zb s size).2 = RomEnd s.
Proof.
  intros Hs HR Hz Hb. pose proof (rom_reserve_safe zb fv R HR s size Hs Hz Hb) as Hr. cbv zeta in Hr.
  assert (H0 : 0 <= RomEnd s) by (destruct Hs as [_ (? & ? & _ & _ & _ & _ & _ & _ & ? & _)]; done).
  destruct (align_up (RomEnd s + size) OPTION_ROM_ALIGN rom_align ltac:(lia) Hb) as [_ Hu].
  destruct (_ <? _); [by rewrite Hr|]. destruct Hr as (h' & -> & Hsafe). cbn [snd RomEnd]. split; [|done].
  eapply rom_safe_lower; [|exact Hsafe]. lia.
Qed.

(** C31: dispatching an option ROM keeps the option ROM area and the heap safe,
    whatever size the ROM's header claims before and after it runs, as long as
    the ROM itself does not break them; the end of the ROMs never moves down,
    and the call reports success. *)
Theorem dispatch_oprom_safe L D R r c :
  let safe c := rom_safe (zonelow_base L) (final_varlow_start L) R (c_rom c) in
  low_region (zonelow_base L) (final_varlow_start L) R ->
  (forall rom bdf c, safe c -> mem_ok (c_mem c) ->
     safe (callrom D rom bdf c) /\ mem_ok (c_mem (callrom D rom bdf c)) /\
     c_RomEnd (callrom D rom bdf c) = c_RomEnd c) ->
  safe c -> mem_ok (c_mem c) -> c_RomEnd c <= 0x100000 ->
  let '(r', c') := handle_csm_0005 L D r c in
  safe c' /\ r_ax r' = 0 /\ c_RomEnd c <= c_RomEnd c'.
Proof.
  cbv zeta. intros HR Hcall Hs Hm He. unfold handle_csm_0005.
  set (rom := MAKE_FLATPTR _ 0). set (bdf := pci_bus_devfn_to_bdf _ _).
  pose proof (Hm (rom + 2)) as Hb. unfold fits in Hb.
  destruct (rom_reserve_keeps _ _ R (c_rom c) (c_mem c (rom + 2) * 512) Hs HR ltac:(lia)) as [Hs1 He1].
  { cbn. unfold OPTION_ROM_ALIGN. lia. }
  set (s1 := (rom_reserve _ _ _).2) in *. set (c1 := with_rom s1 c).
  assert (Hs1' : rom_safe (zonelow_base L) (final_varlow_start L) R (c_rom c1)) by (by destruct s1).
  destruct (Hcall rom bdf c1 Hs1' Hm) as (Hs2 & Hm2 & He2). set (c2 := callrom D rom bdf c1) in *.
  assert (Hend : c_RomEnd c2 = c_RomEnd c) by (rewrite He2; exact He1).
  pose proof (Hm2 (rom + 2)) as Hb2. unfold fits in Hb2.
  pose proof (rom_confirm_ok _ _ R HR (c_rom c2) (c_mem c2 (rom + 2) * 512) Hs2 ltac:(lia)) as Hc.
  destruct (rom_confirm _ _ _) as [ret s3]. cbn [snd]. destruct Hc as (Hs3 & Hcase & _).
  { cbn. rewrite Hend. unfold OPTION_ROM_ALIGN. lia. }
  split; [by destruct s3|]. split; [done|]. cbn.
  change (RomEnd (c_rom c2)) with (c_RomEnd c2) in Hcase. rewrite Hend in Hcase.
  destruct Hcase as [(_ & -> & _)|(_ & _ & ?)]; [|lia]. change (c_RomEnd c <= c_RomEnd c2). lia.
Qed.

(** * Boot priorities *)

(** Entry [i] of the BBS table is for the PCI function. *)
Definition bbs_matches (c : csm) (bdf i : Z) : Prop :=
  let b := bbs_entry c i in
  bdf = pci_to_bdf (BbsBus (c_mem c) b) (BbsDevice (c_mem c) b) (BbsFunction (c_mem c) b).

Lemma bootprio_pci_spec k c i bdf :
  (exists j, i <= j < i + Z.of_nat k /\ bbs_matches c bdf j /\
     (forall j', i <= j' < j -> ~ bbs_matches c bdf j') /\
     bootprio_pci_from k c i bdf = csm_prio_to_seabios (BootPriority (c_mem c) (bbs_entry c j))) \/
  (bootprio_pci_from k c i bdf = -1 /\ forall j, i <= j < i + Z.of_nat k -> ~ bbs_matches c bdf j).
Proof.
  revert i. induction k as [|k IH]; intros i; cbn [bootprio_pci_from].
  { right. split; [done|]. intros; lia. }
  destruct (Z.eqb_spec bdf (pci_to_bdf (BbsBus (c_mem c) (bbs_entry c i)) (BbsDevice (c_mem c) (bbs_entry c i))
              (BbsFunction (c_mem c) (bbs_entry c i)))) as [He|Hne].
  - left. exists i. split; [lia|]. split; [done|]. split; [intros; lia|done].
  - destruct (IH (i + 1)) as [(j & Hj & Hm & Hpre & Hr)|[Hr Hno]].
    + left. exists j. split; [lia|]. split; [done|]. split; [|done]. intros j' Hj'.
      destruct (decide (j' = i)) as [->|]; [done|]. apply Hpre. lia.
    + right. split; [done|]. intros j Hj. destruct (decide (j = i)) as [->|]; [done|]. apply Hno. lia.
Qed.

(** * A concrete CSM *)

(** The symbols of a 128 KB image with a small init section. *)
Definition sample_linker : linker :=
  mkLinker 0xE0000 0xE0100 16 0xEA000 0xEA000 0xEA000 0xEA000 0xEA000 0xEA000 0xE0000
    0xE0000 0xEE000 0xFA000 0xFA000 0xF0000 0xF0200 0xFFE00 0xF6000 0xF6100.

(** The init table at 0x23080 donates 352 KB of low and 4 MB of high memory,
    and the compatibility table points to one E820 entry at 0x25000. *)
Definition sample_csm_mem : mem :=
  store32 (store64 (store64 (store32 (store32
    (store32 (store32 (store32 (store32 (fun _ => 0)
      0x23084 0x7F000000) 0x23088 0x400000) 0x230A0 0x28000) 0x230A4 0x58000)
    0xF6022 0x25000) 0xF6026 20) 0x25000 0) 0x25008 0x80000000) 0x25010 1.

Definition sample_csm : csm :=
  mkCsm (mkTables sample_csm_mem empty_heap 0 0 0 0) 0 (InTemp DataInfo) e820_list_init 0x23080 0 0 0
    (mkAcpiVars None 0 [] 0) 0.

(** Drivers that do nothing. *)
Definition sample_drivers : drivers :=
  mkDrivers (fun _ => 0xffff) (fun _ c => c) (fun c => c) (fun c => c) 0 (fun c => c) (fun _ _ c => c)
    (fun c => c) (fun c => c) (fun c => c).

Lemma sample_csm_mem_ok : mem_ok sample_csm_mem.
Proof. unfold sample_csm_mem. repeat apply store_ok. intros a. unfold fits. lia. Qed.

Lemma sample_init_table :
  LowPmmMemory sample_csm_mem 0x23080 = 0x28000 /\ LowPmmMemorySizeInBytes sample_csm_mem 0x23080 = 0x58000 /\
  HiPmmMemory sample_csm_mem 0x23080 = 0x7F000000 /\ HiPmmMemorySizeInBytes sample_csm_mem 0x23080 = 0x400000.
Proof. vm_compute. auto. Qed.

Lemma prepare_e820_spec_witness :
  type_at (live (prepare_e820 sample_linker sample_csm)) 0x7F3D0000 = Some E820_RESERVED /\
  type_at (live (prepare_e820 sample_linker sample_csm)) 0x100000 = Some 1.
Proof.
  destruct sample_init_table as (_ & _ & Hh & Hs).
  pose proof (prepare_e820_spec sample_linker sample_csm [mkE820 0 0x80000000 1]) as H.
  cbv zeta in H. change (c_mem sample_csm) with sample_csm_mem in H.
  change (csm_init_table sample_csm) with 0x23080 in H. rewrite Hh, Hs in H.
  destruct H as [_ H]; [reflexivity| |vm_compute; reflexivity| |simpl; lia|lia|vm_compute; reflexivity|lia|].
  - intros i e Hi. destruct i as [|i]; [|by destruct i]. injection Hi as <-. vm_compute. reflexivity.
  - apply (bool_decide_unpack _). vm_compute. exact I.
  - split; [rewrite (H 0x7F3D0000)|rewrite (H 0x100000)]; vm_compute; reflexivity.
Defined.

Lemma sample_linker_ok : linker_ok sample_linker 0x28000 0x58000 0x7F000000 0x400000.
Proof.
  unfold linker_ok, sample_linker, BUILD_ROM_START, OPROM_HEADER_RESERVE; cbn.
  split_and!; try lia. exists 4. split; [lia|done].
Qed.

Lemma initialize_spec_witness :
  exists c1 c2, reloc_preinit sample_linker (donate sample_csm) = Some c1 /\
    init_allocator sample_linker c1 = Some c2 /\
    rom_safe 0xE0000 0xEE000 (csm_regions sample_linker 0x28000 0x58000 0x7F000000 0x400000) (c_rom c2).
Proof.
  pose proof (initialize_spec sample_linker sample_csm) as H. cbv zeta in H.
  change (c_mem sample_csm) with sample_csm_mem in H. change (csm_init_table sample_csm) with 0x23080 in H.
  destruct sample_init_table as (E1 & E2 & E3 & E4). rewrite E1, E2, E3, E4 in H.
  destruct (H eq_refl sample_linker_ok) as [_ H1].
  assert (match reloc_preinit sample_linker (donate sample_csm) with
          | Some c1 => match init_allocator sample_linker c1 with Some _ => true | None => false end
          | None => false
          end = true) as Hrun by (vm_compute; reflexivity).
  destruct (reloc_preinit sample_linker (donate sample_csm)) as [c1|]; [|discriminate].
  destruct (init_allocator sample_linker c1) as [c2|] eqn:Hc2; [|discriminate].
  exists c1, c2. split; [reflexivity|]. split; [exact Hc2|]. exact (proj1 (H1 c2 eq_refl)).
Defined.

Lemma get_table_address_granted_witness :
  let r := mkRegs 6 1 64 0x10 0 0 in
  let c := with_tables table_state sample_csm in
  heap_ok fseg_R (c_heap (handle_csm_0006 r c).2) /\ r_ax (handle_csm_0006 r c).1 = 0.
Proof.
  cbv zeta. pose proof (get_table_address_granted fseg_R (mkRegs 6 1 64 0x10 0 0)
    (with_tables table_state sample_csm) (proj1 fseg_sample_ok)) as H.
  assert (Hax : r_ax (handle_csm_0006 (mkRegs 6 1 64 0x10 0 0) (with_tables table_state sample_csm)).1 = 0)
    by (vm_compute; reflexivity).
  destruct (handle_csm_0006 _ _) as [r' c']. split; [|exact Hax]. apply H.
  - unfold fseg_R, add_region, sample_R, donated. intros z a [-> | ->]; simpl; intros [[]|[Hz Ha]]; [done|lia].
  - exact (proj2 fseg_sample_ok).
  - unfold fits. cbn. lia.
  - unfold fits. cbn. lia.
Defined.

Lemma dispatch_oprom_safe_witness :
  let c := with_rom sample_rom (with_tables (mkTables sample_csm_mem empty_heap 0 0 0 0) sample_csm) in
  rom_safe 0xE0000 0xEE000 rom_R
    (c_rom (handle_csm_0005 sample_linker sample_drivers (mkRegs 5 0 0 0 0 0) c).2).
Proof.
  cbv zeta. set (c := with_rom _ _).
  pose proof (dispatch_oprom_safe sample_linker sample_drivers rom_R (mkRegs 5 0 0 0 0 0) c) as H.
  destruct (handle_csm_0005 _ _ _ _) as [r' c']. apply H.
  - exact sample_low_region.
  - intros rom bdf c0 Hs Hm. done.
  - subst c. destruct sample_rom eqn:E. cbn. rewrite <- E. exact (proj1 sample_rom_safe).
  - exact sample_csm_mem_ok.
  - change (RomEnd sample_rom <= 0x100000). rewrite (proj2 sample_rom_safe). unfold BUILD_ROM_START. lia.
Defined.
