(* ===== verification/Boot.v ===== *)
(** [efi_main] of CSMWrap ([src/csmwrap.c]): loading a video BIOS file, filling
    the low stub, leaving UEFI, placing the ROM images and calling the
    compatibility module.

    The state of the machine and of the firmware is the abstract [W] of the
    other files, next to the memory the code builds its tables in.  The
    theorems follow the tables from the UEFI side to SeaBIOS's: the memory
    map, the donated memory, and the SMBIOS pointer. *)

From stdpp Require Import base numbers list gmap strings.
From Stdlib Require Import ZArith Lia.
From S2P Require Import Prelude Memory E820 E820Build SeaE820 Coreboot Machine Firmware Unlock.
From S2P Require Import IntelPit Thunk Acpi SeaZone SeaMalloc SeaRom SeaTables SeaCsm Video Palette.

(** * The memory layout ([src/csmwrap.h]) *)

Definition LOW_STUB_BASE : Z := 0x20000.
Definition CONVEN_END : Z := 0x80000.
Definition VGABIOS_START : Z := 0xC0000.
Definition VGABIOS_END : Z := 0xC8000.
Definition BIOSROM_END : Z := 0x100000.
Definition HIPMM_SIZE : Z := 0x400000.

(** Offsets in [struct low_stub]. *)
Definition off_init_table : Z := 12416.
Definition off_boot_table : Z := 12456.
Definition off_vga_oprom_table : Z := 20901.
Definition off_e820_entries : Z := 20916.
Definition off_e820_map : Z := 20920.
Definition sizeof_low_stub : Z := 23480.
Definition sizeof_EFI_E820_ENTRY64 : Z := 20.

Definition EFI_COMPATIBILITY16_TABLE_SIGNATURE : Z := 0x24454649.

(** [Legacy16InitializeYourself] and the other function numbers. *)
Definition Legacy16InitializeYourself : Z := 0.
Definition Legacy16PrepareToBoot : Z := 2.
Definition Legacy16Boot : Z := 3.
Definition Legacy16DispatchOprom : Z := 5.

(** * Searches *)

(** The loop of [find_table]: paragraph by paragraph. *)
Fixpoint find_table_loop (fuel : nat) (m : mem) (signature ptr stop : Z) : option Z :=
  match fuel with
  | O => None
  | S fuel' =>
    if ptr <? stop then
      if load32 m ptr =? signature then Some ptr else find_table_loop fuel' m signature (ptr + 16) stop
    else None
  end.

Definition find_table (m : mem) (signature base size : Z) : option Z :=
  find_table_loop (S (Z.to_nat (size / 16))) m signature base (base + size).

(** One of the two searches of [set_smbios_table]. *)
Definition smbios_search (tables : list EFI_CONFIGURATION_TABLE) (g : list Z) (table_addr : Z) : Z :=
  match find_vendor tables g with
  | Some t => if table_addr <? 0x100000000 then VendorTable t else table_addr
  | None => table_addr
  end.

Definition set_smbios_table (tables : list EFI_CONFIGURATION_TABLE) (low_stub : Z) (m : mem) : Z * mem :=
  let table_addr := smbios_search tables SMBIOS_TABLE_GUID 0 in
  let table_addr :=
    if table_addr =? 0 then smbios_search tables SMBIOS3_TABLE_GUID table_addr else table_addr in
  if negb (table_addr =? 0) then (0, store32 m (low_stub + off_boot_table + 8) (u32 table_addr))
  else (-1, m).

(** * The video BIOS file *)

(** What [efi_main] itself asks of the firmware. *)
Class LoaderServices (W : Type) := {
  SetWatchdogTimer : M W unit;
  RaiseTPL : Z -> M W unit;
  OpenVolume : Z -> M W (Z * Z);                       (* status, directory *)
  Open : Z -> M W (Z * Z);                             (* directory; status, file *)
  Read : Z -> Z -> M W (Z * list Z);                   (* file, bytes; status, what was read *)
  Close : Z -> M W unit;
  AllocatePages : Z -> Z -> M W (Z * Z);               (* pages, last address; status, address *)
  GetMemoryMap : Z -> M W (Z * (list Z * Z * Z * Z));  (* bytes; status, map, size, key, descriptor size *)
  ExitBootServices : Z -> M W Z;                       (* key *)
  uacpi_setup_early_table_access : Z -> M W Z;         (* buffer *)
  printf : string -> list Z -> M W unit;               (* format and arguments, to the firmware's console *)
  cli : M W unit
}.

(** A format that ends its line. *)
Definition ln (s : string) : string := (s +:+ String (Ascii.ascii_of_nat 10) EmptyString)%string.

Definition EFI_LOADED_IMAGE_PROTOCOL_GUID : list Z :=
  guid 0x5b1b31a1 0x9562 0x11d2 [0x8e; 0x3f; 0x00; 0xa0; 0xc9; 0x69; 0x72; 0x3b].
Definition EFI_SIMPLE_FILE_SYSTEM_PROTOCOL_GUID : list Z :=
  guid 0x964e5b22 0x6459 0x11d2 [0x8e; 0x39; 0x00; 0xa0; 0xc9; 0x69; 0x72; 0x3b].

(** The interface a call returned, null unless it succeeded. *)
Definition or_null (answer : Z * Z) : Z := if answer.1 =? EFI_SUCCESS then answer.2 else 0.

(** The file is read into a pool block of 256 KB; memory, [vbios_loc] and
    [vbios_size]. *)
Definition read_vgabios {W : Type} `{BootServices W} `{LoaderServices W} (file : Z) (m : mem)
  : M W (mem * Z * Z) :=
  let max_size := 256 * 1024 in
  '(status, block) ← AllocatePool max_size;
  if negb (status =? EFI_SUCCESS) then mret (m, 0, 0)
  else
    '(status, bytes) ← Read file max_size;
    let bytes := take (Z.to_nat max_size) bytes in
    let m := store_bytes m block bytes in
    if status =? EFI_SUCCESS then
      printf (ln "Found and loaded '\EFI\CSMWrap\vgabios.bin' file. Using it as our VBIOS!") [] ;;
      mret (m, block, Z.of_nat (length bytes))
    else FreePool block ;; mret (m, 0, 0).

Definition load_vgabios {W : Type} `{BootServices W} `{VideoServices W} `{LoaderServices W}
    (ImageHandle : Z) (m : mem) : M W (mem * Z * Z) :=
  loaded_image ← or_null <$> HandleProtocol ImageHandle EFI_LOADED_IMAGE_PROTOCOL_GUID;
  let DeviceHandle := load64 m (loaded_image + 24) in
  sfs_protocol ← (if loaded_image =? 0 then mret 0
                  else or_null <$> HandleProtocol DeviceHandle EFI_SIMPLE_FILE_SYSTEM_PROTOCOL_GUID);
  sfs_dir ← (if sfs_protocol =? 0 then mret 0 else or_null <$> OpenVolume sfs_protocol);
  if sfs_dir =? 0 then mret (m, 0, 0)
  else
    '(status, file) ← Open sfs_dir;
    r ← (if status =? EFI_SUCCESS then
           r ← read_vgabios file m; Close file ;; mret r
         else mret (m, 0, 0));
    Close sfs_dir ;; mret r.

(** * Low memory *)

Section Boot.
Context (T : thunk16) (Csm16_bin sizeof_Csm16_bin : Z).

Abbreviation stub := LOW_STUB_BASE.

(** The tables in the low stub, from the [memset] to the option ROM table. *)
Definition fill_low_stub (tables : list EFI_CONFIGURATION_TABLE) (priv : csmwrap_priv) (HiPmm : Z) (m : mem)
  : THUNK_CONTEXT * mem :=
  let m := Libc.memset m LOW_STUB_BASE 0 (Z.to_nat (CONVEN_END - LOW_STUB_BASE)) in
  let m := (set_smbios_table tables stub m).2 in
  let m := store32 m (stub + off_boot_table + 4) (load32 m (csm_efi_table priv + 28)) in
  let '(ctx, m, pmm_base) := LegacyBiosInitializeThunkAndTable T m LOW_STUB_BASE sizeof_low_stub in
  let init := stub + off_init_table in
  let m := store32 m init 0x00080000 in
  let m := store32 m (init + 24) (u32 stub) in
  let m := store32 m (init + 28) sizeof_low_stub in
  let m := store32 m (init + 32) (u32 pmm_base) in
  let m := store32 m (init + 36) (u32 (CONVEN_END - u32 pmm_base)) in
  let m := store32 m (init + 8) HIPMM_SIZE in
  let m := store32 m (init + 4) (u32 HiPmm) in
  let oprom := stub + off_vga_oprom_table in
  let m := store16 m (oprom + 4) (EFI_SEGMENT VGABIOS_START) in
  let m := store8 m (oprom + 6) (vga_pci_bus priv) in
  (ctx, store8 m (oprom + 7) (vga_pci_devfn priv)).

(** * Leaving UEFI *)

(** At most [k] more attempts at [ExitBootServices]; the last status. *)
Fixpoint exit_loop {W : Type} `{LoaderServices W} (k : nat) (key status : Z) : M W Z :=
  match k with
  | O => mret status
  | S k' =>
    status ← ExitBootServices key;
    if status =? EFI_SUCCESS then mret status else exit_loop k' key status
  end.

Definition exit_boot_services {W : Type} `{LoaderServices W} (key : Z) : M W Z := exit_loop 128 key EFI_SUCCESS.

(** The E820 array of the low stub in memory. *)
Fixpoint store_entries (m : mem) (a : Z) (l : list EFI_E820_ENTRY64) : mem :=
  match l with
  | [] => m
  | e :: l' =>
    let m := store64 m a (BaseAddr e) in
    let m := store64 m (a + 8) (E820.Length e) in
    let m := store32 m (a + 16) (Type_ e) in
    store_entries m (a + sizeof_EFI_E820_ENTRY64) l'
  end.

Definition store_low_map (m : mem) (s : Array.low_map) : mem :=
  store32 (store_entries m (stub + off_e820_map) (Array.e820_map s)) (stub + off_e820_entries)
    (Array.e820_entries s).

(** The map is built in the low stub, which was cleared, and its address and
    length go into the compatibility table of the image. *)
Definition hand_over_e820 (m : mem) (table efi_mmap efi_mmap_size efi_desc_size : Z) : mem :=
  let m := store_low_map m (build_e820_map m empty_map efi_mmap efi_mmap_size efi_desc_size) in
  let e820_low := stub + off_e820_map in
  let m := store32 m (table + 34) (u32 e820_low) in
  store32 m (table + 38) (u32 (sizeof_EFI_E820_ENTRY64 * load32 m (stub + off_e820_entries))).

(** The two interrupt controllers and the timer. *)
Definition legacy_timers {W : Type} `{Machine W} : M W unit :=
  outb 0x21 0xff ;; outb 0xa1 0xff ;; outb 0x43 0x36 ;; outb 0x40 0x00 ;; outb 0x40 0x00.

Definition copy_roms (m : mem) (csm_bin_base vbios_loc vbios_size : Z) : mem :=
  let m := Libc.memcpy m csm_bin_base Csm16_bin (Z.to_nat sizeof_Csm16_bin) in
  Libc.memcpy m VGABIOS_START vbios_loc (Z.to_nat vbios_size).

(** * The calls *)

(** [Regs] after the [memset] and the assignments. *)
Definition csm_regs (fn es bx : Z) : EFI_IA32_REGISTER_SET :=
  mkEfiRegs fn bx 0 0 0 0 0 es 0 0 0 0 0 0 0.

(** The calls of [efi_main]: the function, and the table in ES:BX if any. *)
Definition call_initialize : Z * option Z := (Legacy16InitializeYourself, Some (stub + off_init_table)).
Definition call_dispatch : Z * option Z := (Legacy16DispatchOprom, Some (stub + off_vga_oprom_table)).
Definition call_prepare : Z * option Z := (Legacy16PrepareToBoot, Some (stub + off_boot_table)).
Definition call_boot : Z * option Z := (Legacy16Boot, None).

Definition csm_calls : list (Z * option Z) := [call_initialize; call_dispatch; call_prepare; call_boot].

Definition call_regs (call : Z * option Z) : EFI_IA32_REGISTER_SET :=
  match call.2 with
  | Some t => csm_regs call.1 (EFI_SEGMENT t) (EFI_OFFSET t)
  | None => csm_regs call.1 0 0
  end.

Context (InternalAsmThunk16 : IA32_REGISTER_SET -> Z -> mem -> IA32_REGISTER_SET * mem).

Definition far_call (ctx : THUNK_CONTEXT) (table : Z) (call : Z * option Z) (m : mem) : mem :=
  (LegacyBiosFarCall86 InternalAsmThunk16 ctx (load16 m (table + 12)) (load16 m (table + 14)) (call_regs call) 0 0 m).2.

(** * [efi_main] *)

(** Memory when the compatibility module is entered. *)
Definition handed_over (table csm_bin_base vbios_loc vbios_size : Z) (m : mem)
    (efi_mmap efi_mmap_size efi_desc_size : Z) : mem :=
  copy_roms (hand_over_e820 m table efi_mmap efi_mmap_size efi_desc_size) csm_bin_base vbios_loc vbios_size.

Section Main.
Context {W : Type} `{Machine W} `{LegacyRegion2 W} `{BootServices W} `{VideoServices W} `{LoaderServices W}.
(** The built-in video BIOS, the configuration table and the revision of the
    boot services, and the addresses of [priv.cb_fb], [tmp_mmap] and the
    banner. *)
Context (vgabios_bin sizeof_vgabios_bin : Z) (tables : list EFI_CONFIGURATION_TABLE).
Context (revision : Z) (has_disconnect : bool) (cb_fb_addr tmp_mmap banner : Z) (fuel dfuel : nat).

(** A title, and [cbvga_emul_dump_state]; nothing sets the palette of CSMWrap,
    which is the one it starts with. *)
Definition dump_state (title : string) : M W unit :=
  printf (ln title) [] ;;
  printf (ln "CSMwrap: VGA palette state (first 16 entries):") [] ;;
  foldr (fun '(i, (r, g, b), argb) (k : M W unit) =>
           printf (ln "  Idx %02d: DAC=(%3u,%3u,%3u) ARGB=0x%08X") [Z.of_nat i; r; g; b; argb] ;; k)
    (mret ()) (cbvga_emul_dump_state palette_start).

(** [acpi_init] with its calls: the buffer is allocated, and the interpreter
    set up, only when a root pointer was found. *)
Definition run_acpi_init (target : Z) (m : mem) : M W acpi_state :=
  let s := (acpi_init tables target (EFI_OUT_OF_RESOURCES, 0) 0 (acpi_start m)).2 in
  if g_rsdp s =? 0 then mret s
  else
    '(status, buffer) ← AllocatePool 4096;
    if negb (status =? EFI_SUCCESS) then mret s
    else
      setup ← uacpi_setup_early_table_access buffer;
      mret (acpi_init tables target (status, buffer) setup (acpi_start m)).2.

(** [acpi_prepare_exitbs]: the buffer goes back to the firmware. *)
Definition run_acpi_exit (s : acpi_state) : M W unit :=
  match freed (acpi_prepare_exitbs s) with
  | [] => mret ()
  | buffer :: _ => FreePool buffer
  end.

(** The two calls of [GetMemoryMap]: memory, the map, its size, the
    descriptor size and the key. *)
Definition read_memory_map (m : mem) : M W (mem * option (Z * Z * Z * Z)) :=
  '(_, (bytes, size, _, _)) ← GetMemoryMap 40;
  let m := store_bytes m tmp_mmap bytes in
  let size := u64 (size + 4096) in
  '(status, efi_mmap) ← AllocatePool size;
  if negb (status =? EFI_SUCCESS) then printf "AllocatePool() for EFI memory map failed!" [] ;; mret (m, None)
  else
    '(status, (bytes, size, key, desc_size)) ← GetMemoryMap size;
    let m := store_bytes m efi_mmap bytes in
    if negb (status =? EFI_SUCCESS) then printf "GetMemoryMap() failed!" [] ;; mret (m, None)
    else mret (m, Some (efi_mmap, size, desc_size, key)).

(** The set-up of low memory once the display is chosen. *)
Definition prepare_low (HiPmm : Z) (priv : csmwrap_priv) (m : mem) : THUNK_CONTEXT * mem :=
  let '(ctx, m) := fill_low_stub tables priv HiPmm m in
  (ctx, build_coreboot_table m (video_type priv) (cb_fb priv)).

(** The calls of the module, and what is printed between them, as [efi_main] has
    it when the firmware has been left. *)
Definition run_legacy (ctx : THUNK_CONTEXT) (table : Z) (m : mem) : M W (Z * list (Z * option Z) * mem) :=
  let m := far_call ctx table call_initialize m in
  let m := far_call ctx table call_dispatch m in
  dump_state "CSMwrap: VGA emulator state after SeaVGABIOS dispatch:" ;;
  let m := far_call ctx table call_prepare m in
  dump_state "CSMwrap: VGA emulator state before Legacy16Boot:" ;;
  let m := far_call ctx table call_boot m in
  mret (0, [call_initialize; call_dispatch; call_prepare; call_boot], m).

(** From [AllocatePages] to the end of [efi_main]: the status, the calls made
    and memory. *)
Definition enter_legacy (table csm_bin_base : Z) (a : acpi_state) (v : video_state)
  : M W (Z * list (Z * option Z) * mem) :=
  '(status, HiPmm) ← AllocatePages (HIPMM_SIZE / 4096) 0xffffffff;
  if negb (status =? EFI_SUCCESS) then printf (ln "Unable to alloc HiPmm!!!") [] ;; mret (MINUS_ONE, [], v_mem v)
  else
    let '(ctx, m) := prepare_low HiPmm (v_priv v) (v_mem v) in
    printf (ln "Init Thunk pmm: %lx") [RealModeBuffer ctx + RealModeBufferSize ctx + EFI_PAGE_SIZE] ;;
    printf (ln "CALL16 %x:%x") [load16 m (table + 12); load16 m (table + 14)] ;;
    csmwrap_video_prepare_exitbs revision has_disconnect v ;;
    run_acpi_exit a ;;
    '(m, map) ← read_memory_map m;
    match map with
    | None => mret (MINUS_ONE, [], m)
    | Some (efi_mmap, efi_mmap_size, efi_desc_size, key) =>
      status ← exit_boot_services key;
      if negb (status =? EFI_SUCCESS) then printf "Failed to exit boot services!" [] ;; mret (MINUS_ONE, [], m)
      else
        cli ;;
        legacy_timers ;;
        run_legacy ctx table (handed_over table csm_bin_base (vbios_loc v) (vbios_size v) m
                                efi_mmap efi_mmap_size efi_desc_size)
    end.

(** [None] when the display set-up does not return.  The messages of the
    functions it calls are left out. *)
Definition efi_main (ImageHandle : Z) (m : mem) : M W (option (Z * list (Z * option Z) * mem)) :=
  let fail text m := printf (ln text) [] ;; mret (Some (MINUS_ONE, [], m)) in
  SetWatchdogTimer ;;
  printf "%s" [banner] ;;
  '(status, _) ← GetTime;
  if negb (status =? EFI_SUCCESS) then fail "Failed to query current time" m
  else
  '(m, loc, size) ← load_vgabios ImageHandle m;
  RaiseTPL 16 ;;
  unlocked ← unlock_bios_region;
  if negb (unlocked =? 0) then fail "Unable to unlock BIOS region" m
  else
  printf (ln "Unlock!") [] ;;
  apply_intel_platform_workarounds ;;
  let csm_bin_base := u64 (BIOSROM_END - sizeof_Csm16_bin) in
  printf (ln "csm_bin_base: 0x%lx") [csm_bin_base] ;;
  if csm_bin_base <? VGABIOS_END then fail "Illegal csm_bin size " m
  else
  match find_table m EFI_COMPATIBILITY16_TABLE_SIGNATURE Csm16_bin sizeof_Csm16_bin with
  | None => fail "EFI_COMPATIBILITY16_TABLE not found" m
  | Some table =>
    a ← run_acpi_init (rsdp_target Csm16_bin csm_bin_base (load32 m (table + 28))) m;
    let priv := mkPriv Csm16_bin table csm_bin_base 0 CSMWRAP_VIDEO_NONE 0 0 0 0 0 cb_fb_addr in
    r ← csmwrap_video_init vgabios_bin sizeof_vgabios_bin fuel dfuel (mkVideo priv (st_mem a) loc size);
    match r with
    | None => mret None
    | Some (_, v) =>
      dump_state "CSMwrap: VGA emulator state after csmwrap_video_init:" ;;
      Some <$> enter_legacy table csm_bin_base a v
    end
  end.

End Main.
End Boot.

(** * Searches *)

Lemma find_table_loop_spec fuel m signature ptr stop :
  stop - ptr <= 16 * (Z.of_nat fuel - 1) + 15 -> 0 < Z.of_nat fuel ->
  match find_table_loop fuel m signature ptr stop with
  | Some p => exists k, 0 <= k /\ p = ptr + 16 * k /\ p < stop /\ load32 m p = signature /\
                forall j, 0 <= j < k -> load32 m (ptr + 16 * j) <> signature
  | None => forall j, 0 <= j -> ptr + 16 * j < stop -> load32 m (ptr + 16 * j) <> signature
  end.
Proof.
  revert ptr. induction fuel as [|fuel IH]; intros ptr Hf Hpos; [lia|]. cbn [find_table_loop].
  destruct (Z.ltb_spec ptr stop) as [Hlt|Hge]; [|intros; lia].
  destruct (Z.eqb_spec (load32 m ptr) signature) as [He|Hne].
  { exists 0. rewrite Z.mul_0_r, Z.add_0_r. repeat split; try done; lia. }
  destruct fuel as [|fuel].
  { cbn [find_table_loop]. intros j Hj Hs. assert (j = 0) as -> by lia. by rewrite Z.mul_0_r, Z.add_0_r. }
  specialize (IH (ptr + 16) ltac:(lia) ltac:(lia)).
  assert (Hshift : forall j, ptr + 16 + 16 * (j - 1) = ptr + 16 * j) by lia.
  destruct (find_table_loop (S fuel) m signature (ptr + 16) stop) as [p|].
  - destruct IH as (k & Hk & -> & Hs & He & Hall). exists (k + 1).
    split; [lia|]. split; [lia|]. split; [done|]. split; [done|]. intros j Hj.
    destruct (decide (j = 0)) as [->|]; [by rewrite Z.mul_0_r, Z.add_0_r|].
    rewrite <- Hshift. apply Hall. lia.
  - intros j Hj Hs. destruct (decide (j = 0)) as [->|]; [by rewrite Z.mul_0_r, Z.add_0_r|].
    rewrite <- Hshift. apply IH; lia.
Qed.

(** The first paragraph of the image with the signature, if there is one. *)
Lemma find_table_spec m signature base size :
  0 <= size ->
  match find_table m signature base size with
  | Some p => exists k, 0 <= k /\ p = base + 16 * k /\ p < base + size /\ load32 m p = signature /\
                forall j, 0 <= j < k -> load32 m (base + 16 * j) <> signature
  | None => forall j, 0 <= j -> base + 16 * j < base + size -> load32 m (base + 16 * j) <> signature
  end.
Proof.
  intros Hs. unfold find_table. apply find_table_loop_spec; [|lia].
  pose proof (Z.div_mod size 16 ltac:(lia)). pose proof (Z.mod_pos_bound size 16 ltac:(lia)).
  pose proof (Z.div_pos size 16 ltac:(lia) ltac:(lia)). lia.
Qed.

(** * The low stub *)

Lemma store_entries_out m a l x :
  x < a \/ a + sizeof_EFI_E820_ENTRY64 * Z.of_nat (length l) <= x -> store_entries m a l x = m x.
Proof.
  unfold sizeof_EFI_E820_ENTRY64. revert m a. induction l as [|e l IH]; intros m a Hx; [done|].
  cbn [store_entries length] in *. rewrite IH by (unfold sizeof_EFI_E820_ENTRY64; lia). by loads.
Qed.

Lemma store_entries_ok m a l : mem_ok m -> mem_ok (store_entries m a l).
Proof. revert m a. induction l as [|e l IH]; intros m a Hm; [done|]. apply IH. by do 3 apply store_ok. Qed.

(** The entries read back. *)
Lemma store_entries_holds m a l junk :
  wf128 l -> table_holds (store_entries m a (l ++ junk)) a l.
Proof.
  intros [Hok _]. revert m a. induction Hok as [|e l (Hb & Hl & Hs & Ht & _) Hok IH]; intros m a i f Hf; [done|].
  unfold stop_of in Hs. cbn [app store_entries]. destruct i as [|i].
  - injection Hf as <-. rewrite Z.mul_0_r, Z.add_0_r. unfold read_e820entry.
    rewrite !(load_ext _ (store_entries _ _ _) (store32 (store64 (store64 m a (BaseAddr e)) (a + 8) (E820.Length e))
      (a + 16) (Type_ e))) by (intros x Hx; apply store_entries_out; unfold sizeof_EFI_E820_ENTRY64; lia).
    loads. rewrite !wrap_small by (unfold fits; cbn; lia || exact Ht). by destruct e.
  - specialize (IH (store32 (store64 (store64 m a (BaseAddr e)) (a + 8) (E820.Length e)) (a + 16) (Type_ e))
      (a + sizeof_EFI_E820_ENTRY64) i f Hf). rewrite <- IH. f_equal.
    unfold sizeof_e820entry, sizeof_EFI_E820_ENTRY64. lia.
Qed.

Lemma table_holds_ext m m' p l :
  (forall x, p <= x < p + sizeof_e820entry * Z.of_nat (length l) -> m' x = m x) ->
  table_holds m p l -> table_holds m' p l.
Proof.
  intros Hext H i e Hi. rewrite <- (H i e Hi). pose proof (lookup_lt_Some _ _ _ Hi).
  unfold read_e820entry, sizeof_e820entry in *.
  rewrite !(load_ext _ m' m) by (intros x Hx; apply Hext; lia). done.
Qed.

Section Tables.
Context (T : thunk16) (T_layout : layout_ok T) (T_page : m16Size T <= 4096).

Ltac stub_consts :=
  unfold LOW_STUB_BASE, off_init_table, off_boot_table, off_vga_oprom_table, off_e820_entries,
    off_e820_map, sizeof_low_stub, CONVEN_END in *.

Lemma set_smbios_out tables stub m x :
  x < stub + off_boot_table + 8 \/ stub + off_boot_table + 12 <= x -> (set_smbios_table tables stub m).2 x = m x.
Proof.
  intros Hx. unfold set_smbios_table. destruct (negb _); [|done]. cbn [snd]. apply store_out. lia.
Qed.

Lemma set_smbios_ok tables stub m : mem_ok m -> mem_ok (set_smbios_table tables stub m).2.
Proof. intros Hm. unfold set_smbios_table. destruct (negb _); [|done]. by apply store_ok. Qed.

(** The thunk buffer is the page at 0x26000, and the first free byte 0x28000. *)
Lemma thunk_init m :
  exists m', LegacyBiosInitializeThunkAndTable T m LOW_STUB_BASE sizeof_low_stub =
    (mkContext 0x26000 4096 3, m', 0x28000) /\
    (mem_ok m -> mem_ok m') /\ forall x, x < 0x26000 \/ 0x27000 <= x -> m' x = m x.
Proof.
  set (ctx := mkContext 0x26000 4096 3).
  exists (AsmPrepareThunk16 T (Libc.memset m 0x26000 0 (Z.to_nat 4096)) ctx).
  split; [reflexivity|]. split.
  - intros Hm. by apply prepare_ok, Libc.memset_ok.
  - intros x Hx. rewrite prepare_frame; [|done|cbn; lia]. rewrite Libc.memset_at. ztests; done.
Qed.

(** What [fill_low_stub] leaves for the compatibility module. *)
Lemma fill_low_stub_spec tables priv HiPmm m :
  mem_ok m -> fits 32 HiPmm ->
  let '(ctx, m') := fill_low_stub T tables priv HiPmm m in
  let t := LOW_STUB_BASE + off_init_table in
  ctx = mkContext 0x26000 4096 3 /\ mem_ok m' /\
  LowPmmMemory m' t = 0x28000 /\ LowPmmMemorySizeInBytes m' t = 0x58000 /\
  HiPmmMemory m' t = HiPmm /\ HiPmmMemorySizeInBytes m' t = HIPMM_SIZE /\
  (forall x, x < LOW_STUB_BASE \/ CONVEN_END <= x -> m' x = m x).
Proof.
  intros Hm Hhi. unfold fill_low_stub.
  set (m1 := Libc.memset m _ 0 _). set (m2 := (set_smbios_table tables LOW_STUB_BASE m1).2).
  set (m3 := store32 m2 _ _). destruct (thunk_init m3) as (m4 & -> & Hok4 & Hout4).
  assert (Hok3 : mem_ok m3) by (apply store_ok, set_smbios_ok, Libc.memset_ok, Hm). specialize (Hok4 Hok3).
  assert (Hout3 : forall x, x < LOW_STUB_BASE \/ CONVEN_END <= x -> m4 x = m x).
  { intros x Hx. stub_consts. rewrite Hout4 by lia. unfold m3. rewrite store_out by lia. unfold m2.
    rewrite set_smbios_out by (stub_consts; lia). unfold m1. rewrite Libc.memset_at. ztests; done. }
  cbv zeta. stub_consts. unfold HIPMM_SIZE, LowPmmMemory, LowPmmMemorySizeInBytes,
    HiPmmMemory, HiPmmMemorySizeInBytes. zeval.
  split; [done|]. split; [apply store8_ok, store8_ok; repeat apply store_ok; exact Hok4|].
  split; [by loads|]. split; [by loads|]. split; [loads; cbn; rewrite wrap_wrap; by apply wrap_small|].
  split; [by loads|]. intros x Hx. loads. apply Hout3. lia.
Qed.

End Tables.

(** * Entering the compatibility module *)

(** The coreboot table is written to 0x500-0x53f only. *)
Lemma build_coreboot_frame m vt fb x :
  mem_ok m -> 0x540 <= fb -> x < 0x500 \/ 0x540 <= x -> build_coreboot_table m vt fb x = m x.
Proof.
  intros Hm Hfb Hx. destruct (decide (vt = CSMWRAP_VIDEO_OPROM)) as [->|Hvt].
  - rewrite build_without_framebuffer, seal_frame by lia.
    unfold with_header. rewrite !store_out, Libc.memset_at by lia. by ztests.
  - rewrite build_with_framebuffer, seal_frame by (done || lia). rewrite with_framebuffer_frame by (done || lia).
    unfold with_header. rewrite !store_out, Libc.memset_at by lia. by ztests.
Qed.

(** The compatibility table of the ROM: [table] is its address in the image. *)
Definition rom_address (Csm16_bin csm_bin_base table : Z) : Z := table - Csm16_bin + csm_bin_base.

Section HandOver.
Context (Csm16_bin sizeof_Csm16_bin table csm_bin_base vbios_loc vbios_size : Z) (m : mem).
Context (efi_mmap efi_mmap_size efi_desc_size : Z).
Context (m_ok : mem_ok m).
(** The image is above 1 MB, contains the table, and goes right below 1 MB;
    the video BIOS is above 1 MB as well. *)
Context (image_high : 0x100000 <= Csm16_bin) (vbios_high : 0x100000 <= vbios_loc).
Context (table_in : Csm16_bin <= table /\ table + 99 <= Csm16_bin + sizeof_Csm16_bin).
Context (base_def : csm_bin_base = BIOSROM_END - sizeof_Csm16_bin) (base_high : VGABIOS_END <= csm_bin_base).

Abbreviation m1 := (hand_over_e820 m table efi_mmap efi_mmap_size efi_desc_size).
Abbreviation mh := (handed_over Csm16_bin sizeof_Csm16_bin table csm_bin_base vbios_loc vbios_size m
                      efi_mmap efi_mmap_size efi_desc_size).
Abbreviation map := (build_e820_map m empty_map efi_mmap efi_mmap_size efi_desc_size).

Lemma hand_over_ok : mem_ok m1.
Proof. unfold hand_over_e820, store_low_map. do 3 apply store_ok. by apply store_entries_ok. Qed.

(** Where the video BIOS fits below the image, the ROM area is the image. *)
Lemma rom_is_image i :
  VGABIOS_START + vbios_size <= csm_bin_base -> 0 <= i < sizeof_Csm16_bin ->
  mh (csm_bin_base + i) = m1 (Csm16_bin + i).
Proof.
  clear table_in. intros Hfit Hi. unfold BIOSROM_END, VGABIOS_START, VGABIOS_END in *.
  unfold handed_over, copy_roms.
  set (m2 := Libc.memcpy m1 _ _ _).
  assert (Hok2 : mem_ok m2) by (apply Libc.memcpy_ok; [apply hand_over_ok|lia]).
  rewrite Libc.memcpy_at by (done || unfold VGABIOS_START; lia). unfold Libc.block_copy, VGABIOS_START.
  ztests. unfold m2. rewrite Libc.memcpy_at by (apply hand_over_ok || lia). unfold Libc.block_copy.
  ztests. f_equal. lia.
Qed.

(** Below the video BIOS nothing is copied. *)
Lemma roms_frame x : x < VGABIOS_START -> mh x = m1 x.
Proof.
  intros Hx. unfold BIOSROM_END, VGABIOS_START, VGABIOS_END in *. unfold handed_over, copy_roms.
  set (m2 := Libc.memcpy m1 _ _ _).
  assert (Hok2 : mem_ok m2) by (apply Libc.memcpy_ok; [apply hand_over_ok|lia]).
  rewrite Libc.memcpy_at by (done || unfold VGABIOS_START; lia). unfold Libc.block_copy, VGABIOS_START.
  ztests. unfold m2. rewrite Libc.memcpy_at by (apply hand_over_ok || lia). unfold Libc.block_copy.
  by ztests.
Qed.

(** The low stub outside the map is as it was. *)
Lemma stub_frame x :
  x < LOW_STUB_BASE + off_e820_entries -> mh x = m x.
Proof.
  intros Hx. rewrite roms_frame by (unfold LOW_STUB_BASE, off_e820_entries, VGABIOS_START in *; lia).
  unfold hand_over_e820, store_low_map. unfold LOW_STUB_BASE, off_e820_entries, off_e820_map in *.
  rewrite !store_out by lia. apply store_entries_out. lia.
Qed.

(** The map in the stub, and the pointer to it in the ROM. *)
Lemma handed_over_map l :
  rep128 map l -> wf128 l -> VGABIOS_START + vbios_size <= csm_bin_base ->
  let compat := rom_address Csm16_bin csm_bin_base table in
  E820Pointer mh compat = LOW_STUB_BASE + off_e820_map /\
  E820Length mh compat = sizeof_e820entry * Z.of_nat (length l) /\
  table_holds mh (LOW_STUB_BASE + off_e820_map) l.
Proof.
  intros (junk & Hmap & Hn & Hlen) Hwf Hfit. cbv zeta. change E820_MAX_ENTRIES with 128 in Hlen.
  assert (Hrom : forall n k, 0 <= k -> k + Z.of_nat n <= 99 ->
            load n mh (rom_address Csm16_bin csm_bin_base table + k) = load n m1 (table + k)).
  { intros n k Hk Hn'. unfold load. f_equal. apply load_bytes_shift. intros i Hi. unfold rom_address.
    replace (table - Csm16_bin + csm_bin_base + k + i) with (csm_bin_base + (table - Csm16_bin + k + i)) by lia.
    rewrite rom_is_image by (done || lia). f_equal. lia. }
  set (ms := store_low_map m map).
  assert (Hentries : load32 (store32 ms (table + 34) (u32 (LOW_STUB_BASE + off_e820_map)))
            (LOW_STUB_BASE + off_e820_entries) = Z.of_nat (length l)).
  { unfold ms, store_low_map. unfold LOW_STUB_BASE, off_e820_entries, off_e820_map. loads.
    rewrite Hn. apply wrap_small. unfold fits. cbn. lia. }
  split; [|split].
  - unfold E820Pointer. rewrite Hrom by lia. unfold hand_over_e820. loads. done.
  - unfold E820Length. rewrite Hrom by lia. unfold hand_over_e820. fold ms. rewrite Hentries. loads.
    unfold sizeof_EFI_E820_ENTRY64, sizeof_e820entry. cbn. rewrite wrap_wrap. apply wrap_small. unfold fits. lia.
  - apply (table_holds_ext (store_entries m (LOW_STUB_BASE + off_e820_map) (l ++ junk)));
      [|by apply store_entries_holds].
    intros x Hx. unfold sizeof_e820entry in Hx. unfold LOW_STUB_BASE, off_e820_map in *.
    rewrite roms_frame by (unfold VGABIOS_START; lia). unfold hand_over_e820, store_low_map.
    unfold LOW_STUB_BASE, off_e820_map, off_e820_entries. rewrite !store_out by lia. by rewrite Hmap.
Qed.

End HandOver.

(** * The memory map, end to end *)

(** An entry of a well-formed map is what the map reports at its start. *)
Lemma type_at_entry hole l e : wf hole l -> e ∈ l -> type_at l (BaseAddr e) = Some (Type_ e).
Proof.
  intros Hwf He. induction l as [|f l IH]; [by apply not_elem_of_nil in He|].
  pose proof (wf_above hole f l Hwf) as Hbelow. apply wf_cons in Hwf as ((Hb & Hl & _) & _ & Hwf).
  cbn [type_at]. unfold covers. apply elem_of_cons in He as [->|He].
  - unfold stop_of. destruct (Z.leb_spec (BaseAddr f) (BaseAddr f)), (Z.ltb_spec (BaseAddr f) (BaseAddr f + E820.Length f));
      done || lia.
  - rewrite Forall_forall in Hbelow. specialize (Hbelow e He).
    destruct (Z.ltb_spec (BaseAddr e) (stop_of f)); [lia|]. rewrite andb_false_r. by apply IH.
Qed.

Lemma efi_type_at_some ds f a t :
  efi_type_at ds f a = Some t -> f a = Some t \/ exists d, t = desc_type d.
Proof.
  revert f. induction ds as [|d ds IH]; intros f H; [by left|]. cbn [efi_type_at] in H.
  apply IH in H as [H|H]; [|by right]. destruct (desc_covers d a); [|by left].
  right. exists d. congruence.
Qed.

Lemma build_spec_type ds a t : build_spec ds a = Some t -> t <> E820_HOLE.
Proof.
  unfold build_spec, E820_HOLE, EfiAcpiAddressRangeMemory, EfiAcpiAddressRangeReserved.
  destruct (a <? 0x80000); [intros [= <-]; lia|]. destruct (a <? 0x100000); [intros [= <-]; lia|].
  intros [?|[d ->]]%efi_type_at_some; [done|]. unfold desc_type. by destruct (memory_type_of (DescType d)).
Qed.

Lemma built_wf_sea ds l :
  wf128 l -> (forall a, 0 <= a -> type_at l a = build_spec ds a) -> wf_sea l.
Proof.
  intros Hwf Hspec. split; [|apply Hwf]. apply Forall_forall. intros e He.
  pose proof (type_at_entry _ l e Hwf He) as Ht. destruct Hwf as [Hok _]. rewrite Forall_forall in Hok.
  destruct (Hok e He) as (H1 & H2 & H3 & H4 & _). do 4 (split; [done|]).
  rewrite Hspec in Ht by done. by eapply build_spec_type.
Qed.

(** A table of the low stub in ES:BX is the flat pointer SeaBIOS computes. *)
Lemma init_pointer :
  MAKE_FLATPTR (EFI_SEGMENT (LOW_STUB_BASE + off_init_table)) (EFI_OFFSET (LOW_STUB_BASE + off_init_table)) =
  LOW_STUB_BASE + off_init_table.
Proof. vm_compute. reflexivity. Qed.

Section EndToEnd.
Context (T : thunk16) (T_layout : layout_ok T) (T_page : m16Size T <= 4096).
Context (Csm16_bin sizeof_Csm16_bin table csm_bin_base vbios_loc vbios_size HiPmm : Z).
Context (tables : list EFI_CONFIGURATION_TABLE) (priv : csmwrap_priv).

(** The image, its table and the video BIOS are above 1 MB; both ROMs fit. *)
Definition images_ok : Prop :=
  0x100000 <= Csm16_bin /\ 0x100000 <= vbios_loc /\ 0 <= vbios_size /\
  (Csm16_bin <= table /\ table + 99 <= Csm16_bin + sizeof_Csm16_bin) /\
  csm_bin_base = BIOSROM_END - sizeof_Csm16_bin /\ VGABIOS_END <= csm_bin_base /\
  VGABIOS_START + vbios_size <= csm_bin_base.

(** High memory for the POST memory manager is above 1 MB and below 4 GB. *)
Definition hipmm_ok : Prop := 0x100000 <= HiPmm /\ HiPmm + HIPMM_SIZE < 2 ^ 32.

(** Memory when the firmware's map has been read: what was set up below 1 MB
    is still there. *)
Definition prepared (m0 m : mem) : Prop :=
  mem_ok m /\
  forall x, x < 0x100000 ->
    m x = build_coreboot_table (fill_low_stub T tables priv HiPmm m0).2 (video_type priv) (cb_fb priv) x.

(** SeaBIOS's memory still has the tables of the low stub and the pointer to
    the map in the ROM. *)
Definition tables_kept (mh m' : mem) : Prop :=
  forall x, LOW_STUB_BASE <= x < LOW_STUB_BASE + sizeof_low_stub \/
    rom_address Csm16_bin csm_bin_base table + 34 <= x < rom_address Csm16_bin csm_bin_base table + 42 ->
    m' x = mh x.

Context (m0 m : mem) (efi_mmap efi_mmap_size efi_desc_size : Z).
Context (m0_ok : mem_ok m0) (fb_ok : 0x540 <= cb_fb priv) (images : images_ok) (hipmm : hipmm_ok).
Context (m_prepared : prepared m0 m).

Abbreviation mh := (handed_over Csm16_bin sizeof_Csm16_bin table csm_bin_base vbios_loc vbios_size m
                      efi_mmap efi_mmap_size efi_desc_size).

(** The init table as SeaBIOS reads it. *)
Lemma init_table_kept m' :
  tables_kept mh m' ->
  let t := LOW_STUB_BASE + off_init_table in
  LowPmmMemory m' t = 0x28000 /\ LowPmmMemorySizeInBytes m' t = 0x58000 /\
  HiPmmMemory m' t = HiPmm /\ HiPmmMemorySizeInBytes m' t = HIPMM_SIZE.
Proof.
  intros Hkept. cbv zeta. destruct images as (H1 & H2 & H3 & H4 & H5 & H6 & H7).
  destruct hipmm as [Hh1 Hh2]. unfold HIPMM_SIZE in Hh2.
  destruct m_prepared as [Hm Hlow].
  pose proof (fill_low_stub_spec T T_layout T_page tables priv HiPmm m0 m0_ok ltac:(unfold fits; lia)) as Hf.
  destruct (fill_low_stub T tables priv HiPmm m0) as [ctx mf]. cbn [snd] in Hlow.
  destruct Hf as (_ & Hmf & F1 & F2 & F3 & F4 & _).
  assert (Heq : forall n k, 0 <= k -> k + Z.of_nat n <= 40 ->
            load n m' (LOW_STUB_BASE + off_init_table + k) = load n mf (LOW_STUB_BASE + off_init_table + k)).
  { intros n k Hk Hn. apply load_ext. intros x Hx. unfold LOW_STUB_BASE, off_init_table in *.
    rewrite Hkept by (left; unfold sizeof_low_stub, LOW_STUB_BASE; lia).
    rewrite stub_frame by (done || unfold LOW_STUB_BASE, off_e820_entries; lia).
    rewrite Hlow by lia. apply build_coreboot_frame; [done|done|lia]. }
  unfold LowPmmMemory, LowPmmMemorySizeInBytes, HiPmmMemory, HiPmmMemorySizeInBytes in *.
  rewrite !Heq by lia. done.
Qed.

(** C1: the memory map, from UEFI to the boot: for a firmware map of at most
    122 disjoint descriptors, the E820 map SeaBIOS ends up with at
    PrepareToBoot reports for every address exactly its class (usable below
    the EBDA, reserved from there to 1 MB, the converted type of the
    descriptor that covers it above), with the top 256 KB of the memory
    CSMWrap allocated for SeaBIOS reserved. *)
Theorem e820_end_to_end L c :
  let ds := descriptors m efi_mmap efi_mmap_size efi_desc_size in
  0 < efi_desc_size -> Forall desc_ok ds -> disjoint_descs ds -> (length ds <= 122)%nat ->
  tables_kept mh (c_mem c) -> c_e820 c = e820_list_init ->
  csm_compat_table L = rom_address Csm16_bin csm_bin_base table ->
  csm_init_table c = MAKE_FLATPTR (EFI_SEGMENT (LOW_STUB_BASE + off_init_table))
                       (EFI_OFFSET (LOW_STUB_BASE + off_init_table)) ->
  let stop := HiPmm + HIPMM_SIZE in
  forall a, 0 <= a -> type_at (live (prepare_e820 L c)) a =
    if (stop - BUILD_MIN_HIGHTABLE <=? a) && (a <? stop) then Some E820_RESERVED else build_spec ds a.
Proof.
  cbv zeta. intros Hd Hok Hdis Hn Hkept He HL Hi a Ha. rewrite init_pointer in Hi.
  destruct (init_table_kept (c_mem c) Hkept) as (_ & _ & I3 & I4).
  destruct images as (H1 & H2 & H3 & H4 & H5 & H6 & H7).
  destruct (build_exact m efi_mmap efi_mmap_size efi_desc_size Hd Hok Hdis ltac:(lia))
    as (l & Hrep & Hwf & Hlen & Hspec).
  destruct (handed_over_map Csm16_bin sizeof_Csm16_bin table csm_bin_base vbios_loc vbios_size m
    efi_mmap efi_mmap_size efi_desc_size (proj1 m_prepared) H1 H2 H4 H5 H6 l Hrep Hwf H7) as (P1 & P2 & P3).
  set (compat := rom_address Csm16_bin csm_bin_base table) in *.
  assert (HE : E820Pointer (c_mem c) compat = LOW_STUB_BASE + off_e820_map /\
               E820Length (c_mem c) compat = sizeof_e820entry * Z.of_nat (length l)).
  { unfold E820Pointer, E820Length in *.
    rewrite !(load_ext _ (c_mem c) mh) by (intros x Hx; apply Hkept; right; unfold compat in *; lia). done. }
  destruct HE as [E1 E2]. pose proof hipmm as [Hh1 Hh2].
  destruct (prepare_e820_spec L c l) as [_ Hmap]; rewrite ?HL, ?E1, ?Hi, ?I3, ?I4; try done.
  - apply (table_holds_ext mh); [|done]. intros x Hx. apply Hkept. left.
    unfold sizeof_e820entry, LOW_STUB_BASE, off_e820_map, sizeof_low_stub in *. lia.
  - by eapply built_wf_sea.
  - lia.
  - lia.
  - rewrite Hmap, Hspec by done. by rewrite Hi, I3, I4.
Qed.

(** The memory of each zone once SeaBIOS has initialised itself. *)
Definition zone_memory (L : linker) : regions := fun z a =>
  match z with
  | ZoneTmpLow => 0x28000 <= a < 0x80000
  | ZoneTmpHigh => HiPmm <= a < HiPmm + HIPMM_SIZE - 0x40000
  | ZoneHigh => HiPmm + HIPMM_SIZE - 0x40000 <= a < HiPmm + HIPMM_SIZE
  | ZoneLow => zonelow_base L + OPROM_HEADER_RESERVE <= a < final_varlow_start L
  | ZoneFSeg => zonefseg_start L <= a < zonefseg_end L
  end.

(** C2: the memory CSMWrap sets aside is the memory SeaBIOS allocates from:
    when it initialises itself from the init table in the low stub, with an
    empty allocator, linker symbols that leave room for the low and F-segment
    zones and init code of at most 3 MB, the relocation and the set-up of the
    allocator succeed.  The addresses the allocator manages, used or free, are
    then exactly 0x28000-0x7ffff in the low temporary zone, the 4 MB at
    [HiPmm] but its last 256 KB in the high temporary zone, those 256 KB in the
    permanent high zone, and the linker's ranges in the low and F-segment
    zones; after the donation they were exactly the first three.  The heap is
    well formed and the option ROM area is empty and safe. *)
Theorem donated_memory_end_to_end L c :
  tables_kept mh (c_mem c) -> c_heap c = empty_heap ->
  csm_init_table c = MAKE_FLATPTR (EFI_SEGMENT (LOW_STUB_BASE + off_init_table))
                       (EFI_OFFSET (LOW_STUB_BASE + off_init_table)) ->
  linker_ok L 0x28000 0x58000 HiPmm HIPMM_SIZE ->
  code32init_end L - code32init_start L + reloc_min_align L <= 0x300000 ->
  let R := csm_regions L 0x28000 0x58000 HiPmm HIPMM_SIZE in
  exists c1 c2, reloc_preinit L (donate c) = Some c1 /\ init_allocator L c1 = Some c2 /\
    regions_apart R /\ rom_safe (zonelow_base L) (final_varlow_start L) R (c_rom c2) /\
    c_RomEnd c2 = BUILD_ROM_START /\
    manages (c_heap (donate c)) (fun z a => z <> ZoneLow /\ z <> ZoneFSeg /\ zone_memory L z a) /\
    manages (c_heap c2) (zone_memory L).
Proof.
  intros Hkept Hheap Hi HL Hsize. rewrite init_pointer in Hi.
  destruct (init_table_kept (c_mem c) Hkept) as (I1 & I2 & I3 & I4).
  pose proof (initialize_spec L c) as H. pose proof (initialize_total L c) as Ht. cbv zeta in H, Ht.
  rewrite Hi, I1, I2, I3, I4 in H. rewrite Hi, I1, I2, I3, I4 in Ht.
  destruct (Ht Hheap HL) as (c1 & c2 & E1 & E2 & C1 & C2); [unfold BUILD_MIN_HIGHTABLE, HIPMM_SIZE; lia|].
  destruct (H Hheap HL) as [Hap Hsafe]. rewrite E1 in Hsafe. exists c1, c2. split; [done|]. split; [done|].
  split; [done|]. destruct (Hsafe c2 E2) as [Hs He]. split; [done|]. split; [done|].
  split; [eapply manages_ext, C1|eapply manages_ext, C2]; intros z a;
    unfold csm_zones, add_region, donated, zone_memory, BUILD_MIN_HIGHTABLE, HIPMM_SIZE; destruct z; simpl;
    intuition (congruence || lia).
Qed.

End EndToEnd.

(** * The ROM area *)

(** When the compatibility module is entered, the ROM area below 1 MB holds
    the image byte for byte, with the map pointer filled in, provided the video
    BIOS ends below it. *)
Lemma rom_image_intact Csm16_bin size table base loc vsize m mmap mmap_size desc_size i :
  mem_ok m -> 0x100000 <= Csm16_bin -> 0x100000 <= loc ->
  base = BIOSROM_END - size -> VGABIOS_END <= base -> VGABIOS_START + vsize <= base -> 0 <= i < size ->
  handed_over Csm16_bin size table base loc vsize m mmap mmap_size desc_size (base + i) =
  hand_over_e820 m table mmap mmap_size desc_size (Csm16_bin + i).
Proof. intros. apply rom_is_image; (done || lia). Qed.

(** Nothing checks the size of the video BIOS: one that reaches the image,
    which a file of up to 256 KB or an option ROM may, replaces the start of
    the compatibility module, because it is copied second. *)
Lemma large_vbios_overwrites_csm Csm16_bin size table base loc vsize m mmap mmap_size desc_size :
  mem_ok m -> 0x100000 <= Csm16_bin -> 0x100000 <= loc ->
  base = BIOSROM_END - size -> VGABIOS_END <= base -> base < VGABIOS_START + vsize -> 0 <= size ->
  VGABIOS_START + vsize <= BIOSROM_END ->
  handed_over Csm16_bin size table base loc vsize m mmap mmap_size desc_size base =
  hand_over_e820 m table mmap mmap_size desc_size (loc + (base - VGABIOS_START)).
Proof.
  intros Hm H1 H2 Hb Hv Hbig Hs Hend. unfold BIOSROM_END, VGABIOS_START, VGABIOS_END in *.
  unfold handed_over, copy_roms. pose proof (hand_over_ok table m mmap mmap_size desc_size Hm) as Hok.
  set (m1 := hand_over_e820 _ _ _ _ _) in *. set (m2 := Libc.memcpy m1 _ _ _).
  assert (Hok2 : mem_ok m2) by (apply Libc.memcpy_ok; [done|lia]).
  rewrite Libc.memcpy_at by (done || unfold VGABIOS_START; lia). unfold Libc.block_copy, VGABIOS_START.
  ztests. unfold m2. rewrite Libc.memcpy_at by (done || lia). unfold Libc.block_copy. by ztests.
Qed.

(** * SMBIOS *)

(** The SMBIOS pointer that is handed over is the low half of the table's
    address: the guard meant to skip a table above 4 GB tests the variable
    before it is set, so such a table is accepted and its pointer cut, with
    success reported. *)
Lemma smbios_above_4g_truncated tables t low_stub m :
  find_vendor tables SMBIOS_TABLE_GUID = Some t -> 2 ^ 32 <= VendorTable t < 2 ^ 64 ->
  let '(status, m') := set_smbios_table tables low_stub m in
  status = 0 /\ SmbiosTable m' (low_stub + off_boot_table) = VendorTable t mod 2 ^ 32 /\
  SmbiosTable m' (low_stub + off_boot_table) <> VendorTable t.
Proof.
  intros Hf Ht. unfold set_smbios_table, smbios_search. rewrite Hf. cbn [Z.ltb Z.compare].
  destruct (Z.eqb_spec (VendorTable t) 0); [lia|].
  rewrite (proj2 (Z.eqb_neq (VendorTable t) 0)) by lia. cbn [negb].
  unfold SmbiosTable. rewrite load_store_same. change (8 * Z.of_nat 4) with 32. rewrite wrap_wrap.
  split; [done|]. split; [done|]. unfold wrap.
  pose proof (Z.mod_pos_bound (VendorTable t) (2 ^ 32) ltac:(lia)). lia.
Qed.

Section Calls.
Context (L : linker) (D : drivers) (acpi_fuel : nat).

(** The registers of a call, as SeaBIOS receives them. *)
Definition call_bregs (call : Z * option Z) : bregs :=
  match call.2 with
  | Some t => mkRegs call.1 (EFI_OFFSET t) 0 0 0 (EFI_SEGMENT t)
  | None => mkRegs call.1 0 0 0 0 0
  end.

(** The calls of [efi_main], one after the other; [None] when one does not
    return. *)
Fixpoint run_calls (calls : list (Z * option Z)) (c : csm) : option csm :=
  match calls with
  | [] => Some c
  | call :: calls' =>
    match handle_csm L D acpi_fuel (call_bregs call) c with
    | None => None
    | Some (_, c) => run_calls calls' c
    end
  end.

(** The pointer to the boot table and the address of the SMBIOS entry point
    SeaBIOS has published. *)
Definition kept (c : csm) : Z * Z := (csm_boot_table c, SMBios21Addr (c_tables c)).

(** The driver code does not touch them. *)
Definition drivers_keep : Prop :=
  (forall v c, kept (pic_irqmask_write D v c) = kept c) /\
  (forall rom bdf c, kept (callrom D rom bdf c) = kept c) /\
  Forall (fun f : csm -> csm => forall c, kept (f c) = kept c)
    [code_mutable_preinit D; qemu_preinit D; interfaces D; enable_vga_console D; prepare_devices D; startBoot D].

Lemma return_keeps r c : kept (csm_return L D r c).2 = kept c.
Proof. done. Qed.

Lemma reloc_keeps c c' : reloc_preinit L c = Some c' -> kept c' = kept c.
Proof.
  unfold reloc_preinit. destruct (memalign_tmp _ _ _) as [d h]. destruct (d =? 0); [done|].
  intros E. by apply (f_equal (fun o => match o with Some x => kept x | None => (0, 0) end)) in E.
Qed.

Lemma allocator_keeps c c' : init_allocator L c = Some c' -> kept c' = kept c.
Proof.
  unfold init_allocator. destruct (malloc_init _ _ _ _ _ _) as [[rom|] sz]; [|done].
  intros E. by apply (f_equal (fun o => match o with Some x => kept x | None => (0, 0) end)) in E.
Qed.

Lemma initialize_keeps r c r' c' : drivers_keep -> handle_csm_0000 L D r c = Some (r', c') -> kept c' = kept c.
Proof.
  intros (_ & _ & Hd). rewrite !Forall_cons in Hd. destruct Hd as (_ & Hq & Hi & _).
  unfold handle_csm_0000. destruct (reloc_preinit L _) as [c1|] eqn:E1; [|done].
  apply reloc_keeps in E1. unfold csm_maininit.
  destruct (init_allocator L c1) as [c2|] eqn:E2; [|done]. apply allocator_keeps in E2. intros E.
  apply (f_equal (fun o => match o with Some x => kept x.2 | None => (0, 0) end)) in E.
  cbn [snd] in E. rewrite <- E, return_keeps. etransitivity; [apply Hi|].
  rewrite E2, E1. apply Hq.
Qed.

(** The tables as [prepare_smbios] leaves them for the candidate [p]. *)
Definition smbios_from (p : Z) (t : tables) : tables := if p =? 0 then t else copy_smbios_21 p t.

(** The copy does not depend on the other tables. *)
Lemma smbios_from_address p t pir rsdp :
  SMBios21Addr (smbios_from p (mkTables (t_mem t) (t_heap t) pir rsdp (SMBios21Addr t) (SMBios30Addr t))) =
  SMBios21Addr (smbios_from p t).
Proof.
  unfold smbios_from, copy_smbios_21. cbn [t_mem t_heap SMBios21Addr SMBios30Addr].
  repeat (case_match; try done).
Qed.

(** PrepareToBoot looks for the SMBIOS entry point where the boot table says:
    at the address in the word at 8 when there is none. *)
Lemma prepare_reads r c r' c' : drivers_keep -> csm_boot_table c = 0 -> handle_csm_0002 L D acpi_fuel r c = Some (r', c') ->
  kept c' = (0, SMBios21Addr (smbios_from (load32 (c_mem c) 8) (c_tables c))).
Proof.
  intros (_ & _ & Hd) H0. rewrite !Forall_cons in Hd. destruct Hd as (_ & _ & _ & Hv & Hp & _).
  unfold handle_csm_0002. destruct (prepare_rsdp _ _ _) as [c1|] eqn:Hr; [|done]. intros [= <- <-].
  etransitivity; [apply Hp|]. etransitivity; [apply Hv|].
  assert (csm_boot_table c1 = 0 /\ exists pir rsdp, c_tables c1 =
    mkTables (c_mem c) (c_heap c) pir rsdp (SMBios21Addr (c_tables c)) (SMBios30Addr (c_tables c))) as (H1 & pir & rsdp & Et).
  { unfold c_mem, c_heap. revert Hr. unfold prepare_rsdp, prepare_mmconfig, prepare_pir.
    destruct c as [[m h pir rsdp a21 a30] re rb e it bt pm mm av rs]. cbn in H0. subst bt.
    repeat (case_match; try done); intros [= <-]; by split; [|eexists _, _]. }
  assert (c_mem c1 = c_mem c) as Em by (unfold c_mem at 1; by rewrite Et).
  unfold kept, prepare_smbios. rewrite H1. change (SmbiosTable (c_mem c1) 0) with (load32 (c_mem c1) 8).
  rewrite Em, <- (smbios_from_address _ (c_tables c) pir rsdp). unfold smbios_from.
  change (mkTables (t_mem (c_tables c)) (t_heap (c_tables c)))
    with (mkTables (c_mem c) (c_heap c)). rewrite <- Et.
  destruct (load32 (c_mem c) 8 =? 0); cbn [negb]; [by rewrite H1|]. cbn [with_tables csm_boot_table c_tables]. by rewrite H1.
Qed.

(** The state in which a function of the module runs. *)
Definition entered (c : csm) : csm := let c := code_mutable_preinit D c in pic_irqmask_write D (PICMask c) c.

Lemma entered_keeps c : drivers_keep -> kept (entered c) = kept c.
Proof.
  intros (Hw & _ & Hd). rewrite !Forall_cons in Hd. destruct Hd as (Hm & _). unfold entered. cbv zeta. by rewrite Hw, Hm.
Qed.

(** Every function but numbers 1 and 2 keeps them. *)
Lemma handle_keeps r c r' c' : drivers_keep -> r_ax r <> 1 -> r_ax r <> 2 ->
  handle_csm L D acpi_fuel r c = Some (r', c') -> kept c' = kept c.
Proof.
  intros Hd Hne Hne2. rewrite <- (entered_keeps c Hd). unfold handle_csm. cbv zeta.
  change (pic_irqmask_write D (PICMask (code_mutable_preinit D c)) (code_mutable_preinit D c)) with (entered c).
  set (c0 := entered c). assert (H0 := initialize_keeps r c0 r' c' Hd). destruct Hd as (Hw & Hcall & Hd).
  rewrite !Forall_cons in Hd. destruct Hd as (_ & _ & _ & _ & _ & Hboot & _). clearbody c0. clear Hw.
  assert (H5 : kept (handle_csm_0005 L D r c0).2 = kept c0).
  { unfold handle_csm_0005. etransitivity; [apply (Hcall _ _ (with_rom _ _))|done]. }
  assert (H6 : kept (handle_csm_0006 r c0).2 = kept c0)
    by (unfold handle_csm_0006; repeat case_match; done).
  assert (Hret : forall x, kept x.2 = kept c0 ->
            Some (csm_return L D x.1 x.2) = Some (r', c') -> kept c' = kept c0).
  { intros x Hx E. assert (E' : (csm_return L D x.1 x.2).2 = c') by (by injection E as ->).
    by rewrite <- E', return_keeps. }
  destruct (r_ax r) as [|[[|[]|]|[[]|[]|]|]|]; try done; first [apply H0|apply Hret; done || apply Hboot].
Qed.

(** C39: CSMWrap never makes the call that gives SeaBIOS the boot table, so the
    pointer stays null through its four calls.  The SMBIOS entry point SeaBIOS
    publishes is the one PrepareToBoot finds through the word at linear address
    8, in the interrupt vector table, in the memory the first two calls left,
    whatever pointer CSMWrap stored in the boot table; and every boot priority
    is the one for no entry. *)
Theorem boot_table_never_read c c' :
  drivers_keep -> csm_boot_table c = 0 -> run_calls csm_calls c = Some c' ->
  (exists c2, run_calls (take 2 csm_calls) c = Some c2 /\
     let t := c_tables (entered c2) in
     let p := load32 (t_mem t) 8 in
     SMBios21Addr t = SMBios21Addr (c_tables c) /\
     SMBios21Addr (c_tables c') = SMBios21Addr (if p =? 0 then t else copy_smbios_21 p t)) /\
  (forall bdf, csm_bootprio_pci c' bdf = -1) /\
  (forall chanid slave, csm_bootprio_ata c' chanid slave = -1) /\ csm_bootprio_fdc c' = -1.
Proof.
  intros Hd H0 Hrun. unfold csm_calls in Hrun |- *. cbn [firstn run_calls] in Hrun |- *.
  destruct (handle_csm L D acpi_fuel _ c) as [[r1 c1]|] eqn:E1; [|done].
  destruct (handle_csm L D acpi_fuel _ c1) as [[r2 c2]|] eqn:E2; [|done].
  destruct (handle_csm L D acpi_fuel _ c2) as [[r3 c3]|] eqn:E3; [|done].
  destruct (handle_csm L D acpi_fuel _ c3) as [[r4 c4]|] eqn:E4; [|done]. injection Hrun as <-.
  apply handle_keeps in E1, E2, E4; [|done..]. assert (kept c2 = kept c) as K2 by congruence. clear E1 E2.
  pose proof (entered_keeps c2 Hd) as Ke. assert (csm_boot_table (entered c2) = 0) as He.
  { change ((kept (entered c2)).1 = 0). by rewrite Ke, K2. }
  assert (kept c3 = (0, SMBios21Addr (smbios_from (load32 (c_mem (entered c2)) 8) (c_tables (entered c2))))) as K3.
  { revert E3. unfold handle_csm. cbv zeta.
    change (pic_irqmask_write D (PICMask (code_mutable_preinit D c2)) (code_mutable_preinit D c2)) with (entered c2).
    cbn [call_bregs r_ax snd fst]. unfold Legacy16PrepareToBoot. destruct (handle_csm_0002 _ _ _ _ _) as [[r x]|] eqn:E; [|done].
    intros Hret. rewrite <- (prepare_reads _ _ _ _ Hd He E). apply (f_equal (fun o => match o with Some y => kept y.2 | None => (0, 0) end)) in Hret.
    change (kept c3) with (kept (r3, c3).2). by rewrite <- Hret. }
  rewrite K3 in E4. injection E4 as Hb Hs. split.
  - exists c2. split; [done|]. cbv zeta. rewrite Hs. split; [|done]. by injection (eq_trans Ke K2).
  - unfold csm_bootprio_pci, csm_bootprio_ata, csm_bootprio_fdc. by rewrite Hb.
Qed.

End Calls.

(** * The order of events *)

Section Events.
Context {W : Type} `{Machine W} `{LegacyRegion2 W} `{BootServices W} `{VideoServices W} `{LoaderServices W}.

(** The state after [n] calls of [ExitBootServices], and what the next one
    answers. *)
Fixpoint after (n : nat) (key : Z) (w : W) : W :=
  match n with O => w | S n' => after n' key (ExitBootServices key w).2 end.

Definition answer (n : nat) (key : Z) (w : W) : Z := (ExitBootServices key (after n key w)).1.

Lemma exit_loop_spec k key status w status' w' :
  exit_loop k key status w = (status', w') ->
  (exists j, (j < k)%nat /\ answer j key w = EFI_SUCCESS /\
     (forall j', (j' < j)%nat -> answer j' key w <> EFI_SUCCESS) /\
     status' = EFI_SUCCESS /\ w' = after (S j) key w) \/
  ((forall j, (j < k)%nat -> answer j key w <> EFI_SUCCESS) /\ w' = after k key w /\
   (k = 0%nat /\ status' = status \/ status' <> EFI_SUCCESS)).
Proof.
  revert status w. induction k as [|k IH]; intros status w; cbn [exit_loop].
  { intros [= <- <-]. right. split; [lia|]. split; [done|by left]. }
  rewrite run_bind. destruct (Z.eqb_spec (ExitBootServices key w).1 EFI_SUCCESS) as [He|Hne].
  { intros [= <- <-]. left. exists 0%nat. split; [lia|]. split; [done|]. split; [lia|done]. }
  intros Hrun. destruct (IH _ _ Hrun) as [(j & Hj & Hs & Hpre & Hr)|(Hall & Hn & Hst)].
  - left. exists (S j). split; [lia|]. split; [exact Hs|]. split; [|exact Hr].
    intros [|j'] Hj'; [done|]. apply (Hpre j'). lia.
  - right. split; [intros [|j] Hj; [done|apply (Hall j); lia]|]. split; [done|].
    right. destruct Hst as [[_ ->]|Hst]; done.
Qed.

(** At most 128 calls of [ExitBootServices] are made, nothing else is done
    between them, none follows one that succeeds, and the result is a success
    exactly when one of them was. *)
Lemma exit_boot_services_bounded key w :
  let '(status, w') := exit_boot_services key w in
  (status = EFI_SUCCESS <-> exists i, (i < 128)%nat /\ answer i key w = EFI_SUCCESS) /\
  exists n, (n <= 128)%nat /\ w' = after n key w /\ forall i, (S i < n)%nat -> answer i key w <> EFI_SUCCESS.
Proof.
  destruct (exit_boot_services key w) as [status w'] eqn:E.
  destruct (exit_loop_spec _ _ _ _ _ _ E) as [(j & Hj & Hs & Hpre & -> & ->)|(Hall & -> & Hst)].
  - split; [split; eauto|]. exists (S j). split; [lia|]. split; [done|]. intros i Hi. apply Hpre. lia.
  - split; [|exists 128%nat; split; [done|]; split; [done|]; intros i Hi; apply Hall; lia].
    split; [|intros (i & Hi & Hs); by destruct (Hall i Hi)]. destruct Hst as [[? _]|Hst]; done.
Qed.

Context (T : thunk16) (Csm16_bin size : Z).
Context (InternalAsmThunk16 : IA32_REGISTER_SET -> Z -> mem -> IA32_REGISTER_SET * mem).
Context (vgabios_bin sizeof_vgabios_bin : Z) (tables : list EFI_CONFIGURATION_TABLE).
Context (revision : Z) (has_disconnect : bool) (cb_fb_addr tmp_mmap banner : Z) (fuel dfuel : nat).

(** The state after lines were printed. *)
Inductive printed : W -> W -> Prop :=
| printed_nothing w : printed w w
| printed_line fmt args w w' : printed (printf fmt args w).2 w' -> printed w w'.

Lemma printed_trans w1 w2 w3 : printed w1 w2 -> printed w2 w3 -> printed w1 w3.
Proof. induction 1; eauto using printed. Qed.

Lemma dump_printed title w : printed w (dump_state title w).2.
Proof.
  unfold dump_state. rewrite !run_bind.
  apply (printed_line (ln title) []), (printed_line (ln "CSMwrap: VGA palette state (first 16 entries):") []).
  generalize (printf (ln "CSMwrap: VGA palette state (first 16 entries):") [] (printf (ln title) [] w).2).2.
  induction (cbvga_emul_dump_state palette_start) as [|[[i [[r g] b]] x] l IH]; intros w0; cbn [foldr]; [exact (printed_nothing w0)|].
  rewrite run_bind. eapply printed_line, IH.
Qed.

(** The firmware was left, and all that was done to the machine after that but
    for the calls is: interrupts were disabled, the interrupt controllers and
    the timer programmed, and lines printed on the console of the firmware. *)
Definition left_firmware (w' : W) : Prop :=
  exists key w0 w1, ExitBootServices key w0 = (EFI_SUCCESS, w1) /\ printed (legacy_timers (cli w1).2).2 w'.

Lemma enter_legacy_spec table base a v w status calls m' w' :
  enter_legacy T Csm16_bin size InternalAsmThunk16 tables revision has_disconnect tmp_mmap table base a v w =
    ((status, calls, m'), w') ->
  (status = MINUS_ONE /\ calls = []) \/
  (status = 0 /\ calls = csm_calls /\ left_firmware w' /\
   (AllocatePages (HIPMM_SIZE / 4096) 0xffffffff w).1.1 = EFI_SUCCESS).
Proof.
  unfold enter_legacy. rewrite run_bind.
  destruct (AllocatePages _ _ w) as [[sp HiPmm] w1]. cbn [fst snd].
  destruct (Z.eqb_spec sp EFI_SUCCESS) as [Hp|]; cbn [negb]; [|rewrite run_bind; intros [= <- <- <- <-]; by left].
  destruct (prepare_low _ _ _ _ _) as [ctx m]. rewrite !run_bind.
  destruct (read_memory_map _ _ _) as [[m2 map] w4]. cbn [fst snd].
  destruct map as [[[[mmap msize] desc] key]|]; [|intros [= <- <- <- <-]; by left].
  rewrite run_bind. destruct (exit_boot_services key w4) as [se w5] eqn:Ex. cbn [fst snd].
  destruct (Z.eqb_spec se EFI_SUCCESS) as [He|]; cbn [negb]; [|rewrite run_bind; intros [= <- <- <- <-]; by left].
  unfold run_legacy. rewrite !run_bind. intros E. right.
  set (w6 := (legacy_timers (cli w5).2).2) in *.
  assert (status = 0 /\ calls = csm_calls /\ printed w6 w') as (-> & -> & Hpr).
  { injection E as <- <- _ <-. split; [done|]. split; [done|]. eapply printed_trans; apply dump_printed. }
  do 2 (split; [done|]). split; [|done].
  destruct (exit_loop_spec _ _ _ _ _ _ Ex) as [(j & _ & Hj & _ & _ & ->)|(_ & _ & [[? _]|]) ]; [|done|done].
  exists key, (after j key w4), (after (S j) key w4). split; [|done].
  assert (after (S j) key w4 = (ExitBootServices key (after j key w4)).2) as ->.
  { clear. revert w4. induction j as [|j IH]; intros w; [done|]. exact (IH (ExitBootServices key w).2). }
  unfold answer in Hj. rewrite <- Hj. by destruct (ExitBootServices key (after j key w4)).
Qed.


End Events.

(** * A boot *)

(** A 128 KB image at 4 MB whose table is at its start, a video BIOS of 32 KB
    at 5 MB, and a firmware map of one descriptor at 6 MB: 16 MB of
    conventional memory from 1 MB. *)
Definition demo_image : mem :=
  store_bytes (store64 (store64 (store32 (store32 (fun _ => 0) 0x400000 EFI_COMPATIBILITY16_TABLE_SIGNATURE)
    0x600000 7) 0x600008 0x100000) 0x600018 0x1000) 0x500000 [0x55; 0xaa; 0x40].

Definition demo_priv : csmwrap_priv :=
  mkPriv 0x400000 0x400000 0xE0000 LOW_STUB_BASE CSMWRAP_VIDEO_SEAVGABIOS 0x1000 1 0 0 16 0x700000.

(** Memory when the firmware's map has been read. *)
Definition demo_prepared : mem := fun x =>
  if x <? 0x100000 then
    build_coreboot_table (fill_low_stub sample_thunk [] demo_priv 0x7F000000 demo_image).2
      CSMWRAP_VIDEO_SEAVGABIOS 0x700000 x
  else demo_image x.

Lemma demo_image_ok : mem_ok demo_image.
Proof. unfold demo_image. apply store_bytes_ok. repeat apply store_ok. intros a. unfold fits. lia. Qed.

Lemma sample_layout : layout_ok sample_thunk /\ m16Size sample_thunk <= 4096.
Proof. unfold layout_ok, Thunk.apart, m16Size. cbn. lia. Qed.

Lemma demo_prepared_ok :
  prepared sample_thunk 0x7F000000 [] demo_priv demo_image demo_prepared.
Proof.
  destruct sample_layout as [HL HP]. split.
  - intros x. unfold demo_prepared. destruct (x <? 0x100000); [|apply demo_image_ok].
    pose proof (fill_low_stub_spec sample_thunk HL HP [] demo_priv 0x7F000000 demo_image demo_image_ok
                  ltac:(unfold fits; lia)) as Hf.
    destruct (fill_low_stub _ _ _ _ _) as [ctx mf]. destruct Hf as (_ & Hok & _). cbn [snd].
    rewrite build_with_framebuffer by done. apply seal_ok. apply with_framebuffer_ok; [done|lia].
  - intros x Hx. unfold demo_prepared. destruct (Z.ltb_spec x 0x100000); [done|lia].
Qed.

Lemma demo_images_ok : images_ok 0x400000 0x20000 0x400000 0xE0000 0x500000 0x8000.
Proof. unfold images_ok, BIOSROM_END, VGABIOS_END, VGABIOS_START. lia. Qed.

Lemma demo_hipmm_ok : hipmm_ok 0x7F000000.
Proof. unfold hipmm_ok, HIPMM_SIZE. lia. Qed.

Definition demo_handed : mem :=
  handed_over 0x400000 0x20000 0x400000 0xE0000 0x500000 0x8000 demo_prepared 0x600000 48 48.

(** SeaBIOS before it is initialised, and its linker symbols. *)
Definition demo_csm : csm :=
  mkCsm (mkTables demo_handed empty_heap 0 0 0 0) 0 (InTemp DataInfo) e820_list_init
    (LOW_STUB_BASE + off_init_table) 0 0 0 (mkAcpiVars None 0 [] 0) 0.

Definition demo_linker : linker :=
  mkLinker 0xE0000 0xE0100 16 0xEA000 0xEA000 0xEA000 0xEA000 0xEA000 0xEA000 0xE0000
    0xE0000 0xEE000 0xFA000 0xFA000 0xF0000 0xF4000 0xFFE00 0xE0000 0xF6100.

Lemma demo_descriptors : descriptors demo_prepared 0x600000 48 48 = [mkDesc 7 0x100000 0x1000].
Proof. vm_compute. reflexivity. Qed.

Lemma e820_end_to_end_witness :
  type_at (live (prepare_e820 demo_linker demo_csm)) 0x200000 = Some EfiAcpiAddressRangeMemory.
Proof.
  destruct sample_layout as [HL HP].
  rewrite (e820_end_to_end sample_thunk HL HP 0x400000 0x20000 0x400000 0xE0000 0x500000 0x8000 0x7F000000
    [] demo_priv demo_image demo_prepared 0x600000 48 48 demo_image_ok ltac:(cbn; lia) demo_images_ok
    demo_hipmm_ok demo_prepared_ok demo_linker demo_csm).
  - rewrite demo_descriptors. vm_compute. reflexivity.
  - lia.
  - rewrite demo_descriptors. repeat constructor; vm_compute; congruence.
  - rewrite demo_descriptors. by repeat constructor.
  - rewrite demo_descriptors. cbn. lia.
  - intros x _. reflexivity.
  - reflexivity.
  - reflexivity.
  - symmetry. exact init_pointer.
  - lia.
Defined.

Lemma demo_kept :
  tables_kept 0x400000 0x400000 0xE0000
    (handed_over 0x400000 0x20000 0x400000 0xE0000 0x500000 0x8000 demo_prepared 0x600000 48 48)
    (c_mem demo_csm).
Proof. intros x _. reflexivity. Qed.

Lemma demo_linker_ok : linker_ok demo_linker 0x28000 0x58000 0x7F000000 HIPMM_SIZE.
Proof.
  unfold linker_ok, demo_linker, BUILD_ROM_START, OPROM_HEADER_RESERVE, HIPMM_SIZE; cbn.
  split_and!; try lia. exists 4. split; [lia|done].
Qed.

Lemma donated_memory_end_to_end_witness :
  exists c1 c2, reloc_preinit demo_linker (donate demo_csm) = Some c1 /\
    init_allocator demo_linker c1 = Some c2 /\ c_RomEnd c2 = BUILD_ROM_START /\
    (used (get (c_heap c2) ZoneTmpLow) 0x50000 \/ SeaZone.free (get (c_heap c2) ZoneTmpLow) 0x50000).
Proof.
  destruct sample_layout as [HL HP].
  pose proof (donated_memory_end_to_end sample_thunk HL HP 0x400000 0x20000 0x400000 0xE0000 0x500000 0x8000
    0x7F000000 [] demo_priv demo_image demo_prepared 0x600000 48 48 demo_image_ok ltac:(cbn; lia)
    demo_images_ok demo_hipmm_ok demo_prepared_ok demo_linker demo_csm demo_kept eq_refl
    (eq_sym init_pointer) demo_linker_ok ltac:(cbn; lia)) as H.
  cbv zeta in H. destruct H as (c1 & c2 & H1 & H2 & _ & _ & H3 & _ & H4).
  exists c1, c2. split; [exact H1|]. split; [exact H2|]. split; [exact H3|]. apply H4. cbn. lia.
Defined.

Lemma rom_image_intact_witness :
  handed_over 0x400000 0x20000 0x400000 0xE0000 0x500000 0x8000 demo_image 0x600000 0 48 (0xE0000 + 1) = 0x46.
Proof.
  rewrite (rom_image_intact 0x400000 0x20000 0x400000 0xE0000 0x500000 0x8000 demo_image 0x600000 0 48 1
             demo_image_ok); [vm_compute; reflexivity|unfold BIOSROM_END, VGABIOS_END, VGABIOS_START; lia..].
Defined.

Lemma large_vbios_overwrites_csm_witness :
  handed_over 0x400000 0x38000 0x400000 0xC8000 0x500000 0x20000 demo_image 0x600000 0 48 0xC8000 =
  hand_over_e820 demo_image 0x400000 0x600000 0 48 (0x500000 + (0xC8000 - VGABIOS_START)).
Proof.
  apply (large_vbios_overwrites_csm 0x400000 0x38000 0x400000 0xC8000 0x500000 0x20000 demo_image 0x600000 0 48
           demo_image_ok); unfold BIOSROM_END, VGABIOS_END, VGABIOS_START; lia.
Defined.

Definition high_smbios : list EFI_CONFIGURATION_TABLE := [mkTable SMBIOS_TABLE_GUID 0x100001000].

Lemma smbios_above_4g_truncated_witness :
  SmbiosTable (set_smbios_table high_smbios LOW_STUB_BASE demo_image).2 (LOW_STUB_BASE + off_boot_table) = 0x1000.
Proof.
  pose proof (smbios_above_4g_truncated high_smbios (mkTable SMBIOS_TABLE_GUID 0x100001000) LOW_STUB_BASE
                demo_image ltac:(vm_compute; reflexivity) ltac:(cbn; lia)) as H.
  destruct (set_smbios_table _ _ _) as [st m']. destruct H as (_ & H & _). cbn [snd]. rewrite H. reflexivity.
Defined.

Lemma sample_drivers_keep : drivers_keep sample_drivers.
Proof. split; [done|]. split; [done|]. by repeat constructor. Qed.

(** The four calls on the sample of [SeaCsm], with drivers that do nothing. *)
Lemma boot_table_never_read_witness :
  exists c', run_calls sample_linker sample_drivers 10 csm_calls sample_csm = Some c' /\ csm_bootprio_fdc c' = -1.
Proof.
  destruct (run_calls sample_linker sample_drivers 10 csm_calls sample_csm) as [c'|] eqn:E.
  - exists c'. split; [reflexivity|].
    destruct (boot_table_never_read _ _ _ sample_csm c' sample_drivers_keep eq_refl E) as (_ & _ & _ & H). exact H.
  - exfalso. apply (f_equal (fun o => match o with Some _ => true | None => false end)) in E.
    vm_compute in E. discriminate.
Defined.

(** A machine that grants every request, [ExitBootServices] at the third: the
    word last written reads back everywhere. *)
Record demo_world := mkDemo { last_word : Z; exits : nat }.

#[local] Instance demo_machine : Machine demo_world := {|
  in_port _ _ := mret 0;
  out_port _ _ _ := mret ();
  read_mem _ _ := fun w => (last_word w, w);
  write_mem _ _ v := fun w => ((), mkDemo v (exits w));
  clflush _ := mret ();
  rdmsr_asm _ := mret (0, 0);
  wrmsr_asm _ _ _ := mret ();
  rdtsc_asm := mret (0, 0)
|}.

#[local] Instance demo_region2 : LegacyRegion2 demo_world := {|
  locate_region2 := mret EFI_UNSUPPORTED;
  region2_decode _ _ _ := mret EFI_UNSUPPORTED;
  region2_unlock _ _ := mret EFI_UNSUPPORTED;
  region2_get_info := mret (EFI_UNSUPPORTED, [])
|}.

#[local] Instance demo_boot_services : BootServices demo_world := {|
  Stall _ := mret ();
  AllocatePool _ := mret (EFI_SUCCESS, 0x600000);
  FreePool _ := mret ();
  GetTime := mret (EFI_SUCCESS, mkTime 2025 1 1 0 0 0 0)
|}.

#[local] Instance demo_video_services : VideoServices demo_world := {|
  LocateHandleBuffer _ := mret (EFI_UNSUPPORTED, (0, []));
  HandleProtocol _ _ := mret (EFI_UNSUPPORTED, 0);
  LocateDevicePath _ _ := mret (EFI_UNSUPPORTED, 0);
  DisconnectController _ := mret EFI_UNSUPPORTED;
  GetLocation _ := mret (EFI_UNSUPPORTED, (0, 0, 0, 0));
  PciRead _ _ _ _ := mret (EFI_UNSUPPORTED, []);
  AttributesSupported _ := mret (EFI_UNSUPPORTED, 0);
  AttributesEnable _ _ := mret EFI_UNSUPPORTED;
  QueryMode _ _ := mret (EFI_UNSUPPORTED, mkModeInfo 0 0 PixelBltOnly 0 0 0 0 0)
|}.

#[local] Instance demo_loader : LoaderServices demo_world := {|
  SetWatchdogTimer := mret ();
  RaiseTPL _ := mret ();
  OpenVolume _ := mret (EFI_UNSUPPORTED, 0);
  Open _ := mret (EFI_UNSUPPORTED, 0);
  Read _ _ := mret (EFI_UNSUPPORTED, []);
  Close _ := mret ();
  AllocatePages _ _ := mret (EFI_SUCCESS, 0x7F000000);
  GetMemoryMap _ := mret (EFI_SUCCESS, ([], 48, 1, 48));
  ExitBootServices _ := fun w =>
    ((if (exits w <? 2)%nat then EFI_OUT_OF_RESOURCES else EFI_SUCCESS), mkDemo (last_word w) (S (exits w)));
  uacpi_setup_early_table_access _ := mret 0;
  printf _ _ := mret ();
  cli := mret ()
|}.

Definition calls_of (r : option (Z * list (Z * option Z) * mem)) : option (Z * list (Z * option Z)) :=
  match r with Some (status, calls, _) => Some (status, calls) | None => None end.

Lemma demo_probe n ptr : test_words n ptr (mkDemo 0 0) = (true, mkDemo 0 0).
Proof. revert ptr. induction n as [|n IH]; intros ptr; [reflexivity|]. exact (IH (ptr + 4)). Qed.

Lemma demo_unlocked : unlock_bios_region (mkDemo 0 0) = (0, mkDemo 0 0).
Proof. unfold unlock_bios_region, test_bios_region_rw. rewrite run_bind, demo_probe. reflexivity. Qed.

Abbreviation demo_main :=
  (efi_main sample_thunk 0x400000 256 sample_code 0x500000 512 [] 0x1000a true 0x700000 0x800000 0x900000 8 8 1
     demo_image (mkDemo 0 0)).

Lemma demo_runs : calls_of demo_main.1 = Some (0, csm_calls).
Proof.
  unfold efi_main. rewrite !run_bind.
  change (GetTime _) with ((EFI_SUCCESS, mkTime 2025 1 1 0 0 0 0), mkDemo 0 0).
  cbn [fst snd]. change (EFI_SUCCESS =? EFI_SUCCESS) with true. cbn [negb]. rewrite run_bind.
  change (load_vgabios 1 demo_image _) with ((demo_image, 0, 0), mkDemo 0 0). cbn [fst snd]. rewrite !run_bind.
  change (RaiseTPL 16 _).2 with (mkDemo 0 0). rewrite demo_unlocked. lazy. reflexivity.
Qed.

