(* ===== verification/CcInt.v ===== *)
(** Machine integers of the compiler run-time ([src/cc-runtime/src/cc-runtime.c]).

    The run-time is C over two's-complement integers of 32, 64 and 128 bits.
    An unsigned value is a [Z] that [fits] its width, a signed one a [Z] with
    [sfits].  An operation of C that can be undefined (a shift out of range, a
    signed overflow, a division by zero, [__builtin_clz] of zero) returns an
    [outcome], in which [Undefined] is that case and [Aborted] is a call of
    [compilerrt_abort]; a theorem that a routine returns [Done] therefore says
    that it neither traps nor meets undefined behaviour. *)

From stdpp Require Import base numbers list.
From Stdlib Require Import ZArith Lia.
From S2P Require Import Prelude.

(** * Outcomes *)

Inductive outcome (A : Type) : Type :=
| Done (a : A)
| Aborted
| Undefined.
Arguments Done {A} a.
Arguments Aborted {A}.
Arguments Undefined {A}.

#[export] Instance outcome_ret : MRet outcome := fun A a => Done a.
#[export] Instance outcome_bind : MBind outcome := fun A B k o =>
  match o with Done a => k a | Aborted => Aborted | Undefined => Undefined end.
#[export] Instance outcome_fmap : FMap outcome := fun A B f o =>
  match o with Done a => Done (f a) | Aborted => Aborted | Undefined => Undefined end.

(** Run the next steps of a routine whose operations are known to be [Done]. *)
Ltac run_outcome := cbn [mbind outcome_bind mret outcome_ret fmap outcome_fmap].
Ltac run_outcome_in H := cbn [mbind outcome_bind mret outcome_ret fmap outcome_fmap] in H.

(** * Signed values and the conversions between the types *)

Definition sfits (w z : Z) : Prop := - 2 ^ (w - 1) <= z < 2 ^ (w - 1).

#[export] Instance sfits_dec w z : Decision (sfits w z).
Proof. unfold sfits. apply _. Defined.

(** The widths of [si_int]/[su_int], [di_int]/[du_int] and [ti_int]/[tu_int];
    a conversion to a signed type keeps the low bits. *)
Abbreviation si := (to_signed 32).
Abbreviation di := (to_signed 64).
Abbreviation ti := (to_signed 128).
Abbreviation u128 := (wrap 128).

(** * The operations of C *)

Definition shl (w x n : Z) : outcome Z :=
  if (0 <=? n) && (n <? w) then Done (wrap w (Z.shiftl x n)) else Undefined.

(** On a signed operand the shift is the arithmetic one. *)
Definition shr (w x n : Z) : outcome Z :=
  if (0 <=? n) && (n <? w) then Done (Z.shiftr x n) else Undefined.

Definition udiv (a b : Z) : outcome Z := if b =? 0 then Undefined else Done (a / b).
Definition umod (a b : Z) : outcome Z := if b =? 0 then Undefined else Done (a mod b).

(** A signed result that must be representable. *)
Definition signed (w z : Z) : outcome Z := if decide (sfits w z) then Done z else Undefined.

Definition sdiv (w a b : Z) : outcome Z :=
  if b =? 0 then Undefined else signed w (Z.quot a b).

(** [__builtin_clz] and [__builtin_ctz] at width [w]. *)
Definition clz (w x : Z) : outcome Z :=
  if x =? 0 then Undefined else Done (w - 1 - Z.log2 x).

Fixpoint pos_ctz (p : positive) : Z :=
  match p with
  | xO q => 1 + pos_ctz q
  | _ => 0
  end.

Definition ctz (x : Z) : outcome Z :=
  match x with
  | Z0 => Undefined
  | Zpos p | Zneg p => Done (pos_ctz p)
  end.

(** * The unions [dwords], [udwords], [twords] and [utwords]

    [h] is the width of a half: 32 for the double words, 64 for the quadruple
    ones.  The target is little-endian, so [s.low] is the low half. *)

Definition low (h x : Z) : Z := wrap h x.
Definition high (h x : Z) : Z := to_signed h (Z.shiftr x h).
Definition uhigh (h x : Z) : Z := wrap h (Z.shiftr x h).

(** The whole of a union whose halves hold [lo] and [hi]. *)
Definition join (h lo hi : Z) : Z := to_signed (2 * h) (Z.lor (wrap h lo) (Z.shiftl hi h)).
Definition ujoin (h lo hi : Z) : Z := Z.lor (wrap h lo) (Z.shiftl (wrap h hi) h).

(** * Lemmas *)

Lemma to_signed_sfits w z : 0 < w -> sfits w (to_signed w z).
Proof.
  intros Hw. unfold sfits, to_signed. pose proof (wrap_fits w z ltac:(lia)) as [Hl Hh].
  assert (2 ^ w = 2 * 2 ^ (w - 1)) as Hp.
  { rewrite <- Z.pow_succ_r by lia. f_equal; lia. }
  ztest; lia.
Qed.

Lemma to_signed_small w z : 0 < w -> sfits w z -> to_signed w z = z.
Proof.
  intros Hw [Hl Hh]. unfold to_signed, wrap.
  assert (2 ^ w = 2 * 2 ^ (w - 1)) as Hp.
  { rewrite <- Z.pow_succ_r by lia. f_equal; lia. }
  destruct (Z.lt_ge_cases z 0).
  - replace (z mod 2 ^ w) with (z + 2 ^ w); [ztest; lia|].
    apply Z.mod_unique_pos with (-1); lia.
  - rewrite Z.mod_small by lia. ztest; lia.
Qed.

Lemma wrap_to_signed w z : 0 < w -> wrap w (to_signed w z) = wrap w z.
Proof.
  intros Hw. unfold to_signed. ztest; [apply wrap_wrap|].
  unfold wrap. replace (z mod 2 ^ w - 2 ^ w) with (z mod 2 ^ w + (-1) * 2 ^ w) by lia.
  rewrite Z_mod_plus_full. apply Zmod_mod.
Qed.

Lemma to_signed_wrap w z : to_signed w (wrap w z) = to_signed w z.
Proof. unfold to_signed. by rewrite wrap_wrap. Qed.

(** Values with the same low bits convert alike. *)
Lemma to_signed_cong w x y : wrap w x = wrap w y -> to_signed w x = to_signed w y.
Proof. intros H. unfold to_signed. by rewrite H. Qed.

(** Equality of the low bits is a congruence. *)
Lemma wrap_add_cong w a a' b b' : wrap w a = wrap w a' -> wrap w b = wrap w b' ->
  wrap w (a + b) = wrap w (a' + b').
Proof. unfold wrap. intros Ha Hb. by rewrite Zplus_mod, Ha, Hb, <- Zplus_mod. Qed.

Lemma wrap_mul_cong w a a' b b' : wrap w a = wrap w a' -> wrap w b = wrap w b' ->
  wrap w (a * b) = wrap w (a' * b').
Proof. unfold wrap. intros Ha Hb. by rewrite Zmult_mod, Ha, Hb, <- Zmult_mod. Qed.

(** Bit [i] of a signed value: above the width, the sign. *)
Lemma to_signed_testbit w z i : 0 < w -> 0 <= i ->
  Z.testbit (to_signed w z) i = Z.testbit z (if i <? w then i else w - 1).
Proof.
  intros Hw Hi.
  assert (forall x, sfits w x -> forall k, w - 1 <= k -> Z.testbit x k = (x <? 0)) as Hhigh.
  { intros x [Hl Hh] k Hk. destruct (Z.ltb_spec x 0).
    - rewrite <- (Z.lnot_involutive x), Z.lnot_spec by lia.
      rewrite (fits_testbit_high (w - 1)); [done| |lia].
      unfold fits, Z.lnot. lia.
    - rewrite (fits_testbit_high (w - 1)); [done| |lia]. unfold fits. lia. }
  assert (forall k, 0 <= k < w -> Z.testbit (to_signed w z) k = Z.testbit z k) as Hlow.
  { intros k Hk. pose proof (wrap_testbit w (to_signed w z) k ltac:(lia) ltac:(lia)) as H1.
    rewrite wrap_to_signed, wrap_testbit in H1 by lia.
    destruct (Z.ltb_spec k w); [|lia]. by simpl in H1. }
  destruct (Z.ltb_spec i w); [apply Hlow; lia|].
  rewrite <- (Hlow (w - 1)) by lia. pose proof (to_signed_sfits w z Hw) as Hs.
  rewrite (Hhigh _ Hs i), (Hhigh _ Hs (w - 1)) by lia. done.
Qed.

(** Equality bit by bit: every operator is pushed down to the bits of the
    operands, splitting on where the bit lies. *)
Ltac bits_step :=
  match goal with
  | |- context [Z.testbit (Z.lor ?a ?b) ?i] => rewrite (Z.lor_spec a b i)
  | |- context [Z.testbit (Z.land ?a ?b) ?i] => rewrite (Z.land_spec a b i)
  | |- context [Z.testbit (Z.lxor ?a ?b) ?i] => rewrite (Z.lxor_spec a b i)
  | |- context [Z.testbit (Z.lnot ?a) ?i] => rewrite (Z.lnot_spec a i) by lia
  | |- context [Z.testbit (Z.shiftr ?a ?n) ?i] => rewrite (Z.shiftr_spec a n i) by lia
  | |- context [Z.testbit (Z.shiftl ?a ?n) ?i] =>
    destruct (Z.lt_ge_cases i n);
    [rewrite (Z.shiftl_spec_low a n i) by lia|rewrite (Z.shiftl_spec_high a n i) by lia]
  | |- context [Z.testbit (wrap ?w ?a) ?i] =>
    rewrite (wrap_testbit w a i) by lia; destruct (Z.ltb_spec i w); cbn [andb]
  | |- context [Z.testbit (to_signed ?w ?a) ?i] =>
    rewrite (to_signed_testbit w a i) by lia; destruct (Z.ltb_spec i w); cbn [andb]
  | |- context [Z.testbit 0 ?i] => rewrite (Z.testbit_0_l i)
  end.
Ltac bits_close :=
  rewrite ?orb_false_r, ?orb_false_l, ?andb_true_r, ?andb_false_r, ?xorb_false_r, ?xorb_false_l;
  try lia; try reflexivity; try (f_equal; lia); try (f_equal; f_equal; lia).
Ltac zbits :=
  apply Z.bits_inj'; let i := fresh "i" in intros i ?; repeat bits_step; bits_close.

Lemma low_fits h x : 0 <= h -> fits h (low h x).
Proof. apply wrap_fits. Qed.

Lemma uhigh_fits h x : 0 <= h -> fits h (uhigh h x).
Proof. apply wrap_fits. Qed.

Lemma high_sfits h x : 0 < h -> sfits h (high h x).
Proof. apply to_signed_sfits. Qed.

#[export] Hint Resolve low_fits uhigh_fits high_sfits to_signed_sfits : word.

Lemma land_1_fits x : fits 1 (Z.land x 1).
Proof. rewrite land_1. apply Z.mod_pos_bound. lia. Qed.

Lemma shiftr_fits w x n : 0 <= n -> fits w x -> fits w (Z.shiftr x n).
Proof.
  intros Hn [Hl Hu]. rewrite Z.shiftr_div_pow2 by lia. assert (0 < 2 ^ n) by lia.
  split; [apply Z.div_pos; lia|apply Z.div_lt_upper_bound; nia].
Qed.

(** A value is the union of its halves. *)
Lemma join_halves h x : 0 < h -> sfits (2 * h) x -> join h (low h x) (high h x) = x.
Proof.
  intros Hh Hx. rewrite <- (to_signed_small (2 * h) x) at 3 by (done || lia).
  apply to_signed_cong. unfold low, high. rewrite wrap_wrap. zbits.
Qed.

Lemma halves_add h x : 0 <= h -> x = low h x + 2 ^ h * Z.shiftr x h.
Proof.
  intros Hh. unfold low, wrap. rewrite Z.shiftr_div_pow2 by lia.
  pose proof (Z.div_mod x (2 ^ h) ltac:(lia)). lia.
Qed.

Lemma uhigh_div h x : 0 <= h -> fits (2 * h) x -> uhigh h x = x / 2 ^ h.
Proof.
  intros Hh [Hl Hu]. unfold uhigh. rewrite Z.shiftr_div_pow2 by lia. apply wrap_small.
  assert (0 < 2 ^ h) by lia. split; [apply Z.div_pos; lia|].
  apply Z.div_lt_upper_bound; [lia|]. rewrite <- Z.pow_add_r by lia.
  replace (h + h) with (2 * h) by lia. done.
Qed.

Lemma high_div h x : 0 < h -> sfits (2 * h) x -> high h x = x / 2 ^ h.
Proof.
  intros Hh [Hl Hu]. unfold high. rewrite Z.shiftr_div_pow2 by lia. apply to_signed_small; [lia|].
  assert (0 < 2 ^ h) by lia.
  assert (2 ^ (2 * h - 1) = 2 ^ h * 2 ^ (h - 1)) as Hp.
  { rewrite <- Z.pow_add_r by lia. f_equal; lia. }
  split; [apply Z.div_le_lower_bound; lia|apply Z.div_lt_upper_bound; lia].
Qed.

Lemma ujoin_add h lo hi : 0 <= h -> ujoin h lo hi = wrap h lo + 2 ^ h * wrap h hi.
Proof.
  intros. unfold ujoin. rewrite lor_add_shift by (lia || by apply wrap_fits). lia.
Qed.

Lemma ujoin_fits h lo hi : 0 <= h -> fits (2 * h) (ujoin h lo hi).
Proof.
  intros Hh. rewrite ujoin_add by lia.
  pose proof (wrap_fits h lo Hh) as [? ?]. pose proof (wrap_fits h hi Hh) as [? ?].
  replace (2 * h) with (h + h) by lia. unfold fits. rewrite Z.pow_add_r by lia. nia.
Qed.

Lemma signed_done w z : sfits w z -> signed w z = Done z.
Proof. intros. unfold signed. by rewrite decide_True. Qed.

Lemma shl_done w x n : 0 <= n < w -> shl w x n = Done (wrap w (Z.shiftl x n)).
Proof. intros. unfold shl. ztests. done. Qed.

Lemma shr_done w x n : 0 <= n < w -> shr w x n = Done (Z.shiftr x n).
Proof. intros. unfold shr. ztests. done. Qed.

Lemma udiv_done a b : b <> 0 -> udiv a b = Done (a / b).
Proof. intros. unfold udiv. ztests. done. Qed.

Lemma umod_done a b : b <> 0 -> umod a b = Done (a mod b).
Proof. intros. unfold umod. ztests. done. Qed.

Lemma clz_done w x : x <> 0 -> clz w x = Done (w - 1 - Z.log2 x).
Proof. intros. unfold clz. ztests. done. Qed.

(** [ctz] is the power of two that divides [x]. *)
Lemma ctz_spec x : 0 < x -> exists k m, ctz x = Done k /\ 0 <= k /\ x = 2 ^ k * (2 * m + 1) /\ 0 <= m.
Proof.
  destruct x as [|p|p]; try lia. intros _. simpl. exists (pos_ctz p).
  induction p as [p IH|p IH|]; simpl.
  - exists (Zpos p). repeat split; lia.
  - destruct IH as (m & _ & Hk & Hx & Hm). exists m. split; [done|]. split; [lia|].
    split; [|done]. rewrite Z.pow_add_r by lia. rewrite (Pos2Z.inj_xO p), Hx. lia.
  - exists 0. repeat split; lia.
Qed.

(** * The reference count of one bits *)

Fixpoint pos_popcount (p : positive) : Z :=
  match p with
  | xH => 1
  | xO q => pos_popcount q
  | xI q => 1 + pos_popcount q
  end.

Definition popcount (x : Z) : Z := match x with Zpos p => pos_popcount p | _ => 0 end.

Lemma popcount_double x b : 0 <= x -> popcount (2 * x + Z.b2z b) = popcount x + Z.b2z b.
Proof. intros Hx. destruct x as [|p|p], b; simpl; rewrite ?Pos.mul_1_l; lia. Qed.

Lemma popcount_split k lo hi : 0 <= k -> fits k lo -> 0 <= hi ->
  popcount (lo + 2 ^ k * hi) = popcount lo + popcount hi.
Proof.
  intros Hk. revert lo. pattern k. apply natlike_ind; [| |done]; clear k Hk.
  - intros lo [? ?] ?. assert (lo = 0) as -> by (simpl in *; lia). by rewrite Z.pow_0_r, Z.mul_1_l.
  - intros k Hk IH lo [Hl Hu] Hhi. rewrite Z.pow_succ_r in * by lia.
    pose proof (Z.div2_odd lo) as Hlo. set (l2 := Z.div2 lo) in *. set (b := Z.odd lo) in *.
    assert (0 <= Z.b2z b <= 1) by (destruct b; simpl; lia).
    replace (lo + 2 * 2 ^ k * hi) with (2 * (l2 + 2 ^ k * hi) + Z.b2z b) by lia.
    rewrite Hlo, !popcount_double, IH by (lia || split; lia). lia.
Qed.

Lemma popcount_nonneg x : 0 <= popcount x.
Proof. destruct x as [|p|p]; simpl; try lia. induction p; simpl; lia. Qed.

(** The number of one bits of an exclusive or has the parity of the sum. *)
Lemma popcount_lxor a b : 0 <= a -> 0 <= b ->
  (popcount (Z.lxor a b)) mod 2 = (popcount a + popcount b) mod 2.
Proof.
  intros Ha Hb. destruct (Z.log2_up_spec (2 + a + b)) as [_ Hk]; [lia|].
  set (k := Z.log2_up (2 + a + b)) in *.
  assert (0 <= k) as Hk0 by (apply Z.log2_up_nonneg).
  assert (fits k a) as Fa by (split; lia). assert (fits k b) as Fb by (split; lia).
  clearbody k. clear Hk Ha Hb. revert a b Fa Fb. pattern k.
  apply natlike_ind; [| |done]; clear k Hk0.
  - intros a b [? ?] [? ?]. simpl in *. assert (a = 0) as -> by lia. by assert (b = 0) as -> by lia.
  - intros k Hk IH a b [? ?] [? ?]. rewrite Z.pow_succ_r in * by lia.
    pose proof (Z.div2_odd a) as Ea. pose proof (Z.div2_odd b) as Eb.
    set (a2 := Z.div2 a) in *. set (b2 := Z.div2 b) in *.
    assert (0 <= Z.b2z (Z.odd a) <= 1) by (destruct (Z.odd a); simpl; lia).
    assert (0 <= Z.b2z (Z.odd b) <= 1) by (destruct (Z.odd b); simpl; lia).
    assert (Z.lxor a b = 2 * Z.lxor a2 b2 + Z.b2z (xorb (Z.odd a) (Z.odd b))) as ->.
    { pose proof (Z.div2_odd (Z.lxor a b)) as Ex.
      rewrite <- !Z.bit0_odd, Z.lxor_spec, !Z.bit0_odd in Ex. rewrite Ex at 1.
      f_equal. f_equal. unfold a2, b2. rewrite !Z.div2_spec. apply Z.shiftr_lxor. }
    rewrite Ea, Eb at 2. rewrite !popcount_double; [|lia|lia|apply Z.lxor_nonneg; lia].
    specialize (IH a2 b2 ltac:(split; lia) ltac:(split; lia)).
    destruct (Z.odd a), (Z.odd b); simpl in *; Z.div_mod_to_equations; lia.
Qed.
