(* ===== verification/CcBits.v ===== *)
(** Shifts, byte swaps, bit counts and comparisons of the compiler run-time
    ([src/cc-runtime/src/cc-runtime.c]).

    The routines on 64 and on 128 bits are the same code over the two unions
    of halves, so each is written once with the width [h] of a half and
    instantiated at 32 and 64. *)

From stdpp Require Import base numbers list.
From Stdlib Require Import ZArith Lia.
From S2P Require Import Prelude CcInt.

(** * Shifts *)

Module Shift.
Section halves.
Context (h : Z).

Definition ashlXi3 (a b : Z) : outcome Z :=
  if negb (Z.land b h =? 0) then
    hi ← shl h (low h a) (b - h);
    mret (join h 0 hi)
  else if b =? 0 then mret a
  else
    lo ← shl h (low h a) b;
    hi1 ← shl h (wrap h (high h a)) b;
    hi2 ← shr h (low h a) (h - b);
    mret (join h lo (Z.lor hi1 hi2)).

Definition ashrXi3 (a b : Z) : outcome Z :=
  if negb (Z.land b h =? 0) then
    hi ← shr h (high h a) (h - 1);
    lo ← shr h (high h a) (b - h);
    mret (join h lo hi)
  else if b =? 0 then mret a
  else
    hi ← shr h (high h a) b;
    lo1 ← shl h (wrap h (high h a)) (h - b);
    lo2 ← shr h (low h a) b;
    mret (join h (Z.lor lo1 lo2) hi).

Definition lshrXi3 (a b : Z) : outcome Z :=
  let input := wrap (2 * h) a in
  if negb (Z.land b h =? 0) then
    lo ← shr h (uhigh h input) (b - h);
    mret (to_signed (2 * h) (ujoin h lo 0))
  else if b =? 0 then mret a
  else
    hi ← shr h (uhigh h input) b;
    lo1 ← shl h (uhigh h input) (h - b);
    lo2 ← shr h (low h input) b;
    mret (to_signed (2 * h) (ujoin h (Z.lor lo1 lo2) hi)).
End halves.

Definition __ashldi3 : Z -> Z -> outcome Z := ashlXi3 32.
Definition __ashlti3 : Z -> Z -> outcome Z := ashlXi3 64.
Definition __ashrdi3 : Z -> Z -> outcome Z := ashrXi3 32.
Definition __ashrti3 : Z -> Z -> outcome Z := ashrXi3 64.
Definition __lshrdi3 : Z -> Z -> outcome Z := lshrXi3 32.
Definition __lshrti3 : Z -> Z -> outcome Z := lshrXi3 64.

Lemma land_pow_test k b : 0 <= k -> 0 <= b < 2 * 2 ^ k -> (Z.land b (2 ^ k) =? 0) = (b <? 2 ^ k).
Proof.
  intros Hk Hb.
  assert (Z.land b (2 ^ k) = if Z.testbit b k then 2 ^ k else 0) as ->.
  { apply Z.bits_inj'. intros i Hi. rewrite Z.land_spec, Z.pow2_bits_eqb by lia.
    destruct (Z.eqb_spec k i) as [->|].
    - destruct (Z.testbit b i); [by rewrite Z.pow2_bits_true by lia|by rewrite Z.bits_0].
    - rewrite andb_false_r. destruct (Z.testbit b k); [|by rewrite Z.bits_0].
      by rewrite Z.pow2_bits_false by lia. }
  assert (0 < 2 ^ k) by lia. rewrite Z.testbit_eqb by lia.
  destruct (Z.ltb_spec b (2 ^ k)).
  - by rewrite Z.div_small by lia.
  - replace (b / 2 ^ k) with 1; [apply Z.eqb_neq; change (1 mod 2 =? 1) with true; lia|].
    apply Z.div_unique with (b - 2 ^ k); lia.
Qed.

Lemma half_test h b : h = 32 \/ h = 64 -> 0 <= b < 2 * h -> (Z.land b h =? 0) = (b <? h).
Proof.
  intros [-> | ->] Hb; [apply (land_pow_test 5)|apply (land_pow_test 6)]; simpl; lia.
Qed.

Ltac halves Hh Hb :=
  rewrite (half_test _ _ Hh Hb); ztest; cbn [negb];
  [ztest; [subst|]|]; rewrite ?shl_done, ?shr_done by lia; run_outcome;
  f_equal.

Lemma ashlXi3_done h a b : h = 32 \/ h = 64 -> sfits (2 * h) a -> 0 <= b < 2 * h ->
  ashlXi3 h a b = Done (to_signed (2 * h) (Z.shiftl a b)).
Proof.
  intros Hh Ha Hb. unfold ashlXi3. halves Hh Hb.
  - rewrite Z.shiftl_0_r. symmetry. apply to_signed_small; (done || lia).
  - apply to_signed_cong. unfold low, high. zbits.
  - apply to_signed_cong. unfold low, high. zbits.
Qed.

Lemma shiftr_sfits w a n : 0 < w -> 0 <= n -> sfits w a -> sfits w (Z.shiftr a n).
Proof.
  intros Hw Hn [Hl Hu]. rewrite Z.shiftr_div_pow2 by lia. assert (0 < 2 ^ n) by lia.
  split; [apply Z.div_le_lower_bound; nia|apply Z.div_lt_upper_bound; nia].
Qed.

Lemma ashrXi3_done h a b : h = 32 \/ h = 64 -> sfits (2 * h) a -> 0 <= b < 2 * h ->
  ashrXi3 h a b = Done (Z.shiftr a b).
Proof.
  intros Hh Ha Hb. unfold ashrXi3.
  assert (Z.shiftr a b = to_signed (2 * h) (Z.shiftr (to_signed (2 * h) a) b)) as ->.
  { rewrite (to_signed_small _ a), to_signed_small; try (done || lia).
    apply shiftr_sfits; (done || lia). }
  halves Hh Hb.
  - rewrite Z.shiftr_0_r, (to_signed_small _ a), to_signed_small; (done || lia).
  - apply to_signed_cong. unfold low, high. zbits.
  - apply to_signed_cong. unfold low, high. zbits.
Qed.

Lemma lshrXi3_done h a b : h = 32 \/ h = 64 -> sfits (2 * h) a -> 0 <= b < 2 * h ->
  lshrXi3 h a b = Done (to_signed (2 * h) (Z.shiftr (wrap (2 * h) a) b)).
Proof.
  intros Hh Ha Hb. unfold lshrXi3. halves Hh Hb.
  - rewrite Z.shiftr_0_r, to_signed_wrap, to_signed_small; (done || lia).
  - apply to_signed_cong. unfold low, uhigh, ujoin. zbits.
  - apply to_signed_cong. unfold low, uhigh, ujoin. zbits.
Qed.
End Shift.

(** * Byte swaps *)

Module Swap.
Definition __bswapsi2 (u : Z) : Z :=
  Z.lor (Z.lor (Z.lor
    (Z.shiftr (Z.land u 0xff000000) 24)
    (Z.shiftr (Z.land u 0x00ff0000) 8))
    (wrap 32 (Z.shiftl (Z.land u 0x0000ff00) 8)))
    (wrap 32 (Z.shiftl (Z.land u 0x000000ff) 24)).

Definition __bswapdi2 (u : Z) : Z :=
  Z.lor (Z.lor (Z.lor (Z.lor (Z.lor (Z.lor (Z.lor
    (Z.shiftr (Z.land u 0xff00000000000000) 56)
    (Z.shiftr (Z.land u 0x00ff000000000000) 40))
    (Z.shiftr (Z.land u 0x0000ff0000000000) 24))
    (Z.shiftr (Z.land u 0x000000ff00000000) 8))
    (wrap 64 (Z.shiftl (Z.land u 0x00000000ff000000) 8)))
    (wrap 64 (Z.shiftl (Z.land u 0x0000000000ff0000) 24)))
    (wrap 64 (Z.shiftl (Z.land u 0x000000000000ff00) 40)))
    (wrap 64 (Z.shiftl (Z.land u 0x00000000000000ff) 56)).

(** Byte [k] of [u] under its mask [m], and where the shifts take it. *)
Lemma land_byte k u : 0 <= k -> Z.land u (Z.shiftl 255 k) = Z.shiftl (wrap 8 (Z.shiftr u k)) k.
Proof. intros Hk. rewrite <- land_255. zbits. Qed.

Lemma byte_down k n m u : m = Z.shiftl 255 k -> 0 <= n <= k ->
  Z.shiftr (Z.land u m) n = Z.shiftl (wrap 8 (Z.shiftr u k)) (k - n).
Proof. intros -> ?. rewrite land_byte by lia. by rewrite Z.shiftr_shiftl_l by lia. Qed.

Lemma byte_up w k n m u : m = Z.shiftl 255 k -> 0 <= k -> 0 <= n -> k + n + 8 <= w ->
  wrap w (Z.shiftl (Z.land u m) n) = Z.shiftl (wrap 8 (Z.shiftr u k)) (k + n).
Proof.
  intros -> ???. rewrite land_byte, Z.shiftl_shiftl by lia. apply wrap_small, fits_shiftl; [lia|].
  apply (fits_mono 8); [lia|]. by apply wrap_fits.
Qed.

(** Bytes placed one above the other. *)
Lemma lor_bytes k x b : 0 <= k -> fits k x ->
  Z.lor x (Z.shiftl (wrap 8 b) k) = x + 2 ^ k * wrap 8 b /\ fits (k + 8) (x + 2 ^ k * wrap 8 b).
Proof.
  intros Hk Hx. rewrite lor_add_shift by done. split; [lia|].
  pose proof (wrap_fits 8 b ltac:(lia)). unfold fits in *. rewrite Z.pow_add_r by lia. nia.
Qed.

Ltac pack_bytes :=
  repeat match goal with
  | F : fits ?k ?x |- context [Z.lor ?x (Z.shiftl (wrap 8 ?b) ?k)] =>
    let E := fresh in let F' := fresh in
    destruct (lor_bytes k x b ltac:(lia) F) as [E F']; rewrite E; clear E; 
    let c := eval vm_compute in (k + 8) in change (k + 8) with c in F'
  end.

Lemma bswapsi2_bytes u : __bswapsi2 u = le_val (rev (le_bytes 4 u)).
Proof.
  unfold __bswapsi2.
  rewrite (byte_down 24 24), (byte_down 16 8), (byte_up 32 8 8), (byte_up 32 0 24)
    by (reflexivity || lia).
  cbn [le_bytes rev app le_val]. rewrite !Z.shiftr_shiftr by lia. zeval.
  rewrite Z.shiftl_0_r, Z.shiftr_0_r.
  pose proof (wrap_fits 8 (Z.shiftr u 24) ltac:(lia)) as F. pack_bytes. lia.
Qed.

Lemma bswapdi2_bytes u : __bswapdi2 u = le_val (rev (le_bytes 8 u)).
Proof.
  unfold __bswapdi2.
  rewrite (byte_down 56 56), (byte_down 48 40), (byte_down 40 24), (byte_down 32 8),
    (byte_up 64 24 8), (byte_up 64 16 24), (byte_up 64 8 40), (byte_up 64 0 56)
    by (reflexivity || lia).
  cbn [le_bytes rev app le_val]. rewrite !Z.shiftr_shiftr by lia. zeval.
  rewrite Z.shiftl_0_r, Z.shiftr_0_r.
  pose proof (wrap_fits 8 (Z.shiftr u 56) ltac:(lia)) as F. pack_bytes. lia.
Qed.
End Swap.

(** * Leading and trailing zeros, first set bit *)

Module Count.
(** The value of [-(cond)] in C. *)
Definition minus (cond : bool) : Z := if cond then -1 else 0.

Section halves.
Context (h : Z).

Definition clzXi2 (a : Z) : outcome Z :=
  let f := minus (high h a =? 0) in
  c ← clz h (wrap h (Z.lor (Z.land (high h a) (Z.lnot f)) (Z.land (low h a) f)));
  mret (c + Z.land f h).

Definition ctzXi2 (a : Z) : outcome Z :=
  let f := minus (low h a =? 0) in
  c ← ctz (wrap h (Z.lor (Z.land (high h a) f) (Z.land (low h a) (Z.lnot f))));
  mret (c + Z.land f h).

Definition ffsXi2 (a : Z) : outcome Z :=
  if low h a =? 0 then
    if high h a =? 0 then mret 0
    else c ← ctz (wrap h (high h a)); mret (c + (1 + h))
  else c ← ctz (low h a); mret (c + 1).
End halves.

Definition __clzdi2 : Z -> outcome Z := clzXi2 32.
Definition __clzti2 : Z -> outcome Z := clzXi2 64.
Definition __ctzdi2 : Z -> outcome Z := ctzXi2 32.
Definition __ctzti2 : Z -> outcome Z := ctzXi2 64.
Definition __ffsdi2 : Z -> outcome Z := ffsXi2 32.
Definition __ffsti2 : Z -> outcome Z := ffsXi2 64.

Definition __ffssi2 (a : Z) : outcome Z :=
  if a =? 0 then mret 0 else c ← ctz (wrap 32 a); mret (c + 1).

Definition __clzsi2 (a : Z) : Z :=
  let x := wrap 32 a in
  let t := if Z.land x 0xFFFF0000 =? 0 then 16 else 0 in
  let x := Z.shiftr x (16 - t) in
  let r := t in
  let t := if Z.land x 0xFF00 =? 0 then 8 else 0 in
  let x := Z.shiftr x (8 - t) in
  let r := wrap 32 (r + t) in
  let t := if Z.land x 0xF0 =? 0 then 4 else 0 in
  let x := Z.shiftr x (4 - t) in
  let r := wrap 32 (r + t) in
  let t := if Z.land x 0xC =? 0 then 2 else 0 in
  let x := Z.shiftr x (2 - t) in
  let r := wrap 32 (r + t) in
  si (wrap 32 (r + Z.land (wrap 32 (2 - x)) (minus (Z.land x 2 =? 0)))).

Definition __ctzsi2 (a : Z) : Z :=
  let x := wrap 32 a in
  let t := if Z.land x 0x0000FFFF =? 0 then 16 else 0 in
  let x := Z.shiftr x t in
  let r := t in
  let t := if Z.land x 0x00FF =? 0 then 8 else 0 in
  let x := Z.shiftr x t in
  let r := wrap 32 (r + t) in
  let t := if Z.land x 0x0F =? 0 then 4 else 0 in
  let x := Z.shiftr x t in
  let r := wrap 32 (r + t) in
  let t := if Z.land x 0x3 =? 0 then 2 else 0 in
  let x := Z.shiftr x t in
  let x := Z.land x 3 in
  let r := wrap 32 (r + t) in
  si (wrap 32 (r + Z.land (wrap 32 (2 - Z.shiftr x 1)) (minus (Z.land x 1 =? 0)))).

(** ** What the counts mean *)

(** [k] is the index of the lowest one bit of [a]. *)
Definition lowest_set (a k : Z) : Prop :=
  0 <= k /\ Z.testbit a k = true /\ forall i, 0 <= i < k -> Z.testbit a i = false.

(** [c] zeros lead the [w] low bits of [a], and a one follows. *)
Definition leading_zeros (w a c : Z) : Prop :=
  0 <= c < w /\ Z.testbit a (w - 1 - c) = true /\
  forall i, w - 1 - c < i < w -> Z.testbit a i = false.

Lemma clz_leading w x : 0 <= w -> fits w x -> x <> 0 ->
  exists c, clz w x = Done c /\ leading_zeros w x c.
Proof.
  intros Hw [Hl Hu] Hx. exists (w - 1 - Z.log2 x). split; [by apply clz_done|].
  assert (Z.log2 x < w) by (apply Z.log2_lt_pow2; lia). pose proof (Z.log2_nonneg x).
  split; [lia|]. replace (w - 1 - (w - 1 - Z.log2 x)) with (Z.log2 x) by lia.
  split; [apply Z.bit_log2; lia|]. intros i Hi. apply Z.bits_above_log2; lia.
Qed.

Lemma ctz_lowest x : 0 < x -> exists k, ctz x = Done k /\ lowest_set x k.
Proof.
  intros Hx. destruct (ctz_spec x Hx) as (k & m & Hc & Hk & -> & Hm). exists k. split; [done|].
  split; [done|]. rewrite Z.mul_comm. split.
  - rewrite Z.mul_pow2_bits by lia. replace (k - k) with 0 by lia.
    rewrite Z.bit0_odd, Z.odd_add, Z.odd_mul. done.
  - intros i Hi. by rewrite Z.mul_pow2_bits_low by lia.
Qed.

Lemma lowest_set_unique a k j : lowest_set a k -> lowest_set a j -> k = j.
Proof.
  intros (Hk & K1 & K0) (Hj & J1 & J0).
  destruct (Z.lt_trichotomy k j) as [H|[H|H]]; [|done|].
  - specialize (J0 k ltac:(lia)). congruence.
  - specialize (K0 j ltac:(lia)). congruence.
Qed.

(** A value whose low [w] bits are not all zero has its lowest one there. *)
Lemma lowest_set_wrap w a k : 0 <= w -> lowest_set (wrap w a) k -> k < w /\ lowest_set a k.
Proof.
  intros Hw (Hk & H1 & H0). rewrite wrap_testbit in H1 by lia.
  destruct (Z.ltb_spec k w); [|done]. split; [done|]. split; [done|]. split; [done|].
  intros i Hi. specialize (H0 i Hi). rewrite wrap_testbit in H0 by lia.
  by destruct (Z.ltb_spec i w); [|lia].
Qed.

Lemma wrap_zero_testbit w a i : wrap w a = 0 -> 0 <= i < w -> Z.testbit a i = false.
Proof.
  intros H Hi. pose proof (wrap_testbit w a i ltac:(lia) ltac:(lia)) as E.
  rewrite H, Z.bits_0 in E. by destruct (Z.ltb_spec i w); [|lia].
Qed.

Lemma high_testbit h a i : 0 < h -> 0 <= i < h -> Z.testbit (high h a) i = Z.testbit a (i + h).
Proof.
  intros Hh Hi. unfold high. rewrite to_signed_testbit by lia.
  destruct (Z.ltb_spec i h); [|lia]. by rewrite Z.shiftr_spec by lia.
Qed.

Lemma high_zero h a : 0 < h -> high h a = 0 <-> wrap h (high h a) = 0.
Proof.
  intros Hh. split; [intros ->; by apply Zmod_0_l|]. intros H.
  rewrite <- (to_signed_small h (high h a)) by auto with word. unfold to_signed at 1.
  rewrite H. assert (0 < 2 ^ (h - 1)) by (apply Z.pow_pos_nonneg; lia). ztest; lia.
Qed.

(** The half that decides: high if it is not zero, for the leading zeros. *)
Lemma select_clz h a : 0 < h ->
  wrap h (Z.lor (Z.land (high h a) (Z.lnot (minus (high h a =? 0))))
                (Z.land (low h a) (minus (high h a =? 0)))) =
  if high h a =? 0 then low h a else wrap h (high h a).
Proof.
  intros Hh. destruct (Z.eqb_spec (high h a) 0) as [E|E]; unfold minus.
  - rewrite E, Z.land_0_l, Z.lor_0_l, Z.land_m1_r. apply wrap_wrap.
  - change (Z.lnot 0) with (-1). by rewrite Z.land_0_r, Z.lor_0_r, Z.land_m1_r.
Qed.

Lemma select_ctz h a : 0 < h ->
  wrap h (Z.lor (Z.land (high h a) (minus (low h a =? 0)))
                (Z.land (low h a) (Z.lnot (minus (low h a =? 0))))) =
  if low h a =? 0 then wrap h (high h a) else low h a.
Proof.
  intros Hh. destruct (Z.eqb_spec (low h a) 0) as [E|E]; unfold minus.
  - by rewrite E, Z.land_0_l, Z.lor_0_r, Z.land_m1_r.
  - change (Z.lnot 0) with (-1). rewrite Z.land_0_r, Z.lor_0_l, Z.land_m1_r. apply wrap_wrap.
Qed.

(** The two halves are zero only in a zero. *)
Lemma halves_nonzero h a : 0 < h -> sfits (2 * h) a -> a <> 0 -> low h a = 0 -> high h a <> 0.
Proof.
  intros Hh Ha Hz Hl Hhi. apply Hz. rewrite <- (join_halves h a Hh Ha), Hl, Hhi.
  unfold join. rewrite Z.shiftl_0_l, Z.lor_0_r. apply to_signed_small; [lia|].
  assert (0 < 2 ^ (2 * h - 1)) by (apply Z.pow_pos_nonneg; lia).
  split; lia.
Qed.

Lemma wrap_pos w z : 0 <= w -> wrap w z <> 0 -> 0 < wrap w z.
Proof. intros Hw Hz. pose proof (wrap_fits w z Hw) as [? ?]. lia. Qed.

Lemma clzXi2_spec h a : 0 < h -> sfits (2 * h) a -> a <> 0 ->
  exists c, clzXi2 h a = Done c /\ leading_zeros (2 * h) a c.
Proof.
  intros Hh Ha Hz. unfold clzXi2. rewrite select_clz by done. unfold minus.
  destruct (Z.eqb_spec (high h a) 0) as [E|E].
  - assert (low h a <> 0) as Hl by (intros Hl; by apply (halves_nonzero h a)).
    destruct (clz_leading h (low h a)) as (c & -> & Hc & H1 & H0); [lia|auto with word lia|done|].
    exists (c + h). rewrite Z.land_m1_l. split; [done|]. unfold low in *.
    rewrite wrap_testbit in H1 by lia. destruct (Z.ltb_spec (h - 1 - c) h); [|lia].
    split; [lia|]. split; [rewrite <- H1; cbn [andb]; f_equal; lia|].
    intros i Hi. destruct (Z.lt_ge_cases i h).
    + specialize (H0 i ltac:(lia)). rewrite wrap_testbit in H0 by lia.
      by destruct (Z.ltb_spec i h); [|lia].
    + replace i with ((i - h) + h) by lia. rewrite <- high_testbit, E by lia. apply Z.bits_0.
  - rewrite (high_zero h a Hh) in E.
    destruct (clz_leading h (wrap h (high h a))) as (c & -> & Hc & H1 & H0);
      [lia|apply wrap_fits; lia|done|].
    exists c. split; [run_outcome; by rewrite Z.land_0_l, Z.add_0_r|].
    rewrite wrap_testbit in H1 by lia. destruct (Z.ltb_spec (h - 1 - c) h); [|lia].
    cbn [andb] in H1. rewrite high_testbit in H1 by lia.
    split; [lia|]. split; [rewrite <- H1; f_equal; lia|]. intros i Hi.
    specialize (H0 (i - h) ltac:(lia)). rewrite wrap_testbit in H0 by lia.
    destruct (Z.ltb_spec (i - h) h); [|lia]. cbn [andb] in H0.
    rewrite high_testbit in H0 by lia. rewrite <- H0. f_equal; lia.
Qed.

(** The lowest one of the high half, when the low half is zero. *)
Lemma lowest_set_high h a k : 0 < h -> low h a = 0 ->
  lowest_set (wrap h (high h a)) k -> lowest_set a (k + h).
Proof.
  intros Hh Hl Hk. apply lowest_set_wrap in Hk as (Hlt & Hk & H1 & H0); [|lia].
  split; [lia|]. split; [by rewrite <- high_testbit by lia|]. intros i Hi.
  destruct (Z.lt_ge_cases i h); [apply (wrap_zero_testbit h); (done || lia)|].
  replace i with ((i - h) + h) by lia. rewrite <- high_testbit by lia. apply H0. lia.
Qed.

(** The lowest one of [a], found in the half that has it. *)
Lemma ctz_halves h a : 0 < h -> sfits (2 * h) a -> a <> 0 ->
  exists c, ctz (if low h a =? 0 then wrap h (high h a) else low h a) = Done c /\
            lowest_set a (c + if low h a =? 0 then h else 0).
Proof.
  intros Hh Ha Hz. destruct (Z.eqb_spec (low h a) 0) as [E|E].
  - pose proof (halves_nonzero h a Hh Ha Hz E) as Hhi. rewrite high_zero in Hhi by done.
    destruct (ctz_lowest (wrap h (high h a))) as (c & Hc & Hlow); [apply wrap_pos; [lia|exact Hhi]|].
    exists c. split; [done|]. by apply lowest_set_high.
  - destruct (ctz_lowest (low h a)) as (c & Hc & Hlow); [apply wrap_pos; [lia|exact E]|].
    exists c. split; [done|]. rewrite Z.add_0_r. exact (proj2 (lowest_set_wrap h a c ltac:(lia) Hlow)).
Qed.

Lemma ctzXi2_spec h a : 0 < h -> sfits (2 * h) a -> a <> 0 ->
  exists c, ctzXi2 h a = Done c /\ lowest_set a c.
Proof.
  intros Hh Ha Hz. unfold ctzXi2. rewrite select_ctz by done.
  destruct (ctz_halves h a Hh Ha Hz) as (c & -> & Hc). eexists. split; [done|].
  unfold minus. destruct (low h a =? 0); [rewrite Z.land_m1_l|]; exact Hc.
Qed.

Lemma ffsXi2_spec h a : 0 < h -> sfits (2 * h) a -> a <> 0 ->
  exists c, ffsXi2 h a = Done (c + 1) /\ lowest_set a c.
Proof.
  intros Hh Ha Hz. unfold ffsXi2. destruct (ctz_halves h a Hh Ha Hz) as (c & Hc & Hlow).
  pose proof (halves_nonzero h a Hh Ha Hz) as Hhi.
  destruct (Z.eqb_spec (low h a) 0) as [E|E]; rewrite ?Hc; eexists; (split; [|exact Hlow]).
  - destruct (Z.eqb_spec (high h a) 0); [by apply Hhi in E|].
    run_outcome. f_equal. lia.
  - run_outcome. f_equal. lia.
Qed.

(** ** The binary searches on 32 bits *)

(** One stage of [__clzsi2]: [x] has [2 * k] bits; if its upper half is empty
    the stage counts [k] and keeps [x], otherwise it keeps the upper half. *)
Lemma clz_stage k m x : 0 < k -> m = Z.shiftl (Z.ones (2 * k - k)) k -> fits (2 * k) x ->
  let t := if Z.land x m =? 0 then k else 0 in
  let x' := Z.shiftr x (k - t) in
  fits k x' /\ 0 <= t <= k /\ (x = 0 -> x' = 0 /\ t = k) /\
  (x <> 0 -> x' <> 0 /\ Z.log2 x = Z.log2 x' + (k - t)).
Proof.
  intros Hk -> Hx. rewrite (land_clear_low (2 * k) k x) by (done || lia).
  pose proof (Z.div_mod x (2 ^ k) ltac:(lia)) as Hdm.
  pose proof (Z.mod_pos_bound x (2 ^ k) ltac:(lia)). destruct Hx as [Hl Hu].
  assert (0 <= x / 2 ^ k) by (apply Z.div_pos; lia).
  destruct (Z.eqb_spec (x - x mod 2 ^ k) 0) as [E|E]; cbv zeta.
  - rewrite Z.sub_diag, Z.shiftr_0_r. unfold fits. repeat split; intros; lia.
  - assert (x / 2 ^ k <> 0) by nia. rewrite Z.sub_0_r.
    replace (2 * k) with (k + k) in Hu by lia. rewrite Z.pow_add_r in Hu by lia.
    rewrite Z.shiftr_div_pow2 by lia.
    split; [split; [done|apply Z.div_lt_upper_bound; lia]|].
    split; [lia|]. split; [intros ->; by rewrite Zmod_0_l in E|]. intros Hx. split; [done|].
    rewrite <- Z.shiftr_div_pow2, Z.log2_shiftr by lia.
    assert (k <= Z.log2 x); [|lia].
    assert (2 ^ k <= x) by nia. apply Z.log2_le_pow2; lia.
Qed.

Lemma clzsi2_value a : __clzsi2 a = if wrap 32 a =? 0 then 32 else 31 - Z.log2 (wrap 32 a).
Proof.
  pose proof (wrap_fits 32 a ltac:(lia)) as H0. unfold __clzsi2. set (x0 := wrap 32 a) in *.
  clearbody x0.
  destruct (clz_stage 16 0xFFFF0000 x0 ltac:(lia) eq_refl H0) as (H1 & T1 & Z1 & N1).
  cbv zeta in *. set (t1 := if Z.land x0 _ =? 0 then 16 else 0) in *.
  set (x1 := Z.shiftr x0 (16 - t1)) in *. clearbody x1 t1.
  destruct (clz_stage 8 0xFF00 x1 ltac:(lia) eq_refl H1) as (H2 & T2 & Z2 & N2).
  cbv zeta in *. set (t2 := if Z.land x1 _ =? 0 then 8 else 0) in *.
  set (x2 := Z.shiftr x1 (8 - t2)) in *. clearbody x2 t2.
  destruct (clz_stage 4 0xF0 x2 ltac:(lia) eq_refl H2) as (H3 & T3 & Z3 & N3).
  cbv zeta in *. set (t3 := if Z.land x2 _ =? 0 then 4 else 0) in *.
  set (x3 := Z.shiftr x2 (4 - t3)) in *. clearbody x3 t3.
  destruct (clz_stage 2 0xC x3 ltac:(lia) eq_refl H3) as (H4 & T4 & Z4 & N4).
  cbv zeta in *. set (t4 := if Z.land x3 _ =? 0 then 2 else 0) in *.
  set (x4 := Z.shiftr x3 (2 - t4)) in *. clearbody x4 t4.
  rewrite !(wrap_small 32 (_ + t2)), !(wrap_small 32 (_ + t3)), !(wrap_small 32 (_ + t4))
    by (unfold fits; lia).
  assert (x4 = 0 \/ x4 = 1 \/ x4 = 2 \/ x4 = 3) as E by (unfold fits in H4; lia).
  destruct (Z.eqb_spec x0 0) as [E0|E0].
  - by destruct (Z1 E0) as [E1 ->], (Z2 E1) as [E2 ->], (Z3 E2) as [E3 ->], (Z4 E3) as [-> ->].
  - destruct (N1 E0) as [N1' L1], (N2 N1') as [N2' L2], (N3 N2') as [N3' L3], (N4 N3') as [N4' L4];
      clear N1 N2 N3 N4.
    assert (Z.land (wrap 32 (2 - x4)) (minus (Z.land x4 2 =? 0)) = 1 - Z.log2 x4) as ->
      by (by destruct E as [-> | [-> | [-> | ->]]]).
    pose proof (Z.log2_nonneg x4). pose proof (Z.log2_nonneg x0).
    assert (Z.log2 x0 < 32) by (apply Z.log2_lt_pow2; unfold fits in H0; lia).
    rewrite wrap_small, to_signed_small by (unfold fits, sfits; lia). lia.
Qed.

(** One stage of [__ctzsi2]: if the low [k] bits are empty it counts [k] and
    drops them. *)
Lemma ctz_stage k m x : 0 < k -> m = Z.ones k -> 0 <= x ->
  let t := if Z.land x m =? 0 then k else 0 in
  let x' := Z.shiftr x t in
  0 <= x' /\ 0 <= t <= k /\ (x = 0 -> x' = 0 /\ t = k) /\
  (wrap (2 * k) x <> 0 -> wrap k x' <> 0) /\
  (forall j, lowest_set x' j -> lowest_set x (j + t)).
Proof.
  intros Hk -> Hx. rewrite land_ones_wrap by lia. cbv zeta.
  destruct (Z.eqb_spec (wrap k x) 0) as [E|E].
  - split; [apply Z.shiftr_nonneg; lia|]. split; [lia|].
    split; [intros ->; split; [apply Z.shiftr_0_l|done]|]. split.
    + intros Hn Hw. apply Hn. apply Z.bits_inj'. intros i Hi. rewrite Z.bits_0.
      rewrite wrap_testbit by lia. destruct (Z.ltb_spec i (2 * k)); [|done]. cbn [andb].
      destruct (Z.lt_ge_cases i k); [apply (wrap_zero_testbit k); (done || lia)|].
      replace i with (i - k + k) by lia. rewrite <- Z.shiftr_spec by lia.
      apply (wrap_zero_testbit k); (done || lia).
    + intros j (Hj & H1 & H0). rewrite Z.shiftr_spec in H1 by lia. split; [lia|]. split; [done|].
      intros i Hi. destruct (Z.lt_ge_cases i k); [apply (wrap_zero_testbit k); (done || lia)|].
      replace i with (i - k + k) by lia. rewrite <- Z.shiftr_spec by lia. apply H0. lia.
  - rewrite Z.shiftr_0_r. split; [done|]. split; [lia|]. split; [intros ->; done|].
    split; [done|]. intros j. by rewrite Z.add_0_r.
Qed.

Lemma ctzsi2_value a : (wrap 32 a = 0 -> __ctzsi2 a = 32) /\
  (wrap 32 a <> 0 -> lowest_set (wrap 32 a) (__ctzsi2 a)).
Proof.
  pose proof (wrap_fits 32 a ltac:(lia)) as [H0 Hu].
  pose proof (wrap_wrap 32 a) as Hw. unfold __ctzsi2. set (x0 := wrap 32 a) in *.
  clearbody x0. clear a.
  destruct (ctz_stage 16 0x0000FFFF x0 ltac:(lia) eq_refl H0) as (H1 & T1 & Z1 & N1 & L1).
  cbv zeta in *. set (t1 := if Z.land x0 _ =? 0 then 16 else 0) in *.
  set (x1 := Z.shiftr x0 t1) in *. clearbody x1 t1.
  destruct (ctz_stage 8 0x00FF x1 ltac:(lia) eq_refl H1) as (H2 & T2 & Z2 & N2 & L2).
  cbv zeta in *. set (t2 := if Z.land x1 _ =? 0 then 8 else 0) in *.
  set (x2 := Z.shiftr x1 t2) in *. clearbody x2 t2.
  destruct (ctz_stage 4 0x0F x2 ltac:(lia) eq_refl H2) as (H3 & T3 & Z3 & N3 & L3).
  cbv zeta in *. set (t3 := if Z.land x2 _ =? 0 then 4 else 0) in *.
  set (x3 := Z.shiftr x2 t3) in *. clearbody x3 t3.
  destruct (ctz_stage 2 0x3 x3 ltac:(lia) eq_refl H3) as (H4 & T4 & Z4 & N4 & L4).
  cbv zeta in *. set (t4 := if Z.land x3 _ =? 0 then 2 else 0) in *.
  set (x4 := Z.shiftr x3 t4) in *. clearbody x4 t4.
  rewrite !(wrap_small 32 (_ + t2)), !(wrap_small 32 (_ + t3)), !(wrap_small 32 (_ + t4))
    by (unfold fits; lia).
  change 3 with (Z.ones 2). rewrite land_ones_wrap by lia. split.
  - intros E0. by destruct (Z1 E0) as [E1 ->], (Z2 E1) as [E2 ->], (Z3 E2) as [E3 ->],
      (Z4 E3) as [-> ->].
  - intros E0. rewrite <- Hw in E0. apply N1, N2, N3, N4 in E0.
    assert (exists j, lowest_set (wrap 2 x4) j /\
      Z.land (wrap 32 (2 - Z.shiftr (wrap 2 x4) 1)) (minus (Z.land (wrap 2 x4) 1 =? 0)) = j)
      as (j & Hj & ->).
    { pose proof (wrap_fits 2 x4 ltac:(lia)) as [? Hx4]. simpl in Hx4.
      assert (wrap 2 x4 = 1 \/ wrap 2 x4 = 2 \/ wrap 2 x4 = 3) as [-> | [-> | ->]] by lia;
        [exists 0|exists 1|exists 0]; (split; [|reflexivity]); (split; [lia|]); (split; [done|]);
        intros i Hi; first [exfalso; lia|by replace i with 0 by lia]. }
    destruct (lowest_set_wrap 2 x4 j ltac:(lia) Hj) as [Hlt Hlow].
    pose proof (proj1 Hlow). apply L4, L3, L2, L1 in Hlow.
    rewrite wrap_small, to_signed_small by (unfold fits, sfits; lia).
    by replace (t1 + t2 + t3 + t4 + j) with (j + t4 + t3 + t2 + t1) by lia.
Qed.

(** ** Comparisons *)

Section compare.
Context (h : Z).

Definition cmpXi2 (a b : Z) : Z :=
  if high h a <? high h b then 0
  else if high h b <? high h a then 2
  else if low h a <? low h b then 0
  else if low h b <? low h a then 2
  else 1.

Definition ucmpXi2 (a b : Z) : Z :=
  if uhigh h a <? uhigh h b then 0
  else if uhigh h b <? uhigh h a then 2
  else if low h a <? low h b then 0
  else if low h b <? low h a then 2
  else 1.
End compare.

Definition __cmpdi2 : Z -> Z -> Z := cmpXi2 32.
Definition __cmpti2 : Z -> Z -> Z := cmpXi2 64.
Definition __ucmpdi2 : Z -> Z -> Z := ucmpXi2 32.
Definition __ucmpti2 : Z -> Z -> Z := ucmpXi2 64.

(** The order as the routines encode it: 0 below, 1 equal, 2 above. *)
Definition order_code (a b : Z) : Z :=
  match a ?= b with Lt => 0 | Eq => 1 | Gt => 2 end.

Lemma compare_halves h ha la hb lb : 0 <= h -> fits h la -> fits h lb ->
  (if ha <? hb then 0 else if hb <? ha then 2 else if la <? lb then 0 else if lb <? la then 2 else 1)
  = order_code (la + 2 ^ h * ha) (lb + 2 ^ h * hb).
Proof.
  intros Hh [? ?] [? ?]. unfold order_code. assert (0 < 2 ^ h) by lia.
  destruct (Z.compare_spec (la + 2 ^ h * ha) (lb + 2 ^ h * hb));
    repeat (ztest; try done); exfalso; nia.
Qed.

Lemma cmpXi2_order h a b : 0 < h -> sfits (2 * h) a -> sfits (2 * h) b ->
  cmpXi2 h a b = order_code a b.
Proof.
  intros Hh Ha Hb. unfold cmpXi2. rewrite (compare_halves h) by (auto with word lia).
  by rewrite !high_div, <- !Z.shiftr_div_pow2, <- !halves_add by (done || lia).
Qed.

Lemma ucmpXi2_order h a b : 0 < h -> fits (2 * h) a -> fits (2 * h) b ->
  ucmpXi2 h a b = order_code a b.
Proof.
  intros Hh Ha Hb. unfold ucmpXi2. rewrite (compare_halves h) by (auto with word lia).
  by rewrite !uhigh_div, <- !Z.shiftr_div_pow2, <- !halves_add by (done || lia).
Qed.
End Count.

(** * The contract of the bit routines *)

(** The double- and quadruple-word shifts, built from shifts of halves, are
    the shifts of the whole value for every distance below the width, and no
    half is shifted out of range on the way. *)
Lemma shifts_exact (a b : Z) :
  (sfits 64 a /\ 0 <= b < 64 ->
     Shift.__ashldi3 a b = Done (di (Z.shiftl a b)) /\ Shift.__ashrdi3 a b = Done (Z.shiftr a b) /\
     Shift.__lshrdi3 a b = Done (di (Z.shiftr (wrap 64 a) b))) /\
  (sfits 128 a /\ 0 <= b < 128 ->
     Shift.__ashlti3 a b = Done (ti (Z.shiftl a b)) /\ Shift.__ashrti3 a b = Done (Z.shiftr a b) /\
     Shift.__lshrti3 a b = Done (ti (Z.shiftr (wrap 128 a) b))).
Proof.
  split; intros [Ha Hb]; (split; [|split]);
    (apply Shift.ashlXi3_done || apply Shift.ashrXi3_done || apply Shift.lshrXi3_done);
    (auto || done).
Qed.

Lemma shifts_exact_witness :
  Shift.__ashrdi3 (- 2 ^ 40) 33 = Done (-128) /\ Shift.__lshrdi3 (-1) 32 = Done (2 ^ 32 - 1).
Proof.
  destruct (shifts_exact (- 2 ^ 40) 33) as [H _]. destruct (shifts_exact (-1) 32) as [H' _].
  destruct H as (_ & -> & _); [unfold sfits; lia|].
  destruct H' as (_ & _ & ->); [unfold sfits; lia|]. split; reflexivity.
Defined.

(** [__bswapsi2] and [__bswapdi2] reverse the bytes of a word, so swapping
    twice gives the word back. *)
Lemma bswap_roundtrip (u : Z) :
  (fits 32 u -> le_bytes 4 (Swap.__bswapsi2 u) = rev (le_bytes 4 u) /\
                Swap.__bswapsi2 (Swap.__bswapsi2 u) = u) /\
  (fits 64 u -> le_bytes 8 (Swap.__bswapdi2 u) = rev (le_bytes 8 u) /\
                Swap.__bswapdi2 (Swap.__bswapdi2 u) = u).
Proof.
  assert (forall n, le_bytes n (le_val (rev (le_bytes n u))) = rev (le_bytes n u)) as Hrev.
  { intros n. pose proof (le_bytes_le_val (rev (le_bytes n u))) as H.
    rewrite length_rev, length_le_bytes in H. apply H. apply Forall_rev, le_bytes_fits. }
  split; intros Hu.
  - rewrite !Swap.bswapsi2_bytes, !Hrev, rev_involutive, le_val_le_bytes. split; [done|].
    by apply wrap_small.
  - rewrite !Swap.bswapdi2_bytes, !Hrev, rev_involutive, le_val_le_bytes. split; [done|].
    by apply wrap_small.
Qed.

Lemma bswap_roundtrip_witness : le_bytes 4 (Swap.__bswapsi2 0x12345678) = [0x12; 0x34; 0x56; 0x78].
Proof.
  destruct (bswap_roundtrip 0x12345678) as [H _].
  destruct H as [-> _]; [unfold fits; lia|reflexivity].
Defined.

(** [clz], [ctz] and [ffs] at every width find the highest and the lowest
    one bit of any value but zero ([ffs] counting from one, and giving zero
    for zero), and the comparisons order as the integers do. *)
Lemma bit_searches_exact (h a b : Z) (Hh : h = 32 \/ h = 64)
  (Ha : sfits (2 * h) a) (Hb : sfits (2 * h) b) (Hz : a <> 0) :
  (exists c, Count.clzXi2 h a = Done c /\ Count.leading_zeros (2 * h) a c) /\
  (exists k, Count.ctzXi2 h a = Done k /\ Count.ffsXi2 h a = Done (k + 1) /\ Count.lowest_set a k) /\
  Count.ffsXi2 h 0 = Done 0 /\ Count.cmpXi2 h a b = Count.order_code a b.
Proof.
  assert (0 < h) by lia. split; [by apply Count.clzXi2_spec|]. split.
  - destruct (Count.ctzXi2_spec h a) as (k & Hk & Hlow); try done.
    destruct (Count.ffsXi2_spec h a) as (j & Hj & Hlow'); try done.
    assert (k = j) as <- by (by apply (Count.lowest_set_unique a)). by exists k.
  - split; [|by apply Count.cmpXi2_order]. destruct Hh as [-> | ->]; reflexivity.
Qed.

Lemma bit_searches_exact_witness :
  Count.cmpXi2 32 (- 2 ^ 40) (2 ^ 35) = 0 /\
  (exists k, Count.__ctzdi2 (- 2 ^ 40) = Done k /\ Count.lowest_set (- 2 ^ 40) k).
Proof.
  destruct (bit_searches_exact 32 (- 2 ^ 40) (2 ^ 35)) as (_ & (k & H & _ & Hl) & _ & Hc);
    try (unfold sfits; lia).
  split; [exact Hc|]. by exists k.
Defined.
