(* ===== verification/CcPop.v ===== *)
(** Population counts and parities of the compiler run-time
    ([src/cc-runtime/src/cc-runtime.c]).

    [__popcountsi2], [__popcountdi2] and [__popcountti2] count the one bits of
    all bytes at once inside one word; they are proved equal to the plain
    count [popcount], byte by byte.  The parities fold the word onto itself. *)

From stdpp Require Import base numbers list.
From Stdlib Require Import ZArith Lia.
From S2P Require Import Prelude CcInt.

Definition __popcountsi2 (a : Z) : Z :=
  let x := wrap 32 a in
  let x := wrap 32 (x - Z.land (Z.shiftr x 1) 0x55555555) in
  let x := wrap 32 (Z.land (Z.shiftr x 2) 0x33333333 + Z.land x 0x33333333) in
  let x := Z.land (wrap 32 (x + Z.shiftr x 4)) 0x0F0F0F0F in
  let x := wrap 32 (x + Z.shiftr x 16) in
  Z.land (wrap 32 (x + Z.shiftr x 8)) 0x0000003F.

Definition __popcountdi2 (a : Z) : Z :=
  let x2 := wrap 64 a in
  let x2 := wrap 64 (x2 - Z.land (Z.shiftr x2 1) 0x5555555555555555) in
  let x2 := wrap 64 (Z.land (Z.shiftr x2 2) 0x3333333333333333 + Z.land x2 0x3333333333333333) in
  let x2 := Z.land (wrap 64 (x2 + Z.shiftr x2 4)) 0x0F0F0F0F0F0F0F0F in
  let x := wrap 32 (wrap 64 (x2 + Z.shiftr x2 32)) in
  let x := wrap 32 (x + Z.shiftr x 16) in
  Z.land (wrap 32 (x + Z.shiftr x 8)) 0x0000007F.

Definition __popcountti2 (a : Z) : Z :=
  let m5 := Z.lor (wrap 128 (Z.shiftl 0x5555555555555555 64)) 0x5555555555555555 in
  let m3 := Z.lor (wrap 128 (Z.shiftl 0x3333333333333333 64)) 0x3333333333333333 in
  let mf := Z.lor (wrap 128 (Z.shiftl 0x0F0F0F0F0F0F0F0F 64)) 0x0F0F0F0F0F0F0F0F in
  let x3 := wrap 128 a in
  let x3 := wrap 128 (x3 - Z.land (Z.shiftr x3 1) m5) in
  let x3 := wrap 128 (Z.land (Z.shiftr x3 2) m3 + Z.land x3 m3) in
  let x3 := Z.land (wrap 128 (x3 + Z.shiftr x3 4)) mf in
  let x2 := wrap 64 (wrap 128 (x3 + Z.shiftr x3 64)) in
  let x := wrap 32 (wrap 64 (x2 + Z.shiftr x2 32)) in
  let x := wrap 32 (x + Z.shiftr x 16) in
  Z.land (wrap 32 (x + Z.shiftr x 8)) 0xFF.

Definition __paritysi2 (a : Z) : Z :=
  let x := wrap 32 a in
  let x := Z.lxor x (Z.shiftr x 16) in
  let x := Z.lxor x (Z.shiftr x 8) in
  let x := Z.lxor x (Z.shiftr x 4) in
  Z.land (Z.shiftr 0x6996 (Z.land x 0xF)) 1.

Definition __paritydi2 (a : Z) : Z :=
  let x2 := wrap 32 (Z.lxor (high 32 a) (low 32 a)) in
  let x2 := Z.lxor x2 (Z.shiftr x2 16) in
  let x2 := Z.lxor x2 (Z.shiftr x2 8) in
  let x2 := Z.lxor x2 (Z.shiftr x2 4) in
  Z.land (Z.shiftr 0x6996 (Z.land x2 0xF)) 1.

Definition __parityti2 (a : Z) : Z :=
  let x2 := di (Z.lxor (high 64 a) (low 64 a)) in
  let x3 := wrap 32 (Z.lxor (high 32 x2) (low 32 x2)) in
  let x3 := Z.lxor x3 (Z.shiftr x3 16) in
  let x3 := Z.lxor x3 (Z.shiftr x3 8) in
  let x3 := Z.lxor x3 (Z.shiftr x3 4) in
  Z.land (Z.shiftr 0x6996 (Z.land x3 0xF)) 1.

(** * Counting all bytes at once *)

(** The byte [m] repeated [k] times, and the three steps on [k] bytes. *)
Fixpoint rep (k : nat) (m : Z) : Z :=
  match k with O => 0 | S k' => m + 256 * rep k' m end.

Definition pairs (k : nat) (x : Z) : Z := x - Z.land (Z.shiftr x 1) (rep k 0x55).
Definition nibbles (k : nat) (x : Z) : Z :=
  Z.land (Z.shiftr x 2) (rep k 0x33) + Z.land x (rep k 0x33).
Definition bytes (k : nat) (x : Z) : Z := Z.land (x + Z.shiftr x 4) (rep k 0x0F).

(** The count of every byte of [x], each in its byte. *)
Fixpoint byte_counts (k : nat) (x : Z) : Z :=
  match k with O => 0 | S k' => popcount (x mod 256) + 256 * byte_counts k' (x / 256) end.

Lemma land_cons lo hi m M : fits 8 lo -> fits 8 m ->
  Z.land (lo + 256 * hi) (m + 256 * M) = Z.land lo m + 256 * Z.land hi M.
Proof.
  intros Hlo Hm. rewrite !(Z.mul_comm 256).
  rewrite <- !(lor_add_shift 8); try (done || lia).
  2: { apply fits_land_l; (done || lia || apply Hm). }
  rewrite <- (wrap_small 8 lo Hlo), <- (wrap_small 8 m Hm). zbits.
Qed.

Lemma land_wrap_r j x m : 0 <= j -> fits j m -> Z.land x m = Z.land (wrap j x) m.
Proof. intros Hj Hm. rewrite <- (wrap_small j m Hm). zbits. Qed.

Lemma shiftr_cons s lo hi : 0 <= s <= 8 ->
  Z.shiftr (lo + 256 * hi) s = (Z.shiftr lo s + 2 ^ (8 - s) * (hi mod 2 ^ s)) + 256 * Z.shiftr hi s.
Proof.
  intros Hs. rewrite !Z.shiftr_div_pow2 by lia. assert (0 < 2 ^ s) by lia.
  assert (256 = 2 ^ s * 2 ^ (8 - s)) as E.
  { rewrite <- Z.pow_add_r by lia. by replace (s + (8 - s)) with 8 by lia. }
  rewrite E at 1. replace (lo + 2 ^ s * 2 ^ (8 - s) * hi) with (lo + (2 ^ (8 - s) * hi) * 2 ^ s) by lia.
  rewrite Z.div_add by lia. pose proof (Z.div_mod hi (2 ^ s) ltac:(lia)).
  replace 256 with (2 ^ s * 2 ^ (8 - s)). nia.
Qed.

Lemma shiftr_cons_fits s lo hi : 0 <= s <= 8 -> fits 8 lo ->
  fits 8 (Z.shiftr lo s + 2 ^ (8 - s) * (hi mod 2 ^ s)).
Proof.
  intros Hs [Hl Hu]. rewrite Z.shiftr_div_pow2 by lia. assert (0 < 2 ^ s) by lia.
  assert (2 ^ 8 = 2 ^ s * 2 ^ (8 - s)) as E.
  { rewrite <- Z.pow_add_r by lia. f_equal; lia. }
  pose proof (Z.mod_pos_bound hi (2 ^ s) ltac:(lia)).
  assert (0 <= lo / 2 ^ s) by (apply Z.div_pos; lia).
  assert (lo / 2 ^ s < 2 ^ (8 - s)) by (apply Z.div_lt_upper_bound; lia).
  unfold fits. nia.
Qed.

(** A mask that stays clear of the bits shifted in acts byte by byte. *)
Lemma land_shiftr_cons s lo hi m M : 0 <= s <= 8 -> fits 8 lo -> fits (8 - s) m ->
  Z.land (Z.shiftr (lo + 256 * hi) s) (m + 256 * M) =
  Z.land (Z.shiftr lo s) m + 256 * Z.land (Z.shiftr hi s) M.
Proof.
  intros Hs Hlo Hm. rewrite shiftr_cons by lia.
  rewrite land_cons by (by apply shiftr_cons_fits || (apply (fits_mono (8 - s)); (done || lia))).
  f_equal. rewrite (land_wrap_r (8 - s)), (land_wrap_r (8 - s) (Z.shiftr lo s)) by (done || lia).
  f_equal. unfold wrap. rewrite Z.mul_comm. apply Z_mod_plus_full.
Qed.

Ltac small := unfold fits; simpl; lia.

Lemma pairs_cons k lo hi : fits 8 lo ->
  pairs (S k) (lo + 256 * hi) = pairs 1 lo + 256 * pairs k hi.
Proof.
  intros Hlo. unfold pairs. cbn [rep]. rewrite land_shiftr_cons by (done || small).
  rewrite Z.mul_0_r, Z.add_0_r. lia.
Qed.

Lemma nibbles_cons k lo hi : fits 8 lo ->
  nibbles (S k) (lo + 256 * hi) = nibbles 1 lo + 256 * nibbles k hi.
Proof.
  intros Hlo. unfold nibbles. cbn [rep].
  rewrite land_shiftr_cons, land_cons by (done || small).
  rewrite Z.mul_0_r, Z.add_0_r. lia.
Qed.

Lemma bytes_cons k lo hi : 0 <= lo <= 102 -> hi mod 16 <= 6 ->
  bytes (S k) (lo + 256 * hi) = bytes 1 lo + 256 * bytes k hi.
Proof.
  intros Hlo Hhi. unfold bytes. cbn [rep]. rewrite (shiftr_cons 4) by lia.
  change (2 ^ (8 - 4)) with 16. change (2 ^ 4) with 16.
  replace (lo + 256 * hi + (Z.shiftr lo 4 + 16 * (hi mod 16) + 256 * Z.shiftr hi 4))
    with ((lo + Z.shiftr lo 4 + 16 * (hi mod 16)) + 256 * (hi + Z.shiftr hi 4)) by lia.
  pose proof (Z.mod_pos_bound hi 16 ltac:(lia)).
  assert (0 <= Z.shiftr lo 4 <= 6).
  { rewrite Z.shiftr_div_pow2 by lia. change (2 ^ 4) with 16.
    split; [apply Z.div_pos; lia|]. apply Z.lt_succ_r, Z.div_lt_upper_bound; lia. }
  rewrite land_cons by small. rewrite Z.mul_0_r, Z.add_0_r. f_equal.
  rewrite (land_wrap_r 4), (land_wrap_r 4 (lo + _)) by (lia || small). f_equal.
  unfold wrap. replace (lo + Z.shiftr lo 4 + 16 * (hi mod 16))
    with (lo + Z.shiftr lo 4 + (hi mod 16) * 2 ^ 4) by lia. apply Z_mod_plus_full.
Qed.

(** The three steps on one byte, by inspection of all of them. *)
Lemma byte_steps c : fits 8 c ->
  fits 8 (pairs 1 c) /\ 0 <= nibbles 1 (pairs 1 c) <= 102 /\
  nibbles 1 (pairs 1 c) mod 16 <= 6 /\
  bytes 1 (nibbles 1 (pairs 1 c)) = popcount c /\ 0 <= popcount c <= 8.
Proof.
  intros [Hl Hu].
  assert (forallb (fun n => let c := Z.of_nat n in
    let p := pairs 1 c in let q := nibbles 1 p in
    (0 <=? p) && (p <? 256) && (0 <=? q) && (q <=? 102) && (q mod 16 <=? 6) &&
    (bytes 1 q =? popcount c) && (0 <=? popcount c) && (popcount c <=? 8)) (seq 0 256) = true) as H
    by (vm_compute; reflexivity).
  rewrite forallb_forall in H. specialize (H (Z.to_nat c) ltac:(apply in_seq; change (2 ^ 8) with 256 in Hu; lia)).
  rewrite Z2Nat.id in H by lia. cbv zeta in H.
  repeat (apply andb_prop in H as [H ?]).
  unfold fits. change (2 ^ 8) with 256. lia.
Qed.

(** The steps on a whole word count every byte of it. *)
Lemma steps_count k x :
  let q := nibbles k (pairs k x) in
  fits (8 * Z.of_nat k) x ->
  fits (8 * Z.of_nat k) (pairs k x) /\ q mod 16 <= 6 /\ 0 <= q <= rep k 102 /\
  bytes k q = byte_counts k x.
Proof.
  revert x. induction k as [|k IH]; intros x; cbv zeta; intros [Hl Hu].
  - by assert (x = 0) as -> by (simpl in Hu; lia).
  - rewrite Nat2Z.inj_succ in *. unfold Z.succ, fits in *.
    rewrite Z.mul_add_distr_l, Z.pow_add_r in * by lia. change (2 ^ (8 * 1)) with 256 in *.
    cbn [byte_counts rep].
    pose proof (Z.div_mod x 256 ltac:(lia)) as Hx. pose proof (Z.mod_pos_bound x 256 ltac:(lia)).
    assert (0 <= x / 256) by (apply Z.div_pos; lia).
    destruct (byte_steps (x mod 256)) as (F1 & F2 & F3 & F4 & F5); [small|].
    destruct (IH (x / 256)) as (G0 & G1 & G2 & G3).
    { split; [lia|]. apply Z.div_lt_upper_bound; lia. }
    replace x with (x mod 256 + 256 * (x / 256)) at 1 2 3 4 5 6 by lia.
    rewrite pairs_cons, nibbles_cons by (done || small).
    rewrite bytes_cons by lia. rewrite F4, G3.
    unfold fits in F1. change (2 ^ 8) with 256 in F1.
    split; [lia|]. split; [|split; [lia|done]].
    replace (256 * nibbles k (pairs k (x / 256))) with ((16 * nibbles k (pairs k (x / 256))) * 16) by lia.
    by rewrite Z_mod_plus_full.
Qed.

(** The same on a word of [w] bits with the wrap-around of C. *)
Lemma word_counts k w m5 m3 mf x : w = 8 * Z.of_nat k ->
  m5 = rep k 0x55 -> m3 = rep k 0x33 -> mf = rep k 0x0F -> 2 * rep k 102 < 2 ^ w -> fits w x ->
  let y := wrap w (x - Z.land (Z.shiftr x 1) m5) in
  let z := wrap w (Z.land (Z.shiftr y 2) m3 + Z.land y m3) in
  Z.land (wrap w (z + Z.shiftr z 4)) mf = byte_counts k x.
Proof.
  intros -> -> -> -> Hrep Hx. destruct (steps_count k x Hx) as (H0 & _ & [H1 H2] & <-).
  unfold pairs in *. cbv zeta. rewrite (wrap_small _ (x - _)) by done. unfold nibbles in *.
  rewrite (wrap_small _ (Z.land _ _ + _)) by (unfold fits; lia). unfold bytes.
  set (q := Z.land _ (rep k 51) + _) in *.
  assert (0 <= Z.shiftr q 4 <= q).
  { rewrite Z.shiftr_div_pow2 by lia. change (2 ^ 4) with 16.
    split; [apply Z.div_pos; lia|apply Z.div_le_upper_bound; lia]. }
  by rewrite wrap_small by (unfold fits; lia).
Qed.

(** The counts of the bytes as a list, and the count of the word as its sum. *)
Lemma byte_counts_sum k x : fits (8 * Z.of_nat k) x ->
  exists cs, length cs = k /\ Forall (fun c => 0 <= c <= 8) cs /\
    byte_counts k x = le_val cs /\ popcount x = foldr Z.add 0 cs.
Proof.
  revert x. induction k as [|k IH]; intros x [Hl Hu].
  - assert (x = 0) as -> by (simpl in Hu; lia). by exists [].
  - rewrite Nat2Z.inj_succ in Hu. unfold Z.succ in Hu.
    rewrite Z.mul_add_distr_l, Z.pow_add_r in Hu by lia. change (2 ^ (8 * 1)) with 256 in Hu.
    pose proof (Z.div_mod x 256 ltac:(lia)) as Hx. pose proof (Z.mod_pos_bound x 256 ltac:(lia)).
    assert (0 <= x / 256) by (apply Z.div_pos; lia).
    destruct (byte_steps (x mod 256)) as (_ & _ & _ & _ & F5); [small|].
    destruct (IH (x / 256)) as (cs & L & B & E & P).
    { split; [lia|]. apply Z.div_lt_upper_bound; lia. }
    exists (popcount (x mod 256) :: cs). split; [simpl; lia|]. split; [by constructor|].
    cbn [byte_counts le_val foldr]. split; [by rewrite E|]. rewrite <- P.
    rewrite Hx at 1. rewrite Z.add_comm. apply (popcount_split 8); [lia|small|done].
Qed.

(** Adding the upper half of a word of counts to the lower one. *)
Lemma le_val_app l1 l2 : le_val (l1 ++ l2) = le_val l1 + 2 ^ (8 * Z.of_nat (length l1)) * le_val l2.
Proof.
  induction l1 as [|c l1 IH]; [rewrite app_nil_l; simpl le_val; simpl length; lia|].
  cbn [app le_val length]. rewrite IH, Nat2Z.inj_succ.
  replace (8 * Z.succ (Z.of_nat (length l1))) with (8 * Z.of_nat (length l1) + 8) by lia.
  rewrite Z.pow_add_r by lia. lia.
Qed.

Lemma le_val_bound B cs : 0 <= B <= 255 -> Forall (fun c => 0 <= c <= B) cs ->
  fits (8 * Z.of_nat (length cs)) (le_val cs).
Proof.
  intros HB H. apply le_val_fits. eapply Forall_impl; [exact H|]. intros c Hc. cbv beta in Hc. small.
Qed.

Lemma fold_counts n B cs : length cs = (2 * n)%nat -> 0 <= B <= 127 ->
  Forall (fun c => 0 <= c <= B) cs ->
  exists ds, length ds = n /\ Forall (fun c => 0 <= c <= 2 * B) ds /\
    foldr Z.add 0 ds = foldr Z.add 0 cs /\
    wrap (8 * Z.of_nat n) (le_val cs + Z.shiftr (le_val cs) (8 * Z.of_nat n)) = le_val ds.
Proof.
  intros Hlen HB Hcs.
  assert (exists l1 l2, cs = l1 ++ l2 /\ length l1 = n /\ length l2 = n) as (l1 & l2 & -> & L1 & L2).
  { exists (take n cs), (drop n cs). rewrite take_drop, length_take, length_drop. split; [done|lia]. }
  clear Hlen. apply Forall_app in Hcs as [H1 H2].
  exists (zip_with Z.add l1 l2). rewrite length_zip_with. split; [lia|].
  assert (Forall (fun c => 0 <= c <= 2 * B) (zip_with Z.add l1 l2) /\
    foldr Z.add 0 (zip_with Z.add l1 l2) = foldr Z.add 0 (l1 ++ l2) /\
    le_val (zip_with Z.add l1 l2) = le_val l1 + le_val l2) as (HF & HS & HV).
  { rewrite foldr_app. clear HB. revert n l2 L1 L2 H2. induction H1 as [|c l1 Hc H1 IH];
      intros n [|d l2] L1 L2 H2; simpl in *; subst; try done. 
    apply Forall_cons in H2 as [Hd H2].
    destruct (IH (length l1) l2 eq_refl ltac:(lia) H2) as (G1 & G2 & G3).
    split; [constructor; [lia|done]|]. split; [|lia]. rewrite G2.
    clear. induction l1 as [|e l1 IH]; simpl; lia. }
  split; [done|]. split; [done|]. rewrite le_val_app, L1, HV.
  pose proof (le_val_bound (2 * B) _ ltac:(lia) HF) as Hb.
  rewrite length_zip_with, HV in Hb. rewrite L1, L2, Nat.min_id in Hb.
  pose proof (le_val_bound B _ ltac:(lia) H1) as [? Hu]. rewrite L1 in Hu.
  rewrite Z.shiftr_div_pow2 by lia. rewrite (Z.mul_comm (2 ^ _)), Z.div_add by lia.
  rewrite (Z.div_small (le_val l1)) by lia. unfold wrap.
  replace (le_val l1 + le_val l2 * 2 ^ (8 * Z.of_nat n) + (0 + le_val l2))
    with (le_val l1 + le_val l2 + le_val l2 * 2 ^ (8 * Z.of_nat n)) by lia.
  rewrite Z_mod_plus_full. by apply Z.mod_small.
Qed.

(** The last two steps, on four counts. *)
Lemma last_counts j B cs : 0 <= j <= 8 -> length cs = 4%nat ->
  Forall (fun c => 0 <= c <= B) cs -> 4 * B < 2 ^ j ->
  let x := wrap 32 (le_val cs + Z.shiftr (le_val cs) 16) in
  Z.land (wrap 32 (x + Z.shiftr x 8)) (Z.ones j) = foldr Z.add 0 cs.
Proof.
  intros Hj L H HB. destruct cs as [|a [|b [|c [|d [|]]]]]; try done. clear L.
  repeat (apply Forall_cons in H as [? H]). cbv zeta.
  assert (2 ^ j <= 256) by (apply (Z.pow_le_mono_r 2 j 8); lia).
  rewrite land_ones_wrap by lia. cbn [le_val foldr].
  set (v := a + 256 * _). set (y := b + d + 256 * (c + 256 * d)).
  assert (wrap 32 (v + Z.shiftr v 16) = a + c + 256 * y) as ->.
  { assert (Z.shiftr v 16 = c + 256 * d) as ->.
    { rewrite Z.shiftr_div_pow2 by lia. change (2 ^ 16) with 65536. unfold v.
      Z.div_mod_to_equations. lia. }
    rewrite wrap_small by (unfold v; word_norm; lia). unfold v, y. lia. }
  assert (Z.shiftr (a + c + 256 * y) 8 = y) as ->.
  { rewrite Z.shiftr_div_pow2 by lia. change (2 ^ 8) with 256. Z.div_mod_to_equations. lia. }
  rewrite (wrap_small 32) by (unfold y; word_norm; lia).
  replace (a + c + 256 * y + y)
    with (a + (b + (c + (d + 0))) + (y + c + 256 * d) * (2 ^ (8 - j) * 2 ^ j)).
  2: { rewrite <- Z.pow_add_r by lia. replace (8 - j + j) with 8 by lia. unfold y. lia. }
  unfold wrap. rewrite Z.mul_assoc, Z_mod_plus_full. apply Z.mod_small. lia.
Qed.

Lemma popcountsi2_value a : __popcountsi2 a = popcount (wrap 32 a).
Proof.
  unfold __popcountsi2. pose proof (wrap_fits 32 a ltac:(lia)) as Hx.
  set (x := wrap 32 a) in *. clearbody x. cbv zeta.
  rewrite (word_counts 4 32) by (done || reflexivity).
  destruct (byte_counts_sum 4 x Hx) as (cs & L & B & -> & ->).
  apply (last_counts 6 8 cs); (done || lia).
Qed.

Lemma popcountdi2_value a : __popcountdi2 a = popcount (wrap 64 a).
Proof.
  unfold __popcountdi2. pose proof (wrap_fits 64 a ltac:(lia)) as Hx.
  set (x := wrap 64 a) in *. clearbody x. cbv zeta.
  rewrite (word_counts 8 64) by (done || reflexivity).
  destruct (byte_counts_sum 8 x Hx) as (cs & L & B & -> & ->).
  destruct (fold_counts 4 8 cs L ltac:(lia) B) as (ds & L' & B' & <- & E).
  rewrite (wrap_wrap_le 32 64) by lia. change (8 * Z.of_nat 4) with 32 in E. rewrite E.
  apply (last_counts 7 16 ds); (done || lia).
Qed.

Lemma popcountti2_value a : __popcountti2 a = popcount (wrap 128 a).
Proof.
  unfold __popcountti2. pose proof (wrap_fits 128 a ltac:(lia)) as Hx.
  set (x := wrap 128 a) in *. clearbody x. cbv zeta.
  rewrite (word_counts 16 128) by (done || reflexivity).
  destruct (byte_counts_sum 16 x Hx) as (cs & L & B & -> & ->).
  destruct (fold_counts 8 8 cs L ltac:(lia) B) as (ds & L' & B' & <- & E).
  rewrite (wrap_wrap_le 64 128) by lia. change (8 * Z.of_nat 8) with 64 in E. rewrite E.
  destruct (fold_counts 4 16 ds L' ltac:(lia) B') as (es & L'' & B'' & <- & E').
  rewrite (wrap_wrap_le 32 64) by lia. change (8 * Z.of_nat 4) with 32 in E'. rewrite E'.
  apply (last_counts 8 32 es); (done || lia).
Qed.

(** * Parities *)

(** Folding the upper half of [2 * k] bits onto the lower keeps the parity. *)
Lemma parity_fold k x : 0 <= k ->
  popcount (wrap (2 * k) x) mod 2 = popcount (wrap k (Z.lxor x (Z.shiftr x k))) mod 2.
Proof.
  intros Hk. assert (wrap k (Z.lxor x (Z.shiftr x k)) = Z.lxor (wrap k x) (wrap k (Z.shiftr x k))) as ->
    by zbits.
  pose proof (wrap_fits k x Hk) as F1. pose proof (wrap_fits k (Z.shiftr x k) Hk) as F2.
  rewrite popcount_lxor by (apply F1 || apply F2).
  rewrite <- (popcount_split k) by (done || apply F2). f_equal. f_equal.
  rewrite (Z.mul_comm (2 ^ k)), <- lor_add_shift by done. zbits.
Qed.

Lemma parity_nibble x : Z.land (Z.shiftr 0x6996 (Z.land x 0xF)) 1 = popcount (wrap 4 x) mod 2.
Proof.
  change 0xF with (Z.ones 4). rewrite land_ones_wrap by lia.
  pose proof (wrap_fits 4 x ltac:(lia)) as [Hl Hu]. set (y := wrap 4 x) in *. clearbody y.
  assert (forallb (fun n => Z.land (Z.shiftr 0x6996 (Z.of_nat n)) 1 =? popcount (Z.of_nat n) mod 2)
            (seq 0 16) = true) as H by (vm_compute; reflexivity).
  rewrite forallb_forall in H. specialize (H (Z.to_nat y)).
  rewrite Z2Nat.id in H by lia. apply Z.eqb_eq, H, in_seq. simpl in Hu. lia.
Qed.

(** The folds the three routines share. *)
Lemma parity_word x :
  let x1 := Z.lxor x (Z.shiftr x 16) in
  let x2 := Z.lxor x1 (Z.shiftr x1 8) in
  let x3 := Z.lxor x2 (Z.shiftr x2 4) in
  Z.land (Z.shiftr 0x6996 (Z.land x3 0xF)) 1 = popcount (wrap 32 x) mod 2.
Proof.
  cbv zeta. rewrite parity_nibble.
  rewrite <- (parity_fold 4), <- (parity_fold 8), <- (parity_fold 16) by lia. done.
Qed.

Lemma paritysi2_value a : __paritysi2 a = popcount (wrap 32 a) mod 2.
Proof. unfold __paritysi2. cbv zeta. rewrite parity_word. by rewrite wrap_wrap. Qed.

Lemma paritydi2_value a : __paritydi2 a = popcount (wrap 64 a) mod 2.
Proof.
  unfold __paritydi2. cbv zeta. rewrite parity_word, (parity_fold 32) by lia.
  f_equal. f_equal. rewrite wrap_wrap. unfold high, low. rewrite Z.lxor_comm. zbits.
Qed.

Lemma parityti2_value a : __parityti2 a = popcount (wrap 128 a) mod 2.
Proof.
  assert (__parityti2 a = __paritydi2 (di (Z.lxor (high 64 a) (low 64 a)))) as ->
    by (unfold __parityti2, __paritydi2; cbv zeta; reflexivity).
  rewrite paritydi2_value, wrap_to_signed, (parity_fold 64) by lia.
  f_equal. f_equal. unfold high, low. rewrite Z.lxor_comm. zbits.
Qed.

(** The population counts and the parities, which work on all the bytes of
    a word at once, give the number of one bits of the value and that number
    modulo two, at 32, 64 and 128 bits. *)
Lemma popcount_exact (a : Z) :
  __popcountsi2 a = popcount (wrap 32 a) /\ __popcountdi2 a = popcount (wrap 64 a) /\
  __popcountti2 a = popcount (wrap 128 a) /\ __paritysi2 a = popcount (wrap 32 a) mod 2 /\
  __paritydi2 a = popcount (wrap 64 a) mod 2 /\ __parityti2 a = popcount (wrap 128 a) mod 2.
Proof.
  split; [apply popcountsi2_value|]. split; [apply popcountdi2_value|].
  split; [apply popcountti2_value|]. split; [apply paritysi2_value|].
  split; [apply paritydi2_value|apply parityti2_value].
Qed.
