(* ===== verification/CcArith.v ===== *)
(** Addition, subtraction, negation, absolute value and multiplication of the
    compiler run-time ([src/cc-runtime/src/cc-runtime.c]).

    The routines exist at 32, 64 and 128 bits with the same text; each is
    written once over the width [w] ([N] in the source) or the width [h] of a
    half, and instantiated.  A routine of the [v] family calls
    [compilerrt_abort] when its result does not fit. *)

From stdpp Require Import base numbers list.
From Stdlib Require Import ZArith Lia.
From S2P Require Import Prelude CcInt.

Section width.
Context (w : Z).

(** [(fixint_t)((fixuint_t)1 << (N - 1))] and [~MIN]. *)
Definition MIN : Z := to_signed w (wrap w (Z.shiftl 1 (w - 1))).
Definition MAX : Z := Z.lnot MIN.

Definition absvXi2 (a : Z) : outcome Z :=
  if a =? MIN then Aborted
  else
    t ← shr w a (w - 1);
    signed w (Z.lxor a t - t).

Definition addvXi3 (a b : Z) : outcome Z :=
  let s := to_signed w (wrap w (wrap w a + wrap w b)) in
  if 0 <=? b then
    if s <? a then Aborted else mret s
  else
    if a <=? s then Aborted else mret s.

Definition subvXi3 (a b : Z) : outcome Z :=
  let s := to_signed w (wrap w (wrap w a - wrap w b)) in
  if 0 <=? b then
    if a <? s then Aborted else mret s
  else
    if s <=? a then Aborted else mret s.

Definition negXi2 (a : Z) : Z := to_signed w (wrap w (- wrap w a)).

Definition negvXi2 (a : Z) : outcome Z :=
  if a =? MIN then Aborted else signed w (- a).

(** The result and what is stored through [overflow]. *)
Definition __muloXi4 (a b : Z) : outcome (Z * Z) :=
  let result := to_signed w (wrap w (wrap w a * wrap w b)) in
  if a =? MIN then
    mret (result, if negb (b =? 0) && negb (b =? 1) then 1 else 0)
  else if b =? MIN then
    mret (result, if negb (a =? 0) && negb (a =? 1) then 1 else 0)
  else
    sa ← shr w a (w - 1);
    abs_a ← signed w (Z.lxor a sa - sa);
    sb ← shr w b (w - 1);
    abs_b ← signed w (Z.lxor b sb - sb);
    if (abs_a <? 2) || (abs_b <? 2) then mret (result, 0)
    else if sa =? sb then
      q ← sdiv w MAX abs_b;
      mret (result, if q <? abs_a then 1 else 0)
    else
      nb ← signed w (- abs_b);
      q ← sdiv w MIN nb;
      mret (result, if q <? abs_a then 1 else 0).

Definition __mulvXi3 (a b : Z) : outcome Z :=
  if a =? MIN then
    if (b =? 0) || (b =? 1) then signed w (a * b) else Aborted
  else if b =? MIN then
    if (a =? 0) || (a =? 1) then signed w (a * b) else Aborted
  else
    sa ← shr w a (w - 1);
    abs_a ← signed w (Z.lxor a sa - sa);
    sb ← shr w b (w - 1);
    abs_b ← signed w (Z.lxor b sb - sb);
    if (abs_a <? 2) || (abs_b <? 2) then signed w (a * b)
    else if sa =? sb then
      q ← sdiv w MAX abs_b;
      if q <? abs_a then Aborted else signed w (a * b)
    else
      nb ← signed w (- abs_b);
      q ← sdiv w MIN nb;
      if q <? abs_a then Aborted else signed w (a * b).
End width.

Section halves.
Context (h : Z).

(** The double-width product of two words, from half-word products. *)
Definition mulwXi3 (a b : Z) : Z :=
  let q := h / 2 in
  let lower_mask := Z.shiftr (wrap h (Z.lnot 0)) q in
  let r_low := wrap h (Z.land a lower_mask * Z.land b lower_mask) in
  let t := Z.shiftr r_low q in
  let r_low := Z.land r_low lower_mask in
  let t := wrap h (t + wrap h (Z.shiftr a q * Z.land b lower_mask)) in
  let r_low := wrap h (r_low + wrap h (Z.shiftl (Z.land t lower_mask) q)) in
  let r_high := to_signed h (Z.shiftr t q) in
  let t := Z.shiftr r_low q in
  let r_low := Z.land r_low lower_mask in
  let t := wrap h (t + wrap h (Z.shiftr b q * Z.land a lower_mask)) in
  let r_low := wrap h (r_low + wrap h (Z.shiftl (Z.land t lower_mask) q)) in
  let r_high := to_signed h (wrap h r_high + Z.shiftr t q) in
  let r_high := to_signed h (wrap h r_high + wrap h (Z.shiftr a q * Z.shiftr b q)) in
  join h r_low r_high.

Definition mulXi3 (a b : Z) : Z :=
  let r := mulwXi3 (low h a) (low h b) in
  let r_high := to_signed h (wrap h (high h r) +
    (wrap h (wrap h (high h a) * low h b) + wrap h (low h a * wrap h (high h b)))) in
  join h (low h r) r_high.
End halves.

Definition __absvsi2 : Z -> outcome Z := absvXi2 32.
Definition __absvdi2 : Z -> outcome Z := absvXi2 64.
Definition __absvti2 : Z -> outcome Z := absvXi2 128.
Definition __addvsi3 : Z -> Z -> outcome Z := addvXi3 32.
Definition __addvdi3 : Z -> Z -> outcome Z := addvXi3 64.
Definition __addvti3 : Z -> Z -> outcome Z := addvXi3 128.
Definition __subvsi3 : Z -> Z -> outcome Z := subvXi3 32.
Definition __subvdi3 : Z -> Z -> outcome Z := subvXi3 64.
Definition __subvti3 : Z -> Z -> outcome Z := subvXi3 128.
Definition __negdi2 : Z -> Z := negXi2 64.
Definition __negti2 : Z -> Z := negXi2 128.
Definition __negvsi2 : Z -> outcome Z := negvXi2 32.
Definition __negvdi2 : Z -> outcome Z := negvXi2 64.
Definition __negvti2 : Z -> outcome Z := negvXi2 128.

(** The copies of the two templates that the source instantiates. *)
Definition __muloXi4_21 : Z -> Z -> outcome (Z * Z) := __muloXi4 64.
Definition __muloXi4_22 : Z -> Z -> outcome (Z * Z) := __muloXi4 32.
Definition __muloXi4_23 : Z -> Z -> outcome (Z * Z) := __muloXi4 128.
Definition __mulvXi3_24 : Z -> Z -> outcome Z := __mulvXi3 64.
Definition __mulvXi3_25 : Z -> Z -> outcome Z := __mulvXi3 32.
Definition __mulvXi3_26 : Z -> Z -> outcome Z := __mulvXi3 128.
Definition __mulodi4 : Z -> Z -> outcome (Z * Z) := __muloXi4_21.
Definition __mulosi4 : Z -> Z -> outcome (Z * Z) := __muloXi4_22.
Definition __muloti4 : Z -> Z -> outcome (Z * Z) := __muloXi4_23.
Definition __mulvdi3 : Z -> Z -> outcome Z := __mulvXi3_24.
Definition __mulvsi3 : Z -> Z -> outcome Z := __mulvXi3_25.
Definition __mulvti3 : Z -> Z -> outcome Z := __mulvXi3_26.

Definition __muldsi3 : Z -> Z -> Z := mulwXi3 32.
Definition __muldi3 : Z -> Z -> Z := mulXi3 32.
Definition __mulddi3 : Z -> Z -> Z := mulwXi3 64.
Definition __multi3 : Z -> Z -> Z := mulXi3 64.

(** * What they compute *)

(** The exact result, or the abort where it has none. *)
Definition exact_or_abort (w z : Z) : outcome Z :=
  if decide (sfits w z) then Done z else Aborted.

Section width_lemmas.
Context (w : Z) (Hw : 2 <= w).

Lemma pow_half : 2 ^ w = 2 * 2 ^ (w - 1).
Proof using Hw. rewrite <- Z.pow_succ_r by lia. f_equal; lia. Qed.

Lemma half_ge : 2 <= 2 ^ (w - 1).
Proof using Hw. apply (Z.pow_le_mono_r 2 1); lia. Qed.

Lemma MIN_value : MIN w = - 2 ^ (w - 1).
Proof using Hw.
  unfold MIN. rewrite to_signed_wrap, Z.shiftl_mul_pow2, Z.mul_1_l by lia.
  pose proof half_ge. pose proof pow_half. unfold to_signed, wrap.
  rewrite Z.mod_small by lia. ztest; lia.
Qed.

Lemma MAX_value : MAX w = 2 ^ (w - 1) - 1.
Proof using Hw. unfold MAX, Z.lnot. rewrite MIN_value. lia. Qed.

(** The sign mask, and the value it makes positive. *)
Lemma sign_mask a : sfits w a -> shr w a (w - 1) = Done (if a <? 0 then -1 else 0).
Proof using Hw.
  intros [Hl Hu]. rewrite shr_done, Z.shiftr_div_pow2 by lia. f_equal. pose proof half_ge.
  ztest.
  - symmetry. apply Z.div_unique with (a + 2 ^ (w - 1)); lia.
  - apply Z.div_small. lia.
Qed.

Lemma mask_abs a : Z.lxor a (if a <? 0 then -1 else 0) - (if a <? 0 then -1 else 0) = Z.abs a.
Proof.
  ztest.
  - rewrite Z.lxor_m1_r. unfold Z.lnot. lia.
  - rewrite Z.lxor_0_r. lia.
Qed.

Lemma absvXi2_exact a : sfits w a -> absvXi2 w a = exact_or_abort w (Z.abs a).
Proof using Hw.
  intros Ha. unfold absvXi2, exact_or_abort. rewrite MIN_value, sign_mask by done.
  run_outcome. rewrite mask_abs. pose proof half_ge. destruct Ha as [Hl Hu].
  unfold signed. ztest; repeat case_decide; unfold sfits in *; (done || lia).
Qed.

(** A sum or difference of two representable values wraps at most once. *)
Lemma to_signed_once s : - 2 ^ w <= s < 2 ^ w ->
  to_signed w s = if decide (sfits w s) then s else if 0 <=? s then s - 2 ^ w else s + 2 ^ w.
Proof using Hw.
  intros Hs. pose proof pow_half as Hp. case_decide as Hd; [apply to_signed_small; (done || lia)|].
  ztest.
  - rewrite <- (to_signed_small w (s - 2 ^ w)); [|lia|unfold sfits in *; lia].
    apply to_signed_cong. unfold wrap.
    replace s with (s - 2 ^ w + 1 * 2 ^ w) at 1 by lia. apply Z_mod_plus_full.
  - rewrite <- (to_signed_small w (s + 2 ^ w)); [|lia|unfold sfits in *; lia].
    apply to_signed_cong. unfold wrap.
    replace s with (s + 2 ^ w + (-1) * 2 ^ w) at 1 by lia. apply Z_mod_plus_full.
Qed.

Lemma addvXi3_exact a b : sfits w a -> sfits w b -> addvXi3 w a b = exact_or_abort w (a + b).
Proof using Hw.
  intros [? ?] [? ?]. unfold addvXi3, exact_or_abort. pose proof pow_half.
  rewrite wrap_add_l, wrap_add_r, to_signed_wrap, to_signed_once by lia.
  repeat case_decide; unfold sfits in *; repeat (ztest; try lia); done.
Qed.

Lemma subvXi3_exact a b : sfits w a -> sfits w b -> subvXi3 w a b = exact_or_abort w (a - b).
Proof using Hw.
  intros [? ?] [? ?]. unfold subvXi3, exact_or_abort. pose proof pow_half.
  rewrite wrap_sub_l, wrap_sub_r, to_signed_wrap, to_signed_once by lia.
  repeat case_decide; unfold sfits in *; repeat (ztest; try lia); done.
Qed.

Lemma negXi2_wraps a : negXi2 w a = to_signed w (- a).
Proof using Hw.
  unfold negXi2. rewrite to_signed_wrap. apply to_signed_cong.
  replace (- wrap w a) with (0 - wrap w a) by lia. rewrite wrap_sub_r. f_equal.
Qed.

Lemma negvXi2_exact a : sfits w a -> negvXi2 w a = exact_or_abort w (- a).
Proof using Hw.
  intros [? ?]. unfold negvXi2, exact_or_abort, signed. rewrite MIN_value.
  pose proof half_ge. ztest; repeat case_decide; unfold sfits in *; (done || lia).
Qed.

(** The two divisions that bound the magnitude of a factor. *)
Lemma max_quotient B : 2 <= B < 2 ^ (w - 1) -> sdiv w (MAX w) B = Done ((2 ^ (w - 1) - 1) / B).
Proof using Hw.
  intros HB. unfold sdiv. rewrite MAX_value, Z.quot_div_nonneg by lia.
  ztests. apply signed_done. pose proof half_ge.
  assert (0 <= (2 ^ (w - 1) - 1) / B) by (apply Z.div_pos; lia).
  split; [lia|]. apply Z.div_lt_upper_bound; nia.
Qed.

Lemma min_quotient B : 2 <= B < 2 ^ (w - 1) -> sdiv w (MIN w) (- B) = Done (2 ^ (w - 1) / B).
Proof using Hw.
  intros HB. unfold sdiv. rewrite MIN_value, Z.quot_opp_opp, Z.quot_div_nonneg by lia.
  ztests. apply signed_done. pose proof half_ge.
  assert (0 <= 2 ^ (w - 1) / B) by (apply Z.div_pos; lia).
  split; [lia|]. apply Z.div_lt_upper_bound; nia.
Qed.

Lemma quotient_test M A B : 0 < B -> (M / B <? A) = (M <? A * B).
Proof.
  intros HB. pose proof (Z.div_mod M B ltac:(lia)). pose proof (Z.mod_pos_bound M B HB).
  repeat ztest; try done; nia.
Qed.

(** With equal signs the product is the product of the magnitudes, otherwise
    its opposite. *)
Lemma mul_signs a b :
  a * b = if (if a <? 0 then -1 else 0) =? (if b <? 0 then -1 else 0)
          then Z.abs a * Z.abs b else - (Z.abs a * Z.abs b).
Proof. repeat ztest; nia. Qed.

(** Both routines on every path, in terms of what they do with the product. *)
Lemma mul_paths {A} (k : bool -> outcome A) a b : sfits w a -> sfits w b ->
  (if a =? MIN w then k (negb (b =? 0) && negb (b =? 1))
   else if b =? MIN w then k (negb (a =? 0) && negb (a =? 1))
   else
     sa ← shr w a (w - 1);
     abs_a ← signed w (Z.lxor a sa - sa);
     sb ← shr w b (w - 1);
     abs_b ← signed w (Z.lxor b sb - sb);
     if (abs_a <? 2) || (abs_b <? 2) then k false
     else if sa =? sb then
       q ← sdiv w (MAX w) abs_b; k (q <? abs_a)
     else
       nb ← signed w (- abs_b); q ← sdiv w (MIN w) nb; k (q <? abs_a))
  = k (negb (bool_decide (sfits w (a * b)))).
Proof using Hw.
  intros Ha Hb. pose proof half_ge as HM. rewrite !MIN_value.
  pose proof Ha as [? ?]. pose proof Hb as [? ?].
  destruct (Z.eqb_spec a (- 2 ^ (w - 1))) as [->|Ea].
  { f_equal. case_bool_decide as Hs; unfold sfits in Hs; repeat (ztest; try done); nia. }
  destruct (Z.eqb_spec b (- 2 ^ (w - 1))) as [->|Eb].
  { f_equal. case_bool_decide as Hs; unfold sfits in Hs; repeat (ztest; try done); nia. }
  rewrite (sign_mask a), (sign_mask b) by done. run_outcome. rewrite !mask_abs.
  rewrite !(signed_done w (Z.abs _)) by (unfold sfits; lia). run_outcome.
  destruct (Z.ltb_spec (Z.abs a) 2); cbn [orb].
  { f_equal. rewrite bool_decide_true; [done|]. unfold sfits. nia. }
  destruct (Z.ltb_spec (Z.abs b) 2).
  { f_equal. rewrite bool_decide_true; [done|]. unfold sfits. nia. }
  rewrite (mul_signs a b). destruct ((if a <? 0 then -1 else 0) =? _).
  - rewrite max_quotient by lia. run_outcome. f_equal. rewrite quotient_test by lia.
    case_bool_decide as Hs; unfold sfits in Hs; repeat (ztest; try done); nia.
  - rewrite (signed_done w (- _)) by (unfold sfits; lia). run_outcome.
    rewrite <- MIN_value, min_quotient by lia. run_outcome. f_equal. rewrite quotient_test by lia.
    case_bool_decide as Hs; unfold sfits in Hs; repeat (ztest; try done); nia.
Qed.

Lemma muloXi4_exact a b : sfits w a -> sfits w b ->
  __muloXi4 w a b = Done (to_signed w (a * b), if decide (sfits w (a * b)) then 0 else 1).
Proof using Hw.
  intros Ha Hb. unfold __muloXi4.
  rewrite (mul_paths (fun o : bool => mret (to_signed w (wrap w (wrap w a * wrap w b)),
    if o then 1 else 0)) a b Ha Hb).
  run_outcome. f_equal. f_equal.
  - rewrite to_signed_wrap. apply to_signed_cong. unfold wrap. symmetry. apply Zmult_mod.
  - case_decide; [by rewrite bool_decide_true|by rewrite bool_decide_false].
Qed.

Lemma mulvXi3_exact a b : sfits w a -> sfits w b -> __mulvXi3 w a b = exact_or_abort w (a * b).
Proof using Hw.
  intros Ha Hb. unfold __mulvXi3.
  assert (forall c d : bool, (if c || d then signed w (a * b) else Aborted) =
    if negb c && negb d then Aborted else signed w (a * b)) as Hor by (by intros [] []).
  rewrite !Hor.
  etransitivity; [exact (mul_paths (fun o : bool => if o then Aborted else signed w (a * b)) a b Ha Hb)|].
  unfold exact_or_abort, signed. case_bool_decide; by case_decide.
Qed.
End width_lemmas.

(** * Products *)

(** A pair of digits in base [B]. *)
Lemma digits_div_mod B lo hi : 0 <= lo < B -> (lo + hi * B) / B = hi /\ (lo + hi * B) mod B = lo.
Proof.
  intros H. rewrite Z.div_add, Z_mod_plus_full by lia.
  by rewrite Z.div_small, Z.mod_small by lia.
Qed.

(** The carries of the schoolbook product of two-digit numbers in base [B]. *)
Lemma schoolbook B a1 a0 b1 b0 : 0 <= a1 < B -> 0 <= a0 < B -> 0 <= b1 < B -> 0 <= b0 < B ->
  let p := a0 * b0 in
  let t1 := p / B + a1 * b0 in
  let t3 := t1 mod B + b1 * a0 in
  0 <= p < B * B /\ 0 <= t1 < B * B /\ 0 <= t3 < B * B /\
  p mod B + (t3 mod B) * B + (t1 / B + t3 / B + a1 * b1) * (B * B) = (a0 + a1 * B) * (b0 + b1 * B).
Proof.
  intros Ha1 Ha0 Hb1 Hb0. cbv zeta.
  assert (0 <= a0 * b0 <= (B - 1) * (B - 1)) by nia.
  assert (0 <= a0 * b0 / B <= B - 1).
  { split; [apply Z.div_pos; lia|]. apply Z.lt_le_pred, Z.div_lt_upper_bound; nia. }
  assert (0 <= a1 * b0 <= (B - 1) * (B - 1)) by nia.
  assert (0 <= b1 * a0 <= (B - 1) * (B - 1)) by nia.
  pose proof (Z.div_mod (a0 * b0) B ltac:(lia)) as Ep.
  set (t1 := a0 * b0 / B + a1 * b0) in *.
  pose proof (Z.div_mod t1 B ltac:(lia)) as E1. pose proof (Z.mod_pos_bound t1 B ltac:(lia)).
  set (t3 := t1 mod B + b1 * a0) in *. pose proof (Z.div_mod t3 B ltac:(lia)) as E3.
  split; [nia|]. split; [unfold t1; nia|]. split; [unfold t3; nia|].
  replace (a0 * b0 mod B + t3 mod B * B + (t1 / B + t3 / B + a1 * b1) * (B * B))
    with (a0 * b0 mod B + B * (B * (t3 / B) + t3 mod B) + t1 / B * (B * B) + a1 * b1 * (B * B)) by ring.
  rewrite <- E3. unfold t3.
  replace (a0 * b0 mod B + B * (t1 mod B + b1 * a0) + t1 / B * (B * B) + a1 * b1 * (B * B))
    with (a0 * b0 mod B + B * (B * (t1 / B) + t1 mod B) + B * b1 * a0 + a1 * b1 * (B * B)) by ring.
  rewrite <- E1. unfold t1. rewrite Z.mul_add_distr_l.
  replace (a0 * b0 mod B + (B * (a0 * b0 / B) + B * (a1 * b0)))
    with ((B * (a0 * b0 / B) + a0 * b0 mod B) + B * (a1 * b0)) by ring.
  rewrite <- Ep. ring.
Qed.

(** Accumulating into a signed field keeps the low bits. *)
Lemma to_signed_acc h x y : 0 < h -> to_signed h (wrap h (to_signed h x) + y) = to_signed h (x + y).
Proof.
  intros Hh. apply to_signed_cong. by rewrite wrap_to_signed, wrap_add_l by lia.
Qed.

Lemma to_signed_acc_r h x y : to_signed h (x + wrap h y) = to_signed h (x + y).
Proof. apply to_signed_cong, wrap_add_r. Qed.

Lemma join_value h lo hi : 0 < h -> fits h lo ->
  join h lo (to_signed h hi) = to_signed (2 * h) (lo + hi * 2 ^ h).
Proof.
  intros Hh Hlo. rewrite <- lor_add_shift by (done || lia). apply to_signed_cong.
  rewrite <- (wrap_small h lo Hlo). zbits.
Qed.

(** The double-width product, with the half width [q]: the four partial
    products add up without losing a carry. *)
Lemma mulwXi3_product q a b : 0 < q -> fits (2 * q) a -> fits (2 * q) b ->
  mulwXi3 (2 * q) a b = to_signed (2 * (2 * q)) (a * b).
Proof.
  intros Hq Ha Hb. unfold mulwXi3.
  assert (2 * q / 2 = q) as -> by (rewrite Z.mul_comm; apply Z.div_mul; lia).
  assert (Z.shiftr (wrap (2 * q) (Z.lnot 0)) q = Z.ones q) as ->.
  { change (Z.lnot 0) with (-1). rewrite <- land_ones_wrap, Z.land_m1_l by lia.
    rewrite Z.shiftr_div_pow2 by lia. replace (2 * q) with (q + (2 * q - q)) by lia.
    rewrite Z.ones_div_pow2 by lia. f_equal; lia. }
  cbv zeta. rewrite !land_ones_wrap by lia. rewrite !Z.shiftr_div_pow2, !Z.shiftl_mul_pow2 by lia.
  assert (2 ^ (2 * q) = 2 ^ q * 2 ^ q) as HBB by (rewrite <- Z.pow_add_r by lia; f_equal; lia).
  assert (forall z, 0 <= z < 2 ^ q * 2 ^ q -> wrap (2 * q) z = z) as W
    by (intros z Hz; apply wrap_small; unfold fits; lia).
  unfold fits in Ha, Hb. rewrite HBB in Ha, Hb.
  rewrite !to_signed_acc by lia. rewrite to_signed_acc_r by lia.
  assert (forall z, wrap q z = z mod 2 ^ q) as Wq by done. rewrite !Wq. clear Wq.
  assert (0 < 2 ^ q) as HB by lia. set (B := 2 ^ q) in *. clearbody B.
  pose proof (Z.mod_pos_bound a B HB). pose proof (Z.mod_pos_bound b B HB).
  assert (0 <= a / B < B) by (split; [apply Z.div_pos|apply Z.div_lt_upper_bound]; lia).
  assert (0 <= b / B < B) by (split; [apply Z.div_pos|apply Z.div_lt_upper_bound]; lia).
  destruct (schoolbook B (a / B) (a mod B) (b / B) (b mod B)) as (Hp & Ht1 & Ht3 & E); try done.
  cbv zeta in *. set (p := a mod B * (b mod B)) in *.
  pose proof (Z.mod_pos_bound p B HB).
  rewrite (W p), (W (a / B * (b mod B))), (W (b / B * (a mod B))) by nia.
  set (t1 := p / B + a / B * (b mod B)) in *. pose proof (Z.mod_pos_bound t1 B HB).
  rewrite (W t1), (W (t1 mod B * B)), (W (p mod B + t1 mod B * B)) by nia.
  destruct (digits_div_mod B (p mod B) (t1 mod B)) as [-> ->]; [done|].
  set (t3 := t1 mod B + b / B * (a mod B)) in *. pose proof (Z.mod_pos_bound t3 B HB).
  rewrite (W t3), (W (t3 mod B * B)), (W (p mod B + t3 mod B * B)) by nia.
  rewrite join_value; [|lia|unfold fits; rewrite HBB; nia].
  assert (0 <= t1 / B < B) by (split; [apply Z.div_pos|apply Z.div_lt_upper_bound]; lia).
  rewrite wrap_to_signed, (W (t1 / B)) by nia.
  rewrite HBB, E, !(Z.mul_comm _ B), !(Z.add_comm (_ mod B)), <- !Z.div_mod by lia. done.
Qed.

(** The upper half only matters in its own bits. *)
Lemma wrap_upper h x y z : 0 <= h -> wrap h y = wrap h z ->
  wrap (2 * h) (x + y * 2 ^ h) = wrap (2 * h) (x + z * 2 ^ h).
Proof.
  intros Hh E. unfold wrap in *. replace (2 * h) with (h + h) by lia.
  rewrite Z.pow_add_r by lia. assert (0 < 2 ^ h) by lia.
  rewrite (Z.add_mod x), (Z.add_mod x (z * _)) by nia.
  rewrite !Zmult_mod_distr_r. by rewrite E.
Qed.

(** The product of two double words is right in every bit it keeps: the
    cross products only reach the upper half. *)
Lemma mulXi3_product h a b : h = 32 \/ h = 64 -> mulXi3 h a b = to_signed (2 * h) (a * b).
Proof.
  intros Hh. assert (exists q, 0 < q /\ h = 2 * q) as (q & Hq & Eh)
    by (destruct Hh as [-> | ->]; [exists 16|exists 32]; lia).
  assert (0 < h) as Hpos by lia. unfold mulXi3.
  pose proof (low_fits h a ltac:(lia)) as Fa. pose proof (low_fits h b ltac:(lia)) as Fb.
  assert (mulwXi3 h (low h a) (low h b) = to_signed (2 * h) (low h a * low h b)) as ->
    by (rewrite Eh in *; by apply mulwXi3_product).
  rewrite join_value by (auto with word lia). apply to_signed_cong.
  pose proof (halves_add h a ltac:(lia)) as Ea. pose proof (halves_add h b ltac:(lia)) as Eb.
  set (al := low h a) in *. set (bl := low h b) in *. set (p := al * bl).
  assert (low h (to_signed (2 * h) p) = wrap h p) as -> by (unfold low; zbits).
  rewrite (wrap_upper h _ _ (Z.shiftr p h + (Z.shiftr a h * bl + al * Z.shiftr b h))); [|lia|].
  2: { assert (forall x, wrap h (wrap h (high h x)) = wrap h (Z.shiftr x h)) as Hhi.
       { intros x. rewrite wrap_wrap. apply wrap_to_signed. lia. }
       apply wrap_add_cong; [rewrite Hhi; zbits|].
       apply wrap_add_cong; rewrite wrap_wrap; apply wrap_mul_cong; done. }
  pose proof (halves_add h p ltac:(lia)) as Ep. unfold low in Ep.
  set (a1 := Z.shiftr a h) in *. set (b1 := Z.shiftr b h) in *. clearbody al bl a1 b1. subst a b.
  replace (wrap h p + (Z.shiftr p h + (a1 * bl + al * b1)) * 2 ^ h)
    with (p + (a1 * bl + al * b1) * 2 ^ h) by lia.
  replace ((al + 2 ^ h * a1) * (bl + 2 ^ h * b1))
    with (p + (a1 * bl + al * b1) * 2 ^ h + (a1 * b1) * 2 ^ (2 * h)).
  - unfold wrap. by rewrite Z_mod_plus_full.
  - replace (2 * h) with (h + h) by lia. rewrite Z.pow_add_r by lia. unfold p. ring.
Qed.

(** * The contract of the arithmetic routines *)

(** The overflow-checking routines are exact at 32, 64 and 128 bits: the
    trapping ones return the mathematical result when it fits their type and
    abort when it does not, the [o] ones return the wrapped product with the
    flag set exactly on overflow, and none of them meets undefined behaviour
    in finding out. *)
Lemma overflow_exact (w a b : Z) (Hw : 2 <= w) (Ha : sfits w a) (Hb : sfits w b) :
  absvXi2 w a = exact_or_abort w (Z.abs a) /\
  negvXi2 w a = exact_or_abort w (- a) /\
  addvXi3 w a b = exact_or_abort w (a + b) /\
  subvXi3 w a b = exact_or_abort w (a - b) /\
  __mulvXi3 w a b = exact_or_abort w (a * b) /\
  __muloXi4 w a b = Done (to_signed w (a * b), if decide (sfits w (a * b)) then 0 else 1).
Proof.
  split; [by apply absvXi2_exact|]. split; [by apply negvXi2_exact|].
  split; [by apply addvXi3_exact|]. split; [by apply subvXi3_exact|].
  split; [by apply mulvXi3_exact|by apply muloXi4_exact].
Qed.

Lemma overflow_exact_witness :
  __mulvdi3 (2 ^ 32) (2 ^ 31) = Aborted /\ __mulodi4 (2 ^ 32) (- 2 ^ 31) = Done (- 2 ^ 63, 0) /\
  __addvsi3 (2 ^ 31 - 1) 1 = Aborted /\ __absvti2 (- 2 ^ 127) = Aborted.
Proof.
  destruct (overflow_exact 64 (2 ^ 32) (2 ^ 31)) as (_ & _ & _ & _ & H1 & _); try (unfold sfits; lia).
  destruct (overflow_exact 64 (2 ^ 32) (- 2 ^ 31)) as (_ & _ & _ & _ & _ & H2); try (unfold sfits; lia).
  destruct (overflow_exact 32 (2 ^ 31 - 1) 1) as (_ & _ & H3 & _); try (unfold sfits; lia).
  destruct (overflow_exact 128 (- 2 ^ 127) 0) as (H4 & _); try (unfold sfits; lia).
  unfold __mulvdi3, __mulvXi3_24, __mulodi4, __muloXi4_21, __addvsi3, __absvti2. rewrite H1, H2, H3, H4. vm_compute. auto.
Defined.

(** The wide multiplications keep the low bits of the product, whatever
    the signs, and the half-word products inside give all of it. *)
Lemma product_exact (a b : Z) :
  __muldi3 a b = di (a * b) /\ __multi3 a b = ti (a * b) /\
  (fits 32 a /\ fits 32 b -> __muldsi3 a b = di (a * b)) /\
  (fits 64 a /\ fits 64 b -> __mulddi3 a b = ti (a * b)) /\
  __negdi2 a = di (- a) /\ __negti2 a = ti (- a).
Proof.
  split; [apply (mulXi3_product 32); auto|]. split; [apply (mulXi3_product 64); auto|].
  split; [intros []; by apply (mulwXi3_product 16)|].
  split; [intros []; by apply (mulwXi3_product 32)|].
  split; apply negXi2_wraps; lia.
Qed.

Lemma product_exact_witness : __muldsi3 (2 ^ 32 - 1) (2 ^ 32 - 1) = 1 - 2 ^ 33.
Proof.
  destruct (product_exact (2 ^ 32 - 1) (2 ^ 32 - 1)) as (_ & _ & H & _).
  rewrite H; [reflexivity|]. split; unfold fits; lia.
Defined.
