(* ===== verification/CcDiv.v ===== *)
(** Division of the compiler run-time ([src/cc-runtime/src/cc-runtime.c]).

    [__udivXi3] and [__umodXi3] divide one word by shifting and subtracting;
    [__udivmoddi4] is the same loop over the halves of a double word, entered
    through a case analysis that avoids it where it can; [__udivmodti4]
    divides 128 bits through the 128-by-64 division of the processor, for
    which the source also has the portable [udiv128by64to64default]; the signed
    divisions strip the signs.  The quotient and the remainder are proved to
    be those of the integers. *)

From stdpp Require Import base numbers list.
From Stdlib Require Import ZArith Lia.
From S2P Require Import Prelude CcInt CcArith.

(** * One word *)

Section word.
Context (N : Z).

(** One round: the next dividend bit enters [r], the last quotient bit enters
    [n]; [s] is -1 when the divisor fits. *)
Definition div_step (d r n carry : Z) : Z * Z * Z :=
  let r := Z.lor (wrap N (Z.shiftl r 1)) (Z.shiftr n (N - 1)) in
  let n := Z.lor (wrap N (Z.shiftl n 1)) carry in
  let s := Z.shiftr (to_signed N (wrap N (d - r - 1))) (N - 1) in
  let carry := Z.land s 1 in
  let r := wrap N (r - Z.land d (wrap N s)) in
  (r, n, carry).

Fixpoint div_loop (sr : nat) (d r n carry : Z) : Z * Z * Z :=
  match sr with
  | O => (r, n, carry)
  | S sr' => let '(r, n, carry) := div_step d r n carry in div_loop sr' d r n carry
  end.

Definition __udivXi3 (n d : Z) : outcome Z :=
  cd ← (if d =? 0 then mret N else clz N d);
  cn ← (if n =? 0 then mret N else clz N n);
  let sr := wrap 32 (cd - cn) in
  if N - 1 <? sr then mret 0
  else if sr =? N - 1 then mret n
  else
    let sr := sr + 1 in
    r ← shr N n sr;
    n ← shl N n (N - sr);
    let '(r, n, carry) := div_loop (Z.to_nat sr) d r n 0 in
    mret (Z.lor (wrap N (Z.shiftl n 1)) carry).

Definition __umodXi3 (n d : Z) : outcome Z :=
  cd ← (if d =? 0 then mret N else clz N d);
  cn ← (if n =? 0 then mret N else clz N n);
  let sr := wrap 32 (cd - cn) in
  if N - 1 <? sr then mret n
  else if sr =? N - 1 then mret 0
  else
    let sr := sr + 1 in
    r ← shr N n sr;
    n ← shl N n (N - sr);
    let '(r, n, carry) := div_loop (Z.to_nat sr) d r n 0 in
    mret r.
End word.

(** The copies of the template that the source instantiates and uses. *)
Definition __udivXi3_27 : Z -> Z -> outcome Z := __udivXi3 64.
Definition __udivXi3_31 : Z -> Z -> outcome Z := __udivXi3 32.
Definition __umodXi3_36 : Z -> Z -> outcome Z := __umodXi3 64.
Definition __umodXi3_40 : Z -> Z -> outcome Z := __umodXi3 32.

Definition __udivdi3 : Z -> Z -> outcome Z := __udivXi3_27.
Definition __udivsi3 : Z -> Z -> outcome Z := __udivXi3_31.
Definition __umoddi3 : Z -> Z -> outcome Z := __umodXi3_36.
Definition __umodsi3 : Z -> Z -> outcome Z := __umodXi3_40.

(** The quotient and what is stored through [rem]. *)
Definition __udivmodsi4 (a b : Z) : outcome (Z * Z) :=
  q ← __udivsi3 a b;
  let d := si q in
  mret (wrap 32 d, wrap 32 (a - wrap 32 (wrap 32 d * b))).

(** ** The loop *)

Section loop.
Context (N D d : Z) (HN : 1 <= N) (HD : fits N D) (Hd : 0 < d).

(** With [k] rounds to go and the quotient [Q] of the leading bits of [D]: [r]
    is their remainder, [n] holds the remaining bits above [Q / 2], and the
    last bit of [Q] is in [carry]. *)
Definition loop_inv (k Q r n carry : Z) : Prop :=
  0 <= k <= N /\ 0 <= Q < 2 ^ (N - k) /\ r = D / 2 ^ k - Q * d /\ 0 <= r /\
  n = (D mod 2 ^ k) * 2 ^ (N - k) + Q / 2 /\ carry = Q mod 2.

(** The comparison of the next partial remainder with [d] by its sign. *)
Definition comparable (r : Z) : Prop :=
  0 <= r < 2 * d /\ r < 2 ^ N /\ - 2 ^ (N - 1) <= d - r - 1 < 2 ^ (N - 1).

Lemma sign_test x : - 2 ^ (N - 1) <= x < 2 ^ (N - 1) ->
  Z.shiftr (to_signed N (wrap N x)) (N - 1) = if x <? 0 then -1 else 0.
Proof using HN.
  intros Hx. rewrite to_signed_wrap, to_signed_small by (lia || exact Hx).
  rewrite Z.shiftr_div_pow2 by lia. assert (0 < 2 ^ (N - 1)) by lia. ztest.
  - symmetry. apply Z.div_unique with (x + 2 ^ (N - 1)); lia.
  - apply Z.div_small. lia.
Qed.

Lemma lor_even x b : 0 <= b < 2 -> Z.lor (2 * x) b = 2 * x + b.
Proof.
  intros Hb. rewrite Z.lor_comm.
  replace (2 * x) with (Z.shiftl x 1) at 1 by (rewrite Z.shiftl_mul_pow2; lia).
  rewrite lor_add_shift by (lia || unfold fits; lia). lia.
Qed.

Lemma land_all_ones x : fits N x -> Z.land x (wrap N (-1)) = x.
Proof using HN.
  intros Hx. rewrite <- land_ones_wrap, Z.land_m1_l, land_ones_wrap by lia. by apply wrap_small.
Qed.

(** The remaining bits, split at the next one. *)
Lemma loop_bits k : 1 <= k <= N ->
  exists P T D1 D0, 0 < P /\ 0 < T /\ 2 ^ N = 2 * P * T /\ 2 ^ (N - 1) = P * T /\
    2 ^ (N - k) = T /\ 2 ^ (N - (k - 1)) = 2 * T /\
    D / 2 ^ (k - 1) = D1 /\ D / 2 ^ k = D1 / 2 /\ D mod 2 ^ (k - 1) = D0 /\
    D mod 2 ^ k = (D1 mod 2) * P + D0 /\ 0 <= D0 < P /\ 0 <= D1.
Proof using HN HD.
  intros Hk. exists (2 ^ (k - 1)), (2 ^ (N - k)), (D / 2 ^ (k - 1)), (D mod 2 ^ (k - 1)).
  assert (0 < 2 ^ (k - 1)) by lia. assert (0 < 2 ^ (N - k)) by lia.
  assert (2 ^ k = 2 ^ (k - 1) * 2) as E2.
  { replace k with (k - 1 + 1) at 1 by lia. by rewrite Z.pow_add_r by lia. }
  assert (2 ^ (N - 1) = 2 ^ (k - 1) * 2 ^ (N - k)) as E1.
  { rewrite <- Z.pow_add_r by lia. f_equal; lia. }
  assert (2 ^ N = 2 ^ (N - 1) * 2) as E0.
  { replace N with (N - 1 + 1) at 1 by lia. by rewrite Z.pow_add_r by lia. }
  split; [done|]. split; [done|]. split; [lia|]. split; [done|]. split; [done|].
  split. { replace (N - (k - 1)) with (N - k + 1) by lia. rewrite Z.pow_add_r by lia. lia. }
  split; [done|]. split; [by rewrite E2, Z.div_div by lia|]. split; [done|].
  split; [rewrite E2, Z.rem_mul_r by lia; lia|].
  split; [apply Z.mod_pos_bound; lia|apply Z.div_pos; unfold fits in HD; lia].
Qed.

Lemma div_step_inv k Q r n carry : 1 <= k -> loop_inv k Q r n carry -> fits N d ->
  comparable (D / 2 ^ (k - 1) - 2 * Q * d) ->
  exists Q' r' n' c', div_step N d r n carry = (r', n', c') /\
    loop_inv (k - 1) Q' r' n' c' /\ r' < d.
Proof using HN HD Hd.
  intros Hk (Hkn & HQ & Hr & Hr0 & Hn & Hc) Hfd (Hr1 & HrN & Hcmp).
  destruct (loop_bits k ltac:(lia)) as
    (P & T & D1 & D0 & HP & HT & E0 & E1 & ET & ET2 & ED1 & ED2 & ED0 & EDk & HD0 & HD1).
  rewrite ET in HQ. rewrite ED2 in Hr. rewrite EDk, ET in Hn. rewrite ED1 in *.
  pose proof (Z.div_mod D1 2 ltac:(lia)) as Eb. pose proof (Z.mod_pos_bound D1 2 ltac:(lia)) as Hb.
  set (b := D1 mod 2) in *. set (r1 := D1 - 2 * Q * d) in *.
  pose proof (Z.div_mod Q 2 ltac:(lia)) as EQ. pose proof (Z.mod_pos_bound Q 2 ltac:(lia)).
  assert (Z.shiftr n (N - 1) = b) as Etop.
  { rewrite Z.shiftr_div_pow2, E1, Hn by lia. symmetry.
    apply Z.div_unique with (D0 * T + Q / 2); [left; nia|nia]. }
  assert (r1 = 2 * r + b) as Er1 by (unfold r1; lia).
  unfold div_step. rewrite Etop, !Z.shiftl_mul_pow2 by lia. change (2 ^ 1) with 2.
  rewrite (wrap_small N (r * 2)) by (unfold fits; lia).
  rewrite (Z.mul_comm r), lor_even, <- Er1 by done.
  assert (wrap N (n * 2) = 2 * (D0 * T + Q / 2)) as ->.
  { unfold wrap. replace (n * 2) with (2 * (D0 * T + Q / 2) + b * 2 ^ N) by (rewrite Hn, E0; ring).
    rewrite Z_mod_plus_full. apply Z.mod_small. rewrite E0. nia. }
  rewrite lor_even, Hc by lia. cbv zeta. rewrite sign_test by done.
  exists (2 * Q + if d - r1 - 1 <? 0 then 1 else 0). eexists _, _, _. split; [reflexivity|].
  unfold loop_inv. rewrite ET2, ED1, ED0.
  destruct (Z.ltb_spec (d - r1 - 1) 0) as [Hlt|Hge].
  - rewrite land_all_ones, (wrap_small N (r1 - d)) by (done || lia || unfold fits; lia).
    rewrite (Z.mul_comm 2 Q), Z.div_add_l, Zplus_mod, Z_mod_mult by lia.
    change (1 / 2) with 0. change (Z.land (-1) 1) with 1. change ((0 + 1 mod 2) mod 2) with 1.
    unfold r1 in *. repeat split; try lia; nia.
  - change (wrap N 0) with 0. rewrite Z.land_0_r, Z.sub_0_r, (wrap_small N r1) by (unfold fits; lia).
    rewrite Z.add_0_r, (Z.mul_comm 2 Q), Z.div_mul, Z_mod_mult by lia.
    change (Z.land 0 1) with 0. unfold r1 in *. repeat split; try lia; nia.
Qed.

(** A divisor below half the range is comparable in every round. *)
Lemma div_loop_inv sr Q r n carry : loop_inv (Z.of_nat sr) Q r n carry -> r < d ->
  d <= 2 ^ (N - 1) ->
  exists Q' r' n' c', div_loop N sr d r n carry = (r', n', c') /\
    loop_inv 0 Q' r' n' c' /\ r' < d.
Proof using HN HD Hd.
  assert (2 ^ N = 2 * 2 ^ (N - 1)) as E0.
  { replace N with (1 + (N - 1)) at 1 by lia. by rewrite Z.pow_add_r by lia. }
  revert Q r n carry. induction sr as [|sr IH]; intros Q r n carry Hinv Hlt Hhalf.
  { exists Q, r, n, carry. done. }
  cbn [div_loop].
  destruct (div_step_inv (Z.of_nat (S sr)) Q r n carry) as (Q' & r' & n' & c' & -> & Hinv' & Hlt');
    [lia|done|unfold fits; lia| |].
  - destruct Hinv as (Hk & HQ & Hr & Hr0 & _ & _).
    destruct (loop_bits (Z.of_nat (S sr)) ltac:(lia)) as
      (P & T & D1 & D0 & _ & _ & _ & _ & _ & _ & -> & ED2 & _ & _ & _ & _).
    rewrite ED2 in Hr. pose proof (Z.div_mod D1 2 ltac:(lia)).
    pose proof (Z.mod_pos_bound D1 2 ltac:(lia)). unfold comparable. lia.
  - replace (Z.of_nat (S sr) - 1) with (Z.of_nat sr) in Hinv' by lia.
    by apply (IH Q' r' n' c').
Qed.

(** After the last round the quotient is complete. *)
Lemma loop_inv_end Q r n carry : loop_inv 0 Q r n carry -> r < d ->
  Z.lor (wrap N (Z.shiftl n 1)) carry = D / d /\ r = D mod d.
Proof using HN HD Hd.
  intros (_ & HQ & Hr & Hr0 & Hn & Hc) Hlt.
  rewrite Z.pow_0_r, Z.mod_1_r, Z.mul_0_l, Z.add_0_l in Hn. rewrite Z.pow_0_r, Z.div_1_r in Hr.
  rewrite Z.sub_0_r in HQ. pose proof (Z.div_mod Q 2 ltac:(lia)).
  pose proof (Z.mod_pos_bound Q 2 ltac:(lia)).
  rewrite Z.shiftl_mul_pow2 by lia. change (2 ^ 1) with 2.
  rewrite wrap_small by (unfold fits; lia). rewrite Z.mul_comm, lor_even by lia.
  split; [apply Z.div_unique with r; lia|apply Z.mod_unique with Q; lia].
Qed.

(** The whole loop, entered with as many rounds as the quotient has bits. *)
Lemma div_loop_correct sr : fits N d -> 0 < D -> Z.log2 d <= Z.log2 D ->
  sr = Z.log2 D - Z.log2 d + 1 -> sr <= N ->
  exists r n carry,
    div_loop N (Z.to_nat sr) d (Z.shiftr D sr) (wrap N (Z.shiftl D (N - sr))) 0 = (r, n, carry) /\
    Z.lor (wrap N (Z.shiftl n 1)) carry = D / d /\ r = D mod d.
Proof using HN HD Hd.
  intros Hfd HDp Hlog Hsr HsN.
  pose proof (Z.log2_nonneg d) as Hlg. destruct HD as [HD0 HDu].
  assert (Z.log2 D < N) by (apply Z.log2_lt_pow2; lia).
  pose proof (Z.log2_spec d Hd) as [Hd1 Hd2]. pose proof (Z.log2_spec D ltac:(lia)) as [HD1 HD2].
  set (l := Z.log2 d) in *. rewrite Z.pow_succ_r in * by lia.
  (* the first partial remainder has the length of the divisor *)
  assert (2 ^ l <= D / 2 ^ (sr - 1) < 2 * 2 ^ l) as Hfirst.
  { split; [apply Z.div_le_lower_bound|apply Z.div_lt_upper_bound]; try lia.
    - rewrite <- Z.pow_add_r by lia. replace (sr - 1 + l) with (Z.log2 D) by lia. done.
    - replace (2 ^ (sr - 1) * (2 * 2 ^ l)) with (2 * (2 ^ (sr - 1) * 2 ^ l)) by ring.
      rewrite <- Z.pow_add_r by lia. replace (sr - 1 + l) with (Z.log2 D) by lia. done. }
  assert (2 ^ N = 2 * 2 ^ (N - 1)) as E0.
  { replace N with (1 + (N - 1)) at 1 by lia. by rewrite Z.pow_add_r by lia. }
  assert (2 ^ l <= 2 ^ (N - 1)) by (apply Z.pow_le_mono_r; lia).
  assert (loop_inv sr 0 (Z.shiftr D sr) (wrap N (Z.shiftl D (N - sr))) 0) as Hinv.
  { unfold loop_inv. rewrite Z.shiftr_div_pow2, Z.shiftl_mul_pow2 by lia.
    assert (0 <= D / 2 ^ sr) by (apply Z.div_pos; lia).
    change (0 mod 2) with 0. change (0 / 2) with 0. rewrite Z.mul_0_l, Z.sub_0_r, Z.add_0_r.
    repeat split; try lia. unfold wrap. replace N with (sr + (N - sr)) at 2 by lia.
    rewrite Z.pow_add_r by lia. apply Zmult_mod_distr_r. }
  destruct (Z.to_nat sr) as [|m] eqn:Em; [lia|]. cbn [div_loop].
  destruct (div_step_inv sr 0 _ _ _ ltac:(lia) Hinv Hfd) as (Q' & r' & n' & c' & -> & Hinv' & Hlt').
  { unfold comparable, fits in *. lia. }
  replace (sr - 1) with (Z.of_nat m) in Hinv' by lia.
  destruct m as [|m].
  - cbn [div_loop]. eexists _, _, _. split; [reflexivity|]. by apply loop_inv_end with Q'.
  - destruct (div_loop_inv (S m) Q' r' n' c' Hinv' Hlt') as (Q2 & r2 & n2 & c2 & -> & H2 & Hlt2).
    { assert (2 ^ l * 2 <= 2 ^ (N - 1)); [|lia].
      change 2 with (2 ^ 1) at 2. rewrite <- Z.pow_add_r by lia. apply Z.pow_le_mono_r; lia. }
    eexists _, _, _. split; [reflexivity|]. by apply loop_inv_end with Q2.
Qed.
End loop.

(** * Division of a word *)

(** The number of rounds, and the cases in which there is nothing to do. *)
Lemma round_count N n d : N = 32 \/ N = 64 -> fits N n -> fits N d -> 0 < d ->
  exists cd cn, (if d =? 0 then mret N else clz N d) = Done cd /\
    (if n =? 0 then mret N else clz N n) = Done cn /\
    (wrap 32 (cd - cn) <= N - 1 ->
       0 < n /\ Z.log2 d <= Z.log2 n /\ wrap 32 (cd - cn) = Z.log2 n - Z.log2 d) /\
    (N - 1 < wrap 32 (cd - cn) -> n < d).
Proof.
  intros HN [Hn0 Hn] [_ Hd] Hd0. assert (0 < N) by lia.
  assert (Z.log2 d < N) by (apply Z.log2_lt_pow2; lia). pose proof (Z.log2_nonneg d).
  destruct (Z.eqb_spec d 0); [lia|]. rewrite clz_done by done.
  destruct (Z.eqb_spec n 0) as [->|Hnz].
  - eexists _, _. split; [reflexivity|]. split; [reflexivity|]. split; [|lia].
    word_norm. destruct HN as [-> | ->]; Z.div_mod_to_equations; lia.
  - rewrite clz_done by done. assert (Z.log2 n < N) by (apply Z.log2_lt_pow2; lia).
    pose proof (Z.log2_nonneg n).
    eexists _, _. split; [reflexivity|]. split; [reflexivity|].
    destruct (Z.le_gt_cases (Z.log2 d) (Z.log2 n)).
    + rewrite wrap_small by (word_norm; lia). split; [lia|lia].
    + assert (n < d) by (apply Z.log2_lt_cancel; lia).
      split; [|done]. word_norm. destruct HN as [-> | ->]; Z.div_mod_to_equations; lia.
Qed.

(** A quotient of [N] bits has the divisor one. *)
Lemma full_quotient N n d : fits N n -> 0 < d -> 0 < n -> Z.log2 n - Z.log2 d = N - 1 -> d = 1.
Proof.
  intros [_ Hn] Hd Hn0 E. assert (Z.log2 n < N) by (apply Z.log2_lt_pow2; lia).
  pose proof (Z.log2_nonneg d). assert (Z.log2 d = 0) as Ed by lia.
  pose proof (Z.log2_spec d Hd) as [_ Hu]. rewrite Ed in Hu. simpl in Hu. lia.
Qed.

Ltac run_loop Hloop := destruct Hloop as (r & n' & carry & Hl & Hq & Hr); rewrite Hl; clear Hl.

Lemma udivXi3_correct N n d : N = 32 \/ N = 64 -> fits N n -> fits N d -> 0 < d ->
  __udivXi3 N n d = Done (n / d) /\ __umodXi3 N n d = Done (n mod d).
Proof.
  intros HN Hn Hd Hd0. unfold __udivXi3, __umodXi3.
  destruct (round_count N n d HN Hn Hd Hd0) as (cd & cn & -> & -> & Hle & Hgt). run_outcome.
  destruct (Z.ltb_spec (N - 1) (wrap 32 (cd - cn))) as [Hlt|Hge].
  { specialize (Hgt Hlt). unfold fits in Hn. by rewrite Z.div_small, Z.mod_small by lia. }
  destruct (Hle Hge) as (Hn0 & Hlog & Esr). rewrite Esr.
  destruct (Z.eqb_spec (Z.log2 n - Z.log2 d) (N - 1)) as [E|E].
  { assert (d = 1) as -> by (by apply (full_quotient N n)). by rewrite Z.div_1_r, Z.mod_1_r. }
  rewrite shr_done, shl_done by lia. run_outcome.
  pose proof (div_loop_correct N n d ltac:(lia) Hn Hd0 (Z.log2 n - Z.log2 d + 1) Hd Hn0 Hlog
    eq_refl ltac:(lia)) as Hloop.
  run_loop Hloop. by rewrite Hq, Hr.
Qed.

Lemma udivmodsi4_correct a b : fits 32 a -> fits 32 b -> 0 < b ->
  __udivmodsi4 a b = Done (a / b, a mod b).
Proof.
  intros Ha Hb Hb0. unfold __udivmodsi4, __udivsi3, __udivXi3_31.
  destruct (udivXi3_correct 32 a b ltac:(auto) Ha Hb Hb0) as [-> _]. run_outcome.
  rewrite !wrap_to_signed by lia. unfold fits in *.
  pose proof (Z.div_mod a b ltac:(lia)). pose proof (Z.mod_pos_bound a b ltac:(lia)).
  assert (0 <= a / b) by (apply Z.div_pos; lia).
  rewrite (wrap_small 32 (a / b)) by (unfold fits; nia).
  rewrite (wrap_small 32 (a / b * b)) by (unfold fits; nia).
  rewrite wrap_small by (unfold fits; nia). f_equal. f_equal. lia.
Qed.

(** ** Every input *)

Lemma div_step_typed N d r n carry : 1 <= N -> fits N n -> fits 1 carry ->
  let '(r', n', c') := div_step N d r n carry in fits N r' /\ fits N n' /\ fits 1 c'.
Proof.
  intros HN Hn Hc. unfold div_step. split; [apply wrap_fits; lia|].
  split; [apply fits_lor; [lia|apply wrap_fits; lia|by apply (fits_mono 1)]|].
  apply land_1_fits.
Qed.

Lemma div_loop_typed N sr d r n carry : 1 <= N -> fits N r -> fits N n -> fits 1 carry ->
  let '(r', n', c') := div_loop N sr d r n carry in fits N r' /\ fits N n' /\ fits 1 c'.
Proof.
  intros HN. revert r n carry. induction sr as [|sr IH]; intros r n carry Hr Hn Hc; [done|].
  cbn [div_loop]. pose proof (div_step_typed N d r n carry HN Hn Hc) as H.
  destruct (div_step N d r n carry) as [[r' n'] c'], H as (? & ? & ?). by apply IH.
Qed.

(** The number of leading zeros as the routines compute it, zero included. *)
Lemma leading_typed N x : 0 < N -> fits N x ->
  exists c, (if x =? 0 then mret N else clz N x) = Done c /\ 0 <= c <= N /\ (c = N -> x = 0).
Proof.
  intros HN [? ?]. destruct (Z.eqb_spec x 0) as [->|Hx].
  - exists N. split; [done|]. split; [lia|done].
  - rewrite clz_done by done. eexists. split; [done|]. pose proof (Z.log2_nonneg x).
    assert (Z.log2 x < N) by (apply Z.log2_lt_pow2; lia). split; lia.
Qed.

Lemma udivXi3_typed N n d : N = 32 \/ N = 64 -> fits N n -> fits N d ->
  exists q r, __udivXi3 N n d = Done q /\ __umodXi3 N n d = Done r /\ fits N q /\ fits N r.
Proof.
  intros HN Hn Hd. unfold __udivXi3, __umodXi3.
  destruct (leading_typed N d) as (cd & -> & Hcd & _); [lia|done|].
  destruct (leading_typed N n) as (cn & -> & Hcn & _); [lia|done|]. run_outcome.
  pose proof (wrap_fits 32 (cd - cn) ltac:(lia)) as [? _].
  assert (fits N 0) by (split; [lia|apply Z.pow_pos_nonneg; lia]).
  destruct (Z.ltb_spec (N - 1) (wrap 32 (cd - cn))); [by exists 0, n|].
  destruct (Z.eqb_spec (wrap 32 (cd - cn)) (N - 1)); [by exists n, 0|].
  rewrite shr_done, shl_done by lia. run_outcome.
  pose proof (div_loop_typed N (Z.to_nat (wrap 32 (cd - cn) + 1)) d
    (Z.shiftr n (wrap 32 (cd - cn) + 1)) (wrap N (Z.shiftl n (N - (wrap 32 (cd - cn) + 1)))) 0
    ltac:(lia) ltac:(apply shiftr_fits; (done || lia)) ltac:(apply wrap_fits; lia) ltac:(done)) as H'.
  destruct (div_loop _ _ _ _ _ _) as [[r' n'] c'], H' as (Hr & Hn' & Hc).
  eexists _, _. split; [done|]. split; [done|]. split; [|done].
  apply fits_lor; [lia|apply wrap_fits; lia|]. apply (fits_mono 1); (done || lia).
Qed.

(** On any two values of their type, the zero divisor included, the word
    divisions run to the end without undefined behaviour and return values of
    the type. *)
Lemma word_division_typed (n d : Z) :
  (fits 32 n /\ fits 32 d -> exists q r, __udivsi3 n d = Done q /\ __umodsi3 n d = Done r /\
     fits 32 q /\ fits 32 r) /\
  (fits 64 n /\ fits 64 d -> exists q r, __udivdi3 n d = Done q /\ __umoddi3 n d = Done r /\
     fits 64 q /\ fits 64 r).
Proof. split; intros [Hn Hd]; apply udivXi3_typed; auto. Qed.

Lemma word_division_typed_witness : exists q, __udivdi3 1000 0 = Done q /\ fits 64 q.
Proof.
  destruct (word_division_typed 1000 0) as [_ H].
  destruct (H ltac:(split; unfold fits; lia)) as (q & r & H1 & _ & H2 & _). exists q. exact (conj H1 H2).
Defined.
