(* ===== verification/CcDivWide.v ===== *)
(** Division of double and quadruple words by the compiler run-time
    ([src/cc-runtime/src/cc-runtime.c]): [__udivmoddi4], [__udivmodti4] with
    its 128-by-64 step, and the signed divisions on top of them. *)

From stdpp Require Import base numbers list.
From Stdlib Require Import ZArith Lia.
From S2P Require Import Prelude CcInt CcArith CcDiv.

(** * [__udivmoddi4] *)

(** One round of the loop, over the halves of [r] and [q]. *)
Definition di_step (d r q carry : Z) : Z * Z * Z :=
  let r_high := Z.lor (wrap 32 (Z.shiftl (uhigh 32 r) 1)) (Z.shiftr (low 32 r) 31) in
  let r_low := Z.lor (wrap 32 (Z.shiftl (low 32 r) 1)) (Z.shiftr (uhigh 32 q) 31) in
  let q_high := Z.lor (wrap 32 (Z.shiftl (uhigh 32 q) 1)) (Z.shiftr (low 32 q) 31) in
  let q_low := Z.lor (wrap 32 (Z.shiftl (low 32 q) 1)) carry in
  let r := ujoin 32 r_low r_high in
  let q := ujoin 32 q_low q_high in
  let s := Z.shiftr (di (wrap 64 (d - r - 1))) 63 in
  let carry := wrap 32 (Z.land s 1) in
  let r := wrap 64 (r - Z.land d (wrap 64 s)) in
  (r, q, carry).

Fixpoint di_loop (sr : nat) (d r q carry : Z) : Z * Z * Z :=
  match sr with
  | O => (r, q, carry)
  | S sr' => let '(r, q, carry) := di_step d r q carry in di_loop sr' d r q carry
  end.

(** The loop and the last quotient bit. *)
Definition di_finish (sr d r q : Z) : Z * Z :=
  let '(r, q, carry) := di_loop (Z.to_nat sr) d r q 0 in
  (Z.lor (wrap 64 (Z.shiftl q 1)) carry, r).

(** The quotient and what is stored through [rem]. *)
Definition __udivmoddi4 (a b : Z) : outcome (Z * Z) :=
  let n_high := uhigh 32 a in let n_low := low 32 a in
  let d_high := uhigh 32 b in let d_low := low 32 b in
  if n_high =? 0 then
    if d_high =? 0 then
      rem ← umod n_low d_low;
      q ← udiv n_low d_low;
      mret (q, rem)
    else mret (0, n_low)
  else if d_low =? 0 then
    if d_high =? 0 then
      rem ← umod n_high d_low;
      q ← udiv n_high d_low;
      mret (q, rem)
    else if n_low =? 0 then
      r_high ← umod n_high d_high;
      q ← udiv n_high d_high;
      mret (q, ujoin 32 0 r_high)
    else if Z.land d_high (wrap 32 (d_high - 1)) =? 0 then
      let rem := ujoin 32 n_low (Z.land n_high (wrap 32 (d_high - 1))) in
      c ← ctz d_high;
      q ← shr 32 n_high c;
      mret (q, rem)
    else
      cd ← clz 32 d_high;
      cn ← clz 32 n_high;
      let sr := wrap 32 (cd - cn) in
      if 30 <? sr then mret (0, a)
      else
        let sr := sr + 1 in
        q_high ← shl 32 n_low (32 - sr);
        r_high ← shr 32 n_high sr;
        r_low1 ← shl 32 n_high (32 - sr);
        r_low2 ← shr 32 n_low sr;
        mret (di_finish sr b (ujoin 32 (Z.lor r_low1 r_low2) r_high) (ujoin 32 0 q_high))
  else if d_high =? 0 then
    if Z.land d_low (wrap 32 (d_low - 1)) =? 0 then
      let rem := Z.land n_low (wrap 32 (d_low - 1)) in
      if d_low =? 1 then mret (a, rem)
      else
        sr ← ctz d_low;
        q_high ← shr 32 n_high sr;
        q_low1 ← shl 32 n_high (32 - sr);
        q_low2 ← shr 32 n_low sr;
        mret (ujoin 32 (Z.lor q_low1 q_low2) q_high, rem)
    else
      cd ← clz 32 d_low;
      cn ← clz 32 n_high;
      let sr := wrap 32 (1 + 32 + cd - cn) in
      if sr =? 32 then
        mret (di_finish sr b (ujoin 32 n_high 0) (ujoin 32 0 n_low))
      else if sr <? 32 then
        q_high ← shl 32 n_low (32 - sr);
        r_high ← shr 32 n_high sr;
        r_low1 ← shl 32 n_high (32 - sr);
        r_low2 ← shr 32 n_low sr;
        mret (di_finish sr b (ujoin 32 (Z.lor r_low1 r_low2) r_high) (ujoin 32 0 q_high))
      else
        q_low ← shl 32 n_low (64 - sr);
        q_high1 ← shl 32 n_high (64 - sr);
        q_high2 ← shr 32 n_low (sr - 32);
        r_low ← shr 32 n_high (sr - 32);
        mret (di_finish sr b (ujoin 32 r_low 0) (ujoin 32 q_low (Z.lor q_high1 q_high2)))
  else
    cd ← clz 32 d_high;
    cn ← clz 32 n_high;
    let sr := wrap 32 (cd - cn) in
    if 31 <? sr then mret (0, a)
    else
      let sr := sr + 1 in
      if sr =? 32 then
        mret (di_finish sr b (ujoin 32 n_high 0) (ujoin 32 0 n_low))
      else
        q_high ← shl 32 n_low (32 - sr);
        r_high ← shr 32 n_high sr;
        r_low1 ← shl 32 n_high (32 - sr);
        r_low2 ← shr 32 n_low sr;
        mret (di_finish sr b (ujoin 32 (Z.lor r_low1 r_low2) r_high) (ujoin 32 0 q_high)).

(** ** The loop over halves is the loop over the word *)

Lemma di_step_word d r q carry : fits 64 r -> fits 64 q -> fits 1 carry ->
  di_step d r q carry = div_step 64 d r q carry.
Proof.
  intros Hr Hq Hc. unfold di_step, div_step.
  assert (ujoin 32 (Z.lor (wrap 32 (Z.shiftl (low 32 r) 1)) (Z.shiftr (uhigh 32 q) 31))
            (Z.lor (wrap 32 (Z.shiftl (uhigh 32 r) 1)) (Z.shiftr (low 32 r) 31)) =
          Z.lor (wrap 64 (Z.shiftl r 1)) (Z.shiftr q (64 - 1))) as ->.
  { rewrite <- (wrap_small 64 q Hq) at 2. unfold ujoin, low, uhigh. zbits. }
  assert (ujoin 32 (Z.lor (wrap 32 (Z.shiftl (low 32 q) 1)) carry)
            (Z.lor (wrap 32 (Z.shiftl (uhigh 32 q) 1)) (Z.shiftr (low 32 q) 31)) =
          Z.lor (wrap 64 (Z.shiftl q 1)) carry) as ->.
  { rewrite <- (wrap_small 1 carry Hc). unfold ujoin, low, uhigh. zbits. }
  cbv zeta. f_equal. apply wrap_small, (fits_mono 1), land_1_fits. lia.
Qed.

Lemma di_loop_word sr d r q carry : fits 64 r -> fits 64 q -> fits 1 carry ->
  di_loop sr d r q carry = div_loop 64 sr d r q carry.
Proof.
  revert r q carry. induction sr as [|sr IH]; intros r q carry Hr Hq Hc; [done|].
  cbn [di_loop div_loop]. rewrite di_step_word by done.
  pose proof (div_step_typed 64 d r q carry ltac:(lia) Hq Hc) as H.
  destruct (div_step 64 d r q carry) as [[r' q'] c'], H as (? & ? & ?). by apply IH.
Qed.

(** Entered with the dividend shifted by the number of rounds, the loop
    divides. *)
Lemma di_finish_correct a b sr : fits 64 a -> fits 64 b -> 0 < a -> 0 < b ->
  Z.log2 b <= Z.log2 a -> sr = Z.log2 a - Z.log2 b + 1 ->
  di_finish sr b (Z.shiftr a sr) (wrap 64 (Z.shiftl a (64 - sr))) = (a / b, a mod b).
Proof.
  intros Ha Hb Ha0 Hb0 Hlog Hsr. unfold di_finish.
  assert (Z.log2 a < 64) by (apply Z.log2_lt_pow2; unfold fits in Ha; lia).
  pose proof (Z.log2_nonneg b).
  rewrite di_loop_word; [|apply shiftr_fits; (done || lia)|apply wrap_fits; lia|done].
  pose proof (div_loop_correct 64 a b ltac:(lia) Ha Hb0 sr Hb Ha0 Hlog Hsr ltac:(lia)) as Hloop.
  run_loop Hloop. by rewrite Hq, Hr.
Qed.

(** ** Entering it *)

(** The dividend shifted by [sr], half by half, in the three ranges of [sr]. *)
Lemma enter_small a sr : fits 64 a -> 1 <= sr <= 31 ->
  ujoin 32 (Z.lor (wrap 32 (Z.shiftl (uhigh 32 a) (32 - sr))) (Z.shiftr (low 32 a) sr))
    (Z.shiftr (uhigh 32 a) sr) = Z.shiftr a sr /\
  ujoin 32 0 (wrap 32 (Z.shiftl (low 32 a) (32 - sr))) = wrap 64 (Z.shiftl a (64 - sr)).
Proof.
  intros Ha Hsr. rewrite <- (wrap_small 64 a Ha) at 4. unfold ujoin, low, uhigh. split; zbits.
Qed.

Lemma enter_half a : fits 64 a ->
  ujoin 32 (uhigh 32 a) 0 = Z.shiftr a 32 /\ ujoin 32 0 (low 32 a) = wrap 64 (Z.shiftl a (64 - 32)).
Proof.
  intros Ha. rewrite <- (wrap_small 64 a Ha) at 2. unfold ujoin, low, uhigh. split; zbits.
Qed.

Lemma enter_large a sr : fits 64 a -> 33 <= sr <= 63 ->
  ujoin 32 (Z.shiftr (uhigh 32 a) (sr - 32)) 0 = Z.shiftr a sr /\
  ujoin 32 (wrap 32 (Z.shiftl (low 32 a) (64 - sr)))
    (Z.lor (wrap 32 (Z.shiftl (uhigh 32 a) (64 - sr))) (Z.shiftr (low 32 a) (sr - 32))) =
  wrap 64 (Z.shiftl a (64 - sr)).
Proof.
  intros Ha Hsr. rewrite <- (wrap_small 64 a Ha) at 2. unfold ujoin, low, uhigh. split; zbits.
Qed.

(** The test for a power of two. *)
Lemma pow2_test d : 0 < d -> Z.land d (d - 1) = 0 -> exists k, 0 <= k /\ ctz d = Done k /\ d = 2 ^ k.
Proof.
  intros Hd H. destruct (ctz_spec d Hd) as (k & m & Hc & Hk & E & Hm). exists k.
  split; [done|]. split; [done|].
  assert (m = 0) as ->; [|lia].
  assert (Z.shiftr (Z.land d (d - 1)) (k + 1) = m) as <-; [|by rewrite H, Z.shiftr_0_l].
  rewrite Z.shiftr_land, !Z.shiftr_div_pow2, Z.pow_add_r by lia. change (2 ^ 1) with 2.
  assert (0 < 2 ^ k) by lia.
  replace (d / (2 ^ k * 2)) with m by (apply Z.div_unique with (2 ^ k); lia).
  replace ((d - 1) / (2 ^ k * 2)) with m by (apply Z.div_unique with (2 ^ k - 1); lia).
  apply Z.land_diag.
Qed.

Lemma log2_high h x hi lo : 0 <= h -> x = lo + 2 ^ h * hi -> fits h lo -> 0 < hi ->
  Z.log2 x = h + Z.log2 hi.
Proof.
  intros Hh -> [? ?] Hhi. pose proof (Z.log2_spec hi Hhi) as [H1 H2]. pose proof (Z.log2_nonneg hi).
  assert (0 < 2 ^ h) by lia.
  apply Z.log2_unique; [lia|]. rewrite Z.pow_succ_r in * by lia. rewrite Z.pow_add_r by lia. nia.
Qed.

Lemma halves64 a : fits 64 a ->
  a = low 32 a + 2 ^ 32 * uhigh 32 a /\ 0 <= low 32 a < 2 ^ 32 /\ 0 <= uhigh 32 a < 2 ^ 32.
Proof.
  intros Ha. rewrite uhigh_div by (done || lia). rewrite <- Z.shiftr_div_pow2 by lia.
  split; [apply halves_add; lia|]. split; [apply (low_fits 32); lia|].
  rewrite Z.shiftr_div_pow2, <- uhigh_div by (done || lia). apply (uhigh_fits 32). lia.
Qed.

(** Division of a word whose divisor only has an upper half. *)
Lemma div_upper lo hi d : 0 <= lo < 2 ^ 32 -> 0 < d ->
  (lo + 2 ^ 32 * hi) / (2 ^ 32 * d) = hi / d /\
  (lo + 2 ^ 32 * hi) mod (2 ^ 32 * d) = lo + 2 ^ 32 * (hi mod d).
Proof.
  intros Hlo Hd. pose proof (Z.div_mod hi d ltac:(lia)). pose proof (Z.mod_pos_bound hi d Hd).
  assert (lo + 2 ^ 32 * hi = 2 ^ 32 * d * (hi / d) + (lo + 2 ^ 32 * (hi mod d))) as E by lia.
  split; symmetry; [apply Z.div_unique with (lo + 2 ^ 32 * (hi mod d))
                   |apply Z.mod_unique with (hi / d)]; (lia || left; nia).
Qed.

Lemma ujoin32 lo hi : fits 32 lo -> fits 32 hi -> ujoin 32 lo hi = lo + 2 ^ 32 * hi.
Proof. intros Hlo Hhi. by rewrite ujoin_add, !wrap_small by (done || lia). Qed.

Lemma mask_pow2 x k : 0 <= k -> Z.land x (2 ^ k - 1) = x mod 2 ^ k.
Proof. intros Hk. rewrite <- Z.land_ones by lia. f_equal. rewrite Z.ones_equiv. lia. Qed.

Lemma log2_bound x k : 0 < x < 2 ^ k -> 0 <= Z.log2 x < k.
Proof. intros Hx. pose proof (Z.log2_nonneg x). split; [done|]. apply Z.log2_lt_pow2; lia. Qed.

(** A divisor that is a power of two in one half. *)
Lemma udivmoddi4_pow2_high a b : fits 64 a -> fits 64 b ->
  low 32 b = 0 -> uhigh 32 b <> 0 -> Z.land (uhigh 32 b) (wrap 32 (uhigh 32 b - 1)) = 0 ->
  (c ← ctz (uhigh 32 b); q ← shr 32 (uhigh 32 a) c;
   mret (q, ujoin 32 (low 32 a) (Z.land (uhigh 32 a) (wrap 32 (uhigh 32 b - 1)))))
  = Done (a / b, a mod b).
Proof.
  intros Ha Hb Hdl Hdh Hp.
  destruct (halves64 a Ha) as (Ea & Hnl & Hnh). destruct (halves64 b Hb) as (Eb & _ & Hdh').
  rewrite Hdl in Eb. set (nl := low 32 a) in *. set (nh := uhigh 32 a) in *.
  set (dh := uhigh 32 b) in *. clearbody nl nh dh. assert (wrap 32 (dh - 1) = dh - 1) as Ew by (apply wrap_small; unfold fits; lia).
  rewrite Ew in *.
  destruct (pow2_test dh ltac:(lia) Hp) as (k & Hk & -> & Ek). run_outcome.
  assert (k < 32) by (apply (Z.pow_lt_mono_r_iff 2); lia).
  rewrite shr_done by lia. run_outcome. rewrite Ek, mask_pow2, Z.shiftr_div_pow2 by lia.
  subst a b. rewrite Z.add_0_l, Ek. destruct (div_upper nl nh (2 ^ k) Hnl ltac:(lia)) as [-> ->].
  pose proof (Z.mod_pos_bound nh (2 ^ k) ltac:(lia)).
  by rewrite ujoin32 by (unfold fits; lia).
Qed.

Lemma udivmoddi4_pow2_low a b : fits 64 a -> fits 64 b -> low 32 b <> 0 -> uhigh 32 b = 0 ->
  Z.land (low 32 b) (wrap 32 (low 32 b - 1)) = 0 ->
  (if low 32 b =? 1 then mret (a, Z.land (low 32 a) (wrap 32 (low 32 b - 1)))
   else sr ← ctz (low 32 b); q_high ← shr 32 (uhigh 32 a) sr;
        q_low1 ← shl 32 (uhigh 32 a) (32 - sr); q_low2 ← shr 32 (low 32 a) sr;
        mret (ujoin 32 (Z.lor q_low1 q_low2) q_high,
              Z.land (low 32 a) (wrap 32 (low 32 b - 1))))
  = Done (a / b, a mod b).
Proof.
  intros Ha Hb Hdl Hdh Hp. destruct (halves64 b Hb) as (Eb & Hdl' & _). rewrite Hdh in Eb.
  rewrite Z.mul_0_r, Z.add_0_r in Eb. rewrite <- Eb in *. clear Eb.
  assert (wrap 32 (b - 1) = b - 1) as Ew by (apply wrap_small; unfold fits; lia). rewrite Ew in *.
  destruct (Z.eqb_spec b 1) as [->|Hb1].
  { rewrite Z.div_1_r, Z.mod_1_r. by rewrite Z.land_0_r. }
  destruct (pow2_test b ltac:(lia) Hp) as (k & Hk & -> & Ek). run_outcome.
  assert (k < 32) by (apply (Z.pow_lt_mono_r_iff 2); lia).
  assert (k <> 0) by (intros ->; done).
  rewrite !shr_done, shl_done by lia. run_outcome. rewrite Ek, mask_pow2 by lia.
  destruct (enter_small a k Ha ltac:(lia)) as [-> _].
  rewrite Z.shiftr_div_pow2 by lia. f_equal. f_equal.
  apply (wrap_wrap_le k 32). lia.
Qed.

(** The loop entered with at most 31, with 32 and with more rounds. *)
Lemma enter_loop a b sr : fits 64 a -> fits 64 b -> 0 < a -> 0 < b ->
  Z.log2 b <= Z.log2 a -> sr = Z.log2 a - Z.log2 b + 1 -> 1 <= sr <= 31 ->
  (q_high ← shl 32 (low 32 a) (32 - sr); r_high ← shr 32 (uhigh 32 a) sr;
   r_low1 ← shl 32 (uhigh 32 a) (32 - sr); r_low2 ← shr 32 (low 32 a) sr;
   mret (di_finish sr b (ujoin 32 (Z.lor r_low1 r_low2) r_high) (ujoin 32 0 q_high)))
  = Done (a / b, a mod b).
Proof.
  intros. rewrite !shr_done, !shl_done by lia. run_outcome.
  destruct (enter_small a sr ltac:(done) ltac:(lia)) as [-> ->].
  by rewrite di_finish_correct.
Qed.

Lemma enter_loop_half a b : fits 64 a -> fits 64 b -> 0 < a -> 0 < b ->
  Z.log2 b <= Z.log2 a -> 32 = Z.log2 a - Z.log2 b + 1 ->
  di_finish 32 b (ujoin 32 (uhigh 32 a) 0) (ujoin 32 0 (low 32 a)) = (a / b, a mod b).
Proof.
  intros Ha ? ? ? ? ?. destruct (enter_half a Ha) as [-> ->]. by apply di_finish_correct.
Qed.

Lemma enter_loop_large a b sr : fits 64 a -> fits 64 b -> 0 < a -> 0 < b ->
  Z.log2 b <= Z.log2 a -> sr = Z.log2 a - Z.log2 b + 1 -> 33 <= sr <= 63 ->
  (q_low ← shl 32 (low 32 a) (64 - sr); q_high1 ← shl 32 (uhigh 32 a) (64 - sr);
   q_high2 ← shr 32 (low 32 a) (sr - 32); r_low ← shr 32 (uhigh 32 a) (sr - 32);
   mret (di_finish sr b (ujoin 32 r_low 0) (ujoin 32 q_low (Z.lor q_high1 q_high2))))
  = Done (a / b, a mod b).
Proof.
  intros. rewrite !shr_done, !shl_done by lia. run_outcome.
  destruct (enter_large a sr ltac:(done) ltac:(lia)) as [-> ->].
  by rewrite di_finish_correct.
Qed.

(** A divisor of one half: the rounds exceed those of its half by 32. *)
Lemma udivmoddi4_low a b : fits 64 a -> fits 64 b -> uhigh 32 a <> 0 ->
  low 32 b <> 0 -> uhigh 32 b = 0 ->
  Z.land (low 32 b) (wrap 32 (low 32 b - 1)) <> 0 ->
  exists cd cn, clz 32 (low 32 b) = Done cd /\ clz 32 (uhigh 32 a) = Done cn /\
    let sr := wrap 32 (1 + 32 + cd - cn) in
    Z.log2 b <= Z.log2 a /\ sr = Z.log2 a - Z.log2 b + 1 /\ 2 <= sr <= 63.
Proof.
  intros Ha Hb Hnh Hdl Hdh Hp. destruct (halves64 a Ha) as (Ea & Hnl & Hnh').
  destruct (halves64 b Hb) as (Eb & Hdl' & _). rewrite Hdh, Z.mul_0_r, Z.add_0_r in Eb.
  rewrite <- Eb in *. rewrite !clz_done by done. eexists _, _.
  split; [reflexivity|]. split; [reflexivity|]. cbv zeta.
  rewrite (log2_high 32 a (uhigh 32 a) (low 32 a)) by (done || lia).
  pose proof (log2_bound (uhigh 32 a) 32 ltac:(lia)). pose proof (log2_bound b 32 ltac:(lia)).
  assert (1 <= Z.log2 b).
  { assert (b <> 1) by (intros ->; by apply Hp). apply Z.log2_le_pow2; simpl; lia. }
  rewrite wrap_small by (unfold fits; lia). lia.
Qed.

(** A divisor with an upper half: the rounds are those of the upper halves. *)
Lemma udivmoddi4_high a b : fits 64 a -> fits 64 b -> uhigh 32 a <> 0 -> uhigh 32 b <> 0 ->
  exists cd cn, clz 32 (uhigh 32 b) = Done cd /\ clz 32 (uhigh 32 a) = Done cn /\
    let sr := wrap 32 (cd - cn) in
    (31 < sr /\ a < b \/
     sr <= 31 /\ Z.log2 b <= Z.log2 a /\ sr = Z.log2 a - Z.log2 b /\
     (sr = 31 -> uhigh 32 b = 1)).
Proof.
  intros Ha Hb Hnh Hdh. destruct (halves64 a Ha) as (Ea & Hnl & Hnh').
  destruct (halves64 b Hb) as (Eb & Hdl & Hdh'). rewrite !clz_done by done. eexists _, _.
  split; [reflexivity|]. split; [reflexivity|]. cbv zeta.
  rewrite (log2_high 32 a (uhigh 32 a) (low 32 a)) by (done || lia).
  rewrite (log2_high 32 b (uhigh 32 b) (low 32 b)) by (done || lia).
  pose proof (log2_bound (uhigh 32 a) 32 ltac:(lia)). pose proof (log2_bound (uhigh 32 b) 32 ltac:(lia)).
  destruct (Z.le_gt_cases (Z.log2 (uhigh 32 b)) (Z.log2 (uhigh 32 a))) as [Hle|Hgt].
  - right. rewrite wrap_small by (unfold fits; lia). repeat split; try lia. intros E.
    pose proof (Z.log2_spec (uhigh 32 b) ltac:(lia)) as [_ Hu].
    replace (Z.log2 (uhigh 32 b)) with 0 in Hu by lia. simpl in Hu. lia.
  - left. assert (uhigh 32 a < uhigh 32 b) by (apply Z.log2_lt_cancel; lia).
    split; [|nia]. word_norm. Z.div_mod_to_equations. lia.
Qed.

(** The branches of the source, one lemma each. *)
Lemma udivmoddi4_upper_only a b : fits 64 a -> fits 64 b -> low 32 a = 0 -> low 32 b = 0 ->
  uhigh 32 b <> 0 ->
  (r_high ← umod (uhigh 32 a) (uhigh 32 b); q ← udiv (uhigh 32 a) (uhigh 32 b);
   mret (q, ujoin 32 0 r_high)) = Done (a / b, a mod b).
Proof.
  intros Ha Hb Enl Edl Edh. rewrite umod_done, udiv_done by done. run_outcome.
  destruct (halves64 a Ha) as (Ea & _ & Hnh). destruct (halves64 b Hb) as (Eb & _ & Hdh).
  pose proof (Z.mod_pos_bound (uhigh 32 a) (uhigh 32 b) ltac:(lia)).
  rewrite ujoin32 by (unfold fits; lia).
  destruct (div_upper 0 (uhigh 32 a) (uhigh 32 b) ltac:(lia) ltac:(lia)) as [E1 E2].
  replace (0 + 2 ^ 32 * uhigh 32 a) with a in E1, E2 by lia.
  replace (2 ^ 32 * uhigh 32 b) with b in E1, E2 by lia. by rewrite E1, E2.
Qed.

Lemma udivmoddi4_loop_upper a b : fits 64 a -> fits 64 b -> 0 < a -> 0 < b ->
  uhigh 32 a <> 0 -> uhigh 32 b <> 0 ->
  Z.land (uhigh 32 b) (wrap 32 (uhigh 32 b - 1)) <> 0 ->
  (cd ← clz 32 (uhigh 32 b); cn ← clz 32 (uhigh 32 a);
   let sr := wrap 32 (cd - cn) in
   if 30 <? sr then mret (0, a)
   else
     let sr := sr + 1 in
     q_high ← shl 32 (low 32 a) (32 - sr); r_high ← shr 32 (uhigh 32 a) sr;
     r_low1 ← shl 32 (uhigh 32 a) (32 - sr); r_low2 ← shr 32 (low 32 a) sr;
     mret (di_finish sr b (ujoin 32 (Z.lor r_low1 r_low2) r_high) (ujoin 32 0 q_high)))
  = Done (a / b, a mod b).
Proof.
  intros Ha Hb Ha0 Hb0 Enh Edh Ep.
  destruct (udivmoddi4_high a b) as (cd & cn & -> & -> & Hsr); try done. run_outcome. cbv zeta in *.
  assert (uhigh 32 b <> 1) by (intros E; by rewrite E in Ep).
  destruct Hsr as [[Hsr Hlt]|(Hsr & Hlog & Esr & E31)].
  - destruct (Z.ltb_spec 30 (wrap 32 (cd - cn))); [|lia]. by rewrite Z.div_small, Z.mod_small by lia.
  - destruct (Z.ltb_spec 30 (wrap 32 (cd - cn))); [lia|]. apply enter_loop; (done || lia).
Qed.

Lemma udivmoddi4_loop_low a b : fits 64 a -> fits 64 b -> 0 < a -> 0 < b ->
  uhigh 32 a <> 0 -> low 32 b <> 0 -> uhigh 32 b = 0 ->
  Z.land (low 32 b) (wrap 32 (low 32 b - 1)) <> 0 ->
  (cd ← clz 32 (low 32 b); cn ← clz 32 (uhigh 32 a);
   let sr := wrap 32 (1 + 32 + cd - cn) in
   if sr =? 32 then
     mret (di_finish sr b (ujoin 32 (uhigh 32 a) 0) (ujoin 32 0 (low 32 a)))
   else if sr <? 32 then
     q_high ← shl 32 (low 32 a) (32 - sr); r_high ← shr 32 (uhigh 32 a) sr;
     r_low1 ← shl 32 (uhigh 32 a) (32 - sr); r_low2 ← shr 32 (low 32 a) sr;
     mret (di_finish sr b (ujoin 32 (Z.lor r_low1 r_low2) r_high) (ujoin 32 0 q_high))
   else
     q_low ← shl 32 (low 32 a) (64 - sr); q_high1 ← shl 32 (uhigh 32 a) (64 - sr);
     q_high2 ← shr 32 (low 32 a) (sr - 32); r_low ← shr 32 (uhigh 32 a) (sr - 32);
     mret (di_finish sr b (ujoin 32 r_low 0) (ujoin 32 q_low (Z.lor q_high1 q_high2))))
  = Done (a / b, a mod b).
Proof.
  intros Ha Hb Ha0 Hb0 Enh Edl Edh Ep.
  destruct (udivmoddi4_low a b) as (cd & cn & -> & -> & Hlog & Esr & Hsr); try done.
  run_outcome. cbv zeta in *. set (sr := wrap 32 (1 + 32 + cd - cn)) in *. clearbody sr.
  destruct (Z.eqb_spec sr 32) as [->|]; [by rewrite enter_loop_half|].
  destruct (Z.ltb_spec sr 32); [apply enter_loop|apply enter_loop_large]; (done || lia).
Qed.

Lemma udivmoddi4_loop_full a b : fits 64 a -> fits 64 b -> 0 < a -> 0 < b ->
  uhigh 32 a <> 0 -> uhigh 32 b <> 0 ->
  (cd ← clz 32 (uhigh 32 b); cn ← clz 32 (uhigh 32 a);
   let sr := wrap 32 (cd - cn) in
   if 31 <? sr then mret (0, a)
   else
     let sr := sr + 1 in
     if sr =? 32 then
       mret (di_finish sr b (ujoin 32 (uhigh 32 a) 0) (ujoin 32 0 (low 32 a)))
     else
       q_high ← shl 32 (low 32 a) (32 - sr); r_high ← shr 32 (uhigh 32 a) sr;
       r_low1 ← shl 32 (uhigh 32 a) (32 - sr); r_low2 ← shr 32 (low 32 a) sr;
       mret (di_finish sr b (ujoin 32 (Z.lor r_low1 r_low2) r_high) (ujoin 32 0 q_high)))
  = Done (a / b, a mod b).
Proof.
  intros Ha Hb Ha0 Hb0 Enh Edh.
  destruct (udivmoddi4_high a b) as (cd & cn & -> & -> & Hsr); try done. run_outcome. cbv zeta in *.
  destruct Hsr as [[Hsr Hlt]|(Hsr & Hlog & Esr & _)].
  - destruct (Z.ltb_spec 31 (wrap 32 (cd - cn))); [|lia]. by rewrite Z.div_small, Z.mod_small by lia.
  - destruct (Z.ltb_spec 31 (wrap 32 (cd - cn))); [lia|].
    destruct (Z.eqb_spec (wrap 32 (cd - cn) + 1) 32) as [E|].
    + rewrite E. by rewrite enter_loop_half by (done || lia).
    + apply enter_loop; (done || lia).
Qed.

Lemma udivmoddi4_correct a b : fits 64 a -> fits 64 b -> 0 < b ->
  __udivmoddi4 a b = Done (a / b, a mod b).
Proof.
  intros Ha Hb Hb0. unfold __udivmoddi4.
  destruct (halves64 a Ha) as (Ea & Hnl & Hnh). destruct (halves64 b Hb) as (Eb & Hdl & Hdh).
  destruct (Z.eqb_spec (uhigh 32 a) 0) as [Enh|Enh].
  { rewrite Enh, Z.mul_0_r, Z.add_0_r in Ea. rewrite <- Ea in *.
    destruct (Z.eqb_spec (uhigh 32 b) 0) as [Edh|Edh].
    - rewrite Edh, Z.mul_0_r, Z.add_0_r in Eb. rewrite <- Eb.
      by rewrite umod_done, udiv_done by lia.
    - by rewrite Z.div_small, Z.mod_small by lia. }
  assert (0 < a) by lia.
  destruct (Z.eqb_spec (low 32 b) 0) as [Edl|Edl].
  - destruct (Z.eqb_spec (uhigh 32 b) 0) as [Edh|Edh]; [lia|].
    destruct (Z.eqb_spec (low 32 a) 0) as [Enl|Enl]; [by apply udivmoddi4_upper_only|].
    ztest; [by apply udivmoddi4_pow2_high|by apply udivmoddi4_loop_upper].
  - destruct (Z.eqb_spec (uhigh 32 b) 0) as [Edh|Edh]; [|by apply udivmoddi4_loop_full].
    ztest; [by apply udivmoddi4_pow2_low|by apply udivmoddi4_loop_low].
Qed.
