(* ===== verification/CcDivTi.v ===== *)
(** 128-bit division of the compiler run-time
    ([src/cc-runtime/src/cc-runtime.c]): the portable 128-by-64 division,
    which is Knuth's Algorithm D on two digits of 32 bits, the [divq]
    instruction used instead on x86_64, and [__udivmodti4] on top. *)

From stdpp Require Import base numbers list.
From Stdlib Require Import ZArith Lia.
From S2P Require Import Prelude CcInt CcArith CcDiv CcDivWide.

(** * The 128-by-64 division *)

(** The loop that corrects a quotient digit.  Every round adds [vn1], at least
    2^31, to [rhat] and the loop is left at 2^32, so two rounds are enough. *)
Fixpoint correct_digit (fuel : nat) (vn1 vn0 un q rhat : Z) : outcome Z :=
  match fuel with
  | O => Undefined
  | S fuel' =>
    if (2 ^ 32 <=? q) || (wrap 64 (wrap 64 (2 ^ 32 * rhat) + un) <? wrap 64 (q * vn0)) then
      let q := wrap 64 (q - 1) in
      let rhat := wrap 64 (rhat + vn1) in
      if 2 ^ 32 <=? rhat then mret q else correct_digit fuel' vn1 vn0 un q rhat
    else mret q
  end.

Definition udiv128by64to64default (u1 u0 v : Z) : outcome (Z * Z) :=
  let b := 2 ^ 32 in
  s ← clz 64 v;
  '(v, un64, un10) ←
    (if 0 <? s then
       v ← shl 64 v s;
       un64_1 ← shl 64 u1 s;
       un64_2 ← shr 64 u0 (64 - s);
       un10 ← shl 64 u0 s;
       mret (v, Z.lor un64_1 un64_2, un10)
     else mret (v, u1, u0));
  let vn1 := Z.shiftr v 32 in
  let vn0 := Z.land v 0xFFFFFFFF in
  let un1 := Z.shiftr un10 32 in
  let un0 := Z.land un10 0xFFFFFFFF in
  q1 ← udiv un64 vn1;
  q1 ← correct_digit 2 vn1 vn0 un1 q1 (wrap 64 (un64 - q1 * vn1));
  let un21 := wrap 64 (un64 * b + un1 - q1 * v) in
  q0 ← udiv un21 vn1;
  q0 ← correct_digit 2 vn1 vn0 un0 q0 (wrap 64 (un21 - q0 * vn1));
  r ← shr 64 (wrap 64 (un21 * b + un0 - q0 * v)) s;
  mret (wrap 64 (q1 * b + q0), r).

(** The instruction: it faults when the quotient does not fit. *)
Definition divq (u1 u0 v : Z) : outcome (Z * Z) :=
  let n := u1 * 2 ^ 64 + u0 in
  if v =? 0 then Undefined
  else if 2 ^ 64 <=? n / v then Undefined
  else Done (n / v, n mod v).

Definition udiv128by64to64 (x86_64 : bool) (u1 u0 v : Z) : outcome (Z * Z) :=
  if x86_64 then divq u1 u0 v else udiv128by64to64default u1 u0 v.

(** * [__udivmodti4] *)

Fixpoint ti_loop (n : nat) (dividend divisor q : Z) : Z * Z :=
  match n with
  | O => (q, dividend)
  | S n' =>
    let q := wrap 64 (Z.shiftl q 1) in
    let s := Z.shiftr (ti (wrap 128 (divisor - dividend - 1))) 127 in
    let q := Z.lor q (Z.land s 1) in
    let dividend := wrap 128 (dividend - Z.land divisor (wrap 128 s)) in
    let divisor := Z.shiftr divisor 1 in
    ti_loop n' dividend divisor q
  end.

(** The quotient and what is stored through [rem]. *)
Definition __udivmodti4 (x86_64 : bool) (a b : Z) : outcome (Z * Z) :=
  if a <? b then mret (0, a)
  else if uhigh 64 b =? 0 then
    if uhigh 64 a <? low 64 b then
      '(q, r) ← udiv128by64to64 x86_64 (uhigh 64 a) (low 64 a) (low 64 b);
      mret (ujoin 64 q 0, ujoin 64 r 0)
    else
      q_high ← udiv (uhigh 64 a) (low 64 b);
      a_high ← umod (uhigh 64 a) (low 64 b);
      '(q, r) ← udiv128by64to64 x86_64 a_high (low 64 a) (low 64 b);
      mret (ujoin 64 q q_high, ujoin 64 r 0)
  else
    cd ← clz 64 (uhigh 64 b);
    cn ← clz 64 (uhigh 64 a);
    let shift := cd - cn in
    divisor ← shl 128 b shift;
    let '(q, r) := ti_loop (Z.to_nat (shift + 1)) a divisor 0 in
    mret (ujoin 64 q 0, r).

Definition __udivti3 (x86_64 : bool) (a b : Z) : outcome Z := fst <$> __udivmodti4 x86_64 a b.
Definition __umodti3 (x86_64 : bool) (a b : Z) : outcome Z := snd <$> __udivmodti4 x86_64 a b.

(** ** One quotient digit *)

Section digit.
Context (vn1 vn0 u un : Z).
Context (Hv1 : 2 ^ 31 <= vn1 < 2 ^ 32) (Hv0 : 0 <= vn0 < 2 ^ 32) (Hun : 0 <= un < 2 ^ 32).
Let V := vn1 * 2 ^ 32 + vn0.
Let U := u * 2 ^ 32 + un.
Context (Hu : 0 <= u < V).

(** While [q] is no smaller than the digit and [rhat] what it leaves of [u],
    the loop ends with the digit. *)
Lemma correct_digit_spec fuel q rhat : 0 <= q <= 2 ^ 32 + 1 -> 0 <= rhat < 2 ^ 32 ->
  q * vn1 + rhat = u -> U < (q + 1) * V -> 2 ^ 32 <= rhat + Z.of_nat fuel * vn1 ->
  correct_digit fuel vn1 vn0 un q rhat = Done (U / V).
Proof using Hv1 Hv0 Hun Hu.
  revert q rhat. induction fuel as [|fuel IH]; intros q rhat Hq Hr Hqr HU Hfuel; [lia|].
  cbn [correct_digit]. rewrite (wrap_small 64 (2 ^ 32 * rhat)) by (unfold fits; lia).
  rewrite (wrap_small 64 (_ + un)) by (unfold fits; lia).
  assert (((2 ^ 32 <=? q) || (2 ^ 32 * rhat + un <? wrap 64 (q * vn0))) = (U <? q * V)) as ->.
  { destruct (Z.leb_spec (2 ^ 32) q); cbn [orb].
    - symmetry. apply Z.ltb_lt. unfold U, V in *. nia.
    - rewrite wrap_small by (unfold fits; nia).
      assert (q * V = (u - rhat) * 2 ^ 32 + q * vn0) by (unfold V; rewrite <- Hqr; ring).
      unfold U. repeat ztest; (done || lia). }
  destruct (Z.ltb_spec U (q * V)) as [Hlt|Hge].
  - assert (1 <= q) by (unfold U, V in *; nia).
    rewrite (wrap_small 64 (q - 1)), (wrap_small 64 (rhat + vn1)) by (unfold fits; lia).
    destruct (Z.leb_spec (2 ^ 32) (rhat + vn1)) as [Hb|Hb].
    + f_equal. apply Z.div_unique with (U - V * (q - 1)); [left|lia].
      assert (q - 1 < 2 ^ 32) by (unfold V in *; nia).
      assert ((q - 1) * V = (u - (rhat + vn1)) * 2 ^ 32 + (q - 1) * vn0) by (unfold V; rewrite <- Hqr; ring).
      unfold U in *. nia.
    + apply IH; lia.
  - f_equal. apply Z.div_unique with (U - V * q); lia.
Qed.

(** The digit from the first guess. *)
Lemma digit_correct : exists q, udiv u vn1 = Done q /\
  correct_digit 2 vn1 vn0 un q (wrap 64 (u - q * vn1)) = Done (U / V) /\
  0 <= U / V < 2 ^ 32.
Proof using Hv1 Hv0 Hun Hu.
  exists (u / vn1). split; [apply udiv_done; lia|].
  pose proof (Z.div_mod u vn1 ltac:(lia)) as E. pose proof (Z.mod_pos_bound u vn1 ltac:(lia)).
  assert (0 <= u / vn1) by (apply Z.div_pos; lia).
  replace (u - u / vn1 * vn1) with (u mod vn1) by lia.
  rewrite wrap_small by (unfold fits; lia). split.
  - apply correct_digit_spec; try lia; unfold U, V in *; nia.
  - split; [apply Z.div_pos|apply Z.div_lt_upper_bound]; unfold U, V in *; nia.
Qed.
End digit.

(** ** Both digits *)

(** The number [n] and the divisor [v], both shifted by [s], have the same
    quotient. *)
Lemma shifted_division n v s : 0 <= s -> 0 < v ->
  (n * 2 ^ s) / (v * 2 ^ s) = n / v /\ (n * 2 ^ s) mod (v * 2 ^ s) = (n mod v) * 2 ^ s.
Proof.
  intros Hs Hv. split; [apply Z.div_mul_cancel_r; lia|]. apply Z.mul_mod_distr_r; lia.
Qed.

(** Two digits make the quotient. *)
Lemma two_digits B u un1 un0 V : 0 < B -> 0 < V -> 0 <= un0 < B ->
  let U1 := u * B + un1 in
  let U0 := (U1 mod V) * B + un0 in
  (U1 * B + un0) / V = U1 / V * B + U0 / V /\ (U1 * B + un0) mod V = U0 mod V.
Proof.
  intros HB HV Hun0. cbv zeta. set (U1 := u * B + un1). set (U0 := (U1 mod V) * B + un0).
  pose proof (Z.div_mod U1 V ltac:(lia)). pose proof (Z.div_mod U0 V ltac:(lia)).
  pose proof (Z.mod_pos_bound U0 V HV).
  assert (U1 * B + un0 = V * (U1 / V * B + U0 / V) + U0 mod V) by (unfold U0 in *; nia).
  split; symmetry; [apply Z.div_unique with (U0 mod V)|apply Z.mod_unique with (U1 / V * B + U0 / V)];
    lia.
Qed.

Lemma normalise u1 u0 v : fits 64 u1 -> fits 64 u0 -> fits 64 v -> u1 < v ->
  exists s V un64 un10, clz 64 v = Done s /\
    (if 0 <? s then
       v ← shl 64 v s; un64_1 ← shl 64 u1 s; un64_2 ← shr 64 u0 (64 - s); un10 ← shl 64 u0 s;
       mret (v, Z.lor un64_1 un64_2, un10)
     else mret (v, u1, u0)) = Done (V, un64, un10) /\
    0 <= s < 64 /\ 0 < v /\ V = v * 2 ^ s /\ 2 ^ 63 <= V < 2 ^ 64 /\ 0 <= un64 < V /\
    fits 64 un10 /\ un64 * 2 ^ 64 + un10 = (u1 * 2 ^ 64 + u0) * 2 ^ s.
Proof.
  intros [? Hu1] Hu0 [_ Hv] Hlt. assert (0 < v) as Hv0 by lia.
  pose proof (log2_bound v 64 ltac:(lia)). pose proof (Z.log2_spec v Hv0) as [Hl1 Hl2].
  set (s := 63 - Z.log2 v).
  assert (2 ^ 63 <= v * 2 ^ s < 2 ^ 64) as HV.
  { assert (2 ^ 63 = 2 ^ Z.log2 v * 2 ^ s) as -> by (rewrite <- Z.pow_add_r by lia; f_equal; lia).
    assert (2 ^ 64 = 2 ^ Z.succ (Z.log2 v) * 2 ^ s) as -> by (rewrite <- Z.pow_add_r by lia; f_equal; lia).
    assert (0 < 2 ^ s) by lia. nia. }
  assert (0 < 2 ^ s) by lia.
  assert (2 ^ 64 = 2 ^ s * 2 ^ (64 - s)) as E64 by (rewrite <- Z.pow_add_r by lia; f_equal; lia).
  exists s, (v * 2 ^ s), (u1 * 2 ^ s + u0 / 2 ^ (64 - s)), ((u0 * 2 ^ s) mod 2 ^ 64).
  pose proof (Z.div_mod u0 (2 ^ (64 - s)) ltac:(lia)) as E0.
  pose proof (Z.mod_pos_bound u0 (2 ^ (64 - s)) ltac:(lia)).
  assert (0 <= u0 / 2 ^ (64 - s) < 2 ^ s) as Hq.
  { split; [apply Z.div_pos|apply Z.div_lt_upper_bound]; unfold fits in Hu0; lia. }
  assert ((u0 * 2 ^ s) mod 2 ^ 64 = (u0 mod 2 ^ (64 - s)) * 2 ^ s) as Em.
  { rewrite E64, (Z.mul_comm (2 ^ s)). apply Zmult_mod_distr_r. }
  assert (0 <= u1 * 2 ^ s < 2 ^ 64) as Hu1s.
  { split; [lia|]. apply Z.le_lt_trans with (v * 2 ^ s); [apply Z.mul_le_mono_nonneg_r|]; lia. }
  split; [rewrite clz_done by lia; f_equal; lia|]. split.
  - destruct (Z.ltb_spec 0 s) as [Hs|Hs].
    + rewrite !shl_done, shr_done by lia. run_outcome. f_equal. f_equal; [f_equal|].
      * rewrite Z.shiftl_mul_pow2 by lia. apply wrap_small. unfold fits; lia.
      * rewrite Z.shiftl_mul_pow2, (wrap_small 64 (u1 * 2 ^ s)), Z.shiftr_div_pow2 by (lia || exact Hu1s).
        rewrite <- (Z.shiftl_mul_pow2 u1), Z.lor_comm, lor_add_shift by (lia || done).
        rewrite Z.shiftl_mul_pow2 by lia. lia.
      * by rewrite Z.shiftl_mul_pow2 by lia.
    + assert (s = 0) as E by lia. rewrite E in *. change (2 ^ 0) with 1. change (64 - 0) with 64.
      rewrite !Z.mul_1_r. unfold fits in Hu0. by rewrite Z.div_small, Z.mod_small, Z.add_0_r by lia.
  - split; [lia|]. split; [done|]. split; [done|]. split; [done|]. split; [nia|].
    split; [apply Z.mod_pos_bound; lia|]. rewrite Em. nia.
Qed.

Lemma udiv128by64to64default_correct u1 u0 v : fits 64 u1 -> fits 64 u0 -> fits 64 v -> u1 < v ->
  let n := u1 * 2 ^ 64 + u0 in
  udiv128by64to64default u1 u0 v = Done (n / v, n mod v).
Proof.
  intros Hu1 Hu0 Hv Hlt. cbv zeta. unfold udiv128by64to64default.
  destruct (normalise u1 u0 v Hu1 Hu0 Hv Hlt) as
    (s & V & un64 & un10 & -> & Hnorm & Hs & Hv0 & EV & HV & Hun64 & Hun10 & En).
  run_outcome. rewrite Hnorm. clear Hnorm. run_outcome. cbv zeta.
  rewrite !land_u32_max. rewrite !Z.shiftr_div_pow2 by lia. change (wrap 32) with (fun z => z mod 2 ^ 32).
  cbv beta. unfold fits in *.
  pose proof (Z.div_mod V (2 ^ 32) ltac:(lia)) as HVd. pose proof (Z.mod_pos_bound V (2 ^ 32) ltac:(lia)).
  pose proof (Z.div_mod un10 (2 ^ 32) ltac:(lia)) as Hud.
  pose proof (Z.mod_pos_bound un10 (2 ^ 32) ltac:(lia)).
  set (vn1 := V / 2 ^ 32) in *. set (vn0 := V mod 2 ^ 32) in *.
  set (un1 := un10 / 2 ^ 32) in *. set (un0 := un10 mod 2 ^ 32) in *.
  assert (vn1 * 2 ^ 32 + vn0 = V) as HVe by lia.
  destruct (two_digits (2 ^ 32) un64 un1 un0 V) as [Eq Er]; try lia.
  destruct (digit_correct vn1 vn0 un64 un1) as (g1 & -> & Hq1 & Hb1); try lia.
  run_outcome. rewrite Hq1. clear Hq1. run_outcome. rewrite HVe in *.
  set (U1 := un64 * 2 ^ 32 + un1) in *.
  assert (wrap 64 (U1 - U1 / V * V) = U1 mod V) as ->.
  { pose proof (Z.div_mod U1 V ltac:(lia)). pose proof (Z.mod_pos_bound U1 V ltac:(lia)).
    replace (U1 - U1 / V * V) with (U1 mod V) by lia. apply wrap_small. unfold fits. lia. }
  pose proof (Z.mod_pos_bound U1 V ltac:(lia)) as Hm1.
  destruct (digit_correct vn1 vn0 (U1 mod V) un0) as (g0 & -> & Hq0 & Hb0); try lia.
  run_outcome. rewrite Hq0. clear Hq0. run_outcome. rewrite HVe in *.
  set (U0 := U1 mod V * 2 ^ 32 + un0) in *.
  assert (wrap 64 (U0 - U0 / V * V) = U0 mod V) as ->.
  { pose proof (Z.div_mod U0 V ltac:(lia)). pose proof (Z.mod_pos_bound U0 V ltac:(lia)).
    replace (U0 - U0 / V * V) with (U0 mod V) by lia. apply wrap_small. unfold fits. lia. }
  rewrite shr_done by lia. run_outcome. rewrite wrap_small by (unfold fits; lia).
  rewrite <- Eq, <- Er, Z.shiftr_div_pow2 by lia.
  assert (U1 * 2 ^ 32 + un0 = (u1 * 2 ^ 64 + u0) * 2 ^ s) as -> by (unfold U1; lia).
  rewrite EV. destruct (shifted_division (u1 * 2 ^ 64 + u0) v s) as [-> ->]; try lia.
  by rewrite Z.div_mul by lia.
Qed.

Lemma udiv128by64to64_correct x86_64 u1 u0 v :
  fits 64 u1 -> fits 64 u0 -> fits 64 v -> u1 < v ->
  let n := u1 * 2 ^ 64 + u0 in
  udiv128by64to64 x86_64 u1 u0 v = Done (n / v, n mod v) /\ fits 64 (n / v) /\ fits 64 (n mod v).
Proof.
  intros Hu1 Hu0 Hv Hlt n. unfold fits in *. assert (0 <= n / v < 2 ^ 64) as Hq.
  { split; [apply Z.div_pos|apply Z.div_lt_upper_bound]; unfold n; lia. }
  pose proof (Z.mod_pos_bound n v ltac:(lia)). split; [|lia].
  destruct x86_64; [|by apply udiv128by64to64default_correct].
  unfold udiv128by64to64, divq. fold n. ztests. done.
Qed.

(** ** The long loop *)

(** With [k] rounds to go, the divisor is shifted by [k - 1].  Only in the first
    round can it reach the top bit, and then the dividend has it too. *)
Lemma ti_loop_correct k a b R Q : 0 < b -> 0 <= Q < 2 ^ (64 - Z.of_nat k) -> Z.of_nat k <= 64 ->
  a = Q * 2 ^ Z.of_nat k * b + R -> 0 <= R < b * 2 ^ Z.of_nat k ->
  b * 2 ^ Z.of_nat k <= 2 ^ 128 \/
    (2 ^ 128 <= b * 2 ^ Z.of_nat k < 2 ^ 129 /\ 2 ^ 127 <= R < 2 ^ 128) ->
  ti_loop k R (Z.shiftr (b * 2 ^ Z.of_nat k) 1) Q = (a / b, a mod b).
Proof.
  revert R Q. induction k as [|k IH]; intros R Q Hb HQ Hk Ha HR Hfit.
  - cbn [ti_loop]. rewrite Z.pow_0_r, Z.mul_1_r in *.
    f_equal; [apply Z.div_unique with R|apply Z.mod_unique with Q]; lia.
  - cbn [ti_loop]. rewrite Nat2Z.inj_succ, Z.pow_succ_r in * by lia.
    set (P := 2 ^ Z.of_nat k) in *. assert (0 < P) by lia.
    assert (Z.shiftr (b * (2 * P)) 1 = b * P) as ->.
    { rewrite Z.shiftr_div_pow2 by lia. change (2 ^ 1) with 2.
      replace (b * (2 * P)) with (b * P * 2) by ring. apply Z.div_mul. lia. }
    assert (2 ^ (64 - Z.of_nat k) = 2 * 2 ^ (64 - Z.succ (Z.of_nat k))) as E64.
    { rewrite <- Z.pow_succ_r by lia. f_equal; lia. }
    assert (2 ^ (64 - Z.of_nat k) <= 2 ^ 64) by (apply Z.pow_le_mono_r; lia).
    rewrite Z.shiftl_mul_pow2, (wrap_small 64), (Z.mul_comm Q) by (unfold fits; lia).
    change (2 ^ 1) with 2. change 127 with (128 - 1) at 1 2.
    assert (b * P <= 2 ^ 128 /\ b * P < 2 ^ 128 /\ R < 2 ^ 128 /\
      - 2 ^ 127 <= b * P - R - 1 < 2 ^ 127) as (Hb1 & Hb2 & HR2 & Hcmp) by lia.
    rewrite !(sign_test 128) by (lia || exact Hcmp).
    destruct (Z.ltb_spec (b * P - R - 1) 0).
    + rewrite (land_all_ones 128) by (unfold fits; lia). rewrite wrap_small by (unfold fits; lia).
      change (Z.land (-1) 1) with 1. rewrite lor_even by lia. apply IH; lia.
    + change (wrap 128 0) with 0. rewrite Z.land_0_r, Z.sub_0_r, wrap_small by (unfold fits; lia).
      change (Z.land 0 1) with 0. rewrite Z.lor_0_r. apply IH; lia.
Qed.

Lemma halves128 a : fits 128 a ->
  a = low 64 a + 2 ^ 64 * uhigh 64 a /\ fits 64 (low 64 a) /\ fits 64 (uhigh 64 a) /\
  uhigh 64 a = a / 2 ^ 64.
Proof.
  intros Ha. rewrite uhigh_div by (done || lia). split; [|split; [by apply low_fits|]].
  - rewrite <- Z.shiftr_div_pow2 by lia. apply halves_add. lia.
  - rewrite <- uhigh_div by (done || lia). split; [by apply uhigh_fits|done].
Qed.

Lemma ujoin64 lo hi : fits 64 lo -> fits 64 hi -> ujoin 64 lo hi = lo + 2 ^ 64 * hi.
Proof. intros Hlo Hhi. by rewrite ujoin_add, !wrap_small by (done || lia). Qed.

(** The divisor has an upper half: the loop. *)
Lemma udivmodti4_loop a b : fits 128 a -> fits 128 b -> b <= a -> uhigh 64 b <> 0 ->
  (cd ← clz 64 (uhigh 64 b); cn ← clz 64 (uhigh 64 a);
   let shift := cd - cn in
   divisor ← shl 128 b shift;
   let '(q, r) := ti_loop (Z.to_nat (shift + 1)) a divisor 0 in
   mret (ujoin 64 q 0, r)) = Done (a / b, a mod b).
Proof.
  intros Ha Hb Hle Hbh. destruct (halves128 a Ha) as (Ea & Hal & Hah & _).
  destruct (halves128 b Hb) as (Eb & Hbl & Hbh' & _). unfold fits in *.
  assert (0 < uhigh 64 a) by nia.
  pose proof (log2_high 64 a (uhigh 64 a) (low 64 a) ltac:(lia) Ea Hal ltac:(lia)) as La.
  pose proof (log2_high 64 b (uhigh 64 b) (low 64 b) ltac:(lia) Eb Hbl ltac:(lia)) as Lb.
  pose proof (log2_bound (uhigh 64 a) 64 ltac:(lia)). pose proof (log2_bound (uhigh 64 b) 64 ltac:(lia)).
  pose proof (Z.log2_le_mono b a Hle). rewrite !clz_done by lia. run_outcome.
  replace (64 - 1 - Z.log2 (uhigh 64 b) - (64 - 1 - Z.log2 (uhigh 64 a)))
    with (Z.log2 a - Z.log2 b) by lia.
  set (s := Z.log2 a - Z.log2 b) in *. rewrite shl_done by lia. run_outcome.
  pose proof (Z.log2_spec a ltac:(lia)) as [La1 La2]. pose proof (Z.log2_spec b ltac:(lia)) as [Lb1 Lb2].
  rewrite Z.pow_succ_r in La2, Lb2 by lia.
  assert (2 ^ Z.log2 a = 2 ^ Z.log2 b * 2 ^ s) as Es by (rewrite <- Z.pow_add_r by lia; f_equal; lia).
  assert (0 < 2 ^ s) by lia. assert (2 ^ Z.log2 a <= 2 ^ 127) by (apply Z.pow_le_mono_r; lia).
  assert (2 ^ Z.log2 a <= b * 2 ^ s < 2 * 2 ^ Z.log2 a) as Hd by nia.
  assert (Z.of_nat (Z.to_nat (s + 1)) = s + 1) as En by lia.
  assert (wrap 128 (Z.shiftl b s) = Z.shiftr (b * 2 ^ Z.of_nat (Z.to_nat (s + 1))) 1) as ->.
  { rewrite En, Z.shiftl_mul_pow2, wrap_small, Z.shiftr_div_pow2, Z.pow_add_r by (unfold fits; lia).
    rewrite Z.mul_assoc. by rewrite Z.div_mul by lia. }
  rewrite (ti_loop_correct _ a b a 0); rewrite ?En, ?Z.pow_add_r by lia; change (2 ^ 1) with 2; try lia.
  - assert (0 <= a / b < 2 ^ 64).
    { split; [apply Z.div_pos|apply Z.div_lt_upper_bound]; nia. }
    by rewrite ujoin64, Z.mul_0_r, Z.add_0_r by (unfold fits; lia).
  - destruct (Z.le_gt_cases (b * (2 ^ s * 2)) (2 ^ 128)); [by left|right]. split; [lia|].
    assert (Z.log2 a = 127) as E127; [|rewrite E127 in *; lia].
    destruct (Z.le_gt_cases 127 (Z.log2 a)); [lia|].
    assert (2 ^ Z.log2 a <= 2 ^ 126) by (apply Z.pow_le_mono_r; lia). lia.
Qed.

Lemma udivmodti4_correct x86_64 a b : fits 128 a -> fits 128 b -> 0 < b ->
  __udivmodti4 x86_64 a b = Done (a / b, a mod b).
Proof.
  intros Ha Hb Hb0. unfold __udivmodti4.
  destruct (Z.ltb_spec a b) as [Hlt|Hle].
  { unfold fits in Ha. by rewrite Z.div_small, Z.mod_small by lia. }
  destruct (Z.eqb_spec (uhigh 64 b) 0) as [Ebh|Ebh]; [|by apply udivmodti4_loop].
  destruct (halves128 a Ha) as (Ea & Hal & Hah & _). destruct (halves128 b Hb) as (Eb & Hbl & _ & _).
  rewrite Ebh, Z.mul_0_r, Z.add_0_r in Eb. rewrite <- Eb in *. clear Eb.
  destruct (Z.ltb_spec (uhigh 64 a) b) as [Hn|Hw].
  - destruct (udiv128by64to64_correct x86_64 (uhigh 64 a) (low 64 a) b) as (-> & Hq & Hr); try done.
    run_outcome. replace (uhigh 64 a * 2 ^ 64 + low 64 a) with a in * by lia.
    by rewrite !ujoin64, Z.mul_0_r, !Z.add_0_r by (done || unfold fits; lia).
  - rewrite udiv_done, umod_done by lia. run_outcome.
    pose proof (Z.div_mod (uhigh 64 a) b ltac:(lia)) as Eh.
    pose proof (Z.mod_pos_bound (uhigh 64 a) b Hb0) as Hm. unfold fits in Hbl, Hah.
    destruct (udiv128by64to64_correct x86_64 (uhigh 64 a mod b) (low 64 a) b) as (-> & Hq & Hr);
      [unfold fits; lia|done|done|lia|].
    run_outcome. set (n := uhigh 64 a mod b * 2 ^ 64 + low 64 a) in *.
    assert (0 <= uhigh 64 a / b < 2 ^ 64).
    { split; [apply Z.div_pos|apply Z.div_lt_upper_bound]; nia. }
    rewrite !ujoin64, Z.mul_0_r, !Z.add_0_r by (done || unfold fits; lia). f_equal.
    pose proof (Z.div_mod n b ltac:(lia)). pose proof (Z.mod_pos_bound n b Hb0).
    f_equal; [apply Z.div_unique with (n mod b)|apply Z.mod_unique with (n / b + 2 ^ 64 * (uhigh 64 a / b))];
      unfold n in *; lia.
Qed.

(** Where the quotient fits 64 bits, the portable 128-by-64 division, with
    its estimated and corrected quotient digits, returns what the [divq]
    instruction returns. *)
Lemma udiv128by64to64_equiv (u1 u0 v : Z)
  (Hu1 : fits 64 u1) (Hu0 : fits 64 u0) (Hv : fits 64 v) (Hlt : u1 < v) :
  udiv128by64to64default u1 u0 v = divq u1 u0 v.
Proof.
  destruct (udiv128by64to64_correct true u1 u0 v) as [E _]; try done.
  unfold udiv128by64to64 in E. rewrite E. by apply udiv128by64to64default_correct.
Qed.

Lemma udiv128by64to64_equiv_witness :
  udiv128by64to64default (2 ^ 63 - 1) (2 ^ 64 - 1) (2 ^ 63) =
  divq (2 ^ 63 - 1) (2 ^ 64 - 1) (2 ^ 63).
Proof. apply udiv128by64to64_equiv; unfold fits; lia. Defined.
