(* ===== verification/CcDivSigned.v ===== *)
(** Signed division of the compiler run-time
    ([src/cc-runtime/src/cc-runtime.c]): the signs are stripped with the masks
    [a >> (N - 1)], the magnitudes divided by the unsigned routine of the
    width, and the sign of the result put back. *)

From stdpp Require Import base numbers list.
From Stdlib Require Import ZArith Lia.
From S2P Require Import Prelude CcInt CcArith CcDiv CcDivWide CcDivTi.

Section width.
Context (w : Z).

(** [COMPUTE_UDIV], [ASSIGN_UMOD] and the unsigned division with remainder. *)
Context (compute_udiv assign_umod : Z -> Z -> outcome Z) (udivmod : Z -> Z -> outcome (Z * Z)).

Definition __divXi3 (a b : Z) : outcome Z :=
  s_a ← shr w a (w - 1);
  s_b ← shr w b (w - 1);
  let a_u := wrap w (wrap w (Z.lxor a s_a) + - s_a) in
  let b_u := wrap w (wrap w (Z.lxor b s_b) + - s_b) in
  let s_a := Z.lxor s_a s_b in
  q ← compute_udiv a_u b_u;
  mret (to_signed w (wrap w (Z.lxor q (wrap w s_a) + - s_a))).

Definition __modXi3 (a b : Z) : outcome Z :=
  s ← shr w b (w - 1);
  let b_u := wrap w (wrap w (Z.lxor b s) + - s) in
  s ← shr w a (w - 1);
  let a_u := wrap w (wrap w (Z.lxor a s) + - s) in
  res ← assign_umod a_u b_u;
  mret (to_signed w (wrap w (Z.lxor res (wrap w s) + - s))).

(** The quotient and what is stored through [rem]. *)
Definition divmodXi4 (a b : Z) : outcome (Z * Z) :=
  s_a ← shr w a (w - 1);
  s_b ← shr w b (w - 1);
  let a := to_signed w (wrap w (wrap w (Z.lxor a s_a) - s_a)) in
  let b := to_signed w (wrap w (wrap w (Z.lxor b s_b) - s_b)) in
  let s_b := Z.lxor s_b s_a in
  '(q, r) ← udivmod (wrap w a) (wrap w b);
  mret (to_signed w (wrap w (Z.lxor q (wrap w s_b) - s_b)),
        to_signed w (wrap w (Z.lxor r (wrap w s_a) - s_a))).
End width.

(** The copies of the templates that the source instantiates and uses. *)
Definition __divXi3_3 : Z -> Z -> outcome Z := __divXi3 64 (fun a b => fst <$> __udivmoddi4 a b).
Definition __divXi3_7 : Z -> Z -> outcome Z := __divXi3 32 udiv.
Definition __divXi3_11 (x86_64 : bool) : Z -> Z -> outcome Z :=
  __divXi3 128 (fun a b => fst <$> __udivmodti4 x86_64 a b).
Definition __modXi3_16 : Z -> Z -> outcome Z := __modXi3 64 (fun a b => snd <$> __udivmoddi4 a b).
Definition __modXi3_20 (x86_64 : bool) : Z -> Z -> outcome Z :=
  __modXi3 128 (fun a b => snd <$> __udivmodti4 x86_64 a b).

Definition __divdi3 : Z -> Z -> outcome Z := __divXi3_3.
Definition __divsi3 : Z -> Z -> outcome Z := __divXi3_7.
Definition __divti3 : bool -> Z -> Z -> outcome Z := __divXi3_11.
Definition __moddi3 : Z -> Z -> outcome Z := __modXi3_16.
Definition __modti3 : bool -> Z -> Z -> outcome Z := __modXi3_20.

Definition __modsi3 (a b : Z) : outcome Z :=
  d ← __divsi3 a b;
  m ← signed 32 (d * b);
  signed 32 (a - m).

Definition __divmodsi4 : Z -> Z -> outcome (Z * Z) := divmodXi4 32 __udivmodsi4.
Definition __divmoddi4 : Z -> Z -> outcome (Z * Z) := divmodXi4 64 __udivmoddi4.
Definition __divmodti4 (x86_64 : bool) : Z -> Z -> outcome (Z * Z) :=
  divmodXi4 128 (__udivmodti4 x86_64).

(** * Signs *)

Section lemmas.
Context (w : Z) (Hw : 2 <= w).

Lemma abs_fits a : sfits w a -> fits w (Z.abs a).
Proof using Hw. intros [? ?]. pose proof (pow_half w Hw). unfold fits. lia. Qed.

(** Stripping the sign, in the two spellings of the source. *)
Lemma strip_sign a : sfits w a ->
  wrap w (wrap w (Z.lxor a (if a <? 0 then -1 else 0)) - (if a <? 0 then -1 else 0)) = Z.abs a.
Proof using Hw.
  intros Ha. rewrite wrap_sub_l, mask_abs. apply wrap_small. by apply abs_fits.
Qed.

Lemma put_sign x (neg : bool) :
  to_signed w (wrap w (Z.lxor x (wrap w (if neg then -1 else 0)) - (if neg then -1 else 0))) =
  to_signed w (if neg then - x else x).
Proof using Hw.
  rewrite to_signed_wrap. apply to_signed_cong. rewrite <- (wrap_sub_l w (Z.lxor _ _)).
  assert (forall y, wrap w (Z.lxor x (wrap w y)) = wrap w (Z.lxor x y)) as -> by (intros y; zbits).
  rewrite wrap_sub_l. destruct neg.
  - rewrite Z.lxor_m1_r. unfold Z.lnot. f_equal. lia.
  - rewrite Z.lxor_0_r. f_equal. lia.
Qed.

Lemma mask_xor a b : Z.lxor (if a <? 0 then -1 else 0) (if b <? 0 then -1 else 0) =
  if xorb (a <? 0) (b <? 0) then -1 else 0.
Proof. by destruct (a <? 0), (b <? 0). Qed.

Lemma quot_signs a b : b <> 0 ->
  Z.quot a b = if xorb (a <? 0) (b <? 0) then - (Z.abs a / Z.abs b) else Z.abs a / Z.abs b.
Proof.
  intros Hb. rewrite <- Z.quot_div_nonneg by lia.
  destruct (Z.ltb_spec a 0), (Z.ltb_spec b 0); cbn [xorb];
    rewrite ?(Z.abs_neq a), ?(Z.abs_neq b), ?(Z.abs_eq a), ?(Z.abs_eq b) by lia;
    rewrite ?Z.quot_opp_l, ?Z.quot_opp_r by lia; lia.
Qed.

Lemma rem_signs a b : b <> 0 ->
  Z.rem a b = if a <? 0 then - (Z.abs a mod Z.abs b) else Z.abs a mod Z.abs b.
Proof.
  intros Hb. rewrite <- Z.rem_mod_nonneg by lia.
  destruct (Z.ltb_spec a 0), (Z.ltb_spec b 0);
    rewrite ?(Z.abs_neq a), ?(Z.abs_neq b), ?(Z.abs_eq a), ?(Z.abs_eq b) by lia;
    rewrite ?Z.rem_opp_l, ?Z.rem_opp_r by lia; lia.
Qed.

Lemma rem_sfits a b : sfits w b -> b <> 0 -> sfits w (Z.rem a b).
Proof using Hw.
  intros [? ?] Hb. pose proof (Z.rem_bound_abs a b Hb). unfold sfits. lia.
Qed.

(** The three routines against any unsigned division that divides. *)
Lemma divXi3_correct udivq a b : (forall x y, fits w x -> fits w y -> 0 < y -> udivq x y = Done (x / y)) ->
  sfits w a -> sfits w b -> b <> 0 -> __divXi3 w udivq a b = Done (to_signed w (Z.quot a b)).
Proof using Hw.
  intros Hdiv Ha Hb Hb0. unfold __divXi3. rewrite !sign_mask by done. run_outcome.
  rewrite !Z.add_opp_r, !strip_sign, Hdiv by (by apply abs_fits || lia || done). run_outcome.
  by rewrite Z.add_opp_r, mask_xor, put_sign, quot_signs.
Qed.

Lemma modXi3_correct umodq a b : (forall x y, fits w x -> fits w y -> 0 < y -> umodq x y = Done (x mod y)) ->
  sfits w a -> sfits w b -> b <> 0 -> __modXi3 w umodq a b = Done (Z.rem a b).
Proof using Hw.
  intros Hmod Ha Hb Hb0. unfold __modXi3. rewrite !sign_mask by done. run_outcome.
  rewrite !Z.add_opp_r, !strip_sign, Hmod by (by apply abs_fits || lia || done). run_outcome.
  rewrite Z.add_opp_r, put_sign, <- rem_signs by done. f_equal. apply to_signed_small; [lia|]. by apply rem_sfits.
Qed.

Lemma divmodXi4_correct udm a b :
  (forall x y, fits w x -> fits w y -> 0 < y -> udm x y = Done (x / y, x mod y)) ->
  sfits w a -> sfits w b -> b <> 0 ->
  divmodXi4 w udm a b = Done (to_signed w (Z.quot a b), Z.rem a b).
Proof using Hw.
  intros Hdm Ha Hb Hb0. unfold divmodXi4. rewrite !sign_mask by done. run_outcome.
  rewrite !strip_sign, !wrap_to_signed, !(wrap_small w (Z.abs _)), Hdm
    by (by apply abs_fits || lia || done). run_outcome.
  rewrite mask_xor, !put_sign, <- rem_signs, xorb_comm, <- quot_signs by done.
  rewrite (to_signed_small w (Z.rem a b)) by (by apply rem_sfits || lia). done.
Qed.
End lemmas.

(** [__modsi3] multiplies the quotient back in signed arithmetic, so the one
    quotient that does not fit is undefined, as it is for [%]. *)
Lemma modsi3_correct a b : sfits 32 a -> sfits 32 b -> b <> 0 ->
  __modsi3 a b = if decide (a = - 2 ^ 31 /\ b = -1) then Undefined else Done (Z.rem a b).
Proof.
  intros Ha Hb Hb0. unfold __modsi3, __divsi3, __divXi3_7.
  rewrite (divXi3_correct 32) by (lia || done || (intros; apply udiv_done; lia)). run_outcome.
  case_decide as Hd; [by destruct Hd as [-> ->]|].
  pose proof (Z.quot_rem a b Hb0) as E. pose proof (Z.rem_bound_abs a b Hb0).
  unfold sfits in *. change (32 - 1) with 31 in *.
  assert (Z.abs (b * Z.quot a b) <= Z.abs a).
  { destruct (Z.le_ge_cases 0 a); [pose proof (Z.mul_quot_le a b)|pose proof (Z.mul_quot_ge a b)]; lia. }
  assert (- 2 ^ 31 <= Z.quot a b < 2 ^ 31) by nia.
  rewrite to_signed_small, !signed_done by (lia || unfold sfits; lia). run_outcome.
  rewrite signed_done by (unfold sfits; lia). f_equal. lia.
Qed.

(** * The contract of the division routines *)

(** C37: every unsigned division of the run-time, at 32, 64 and 128 bits and
    with either form of the 128-by-64 step, returns the quotient and the
    remainder of the integers for any divisor but zero, and meets no undefined
    shift, [clz] of zero or division by zero on the way. *)
Theorem unsigned_division_correct (x86_64 : bool) (a b : Z) (Hb0 : 0 < b) :
  (fits 32 a -> fits 32 b ->
     __udivsi3 a b = Done (a / b) /\ __umodsi3 a b = Done (a mod b) /\
     __udivmodsi4 a b = Done (a / b, a mod b)) /\
  (fits 64 a -> fits 64 b ->
     __udivdi3 a b = Done (a / b) /\ __umoddi3 a b = Done (a mod b) /\
     __udivmoddi4 a b = Done (a / b, a mod b)) /\
  (fits 128 a -> fits 128 b ->
     __udivti3 x86_64 a b = Done (a / b) /\ __umodti3 x86_64 a b = Done (a mod b) /\
     __udivmodti4 x86_64 a b = Done (a / b, a mod b)).
Proof.
  split; [|split]; intros Ha Hb.
  - unfold __udivsi3, __umodsi3, __udivXi3_31, __umodXi3_40.
    destruct (udivXi3_correct 32 a b) as [-> ->]; auto.
    by rewrite udivmodsi4_correct.
  - unfold __udivdi3, __umoddi3, __udivXi3_27, __umodXi3_36.
    destruct (udivXi3_correct 64 a b) as [-> ->]; auto.
    by rewrite udivmoddi4_correct.
  - unfold __udivti3, __umodti3. by rewrite udivmodti4_correct.
Qed.

Lemma unsigned_division_correct_witness :
  __udivmoddi4 (2 ^ 63 + 12345) (2 ^ 33 + 1) = Done (1073741823, 7516205114) /\
  __udivmodti4 true (2 ^ 100) 10 = Done (126765060022822940149670320537, 6).
Proof.
  pose proof (unsigned_division_correct true (2 ^ 63 + 12345) (2 ^ 33 + 1) ltac:(lia)) as (_ & H & _).
  pose proof (unsigned_division_correct true (2 ^ 100) 10 ltac:(lia)) as (_ & _ & H').
  destruct (H ltac:(unfold fits; lia) ltac:(unfold fits; lia)) as (_ & _ & ->).
  by destruct (H' ltac:(unfold fits; lia) ltac:(unfold fits; lia)) as (_ & _ & ->).
Defined.

(** Every signed division rounds towards zero with the remainder of the
    dividend's sign, as C asks; the one quotient that does not fit, MIN / -1,
    wraps to MIN in the quotient routines, and in [__modsi3], which multiplies
    the quotient back, it is the only undefined case. *)
Lemma signed_division_correct (x86_64 : bool) (a b : Z) (Hb0 : b <> 0) :
  (sfits 32 a -> sfits 32 b ->
     __divsi3 a b = Done (si (Z.quot a b)) /\
     __modsi3 a b = (if decide (a = - 2 ^ 31 /\ b = -1) then Undefined else Done (Z.rem a b)) /\
     __divmodsi4 a b = Done (si (Z.quot a b), Z.rem a b)) /\
  (sfits 64 a -> sfits 64 b ->
     __divdi3 a b = Done (di (Z.quot a b)) /\ __moddi3 a b = Done (Z.rem a b) /\
     __divmoddi4 a b = Done (di (Z.quot a b), Z.rem a b)) /\
  (sfits 128 a -> sfits 128 b ->
     __divti3 x86_64 a b = Done (ti (Z.quot a b)) /\ __modti3 x86_64 a b = Done (Z.rem a b) /\
     __divmodti4 x86_64 a b = Done (ti (Z.quot a b), Z.rem a b)).
Proof.
  split; [|split]; intros Ha Hb; (split; [|split]).
  - apply divXi3_correct; try (lia || done). intros. apply udiv_done. lia.
  - by apply modsi3_correct.
  - apply divmodXi4_correct; try (lia || done). apply udivmodsi4_correct.
  - apply divXi3_correct; try (lia || done). intros. by rewrite udivmoddi4_correct.
  - apply modXi3_correct; try (lia || done). intros. by rewrite udivmoddi4_correct.
  - apply divmodXi4_correct; try (lia || done). apply udivmoddi4_correct.
  - apply divXi3_correct; try (lia || done). intros. by rewrite udivmodti4_correct.
  - apply modXi3_correct; try (lia || done). intros. by rewrite udivmodti4_correct.
  - apply divmodXi4_correct; try (lia || done). apply udivmodti4_correct.
Qed.

Lemma signed_division_correct_witness :
  __divmoddi4 (-7) 2 = Done (-3, -1) /\ __divdi3 (- 2 ^ 63) (-1) = Done (- 2 ^ 63) /\
  __modsi3 (- 2 ^ 31) (-1) = Undefined.
Proof.
  pose proof (signed_division_correct true (-7) 2 ltac:(lia)) as (_ & H & _).
  pose proof (signed_division_correct true (- 2 ^ 63) (-1) ltac:(lia)) as (_ & H' & _).
  pose proof (signed_division_correct true (- 2 ^ 31) (-1) ltac:(lia)) as (H'' & _ & _).
  destruct (H ltac:(unfold sfits; lia) ltac:(unfold sfits; lia)) as (_ & _ & ->).
  destruct (H' ltac:(unfold sfits; lia) ltac:(unfold sfits; lia)) as (-> & _ & _).
  by destruct (H'' ltac:(unfold sfits; lia) ltac:(unfold sfits; lia)) as (_ & -> & _).
Defined.
