(* ===== verification/Nanoprintf.v ===== *)
(** Formatted output: nanoprintf ([src/nanoprintf/nanoprintf.h]) as
    [src/src/printf.c] configures it, and [printf] itself.

    [printf.c] enables field widths, the large, small, binary and write-back
    specifiers, and leaves out precision, floats and the alternative form, so
    the code under those switches does not exist in the program.  The target
    is x86_64: [long] and pointers have 64 bits and [va_arg] takes one 64-bit
    slot, of which a narrower type keeps the low bits.

    A C string is the list of its bytes before the terminator.  Asking
    [va_arg] for an argument that was not passed, or for a string where a
    number was passed, is undefined. *)

From Stdlib Require Import ZArith Lia Ascii String.
From stdpp Require Import base numbers list strings.
From S2P Require Import Prelude Memory CcInt.
Local Open Scope Z_scope.
Local Open Scope list_scope.

(** * Characters and strings *)

Definition ch (a : ascii) : Z := Z.of_N (N_of_ascii a).

Fixpoint chars (s : string) : list Z :=
  match s with
  | EmptyString => []
  | String a s' => ch a :: chars s'
  end.

(** The character under the cursor; at the end, the terminator. *)
Definition cur_char (s : list Z) : Z := match s with [] => 0 | c :: _ => c end.

(** * Format specifiers *)

Inductive field_width_option := OPT_NONE | OPT_LITERAL | OPT_STAR.

Inductive length_mod :=
| LEN_MOD_NONE | LEN_MOD_SHORT | LEN_MOD_CHAR | LEN_MOD_LONG
| LEN_MOD_LARGE_LONG_LONG | LEN_MOD_LARGE_INTMAX | LEN_MOD_LARGE_SIZET | LEN_MOD_LARGE_PTRDIFFT.

Inductive conversion :=
| CONV_PERCENT | CONV_CHAR | CONV_STRING | CONV_SIGNED_INT | CONV_BINARY | CONV_OCTAL
| CONV_HEX_INT | CONV_UNSIGNED_INT | CONV_POINTER | CONV_WRITEBACK.

#[export] Instance field_width_option_eq_dec : EqDecision field_width_option.
Proof. solve_decision. Defined.
#[export] Instance conversion_eq_dec : EqDecision conversion.
Proof. solve_decision. Defined.

Record npf_format_spec := FormatSpec {
  field_width : Z;
  field_width_opt : field_width_option;
  left_justified : bool;
  leading_zero_pad : bool;
  prepend : Z;
  case_adjust : Z;
  length_modifier : length_mod;
  conv_spec : conversion
}.

(** The flags: left justification, zero padding and the sign prefix. *)
Fixpoint parse_flags (cur : list Z) (lj lz : bool) (pre : Z) : bool * bool * Z * list Z :=
  match cur with
  | [] => (lj, lz, pre, [])
  | c :: cur' =>
    if c =? ch "-" then parse_flags cur' true lz pre
    else if c =? ch "0" then parse_flags cur' lj true pre
    else if c =? ch "+" then parse_flags cur' lj lz (ch "+")
    else if c =? ch " " then parse_flags cur' lj lz (if pre =? 0 then ch " " else pre)
    else (lj, lz, pre, cur)
  end.

(** A literal field width; its value is an [int]. *)
Fixpoint parse_digits (cur : list Z) (w : Z) (opt : field_width_option) :
  outcome (Z * field_width_option * list Z) :=
  match cur with
  | [] => mret (w, opt, [])
  | c :: cur' =>
    if (ch "0" <=? c) && (c <=? ch "9") then
      w10 ← signed 32 (w * 10);
      w' ← signed 32 (w10 + (c - ch "0"));
      parse_digits cur' w' OPT_LITERAL
    else mret (w, opt, cur)
  end.

Definition parse_width (cur : list Z) : outcome (Z * field_width_option * list Z) :=
  if cur_char cur =? ch "*" then mret (0, OPT_STAR, tail cur)
  else parse_digits cur 0 OPT_NONE.

Definition parse_length (cur : list Z) : length_mod * list Z :=
  let c := cur_char cur in
  let next := tail cur in
  if c =? ch "h" then
    if cur_char next =? ch "h" then (LEN_MOD_CHAR, tail next) else (LEN_MOD_SHORT, next)
  else if c =? ch "l" then
    if cur_char next =? ch "l" then (LEN_MOD_LARGE_LONG_LONG, tail next) else (LEN_MOD_LONG, next)
  else if c =? ch "j" then (LEN_MOD_LARGE_INTMAX, next)
  else if c =? ch "z" then (LEN_MOD_LARGE_SIZET, next)
  else if c =? ch "t" then (LEN_MOD_LARGE_PTRDIFFT, next)
  else (LEN_MOD_NONE, cur).

(** The conversion and the adjustment that makes letters lowercase. *)
Definition parse_conversion (c : Z) : option (conversion * Z) :=
  let lower := ch "a" - ch "A" in
  if c =? ch "%" then Some (CONV_PERCENT, lower)
  else if c =? ch "c" then Some (CONV_CHAR, lower)
  else if c =? ch "s" then Some (CONV_STRING, lower)
  else if (c =? ch "i") || (c =? ch "d") then Some (CONV_SIGNED_INT, lower)
  else if c =? ch "o" then Some (CONV_OCTAL, lower)
  else if c =? ch "u" then Some (CONV_UNSIGNED_INT, lower)
  else if c =? ch "X" then Some (CONV_HEX_INT, 0)
  else if c =? ch "x" then Some (CONV_HEX_INT, lower)
  else if c =? ch "n" then Some (CONV_WRITEBACK, lower)
  else if c =? ch "p" then Some (CONV_POINTER, lower)
  else if c =? ch "B" then Some (CONV_BINARY, 0)
  else if c =? ch "b" then Some (CONV_BINARY, lower)
  else None.

(** [format] is the text from the percent sign on.  The result is the
    specification and the text after it, or [None] where the code returns 0. *)
Definition npf_parse_format_spec (format : list Z) :
  outcome (option (npf_format_spec * list Z)) :=
  let '(lj, lz, pre, cur) := parse_flags (tail format) false false 0 in
  '(w, opt, cur) ← parse_width cur;
  let '(lm, cur) := parse_length cur in
  mret (match parse_conversion (cur_char cur) with
        | None => None
        | Some (conv, adj) => Some (FormatSpec w opt lj lz pre adj lm conv, tail cur)
        end).

(** * Numbers *)

Definition digit_char (base case_adj d : Z) : Z :=
  (if d <? 10 then ch "0" else ch "A" - 10 + case_adj) + d.

(** The digits, least significant first.  A 64-bit number has at most 64 digits
    in any base, so the fuel used below never runs out. *)
Fixpoint npf_utoa_rev (fuel : nat) (val base case_adj : Z) : list Z :=
  match fuel with
  | O => []
  | S fuel' =>
    digit_char base case_adj (val mod base) ::
    (if val / base =? 0 then [] else npf_utoa_rev fuel' (val / base) base case_adj)
  end.

Definition npf_bin_len (u : Z) : outcome Z :=
  if u =? 0 then mret 1 else c ← clz 64 u; mret (64 - c).

(** * Arguments *)

(** What the caller passed: a number or pointer in a slot, or a string pointer,
    [None] for a null one. *)
Inductive va_value := Word (z : Z) | Str (s : option (list Z)).

Definition va_word (args : list va_value) : outcome (Z * list va_value) :=
  match args with Word z :: args' => mret (z, args') | _ => Undefined end.

Definition va_string (args : list va_value) : outcome (option (list Z) * list va_value) :=
  match args with Str s :: args' => mret (s, args') | _ => Undefined end.

Definition extract_signed (lm : length_mod) (z : Z) : Z :=
  match lm with
  | LEN_MOD_NONE => to_signed 32 z
  | LEN_MOD_SHORT => to_signed 16 z
  | LEN_MOD_CHAR => to_signed 8 z
  | _ => to_signed 64 z
  end.

Definition extract_unsigned (lm : length_mod) (z : Z) : Z :=
  match lm with
  | LEN_MOD_NONE => wrap 32 z
  | LEN_MOD_SHORT => wrap 16 z
  | LEN_MOD_CHAR => wrap 8 z
  | _ => wrap 64 z
  end.

(** The size of the object a write-back stores into. *)
Definition writeback_size (lm : length_mod) : Z :=
  match lm with
  | LEN_MOD_NONE => 4
  | LEN_MOD_SHORT => 2
  | LEN_MOD_CHAR => 1
  | _ => 8
  end.

(** * One conversion *)

Inductive event :=
| Put (c : Z)
| WriteBack (ptr size v : Z).

(** [cbuf]: the reversed digits or the one character in [u.cbuf_mem], a
    string, or the bits of [u.binval]. *)
Inductive payload := PBuf (cbuf : list Z) | PString (s : list Z) | PBinary (binval len : Z).

Definition cbuf_len (p : payload) : Z :=
  match p with
  | PBuf b => Z.of_nat (length b)
  | PString s => Z.of_nat (length s)
  | PBinary _ len => len
  end.

(** The sign character, the payload, what is written back and the arguments
    left, for the specification [fs] after [n] characters. *)
Definition convert (fs : npf_format_spec) (args : list va_value) (n : Z) :
  outcome (Z * payload * list event * list va_value) :=
  match conv_spec fs with
  | CONV_PERCENT => mret (0, PBuf [ch "%"], [], args)
  | CONV_CHAR =>
    '(z, args) ← va_word args;
    let c := wrap 8 z in
    mret (0, PBuf (if c =? 0 then [] else [c]), [], args)
  | CONV_STRING =>
    '(s, args) ← va_string args;
    mret (0, PString (default [] s), [], args)
  | CONV_SIGNED_INT =>
    '(z, args) ← va_word args;
    let val := extract_signed (length_modifier fs) z in
    let sign_c := if val <? 0 then ch "-" else prepend fs in
    let uval := wrap 64 val in
    let uval := if val <? 0 then wrap 64 (0 - uval) else uval in
    mret (sign_c, PBuf (npf_utoa_rev 64 uval 10 (case_adjust fs)), [], args)
  | CONV_WRITEBACK =>
    '(ptr, args) ← va_word args;
    let size := writeback_size (length_modifier fs) in
    mret (0, PBuf [], [WriteBack (wrap 64 ptr) size (wrap (8 * size) n)], args)
  | conv =>
    '(z, args) ← va_word args;
    let val := if decide (conv = CONV_POINTER) then wrap 64 z
               else extract_unsigned (length_modifier fs) z in
    if decide (conv = CONV_BINARY) then
      len ← npf_bin_len val;
      mret (0, PBinary val len, [], args)
    else
      let base := if decide (conv = CONV_OCTAL) then 8
                  else if decide (conv = CONV_UNSIGNED_INT) then 10 else 16 in
      mret (0, PBuf (npf_utoa_rev 64 val base (case_adjust fs)), [], args)
  end.

(** The payload in the order it is written. *)
Definition payload_chars (p : payload) : list Z :=
  match p with
  | PBuf b => rev b
  | PString s => s
  | PBinary v len =>
    map (fun i => ch "0" + Z.land (Z.shiftr v (len - 1 - Z.of_nat i)) 1) (seq 0 (Z.to_nat len))
  end.

(** Padding, sign and payload. *)
Definition emit (fs : npf_format_spec) (sign_c : Z) (p : payload) : list Z :=
  let pad_c :=
    if decide (field_width_opt fs = OPT_NONE) then 0
    else if leading_zero_pad fs && negb (left_justified fs) then ch "0" else ch " " in
  let field_pad := Z.max 0 (field_width fs - cbuf_len p - (if sign_c =? 0 then 0 else 1)) in
  let pad := repeat pad_c (Z.to_nat field_pad) in
  let rj := negb (left_justified fs) && negb (pad_c =? 0) in
  let early := rj && (pad_c =? ch "0") && negb (sign_c =? 0) in
  (if early then [sign_c] else []) ++
  (if rj then pad else []) ++
  (if early || (sign_c =? 0) then [] else match p with PString _ => [] | _ => [sign_c] end) ++
  payload_chars p ++
  (if left_justified fs && negb (pad_c =? 0) then pad else []).

(** The width from the arguments; a negative one left-justifies. *)
Definition star_width (fs : npf_format_spec) (args : list va_value) :
  outcome (npf_format_spec * list va_value) :=
  if decide (field_width_opt fs = OPT_STAR) then
    '(z, args) ← va_word args;
    let w := to_signed 32 z in
    if w <? 0 then
      w' ← signed 32 (- w);
      mret (FormatSpec w' (field_width_opt fs) true (leading_zero_pad fs) (prepend fs)
              (case_adjust fs) (length_modifier fs) (conv_spec fs), args)
    else
      mret (FormatSpec w (field_width_opt fs) (left_justified fs) (leading_zero_pad fs) (prepend fs)
              (case_adjust fs) (length_modifier fs) (conv_spec fs), args)
  else mret (fs, args).

(** * The formatter

    Every round takes at least one character of the format, so its length
    bounds the rounds.  [n] is [pc_cnt.n]; [count] is the type it is kept in:
    an [int] in [npf_vpprintf], where counting past the last one is
    undefined. *)
Fixpoint vpprintf_loop (count : Z -> outcome Z) (fuel : nat) (cur : list Z) (args : list va_value) (n : Z) :
  outcome (list event * Z) :=
  match fuel, cur with
  | _, [] => mret ([], n)
  | O, _ => Undefined
  | S fuel', c :: cur' =>
    spec ← (if negb (c =? ch "%") then mret None else npf_parse_format_spec cur);
    match spec with
    | None =>
      n ← count (n + 1);
      '(es, r) ← vpprintf_loop count fuel' cur' args n;
      mret (Put (to_signed 8 c) :: es, r)
    | Some (fs, rest) =>
      '(fs, args) ← star_width fs args;
      '(sign_c, p, ws, args) ← convert fs args n;
      let out := emit fs sign_c p in
      n ← count (n + Z.of_nat (length out));
      '(es, r) ← vpprintf_loop count fuel' rest args n;
      mret (ws ++ map (fun c => Put (to_signed 8 c)) out ++ es, r)
    end
  end.

(** The events in order and the value returned. *)
Definition npf_vpprintf (format : list Z) (args : list va_value) : outcome (list event * Z) :=
  vpprintf_loop (signed 32) (length format) format args 0.

(** The characters among the events. *)
Definition put_chars (es : list event) : list Z :=
  omap (fun e => match e with Put c => Some c | WriteBack _ _ _ => None end) es.

(** ** Into a buffer

    [npf_bufputc] stores while there is room; [npf_vsnprintf] then terminates
    the text inside the buffer. *)
Definition npf_bufputc (dst len : Z) (st : mem * Z) (c : Z) : mem * Z :=
  let '(m, cur) := st in
  if cur <? len then (store8 m (dst + cur) c, cur + 1) else (m, cur).

(** The memory after the call and the value returned; a null [buffer] only
    counts.  The write-backs of the format are kept in the events. *)
Definition npf_vsnprintf (m : mem) (buffer bufsz : Z) (format : list Z) (args : list va_value) :
  outcome (mem * list event * Z) :=
  '(es, n) ← npf_vpprintf format args;
  let m1 := if buffer =? 0 then m
            else fst (fold_left (npf_bufputc buffer bufsz) (put_chars es) (m, 0)) in
  let m2 := if negb (buffer =? 0) && negb (bufsz =? 0)
            then store8 m1 (buffer + if n <? 0 then 0 else Z.min (wrap 32 n) (bufsz - 1)) 0
            else m1 in
  mret (m2, es, n).

(** * [printf] ([src/src/printf.c]) *)

(** The strings [_putchar] passes to [OutputString]: two [CHAR16] each, a
    carriage return first before a line feed.  [conout] tells whether the
    system table has a console. *)
Definition _putchar (conout : bool) (character : Z) : list (list Z) :=
  let put c := if conout then [[wrap 16 c; 0]] else [] in
  (if character =? 10 then put 13 else []) ++ put character.

Definition printf (conout : bool) (fmt : list Z) (args : list va_value) :
  outcome (list (list Z) * Z) :=
  '(es, ret) ← npf_vpprintf fmt args;
  mret (flat_map (_putchar conout) (put_chars es), ret).

(** [DEBUG((PrintLevel, ...))] of [Edk2Compat.h]: at an enabled level the
    macro prints the source text of its arguments ([#__VA_ARGS__]) and passes
    none of them. *)
Definition DEBUG_ERROR : Z := 0x80000000.

Definition DEBUG_PRINT (conout : bool) (PrintLevel : Z) (source_text : list Z) :
  outcome (list (list Z)) :=
  if Z.land PrintLevel DEBUG_ERROR =? 0 then mret []
  else '(out, _) ← printf conout source_text []; mret out.

(** * Reading numbers back *)

Definition digit_value (c : Z) : Z :=
  if c <=? ch "9" then c - ch "0"
  else if c <=? ch "Z" then c - ch "A" + 10
  else c - ch "a" + 10.

(** The value of digits written least significant first. *)
Fixpoint rev_value (base : Z) (l : list Z) : Z :=
  match l with
  | [] => 0
  | c :: l' => digit_value c + base * rev_value base l'
  end.

(** The value of digits in reading order. *)
Definition read_number (base : Z) (l : list Z) : Z := rev_value base (rev l).

Definition letter_case (adj : Z) : Prop := adj = 0 \/ adj = ch "a" - ch "A".

Lemma digit_value_char base adj d : letter_case adj -> 0 <= d < 16 ->
  digit_value (digit_char base adj d) = d /\ 48 <= digit_char base adj d <= 102 /\
  (digit_char base adj d = ch "0" -> d = 0).
Proof.
  intros [-> | ->] Hd; unfold digit_value, digit_char; change (ch "0") with 48;
    change (ch "9") with 57; change (ch "A") with 65; change (ch "Z") with 90; change (ch "a") with 97;
    repeat ztest; lia.
Qed.

Lemma utoa_value fuel val base adj : letter_case adj -> 2 <= base <= 16 ->
  0 <= val < base ^ Z.of_nat fuel -> (0 < fuel)%nat ->
  rev_value base (npf_utoa_rev fuel val base adj) = val.
Proof.
  intros Hadj Hb. revert val. induction fuel as [|fuel IH]; intros val Hv Hf; [lia|].
  cbn [npf_utoa_rev rev_value].
  pose proof (Z.mod_pos_bound val base ltac:(lia)). pose proof (Z.div_mod val base ltac:(lia)) as E.
  destruct (digit_value_char base adj (val mod base) Hadj ltac:(lia)) as (-> & _ & _).
  destruct (Z.eqb_spec (val / base) 0) as [E0|E0]; [cbn [rev_value]; lia|].
  rewrite IH; [lia| |].
  - split; [apply Z.div_pos; lia|]. apply Z.div_lt_upper_bound; [lia|].
    rewrite Nat2Z.inj_succ, Z.pow_succ_r in Hv by lia. lia.
  - destruct fuel; [|lia]. exfalso. apply E0, Z.div_small. simpl in Hv. lia.
Qed.

Lemma utoa_length fuel val base adj k : 2 <= base -> 0 <= val < base ^ Z.of_nat k -> (0 < k)%nat ->
  (length (npf_utoa_rev fuel val base adj) <= k)%nat.
Proof.
  intros Hb. revert val k. induction fuel as [|fuel IH]; intros val k Hv Hk; cbn [npf_utoa_rev length]; [lia|].
  destruct (Z.eqb_spec (val / base) 0) as [E0|E0]; [simpl; lia|].
  destruct k as [|k]; [lia|]. rewrite Nat2Z.inj_succ, Z.pow_succ_r in Hv by lia.
  assert ((length (npf_utoa_rev fuel (val / base) base adj) <= k)%nat); [|lia].
  apply IH.
  - split; [apply Z.div_pos; lia|]. apply Z.div_lt_upper_bound; lia.
  - destruct k; [|lia]. exfalso. apply E0, Z.div_small. simpl in Hv. lia.
Qed.

Lemma utoa_nonempty fuel val base adj : (0 < length (npf_utoa_rev (S fuel) val base adj))%nat.
Proof. cbn [npf_utoa_rev length]. lia. Qed.

Lemma extract_unsigned_fits lm z : fits 64 (extract_unsigned lm z).
Proof.
  destruct lm; simpl; (apply wrap_fits || (eapply fits_mono; [|apply wrap_fits])); lia.
Qed.

(** The digits of a 64-bit number, in a base the code uses. *)
Lemma utoa_word base adj v : letter_case adj -> 8 <= base <= 16 -> fits 64 v ->
  read_number base (payload_chars (PBuf (npf_utoa_rev 64 v base adj))) = v /\
  (length (npf_utoa_rev 64 v base adj) <= 22)%nat.
Proof.
  intros Hadj Hb [Hl Hu]. unfold read_number, payload_chars. rewrite rev_involutive.
  assert (8 ^ 22 <= base ^ 22) by (apply Z.pow_le_mono_l; lia).
  split; [apply utoa_value|apply utoa_length]; try (done || lia).
Qed.

Lemma rev_value_app base l c :
  rev_value base (l ++ [c]) = rev_value base l + base ^ Z.of_nat (length l) * digit_value c.
Proof.
  induction l as [|d l IH]; cbn [app rev_value length]; [simpl; lia|].
  rewrite IH, Nat2Z.inj_succ, Z.pow_succ_r by lia. lia.
Qed.

Lemma binary_cons v n :
  payload_chars (PBinary v (Z.of_nat (S n))) =
  (ch "0" + Z.land (Z.shiftr v (Z.of_nat n)) 1) :: payload_chars (PBinary v (Z.of_nat n)).
Proof.
  unfold payload_chars. rewrite !Nat2Z.id. cbn [seq map]. f_equal.
  - f_equal. f_equal. f_equal. lia.
  - rewrite <- seq_shift, map_map. apply map_ext. intros i. f_equal. f_equal. f_equal. lia.
Qed.

Lemma binary_value v n : 0 <= v ->
  read_number 2 (payload_chars (PBinary v (Z.of_nat n))) = v mod 2 ^ Z.of_nat n.
Proof.
  intros Hv. unfold read_number. induction n as [|n IH].
  - cbn [payload_chars]. simpl. by rewrite Z.mod_1_r.
  - rewrite binary_cons. cbn [rev]. rewrite rev_value_app, IH, length_rev.
    assert (length (payload_chars (PBinary v (Z.of_nat n))) = n) as ->.
    { unfold payload_chars. by rewrite length_map, length_seq, Nat2Z.id. }
    rewrite land_1, Z.shiftr_div_pow2 by lia.
    pose proof (Z.mod_pos_bound (v / 2 ^ Z.of_nat n) 2 ltac:(lia)).
    assert (digit_value (ch "0" + (v / 2 ^ Z.of_nat n) mod 2) = (v / 2 ^ Z.of_nat n) mod 2) as ->.
    { unfold digit_value. change (ch "0") with 48. change (ch "9") with 57. ztest; lia. }
    rewrite Nat2Z.inj_succ, <- Z.add_1_r, Z.pow_add_r by lia.
    by rewrite Z.rem_mul_r by lia.
Qed.

Lemma binary_word v : fits 64 v -> exists len, npf_bin_len v = Done len /\ 1 <= len <= 64 /\
  read_number 2 (payload_chars (PBinary v len)) = v.
Proof.
  intros [Hl Hu]. unfold npf_bin_len. destruct (Z.eqb_spec v 0) as [->|Hz].
  - exists 1. split; [done|]. split; [lia|done].
  - rewrite clz_done by done. run_outcome. eexists. split; [done|].
    pose proof (Z.log2_nonneg v). assert (Z.log2 v < 64) by (apply Z.log2_lt_pow2; lia).
    split; [lia|]. replace (64 - (64 - 1 - Z.log2 v)) with (Z.of_nat (Z.to_nat (Z.log2 v + 1))) by lia.
    rewrite binary_value by lia. apply Z.mod_small. split; [lia|].
    rewrite Z2Nat.id by lia. apply Z.log2_spec. lia.
Qed.

(** * Padding *)

Lemma length_payload p : 0 <= cbuf_len p -> Z.of_nat (length (payload_chars p)) = cbuf_len p.
Proof.
  destruct p as [b|s|v len]; unfold payload_chars, cbuf_len; intros H.
  - by rewrite length_rev.
  - done.
  - rewrite length_map, length_seq. lia.
Qed.

(** A sign only accompanies a number, and the width is a non-negative [int]
    that is zero when none was given. *)
Definition spec_ok (fs : npf_format_spec) : Prop :=
  0 <= field_width fs < 2 ^ 31 /\ (field_width_opt fs = OPT_NONE -> field_width fs = 0) /\
  letter_case (case_adjust fs).

Definition sign_ok (sign_c : Z) (p : payload) : Prop :=
  match p with PString _ => sign_c = 0 | _ => True end.

Definition signed_payload (sign_c : Z) (p : payload) : list Z :=
  (if sign_c =? 0 then [] else [sign_c]) ++ payload_chars p.

(** What is written: the sign and payload, padded to the width with spaces
    on the side the flags say, or with zeros after the sign. *)
Lemma emit_shape fs sign_c p : spec_ok fs -> sign_ok sign_c p -> 0 <= cbuf_len p ->
  let pad := Z.to_nat (field_width fs - Z.of_nat (length (signed_payload sign_c p))) in
  emit fs sign_c p =
    if left_justified fs then signed_payload sign_c p ++ repeat (ch " ") pad
    else if leading_zero_pad fs then
      (if sign_c =? 0 then [] else [sign_c]) ++ repeat (ch "0") pad ++ payload_chars p
    else repeat (ch " ") pad ++ signed_payload sign_c p.
Proof.
  intros (Hw & Hnone & _) Hsign Hlen. cbv zeta. unfold emit. set (s := if sign_c =? 0 then 0 else 1).
  assert (Z.of_nat (length (signed_payload sign_c p)) = s + cbuf_len p) as ->.
  { unfold signed_payload. rewrite length_app, Nat2Z.inj_add, length_payload by done.
    unfold s. by destruct (sign_c =? 0). }
  replace (Z.to_nat (Z.max 0 (field_width fs - cbuf_len p - s)))
    with (Z.to_nat (field_width fs - (s + cbuf_len p))) by lia.
  set (k := Z.to_nat _). assert (field_width_opt fs = OPT_NONE -> k = O) as Hk.
  { intros H. specialize (Hnone H). unfold k, s. destruct (sign_c =? 0); lia. }
  clearbody k. clear s. unfold signed_payload.
  assert (sign_c <> 0 -> match p with PString _ => [] | _ => [sign_c] end = [sign_c]) as Hp
    by (intros; by destruct p).
  destruct (decide (field_width_opt fs = OPT_NONE)) as [Ho|Ho].
  - rewrite (Hk Ho). change (0 =? 0) with true. rewrite andb_false_r.
    destruct (left_justified fs), (leading_zero_pad fs), (Z.eqb_spec sign_c 0);
      cbn [andb negb orb repeat app]; rewrite ?app_nil_r, ?Hp by done; done.
  - destruct (left_justified fs), (leading_zero_pad fs), (Z.eqb_spec sign_c 0); cbn [andb negb orb];
      change (ch " " =? 0) with false; change (ch "0" =? 0) with false;
      change (ch " " =? ch "0") with false; change (ch "0" =? ch "0") with true;
      cbn [andb negb orb app]; rewrite ?app_nil_r, ?Hp, <- ?app_assoc by done; done.
Qed.

Lemma emit_length fs sign_c p : spec_ok fs -> sign_ok sign_c p -> 0 <= cbuf_len p ->
  Z.of_nat (length (emit fs sign_c p)) =
  Z.max (field_width fs) (Z.of_nat (length (signed_payload sign_c p))).
Proof.
  intros Hfs Hs Hl. rewrite (emit_shape fs sign_c p Hfs Hs Hl). cbv zeta.
  unfold signed_payload. destruct (left_justified fs), (leading_zero_pad fs);
    rewrite ?length_app, ?repeat_length; lia.
Qed.

(** * What the parser returns *)

Lemma parse_flags_length cur : forall lj lz pre lj' lz' pre' rest,
  parse_flags cur lj lz pre = (lj', lz', pre', rest) -> (length rest <= length cur)%nat.
Proof.
  induction cur as [|c cur IH]; intros lj lz pre lj' lz' pre' rest; cbn [parse_flags length].
  - by intros [= <- <- <- <-].
  - repeat (destruct (c =? _); [intros H; apply IH in H; lia|]).
    intros [= <- <- <- <-]. simpl. lia.
Qed.

Lemma signed_inv w z v : signed w z = Done v -> v = z /\ sfits w z.
Proof. unfold signed. case_decide; [by intros [= <-]|done]. Qed.

Lemma parse_digits_ok cur : forall w opt w' opt' rest,
  0 <= w < 2 ^ 31 -> (opt = OPT_NONE -> w = 0) -> opt <> OPT_STAR ->
  parse_digits cur w opt = Done (w', opt', rest) ->
  0 <= w' < 2 ^ 31 /\ (opt' = OPT_NONE -> w' = 0) /\ opt' <> OPT_STAR /\ (length rest <= length cur)%nat.
Proof.
  induction cur as [|c cur IH]; intros w opt w' opt' rest Hw Hn Hs; cbn [parse_digits length].
  - by intros [= <- <- <-].
  - destruct (Z.leb_spec (ch "0") c), (Z.leb_spec c (ch "9")); cbn [andb];
      try (intros [= <- <- <-]; done).
    change (ch "0") with 48 in *. change (ch "9") with 57 in *.
    destruct (signed 32 (w * 10)) as [w10| |] eqn:E10; run_outcome; try discriminate.
    apply signed_inv in E10 as [-> H10].
    destruct (signed 32 (w * 10 + (c - 48))) as [w11| |] eqn:E11; run_outcome; try discriminate.
    apply signed_inv in E11 as [-> H11]. unfold sfits in *. change (2 ^ (32 - 1)) with (2 ^ 31) in *.
    intros Hd. apply IH in Hd as (? & ? & ? & ?); [|lia|done|done].
    repeat split; try done; lia.
Qed.

Lemma parse_width_ok cur w opt rest : parse_width cur = Done (w, opt, rest) ->
  0 <= w < 2 ^ 31 /\ (opt = OPT_NONE -> w = 0) /\ (length rest <= length cur)%nat.
Proof.
  unfold parse_width. destruct (cur_char cur =? ch "*").
  - intros [= <- <- <-]. split; [lia|]. split; [done|]. destruct cur; simpl; lia.
  - intros H. apply parse_digits_ok in H as (? & ? & _ & ?); [done|lia|done|done].
Qed.

Lemma parse_length_rest cur lm rest : parse_length cur = (lm, rest) -> (length rest <= length cur)%nat.
Proof.
  assert (forall l : list Z, (length (tail l) <= length l)%nat) as Ht by (intros []; simpl; lia).
  pose proof (Ht cur). pose proof (Ht (tail cur)). unfold parse_length.
  repeat (destruct (_ =? _)); intros [= <- <-]; lia.
Qed.

Lemma parse_conversion_case c conv adj : parse_conversion c = Some (conv, adj) ->
  letter_case adj /\ c <> 0.
Proof.
  unfold parse_conversion. intros H.
  assert (c <> 0) by (intros ->; vm_compute in H; discriminate H).
  split; [|done]. unfold letter_case.
  repeat match type of H with
  | (if ?b then _ else _) = _ => destruct b; [injection H as <- <-; auto|]
  end. discriminate H.
Qed.

Lemma parse_spec_ok format fs rest : format <> [] ->
  npf_parse_format_spec format = Done (Some (fs, rest)) ->
  spec_ok fs /\ (S (length rest) < length format)%nat.
Proof.
  intros Hne. unfold npf_parse_format_spec.
  destruct (parse_flags (tail format) false false 0) as [[[lj lz] pre] c1] eqn:E1.
  apply parse_flags_length in E1.
  destruct (parse_width c1) as [[[w opt] c2]| |] eqn:E2; run_outcome; try discriminate.
  apply parse_width_ok in E2 as (Hw & Hn & L2).
  destruct (parse_length c2) as [lm c3] eqn:E3. apply parse_length_rest in E3.
  destruct (parse_conversion (cur_char c3)) as [[conv adj]|] eqn:E4; [|discriminate].
  apply parse_conversion_case in E4 as [Hadj Hc]. intros [= <- <-].
  split; [done|]. destruct format as [|f0 format]; [done|].
  destruct c3 as [|k c3]; [done|]. simpl in *. lia.
Qed.

(** * Formats and their arguments *)

Inductive kind := KNumber | KWidth | KText.

(** The argument a conversion takes; a width must have a negation. *)
Definition kind_ok (k : kind) (v : va_value) : Prop :=
  match k, v with
  | KNumber, Word _ => True
  | KWidth, Word z => to_signed 32 z <> - 2 ^ 31
  | KText, Str _ => True
  | _, _ => False
  end.

Definition spec_kinds (fs : npf_format_spec) : list kind :=
  (if decide (field_width_opt fs = OPT_STAR) then [KWidth] else []) ++
  match conv_spec fs with
  | CONV_PERCENT => []
  | CONV_STRING => [KText]
  | _ => [KNumber]
  end.

(** The arguments a format asks for, in order. *)
Fixpoint format_kinds_from (fuel : nat) (cur : list Z) : outcome (list kind) :=
  match fuel, cur with
  | _, [] => mret []
  | O, _ => Undefined
  | S fuel', c :: cur' =>
    spec ← (if negb (c =? ch "%") then mret None else npf_parse_format_spec cur);
    match spec with
    | None => format_kinds_from fuel' cur'
    | Some (fs, rest) => ks ← format_kinds_from fuel' rest; mret (spec_kinds fs ++ ks)
    end
  end.

Definition format_kinds (format : list Z) : outcome (list kind) :=
  format_kinds_from (length format) format.

Lemma star_width_ok fs args more : spec_ok fs ->
  Forall2 kind_ok (if decide (field_width_opt fs = OPT_STAR) then [KWidth] else []) args ->
  exists fs', star_width fs (args ++ more) = Done (fs', more) /\ spec_ok fs' /\
    conv_spec fs' = conv_spec fs.
Proof.
  intros Hfs H. unfold star_width. destruct (decide (field_width_opt fs = OPT_STAR)) as [E|E].
  - inversion H as [|k v ks vs Hk Hks]; subst. inversion Hks; subst. destruct v as [z|]; [|done].
    cbn [app va_word]. run_outcome. pose proof (to_signed_sfits 32 z ltac:(lia)) as [? ?].
    cbn in Hk. destruct Hfs as (_ & _ & Hadj).
    destruct (Z.ltb_spec (to_signed 32 z) 0).
    + rewrite signed_done by (unfold sfits in *; lia). run_outcome. eexists. split; [done|].
      split; [|done]. split; simpl; [lia|]. split; [|done]. by rewrite E.
    + eexists. split; [done|]. split; [|done]. split; simpl; [lia|]. split; [|done]. by rewrite E.
  - inversion H; subst. exists fs. done.
Qed.

Local Ltac conv_done :=
  eexists _, _, _; split; [reflexivity|]; split; [exact I || reflexivity|]; split; [cbn; lia|reflexivity].

Lemma convert_ok fs args more n :
  Forall2 kind_ok (match conv_spec fs with
    | CONV_PERCENT => [] | CONV_STRING => [KText] | _ => [KNumber] end) args ->
  exists sign_c p ws, convert fs (args ++ more) n = Done (sign_c, p, ws, more) /\
    sign_ok sign_c p /\ 0 <= cbuf_len p /\ put_chars ws = [].
Proof.
  intros H. unfold convert.
  assert (forall k, Forall2 kind_ok [k] args -> exists v, args = [v] /\ kind_ok k v) as H1.
  { intros k Hk. inversion Hk as [|? v ? ? Hv Hn]; subst. inversion Hn; subst. by exists v. }
  destruct (conv_spec fs); try (destruct (H1 _ H) as ([z|s] & -> & Hk); try done; clear H1);
    cbn [app va_word va_string]; run_outcome.
  - inversion H; subst. conv_done.
  - conv_done.
  - conv_done.
  - conv_done.
  - destruct (binary_word (extract_unsigned (length_modifier fs) z)) as (len & Hlen & Hr & _);
      [apply extract_unsigned_fits|].
    repeat (case_decide; try done). rewrite Hlen. run_outcome. conv_done.
  - repeat (case_decide; try done); conv_done.
  - repeat (case_decide; try done); conv_done.
  - repeat (case_decide; try done); conv_done.
  - repeat (case_decide; try done); conv_done.
  - conv_done.
Qed.

(** A round of the loop that takes a specification, with good arguments. *)
Lemma spec_round fs args more n : spec_ok fs -> Forall2 kind_ok (spec_kinds fs) args ->
  exists fs' a sign_c p ws, star_width fs (args ++ more) = Done (fs', a) /\
    convert fs' a n = Done (sign_c, p, ws, more) /\ put_chars ws = [] /\
    Z.of_nat (length (emit fs' sign_c p)) =
      Z.max (field_width fs') (Z.of_nat (length (signed_payload sign_c p))).
Proof.
  intros Hfs H. unfold spec_kinds in H. apply Forall2_app_inv_l in H as (a1 & a2 & H1 & H2 & ->).
  rewrite <- app_assoc. destruct (star_width_ok fs a1 (a2 ++ more) Hfs H1) as (fs' & -> & Hfs' & Hc).
  rewrite <- Hc in H2. destruct (convert_ok fs' a2 more n H2) as (sign_c & p & ws & Ec & Hs & Hl & Hw).
  eexists _, _, _, _, _. split; [reflexivity|]. split; [exact Ec|]. split; [done|].
  by apply emit_length.
Qed.

Lemma put_chars_app es es' : put_chars (es ++ es') = put_chars es ++ put_chars es'.
Proof. apply omap_app. Qed.

Lemma put_chars_map l : put_chars (map (fun c => Put (to_signed 8 c)) l) = map (to_signed 8) l.
Proof. unfold put_chars. induction l as [|c l IH]; [done|]. cbn [map]. cbn. f_equal. exact IH. Qed.

(** The formatter with a count of any size. *)
Definition uncounted (format : list Z) (args : list va_value) : outcome (list event * Z) :=
  vpprintf_loop Done (length format) format args 0.

Lemma vpprintf_loop_typed fuel : forall cur ks args more n,
  (length cur <= fuel)%nat -> format_kinds_from fuel cur = Done ks -> Forall2 kind_ok ks args ->
  exists es, vpprintf_loop Done fuel cur (args ++ more) n = Done (es, n + Z.of_nat (length (put_chars es))).
Proof.
  induction fuel as [|fuel IH]; intros cur ks args more n Hlen Hk Ha.
  { destruct cur; [|simpl in Hlen; lia]. exists []. simpl. by rewrite Z.add_0_r. }
  destruct cur as [|c cur].
  { exists []. simpl. by rewrite Z.add_0_r. }
  cbn [format_kinds_from vpprintf_loop] in *.
  destruct (if negb (c =? ch "%") then mret None else npf_parse_format_spec (c :: cur))
    as [[[fs rest]|]| |] eqn:Ep; run_outcome; run_outcome_in Hk; try discriminate Hk.
  - destruct (negb (c =? ch "%")); [discriminate Ep|].
    apply parse_spec_ok in Ep as [Hfs Hrest]; [|done].
    destruct (format_kinds_from fuel rest) as [ks'| |] eqn:Ek; run_outcome_in Hk; try discriminate Hk.
    injection Hk as <-. apply Forall2_app_inv_l in Ha as (a1 & a2 & H1 & H2 & ->).
    rewrite <- app_assoc.
    destruct (spec_round fs a1 (a2 ++ more) n Hfs H1) as (fs' & a & sign_c & p & ws & -> & E & Hw & _).
    run_outcome. rewrite E. run_outcome.
    destruct (IH rest ks' a2 more (n + Z.of_nat (length (emit fs' sign_c p)))) as (es & ->);
      [simpl in *; lia|done|done|].
    run_outcome. eexists. f_equal. f_equal.
    rewrite !put_chars_app, put_chars_map, Hw, !length_app, length_map. simpl. lia.
  - destruct (IH cur ks args more (n + 1)) as (es & ->); [simpl in *; lia|done|done|].
    run_outcome. eexists. f_equal. f_equal.
    change (put_chars (Put (to_signed 8 c) :: es)) with (to_signed 8 c :: put_chars es). simpl length. lia.
Qed.

(** Counting in an [int] makes a difference only past the last one. *)
Lemma count_int fuel : forall cur args n es r, 0 <= n < 2 ^ 31 -> vpprintf_loop Done fuel cur args n = Done (es, r) ->
  n <= r /\ vpprintf_loop (signed 32) fuel cur args n = if r <? 2 ^ 31 then Done (es, r) else Undefined.
Proof.
  assert (forall n k, 0 <= n < 2 ^ 31 -> 0 <= k -> signed 32 (n + k) = if n + k <? 2 ^ 31 then Done (n + k) else Undefined) as Hs.
  { intros n k Hn Hk. destruct (Z.ltb_spec (n + k) (2 ^ 31)).
    - apply signed_done. unfold sfits. change (32 - 1) with 31. lia.
    - unfold signed. rewrite decide_False; [done|]. unfold sfits. change (32 - 1) with 31. lia. }
  assert (forall fuel cur args n es r, vpprintf_loop Done fuel cur args n = Done (es, r) -> n <= r) as Hle.
  { clear. intros fuel. induction fuel as [|fuel IH]; intros [|c cur] args n es r; cbn [vpprintf_loop];
      try (run_outcome; intros [= <- <-]; lia).
    destruct (if negb _ then _ else _) as [[[fs rest]|]| |]; run_outcome; [| |done..].
    - destruct (star_width fs args) as [[fs1 args1]| |]; run_outcome; [|done..].
      destruct (convert fs1 args1 n) as [[[[sign p] ws] args2]| |]; run_outcome; [|done..].
      destruct (vpprintf_loop Done fuel _ _ _) as [[es' r']| |] eqn:E; run_outcome; [|done..].
      intros [= _ <-]. apply IH in E. lia.
    - destruct (vpprintf_loop Done fuel _ _ _) as [[es' r']| |] eqn:E; run_outcome; [|done..].
      intros [= _ <-]. apply IH in E. lia. }
  induction fuel as [|fuel IH]; intros cur args n es r Hn E; (split; [by eapply Hle|]); destruct cur as [|c cur];
    cbn [vpprintf_loop] in *; try done; try (run_outcome_in E; injection E as <- <-; destruct (Z.ltb_spec n (2 ^ 31)); [done|lia]).
  destruct (if negb _ then _ else _) as [[[fs rest]|]| |]; run_outcome; run_outcome_in E; [| |done..].
  - destruct (star_width fs args) as [[fs1 args1]| |]; run_outcome; run_outcome_in E; [|done..].
    destruct (convert fs1 args1 n) as [[[[sign p] ws] args2]| |]; run_outcome; run_outcome_in E; [|done..].
    set (k := Z.of_nat (length (emit fs1 sign p))) in *. rewrite Hs by lia.
    destruct (vpprintf_loop Done fuel _ _ _) as [[es' r']| |] eqn:E'; run_outcome_in E; [|done..]. injection E as <- <-.
    pose proof (Hle _ _ _ _ _ _ E'). destruct (Z.ltb_spec (n + k) (2 ^ 31)); run_outcome.
    + assert (0 <= n + k < 2 ^ 31) as Hnk by lia. destruct (IH _ _ _ _ _ Hnk E') as [_ ->]. by destruct (r' <? 2 ^ 31).
    + destruct (Z.ltb_spec r' (2 ^ 31)); [lia|done].
  - rewrite Hs by lia.
    destruct (vpprintf_loop Done fuel _ _ _) as [[es' r']| |] eqn:E'; run_outcome_in E; [|done..]. injection E as <- <-.
    pose proof (Hle _ _ _ _ _ _ E'). destruct (Z.ltb_spec (n + 1) (2 ^ 31)); run_outcome.
    + assert (0 <= n + 1 < 2 ^ 31) as Hnk by lia. destruct (IH _ _ _ _ _ Hnk E') as [_ ->]. by destruct (r' <? 2 ^ 31).
    + destruct (Z.ltb_spec r' (2 ^ 31)); [lia|done].
Qed.

Lemma count_int_start format args es r : uncounted format args = Done (es, r) ->
  npf_vpprintf format args = if r <? 2 ^ 31 then Done (es, r) else Undefined.
Proof. intros E. by apply (count_int _ _ _ 0 es r ltac:(lia)) in E as [_ E]. Qed.

(** * The contract of the formatter *)

(** C38: when the arguments are those the format asks for, in number and kind,
    the formatter never reads past them and never overflows a width; it puts
    out the text it would with a count of any size and returns the number of
    its characters, and is undefined exactly when that number is not an [int].
    Extra arguments do no harm. *)
Theorem printf_typed (format : list Z) (ks : list kind) (args more : list va_value)
  (Hk : format_kinds format = Done ks) (Ha : Forall2 kind_ok ks args) :
  exists es, let n := Z.of_nat (length (put_chars es)) in uncounted format (args ++ more) = Done (es, n) /\
    npf_vpprintf format (args ++ more) = if n <? 2 ^ 31 then Done (es, n) else Undefined.
Proof.
  destruct (vpprintf_loop_typed (length format) format ks args more 0 (le_n _) Hk Ha) as [es E].
  rewrite Z.add_0_l in E. exists es. split; [exact E|]. by apply count_int_start.
Qed.

(** The line [dump_map] of [e820.c] prints for every entry. *)
Definition dump_line : list Z := chars "  %d: %016llx - %016llx = %d %s" ++ [10].

Lemma printf_typed_witness :
  exists es, npf_vpprintf dump_line
    ([Word 0; Word 0; Word 0x9fc00; Word 1; Str (Some (chars "RAM"))] ++ []) = Done (es, 49).
Proof.
  destruct (printf_typed dump_line [KNumber; KNumber; KNumber; KNumber; KText]
    [Word 0; Word 0; Word 0x9fc00; Word 1; Str (Some (chars "RAM"))] []) as (es & E & H).
  - vm_compute. reflexivity.
  - repeat (apply Forall2_cons; split; [exact I|]). apply Forall2_nil_2.
  - exists es. assert ((fun x => x.2) <$> uncounted dump_line ([Word 0; Word 0; Word 0x9fc00; Word 1; Str (Some (chars "RAM"))] ++ []) =
      Done 49) as El by (vm_compute; reflexivity).
    rewrite E in El. injection El as El. rewrite El in H. exact H.
Defined.

(** ** Numbers *)

(** The base of an unsigned conversion and the value it prints. *)
Definition unsigned_base (conv : conversion) : option Z :=
  match conv with
  | CONV_BINARY => Some 2
  | CONV_OCTAL => Some 8
  | CONV_UNSIGNED_INT => Some 10
  | CONV_HEX_INT | CONV_POINTER => Some 16
  | _ => None
  end.

Definition unsigned_value (fs : npf_format_spec) (z : Z) : Z :=
  if decide (conv_spec fs = CONV_POINTER) then wrap 64 z
  else extract_unsigned (length_modifier fs) z.

Lemma convert_unsigned fs base z more n : spec_ok fs -> unsigned_base (conv_spec fs) = Some base ->
  exists p, convert fs (Word z :: more) n = Done (0, p, [], more) /\ 1 <= cbuf_len p <= 64 /\
    (forall b, p = PBuf b -> cbuf_len p <= 22) /\ sign_ok 0 p /\
    read_number base (payload_chars p) = unsigned_value fs z.
Proof.
  intros (_ & _ & Hadj) Hb. unfold convert, unsigned_value.
  assert (forall v, fits 64 v -> forall base, 8 <= base <= 16 ->
    let p := PBuf (npf_utoa_rev 64 v base (case_adjust fs)) in
    1 <= cbuf_len p <= 64 /\ (forall b, p = PBuf b -> cbuf_len p <= 22) /\ sign_ok 0 p /\
    read_number base (payload_chars p) = v) as Hu.
  { intros v Hv bs Hbs. cbv zeta. destruct (utoa_word bs (case_adjust fs) v Hadj Hbs Hv) as [E L].
    split; [|split; [intros; cbn [cbuf_len]; lia|done]].
    cbn [cbuf_len]. pose proof (utoa_nonempty 63 v bs (case_adjust fs)). lia. }
  pose proof (extract_unsigned_fits (length_modifier fs) z) as Fe.
  pose proof (wrap_fits 64 z ltac:(lia)) as Fw.
  destruct (conv_spec fs) eqn:E; try discriminate Hb; injection Hb as <-;
    cbn [va_word]; run_outcome; repeat (case_decide; try done).
  - destruct (binary_word _ Fe) as (len & -> & Hr & Hv). run_outcome.
    eexists. split; [done|]. split; [done|]. split; [done|]. done.
  - eexists. split; [done|]. apply Hu; (done || lia).
  - eexists. split; [done|]. apply Hu; (done || lia).
  - eexists. split; [done|]. apply Hu; (done || lia).
  - eexists. split; [done|]. apply Hu; (done || lia).
Qed.

Lemma rev_value_zeros base l k : rev_value base (l ++ repeat (ch "0") k) = rev_value base l.
Proof.
  assert (rev_value base (repeat (ch "0") k) = 0) as Hz.
  { induction k as [|k IH]; [done|]. cbn [repeat rev_value]. rewrite IH.
    change (digit_value (ch "0")) with 0. lia. }
  induction l as [|c l IH]; [done|]. cbn [app rev_value]. by rewrite IH.
Qed.

Lemma read_number_zeros base l k : read_number base (repeat (ch "0") k ++ l) = read_number base l.
Proof.
  unfold read_number. rewrite rev_app_distr.
  assert (rev (repeat (ch "0") k) = repeat (ch "0") k) as ->; [|apply rev_value_zeros].
  induction k as [|k IH]; [done|]. cbn [repeat rev]. rewrite IH. symmetry. apply repeat_cons.
Qed.

(** A format that is one specification. *)
Lemma vpprintf_one s fs args n' sign_c p ws : 
  npf_parse_format_spec (ch "%" :: s) = Done (Some (fs, [])) -> field_width_opt fs <> OPT_STAR ->
  convert fs args 0 = Done (sign_c, p, ws, n') -> Z.of_nat (length (emit fs sign_c p)) < 2 ^ 31 ->
  npf_vpprintf (ch "%" :: s) args =
    Done (ws ++ map (fun c => Put (to_signed 8 c)) (emit fs sign_c p),
          Z.of_nat (length (emit fs sign_c p))).
Proof.
  intros Hp Ho Hc Hlen. unfold npf_vpprintf. cbn [length vpprintf_loop].
  rewrite Z.eqb_refl. cbn [negb]. rewrite Hp. run_outcome. unfold star_width.
  rewrite decide_False by done. run_outcome. rewrite Hc. run_outcome.
  rewrite signed_done by (unfold sfits; change (32 - 1) with 31; lia). run_outcome.
  destruct (length s); cbn [vpprintf_loop]; run_outcome; by rewrite app_nil_r.
Qed.

(** Printing a number and reading it back gives the number: for every
    unsigned conversion (binary, octal, decimal, hexadecimal, pointer) with no
    field width or with zero padding, the characters put out are the digits
    of the argument as the length modifier narrows it, and the digits fit the
    23-byte conversion buffer. *)
Lemma number_roundtrip (s : list Z) (fs : npf_format_spec) (base z : Z)
  (Hp : npf_parse_format_spec (ch "%" :: s) = Done (Some (fs, [])))
  (Hb : unsigned_base (conv_spec fs) = Some base)
  (Hw : field_width_opt fs = OPT_NONE \/
        (field_width_opt fs = OPT_LITERAL /\ leading_zero_pad fs = true /\ left_justified fs = false)) :
  exists out p, npf_vpprintf (ch "%" :: s) [Word z] =
      Done (map (fun c => Put (to_signed 8 c)) out, Z.of_nat (length out)) /\
    read_number base out = unsigned_value fs z /\
    Z.of_nat (length out) = Z.max (field_width fs) (cbuf_len p) /\
    (forall b, p = PBuf b -> cbuf_len p < 23).
Proof.
  destruct (parse_spec_ok (ch "%" :: s) fs [] ltac:(done) Hp) as [Hfs _].
  destruct (convert_unsigned fs base z [] 0 Hfs Hb) as (p & Hc & Hl & Hbuf & Hs & Hr).
  exists (emit fs 0 p), p. pose proof (emit_length fs 0 p Hfs Hs ltac:(lia)) as Hlen.
  split. { apply (vpprintf_one s fs [Word z] [] 0 p []); [done|destruct Hw as [-> | [-> _]]; done|done|].
           unfold signed_payload in Hlen. cbn [Z.eqb app] in Hlen. rewrite length_payload in Hlen by lia.
           destruct Hfs as (Hfw & _). lia. }
  pose proof (emit_shape fs 0 p Hfs Hs ltac:(lia)) as He. cbv zeta in He.
  unfold signed_payload in Hlen, He. cbn [Z.eqb app] in Hlen, He. rewrite length_payload in Hlen, He by lia.
  split; [|split; [done|intros b Hpb; specialize (Hbuf b Hpb); lia]].
  rewrite He. destruct Hw as [Ho|(Ho & -> & ->)]; [|by rewrite read_number_zeros].
  destruct Hfs as (_ & Hn & _). rewrite (Hn Ho). replace (Z.to_nat (0 - cbuf_len p)) with O by lia.
  cbn [repeat app]. rewrite app_nil_r. by destruct (left_justified fs), (leading_zero_pad fs).
Qed.

Lemma number_roundtrip_witness :
  exists out, npf_vpprintf (ch "%" :: chars "016llx") [Word 0x100000000] =
      Done (map (fun c => Put (to_signed 8 c)) out, Z.of_nat (length out)) /\
    read_number 16 out = 0x100000000.
Proof.
  destruct (number_roundtrip (chars "016llx")
    (FormatSpec 16 OPT_LITERAL false true 0 32 LEN_MOD_LARGE_LONG_LONG CONV_HEX_INT) 16 0x100000000)
    as (out & p & H1 & H2 & _).
  - vm_compute. reflexivity.
  - reflexivity.
  - right. auto.
  - exists out. split; [exact H1|]. rewrite H2. vm_compute. reflexivity.
Defined.

(** ** Into a buffer *)

Lemma bufputc_fold dst len l : forall m cur, 0 <= cur <= len ->
  fst (fold_left (npf_bufputc dst len) l (m, cur)) =
  store_bytes m (dst + cur) (take (Z.to_nat (len - cur)) l).
Proof.
  induction l as [|c l IH]; intros m cur Hcur; [by rewrite take_nil|].
  cbn [fold_left npf_bufputc]. destruct (Z.ltb_spec cur len).
  - rewrite IH by lia. replace (Z.to_nat (len - cur)) with (S (Z.to_nat (len - (cur + 1)))) by lia.
    cbn [take store_bytes]. f_equal. lia.
  - assert (cur = len) as -> by lia. rewrite Z.sub_diag.
    rewrite IH, Z.sub_diag by lia. done.
Qed.

Lemma store_bytes_lookup m a l i c : l !! i = Some c ->
  store_bytes m a l (a + Z.of_nat i) = wrap 8 c.
Proof.
  revert m a l; induction i as [|i IH]; intros m a [|b l] H; try discriminate H; cbn [store_bytes].
  - injection H as ->. rewrite store_bytes_out by lia. rewrite Z.add_0_r. apply store8_eq.
  - replace (a + Z.of_nat (S i)) with (a + 1 + Z.of_nat i) by lia. by apply IH.
Qed.

(** The prefix of a text that a terminator at [k] leaves readable. *)
Lemma terminated_prefix m a l k : (k <= length l)%nat ->
  load_bytes (store8 (store_bytes m a l) (a + Z.of_nat k) 0) a k = take k (map (wrap 8) l).
Proof.
  intros Hk. apply list_eq. intros i. destruct (decide (i < k)%nat) as [Hi|Hi].
  - rewrite lookup_load_bytes, lookup_take_lt, list_lookup_fmap by done.
    destruct (lookup_lt_is_Some_2 l i ltac:(lia)) as [c Hc]. rewrite Hc. cbn. f_equal.
    rewrite store8_ne by lia. by apply store_bytes_lookup.
  - rewrite !lookup_ge_None_2; [done| |rewrite length_load_bytes; lia].
    rewrite length_take. lia.
Qed.

Lemma vsnprintf_value m buffer bufsz format args es : buffer <> 0 -> 0 < bufsz ->
  npf_vpprintf format args = Done (es, Z.of_nat (length (put_chars es))) ->
  let n := Z.of_nat (length (put_chars es)) in
  npf_vsnprintf m buffer bufsz format args =
  Done (store8 (store_bytes m buffer (take (Z.to_nat bufsz) (put_chars es)))
          (buffer + Z.min (wrap 32 n) (bufsz - 1)) 0, es, n).
Proof.
  intros Hb Hsz Hrun n. unfold npf_vsnprintf. rewrite Hrun. run_outcome.
  destruct (Z.eqb_spec buffer 0); [done|]. destruct (Z.eqb_spec bufsz 0); [lia|]. cbn [negb andb].
  rewrite bufputc_fold, Z.add_0_r, Z.sub_0_r by lia. fold n.
  destruct (Z.ltb_spec n 0); [lia|]. done.
Qed.

(** [npf_vsnprintf], given a format and arguments of the types it asks for
    and a text whose length is an [int], returns that length and never writes
    outside its buffer, which holds the text, cut to the room there is, and a
    terminator right after it. *)
Lemma vsnprintf_bounded (m : mem) (buffer bufsz : Z) (format : list Z) (ks : list kind)
  (args : list va_value) (Hb : buffer <> 0) (Hsz : 0 < bufsz)
  (Hk : format_kinds format = Done ks) (Ha : Forall2 kind_ok ks args) :
  exists es, let n := Z.of_nat (length (put_chars es)) in
    let k := Z.min n (bufsz - 1) in
    uncounted format args = Done (es, n) /\
    (n < 2 ^ 31 -> exists m', npf_vsnprintf m buffer bufsz format args = Done (m', es, n) /\
      (forall a, ~ (buffer <= a < buffer + bufsz) -> m' a = m a) /\
      load_bytes m' buffer (Z.to_nat k) = take (Z.to_nat k) (map (wrap 8) (put_chars es)) /\
      m' (buffer + k) = 0).
Proof.
  destruct (vpprintf_loop_typed (length format) format ks args [] 0 (le_n _) Hk Ha) as [es Hu].
  rewrite app_nil_r, Z.add_0_l in Hu. exists es. cbv zeta. split; [exact Hu|]. intros Hn.
  set (n := Z.of_nat (length (put_chars es))) in *.
  assert (npf_vpprintf format args = Done (es, n)) as Hrun.
  { rewrite (count_int_start _ _ _ _ Hu). by destruct (Z.ltb_spec n (2 ^ 31)); [|lia]. }
  eexists. split; [exact (vsnprintf_value m _ _ _ _ es Hb Hsz Hrun)|]. fold n.
  rewrite wrap_small by (unfold fits; lia). split; [|split; [|by rewrite store8_eq]].
  - intros a Ha'. rewrite store8_ne by lia. apply store_bytes_out. rewrite length_take. lia.
  - set (k := Z.min n (bufsz - 1)).
    replace (buffer + k) with (buffer + Z.of_nat (Z.to_nat k)) by lia.
    rewrite terminated_prefix by (rewrite length_take; lia).
    rewrite <- !fmap_take, take_take. do 2 f_equal. lia.
Qed.

Lemma vsnprintf_bounded_witness :
  exists m' es, npf_vsnprintf (fun _ => 0) 0x1000 8 dump_line
      [Word 0; Word 0; Word 0x9fc00; Word 1; Str (Some (chars "RAM"))] = Done (m', es, 49) /\ m' 0x1007 = 0.
Proof.
  destruct (vsnprintf_bounded (fun _ => 0) 0x1000 8 dump_line [KNumber; KNumber; KNumber; KNumber; KText]
    [Word 0; Word 0; Word 0x9fc00; Word 1; Str (Some (chars "RAM"))]) as (es & E & H); [lia|lia| | |].
  - vm_compute. reflexivity.
  - repeat (apply Forall2_cons; split; [exact I|]). apply Forall2_nil_2.
  - assert ((fun x => x.2) <$> uncounted dump_line [Word 0; Word 0; Word 0x9fc00; Word 1; Str (Some (chars "RAM"))] =
      Done 49) as El by (vm_compute; reflexivity).
    rewrite E in El. injection El as El. rewrite El in H. destruct (H ltac:(lia)) as (m' & H1 & _ & _ & H2).
    exists m', es. split; [exact H1|exact H2].
Defined.

(** ** The console *)

Lemma vpprintf_plain fuel : forall l args n, (length l <= fuel)%nat ->
  Forall (fun c => 0 < c < 128 /\ c <> ch "%") l ->
  vpprintf_loop Done fuel l args n = Done (map Put l, n + Z.of_nat (length l)).
Proof.
  induction fuel as [|fuel IH]; intros [|c l] args n Hf Hl; try (simpl in Hf; lia);
    cbn [vpprintf_loop map length]; [by rewrite Z.add_0_r..|].
  apply Forall_cons in Hl as [[Hc Hp] Hl]. destruct (Z.eqb_spec c (ch "%")); [done|].
  run_outcome. rewrite IH by (done || (simpl in Hf; lia)). run_outcome.
  rewrite to_signed_small by (unfold sfits; lia).
  by replace (n + Z.of_nat (S (length l))) with (n + 1 + Z.of_nat (length l)) by lia.
Qed.

(** Plain text reaches the console as it is, a carriage return before each
    line feed. *)
Lemma printf_plain l : Forall (fun c => 0 < c < 128 /\ c <> ch "%") l -> Z.of_nat (length l) < 2 ^ 31 ->
  printf true l [] = Done (flat_map (fun c => if c =? 10 then [[13; 0]; [10; 0]] else [[c; 0]]) l,
                           Z.of_nat (length l)).
Proof.
  intros Hl Hn. unfold printf. rewrite (count_int_start l [] (map Put l) (Z.of_nat (length l))).
  2: { unfold uncounted. rewrite vpprintf_plain by done. done. }
  destruct (Z.ltb_spec (Z.of_nat (length l)) (2 ^ 31)); [|lia]. run_outcome. clear Hn H.
  f_equal. f_equal. unfold put_chars.
  induction Hl as [|c l [Hc Hp] Hl IH]; [done|]. cbn. rewrite IH. unfold _putchar.
  rewrite wrap_small by (unfold fits; lia). destruct (Z.eqb_spec c 10) as [->|];
    cbn; rewrite ?wrap_small by (unfold fits; lia); reflexivity.
Qed.

(** The arguments of three [DEBUG] calls as the preprocessor writes them:
    [e820.c:47], [video.c:241] and [video.c:566]. *)
Definition quoted (s : string) : list Z := [34] ++ chars s ++ [34].

Definition e820_overflow_text : list Z := quoted "e820_map overflow\n".

Definition oprom_text : list Z :=
  quoted "GetPciLegacyRom - OpRom not match (%04x-%04x)\n" ++ chars ", (UINTN)VendorId, (UINTN)DeviceId".

Definition disconnect_text : list Z :=
  quoted "DisconnectController failed: %d\n" ++ chars ", Status".

(** The messages of [DEBUG] reach the console as C source text: a message
    without conversions is printed with its quotes and with the two
    characters of its escape, no new line, and the messages with conversions
    read variadic arguments that were never passed. *)
Lemma debug_prints_source :
  DEBUG_PRINT true DEBUG_ERROR e820_overflow_text = Done (map (fun c => [c; 0]) e820_overflow_text) /\
  forall conout, DEBUG_PRINT conout DEBUG_ERROR oprom_text = Undefined /\
    DEBUG_PRINT conout DEBUG_ERROR disconnect_text = Undefined.
Proof.
  split; [vm_compute; reflexivity|]. intros conout. split; vm_compute; reflexivity.
Qed.
