(* ===== verification/VgaState.v ===== *)
(** The state of the video BIOS CSMWrap supplies ([seabios/vgasrc], built with
    the linear-framebuffer driver).

    The video BIOS is 16-bit code.  Its C functions run with [%ds] equal to
    [%ss] ([ENTRY_ARG_VGA] of [vgaentry.S]), so a variable of the image is
    reached through [GET_GLOBAL] and [SET_VGA], which name the code segment.
    Those variables are the record [vga].  Everything else is flat memory: the
    interrupt vectors, the BIOS data area, fonts, buffers of the caller, the
    framebuffer.  An access of the source that names such a variable without
    the macros goes to the offset of the variable in the {e stack} segment;
    it is modelled as that access ([dget], [dset]).  The stack segment of a
    caller is taken not to overlap the variables of the image.

    Where the linker puts things is the class [Layout]. *)

From stdpp Require Import base numbers list.
From Stdlib Require Import ZArith Lia.
From S2P Require Import Prelude Memory CcInt.

(** * Modes *)

Definition MM_TEXT : Z := 0x00.
Definition MM_CGA : Z := 0x01.
Definition MM_PLANAR : Z := 0x03.
Definition MM_PACKED : Z := 0x04.
Definition MM_DIRECT : Z := 0x06.
Definition MM_YUV : Z := 0x07.

Definition MF_LEGACY : Z := 0x0001.
Definition MF_GRAYSUM : Z := 0x0002.
Definition MF_NOPALETTE : Z := 0x0008.
Definition MF_LINEARFB : Z := 0x4000.
Definition MF_NOCLEARMEM : Z := 0x8000.
Definition MF_VBEFLAGS : Z := 0xfe00.

Definition SR_HARDWARE : Z := 0x0001.
Definition SR_BDA : Z := 0x0002.
Definition SR_DAC : Z := 0x0004.
Definition SR_REGISTERS : Z := 0x0008.
Definition SR_SAVE : Z := 0x0100.
Definition SR_RESTORE : Z := 0x0200.

Definition SEG_IVT : Z := 0x0000.
Definition SEG_BDA : Z := 0x0040.
Definition SEG_GRAPH : Z := 0xA000.
Definition SEG_CTEXT : Z := 0xB800.
Definition SEG_MTEXT : Z := 0xB000.
Definition SEG_BIOS : Z := 0xf000.

(** [struct vgamode_s]: 12 bytes with its padding. *)
Record vgamode_s := mkMode {
  memmodel : Z;
  width : Z;
  height : Z;
  depth : Z;
  cwidth : Z;
  cheight : Z;
  sstart : Z
}.

Definition zero_mode : vgamode_s := mkMode 0 0 0 0 0 0 0.

(** [struct generic_svga_mode]: the mode number and 12 bytes. *)
Record generic_svga_mode := mkSvga {
  mode : Z;
  info : vgamode_s
}.

#[export] Instance vgamode_eq_dec : EqDecision vgamode_s.
Proof. solve_decision. Defined.
#[export] Instance svga_eq_dec : EqDecision generic_svga_mode.
Proof. solve_decision. Defined.

(** * The variables of the image *)

Record vga := mkVga {
  CBmode : Z;
  CBmodeinfo : vgamode_s;
  CBemulinfo : vgamode_s;
  CBlinelength : Z;
  svga_modes : list generic_svga_mode;
  svga_mcount : Z;
  VBE_total_memory : Z;
  VBE_capabilities : Z;
  VBE_framebuffer : Z;
  VBE_win_granularity : Z;
  VBE_edid : list Z;
  g_last_vbe_mode_info : list Z;
  HaveRunInit : Z;
  ExtraStackSeg : Z;
  Timer_Hook_Resume : Z;
  rom_header_checksum : Z
}.

(** The variables the source reaches without the macros. *)
Inductive direct :=
| CBred_size | CBgreen_size | CBblue_size | CBred_pos | CBgreen_pos | CBblue_pos
| g_red_mask_size | g_green_mask_size | g_blue_mask_size
| g_red_mask_pos | g_green_mask_pos | g_blue_mask_pos
| g_shadow_ptr | g_dst_ptr | g_src_pitch | g_dst_pitch | g_width | g_height | g_src_bpp | g_dst_bpp
| cbvga_palette | cbvga_palette_argb | default_vga256_palette | direct_vbe_mode_info.

#[export] Instance direct_eq_dec : EqDecision direct.
Proof. solve_decision. Defined.

(** * Where the linker puts things *)

Class Layout := {
  (** [get_global_seg()]: the segment the image runs in. *)
  global_seg : Z;
  off_CBmodeinfo : Z;
  off_CBemulinfo : Z;
  off_svga_modes : Z;
  (** The bytes at an offset that is none of the mode descriptions. *)
  other_mode : Z -> vgamode_s;
  vgafont8 : Z;
  vgafont14 : Z;
  vgafont16 : Z;
  vgafont14alt : Z;
  vgafont16alt : Z;
  VBE_OEM_STRING : Z;
  VBE_VENDOR_STRING : Z;
  VBE_PRODUCT_STRING : Z;
  VBE_REVISION_STRING : Z;
  entry_10 : Z;
  entry_10_extrastack : Z;
  entry_104f05 : Z;
  entry_timer_hook : Z;
  entry_timer_hook_extrastack : Z;
  off_static_functionality : Z;
  (** The 8-bit sum of the image without its checksum byte. *)
  image_sum : vga -> Z;
  direct_offset : direct -> Z
}.

(** * Segmented memory *)

Definition far (seg off : Z) : Z := 16 * seg + off.

(** [GET_FARVAR] and [SET_FARVAR] of an unsigned of [n] bytes. *)
Definition GET_FARVAR (n : nat) (m : mem) (seg off : Z) : Z := load n m (far seg off).
Definition SET_FARVAR (n : nat) (m : mem) (seg off v : Z) : mem := store n m (far seg off) v.

Definition GET_BDA (n : nat) (m : mem) (off : Z) : Z := GET_FARVAR n m SEG_BDA off.
Definition SET_BDA (n : nat) (m : mem) (off v : Z) : mem := SET_FARVAR n m SEG_BDA off v.

(** A [segoff_s] as one doubleword: the offset in the low half. *)
Definition SEGOFF (seg off : Z) : Z := Z.lor (Z.shiftl (u16 seg) 16) (u16 off).
Definition GET_IVT (m : mem) (vector : Z) : Z := GET_FARVAR 4 m SEG_IVT (4 * vector).
Definition SET_IVT (m : mem) (vector v : Z) : mem := SET_FARVAR 4 m SEG_IVT (4 * vector) v.
Definition so_seg (so : Z) : Z := u16 (Z.shiftr so 16).
Definition so_offset (so : Z) : Z := u16 so.

(** [memset_far], [memset16_far] and [memcpy_far]: the string instructions
    with 16-bit registers, whose offsets wrap inside the segment. *)
Fixpoint stos (w : nat) (k : nat) (m : mem) (seg d c : Z) : mem :=
  match k with
  | O => m
  | S k' => stos w k' (SET_FARVAR w m seg (u16 d) c) seg (d + Z.of_nat w) c
  end.

Definition memset_far (m : mem) (seg d c len : Z) : mem := stos 1 (Z.to_nat (u16 len)) m seg d c.
Definition memset16_far (m : mem) (seg d c len : Z) : mem := stos 2 (Z.to_nat (u16 (len / 2))) m seg d c.

Fixpoint memcpy_far_loop (k : nat) (m : mem) (dseg d sseg s : Z) : mem :=
  match k with
  | O => m
  | S k' =>
    memcpy_far_loop k' (store8 m (far dseg (u16 d)) (m (far sseg (u16 s)))) dseg (d + 1) sseg (s + 1)
  end.

Definition memcpy_far (m : mem) (dseg d sseg s len : Z) : mem :=
  memcpy_far_loop (Z.to_nat (u16 len)) m dseg d sseg s.

(** * The BIOS data area (the offsets of [std/bda.h] and [struct vga_bda_s]) *)

Definition equipment_list_flags : Z := 0x10.
Definition video_mode : Z := 0x49.
Definition video_cols : Z := 0x4a.
Definition video_pagesize : Z := 0x4c.
Definition video_pagestart : Z := 0x4e.
Definition cursor_pos (page : Z) : Z := 0x50 + 2 * page.
Definition cursor_type : Z := 0x60.
Definition video_page : Z := 0x62.
Definition crtc_address : Z := 0x63.
Definition video_msr : Z := 0x65.
Definition video_pal : Z := 0x66.
Definition timer_counter : Z := 0x6c.
Definition video_rows : Z := 0x84.
Definition char_height : Z := 0x85.
Definition video_ctl : Z := 0x87.
Definition video_switches : Z := 0x88.
Definition modeset_ctl : Z := 0x89.
Definition dcc_index : Z := 0x8a.
Definition ext_flags : Z := 0xb9.
Definition ext_vbe_mode : Z := 0xba.
Definition ext_vgamode_offset : Z := 0xbc.

Definition BF_PM_MASK : Z := 0x0f.
Definition BF_EMULATE_TEXT : Z := 0x10.
Definition BF_SWCURSOR : Z := 0x20.
Definition BF_EXTRA_STACK : Z := 0x40.

(** [MASK_BDA_EXT(flags, off, on)]. *)
Definition MASK_BDA_flags (m : mem) (off on : Z) : mem :=
  SET_BDA 1 m ext_flags (Z.lor (Z.land (GET_BDA 1 m ext_flags) (u8 (Z.lnot off))) on).

Definition vga_emulate_text (m : mem) : bool :=
  negb (Z.land (GET_BDA 1 m ext_flags) BF_EMULATE_TEXT =? 0).

Section layout.
Context {L : Layout}.

(** * Variables of the stack segment *)

Definition daddr (ss : Z) (v : direct) : Z := far ss (direct_offset v).
Definition dget (n : nat) (ss : Z) (v : direct) (m : mem) : Z := load n m (daddr ss v).
Definition dset (n : nat) (ss : Z) (v : direct) (x : Z) (m : mem) : mem := store n m (daddr ss v) x.

(** The bytes such a variable has, and the set of all of them. *)
Definition direct_size (v : direct) : Z :=
  match v with
  | CBred_size | CBgreen_size | CBblue_size | CBred_pos | CBgreen_pos | CBblue_pos
  | g_red_mask_size | g_green_mask_size | g_blue_mask_size
  | g_red_mask_pos | g_green_mask_pos | g_blue_mask_pos => 1
  | g_shadow_ptr | g_dst_ptr | g_src_pitch | g_dst_pitch
  | g_width | g_height | g_src_bpp | g_dst_bpp => 4
  | cbvga_palette | default_vga256_palette => 768
  | cbvga_palette_argb => 1024
  | direct_vbe_mode_info => 256
  end.

Definition in_direct (ss x : Z) : Prop := exists v, daddr ss v <= x < daddr ss v + direct_size v.

Lemma dset_frame n ss v z m x : Z.of_nat n <= direct_size v -> ~ in_direct ss x -> dset n ss v z m x = m x.
Proof.
  intros Hn Hx. unfold dset. apply store_out.
  destruct (decide (daddr ss v <= x < daddr ss v + direct_size v)); [exfalso; apply Hx; by exists v|lia].
Qed.

(** * Pointers to modes *)

Definition svga_offset (i : nat) : Z := off_svga_modes + 14 * Z.of_nat i + 2.

(** The [i] for which an offset points into [svga_modes]. *)
Definition svga_index (n : nat) (off : Z) : option nat :=
  let d := off - off_svga_modes - 2 in
  if (0 <=? d) && (d <? 14 * Z.of_nat n) && (d mod 14 =? 0) then Some (Z.to_nat (d / 14)) else None.

(** [GET_GLOBAL] of the mode a 16-bit offset points to. *)
Definition mode_at (V : vga) (off : Z) : vgamode_s :=
  if off =? off_CBmodeinfo then CBmodeinfo V
  else if off =? off_CBemulinfo then CBemulinfo V
  else match svga_index (length (svga_modes V)) off with
       | Some i => match svga_modes V !! i with Some g => info g | None => zero_mode end
       | None => other_mode off
       end.

(** What the theorems use of the linker: the mode descriptions do not overlap
    and their offsets are non-zero 16-bit numbers. *)
Definition modes_placed (n : nat) : Prop :=
  0 < off_CBmodeinfo < 2 ^ 16 /\ 0 < off_CBemulinfo < 2 ^ 16 /\
  off_CBmodeinfo <> off_CBemulinfo /\
  0 <= off_svga_modes /\ off_svga_modes + 14 * Z.of_nat n <= 2 ^ 16 /\
  (forall i, (i < n)%nat -> svga_offset i <> off_CBmodeinfo /\ svga_offset i <> off_CBemulinfo).

Lemma svga_index_offset n i : (i < n)%nat -> svga_index n (svga_offset i) = Some i.
Proof.
  intros Hi. unfold svga_index, svga_offset.
  replace (off_svga_modes + 14 * Z.of_nat i + 2 - off_svga_modes - 2) with (Z.of_nat i * 14) by lia.
  rewrite Z.mod_mul, Z.div_mul, Nat2Z.id by lia.
  destruct (Z.leb_spec 0 (Z.of_nat i * 14)); [|lia].
  destruct (Z.ltb_spec (Z.of_nat i * 14) (14 * Z.of_nat n)); [done|lia].
Qed.

Lemma mode_at_svga V i g : modes_placed (length (svga_modes V)) ->
  svga_modes V !! i = Some g -> mode_at V (svga_offset i) = info g.
Proof.
  intros (_ & _ & _ & _ & _ & H) Hi. pose proof (lookup_lt_Some _ _ _ Hi) as Hl.
  destruct (H i Hl) as [H1 H2]. unfold mode_at.
  destruct (Z.eqb_spec (svga_offset i) off_CBmodeinfo); [done|].
  destruct (Z.eqb_spec (svga_offset i) off_CBemulinfo); [done|].
  by rewrite svga_index_offset, Hi.
Qed.

End layout.

(** * Lemmas on far memory *)

Lemma load1 m a : load 1 m a = m a.
Proof. unfold load. simpl. lia. Qed.

(** A loop [for (i = 0; i < n; i++)] whose body may stop it. *)
Fixpoint upto {A : Type} (n : nat) (i : Z) (body : Z -> A -> A) (a : A) : A :=
  match n with
  | O => a
  | S n' => upto n' (i + 1) body (body i a)
  end.

Lemma upto_invariant {A : Type} (P : Z -> A -> Prop) n i body (a : A) :
  P i a -> (forall j b, i <= j < i + Z.of_nat n -> P j b -> P (j + 1) (body j b)) ->
  P (i + Z.of_nat n) (upto n i body a).
Proof.
  revert i a; induction n as [|n IH]; intros i a Ha Hb; cbn [upto].
  - by rewrite Z.add_0_r.
  - replace (i + Z.of_nat (S n)) with (i + 1 + Z.of_nat n) by lia.
    apply IH; [apply Hb; [lia|done]|]. intros j b Hj. apply Hb. lia.
Qed.

(** A block of a segment that does not wrap. *)
Definition in_segment (d len : Z) : Prop := 0 <= d /\ 0 <= len < 2 ^ 16 /\ d + len <= 2 ^ 16.

Lemma stos_out w k m seg d c x : 0 <= d -> d + Z.of_nat k * Z.of_nat w <= 2 ^ 16 ->
  x < far seg d \/ far seg d + Z.of_nat k * Z.of_nat w <= x -> stos w k m seg d c x = m x.
Proof.
  revert m d; induction k as [|k IH]; intros m d Hd Hw Hx; [done|]. cbn [stos].
  assert (far seg (d + Z.of_nat w) = far seg d + Z.of_nat w) by (unfold far; lia).
  rewrite IH by lia. destruct w as [|w]; [done|].
  unfold SET_FARVAR. rewrite wrap_small by (unfold fits; lia). apply store_out. lia.
Qed.

Lemma memset_far_out m seg d c len x : in_segment d len ->
  x < far seg d \/ far seg d + len <= x -> memset_far m seg d c len x = m x.
Proof.
  intros (Hd & Hl & Hs) Hx. unfold memset_far. rewrite wrap_small by (unfold fits; lia).
  apply stos_out; lia.
Qed.

Lemma memset_far_in m seg d c len x : in_segment d len ->
  far seg d <= x < far seg d + len -> memset_far m seg d c len x = u8 c.
Proof.
  intros (Hd & Hl & Hs). unfold memset_far. rewrite wrap_small by (unfold fits; lia).
  remember (Z.to_nat len) as k eqn:Hk. assert (len = Z.of_nat k) as -> by lia. clear Hk.
  revert m d Hd Hs; induction k as [|k IH]; intros m d Hd Hs Hx; [lia|]. cbn [stos].
  assert (far seg (d + Z.of_nat 1) = far seg d + 1) by (unfold far; lia).
  destruct (decide (x = far seg d)) as [->|].
  - rewrite stos_out by lia. unfold SET_FARVAR, store. rewrite wrap_small by (unfold fits; lia).
    cbn. by rewrite store8_eq, wrap_wrap.
  - apply IH; lia.
Qed.

(** [memcpy_far] moves a block when the areas do not overlap. *)
Lemma memcpy_far_loop_out k m dseg d sseg s x : 0 <= d -> d + Z.of_nat k <= 2 ^ 16 ->
  x < far dseg d \/ far dseg d + Z.of_nat k <= x -> memcpy_far_loop k m dseg d sseg s x = m x.
Proof.
  revert m d s; induction k as [|k IH]; intros m d s Hd Hk Hx; [done|]. cbn [memcpy_far_loop].
  assert (far dseg (d + 1) = far dseg d + 1) by (unfold far; lia).
  rewrite IH by lia. rewrite wrap_small by (unfold fits; lia). apply store8_ne. lia.
Qed.

Lemma memcpy_far_out m dseg d sseg s len x : in_segment d len ->
  x < far dseg d \/ far dseg d + len <= x -> memcpy_far m dseg d sseg s len x = m x.
Proof.
  intros (Hd & Hl & Hs) Hx. unfold memcpy_far. rewrite wrap_small by (unfold fits; lia).
  apply memcpy_far_loop_out; lia.
Qed.

Lemma memcpy_far_loop_in k m dseg d sseg s i : mem_ok m ->
  0 <= d -> d + Z.of_nat k <= 2 ^ 16 -> 0 <= s -> s + Z.of_nat k <= 2 ^ 16 ->
  (far dseg d + Z.of_nat k <= far sseg s \/ far sseg s + Z.of_nat k <= far dseg d) ->
  0 <= i < Z.of_nat k -> memcpy_far_loop k m dseg d sseg s (far dseg d + i) = m (far sseg s + i).
Proof.
  revert m d s i; induction k as [|k IH]; intros m d s i Hok Hd Hdk Hs Hsk Hsep Hi; [lia|].
  cbn [memcpy_far_loop].
  assert (far dseg (d + 1) = far dseg d + 1) by (unfold far; lia).
  assert (far sseg (s + 1) = far sseg s + 1) by (unfold far; lia).
  rewrite !(wrap_small 16) by (unfold fits; lia).
  destruct (decide (i = 0)) as [->|].
  - rewrite memcpy_far_loop_out by lia. rewrite !Z.add_0_r, store8_eq. by apply wrap_small.
  - replace (far dseg d + i) with (far dseg (d + 1) + (i - 1)) by lia.
    rewrite IH by (lia || by apply store8_ok).
    rewrite store8_ne by lia. f_equal. lia.
Qed.

Lemma memcpy_far_load m dseg d sseg s len n i : mem_ok m -> in_segment d len -> in_segment s len ->
  (far dseg d + len <= far sseg s \/ far sseg s + len <= far dseg d) ->
  0 <= i -> i + Z.of_nat n <= len ->
  load n (memcpy_far m dseg d sseg s len) (far dseg d + i) = load n m (far sseg s + i).
Proof.
  intros Hok (Hd & Hl & Hdl) (Hs & _ & Hsl) Hsep Hi Hn. unfold load. f_equal. apply load_bytes_shift.
  intros j Hj. rewrite <- !Z.add_assoc. unfold memcpy_far. rewrite wrap_small by (unfold fits; lia).
  apply memcpy_far_loop_in; [done|lia..].
Qed.

(** * Reading the data area after a run of writes *)

Lemma bda_other m n off v k o : o + Z.of_nat k <= off \/ off + Z.of_nat n <= o ->
  GET_BDA k (SET_BDA n m off v) o = GET_BDA k m o.
Proof. intros Ho. unfold GET_BDA, SET_BDA, GET_FARVAR, SET_FARVAR. apply load_store_other. unfold far. lia. Qed.

Lemma bda_same m n off v : GET_BDA n (SET_BDA n m off v) off = wrap (8 * Z.of_nat n) v.
Proof. apply load_store_same. Qed.

Definition clear_of (k : nat) (o : Z) (n : nat) (off : Z) : bool :=
  (o + Z.of_nat k <=? off) || (off + Z.of_nat n <=? o).

Lemma bda_skip m k o n off v : clear_of k o n off = true -> GET_BDA k (SET_BDA n m off v) o = GET_BDA k m o.
Proof.
  unfold clear_of. intros H. apply bda_other. apply orb_prop in H as [H|H]; apply Z.leb_le in H; lia.
Qed.
