(* ===== verification/VgaPal.v ===== *)
(** The palette emulator of the video BIOS
    ([seabios/vgasrc/cbvga_palette_emulator.c]).

    The emulator keeps a 256-entry DAC, a table of 32-bit colours built from
    it, the geometry of the source and the destination and the masks of the
    destination.  All of it is reached without the segment macros, so it lives
    at the offsets of the variables in the stack segment [ss], and a pointer
    the code follows is an offset of that segment too.  [cbvga_pal_flush]
    converts a shadow buffer to the framebuffer. *)

From stdpp Require Import base numbers list.
From Stdlib Require Import ZArith Lia.
From S2P Require Import Prelude Memory SeaString CcInt VgaState.

(** * Palettes *)

Definition rgb : Type := Z * Z * Z.

(** [default_vga_palette]: six bits a channel. *)
Definition default_vga_palette : list rgb :=
  [(0, 0, 0); (0, 0, 42); (0, 42, 0); (0, 42, 42); (42, 0, 0); (42, 0, 42); (42, 21, 0); (42, 42, 42);
   (21, 21, 21); (21, 21, 63); (21, 63, 21); (21, 63, 63); (63, 21, 21); (63, 21, 63); (63, 63, 21);
   (63, 63, 63)].

(** What [init_vga256_palette] fills [default_vga256_palette] with: the 16
    colours, a cube of six levels a channel and a ramp of 24 greys. *)
Definition cube : list rgb :=
  r ← seqZ 0 6; g ← seqZ 0 6; b ← seqZ 0 6;
  [(Z.quot (r * 63) 5, Z.quot (g * 63) 5, Z.quot (b * 63) 5)].

Definition greys : list rgb := (fun i => let v := u8 (Z.quot (i * 63) 23) in (v, v, v)) <$> seqZ 0 24.

Definition vga256_palette : list rgb := default_vga_palette ++ cube ++ greys.

(** Stores of a palette, three bytes an entry. *)
Definition put_rgb (m : mem) (a : Z) (c : rgb) : mem :=
  let '(r, g, b) := c in store8 (store8 (store8 m a r) (a + 1) g) (a + 2) b.

Fixpoint put_palette (m : mem) (a : Z) (l : list rgb) : mem :=
  match l with
  | [] => m
  | c :: l' => put_palette (put_rgb m a c) (a + 3) l'
  end.

(** The search of [nearest_vga16_index] and [nearest_vga256_index]: the first
    entry at the least squared distance.  The channels of the colour are taken
    red first. *)
Definition distance (c : Z) (p : rgb) : Z :=
  let '(pr, pg, pb) := p in
  let dr := u8 c - Z.shiftl pr 2 in
  let dg := u8 (Z.shiftr c 8) - Z.shiftl pg 2 in
  let db := u8 (Z.shiftr c 16) - Z.shiftl pb 2 in
  dr * dr + dg * dg + db * db.

Fixpoint nearest_loop (l : list rgb) (i best bestdist c : Z) : Z :=
  match l with
  | [] => best
  | p :: l' =>
    let dist := distance c p in
    if dist <? bestdist then nearest_loop l' (i + 1) i dist c
    else nearest_loop l' (i + 1) best bestdist c
  end.

Definition nearest_vga16_index (c : Z) : Z := u8 (nearest_loop default_vga_palette 0 0 999999 c).

Fixpoint get_palette (m : mem) (a : Z) (n : nat) : list rgb :=
  match n with
  | O => []
  | S n' => (m a, m (a + 1), m (a + 2)) :: get_palette m (a + 3) n'
  end.

Definition nearest_vga256_index (m : mem) (table c : Z) : Z :=
  u8 (nearest_loop (get_palette m table 256) 0 0 999999 c).

(** * Channels *)

Definition expand_chan (pixel pos size : Z) : outcome Z :=
  if size =? 0 then mret 0
  else
    one ← shl 32 1 size;
    let mask := u32 (one - 1) in
    v ← shr 32 pixel pos;
    let val := Z.land v mask in
    q ← udiv (u32 (val * 255)) mask;
    mret (u8 q).

Definition packed_to_argb (pixel rpos rsize gpos gsize bpos bsize : Z) : outcome Z :=
  r ← expand_chan pixel rpos rsize;
  g ← expand_chan pixel gpos gsize;
  b ← expand_chan pixel bpos bsize;
  mret (Z.lor (Z.lor (Z.lor 0xFF000000 (Z.shiftl r 16)) (Z.shiftl g 8)) b).

(** [pack_rgb16] of [cbvga.c]: the shift by [8 - size] is undefined for a
    channel of more than eight bits. *)
Definition pack_chan (c size pos : Z) : outcome Z :=
  v ← shr 32 c (8 - size);
  one ← shl 32 1 size;
  shl 32 (u16 (Z.land v (one - 1))) pos.

Definition pack_rgb16 (r g b rsize gsize bsize rpos gpos bpos : Z) : outcome Z :=
  rr ← pack_chan r rsize rpos;
  gg ← pack_chan g gsize gpos;
  bb ← pack_chan b bsize bpos;
  mret (u16 (Z.lor (Z.lor rr gg) bb)).

Section layout.
Context {L : Layout}.
Variable ss : Z.

Definition pal_entry (i : Z) : Z := daddr ss cbvga_palette + 3 * i.
Definition argb_entry (i : Z) : Z := daddr ss cbvga_palette_argb + 4 * i.

Definition init_vga256_palette (m : mem) : mem :=
  put_palette m (daddr ss default_vga256_palette) vga256_palette.

Definition rebuild_entry (i : Z) (m : mem) : mem :=
  let r := u8 (Z.shiftl (m (pal_entry i)) 2) in
  let g := u8 (Z.shiftl (m (pal_entry i + 1)) 2) in
  let b := u8 (Z.shiftl (m (pal_entry i + 2)) 2) in
  store32 m (argb_entry i) (Z.lor (Z.lor (Z.lor 0xFF000000 (Z.shiftl b 16)) (Z.shiftl g 8)) r).

Definition rebuild_argb_table (m : mem) : mem := upto 256 0 rebuild_entry m.

Definition cbvga_palette_lookup (m : mem) (idx : Z) : Z := load32 m (argb_entry (Z.land idx 0xFF)).

(** * Setters *)

Definition cbvga_emul_set_shadow (ptr pitch_bytes : Z) (m : mem) : mem :=
  dset 4 ss g_src_pitch pitch_bytes (dset 4 ss g_shadow_ptr ptr m).

Definition cbvga_emul_set_masks (r_size g_size b_size r_pos g_pos b_pos : Z) (m : mem) : mem :=
  dset 1 ss g_blue_mask_pos b_pos (dset 1 ss g_green_mask_pos g_pos (dset 1 ss g_red_mask_pos r_pos
    (dset 1 ss g_blue_mask_size b_size (dset 1 ss g_green_mask_size g_size
      (dset 1 ss g_red_mask_size r_size m))))).

(** [data] is an offset of the stack segment; the loop stops at entry 256. *)
Fixpoint set_palette_loop (k : nat) (i start data : Z) (m : mem) : mem :=
  match k with
  | O => m
  | S k' =>
    let idx := start + i in
    if 256 <=? idx then m
    else
      let m := store8 m (pal_entry idx) (m (far ss (data + i * 3))) in
      let m := store8 m (pal_entry idx + 1) (m (far ss (data + i * 3 + 1))) in
      let m := store8 m (pal_entry idx + 2) (m (far ss (data + i * 3 + 2))) in
      set_palette_loop k' (i + 1) start data m
  end.

Definition cbvga_emul_set_palette (start count data : Z) (m : mem) : mem :=
  rebuild_argb_table (set_palette_loop (Z.to_nat count) 0 start data m).

Definition cbvga_palette_set_entries (entries count : Z) (m : mem) : mem :=
  let m :=
    if entries =? 0 then put_palette m (pal_entry 0) default_vga_palette
    else set_palette_loop (Z.to_nat (Z.min count 256)) 0 0 entries m in
  rebuild_argb_table m.

(** * Mode set-up *)

(** The offsets of [struct vbe_mode_info] the emulator reads. *)
Definition info_bytes_per_scanline : Z := 16.
Definition info_bits_per_pixel : Z := 25.
Definition info_red_size : Z := 31.
Definition info_red_pos : Z := 32.
Definition info_green_size : Z := 33.
Definition info_green_pos : Z := 34.
Definition info_blue_size : Z := 35.
Definition info_blue_pos : Z := 36.
Definition info_linear_bytes_per_scanline : Z := 50.

Definition grey_entry (i : Z) (m : mem) : mem :=
  let dacval := Z.shiftr i 2 in put_rgb m (pal_entry i) (dacval, dacval, dacval).

(** [cbvga_emul_set_mode]: the mode is read with [GET_FARVAR(0, ...)], at the
    offset of the description in segment 0. *)
Definition cbvga_emul_set_mode (vmode_g flags : Z) (m : mem) : mem :=
  let m := dset 4 ss g_shadow_ptr 0 m in
  let m := dset 4 ss g_width (GET_FARVAR 2 m 0 (vmode_g + 2)) m in
  let m := dset 4 ss g_height (GET_FARVAR 2 m 0 (vmode_g + 4)) m in
  let m := dset 4 ss g_src_bpp (GET_FARVAR 1 m 0 (vmode_g + 6)) m in
  let m := dset 4 ss g_src_pitch 0 m in
  let m := if Z.land flags MF_GRAYSUM =? 0 then m
           else rebuild_argb_table (upto 256 0 grey_entry m) in
  let info := daddr ss direct_vbe_mode_info in
  let m := dset 4 ss g_dst_bpp (m (info + info_bits_per_pixel)) m in
  let bpp := dget 4 ss g_dst_bpp m in
  let m := if (bpp =? 4) || (bpp =? 8) || (bpp =? 16) || (bpp =? 24) || (bpp =? 32) then m
           else dset 4 ss g_dst_bpp 32 m in
  let m := cbvga_emul_set_masks (m (info + info_red_size)) (m (info + info_green_size))
             (m (info + info_blue_size)) (m (info + info_red_pos)) (m (info + info_green_pos))
             (m (info + info_blue_pos)) m in
  let linear := load16 m (info + info_linear_bytes_per_scanline) in
  let m := dset 4 ss g_dst_pitch
             (if linear =? 0 then load16 m (info + info_bytes_per_scanline) else linear) m in
  let m :=
    if dget 4 ss g_src_bpp m =? 4 then
      let w := si (dget 4 ss g_width m) in
      dset 4 ss g_src_pitch (Z.land (Z.quot (w + 1) 2 + 3) (Z.lnot 3)) m
    else dset 4 ss g_src_pitch (dget 4 ss g_dst_pitch m) m in
  if dget 4 ss g_dst_bpp m =? 8 then init_vga256_palette m else m.

Definition cbvga_emul_setup_modes (addr bpp xlines ylines linelength : Z) (m : mem) : mem :=
  let m := dset 4 ss g_dst_ptr addr m in
  let m := dset 4 ss g_width xlines m in
  let m := dset 4 ss g_height ylines m in
  let m := dset 4 ss g_src_bpp bpp m in
  let m := dset 4 ss g_dst_bpp 24 m in
  dset 4 ss g_dst_pitch linelength m.

Definition cbvga_emul_get_dacformat : Z := 0x0606.
Definition cbvga_emul_set_dacformat (val : Z) : Z := 0.

(** * Flush *)

(** The variables a flush reads; the framebuffer is taken not to hold them. *)
Record emulator := mkEmulator {
  e_shadow : Z; e_dst : Z; e_src_pitch : Z; e_dst_pitch : Z;
  e_width : Z; e_height : Z; e_src_bpp : Z; e_dst_bpp : Z;
  e_rpos : Z; e_rsize : Z; e_gpos : Z; e_gsize : Z; e_bpos : Z; e_bsize : Z
}.

Definition read_emulator (m : mem) : emulator :=
  mkEmulator (dget 4 ss g_shadow_ptr m) (dget 4 ss g_dst_ptr m)
    (si (dget 4 ss g_src_pitch m)) (si (dget 4 ss g_dst_pitch m))
    (si (dget 4 ss g_width m)) (si (dget 4 ss g_height m))
    (si (dget 4 ss g_src_bpp m)) (si (dget 4 ss g_dst_bpp m))
    (dget 1 ss g_red_mask_pos m) (dget 1 ss g_red_mask_size m)
    (dget 1 ss g_green_mask_pos m) (dget 1 ss g_green_mask_size m)
    (dget 1 ss g_blue_mask_pos m) (dget 1 ss g_blue_mask_size m).

(** [expand_src_pixel]; [sline] is an offset of the stack segment. *)
Definition expand_src_pixel (e : emulator) (m : mem) (sline x : Z) : outcome Z :=
  let unpack p := packed_to_argb p (e_rpos e) (e_rsize e) (e_gpos e) (e_gsize e) (e_bpos e) (e_bsize e) in
  if e_src_bpp e =? 4 then
    let byte := m (far ss (sline + Z.shiftr x 1)) in
    let idx := if Z.land x 1 =? 0 then Z.shiftr byte 4 else Z.land byte 0x0F in
    mret (load32 m (argb_entry idx))
  else if e_src_bpp e =? 8 then mret (load32 m (argb_entry (m (far ss (sline + x)))))
  else if e_src_bpp e =? 16 then unpack (load16 m (far ss (sline + 2 * x)))
  else if e_src_bpp e =? 24 then
    unpack (Z.lor (Z.lor (m (far ss (sline + x * 3))) (Z.shiftl (m (far ss (sline + x * 3 + 1))) 8))
              (Z.shiftl (m (far ss (sline + x * 3 + 2))) 16))
  else mret (load32 m (far ss (sline + 4 * x))).

(** The three loops of a line whose destination has four bits a pixel, for the
    pair of pixels at [2 * i]. *)
Definition flush_pair4 (e : emulator) (sline dline limit i : Z) (o : outcome mem) : outcome mem :=
  m ← o;
  let x := 2 * i in
  if e_src_bpp e =? 8 then
    let idx0 := Z.land (m (far ss (sline + x))) 0x0F in
    let idx1 := if x + 1 <? limit then Z.land (m (far ss (sline + (x + 1)))) 0x0F else 0 in
    mret (store8 m (far ss (dline + i)) (Z.lor (Z.shiftl idx0 4) idx1))
  else
    c0 ← expand_src_pixel e m sline x;
    c1 ← (if x + 1 <? limit then expand_src_pixel e m sline (x + 1) else mret c0);
    mret (store8 m (far ss (dline + i))
            (Z.lor (Z.shiftl (nearest_vga16_index c0) 4) (nearest_vga16_index c1))).

Definition flush_pair8 (sline dline limit i : Z) (m : mem) : mem :=
  let x := 2 * i in
  let byte := m (far ss (sline + i)) in
  let m := store8 m (far ss (dline + x)) (Z.land (Z.shiftr byte 4) 0x0F) in
  if x + 1 <? limit then store8 m (far ss (dline + (x + 1))) (Z.land byte 0x0F) else m.

(** One pixel of a true-colour destination. *)
Definition put_true_color (e : emulator) (dline x c : Z) (m : mem) : mem :=
  if e_dst_bpp e =? 32 then store32 m (far ss (dline + 4 * x)) c
  else if e_dst_bpp e =? 24 then
    store8 (store8 (store8 m (far ss (dline + x * 3)) c) (far ss (dline + x * 3 + 1)) (Z.shiftr c 8))
      (far ss (dline + x * 3 + 2)) (Z.shiftr c 16)
  else if e_dst_bpp e =? 16 then
    let r := u8 c in let g := u8 (Z.shiftr c 8) in let b := u8 (Z.shiftr c 16) in
    store16 m (far ss (dline + 2 * x))
      (Z.lor (Z.lor (Z.shiftl (Z.shiftr r 3) 11) (Z.shiftl (Z.shiftr g 2) 5)) (Z.shiftr b 3))
  else m.

Definition bytespp_dst (e : emulator) : Z :=
  if e_dst_bpp e =? 24 then 3 else if e_dst_bpp e =? 16 then 2
  else if e_dst_bpp e =? 8 then 1 else if e_dst_bpp e =? 4 then 0 else 4.

(** How many pixels of a line are converted. *)
Definition flush_limit (e : emulator) : outcome Z :=
  maxpix_src ← (if e_src_bpp e =? 4 then mret (e_src_pitch e * 2)
                else sdiv 32 (e_src_pitch e) (Z.quot (e_src_bpp e) 8));
  maxpix_dst ← (if e_dst_bpp e =? 4 then mret (e_dst_pitch e * 2)
                else sdiv 32 (e_dst_pitch e) (if bytespp_dst e =? 0 then 1 else bytespp_dst e));
  let limit := e_width e in
  let limit := if maxpix_dst <? limit then maxpix_dst else limit in
  mret (if maxpix_src <? limit then maxpix_src else limit).

Definition flush_line (e : emulator) (y : Z) (o : outcome mem) : outcome mem :=
  m ← o;
  let sline := e_shadow e + y * e_src_pitch e in
  let dline := e_dst e + y * e_dst_pitch e in
  limit ← flush_limit e;
  let pairs := Z.to_nat (Z.shiftr (limit + 1) 1) in
  if e_dst_bpp e =? 4 then
    if e_src_bpp e =? 4 then mret (memcpy m (far ss dline) (far ss sline) (u32 (Z.shiftr (limit + 1) 1)))
    else upto pairs 0 (flush_pair4 e sline dline limit) (mret m)
  else if e_dst_bpp e =? 8 then
    if e_src_bpp e =? 4 then mret (upto pairs 0 (flush_pair8 sline dline limit) m)
    else if e_src_bpp e =? 8 then mret (memcpy m (far ss dline) (far ss sline) (u32 limit))
    else upto (Z.to_nat limit) 0 (fun x o => m ← o; c ← expand_src_pixel e m sline x;
           mret (store8 m (far ss (dline + x))
                   (nearest_vga256_index m (daddr ss default_vga256_palette) c))) (mret m)
  else
    upto (Z.to_nat limit) 0 (fun x o => m ← o; c ← expand_src_pixel e m sline x;
      mret (put_true_color e dline x c m)) (mret m).

Definition cbvga_pal_flush (m : mem) : outcome mem :=
  let e := read_emulator m in
  if (e_shadow e =? 0) || (e_dst e =? 0) then mret m
  else upto (Z.to_nat (e_height e)) 0 (flush_line e) (mret m).

(** * Test patterns *)

Definition bars : list Z :=
  [0xFF000000; 0xFFFFFFFF; 0xFFFF0000; 0xFF00FF00; 0xFF0000FF; 0xFF00FFFF; 0xFFFF00FF; 0xFFFFFF00;
   0xFF808080].

Definition test_ready (e : emulator) : bool :=
  negb (e_dst e =? 0) && negb (e_width e =? 0) && negb (e_height e =? 0).

(** A line of bars: each column divides by the width of a bar. *)
Definition bar_line (e : emulator) (y : Z) (o : outcome mem) : outcome mem :=
  let bar_width := Z.quot (e_width e) 9 in
  upto (Z.to_nat (e_width e)) 0 (fun x o =>
    m ← o;
    idx ← sdiv 32 x bar_width;
    let idx := if 9 <=? idx then 8 else idx in
    mret (store32 m (far ss (e_dst e + y * e_dst_pitch e + 4 * x)) (nth (Z.to_nat idx) bars 0))) o.

Definition square_line (e : emulator) (y row : Z) (m : mem) : mem :=
  let yblock := Z.land (Z.quot row 8) 1 in
  upto (Z.to_nat (e_width e)) 0 (fun x m =>
    let xblock := Z.land (Z.quot x 8) 1 in
    store32 m (far ss (e_dst e + y * e_dst_pitch e + 4 * x))
      (if Z.lxor xblock yblock =? 0 then 0xFF000000 else 0xFFFFFFFF)) m.

Definition cbvga_test_pattern (m : mem) : outcome mem :=
  let e := read_emulator m in
  if test_ready e then upto (Z.to_nat (e_height e)) 0 (bar_line e) (mret m) else mret m.

Definition cbvga_test_checkerboard (m : mem) : mem :=
  let e := read_emulator m in
  if test_ready e then upto (Z.to_nat (e_height e)) 0 (fun y => square_line e y y) m else m.

Definition cbvga_test_combined (m : mem) : outcome mem :=
  let e := read_emulator m in
  let half_height := Z.quot (e_height e) 2 in
  if test_ready e then
    upto (Z.to_nat (e_height e)) 0 (fun y o =>
      if y <? half_height then bar_line e y o
      else m ← o; mret (square_line e y (y - half_height) m)) (mret m)
  else mret m.

(** * The palette tables *)

Lemma vga256_palette_length : length vga256_palette = 256%nat.
Proof. reflexivity. Qed.

Lemma put_palette_out m a l x :
  x < a \/ a + 3 * Z.of_nat (length l) <= x -> put_palette m a l x = m x.
Proof.
  revert m a. induction l as [|[[r g] b] l IH]; intros m a Hx; [done|].
  cbn [put_palette length] in *. rewrite IH by lia. cbn. by rewrite !store8_ne by lia.
Qed.

Lemma get_put_palette m a l : Forall (fun c : rgb => fits 8 c.1.1 /\ fits 8 c.1.2 /\ fits 8 c.2) l ->
  get_palette (put_palette m a l) a (length l) = l.
Proof.
  revert m a. induction l as [|[[r g] b] l IH]; intros m a Hl; [done|].
  apply Forall_cons in Hl as [(Hr & Hg & Hb) Hl]. cbn [put_palette length get_palette].
  rewrite IH by done. f_equal. rewrite !put_palette_out by lia. cbn in *.
  rewrite store8_eq, !(store8_ne _ (a + 2)), store8_eq, !(store8_ne _ (a + 1)), store8_eq by lia.
  by rewrite !wrap_small by done.
Qed.

End layout.

(** The search finds a nearest entry, and the first of them. *)
Lemma nearest_loop_spec c l : forall pre best bestdist,
  (forall p, p ∈ pre -> bestdist <= distance c p) ->
  (pre = [] /\ best = 0 \/ exists p, pre !! Z.to_nat best = Some p /\ 0 <= best /\ distance c p = bestdist) ->
  (forall p, p ∈ pre ++ l -> distance c p < 999999) -> (pre = [] -> bestdist = 999999) ->
  pre ++ l <> [] ->
  exists p, let i := nearest_loop l (Z.of_nat (length pre)) best bestdist c in
    (pre ++ l) !! Z.to_nat i = Some p /\ 0 <= i /\ forall q, q ∈ pre ++ l -> distance c p <= distance c q.
Proof.
  induction l as [|q l IH]; intros pre best bestdist Hmin Hbest Hlim Hpre Hne; cbn [nearest_loop].
  - rewrite app_nil_r in *. destruct Hbest as [[-> ->]|(p & Hp & H0 & Hd)]; [done|].
    exists p. split; [done|]. split; [done|]. rewrite Hd. done.
  - specialize (IH (pre ++ [q])). rewrite <- app_assoc in IH. cbn [app] in IH.
    replace (Z.of_nat (length (pre ++ [q]))) with (Z.of_nat (length pre) + 1) in IH
      by (rewrite length_app; simpl; lia).
    assert (distance c q < 999999) as Hq by (apply Hlim; rewrite elem_of_app, elem_of_cons; auto).
    destruct (Z.ltb_spec (distance c q) bestdist).
    + apply IH; [| |done| |done].
      * intros p. rewrite elem_of_app, list_elem_of_singleton. intros [Hp| ->]; [|lia].
        specialize (Hmin p Hp). lia.
      * right. exists q. rewrite Nat2Z.id. split; [|split; [lia|done]].
        by rewrite lookup_app_r, Nat.sub_diag by lia.
      * intros Hn. by apply app_nil in Hn as [_ ?].
    + apply IH; [| |done| |done].
      * intros p. rewrite elem_of_app, list_elem_of_singleton. intros [Hp| ->]; [by apply Hmin|lia].
      * destruct Hbest as [[-> ->]|(p & Hp & H0 & Hd)]; [rewrite Hpre in * by done; lia|].
        right. exists p. split; [|done]. by apply lookup_app_l_Some.
      * intros Hn. by apply app_nil in Hn as [_ ?].
Qed.

Lemma distance_bound c p : fits 6 p.1.1 -> fits 6 p.1.2 -> fits 6 p.2 -> distance c p < 999999.
Proof.
  destruct p as [[r g] b]. cbn. unfold fits. intros Hr Hg Hb. rewrite !Z.shiftl_mul_pow2 by lia.
  pose proof (wrap_fits 8 c ltac:(lia)). pose proof (wrap_fits 8 (Z.shiftr c 8) ltac:(lia)).
  pose proof (wrap_fits 8 (Z.shiftr c 16) ltac:(lia)). unfold fits in *.
  change (2 ^ 2) with 4. change (2 ^ 8) with 256 in *. change (2 ^ 6) with 64 in *. nia.
Qed.

(** [nearest_vga16_index] picks a nearest colour of the palette. *)
Lemma nearest16_spec c : exists p,
  default_vga_palette !! Z.to_nat (nearest_vga16_index c) = Some p /\
  forall q, q ∈ default_vga_palette -> distance c p <= distance c q.
Proof.
  destruct (nearest_loop_spec c default_vga_palette [] 0 999999) as (p & Hp & H0 & Hmin).
  - intros p Hp. by apply not_elem_of_nil in Hp.
  - by left.
  - cbn [app]. intros p Hp. assert (Forall (fun p : rgb => fits 6 p.1.1 /\ fits 6 p.1.2 /\ fits 6 p.2)
      default_vga_palette) as Hf by (repeat constructor; unfold fits; cbn; lia).
    rewrite Forall_forall in Hf. destruct (Hf p Hp) as (? & ? & ?). by apply distance_bound.
  - done.
  - done.
  - cbn [app length Z.of_nat] in *. exists p. split; [|done]. unfold nearest_vga16_index.
    change (Z.of_nat 0) with 0 in *. set (i := nearest_loop default_vga_palette 0 0 999999 c) in *.
    apply lookup_lt_Some in Hp as Hl. change (length default_vga_palette) with 16%nat in Hl.
    by rewrite wrap_small by (unfold fits; lia).
Qed.

(** * The colour table *)

Section table.
Context {L : Layout}.
Variable ss : Z.

(** The colour of an entry of the DAC. *)
Definition dac_argb (m : mem) (i : Z) : Z :=
  let r := u8 (Z.shiftl (m (pal_entry ss i)) 2) in
  let g := u8 (Z.shiftl (m (pal_entry ss i + 1)) 2) in
  let b := u8 (Z.shiftl (m (pal_entry ss i + 2)) 2) in
  Z.lor (Z.lor (Z.lor 0xFF000000 (Z.shiftl b 16)) (Z.shiftl g 8)) r.

(** The DAC and the table do not overlap. *)
Definition tables_apart : Prop :=
  daddr ss cbvga_palette + 768 <= daddr ss cbvga_palette_argb \/
  daddr ss cbvga_palette_argb + 1024 <= daddr ss cbvga_palette.

Lemma dac_argb_fits m i : fits 32 (dac_argb m i).
Proof.
  unfold dac_argb.
  repeat apply fits_lor; try lia; try (unfold fits; lia);
    try (apply fits_shiftl; [lia|]); (eapply fits_mono; [|by apply wrap_fits]; lia).
Qed.

Lemma rebuild_entry_eq i m : rebuild_entry ss i m = store32 m (argb_entry ss i) (dac_argb m i).
Proof. reflexivity. Qed.

Lemma dac_argb_ext m m' i :
  (forall x, pal_entry ss i <= x < pal_entry ss i + 3 -> m' x = m x) -> dac_argb m' i = dac_argb m i.
Proof. intros H. unfold dac_argb. by rewrite !H by lia. Qed.

(** After a rebuild the table holds the colour of every entry of the DAC, and
    nothing else changed. *)
Lemma rebuild_spec m : tables_apart ->
  (forall i, 0 <= i < 256 -> cbvga_palette_lookup ss (rebuild_argb_table ss m) i = dac_argb m i) /\
  (forall x, x < argb_entry ss 0 \/ argb_entry ss 256 <= x -> rebuild_argb_table ss m x = m x).
Proof.
  intros Hap. unfold rebuild_argb_table.
  pose (P := fun j (m' : mem) =>
    (forall i, 0 <= i < j -> load32 m' (argb_entry ss i) = dac_argb m i) /\
    (forall x, x < argb_entry ss 0 \/ argb_entry ss j <= x -> m' x = m x)).
  destruct (upto_invariant P 256 0 (rebuild_entry ss) m) as [H1 H2].
  - split; [intros i Hi; lia|done].
  - intros j m' Hj [Hin Hout]. rewrite rebuild_entry_eq. unfold argb_entry, pal_entry, tables_apart in *.
    rewrite (dac_argb_ext m) by (unfold pal_entry; intros x Hx; apply Hout; lia).
    split; [|intros x Hx; rewrite store_out by lia; apply Hout; lia].
    intros i Hi. destruct (decide (i = j)) as [->|].
    + rewrite load_store_same. apply wrap_small, dac_argb_fits.
    + rewrite load_store_other by lia. apply Hin. lia.
  - split; [|done]. intros i Hi. unfold cbvga_palette_lookup.
    replace (Z.land i 0xFF) with i by (change 0xFF with (Z.ones 8); rewrite Z.land_ones, Z.mod_small by lia; done).
    by apply H1.
Qed.

Lemma get_palette_lookup m a n i : (i < n)%nat ->
  get_palette m a n !! i = Some (m (a + 3 * Z.of_nat i), m (a + 3 * Z.of_nat i + 1), m (a + 3 * Z.of_nat i + 2)).
Proof.
  revert a i; induction n as [|n IH]; intros a i Hi; [lia|]. destruct i as [|i]; cbn [get_palette].
  - cbn. by rewrite Z.add_0_r.
  - cbn [lookup list_lookup]. rewrite IH by lia.
    replace (a + 3 * Z.of_nat (S i)) with (a + 3 + 3 * Z.of_nat i) by lia. done.
Qed.

(** The colour of an entry given as a triple. *)
Definition rgb_argb (c : rgb) : Z :=
  let '(r, g, b) := c in
  Z.lor (Z.lor (Z.lor 0xFF000000 (Z.shiftl (u8 (Z.shiftl b 2)) 16)) (Z.shiftl (u8 (Z.shiftl g 2)) 8))
    (u8 (Z.shiftl r 2)).

Lemma dac_argb_palette m i c : 0 <= i < 16 ->
  get_palette m (pal_entry ss 0) 16 !! Z.to_nat i = Some c -> dac_argb m i = rgb_argb c.
Proof.
  intros Hi. rewrite get_palette_lookup by lia. intros [= <-]. unfold dac_argb, pal_entry, rgb_argb.
  by replace (daddr ss cbvga_palette + 3 * 0 + 3 * Z.of_nat (Z.to_nat i))
    with (daddr ss cbvga_palette + 3 * i) by lia.
Qed.

Lemma default_colors_found :
  (fun c => nearest_vga16_index (rgb_argb c)) <$> default_vga_palette = seqZ 0 16.
Proof. vm_compute. reflexivity. Qed.

(** Each of the 16 default colours, looked up in the rebuilt table and matched
    against the palette, is itself again. *)
Lemma default_palette_roundtrip m i : tables_apart -> 0 <= i < 16 ->
  nearest_vga16_index (cbvga_palette_lookup ss (cbvga_palette_set_entries ss 0 16 m) i) = i.
Proof.
  intros Hap Hi. unfold cbvga_palette_set_entries. cbn [Z.eqb].
  destruct (rebuild_spec (put_palette m (pal_entry ss 0) default_vga_palette) Hap) as [H _].
  rewrite H by lia. destruct (lookup_lt_is_Some_2 default_vga_palette (Z.to_nat i)) as [c Hc]; [simpl; lia|].
  rewrite (dac_argb_palette _ i c); [|done|].
  - pose proof (f_equal (fun l => l !! Z.to_nat i) default_colors_found) as Hf. cbv beta in Hf.
    rewrite list_lookup_fmap, Hc, lookup_seqZ_lt in Hf by lia. apply (inj Some) in Hf. rewrite Hf. lia.
  - change 16%nat with (length default_vga_palette). rewrite get_put_palette; [done|].
    repeat constructor; unfold fits; cbn; lia.
Qed.

End table.

(** * What a flush writes *)

(** A routine returns, and changes only bytes of [lo, hi). *)
Definition writes_within (lo hi : Z) (m : mem) (o : outcome mem) : Prop :=
  exists m', o = Done m' /\ forall a, a < lo \/ hi <= a -> m' a = m a.

Lemma within_ret lo hi m m' : (forall a, a < lo \/ hi <= a -> m' a = m a) -> writes_within lo hi m (mret m').
Proof. intros H. by exists m'. Qed.

Lemma upto_within lo hi m n (body : Z -> outcome mem -> outcome mem) o :
  writes_within lo hi m o ->
  (forall i m', 0 <= i < Z.of_nat n -> writes_within lo hi m' (body i (mret m'))) ->
  writes_within lo hi m (upto n 0 body o).
Proof.
  intros Ho Hb. apply (upto_invariant (fun _ o => writes_within lo hi m o) n 0 body o Ho).
  intros i o' Hi (m' & -> & Hm'). destruct (Hb i m' ltac:(lia)) as (m'' & Hm'' & Hf).
  exists m''. split; [exact Hm''|]. intros a Ha. rewrite Hf by done. by apply Hm'.
Qed.

Section flush.
Context {L : Layout}.
Variable ss : Z.
Variable e : emulator.

(** Depths the converter knows, masks inside a doubleword, no negative size. *)
Definition emulator_ok : Prop :=
  e_src_bpp e ∈ [4; 8; 16; 24; 32] /\ e_dst_bpp e ∈ [4; 8; 16; 24; 32] /\
  0 <= e_src_pitch e < 2 ^ 31 /\ 0 <= e_dst_pitch e < 2 ^ 31 /\ 0 <= e_width e /\ 0 <= e_height e /\
  Forall (fun v => 0 <= v < 32) [e_rpos e; e_rsize e; e_gpos e; e_gsize e; e_bpos e; e_bsize e].

Hypothesis Hok : emulator_ok.

Lemma expand_chan_done pixel pos size : 0 <= pos < 32 -> 0 <= size < 32 ->
  exists v, expand_chan pixel pos size = Done v.
Proof.
  intros Hp Hs. unfold expand_chan. destruct (Z.eqb_spec size 0); [by eexists|].
  unfold shl, shr. destruct (Z.leb_spec 0 size); [|lia]. destruct (Z.ltb_spec size 32); [|lia].
  destruct (Z.leb_spec 0 pos); [|lia]. destruct (Z.ltb_spec pos 32); [|lia]. run_outcome. cbn [andb].
  run_outcome. assert (2 ^ 1 <= 2 ^ size < 2 ^ 32) as Hpow.
  { split; [apply Z.pow_le_mono_r; lia|apply Z.pow_lt_mono_r; lia]. }
  rewrite Z.shiftl_1_l, (wrap_small 32 (2 ^ size)), (wrap_small 32 (2 ^ size - 1)) by (unfold fits; lia).
  unfold udiv. destruct (Z.eqb_spec (2 ^ size - 1) 0); [lia|]. run_outcome. by eexists.
Qed.

Lemma packed_done pixel rpos rsize gpos gsize bpos bsize :
  Forall (fun v => 0 <= v < 32) [rpos; rsize; gpos; gsize; bpos; bsize] ->
  exists v, packed_to_argb pixel rpos rsize gpos gsize bpos bsize = Done v.
Proof.
  rewrite !Forall_cons. intros (? & ? & ? & ? & ? & ? & _). unfold packed_to_argb.
  destruct (expand_chan_done pixel rpos rsize) as [r ->]; [lia..|].
  destruct (expand_chan_done pixel gpos gsize) as [g ->]; [lia..|].
  destruct (expand_chan_done pixel bpos bsize) as [b ->]; [lia..|]. run_outcome. by eexists.
Qed.

Lemma expand_src_done m sline x : exists c, expand_src_pixel ss e m sline x = Done c.
Proof.
  destruct Hok as (_ & _ & _ & _ & _ & _ & Hm). unfold expand_src_pixel.
  repeat case_match; try (by eexists); by apply packed_done.
Qed.

Lemma sdiv_done a b : 0 <= a < 2 ^ 31 -> 1 <= b <= 4 -> exists q, sdiv 32 a b = Done q /\ 0 <= q.
Proof.
  intros Ha Hb. unfold sdiv, signed. destruct (Z.eqb_spec b 0); [lia|].
  rewrite Z.quot_div_nonneg by lia. pose proof (Z.div_pos a b ltac:(lia) ltac:(lia)).
  case_decide as Hs; [by eexists|].
  exfalso. apply Hs. unfold sfits. change (2 ^ (32 - 1)) with (2 ^ 31).
  pose proof (Z.div_le_upper_bound a b (2 ^ 31 - 1)). nia.
Qed.

(** The pixels of a line stay inside its pitch. *)
Lemma flush_limit_done : exists limit, flush_limit e = Done limit /\ 0 <= limit /\
  (e_dst_bpp e = 4 -> limit <= 2 * e_dst_pitch e) /\
  (e_dst_bpp e <> 4 -> limit * bytespp_dst e <= e_dst_pitch e /\ 0 < bytespp_dst e).
Proof.
  destruct Hok as (Hs & Hd & Hsp & Hdp & Hw & _ & _). unfold flush_limit.
  assert (exists v, (if e_src_bpp e =? 4 then mret (e_src_pitch e * 2)
                     else sdiv 32 (e_src_pitch e) (Z.quot (e_src_bpp e) 8)) = Done v /\ 0 <= v) as (v & -> & Hv).
  { destruct (Z.eqb_spec (e_src_bpp e) 4); [eexists; split; [reflexivity|lia]|].
    assert (exists b, Z.quot (e_src_bpp e) 8 = b /\ 1 <= b <= 4) as (b & -> & Hb).
    { rewrite !elem_of_cons, elem_of_nil in Hs. destruct Hs as [?|[->|[->|[->|[->|[]]]]]]; [done|..];
        eexists; (split; [reflexivity|vm_compute; split; congruence]). }
    by apply sdiv_done. }
  run_outcome. destruct (Z.eqb_spec (e_dst_bpp e) 4) as [H4|H4].
  - run_outcome. eexists. split; [reflexivity|].
    split; [repeat case_match; lia|]. split; [intros _|done]. repeat case_match; lia.
  - assert (1 <= bytespp_dst e <= 4) as Hb.
    { unfold bytespp_dst. rewrite !elem_of_cons, elem_of_nil in Hd.
      destruct Hd as [?|[->|[->|[->|[->|[]]]]]]; [done|cbn; lia..]. }
    destruct (Z.eqb_spec (bytespp_dst e) 0); [lia|].
    destruct (sdiv_done (e_dst_pitch e) (bytespp_dst e)) as (q & Hq & Hq0); [lia..|].
    assert (q = e_dst_pitch e / bytespp_dst e) as Eq.
    { unfold sdiv, signed in Hq. destruct (Z.eqb_spec (bytespp_dst e) 0); [lia|].
      rewrite Z.quot_div_nonneg in Hq by lia. case_decide; [by injection Hq|done]. }
    rewrite Hq. run_outcome. eexists. split; [reflexivity|]. rewrite Eq in *.
    split; [repeat case_match; lia|]. split; [done|intros _]. split; [|lia].
    pose proof (Z.mul_div_le (e_dst_pitch e) (bytespp_dst e) ltac:(lia)).
    repeat case_match; nia.
Qed.

Lemma put_true_color_out dline x c m a :
  (e_dst_bpp e = 16 \/ e_dst_bpp e = 24 \/ e_dst_bpp e = 32) ->
  a < far ss dline + x * bytespp_dst e \/ far ss dline + (x + 1) * bytespp_dst e <= a ->
  put_true_color ss e dline x c m a = m a.
Proof.
  unfold put_true_color, bytespp_dst, far.
  intros [->|[->| ->]] Ha; cbn [Z.eqb Pos.eqb] in *; rewrite ?store8_ne by lia; try done;
    apply store_out; lia.
Qed.

Lemma flush_line_within y m : 0 <= e_dst_pitch e < 2 ^ 31 ->
  writes_within (far ss (e_dst e + y * e_dst_pitch e)) (far ss (e_dst e + (y + 1) * e_dst_pitch e))
    m (flush_line ss e y (mret m)).
Proof.
  intros Hp. destruct flush_limit_done as (limit & Hl & Hl0 & H4 & Hn4). unfold flush_line. run_outcome.
  rewrite Hl. run_outcome. set (dline := e_dst e + y * e_dst_pitch e).
  replace (far ss (e_dst e + (y + 1) * e_dst_pitch e)) with (far ss dline + e_dst_pitch e)
    by (unfold far, dline; lia).
  assert (forall i, 0 <= i < Z.of_nat (Z.to_nat (Z.shiftr (limit + 1) 1)) -> 2 * i < limit) as Hpair.
  { intros i. rewrite Z.shiftr_div_pow2 by lia. change (2 ^ 1) with 2. Z.div_mod_to_equations. lia. }
  destruct (Z.eqb_spec (e_dst_bpp e) 4) as [E4|E4]; [|destruct (Z.eqb_spec (e_dst_bpp e) 8) as [E8|E8]].
  - specialize (H4 E4). destruct (e_src_bpp e =? 4).
    + apply within_ret. intros a Ha. rewrite Z.shiftr_div_pow2 by lia. change (2 ^ 1) with 2.
      rewrite wrap_small by (unfold fits; Z.div_mod_to_equations; lia).
      apply memcpy_out; Z.div_mod_to_equations; lia.
    + apply upto_within; [by apply within_ret|]. intros i m' Hi. specialize (Hpair i Hi).
      unfold flush_pair4. run_outcome.
      destruct (expand_src_done m' (e_shadow e + y * e_src_pitch e) (2 * i)) as [c0 ->].
      destruct (expand_src_done m' (e_shadow e + y * e_src_pitch e) (2 * i + 1)) as [c1 Hc1].
      repeat case_match; rewrite ?Hc1; run_outcome; apply within_ret; intros a Ha;
        apply store8_ne; unfold far in *; lia.
  - destruct (Hn4 E4) as [Hb _]. assert (bytespp_dst e = 1) as Hb1 by (unfold bytespp_dst; by rewrite E8).
    rewrite Hb1, Z.mul_1_r in Hb. destruct (e_src_bpp e =? 4); [|destruct (e_src_bpp e =? 8)].
    + apply within_ret. apply (upto_invariant (fun _ (m' : mem) => forall a,
        a < far ss dline \/ far ss dline + e_dst_pitch e <= a -> m' a = m a)); [done|].
      intros i m' Hi Hm a Ha. specialize (Hpair i ltac:(lia)). unfold flush_pair8, far in *.
      destruct (Z.ltb_spec (2 * i + 1) limit); rewrite !store8_ne by lia; by apply Hm.
    + apply within_ret. intros a Ha. rewrite wrap_small by (unfold fits; lia). apply memcpy_out; lia.
    + apply upto_within; [by apply within_ret|]. intros i m' Hi. run_outcome.
      destruct (expand_src_done m' (e_shadow e + y * e_src_pitch e) i) as [c ->]. run_outcome.
      apply within_ret. intros a Ha. apply store8_ne. unfold far in *. lia.
  - destruct (Hn4 E4) as [Hb Hpos]. apply upto_within; [by apply within_ret|]. intros i m' Hi. run_outcome.
    destruct (expand_src_done m' (e_shadow e + y * e_src_pitch e) i) as [c ->]. run_outcome.
    apply within_ret. intros a Ha. apply put_true_color_out.
    + destruct Hok as (_ & Hd & _). rewrite !elem_of_cons, elem_of_nil in Hd.
      destruct Hd as [?|[?|[?|[?|[?|[]]]]]]; auto; done.
    + nia.
Qed.

End flush.

(** A flush of a well-formed emulator returns, and changes only bytes of the
    lines of the destination. *)
Lemma flush_safe `{Layout} ss m : let e := read_emulator ss m in emulator_ok e ->
  writes_within (far ss (e_dst e)) (far ss (e_dst e) + e_height e * e_dst_pitch e) m
    (cbvga_pal_flush ss m).
Proof.
  intros e Hok. unfold cbvga_pal_flush. fold e. destruct (_ || _); [by apply within_ret|].
  pose proof Hok as (_ & _ & _ & Hdp & _ & Hh & _).
  apply upto_within; [by apply within_ret|]. intros y m' Hy.
  destruct (flush_line_within ss e Hok y m' ltac:(lia)) as (m'' & Hr & Hf). exists m''.
  split; [exact Hr|]. intros a Ha. apply Hf. unfold far in *. nia.
Qed.

(** The table built from the DAC has red in its low byte, and so has the
    search for a nearest colour; a pixel unpacked from 16 or 24 bits has red
    in bits 16 to 23.  Full red in RGB565 is therefore matched to blue. *)
Lemma red_matched_to_blue : exists c,
  packed_to_argb 0xF800 11 5 5 6 0 5 = Done c /\ nearest_vga16_index c = 1 /\
  default_vga_palette !! 1%nat = Some (0, 0, 42).
Proof. eexists. split; [vm_compute; reflexivity|]. split; vm_compute; reflexivity. Qed.
