(* ===== verification/VgaCb.v ===== *)
(** The linear-framebuffer driver of the video BIOS ([seabios/vgasrc/cbvga.c]).

    [cbvga_setup] reads the framebuffer record of the coreboot table CSMWrap
    built, validates it and fills in the modes; the other functions answer the
    questions the video services ask.  The text-mode drawing functions at the
    end of the file are here too. *)

From stdpp Require Import base numbers list.
From Stdlib Require Import ZArith Lia.
From S2P Require Import Prelude Memory Coreboot CcInt VgaState VgaPal.

(** * Updates of the image's variables *)

Definition set_CBmode (v : Z) (V : vga) : vga :=
  mkVga v (CBmodeinfo V) (CBemulinfo V) (CBlinelength V) (svga_modes V) (svga_mcount V)
    (VBE_total_memory V) (VBE_capabilities V) (VBE_framebuffer V) (VBE_win_granularity V) (VBE_edid V)
    (g_last_vbe_mode_info V) (HaveRunInit V) (ExtraStackSeg V) (Timer_Hook_Resume V) (rom_header_checksum V).

Definition set_modeinfo (cb emul : vgamode_s) (V : vga) : vga :=
  mkVga (CBmode V) cb emul (CBlinelength V) (svga_modes V) (svga_mcount V)
    (VBE_total_memory V) (VBE_capabilities V) (VBE_framebuffer V) (VBE_win_granularity V) (VBE_edid V)
    (g_last_vbe_mode_info V) (HaveRunInit V) (ExtraStackSeg V) (Timer_Hook_Resume V) (rom_header_checksum V).

Definition set_linelength (v : Z) (V : vga) : vga :=
  mkVga (CBmode V) (CBmodeinfo V) (CBemulinfo V) v (svga_modes V) (svga_mcount V)
    (VBE_total_memory V) (VBE_capabilities V) (VBE_framebuffer V) (VBE_win_granularity V) (VBE_edid V)
    (g_last_vbe_mode_info V) (HaveRunInit V) (ExtraStackSeg V) (Timer_Hook_Resume V) (rom_header_checksum V).

Definition set_svga (l : list generic_svga_mode) (n : Z) (V : vga) : vga :=
  mkVga (CBmode V) (CBmodeinfo V) (CBemulinfo V) (CBlinelength V) l n
    (VBE_total_memory V) (VBE_capabilities V) (VBE_framebuffer V) (VBE_win_granularity V) (VBE_edid V)
    (g_last_vbe_mode_info V) (HaveRunInit V) (ExtraStackSeg V) (Timer_Hook_Resume V) (rom_header_checksum V).

Definition set_framebuffer (addr total : Z) (V : vga) : vga :=
  mkVga (CBmode V) (CBmodeinfo V) (CBemulinfo V) (CBlinelength V) (svga_modes V) (svga_mcount V)
    total (VBE_capabilities V) addr (VBE_win_granularity V) (VBE_edid V)
    (g_last_vbe_mode_info V) (HaveRunInit V) (ExtraStackSeg V) (Timer_Hook_Resume V) (rom_header_checksum V).

Definition set_last_info (l : list Z) (V : vga) : vga :=
  mkVga (CBmode V) (CBmodeinfo V) (CBemulinfo V) (CBlinelength V) (svga_modes V) (svga_mcount V)
    (VBE_total_memory V) (VBE_capabilities V) (VBE_framebuffer V) (VBE_win_granularity V) (VBE_edid V)
    l (HaveRunInit V) (ExtraStackSeg V) (Timer_Hook_Resume V) (rom_header_checksum V).

Definition set_init (run stack resume sum : Z) (V : vga) : vga :=
  mkVga (CBmode V) (CBmodeinfo V) (CBemulinfo V) (CBlinelength V) (svga_modes V) (svga_mcount V)
    (VBE_total_memory V) (VBE_capabilities V) (VBE_framebuffer V) (VBE_win_granularity V) (VBE_edid V)
    (g_last_vbe_mode_info V) run stack resume sum.

(** * The table of modes ([svgamodes.c]) *)

Definition packed (n w h d : Z) : generic_svga_mode := mkSvga n (mkMode MM_PACKED w h d 8 16 SEG_GRAPH).
Definition planar (n w h d : Z) : generic_svga_mode := mkSvga n (mkMode MM_PLANAR w h d 8 16 SEG_GRAPH).
Definition truecolor (n w h d : Z) : generic_svga_mode := mkSvga n (mkMode MM_DIRECT w h d 8 16 SEG_GRAPH).

Definition initial_svga_modes : list generic_svga_mode := [
  packed 0x100 640 400 8; packed 0x101 640 480 8; planar 0x102 800 600 4; packed 0x103 800 600 8;
  planar 0x104 1024 768 4; packed 0x105 1024 768 8; planar 0x106 1280 1024 4; packed 0x107 1280 1024 8;
  truecolor 0x10D 320 200 15; truecolor 0x10E 320 200 16; truecolor 0x10F 320 200 24;
  truecolor 0x110 640 480 15; truecolor 0x111 640 480 16; truecolor 0x112 640 480 24;
  truecolor 0x113 800 600 15; truecolor 0x114 800 600 16; truecolor 0x115 800 600 24;
  truecolor 0x116 1024 768 15; truecolor 0x117 1024 768 16; truecolor 0x118 1024 768 24;
  truecolor 0x119 1280 1024 15; truecolor 0x11A 1280 1024 16; truecolor 0x11B 1280 1024 24;
  packed 0x11C 1600 1200 8; truecolor 0x11D 1600 1200 15; truecolor 0x11E 1600 1200 16;
  truecolor 0x11F 1600 1200 24;
  truecolor 0x140 320 200 32; truecolor 0x141 640 400 32; truecolor 0x142 640 480 32;
  truecolor 0x143 800 600 32; truecolor 0x144 1024 768 32; truecolor 0x145 1280 1024 32;
  packed 0x146 320 200 8; truecolor 0x147 1600 1200 32; packed 0x148 1152 864 8;
  truecolor 0x149 1152 864 15; truecolor 0x14a 1152 864 16; truecolor 0x14b 1152 864 24;
  truecolor 0x14c 1152 864 32; truecolor 0x175 1280 768 16; truecolor 0x176 1280 768 24;
  truecolor 0x177 1280 768 32; truecolor 0x178 1280 800 16; truecolor 0x179 1280 800 24;
  truecolor 0x17a 1280 800 32; truecolor 0x17b 1280 960 16; truecolor 0x17c 1280 960 24;
  truecolor 0x17d 1280 960 32; truecolor 0x17e 1440 900 16; truecolor 0x17f 1440 900 24;
  truecolor 0x180 1440 900 32; truecolor 0x181 1400 1050 16; truecolor 0x182 1400 1050 24;
  truecolor 0x183 1400 1050 32; truecolor 0x184 1680 1050 16; truecolor 0x185 1680 1050 24;
  truecolor 0x186 1680 1050 32; truecolor 0x187 1920 1200 16; truecolor 0x188 1920 1200 24;
  truecolor 0x189 1920 1200 32; truecolor 0x18a 2560 1600 16; truecolor 0x18b 2560 1600 24;
  truecolor 0x18c 2560 1600 32; truecolor 0x18d 1280 720 16; truecolor 0x18e 1280 720 24;
  truecolor 0x18f 1280 720 32; truecolor 0x190 1920 1080 16; truecolor 0x191 1920 1080 24;
  truecolor 0x192 1920 1080 32; truecolor 0x193 1600 900 16; truecolor 0x194 1600 900 24;
  truecolor 0x195 1600 900 32; truecolor 0x196 2560 1440 16; truecolor 0x197 2560 1440 24;
  truecolor 0x198 2560 1440 32; truecolor 0x199 3840 2160 16; truecolor 0x19a 3840 2160 32;
  truecolor 0x19b 4096 2160 16; truecolor 0x19c 4096 2160 32; truecolor 0x19d 5120 2160 16;
  truecolor 0x19e 5120 2160 32].

(** The image as it is loaded. *)
Definition initial_vga (resume sum : Z) : vga :=
  mkVga 0 zero_mode zero_mode 0 initial_svga_modes (Z.of_nat (length initial_svga_modes))
    (256 * 1024) 0 0 0 (repeat 0 256) (repeat 0 256) 0 0 resume sum.

Section layout.
Context {L : Layout}.

(** * Lookup and listing *)

Fixpoint find_svga (l : list generic_svga_mode) (i n : nat) (m : Z) : Z :=
  match n, l with
  | S n', g :: l' =>
    if mode g =? 0xffff then find_svga l' (S i) n' m
    else if mode g =? m then svga_offset i
    else find_svga l' (S i) n' m
  | _, _ => 0
  end.

(** The offset of the description, 0 when there is none. *)
Definition cbvga_find_mode (V : vga) (m : Z) : Z :=
  if m =? CBmode V then off_CBmodeinfo
  else if m =? 0x03 then off_CBemulinfo
  else find_svga (svga_modes V) 0 (Z.to_nat (svga_mcount V)) m.

(** The loop over [svga_modes]: memory, the next slot, and whether [CBmode]
    was listed. *)
Fixpoint list_svga (l : list generic_svga_mode) (n : nat) (cb seg dest last : Z) (seen : bool) (m : mem) :
  mem * Z * bool :=
  match n, l with
  | S n', g :: l' =>
    if dest <? last then
      if mode g =? 0xffff then list_svga l' n' cb seg dest last seen m
      else list_svga l' n' cb seg (dest + 2) last (seen || (cb =? mode g)) (SET_FARVAR 2 m seg dest (mode g))
    else (m, dest, seen)
  | _, _ => (m, dest, seen)
  end.

Definition cbvga_list_modes (V : vga) (seg dest last : Z) (m : mem) : mem :=
  let '(m, dest, seen) :=
    if CBmode V =? 0x3 then (m, dest, false)
    else list_svga (svga_modes V) (Z.to_nat (svga_mcount V)) (CBmode V) seg dest last false m in
  let '(m, dest) :=
    if (dest <? last) && negb seen then (SET_FARVAR 2 m seg dest (CBmode V), dest + 2) else (m, dest) in
  SET_FARVAR 2 m seg dest 0xffff.

(** * The questions with constant answers *)

Definition cbvga_get_window (window : Z) : Z := -1.
Definition cbvga_set_window (window val : Z) : Z := -1.
Definition cbvga_minimum_linelength (V : vga) : Z := si (CBlinelength V).
Definition cbvga_get_linelength (V : vga) : Z := si (CBlinelength V).
Definition cbvga_set_linelength (val : Z) : Z := -1.
Definition cbvga_get_displaystart : Z := 0.
Definition cbvga_set_displaystart (val : Z) : Z := -1.
Definition cbvga_get_dacformat : Z := cbvga_emul_get_dacformat.
Definition cbvga_set_dacformat (val : Z) : Z := cbvga_emul_set_dacformat val.

(** * Set-up *)

(** [add_mode_depths_for_resolution]: five entries, 4 to 32 bits deep.  An
    entry keeps the fields that are not assigned. *)
Definition SVGA_MAX_MODES : Z := 128.

Definition put_svga (f : generic_svga_mode -> generic_svga_mode) (V : vga) : vga :=
  set_svga (alter f (Z.to_nat (svga_mcount V)) (svga_modes V)) (svga_mcount V + 1) V.

Definition assign_mode (n x y d mm : Z) (g : generic_svga_mode) : generic_svga_mode :=
  mkSvga (u16 n) (mkMode mm (u16 x) (u16 y) d (cwidth (info g)) (cheight (info g)) (sstart (info g))).

Definition assign_mode4 (n x y : Z) (g : generic_svga_mode) : generic_svga_mode :=
  mkSvga (u16 n) (mkMode MM_PACKED (u16 x) (u16 y) 4 8 16 (sstart (info g))).

Definition add_mode_depths_for_resolution (base_mode x y : Z) (V : vga) : vga :=
  if SVGA_MAX_MODES <? svga_mcount V + 5 then V
  else
    let V := put_svga (assign_mode4 (base_mode - 1) x y) V in
    let V := put_svga (assign_mode base_mode x y 8 MM_PACKED) V in
    let V := put_svga (assign_mode (base_mode + 1) x y 16 MM_DIRECT) V in
    let V := put_svga (assign_mode (base_mode + 2) x y 24 MM_DIRECT) V in
    put_svga (assign_mode (base_mode + 3) x y 32 MM_DIRECT) V.

Definition register_emulated_modes (fb_x fb_y : Z) (V : vga) : vga :=
  let V := add_mode_depths_for_resolution 0x100 640 480 V in
  let V := add_mode_depths_for_resolution 0x110 800 600 V in
  let V := add_mode_depths_for_resolution 0x120 1024 768 V in
  let V := add_mode_depths_for_resolution 0x130 1280 1024 V in
  add_mode_depths_for_resolution 0x140 fb_x fb_y V.

Variable ss : Z.

Definition cbvga_setup_modes (addr bpp xlines ylines linelength : Z) (V : vga) (m : mem) : vga * mem :=
  let V := set_svga (svga_modes V) 0 V in
  let V := set_CBmode 0x143 V in
  let V := set_framebuffer (u32 addr) (u32 (linelength * ylines)) V in
  let V := set_linelength linelength V in
  let cb := mkMode MM_DIRECT (u16 xlines) (u16 ylines) bpp 8 16 (sstart (CBmodeinfo V)) in
  let V := set_modeinfo cb cb V in
  let V := register_emulated_modes xlines ylines V in
  (V, cbvga_emul_setup_modes ss addr bpp xlines ylines linelength m).

(** EGA text, assumed when there is no usable framebuffer. *)
Definition text_fallback (V : vga) : vga :=
  let V := set_CBmode 0x03 V in
  let V := set_linelength (80 * 2) V in
  set_modeinfo (mkMode MM_TEXT 80 25 4 9 16 SEG_CTEXT) (CBemulinfo V) V.

Definition vga16_argb : list Z :=
  [0xFF000000; 0xFF800000; 0xFF008000; 0xFF808000; 0xFF000080; 0xFF800080; 0xFF008080; 0xFFC0C0C0;
   0xFF808080; 0xFFFF0000; 0xFF00FF00; 0xFFFFFF00; 0xFF0000FF; 0xFFFF00FF; 0xFF00FFFF; 0xFFFFFFFF].

Definition cbvga_init_text_palette (m : mem) : mem :=
  upto 16 0 (fun i m => store32 m (argb_entry ss i) (nth (Z.to_nat i) vga16_argb 0)) m.

(** The depth of the framebuffer: the tag's when it is one the driver knows,
    else from the bytes per pixel.  The second test divides by [xlines] without
    the check of the first. *)
Definition effective_bpp (tag_bpp xlines stride : Z) : outcome Z :=
  let known := (tag_bpp =? 16) || (tag_bpp =? 24) || (tag_bpp =? 32) in
  eff_bpp ←
    (if negb known && negb (xlines =? 0) then
       bytes_per_px ← udiv stride xlines;
       mret (if bytes_per_px =? 4 then 32 else if bytes_per_px =? 3 then 24
             else if bytes_per_px =? 2 then 16 else tag_bpp)
     else mret tag_bpp);
  if tag_bpp =? 24 then
    bytes_per_px ← udiv stride xlines;
    mret (if bytes_per_px =? 4 then 24 else eff_bpp)
  else mret eff_bpp.

Definition min_stride (eff_bpp xlines : Z) : Z :=
  if eff_bpp =? 32 then u32 (xlines * 4)
  else if eff_bpp =? 24 then u32 (xlines * 3)
  else if eff_bpp =? 16 then u32 (xlines * 2) else 0.

(** The masks kept: those of the record, or defaults when one is missing. *)
Definition set_masks (r rs g gs b bs : Z) (m : mem) : mem :=
  let m := dset 1 ss CBred_pos r m in
  let m := dset 1 ss CBred_size rs m in
  let m := dset 1 ss CBgreen_pos g m in
  let m := dset 1 ss CBgreen_size gs m in
  let m := dset 1 ss CBblue_pos b m in
  dset 1 ss CBblue_size bs m.

Definition fix_masks (eff_bpp : Z) (m : mem) : mem :=
  let missing := (dget 1 ss CBred_size m =? 0) || (dget 1 ss CBgreen_size m =? 0)
                 || (dget 1 ss CBblue_size m =? 0) in
  if (eff_bpp =? 16) && missing then set_masks 11 5 5 6 0 5 m
  else if ((eff_bpp =? 24) || (eff_bpp =? 32)) && missing then set_masks 16 8 8 8 0 8 m
  else m.

(** Whether the framebuffer of a record can be used. *)
Definition fb_invalid (addr stride xlines ylines eff_bpp : Z) : bool :=
  (addr =? 0) || (0xffffffff <? addr) || (stride =? 0) || (xlines =? 0) || (ylines =? 0) ||
  (negb (eff_bpp =? 16) && negb (eff_bpp =? 24) && negb (eff_bpp =? 32)) ||
  (negb (min_stride eff_bpp xlines =? 0) && (stride <? min_stride eff_bpp xlines)).

(** [cbvga_setup]: the value returned and the state. *)
Definition cbvga_setup (V : vga) (m : mem) : outcome (Z * vga * mem) :=
  if negb (HaveRunInit V =? 0) then mret (0, V, m)
  else
    match find_cb_table m with
    | None => mret (-1, V, m)
    | Some cbh =>
      match find_cb_subtable m cbh CB_TAG_FRAMEBUFFER with
      | None => mret (0, text_fallback V, m)
      | Some cbfb =>
        let fb := read_framebuffer m cbfb in
        let addr := physical_address fb in
        let xlines := x_resolution fb in
        let ylines := y_resolution fb in
        let stride := bytes_per_line fb in
        let m := dset 1 ss CBred_size (red_mask_size (read_framebuffer m cbfb)) m in
        let m := dset 1 ss CBgreen_size (green_mask_size (read_framebuffer m cbfb)) m in
        let m := dset 1 ss CBblue_size (blue_mask_size (read_framebuffer m cbfb)) m in
        let m := dset 1 ss CBred_pos (red_mask_pos (read_framebuffer m cbfb)) m in
        let m := dset 1 ss CBgreen_pos (green_mask_pos (read_framebuffer m cbfb)) m in
        let m := dset 1 ss CBblue_pos (blue_mask_pos (read_framebuffer m cbfb)) m in
        eff_bpp ← effective_bpp (bits_per_pixel fb) xlines stride;
        let m := fix_masks eff_bpp m in
        let m := cbvga_emul_set_masks ss (dget 1 ss CBred_size m) (dget 1 ss CBgreen_size m)
                   (dget 1 ss CBblue_size m) (dget 1 ss CBred_pos m) (dget 1 ss CBgreen_pos m)
                   (dget 1 ss CBblue_pos m) m in
        if fb_invalid addr stride xlines ylines eff_bpp then mret (0, text_fallback V, m)
        else
          let '(V, m) := cbvga_setup_modes addr eff_bpp xlines ylines stride V m in
          mret (0, V, cbvga_init_text_palette m)
      end
    end.

(** * The modes registered *)

(** The five entries of a resolution. *)
Definition depth_entries (base x y : Z) : list generic_svga_mode :=
  [packed (base - 1) x y 4; packed base x y 8; truecolor (base + 1) x y 16;
   truecolor (base + 2) x y 24; truecolor (base + 3) x y 32].

Definition registered (fb_x fb_y : Z) : list generic_svga_mode :=
  depth_entries 0x100 640 480 ++ depth_entries 0x110 800 600 ++ depth_entries 0x120 1024 768 ++
  depth_entries 0x130 1280 1024 ++ depth_entries 0x140 (u16 fb_x) (u16 fb_y).

(** The cells of the table all have 8 by 16 characters in the graphics window. *)
Definition plain_cell (g : generic_svga_mode) : Prop :=
  cwidth (info g) = 8 /\ cheight (info g) = 16 /\ sstart (info g) = SEG_GRAPH.

Lemma put_svga_at f V pre g rest : svga_modes V = pre ++ g :: rest ->
  svga_mcount V = Z.of_nat (length pre) ->
  put_svga f V = set_svga ((pre ++ [f g]) ++ rest) (Z.of_nat (length (pre ++ [f g]))) V.
Proof.
  intros Hl Hn. unfold put_svga. rewrite Hl, Hn, Nat2Z.id, alter_app_r_alt, Nat.sub_diag by lia.
  rewrite length_app, <- app_assoc. cbn. f_equal. lia.
Qed.

Lemma assign_plain n x y d mm g : plain_cell g -> 0 <= n < 2 ^ 16 ->
  assign_mode n x y d mm g = mkSvga n (mkMode mm (u16 x) (u16 y) d 8 16 SEG_GRAPH).
Proof. intros (H1 & H2 & H3) Hn. unfold assign_mode. by rewrite H1, H2, H3, wrap_small. Qed.

Lemma assign4_plain n x y g : plain_cell g -> 0 <= n < 2 ^ 16 ->
  assign_mode4 n x y g = mkSvga n (mkMode MM_PACKED (u16 x) (u16 y) 4 8 16 SEG_GRAPH).
Proof. intros (H1 & H2 & H3) Hn. unfold assign_mode4. by rewrite H3, wrap_small. Qed.

Lemma add_mode_depths base x y V pre l rest : svga_modes V = pre ++ l ++ rest ->
  svga_mcount V = Z.of_nat (length pre) -> length l = 5%nat -> Forall plain_cell l ->
  (length pre <= 123)%nat -> 0 < base < 0x1000 ->
  add_mode_depths_for_resolution base x y V =
  set_svga ((pre ++ depth_entries base (u16 x) (u16 y)) ++ rest)
    (Z.of_nat (length (pre ++ depth_entries base (u16 x) (u16 y)))) V.
Proof.
  intros Hm Hn Hl Hp Hpre Hb. unfold add_mode_depths_for_resolution, SVGA_MAX_MODES.
  destruct (Z.ltb_spec 128 (svga_mcount V + 5)); [lia|].
  destruct l as [|a [|b [|c [|d [|e [|]]]]]]; try discriminate Hl. cbn [app] in Hm.
  rewrite !Forall_cons in Hp. destruct Hp as (Ha & Hb' & Hc & Hd & He & _).
  rewrite (put_svga_at (assign_mode4 (base - 1) x y) V pre a (b :: c :: d :: e :: rest)) by done.
  erewrite (put_svga_at (assign_mode base x y 8 MM_PACKED) _ _ b (c :: d :: e :: rest)); [|reflexivity|reflexivity].
  erewrite (put_svga_at (assign_mode (base + 1) x y 16 MM_DIRECT) _ _ c (d :: e :: rest)); [|reflexivity|reflexivity].
  erewrite (put_svga_at (assign_mode (base + 2) x y 24 MM_DIRECT) _ _ d (e :: rest)); [|reflexivity|reflexivity].
  erewrite (put_svga_at (assign_mode (base + 3) x y 32 MM_DIRECT) _ _ e rest); [|reflexivity|reflexivity].
  rewrite assign4_plain, !assign_plain by (done || lia). rewrite <- !app_assoc. reflexivity.
Qed.

Lemma register_modes fb_x fb_y V : svga_modes V = initial_svga_modes -> svga_mcount V = 0 ->
  register_emulated_modes fb_x fb_y V =
  set_svga (registered fb_x fb_y ++ drop 25 initial_svga_modes) 25 V.
Proof.
  intros Hm Hn. unfold register_emulated_modes.
  assert (Forall plain_cell initial_svga_modes) as Hp by (repeat constructor).
  assert (forall i, Forall plain_cell (take 5 (drop i initial_svga_modes))) as Hc
    by (intros i; by apply Forall_take, Forall_drop).
  rewrite (add_mode_depths 0x100 640 480 V [] (take 5 (drop 0 initial_svga_modes)) (drop 5 initial_svga_modes));
    [|by rewrite Hm|done|done|apply Hc|cbn; lia|lia].
  erewrite (add_mode_depths 0x110 800 600 _ _ (take 5 (drop 5 initial_svga_modes)) (drop 10 initial_svga_modes));
    [|reflexivity|reflexivity|done|apply Hc|cbn; lia|lia].
  erewrite (add_mode_depths 0x120 1024 768 _ _ (take 5 (drop 10 initial_svga_modes)) (drop 15 initial_svga_modes));
    [|reflexivity|reflexivity|done|apply Hc|cbn; lia|lia].
  erewrite (add_mode_depths 0x130 1280 1024 _ _ (take 5 (drop 15 initial_svga_modes)) (drop 20 initial_svga_modes));
    [|reflexivity|reflexivity|done|apply Hc|cbn; lia|lia].
  erewrite (add_mode_depths 0x140 fb_x fb_y _ _ (take 5 (drop 20 initial_svga_modes)) (drop 25 initial_svga_modes));
    [|reflexivity|reflexivity|done|apply Hc|cbn; lia|lia].
  unfold registered. rewrite <- !app_assoc. reflexivity.
Qed.

(** * What the set-up leaves *)

(** The variables describe a framebuffer of [x] by [y] pixels of [bpp] bits at
    [addr], [pitch] bytes a line, as mode 0x143. *)
Definition shows (V : vga) (addr bpp x y pitch : Z) : Prop :=
  CBmode V = 0x143 /\ VBE_framebuffer V = addr /\ CBlinelength V = pitch /\
  VBE_total_memory V = u32 (pitch * y) /\
  (exists seg, CBmodeinfo V = mkMode MM_DIRECT (u16 x) (u16 y) bpp 8 16 seg) /\
  CBemulinfo V = CBmodeinfo V /\
  svga_modes V = registered x y ++ drop 25 initial_svga_modes /\ svga_mcount V = 25.

Lemma set_masks_frame r rs g gs b bs m x : ~ in_direct ss x -> set_masks r rs g gs b bs m x = m x.
Proof. intros Hx. unfold set_masks. by rewrite !dset_frame. Qed.

Lemma fix_masks_frame d m x : ~ in_direct ss x -> fix_masks d m x = m x.
Proof. intros Hx. unfold fix_masks. repeat case_match; auto using set_masks_frame. Qed.

Lemma emul_masks_frame a b c d e f m x : ~ in_direct ss x -> cbvga_emul_set_masks ss a b c d e f m x = m x.
Proof. intros Hx. unfold cbvga_emul_set_masks. by rewrite !dset_frame. Qed.

Lemma emul_setup_frame a b c d e m x : ~ in_direct ss x -> cbvga_emul_setup_modes ss a b c d e m x = m x.
Proof. intros Hx. unfold cbvga_emul_setup_modes. by rewrite !dset_frame. Qed.

Lemma text_palette_frame m x : ~ in_direct ss x -> cbvga_init_text_palette m x = m x.
Proof.
  intros Hx. unfold cbvga_init_text_palette.
  apply (upto_invariant (fun _ (m' : mem) => m' x = m x)); [done|]. intros i m' Hi <-.
  apply store_out. unfold argb_entry.
  destruct (decide (daddr ss cbvga_palette_argb <= x < daddr ss cbvga_palette_argb + 1024)); [|lia].
  exfalso. apply Hx. by exists cbvga_palette_argb.
Qed.

Lemma effective_known bpp x stride : bpp = 16 \/ bpp = 32 -> effective_bpp bpp x stride = Done bpp.
Proof. by intros [->| ->]. Qed.

Lemma setup_shows V m cbh cbfb : HaveRunInit V = 0 ->
  svga_modes V = initial_svga_modes ->
  find_cb_table m = Some cbh -> find_cb_subtable m cbh CB_TAG_FRAMEBUFFER = Some cbfb ->
  let fb := read_framebuffer m cbfb in
  (bits_per_pixel fb = 16 \/ bits_per_pixel fb = 32) ->
  fb_invalid (physical_address fb) (bytes_per_line fb) (x_resolution fb) (y_resolution fb)
    (bits_per_pixel fb) = false ->
  exists V' m', cbvga_setup V m = Done (0, V', m') /\
    shows V' (u32 (physical_address fb)) (bits_per_pixel fb) (x_resolution fb) (y_resolution fb)
      (bytes_per_line fb) /\
    VBE_win_granularity V' = VBE_win_granularity V /\
    forall a, ~ in_direct ss a -> m' a = m a.
Proof.
  intros Hrun Hm Ht Hs fb Hbpp Hv. unfold cbvga_setup. rewrite Hrun, Ht, Hs. cbn [Z.eqb negb]. fold fb.
  rewrite (effective_known _ _ _ Hbpp). run_outcome. rewrite Hv.
  unfold cbvga_setup_modes. rewrite register_modes by done. do 2 eexists. split; [reflexivity|].
  split; [|split].
  - unfold shows. cbn. repeat split. by eexists.
  - done.
  - intros a Ha. rewrite text_palette_frame, emul_setup_frame, emul_masks_frame, fix_masks_frame by done.
    by rewrite !dset_frame.
Qed.

(** A 24-bit framebuffer of width zero divides by zero before it is rejected. *)
Lemma setup_divides_by_zero V m cbh cbfb : HaveRunInit V = 0 ->
  find_cb_table m = Some cbh -> find_cb_subtable m cbh CB_TAG_FRAMEBUFFER = Some cbfb ->
  bits_per_pixel (read_framebuffer m cbfb) = 24 -> x_resolution (read_framebuffer m cbfb) = 0 ->
  cbvga_setup V m = Undefined.
Proof.
  intros Hrun Ht Hs Hb Hx. unfold cbvga_setup. rewrite Hrun, Ht, Hs. cbn [Z.eqb negb].
  rewrite Hb, Hx. reflexivity.
Qed.

(** * Listing and finding *)

Lemma list_svga_spec l cb seg last : forall dest seen m,
  Forall (fun g => mode g <> 0xffff) l -> dest + 2 * Z.of_nat (length l) <= last ->
  exists m', list_svga l (length l) cb seg dest last seen m =
    (m', dest + 2 * Z.of_nat (length l), seen || existsb (fun g => cb =? mode g) l) /\
  (forall i g, l !! i = Some g -> fits 16 (mode g) ->
    GET_FARVAR 2 m' seg (dest + 2 * Z.of_nat i) = mode g) /\
  (forall a, a < far seg dest \/ far seg dest + 2 * Z.of_nat (length l) <= a -> m' a = m a).
Proof.
  induction l as [|g l IH]; intros dest seen m Hl Hd; cbn [list_svga length existsb] in *.
  - exists m. rewrite Z.add_0_r, orb_false_r. split; [done|]. split; [done|done].
  - apply Forall_cons in Hl as [Hg Hl]. destruct (Z.ltb_spec dest last); [|lia].
    destruct (Z.eqb_spec (mode g) 0xffff); [done|].
    destruct (IH (dest + 2) (seen || (cb =? mode g)) (SET_FARVAR 2 m seg dest (mode g)) Hl ltac:(lia))
      as (m' & Hr & Hin & Hout).
    exists m'. rewrite Hr, orb_assoc. split; [f_equal; f_equal; lia|]. split.
    + intros [|i] g' Hi Hf.
      * injection Hi as <-. unfold GET_FARVAR in *. rewrite (load_ext 2 m' (SET_FARVAR 2 m seg dest (mode g))).
        -- unfold SET_FARVAR. rewrite Z.add_0_r, load_store_same. by apply wrap_small.
        -- intros x Hx. apply Hout. unfold far in *. lia.
      * replace (dest + 2 * Z.of_nat (S i)) with (dest + 2 + 2 * Z.of_nat i) by lia. by apply Hin.
    + intros a Ha. rewrite Hout by (unfold far in *; lia). apply store_out. unfold far in *. lia.
Qed.

Lemma list_svga_take l rest cb seg last dest seen m :
  list_svga (l ++ rest) (length l) cb seg dest last seen m = list_svga l (length l) cb seg dest last seen m.
Proof.
  revert dest seen m. induction l as [|g l IH]; intros dest seen m; cbn.
  - by destruct rest.
  - by rewrite !IH.
Qed.

Lemma find_svga_unique l rest i g k : NoDup (mode <$> l) -> Forall (fun g => mode g <> 0xffff) l ->
  l !! i = Some g -> find_svga (l ++ rest) k (length l) (mode g) = svga_offset (k + i).
Proof.
  revert i k. induction l as [|h l IH]; intros i k Hd Hf Hi; [done|].
  apply Forall_cons in Hf as [Hh Hf]. rewrite fmap_cons, NoDup_cons in Hd. destruct Hd as [Hn Hd].
  cbn [app length find_svga]. destruct (Z.eqb_spec (mode h) 0xffff); [done|].
  destruct i as [|i]; [injection Hi as ->; rewrite Z.eqb_refl; f_equal; lia|].
  destruct (Z.eqb_spec (mode h) (mode g)) as [He|].
  - exfalso. apply Hn. rewrite He. apply list_elem_of_fmap_2. by eapply list_elem_of_lookup_2.
  - rewrite (IH i) by done. f_equal. lia.
Qed.

Lemma registered_modes x y :
  mode <$> registered x y =
  [0xff; 0x100; 0x101; 0x102; 0x103; 0x10f; 0x110; 0x111; 0x112; 0x113; 0x11f; 0x120; 0x121; 0x122; 0x123;
   0x12f; 0x130; 0x131; 0x132; 0x133; 0x13f; 0x140; 0x141; 0x142; 0x143].
Proof. reflexivity. Qed.

Lemma registered_length x y : length (registered x y) = 25%nat.
Proof. reflexivity. Qed.

Lemma registered_distinct x y : NoDup (mode <$> registered x y).
Proof. rewrite registered_modes. by apply (bool_decide_unpack _). Qed.

Lemma registered_range x y : Forall (fun g => 0 < mode g < 0x200) (registered x y).
Proof.
  assert (Forall (fun n => 0 < n < 0x200) (mode <$> registered x y)) as H.
  { rewrite registered_modes. repeat constructor; lia. }
  by rewrite Forall_fmap in H.
Qed.

Lemma listing V addr bpp x y pitch seg dest last m : shows V addr bpp x y pitch ->
  dest + 2 * 25 <= last ->
  let m' := cbvga_list_modes V seg dest last m in
  (forall i g, registered x y !! i = Some g -> GET_FARVAR 2 m' seg (dest + 2 * Z.of_nat i) = mode g) /\
  GET_FARVAR 2 m' seg (dest + 50) = 0xffff /\
  (forall a, a < far seg dest \/ far seg dest + 52 <= a -> m' a = m a).
Proof.
  intros (Hcb & _ & _ & _ & _ & _ & Hl & Hn) Hd m'. subst m'. unfold cbvga_list_modes.
  rewrite Hcb, Hl, Hn. change (0x143 =? 0x3) with false. cbv iota. change (Z.to_nat 25) with (length (registered x y)).
  rewrite list_svga_take.
  destruct (list_svga_spec (registered x y) 0x143 seg last dest false m) as (m' & Hr & Hin & Hout).
  { eapply Forall_impl; [apply (registered_range x y)|]. intros g Hg. cbn in Hg. lia. }
  { rewrite registered_length. lia. }
  rewrite Hr. cbn [orb]. replace (existsb _ (registered x y)) with true by reflexivity.
  cbv iota beta. cbn [negb]. rewrite andb_false_r. rewrite registered_length in Hout |- *. unfold GET_FARVAR, SET_FARVAR in *.
  assert (far seg (dest + 2 * Z.of_nat 25) = far seg dest + 50) as Hf by (unfold far; lia).
  split; [|split].
  - intros i g Hi. pose proof (lookup_lt_Some _ _ _ Hi) as Hlt. rewrite registered_length in Hlt.
    rewrite load_store_other by (unfold far in *; lia). apply (Hin i g Hi).
    pose proof (registered_range x y) as Hrange. rewrite Forall_lookup in Hrange.
    specialize (Hrange i g Hi). unfold fits. cbn in Hrange. lia.
  - replace (far seg (dest + 50)) with (far seg (dest + 2 * Z.of_nat 25)) by (unfold far; lia).
    by rewrite load_store_same.
  - intros a Ha. rewrite store_out by lia. apply Hout. lia.
Qed.

Lemma finding V addr bpp x y pitch i g : shows V addr bpp x y pitch ->
  modes_placed (length (svga_modes V)) -> registered x y !! i = Some g ->
  let off := cbvga_find_mode V (mode g) in
  off <> 0 /\ mode_at V off = if mode g =? 0x143 then CBmodeinfo V else info g.
Proof.
  intros (Hcb & _ & _ & _ & _ & _ & Hl & Hn) Hp Hi. unfold cbvga_find_mode. rewrite Hcb.
  pose proof (registered_range x y) as Hr. rewrite Forall_lookup in Hr. specialize (Hr i g Hi). cbn in Hr.
  destruct (Z.eqb_spec (mode g) 0x143).
  - split; [destruct Hp; lia|]. unfold mode_at. by rewrite Z.eqb_refl.
  - destruct (Z.eqb_spec (mode g) 0x03) as [E|_].
    { pose proof (registered_modes x y) as Hm.
      apply (f_equal (fun l => bool_decide (3 ∈ l))) in Hm. cbv beta in Hm.
      rewrite bool_decide_true in Hm by (rewrite <- E; apply list_elem_of_fmap_2; by eapply list_elem_of_lookup_2).
      discriminate Hm. }
    rewrite Hl, Hn. change (Z.to_nat 25) with (length (registered x y)).
    rewrite (find_svga_unique _ _ i g 0); [| |..].
    + split; [unfold svga_offset; destruct Hp as (_ & _ & _ & ? & _); lia|].
      apply mode_at_svga; [done|]. rewrite Hl. by apply lookup_app_l_Some.
    + apply registered_distinct.
    + eapply Forall_impl; [apply (registered_range x y)|]. intros h Hh. cbn in Hh. lia.
    + done.
Qed.

End layout.

(** * An image *)

(** The offsets of one link of the image, for examples. *)
Definition demo_direct (v : direct) : Z :=
  match v with
  | CBred_size => 0x2000 | CBgreen_size => 0x2001 | CBblue_size => 0x2002
  | CBred_pos => 0x2003 | CBgreen_pos => 0x2004 | CBblue_pos => 0x2005
  | g_red_mask_size => 0x2006 | g_green_mask_size => 0x2007 | g_blue_mask_size => 0x2008
  | g_red_mask_pos => 0x2009 | g_green_mask_pos => 0x200a | g_blue_mask_pos => 0x200b
  | g_shadow_ptr => 0x2010 | g_dst_ptr => 0x2014 | g_src_pitch => 0x2018 | g_dst_pitch => 0x201c
  | g_width => 0x2020 | g_height => 0x2024 | g_src_bpp => 0x2028 | g_dst_bpp => 0x202c
  | cbvga_palette => 0x2100 | cbvga_palette_argb => 0x2400 | default_vga256_palette => 0x2800
  | direct_vbe_mode_info => 0x2b00
  end.

Definition demo_layout : Layout := {|
  global_seg := 0xC000;
  off_CBmodeinfo := 0x100;
  off_CBemulinfo := 0x110;
  off_svga_modes := 0x200;
  other_mode _ := zero_mode;
  vgafont8 := 0x4000;
  vgafont14 := 0x4800;
  vgafont16 := 0x5600;
  vgafont14alt := 0x6600;
  vgafont16alt := 0x6700;
  VBE_OEM_STRING := 0x6800;
  VBE_VENDOR_STRING := 0x6820;
  VBE_PRODUCT_STRING := 0x6840;
  VBE_REVISION_STRING := 0x6860;
  entry_10 := 0x7000;
  entry_10_extrastack := 0x7010;
  entry_104f05 := 0x7020;
  entry_timer_hook := 0x7030;
  entry_timer_hook_extrastack := 0x7040;
  off_static_functionality := 0x6880;
  image_sum _ := 0;
  direct_offset := demo_direct
|}.

(** The variables after the set-up of a display of 1024 by 768 pixels. *)
Definition demo_vga : vga :=
  fst (@cbvga_setup_modes demo_layout 0x9000 0xE0000000 32 1024 768 4096 (initial_vga 0 0) (fun _ => 0)).

Lemma demo_shows : shows demo_vga 0xE0000000 32 1024 768 4096.
Proof. unfold shows. vm_compute. repeat split. by eexists. Qed.

Lemma demo_placed : @modes_placed demo_layout (length (svga_modes demo_vga)).
Proof.
  replace (length (svga_modes demo_vga)) with 82%nat by (vm_compute; reflexivity).
  unfold modes_placed, svga_offset. cbn. repeat split; lia.
Qed.

(** * Claims *)

Section claims.
Context {L : Layout}.

(** After the set-up of a framebuffer the video BIOS lists its 25 modes in
    order with a terminator, writes nothing outside that list, and finds each
    mode it lists: the framebuffer itself for 0x143, the registered
    description for the others. *)
Lemma listed_modes_found (V : vga) (addr bpp x y pitch seg dest last : Z) (m : mem)
  (Hs : shows V addr bpp x y pitch) (Hp : modes_placed (length (svga_modes V)))
  (Hroom : dest + 2 * 25 <= last) :
  let m' := cbvga_list_modes V seg dest last m in
  (forall i g, registered x y !! i = Some g ->
     GET_FARVAR 2 m' seg (dest + 2 * Z.of_nat i) = mode g /\
     cbvga_find_mode V (mode g) <> 0 /\
     mode_at V (cbvga_find_mode V (mode g)) = if mode g =? 0x143 then CBmodeinfo V else info g) /\
  GET_FARVAR 2 m' seg (dest + 50) = 0xffff /\
  (forall a, a < far seg dest \/ far seg dest + 52 <= a -> m' a = m a).
Proof.
  destruct (listing V addr bpp x y pitch seg dest last m Hs Hroom) as (H1 & H2 & H3).
  split; [|done]. intros i g Hi. split; [by apply H1|]. by eapply finding.
Qed.

End claims.

Lemma listed_modes_found_witness :
  let m' := cbvga_list_modes demo_vga 0x9000 34 254 (fun _ => 0) in
  GET_FARVAR 2 m' 0x9000 (34 + 48) = 0x143 /\ GET_FARVAR 2 m' 0x9000 84 = 0xffff.
Proof.
  destruct (@listed_modes_found demo_layout demo_vga 0xE0000000 32 1024 768 4096 0x9000 34 254 (fun _ => 0)
    demo_shows demo_placed ltac:(lia)) as (H1 & H2 & _).
  split; [|exact H2]. destruct (H1 24%nat (truecolor 0x143 1024 768 32) eq_refl) as (H & _). exact H.
Defined.
