(* ===== verification/VgaFb.v ===== *)
(** Drawing in the video BIOS ([seabios/vgasrc/vgafb.c] and the text renderer
    of [cbvga.c]).

    A [gfx_op] reads or writes eight pixels, clears a rectangle or moves one.
    With a linear framebuffer it goes through [memcpy_high], the block move of
    interrupt 0x15 in SeaBIOS ([handle_1587] of [seabios/src/system.c]), and a
    local array of the C function, whose flat address is [data].  Characters
    are drawn from the font of interrupt vectors 0x43 and 0x1f. *)

From stdpp Require Import base numbers list.
From Stdlib Require Import ZArith Lia.
From S2P Require Import Prelude Memory SeaString CcInt VgaState VgaPal VgaCb.

(** * Operations *)

Definition GO_READ8 : Z := 1.
Definition GO_WRITE8 : Z := 2.
Definition GO_MEMSET : Z := 3.
Definition GO_MEMMOVE : Z := 4.

(** [struct gfx_op]; [curmode_g] is the offset of the mode. *)
Record gfx_op := mkOp {
  curmode_g : Z;
  linelength : Z;
  displaystart : Z;
  op : Z;
  op_x : Z;
  op_y : Z;
  pixels : list Z;
  xlen : Z;
  ylen : Z;
  srcy : Z
}.

Definition with_op (k : Z) (o : gfx_op) : gfx_op :=
  mkOp (curmode_g o) (linelength o) (displaystart o) k (op_x o) (op_y o) (pixels o) (xlen o) (ylen o) (srcy o).
Definition with_y (y : Z) (o : gfx_op) : gfx_op :=
  mkOp (curmode_g o) (linelength o) (displaystart o) (op o) (op_x o) (u16 y) (pixels o) (xlen o) (ylen o) (srcy o).
Definition with_pos (x y : Z) (o : gfx_op) : gfx_op :=
  mkOp (curmode_g o) (linelength o) (displaystart o) (op o) (u16 x) (u16 y) (pixels o) (xlen o) (ylen o) (srcy o).
Definition with_pixels (p : list Z) (o : gfx_op) : gfx_op :=
  mkOp (curmode_g o) (linelength o) (displaystart o) (op o) (op_x o) (op_y o) p (xlen o) (ylen o) (srcy o).
Definition with_area (xl yl sy : Z) (o : gfx_op) : gfx_op :=
  mkOp (curmode_g o) (linelength o) (displaystart o) (op o) (op_x o) (op_y o) (pixels o) (u16 xl) (u16 yl) (u16 sy).

Definition pixel (o : gfx_op) (i : nat) : Z := nth i (pixels o) 0.

Record cursorpos := mkPos { cp_x : Z; cp_y : Z; cp_page : Z }.
Record carattr := mkChar { car : Z; attr : Z; use_attr : Z }.

(** * Block moves *)

(** [rep movsl] or [rep movsw] of [handle_1587]: 16-bit indices over two
    descriptors. *)
Fixpoint movs (w : nat) (k : nat) (m : mem) (dst src off : Z) : mem :=
  match k with
  | O => m
  | S k' =>
    movs w k' (store w m (u32 (dst + u16 off)) (load w m (u32 (src + u16 off)))) dst src (off + Z.of_nat w)
  end.

Definition handle_1587 (m : mem) (dst src count : Z) : mem :=
  if Z.odd count then movs 2 (Z.to_nat count) m dst src 0
  else movs 4 (Z.to_nat (Z.shiftr count 1)) m dst src 0.

Definition memcpy_high (m : mem) (dest src len : Z) : mem :=
  handle_1587 m (u32 dest) (u32 src) (u16 (u32 len / 2)).

(** The strided loops; [lines] is not negative. *)
Fixpoint memmove_lines (k : nat) (m : mem) (seg dst src copylen stride : Z) : mem :=
  match k with
  | O => m
  | S k' => memmove_lines k' (memcpy_far m seg dst seg src copylen) seg (dst + stride) (src + stride) copylen stride
  end.

Definition memmove_stride (m : mem) (seg dst src copylen stride lines : Z) : mem :=
  if src <? dst then
    memmove_lines (Z.to_nat lines) m seg (dst + stride * (lines - 1)) (src + stride * (lines - 1))
      copylen (- stride)
  else memmove_lines (Z.to_nat lines) m seg dst src copylen stride.

Fixpoint memset_stride (k : nat) (m : mem) (seg dst val setlen stride : Z) : mem :=
  match k with
  | O => m
  | S k' => memset_stride k' (memset_far m seg dst val setlen) seg (dst + stride) val setlen stride
  end.

Fixpoint memset16_stride (k : nat) (m : mem) (seg dst val setlen stride : Z) : mem :=
  match k with
  | O => m
  | S k' => memset16_stride k' (memset16_far m seg dst val setlen) seg (dst + stride) val setlen stride
  end.

Fixpoint memmove_lines_high (k : nat) (m : mem) (dst src copylen stride : Z) : mem :=
  match k with
  | O => m
  | S k' => memmove_lines_high k' (memcpy_high m dst src copylen) (u32 (dst + stride)) (u32 (src + stride)) copylen stride
  end.

Definition memmove_stride_high (m : mem) (dst src copylen stride lines : Z) : mem :=
  if src <? dst then
    memmove_lines_high (Z.to_nat lines) m (u32 (dst + stride * (lines - 1)))
      (u32 (src + stride * (lines - 1))) copylen (- stride)
  else memmove_lines_high (Z.to_nat lines) m dst src copylen stride.

(** * Colours of a direct mode *)

Definition DIV_ROUND_CLOSEST (x d : Z) : Z := (x + d / 2) / d.

Definition channel_bits (depth : Z) : Z * Z * Z :=
  if depth =? 15 then (5, 5, 5) else if depth =? 16 then (5, 6, 5) else (8, 8, 8).

Definition get_color (depth attr : Z) : Z :=
  let '(rbits, gbits, bbits) := channel_bits depth in
  let h := if Z.testbit attr 3 then 1 else 0 in
  let r := if Z.testbit attr 2 then 2 else 0 in
  let g := if Z.testbit attr 1 then 2 else 0 in
  let b := if Z.testbit attr 0 then 2 else 0 in
  let g := if Z.land attr 0xf =? 6 then 1 else g in
  let rv := DIV_ROUND_CLOSEST ((Z.shiftl 1 rbits - 1) * (r + h)) 3 in
  let gv := DIV_ROUND_CLOSEST ((Z.shiftl 1 gbits - 1) * (g + h)) 3 in
  let bv := DIV_ROUND_CLOSEST ((Z.shiftl 1 bbits - 1) * (b + h)) 3 in
  Z.shiftl rv (gbits + bbits) + Z.shiftl gv bbits + bv.

Definition reverse_color (depth color : Z) : Z :=
  let '(rbits, gbits, bbits) := channel_bits depth in
  let rv := Z.land (Z.shiftr color (gbits + bbits)) (Z.shiftl 1 rbits - 1) in
  let gv := Z.land (Z.shiftr color bbits) (Z.shiftl 1 gbits - 1) in
  let bv := Z.land color (Z.shiftl 1 bbits - 1) in
  let r := DIV_ROUND_CLOSEST (rv * 3) (Z.shiftl 1 rbits - 1) in
  let g := DIV_ROUND_CLOSEST (gv * 3) (Z.shiftl 1 gbits - 1) in
  let b := DIV_ROUND_CLOSEST (bv * 3) (Z.shiftl 1 bbits - 1) in
  let h := if negb (r =? 0) && negb (g =? 0) && negb (b =? 0) &&
              (negb (r =? 2) || negb (g =? 2) || negb (b =? 2)) then 1 else 0 in
  Z.lor (Z.lor (Z.lor (if h =? 0 then 0 else 8) (if r - h =? 0 then 0 else 4))
    (if g - h =? 0 then 0 else 2)) (if b - h =? 0 then 0 else 1).

(** * The three memory models *)

Definition be16 (v : Z) : Z := Z.lor (Z.shiftl (Z.land v 0xff) 8) (Z.shiftr v 8).

(** The eight pixels of a byte or of a word, most significant first. *)
Definition unpack8 (data : Z) : list Z := (fun p => Z.land (Z.shiftr data (7 - p)) 1) <$> seqZ 0 8.
Definition unpack16 (data : Z) : list Z := (fun p => Z.land (Z.shiftr data ((7 - p) * 2)) 3) <$> seqZ 0 8.

Definition pack8 (ps : list Z) : Z :=
  foldl (fun d '(p, v) => u8 (Z.lor d (Z.shiftl (Z.land v 1) (7 - p)))) 0 (zip (seqZ 0 8) ps).
Definition pack16 (ps : list Z) : Z :=
  foldl (fun d '(p, v) => u16 (Z.lor d (Z.shiftl (Z.land v 3) ((7 - p) * 2)))) 0 (zip (seqZ 0 8) ps).

Section layout.
Context {L : Layout}.
Variable V : vga.
(** The flat address of the local array [data] of [gfx_direct]. *)
Variable data : Z.

(** [gfx_planar] does nothing without the standard VGA ports. *)
Definition gfx_planar (o : gfx_op) (m : mem) : gfx_op * mem := (o, m).

Definition gfx_cga (o : gfx_op) (m : mem) : gfx_op * mem :=
  let bpp := depth (mode_at V (curmode_g o)) in
  let dest := u32 (op_y o / 2 * linelength o + op_x o / 8 * bpp) in
  let dest1 := if Z.land (op_y o) 1 =? 0 then dest else dest + 0x2000 in
  if op o =? GO_WRITE8 then
    if bpp =? 1 then (o, SET_FARVAR 1 m SEG_CTEXT dest1 (pack8 (pixels o)))
    else (o, SET_FARVAR 2 m SEG_CTEXT dest1 (be16 (pack16 (pixels o))))
  else if op o =? GO_MEMSET then
    let d := pixel o 0 in
    let d := if bpp =? 1 then Z.lor (Z.land d 1) (Z.shiftl (Z.land d 1) 1) else d in
    let d := Z.land d 3 in
    let d := Z.lor (Z.lor (Z.lor d (Z.shiftl d 2)) (Z.shiftl d 4)) (Z.shiftl d 6) in
    let k := Z.to_nat (ylen o / 2) in
    let m := memset_stride k m SEG_CTEXT dest d (xlen o / 8 * bpp) (linelength o) in
    (o, memset_stride k m SEG_CTEXT (dest + 0x2000) d (xlen o / 8 * bpp) (linelength o))
  else if op o =? GO_MEMMOVE then
    let src := u32 (srcy o / 2 * linelength o + op_x o / 8 * bpp) in
    let m := memmove_stride m SEG_CTEXT dest src (xlen o / 8 * bpp) (linelength o) (ylen o / 2) in
    (o, memmove_stride m SEG_CTEXT (dest + 0x2000) (src + 0x2000) (xlen o / 8 * bpp) (linelength o) (ylen o / 2))
  else if bpp =? 1 then (with_pixels (unpack8 (GET_FARVAR 1 m SEG_CTEXT dest1)) o, m)
  else (with_pixels (unpack16 (be16 (GET_FARVAR 2 m SEG_CTEXT dest1))) o, m).

(** [memcpy_far] of the eight pixels to the graphics window. *)
Fixpoint put_far (l : list Z) (dest : Z) (m : mem) : mem :=
  match l with
  | [] => m
  | p :: l' => put_far l' (dest + 1) (store8 m (far SEG_GRAPH (u16 dest)) p)
  end.

Definition gfx_packed (o : gfx_op) (m : mem) : gfx_op * mem :=
  let dest := u32 (op_y o * linelength o + op_x o) in
  if op o =? GO_WRITE8 then
    (o, put_far (pixels o) dest m)
  else if op o =? GO_MEMSET then
    (o, memset_stride (Z.to_nat (ylen o)) m SEG_GRAPH dest (pixel o 0) (xlen o) (linelength o))
  else if op o =? GO_MEMMOVE then
    let src := u32 (srcy o * linelength o + op_x o) in
    (o, memmove_stride m SEG_GRAPH dest src (xlen o) (linelength o) (ylen o))
  else (with_pixels ((fun i => m (far SEG_GRAPH (u16 (dest + i)))) <$> seqZ 0 8) o, m).

(** The pixels of [data] stored as doublewords [bypp] bytes apart. *)
Fixpoint put_data (l : list Z) (i bypp : Z) (m : mem) : mem :=
  match l with
  | [] => m
  | c :: l' => put_data l' (i + 1) bypp (store32 m (data + i * bypp) c)
  end.

Definition DIV_ROUND_UP (n d : Z) : Z := (n + d - 1) / d.

Definition gfx_direct (o : gfx_op) (m : mem) : gfx_op * mem :=
  let fb := VBE_framebuffer V in
  if fb =? 0 then (o, m)
  else
    let d := depth (mode_at V (curmode_g o)) in
    let bypp := DIV_ROUND_UP d 8 in
    let dest := u32 (fb + displaystart o + op_y o * linelength o + op_x o * bypp) in
    if op o =? GO_WRITE8 then
      let m := put_data (get_color d <$> pixels o) 0 bypp m in
      (o, memcpy_high m dest data (bypp * 8))
    else if op o =? GO_MEMSET then
      let m := put_data (repeat (get_color d (pixel o 0)) 8) 0 bypp m in
      let m := memcpy_high m dest data (bypp * 8) in
      let m := memcpy_high m (dest + bypp * 8) dest (xlen o * bypp - bypp * 8) in
      (o, upto (Z.to_nat (ylen o - 1)) 1
            (fun i m => memcpy_high m (dest + linelength o * i) dest (xlen o * bypp)) m)
    else if op o =? GO_MEMMOVE then
      let src := u32 (fb + displaystart o + srcy o * linelength o + op_x o * bypp) in
      (o, memmove_stride_high m dest src (xlen o * bypp) (linelength o) (ylen o))
    else
      let m := memcpy_high m data dest (bypp * 8) in
      (with_pixels ((fun i => reverse_color d (load32 m (data + i * bypp))) <$> seqZ 0 8) o, m).

Definition init_gfx_op (curmode : Z) : gfx_op :=
  mkOp curmode (CBlinelength V) cbvga_get_displaystart 0 0 0 (repeat 0 8) 0 0 0.

Definition handle_gfx_op (o : gfx_op) (m : mem) : gfx_op * mem :=
  let mm := memmodel (mode_at V (curmode_g o)) in
  if mm =? MM_PLANAR then gfx_planar o m
  else if mm =? MM_CGA then gfx_cga o m
  else if mm =? MM_PACKED then gfx_packed o m
  else if mm =? MM_DIRECT then gfx_direct o m
  else (o, m).

(** * Characters in graphics modes *)

Definition gfx_move_chars (curmode : Z) (dest movesize : cursorpos) (lines : Z) (m : mem) : mem :=
  let cheight := GET_BDA 2 m char_height in
  let o := with_pos (cp_x dest * 8) (cp_y dest * cheight) (init_gfx_op curmode) in
  let o := with_area (cp_x movesize * 8) (cp_y movesize * cheight) (op_y o + lines * cheight) o in
  snd (handle_gfx_op (with_op GO_MEMMOVE o) m).

Definition gfx_clear_chars (curmode : Z) (win winsize : cursorpos) (ca : carattr) (m : mem) : mem :=
  let cheight := GET_BDA 2 m char_height in
  let o := with_pos (cp_x win * 8) (cp_y win * cheight) (init_gfx_op curmode) in
  let o := with_area (cp_x winsize * 8) (cp_y winsize * cheight) 0 o in
  let p := if vga_emulate_text m then Z.shiftr (attr ca) 4 else attr ca in
  snd (handle_gfx_op (with_op GO_MEMSET (with_pixels (p :: repeat 0 7) o)) m).

(** [get_font_data]: segment and offset of the glyph. *)
Definition get_font_data (c : Z) (m : mem) : Z * Z :=
  let cheight := GET_BDA 2 m char_height in
  let '(so, c) := if (cheight =? 8) && (128 <=? c) then (GET_IVT m 0x1f, c - 128) else (GET_IVT m 0x43, c) in
  (so_seg so, u16 (so_offset so + c * cheight)).

Definition font_bit (fontline j : Z) : bool := negb (Z.land fontline (Z.shiftr 0x80 j) =? 0).

(** The eight pixels of a line of a glyph, plain or xor'ed onto the screen. *)
Definition glyph_pixels (fontline fg bg : Z) : list Z :=
  (fun j => if font_bit fontline j then fg else bg) <$> seqZ 0 8.
Definition xor_pixels (fontline fg : Z) (ps : list Z) : list Z :=
  (fun '(j, p) => Z.lxor p (if font_bit fontline j then fg else 0)) <$> zip (seqZ 0 8) ps.

Fixpoint write_lines (k : nat) (i : Z) (seg off fg bg : Z) (usexor : bool) (o : gfx_op) (m : mem) : mem :=
  match k with
  | O => m
  | S k' =>
    let fontline := GET_FARVAR 1 m seg (off + i) in
    let '(o, m) := if usexor then
                     let '(o, m) := handle_gfx_op (with_op GO_READ8 o) m in
                     (with_pixels (xor_pixels fontline fg (pixels o)) o, m)
                   else (with_pixels (glyph_pixels fontline fg bg) o, m) in
    let '(o, m) := handle_gfx_op (with_op GO_WRITE8 o) m in
    write_lines k' (i + 1) seg off fg bg usexor (with_y (op_y o + 1) o) m
  end.

Definition gfx_write_char (curmode : Z) (cp : cursorpos) (ca : carattr) (m : mem) : mem :=
  if GET_BDA 2 m video_cols <=? cp_x cp then m
  else
    let '(seg, off) := get_font_data (car ca) m in
    let cheight := GET_BDA 2 m char_height in
    let o := with_pos (cp_x cp * 8) (cp_y cp * cheight) (init_gfx_op curmode) in
    let '(fg, bg, usexor, o, m) :=
      if vga_emulate_text m then
        if negb (use_attr ca =? 0) then (Z.land (attr ca) 0x0f, Z.shiftr (attr ca) 4, false, o, m)
        else
          let '(o', m) := handle_gfx_op (with_y (op_y o + (cheight - 1)) (with_op GO_READ8 o)) m in
          let bg := pixel o' 7 in
          (Z.lxor bg 7, bg, false, with_y (op_y o' - (cheight - 1)) o', m)
      else if negb (Z.land (attr ca) 0x80 =? 0) && (depth (mode_at V curmode) <? 8)
           then (Z.land (attr ca) 0x7f, 0, true, o, m)
           else (attr ca, 0, false, o, m) in
    write_lines (Z.to_nat cheight) 0 seg off fg bg usexor o m.

(** One line of a cell: its bits against the background, and the last
    foreground seen. *)
Definition read_bits (bg fg : Z) (ps : list Z) : Z * Z :=
  foldl (fun '(line, fg) '(j, p) =>
    if p =? bg then (line, fg) else (Z.lor line (Z.shiftr 0x80 j), p)) (0, fg) (zip (seqZ 0 8) ps).

Fixpoint read_lines (k : nat) (bg fg : Z) (lines : list Z) (o : gfx_op) (m : mem) :
  Z * list Z * mem :=
  match k with
  | O => (fg, lines, m)
  | S k' =>
    let '(o, m) := handle_gfx_op o m in
    let '(line, fg) := read_bits bg fg (pixels o) in
    read_lines k' bg fg (lines ++ [line]) (with_y (op_y o + 1) o) m
  end.

(** The first character from [c] on whose glyph is the given lines. *)
Fixpoint find_glyph (k : nat) (c : Z) (lines : list Z) (m : mem) : option Z :=
  match k with
  | O => None
  | S k' =>
    let '(seg, off) := get_font_data c m in
    if decide (load_bytes m (far seg off) (length lines) = lines) then Some c
    else find_glyph k' (c + 1) lines m
  end.

Definition gfx_read_char (curmode : Z) (cp : cursorpos) (m : mem) : carattr * mem :=
  let cheight := GET_BDA 2 m char_height in
  if (GET_BDA 2 m video_cols <=? cp_x cp) || (16 <? cheight) then (mkChar 0 0 0, m)
  else
    let o := with_pos (cp_x cp * 8) (cp_y cp * cheight) (with_op GO_READ8 (init_gfx_op curmode)) in
    let '(fg, bg, first, o, m) :=
      if vga_emulate_text m then
        let '(o', m) := handle_gfx_op (with_y (op_y o + (cheight - 1)) o) m in
        let bg := pixel o' 7 in
        (Z.lxor bg 7, bg, 1, with_y (op_y o' - (cheight - 1)) o', m)
      else (0, 0, 0, o, m) in
    let '(fg, lines, m) := read_lines (Z.to_nat cheight) bg fg [] o m in
    match find_glyph (Z.to_nat (256 - first)) first lines m with
    | Some c => (mkChar (u8 c) (u8 (Z.lor fg (Z.shiftl bg 4))) 0, m)
    | None => (mkChar 0 0 0, m)
    end.

Definition get_current_mode (m : mem) : Z := GET_BDA 2 m ext_vgamode_offset.

Definition set_nth (i : nat) (v : Z) (l : list Z) : list Z := <[i := v]> l.

Definition vgafb_write_pixel (color x y : Z) (m : mem) : mem :=
  let curmode := get_current_mode m in
  if curmode =? 0 then m
  else
    let o := with_op GO_READ8 (with_pos (Z.land x (Z.lnot 7)) y (init_gfx_op curmode)) in
    let '(o, m) := handle_gfx_op o m in
    let i := Z.to_nat (Z.land x 0x07) in
    let usexor := negb (Z.land color 0x80 =? 0) && (depth (mode_at V curmode) <? 8) in
    let v := if usexor then Z.lxor (pixel o i) (Z.land color 0x7f) else color in
    snd (handle_gfx_op (with_op GO_WRITE8 (with_pixels (set_nth i v (pixels o)) o)) m).

Definition vgafb_read_pixel (x y : Z) (m : mem) : Z * mem :=
  let curmode := get_current_mode m in
  if curmode =? 0 then (0, m)
  else
    let o := with_op GO_READ8 (with_pos (Z.land x (Z.lnot 7)) y (init_gfx_op curmode)) in
    let '(o, m) := handle_gfx_op o m in
    (pixel o (Z.to_nat (Z.land x 0x07)), m).

(** * The text renderer of [cbvga.c]

    The width of a cell is read from [CBmodeinfo] without the macro, in the
    stack segment [ss]; so are the colours and the masks. *)

Variable ss : Z.

Definition direct_cwidth (m : mem) : Z := m (far ss (off_CBmodeinfo + 7)).

Definition cell_base (cx cy row : Z) (m : mem) : Z :=
  let cheight := GET_BDA 2 m char_height in
  u32 (VBE_framebuffer V + (cy * cheight + row) * CBlinelength V
       + cx * direct_cwidth m * (depth (CBmodeinfo V) / 8)).

Definition pack_pixel (r g b : Z) (m : mem) : outcome Z :=
  pack_rgb16 r g b (dget 1 ss CBred_size m) (dget 1 ss CBgreen_size m) (dget 1 ss CBblue_size m)
    (dget 1 ss CBred_pos m) (dget 1 ss CBgreen_pos m) (dget 1 ss CBblue_pos m).

(** One pixel of a cell, in the depth of the framebuffer. *)
Definition put_pixel (base col argb : Z) (m : mem) : outcome mem :=
  let d := depth (CBmodeinfo V) in
  let r := Z.land (Z.shiftr argb 16) 0xFF in
  let g := Z.land (Z.shiftr argb 8) 0xFF in
  let b := Z.land argb 0xFF in
  if d =? 32 then mret (store32 m (far ss (base + 4 * col)) argb)
  else if d =? 24 then
    mret (store8 (store8 (store8 m (far ss (base + col * 3)) b) (far ss (base + col * 3 + 1)) g)
            (far ss (base + col * 3 + 2)) r)
  else if d =? 16 then
    p ← pack_pixel r g b m;
    mret (store16 m (far ss (base + 2 * col)) p)
  else mret m.

Definition cbvga_render_char (cx cy ch attr : Z) (m : mem) : outcome mem :=
  let cheight := GET_BDA 2 m char_height in
  let '(seg, off) := get_font_data ch m in
  let fg := Z.land attr 0x0F in
  let bg := Z.land (Z.shiftr attr 4) 0x0F in
  upto (Z.to_nat cheight) 0 (fun row o =>
    m ← o;
    let fontline := GET_FARVAR 1 m seg (off + row) in
    let base := cell_base cx cy row m in
    upto (Z.to_nat (direct_cwidth m)) 0 (fun col o =>
      m ← o;
      let c := if font_bit fontline col then fg else bg in
      put_pixel base col (load32 m (argb_entry ss c)) m) (mret m)) (mret m).

Definition cbvga_clear_region (x y cols rows attr : Z) (m : mem) : outcome mem :=
  let cheight := GET_BDA 2 m char_height in
  let bg := Z.land (Z.shiftr attr 4) 0x0F in
  upto (Z.to_nat (rows * cheight)) 0 (fun row o =>
    m ← o;
    let base := cell_base x y row m in
    upto (Z.to_nat (cols * direct_cwidth m)) 0 (fun col o =>
      m ← o; put_pixel base col (load32 m (argb_entry ss bg)) m) (mret m)) (mret m).

(** A channel of a 16-bit pixel, widened to eight bits and inverted. *)
Definition invert_chan (pix pos size : Z) : outcome Z :=
  v ← shr 32 pix pos;
  one ← shl 32 1 size;
  w ← shl 32 (Z.land v (one - 1)) (8 - size);
  mret (0xFF - u8 w).

Definition invert_pixel (base col : Z) (m : mem) : outcome mem :=
  let d := depth (CBmodeinfo V) in
  if d =? 32 then
    let a := far ss (base + 4 * col) in mret (store32 m a (Z.lxor (load32 m a) 0x00FFFFFF))
  else if d =? 24 then
    let a := far ss (base + col * 3) in
    let m := store8 m a (0xFF - m a) in
    let m := store8 m (a + 1) (0xFF - m (a + 1)) in
    mret (store8 m (a + 2) (0xFF - m (a + 2)))
  else if d =? 16 then
    let a := far ss (base + 2 * col) in
    let pix := load16 m a in
    r ← invert_chan pix (dget 1 ss CBred_pos m) (dget 1 ss CBred_size m);
    g ← invert_chan pix (dget 1 ss CBgreen_pos m) (dget 1 ss CBgreen_size m);
    b ← invert_chan pix (dget 1 ss CBblue_pos m) (dget 1 ss CBblue_size m);
    p ← pack_pixel r g b m;
    mret (store16 m a p)
  else mret m.

Definition cbvga_draw_cursor (cx cy start stop : Z) (m : mem) : outcome mem :=
  let cheight := GET_BDA 2 m char_height in
  let stop := if cheight <=? stop then cheight - 1 else stop in
  if stop <? start then mret m
  else
    upto (Z.to_nat (stop - start + 1)) start (fun row o =>
      m ← o;
      let base := cell_base cx cy row m in
      upto (Z.to_nat (direct_cwidth m)) 0 (fun col o => m ← o; invert_pixel base col m) (mret m)) (mret m).

(** * Text operations *)

Definition text_address (cp : cursorpos) (m : mem) : Z :=
  GET_BDA 2 m video_pagesize * cp_page cp + cp_y cp * (GET_BDA 2 m video_cols * 2) + cp_x cp * 2.

Definition vgafb_move_chars (dest movesize : cursorpos) (lines : Z) (m : mem) : mem :=
  let curmode := get_current_mode m in
  if curmode =? 0 then m
  else if negb (memmodel (mode_at V curmode) =? MM_TEXT) then gfx_move_chars curmode dest movesize lines m
  else
    let stride := GET_BDA 2 m video_cols * 2 in
    let dest_addr := text_address dest m in
    memmove_stride m (sstart (mode_at V curmode)) dest_addr (u32 (dest_addr + lines * stride))
      (cp_x movesize * 2) stride (cp_y movesize).

Definition vgafb_clear_chars (win winsize : cursorpos) (ca : carattr) (m : mem) : outcome mem :=
  let curmode := get_current_mode m in
  if curmode =? 0 then mret m
  else if negb (memmodel (mode_at V curmode) =? MM_TEXT) then mret (gfx_clear_chars curmode win winsize ca m)
  else
    let stride := GET_BDA 2 m video_cols * 2 in
    let a := u16 (Z.lor (Z.shiftl (if use_attr ca =? 0 then 0x07 else attr ca) 8) (car ca)) in
    let m := memset16_stride (Z.to_nat (cp_y winsize)) m (sstart (mode_at V curmode)) (text_address win m)
               a (cp_x winsize * 2) stride in
    cbvga_clear_region (cp_x win) (cp_y win) (cp_x winsize) (cp_y winsize) (attr ca) m.

Definition vgafb_read_char (cp : cursorpos) (m : mem) : carattr * mem :=
  let curmode := get_current_mode m in
  if curmode =? 0 then (mkChar 0 0 0, m)
  else if negb (memmodel (mode_at V curmode) =? MM_TEXT) then gfx_read_char curmode cp m
  else
    let v := GET_FARVAR 2 m (sstart (mode_at V curmode)) (text_address cp m) in
    (mkChar (u8 v) (u8 (Z.shiftr v 8)) 0, m).

Definition cbvga_hide_cursor (cx cy : Z) (m : mem) : outcome mem :=
  let '(c, m) := vgafb_read_char (mkPos (u8 cx) (u8 cy) 0) m in
  cbvga_render_char cx cy (car c) (attr c) m.

Definition vgafb_write_char (cp : cursorpos) (ca : carattr) (m : mem) : outcome mem :=
  let curmode := get_current_mode m in
  if curmode =? 0 then mret m
  else if negb (memmodel (mode_at V curmode) =? MM_TEXT) then mret (gfx_write_char curmode cp ca m)
  else
    let seg := sstart (mode_at V curmode) in
    let dest := text_address cp m in
    let m := if use_attr ca =? 0 then SET_FARVAR 1 m seg dest (car ca)
             else SET_FARVAR 2 m seg dest (Z.lor (Z.shiftl (attr ca) 8) (car ca)) in
    cbvga_render_char (cp_x cp) (cp_y cp) (car ca) (attr ca) m.

(** The redraw of a scrolled window, cell by cell: the character now shown
    [nlines] rows above (scrolling down) or in place (scrolling up). *)
Definition mirror_cell (win : cursorpos) (row col from : Z) (o : outcome mem) : outcome mem :=
  m ← o;
  let '(c, m) := vgafb_read_char (mkPos (u8 (cp_x win + col)) (u8 (cp_y win + from)) 0) m in
  cbvga_render_char (cp_x win + col) (cp_y win + row) (car c) (attr c) m.

Definition mirror_scroll (win winsize : cursorpos) (lines : Z) (ca : carattr) (m : mem) : outcome mem :=
  if lines =? 0 then cbvga_clear_region (cp_x win) (cp_y win) (cp_x winsize) (cp_y winsize) (attr ca) m
  else if 0 <? lines then
    m ← upto (Z.to_nat (cp_y winsize - lines)) 0 (fun row o =>
          upto (Z.to_nat (cp_x winsize)) 0 (fun col => mirror_cell win row col row) o) (mret m);
    cbvga_clear_region (cp_x win) (u16 (cp_y win + cp_y winsize - lines)) (cp_x winsize) (u16 lines) (attr ca) m
  else
    let nlines := - lines in
    m ← upto (Z.to_nat (cp_y winsize - nlines)) 0 (fun k o =>
          let row := cp_y winsize - 1 - k in
          upto (Z.to_nat (cp_x winsize)) 0 (fun col => mirror_cell win row col (row - nlines)) o) (mret m);
    cbvga_clear_region (cp_x win) (cp_y win) (cp_x winsize) (u16 nlines) (attr ca) m.

Definition vgafb_scroll (win winsize : cursorpos) (lines : Z) (ca : carattr) (m : mem) : outcome mem :=
  let curmode := get_current_mode m in
  if curmode =? 0 then mret m
  else if lines =? 0 then vgafb_clear_chars win winsize ca m
  else
    let m := vgafb_move_chars win winsize lines m in
    m ← (if 0 <? lines
         then vgafb_clear_chars (mkPos (cp_x win) (u8 (cp_y win + cp_y winsize - lines)) 0)
                (mkPos (cp_x winsize) (u8 lines) 0) ca m
         else vgafb_clear_chars (mkPos (cp_x win) (cp_y win) 0) (mkPos (cp_x winsize) (u8 (- lines)) 0) ca m);
    if memmodel (mode_at V curmode) =? MM_TEXT then mirror_scroll win winsize lines ca m else mret m.

End layout.
