(* ===== verification/VgaDraw.v ===== *)
(** What the drawing operations of a linear framebuffer do.

    [memcpy_high] is a block copy, and with the destination ahead of the source
    it repeats a pattern; writing eight pixels stores their colours and reading
    them gives the attributes back; a character that was written is read
    back. *)

From stdpp Require Import base numbers list.
From Stdlib Require Import ZArith Lia.
From S2P Require Import Prelude Memory SeaString CcInt VgaState VgaPal VgaCb VgaFb.

(** * Colours *)

(** The depths of a direct mode and their bytes per pixel. *)
Definition direct_depth (d : Z) (b : nat) : Prop :=
  (d = 15 \/ d = 16) /\ b = 2%nat \/ d = 24 /\ b = 3%nat \/ d = 32 /\ b = 4%nat.

Lemma color_roundtrip d b a : direct_depth d b -> 0 <= a < 16 -> reverse_color d (get_color d a) = a.
Proof.
  intros Hd Ha. assert (a ∈ seqZ 0 16) as Hin by (apply elem_of_seqZ; lia).
  assert (Forall (fun a => reverse_color d (get_color d a) = a) (seqZ 0 16)) as H.
  { destruct Hd as [[[->| ->] _]|[[-> _]|[-> _]]]; repeat constructor. }
  rewrite Forall_forall in H. by apply H.
Qed.

Lemma get_color_fits d b a : direct_depth d b -> 0 <= a < 16 -> fits (8 * Z.of_nat b) (get_color d a).
Proof.
  intros Hd Ha. assert (a ∈ seqZ 0 16) as Hin by (apply elem_of_seqZ; lia).
  assert (Forall (fun a => fits (8 * Z.of_nat b) (get_color d a)) (seqZ 0 16)) as H.
  { destruct Hd as [[[->| ->] ->]|[[-> ->]|[-> ->]]];
      repeat constructor; vm_compute; congruence. }
  rewrite Forall_forall in H. by apply H.
Qed.

(** Only the bits of a pixel matter. *)
Lemma field_low w k n c : 0 <= k -> 0 <= n -> k + n <= w ->
  Z.land (Z.shiftr (wrap w c) k) (Z.shiftl 1 n - 1) = Z.land (Z.shiftr c k) (Z.shiftl 1 n - 1).
Proof.
  intros Hk Hn Hw. replace (Z.shiftl 1 n - 1) with (Z.ones n) by (unfold Z.ones; lia).
  apply Z.bits_inj'. intros i Hi. rewrite !Z.land_spec, !Z.shiftr_spec, wrap_testbit by lia.
  destruct (decide (i < n)).
  - destruct (Z.ltb_spec (i + k) w); [done|lia].
  - by rewrite Z.ones_spec_high, !andb_false_r by lia.
Qed.

Lemma field_low0 w n c : 0 <= n -> n <= w ->
  Z.land (wrap w c) (Z.shiftl 1 n - 1) = Z.land c (Z.shiftl 1 n - 1).
Proof. intros Hn Hw. pose proof (field_low w 0 n c) as H. rewrite !Z.shiftr_0_r in H. apply H; lia. Qed.

Lemma reverse_color_low d b c : direct_depth d b -> reverse_color d (wrap (8 * Z.of_nat b) c) = reverse_color d c.
Proof.
  intros [[[->| ->] ->]|[[-> ->]|[-> ->]]]; unfold reverse_color; cbn [channel_bits Z.eqb Pos.eqb];
    by rewrite !field_low, field_low0 by lia.
Qed.

(** * Block moves *)

Lemma movs_out w k m dst src off x : 0 <= off -> off + Z.of_nat k * Z.of_nat w <= 2 ^ 16 ->
  0 <= dst -> dst + off + Z.of_nat k * Z.of_nat w <= 2 ^ 32 -> (0 < w)%nat ->
  x < dst + off \/ dst + off + Z.of_nat k * Z.of_nat w <= x -> movs w k m dst src off x = m x.
Proof.
  revert m off; induction k as [|k IH]; intros m off Ho Hw Hd Hd2 Hpos Hx; [done|]. cbn [movs].
  rewrite IH by lia. rewrite (wrap_small 16 off), (wrap_small 32 (dst + off)) by (unfold fits; lia).
  apply store_out. lia.
Qed.

(** With the source out of the way the move is a copy. *)
Lemma movs_in w k m dst src off i : mem_ok m -> 0 <= off -> off + Z.of_nat k * Z.of_nat w <= 2 ^ 16 ->
  0 <= dst -> dst + off + Z.of_nat k * Z.of_nat w <= 2 ^ 32 ->
  0 <= src -> src + off + Z.of_nat k * Z.of_nat w <= 2 ^ 32 -> (0 < w)%nat ->
  (dst + off + Z.of_nat k * Z.of_nat w <= src + off \/ src + off + Z.of_nat k * Z.of_nat w <= dst + off) ->
  off <= i < off + Z.of_nat k * Z.of_nat w -> movs w k m dst src off (dst + i) = m (src + i).
Proof.
  revert m off; induction k as [|k IH]; intros m off Hok Ho Hw Hd Hd2 Hs Hs2 Hpos Hsep Hi; [lia|].
  cbn [movs]. rewrite (wrap_small 16 off), (wrap_small 32 (dst + off)), (wrap_small 32 (src + off))
    by (unfold fits; lia).
  pose proof (store_load w m (dst + off) (src + off) Hok) as Hsl.
  destruct (decide (i < off + Z.of_nat w)).
  - rewrite movs_out by lia. rewrite (Hsl (dst + i)). unfold block_copy, Libc.block_copy.
    repeat (ztest; simpl; try lia). f_equal. lia.
  - rewrite IH by (lia || by apply store_ok). apply store_out. lia.
Qed.

Lemma memcpy_high_moves m dest src len : exists w k, memcpy_high m dest src len = movs w k m (u32 dest) (u32 src) 0 /\
  (0 < w <= 4)%nat /\ (Z.even len = true -> 0 <= len <= 2 ^ 16 -> Z.of_nat k * Z.of_nat w = len).
Proof.
  unfold memcpy_high, handle_1587. set (count := u16 (u32 len / 2)).
  assert (Z.even len = true -> 0 <= len <= 2 ^ 16 -> len = 2 * count) as Hc.
  { intros He Hl. unfold count. rewrite (wrap_small 32 len), (wrap_small 16 (len / 2)); unfold fits;
      try (Z.div_mod_to_equations; lia). apply Z.even_spec in He as [h ->]. rewrite Z.mul_comm, Z.div_mul; lia. }
  assert (0 <= count) by (unfold count; apply wrap_fits; lia).
  destruct (Z.odd count) eqn:Ho.
  - exists 2%nat, (Z.to_nat count). split; [done|]. split; [lia|]. intros He Hl. specialize (Hc He Hl). lia.
  - exists 4%nat, (Z.to_nat (Z.shiftr count 1)). split; [done|]. split; [lia|]. intros He Hl. specialize (Hc He Hl).
    rewrite <- Z.negb_even, negb_false_iff in Ho. apply Z.even_spec in Ho as [h Hh].
    rewrite Z.shiftr_div_pow2 by lia. change (2 ^ 1) with 2. replace (count / 2) with h by (rewrite Hh, Z.mul_comm, Z.div_mul; lia). lia.
Qed.

(** [memcpy_high] of an even number of bytes, up to 64 KB. *)
Definition block32 (a len : Z) : Prop := 0 <= a /\ a + len <= 2 ^ 32.

Section copy.
Variables (m : mem) (dest src len : Z).
Hypothesis Hlen : Z.even len = true.
Hypothesis Hl : 0 <= len <= 2 ^ 16.
Hypothesis Hdest : block32 dest len.

Lemma memcpy_high_out x : dest < 2 ^ 32 -> x < dest \/ dest + len <= x -> memcpy_high m dest src len x = m x.
Proof.
  intros Hd Hx. destruct (memcpy_high_moves m dest src len) as (w & k & -> & Hw & Hk).
  specialize (Hk Hlen Hl). destruct Hdest. rewrite (wrap_small 32 dest) by (unfold fits; lia).
  apply movs_out; lia.
Qed.

Lemma memcpy_high_in i : mem_ok m -> block32 src len -> dest < 2 ^ 32 -> src < 2 ^ 32 ->
  (dest + len <= src \/ src + len <= dest) ->
  0 <= i < len -> memcpy_high m dest src len (dest + i) = m (src + i).
Proof.
  intros Hok [Hs1 Hs2] Hd Hs Hsep Hi. destruct (memcpy_high_moves m dest src len) as (w & k & -> & Hw & Hk).
  specialize (Hk Hlen Hl). destruct Hdest. rewrite !(wrap_small 32) by (unfold fits; lia).
  apply movs_in; (done || lia).
Qed.

End copy.

Lemma movs_ok w k m dst src off : mem_ok m -> mem_ok (movs w k m dst src off).
Proof. revert m off; induction k as [|k IH]; intros m off Hm; [done|]. cbn. by apply IH, store_ok. Qed.

Lemma memcpy_high_ok m dest src len : mem_ok m -> mem_ok (memcpy_high m dest src len).
Proof. intros Hm. unfold memcpy_high, handle_1587. case_match; by apply movs_ok. Qed.

(** * Eight pixels *)

Section direct.
Context {L : Layout}.
Variables (V : vga) (data cur d : Z) (b : nat).
Hypothesis Hmodel : memmodel (mode_at V cur) = MM_DIRECT.
Hypothesis Hdepth : depth (mode_at V cur) = d.
Hypothesis Hd : direct_depth d b.
Hypothesis Hfb : VBE_framebuffer V <> 0.

(** An operation at a pixel of the framebuffer; [at_op o] is its address. *)
Definition at_op (o : gfx_op) : Z :=
  VBE_framebuffer V + op_y o * linelength o + op_x o * Z.of_nat b.

Record op_ok (o : gfx_op) : Prop := {
  ok_mode : curmode_g o = cur;
  ok_start : displaystart o = 0;
  ok_range : 0 <= at_op o /\ at_op o + 8 * Z.of_nat b <= 2 ^ 32
}.

(** The local array is clear of the pixels. *)
Definition data_clear (o : gfx_op) : Prop :=
  0 <= data /\ data + 32 <= 2 ^ 32 /\
  (data + 32 <= at_op o \/ at_op o + 8 * Z.of_nat b <= data).

Lemma b_range : 2 <= Z.of_nat b <= 4.
Proof. destruct Hd as [[_ ->]|[[_ ->]|[_ ->]]]; lia. Qed.

Lemma bypp_b : DIV_ROUND_UP d 8 = Z.of_nat b.
Proof. clear - Hd. by destruct Hd as [[[->| ->] ->]|[[-> ->]|[-> ->]]]. Qed.

Lemma put_data_out l i m x :
  x < data + i * Z.of_nat b \/ data + (i + Z.of_nat (length l)) * Z.of_nat b + 4 - Z.of_nat b <= x ->
  put_data data l i (Z.of_nat b) m x = m x.
Proof.
  pose proof b_range. revert i m; induction l as [|c l IH]; intros i m Hx; [done|].
  cbn [put_data length] in *. destruct l as [|c' l].
  - apply store_out. cbn in Hx. lia.
  - rewrite IH by nia. apply store_out. cbn [length] in Hx. nia.
Qed.

Lemma put_data_ok l i m : mem_ok m -> mem_ok (put_data data l i (Z.of_nat b) m).
Proof. revert i m; induction l as [|c l IH]; intros i m Hm; [done|]. by apply IH, store_ok. Qed.

Lemma put_data_in l i m j c : l !! j = Some c ->
  load b (put_data data l i (Z.of_nat b) m) (data + (i + Z.of_nat j) * Z.of_nat b) = wrap (8 * Z.of_nat b) c.
Proof.
  pose proof b_range. revert i m j; induction l as [|c' l IH]; intros i m j Hj; [done|]. cbn [put_data].
  destruct j as [|j].
  - injection Hj as ->. rewrite (load_ext b _ (store32 m (data + i * Z.of_nat b) c)).
    + rewrite Z.add_0_r. apply load_store_prefix. lia.
    + intros x Hx. apply put_data_out. nia.
  - replace (i + Z.of_nat (S j)) with (i + 1 + Z.of_nat j) by lia. by apply IH.
Qed.

Lemma even_pixels : Z.even (Z.of_nat b * 8) = true.
Proof. rewrite Z.even_mul. apply orb_true_r. Qed.

(** Writing eight pixels stores their colours, and nothing else but the local
    array changes. *)
Lemma write8_spec o m : mem_ok m -> op_ok o -> data_clear o -> length (pixels o) = 8%nat -> op o = GO_WRITE8 ->
  exists m', handle_gfx_op V data o m = (o, m') /\ mem_ok m' /\
    (forall j p, pixels o !! j = Some p -> 0 <= p < 16 ->
       load b m' (at_op o + Z.of_nat j * Z.of_nat b) = get_color d p) /\
    (forall x, (x < at_op o \/ at_op o + 8 * Z.of_nat b <= x) -> (x < data \/ data + 32 <= x) -> m' x = m x).
Proof.
  intros Hok [Hm Hs Hr] (Hd1 & Hd2 & Hd3) Hlen Hop. pose proof b_range.
  unfold handle_gfx_op, gfx_direct. rewrite Hm, Hmodel, Hdepth, Hs, Hop, bypp_b.
  change (MM_DIRECT =? MM_PLANAR) with false. change (MM_DIRECT =? MM_CGA) with false.
  change (MM_DIRECT =? MM_PACKED) with false. change (MM_DIRECT =? MM_DIRECT) with true.
  change (GO_WRITE8 =? GO_WRITE8) with true. cbv iota zeta.
  destruct (Z.eqb_spec (VBE_framebuffer V) 0); [done|]. rewrite Z.add_0_r. fold (at_op o).
  rewrite (wrap_small 32 (at_op o)) by (unfold fits; lia).
  set (m1 := put_data _ _ _ _ m). assert (mem_ok m1) as Hm1 by by apply put_data_ok.
  eexists. split; [reflexivity|]. split; [by apply memcpy_high_ok|]. split.
  - intros j p Hj Hp. pose proof (lookup_lt_Some _ _ _ Hj) as Hl.
    rewrite <- (wrap_small (8 * Z.of_nat b) (get_color d p)) by by apply get_color_fits.
    rewrite <- (put_data_in (get_color d <$> pixels o) 0 m j) by by rewrite list_lookup_fmap, Hj.
    fold m1. unfold load. f_equal. apply load_bytes_shift. intros i Hi.
    rewrite Z.add_0_l, <- !Z.add_assoc. apply memcpy_high_in; try done; unfold block32;
      try apply even_pixels; try lia; nia.
  - intros x Hx1 Hx2. rewrite memcpy_high_out; [|apply even_pixels|lia|unfold block32; lia|lia|lia].
    apply put_data_out. rewrite length_fmap, Hlen. nia.
Qed.

(** Reading them gives their attributes. *)
Lemma read8_spec o m : mem_ok m -> op_ok o -> data_clear o -> op o = GO_READ8 ->
  exists m', handle_gfx_op V data o m =
    (with_pixels ((fun i => reverse_color d (load b m (at_op o + i * Z.of_nat b))) <$> seqZ 0 8) o, m') /\
    mem_ok m' /\ (forall x, x < data \/ data + 32 <= x -> m' x = m x).
Proof.
  intros Hok [Hm Hs Hr] (Hd1 & Hd2 & Hd3) Hop. pose proof b_range.
  unfold handle_gfx_op, gfx_direct. rewrite Hm, Hmodel, Hdepth, Hs, Hop, bypp_b.
  change (MM_DIRECT =? MM_PLANAR) with false. change (MM_DIRECT =? MM_CGA) with false.
  change (MM_DIRECT =? MM_PACKED) with false. change (MM_DIRECT =? MM_DIRECT) with true.
  change (GO_READ8 =? GO_WRITE8) with false. change (GO_READ8 =? GO_MEMSET) with false.
  change (GO_READ8 =? GO_MEMMOVE) with false. cbv iota zeta.
  destruct (Z.eqb_spec (VBE_framebuffer V) 0); [done|]. rewrite Z.add_0_r. fold (at_op o).
  rewrite (wrap_small 32 (at_op o)) by (unfold fits; lia).
  set (m1 := memcpy_high m data (at_op o) _). assert (mem_ok m1) as Hm1 by by apply memcpy_high_ok.
  exists m1. split; [|split; [done|]].
  - f_equal. f_equal. apply list_fmap_ext. intros i j [Hj Hj']%lookup_seqZ.
    rewrite <- (reverse_color_low d b) by done. f_equal. rewrite load_prefix by (done || lia).
    unfold load. f_equal. apply load_bytes_shift. intros k Hk. rewrite <- !Z.add_assoc.
    apply memcpy_high_in; try done; unfold block32; try apply even_pixels; try lia; nia.
  - intros x Hx. apply memcpy_high_out; [apply even_pixels|lia|unfold block32; lia|lia|lia].
Qed.

(** * Lines of a cell *)

Variables (size pitch : Z).

(** The framebuffer is [size] bytes of the 32-bit space, away from the local
    array, and a line is at least a cell wide. *)
Record screen_ok : Prop := {
  screen_range : 0 < VBE_framebuffer V /\ 0 <= size /\ VBE_framebuffer V + size <= 2 ^ 32;
  screen_data : 0 <= data /\ data + 32 <= 2 ^ 32 /\
    (data + 32 <= VBE_framebuffer V \/ VBE_framebuffer V + size <= data);
  screen_pitch : 8 * Z.of_nat b <= pitch
}.

(** Bytes an operation cannot reach. *)
Definition elsewhere (x : Z) : Prop :=
  (x < VBE_framebuffer V \/ VBE_framebuffer V + size <= x) /\ (x < data \/ data + 32 <= x).

Hypothesis Hscreen : screen_ok.

Definition cell (x y : Z) : Z := VBE_framebuffer V + y * pitch + x * Z.of_nat b.

(** An operation on the eight pixels at [x, y]. *)
Record at_cell (o : gfx_op) (x y : Z) : Prop := {
  cell_mode : curmode_g o = cur;
  cell_start : displaystart o = 0;
  cell_line : linelength o = pitch;
  cell_x : op_x o = x;
  cell_y : op_y o = y
}.

(** [n] lines from [y] on are on the screen. *)
Definition lines_ok (x y n : Z) : Prop :=
  0 <= x /\ 0 <= y /\ 0 <= n /\ y + n < 2 ^ 16 /\
  (0 < n -> cell x (y + n - 1) + 8 * Z.of_nat b <= VBE_framebuffer V + size).

Lemma cell_range x y n r : lines_ok x y n -> 0 <= r < n ->
  VBE_framebuffer V <= cell x (y + r) /\ cell x (y + r) + 8 * Z.of_nat b <= VBE_framebuffer V + size.
Proof.
  intros (Hx & Hy & Hn & _ & Hl) Hr. pose proof b_range. destruct Hscreen as [_ _ Hp].
  specialize (Hl ltac:(lia)). unfold cell in *. split; nia.
Qed.

Lemma cell_op o x y n : at_cell o x y -> lines_ok x y n -> 0 < n ->
  at_op o = cell x y /\ op_ok o /\ data_clear o.
Proof.
  intros [H1 H2 H3 H4 H5] Hl Hn. destruct (cell_range x y n 0 Hl ltac:(lia)) as [Ha Hb]. rewrite Z.add_0_r in *.
  assert (at_op o = cell x y) as Heq by (unfold at_op, cell; by rewrite H3, H4, H5).
  destruct Hscreen as [Hr Hdata _]. split; [done|]. split.
  - split; [done|done|]. rewrite Heq. lia.
  - unfold data_clear. rewrite Heq. lia.
Qed.

Lemma with_y_cell o x y : at_cell o x y -> 0 <= y + 1 < 2 ^ 16 -> at_cell (with_y (op_y o + 1) o) x (y + 1).
Proof. intros [H1 H2 H3 H4 H5] Hy. split; cbn; try done. rewrite H5. by apply wrap_small. Qed.

Lemma lines_next x y n : lines_ok x y (n + 1) -> 0 <= n -> lines_ok x (y + 1) n.
Proof.
  intros (Hx & Hy & _ & Hw & Hl) Hn. do 4 (split; [lia|]). intros H0.
  replace (y + 1 + n - 1) with (y + (n + 1) - 1) by lia. apply Hl. lia.
Qed.

(** The glyph lines [G], read from bytes no operation reaches. *)
Definition glyph_at (m : mem) (a : Z) (G : list Z) : Prop :=
  load_bytes m a (length G) = G /\ (forall i, 0 <= i < Z.of_nat (length G) -> elsewhere (a + i)).

(** The cell shows [G] in two colours. *)
Definition shows_glyph (m : mem) (x y : Z) (G : list Z) (fg bg : Z) : Prop :=
  forall r line j, G !! r = Some line -> (j < 8)%nat ->
    load b m (cell x (y + Z.of_nat r) + Z.of_nat j * Z.of_nat b) =
    get_color d (if font_bit line (Z.of_nat j) then fg else bg).

Lemma glyph_pixels_lookup line fg bg j : (j < 8)%nat ->
  glyph_pixels line fg bg !! j = Some (if font_bit line (Z.of_nat j) then fg else bg).
Proof. intros Hj. unfold glyph_pixels. rewrite list_lookup_fmap, lookup_seqZ_lt by lia. done. Qed.

Lemma write_lines_spec G : forall x y i o m seg off fg bg,
  mem_ok m -> at_cell o x y -> lines_ok x y (Z.of_nat (length G)) ->
  glyph_at m (far seg (off + i)) G -> 0 <= fg < 16 -> 0 <= bg < 16 ->
  let m' := write_lines V data (length G) i seg off fg bg false o m in
  mem_ok m' /\ shows_glyph m' x y G fg bg /\
  (forall a, (forall r, 0 <= r < Z.of_nat (length G) ->
      a < cell x (y + r) \/ cell x (y + r) + 8 * Z.of_nat b <= a) ->
    (a < data \/ data + 32 <= a) -> m' a = m a).
Proof.
  pose proof b_range as Hb. pose proof (screen_pitch Hscreen) as Hp.
  induction G as [|line G IH]; intros x y i o m seg off fg bg Hok Ho Hl [HG Hel] Hfg Hbg.
  { split; [done|]. split; [done|done]. }
  cbn [length write_lines] in *. cbn [load_bytes] in HG. injection HG as Hline HG.
  assert (GET_FARVAR 1 m seg (off + i) = line) as -> by (unfold GET_FARVAR; by rewrite load1).
  destruct (cell_op o x y _ Ho Hl ltac:(lia)) as (Hat & Hop & Hdc).
  destruct (write8_spec (with_op GO_WRITE8 (with_pixels (glyph_pixels line fg bg) o)) m) as (m1 & Hr & Hok1 & Hpix & Hout);
    [done|by destruct Hop|done|done|done|].
  rewrite Hr. cbn [op_y with_op with_pixels].
  change (at_op (with_op GO_WRITE8 (with_pixels (glyph_pixels line fg bg) o))) with (at_op o) in *.
  cbn [pixels with_op with_pixels] in Hpix. rewrite Hat in *.
  assert (lines_ok x (y + 1) (Z.of_nat (length G))) as Hl'.
  { apply lines_next; [|lia]. replace (Z.of_nat (length G) + 1) with (Z.of_nat (S (length G))) by lia. done. }
  assert (at_cell (with_y (op_y o + 1) (with_op GO_WRITE8 (with_pixels (glyph_pixels line fg bg) o))) x (y + 1)) as Ho'.
  { destruct Ho. destruct Hl as (_ & ? & _ & ? & _). split; cbn; try done. rewrite cell_y0. apply wrap_small. unfold fits. lia. }
  destruct (IH x (y + 1) (i + 1) _ m1 seg off fg bg Hok1 Ho' Hl') as (Hok' & Hshow & Hframe); try done.
  { replace (far seg (off + (i + 1))) with (far seg (off + i) + 1) by (unfold far; lia). split.
    - rewrite <- HG at 2. apply load_bytes_ext. intros a Ha.
      destruct (Hel (a - far seg (off + i)) ltac:(lia)) as [He1 He2].
      destruct (cell_range x y _ 0 Hl ltac:(lia)). rewrite Z.add_0_r in *. apply Hout; lia.
    - intros j Hj. rewrite <- Z.add_assoc. apply Hel. lia. }
  split; [done|]. split.
  - intros r l j Hr' Hj. destruct r as [|r].
    + injection Hr' as <-. rewrite Z.add_0_r, (load_ext b _ m1).
      * rewrite (Hpix j (if font_bit line (Z.of_nat j) then fg else bg)); [done| |by case_match].
        by apply glyph_pixels_lookup.
      * intros a Ha. apply Hframe.
        -- intros r Hr0. unfold cell in *. nia.
        -- destruct (cell_range x y _ 0 Hl ltac:(lia)). destruct Hscreen as [_ Hdata _]. rewrite Z.add_0_r in *. nia.
    + replace (y + Z.of_nat (S r)) with (y + 1 + Z.of_nat r) by lia. by apply Hshow.
  - intros a Ha Hda. rewrite Hframe; [|intros r Hr0; replace (y + 1 + r) with (y + (r + 1)) by lia; apply Ha; lia|done].
    apply Hout; [|done]. specialize (Ha 0 ltac:(lia)). by rewrite Z.add_0_r in Ha.
Qed.

(** * Reading a cell *)

(** The bits of a line against its background are the line of the glyph. *)
Definition fold_bits (fg fg0 line : Z) : Z * Z :=
  foldl (fun '(l, f) '(j, bit) => if (bit : bool) then (Z.lor l (Z.shiftr 0x80 j), fg) else (l, f)) (0, fg0)
    (zip (seqZ 0 8) (font_bit line <$> seqZ 0 8)).

Lemma fold_bits_value fg fg0 line : 0 <= line < 256 ->
  fold_bits fg fg0 line = (line, if line =? 0 then fg0 else fg).
Proof.
  intros Hl. assert (fold_bits fg fg0 <$> seqZ 0 256 =
    (fun l => (l, if l =? 0 then fg0 else fg)) <$> seqZ 0 256) as H by (vm_compute; reflexivity).
  apply (f_equal (fun l => l !! Z.to_nat line)) in H. rewrite !list_lookup_fmap, lookup_seqZ_lt in H by lia.
  cbn [fmap option_fmap option_map] in H. rewrite Z.add_0_l, Z2Nat.id in H by lia. by apply (inj Some) in H.
Qed.

Lemma read_bits_glyph line fg bg fg0 : fg <> bg -> 0 <= line < 256 ->
  read_bits bg fg0 (glyph_pixels line fg bg) = (line, if line =? 0 then fg0 else fg).
Proof.
  intros Hne Hl. rewrite <- (fold_bits_value fg fg0 line Hl). unfold read_bits, fold_bits, glyph_pixels.
  generalize (0, fg0). generalize (seqZ 0 8) as l. induction l as [|j l IH]; intros [a f]; [done|].
  cbn [zip zip_with fmap list_fmap foldl]. destruct (font_bit line j).
  - destruct (Z.eqb_spec fg bg); [done|]. apply IH.
  - rewrite Z.eqb_refl. apply IH.
Qed.

(** The attributes read of a line that shows a glyph. *)
Lemma shown_pixels m x y G fg bg r line : shows_glyph m x y G fg bg -> G !! r = Some line ->
  0 <= fg < 16 -> 0 <= bg < 16 ->
  (fun i => reverse_color d (load b m (cell x (y + Z.of_nat r) + i * Z.of_nat b))) <$> seqZ 0 8 =
  glyph_pixels line fg bg.
Proof.
  intros Hs Hr Hfg Hbg. unfold glyph_pixels. apply list_fmap_ext. intros k i [-> Hk]%lookup_seqZ.
  rewrite Z.add_0_l, (Hs r line k Hr) by lia. apply (color_roundtrip d b); [done|]. by case_match.
Qed.

Lemma shows_glyph_tail m x y line G fg bg : shows_glyph m x y (line :: G) fg bg -> shows_glyph m x (y + 1) G fg bg.
Proof.
  intros Hs r l j Hr Hj. replace (y + 1 + Z.of_nat r) with (y + Z.of_nat (S r)) by lia. by apply Hs.
Qed.

Lemma shows_glyph_frame m m' x y G fg bg : lines_ok x y (Z.of_nat (length G)) ->
  (forall a, a < data \/ data + 32 <= a -> m' a = m a) ->
  shows_glyph m x y G fg bg -> shows_glyph m' x y G fg bg.
Proof.
  intros Hl Hm Hs r line j Hr Hj. rewrite <- (Hs r line j Hr Hj). apply load_ext. intros a Ha. apply Hm.
  pose proof (lookup_lt_Some _ _ _ Hr). pose proof b_range.
  destruct (cell_range x y _ (Z.of_nat r) Hl ltac:(lia)). destruct Hscreen as [_ Hdata _]. nia.
Qed.

Lemma read_lines_spec G : forall x y o m fg bg f acc,
  mem_ok m -> at_cell o x y -> op o = GO_READ8 -> lines_ok x y (Z.of_nat (length G)) ->
  shows_glyph m x y G fg bg -> Forall (fits 8) G -> fg <> bg -> 0 <= fg < 16 -> 0 <= bg < 16 ->
  exists m', read_lines V data (length G) bg f acc o m =
    (if existsb (fun l => negb (l =? 0)) G then fg else f, acc ++ G, m') /\
    (forall a, a < data \/ data + 32 <= a -> m' a = m a).
Proof.
  induction G as [|line G IH]; intros x y o m fg bg f acc Hok Ho Hop Hl Hs HG Hne Hfg Hbg.
  { exists m. cbn. by rewrite app_nil_r. }
  apply Forall_cons in HG as [Hline HG]. cbn [length read_lines existsb] in *.
  destruct (cell_op o x y _ Ho Hl ltac:(lia)) as (Hat & Hok' & Hdc).
  destruct (read8_spec o m Hok Hok' Hdc Hop) as (m1 & Hr & Hok1 & Hout).
  rewrite Hr. cbn [pixels with_pixels]. rewrite Hat.
  pose proof (shown_pixels m x y (line :: G) fg bg 0 line Hs eq_refl Hfg Hbg) as Hpx.
  cbn [Z.of_nat] in Hpx. rewrite Z.add_0_r in Hpx. rewrite Hpx, read_bits_glyph by done.
  assert (lines_ok x (y + 1) (Z.of_nat (length G))) as Hl'.
  { apply lines_next; [|lia]. by replace (Z.of_nat (length G) + 1) with (Z.of_nat (S (length G))) by lia. }
  destruct (IH x (y + 1) (with_y (op_y o + 1) (with_pixels (glyph_pixels line fg bg) o)) m1 fg bg
    (if line =? 0 then f else fg) (acc ++ [line])) as (m' & Hr' & Hm'); try done.
  - destruct Ho. destruct Hl as (_ & ? & _ & ? & _). split; cbn; try done. rewrite cell_y0.
    apply wrap_small. unfold fits. lia.
  - apply (shows_glyph_frame m); [done|done|]. by eapply shows_glyph_tail.
  - exists m'. cbn [op_y with_pixels]. rewrite Hr', <- app_assoc. split.
    + cbn [app]. destruct (line =? 0); cbn; [done|]. by case_match.
    + intros a Ha. rewrite Hm', Hout by done. done.
Qed.

(** * Characters *)

(** The vectors, the BIOS data area and the fonts are out of reach. *)
Definition glyph_of (m : mem) (c : Z) : list Z :=
  let '(seg, off) := get_font_data c m in load_bytes m (far seg off) (Z.to_nat (GET_BDA 2 m char_height)).

Record text_ok (m : mem) : Prop := {
  text_mem : mem_ok m;
  text_emulated : vga_emulate_text m = true;
  text_height : 0 < GET_BDA 2 m char_height <= 16;
  text_low : forall a, 0 <= a < 0x500 -> elsewhere a;
  text_font : forall c i, 0 <= c < 256 -> 0 <= i < GET_BDA 2 m char_height ->
    elsewhere (far (get_font_data c m).1 (get_font_data c m).2 + i)
}.

Definition agrees (m m' : mem) : Prop := forall a, elsewhere a -> m' a = m a.

Lemma agrees_load m m' n a : agrees m m' -> text_ok m -> 0 <= a -> a + Z.of_nat n <= 0x500 ->
  load n m' a = load n m a.
Proof. intros H Ht Ha Hn. apply load_ext. intros x Hx. apply H, (text_low m Ht). lia. Qed.

Lemma agrees_bda m m' n off : agrees m m' -> text_ok m -> 0 <= off -> off + Z.of_nat n <= 0x100 ->
  GET_BDA n m' off = GET_BDA n m off.
Proof. intros H Ht Ho Hn. unfold GET_BDA, GET_FARVAR, far, SEG_BDA. apply agrees_load; (done || lia). Qed.

Lemma agrees_font m m' c : agrees m m' -> text_ok m -> get_font_data c m' = get_font_data c m.
Proof.
  intros H Ht. unfold get_font_data.
  rewrite (agrees_bda m m' 2) by (done || unfold char_height; lia).
  assert (forall v, 0 <= v < 256 -> GET_IVT m' v = GET_IVT m v) as Hivt.
  { intros v Hv. unfold GET_IVT, GET_FARVAR, far, SEG_IVT. apply agrees_load; (done || lia). }
  by rewrite !Hivt by lia.
Qed.

Lemma agrees_glyph m m' c : agrees m m' -> text_ok m -> 0 <= c < 256 -> glyph_of m' c = glyph_of m c.
Proof.
  intros H Ht Hc. unfold glyph_of. rewrite (agrees_font m m' c H Ht).
  rewrite (agrees_bda m m' 2) by (done || unfold char_height; lia).
  pose proof (text_font m Ht c) as Hf. destruct (get_font_data c m) as [seg off]. cbn in Hf.
  apply load_bytes_ext. intros x Hx. apply H.
  replace x with (far seg off + (x - far seg off)) by lia. apply Hf; [done|]. lia.
Qed.

Lemma agrees_emulate m m' : agrees m m' -> text_ok m -> vga_emulate_text m' = vga_emulate_text m.
Proof.
  intros H Ht. unfold vga_emulate_text. by rewrite (agrees_bda m m' 1) by (done || unfold ext_flags; lia).
Qed.

Lemma glyph_length m c : length (glyph_of m c) = Z.to_nat (GET_BDA 2 m char_height).
Proof. unfold glyph_of. destruct (get_font_data c m). apply length_load_bytes. Qed.

Hypothesis Hpitch : CBlinelength V = pitch.

(** Where a character goes. *)
Definition char_x (cp : cursorpos) : Z := 8 * cp_x cp.
Definition char_y (m : mem) (cp : cursorpos) : Z := cp_y cp * GET_BDA 2 m char_height.

Definition on_screen (m : mem) (cp : cursorpos) : Prop :=
  0 <= cp_x cp < 256 /\ 0 <= cp_y cp /\ cp_x cp < GET_BDA 2 m video_cols /\
  lines_ok (char_x cp) (char_y m cp) (GET_BDA 2 m char_height).

Lemma cell_of_cp m cp k : on_screen m cp -> 0 <= k < GET_BDA 2 m char_height -> forall o,
  curmode_g o = cur -> displaystart o = 0 -> linelength o = pitch ->
  op_x o = u16 (cp_x cp * 8) -> op_y o = u16 (u16 (cp_y cp * GET_BDA 2 m char_height) + k) ->
  at_cell o (char_x cp) (char_y m cp + k).
Proof.
  intros (Hx & Hy & _ & Hl) Hk o H1 H2 H3 H4 H5. destruct Hl as (_ & Hy0 & _ & Hw & _).
  unfold char_x, char_y in *. split; try done.
  - rewrite H4, wrap_small; [lia|unfold fits; lia].
  - rewrite H5, (wrap_small 16 (cp_y cp * _)) by (unfold fits; lia). apply wrap_small. unfold fits. lia.
Qed.

(** Writing with an attribute draws the glyph in the attribute's colours and
    touches only the cell and the local array. *)
Lemma write_char_spec m cp ca : text_ok m -> on_screen m cp ->
  0 <= car ca < 256 -> 0 <= attr ca < 256 -> use_attr ca <> 0 ->
  let m' := gfx_write_char V data cur cp ca m in
  mem_ok m' /\
  shows_glyph m' (char_x cp) (char_y m cp) (glyph_of m (car ca)) (Z.land (attr ca) 0x0f) (Z.shiftr (attr ca) 4) /\
  (forall a, (forall r, 0 <= r < GET_BDA 2 m char_height ->
      a < cell (char_x cp) (char_y m cp + r) \/ cell (char_x cp) (char_y m cp + r) + 8 * Z.of_nat b <= a) ->
    (a < data \/ data + 32 <= a) -> m' a = m a).
Proof.
  intros Ht Hs Hc Ha Hu m'. subst m'. pose proof Hs as (Hx & Hy & Hcol & Hl). pose proof (text_height m Ht) as Hh.
  unfold gfx_write_char. destruct (Z.leb_spec (GET_BDA 2 m video_cols) (cp_x cp)); [lia|].
  pose proof (text_font m Ht (car ca)) as Hf. pose proof (glyph_length m (car ca)) as Hgl.
  unfold glyph_of in Hgl. unfold glyph_of at 1. destruct (get_font_data (car ca) m) as [seg off] eqn:Hfd. cbn [fst snd] in Hf.
  rewrite (text_emulated m Ht). destruct (Z.eqb_spec (use_attr ca) 0); [done|]. cbn [negb].
  set (G := load_bytes m (far seg off) _) in *. rewrite <- Hgl.
  destruct (write_lines_spec G (char_x cp) (char_y m cp) 0
    (with_pos (cp_x cp * 8) (cp_y cp * GET_BDA 2 m char_height) (init_gfx_op V cur)) m seg off
    (Z.land (attr ca) 0x0f) (Z.shiftr (attr ca) 4)) as (H1 & H2 & H3).
  - apply Ht.
  - rewrite <- (Z.add_0_r (char_y m cp)). apply cell_of_cp; try done; [lia|].
    cbn. by rewrite Z.add_0_r, wrap_wrap.
  - rewrite Hgl, Z2Nat.id by lia. done.
  - rewrite Z.add_0_r. split; [by rewrite Hgl|]. intros i Hi. apply Hf; lia.
  - change 0x0f with (Z.ones 4). rewrite Z.land_ones by lia. apply Z.mod_pos_bound. lia.
  - rewrite Z.shiftr_div_pow2 by lia. change (2 ^ 4) with 16. Z.div_mod_to_equations. lia.
  - split; [done|]. split; [done|]. intros a Har Had. apply H3; [|done]. intros r Hr. apply Har. lia.
Qed.

Lemma find_glyph_spec m G c k : forall c0, length G = Z.to_nat (GET_BDA 2 m char_height) ->
  glyph_of m c = G -> (forall c', c0 <= c' < c -> glyph_of m c' <> G) -> c0 <= c < c0 + Z.of_nat k ->
  find_glyph k c0 G m = Some c.
Proof.
  induction k as [|k IH]; intros c0 Hl Hc Hne Hr; [lia|]. cbn [find_glyph].
  assert (forall c', glyph_of m c' = let '(seg, off) := get_font_data c' m in load_bytes m (far seg off) (length G))
    as Hg by (intros c'; unfold glyph_of; by rewrite Hl).
  destruct (decide (c0 = c)) as [->|Hne'].
  - rewrite Hg in Hc. destruct (get_font_data c m) as [seg off]. by rewrite decide_True.
  - specialize (Hne c0 ltac:(lia)) as Hn. rewrite Hg in Hn. destruct (get_font_data c0 m) as [seg off].
    rewrite decide_False by done. apply IH; [done|done| |lia]. intros c' Hc'. apply Hne. lia.
Qed.

(** A glyph that can be told from its cell: some pixel is set, the one at the
    bottom right is not, and no earlier character looks the same. *)
Definition readable (m : mem) (c : Z) : Prop :=
  0 < c < 256 /\ Exists (fun l => l <> 0) (glyph_of m c) /\
  (forall l, last (glyph_of m c) = Some l -> font_bit l 7 = false) /\
  (forall c', 1 <= c' < c -> glyph_of m c' <> glyph_of m c).

Lemma agrees_data m m' : (forall a, a < data \/ data + 32 <= a -> m' a = m a) -> agrees m m'.
Proof. intros H a [_ Ha]. by apply H. Qed.

Lemma read_char_spec m cp c fg bg : text_ok m -> on_screen m cp -> readable m c ->
  shows_glyph m (char_x cp) (char_y m cp) (glyph_of m c) fg bg -> fg <> bg -> 0 <= fg < 16 -> 0 <= bg < 16 ->
  (gfx_read_char V data cur cp m).1 = mkChar c (u8 (Z.lor fg (Z.shiftl bg 4))) 0.
Proof.
  intros Ht Hs (Hc & Hex & Hlast & Hfirst) Hg Hne Hfg Hbg.
  pose proof Hs as (Hx & Hy & Hcol & Hl). pose proof (text_height m Ht) as Hh. pose proof (text_mem m Ht) as Hok.
  set (h := GET_BDA 2 m char_height) in *. pose proof (glyph_length m c) as Hgl. fold h in Hgl.
  unfold gfx_read_char. fold h. destruct (Z.leb_spec (GET_BDA 2 m video_cols) (cp_x cp)); [lia|].
  destruct (Z.ltb_spec 16 h); [lia|]. cbn [orb]. rewrite (text_emulated m Ht).
  set (o0 := with_pos (cp_x cp * 8) (cp_y cp * h) (with_op GO_READ8 (init_gfx_op V cur))).
  assert (at_cell (with_y (op_y o0 + (h - 1)) o0) (char_x cp) (char_y m cp + (h - 1))) as Hlo.
  { apply cell_of_cp; try done. fold h. lia. }
  assert (lines_ok (char_x cp) (char_y m cp + (h - 1)) 1) as Hl1.
  { destruct Hl as (? & ? & ? & ? & Hend). do 4 (split; [lia|]). intros _.
    replace (char_y m cp + (h - 1) + 1 - 1) with (char_y m cp + h - 1) by lia. apply Hend. lia. }
  destruct (cell_op _ _ _ _ Hlo Hl1 ltac:(lia)) as (Hat & Hop & Hdc).
  destruct (read8_spec _ m Hok Hop Hdc eq_refl) as (m1 & Hr & Hok1 & Hm1). rewrite Hr, Hat.
  destruct (last (glyph_of m c)) as [l|] eqn:El.
  2: { apply last_None in El. rewrite El in Hgl. cbn in Hgl. lia. }
  pose proof El as El'. rewrite last_lookup, Hgl in El'.
  pose proof (shown_pixels m _ _ _ fg bg _ l Hg El' Hfg Hbg) as Hpx.
  replace (Z.of_nat (pred (Z.to_nat h))) with (h - 1) in Hpx by lia. rewrite Hpx.
  unfold pixel at 1 2 3. cbn [pixels with_pixels].
  assert (nth 7 (glyph_pixels l fg bg) 0 = bg) as Hbgp.
  { rewrite (nth_lookup_Some _ _ 0 bg); [done|]. rewrite glyph_pixels_lookup by lia.
    change (Z.of_nat 7) with 7. by rewrite Hlast. }
  rewrite !Hbgp. cbn [op_y with_pixels with_y].
  pose proof (agrees_data m m1 Hm1) as Hag1.
  destruct (read_lines_spec (glyph_of m c) (char_x cp) (char_y m cp)
    (with_y (u16 (op_y o0 + (h - 1)) - (h - 1)) (with_pixels (glyph_pixels l fg bg) (with_y (op_y o0 + (h - 1)) o0)))
    m1 fg bg (Z.lxor bg 7) []) as (m2 & Hr2 & Hm2); try done.
  - destruct Hlo as [? ? ? ? Hoy]. split; cbn; try done. cbn in Hoy. rewrite Hoy.
    replace (char_y m cp + (h - 1) - (h - 1)) with (char_y m cp) by lia.
    destruct Hl as (_ & ? & _ & ? & _). apply wrap_small. unfold fits. lia.
  - rewrite Hgl, Z2Nat.id by lia. done.
  - apply (shows_glyph_frame m); [|done|done]. rewrite Hgl, Z2Nat.id by lia. done.
  - unfold glyph_of. destruct (get_font_data c m). by apply load_bytes_fits.
  - rewrite Hgl in Hr2. rewrite Hr2. cbn [app].
    assert (agrees m m2) as Hag2 by (intros a [_ Ha]; rewrite Hm2, Hm1 by done; done).
    rewrite (find_glyph_spec m2 _ c).
    + cbn [fst]. rewrite (wrap_small 8 c) by (unfold fits; lia).
      replace (existsb _ (glyph_of m c)) with true; [done|]. symmetry. apply existsb_exists.
      apply Exists_exists in Hex as (l' & Hin & Hl'). exists l'. split; [by apply list_elem_of_In|].
      by destruct (Z.eqb_spec l' 0).
    + rewrite (agrees_bda m m2 2) by (done || unfold char_height; lia). done.
    + apply agrees_glyph; [done|done|lia].
    + intros c' Hc'. rewrite (agrees_glyph m m2) by (done || lia). apply Hfirst. lia.
    + lia.
Qed.

(** * Pixels *)

Lemma reverse_color_range c : 0 <= reverse_color d c < 16.
Proof.
  unfold reverse_color. destruct (channel_bits d) as [[r g] bl]. cbv zeta.
  assert (forall b1 b2 b3 b4 : bool, 0 <= Z.lor (Z.lor (Z.lor (if b1 then 0 else 8) (if b2 then 0 else 4))
    (if b3 then 0 else 2)) (if b4 then 0 else 1) < 16) as H by (intros [] [] [] []; vm_compute; split; congruence).
  apply H.
Qed.

(** The group of eight pixels a pixel is in. *)
Definition group (x : Z) : Z := x - x mod 8.

Lemma group_land x : 0 <= x < 2 ^ 16 -> Z.land x (Z.lnot 7) = group x /\ Z.land x 0x07 = x mod 8.
Proof.
  intros Hx. change 7 with (Z.ones 3). split.
  - rewrite <- Z.ldiff_land, Z.ldiff_ones_r, Z.shiftr_div_pow2, Z.shiftl_mul_pow2 by lia.
    unfold group. change (2 ^ 3) with 8. Z.div_mod_to_equations. lia.
  - by rewrite Z.land_ones by lia.
Qed.

Definition pixel_ok (x y : Z) : Prop :=
  0 <= x < 2 ^ 16 /\ (group x + 8) * Z.of_nat b <= pitch /\ lines_ok (group x) y 1.

(** The current mode, kept in memory no operation reaches. *)
Record mode_ok (m : mem) : Prop := {
  mode_mem : mem_ok m;
  mode_current : get_current_mode m = cur;
  mode_low : forall a, 0 <= a < 0x500 -> elsewhere a
}.

(** The attribute at a pixel. *)
Definition attribute (m : mem) (x y : Z) : Z :=
  reverse_color d (load b m (cell (group x) y + x mod 8 * Z.of_nat b)).

Definition pixel_op (k x y : Z) : gfx_op := with_op k (with_pos (group x) y (init_gfx_op V cur)).

Lemma pixel_cell k x y : pixel_ok x y -> at_cell (pixel_op k x y) (group x) y.
Proof.
  intros (Hx & _ & (Hgx & Hy & _ & Hw & _)). assert (group x <= x) by (unfold group; Z.div_mod_to_equations; lia).
  split; cbn; try done; apply wrap_small; unfold fits; lia.
Qed.

(** The eight attributes of a group. *)
Definition attributes (m : mem) (x y : Z) : list Z :=
  (fun i => reverse_color d (load b m (cell (group x) y + i * Z.of_nat b))) <$> seqZ 0 8.

Lemma attributes_lookup m x y i : (i < 8)%nat ->
  attributes m x y !! i = Some (reverse_color d (load b m (cell (group x) y + Z.of_nat i * Z.of_nat b))).
Proof. intros Hi. unfold attributes. by rewrite list_lookup_fmap, lookup_seqZ_lt by lia. Qed.

Lemma read_group m x y : mem_ok m -> pixel_ok x y ->
  exists m1, handle_gfx_op V data (pixel_op GO_READ8 x y) m =
    (with_pixels (attributes m x y) (pixel_op GO_READ8 x y), m1) /\ mem_ok m1 /\
    (forall a, a < data \/ data + 32 <= a -> m1 a = m a).
Proof.
  intros Hm Hp. pose proof (pixel_cell GO_READ8 x y Hp) as Hc. destruct Hp as (_ & _ & Hl).
  destruct (cell_op _ _ _ _ Hc Hl ltac:(lia)) as (Hat & Hop & Hdc).
  destruct (read8_spec _ m Hm Hop Hdc eq_refl) as (m1 & Hr & H1 & H2). rewrite Hat in Hr. by exists m1.
Qed.

Lemma read_pixel_spec m x y : mode_ok m -> cur <> 0 -> pixel_ok x y ->
  (vgafb_read_pixel V data x y m).1 = attribute m x y.
Proof.
  intros Hm Hcur Hp. unfold vgafb_read_pixel. rewrite (mode_current m Hm).
  destruct (Z.eqb_spec cur 0); [done|]. destruct (group_land x) as [-> ->]; [apply Hp|].
  fold (pixel_op GO_READ8 x y). destruct (read_group m x y (mode_mem m Hm) Hp) as (m1 & -> & _ & _).
  cbn [fst]. unfold pixel. cbn [pixels with_pixels].
  pose proof (Z.mod_pos_bound x 8 ltac:(lia)).
  rewrite (nth_lookup_Some _ _ 0 (attribute m x y)); [done|]. rewrite attributes_lookup by lia.
  unfold attribute. by rewrite Z2Nat.id by lia.
Qed.

Lemma attribute_frame m m' x y : pixel_ok x y ->
  (forall a, cell (group x) y <= a < cell (group x) y + 8 * Z.of_nat b -> m' a = m a) ->
  attribute m' x y = attribute m x y.
Proof.
  intros Hp Hm. unfold attribute. f_equal. apply load_ext. intros a Ha. apply Hm.
  pose proof (Z.mod_pos_bound x 8 ltac:(lia)). pose proof b_range. nia.
Qed.

Lemma groups_apart x y x' y' : pixel_ok x y -> pixel_ok x' y' -> group x <> group x' \/ y <> y' ->
  cell (group x') y' + 8 * Z.of_nat b <= cell (group x) y \/
  cell (group x) y + 8 * Z.of_nat b <= cell (group x') y'.
Proof.
  intros (_ & Hw & (Hgx & Hy & _)) (_ & Hw' & (Hgx' & Hy' & _)) Hne. pose proof b_range. unfold cell.
  assert (group x mod 8 = 0 /\ group x' mod 8 = 0) as [H1 H2] by (unfold group; Z.div_mod_to_equations; lia).
  destruct (Z.lt_trichotomy y y') as [?|[->|?]]; [nia| |nia].
  assert (group x + 8 <= group x' \/ group x' + 8 <= group x) as [?|?] by (Z.div_mod_to_equations; lia); nia.
Qed.

(** Writing a pixel changes the attribute of that pixel and of no other. *)
Lemma write_pixel_spec m x y color : mode_ok m -> cur <> 0 -> pixel_ok x y -> 0 <= color < 16 ->
  let m' := vgafb_write_pixel V data color x y m in
  mode_ok m' /\ agrees m m' /\ (forall x' y', pixel_ok x' y' ->
    attribute m' x' y' = if decide (x' = x /\ y' = y) then color else attribute m x' y').
Proof.
  intros Hm Hcur Hp Hcol m'. subst m'. unfold vgafb_write_pixel. rewrite (mode_current m Hm).
  destruct (Z.eqb_spec cur 0); [done|]. destruct (group_land x) as [-> ->]; [apply Hp|].
  fold (pixel_op GO_READ8 x y). destruct (read_group m x y (mode_mem m Hm) Hp) as (m1 & -> & Hok1 & Hm1).
  rewrite Hdepth. assert ((d <? 8) = false) as -> by (destruct Hd as [[[->| ->] _]|[[-> _]|[-> _]]]; done).
  rewrite andb_false_r. cbn [pixels with_pixels]. pose proof (Z.mod_pos_bound x 8 ltac:(lia)) as Hx8.
  set (ps := set_nth _ color (attributes m x y)).
  assert (forall j, (j < 8)%nat -> ps !! j = Some (if decide (Z.of_nat j = x mod 8) then color
    else reverse_color d (load b m (cell (group x) y + Z.of_nat j * Z.of_nat b)))) as Hps.
  { intros j Hj. unfold ps, set_nth. case_decide as Hjx.
    - replace (Z.to_nat (x mod 8)) with j by lia. rewrite list_lookup_insert_eq; [done|].
      unfold attributes. rewrite length_fmap, length_seqZ. lia.
    - rewrite list_lookup_insert_ne by lia. by apply attributes_lookup. }
  set (o := with_op GO_WRITE8 _). pose proof (pixel_cell GO_WRITE8 x y Hp) as Hc.
  assert (at_cell o (group x) y) as Ho by (destruct Hc; by split).
  pose proof Hp as (_ & _ & Hl). destruct (cell_op _ _ _ _ Ho Hl ltac:(lia)) as (Hat & Hop & Hdc).
  destruct (write8_spec o m1 Hok1 Hop Hdc) as (m2 & Hr & Hok2 & Hpx & Hout); [|done|].
  { cbn. unfold ps, set_nth, attributes. by rewrite length_insert, length_fmap, length_seqZ. }
  rewrite Hr. cbn [snd]. rewrite Hat in *.
  assert (forall a, (a < cell (group x) y \/ cell (group x) y + 8 * Z.of_nat b <= a) ->
    (a < data \/ data + 32 <= a) -> m2 a = m a) as Hfr by (intros a H1 H2; rewrite Hout, Hm1; done).
  destruct (cell_range (group x) y 1 0 Hl ltac:(lia)) as [Hlo Hhi]. rewrite Z.add_0_r in *.
  split; [|split; [intros a [He1 He2]; apply Hfr; lia|]].
  - destruct Hm as [Hmm Hmc Hml]. split; [done| |done]. rewrite <- Hmc. unfold get_current_mode, GET_BDA, GET_FARVAR.
    apply load_ext. intros a Ha. destruct (Hml a) as [He1 He2];
      [unfold far, SEG_BDA, ext_vgamode_offset in Ha; lia|]. apply Hfr; lia.
  - intros x' y' Hp'. destruct (decide (group x' = group x /\ y' = y)) as [[Hg ->]|Hne].
    + pose proof (Z.mod_pos_bound x' 8 ltac:(lia)). unfold attribute. rewrite Hg.
      assert (ps !! Z.to_nat (x' mod 8) = Some (if decide (x' = x /\ y = y) then color
        else reverse_color d (load b m (cell (group x) y + x' mod 8 * Z.of_nat b)))) as Hlk.
      { rewrite Hps, Z2Nat.id by lia. f_equal. unfold group in Hg. repeat case_decide; try done; exfalso; lia. }
      apply Hpx in Hlk; [|case_decide; [done|apply reverse_color_range]].
      rewrite Z2Nat.id in Hlk by lia. rewrite Hlk. case_decide; apply (color_roundtrip d b); try done.
      apply reverse_color_range.
    + rewrite decide_False by (intros [-> ->]; by apply Hne). apply attribute_frame; [done|].
      intros a Ha. destruct (groups_apart x y x' y' Hp Hp') as [Hap|Hap].
      { destruct (decide (y = y')); [left|by right]. intros Hgg. apply Hne. by subst. }
      all: destruct Hp' as (_ & _ & Hl'); destruct (cell_range (group x') y' 1 0 Hl' ltac:(lia)) as [Hlo' Hhi'];
        rewrite Z.add_0_r in *; destruct Hscreen as [_ Hdata _]; apply Hfr; lia.
Qed.

End direct.
