(* ===== verification/VgaScroll.v ===== *)
(** Clearing and scrolling in a linear framebuffer.

    [GO_MEMSET] fills a rectangle: eight pixels, then a block move that
    overlaps itself and so repeats them along the line, then the line copied
    down.  [GO_MEMMOVE] moves a rectangle line by line in the direction in
    which nothing is overwritten before it is read.  Together they make
    [vgafb_scroll] move the text of a window and blank the rest. *)

From stdpp Require Import base numbers list.
From Stdlib Require Import ZArith Lia.
From S2P Require Import Prelude Memory SeaString CcInt VgaState VgaPal VgaCb VgaFb VgaDraw.

(** * A block move onto itself *)

(** The destination is [P] bytes ahead of the source: what is copied repeats
    with period [P]. *)
Lemma movs_periodic w k src P m0 : forall m off,
  (0 < w)%nat -> Z.of_nat w <= P -> 0 <= src -> 0 <= off ->
  off + Z.of_nat k * Z.of_nat w <= 2 ^ 16 -> src + P + off + Z.of_nat k * Z.of_nat w <= 2 ^ 32 ->
  mem_ok m ->
  (forall i, 0 <= i < off -> m (src + P + i) = m0 (src + i mod P)) ->
  (forall a, a < src + P \/ src + P + off <= a -> m a = m0 a) ->
  let m' := movs w k m (src + P) src off in
  (forall i, 0 <= i < off + Z.of_nat k * Z.of_nat w -> m' (src + P + i) = m0 (src + i mod P)) /\
  (forall a, a < src + P \/ src + P + off + Z.of_nat k * Z.of_nat w <= a -> m' a = m0 a).
Proof.
  induction k as [|k IH]; intros m off Hw HP Hs Ho Hk H32 Hok Hin Hout.
  { cbn. rewrite !Z.add_0_r. done. }
  cbn [movs]. rewrite (wrap_small 16 off), (wrap_small 32 (src + P + off)), (wrap_small 32 (src + off))
    by (unfold fits; lia).
  assert (forall t, 0 <= t < Z.of_nat w -> m (src + off + t) = m0 (src + (off + t) mod P)) as Hread.
  { intros t Ht. destruct (Z.lt_ge_cases (off + t) P).
    - rewrite Hout, Z.mod_small by lia. f_equal. lia.
    - replace (src + off + t) with (src + P + (off + t - P)) by lia. rewrite Hin by lia.
      do 2 f_equal. rewrite <- (Z.mod_add (off + t - P) 1 P) by lia. f_equal. lia. }
  pose proof (store_load w m (src + P + off) (src + off) Hok) as Hsl.
  set (m1 := store w m _ _) in *. specialize (IH m1 (off + Z.of_nat w)).
  replace (off + Z.of_nat (S k) * Z.of_nat w) with (off + Z.of_nat w + Z.of_nat k * Z.of_nat w) by lia.
  replace (src + P + off + Z.of_nat (S k) * Z.of_nat w)
    with (src + P + (off + Z.of_nat w) + Z.of_nat k * Z.of_nat w) by lia.
  apply IH; try lia; [by apply store_ok| |].
  - intros i Hi. rewrite (Hsl (src + P + i)). unfold block_copy, Libc.block_copy.
    destruct (Z.lt_ge_cases i off).
    + repeat (ztest; simpl; try lia). apply Hin. lia.
    + repeat (ztest; simpl; try lia). transitivity (m (src + off + (i - off))); [f_equal; lia|].
      rewrite Hread by lia. by replace (off + (i - off)) with i by lia.
  - intros a Ha. rewrite (Hsl a). unfold block_copy, Libc.block_copy.
    repeat (ztest; simpl; try lia); apply Hout; lia.
Qed.

Lemma memcpy_high_periodic m src P len : mem_ok m -> Z.even len = true -> 0 <= len <= 2 ^ 16 ->
  4 <= P -> 0 <= src -> src + P + len <= 2 ^ 32 ->
  (forall i, 0 <= i < len -> memcpy_high m (src + P) src len (src + P + i) = m (src + i mod P)) /\
  (forall a, a < src + P \/ src + P + len <= a -> memcpy_high m (src + P) src len a = m a).
Proof.
  intros Hok He Hl HP Hs H32. destruct (memcpy_high_moves m (src + P) src len) as (w & k & -> & Hw & Hk).
  specialize (Hk He Hl). destruct (decide (k = 0%nat)) as [->|Hk0].
  { cbn. split; [lia|done]. }
  rewrite !(wrap_small 32) by (unfold fits; nia).
  destruct (movs_periodic w k src P m m 0) as [H1 H2]; try done; try lia.
  rewrite Z.add_0_l, Hk in H1. rewrite Z.add_0_r, Hk in H2. done.
Qed.

(** * Lines *)

(** Two blocks of [len] bytes do not overlap. *)
Definition apart (len a a' : Z) : Prop := a + len <= a' \/ a' + len <= a.

Lemma move_lines_spec k len s : forall m dst src,
  mem_ok m -> Z.even len = true -> 0 < len <= 2 ^ 16 ->
  (forall i, 0 <= i < Z.of_nat k -> block32 (dst + i * s) len /\ block32 (src + i * s) len) ->
  (forall i j, 0 <= i <= j -> j < Z.of_nat k -> apart len (dst + i * s) (src + j * s)) ->
  (forall i j, 0 <= i < j -> j < Z.of_nat k -> apart len (dst + i * s) (dst + j * s)) ->
  let m' := memmove_lines_high k m (u32 dst) (u32 src) len s in
  mem_ok m' /\
  (forall i j, 0 <= i < Z.of_nat k -> 0 <= j < len -> m' (dst + i * s + j) = m (src + i * s + j)) /\
  (forall a, (forall i, 0 <= i < Z.of_nat k -> a < dst + i * s \/ dst + i * s + len <= a) -> m' a = m a).
Proof.
  induction k as [|k IH]; intros m dst src Hok He Hl Hr Hsep Hrows.
  { cbn. split; [done|]. split; [lia|done]. }
  cbn [memmove_lines_high]. destruct (Hr 0 ltac:(lia)) as [[Hd1 Hd2] [Hs1 Hs2]]. rewrite Z.mul_0_l, !Z.add_0_r in Hd1, Hd2, Hs1, Hs2.
  rewrite (wrap_small 32 dst), (wrap_small 32 src) by (unfold fits; lia).
  set (m1 := memcpy_high m dst src len). assert (mem_ok m1) as Hok1 by by apply memcpy_high_ok.
  specialize (Hsep 0 0 ltac:(lia) ltac:(lia)) as H00. rewrite Z.mul_0_l, !Z.add_0_r in H00.
  destruct (IH m1 (dst + s) (src + s)) as (Hok' & Hin & Hout); try done.
  - intros i Hi. replace (dst + s + i * s) with (dst + (i + 1) * s) by lia.
    replace (src + s + i * s) with (src + (i + 1) * s) by lia. apply Hr. lia.
  - intros i j Hi Hj. replace (dst + s + i * s) with (dst + (i + 1) * s) by lia.
    replace (src + s + j * s) with (src + (j + 1) * s) by lia. apply Hsep; lia.
  - intros i j Hi Hj. replace (dst + s + i * s) with (dst + (i + 1) * s) by lia.
    replace (dst + s + j * s) with (dst + (j + 1) * s) by lia. apply Hrows; lia.
  - split; [done|]. split.
    + intros i j Hi Hj. destruct (decide (i = 0)) as [->|Hi0].
      * rewrite Z.mul_0_l, !Z.add_0_r, Hout.
        -- unfold m1. apply memcpy_high_in; try done; try lia; split; lia.
        -- intros i Hi'. specialize (Hrows 0 (i + 1) ltac:(lia) ltac:(lia)). unfold apart in Hrows.
           rewrite Z.mul_0_l, Z.add_0_r in Hrows. replace (dst + s + i * s) with (dst + (i + 1) * s) by lia. lia.
      * replace (dst + i * s) with (dst + s + (i - 1) * s) by lia. rewrite Hin by lia.
        replace (src + s + (i - 1) * s) with (src + i * s) by lia. unfold m1.
        specialize (Hsep 0 i ltac:(lia) ltac:(lia)). unfold apart in Hsep. rewrite Z.mul_0_l, Z.add_0_r in Hsep.
        apply memcpy_high_out; try done; try lia; split; lia.
    + intros a Ha. rewrite Hout.
      * unfold m1. specialize (Ha 0 ltac:(lia)). rewrite Z.mul_0_l, Z.add_0_r in Ha.
        apply memcpy_high_out; try done; try lia; split; lia.
      * intros i Hi. replace (dst + s + i * s) with (dst + (i + 1) * s) by lia. apply Ha. lia.
Qed.

Section scroll.
Context {L : Layout}.
Variables (V : vga) (data cur d : Z) (b : nat).
Hypothesis Hmodel : memmodel (mode_at V cur) = MM_DIRECT.
Hypothesis Hdepth : depth (mode_at V cur) = d.
Hypothesis Hd : direct_depth d b.
Variables (size pitch : Z).
Hypothesis Hscreen : screen_ok V data b size pitch.

Abbreviation B := (Z.of_nat b).
Abbreviation cell := (cell V b pitch).

(** A rectangle of [8 * w] by [n] pixels that is on the screen. *)
Record rect_ok (x y w n : Z) : Prop := {
  rect_pos : 0 <= x /\ 0 <= y /\ 0 < w /\ 0 < n;
  rect_wide : 8 * w < 2 ^ 16 /\ 8 * w * B <= pitch /\ 8 * w * B <= 2 ^ 16;
  rect_high : y + n < 2 ^ 16;
  rect_end : cell x (y + n - 1) + 8 * w * B <= VBE_framebuffer V + size
}.

Lemma rect_rows x y w n i : rect_ok x y w n -> 0 <= i < n ->
  VBE_framebuffer V <= cell x (y + i) /\ cell x (y + i) + 8 * w * B <= VBE_framebuffer V + size.
Proof.
  intros [Hp Hw Hh He] Hi. pose proof (b_range d b Hd). destruct Hscreen as [_ _ Hpt]. unfold VgaDraw.cell in *. nia.
Qed.

Lemma cell_row x y i : cell x (y + i) = cell x y + i * pitch.
Proof. unfold VgaDraw.cell. lia. Qed.

Lemma even_width w : Z.even (8 * w * B) = true.
Proof. rewrite !Z.even_mul. done. Qed.

(** Bytes outside the rectangle and the local array. *)
Definition outside (x y w n a : Z) : Prop :=
  (forall i, 0 <= i < n -> a < cell x (y + i) \/ cell x (y + i) + 8 * w * B <= a) /\ (a < data \/ data + 32 <= a).

(** The first line of a cleared rectangle. *)
Lemma clear_line c a w m : mem_ok m -> 0 <= c < 16 -> 0 < w -> 8 * w * B <= 2 ^ 16 ->
  VBE_framebuffer V <= a -> a + 8 * w * B <= VBE_framebuffer V + size ->
  let m1 := put_data data (repeat (get_color d c) 8) 0 B m in
  let m2 := memcpy_high m1 a data (B * 8) in
  let m3 := memcpy_high m2 (a + B * 8) a (8 * w * B - B * 8) in
  mem_ok m3 /\ (forall j, 0 <= j < 8 * w -> load b m3 (a + j * B) = get_color d c) /\
  (forall x, x < a \/ a + 8 * w * B <= x -> x < data \/ data + 32 <= x -> m3 x = m x).
Proof.
  intros Hok Hc Hw Hl Ha1 Ha2 m1 m2 m3. pose proof (b_range d b Hd) as Hb.
  destruct Hscreen as [Hr Hdata Hp]. pose proof (even_pixels b) as Hev. assert (B * 8 <= 8 * w * B) as HW by nia.
  assert (mem_ok m1) as Hok1 by by apply put_data_ok. assert (mem_ok m2) as Hok2 by by apply memcpy_high_ok.
  assert (forall k, (k < 8)%nat -> load b m2 (a + Z.of_nat k * B) = get_color d c) as Hpix.
  { intros k Hk. rewrite <- (wrap_small (8 * B) (get_color d c)) by by apply get_color_fits.
    rewrite <- (put_data_in data d b Hd (repeat (get_color d c) 8) 0 m k) by (do 8 (destruct k as [|k]; [done|]); lia).
    fold m1. unfold load. f_equal. apply load_bytes_shift. intros i Hi. rewrite Z.add_0_l, <- !Z.add_assoc.
    assert (Z.of_nat k * B <= 7 * B) by (apply Z.mul_le_mono_nonneg_r; lia).
    apply memcpy_high_in; try done; unfold block32; lia. }
  assert (Z.even (8 * w * B - B * 8) = true) as Hev3.
  { rewrite Z.even_sub, even_width, Hev. done. }
  destruct (memcpy_high_periodic m2 a (B * 8) (8 * w * B - B * 8) Hok2 Hev3 ltac:(lia) ltac:(lia) ltac:(lia)
    ltac:(lia)) as [Hper Hout].
  fold m3 in Hper, Hout. split; [by apply memcpy_high_ok|]. split.
  - intros j Hj. rewrite <- (Hpix (Z.to_nat (j mod 8))) by (Z.div_mod_to_equations; lia).
    rewrite Z2Nat.id by (Z.div_mod_to_equations; lia). unfold load. f_equal. apply load_bytes_shift. intros i Hi.
    pose proof (Z.div_mod j 8 ltac:(lia)) as Hdm. pose proof (Z.mod_pos_bound j 8 ltac:(lia)) as Hm8.
    assert (j mod 8 * B <= 7 * B) by (apply Z.mul_le_mono_nonneg_r; lia).
    assert (0 <= j mod 8 * B) by (apply Z.mul_nonneg_nonneg; lia).
    assert (j * B <= (8 * w - 1) * B) by (apply Z.mul_le_mono_nonneg_r; lia).
    assert (j * B = 8 * (j / 8) * B + j mod 8 * B) by (rewrite Hdm at 1; ring).
    destruct (decide (j < 8)) as [Hj8|Hj8].
    + rewrite Z.mod_small in * by lia. rewrite Hout by lia. done.
    + assert (8 * B <= j * B) by (apply Z.mul_le_mono_nonneg_r; lia).
      replace (a + j * B + i) with (a + B * 8 + ((j - 8) * B + i)) by lia. rewrite Hper by lia.
      rewrite <- !Z.add_assoc. do 2 f_equal.
      replace ((j - 8) * B + i) with (j mod 8 * B + i + (j / 8 - 1) * (B * 8)) by lia.
      rewrite Z.mod_add by lia. apply Z.mod_small. lia.
  - intros x Hx Hxd. rewrite Hout by lia. unfold m2.
    rewrite memcpy_high_out by (done || lia || (unfold block32; lia)).
    unfold m1. apply (put_data_out data d b Hd). rewrite repeat_length. lia.
Qed.

Lemma rows_apart x y w n i j : rect_ok x y w n -> i <> j -> apart (8 * w * B) (cell x (y + i)) (cell x (y + j)).
Proof.
  intros [Hp Hw _ _] Hij. pose proof (b_range d b Hd). unfold apart. rewrite !cell_row.
  destruct (Z.lt_total i j) as [H1|[H1|H1]]; nia.
Qed.

Lemma lines_apart x y w n k k' : rect_ok x y w n -> k <> k' -> apart (8 * w * B) (cell x k) (cell x k').
Proof.
  intros Hr Hk. pose proof (rows_apart x y w n (k - y) (k' - y) Hr ltac:(lia)) as H0.
  replace (y + (k - y)) with k in H0 by lia. by replace (y + (k' - y)) with k' in H0 by lia.
Qed.

(** The line copied down. *)
Lemma fill_rows m x y w n : mem_ok m -> rect_ok x y w n ->
  let m' := upto (Z.to_nat (n - 1)) 1 (fun i m => memcpy_high m (cell x y + pitch * i) (cell x y) (8 * w * B)) m in
  mem_ok m' /\ (forall i j, 0 <= i < n -> 0 <= j < 8 * w * B -> m' (cell x (y + i) + j) = m (cell x y + j)) /\
  (forall a, (forall i, 0 < i < n -> a < cell x (y + i) \/ cell x (y + i) + 8 * w * B <= a) -> m' a = m a).
Proof.
  intros Hok Hr m'. pose proof (screen_range _ _ _ _ _ Hscreen) as Hs. pose proof (rect_pos _ _ _ _ Hr) as Hpos.
  pose proof (upto_invariant (fun k m' => mem_ok m' /\
    (forall i j, 0 <= i < k -> 0 <= j < 8 * w * B -> m' (cell x (y + i) + j) = m (cell x y + j)) /\
    (forall a, (forall i, 0 < i < k -> a < cell x (y + i) \/ cell x (y + i) + 8 * w * B <= a) -> m' a = m a))
    (Z.to_nat (n - 1)) 1 (fun i m => memcpy_high m (cell x y + pitch * i) (cell x y) (8 * w * B)) m) as Hi.
  cbv beta in Hi. replace (1 + Z.of_nat (Z.to_nat (n - 1))) with n in Hi by lia. apply Hi; clear Hi m'.
  { split; [done|]. split; [|done]. intros i j Hi Hj. by replace (y + i) with y by lia. }
  intros k mk Hk (Hokk & Hin & Hout). pose proof (b_range d b Hd) as Hb. assert (0 < 8 * w * B) by nia.
  assert (k < n) as Hkn by lia. destruct Hk as [Hk _].
  destruct (rect_rows _ _ _ _ k Hr ltac:(lia)) as [Hk1 Hk2]. destruct (rect_rows _ _ _ _ 0 Hr ltac:(lia)) as [H01 H02].
  pose proof (rows_apart _ _ _ _ 0 k Hr ltac:(lia)) as H0k. unfold apart in H0k. rewrite Z.add_0_r in *.
  pose proof (rect_wide _ _ _ _ Hr) as Hw. pose proof (even_width w) as He.
  replace (cell x y + pitch * k) with (cell x (y + k)) by (rewrite cell_row; lia).
  split; [by apply memcpy_high_ok|]. split.
  - intros i j Hi Hj. destruct (decide (i = k)) as [->|Hne].
    + rewrite memcpy_high_in by (done || lia || (unfold block32; lia)). rewrite <- (Hin 0 j) by lia.
      by rewrite Z.add_0_r.
    + pose proof (rows_apart _ _ _ _ i k Hr Hne) as Hap. unfold apart in Hap.
      rewrite memcpy_high_out by (done || lia || (unfold block32; lia)). apply Hin; lia.
  - intros a Ha. rewrite memcpy_high_out by (done || lia || (unfold block32; lia) || (apply Ha; lia)).
    apply Hout. intros i Hi. apply Ha. lia.
Qed.

(** [GO_MEMSET] paints a rectangle in one colour and changes nothing else. *)
Lemma clear_spec o m x y w n c : mem_ok m -> at_cell cur pitch o x y -> rect_ok x y w n ->
  op o = GO_MEMSET -> xlen o = 8 * w -> ylen o = n -> pixel o 0 = c -> 0 <= c < 16 ->
  exists m', handle_gfx_op V data o m = (o, m') /\ mem_ok m' /\
    (forall i j, 0 <= i < n -> 0 <= j < 8 * w -> load b m' (cell x (y + i) + j * B) = get_color d c) /\
    (forall a, outside x y w n a -> m' a = m a).
Proof.
  intros Hok [Hm Hs Hl Hx Hy] Hr Hop Hxl Hyl Hp Hc. pose proof (b_range d b Hd) as Hb.
  pose proof (rect_pos _ _ _ _ Hr) as Hpos. pose proof (screen_range _ _ _ _ _ Hscreen) as Hsr.
  unfold handle_gfx_op, gfx_direct. rewrite Hm, Hmodel, Hdepth, Hs, Hop, (bypp_b d b Hd), Hl, Hx, Hy, Hxl, Hyl, Hp.
  change (MM_DIRECT =? MM_PLANAR) with false. change (MM_DIRECT =? MM_CGA) with false.
  change (MM_DIRECT =? MM_PACKED) with false. change (MM_DIRECT =? MM_DIRECT) with true.
  change (GO_MEMSET =? GO_WRITE8) with false. change (GO_MEMSET =? GO_MEMSET) with true. cbv iota zeta.
  destruct (Z.eqb_spec (VBE_framebuffer V) 0); [lia|]. rewrite Z.add_0_r. fold (cell x y).
  destruct (rect_rows _ _ _ _ 0 Hr ltac:(lia)) as [H01 H02]. rewrite Z.add_0_r in *.
  assert (0 < 8 * w * B) by nia. rewrite (wrap_small 32 (cell x y)) by (unfold fits; lia).
  pose proof (rect_wide _ _ _ _ Hr) as Hw.
  destruct (clear_line c (cell x y) w m) as (Hok3 & Hpix & Hfr3); try done; try lia.
  set (m3 := memcpy_high _ _ _ (8 * w * B - B * 8)) in *.
  destruct (fill_rows m3 x y w n Hok3 Hr) as (Hok4 & Hrows & Hfr4).
  eexists. split; [reflexivity|]. split; [done|]. split.
  - intros i j Hi Hj. rewrite <- (Hpix j Hj). unfold load. f_equal. apply load_bytes_shift. intros k Hk.
    assert (j * B <= (8 * w - 1) * B) by (apply Z.mul_le_mono_nonneg_r; lia).
    assert (0 <= j * B) by (apply Z.mul_nonneg_nonneg; lia).
    rewrite <- !Z.add_assoc. apply Hrows; lia.
  - intros a [Hout Hda]. rewrite Hfr4 by (intros i Hi; apply Hout; lia). apply Hfr3; [|done].
    specialize (Hout 0 ltac:(lia)). by rewrite Z.add_0_r in Hout.
Qed.

Lemma rect_blocks x y sy w n : rect_ok x y w n -> 0 <= sy -> cell x (sy + n - 1) + 8 * w * B <= 2 ^ 32 ->
  forall i, 0 <= i < n -> block32 (cell x (y + i)) (8 * w * B) /\ block32 (cell x (sy + i)) (8 * w * B).
Proof.
  intros Hr Hsy H32 i Hi. pose proof (b_range d b Hd) as Hb. pose proof (screen_range _ _ _ _ _ Hscreen) as Hs.
  pose proof (rect_pos _ _ _ _ Hr) as Hpos. pose proof (rect_wide _ _ _ _ Hr) as Hw.
  destruct (rect_rows _ _ _ _ i Hr Hi). split; unfold block32; [lia|].
  replace (sy + n - 1) with (sy + (n - 1)) in H32 by lia. rewrite cell_row in *.
  assert (i * pitch <= (n - 1) * pitch) by nia. assert (0 <= i * pitch) by nia.
  assert (0 <= cell x sy) by (unfold VgaDraw.cell; nia). lia.
Qed.

(** [memmove_stride_high] of the lines of a rectangle to other lines. *)
Lemma move_rows m x y sy w n : mem_ok m -> rect_ok x y w n -> 0 <= sy -> sy <> y ->
  cell x (sy + n - 1) + 8 * w * B <= 2 ^ 32 ->
  let m' := memmove_stride_high m (cell x y) (cell x sy) (8 * w * B) pitch n in
  mem_ok m' /\
  (forall i j, 0 <= i < n -> 0 <= j < 8 * w * B -> m' (cell x (y + i) + j) = m (cell x (sy + i) + j)) /\
  (forall a, (forall i, 0 <= i < n -> a < cell x (y + i) \/ cell x (y + i) + 8 * w * B <= a) -> m' a = m a).
Proof.
  intros Hok Hr Hsy Hne H32 m'. subst m'. pose proof (b_range d b Hd) as Hb. pose proof (screen_range _ _ _ _ _ Hscreen) as Hs.
  pose proof (rect_pos _ _ _ _ Hr) as Hpos. pose proof (rect_wide _ _ _ _ Hr) as Hw. assert (0 < 8 * w * B) by nia.
  pose proof (rect_blocks x y sy w n Hr Hsy H32) as Hblk.
  pose proof (fun k k' => lines_apart x y w n k k' Hr) as Hap.
  unfold memmove_stride_high. destruct (Z.ltb_spec (cell x sy) (cell x y)) as [Hlt|Hge].
  - assert (sy < y) by (unfold VgaDraw.cell in Hlt; nia).
    replace (cell x y + pitch * (n - 1)) with (cell x (y + (n - 1))) by (rewrite cell_row; lia).
    replace (cell x sy + pitch * (n - 1)) with (cell x (sy + (n - 1))) by (rewrite cell_row; lia).
    assert (forall k i, cell x (k + (n - 1)) + i * - pitch = cell x (k + (n - 1 - i))) as Hc by (intros; rewrite !cell_row; lia).
    destruct (move_lines_spec (Z.to_nat n) (8 * w * B) (- pitch) m (cell x (y + (n - 1))) (cell x (sy + (n - 1))))
      as (Hok' & Hin & Hout); try done; try lia.
    + apply even_width.
    + intros i Hi. rewrite !Hc. apply Hblk. lia.
    + intros i j Hi Hj. rewrite !Hc. apply Hap. lia.
    + intros i j Hi Hj. rewrite !Hc. apply Hap. lia.
    + split; [done|]. split.
      * intros i j Hi Hj. specialize (Hin (n - 1 - i) j ltac:(lia) Hj). rewrite !Hc in Hin.
        by replace (n - 1 - (n - 1 - i)) with i in Hin by lia.
      * intros a Ha. apply Hout. intros i Hi. rewrite Hc. apply Ha. lia.
  - assert (y < sy) by (unfold VgaDraw.cell in Hge; nia).
    destruct (Hblk 0 ltac:(lia)) as [[Hd1 Hd2] [Hs1 Hs2]]. rewrite Z.add_0_r in Hd1, Hd2, Hs1, Hs2.
    replace (memmove_lines_high _ _ (cell x y) (cell x sy) _ _)
      with (memmove_lines_high (Z.to_nat n) m (u32 (cell x y)) (u32 (cell x sy)) (8 * w * B) pitch)
      by (rewrite !(wrap_small 32); [done|unfold fits; lia..]).
    destruct (move_lines_spec (Z.to_nat n) (8 * w * B) pitch m (cell x y) (cell x sy))
      as (Hok' & Hin & Hout); try done; try lia.
    + apply even_width.
    + intros i Hi. rewrite <- !cell_row. apply Hblk. lia.
    + intros i j Hi Hj. rewrite <- !cell_row. apply Hap. lia.
    + intros i j Hi Hj. rewrite <- !cell_row. apply Hap. lia.
    + split; [done|]. split.
      * intros i j Hi Hj. rewrite !cell_row. apply Hin; lia.
      * intros a Ha. apply Hout. intros i Hi. rewrite <- cell_row. apply Ha. lia.
Qed.

(** [GO_MEMMOVE] copies the lines from [srcy] on. *)
Lemma move_spec o m x y sy w n : mem_ok m -> at_cell cur pitch o x y -> rect_ok x y w n ->
  op o = GO_MEMMOVE -> xlen o = 8 * w -> ylen o = n -> srcy o = sy -> 0 <= sy -> sy <> y ->
  cell x (sy + n - 1) + 8 * w * B <= 2 ^ 32 ->
  handle_gfx_op V data o m = (o, memmove_stride_high m (cell x y) (cell x sy) (8 * w * B) pitch n).
Proof.
  intros Hok [Hm Hs Hl Hx Hy] Hr Hop Hxl Hyl Hsy Hsy0 Hne H32. pose proof (b_range d b Hd) as Hb.
  pose proof (screen_range _ _ _ _ _ Hscreen) as Hsr. pose proof (rect_pos _ _ _ _ Hr) as Hpos.
  destruct (rect_blocks x y sy w n Hr Hsy0 H32 0 ltac:(lia)) as [[H1 H2] [H3 H4]]. rewrite Z.add_0_r in H1, H2, H3, H4.
  assert (0 < 8 * w * B) by nia.
  unfold handle_gfx_op, gfx_direct. rewrite Hm, Hmodel, Hdepth, Hs, Hop, (bypp_b d b Hd), Hl, Hx, Hy, Hxl, Hyl, Hsy.
  change (MM_DIRECT =? MM_PLANAR) with false. change (MM_DIRECT =? MM_CGA) with false.
  change (MM_DIRECT =? MM_PACKED) with false. change (MM_DIRECT =? MM_DIRECT) with true.
  change (GO_MEMMOVE =? GO_WRITE8) with false. change (GO_MEMMOVE =? GO_MEMSET) with false.
  change (GO_MEMMOVE =? GO_MEMMOVE) with true. cbv iota zeta.
  destruct (Z.eqb_spec (VBE_framebuffer V) 0); [lia|]. rewrite Z.add_0_r. fold (cell x y) (cell x sy).
  by rewrite !(wrap_small 32) by (unfold fits; lia).
Qed.

(** * Windows of characters *)

Hypothesis Hpitch : CBlinelength V = pitch.
Variable m : mem.
Hypothesis Ht : text_ok V data size m.
Hypothesis Hcur : get_current_mode m = cur /\ cur <> 0.

Abbreviation ch := (GET_BDA 2 m char_height).

Lemma agrees_outside m' x y w n : rect_ok x y w n -> (forall a, outside x y w n a -> m' a = m a) -> agrees V data size m m'.
Proof.
  intros Hr H a [H1 H2]. apply H. split; [|done]. intros i Hi. destruct (rect_rows _ _ _ _ i Hr Hi). lia.
Qed.

(** A window of [w] by [h] characters. *)
Definition window (wx wy w h : Z) : Prop :=
  0 <= wx < 256 /\ 0 <= wy /\ 0 < w < 256 /\ 0 < h /\ wy + h <= 256 /\ rect_ok (8 * wx) (wy * ch) w (h * ch).

Lemma sub_window wx wy w h k n : window wx wy w h -> 0 <= k -> 0 < n -> k + n <= h -> window wx (wy + k) w n.
Proof.
  intros (Hx & Hy & Hw & Hh & Hs & Hr) Hk Hn Hkn. pose proof (text_height _ _ _ _ Ht) as Hch.
  do 5 (split; [lia|]). destruct (rect_rows _ _ _ _ ((k + n) * ch - 1) Hr ltac:(nia)) as [_ He].
  destruct Hr as [Hp Hwd Hhi _]. split; [nia|done|nia|].
  replace ((wy + k) * ch + n * ch - 1) with (wy * ch + ((k + n) * ch - 1)) by lia. done.
Qed.

Lemma window_cell wx wy w h k xl yl sy : window wx wy w h ->
  at_cell cur pitch (with_op k (with_area xl yl sy (with_pos (wx * 8) (wy * ch) (init_gfx_op V cur)))) (8 * wx) (wy * ch).
Proof.
  intros (Hx & Hy & Hw & Hh & Hs & Hr). pose proof (rect_high _ _ _ _ Hr). pose proof (rect_pos _ _ _ _ Hr).
  split; cbn; try done; rewrite wrap_small by (unfold fits; lia); lia.
Qed.

(** A line of a window is clear of any other lines of it. *)
Lemma window_outside wx wy w h k n i j : window wx wy w h -> 0 <= i < h * ch -> 0 <= j < 8 * w * B ->
  i < k \/ k + n <= i -> 0 <= k ->
  outside (8 * wx) (wy * ch + k) w n (cell (8 * wx) (wy * ch + i) + j).
Proof.
  intros (Hx & Hy & Hw & Hh & Hs & Hr) Hi Hj Hk Hk0. destruct (rect_rows _ _ _ _ i Hr Hi).
  destruct Hscreen as [_ Hdata _]. split; [|lia]. intros i' Hi'.
  pose proof (lines_apart _ _ _ _ (wy * ch + i) (wy * ch + k + i') Hr ltac:(lia)) as Hap. unfold apart in Hap. lia.
Qed.

Lemma clear_chars_spec m1 wx wy w h ca : window wx wy w h -> mem_ok m1 -> agrees V data size m m1 -> 0 <= attr ca < 256 ->
  let m' := gfx_clear_chars V data cur (mkPos wx wy 0) (mkPos w h 0) ca m1 in
  mem_ok m' /\
  (forall i j, 0 <= i < h * ch -> 0 <= j < 8 * w ->
     load b m' (cell (8 * wx) (wy * ch + i) + j * B) = get_color d (Z.shiftr (attr ca) 4)) /\
  (forall a, outside (8 * wx) (wy * ch) w (h * ch) a -> m' a = m1 a).
Proof.
  intros Hwin Hok Hag Ha. pose proof (text_height _ _ _ _ Ht) as Hch. pose proof Hwin as (Hx & Hy & Hw & Hh & Hs & Hr).
  unfold gfx_clear_chars. cbn [cp_x cp_y].
  rewrite (agrees_emulate _ _ _ m m1 Hag Ht), (text_emulated _ _ _ _ Ht).
  rewrite (agrees_bda _ _ _ m m1 2) by (done || unfold char_height; lia).
  destruct (clear_spec (with_op GO_MEMSET (with_pixels (Z.shiftr (attr ca) 4 :: repeat 0 7)
    (with_area (w * 8) (h * ch) 0 (with_pos (wx * 8) (wy * ch) (init_gfx_op V cur))))) m1
    (8 * wx) (wy * ch) w (h * ch) (Z.shiftr (attr ca) 4)) as (m' & -> & H1 & H2 & H3); try done.
  - pose proof (rect_high _ _ _ _ Hr). split; cbn; try done; rewrite wrap_small by (unfold fits; lia); lia.
  - cbn. rewrite wrap_small by (unfold fits; lia). lia.
  - cbn. apply wrap_small. pose proof (rect_high _ _ _ _ Hr). unfold fits. lia.
  - rewrite Z.shiftr_div_pow2 by lia. change (2 ^ 4) with 16. Z.div_mod_to_equations. lia.
Qed.

(** Scrolling by [lines], up when positive.  [blank] is the first row of the
    window that is cleared; line [i] of the others becomes the line [i] lines
    after [from], taken on 16 bits.  Nothing outside the window changes. *)
Definition blank (h lines : Z) : Z := if 0 <? lines then h - lines else 0.
Definition from (wy lines : Z) : Z := u16 (wy * ch + lines * ch).

Lemma scroll_clears ss m1 wx wy w h lines ca : window wx wy w h -> 0 < Z.abs lines < h -> 0 <= attr ca < 256 ->
  mem_ok m1 -> agrees V data size m m1 ->
  let k := blank h lines in let n := Z.abs lines in
  exists m',
    (m' ← (if 0 <? lines
       then vgafb_clear_chars V data ss (mkPos wx (u8 (wy + h - lines)) 0) (mkPos w (u8 lines) 0) ca m1
       else vgafb_clear_chars V data ss (mkPos wx wy 0) (mkPos w (u8 (- lines)) 0) ca m1);
     mret m') = Done m' /\ mem_ok m' /\
  (forall i j, k * ch <= i < (k + n) * ch -> 0 <= j < 8 * w ->
     load b m' (cell (8 * wx) (wy * ch + i) + j * B) = get_color d (Z.shiftr (attr ca) 4)) /\
  (forall a, outside (8 * wx) (wy * ch + k * ch) w (n * ch) a -> m' a = m1 a).
Proof.
  intros Hwin Hn Ha Hok Hag k n. pose proof Hwin as (Hx & Hy & Hw & Hh & Hs & Hr). destruct Hcur as [Hc Hc0].
  assert ((if 0 <? lines
       then vgafb_clear_chars V data ss (mkPos wx (u8 (wy + h - lines)) 0) (mkPos w (u8 lines) 0) ca m1
       else vgafb_clear_chars V data ss (mkPos wx wy 0) (mkPos w (u8 (- lines)) 0) ca m1) =
    vgafb_clear_chars V data ss (mkPos wx (wy + k) 0) (mkPos w n 0) ca m1) as ->.
  { unfold k, n, blank. destruct (Z.ltb_spec 0 lines).
    - rewrite (wrap_small 8 lines), wrap_small, Z.abs_eq by (unfold fits; lia). by rewrite Z.add_sub_assoc.
    - rewrite wrap_small, Z.abs_neq, Z.add_0_r by (unfold fits; lia). done. }
  unfold vgafb_clear_chars, get_current_mode. rewrite (agrees_bda _ _ _ m m1 2) by (done || unfold ext_vgamode_offset; lia).
  fold (get_current_mode m). rewrite Hc, Hmodel. destruct (Z.eqb_spec cur 0); [done|].
  assert (0 <= k /\ 0 < n /\ k + n <= h) as Hk by (unfold k, n, blank; ztest; lia).
  pose proof (sub_window wx wy w h k n Hwin ltac:(lia) ltac:(lia) ltac:(lia)) as Hsub.
  destruct (clear_chars_spec m1 wx (wy + k) w n ca Hsub Hok Hag Ha) as (Hok2 & Hin2 & Hout2).
  replace ((wy + k) * ch) with (wy * ch + k * ch) in Hin2, Hout2 by lia.
  eexists. split; [reflexivity|]. split; [done|]. split; [|done].
  intros i j Hi Hj. replace (wy * ch + i) with (wy * ch + k * ch + (i - k * ch)) by lia. apply Hin2; lia.
Qed.

Lemma scroll_spec ss p q wx wy w h lines ca :
  window wx wy w h -> 0 < Z.abs lines < h -> 0 <= attr ca < 256 ->
  cell (8 * wx) (from wy lines + h * ch - 1) + 8 * w * B <= 2 ^ 32 ->
  exists m', vgafb_scroll V data ss (mkPos wx wy p) (mkPos w h q) lines ca m = Done m' /\ mem_ok m' /\
  (forall i j, 0 <= i < h * ch -> ~ (blank h lines * ch <= i < (blank h lines + Z.abs lines) * ch) ->
     0 <= j < 8 * w * B ->
     m' (cell (8 * wx) (wy * ch + i) + j) = m (cell (8 * wx) (from wy lines + i) + j)) /\
  (forall i j, blank h lines * ch <= i < (blank h lines + Z.abs lines) * ch -> 0 <= j < 8 * w ->
     load b m' (cell (8 * wx) (wy * ch + i) + j * B) = get_color d (Z.shiftr (attr ca) 4)) /\
  (forall a, outside (8 * wx) (wy * ch) w (h * ch) a -> m' a = m a).
Proof.
  intros Hwin Hn Ha H32. pose proof (text_height _ _ _ _ Ht) as Hch. pose proof Hwin as (Hx & Hy & Hw & Hh & Hs & Hr).
  destruct Hcur as [Hc Hc0]. unfold vgafb_scroll. rewrite Hc, (proj2 (Z.eqb_neq _ _) Hc0).
  rewrite (proj2 (Z.eqb_neq lines 0)) by lia. rewrite Hmodel. change (MM_DIRECT =? MM_TEXT) with false.
  unfold vgafb_move_chars. rewrite Hc, (proj2 (Z.eqb_neq _ _) Hc0), Hmodel.
  change (negb (MM_DIRECT =? MM_TEXT)) with true. cbv iota zeta. unfold gfx_move_chars. cbn [cp_x cp_y].
  set (n := Z.abs lines) in *. set (k := blank h lines).
  assert (0 <= k /\ k + n <= h) as Hk by (unfold k, n, blank; ztest; lia).
  pose proof (rect_high _ _ _ _ Hr) as Hhigh.
  assert (wy * ch <= 256 * 16 /\ h * ch <= 256 * 16 /\ 0 <= wy * ch /\ 0 < n * ch < 2 ^ 16) as Hsz by nia.
  assert (fits 16 (from wy lines)) as Hf by (apply wrap_fits; lia).
  assert (from wy lines <> wy * ch) as Hne.
  { unfold from, wrap. change (2 ^ 16) with 65536 in *. assert (lines * ch = n * ch \/ lines * ch = - (n * ch)) by nia.
    Z.div_mod_to_equations; lia. }
  rewrite (move_spec _ m (8 * wx) (wy * ch) (from wy lines) w (h * ch));
    [|apply Ht|by apply (window_cell wx wy w h)|done|done|cbn; rewrite wrap_small by (unfold fits; lia); lia
     |cbn; apply wrap_small; unfold fits; lia
     |cbn; by rewrite (wrap_small 16 (wy * ch)) by (unfold fits; lia)|apply Hf|done|done].
  destruct (move_rows m (8 * wx) (wy * ch) (from wy lines) w (h * ch) (text_mem _ _ _ _ Ht) Hr
    (proj1 Hf) Hne H32) as (Hok1 & Hin1 & Hout1). cbn [snd].
  set (m1 := memmove_stride_high _ _ _ _ _ _) in *.
  assert (agrees V data size m m1) as Hag.
  { apply (agrees_outside _ _ _ _ _ Hr). intros a [Hout _]. by apply Hout1. }
  destruct (scroll_clears ss m1 wx wy w h lines ca Hwin Hn Ha Hok1 Hag) as (m2 & -> & Hok2 & Hin2 & Hout2).
  exists m2. split; [done|]. split; [done|]. split; [|split; [done|]].
  - intros i j Hi Hik Hj. rewrite Hout2; [apply Hin1; lia|]. apply (window_outside wx wy w h); try done; fold k n; nia.
  - intros a [Ho Hda]. rewrite Hout2; [apply Hout1; done|]. split; [|done]. intros i Hi.
    rewrite <- Z.add_assoc. apply Ho. fold k n in Hi |- *. nia.
Qed.

End scroll.
