(* ===== verification/VgaMode.v ===== *)
(** Modes, cursor and text output of the video BIOS ([vgabios.c], the mode
    switch of [cbvga.c], [swcursor.c]).

    A function that draws takes the flat address [data] of the local pixel
    array and the stack segment [ss], as in [VgaFb].  The build has no
    standard VGA ports, so the calls of [stdvga.c] are compiled out. *)

From stdpp Require Import base numbers list.
From Stdlib Require Import ZArith Lia.
From S2P Require Import Prelude Memory SeaString CcInt VgaState VgaPal VgaCb VgaFb.

(** * Helpers *)

(** [ALIGN] of an [int]. *)
Definition align_int (x a : Z) : Z := Z.land (x + (a - 1)) (Z.lnot (a - 1)).

Section layout.
Context {L : Layout}.
Variable V : vga.

Definition vga_bpp (vmode_g : Z) : Z :=
  let i := mode_at V vmode_g in
  if memmodel i =? MM_TEXT then 16
  else if memmodel i =? MM_PLANAR then 1
  else if 8 <? depth i then align_int (depth i) 8
  else depth i.

Definition calc_page_size (mm w h : Z) : outcome Z :=
  if mm =? MM_CGA then mret (16 * 1024)
  else
    n ← signed 32 (w * h);
    if mm =? MM_TEXT then
      n2 ← signed 32 (n * 2); n3 ← signed 32 (n2 + (2 * 1024 - 1));
      mret (u16 (Z.land n3 (Z.lnot (2 * 1024 - 1))))
    else mret (u16 (align_int (n / 8) (8 * 1024))).

Definition get_cursor_shape (m : mem) : Z :=
  let shape := GET_BDA 2 m cursor_type in
  if negb (Z.land (GET_BDA 1 m video_ctl) 1 =? 0) then shape
  else
    let start := Z.land (Z.shiftr shape 8) 0x3f in
    let stop := Z.land shape 0x1f in
    let ch := GET_BDA 2 m char_height in
    if (ch <=? 8) || (8 <=? stop) || (0x20 <=? start) then shape
    else
      let start' := if negb (stop =? start + 1) then u8 ((start + 1) * ch / 8 - 1) else u8 ((stop + 1) * ch / 8 - 2) in
      let stop' := u8 ((stop + 1) * ch / 8 - 1) in
      u16 (Z.lor (Z.shiftl start' 8) stop').

Definition set_cursor_shape (shape : Z) (m : mem) : mem := SET_BDA 2 m cursor_type shape.

Definition set_cursor_pos (cp : cursorpos) (m : mem) : mem :=
  if 7 <? cp_page cp then m
  else SET_BDA 2 m (cursor_pos (cp_page cp)) (Z.lor (Z.shiftl (cp_y cp) 8) (cp_x cp)).

Definition get_cursor_pos (page : Z) (m : mem) : cursorpos :=
  if 7 <? page then mkPos 0 0 0
  else let xy := GET_BDA 2 m (cursor_pos page) in mkPos (u8 xy) (u8 (Z.shiftr xy 8)) page.

Definition set_active_page (page : Z) (m : mem) : mem :=
  if 7 <? page then m
  else if get_current_mode m =? 0 then m
  else
    let address := text_address (mkPos 0 0 page) m in
    let m := SET_BDA 2 m video_pagestart address in
    let m := SET_BDA 1 m video_page page in
    set_cursor_pos (get_cursor_pos page m) m.

(** * Writing characters *)

Variables (data ss : Z).

Definition write_char (cp : cursorpos) (ca : carattr) (m : mem) : outcome (cursorpos * mem) :=
  m ← vgafb_write_char V data ss cp ca m;
  let x := u8 (cp_x cp + 1) in
  if x =? GET_BDA 2 m video_cols then mret (mkPos 0 (u8 (cp_y cp + 1)) (cp_page cp), m)
  else mret (mkPos x (cp_y cp) (cp_page cp), m).

Definition write_teletype (cp : cursorpos) (ca : carattr) (m : mem) : outcome (cursorpos * mem) :=
  '(cp, m) ← (if car ca =? 7 then mret (cp, m)
              else if car ca =? 8 then
                mret (if 0 <? cp_x cp then mkPos (cp_x cp - 1) (cp_y cp) (cp_page cp) else cp, m)
              else if car ca =? 13 then mret (mkPos 0 (cp_y cp) (cp_page cp), m)
              else if car ca =? 10 then mret (mkPos (cp_x cp) (u8 (cp_y cp + 1)) (cp_page cp), m)
              else write_char cp ca m);
  let nbrows := GET_BDA 1 m video_rows in
  if nbrows <? cp_y cp then
    let cp := mkPos (cp_x cp) (u8 (cp_y cp - 1)) (cp_page cp) in
    m ← vgafb_scroll V data ss (mkPos 0 0 (cp_page cp)) (mkPos (u8 (GET_BDA 2 m video_cols)) (u8 (nbrows + 1)) 0) 1
          (mkChar 32 0 0) m;
    mret (cp, m)
  else mret (cp, m).

(** [while (count--) write_char(&cp, ca)]. *)
Fixpoint write_chars (count : nat) (cp : cursorpos) (ca : carattr) (m : mem) : outcome (cursorpos * mem) :=
  match count with
  | O => mret (cp, m)
  | S k => '(cp, m) ← write_char cp ca m; write_chars k cp ca m
  end.

(** * Saving and restoring the BIOS data area *)

(** Offsets in [struct saveBDAstate]. *)
Definition save_0x49 : Z := 0.
Definition save_0x84 : Z := 28.
Definition save_vbe_mode : Z := 34.
Definition save_font0 : Z := 36.
Definition save_font1 : Z := 40.
Definition sizeof_saveBDAstate : Z := 44.

Definition bda_save (seg info : Z) (m : mem) : mem :=
  let m := memcpy_far m seg (info + save_0x49) SEG_BDA 0x49 28 in
  let m := memcpy_far m seg (info + save_0x84) SEG_BDA 0x84 6 in
  let m := SET_FARVAR 2 m seg (info + save_vbe_mode) (GET_BDA 2 m ext_vbe_mode) in
  let m := SET_FARVAR 4 m seg (info + save_font0) (GET_IVT m 0x1f) in
  SET_FARVAR 4 m seg (info + save_font1) (GET_IVT m 0x43).

Definition bda_restore (seg info : Z) (m : mem) : mem :=
  let m := memcpy_far m SEG_BDA 0x49 seg (info + save_0x49) 28 in
  let m := memcpy_far m SEG_BDA 0x84 seg (info + save_0x84) 6 in
  let vbe_mode := GET_FARVAR 2 m seg (info + save_vbe_mode) in
  let m := SET_BDA 2 m ext_vbe_mode vbe_mode in
  let vmode_g := cbvga_find_mode V (Z.land vbe_mode (Z.lnot MF_VBEFLAGS)) in
  let m := SET_BDA 2 m ext_vgamode_offset vmode_g in
  let m := SET_IVT m 0x1f (GET_FARVAR 4 m seg (info + save_font0)) in
  SET_IVT m 0x43 (GET_FARVAR 4 m seg (info + save_font1)).

Definition bda_save_restore (cmd seg info : Z) (m : mem) : Z * mem :=
  if Z.land cmd SR_BDA =? 0 then (0, m)
  else
    let m := if Z.land cmd SR_SAVE =? 0 then m else bda_save seg info m in
    let m := if Z.land cmd SR_RESTORE =? 0 then m else bda_restore seg info m in
    (sizeof_saveBDAstate, m).

Definition cbvga_save_restore (cmd seg info : Z) (m : mem) : Z * mem :=
  if negb (Z.land cmd (Z.lor SR_HARDWARE (Z.lor SR_DAC SR_REGISTERS)) =? 0) then (-1, m)
  else bda_save_restore cmd seg info m.

(** * Setting a mode *)

Definition flagged (flags f : Z) : bool := negb (Z.land flags f =? 0).

Definition cbvga_set_mode (vmode_g flags : Z) (m : mem) : mem :=
  let emul := (vmode_g =? off_CBemulinfo) || (CBmode V =? 0x03) in
  let extra_stack := Z.land (GET_BDA 1 m ext_flags) BF_EXTRA_STACK in
  let m := MASK_BDA_flags m BF_EMULATE_TEXT (if emul then BF_EMULATE_TEXT else 0) in
  if negb (flagged flags MF_NOCLEARMEM) && (memmodel (CBmodeinfo V) =? MM_TEXT) then
    cbvga_emul_set_mode ss off_CBmodeinfo flags (memset16_far m SEG_CTEXT 0 0x0720 (80 * 25 * 2))
  else
    let m :=
      if negb (flagged flags MF_NOCLEARMEM) && (negb (extra_stack =? 0) || flagged flags MF_LEGACY) then
        let w := width (CBmodeinfo V) in
        let bpp := depth (CBmodeinfo V) in
        let min_stride := if bpp =? 32 then w * 4 else if bpp =? 24 then w * 3 else if bpp =? 16 then w * 2 else 0 in
        if (min_stride <=? CBlinelength V) && negb (VBE_framebuffer V =? 0) then
          snd (handle_gfx_op V data (with_op GO_MEMSET (with_area w (height (CBmodeinfo V)) 0
                 (with_pos 0 0 (init_gfx_op V off_CBmodeinfo)))) m)
        else m
      else m in
    let i := mode_at V vmode_g in
    let m := cbvga_emul_setup_modes ss (VBE_framebuffer V) (depth i) (width i) (height i) (CBlinelength V) m in
    cbvga_emul_set_mode ss off_CBmodeinfo flags m.

Definition VBE_RETURN_STATUS_FAILED : Z := 0x01.

(** The cursor positions of the eight pages. *)
Definition clear_cursors (m : mem) : mem := upto 8 0 (fun i m => SET_BDA 2 m (cursor_pos i) 0) m.

(** The part of [vga_set_mode] after the columns and rows. *)
Definition set_mode_tail (flags ch : Z) (m : mem) : mem :=
  let m := SET_BDA 2 m crtc_address 0 in
  let m := SET_BDA 2 m char_height ch in
  let m := SET_BDA 1 m video_ctl (Z.lor 0x60 (if flagged flags MF_NOCLEARMEM then 0x80 else 0)) in
  let m := SET_BDA 1 m video_switches 0xF9 in
  let m := SET_BDA 1 m modeset_ctl (Z.land (GET_BDA 1 m modeset_ctl) 0x7f) in
  let m := clear_cursors m in
  let m := SET_BDA 2 m video_pagestart 0 in
  let m := SET_BDA 1 m video_page 0 in
  let m := SET_IVT m 0x1f (SEGOFF global_seg (vgafont8 + 128 * 8)) in
  if ch =? 8 then SET_IVT m 0x43 (SEGOFF global_seg vgafont8)
  else if ch =? 14 then SET_IVT m 0x43 (SEGOFF global_seg vgafont14)
  else if ch =? 16 then SET_IVT m 0x43 (SEGOFF global_seg vgafont16)
  else m.

Definition vga_set_mode (n flags : Z) (m : mem) : outcome (Z * mem) :=
  let vmode_g := cbvga_find_mode V n in
  if vmode_g =? 0 then mret (VBE_RETURN_STATUS_FAILED, m)
  else
    let m := cbvga_set_mode vmode_g flags m in
    let i := mode_at V vmode_g in
    let m := SET_BDA 1 m video_mode (if n <? 0x100 then n else 0xff) in
    let m := SET_BDA 2 m ext_vbe_mode (Z.lor n (Z.land flags MF_VBEFLAGS)) in
    let m := SET_BDA 2 m ext_vgamode_offset vmode_g in
    let m := MASK_BDA_flags m BF_EXTRA_STACK (if flagged flags MF_LEGACY then BF_EXTRA_STACK else 0) in
    m ← (if memmodel i =? MM_TEXT then
           let m := SET_BDA 2 m video_cols (width i) in
           let m := SET_BDA 1 m video_rows (height i - 1) in
           mret (SET_BDA 2 m cursor_type 0x0607)
         else
           cols ← sdiv 32 (width i) (cwidth i);
           rows ← sdiv 32 (height i) (cheight i);
           let m := SET_BDA 2 m video_cols cols in
           let m := SET_BDA 1 m video_rows (rows - 1) in
           mret (SET_BDA 2 m cursor_type (if vga_emulate_text m then 0x0607 else 0)));
    ps ← calc_page_size (memmodel i) (width i) (height i);
    let m := SET_BDA 2 m video_pagesize ps in
    mret (0, set_mode_tail flags (cheight i) m).

(** * The software cursor ([swcursor.c]) *)

(** The lines of the cursor xor'ed, from line [i] on. *)
Fixpoint cursor_lines (k : nat) (o : gfx_op) (m : mem) : mem :=
  match k with
  | O => m
  | S k' =>
    let '(o, m) := handle_gfx_op V data (with_op GO_READ8 o) m in
    let '(o, m) := handle_gfx_op V data (with_op GO_WRITE8 (with_pixels ((fun p => Z.lxor p 0x07) <$> pixels o) o)) m in
    cursor_lines k' (with_y (op_y o + 1) o) m
  end.

Definition gfx_set_swcursor (curmode : Z) (cp : cursorpos) (m : mem) : mem :=
  let shape := get_cursor_shape m in
  let start := Z.shiftr shape 8 in
  let stop := Z.land shape 0xff in
  let ch := GET_BDA 2 m char_height in
  let o := with_pos (cp_x cp * 8) (cp_y cp * ch + start) (init_gfx_op V curmode) in
  cursor_lines (Z.to_nat (Z.min ch (stop + 1) - start)) o m.

Definition set_swcursor (enable : bool) (m : mem) : outcome mem :=
  let flags := GET_BDA 1 m ext_flags in
  if eqb (flagged flags BF_SWCURSOR) enable then mret m
  else
    let curmode := get_current_mode m in
    if curmode =? 0 then mret m
    else
      let cp := get_cursor_pos (GET_BDA 1 m video_page) m in
      if (GET_BDA 2 m video_cols <=? cp_x cp) || (GET_BDA 1 m video_rows <? cp_y cp)
         || (0x2000 <=? GET_BDA 2 m cursor_type) then mret m
      else
        let m := SET_BDA 1 m ext_flags
                   (Z.lor (Z.land flags (Z.lnot BF_SWCURSOR)) (if enable then BF_SWCURSOR else 0)) in
        let i := mode_at V curmode in
        if negb (memmodel i =? MM_TEXT) then mret (gfx_set_swcursor curmode cp m)
        else
          let dest := text_address cp m + 1 in
          let a := GET_FARVAR 1 m (sstart i) dest in
          let m := SET_FARVAR 1 m (sstart i) dest (Z.lor (Z.shiftr a 4) (Z.shiftl a 4)) in
          let shape := GET_BDA 2 m cursor_type in
          if enable then cbvga_draw_cursor V ss (cp_x cp) (cp_y cp) (Z.shiftr shape 8) (Z.land shape 0xff) m
          else cbvga_hide_cursor V data ss (cp_x cp) (cp_y cp) m.

(** Before a call that draws, by the function numbers in [ah] and [al]. *)
Definition swcursor_pre_handle10 (ah al : Z) (m : mem) : outcome mem :=
  if negb (vga_emulate_text m) then mret m
  else if ((ah =? 0x4f) && (al =? 0x02)) || (ah <=? 2) || ((5 <=? ah) && (ah <=? 0x0e)) || (ah =? 0x13)
  then set_swcursor false m
  else mret m.

Definition swcursor_check_event (m : mem) : outcome mem :=
  if negb (vga_emulate_text m) then mret m
  else set_swcursor (GET_BDA 4 m timer_counter mod 18 <? 9) m.

End layout.
