(* ===== verification/VgaVbe.v ===== *)
(** The VESA BIOS extensions of the video BIOS ([vbe.c]).

    A call has the caller's registers, the variables of the image and memory.
    The structures returned to the caller are written field by field: [field]
    is the offset and the width of a field, [set_fields] the writes in the
    order of the source. *)

From stdpp Require Import base numbers list.
From Stdlib Require Import ZArith Lia.
From S2P Require Import Prelude Memory CcInt VgaState VgaPal VgaCb VgaFb VgaMode.

(** * Registers *)

(** The registers of [struct bregs] the handlers use, 16 bits each. *)
Record bregs := mkRegs {
  ax : Z;
  bx : Z;
  cx : Z;
  dx : Z;
  di : Z;
  bp : Z;
  es : Z
}.

Definition lo8 (v : Z) : Z := u8 v.
Definition hi8 (v : Z) : Z := u8 (Z.shiftr v 8).
Definition put_lo8 (v b : Z) : Z := Z.lor (Z.shiftl (hi8 v) 8) (u8 b).
Definition put_hi8 (v b : Z) : Z := Z.lor (Z.shiftl (u8 b) 8) (lo8 v).

Definition with_ax (v : Z) (r : bregs) : bregs := mkRegs (u16 v) (bx r) (cx r) (dx r) (di r) (bp r) (es r).
Definition with_bx (v : Z) (r : bregs) : bregs := mkRegs (ax r) (u16 v) (cx r) (dx r) (di r) (bp r) (es r).
Definition with_cx (v : Z) (r : bregs) : bregs := mkRegs (ax r) (bx r) (u16 v) (dx r) (di r) (bp r) (es r).
Definition with_dx (v : Z) (r : bregs) : bregs := mkRegs (ax r) (bx r) (cx r) (u16 v) (di r) (bp r) (es r).
Definition with_es_bp (s o : Z) (r : bregs) : bregs := mkRegs (ax r) (bx r) (cx r) (dx r) (di r) (u16 o) (u16 s).
Definition with_al (v : Z) (r : bregs) : bregs := with_ax (put_lo8 (ax r) v) r.
Definition with_ah (v : Z) (r : bregs) : bregs := with_ax (put_hi8 (ax r) v) r.
Definition with_bl (v : Z) (r : bregs) : bregs := with_bx (put_lo8 (bx r) v) r.
Definition with_bh (v : Z) (r : bregs) : bregs := with_bx (put_hi8 (bx r) v) r.
Definition with_dl (v : Z) (r : bregs) : bregs := with_dx (put_lo8 (dx r) v) r.
Definition with_dh (v : Z) (r : bregs) : bregs := with_dx (put_hi8 (dx r) v) r.

(** * Structures of the caller *)

Definition field : Type := Z * nat.

Definition set_fields (seg base : Z) (l : list (field * Z)) (m : mem) : mem :=
  foldl (fun m '((off, n), v) => SET_FARVAR n m seg (base + off) v) m l.
Definition get_field (seg base : Z) (f : field) (m : mem) : Z := GET_FARVAR (snd f) m seg (base + fst f).

(** [struct vbe_info]. *)
Definition vi_signature : field := (0, 4%nat).
Definition vi_version : field := (4, 2%nat).
Definition vi_oem_string : field := (6, 4%nat).
Definition vi_capabilities : field := (10, 4%nat).
Definition vi_video_mode : field := (14, 4%nat).
Definition vi_total_memory : field := (18, 2%nat).
Definition vi_oem_vendor_string : field := (22, 4%nat).
Definition vi_oem_product_string : field := (26, 4%nat).
Definition vi_oem_revision_string : field := (30, 4%nat).
Definition vi_reserved : Z := 34.
Definition vi_oem_data : Z := 256.
Definition sizeof_vbe_info : Z := 512.

Definition VESA_SIGNATURE : Z := 0x41534556.
Definition VBE2_SIGNATURE : Z := 0x32454256.

(** [struct vbe_mode_info]. *)
Definition mi_mode_attributes : field := (0, 2%nat).
Definition mi_winA_attributes : field := (2, 1%nat).
Definition mi_winB_attributes : field := (3, 1%nat).
Definition mi_win_granularity : field := (4, 2%nat).
Definition mi_win_size : field := (6, 2%nat).
Definition mi_winA_seg : field := (8, 2%nat).
Definition mi_winB_seg : field := (10, 2%nat).
Definition mi_win_func_ptr : field := (12, 4%nat).
Definition mi_bytes_per_scanline : field := (16, 2%nat).
Definition mi_xres : field := (18, 2%nat).
Definition mi_yres : field := (20, 2%nat).
Definition mi_xcharsize : field := (22, 1%nat).
Definition mi_ycharsize : field := (23, 1%nat).
Definition mi_planes : field := (24, 1%nat).
Definition mi_bits_per_pixel : field := (25, 1%nat).
Definition mi_banks : field := (26, 1%nat).
Definition mi_mem_model : field := (27, 1%nat).
Definition mi_bank_size : field := (28, 1%nat).
Definition mi_pages : field := (29, 1%nat).
Definition mi_reserved0 : field := (30, 1%nat).
Definition mi_red_size : field := (31, 1%nat).
Definition mi_red_pos : field := (32, 1%nat).
Definition mi_green_size : field := (33, 1%nat).
Definition mi_green_pos : field := (34, 1%nat).
Definition mi_blue_size : field := (35, 1%nat).
Definition mi_blue_pos : field := (36, 1%nat).
Definition mi_alpha_size : field := (37, 1%nat).
Definition mi_alpha_pos : field := (38, 1%nat).
Definition mi_directcolor_info : field := (39, 1%nat).
Definition mi_phys_base : field := (40, 4%nat).
Definition mi_reserved1 : field := (44, 4%nat).
Definition mi_reserved2 : field := (48, 2%nat).
Definition mi_linear_bytes_per_scanline : field := (50, 2%nat).
Definition mi_linear_pages : field := (53, 1%nat).
Definition mi_linear_red_size : field := (54, 1%nat).
Definition mi_linear_red_pos : field := (55, 1%nat).
Definition mi_linear_green_size : field := (56, 1%nat).
Definition mi_linear_green_pos : field := (57, 1%nat).
Definition mi_linear_blue_size : field := (58, 1%nat).
Definition mi_linear_blue_pos : field := (59, 1%nat).
Definition mi_linear_alpha_size : field := (60, 1%nat).
Definition mi_linear_alpha_pos : field := (61, 1%nat).
Definition sizeof_vbe_mode_info : Z := 256.

Definition VBE_MODE_ATTRIBUTE_SUPPORTED : Z := 0x0001.
Definition VBE_MODE_ATTRIBUTE_EXTENDED_INFORMATION_AVAILABLE : Z := 0x0002.
Definition VBE_MODE_ATTRIBUTE_TTY_BIOS_SUPPORT : Z := 0x0004.
Definition VBE_MODE_ATTRIBUTE_COLOR_MODE : Z := 0x0008.
Definition VBE_MODE_ATTRIBUTE_GRAPHICS_MODE : Z := 0x0010.
Definition VBE_MODE_ATTRIBUTE_NOT_VGA_COMPATIBLE : Z := 0x0020.
Definition VBE_MODE_ATTRIBUTE_LINEAR_FRAME_BUFFER_MODE : Z := 0x0080.
Definition VBE_WINDOW_ATTRIBUTE_RELOCATABLE : Z := 0x01.
Definition VBE_WINDOW_ATTRIBUTE_READABLE : Z := 0x02.
Definition VBE_WINDOW_ATTRIBUTE_WRITEABLE : Z := 0x04.
Definition VBE_DIRECTCOLOR_RESERVED_BITS_AVAILABLE : Z := 0x02.
Definition VBE_RETURN_STATUS_INVALID : Z := 0x03.

(** The bytes of a block of a segment, and a list of bytes copied to one. *)
Definition far_bytes (seg off : Z) (n : nat) (m : mem) : list Z :=
  (fun i => m (far seg (u16 (off + i)))) <$> seqZ 0 (Z.of_nat n).
Fixpoint put_far_bytes (seg off : Z) (l : list Z) (m : mem) : mem :=
  match l with
  | [] => m
  | c :: l' => put_far_bytes seg (off + 1) l' (store8 m (far seg (u16 off)) c)
  end.

Section layout.
Context {L : Layout}.
Variables (data ss : Z).

(** * Function 00h: the controller *)

Definition vbe_104f00 (r : bregs) (V : vga) (m : mem) : bregs * mem :=
  let seg := es r in
  let info := di r in
  let info_size := if get_field seg info vi_signature m =? VBE2_SIGNATURE then sizeof_vbe_info else vi_oem_data in
  let m := memset_far m seg info 0 info_size in
  let destmode := info + vi_reserved in
  let m := set_fields seg info [
    (vi_signature, VESA_SIGNATURE);
    (vi_version, 0x0300);
    (vi_oem_string, SEGOFF global_seg VBE_OEM_STRING);
    (vi_capabilities, VBE_capabilities V);
    (vi_video_mode, SEGOFF seg destmode);
    (vi_total_memory, VBE_total_memory V / (64 * 1024));
    (vi_oem_vendor_string, SEGOFF global_seg VBE_VENDOR_STRING);
    (vi_oem_product_string, SEGOFF global_seg VBE_PRODUCT_STRING);
    (vi_oem_revision_string, SEGOFF global_seg VBE_REVISION_STRING)] m in
  (with_ax 0x004f r, cbvga_list_modes V seg destmode (info + vi_oem_data - 2) m).

(** * Function 01h: a mode *)

(** The attributes, framebuffer, planes, banks and pages of a memory model. *)
Record model_info := mkModel {
  mo_attr : Z;
  mo_framebuffer : Z;
  mo_planes : Z;
  mo_banks : Z;
  mo_pages : Z
}.

Definition model_of (mm start pages framebuffer : Z) : model_info :=
  let mode_attr := Z.lor VBE_MODE_ATTRIBUTE_SUPPORTED
    (Z.lor VBE_MODE_ATTRIBUTE_EXTENDED_INFORMATION_AVAILABLE
    (Z.lor VBE_MODE_ATTRIBUTE_COLOR_MODE
    (Z.lor VBE_MODE_ATTRIBUTE_GRAPHICS_MODE VBE_MODE_ATTRIBUTE_NOT_VGA_COMPATIBLE))) in
  if mm =? MM_TEXT then
    let a := Z.lor (Z.land mode_attr (Z.lnot VBE_MODE_ATTRIBUTE_GRAPHICS_MODE)) VBE_MODE_ATTRIBUTE_TTY_BIOS_SUPPORT in
    mkModel (if start =? SEG_MTEXT then Z.land a (Z.lnot VBE_MODE_ATTRIBUTE_COLOR_MODE) else a) 0 1 1 1
  else if mm =? MM_CGA then mkModel mode_attr 0 1 2 1
  else if mm =? MM_PLANAR then mkModel mode_attr 0 4 1 (pages / 4)
  else
    mkModel (if framebuffer =? 0 then mode_attr else Z.lor mode_attr VBE_MODE_ATTRIBUTE_LINEAR_FRAME_BUFFER_MODE)
      framebuffer 1 1 pages.

Definition limit_pages (pages : Z) : Z :=
  let p := if 128 <? pages then 128 else pages in if p <? 2 then p + 1 else p.

(** Sizes and positions of red, green, blue and alpha. *)
Definition breakdown (d : Z) : (Z * Z) * (Z * Z) * (Z * Z) * (Z * Z) :=
  if d =? 15 then ((5, 10), (5, 5), (5, 0), (1, 15))
  else if d =? 16 then ((5, 11), (6, 5), (5, 0), (0, 0))
  else if d =? 24 then ((8, 16), (8, 8), (8, 0), (0, 0))
  else if d =? 32 then ((8, 16), (8, 8), (8, 0), (8, 24))
  else ((0, 0), (0, 0), (0, 0), (0, 0)).

Definition controller_fields (V : vga) (i : vgamode_s) (linesize : Z) : list (field * Z) :=
  let g := VBE_win_granularity V in [
  (mi_winA_attributes, Z.lor (if g =? 0 then 0 else VBE_WINDOW_ATTRIBUTE_RELOCATABLE)
                         (Z.lor VBE_WINDOW_ATTRIBUTE_READABLE VBE_WINDOW_ATTRIBUTE_WRITEABLE));
  (mi_winB_attributes, 0);
  (mi_win_granularity, g);
  (mi_win_size, 64);
  (mi_winA_seg, sstart i);
  (mi_winB_seg, 0);
  (mi_win_func_ptr, SEGOFF global_seg entry_104f05);
  (mi_bytes_per_scanline, linesize);
  (mi_xres, width i);
  (mi_yres, height i);
  (mi_xcharsize, cwidth i);
  (mi_ycharsize, cheight i);
  (mi_bits_per_pixel, depth i);
  (mi_mem_model, memmodel i);
  (mi_reserved0, 1)].

Definition model_fields (mm : Z) (o : model_info) : list (field * Z) :=
  (if mm =? MM_CGA then [(mi_bank_size, 8)] else []) ++ [
  (mi_mode_attributes, mo_attr o);
  (mi_planes, mo_planes o);
  (mi_pages, limit_pages (mo_pages o) - 1);
  (mi_banks, mo_banks o)].

Definition color_fields (d : Z) : list (field * Z) :=
  let '((rs, rp), (gs, gp), (bs, bp), (as_, ap)) := breakdown d in
  (if d =? 32 then [(mi_directcolor_info, VBE_DIRECTCOLOR_RESERVED_BITS_AVAILABLE)] else []) ++ [
  (mi_red_size, rs); (mi_red_pos, rp); (mi_green_size, gs); (mi_green_pos, gp);
  (mi_blue_size, bs); (mi_blue_pos, bp); (mi_alpha_size, as_); (mi_alpha_pos, ap)].

Definition linear_fields (d framebuffer linesize : Z) : list (field * Z) :=
  let '((rs, rp), (gs, gp), (bs, bp), (as_, ap)) := breakdown d in
  if framebuffer =? 0 then []
  else [
  (mi_phys_base, framebuffer);
  (mi_reserved1, 0);
  (mi_reserved2, 0);
  (mi_linear_bytes_per_scanline, linesize);
  (mi_linear_pages, 0);
  (mi_linear_red_size, rs); (mi_linear_red_pos, rp); (mi_linear_green_size, gs); (mi_linear_green_pos, gp);
  (mi_linear_blue_size, bs); (mi_linear_blue_pos, bp); (mi_linear_alpha_size, as_); (mi_linear_alpha_pos, ap)].

(** The override for the packed modes of 4 bits. *)
Definition indexed_fields (w d mm : Z) : list (field * Z) :=
  if (d =? 4) && (mm =? MM_PACKED) then [
  (mi_bytes_per_scanline, Z.land ((w + 1) / 2 + 3) (Z.lnot 3));
  (mi_phys_base, 0);
  (mi_linear_bytes_per_scanline, 0);
  (mi_linear_pages, 0);
  (mi_planes, 1);
  (mi_mem_model, MM_PACKED);
  (mi_mode_attributes, Z.lor VBE_MODE_ATTRIBUTE_SUPPORTED
                         (Z.lor VBE_MODE_ATTRIBUTE_COLOR_MODE VBE_MODE_ATTRIBUTE_GRAPHICS_MODE));
  (mi_red_size, 0); (mi_red_pos, 0); (mi_green_size, 0); (mi_green_pos, 0);
  (mi_blue_size, 0); (mi_blue_pos, 0); (mi_alpha_size, 0); (mi_alpha_pos, 0);
  (mi_banks, 1);
  (mi_pages, 0)]
  else [].

Definition vbe_104f01 (r : bregs) (V : vga) (m : mem) : outcome (bregs * vga * mem) :=
  let seg := es r in
  let info := di r in
  let vmode_g := cbvga_find_mode V (Z.land (cx r) (Z.lnot MF_VBEFLAGS)) in
  if vmode_g =? 0 then mret (with_ax 0x014f r, V, m)
  else
    let i := mode_at V vmode_g in
    let linesize := cbvga_minimum_linelength V in
    area ← signed 32 (height i * linesize);
    rounded ← signed 32 (area + (64 * 1024 - 1));
    pages ← udiv (VBE_total_memory V) (u32 (Z.land rounded (Z.lnot (64 * 1024 - 1))));
    let o := model_of (memmodel i) (sstart i) pages (VBE_framebuffer V) in
    let m := memset_far m seg info 0 sizeof_vbe_mode_info in
    let m := set_fields seg info
               (controller_fields V i linesize ++ model_fields (memmodel i) o ++ color_fields (depth i) ++
                linear_fields (depth i) (mo_framebuffer o) linesize ++
                indexed_fields (width i) (depth i) (memmodel i)) m in
    mret (with_ax 0x004f r, set_last_info (far_bytes seg info 256 m) V, m).

(** * Functions 02h to 04h: the current mode, save and restore *)

Definition vbe_104f02 (r : bregs) (V : vga) (m : mem) : outcome (bregs * mem) :=
  '(ret, m) ← vga_set_mode V data ss (Z.land (bx r) (Z.lnot MF_VBEFLAGS)) (Z.land (bx r) MF_VBEFLAGS) m;
  mret (with_al 0x4f (with_ah ret r), m).

Definition vbe_104f03 (r : bregs) (m : mem) : bregs := with_ax 0x004f (with_bx (GET_BDA 2 m ext_vbe_mode) r).

Definition vbe_104f04 (r : bregs) (V : vga) (m : mem) : bregs * mem :=
  let states := cx r in
  let cmd := lo8 (dx r) in
  if negb (Z.land states (Z.lnot 0x0f) =? 0) || (2 <? cmd) then (with_ax 0x014f r, m)
  else
    let '(ret, m) := cbvga_save_restore V (Z.lor states (Z.shiftl cmd 8)) (es r) (bx r) m in
    if ret <? 0 then (with_ax 0x014f r, m)
    else (with_ax 0x004f (if cmd =? 0 then with_bx (DIV_ROUND_UP ret 64) r else r), m).

(** * Functions 05h to 08h: window, line length, display start, DAC *)

Definition vbe_104f05 (r : bregs) (V : vga) (m : mem) : bregs :=
  if (1 <? hi8 (bx r)) || (1 <? lo8 (bx r)) then with_ax 0x014f r
  else if flagged (GET_BDA 2 m ext_vbe_mode) MF_LINEARFB then with_ah VBE_RETURN_STATUS_INVALID r
  else if get_current_mode m =? 0 then with_ax 0x014f r
  else if negb (hi8 (bx r) =? 0) then
    let ret := cbvga_get_window (lo8 (bx r)) in
    if ret <? 0 then with_ax 0x014f r else with_ax 0x004f (with_dx ret r)
  else if negb (cbvga_set_window (lo8 (bx r)) (dx r) =? 0) then with_ax 0x014f r
  else with_ax 0x004f r.

Definition vbe_104f06 (r : bregs) (V : vga) (m : mem) : outcome bregs :=
  let sub := lo8 (bx r) in
  if 2 <? sub then mret (with_ax 0x014f r)
  else
    let curmode := get_current_mode m in
    if curmode =? 0 then mret (with_ax 0x014f r)
    else
      let bpp := vga_bpp V curmode in
      if ((sub =? 0) && negb (cbvga_set_linelength (DIV_ROUND_UP (cx r * bpp) 8) =? 0))
         || ((sub =? 2) && negb (cbvga_set_linelength (cx r) =? 0)) then mret (with_ax 0x014f r)
      else
        let linelength := cbvga_get_linelength V in
        if linelength <? 0 then mret (with_ax 0x014f r)
        else
          bits ← signed 32 (linelength * 8);
          pixels ← sdiv 32 bits bpp;
          lines ← udiv (VBE_total_memory V) linelength;
          mret (with_ax 0x004f (with_dx lines (with_cx pixels (with_bx linelength r)))).

Definition vbe_104f07 (r : bregs) (V : vga) (m : mem) : outcome bregs :=
  let curmode := get_current_mode m in
  if curmode =? 0 then mret (with_ax 0x014f r)
  else
    let bpp := vga_bpp V curmode in
    let linelength := cbvga_get_linelength V in
    if linelength <? 0 then mret (with_ax 0x014f r)
    else
      let sub := lo8 (bx r) in
      if (sub =? 0x80) || (sub =? 0) then
        offset ← signed 32 (linelength * dx r);
        start ← signed 32 (DIV_ROUND_UP (cx r * bpp) 8 + offset);
        if negb (cbvga_set_displaystart start =? 0) then mret (with_ax 0x014f r) else mret (with_ax 0x004f r)
      else if sub =? 1 then
        let ret := cbvga_get_displaystart in
        if ret <? 0 then mret (with_ax 0x014f r)
        else
          y ← sdiv 32 ret linelength;
          x ← sdiv 32 (Z.rem ret linelength * 8) bpp;
          mret (with_ax 0x004f (with_cx x (with_dx y r)))
      else mret (with_ax 0x014f r).

Definition vbe_104f08 (r : bregs) (V : vga) (m : mem) : bregs :=
  let curmode := get_current_mode m in
  if curmode =? 0 then with_ax 0x014f r
  else
    let mm := memmodel (mode_at V curmode) in
    if (mm =? MM_DIRECT) || (mm =? MM_YUV) then with_ax 0x034f r
    else
      let sub := lo8 (bx r) in
      if 1 <? sub then with_ax 0x014f r
      else if (sub =? 0) && (cbvga_set_dacformat (hi8 (bx r)) <? 0) then with_ax 0x014f r
      else if cbvga_get_dacformat <? 0 then with_ax 0x014f r
      else with_ax 0x004f (with_bh cbvga_get_dacformat r).

(** No DAC without the standard ports. *)
Definition vbe_104f09 (r : bregs) : bregs := with_ax 0x0100 r.
Definition vbe_104f0a (r : bregs) : bregs := with_ax 0x0100 r.

(** * Functions 10h and 15h: power management, EDID *)

Definition vbe_104f10 (r : bregs) (m : mem) : bregs * mem :=
  let sub := lo8 (bx r) in
  if sub =? 0 then (with_ax 0x004f (with_bx 0x0f30 r), m)
  else if sub =? 1 then (with_ax 0x004f r, MASK_BDA_flags m BF_PM_MASK (Z.land (hi8 (bx r)) BF_PM_MASK))
  else if sub =? 2 then (with_ax 0x004f (with_bh (Z.land (GET_BDA 1 m ext_flags) BF_PM_MASK) r), m)
  else (with_ax 0x014f r, m).

Definition vbe_104f15 (r : bregs) (V : vga) (m : mem) : bregs * mem :=
  let sub := lo8 (bx r) in
  if sub =? 0 then
    if negb (nth 0 (VBE_edid V) 0 =? 0) || negb (nth 1 (VBE_edid V) 0 =? 0xff) then (with_ax 0x014f r, m)
    else (with_ax 0x004f (with_bx 0x0103 r), m)
  else if sub =? 1 then
    let offset := dx r * 128 in
    if 256 <=? offset then (with_ax 0x014f r, m)
    else (with_ax 0x004f r, put_far_bytes (es r) (di r) (take 128 (drop (Z.to_nat offset) (VBE_edid V))) m)
  else (with_ax 0x014f r, m).

Definition vbe_104fXX (r : bregs) : bregs := with_ax 0x0100 r.

Definition handle_104f (r : bregs) (V : vga) (m : mem) : outcome (bregs * vga * mem) :=
  let f := lo8 (ax r) in
  if f =? 0x00 then let '(r, m) := vbe_104f00 r V m in mret (r, V, m)
  else if f =? 0x01 then vbe_104f01 r V m
  else if f =? 0x02 then '(r, m) ← vbe_104f02 r V m; mret (r, V, m)
  else if f =? 0x03 then mret (vbe_104f03 r m, V, m)
  else if f =? 0x04 then let '(r, m) := vbe_104f04 r V m in mret (r, V, m)
  else if f =? 0x05 then mret (vbe_104f05 r V m, V, m)
  else if f =? 0x06 then r ← vbe_104f06 r V m; mret (r, V, m)
  else if f =? 0x07 then r ← vbe_104f07 r V m; mret (r, V, m)
  else if f =? 0x08 then mret (vbe_104f08 r V m, V, m)
  else if f =? 0x09 then mret (vbe_104f09 r, V, m)
  else if f =? 0x0a then mret (vbe_104f0a r, V, m)
  else if f =? 0x10 then let '(r, m) := vbe_104f10 r m in mret (r, V, m)
  else if f =? 0x15 then let '(r, m) := vbe_104f15 r V m in mret (r, V, m)
  else mret (vbe_104fXX r, V, m).

End layout.
