(* ===== verification/VgaVbeSpec.v ===== *)
(** What the VESA functions report.

    Reading back a field of a structure written with [set_fields] is a
    computation on the list of writes; with it function 01h is shown to
    describe the framebuffer the boot firmware set up. *)

From stdpp Require Import base numbers list.
From Stdlib Require Import ZArith Lia.
From S2P Require Import Prelude Memory CcInt VgaState VgaPal VgaCb VgaFb VgaMode VgaVbe.

(** * Fields *)

Definition separate (f g : field) : bool :=
  (fst f + Z.of_nat (snd f) <=? fst g) || (fst g + Z.of_nat (snd g) <=? fst f).

(** Every write of the list is to the field or clear of it. *)
Definition regular (f : field) (l : list (field * Z)) : bool :=
  forallb (fun w => bool_decide (fst w = f) || separate f (fst w)) l.

(** The value written last. *)
Definition last_value (f : field) (l : list (field * Z)) : option Z :=
  foldl (fun acc '(g, v) => if bool_decide (g = f) then Some v else acc) None l.

Section fields.
Variables (seg base : Z).

Lemma get_set_field f g v m : f = g \/ separate f g = true ->
  get_field seg base f (SET_FARVAR (snd g) m seg (base + fst g) v) =
  if bool_decide (g = f) then wrap (8 * Z.of_nat (snd f)) v else get_field seg base f m.
Proof.
  intros H. unfold get_field, GET_FARVAR, SET_FARVAR. case_bool_decide as Hd.
  - subst g. apply load_store_same.
  - destruct H as [->|H]; [done|]. apply load_store_other. unfold separate in H. unfold far.
    apply orb_prop in H as [H|H]; apply Z.leb_le in H; lia.
Qed.

Lemma get_set_fields f l : forall m, regular f l = true ->
  get_field seg base f (set_fields seg base l m) =
  match last_value f l with Some v => wrap (8 * Z.of_nat (snd f)) v | None => get_field seg base f m end.
Proof.
  induction l as [|[[go gn] v] l IH] using rev_ind; intros m Hr; [done|].
  unfold regular in Hr. rewrite forallb_app in Hr. apply andb_prop in Hr as [Hl Hg]. cbn in Hg.
  rewrite andb_true_r in Hg. unfold set_fields, last_value. rewrite !foldl_app. cbn [foldl].
  fold (set_fields seg base l m) (last_value f l). specialize (IH m Hl).
  rewrite (get_set_field f (go, gn) v).
  - case_bool_decide; done.
  - apply orb_prop in Hg as [H|H]; [left; by apply bool_decide_eq_true in H|by right].
Qed.

Lemma set_fields_out l lo hi a : forall m,
  Forall (fun w => lo <= base + fst (fst w) /\ base + fst (fst w) + Z.of_nat (snd (fst w)) <= hi) l ->
  a < far seg lo \/ far seg hi <= a -> set_fields seg base l m a = m a.
Proof.
  induction l as [|[[go gn] v] l IH]; intros m Hl Ha; [done|]. apply Forall_cons in Hl as [Hg Hl]. cbn in Hg.
  cbn [set_fields foldl]. fold (set_fields seg base l (SET_FARVAR gn m seg (base + go) v)). rewrite IH by done.
  apply store_out. unfold far in *. lia.
Qed.

Lemma set_fields_app l l' m : set_fields seg base (l ++ l') m = set_fields seg base l' (set_fields seg base l m).
Proof. unfold set_fields. by rewrite foldl_app. Qed.

End fields.

Lemma field_value seg base f l m v : regular f l = true -> last_value f l = Some v ->
  get_field seg base f (set_fields seg base l m) = wrap (8 * Z.of_nat (snd f)) v.
Proof. intros Hr Hv. rewrite get_set_fields by done. by rewrite Hv. Qed.

Section layout.
Context {L : Layout}.

(** * Function 01h *)

(** The block at [seg:base] describes a linear framebuffer. *)
Record reports (m : mem) (seg base fb x y bpp pitch : Z) : Prop := {
  rep_attributes : get_field seg base mi_mode_attributes m = 0xbb;
  rep_base : get_field seg base mi_phys_base m = u32 fb;
  rep_xres : get_field seg base mi_xres m = u16 x;
  rep_yres : get_field seg base mi_yres m = u16 y;
  rep_bpp : get_field seg base mi_bits_per_pixel m = u8 bpp;
  rep_model : get_field seg base mi_mem_model m = MM_DIRECT;
  rep_pitch : get_field seg base mi_bytes_per_scanline m = u16 pitch;
  rep_linear_pitch : get_field seg base mi_linear_bytes_per_scanline m = u16 pitch
}.

Definition mode_fields (V : vga) (i : vgamode_s) (linesize pages : Z) : list (field * Z) :=
  let o := model_of (memmodel i) (sstart i) pages (VBE_framebuffer V) in
  controller_fields V i linesize ++ model_fields (memmodel i) o ++ color_fields (depth i) ++
  linear_fields (depth i) (mo_framebuffer o) linesize ++ indexed_fields (width i) (depth i) (memmodel i).

Lemma direct_fields V i linesize pages seg base m : memmodel i = MM_DIRECT -> VBE_framebuffer V <> 0 ->
  reports (set_fields seg base (mode_fields V i linesize pages) m) seg base
    (VBE_framebuffer V) (width i) (height i) (depth i) linesize.
Proof.
  intros Hm Hf. unfold mode_fields. rewrite Hm. unfold model_of, model_fields, color_fields, linear_fields, indexed_fields.
  change (MM_DIRECT =? MM_TEXT) with false. change (MM_DIRECT =? MM_CGA) with false.
  change (MM_DIRECT =? MM_PLANAR) with false. change (MM_DIRECT =? MM_PACKED) with false.
  rewrite andb_false_r. destruct (Z.eqb_spec (VBE_framebuffer V) 0) as [?|_]; [done|].
  cbn [mo_attr mo_framebuffer mo_planes mo_banks mo_pages].
  destruct (Z.eqb_spec (VBE_framebuffer V) 0) as [?|_]; [done|].
  destruct (breakdown (depth i)) as [[[[rs rp] [gs gp]] [bs bp]] [as_ ap]].
  destruct (depth i =? 32); split; (etransitivity; [apply field_value; [reflexivity|cbn; rewrite ?Hm; reflexivity]|done]).
Qed.

Lemma mode_fields_inside V i linesize pages base :
  Forall (fun w => base <= base + fst (fst w) /\ base + fst (fst w) + Z.of_nat (snd (fst w)) <= base + 256)
    (mode_fields V i linesize pages).
Proof.
  unfold mode_fields, controller_fields, model_fields, color_fields, linear_fields, indexed_fields.
  destruct (breakdown (depth i)) as [[[[rs rp] [gs gp]] [bs bp]] [as_ ap]].
  repeat apply Forall_app_2; repeat case_match; repeat constructor; cbn; lia.
Qed.

(** The line length and height of a mode whose size can be computed. *)
Definition sizable (V : vga) (i : vgamode_s) : Prop :=
  0 < CBlinelength V < 2 ^ 31 /\ 0 < height i * CBlinelength V < 2 ^ 31 - 64 * 1024.

Lemma round_64k z : 0 < z < 2 ^ 31 - 64 * 1024 ->
  0 < Z.land (z + (64 * 1024 - 1)) (Z.lnot (64 * 1024 - 1)) < 2 ^ 31.
Proof.
  intros Hz. change (64 * 1024 - 1) with (Z.ones 16). rewrite <- Z.ldiff_land, Z.ldiff_ones_r by lia.
  rewrite Z.shiftr_div_pow2, Z.shiftl_mul_pow2 by lia. change (Z.ones 16) with 65535. change (2 ^ 16) with 65536.
  Z.div_mod_to_equations. lia.
Qed.

Lemma mode_info_spec r V m i : let vg := cbvga_find_mode V (Z.land (cx r) (Z.lnot MF_VBEFLAGS)) in
  vg <> 0 -> mode_at V vg = i -> sizable V i -> in_segment (di r) 256 ->
  exists V' m' pages,
    vbe_104f01 r V m = Done (with_ax 0x004f r, V', m') /\
    V' = set_last_info (far_bytes (es r) (di r) 256 m') V /\
    m' = set_fields (es r) (di r) (mode_fields V i (CBlinelength V) pages) (memset_far m (es r) (di r) 0 256) /\
    (forall a, a < far (es r) (di r) \/ far (es r) (di r) + 256 <= a -> m' a = m a).
Proof.
  intros vg Hv Hi [Hl Hs] Hseg. unfold vbe_104f01. fold vg.
  destruct (Z.eqb_spec vg 0); [done|]. rewrite Hi. unfold cbvga_minimum_linelength, si, to_signed.
  rewrite (wrap_small 32 (CBlinelength V)) by (unfold fits; lia). change (2 ^ (32 - 1)) with (2 ^ 31).
  destruct (Z.ltb_spec (CBlinelength V) (2 ^ 31)); [|lia].
  unfold signed. rewrite decide_True by (unfold sfits; lia). run_outcome.
  rewrite decide_True by (unfold sfits; lia). run_outcome.
  pose proof (round_64k _ Hs) as Hr. rewrite wrap_small by (unfold fits; lia).
  unfold udiv. destruct (Z.eqb_spec (Z.land (height i * CBlinelength V + (64 * 1024 - 1)) (Z.lnot (64 * 1024 - 1))) 0); [lia|].
  run_outcome. do 3 eexists. split; [reflexivity|]. split; [reflexivity|]. split; [reflexivity|].
  intros a Ha. rewrite (set_fields_out _ _ _ (di r) (di r + 256)); [|apply mode_fields_inside|unfold far in *; lia].
  apply memset_far_out; [done|]. unfold sizeof_vbe_mode_info. lia.
Qed.

End layout.
