(* ===== verification/VgaBios.v ===== *)
(** The services of interrupt 10h and the start of the video BIOS
    ([vgabios.c], [vgainit.c]).

    The build has no standard VGA ports ([CONFIG_VGA_STDVGA_PORTS] is off), so
    functions 0Bh, 10h and the text-font part of 11h only log. *)

From stdpp Require Import base numbers list.
From Stdlib Require Import ZArith Lia.
From S2P Require Import Prelude Memory SeaString CcInt VgaState VgaPal VgaCb VgaFb VgaMode VgaVbe.

Section layout.
Context {L : Layout}.
Variables (data ss : Z).

(** * Functions 00h to 0Fh *)

Definition handle_1000 (r : bregs) (V : vga) (m : mem) : outcome (bregs * mem) :=
  let al := lo8 (ax r) in
  let n := Z.land al 0x7f in
  let flags := Z.lor MF_LEGACY (Z.land (GET_BDA 1 m modeset_ctl) (Z.lor MF_NOPALETTE MF_GRAYSUM)) in
  let flags := if Z.land al 0x80 =? 0 then flags else Z.lor flags MF_NOCLEARMEM in
  let r := with_al (if 7 <? n then 0x20 else if n =? 6 then 0x3f else 0x30) r in
  '(_, m) ← vga_set_mode V data ss n flags m;
  mret (r, m).

Definition handle_1001 (r : bregs) (m : mem) : mem := set_cursor_shape (cx r) m.

Definition handle_1002 (r : bregs) (m : mem) : mem :=
  set_cursor_pos (mkPos (lo8 (dx r)) (hi8 (dx r)) (hi8 (bx r))) m.

Definition handle_1003 (r : bregs) (m : mem) : bregs :=
  let r := with_cx (GET_BDA 2 m cursor_type) r in
  let cp := get_cursor_pos (hi8 (bx r)) m in
  with_dh (cp_y cp) (with_dl (cp_x cp) r).

Definition handle_1004 (r : bregs) : bregs := with_ax 0 (with_bx 0 (with_cx 0 (with_dx 0 r))).

Definition handle_1005 (r : bregs) (m : mem) : mem := set_active_page (lo8 (ax r)) m.

Definition verify_scroll (r : bregs) (dir : Z) (V : vga) (m : mem) : outcome mem :=
  let ulx := lo8 (cx r) in
  let uly := hi8 (cx r) in
  let nbrows := GET_BDA 1 m video_rows + 1 in
  let lry := if nbrows <=? hi8 (dx r) then u8 (nbrows - 1) else hi8 (dx r) in
  let nbcols := GET_BDA 2 m video_cols in
  let lrx := if nbcols <=? lo8 (dx r) then u8 (nbcols - 1) else lo8 (dx r) in
  let wincols := lrx - ulx + 1 in
  let winrows := lry - uly + 1 in
  if (wincols <=? 0) || (winrows <=? 0) then mret m
  else
    let lines := if winrows <=? lo8 (ax r) then 0 else lo8 (ax r) in
    vgafb_scroll V data ss (mkPos ulx uly (GET_BDA 1 m video_page)) (mkPos (u8 wincols) (u8 winrows) 0) (lines * dir)
      (mkChar 32 (hi8 (bx r)) 1) m.

Definition handle_1006 (r : bregs) (V : vga) (m : mem) : outcome mem := verify_scroll r 1 V m.
Definition handle_1007 (r : bregs) (V : vga) (m : mem) : outcome mem := verify_scroll r (-1) V m.

Definition handle_1008 (r : bregs) (V : vga) (m : mem) : bregs * mem :=
  let '(c, m) := vgafb_read_char V data (get_cursor_pos (hi8 (bx r)) m) m in
  (with_ah (attr c) (with_al (car c) r), m).

Definition handle_1009 (r : bregs) (V : vga) (m : mem) : outcome mem :=
  '(_, m) ← write_chars V data ss (Z.to_nat (cx r)) (get_cursor_pos (hi8 (bx r)) m)
              (mkChar (lo8 (ax r)) (lo8 (bx r)) 1) m;
  mret m.

Definition handle_100a (r : bregs) (V : vga) (m : mem) : outcome mem :=
  '(_, m) ← write_chars V data ss (Z.to_nat (cx r)) (get_cursor_pos (hi8 (bx r)) m)
              (mkChar (lo8 (ax r)) (lo8 (bx r)) 0) m;
  mret m.

Definition handle_100c (r : bregs) (V : vga) (m : mem) : mem :=
  vgafb_write_pixel V data (lo8 (ax r)) (cx r) (dx r) m.

Definition handle_100d (r : bregs) (V : vga) (m : mem) : bregs * mem :=
  let '(p, m) := vgafb_read_pixel V data (cx r) (dx r) m in (with_al p r, m).

Definition handle_100e (r : bregs) (V : vga) (m : mem) : outcome mem :=
  '(cp, m) ← write_teletype V data ss (get_cursor_pos (GET_BDA 1 m video_page) m)
               (mkChar (lo8 (ax r)) (lo8 (bx r)) 0) m;
  mret (set_cursor_pos cp m).

Definition handle_100f (r : bregs) (m : mem) : bregs :=
  let r := with_bh (GET_BDA 1 m video_page) r in
  let r := with_al (Z.lor (GET_BDA 1 m video_mode) (Z.land (GET_BDA 1 m video_ctl) 0x80)) r in
  with_ah (GET_BDA 2 m video_cols) r.

(** * Function 11h: fonts *)

Definition handle_101120 (r : bregs) (m : mem) : mem := SET_IVT m 0x1f (SEGOFF (es r) (bp r)).

Definition load_gfx_font (seg off h bl dl : Z) (m : mem) : mem :=
  let m := SET_IVT m 0x43 (SEGOFF seg off) in
  let rows := if bl =? 0 then dl else if bl =? 1 then 14 else if bl =? 3 then 43 else 25 in
  SET_BDA 2 (SET_BDA 1 m video_rows (rows - 1)) char_height (u8 h).

Definition handle_101121 (r : bregs) (m : mem) : mem := load_gfx_font (es r) (bp r) (cx r) (lo8 (bx r)) (lo8 (dx r)) m.
Definition handle_101122 (r : bregs) (m : mem) : mem := load_gfx_font global_seg vgafont14 14 (lo8 (bx r)) (lo8 (dx r)) m.
Definition handle_101123 (r : bregs) (m : mem) : mem := load_gfx_font global_seg vgafont8 8 (lo8 (bx r)) (lo8 (dx r)) m.
Definition handle_101124 (r : bregs) (m : mem) : mem := load_gfx_font global_seg vgafont16 16 (lo8 (bx r)) (lo8 (dx r)) m.

Definition font_pointer (bh : Z) (m : mem) : option (Z * Z) :=
  if bh =? 0 then Some (so_seg (GET_IVT m 0x1f), so_offset (GET_IVT m 0x1f))
  else if bh =? 1 then Some (so_seg (GET_IVT m 0x43), so_offset (GET_IVT m 0x43))
  else if bh =? 2 then Some (global_seg, vgafont14)
  else if bh =? 3 then Some (global_seg, vgafont8)
  else if bh =? 4 then Some (global_seg, vgafont8 + 128 * 8)
  else if bh =? 5 then Some (global_seg, vgafont14alt)
  else if bh =? 6 then Some (global_seg, vgafont16)
  else if bh =? 7 then Some (global_seg, vgafont16alt)
  else None.

Definition handle_101130 (r : bregs) (m : mem) : bregs :=
  match font_pointer (hi8 (bx r)) m with
  | Some (s, o) =>
    with_dl (GET_BDA 1 m video_rows) (with_cx (Z.land (GET_BDA 2 m char_height) 0xff) (with_es_bp s o r))
  | None => r
  end.

Definition handle_1011 (r : bregs) (m : mem) : bregs * mem :=
  let f := lo8 (ax r) in
  if f =? 0x30 then (handle_101130 r m, m)
  else if f =? 0x20 then (r, handle_101120 r m)
  else if f =? 0x21 then (r, handle_101121 r m)
  else if f =? 0x22 then (r, handle_101122 r m)
  else if f =? 0x23 then (r, handle_101123 r m)
  else if f =? 0x24 then (r, handle_101124 r m)
  else (r, m).

(** * Function 12h: alternate select *)

Definition VGAREG_MDA_CRTC_ADDRESS : Z := 0x3b4.

Definition handle_101210 (r : bregs) (m : mem) : bregs :=
  let r := with_bx (if GET_BDA 2 m crtc_address =? VGAREG_MDA_CRTC_ADDRESS then 0x0103 else 0x0003) r in
  with_cx (Z.land (GET_BDA 1 m video_switches) 0x0f) r.

Definition handle_101230 (r : bregs) (m : mem) : bregs * mem :=
  let al := lo8 (ax r) in
  let mctl := GET_BDA 1 m modeset_ctl in
  let vswt := GET_BDA 1 m video_switches in
  let '(mctl, vswt) :=
    if al =? 0 then (Z.lor (Z.land mctl (Z.lnot 0x10)) 0x80, Z.lor (Z.land vswt (Z.lnot 0x0f)) 0x08)
    else if al =? 1 then (Z.land mctl (Z.lnot 0x90), Z.lor (Z.land vswt (Z.lnot 0x0f)) 0x09)
    else if al =? 2 then (Z.lor (Z.land mctl (Z.lnot 0x80)) 0x10, Z.lor (Z.land vswt (Z.lnot 0x0f)) 0x09)
    else (mctl, vswt) in
  (with_al 0x12 r, SET_BDA 1 (SET_BDA 1 m modeset_ctl mctl) video_switches vswt).

Definition handle_101231 (r : bregs) (m : mem) : bregs * mem :=
  let v := Z.shiftl (Z.land (lo8 (ax r)) 0x01) 3 in
  (with_al 0x12 r, SET_BDA 1 m video_ctl (Z.lor (Z.land (GET_BDA 1 m video_ctl) (Z.lnot 0x08)) v)).

Definition handle_101233 (r : bregs) (m : mem) : bregs * mem :=
  let v := Z.lxor (Z.land (Z.shiftl (lo8 (ax r)) 1) 0x02) 0x02 in
  (with_al 0x12 r, SET_BDA 1 m modeset_ctl (Z.lor v (Z.land (GET_BDA 1 m modeset_ctl) (Z.lnot 0x02)))).

Definition handle_101234 (r : bregs) (m : mem) : bregs * mem :=
  (with_al 0x12 r,
   SET_BDA 1 m video_ctl (Z.lor (Z.land (GET_BDA 1 m video_ctl) (Z.lnot 0x01)) (Z.land (lo8 (ax r)) 0x01))).

Definition handle_101235 (r : bregs) : bregs := with_al 0x12 r.
Definition handle_101236 (r : bregs) : bregs := with_al 0x12 r.

Definition handle_1012 (r : bregs) (m : mem) : bregs * mem :=
  let f := lo8 (bx r) in
  if f =? 0x10 then (handle_101210 r m, m)
  else if f =? 0x30 then handle_101230 r m
  else if f =? 0x31 then handle_101231 r m
  else if f =? 0x33 then handle_101233 r m
  else if f =? 0x34 then handle_101234 r m
  else if f =? 0x35 then (handle_101235 r, m)
  else if f =? 0x36 then (handle_101236 r, m)
  else (r, m).

(** * Function 13h: a string *)

Fixpoint write_string (count : nat) (seg off attr al : Z) (cp : cursorpos) (V : vga) (m : mem) :
  outcome (cursorpos * mem) :=
  match count with
  | O => mret (cp, m)
  | S k =>
    let c := GET_FARVAR 1 m seg off in
    let '(attr, off) := if Z.land al 2 =? 0 then (attr, off + 1) else (GET_FARVAR 1 m seg (off + 1), off + 2) in
    '(cp, m) ← write_teletype V data ss cp (mkChar c attr 1) m;
    write_string k seg off attr al cp V m
  end.

Definition handle_1013 (r : bregs) (V : vga) (m : mem) : outcome mem :=
  let cp := mkPos (lo8 (dx r)) (hi8 (dx r)) (hi8 (bx r)) in
  '(cp, m) ← write_string (Z.to_nat (cx r)) (es r) (bp r) (lo8 (bx r)) (lo8 (ax r)) cp V m;
  mret (if Z.land (lo8 (ax r)) 1 =? 0 then m else set_cursor_pos cp m).

(** * Functions 1Ah to 1Ch *)

Definition handle_101a00 (r : bregs) (m : mem) : bregs := with_al 0x1a (with_bx (GET_BDA 1 m dcc_index) r).
Definition handle_101a01 (r : bregs) (m : mem) : bregs * mem := (with_al 0x1a r, SET_BDA 1 m dcc_index (lo8 (bx r))).

Definition handle_101a (r : bregs) (m : mem) : bregs * mem :=
  let f := lo8 (ax r) in
  if f =? 0 then (handle_101a00 r m, m) else if f =? 1 then handle_101a01 r m else (r, m).

(** Offsets in [struct video_func_info]. *)
Definition vf_static : field := (0, 4%nat).
Definition vf_0x49 : Z := 4.
Definition vf_0x84 : Z := 34.
Definition vf_dcc_index : field := (37, 1%nat).
Definition vf_colors : field := (39, 2%nat).
Definition vf_pages : field := (41, 1%nat).
Definition vf_scan_lines : field := (42, 1%nat).
Definition vf_video_mem : field := (49, 1%nat).
Definition sizeof_video_func_info : Z := 64.

Definition handle_101b (r : bregs) (m : mem) : bregs * mem :=
  let seg := es r in
  let info := di r in
  let m := memset_far m seg info 0 sizeof_video_func_info in
  let m := set_fields seg info [(vf_static, SEGOFF global_seg off_static_functionality)] m in
  let m := memcpy_far m seg (info + vf_0x49) SEG_BDA 0x49 30 in
  let m := memcpy_far m seg (info + vf_0x84) SEG_BDA 0x84 3 in
  let m := set_fields seg info [
    (vf_dcc_index, GET_BDA 1 m dcc_index);
    (vf_colors, 16);
    (vf_pages, 8);
    (vf_scan_lines, 2);
    (vf_video_mem, 3)] m in
  (with_al 0x1B r, m).

Definition handle_101c (r : bregs) (V : vga) (m : mem) : bregs * mem :=
  let states := cx r in
  let cmd := lo8 (ax r) in
  if negb (Z.land states (Z.lnot 0x07) =? 0) || (2 <? cmd) then (r, m)
  else
    let '(ret, m) := cbvga_save_restore V (Z.lor states (Z.shiftl cmd 8)) (es r) (bx r) m in
    if ret <? 0 then (r, m)
    else (with_al 0x1c (if cmd =? 0 then with_bx (DIV_ROUND_UP ret 64) r else r), m).

(** * The entry point *)

Definition dispatch (r : bregs) (V : vga) (m : mem) : outcome (bregs * vga * mem) :=
  let f := hi8 (ax r) in
  if f =? 0x00 then '(r, m) ← handle_1000 r V m; mret (r, V, m)
  else if f =? 0x01 then mret (r, V, handle_1001 r m)
  else if f =? 0x02 then mret (r, V, handle_1002 r m)
  else if f =? 0x03 then mret (handle_1003 r m, V, m)
  else if f =? 0x04 then mret (handle_1004 r, V, m)
  else if f =? 0x05 then mret (r, V, handle_1005 r m)
  else if f =? 0x06 then m ← handle_1006 r V m; mret (r, V, m)
  else if f =? 0x07 then m ← handle_1007 r V m; mret (r, V, m)
  else if f =? 0x08 then let '(r, m) := handle_1008 r V m in mret (r, V, m)
  else if f =? 0x09 then m ← handle_1009 r V m; mret (r, V, m)
  else if f =? 0x0a then m ← handle_100a r V m; mret (r, V, m)
  else if f =? 0x0c then mret (r, V, handle_100c r V m)
  else if f =? 0x0d then let '(r, m) := handle_100d r V m in mret (r, V, m)
  else if f =? 0x0e then m ← handle_100e r V m; mret (r, V, m)
  else if f =? 0x0f then mret (handle_100f r m, V, m)
  else if f =? 0x11 then let '(r, m) := handle_1011 r m in mret (r, V, m)
  else if f =? 0x12 then let '(r, m) := handle_1012 r m in mret (r, V, m)
  else if f =? 0x13 then m ← handle_1013 r V m; mret (r, V, m)
  else if f =? 0x1a then let '(r, m) := handle_101a r m in mret (r, V, m)
  else if f =? 0x1b then let '(r, m) := handle_101b r m in mret (r, V, m)
  else if f =? 0x1c then let '(r, m) := handle_101c r V m in mret (r, V, m)
  else if f =? 0x4f then handle_104f data ss r V m
  else mret (r, V, m).

Definition handle_10 (r : bregs) (V : vga) (m : mem) : outcome (bregs * vga * mem) :=
  m ← swcursor_pre_handle10 V data ss (hi8 (ax r)) (lo8 (ax r)) m;
  dispatch r V m.

(** * The start of the image ([vgainit.c]) *)

Definition set_equipment_flags (clear set_ : Z) (m : mem) : mem :=
  SET_BDA 2 m equipment_list_flags (Z.lor (Z.land (GET_BDA 2 m equipment_list_flags) (Z.lnot clear)) set_).

Definition init_bios_area (m : mem) : mem :=
  let m := set_equipment_flags 0x30 0x20 m in
  let m := SET_BDA 1 m modeset_ctl 0x51 in
  let m := SET_BDA 1 m dcc_index 0xff in
  let m := SET_BDA 1 m video_msr 0 in
  SET_BDA 1 m video_pal 0.

(** The PMM headers of the BIOS segment, 16 bytes apart, until a call answers.
    The call itself, to code outside the image, is [pmm_call]. *)
Section pmm.
Variable pmm_call : Z -> Z -> Z -> mem -> Z * mem.

Definition PMM_SIGNATURE : Z := 0x4d4d5024.
Definition PMM_FUNCTION_NOT_SUPPORTED : Z := 0xffffffff.
Definition BUILD_BIOS_SIZE : Z := 0x10000.

Fixpoint checksum_far_loop (k : nat) (i sum : Z) (m : mem) (seg off : Z) : Z :=
  match k with
  | O => sum
  | S k' => checksum_far_loop k' (i + 1) (u8 (sum + GET_FARVAR 1 m seg (off + i))) m seg off
  end.
Definition checksum_far (m : mem) (seg off len : Z) : Z := checksum_far_loop (Z.to_nat len) 0 0 m seg off.

Fixpoint scan_pmm (k : nat) (off size flags : Z) (m : mem) : Z * mem :=
  match k with
  | O => (0, m)
  | S k' =>
    if negb (GET_FARVAR 4 m SEG_BIOS off =? PMM_SIGNATURE) then scan_pmm k' (off + 16) size flags m
    else if negb (checksum_far m SEG_BIOS off (GET_FARVAR 1 m SEG_BIOS (off + 5)) =? 0)
    then scan_pmm k' (off + 16) size flags m
    else
      let '(res, m) := pmm_call (GET_FARVAR 4 m SEG_BIOS (off + 7)) (Z.shiftr size 4) flags m in
      (if (res =? 0) || (res =? PMM_FUNCTION_NOT_SUPPORTED) then 0 else res, m)
  end.

Definition allocate_pmm (size : Z) (highmem aligned : bool) (m : mem) : Z * mem :=
  scan_pmm (Z.to_nat (BUILD_BIOS_SIZE / 16)) 0 size
    (Z.lor 8 (Z.lor (if highmem then 2 else 1) (if aligned then 4 else 0))) m.

Definition CONFIG_VGA_EXTRA_STACK_SIZE : Z := 512.

Definition allocate_extra_stack (V : vga) (m : mem) : vga * mem :=
  let '(res, m) := allocate_pmm CONFIG_VGA_EXTRA_STACK_SIZE false false m in
  if res =? 0 then (V, m)
  else (set_init (HaveRunInit V) (u16 (Z.shiftr res 4)) (Timer_Hook_Resume V) (rom_header_checksum V) V,
        SET_IVT m 0x10 (SEGOFF global_seg entry_10_extrastack)).

Definition handle_timer_hook (V : vga) (m : mem) : outcome mem := swcursor_check_event V data ss m.

Definition hook_timer_irq (V : vga) (m : mem) : vga * mem :=
  let oldirq := GET_IVT m 0x08 in
  let newirq := SEGOFF global_seg (if ExtraStackSeg V =? 0 then entry_timer_hook else entry_timer_hook_extrastack) in
  (set_init (HaveRunInit V) (ExtraStackSeg V) oldirq (rom_header_checksum V) V, SET_IVT m 0x08 newirq).

Definition vga_post (V : vga) (m : mem) : outcome (vga * mem) :=
  '(ret, V, m) ← cbvga_setup ss V m;
  if negb (ret =? 0) then mret (V, m)
  else if negb (HaveRunInit V =? 0) then mret (V, m)
  else
    let m := init_bios_area m in
    let m := SET_IVT m 0x10 (SEGOFF global_seg entry_10) in
    let '(V, m) := allocate_extra_stack V m in
    let '(V, m) := hook_timer_irq V m in
    let V := set_init 1 (ExtraStackSeg V) (Timer_Hook_Resume V) 0 V in
    mret (set_init 1 (ExtraStackSeg V) (Timer_Hook_Resume V) (u8 (- image_sum V)) V, m).

End pmm.

End layout.
