(* ===== verification/VgaText.v ===== *)
(** The services of interrupt 10h on an emulated text screen.

    The console is a linear framebuffer with the text-emulation flag set: the
    interrupt draws glyphs.  The theorems are about the entry point
    [handle_10], with the software cursor not shown. *)

From stdpp Require Import base numbers list.
From Stdlib Require Import ZArith Lia.
From S2P Require Import Prelude Memory SeaString CcInt VgaState VgaPal VgaCb VgaFb VgaDraw VgaScroll VgaMode.
From S2P Require Import VgaVbe VgaBios.

Section console.
Context {L : Layout}.
Variables (V : vga) (data ss cur d : Z) (b : nat) (size pitch : Z).
Hypothesis Hmodel : memmodel (mode_at V cur) = MM_DIRECT.
Hypothesis Hdepth : depth (mode_at V cur) = d.
Hypothesis Hd : direct_depth d b.
Hypothesis Hscreen : screen_ok V data b size pitch.
Hypothesis Hpitch : CBlinelength V = pitch.
Hypothesis Hcur : cur <> 0.

Record console (m : mem) : Prop := {
  con_text : text_ok V data size m;
  con_mode : get_current_mode m = cur;
  con_hidden : flagged (GET_BDA 1 m ext_flags) BF_SWCURSOR = false
}.

Lemma fb_nonzero : VBE_framebuffer V <> 0.
Proof. pose proof (screen_range _ _ _ _ _ Hscreen). lia. Qed.

Lemma text_agrees m m' : text_ok V data size m -> mem_ok m' -> agrees V data size m m' -> text_ok V data size m'.
Proof.
  intros Ht Hok Hag. split; [done|rewrite (agrees_emulate V data size m m' Hag Ht); apply Ht| |apply Ht|].
  - rewrite (agrees_bda V data size m m' 2) by (done || unfold char_height; lia). apply Ht.
  - intros c i Hc Hi. rewrite (agrees_bda V data size m m' 2) in Hi by (done || unfold char_height; lia).
    rewrite (agrees_font V data size m m') by done. by apply (text_font _ _ _ _ Ht).
Qed.

Lemma console_agrees m m' : console m -> mem_ok m' -> agrees V data size m m' -> console m'.
Proof.
  intros [Ht Hm Hh] Hok Hag. split; [by eapply text_agrees| |].
  - unfold get_current_mode. rewrite (agrees_bda V data size m m' 2) by (done || unfold ext_vgamode_offset; lia). done.
  - by rewrite (agrees_bda V data size m m' 1) by (done || unfold ext_flags; lia).
Qed.

(** With the cursor hidden the entry point goes straight to the function. *)
Lemma entry m r : console m -> handle_10 data ss r V m = dispatch data ss r V m.
Proof.
  intros [Ht Hm Hh]. unfold handle_10, swcursor_pre_handle10. rewrite (text_emulated _ _ _ _ Ht). cbn [negb].
  assert (set_swcursor V data ss false m = Done m) as Hs by (unfold set_swcursor; by rewrite Hh).
  case_match; [rewrite Hs|]; run_outcome; done.
Qed.

(** The direct mode is not text. *)
Lemma write_direct m cp ca : get_current_mode m = cur ->
  vgafb_write_char V data ss cp ca m = Done (gfx_write_char V data cur cp ca m).
Proof.
  intros Hm. unfold vgafb_write_char. rewrite Hm, (proj2 (Z.eqb_neq _ _) Hcur), Hmodel. done.
Qed.

Lemma read_direct m cp : get_current_mode m = cur ->
  vgafb_read_char V data cp m = gfx_read_char V data cur cp m.
Proof. intros Hm. unfold vgafb_read_char. rewrite Hm, (proj2 (Z.eqb_neq _ _) Hcur), Hmodel. done. Qed.

(** Colours and attribute. *)
Lemma attribute_parts a : 0 <= a < 256 ->
  u8 (Z.lor (Z.land a 0x0f) (Z.shiftl (Z.shiftr a 4) 4)) = a /\ 0 <= Z.land a 0x0f < 16 /\ 0 <= Z.shiftr a 4 < 16.
Proof.
  intros Ha. split; [|split].
  - assert ((fun a => u8 (Z.lor (Z.land a 0x0f) (Z.shiftl (Z.shiftr a 4) 4))) <$> seqZ 0 256 = seqZ 0 256) as H
      by (vm_compute; reflexivity).
    apply (f_equal (fun l => l !! Z.to_nat a)) in H. rewrite list_lookup_fmap, lookup_seqZ_lt in H by lia.
    cbn [fmap option_fmap option_map] in H. apply (inj Some) in H. by rewrite Z.add_0_l, Z2Nat.id in H by lia.
  - change 0x0f with (Z.ones 4). rewrite Z.land_ones by lia. apply Z.mod_pos_bound. lia.
  - rewrite Z.shiftr_div_pow2 by lia. change (2 ^ 4) with 16. Z.div_mod_to_equations. lia.
Qed.

Lemma cell_elsewhere m cp a : on_screen V b size pitch m cp -> elsewhere V data size a ->
  forall r, 0 <= r < GET_BDA 2 m char_height ->
  a < cell V b pitch (char_x cp) (char_y m cp + r) \/
  cell V b pitch (char_x cp) (char_y m cp + r) + 8 * Z.of_nat b <= a.
Proof.
  intros (_ & _ & _ & Hl) [He _] r Hr.
  destruct (cell_range V data d b Hd size pitch Hscreen (char_x cp) (char_y m cp) _ r Hl Hr). lia.
Qed.

(** Writing at a position with an attribute, then reading there. *)
Lemma write_then_read m cp ca : console m -> on_screen V b size pitch m cp -> readable m (car ca) ->
  0 <= attr ca < 256 -> Z.land (attr ca) 0x0f <> Z.shiftr (attr ca) 4 -> use_attr ca <> 0 ->
  let m' := gfx_write_char V data cur cp ca m in
  console m' /\ agrees V data size m m' /\
  (gfx_read_char V data cur cp m').1 = mkChar (car ca) (attr ca) 0.
Proof.
  intros Hc Hs Hr Ha Hne Hu m'. pose proof (con_text _ Hc) as Ht. destruct (attribute_parts _ Ha) as (Hat & Hfg & Hbg).
  destruct (write_char_spec V data cur d b Hmodel Hdepth Hd fb_nonzero size pitch Hscreen Hpitch m cp ca)
    as (Hok & Hg & Hfr); try done; [destruct Hr; lia|]. fold m' in Hok, Hg, Hfr.
  assert (agrees V data size m m') as Hag.
  { intros a Ha'. apply Hfr; [by apply cell_elsewhere|apply Ha']. }
  pose proof (console_agrees m m' Hc Hok Hag) as Hc'. split; [done|]. split; [done|].
  assert (GET_BDA 2 m' char_height = GET_BDA 2 m char_height) as Hch
    by (apply (agrees_bda V data size); (done || unfold char_height; lia)).
  assert (GET_BDA 2 m' video_cols = GET_BDA 2 m video_cols) as Hvc
    by (apply (agrees_bda V data size); (done || unfold video_cols; lia)).
  assert (forall c, 0 <= c < 256 -> glyph_of m' c = glyph_of m c) as Hgl
    by (intros c Hcr; by apply (agrees_glyph V data size)).
  rewrite (read_char_spec V data cur d b Hmodel Hdepth Hd fb_nonzero size pitch Hscreen Hpitch m' cp (car ca)
    (Z.land (attr ca) 0x0f) (Z.shiftr (attr ca) 4)); try done.
  - by rewrite Hat.
  - apply Hc'.
  - unfold on_screen, char_y. by rewrite Hch, Hvc.
  - destruct Hr as (Hcr & Hex & Hla & Hfi). split; [done|]. rewrite !Hgl by lia. split; [done|]. split; [done|].
    intros c' Hc0. rewrite !Hgl by lia. by apply Hfi.
  - unfold char_y. rewrite Hch, Hgl by (destruct Hr; lia). done.
Qed.

(** The cursor of a page the interrupt can address. *)
Definition cursor_ok (m : mem) (page : Z) : Prop :=
  0 <= page <= 7 /\ on_screen V b size pitch m (get_cursor_pos page m).

Lemma cursor_agrees m m' page : text_ok V data size m -> agrees V data size m m' -> 0 <= page <= 7 ->
  get_cursor_pos page m' = get_cursor_pos page m.
Proof.
  intros Ht Hag Hp. unfold get_cursor_pos. case_match; [done|].
  by rewrite (agrees_bda V data size m m' 2) by (done || unfold cursor_pos; lia).
Qed.

Lemma write_read_entry m r : console m -> hi8 (ax r) = 9 -> cx r = 1 -> cursor_ok m (hi8 (bx r)) ->
  readable m (lo8 (ax r)) -> Z.land (lo8 (bx r)) 0x0f <> Z.shiftr (lo8 (bx r)) 4 ->
  exists m', handle_10 data ss r V m = Done (r, V, m') /\ agrees V data size m m' /\
    forall r', hi8 (ax r') = 8 -> hi8 (bx r') = hi8 (bx r) ->
    exists m'', handle_10 data ss r' V m' = Done (with_ah (lo8 (bx r)) (with_al (lo8 (ax r)) r'), V, m'').
Proof.
  intros Hc Hah Hcx [Hpg Hon] Hr Hne. set (cp := get_cursor_pos (hi8 (bx r)) m) in *.
  set (ca := mkChar (lo8 (ax r)) (lo8 (bx r)) 1).
  assert (0 <= lo8 (bx r) < 256) as Hlo by (apply wrap_fits; lia).
  destruct (write_then_read m cp ca) as (Hc' & Hag & Hread); try done.
  set (m' := gfx_write_char V data cur cp ca m) in *.
  exists m'. split; [|split; [done|]].
  - rewrite entry by done. unfold dispatch. rewrite Hah. cbn [Z.eqb Pos.eqb]. unfold handle_1009.
    rewrite Hcx. change (Z.to_nat 1) with 1%nat. cbn [write_chars]. unfold write_char. fold cp ca.
    rewrite (write_direct m cp ca (con_mode _ Hc)). fold m'. run_outcome. case_match; run_outcome; done.
  - intros r' Hah' Hbh. rewrite entry by done. unfold dispatch. rewrite Hah'. cbn [Z.eqb Pos.eqb]. unfold handle_1008.
    rewrite Hbh, (cursor_agrees m m') by (done || apply Hc). fold cp. rewrite read_direct by apply Hc'.
    destruct (gfx_read_char V data cur cp m') as [c m'']. cbn [fst] in Hread. subst c. by exists m''.
Qed.

(** * Writes to the BIOS data area *)

(** The bytes of the data area the console does not depend on. *)
Definition free_bda (n : nat) (off : Z) : Prop :=
  (0x49 <= off /\ off + Z.of_nat n <= 0x85) \/ (0x87 <= off /\ off + Z.of_nat n <= 0xb9).

Lemma ivt_other m n off v vec : 0 <= vec < 0x50 -> 0 <= off -> GET_IVT (SET_BDA n m off v) vec = GET_IVT m vec.
Proof.
  intros Hv Ho. unfold GET_IVT, SET_BDA, GET_FARVAR, SET_FARVAR. apply load_store_other. unfold far, SEG_IVT, SEG_BDA. lia.
Qed.

Lemma console_bda m n off v : console m -> free_bda n off -> console (SET_BDA n m off v).
Proof.
  intros [[Hok He Hh Hl Hf] Hm Hs] Hr. unfold free_bda in Hr.
  assert (GET_BDA 2 (SET_BDA n m off v) char_height = GET_BDA 2 m char_height) as Hch
    by (apply bda_other; unfold char_height; lia).
  split; [split|..].
  - by apply store_ok.
  - unfold vga_emulate_text in *. by rewrite bda_other by (unfold ext_flags; lia).
  - by rewrite Hch.
  - done.
  - intros c i Hc Hi. rewrite Hch in Hi.
    replace (get_font_data c (SET_BDA n m off v)) with (get_font_data c m); [by apply Hf|].
    unfold get_font_data. by rewrite Hch, !ivt_other by lia.
  - unfold get_current_mode in *. by rewrite bda_other by (unfold ext_vgamode_offset; lia).
  - by rewrite bda_other by (unfold ext_flags; lia).
Qed.

(** * The cursor *)

Lemma byte_pair x y : fits 8 x -> fits 8 y ->
  lo8 (Z.lor (Z.shiftl y 8) x) = x /\ hi8 (Z.lor (Z.shiftl y 8) x) = y /\ fits 16 (Z.lor (Z.shiftl y 8) x) /\
  Z.lor (Z.shiftl y 8) x = 256 * y + x.
Proof.
  intros Hx Hy. assert (Z.lor (Z.shiftl y 8) x = 256 * y + x) as ->.
  { rewrite Z.lor_comm, (lor_add_shift 8) by (done || lia). lia. }
  unfold fits, lo8, hi8, wrap in *. rewrite Z.shiftr_div_pow2 by lia. change (2 ^ 8) with 256 in *.
  change (2 ^ 16) with 65536 in *. repeat split; try lia; Z.div_mod_to_equations; lia.
Qed.

Lemma cursor_roundtrip m cp : 0 <= cp_page cp <= 7 -> fits 8 (cp_x cp) -> fits 8 (cp_y cp) ->
  get_cursor_pos (cp_page cp) (set_cursor_pos cp m) = cp.
Proof.
  intros Hp Hx Hy. destruct cp as [x y p]. cbn in *. unfold get_cursor_pos, set_cursor_pos. cbn [cp_x cp_y cp_page].
  destruct (Z.ltb_spec 7 p); [lia|]. rewrite bda_same. destruct (byte_pair x y Hx Hy) as (Hl & Hh & Hf & _).
  change (8 * Z.of_nat 2) with 16. rewrite (wrap_small 16) by exact Hf. unfold lo8, hi8 in Hl, Hh. by rewrite Hl, Hh.
Qed.

(** * Pixels *)

Lemma console_mode_ok m : console m -> mode_ok V data cur size m.
Proof. intros Hc. split; [apply Hc|apply Hc|apply Hc]. Qed.

(** * Plain characters *)

Lemma flip_color c : 0 <= c < 16 -> 0 <= Z.lxor c 7 < 16.
Proof.
  intros Hc. assert (forallb (fun c => (0 <=? Z.lxor c 7) && (Z.lxor c 7 <? 16)) (seqZ 0 16) = true) as H
    by (vm_compute; reflexivity).
  rewrite forallb_forall in H. specialize (H c). rewrite <- list_elem_of_In, elem_of_seqZ in H. specialize (H ltac:(lia)).
  apply andb_prop in H as [H1 H2]. apply Z.leb_le in H1. apply Z.ltb_lt in H2. lia.
Qed.

(** The attribute of the pixel at the bottom right of a cell. *)
Definition background (m : mem) (cp : cursorpos) : Z :=
  reverse_color d (load b m (cell V b pitch (char_x cp) (char_y m cp + (GET_BDA 2 m char_height - 1)) + 7 * Z.of_nat b)).

(** Without an attribute the glyph is drawn on the background of the cell. *)
Lemma write_plain_spec m cp ca : text_ok V data size m -> on_screen V b size pitch m cp ->
  0 <= car ca < 256 -> use_attr ca = 0 ->
  let m' := gfx_write_char V data cur cp ca m in
  mem_ok m' /\
  shows_glyph V d b pitch m' (char_x cp) (char_y m cp) (glyph_of m (car ca))
    (Z.lxor (background m cp) 7) (background m cp) /\
  (forall a, (forall r, 0 <= r < GET_BDA 2 m char_height ->
      a < cell V b pitch (char_x cp) (char_y m cp + r) \/
      cell V b pitch (char_x cp) (char_y m cp + r) + 8 * Z.of_nat b <= a) ->
    (a < data \/ data + 32 <= a) -> m' a = m a).
Proof.
  intros Ht Hs Hc Hu m'. subst m'. pose proof Hs as (Hx & Hy & Hcol & Hl). pose proof (text_height _ _ _ _ Ht) as Hh.
  set (h := GET_BDA 2 m char_height) in *.
  unfold gfx_write_char. fold h. destruct (Z.leb_spec (GET_BDA 2 m video_cols) (cp_x cp)); [lia|].
  pose proof (text_font _ _ _ _ Ht (car ca)) as Hf. pose proof (glyph_length m (car ca)) as Hgl. fold h in Hf, Hgl.
  unfold glyph_of in Hgl. unfold glyph_of at 1. destruct (get_font_data (car ca) m) as [seg off] eqn:Hfd. cbn [fst snd] in Hf.
  fold h in Hgl |- *. rewrite (text_emulated _ _ _ _ Ht), Hu. cbn [negb Z.eqb].
  set (o0 := with_pos (cp_x cp * 8) (cp_y cp * h) (init_gfx_op V cur)).
  assert (at_cell cur pitch (with_y (op_y o0 + (h - 1)) (with_op GO_READ8 o0)) (char_x cp) (char_y m cp + (h - 1))) as Hlo.
  { eapply (cell_of_cp V cur b size pitch); try done; fold h; lia. }
  assert (lines_ok V b size pitch (char_x cp) (char_y m cp + (h - 1)) 1) as Hl1.
  { destruct Hl as (? & ? & ? & ? & Hend). do 4 (split; [lia|]). intros _.
    replace (char_y m cp + (h - 1) + 1 - 1) with (char_y m cp + h - 1) by lia. apply Hend. lia. }
  destruct (cell_op V data cur d b Hd fb_nonzero size pitch Hscreen _ _ _ _ Hlo Hl1 ltac:(lia)) as (Hat & Hop & Hdc).
  destruct (read8_spec V data cur d b Hmodel Hdepth Hd fb_nonzero _ m (text_mem _ _ _ _ Ht) Hop Hdc eq_refl)
    as (m1 & -> & Hok1 & Hm1). rewrite Hat.
  set (o1 := with_pixels _ _). assert (pixel o1 7 = background m cp) as -> by done.
  assert (0 <= background m cp < 16) as Hbg by apply reverse_color_range. set (bg := background m cp) in *.
  set (G := load_bytes m (far seg off) _) in *. cbv iota beta. rewrite <- Hgl.
  destruct (write_lines_spec V data cur d b Hmodel Hdepth Hd fb_nonzero size pitch Hscreen G (char_x cp) (char_y m cp) 0
    (with_y (op_y o1 - (h - 1)) o1) m1 seg off (Z.lxor bg 7) bg) as (H1 & H2 & H3); try done.
  - destruct Hlo as [? ? ? ? Hoy]. split; cbn; try done. cbn in Hoy. rewrite Hoy.
    replace (char_y m cp + (h - 1) - (h - 1)) with (char_y m cp) by lia.
    destruct Hl as (_ & ? & _ & ? & _). apply wrap_small. unfold fits. lia.
  - rewrite Hgl, Z2Nat.id by lia. done.
  - rewrite Z.add_0_r. split.
    + rewrite Hgl. apply load_bytes_ext. intros a Ha. apply Hm1.
      replace a with (far seg off + (a - far seg off)) by lia. apply Hf; lia.
    + intros i Hi. apply Hf; lia.
  - by apply flip_color.
  - split; [done|]. split; [done|]. intros a Har Had. rewrite H3; [by apply Hm1| |done]. intros r Hr. apply Har. lia.
Qed.

(** * The teletype *)

(** The screen is [cols] columns by [rows + 1] rows of characters, all of them
    on the framebuffer, with room to read one more row below. *)
Record grid (m : mem) (cols rows : Z) : Prop := {
  grid_cols : GET_BDA 2 m video_cols = cols;
  grid_rows : GET_BDA 1 m video_rows = rows;
  grid_size : 0 < cols < 256 /\ 0 < rows < 255;
  grid_window : window V b size pitch m 0 0 cols (rows + 1);
  grid_below : cell V b pitch 0 ((rows + 2) * GET_BDA 2 m char_height - 1) + 8 * cols * Z.of_nat b <= 2 ^ 32
}.

Definition inside (cols rows : Z) (cp : cursorpos) : Prop := 0 <= cp_x cp < cols /\ 0 <= cp_y cp <= rows.

Lemma grid_agrees m m' cols rows : text_ok V data size m -> agrees V data size m m' -> grid m cols rows -> grid m' cols rows.
Proof.
  intros Ht Hag [H1 H2 H3 H4 H5].
  assert (GET_BDA 2 m' char_height = GET_BDA 2 m char_height) as Hch
    by (apply (agrees_bda V data size); (done || unfold char_height; lia)).
  split; [..|done| |].
  - by rewrite (agrees_bda V data size m m' 2) by (done || unfold video_cols; lia).
  - by rewrite (agrees_bda V data size m m' 1) by (done || unfold video_rows; lia).
  - unfold window in *. by rewrite Hch.
  - by rewrite Hch.
Qed.

Lemma grid_on_screen m cols rows cp : text_ok V data size m -> grid m cols rows -> inside cols rows cp ->
  on_screen V b size pitch m cp.
Proof.
  intros Ht [H1 H2 H3 (_ & _ & _ & _ & _ & Hr) _] [Hx Hy]. pose proof (text_height _ _ _ _ Ht) as Hh.
  pose proof (b_range d b Hd) as Hb. set (h := GET_BDA 2 m char_height) in *.
  assert (cp_y cp * h + h <= (rows + 1) * h) by nia. assert (0 <= cp_y cp * h) by nia.
  destruct (rect_rows V data d b Hd size pitch Hscreen _ _ _ _ (cp_y cp * h + h - 1) Hr ltac:(lia)) as [_ He].
  pose proof (rect_high _ _ _ _ _ _ _ _ Hr) as Hhi.
  split; [lia|]. split; [lia|]. split; [lia|]. unfold char_x, char_y. fold h.
  do 2 (split; [lia|]). split; [lia|]. split; [lia|]. intros _. unfold cell in *.
  replace (8 * 0) with 0 in He by lia. assert (8 * cp_x cp * Z.of_nat b + 8 * Z.of_nat b <= 8 * cols * Z.of_nat b) by nia. lia.
Qed.

(** * What the screen shows

    A picture has for each cell the character it shows, if any, and the
    background colour.  The glyph is in the background colour xor 7. *)

Definition picture : Type := Z -> Z -> option Z * Z.

Definition drawn (font : Z -> list Z) (h : Z) (c : option Z) : list Z :=
  match c with Some c => font c | None => replicate (Z.to_nat h) 0 end.

Definition cell_shows (font : Z -> list Z) (h : Z) (m : mem) (x y : Z) (s : option Z * Z) : Prop :=
  (forall c, s.1 = Some c -> 0 <= c < 256) /\ 0 <= s.2 < 16 /\
  shows_glyph V d b pitch m (8 * x) (y * h) (drawn font h s.1) (Z.lxor s.2 7) s.2.

Definition displays (font : Z -> list Z) (h : Z) (m : mem) (cols rows : Z) (P : picture) : Prop :=
  forall x y, 0 <= x < cols -> 0 <= y <= rows -> cell_shows font h m x y (P x y).

(** The font in memory, above the data area. *)
Definition font_is (font : Z -> list Z) (h : Z) (m : mem) : Prop :=
  GET_BDA 2 m char_height = h /\ forall c, 0 <= c < 256 -> glyph_of m c = font c /\
    0x500 <= far (get_font_data c m).1 (get_font_data c m).2.

Lemma font_agrees font h m m' : text_ok V data size m -> agrees V data size m m' -> font_is font h m -> font_is font h m'.
Proof.
  intros Ht Hag [H1 H2]. split; [by rewrite (agrees_bda V data size m m' 2) by (done || unfold char_height; lia)|].
  intros c Hc. rewrite (agrees_glyph V data size m m'), (agrees_font V data size m m') by done. auto.
Qed.

Lemma drawn_length font h m c : font_is font h m -> (forall c', c = Some c' -> 0 <= c' < 256) ->
  length (drawn font h c) = Z.to_nat h.
Proof.
  intros [H1 H2] Hc. destruct c as [c|]; cbn [drawn]; [|by rewrite length_replicate].
  destruct (H2 c) as [<- _]; [by auto|]. by rewrite glyph_length, H1.
Qed.

(** The same pixels elsewhere show the same. *)
Lemma shows_shift m m' X Y X0 Y0 G fg bg :
  (forall r k, 0 <= r < Z.of_nat (length G) -> 0 <= k < 8 * Z.of_nat b ->
     m' (cell V b pitch X (Y + r) + k) = m (cell V b pitch X0 (Y0 + r) + k)) ->
  shows_glyph V d b pitch m X0 Y0 G fg bg -> shows_glyph V d b pitch m' X Y G fg bg.
Proof.
  intros Heq Hs r line j Hr Hj. rewrite <- (Hs r line j Hr Hj). apply lookup_lt_Some in Hr.
  pose proof (b_range d b Hd) as Hb. unfold load. f_equal. apply load_bytes_shift. intros i Hi.
  rewrite <- !Z.add_assoc. apply Heq; [lia|].
  assert (Z.of_nat j * Z.of_nat b <= 7 * Z.of_nat b) by (apply Z.mul_le_mono_nonneg_r; lia).
  assert (0 <= Z.of_nat j * Z.of_nat b) by lia. lia.
Qed.

Lemma cell_shows_shift font h m m' m0 x y x0 y0 s : font_is font h m0 -> 0 <= h ->
  (forall r k, 0 <= r < h -> 0 <= k < 8 * Z.of_nat b ->
     m' (cell V b pitch (8 * x) (y * h + r) + k) = m (cell V b pitch (8 * x0) (y0 * h + r) + k)) ->
  cell_shows font h m x0 y0 s -> cell_shows font h m' x y s.
Proof.
  intros Hf Hh Heq (H1 & H2 & H3). split; [done|]. split; [done|]. eapply shows_shift; [|exact H3].
  intros r k Hr Hk. apply Heq; [|done]. rewrite (drawn_length font h m0) in Hr by done. lia.
Qed.

(** Two lines of cells do not overlap. *)
Lemma cells_apart cols x Y x' Y' k : 0 <= x < cols -> 0 <= x' < cols -> 8 * cols * Z.of_nat b <= pitch ->
  x <> x' \/ Y <> Y' -> 0 <= k < 8 * Z.of_nat b ->
  cell V b pitch (8 * x') Y' + k < cell V b pitch (8 * x) Y \/
  cell V b pitch (8 * x) Y + 8 * Z.of_nat b <= cell V b pitch (8 * x') Y' + k.
Proof.
  intros Hx Hx' Hp Hne Hk. unfold cell. set (B := Z.of_nat b) in *.
  assert (0 <= 8 * x * B /\ 8 * x * B + 8 * B <= 8 * cols * B) as H1 by nia.
  assert (0 <= 8 * x' * B /\ 8 * x' * B + 8 * B <= 8 * cols * B) as H2 by nia.
  destruct (Z.lt_trichotomy Y' Y) as [Hlt|[->|Hgt]].
  - left. assert (Y' * pitch + pitch <= Y * pitch) by nia. lia.
  - assert (x' * B + B <= x * B \/ x * B + B <= x' * B) by nia. lia.
  - right. assert (Y * pitch + pitch <= Y' * pitch) by nia. lia.
Qed.

(** What typing does to a picture.  The background of a cell is the colour of
    the pixel at its bottom right. *)
Definition corner (font : Z -> list Z) (h : Z) (c : option Z) : bool :=
  match last (drawn font h c) with Some line => font_bit line 7 | None => false end.

Definition typed (font : Z -> list Z) (h c x y : Z) (P : picture) : picture := fun x' y' =>
  if decide (x' = x /\ y' = y)
  then (Some c, if corner font h (P x y).1 then Z.lxor (P x y).2 7 else (P x y).2)
  else P x' y'.

(** One row up; the last row becomes blank, in colour 0. *)
Definition scrolled (rows : Z) (P : picture) : picture := fun x y =>
  if y =? rows then (None, 0) else P x (y + 1).

(** Where the cursor goes and what the screen shows: the specification of the
    teletype. *)
Definition tty_move (cols c : Z) (p : Z * Z) : Z * Z :=
  let '(x, y) := p in
  if c =? 7 then (x, y)
  else if c =? 8 then (Z.max 0 (x - 1), y)
  else if c =? 13 then (0, y)
  else if c =? 10 then (x, y + 1)
  else if x + 1 =? cols then (0, y + 1) else (x + 1, y).

Definition tty_step (cols rows c : Z) (p : Z * Z) : Z * Z :=
  let '(x, y) := tty_move cols c p in (x, Z.min y rows).

Definition is_control (c : Z) : bool := (c =? 7) || (c =? 8) || (c =? 13) || (c =? 10).

Definition tty_draw (font : Z -> list Z) (h cols rows c : Z) (p : Z * Z) (P : picture) : picture :=
  let P := if is_control c then P else typed font h c p.1 p.2 P in
  if rows <? (tty_move cols c p).2 then scrolled rows P else P.

(** All of [cs], from the cursor [p] and the picture [P]. *)
Definition tty_type (font : Z -> list Z) (h cols rows : Z) (s : (Z * Z) * picture) (cs : list Z) : (Z * Z) * picture :=
  foldl (fun '(p, P) c => (tty_step cols rows c p, tty_draw font h cols rows c p P)) s cs.

Lemma background_shown font h m cp s : text_ok V data size m -> font_is font h m ->
  cell_shows font h m (cp_x cp) (cp_y cp) s ->
  background m cp = if corner font h s.1 then Z.lxor s.2 7 else s.2.
Proof.
  intros Ht Hf (H1 & H2 & H3). pose proof (text_height _ _ _ _ Ht) as Hh. pose proof (proj1 Hf) as Hch.
  pose proof (drawn_length font h m _ Hf H1) as Hlen. unfold background, corner, char_x, char_y. rewrite Hch in *.
  destruct (last (drawn font h s.1)) as [line|] eqn:El; [|apply last_None in El; rewrite El in Hlen; cbn in Hlen; lia].
  rewrite last_lookup, Hlen in El. specialize (H3 _ line 7%nat El ltac:(lia)).
  replace (Z.of_nat (pred (Z.to_nat h))) with (h - 1) in H3 by lia. change (Z.of_nat 7) with 7 in H3. rewrite H3.
  destruct (font_bit line 7); apply (color_roundtrip d b); (done || by apply flip_color).
Qed.

(** The picture after a plain character. *)
Lemma plain_displays font h m cp ca cols rows P : text_ok V data size m -> grid m cols rows -> inside cols rows cp ->
  0 <= car ca < 256 -> use_attr ca = 0 -> font_is font h m -> displays font h m cols rows P ->
  displays font h (gfx_write_char V data cur cp ca m) cols rows (typed font h (car ca) (cp_x cp) (cp_y cp) P).
Proof.
  intros Ht Hg Hi Hc Hu Hf HP x y Hx Hy. pose proof (grid_on_screen _ _ _ _ Ht Hg Hi) as Hs.
  destruct (write_plain_spec m cp ca Ht Hs Hc Hu) as (_ & Hsh & Hfr). destruct Hi as [Hix Hiy].
  pose proof (text_height _ _ _ _ Ht) as Hh. pose proof (proj1 Hf) as Hch. unfold typed.
  destruct (decide (x = cp_x cp /\ y = cp_y cp)) as [[-> ->]|Hne].
  - pose proof (HP _ _ Hix Hiy) as Hcell. rewrite <- (background_shown font h m cp) by done.
    unfold char_x, char_y in Hsh. rewrite Hch, (proj1 (proj2 Hf _ Hc)) in Hsh.
    split; [by intros c [= <-]|]. split; [apply reverse_color_range|done].
  - rewrite Hch in Hh. apply (cell_shows_shift font h m _ m x y x y); [done|lia| |by apply HP].
    intros r k Hr Hk. pose proof (grid_window _ _ _ Hg) as (_ & _ & _ & _ & _ & Hrect).
    pose proof (rect_wide _ _ _ _ _ _ _ _ Hrect) as (_ & Hwide & _).
    assert (cp_x cp <> x \/ (forall r', 0 <= r' < h -> cp_y cp * h + r' <> y * h + r)) as Hap by (destruct (decide (cp_x cp = x)); [right; nia|by left]).
    apply Hfr.
    + intros r' Hr'. unfold char_x, char_y. rewrite Hch in *. apply (cells_apart cols); try done.
      destruct Hap as [?|Hap]; [by left|right; auto].
    + assert (on_screen V b size pitch m (mkPos x y 0)) as (_ & _ & _ & Hl) by (eapply grid_on_screen; [done|done|by split]).
      unfold char_x, char_y in Hl. cbn [cp_x cp_y] in Hl. rewrite Hch in Hl.
      destruct (cell_range V data d b Hd size pitch Hscreen _ _ _ r Hl ltac:(lia)).
      destruct Hscreen as [_ Hdata _]. lia.
Qed.

(** The picture of [m'], from that of [m]; the font stays. *)
Definition redraws (m m' : mem) (cols rows : Z) (f : (Z -> list Z) -> Z -> picture -> picture) : Prop :=
  forall font h P, font_is font h m -> displays font h m cols rows P ->
    font_is font h m' /\ displays font h m' cols rows (f font h P).

Lemma write_char_console m cp ca cols rows : console m -> grid m cols rows -> inside cols rows cp ->
  0 <= car ca < 256 -> 0 <= attr ca < 256 ->
  exists m', write_char V data ss cp ca m =
    Done (if cp_x cp + 1 =? cols then mkPos 0 (cp_y cp + 1) (cp_page cp)
          else mkPos (cp_x cp + 1) (cp_y cp) (cp_page cp), m') /\ console m' /\ agrees V data size m m' /\
    (use_attr ca = 0 -> redraws m m' cols rows (fun font h => typed font h (car ca) (cp_x cp) (cp_y cp))).
Proof.
  intros Hc Hg Hi Hch Ha. pose proof (con_text _ Hc) as Ht.
  pose proof (grid_on_screen _ _ _ _ Ht Hg Hi) as Hs. set (m' := gfx_write_char V data cur cp ca m).
  assert (mem_ok m' /\ agrees V data size m m') as [Hok Hag].
  { destruct (decide (use_attr ca = 0)) as [Hu|Hu].
    - destruct (write_plain_spec m cp ca) as (H1 & _ & H3); try done. split; [done|].
      intros a Ha'. apply H3; [by apply cell_elsewhere|apply Ha'].
    - destruct (write_char_spec V data cur d b Hmodel Hdepth Hd fb_nonzero size pitch Hscreen Hpitch m cp ca)
        as (H1 & _ & H3); try done. split; [done|]. intros a Ha'. apply H3; [by apply cell_elsewhere|apply Ha']. }
  exists m'. split; [|split; [by eapply console_agrees|split; [done|]]].
  2:{ intros Hu font h P Hf HP. split; [by eapply font_agrees|by apply plain_displays]. }
  unfold write_char. rewrite (write_direct m cp ca (con_mode _ Hc)). fold m'. run_outcome.
  destruct (grid_agrees m m' cols rows Ht Hag Hg) as [-> _ Hsz _ _]. destruct Hi as [Hx Hy].
  rewrite (wrap_small 8 (cp_x cp + 1)), (wrap_small 8 (cp_y cp + 1)) by (unfold fits; lia).
  by destruct (cp_x cp + 1 =? cols).
Qed.

(** The picture after a scroll by one row: the lines that moved and the line
    that was cleared. *)
Lemma scroll_displays font h m m' cols rows P : font_is font h m -> 0 < h -> 0 < cols ->
  (forall i j, 0 <= i < rows * h -> 0 <= j < 8 * cols * Z.of_nat b ->
     m' (cell V b pitch 0 i + j) = m (cell V b pitch 0 (h + i) + j)) ->
  (forall i j, rows * h <= i < (rows + 1) * h -> 0 <= j < 8 * cols ->
     load b m' (cell V b pitch 0 i + j * Z.of_nat b) = get_color d 0) ->
  displays font h m cols rows P -> displays font h m' cols rows (scrolled rows P).
Proof.
  intros Hf Hh Hco Hmv Hbl HP x y Hx Hy. unfold scrolled. pose proof (b_range d b Hd) as Hb.
  assert (forall Y k, cell V b pitch (8 * x) Y + k = cell V b pitch 0 Y + (8 * x * Z.of_nat b + k)) as Hcell
    by (intros; unfold cell; lia).
  assert (0 <= 8 * x * Z.of_nat b /\ 8 * x * Z.of_nat b + 8 * Z.of_nat b <= 8 * cols * Z.of_nat b) as Hxb by nia.
  destruct (Z.eqb_spec y rows) as [->|Hne].
  - split; [done|]. split; [done|]. cbn [fst snd drawn]. intros r line j Hr Hj.
    apply lookup_replicate in Hr as [-> Hr]. rewrite Hcell.
    replace (8 * x * Z.of_nat b + Z.of_nat j * Z.of_nat b) with ((8 * x + Z.of_nat j) * Z.of_nat b) by lia.
    rewrite Hbl by lia. by destruct j as [|[|[|[|[|[|[|[|]]]]]]]]; try lia.
  - apply (cell_shows_shift font h m m' m x y x (y + 1)); [done|lia| |apply HP; lia].
    intros r k Hr Hk. rewrite !Hcell. rewrite Hmv by nia.
    by replace ((y + 1) * h + r) with (h + (y * h + r)) by lia.
Qed.

Lemma teletype_scrolls m p cols rows : console m -> grid m cols rows ->
  exists m', vgafb_scroll V data ss (mkPos 0 0 p) (mkPos (u8 (GET_BDA 2 m video_cols)) (u8 (rows + 1)) 0) 1 (mkChar 32 0 0) m =
    Done m' /\ console m' /\ agrees V data size m m' /\ redraws m m' cols rows (fun _ _ => scrolled rows).
Proof.
  intros Hc [Hco Hro Hsz Hw Hb]. pose proof (con_text _ Hc) as Ht. pose proof (text_height _ _ _ _ Ht) as Hh.
  rewrite Hco, !(wrap_small 8) by (unfold fits; lia).
  destruct (scroll_spec V data cur d b Hmodel Hdepth Hd size pitch Hscreen Hpitch m Ht
    (conj (con_mode _ Hc) Hcur) ss p 0 0 0 cols (rows + 1) 1 (mkChar 32 0 0))
    as (m' & Hrun & Hok & Hmv & Hbl & Hfr); try done; [lia| |].
  { unfold from. rewrite (wrap_small 16) by (unfold fits; lia). rewrite Z.mul_0_l, Z.add_0_l, Z.mul_1_l.
    replace (GET_BDA 2 m char_height + (rows + 1) * GET_BDA 2 m char_height - 1)
      with ((rows + 2) * GET_BDA 2 m char_height - 1) by lia. by rewrite Z.mul_0_r. }
  assert (agrees V data size m m') as Hag by (eapply (agrees_outside V data d b Hd size pitch Hscreen); [apply Hw|done]).
  exists m'. split; [done|]. split; [by eapply console_agrees|]. split; [done|].
  intros font h P Hf HP. split; [by eapply font_agrees|]. pose proof (proj1 Hf) as Hch.
  assert (from m 0 1 = h) as Hfrom.
  { unfold from. rewrite Hch, Z.mul_0_l, Z.add_0_l, Z.mul_1_l. apply wrap_small. unfold fits. lia. }
  rewrite Hfrom, Hch in *. unfold blank in Hmv, Hbl. cbn [Z.ltb Z.compare Z.abs] in Hmv, Hbl.
  apply (scroll_displays font h m m'); [done|lia|lia| | |done]; intros i j Hi Hj.
  - specialize (Hmv i j ltac:(lia) ltac:(lia) ltac:(lia)). by rewrite Z.mul_0_r, Z.mul_0_l, Z.add_0_l in Hmv.
  - specialize (Hbl i j ltac:(lia) ltac:(lia)). by rewrite Z.mul_0_r, Z.mul_0_l, Z.add_0_l in Hbl.
Qed.

Lemma teletype_spec m cp ca cols rows : console m -> grid m cols rows -> inside cols rows cp ->
  0 <= car ca < 256 -> 0 <= attr ca < 256 ->
  exists m', write_teletype V data ss cp ca m =
    Done (let '(x, y) := tty_step cols rows (car ca) (cp_x cp, cp_y cp) in mkPos x y (cp_page cp), m') /\
    console m' /\ agrees V data size m m' /\
    (use_attr ca = 0 -> redraws m m' cols rows (fun font h => tty_draw font h cols rows (car ca) (cp_x cp, cp_y cp))).
Proof.
  intros Hc Hg Hi Hch Ha. pose proof (grid_size _ _ _ Hg) as Hsz. pose proof Hi as [Hx Hy].
  unfold write_teletype.
  set (step := tty_move cols (car ca) (cp_x cp, cp_y cp)).
  set (draw := fun font h P => if is_control (car ca) then P else typed font h (car ca) (cp_x cp) (cp_y cp) P).
  assert (exists m1, (if car ca =? 7 then mret (cp, m)
     else if car ca =? 8 then mret (if 0 <? cp_x cp then mkPos (cp_x cp - 1) (cp_y cp) (cp_page cp) else cp, m)
     else if car ca =? 13 then mret (mkPos 0 (cp_y cp) (cp_page cp), m)
     else if car ca =? 10 then mret (mkPos (cp_x cp) (u8 (cp_y cp + 1)) (cp_page cp), m)
     else write_char V data ss cp ca m) = Done (mkPos (fst step) (snd step) (cp_page cp), m1) /\
     console m1 /\ agrees V data size m m1 /\ (use_attr ca = 0 -> redraws m m1 cols rows draw) /\ snd step <= rows + 1)
    as (m1 & -> & Hc1 & Hag & Hdr & Hst).
  { unfold step, draw, tty_move, is_control. rewrite (wrap_small 8) by (unfold fits; lia).
    destruct (write_char_console m cp ca cols rows Hc Hg Hi Hch Ha) as (m1 & Hw & Hc1 & Hag & Hre).
    destruct (car ca =? 7); [exists m; cbn; destruct cp; by split_and!; try lia|].
    destruct (car ca =? 8).
    { exists m. cbn. destruct (Z.ltb_spec 0 (cp_x cp)); split_and!; try done; try lia.
      - by rewrite Z.max_r by lia.
      - rewrite Z.max_l by lia. destruct cp as [x y p]. cbn in *. by replace x with 0 by lia. }
    destruct (car ca =? 13); [exists m; cbn; by split_and!; try lia|].
    destruct (car ca =? 10); [exists m; cbn; by split_and!; try lia|].
    exists m1. rewrite Hw. destruct (cp_x cp + 1 =? cols); cbn; by split_and!; try lia. }
  run_outcome. pose proof (grid_agrees m m1 cols rows (con_text _ Hc) Hag Hg) as Hg1.
  rewrite (grid_rows _ _ _ Hg1). unfold tty_step, tty_draw. cbn [fst snd]. fold step. destruct step as [x y].
  cbn [fst snd cp_x cp_y cp_page] in *. destruct (Z.ltb_spec rows y).
  - destruct (teletype_scrolls m1 (cp_page cp) cols rows Hc1 Hg1) as (m2 & -> & Hc2 & Hag2 & Hre). run_outcome.
    rewrite wrap_small by (unfold fits; lia). exists m2. replace (y - 1) with (Z.min y rows) by lia.
    split; [done|]. split; [done|]. split; [intros a Ha'; rewrite Hag2 by done; by apply Hag|].
    intros Hu font h P Hf HP. destruct (Hdr Hu font h P Hf HP). by apply Hre.
  - exists m1. by rewrite Z.min_l.
Qed.

Lemma tty_inside cols rows c x y : 0 < cols -> 0 <= x < cols -> 0 <= y <= rows ->
  let '(x', y') := tty_step cols rows c (x, y) in 0 <= x' < cols /\ 0 <= y' <= rows.
Proof.
  intros Hc Hx Hy. unfold tty_step, tty_move. destruct (c =? 7); [lia|]. destruct (c =? 8); [lia|]. destruct (c =? 13); [lia|].
  destruct (c =? 10); [lia|]. destruct (Z.eqb_spec (x + 1) cols); lia.
Qed.

(** The call of function 0Eh for a character. *)
Definition type_regs (bl c : Z) : bregs := mkRegs (0x0e00 + c) bl 0 0 0 0 0.

Fixpoint type_out (bl : Z) (cs : list Z) (m : mem) : outcome mem :=
  match cs with
  | [] => mret m
  | c :: cs' => '(_, _, m) ← handle_10 data ss (type_regs bl c) V m; type_out bl cs' m
  end.

(** The console, its grid and the cursor of the page in use. *)
Record terminal (m : mem) (cols rows page x y : Z) : Prop := {
  term_console : console m;
  term_grid : grid m cols rows;
  term_page : GET_BDA 1 m video_page = page /\ 0 <= page <= 7;
  term_cursor : get_cursor_pos page m = mkPos x y page;
  term_inside : 0 <= x < cols /\ 0 <= y <= rows
}.

(** Bytes typing does not touch: off the screen, and not the cursor's word. *)
Definition untouched (page a : Z) : Prop :=
  elsewhere V data size a /\ (a < 0x450 + 2 * page \/ 0x452 + 2 * page <= a).

Lemma set_cursor_terminal m cols rows page x y x' y' : terminal m cols rows page x y ->
  0 <= x' < cols -> 0 <= y' <= rows -> terminal (set_cursor_pos (mkPos x' y' page) m) cols rows page x' y'.
Proof.
  intros [Hc Hg [Hp Hpr] _ _] Hx Hy. pose proof (grid_size _ _ _ Hg) as Hsz.
  assert (set_cursor_pos (mkPos x' y' page) m = SET_BDA 2 m (cursor_pos page) (Z.lor (Z.shiftl y' 8) x')) as Heq.
  { unfold set_cursor_pos. cbn [cp_page cp_x cp_y]. by destruct (Z.ltb_spec 7 page); [lia|]. }
  assert (free_bda 2 (cursor_pos page)) as Hfree by (unfold free_bda, cursor_pos; lia).
  split.
  - rewrite Heq. by apply console_bda.
  - rewrite Heq. destruct Hg as [H1 H2 H3 H4 H5].
    assert (GET_BDA 2 (SET_BDA 2 m (cursor_pos page) (Z.lor (Z.shiftl y' 8) x')) char_height = GET_BDA 2 m char_height)
      as Hch by (apply bda_other; unfold cursor_pos, char_height; lia).
    split; [| |done|unfold window; by rewrite Hch|by rewrite Hch];
      rewrite bda_other by (unfold cursor_pos, video_cols, video_rows; lia); done.
  - rewrite Heq. rewrite bda_other by (unfold cursor_pos, video_page; lia). done.
  - change page with (cp_page (mkPos x' y' page)) at 1. apply cursor_roundtrip; cbn; (done || unfold fits; lia).
  - done.
Qed.

(** The cursor's word is below the font and the screen. *)
Lemma cursor_high cp m a : 0x500 <= a -> set_cursor_pos cp m a = m a.
Proof.
  intros Ha. unfold set_cursor_pos. destruct (Z.ltb_spec 7 (cp_page cp)); [done|].
  apply store_out. unfold far, SEG_BDA, cursor_pos. lia.
Qed.

Lemma cursor_font font h cp m : 0 <= cp_page cp -> font_is font h m -> font_is font h (set_cursor_pos cp m).
Proof.
  intros Hp [H1 H2]. assert (GET_BDA 2 (set_cursor_pos cp m) char_height = GET_BDA 2 m char_height) as Hch.
  { unfold set_cursor_pos. destruct (Z.ltb_spec 7 (cp_page cp)); [done|].
    apply bda_other. unfold cursor_pos, char_height. lia. }
  assert (forall c, get_font_data c (set_cursor_pos cp m) = get_font_data c m) as Hfd.
  { intros c. unfold get_font_data. rewrite Hch. unfold set_cursor_pos. destruct (Z.ltb_spec 7 (cp_page cp)); [done|].
    by rewrite !ivt_other by (unfold cursor_pos; lia). }
  split; [by rewrite Hch|]. intros c Hc. rewrite Hfd. destruct (H2 c Hc) as [Hg Hhi]. split; [|done].
  rewrite <- Hg. unfold glyph_of. rewrite Hfd, Hch. destruct (get_font_data c m) as [seg off]. cbn [fst snd] in Hhi.
  apply load_bytes_ext. intros x Hx. apply cursor_high. lia.
Qed.

Lemma type_one m bl c cols rows page x y : terminal m cols rows page x y -> 0 <= c < 256 -> 0 <= bl < 256 ->
  exists m', handle_10 data ss (type_regs bl c) V m = Done (type_regs bl c, V, m') /\
    (let '(x', y') := tty_step cols rows c (x, y) in terminal m' cols rows page x' y') /\
    (forall a, untouched page a -> m' a = m a) /\ redraws m m' cols rows (fun font h => tty_draw font h cols rows c (x, y)).
Proof.
  intros Ht Hcr Hbl. pose proof Ht as [Hc Hg [Hp Hpr] Hcu Hi].
  assert (hi8 (0x0e00 + c) = 0x0e /\ lo8 (0x0e00 + c) = c /\ lo8 bl = bl) as (Hhi & Hlo & Hb8).
  { unfold hi8, lo8, wrap. rewrite Z.shiftr_div_pow2 by lia. change (2 ^ 8) with 256. Z.div_mod_to_equations. lia. }
  rewrite entry by done. unfold dispatch. cbn [ax type_regs]. rewrite Hhi. cbn [Z.eqb Pos.eqb].
  unfold handle_100e. cbn [ax bx type_regs]. rewrite Hlo, Hb8, Hp, Hcu.
  destruct (teletype_spec m (mkPos x y page) (mkChar c bl 0) cols rows) as (m1 & -> & Hc1 & Hag & Hre); try done.
  run_outcome. cbn [car cp_x cp_y cp_page]. pose proof (grid_size _ _ _ Hg) as Hsz.
  pose proof (tty_inside cols rows c x y ltac:(lia) (proj1 Hi) (proj2 Hi)) as Hin.
  destruct (tty_step cols rows c (x, y)) as [x' y']. destruct Hin as [Hx' Hy'].
  eexists. split; [reflexivity|]. split; [|split].
  - apply (set_cursor_terminal m1 cols rows page x y); [|done|done]. split; [done| | | |done].
    + by eapply grid_agrees; [apply Hc| |].
    + by rewrite (agrees_bda V data size m m1 1) by (done || apply Hc || unfold video_page; lia).
    + by rewrite (cursor_agrees m m1) by (done || apply Hc).
  - intros a [He Ha]. unfold set_cursor_pos. cbn [cp_page]. destruct (Z.ltb_spec 7 page); [by apply Hag|].
    unfold SET_BDA, SET_FARVAR. rewrite store_out by (unfold far, SEG_BDA, cursor_pos; lia). by apply Hag.
  - intros font h P Hf HP. destruct (Hre eq_refl font h P Hf HP) as [Hf1 HP1].
    split; [apply cursor_font; [cbn; lia|done]|]. pose proof (text_height _ _ _ _ (con_text _ Hc1)) as Hh. rewrite (proj1 Hf1) in Hh.
    intros x0 y0 Hx0 Hy0. apply (cell_shows_shift font h m1 _ m1 x0 y0 x0 y0); [done|lia| |by apply HP1].
    intros r k Hr Hk. apply cursor_high.
    assert (on_screen V b size pitch m (mkPos x0 y0 0)) as (_ & _ & _ & Hl) by (eapply grid_on_screen; [apply Hc|done|by split]).
    unfold char_x, char_y in Hl. cbn [cp_x cp_y] in Hl. rewrite (proj1 Hf) in Hl.
    destruct (cell_range V data d b Hd size pitch Hscreen _ _ _ r Hl ltac:(lia)).
    pose proof (screen_range _ _ _ _ _ Hscreen). destruct (Z.lt_ge_cases (VBE_framebuffer V) 0x500) as [Hlt|]; [|lia].
    destruct (text_low _ _ _ _ (con_text _ Hc) (VBE_framebuffer V) ltac:(lia)) as [Hlow _]. lia.
Qed.

(** The cursor and the picture after a text. *)
Lemma type_spec bl cs : forall m cols rows page x y, terminal m cols rows page x y ->
  Forall (fun c => 0 <= c < 256) cs -> 0 <= bl < 256 ->
  exists m', type_out bl cs m = Done m' /\
    (let '(x', y') := foldl (fun p c => tty_step cols rows c p) (x, y) cs in terminal m' cols rows page x' y') /\
    (forall a, untouched page a -> m' a = m a) /\
    redraws m m' cols rows (fun font h P => (tty_type font h cols rows ((x, y), P) cs).2).
Proof.
  induction cs as [|c cs IH]; intros m cols rows page x y Ht Hcs Hbl; cbn [type_out foldl].
  - exists m. done.
  - apply Forall_cons in Hcs as [Hc Hcs].
    destruct (type_one m bl c cols rows page x y Ht Hc Hbl) as (m1 & -> & Ht1 & Hf1 & Hr1). run_outcome.
    unfold tty_type. cbn [foldl]. destruct (tty_step cols rows c (x, y)) as [x1 y1].
    destruct (IH m1 cols rows page x1 y1 Ht1 Hcs Hbl) as (m' & -> & Ht' & Hf' & Hr').
    exists m'. split; [done|]. split; [done|]. split; [intros a Ha; rewrite Hf' by done; by apply Hf1|].
    intros font h P Hf HP. destruct (Hr1 font h P Hf HP). by apply Hr'.
Qed.

(** * Scrolling *)

(** The window of a scroll call lies on the grid. *)
Definition scroll_call (cols rows : Z) (r : bregs) : Prop :=
  lo8 (cx r) <= lo8 (dx r) < cols /\ hi8 (cx r) <= hi8 (dx r) <= rows /\
  0 < lo8 (ax r) <= hi8 (dx r) - hi8 (cx r).

Definition direction (r : bregs) : Z := if hi8 (ax r) =? 6 then 1 else -1.

Lemma grid_sub m cols rows wx wy w h : text_ok V data size m -> grid m cols rows ->
  0 <= wx -> 0 < w -> wx + w <= cols -> 0 <= wy -> 0 < h -> wy + h <= rows + 1 -> window V b size pitch m wx wy w h.
Proof.
  intros Ht [H1 H2 H3 (_ & _ & _ & _ & _ & Hr) _] Hwx Hw Hxw Hwy Hh Hyh. pose proof (text_height _ _ _ _ Ht) as Hch.
  pose proof (b_range d b Hd) as Hb. set (ch := GET_BDA 2 m char_height) in *.
  do 5 (split; [lia|]). fold ch.
  assert ((wy + h) * ch <= (rows + 1) * ch) by nia. assert (0 <= wy * ch /\ 0 < h * ch) by nia.
  destruct (rect_rows V data d b Hd size pitch Hscreen _ _ _ _ (wy * ch + h * ch - 1) Hr ltac:(lia)) as [_ He].
  destruct Hr as [Hp Hwd Hhi _]. assert (8 * (wx + w) * Z.of_nat b <= 8 * cols * Z.of_nat b) by nia.
  split; [lia|nia|lia|]. unfold cell in *. lia.
Qed.

Lemma scroll_entry m r cols rows : console m -> grid m cols rows -> hi8 (ax r) = 6 \/ hi8 (ax r) = 7 ->
  scroll_call cols rows r ->
  let wx := lo8 (cx r) in let wy := hi8 (cx r) in
  let w := lo8 (dx r) - wx + 1 in let h := hi8 (dx r) - wy + 1 in
  let ch := GET_BDA 2 m char_height in
  let n := lo8 (ax r) in let src := from m wy (n * direction r) in
  cell V b pitch (8 * wx) (src + h * ch - 1) + 8 * w * Z.of_nat b <= 2 ^ 32 ->
  exists m', handle_10 data ss r V m = Done (r, V, m') /\ console m' /\
  (forall i j, 0 <= i < h * ch -> ~ (blank h (n * direction r) * ch <= i < (blank h (n * direction r) + n) * ch) ->
     0 <= j < 8 * w * Z.of_nat b ->
     m' (cell V b pitch (8 * wx) (wy * ch + i) + j) = m (cell V b pitch (8 * wx) (src + i) + j)) /\
  (forall i j, blank h (n * direction r) * ch <= i < (blank h (n * direction r) + n) * ch -> 0 <= j < 8 * w ->
     load b m' (cell V b pitch (8 * wx) (wy * ch + i) + j * Z.of_nat b) = get_color d (Z.shiftr (hi8 (bx r)) 4)) /\
  (forall a, outside V data b pitch (8 * wx) (wy * ch) w (h * ch) a -> m' a = m a).
Proof.
  intros Hc Hg Hah (Hcx & Hcy & Hn) wx wy w h ch n src H32. pose proof (con_text _ Hc) as Ht.
  pose proof (grid_size _ _ _ Hg) as Hsz. assert (fits 8 wx /\ fits 8 wy /\ fits 8 (hi8 (bx r))) as (Hfx & Hfy & Hfb)
    by (split_and!; apply wrap_fits; lia).
  fold wx in Hcx. fold wy in Hcy, Hn. fold n in Hn. unfold fits in Hfx, Hfy, Hfb.
  assert (window V b size pitch m wx wy w h) as Hw by (apply (grid_sub m cols rows); unfold w, h; (done || lia)).
  assert (Z.abs (n * direction r) = n) as Habs by (unfold direction; case_match; lia).
  destruct (scroll_spec V data cur d b Hmodel Hdepth Hd size pitch Hscreen Hpitch m Ht
    (conj (con_mode _ Hc) Hcur) ss (GET_BDA 1 m video_page) 0 wx wy w h (n * direction r) (mkChar 32 (hi8 (bx r)) 1))
    as (m' & Hrun & Hok & Hin & Hbl & Hfr); try done; [rewrite Habs; unfold h; lia|].
  rewrite Habs in Hin, Hbl. exists m'. split; [|split].
  - rewrite entry by done. assert (verify_scroll data ss r (direction r) V m = Done m') as Hv.
    { unfold verify_scroll. rewrite (grid_rows _ _ _ Hg), (grid_cols _ _ _ Hg). fold wx wy n.
      rewrite (proj2 (Z.leb_gt (rows + 1) (hi8 (dx r)))), (proj2 (Z.leb_gt cols (lo8 (dx r)))) by lia. fold w h.
      rewrite (proj2 (Z.leb_gt w 0)), (proj2 (Z.leb_gt h 0)), (proj2 (Z.leb_gt h n)) by (unfold w, h; lia).
      cbn [orb]. rewrite !(wrap_small 8) by (unfold fits, w, h; lia). done. }
    unfold direction in Hv. unfold dispatch. destruct Hah as [E|E]; rewrite E in Hv |- *; cbn [Z.eqb Pos.eqb] in *;
      unfold handle_1006, handle_1007; rewrite Hv; run_outcome; done.
  - eapply console_agrees; [done|done|]. eapply (agrees_outside V data d b Hd size pitch Hscreen); [apply Hw|done].
  - split_and!; done.
Qed.

(** Scrolling down by more rows than there are above the window: the lines
    are taken from 65536 lines further down. *)
Lemma scroll_down_source m wy n : text_ok V data size m -> 0 <= wy < n -> n < 256 ->
  from m wy (- n) = 65536 + wy * GET_BDA 2 m char_height - n * GET_BDA 2 m char_height.
Proof.
  intros Ht Hwy Hn. pose proof (text_height _ _ _ _ Ht) as Hch. unfold from, wrap. change (2 ^ 16) with 65536.
  symmetry. apply (Z.mod_unique_pos _ _ (-1)); [nia|]. lia.
Qed.

(** * Pixels at the entry point *)

Lemma pixel_entry m r : console m -> hi8 (ax r) = 0x0c -> pixel_ok V b size pitch (cx r) (dx r) -> lo8 (ax r) < 16 ->
  exists m', handle_10 data ss r V m = Done (r, V, m') /\ console m' /\ agrees V data size m m' /\
    (forall x y, pixel_ok V b size pitch x y ->
       attribute V d b pitch m' x y = if decide (x = cx r /\ y = dx r) then lo8 (ax r) else attribute V d b pitch m x y) /\
    (forall r', hi8 (ax r') = 0x0d -> pixel_ok V b size pitch (cx r') (dx r') ->
     exists m'', handle_10 data ss r' V m' = Done (with_al (attribute V d b pitch m' (cx r') (dx r')) r', V, m'')).
Proof.
  intros Hc Hah Hp Hcol. assert (0 <= lo8 (ax r)) by (apply wrap_fits; lia).
  destruct (write_pixel_spec V data cur d b Hmodel Hdepth Hd fb_nonzero size pitch Hscreen Hpitch m (cx r) (dx r)
    (lo8 (ax r)) (console_mode_ok m Hc) Hcur Hp ltac:(lia)) as (Hm' & Hag & Hat).
  pose proof (console_agrees _ _ Hc (mode_mem _ _ _ _ _ Hm') Hag) as Hc'.
  eexists. split; [|split; [exact Hc'|split; [exact Hag|split; [exact Hat|]]]].
  - rewrite entry by done. unfold dispatch. rewrite Hah. cbn [Z.eqb Pos.eqb]. reflexivity.
  - intros r' Hah' Hp'. rewrite entry by done. unfold dispatch. rewrite Hah'. cbn [Z.eqb Pos.eqb]. unfold handle_100d.
    pose proof (read_pixel_spec V data cur d b Hmodel Hdepth Hd fb_nonzero size pitch Hscreen Hpitch _ _ _ Hm' Hcur Hp') as Hr.
    destruct (vgafb_read_pixel V data (cx r') (dx r') _) as [q m'']. cbn [fst] in Hr. subst q. by eexists.
Qed.

End console.
