(* ===== verification/VgaCursor.v ===== *)
(** The software cursor.

    The timer interrupt xors the cursor onto the screen, and a service that
    draws removes it first.  The two together leave the screen as it was. *)

From stdpp Require Import base numbers list.
From Stdlib Require Import ZArith Lia.
From S2P Require Import Prelude Memory SeaString CcInt VgaState VgaPal VgaCb VgaFb VgaDraw VgaScroll VgaMode.
From S2P Require Import VgaVbe VgaBios VgaText.

Lemma load_byte_eq n m m' a i : mem_ok m -> mem_ok m' -> load n m a = load n m' a -> 0 <= i < Z.of_nat n ->
  m (a + i) = m' (a + i).
Proof.
  intros Hm Hm' Hl Hi. unfold load in Hl. apply (f_equal (le_bytes n)) in Hl.
  assert (forall m, mem_ok m -> le_bytes n (le_val (load_bytes m a n)) = load_bytes m a n) as Hb.
  { intros m0 H0. rewrite <- (length_load_bytes m0 a n) at 1. by apply le_bytes_le_val, load_bytes_fits. }
  rewrite !Hb in Hl by done.
  apply (f_equal (fun l => l !! Z.to_nat i)) in Hl. rewrite !lookup_load_bytes in Hl by lia.
  rewrite Z2Nat.id in Hl by lia. by injection Hl.
Qed.

Section cursor.
Context {L : Layout}.
Variables (V : vga) (data ss cur d : Z) (b : nat) (size pitch : Z).
Hypothesis Hmodel : memmodel (mode_at V cur) = MM_DIRECT.
Hypothesis Hdepth : depth (mode_at V cur) = d.
Hypothesis Hd : direct_depth d b.
Hypothesis Hscreen : screen_ok V data b size pitch.
Hypothesis Hpitch : CBlinelength V = pitch.
Hypothesis Hcur : cur <> 0.

Abbreviation B := (Z.of_nat b).
Abbreviation cell := (cell V b pitch).

(** A pixel as the cursor leaves it. *)
Definition flipped (m : mem) (a : Z) : Z := get_color d (Z.lxor (reverse_color d (load b m a)) 7).

Lemma cursor_lines_spec k : forall o m x y,
  mem_ok m -> at_cell cur pitch o x y -> lines_ok V b size pitch x y (Z.of_nat k) ->
  let m' := cursor_lines V data k o m in
  mem_ok m' /\
  (forall r j, 0 <= r < Z.of_nat k -> 0 <= j < 8 ->
     load b m' (cell x (y + r) + j * B) = flipped m (cell x (y + r) + j * B)) /\
  (forall a, (forall r, 0 <= r < Z.of_nat k -> a < cell x (y + r) \/ cell x (y + r) + 8 * B <= a) ->
    (a < data \/ data + 32 <= a) -> m' a = m a).
Proof.
  pose proof (b_range d b Hd) as Hb. pose proof (screen_pitch _ _ _ _ _ Hscreen) as Hp.
  pose proof (screen_data _ _ _ _ _ Hscreen) as Hdata.
  induction k as [|k IH]; intros o m x y Hok Ho Hl.
  { split; [done|]. split; [lia|done]. }
  cbn [cursor_lines]. pose proof (fb_nonzero V data b size pitch Hscreen) as Hfb.
  assert (at_cell cur pitch (with_op GO_READ8 o) x y) as Hor by (by destruct Ho; split).
  destruct (cell_op V data cur d b Hd Hfb size pitch Hscreen _ _ _ _ Hor Hl ltac:(lia)) as (Hat & Hop & Hdc).
  destruct (read8_spec V data cur d b Hmodel Hdepth Hd Hfb _ m Hok Hop Hdc eq_refl) as (m1 & -> & Hok1 & Hm1).
  rewrite Hat. cbn [pixels with_pixels]. set (ps := _ <$> (_ <$> seqZ 0 8)).
  set (o1 := with_op GO_WRITE8 _).
  assert (at_cell cur pitch o1 x y) as Ho1 by (by destruct Ho; split).
  destruct (cell_op V data cur d b Hd Hfb size pitch Hscreen _ _ _ _ Ho1 Hl ltac:(lia)) as (Hat1 & Hop1 & Hdc1).
  destruct (write8_spec V data cur d b Hmodel Hdepth Hd Hfb o1 m1 Hok1 Hop1 Hdc1) as (m2 & -> & Hok2 & Hpx & Hout);
    [by unfold o1, ps; cbn; rewrite !length_fmap, length_seqZ|done|]. rewrite Hat1 in Hpx, Hout.
  assert (lines_ok V b size pitch x (y + 1) (Z.of_nat k)) as Hl'.
  { apply lines_next; [|lia]. by replace (Z.of_nat k + 1) with (Z.of_nat (S k)) by lia. }
  assert (at_cell cur pitch (with_y (op_y o1 + 1) o1) x (y + 1)) as Ho2.
  { apply with_y_cell; [done|]. destruct Hl as (_ & ? & _ & ? & _). lia. }
  destruct (cell_range V data d b Hd size pitch Hscreen x y _ 0 Hl ltac:(lia)) as [Hlo Hhi]. rewrite Z.add_0_r in Hlo, Hhi.
  destruct (IH _ m2 x (y + 1) Hok2 Ho2 Hl') as (Hok' & Hin & Hfr).
  split; [done|]. split.
  - intros r j Hr Hj. assert (0 <= j * B <= 7 * B) by nia. destruct (decide (r = 0)) as [->|Hr0].
    + rewrite Z.add_0_r, (load_ext b _ m2).
      * unfold flipped. specialize (Hpx (Z.to_nat j)). rewrite Z2Nat.id in Hpx by lia. apply Hpx.
        -- unfold o1, ps. cbn [pixels with_op with_pixels]. rewrite !list_lookup_fmap, lookup_seqZ_lt by lia.
           cbn. by rewrite Z2Nat.id by lia.
        -- apply flip_color, reverse_color_range.
      * intros a Ha. apply Hfr; [|lia]. intros r Hr'.
        replace (y + 1 + r) with (y + (r + 1)) by lia. rewrite cell_row.
        assert (0 <= r * pitch) by (apply Z.mul_nonneg_nonneg; lia). lia.
    + destruct (cell_range V data d b Hd size pitch Hscreen x y _ r Hl ltac:(lia)) as [Hrlo Hrhi].
      assert (0 <= (r - 1) * pitch) by (apply Z.mul_nonneg_nonneg; lia). pose proof (cell_row V b pitch x y r) as Hrow.
      replace (y + r) with (y + 1 + (r - 1)) by lia. rewrite Hin by lia. unfold flipped. do 3 f_equal.
      replace (y + 1 + (r - 1)) with (y + r) by lia.
      apply load_ext. intros a Ha. rewrite Hout; [apply Hm1; lia| |lia]. lia.
  - intros a Ha Hda. rewrite Hfr; [|intros r Hr0; replace (y + 1 + r) with (y + (r + 1)) by lia; apply Ha; lia|done].
    rewrite Hout; [by apply Hm1| |done]. specialize (Ha 0 ltac:(lia)). by rewrite Z.add_0_r in Ha.
Qed.

(** Every pixel of the lines has one of the sixteen colours. *)
Definition painted (m : mem) (x y n : Z) : Prop :=
  forall r j, 0 <= r < n -> 0 <= j < 8 -> exists p, 0 <= p < 16 /\ load b m (cell x (y + r) + j * B) = get_color d p.

Lemma flip_twice p : 0 <= p < 16 -> Z.lxor (Z.lxor p 7) 7 = p.
Proof. intros _. by rewrite Z.lxor_assoc, Z.lxor_nilpotent, Z.lxor_0_r. Qed.

Lemma toggle_twice k o o' m m1 x y : mem_ok m -> mem_ok m1 ->
  at_cell cur pitch o x y -> at_cell cur pitch o' x y -> lines_ok V b size pitch x y (Z.of_nat k) ->
  painted m x y (Z.of_nat k) ->
  (forall r i, 0 <= r < Z.of_nat k -> 0 <= i < 8 * B ->
     m1 (cell x (y + r) + i) = cursor_lines V data k o m (cell x (y + r) + i)) ->
  let m2 := cursor_lines V data k o' m1 in
  forall r i, 0 <= r < Z.of_nat k -> 0 <= i < 8 * B -> m2 (cell x (y + r) + i) = m (cell x (y + r) + i).
Proof.
  intros Hok Hok1 Ho Ho' Hl Hp Heq m2 r i Hr Hi. pose proof (b_range d b Hd) as Hb.
  destruct (cursor_lines_spec k o m x y Hok Ho Hl) as (_ & Hin & _).
  destruct (cursor_lines_spec k o' m1 x y Hok1 Ho' Hl) as (Hok2 & Hin2 & _). fold m2 in Hok2, Hin2.
  set (j := i / B). assert (0 <= j < 8) as Hj by (unfold j; Z.div_mod_to_equations; nia).
  assert (load b m2 (cell x (y + r) + j * B) = load b m (cell x (y + r) + j * B)) as Hld.
  { rewrite Hin2 by done. unfold flipped. rewrite (load_ext b m1 (cursor_lines V data k o m)).
    - rewrite Hin by done. unfold flipped. destruct (Hp r j Hr Hj) as (p & Hp16 & ->).
      rewrite (color_roundtrip d b p), (color_roundtrip d b) by (done || by apply flip_color). by rewrite flip_twice.
    - intros a Ha. replace a with (cell x (y + r) + (a - cell x (y + r))) by lia. apply Heq; [done|].
      assert (0 <= j * B <= 7 * B) by nia. lia. }
  replace (cell x (y + r) + i) with (cell x (y + r) + j * B + (i - j * B)) by lia.
  apply (load_byte_eq b); [done|done|done|]. unfold j. Z.div_mod_to_equations. nia.
Qed.

(** * Showing and hiding *)

Abbreviation console := (console V data cur size).
Abbreviation grid := (grid V b size pitch).

Definition shown_flags (fl : Z) : Z := Z.lor (Z.land fl (Z.lnot BF_SWCURSOR)) BF_SWCURSOR.
Definition hidden_flags (fl : Z) : Z := Z.lor (Z.land fl (Z.lnot BF_SWCURSOR)) 0.

Lemma flags_cycle fl : fits 8 fl -> flagged fl BF_SWCURSOR = false ->
  fits 8 (shown_flags fl) /\ flagged (shown_flags fl) BF_SWCURSOR = true /\ hidden_flags (shown_flags fl) = fl /\
  Z.land (shown_flags fl) BF_EMULATE_TEXT = Z.land fl BF_EMULATE_TEXT.
Proof.
  intros Hf. assert (forallb (fun fl => implb (negb (flagged fl BF_SWCURSOR))
    ((0 <=? shown_flags fl) && (shown_flags fl <? 256) && flagged (shown_flags fl) BF_SWCURSOR &&
     (hidden_flags (shown_flags fl) =? fl) && (Z.land (shown_flags fl) BF_EMULATE_TEXT =? Z.land fl BF_EMULATE_TEXT)))
    (seqZ 0 256) = true) as H by (vm_compute; reflexivity).
  rewrite forallb_forall in H. specialize (H fl). rewrite <- list_elem_of_In, elem_of_seqZ in H. unfold fits in *.
  specialize (H ltac:(lia)). intros Hn. rewrite Hn in H. cbn [negb implb] in H.
  repeat (apply andb_prop in H as [H ?]). rewrite ?Z.leb_le, ?Z.ltb_lt, ?Z.eqb_eq in *. split_and!; (done || lia).
Qed.

(** The rows of a cell the cursor covers. *)
Definition cursor_start (m : mem) : Z := Z.shiftr (get_cursor_shape m) 8.
Definition cursor_rows (m : mem) : nat :=
  Z.to_nat (Z.min (GET_BDA 2 m char_height) (Z.land (get_cursor_shape m) 0xff + 1) - cursor_start m).
Definition cursor_op (m : mem) (cp : cursorpos) : gfx_op :=
  with_pos (cp_x cp * 8) (cp_y cp * GET_BDA 2 m char_height + cursor_start m) (init_gfx_op V cur).

Lemma draw_is_lines m cp : gfx_set_swcursor V data cur cp m = cursor_lines V data (cursor_rows m) (cursor_op m cp) m.
Proof. done. Qed.

(** [m'] has the same cursor, geometry and mode as [m]. *)
Definition same_shape (m m' : mem) : Prop :=
  GET_BDA 2 m' char_height = GET_BDA 2 m char_height /\ GET_BDA 2 m' cursor_type = GET_BDA 2 m cursor_type /\
  GET_BDA 1 m' video_ctl = GET_BDA 1 m video_ctl /\ GET_BDA 2 m' video_cols = GET_BDA 2 m video_cols /\
  GET_BDA 1 m' video_rows = GET_BDA 1 m video_rows /\ GET_BDA 1 m' video_page = GET_BDA 1 m video_page /\
  GET_BDA 2 m' ext_vgamode_offset = GET_BDA 2 m ext_vgamode_offset /\
  (forall p, 0 <= p <= 7 -> GET_BDA 2 m' (cursor_pos p) = GET_BDA 2 m (cursor_pos p)).

Lemma same_shape_flags m v : same_shape m (SET_BDA 1 m ext_flags v).
Proof.
  unfold same_shape. split_and!; [..|intros p Hp]; apply bda_other;
    unfold char_height, cursor_type, video_ctl, video_cols, video_rows, video_page, ext_vgamode_offset, ext_flags, cursor_pos; lia.
Qed.

Lemma same_shape_agrees m m' : (forall a, 0 <= a < 0x500 -> elsewhere V data size a) ->
  agrees V data size m m' -> same_shape m m'.
Proof.
  intros Hlow Hag. assert (forall n o, 0 <= o -> o + Z.of_nat n <= 0x100 -> GET_BDA n m' o = GET_BDA n m o) as Hb.
  { intros n o Ho Hn. unfold GET_BDA, GET_FARVAR, far, SEG_BDA. apply load_ext. intros a Ha. apply Hag, Hlow. lia. }
  unfold same_shape. split_and!; [..|intros p Hp]; apply Hb;
    unfold char_height, cursor_type, video_ctl, video_cols, video_rows, video_page, ext_vgamode_offset, cursor_pos; lia.
Qed.

Lemma same_shape_trans m1 m2 m3 : same_shape m1 m2 -> same_shape m2 m3 -> same_shape m1 m3.
Proof.
  intros (A1 & A2 & A3 & A4 & A5 & A6 & A7 & A8) (B1 & B2 & B3 & B4 & B5 & B6 & B7 & B8).
  unfold same_shape. split_and!; try congruence. intros p Hp. rewrite B8, A8 by done. done.
Qed.

Lemma shape_lines m m' cp : same_shape m m' -> cursor_rows m' = cursor_rows m /\ cursor_op m' cp = cursor_op m cp.
Proof.
  intros (A1 & A2 & A3 & _). unfold cursor_rows, cursor_op, cursor_start, get_cursor_shape. by rewrite A1, A2, A3.
Qed.

Lemma shape_cursor m m' : same_shape m m' -> 0 <= GET_BDA 1 m video_page <= 7 ->
  get_cursor_pos (GET_BDA 1 m' video_page) m' = get_cursor_pos (GET_BDA 1 m video_page) m.
Proof.
  intros (_ & _ & _ & _ & _ & A6 & _ & A8) Hp. rewrite A6. unfold get_cursor_pos. by rewrite A8.
Qed.

(** Whether the cursor is drawn at all. *)
Definition visible (m : mem) : bool :=
  let cp := get_cursor_pos (GET_BDA 1 m video_page) m in
  negb ((GET_BDA 2 m video_cols <=? cp_x cp) || (GET_BDA 1 m video_rows <? cp_y cp) || (0x2000 <=? GET_BDA 2 m cursor_type)).

Lemma visible_shape m m' : same_shape m m' -> 0 <= GET_BDA 1 m video_page <= 7 -> visible m' = visible m.
Proof.
  intros Hs Hp. unfold visible. rewrite (shape_cursor m m' Hs Hp). destruct Hs as (_ & A2 & _ & A4 & A5 & _).
  by rewrite A2, A4, A5.
Qed.

Lemma set_swcursor_eq m enable : get_current_mode m = cur ->
  flagged (GET_BDA 1 m ext_flags) BF_SWCURSOR = negb enable ->
  set_swcursor V data ss enable m =
  Done (if visible m then
          let m0 := SET_BDA 1 m ext_flags (if enable then shown_flags (GET_BDA 1 m ext_flags)
                                           else hidden_flags (GET_BDA 1 m ext_flags)) in
          gfx_set_swcursor V data cur (get_cursor_pos (GET_BDA 1 m video_page) m) m0
        else m).
Proof.
  intros Hm Hf. unfold set_swcursor. rewrite Hf, Hm, (proj2 (Z.eqb_neq _ _) Hcur), Hmodel.
  replace (eqb (negb enable) enable) with false by (by destruct enable). unfold visible.
  case_match; [done|]. cbn [negb]. change (negb (MM_DIRECT =? MM_TEXT)) with true. by destruct enable.
Qed.

Lemma shape_nonneg m : mem_ok m -> 0 <= get_cursor_shape m /\ 0 <= cursor_start m.
Proof.
  intros Hok. assert (0 <= get_cursor_shape m) as H.
  { assert (0 <= GET_BDA 2 m cursor_type) by (apply load_fits; done).
    unfold get_cursor_shape. repeat case_match; try done; apply wrap_fits; lia. }
  split; [done|]. unfold cursor_start. by apply Z.shiftr_nonneg.
Qed.

(** The lines of a visible cursor are inside its cell. *)
Lemma cursor_place m cp : text_ok V data size m -> on_screen V b size pitch m cp -> cursor_rows m <> 0%nat ->
  at_cell cur pitch (cursor_op m cp) (char_x cp) (char_y m cp + cursor_start m) /\
  lines_ok V b size pitch (char_x cp) (char_y m cp + cursor_start m) (Z.of_nat (cursor_rows m)) /\
  cursor_start m + Z.of_nat (cursor_rows m) <= GET_BDA 2 m char_height.
Proof.
  intros Ht Hs Hk. destruct (shape_nonneg m (text_mem _ _ _ _ Ht)) as [_ Hst].
  pose proof Hs as (Hx & Hy & Hc & Hl). unfold cursor_rows in *. set (h := GET_BDA 2 m char_height) in *.
  assert (cursor_start m < h) as Hsh by lia. pose proof (b_range d b Hd) as Hb.
  split; [|split; [|lia]].
  - eapply (cell_of_cp V cur b size pitch); try done; fold h; try lia. cbn. fold h.
    unfold char_y in Hl. fold h in Hl. destruct Hl as (_ & ? & _ & ? & _).
    by rewrite (wrap_small 16 (cp_y cp * h)) by (unfold fits; lia).
  - destruct (cell_range V data d b Hd size pitch Hscreen _ _ _
      (cursor_start m + Z.of_nat (cursor_rows m) - 1) Hl ltac:(unfold cursor_rows; fold h; lia)) as [_ He].
    destruct Hl as (? & ? & ? & ? & _). do 4 (split; [lia|]). intros _. unfold cursor_rows in He. fold h in He.
    replace (char_y m cp + cursor_start m + Z.of_nat (Z.to_nat (Z.min h (Z.land (get_cursor_shape m) 0xff + 1) - cursor_start m)) - 1)
      with (char_y m cp + (cursor_start m + Z.of_nat (Z.to_nat (Z.min h (Z.land (get_cursor_shape m) 0xff + 1) - cursor_start m)) - 1))
      by lia. done.
Qed.

(** A byte is in one of the lines of a cell or clear of them all. *)
Lemma in_lines_dec a x y n :
  (exists r i, 0 <= r < n /\ 0 <= i < 8 * B /\ a = cell x (y + r) + i) \/
  (forall r, 0 <= r < n -> a < cell x (y + r) \/ cell x (y + r) + 8 * B <= a).
Proof.
  pose proof (screen_pitch _ _ _ _ _ Hscreen) as Hp. pose proof (b_range d b Hd) as Hb.
  pose proof (Z.div_mod (a - cell x y) pitch ltac:(lia)) as Hdm.
  pose proof (Z.mod_pos_bound (a - cell x y) pitch ltac:(lia)) as Hm.
  set (q := (a - cell x y) / pitch) in *. set (i := (a - cell x y) mod pitch) in *.
  destruct (decide (0 <= q < n /\ i < 8 * B)) as [[Hq Hi]|Hno].
  - left. exists q, i. split; [done|]. split; [lia|]. rewrite cell_row. lia.
  - right. intros r Hr. rewrite cell_row. destruct (Z.lt_ge_cases a (cell x y + r * pitch)); [by left|].
    right. destruct (Z.le_gt_cases (cell x y + r * pitch + 8 * B) a) as [|Hlt]; [done|]. exfalso. apply Hno.
    assert (q = r) as ->; [|split; [done|]; unfold i; lia].
    symmetry. apply (Z.div_unique_pos _ _ _ (a - cell x y - r * pitch)); lia.
Qed.

Lemma flags_byte m v w a :
  SET_BDA 1 (SET_BDA 1 m ext_flags v) ext_flags w a = if decide (a = 0x4b9) then u8 w else m a.
Proof.
  unfold SET_BDA, SET_FARVAR. case_decide as Ha.
  - subst a. rewrite <- load1. change 0x4b9 with (far SEG_BDA ext_flags). by rewrite load_store_same.
  - assert (far SEG_BDA ext_flags = 0x4b9) as -> by done. by rewrite !store_out by lia.
Qed.

(** The lines of a cell drawn twice, with the flags rewritten in between. *)
Lemma redraw k o m m0 w x y : mem_ok m0 -> at_cell cur pitch o x y -> lines_ok V b size pitch x y (Z.of_nat k) ->
  painted m x y (Z.of_nat k) -> (forall a, a <> 0x4b9 -> m0 a = m a) -> elsewhere V data size 0x4b9 ->
  let m1 := cursor_lines V data k o m0 in
  forall a, a < data \/ data + 32 <= a ->
  cursor_lines V data k o (SET_BDA 1 m1 ext_flags w) a = if decide (a = 0x4b9) then u8 w else m a.
Proof.
  intros Hok0 Hat Hl Hp Hm0 [Hflag _] m1 a Ha. pose proof (b_range d b Hd) as Hb.
  destruct (cursor_lines_spec k o m0 _ _ Hok0 Hat Hl) as (Hok1 & _ & Hfr1). fold m1 in Hok1, Hfr1.
  set (m1' := SET_BDA 1 m1 ext_flags w). assert (mem_ok m1') as Hok1' by by apply store_ok.
  assert (forall a, a <> 0x4b9 -> m1' a = m1 a) as Hm1' by (intros a' Ha'; apply store_out; unfold far, SEG_BDA, ext_flags; lia).
  destruct (in_lines_dec a x y (Z.of_nat k)) as [(r & i & Hr & Hi & ->)|Hno].
  - assert (forall r i, 0 <= r < Z.of_nat k -> 0 <= i < 8 * B -> cell x (y + r) + i <> 0x4b9) as Hne.
    { intros r' i' Hr' Hi'. destruct (cell_range V data d b Hd size pitch Hscreen _ _ _ r' Hl Hr'). lia. }
    rewrite decide_False by by apply Hne.
    rewrite (toggle_twice k o o m0 m1' _ _ Hok0 Hok1' Hat Hat Hl); [by apply Hm0, Hne| | |done|done].
    + intros r' j Hr' Hj. destruct (Hp r' j Hr' Hj) as (p & Hp16 & Hpe). exists p. split; [done|]. rewrite <- Hpe.
      apply load_ext. intros z Hz. apply Hm0. replace z with (cell x (y + r') + (z - cell x (y + r'))) by lia.
      assert (0 <= j * B <= 7 * B) by nia. apply Hne; [done|lia].
    + intros r' i' Hr' Hi'. by rewrite Hm1' by by apply Hne.
  - destruct (cursor_lines_spec k o m1' _ _ Hok1' Hat Hl) as (_ & _ & Hfr2). rewrite Hfr2 by done.
    case_decide as Heq.
    + subst a. unfold m1', SET_BDA, SET_FARVAR. rewrite <- load1. change 0x4b9 with (far SEG_BDA ext_flags).
      by rewrite load_store_same.
    + by rewrite Hm1', Hfr1, Hm0 by done.
Qed.

(** Drawing the cursor twice. *)
Lemma draw_twice m cp v w : text_ok V data size m -> on_screen V b size pitch m cp ->
  painted m (char_x cp) (char_y m cp) (GET_BDA 2 m char_height) ->
  let m1 := gfx_set_swcursor V data cur cp (SET_BDA 1 m ext_flags v) in
  let m2 := gfx_set_swcursor V data cur cp (SET_BDA 1 m1 ext_flags w) in
  mem_ok m1 /\ agrees V data size (SET_BDA 1 m ext_flags v) m1 /\
  (forall a, a < data \/ data + 32 <= a -> m2 a = if decide (a = 0x4b9) then u8 w else m a).
Proof.
  intros Ht Hs Hp m1 m2. set (m0 := SET_BDA 1 m ext_flags v) in *. pose proof (same_shape_flags m v) as Hsh0. fold m0 in Hsh0.
  assert (forall a, a <> 0x4b9 -> m0 a = m a) as Hm0 by (intros a Ha; apply store_out; unfold far, SEG_BDA, ext_flags; lia).
  assert (mem_ok m0) as Hok0 by (apply store_ok, Ht). pose proof (text_low _ _ _ _ Ht) as Hlow.
  set (k := cursor_rows m). set (o := cursor_op m cp).
  assert (forall m', same_shape m m' -> gfx_set_swcursor V data cur cp m' = cursor_lines V data k o m') as Hlines.
  { intros m' Hm'. rewrite draw_is_lines. by destruct (shape_lines m m' cp Hm') as [-> ->]. }
  pose proof (Hlines m0 Hsh0) as Hm1. fold m1 in Hm1.
  assert (mem_ok m1 /\ agrees V data size m0 m1) as [Hok1 Hag].
  { destruct (decide (k = 0%nat)) as [Hk|Hk]; [rewrite Hm1, Hk; done|].
    destruct (cursor_place m cp Ht Hs Hk) as (Hat & Hl & _). fold k in Hl.
    destruct (cursor_lines_spec k o m0 _ _ Hok0 Hat Hl) as (Hok1 & _ & Hfr1). rewrite <- Hm1 in Hok1, Hfr1.
    split; [done|]. intros a [Ha Ha']. apply Hfr1; [|done]. intros r Hr.
    destruct (cell_range V data d b Hd size pitch Hscreen _ _ _ r Hl Hr). lia. }
  split; [done|]. split; [done|]. intros a Ha. unfold m2. rewrite Hlines.
  - destruct (decide (k = 0%nat)) as [Hk|Hk]; [rewrite Hm1, Hk; by apply flags_byte|].
    destruct (cursor_place m cp Ht Hs Hk) as (Hat & Hl & Hin). fold k in Hl, Hin. rewrite Hm1.
    apply (redraw k o m m0 w _ _ Hok0 Hat Hl); try done; [|apply Hlow; lia].
    intros r j Hr Hj. destruct (Hp (cursor_start m + r) j) as (p & Hp16 & Hpe); [|done|].
    { destruct (shape_nonneg m (text_mem _ _ _ _ Ht)). lia. }
    exists p. by rewrite <- Z.add_assoc.
  - eapply same_shape_trans; [exact Hsh0|]. eapply same_shape_trans; [by apply same_shape_agrees|apply same_shape_flags].
Qed.

(** [m1] is [m] with the cursor on the cell of [cp]: the pixels of its rows
    are in their colours xor 7, and nothing else is changed but the flag and
    the local array. *)
Definition cursor_drawn (m m1 : mem) (cp : cursorpos) : Prop :=
  let last := Z.min (GET_BDA 2 m char_height) (Z.land (get_cursor_shape m) 0xff + 1) in
  (forall r j, cursor_start m <= r < last -> 0 <= j < 8 ->
     load b m1 (cell (char_x cp) (char_y m cp + r) + j * B) = flipped m (cell (char_x cp) (char_y m cp + r) + j * B)) /\
  (forall a, (forall r, cursor_start m <= r < last ->
       a < cell (char_x cp) (char_y m cp + r) \/ cell (char_x cp) (char_y m cp + r) + 8 * B <= a) ->
     a < data \/ data + 32 <= a -> a <> 0x4b9 -> m1 a = m a).

Lemma draw_once m cp v : text_ok V data size m -> on_screen V b size pitch m cp ->
  cursor_drawn m (gfx_set_swcursor V data cur cp (SET_BDA 1 m ext_flags v)) cp.
Proof.
  intros Ht Hs. set (m0 := SET_BDA 1 m ext_flags v). pose proof (same_shape_flags m v) as Hsh0. fold m0 in Hsh0.
  assert (forall a, a <> 0x4b9 -> m0 a = m a) as Hm0 by (intros a Ha; apply store_out; unfold far, SEG_BDA, ext_flags; lia).
  assert (mem_ok m0) as Hok0 by (apply store_ok, Ht). pose proof (b_range d b Hd) as Hb.
  destruct (shape_nonneg m (text_mem _ _ _ _ Ht)) as [_ Hst]. unfold cursor_drawn. set (last := Z.min _ _).
  rewrite draw_is_lines. destruct (shape_lines m m0 cp Hsh0) as [-> ->].
  destruct (decide (cursor_rows m = 0%nat)) as [Hk|Hk].
  { unfold cursor_rows in Hk. fold last in Hk. split; [lia|]. intros a _ _ Ha. unfold cursor_rows. fold last. rewrite Hk. by apply Hm0. }
  destruct (cursor_place m cp Ht Hs Hk) as (Hat & Hl & Hin).
  assert (Z.of_nat (cursor_rows m) = last - cursor_start m) as Hrows by (unfold cursor_rows in *; fold last in Hk |- *; lia).
  destruct (cursor_lines_spec _ _ m0 _ _ Hok0 Hat Hl) as (_ & Hpx & Hfr). split.
  - intros r j Hr Hj. specialize (Hpx (r - cursor_start m) j ltac:(lia) Hj).
    replace (char_y m cp + cursor_start m + (r - cursor_start m)) with (char_y m cp + r) in Hpx by lia. rewrite Hpx.
    unfold flipped. do 3 f_equal. apply load_ext. intros a Ha. apply Hm0.
    destruct (cell_range V data d b Hd size pitch Hscreen _ _ _ (r - cursor_start m) Hl ltac:(lia)) as [Hlo Hhi].
    replace (char_y m cp + cursor_start m + (r - cursor_start m)) with (char_y m cp + r) in Hlo, Hhi by lia.
    assert (0 <= j * B <= 7 * B) by nia. destruct (text_low _ _ _ _ Ht 0x4b9 ltac:(lia)) as [Hlow _]. lia.
  - intros a Ha Hda Hne. rewrite Hfr; [by apply Hm0| |done]. intros r Hr. rewrite <- Z.add_assoc. apply Ha. lia.
Qed.

(** Services that draw. *)
Definition draws (ah al : Z) : bool :=
  ((ah =? 0x4f) && (al =? 0x02)) || (ah <=? 2) || ((5 <=? ah) && (ah <=? 0x0e)) || (ah =? 0x13).

(** The cursor the timer shows is gone, and the screen as before, when the
    next service draws. *)
Lemma shown_then_hidden m cols rows ah al : console m -> grid m cols rows ->
  let page := GET_BDA 1 m video_page in let cp := get_cursor_pos page m in
  0 <= page <= 7 ->
  painted m (char_x cp) (char_y m cp) (GET_BDA 2 m char_height) -> draws ah al = true ->
  exists m1 m2, set_swcursor V data ss true m = Done m1 /\
    swcursor_pre_handle10 V data ss ah al m1 = Done m2 /\
    (if visible m then cursor_drawn m m1 cp else m1 = m) /\
    (forall a, a < data \/ data + 32 <= a -> m2 a = m a).
Proof.
  intros Hc Hg page cp Hpg Hp Hdr. pose proof (con_text _ _ _ _ _ Hc) as Ht. destruct Hc as [_ Hm Hh].
  assert (fits 8 (GET_BDA 1 m ext_flags)) as Hfl by (apply (load_fits 1), Ht).
  destruct (flags_cycle _ Hfl Hh) as (Hf8 & Hfs & Hfh & Hfe).
  rewrite (set_swcursor_eq m true Hm Hh). destruct (visible m) eqn:Hv.
  2: { exists m, m. split; [done|]. split; [|by split]. unfold swcursor_pre_handle10. fold (draws ah al).
       rewrite (text_emulated _ _ _ _ Ht), Hdr. cbn [negb]. unfold set_swcursor. by rewrite Hh. }
  assert (on_screen V b size pitch m cp) as Hs.
  { eapply (grid_on_screen V data d b size pitch Hd Hscreen); [done|done|]. unfold visible in Hv. fold page cp in Hv.
    apply negb_true_iff in Hv. apply orb_false_elim in Hv as [Hv _]. apply orb_false_elim in Hv as [H1 H2].
    apply Z.leb_gt in H1. apply Z.ltb_ge in H2. rewrite (grid_cols _ _ _ _ _ _ _ Hg) in H1.
    rewrite (grid_rows _ _ _ _ _ _ _ Hg) in H2. split; [|split; [|done]]; unfold cp, get_cursor_pos;
      (destruct (Z.ltb_spec 7 page); [lia|]); cbn.
    - split; [apply wrap_fits; lia|]. unfold cp, get_cursor_pos in H1. destruct (Z.ltb_spec 7 page); [lia|done].
    - apply wrap_fits. lia. }
  fold page cp. set (fl := GET_BDA 1 m ext_flags) in *. cbv zeta.
  destruct (draw_twice m cp (shown_flags fl) (hidden_flags (shown_flags fl)) Ht Hs Hp) as (Hok1 & Hag & Hm2).
  set (m1 := gfx_set_swcursor V data cur cp (SET_BDA 1 m ext_flags (shown_flags fl))) in *.
  assert (same_shape m m1) as Hsh.
  { eapply same_shape_trans; [apply same_shape_flags|]. apply same_shape_agrees; [apply Ht|done]. }
  assert (GET_BDA 1 m1 ext_flags = shown_flags fl) as Hfl1.
  { unfold GET_BDA, GET_FARVAR. rewrite (load_ext 1 m1 (SET_BDA 1 m ext_flags (shown_flags fl))).
    - unfold SET_BDA, SET_FARVAR. rewrite load_store_same. by apply wrap_small.
    - intros a Ha. apply Hag, (text_low _ _ _ _ Ht). unfold far, SEG_BDA, ext_flags in Ha. lia. }
  exists m1. eexists. split; [done|]. split; [|split; [by apply draw_once|intros a Ha; rewrite Hm2 by done]].
  - unfold swcursor_pre_handle10, vga_emulate_text. fold (draws ah al). rewrite Hfl1, Hfe.
    pose proof (text_emulated _ _ _ _ Ht) as He. unfold vga_emulate_text in He. fold fl in He. rewrite He, Hdr. cbn [negb].
    rewrite (set_swcursor_eq m1 false); [|unfold get_current_mode; rewrite <- Hm; apply Hsh|by rewrite Hfl1].
    rewrite (visible_shape m m1 Hsh Hpg), Hv, (shape_cursor m m1 Hsh Hpg), Hfl1. reflexivity.
  - case_decide; [|done]. subst a. rewrite Hfh, (wrap_small 8) by done. unfold fl, GET_BDA, GET_FARVAR. apply load1.
Qed.

End cursor.
