(* ===== verification/VgaModeSpec.v ===== *)
(** Setting a mode, and saving and restoring the video state.

    Setting text mode 3 on a linear framebuffer makes the console the theorems
    of [VgaText] are about; the state function 1Ch saves is the state it
    restores. *)

From stdpp Require Import base numbers list.
From Stdlib Require Import ZArith Lia.
From S2P Require Import Prelude Memory SeaString CcInt VgaState VgaPal VgaCb VgaFb VgaDraw VgaScroll VgaMode.
From S2P Require Import VgaVbe VgaBios VgaText.

(** * Reading the data area after a run of writes *)

Lemma bda_skip_ivt m k o vec v : (0 <=? vec) && (vec <? 0x80) && (0 <=? o) = true ->
  GET_BDA k (SET_IVT m vec v) o = GET_BDA k m o.
Proof.
  intros H. apply andb_prop in H as [H Ho]. apply andb_prop in H as [H1 H2]. apply Z.leb_le in H1, Ho. apply Z.ltb_lt in H2.
  unfold GET_BDA, SET_IVT, GET_FARVAR, SET_FARVAR. apply load_store_other. unfold far, SEG_BDA, SEG_IVT. lia.
Qed.

Lemma ivt_skip_bda m vec n off v : (0 <=? vec) && (vec <? 0x80) && (0 <=? off) = true ->
  GET_IVT (SET_BDA n m off v) vec = GET_IVT m vec.
Proof.
  intros H. apply andb_prop in H as [H Ho]. apply andb_prop in H as [H1 H2]. apply Z.leb_le in H1, Ho. apply Z.ltb_lt in H2.
  unfold GET_IVT, SET_BDA, GET_FARVAR, SET_FARVAR. apply load_store_other. unfold far, SEG_BDA, SEG_IVT. lia.
Qed.

Lemma ivt_same m vec v : GET_IVT (SET_IVT m vec v) vec = u32 v.
Proof. apply (load_store_same 4). Qed.

Lemma segoff_parts s o : so_seg (u32 (SEGOFF s o)) = u16 s /\ so_offset (u32 (SEGOFF s o)) = u16 o.
Proof.
  assert (fits 16 (u16 s) /\ fits 16 (u16 o)) as [Hs Ho] by (split; apply wrap_fits; lia).
  unfold SEGOFF. rewrite Z.lor_comm, (lor_add_shift 16) by (done || lia). unfold fits in *.
  rewrite (wrap_small 32) by (unfold fits; lia). unfold so_seg, so_offset. rewrite Z.shiftr_div_pow2, Z.div_add by lia.
  rewrite (Z.div_small (u16 o)) by lia. split; [by apply wrap_small|].
  unfold wrap at 1. rewrite Z.mod_add by lia. by apply Z.mod_small.
Qed.

Ltac bda := repeat (first [rewrite bda_same | rewrite bda_skip by reflexivity | rewrite bda_skip_ivt by reflexivity]).

(** * After the columns and rows *)

Section layout.
Context {L : Layout}.

Ltac low_memory :=
  repeat match goal with |- context [far ?s ?o] => let v := eval vm_compute in (far s o) in change (far s o) with v end; lia.

(** What [set_mode_tail] leaves in a 16-line mode. *)
Lemma tail_spec flags m : mem_ok m ->
  let m' := set_mode_tail flags 16 m in
  mem_ok m' /\
  (forall k o, In (k, o) [(2%nat, video_cols); (1%nat, video_rows); (1%nat, ext_flags); (2%nat, ext_vbe_mode);
                         (2%nat, ext_vgamode_offset); (1%nat, video_mode); (2%nat, cursor_type); (2%nat, video_pagesize)] ->
     GET_BDA k m' o = GET_BDA k m o) /\
  GET_BDA 2 m' char_height = 16 /\ GET_BDA 1 m' video_page = 0 /\ GET_BDA 2 m' (cursor_pos 0) = 0 /\
  GET_IVT m' 0x43 = u32 (SEGOFF global_seg vgafont16) /\ (forall a, 0x500 <= a -> m' a = m a).
Proof.
  intros Hok. unfold set_mode_tail, clear_cursors. cbn [upto Z.eqb Pos.eqb]. split; [|split].
  - unfold SET_IVT, SET_BDA, SET_FARVAR. by repeat apply store_ok.
  - intros k o Ho. cbn in Ho. destruct_or! Ho; try done; injection Ho as <- <-; by bda.
  - split_and!; [by bda..|apply ivt_same|]. intros a Ha. unfold SET_IVT, SET_BDA, SET_FARVAR.
    rewrite !store_out; [done|low_memory..].
Qed.

(** * The palette emulator stays in its variables *)

Variable ss : Z.

(** [m'] is [m] but for variables of the emulator. *)
Definition emul_only (m m' : mem) : Prop :=
  (mem_ok m -> mem_ok m') /\ (forall x, ~ in_direct ss x -> m' x = m x).

Lemma emul_refl m : emul_only m m.
Proof. done. Qed.

Lemma emul_trans m1 m2 m3 : emul_only m1 m2 -> emul_only m2 m3 -> emul_only m1 m3.
Proof. intros [A1 A2] [B1 B2]. split; [by auto|]. intros x Hx. by rewrite B2, A2. Qed.

Lemma emul_dset n v z m m' : Z.of_nat n <= direct_size v -> emul_only m m' -> emul_only m (dset n ss v z m').
Proof.
  intros Hn Hm. eapply emul_trans; [exact Hm|]. split; [intros H; by apply store_ok|]. intros x Hx. by apply dset_frame.
Qed.

Lemma emul_store v n a z m m' : daddr ss v <= a -> a + Z.of_nat n <= daddr ss v + direct_size v ->
  emul_only m m' -> emul_only m (store n m' a z).
Proof.
  intros H1 H2 Hm. eapply emul_trans; [exact Hm|]. split; [intros H; by apply store_ok|]. intros x Hx. apply store_out.
  destruct (decide (daddr ss v <= x < daddr ss v + direct_size v)); [exfalso; apply Hx; by exists v|lia].
Qed.

Lemma emul_store8 v a z m m' : daddr ss v <= a < daddr ss v + direct_size v ->
  emul_only m m' -> emul_only m (store8 m' a z).
Proof.
  intros Ha Hm. eapply emul_trans; [exact Hm|]. split; [apply store8_ok|]. intros x Hx. apply store8_ne.
  intros ->. apply Hx. by exists v.
Qed.

Lemma emul_rgb v a c m m' : daddr ss v <= a -> a + 3 <= daddr ss v + direct_size v ->
  emul_only m m' -> emul_only m (put_rgb m' a c).
Proof.
  intros H1 H2 Hm. unfold put_rgb. destruct c as [[r g] bl].
  repeat (apply (emul_store8 v); [lia|]). done.
Qed.

Lemma emul_palette v l : forall a m m', daddr ss v <= a -> a + 3 * Z.of_nat (length l) <= daddr ss v + direct_size v ->
  emul_only m m' -> emul_only m (put_palette m' a l).
Proof.
  induction l as [|c l IH]; intros a m m' H1 H2 Hm; [done|]. cbn [put_palette length] in *.
  apply IH; [lia|lia|]. apply (emul_rgb v); (done || lia).
Qed.

Lemma emul_upto n i f m m' : (forall j a, i <= j < i + Z.of_nat n -> emul_only m a -> emul_only m (f j a)) ->
  emul_only m m' -> emul_only m (upto n i f m').
Proof. intros Hf Hm. by apply (upto_invariant (fun _ a => emul_only m a)). Qed.

Lemma emul_greys m m' : emul_only m m' -> emul_only m (rebuild_argb_table ss (upto 256 0 (grey_entry ss) m')).
Proof.
  intros Hm. apply emul_upto; [|apply emul_upto; [|done]].
  - intros j a Hj Ha. unfold rebuild_entry. apply (emul_store cbvga_palette_argb); unfold argb_entry; cbn; (done || lia).
  - intros j a Hj Ha. apply (emul_rgb cbvga_palette); unfold pal_entry; cbn; (done || lia).
Qed.

(** One [let] of a function at a time: a memory is replaced by one that keeps
    to the variables, a number by any number. *)
Ltac emul_let :=
  lazymatch goal with
  | |- emul_only ?m (let x := ?a in @?k x) =>
    lazymatch type of a with
    | mem => let H := fresh in assert (emul_only m a) as H; [|change (emul_only m (k a)); revert H; generalize a; intros ? ?]
    | _ => change (emul_only m (k a)); generalize a; intros ?
    end; cbv beta
  end.

Lemma emul_set_mode vg flags m m' : emul_only m m' -> emul_only m (cbvga_emul_set_mode ss vg flags m').
Proof.
  intros Hm. cbv beta delta [cbvga_emul_set_mode].
  repeat (emul_let; try (by apply emul_dset; [cbn; lia|])).
  - destruct (Z.land flags MF_GRAYSUM =? 0); [done|by apply emul_greys].
  - case_match; [done|by apply emul_dset; [cbn; lia|]].
  - unfold cbvga_emul_set_masks. repeat (apply emul_dset; [cbn; lia|]). done.
  - case_match; by apply emul_dset; [cbn; lia|].
  - case_match; [|done]. apply (emul_palette default_vga256_palette); [lia| |done].
    replace (length vga256_palette) with 256%nat by (vm_compute; reflexivity). cbn. lia.
Qed.

Lemma emul_setup a1 a2 a3 a4 a5 m m' : emul_only m m' -> emul_only m (cbvga_emul_setup_modes ss a1 a2 a3 a4 a5 m').
Proof. intros Hm. unfold cbvga_emul_setup_modes. repeat (apply emul_dset; [cbn; lia|]). done. Qed.

(** * Text mode 3 on a linear framebuffer *)

Variables (V : vga) (data addr bpp x y pitch w : Z) (b : nat).

(** The framebuffer is in place: as wide as whole characters, with room for
    one more row below it in the address space, and away from low memory, the
    local array, the image and the variables of the emulator; the image is
    above the data area. *)
Record placed : Prop := {
  pl_shows : shows V addr bpp x y pitch;
  pl_depth : direct_depth bpp b;
  pl_modes : modes_placed (length (svga_modes V));
  pl_width : x = 8 * w /\ 0 < w < 256;
  pl_height : 32 <= y < 4096;
  pl_pitch : x * Z.of_nat b <= pitch;
  pl_end : 0x500 <= addr /\ addr + (y + 16) * pitch <= 2 ^ 32;
  pl_data : 0x500 <= data /\ data + 32 <= 2 ^ 32 /\ (data + 32 <= addr \/ addr + y * pitch <= data);
  pl_free : forall i, 0 <= i < y * pitch -> ~ in_direct ss (addr + i);
  pl_rom : 0x500 <= 16 * u16 global_seg;
  pl_image : forall i, 0 <= i < 2 ^ 16 + 16 -> elsewhere V data (y * pitch) (16 * u16 global_seg + i);
  pl_direct : forall a, 0 <= a < 0x500 -> ~ in_direct ss a
}.

Hypothesis Hpl : placed.

Lemma placed_mode : exists seg, CBmodeinfo V = mkMode MM_DIRECT x y bpp 8 16 seg /\ CBemulinfo V = CBmodeinfo V.
Proof.
  destruct Hpl as [(_ & _ & _ & _ & (seg & Hm) & He & _) _ _ [-> Hw] Hy _ _ _ _ _ _ _]. exists seg. split; [|done].
  rewrite Hm. by rewrite !wrap_small by (unfold fits; lia).
Qed.

Lemma placed_screen : screen_ok V data b (y * pitch) pitch.
Proof.
  destruct Hpl as [(_ & Hfb & _) Hd _ [-> Hw] Hy Hp Hend Hdata _ _ _ _]. pose proof (b_range _ _ Hd) as Hb.
  assert (0 <= y * pitch) by nia. assert (1 * (8 * Z.of_nat b) <= w * (8 * Z.of_nat b)) by (apply Z.mul_le_mono_nonneg_r; lia).
  split; rewrite ?Hfb; lia.
Qed.

Lemma placed_rect n : 0 < n <= y -> rect_ok V b (y * pitch) pitch 0 0 w n.
Proof.
  intros Hn. destruct Hpl as [_ Hd _ [-> Hw] Hy Hp Hend _ _ _ _ _]. pose proof (b_range _ _ Hd) as Hb.
  split; [lia|nia|lia|]. unfold cell. assert ((n - 1) * pitch <= (y - 1) * pitch) by nia. lia.
Qed.

Lemma placed_low a : 0 <= a < 0x500 -> elsewhere V data (y * pitch) a.
Proof.
  destruct Hpl as [(_ & Hfb & _) _ _ _ _ _ Hend Hdata _ _ _ _]. intros Ha. unfold elsewhere. rewrite Hfb. lia.
Qed.

(** Clearing the screen. *)
Lemma clear_screen m : mem_ok m ->
  let o := with_op GO_MEMSET (with_area x y 0 (with_pos 0 0 (init_gfx_op V off_CBmodeinfo))) in
  exists m', handle_gfx_op V data o m = (o, m') /\ mem_ok m' /\ (forall a, 0 <= a < 0x500 -> m' a = m a) /\
    (forall i j, 0 <= i < y -> 0 <= j < 8 * w -> load b m' (cell V b pitch 0 i + j * Z.of_nat b) = get_color bpp 0).
Proof.
  intros Hok o. destruct placed_mode as (seg & Hm & _). pose proof placed_screen as Hs.
  pose proof Hpl as [(_ & Hfb & Hln & _) Hd _ [Hx Hw] Hy _ _ _ _ _ _ _].
  assert (mode_at V off_CBmodeinfo = CBmodeinfo V) as Hat by (unfold mode_at; by rewrite Z.eqb_refl).
  destruct (clear_spec V data off_CBmodeinfo bpp b ltac:(by rewrite Hat, Hm) ltac:(by rewrite Hat, Hm) Hd (y * pitch) pitch Hs
    o m 0 0 w y 0 Hok) as (m' & Hrun & Hok' & Hpix & Hfr); try done.
  - apply placed_rect. lia.
  - cbn. rewrite Hx. apply wrap_small. unfold fits. lia.
  - cbn. apply wrap_small. unfold fits. lia.
  - exists m'. split; [done|]. split; [done|]. split; [|intros i j Hi Hj; rewrite <- (Hpix i j) by done; by rewrite Z.add_0_l].
    intros a Ha. apply Hfr. destruct (placed_low a Ha) as [H1 H2].
    split; [|done]. intros i Hi. destruct (rect_rows V data bpp b Hd (y * pitch) pitch Hs 0 0 w y i (placed_rect y ltac:(lia)) Hi).
    lia.
Qed.

(** The driver's part keeps low memory but for the flag of the emulation. *)
Lemma set_mode_low m flags : mem_ok m -> flagged flags MF_NOCLEARMEM = false -> flagged flags MF_LEGACY = true ->
  let m' := cbvga_set_mode V data ss off_CBemulinfo flags m in
  mem_ok m' /\
  (forall a, 0 <= a < 0x500 -> m' a = MASK_BDA_flags m BF_EMULATE_TEXT BF_EMULATE_TEXT a) /\
  (forall i j, 0 <= i < y -> 0 <= j < 8 * w -> load b m' (cell V b pitch 0 i + j * Z.of_nat b) = get_color bpp 0).
Proof.
  intros Hok Hnc Hlg m'. subst m'. destruct placed_mode as (seg & Hm & He).
  pose proof Hpl as [(_ & Hfb & Hln & _) Hd _ [Hx Hw] Hy Hp Hend _ Hfree _ _ Hdir]. pose proof (b_range _ _ Hd) as Hb.
  unfold cbvga_set_mode. rewrite Hnc, Hlg, Z.eqb_refl, orb_true_r. cbn [orb negb andb].
  rewrite Hm. cbn [memmodel width height depth]. change (MM_DIRECT =? MM_TEXT) with false. cbv iota.
  set (m0 := MASK_BDA_flags m BF_EMULATE_TEXT BF_EMULATE_TEXT). assert (mem_ok m0) as Hok0 by by apply store_ok.
  rewrite Hln, Hfb. destruct (Z.eqb_spec addr 0); [lia|]. cbn [negb]. rewrite andb_true_r.
  replace (_ <=? pitch) with true.
  2: { symmetry. apply Z.leb_le. destruct Hd as [[[->| ->] ->]|[[-> ->]|[-> ->]]]; cbn in *; lia. }
  destruct (clear_screen m0 Hok0) as (m1 & -> & Hok1 & Hlow & Hpix). cbn [snd]. cbv zeta.
  match goal with |- mem_ok ?M /\ _ => assert (emul_only m1 M) as [Hm1 Hf1] by (apply emul_set_mode, emul_setup, emul_refl) end.
  split; [by apply Hm1|]. split; [intros a Ha; rewrite Hf1 by (by apply Hdir); by apply Hlow|].
  intros i j Hi Hj. rewrite <- (Hpix i j Hi Hj). apply load_ext. intros a Ha. apply Hf1.
  replace a with (addr + (a - addr)) by lia. apply Hfree. unfold cell in Ha. rewrite Hfb in Ha.
  assert (j * Z.of_nat b + Z.of_nat b <= 8 * w * Z.of_nat b) by nia. assert (0 <= j * Z.of_nat b) by nia.
  assert (0 <= i * pitch /\ i * pitch + pitch <= y * pitch) by nia. rewrite Hx in Hp. lia.
Qed.

(** The flags after the switch: emulation and extra stack on, the others kept. *)
Definition text_flags (fl : Z) : Z :=
  u8 (Z.lor (Z.land (u8 (Z.lor (Z.land fl (u8 (Z.lnot BF_EMULATE_TEXT))) BF_EMULATE_TEXT)) (u8 (Z.lnot BF_EXTRA_STACK)))
        BF_EXTRA_STACK).

Lemma text_flags_spec fl : fits 8 fl -> flagged fl BF_SWCURSOR = false ->
  flagged (text_flags fl) BF_EMULATE_TEXT = true /\ flagged (text_flags fl) BF_SWCURSOR = false.
Proof.
  intros Hf. assert (forallb (fun fl => implb (negb (flagged fl BF_SWCURSOR))
    (flagged (text_flags fl) BF_EMULATE_TEXT && negb (flagged (text_flags fl) BF_SWCURSOR))) (seqZ 0 256) = true) as H
    by (vm_compute; reflexivity).
  rewrite forallb_forall in H. specialize (H fl). rewrite <- list_elem_of_In, elem_of_seqZ in H. unfold fits in *.
  specialize (H ltac:(lia)). intros Hn. rewrite Hn in H. cbn [negb implb] in H. apply andb_prop in H as [H1 H2].
  split; [done|]. by apply negb_true_iff.
Qed.

Lemma sdiv_pos a c : 0 <= a < 2 ^ 31 -> 0 < c < 2 ^ 31 -> sdiv 32 a c = Done (a / c).
Proof.
  intros Ha Hc. unfold sdiv. destruct (Z.eqb_spec c 0); [lia|]. rewrite Z.quot_div_nonneg by lia.
  apply decide_True. unfold sfits. Z.div_mod_to_equations. nia.
Qed.

(** The switch to mode 3: what it leaves in the data area. *)
Lemma mode3_bda m flags : mem_ok m -> flagged flags MF_NOCLEARMEM = false -> flagged flags MF_LEGACY = true ->
  exists m', vga_set_mode V data ss 3 flags m = Done (0, m') /\ mem_ok m' /\
    GET_BDA 2 m' video_cols = w /\ GET_BDA 1 m' video_rows = y / 16 - 1 /\ GET_BDA 2 m' char_height = 16 /\
    GET_BDA 1 m' video_page = 0 /\ GET_BDA 2 m' (cursor_pos 0) = 0 /\
    GET_BDA 2 m' ext_vgamode_offset = off_CBemulinfo /\ GET_BDA 1 m' ext_flags = text_flags (GET_BDA 1 m ext_flags) /\
    GET_IVT m' 0x43 = u32 (SEGOFF global_seg vgafont16) /\
    (forall a, 0x500 <= a -> m' a = cbvga_set_mode V data ss off_CBemulinfo flags m a).
Proof.
  intros Hok Hnc Hlg. destruct placed_mode as (seg & Hm & He). destruct (set_mode_low m flags Hok Hnc Hlg) as (Hok1 & Hlow & _).
  pose proof Hpl as [(Hcb & _) _ Hmp [Hx Hw] Hy _ _ _ _ _ _ _]. destruct Hmp as (_ & Ho & Hne & _).
  assert (cbvga_find_mode V 3 = off_CBemulinfo) as Hf by (unfold cbvga_find_mode; by rewrite Hcb).
  assert (mode_at V off_CBemulinfo = mkMode MM_DIRECT x y bpp 8 16 seg) as Hat.
  { unfold mode_at. destruct (Z.eqb_spec off_CBemulinfo off_CBmodeinfo); [done|]. by rewrite Z.eqb_refl, He. }
  unfold vga_set_mode. rewrite Hf, Hat. destruct (Z.eqb_spec off_CBemulinfo 0); [lia|].
  cbn [memmodel width height depth cwidth cheight]. change (MM_DIRECT =? MM_TEXT) with false. cbv iota zeta.
  rewrite !sdiv_pos by lia. run_outcome. unfold calc_page_size. change (MM_DIRECT =? MM_CGA) with false.
  change (MM_DIRECT =? MM_TEXT) with false. cbv iota. unfold signed. rewrite decide_True by (unfold sfits; nia). run_outcome.
  set (m1 := cbvga_set_mode V data ss off_CBemulinfo flags m) in *.
  match goal with |- context [set_mode_tail flags 16 ?M] => set (m2 := M) end.
  assert (mem_ok m2) as Hok2 by (unfold m2, MASK_BDA_flags, SET_BDA, SET_FARVAR; by repeat apply store_ok).
  destruct (tail_spec flags m2 Hok2) as (Hok3 & Hkeep & Hch & Hpg & Hcp & Hivt & Hhigh).
  eexists. split; [reflexivity|]. rewrite (Hkeep 2%nat video_cols), (Hkeep 1%nat video_rows),
    (Hkeep 2%nat ext_vgamode_offset), (Hkeep 1%nat ext_flags) by (cbn; tauto). split_and!; try done; unfold m2.
  - bda. replace (x / 8) with w by (rewrite Hx, Z.mul_comm, Z.div_mul; lia). apply wrap_small. unfold fits. lia.
  - bda. apply wrap_small. unfold fits. Z.div_mod_to_equations. lia.
  - unfold MASK_BDA_flags. bda. apply wrap_small. unfold fits. lia.
  - unfold MASK_BDA_flags. bda. rewrite Hlg. unfold text_flags. do 3 f_equal.
    unfold GET_BDA, GET_FARVAR. rewrite (load_ext 1 m1 (MASK_BDA_flags m BF_EMULATE_TEXT BF_EMULATE_TEXT)).
    + unfold MASK_BDA_flags. apply (load_store_same 1).
    + intros a Ha. apply Hlow. unfold far, SEG_BDA, ext_flags in Ha. lia.
  - intros a Ha. rewrite Hhigh by done. unfold m2, MASK_BDA_flags, SET_BDA, SET_FARVAR. rewrite !store_out; [done|low_memory..].
Qed.

(** An empty screen. *)
Definition empty_picture : picture := fun _ _ => (None, 0).

Lemma cleared_displays font m rows : (forall i j, 0 <= i < y -> 0 <= j < 8 * w ->
    load b m (cell V b pitch 0 i + j * Z.of_nat b) = get_color bpp 0) ->
  16 * (rows + 1) <= y -> displays V bpp b pitch font 16 m w rows empty_picture.
Proof.
  intros Hpix Hy x0 y0 Hx0 Hy0. split; [done|]. split; [done|]. cbn [fst snd drawn empty_picture].
  intros r line j Hr Hj. apply lookup_replicate in Hr as [-> Hr].
  replace (cell V b pitch (8 * x0) (y0 * 16 + Z.of_nat r) + Z.of_nat j * Z.of_nat b)
    with (cell V b pitch 0 (y0 * 16 + Z.of_nat r) + (8 * x0 + Z.of_nat j) * Z.of_nat b) by (unfold cell; lia).
  rewrite Hpix by lia. by destruct j as [|[|[|[|[|[|[|[|]]]]]]]]; try lia.
Qed.

(** Mode 3 makes a terminal with the cursor at the top left of an empty
    screen. *)
Lemma mode3_terminal m flags : mem_ok m -> flagged flags MF_NOCLEARMEM = false -> flagged flags MF_LEGACY = true ->
  flagged (GET_BDA 1 m ext_flags) BF_SWCURSOR = false ->
  exists m', vga_set_mode V data ss 3 flags m = Done (0, m') /\
    terminal V data off_CBemulinfo b (y * pitch) pitch m' w (y / 16 - 1) 0 0 0 /\
    font_is (glyph_of m') 16 m' /\ displays V bpp b pitch (glyph_of m') 16 m' w (y / 16 - 1) empty_picture.
Proof.
  intros Hok Hnc Hlg Hhid. destruct (mode3_bda m flags Hok Hnc Hlg) as (m' & Hrun & Hok' & Hco & Hro & Hch & Hpg & Hcp & Hmo & Hfl & Hivt & Hhigh).
  assert (fits 8 (GET_BDA 1 m ext_flags)) as Hf8 by by apply (load_fits 1).
  destruct (text_flags_spec _ Hf8 Hhid) as [Hemu Hsw]. exists m'. split; [done|].
  pose proof Hpl as [(_ & Hfb & _) Hd _ [Hx Hw] Hy Hp Hend _ _ Hrom Himg _]. pose proof (b_range _ _ Hd) as Hb.
  assert (1 < y / 16 /\ 16 * (y / 16) <= y /\ y / 16 < 256) as Hrows by (Z.div_mod_to_equations; lia).
  assert (forall c, 0 <= c < 256 -> 16 * u16 global_seg <= far (get_font_data c m').1 (get_font_data c m').2) as Hfont.
  { intros c Hc. unfold get_font_data. rewrite Hch, Hivt. cbn [Z.eqb Pos.eqb andb fst snd].
    destruct (segoff_parts global_seg vgafont16) as [-> ->]. unfold far.
    assert (fits 16 (u16 (u16 vgafont16 + c * 16))) as Hu by (apply wrap_fits; lia). unfold fits in Hu. lia. }
  destruct (set_mode_low m flags Hok Hnc Hlg) as (_ & _ & Hpix).
  split; [|split; [split; [done|]; intros c Hc; split; [done|]; specialize (Hfont c Hc); lia|]].
  2:{ apply cleared_displays; [|lia]. intros i j Hi Hj. rewrite <- (Hpix i j Hi Hj). apply load_ext. intros a Ha.
      apply Hhigh. unfold cell in Ha. rewrite Hfb in Ha. assert (0 <= pitch) by nia. assert (0 <= i * pitch) by nia.
      assert (0 <= j * Z.of_nat b) by nia. lia. }
  split.
  - split; [split|done|by rewrite Hfl].
    + done.
    + unfold vga_emulate_text. by rewrite Hfl.
    + rewrite Hch. lia.
    + apply placed_low.
    + intros c i Hc Hi. unfold get_font_data. rewrite Hch, Hivt. cbn [Z.eqb Pos.eqb andb fst snd].
      destruct (segoff_parts global_seg vgafont16) as [-> ->]. unfold far. rewrite <- Z.add_assoc. apply Himg.
      assert (fits 16 (u16 (u16 vgafont16 + c * 16))) as Hu by (apply wrap_fits; lia). unfold fits in Hu. lia.
  - split; [done|done|lia| |].
    + do 5 (split; [lia|]). rewrite Hch. rewrite Z.mul_0_r, Z.mul_0_l. apply placed_rect. lia.
    + rewrite Hch. unfold cell. rewrite Hfb. assert (0 <= pitch) by nia.
      assert (((y / 16 - 1 + 2) * 16 - 1) * pitch <= (y + 15) * pitch) by (apply Z.mul_le_mono_nonneg_r; lia).
      rewrite Hx in Hp. lia.
  - rewrite Hpg. lia.
  - unfold get_cursor_pos. cbn [Z.ltb Z.compare]. by rewrite Hcp.
  - lia.
Qed.

(** The flags of a mode set by function 00h. *)
Lemma legacy_flags c : flagged (Z.lor MF_LEGACY (Z.land c (Z.lor MF_NOPALETTE MF_GRAYSUM))) MF_NOCLEARMEM = false /\
  flagged (Z.lor MF_LEGACY (Z.land c (Z.lor MF_NOPALETTE MF_GRAYSUM))) MF_LEGACY = true.
Proof.
  unfold flagged. rewrite !Z.land_lor_distr_l, <- !Z.land_assoc.
  change (Z.land (Z.lor MF_NOPALETTE MF_GRAYSUM) MF_NOCLEARMEM) with 0.
  change (Z.land (Z.lor MF_NOPALETTE MF_GRAYSUM) MF_LEGACY) with 0. by rewrite Z.land_0_r.
Qed.

Lemma mode3_entry m r : mem_ok m -> hi8 (ax r) = 0 -> lo8 (ax r) = 3 ->
  flagged (GET_BDA 1 m ext_flags) BF_SWCURSOR = false ->
  exists m', handle_10 data ss r V m = Done (with_al 0x30 r, V, m') /\
    terminal V data off_CBemulinfo b (y * pitch) pitch m' w (y / 16 - 1) 0 0 0 /\
    font_is (glyph_of m') 16 m' /\ displays V bpp b pitch (glyph_of m') 16 m' w (y / 16 - 1) empty_picture.
Proof.
  intros Hok Hah Hal Hhid.
  assert (swcursor_pre_handle10 V data ss (hi8 (ax r)) (lo8 (ax r)) m = Done m) as Hpre.
  { unfold swcursor_pre_handle10, set_swcursor. rewrite Hhid. by repeat case_match. }
  destruct (legacy_flags (GET_BDA 1 m modeset_ctl)) as [Hnc Hlg].
  destruct (mode3_terminal m _ Hok Hnc Hlg Hhid) as (m' & Hrun & Ht). exists m'. split; [|done].
  unfold handle_10. rewrite Hpre. run_outcome. unfold dispatch. rewrite Hah. cbn [Z.eqb]. unfold handle_1000. rewrite Hal.
  change (Z.land 3 0x7f) with 3. change (Z.land 3 0x80 =? 0) with true. cbv iota zeta. rewrite Hrun. run_outcome. done.
Qed.

(** * Saving and restoring *)

(** [m'] is [m] with [n] bytes at [src] copied to [dst]. *)
Definition copied (m m' : mem) (dst src n : Z) : Prop :=
  mem_ok m' /\ (forall i, 0 <= i < n -> m' (dst + i) = m (src + i)) /\ (forall a, a < dst \/ dst + n <= a -> m' a = m a).

Lemma copied_far m dseg d sseg s n : mem_ok m -> in_segment d n -> in_segment s n ->
  far dseg d + n <= far sseg s \/ far sseg s + n <= far dseg d ->
  copied m (memcpy_far m dseg d sseg s n) (far dseg d) (far sseg s) n.
Proof.
  intros Hok Hd Hs Hsep. split; [|split].
  - unfold memcpy_far. generalize (Z.to_nat (u16 n)) as k, d, s. clear -Hok. intros k. revert m Hok.
    induction k as [|k IH]; intros m Hok d s; [done|]. cbn [memcpy_far_loop]. apply IH. by apply store8_ok.
  - intros i Hi. pose proof (memcpy_far_load m dseg d sseg s n 1 i Hok Hd Hs Hsep ltac:(lia) ltac:(lia)) as Hl.
    by rewrite !load1 in Hl.
  - intros a Ha. by apply memcpy_far_out.
Qed.

Lemma copied_var n m seg off src : mem_ok m -> copied m (SET_FARVAR n m seg off (load n m src)) (far seg off) src (Z.of_nat n).
Proof.
  intros Hok. unfold SET_FARVAR. pose proof (store_load n m (far seg off) src Hok) as Hsl. split; [by apply store_ok|]. split.
  - intros i Hi. rewrite Hsl. unfold block_copy, Libc.block_copy. repeat (ztest; simpl; try lia). f_equal. lia.
  - intros a Ha. by apply store_out.
Qed.

(** Where byte [i] of the saved block comes from. *)
Definition saved_from (i : Z) : Z :=
  if i <? 28 then 0x449 + i
  else if i <? 34 then 0x484 + (i - 28)
  else if i <? 36 then 0x4ba + (i - 34)
  else if i <? 40 then 0x7c + (i - 36)
  else 0x10c + (i - 40).

Variables (seg info : Z).
Hypothesis Hinfo : in_segment info 44.
Hypothesis Hhigh : 0x500 <= far seg info.

Lemma save_spec m : mem_ok m -> let m' := bda_save seg info m in
  mem_ok m' /\ (forall i, 0 <= i < 44 -> m' (far seg info + i) = m (saved_from i)) /\
  (forall a, a < far seg info \/ far seg info + 44 <= a -> m' a = m a).
Proof.
  intros Hok m'. destruct Hinfo as (Hi0 & _ & Hi1). unfold m', bda_save.
  destruct (copied_far m seg (info + save_0x49) SEG_BDA 0x49 28) as (Hok1 & Hin1 & Ho1);
    [done|unfold in_segment, save_0x49; lia|unfold in_segment; lia|unfold far, SEG_BDA, save_0x49 in *; lia|].
  set (m1 := memcpy_far m _ _ _ _ 28) in *.
  destruct (copied_far m1 seg (info + save_0x84) SEG_BDA 0x84 6) as (Hok2 & Hin2 & Ho2);
    [done|unfold in_segment, save_0x84; lia|unfold in_segment; lia|unfold far, SEG_BDA, save_0x84 in *; lia|].
  set (m2 := memcpy_far m1 _ _ _ _ 6) in *.
  destruct (copied_var 2 m2 seg (info + save_vbe_mode) (far SEG_BDA ext_vbe_mode) Hok2) as (Hok3 & Hin3 & Ho3).
  set (m3 := SET_FARVAR 2 m2 _ _ _) in *.
  destruct (copied_var 4 m3 seg (info + save_font0) (far SEG_IVT (4 * 0x1f)) Hok3) as (Hok4 & Hin4 & Ho4).
  set (m4 := SET_FARVAR 4 m3 _ _ _) in *.
  destruct (copied_var 4 m4 seg (info + save_font1) (far SEG_IVT (4 * 0x43)) Hok4) as (Hok5 & Hin5 & Ho5).
  set (m5 := SET_FARVAR 4 m4 _ _ _) in *.
  change (mem_ok m5 /\ (forall i, 0 <= i < 44 -> m5 (far seg info + i) = m (saved_from i)) /\
    (forall a, a < far seg info \/ far seg info + 44 <= a -> m5 a = m a)).
  unfold save_0x49, save_0x84, save_vbe_mode, save_font0, save_font1, far, SEG_BDA, SEG_IVT, ext_vbe_mode in *.
  split; [done|]. split.
  - clearbody m1 m2 m3 m4 m5. intros i Hi. unfold saved_from.
    destruct (Z.ltb_spec i 28); [|destruct (Z.ltb_spec i 34); [|destruct (Z.ltb_spec i 36); [|destruct (Z.ltb_spec i 40)]]].
    + rewrite Ho5, Ho4, Ho3, Ho2 by lia. replace (16 * seg + info + i) with (16 * seg + (info + 0) + i) by lia.
      rewrite Hin1 by lia. f_equal; lia.
    + rewrite Ho5, Ho4, Ho3 by lia. replace (16 * seg + info + i) with (16 * seg + (info + 28) + (i - 28)) by lia.
      rewrite Hin2, Ho1 by lia. f_equal; lia.
    + rewrite Ho5, Ho4 by lia. replace (16 * seg + info + i) with (16 * seg + (info + 34) + (i - 34)) by lia.
      rewrite Hin3, Ho2, Ho1 by lia. f_equal; lia.
    + rewrite Ho5 by lia. replace (16 * seg + info + i) with (16 * seg + (info + 36) + (i - 36)) by lia.
      rewrite Hin4, Ho3, Ho2, Ho1 by lia. f_equal; lia.
    + replace (16 * seg + info + i) with (16 * seg + (info + 40) + (i - 40)) by lia.
      rewrite Hin5, Ho4, Ho3, Ho2, Ho1 by lia. f_equal; lia.
  - intros a Ha. rewrite Ho5, Ho4, Ho3, Ho2, Ho1 by lia. done.
Qed.

(** The copies of a restore one after the other; [m4] is after the mode. *)
Lemma restore_chain m m1 m2 m3 m4 m5 m6 B : 0x500 <= B ->
  copied m m1 0x449 B 28 -> copied m1 m2 0x484 (B + 28) 6 -> copied m2 m3 0x4ba (B + 34) 2 ->
  (forall a, a < 0x4bc \/ 0x4be <= a -> m4 a = m3 a) -> copied m4 m5 0x7c (B + 36) 4 -> copied m5 m6 0x10c (B + 40) 4 ->
  (forall i, 0 <= i < 44 -> m6 (saved_from i) = m (B + i)) /\
  GET_BDA 2 m6 ext_vgamode_offset = GET_BDA 2 m4 ext_vgamode_offset /\
  (forall a, (forall i, 0 <= i < 44 -> a <> saved_from i) -> a < 0x4bc \/ 0x4be <= a -> m6 a = m a).
Proof.
  intros HB (_ & Hin1 & Ho1) (_ & Hin2 & Ho2) (_ & Hin3 & Ho3) Ho4 (_ & Hin5 & Ho5) (_ & Hin6 & Ho6). split; [|split].
  - intros i Hi. unfold saved_from.
    destruct (Z.ltb_spec i 28); [|destruct (Z.ltb_spec i 34); [|destruct (Z.ltb_spec i 36); [|destruct (Z.ltb_spec i 40)]]].
    + rewrite Ho6, Ho5, Ho4, Ho3, Ho2, Hin1 by lia. done.
    + rewrite Ho6, Ho5, Ho4, Ho3, Hin2, Ho1 by lia. f_equal; lia.
    + rewrite Ho6, Ho5, Ho4, Hin3, Ho2, Ho1 by lia. f_equal; lia.
    + rewrite Ho6, Hin5, Ho4, Ho3, Ho2, Ho1 by lia. f_equal; lia.
    + rewrite Hin6, Ho5, Ho4, Ho3, Ho2, Ho1 by lia. f_equal; lia.
  - apply load_ext. intros a Ha. unfold far, SEG_BDA, ext_vgamode_offset in Ha. rewrite Ho6, Ho5 by lia. done.
  - intros a Ha Hm. assert (forall lo n k, (forall i, 0 <= i < n -> saved_from (k + i) = lo + i) -> 0 <= k -> k + n <= 44 ->
      a < lo \/ lo + n <= a) as Hout.
    { intros lo n k Hs Hk Hn. destruct (Z.lt_ge_cases a lo); [by left|]. destruct (Z.le_gt_cases (lo + n) a); [by right|].
      exfalso. apply (Ha (k + (a - lo))); [lia|]. rewrite Hs by lia. lia. }
    rewrite Ho6 by (apply (Hout _ _ 40); [intros i Hi; unfold saved_from; repeat (ztest; try lia)|lia|lia]).
    rewrite Ho5 by (apply (Hout _ _ 36); [intros i Hi; unfold saved_from; repeat (ztest; try lia)|lia|lia]).
    rewrite Ho4 by done.
    rewrite Ho3 by (apply (Hout _ _ 34); [intros i Hi; unfold saved_from; repeat (ztest; try lia)|lia|lia]).
    rewrite Ho2 by (apply (Hout _ _ 28); [intros i Hi; unfold saved_from; repeat (ztest; try lia)|lia|lia]).
    rewrite Ho1 by (apply (Hout _ _ 0); [intros i Hi; unfold saved_from; repeat (ztest; try lia)|lia|lia]). done.
Qed.

(** The mode description a saved block selects. *)
Definition saved_mode (m : mem) : Z :=
  cbvga_find_mode V (Z.land (load 2 m (far seg info + save_vbe_mode)) (Z.lnot MF_VBEFLAGS)).

Lemma restore_spec m : mem_ok m -> let m' := bda_restore V seg info m in
  mem_ok m' /\ (forall i, 0 <= i < 44 -> m' (saved_from i) = m (far seg info + i)) /\
  GET_BDA 2 m' ext_vgamode_offset = u16 (saved_mode m) /\
  (forall a, (forall i, 0 <= i < 44 -> a <> saved_from i) -> a < 0x4bc \/ 0x4be <= a -> m' a = m a).
Proof.
  intros Hok m'. destruct Hinfo as (Hi0 & _ & Hi1).
  assert (forall k, far seg (info + k) = far seg info + k) as Hfar by (unfold far; lia).
  pose proof (copied_far m SEG_BDA 0x49 seg (info + save_0x49) 28 Hok ltac:(unfold in_segment; lia)
    ltac:(unfold in_segment, save_0x49; lia) ltac:(unfold far, SEG_BDA, save_0x49 in *; lia)) as C1.
  set (m1 := memcpy_far m _ _ _ _ 28) in *.
  pose proof (copied_far m1 SEG_BDA 0x84 seg (info + save_0x84) 6 (proj1 C1) ltac:(unfold in_segment; lia)
    ltac:(unfold in_segment, save_0x84; lia) ltac:(unfold far, SEG_BDA, save_0x84 in *; lia)) as C2.
  set (m2 := memcpy_far m1 _ _ _ _ 6) in *.
  pose proof (copied_var 2 m2 SEG_BDA ext_vbe_mode (far seg (info + save_vbe_mode)) (proj1 C2)) as C3.
  set (m3 := SET_FARVAR 2 m2 SEG_BDA _ _) in *.
  assert (GET_FARVAR 2 m2 seg (info + save_vbe_mode) = load 2 m (far seg info + save_vbe_mode)) as Hv.
  { unfold GET_FARVAR. rewrite Hfar. destruct C1 as (_ & _ & Ho1), C2 as (_ & _ & Ho2).
    apply load_ext. intros a Ha. unfold save_vbe_mode in Ha. rewrite Ho2, Ho1 by (unfold far, SEG_BDA in *; lia). done. }
  set (m4 := SET_BDA 2 m3 ext_vgamode_offset (saved_mode m)).
  assert (mem_ok m4) as Hok4 by (apply store_ok, C3).
  assert (forall a, a < 0x4bc \/ 0x4be <= a -> m4 a = m3 a) as Ho4
    by (intros a Ha; apply store_out; unfold far, SEG_BDA, ext_vgamode_offset; lia).
  pose proof (copied_var 4 m4 SEG_IVT (4 * 0x1f) (far seg (info + save_font0)) Hok4) as C5.
  set (m5 := SET_FARVAR 4 m4 _ _ _) in *.
  pose proof (copied_var 4 m5 SEG_IVT (4 * 0x43) (far seg (info + save_font1)) (proj1 C5)) as C6.
  set (m6 := SET_FARVAR 4 m5 _ _ _) in *.
  assert (m' = m6) as -> by (unfold m', bda_restore; fold m1 m2; rewrite Hv; fold (saved_mode m); by rewrite <- Hv).
  rewrite Hfar in C1, C2, C3, C5, C6. unfold save_0x49 in C1. rewrite Z.add_0_r in C1.
  destruct (restore_chain m m1 m2 m3 m4 m5 m6 (far seg info) Hhigh C1 C2 C3 Ho4 C5 C6) as (H1 & H2 & H3).
  split; [apply C6|]. split; [done|]. split; [|done]. rewrite H2. apply bda_same.
Qed.

(** What is saved is restored, whatever happened outside the block between. *)
Lemma save_restore m m2 : mem_ok m -> mem_ok m2 ->
  (forall i, 0 <= i < 44 -> m2 (far seg info + i) = bda_save seg info m (far seg info + i)) ->
  let m3 := bda_restore V seg info m2 in
  (forall i, 0 <= i < 44 -> m3 (saved_from i) = m (saved_from i)) /\
  GET_BDA 2 m3 ext_vgamode_offset =
    u16 (cbvga_find_mode V (Z.land (GET_BDA 2 m ext_vbe_mode) (Z.lnot MF_VBEFLAGS))).
Proof.
  intros Hok Hok2 Hblk m3. destruct (save_spec m Hok) as (_ & Hs & _).
  destruct (restore_spec m2 Hok2) as (_ & Hr & Hm & _). fold m3 in Hr, Hm. split.
  - intros i Hi. by rewrite Hr, Hblk, Hs.
  - rewrite Hm. unfold saved_mode. do 3 f_equal. unfold GET_BDA, GET_FARVAR, load. f_equal. apply load_bytes_shift.
    intros i Hi. unfold save_vbe_mode. rewrite <- Z.add_assoc, Hblk, Hs by lia. f_equal. unfold saved_from.
    repeat (ztest; try lia). unfold far, SEG_BDA, ext_vbe_mode. lia.
Qed.

End layout.
