(* ===== verification/Console.v ===== *)
(** The console of the video BIOS, as a program that calls interrupt 10h sees
    it.

    The theorems of [VgaText], [VgaCursor] and [VgaModeSpec] put together: from
    a framebuffer in place, setting text mode 3 makes a terminal, and on a
    terminal the functions that type, write and read characters, write and
    read pixels, scroll, show the cursor and save the state do what the
    interface promises. *)

From stdpp Require Import base numbers list.
From Stdlib Require Import ZArith Lia.
From S2P Require Import Prelude Memory SeaString CcInt VgaState VgaPal VgaCb VgaFb VgaDraw VgaScroll VgaMode.
From S2P Require Import VgaVbe VgaBios VgaText VgaCursor VgaModeSpec.

(** * Saving and restoring *)

Section layout.
Context {L : Layout}.

(** The registers of a call of function 1Ch for the BIOS data area. *)
Definition state_call (cmd : Z) (r : bregs) : Prop := hi8 (ax r) = 0x1c /\ lo8 (ax r) = cmd /\ cx r = SR_BDA.

(** Function 1Ch neither draws nor needs a terminal. *)
Lemma state_entry V data ss m r cmd : state_call cmd r -> cmd = 1 \/ cmd = 2 ->
  handle_10 data ss r V m =
    Done (with_al 0x1c r, V, if cmd =? 1 then bda_save (es r) (bx r) m else bda_restore V (es r) (bx r) m).
Proof.
  intros (Hah & Hal & Hcx) Hcmd. unfold handle_10, swcursor_pre_handle10. rewrite Hah.
  assert (forall A (x : A), (if negb (vga_emulate_text m) then x else x) = x) as Hif by (intros A x; by case_match).
  cbn [Z.eqb Z.leb Z.compare Pos.eqb Pos.compare Pos.compare_cont orb andb]. rewrite ?Hif. run_outcome.
  unfold dispatch. rewrite Hah. cbn [Z.eqb Pos.eqb]. unfold handle_101c. rewrite Hal, Hcx.
  unfold cbvga_save_restore, bda_save_restore. destruct Hcmd as [-> | ->].
  all: repeat match goal with |- context [Z.land ?x ?y] =>
    let v := eval vm_compute in (Z.land x y) in change (Z.land x y) with v end.
  all: by cbn [Z.eqb Pos.eqb Z.ltb Z.compare Pos.compare Pos.compare_cont negb orb sizeof_saveBDAstate].
Qed.

End layout.

(** * A linear console *)

(** The current mode is a linear one, and its framebuffer is in place. *)
Record linear {L : Layout} (V : vga) (data cur d : Z) (b : nat) (size pitch : Z) : Prop := {
  lin_model : memmodel (mode_at V cur) = MM_DIRECT;
  lin_depth : depth (mode_at V cur) = d;
  lin_bytes : direct_depth d b;
  lin_screen : screen_ok V data b size pitch;
  lin_pitch : CBlinelength V = pitch;
  lin_cur : cur <> 0
}.

Lemma placed_linear {L : Layout} ss V data addr bpp x y pitch w b : 0 < off_CBemulinfo ->
  placed ss V data addr bpp x y pitch w b -> linear V data off_CBemulinfo bpp b (y * pitch) pitch.
Proof.
  intros Hoff Hpl. destruct (placed_mode _ _ _ _ _ _ _ _ _ _ Hpl) as (seg & Hm & He).
  assert (mode_at V off_CBemulinfo = CBmodeinfo V) as Hat
    by (unfold mode_at; rewrite Z.eqb_refl; by destruct (off_CBemulinfo =? off_CBmodeinfo)).
  pose proof (placed_screen _ _ _ _ _ _ _ _ _ _ Hpl) as Hs.
  destruct Hpl as [(_ & _ & Hln & _) Hd _ _ _ _ _ _ _ _ _ _].
  split; [by rewrite Hat, Hm|by rewrite Hat, Hm|done..|lia].
Qed.

(** * A console in memory *)

Section demo.
#[local] Existing Instance demo_layout.

(** The bytes of low memory after text mode 3 on [demo_vga], and a font whose
    character 41h is not blank. *)
Definition demo_console : mem := fun a =>
  if a =? 0x10d then 0x56 else if a =? 0x10f then 0xC0
  else if a =? 0x44a then 128 else if a =? 0x461 then 0x0e else if a =? 0x460 then 0x0f
  else if a =? 0x484 then 47 else if a =? 0x485 then 16 else if a =? 0x4b9 then 0x10
  else if a =? 0x4ba then 0x43 else if a =? 0x4bb then 0x01
  else if a =? 0x4bc then 0x10 else if a =? 0x4bd then 0x01 else if a =? 0xC5600 + 0x41 * 16 then 0x18 else 0.

Lemma demo_console_ok : mem_ok demo_console.
Proof. intros a. unfold demo_console. repeat (case_match; [done|]). done. Qed.

Lemma demo_framebuffer : placed 0x9000 demo_vga 0x90000 0xE0000000 32 1024 768 4096 128 4.
Proof.
  assert (VBE_framebuffer demo_vga = 0xE0000000) as Hfb by apply demo_shows.
  split; [apply demo_shows|by right; right|apply demo_placed|lia..| | | |].
  - intros i Hi [v Hv]. unfold daddr in Hv.
    assert (far 0x9000 (direct_offset v) + direct_size v <= 0xA0010) by (destruct v; vm_compute; congruence). lia.
  - vm_compute. congruence.
  - intros i Hi. unfold elsewhere. rewrite Hfb. change (16 * u16 global_seg) with 0xC0000. lia.
  - intros a Ha [v Hv]. unfold daddr in Hv. assert (0x90000 <= far 0x9000 (direct_offset v)) by (destruct v; vm_compute; congruence).
    lia.
Qed.

Lemma demo_linear : linear demo_vga 0x90000 0x110 32 4 (768 * 4096) 4096.
Proof. exact (placed_linear _ _ _ _ _ _ _ _ _ _ eq_refl demo_framebuffer). Qed.

Lemma demo_terminal : terminal demo_vga 0x90000 0x110 4 (768 * 4096) 4096 demo_console 128 47 0 0 0.
Proof.
  pose proof demo_framebuffer as Hpl. assert (VBE_framebuffer demo_vga = 0xE0000000) as Hfb by apply demo_shows.
  assert (GET_BDA 2 demo_console char_height = 16) as Hch by (vm_compute; reflexivity).
  split; [split; [split|..]| | | |lia].
  - apply demo_console_ok.
  - vm_compute. reflexivity.
  - rewrite Hch. lia.
  - intros a Ha. exact (placed_low _ _ _ _ _ _ _ _ _ _ Hpl a Ha).
  - intros c i Hc Hi. rewrite Hch in Hi. unfold get_font_data. rewrite Hch.
    replace (GET_IVT demo_console 0x43) with 0xC0005600 by (vm_compute; reflexivity).
    cbn [Z.eqb Pos.eqb andb fst snd]. change (so_seg 0xC0005600) with 0xC000. change (so_offset 0xC0005600) with 0x5600.
    assert (fits 16 (u16 (0x5600 + c * 16))) as Hu by (apply wrap_fits; lia). unfold fits in Hu.
    unfold elsewhere, far. rewrite Hfb. lia.
  - vm_compute. reflexivity.
  - vm_compute. reflexivity.
  - split; [vm_compute; reflexivity..|lia| |].
    + do 5 (split; [lia|]). rewrite Hch. apply (placed_rect _ _ _ _ _ _ _ _ _ _ Hpl). lia.
    + rewrite Hch. unfold cell. rewrite Hfb. lia.
  - split; [vm_compute; reflexivity|lia].
  - vm_compute. reflexivity.
Qed.

Lemma demo_readable : readable demo_console 0x41.
Proof.
  split; [lia|]. assert (glyph_of demo_console 0x41 = 0x18 :: replicate 15 0) as -> by (vm_compute; reflexivity).
  split; [by apply Exists_cons_hd|]. split; [intros l Hl; injection Hl as <-; reflexivity|].
  intros c Hc Hg.
  assert (forallb (fun c => bool_decide (glyph_of demo_console c <> 0x18 :: replicate 15 0)) (seqZ 1 64) = true) as Hall
    by (vm_compute; reflexivity).
  rewrite forallb_forall in Hall. specialize (Hall c). rewrite bool_decide_eq_true in Hall. apply Hall; [|done].
  apply list_elem_of_In, elem_of_seqZ. lia.
Qed.

End demo.

(** * Claims *)

Section claims.
Context {L : Layout}.

(** C8: text mode works from end to end on a framebuffer.  Setting mode 3 on a
    framebuffer in place returns with a terminal of [w] columns and one row
    per 16 lines, the cursor at the top left and every cell empty.  Typing any
    bytes on it then returns, moves the cursor as a terminal does, and leaves
    on the screen the picture [tty_type] computes from the bytes: a byte that
    is not a control code is drawn with its glyph at the cursor, in the colour
    the background has when xored with 7, where the background is the colour
    of the cell's last pixel; leaving the last row moves every row up by one
    and empties the last.  Only the screen, the cursor's word and the local
    array change. *)
Theorem text_mode_types (ss : Z) (V : vga) (data addr bpp x y pitch w : Z) (b : nat) (m : mem) (r : bregs)
  (bl : Z) (cs : list Z) :
  0 < off_CBemulinfo -> placed ss V data addr bpp x y pitch w b -> mem_ok m -> hi8 (ax r) = 0 -> lo8 (ax r) = 3 ->
  flagged (GET_BDA 1 m ext_flags) BF_SWCURSOR = false -> Forall (fun c => 0 <= c < 256) cs -> 0 <= bl < 256 ->
  exists m1 m2, handle_10 data ss r V m = Done (with_al 0x30 r, V, m1) /\
    terminal V data off_CBemulinfo b (y * pitch) pitch m1 w (y / 16 - 1) 0 0 0 /\
    displays V bpp b pitch (glyph_of m1) 16 m1 w (y / 16 - 1) empty_picture /\
    type_out V data ss bl cs m1 = Done m2 /\
    (let '(col, row) := foldl (fun p c => tty_step w (y / 16 - 1) c p) (0, 0) cs in
     terminal V data off_CBemulinfo b (y * pitch) pitch m2 w (y / 16 - 1) 0 col row) /\
    displays V bpp b pitch (glyph_of m1) 16 m2 w (y / 16 - 1)
      (tty_type (glyph_of m1) 16 w (y / 16 - 1) ((0, 0), empty_picture) cs).2 /\
    (forall a, untouched V data (y * pitch) 0 a -> m2 a = m1 a).
Proof.
  intros Hoff Hpl Hm Hah Hal Hsw Hcs Hbl. destruct (placed_linear _ _ _ _ _ _ _ _ _ _ Hoff Hpl) as [H1 H2 H3 H4 H5 H6].
  destruct (mode3_entry _ _ _ _ _ _ _ _ _ _ Hpl m r Hm Hah Hal Hsw) as (m1 & Hrun & Ht & Hfont & Hdisp).
  destruct (type_spec _ _ ss _ _ _ _ _ H1 H2 H3 H4 H5 H6 bl cs _ _ _ _ _ _ Ht Hcs Hbl) as (m2 & Hty & Hend & Hfr & Hre).
  exists m1, m2. do 5 (split; [done|]). split; [|done]. exact (proj2 (Hre _ _ _ Hfont Hdisp)).
Qed.

(** C9: on a terminal, a character written with function 09h in an attribute
    of two different colours is read back, character and attribute, by
    function 08h on the same page, provided its glyph is not blank, leaves the
    last pixel of the cell to the background, and is that of no smaller
    code. *)
Theorem char_write_read (V : vga) (data ss cur d : Z) (b : nat) (size pitch : Z) (m : mem)
  (cols rows page x y : Z) (r r' : bregs) :
  linear V data cur d b size pitch -> terminal V data cur b size pitch m cols rows page x y ->
  hi8 (ax r) = 9 -> cx r = 1 -> hi8 (bx r) = page -> readable m (lo8 (ax r)) ->
  Z.land (lo8 (bx r)) 0x0f <> Z.shiftr (lo8 (bx r)) 4 ->
  hi8 (ax r') = 8 -> hi8 (bx r') = page ->
  exists m1 m2, handle_10 data ss r V m = Done (r, V, m1) /\ agrees V data size m m1 /\
    handle_10 data ss r' V m1 = Done (with_ah (lo8 (bx r)) (with_al (lo8 (ax r)) r'), V, m2).
Proof.
  intros [H1 H2 H3 H4 H5 H6] [Hc Hg [Hp Hpr] Hcu Hi] Hah Hcx Hbh Hr Hne Hah' Hbh'.
  destruct (write_read_entry V data ss cur d b size pitch H1 H2 H3 H4 H5 H6 m r) as (m1 & Hw & Hag & Hread); try done.
  - rewrite Hbh. split; [done|]. rewrite Hcu. eapply grid_on_screen; [done|done|apply Hc|done|done].
  - destruct (Hread r' Hah' ltac:(congruence)) as (m2 & Hrd). by exists m1, m2.
Qed.

(** C13: functions 06h and 07h scroll a window exactly.  On a window of the
    terminal scrolled by fewer lines than it has (down: by at most the rows
    above it), with the rows to move below 4 GB, the rows become those [n] rows further down (06h) or up (07h),
    the rows scrolled in are filled with the background of the attribute, and
    no byte outside the window changes but the local array. *)
Theorem scroll_exact (V : vga) (data ss cur d : Z) (b : nat) (size pitch : Z) (m : mem)
  (cols rows page x y : Z) (r : bregs) :
  linear V data cur d b size pitch -> terminal V data cur b size pitch m cols rows page x y ->
  hi8 (ax r) = 6 \/ (hi8 (ax r) = 7 /\ lo8 (ax r) <= hi8 (cx r)) -> scroll_call cols rows r ->
  let wx := lo8 (cx r) in let wy := hi8 (cx r) in
  let w := lo8 (dx r) - wx + 1 in let h := hi8 (dx r) - wy + 1 in
  let ch := GET_BDA 2 m char_height in
  let n := lo8 (ax r) * direction r in let k := blank h n in
  cell V b pitch (8 * wx) ((wy + n + h) * ch - 1) + 8 * w * Z.of_nat b <= 2 ^ 32 ->
  exists m', handle_10 data ss r V m = Done (r, V, m') /\ console V data cur size m' /\
  (forall i j, 0 <= i < h * ch -> ~ (k * ch <= i < (k + lo8 (ax r)) * ch) -> 0 <= j < 8 * w * Z.of_nat b ->
     m' (cell V b pitch (8 * wx) (wy * ch + i) + j) = m (cell V b pitch (8 * wx) ((wy + n) * ch + i) + j)) /\
  (forall i j, k * ch <= i < (k + lo8 (ax r)) * ch -> 0 <= j < 8 * w ->
     load b m' (cell V b pitch (8 * wx) (wy * ch + i) + j * Z.of_nat b) = get_color d (Z.shiftr (hi8 (bx r)) 4)) /\
  (forall a, outside V data b pitch (8 * wx) (wy * ch) w (h * ch) a -> m' a = m a).
Proof.
  intros [H1 H2 H3 H4 H5 H6] [Hc Hg _ _ _] Hah Hcall wx wy w h ch n k H32.
  assert (from m wy n = (wy + n) * ch) as Hfrom.
  { destruct Hcall as (_ & Hy & Hn). pose proof (text_height _ _ _ _ (con_text _ _ _ _ _ Hc)) as Hch. fold ch in Hch.
    assert (hi8 (dx r) < 256) by (apply wrap_fits; lia). assert (0 <= wy) by (apply wrap_fits; lia).
    assert (0 <= wy + n < 256) by (unfold n, direction, wy in *; destruct Hah as [-> | [-> ?]]; cbn [Z.eqb Pos.eqb]; lia).
    unfold from. fold ch. rewrite <- Z.mul_add_distr_r. apply wrap_small. unfold fits.
    split; [apply Z.mul_nonneg_nonneg; lia|]. apply Z.le_lt_trans with (255 * 16); [|lia].
    apply Z.mul_le_mono_nonneg; lia. }
  destruct (scroll_entry V data ss cur d b size pitch H1 H2 H3 H4 H5 H6 m r cols rows Hc Hg ltac:(tauto) Hcall) as
    (m' & Hrun & Hc' & Hmv & Hbl & Hfr).
  - fold wx wy w h ch n. rewrite Hfrom. replace ((wy + n) * ch + h * ch - 1) with ((wy + n + h) * ch - 1) by lia. done.
  - fold wx wy w h ch n k in Hmv, Hbl, Hfr. rewrite Hfrom in Hmv. by exists m'.
Qed.

(** C40: function 07h on a window with fewer rows above it than lines to
    scroll, a whole screen for example, does not scroll it: the first line of
    the source wraps to 16 bits, and the rows kept are bytes 65536 lines
    further in the address space. *)
Theorem scroll_down_wraps (V : vga) (data ss cur d : Z) (b : nat) (size pitch : Z) (m : mem)
  (cols rows page x y : Z) (r : bregs) :
  linear V data cur d b size pitch -> terminal V data cur b size pitch m cols rows page x y ->
  hi8 (ax r) = 7 -> scroll_call cols rows r -> hi8 (cx r) < lo8 (ax r) ->
  let wx := lo8 (cx r) in let wy := hi8 (cx r) in
  let w := lo8 (dx r) - wx + 1 in let h := hi8 (dx r) - wy + 1 in
  let ch := GET_BDA 2 m char_height in let n := lo8 (ax r) in
  cell V b pitch (8 * wx) (65536 + (wy - n + h) * ch - 1) + 8 * w * Z.of_nat b <= 2 ^ 32 ->
  exists m', handle_10 data ss r V m = Done (r, V, m') /\
  forall i j, n * ch <= i < h * ch -> 0 <= j < 8 * w * Z.of_nat b ->
    m' (cell V b pitch (8 * wx) (wy * ch + i) + j) = m (cell V b pitch (8 * wx) (65536 + (wy - n) * ch + i) + j).
Proof.
  intros [H1 H2 H3 H4 H5 H6] [Hc Hg _ _ _] Hah Hcall Hlt wx wy w h ch n H32.
  pose proof Hcall as (_ & _ & Hn). pose proof (text_height _ _ _ _ (con_text _ _ _ _ _ Hc)) as Hch. fold ch in Hch.
  assert (0 <= wy) by (apply wrap_fits; lia). assert (n < 256) by (apply wrap_fits; lia).
  assert (direction r = -1) as Hdir by (unfold direction; by rewrite Hah).
  assert (from m wy (n * -1) = 65536 + (wy - n) * ch) as Hfrom.
  { replace (n * -1) with (- n) by lia. rewrite (scroll_down_source V data size) by (done || apply Hc || lia). fold ch. lia. }
  destruct (scroll_entry V data ss cur d b size pitch H1 H2 H3 H4 H5 H6 m r cols rows Hc Hg (or_intror Hah) Hcall) as
    (m' & Hrun & Hc' & Hmv & _).
  - fold wx wy w h ch n. rewrite Hdir, Hfrom.
    replace (65536 + (wy - n) * ch + h * ch - 1) with (65536 + (wy - n + h) * ch - 1) by lia. done.
  - fold wx wy w h ch n in Hmv. rewrite Hdir, Hfrom in Hmv.
    exists m'. split; [done|]. intros i j Hi Hj. apply Hmv; [|unfold blank|done].
    { assert (0 <= n * ch) by (apply Z.mul_nonneg_nonneg; lia). lia. }
    destruct (Z.ltb_spec 0 (n * -1)); lia.
Qed.

(** Functions 0Ch and 0Dh on a terminal.  Writing a pixel of the screen in
    one of the 16 colours makes that pixel read as the colour and changes no
    other pixel and no byte off the screen; reading any pixel returns its
    attribute. *)
Lemma pixel_write_read (V : vga) (data ss cur d : Z) (b : nat) (size pitch : Z) (m : mem)
  (cols rows page x y : Z) (r : bregs) :
  linear V data cur d b size pitch -> terminal V data cur b size pitch m cols rows page x y ->
  hi8 (ax r) = 0x0c -> pixel_ok V b size pitch (cx r) (dx r) -> lo8 (ax r) < 16 ->
  exists m', handle_10 data ss r V m = Done (r, V, m') /\ agrees V data size m m' /\
    (forall px py, pixel_ok V b size pitch px py ->
       attribute V d b pitch m' px py =
       if decide (px = cx r /\ py = dx r) then lo8 (ax r) else attribute V d b pitch m px py) /\
    (forall r', hi8 (ax r') = 0x0d -> pixel_ok V b size pitch (cx r') (dx r') ->
     exists m'', handle_10 data ss r' V m' = Done (with_al (attribute V d b pitch m' (cx r') (dx r')) r', V, m'')).
Proof.
  intros [H1 H2 H3 H4 H5 H6] [Hc _ _ _ _] Hah Hp Hcol.
  destruct (pixel_entry V data ss cur d b size pitch H1 H2 H3 H4 H5 H6 m r Hc Hah Hp Hcol) as (m' & Hrun & _ & Hrest).
  by exists m'.
Qed.

(** C14: the cursor the timer draws on a terminal is transparent.  Where every
    pixel of the cell under the cursor has one of the 16 text colours (another
    colour would not survive [reverse_color]), and the cursor's type does not
    hide it, the timer changes exactly the pixels of the cursor's lines, each
    to its colour xor 7, beside the flag and the local array; a hidden cursor
    changes nothing.  When the next service that draws removes it, every byte
    but the local array is as before the timer. *)
Theorem cursor_transparent (V : vga) (data ss cur d : Z) (b : nat) (size pitch : Z) (m : mem)
  (cols rows page x y ah al : Z) :
  linear V data cur d b size pitch -> terminal V data cur b size pitch m cols rows page x y ->
  painted V d b pitch m (8 * x) (y * GET_BDA 2 m char_height) (GET_BDA 2 m char_height) -> draws ah al = true ->
  exists m1 m2, set_swcursor V data ss true m = Done m1 /\
    swcursor_pre_handle10 V data ss ah al m1 = Done m2 /\
    (if GET_BDA 2 m cursor_type <? 0x2000 then cursor_drawn V data d b pitch m m1 (mkPos x y page) else m1 = m) /\
    (forall a, a < data \/ data + 32 <= a -> m2 a = m a).
Proof.
  intros [H1 H2 H3 H4 H5 H6] [Hc Hg [Hp Hpr] Hcu Hi] Hpt Hdr. subst page.
  assert (visible m = (GET_BDA 2 m cursor_type <? 0x2000)) as <-.
  { unfold visible. rewrite Hcu, (grid_cols _ _ _ _ _ _ _ Hg), (grid_rows _ _ _ _ _ _ _ Hg). cbn [cp_x cp_y].
    rewrite (proj2 (Z.leb_gt cols x)), (proj2 (Z.ltb_ge rows y)) by apply Hi. by rewrite Z.ltb_antisym. }
  rewrite <- Hcu.
  apply (shown_then_hidden V data ss cur d b size pitch H1 H2 H3 H4 H5 H6 m cols rows ah al Hc Hg Hpr); [|done].
  by rewrite Hcu.
Qed.

(** Function 1Ch saves and restores the BIOS data area.  The save writes
    the 44 bytes of the block and nothing else; a restore from a block that
    still holds them, whatever the memory around it became, puts the mode,
    cursor, font and VESA bytes back, and makes the saved VESA mode the
    current one. *)
Lemma state_save_restore (V : vga) (data ss : Z) (m m2 : mem) (r r2 : bregs) :
  mem_ok m -> mem_ok m2 -> state_call 1 r -> state_call 2 r2 -> es r2 = es r -> bx r2 = bx r ->
  in_segment (bx r) 44 -> 0x500 <= far (es r) (bx r) ->
  exists m1, handle_10 data ss r V m = Done (with_al 0x1c r, V, m1) /\
    (forall a, a < far (es r) (bx r) \/ far (es r) (bx r) + 44 <= a -> m1 a = m a) /\
    ((forall i, 0 <= i < 44 -> m2 (far (es r) (bx r) + i) = m1 (far (es r) (bx r) + i)) ->
     exists m3, handle_10 data ss r2 V m2 = Done (with_al 0x1c r2, V, m3) /\
       (forall i, 0 <= i < 44 -> m3 (saved_from i) = m (saved_from i)) /\
       get_current_mode m3 = u16 (cbvga_find_mode V (Z.land (GET_BDA 2 m ext_vbe_mode) (Z.lnot MF_VBEFLAGS)))).
Proof.
  intros Hok Hok2 Hr Hr2 He Hb Hin Hhi. exists (bda_save (es r) (bx r) m).
  split; [by rewrite (state_entry V data ss m r 1) by auto|].
  destruct (save_spec (es r) (bx r) Hin Hhi m Hok) as (_ & _ & Hfr). split; [done|]. intros Hblk.
  exists (bda_restore V (es r2) (bx r2) m2). split; [by rewrite (state_entry V data ss m2 r2 2) by auto|].
  rewrite He, Hb. exact (save_restore V (es r) (bx r) Hin Hhi m m2 Hok Hok2 Hblk).
Qed.

End claims.

(** * Witnesses *)

#[local] Existing Instance demo_layout.

(** Two characters and a new line: the glyphs are in the first two cells, in
    colour 7 on 0, and the cursor is at the start of the second row. *)
Lemma text_mode_types_witness :
  exists m1 m2, handle_10 0x90000 0x9000 (mkRegs 0x0003 0 0 0 0 0 0) demo_vga demo_console =
      Done (mkRegs 0x0030 0 0 0 0 0 0, demo_vga, m1) /\
    type_out demo_vga 0x90000 0x9000 0x07 [0x48; 0x69; 13; 10] m1 = Done m2 /\
    terminal demo_vga 0x90000 0x110 4 (768 * 4096) 4096 m2 128 47 0 0 1 /\
    shows_glyph demo_vga 32 4 4096 m2 0 0 (glyph_of m1 0x48) 7 0 /\
    shows_glyph demo_vga 32 4 4096 m2 8 0 (glyph_of m1 0x69) 7 0.
Proof.
  destruct (text_mode_types 0x9000 demo_vga 0x90000 0xE0000000 32 1024 768 4096 128 4 demo_console
    (mkRegs 0x0003 0 0 0 0 0 0) 0x07 [0x48; 0x69; 13; 10]) as (m1 & m2 & Hset & _ & _ & Htype & Hend & Hshow & _);
    try reflexivity.
  - exact demo_framebuffer.
  - exact demo_console_ok.
  - repeat (apply Forall_cons; split; [lia|]). apply Forall_nil. done.
  - lia.
  - exists m1, m2. split; [exact Hset|]. split; [exact Htype|]. split; [exact Hend|].
    destruct (Hshow 0 0) as (_ & _ & H0); [vm_compute; intuition congruence..|]. destruct (Hshow 1 0) as (_ & _ & H1); [vm_compute; intuition congruence..|].
    split; [exact H0|exact H1].
Defined.

Lemma char_write_read_witness :
  exists m1 m2,
    handle_10 0x90000 0x9000 (mkRegs 0x0941 0x1e 1 0 0 0 0) demo_vga demo_console =
      Done (mkRegs 0x0941 0x1e 1 0 0 0 0, demo_vga, m1) /\
    handle_10 0x90000 0x9000 (mkRegs 0x0800 0 0 0 0 0 0) demo_vga m1 =
      Done (mkRegs 0x1e41 0 0 0 0 0 0, demo_vga, m2).
Proof.
  destruct (char_write_read demo_vga 0x90000 0x9000 0x110 32 4 (768 * 4096) 4096 demo_console 128 47 0 0 0
    (mkRegs 0x0941 0x1e 1 0 0 0 0) (mkRegs 0x0800 0 0 0 0 0 0) demo_linear demo_terminal)
    as (m1 & m2 & Hw & _ & Hr); try reflexivity.
  - exact demo_readable.
  - vm_compute. congruence.
  - exists m1, m2. split; [exact Hw|exact Hr].
Defined.

(** Scrolling 25 rows up by two. *)
Lemma scroll_exact_witness :
  exists m', handle_10 0x90000 0x9000 (mkRegs 0x0602 0x1700 0 0x184f 0 0 0) demo_vga demo_console =
      Done (mkRegs 0x0602 0x1700 0 0x184f 0 0 0, demo_vga, m') /\
    m' 0xE0000000 = demo_console (0xE0000000 + 32 * 4096).
Proof.
  destruct (scroll_exact demo_vga 0x90000 0x9000 0x110 32 4 (768 * 4096) 4096 demo_console 128 47 0 0 0
    (mkRegs 0x0602 0x1700 0 0x184f 0 0 0) demo_linear demo_terminal) as (m' & Hrun & _ & Hmv & _).
  - left. reflexivity.
  - vm_compute. repeat split; congruence.
  - vm_compute. congruence.
  - exists m'. split; [exact Hrun|]. apply (Hmv 0 0); vm_compute; intuition congruence.
Defined.

(** Scrolling the whole screen down by one. *)
Lemma scroll_down_wraps_witness :
  exists m', handle_10 0x90000 0x9000 (mkRegs 0x0701 0x0700 0 0x2f7f 0 0 0) demo_vga demo_console =
      Done (mkRegs 0x0701 0x0700 0 0x2f7f 0 0 0, demo_vga, m') /\
    m' (0xE0000000 + 16 * 4096) = demo_console (0xE0000000 + 65536 * 4096).
Proof.
  destruct (scroll_down_wraps demo_vga 0x90000 0x9000 0x110 32 4 (768 * 4096) 4096 demo_console 128 47 0 0 0
    (mkRegs 0x0701 0x0700 0 0x2f7f 0 0 0) demo_linear demo_terminal) as (m' & Hrun & Hmv).
  - reflexivity.
  - vm_compute. repeat split; congruence.
  - reflexivity.
  - vm_compute. congruence.
  - exists m'. split; [exact Hrun|]. apply (Hmv 16 0); vm_compute; intuition congruence.
Defined.

Lemma demo_pixel : pixel_ok demo_vga 4 (768 * 4096) 4096 100 200.
Proof. vm_compute. intuition congruence. Qed.

Lemma pixel_write_read_witness :
  exists m1 m2, handle_10 0x90000 0x9000 (mkRegs 0x0c0e 0 100 200 0 0 0) demo_vga demo_console =
      Done (mkRegs 0x0c0e 0 100 200 0 0 0, demo_vga, m1) /\
    handle_10 0x90000 0x9000 (mkRegs 0x0d00 0 100 200 0 0 0) demo_vga m1 =
      Done (mkRegs 0x0d0e 0 100 200 0 0 0, demo_vga, m2).
Proof.
  destruct (pixel_write_read demo_vga 0x90000 0x9000 0x110 32 4 (768 * 4096) 4096 demo_console 128 47 0 0 0
    (mkRegs 0x0c0e 0 100 200 0 0 0) demo_linear demo_terminal eq_refl demo_pixel eq_refl)
    as (m1 & Hrun & _ & Hat & Hread).
  destruct (Hread (mkRegs 0x0d00 0 100 200 0 0 0) eq_refl demo_pixel) as (m2 & Hr). cbn [cx dx] in Hr.
  exists m1, m2. split; [exact Hrun|]. rewrite Hr, (Hat 100 200 demo_pixel). reflexivity.
Defined.

(** An underline cursor on an empty cell: the first pixel of line 14 is in
    colour 7 until function 0Eh removes it, that of line 13 stays in colour 0. *)
Lemma cursor_transparent_witness :
  exists m1 m2, set_swcursor demo_vga 0x90000 0x9000 true demo_console = Done m1 /\
    load 4 m1 (0xE0000000 + 14 * 4096) = get_color 32 7 /\ m1 (0xE0000000 + 13 * 4096) = 0 /\
    swcursor_pre_handle10 demo_vga 0x90000 0x9000 0x0e 0x41 m1 = Done m2 /\
    (forall a, a < 0x90000 \/ 0x90020 <= a -> m2 a = demo_console a).
Proof.
  destruct (cursor_transparent demo_vga 0x90000 0x9000 0x110 32 4 (768 * 4096) 4096 demo_console 128 47 0 0 0
    0x0e 0x41 demo_linear demo_terminal) as (m1 & m2 & Hset & Hpre & Hdrawn & Hsame).
  - intros i j Hi Hj. exists 0. split; [lia|]. change (GET_BDA 2 demo_console char_height) with 16 in Hi.
    assert (forallb (fun i => forallb (fun j => load 4 demo_console (cell demo_vga 4 4096 (8 * 0)
      (0 * 16 + i) + j * Z.of_nat 4) =? get_color 32 0) (seqZ 0 8)) (seqZ 0 16) = true) as Hall
      by (vm_compute; reflexivity).
    rewrite forallb_forall in Hall. specialize (Hall i). rewrite forallb_forall in Hall.
    apply Z.eqb_eq, Hall; apply list_elem_of_In, elem_of_seqZ; lia.
  - reflexivity.
  - change (GET_BDA 2 demo_console cursor_type <? 0x2000) with true in Hdrawn. destruct Hdrawn as [Hpx Hrest].
    exists m1, m2. split; [exact Hset|]. split; [|split; [|split; [exact Hpre|exact Hsame]]].
    + refine (eq_trans (Hpx 14 0 _ _) _); [vm_compute; intuition congruence|lia|vm_compute; reflexivity].
    + apply Hrest; [|lia|lia]. intros r Hr. left. change (cursor_start demo_console) with 14 in Hr.
      unfold cell, char_x, char_y. change (GET_BDA 2 demo_console char_height) with 16.
      change (VBE_framebuffer demo_vga) with 0xE0000000. cbn [cp_x cp_y]. lia.
Defined.

(** The state saved at 8000:0100, and restored. *)
Lemma state_save_restore_witness :
  let r c := mkRegs (0x1c00 + c) 0x100 2 0 0 0 0x8000 in
  exists m1 m3, handle_10 0x90000 0x9000 (r 1) demo_vga demo_console = Done (with_al 0x1c (r 1), demo_vga, m1) /\
    handle_10 0x90000 0x9000 (r 2) demo_vga m1 = Done (with_al 0x1c (r 2), demo_vga, m3) /\
    get_current_mode m3 = off_CBmodeinfo.
Proof.
  intros r.
  assert (in_segment (bx (r 1)) 44 /\ 0x500 <= far (es (r 1)) (bx (r 1))) as [Hin Hhi] by (vm_compute; intuition congruence).
  destruct (state_save_restore demo_vga 0x90000 0x9000 demo_console (bda_save (es (r 1)) (bx (r 1)) demo_console)
    (r 1) (r 2) demo_console_ok) as (m1 & Hs & _ & Hr); [|..|exact Hin|exact Hhi|].
  - apply save_spec; [exact Hin|exact Hhi|exact demo_console_ok].
  - split; [reflexivity|split; reflexivity].
  - split; [reflexivity|split; reflexivity].
  - reflexivity.
  - reflexivity.
  - rewrite (state_entry _ _ _ _ _ 1) in Hs by (by split || by left). cbv iota in Hs.
    change (1 =? 1) with true in Hs. injection Hs as <-.
    destruct Hr as (m3 & Hr & _ & Hm); [intros i _; reflexivity|]. exists (bda_save (es (r 1)) (bx (r 1)) demo_console), m3.
    split; [exact (state_entry demo_vga 0x90000 0x9000 demo_console (r 1) 1 (conj eq_refl (conj eq_refl eq_refl)) (or_introl eq_refl))|].
    split; [exact Hr|]. rewrite Hm. vm_compute. reflexivity.
Defined.
