(* ===== verification/SeaKbd.v ===== *)
(** The keyboard services of SeaBIOS ([seabios/src/kbd.c]).

    The interrupt handler of the keyboard turns scan codes into key codes and
    puts them into the ring buffer of the BIOS data area; interrupt 16h takes
    them out.  A service that waits lets interrupts happen, so the two run
    interleaved: the state of a service is the memory and the bursts of scan
    codes that the keyboard delivers at the next yields.  The hooks the code
    calls through interrupts and the keyboard commands are the class
    [KbdHost].

    [kbd_decode] is what a scan code means in a state of the modifiers, and a
    list of key codes is what the ring buffer holds; [kbd_session_refines]
    shows that the services implement that keyboard. *)

From stdpp Require Import base numbers list.
From Stdlib Require Import ZArith Lia.
From S2P Require Import Prelude Memory VgaState VgaVbe.

(** * The BIOS data area of the keyboard *)

Definition kbd_flag0 : Z := 0x17.
Definition kbd_buf_head : Z := 0x1a.
Definition kbd_buf_tail : Z := 0x1c.
Definition kbd_buf : Z := 0x1e.
Definition break_flag : Z := 0x71.
Definition soft_reset_flag : Z := 0x72.
Definition kbd_buf_start_offset : Z := 0x80.
Definition kbd_buf_end_offset : Z := 0x82.
Definition kbd_flag1 : Z := 0x96.
Definition kbd_led : Z := 0x97.

Definition KF0_RSHIFT : Z := 0x1.
Definition KF0_LSHIFT : Z := 0x2.
Definition KF0_CTRLACTIVE : Z := 0x4.
Definition KF0_ALTACTIVE : Z := 0x8.
Definition KF0_SCROLLACTIVE : Z := 0x10.
Definition KF0_NUMACTIVE : Z := 0x20.
Definition KF0_CAPSACTIVE : Z := 0x40.
Definition KF0_LCTRL : Z := 0x100.
Definition KF0_LALT : Z := 0x200.
Definition KF0_SCROLL : Z := 0x1000.
Definition KF0_NUM : Z := 0x2000.
Definition KF0_CAPS : Z := 0x4000.

Definition KF1_LAST_E1 : Z := 0x1.
Definition KF1_LAST_E0 : Z := 0x2.
Definition KF1_RCTRL : Z := 0x4.
Definition KF1_RALT : Z := 0x8.
Definition KF1_101KBD : Z := 0x10.

Definition ATKBD_CMD_SETLEDS : Z := 0x10ed.
Definition ATKBD_CMD_GETID : Z := 0x02f2.

(** The registers of an interrupt with the flags. *)
Record irq_regs := mkIrq { irq_r :> bregs; irq_flags : Z }.
Definition F_ZF : Z := 0x40.
Definition irq_with (f : bregs -> bregs) (r : irq_regs) : irq_regs := mkIrq (f (irq_r r)) (irq_flags r).
Definition irq_zf (on : bool) (r : irq_regs) : irq_regs :=
  mkIrq (irq_r r) (if on then Z.lor (irq_flags r) F_ZF else Z.land (irq_flags r) (Z.lnot F_ZF)).

(** What the code calls: the hook of interrupt 15h function 4Fh ([None] when
    it swallows the scan code), interrupt 15h function 85h, interrupts 05h and
    1Bh, and the commands of the two kinds of keyboard, which take and return
    parameter bytes. *)
Class KbdHost := {
  int15_4f : Z -> mem -> option Z * mem;
  int15_85 : Z -> mem -> mem;
  int05 : mem -> mem;
  int1b : mem -> mem;
  usb_kbd_active : mem -> bool;
  usb_kbd_command : Z -> list Z -> mem -> Z * list Z * mem;
  ps2_kbd_command : Z -> list Z -> mem -> Z * list Z * mem
}.

(** * The ring buffer *)

Definition kbd_init (m : mem) : mem :=
  let x := kbd_buf in
  let m := SET_BDA 1 m kbd_flag1 KF1_101KBD in
  let m := SET_BDA 2 m kbd_buf_head x in
  let m := SET_BDA 2 m kbd_buf_tail x in
  let m := SET_BDA 2 m kbd_buf_start_offset x in
  SET_BDA 2 m kbd_buf_end_offset (x + 32).

Definition enqueue_key (keycode : Z) (m : mem) : Z * mem :=
  let buffer_start := GET_BDA 2 m kbd_buf_start_offset in
  let buffer_end := GET_BDA 2 m kbd_buf_end_offset in
  let buffer_head := GET_BDA 2 m kbd_buf_head in
  let buffer_tail := GET_BDA 2 m kbd_buf_tail in
  let temp_tail := buffer_tail in
  let buffer_tail := u16 (buffer_tail + 2) in
  let buffer_tail := if buffer_end <=? buffer_tail then buffer_start else buffer_tail in
  if buffer_tail =? buffer_head then (0, m)
  else
    let m := SET_FARVAR 2 m SEG_BDA temp_tail keycode in
    (1, SET_BDA 2 m kbd_buf_tail buffer_tail).

(** * Scan codes *)

Record scaninfo := mkScan { scan_normal : Z; scan_shift : Z; scan_control : Z; scan_alt : Z }.

Definition scan_to_keycode : list scaninfo := [
  mkScan 0 0 0 0; mkScan 0x011b 0x011b 0x011b 0x01f0; mkScan 0x0231 0x0221 0 0x7800;
  mkScan 0x0332 0x0340 0x0300 0x7900; mkScan 0x0433 0x0423 0 0x7a00; mkScan 0x0534 0x0524 0 0x7b00;
  mkScan 0x0635 0x0625 0 0x7c00; mkScan 0x0736 0x075e 0x071e 0x7d00; mkScan 0x0837 0x0826 0 0x7e00;
  mkScan 0x0938 0x092a 0 0x7f00; mkScan 0x0a39 0x0a28 0 0x8000; mkScan 0x0b30 0x0b29 0 0x8100;
  mkScan 0x0c2d 0x0c5f 0x0c1f 0x8200; mkScan 0x0d3d 0x0d2b 0 0x8300; mkScan 0x0e08 0x0e08 0x0e7f 0x0ef0;
  mkScan 0x0f09 0x0f00 0x9400 0xa5f0; mkScan 0x1071 0x1051 0x1011 0x1000; mkScan 0x1177 0x1157 0x1117 0x1100;
  mkScan 0x1265 0x1245 0x1205 0x1200; mkScan 0x1372 0x1352 0x1312 0x1300; mkScan 0x1474 0x1454 0x1414 0x1400;
  mkScan 0x1579 0x1559 0x1519 0x1500; mkScan 0x1675 0x1655 0x1615 0x1600; mkScan 0x1769 0x1749 0x1709 0x1700;
  mkScan 0x186f 0x184f 0x180f 0x1800; mkScan 0x1970 0x1950 0x1910 0x1900; mkScan 0x1a5b 0x1a7b 0x1a1b 0x1af0;
  mkScan 0x1b5d 0x1b7d 0x1b1d 0x1bf0; mkScan 0x1c0d 0x1c0d 0x1c0a 0x1cf0; mkScan 0 0 0 0;
  mkScan 0x1e61 0x1e41 0x1e01 0x1e00; mkScan 0x1f73 0x1f53 0x1f13 0x1f00; mkScan 0x2064 0x2044 0x2004 0x2000;
  mkScan 0x2166 0x2146 0x2106 0x2100; mkScan 0x2267 0x2247 0x2207 0x2200; mkScan 0x2368 0x2348 0x2308 0x2300;
  mkScan 0x246a 0x244a 0x240a 0x2400; mkScan 0x256b 0x254b 0x250b 0x2500; mkScan 0x266c 0x264c 0x260c 0x2600;
  mkScan 0x273b 0x273a 0 0x27f0; mkScan 0x2827 0x2822 0 0x28f0; mkScan 0x2960 0x297e 0 0x29f0; mkScan 0 0 0 0;
  mkScan 0x2b5c 0x2b7c 0x2b1c 0x2bf0; mkScan 0x2c7a 0x2c5a 0x2c1a 0x2c00; mkScan 0x2d78 0x2d58 0x2d18 0x2d00;
  mkScan 0x2e63 0x2e43 0x2e03 0x2e00; mkScan 0x2f76 0x2f56 0x2f16 0x2f00; mkScan 0x3062 0x3042 0x3002 0x3000;
  mkScan 0x316e 0x314e 0x310e 0x3100; mkScan 0x326d 0x324d 0x320d 0x3200; mkScan 0x332c 0x333c 0 0x33f0;
  mkScan 0x342e 0x343e 0 0x34f0; mkScan 0x352f 0x353f 0 0x35f0; mkScan 0 0 0 0;
  mkScan 0x372a 0x372a 0x9600 0x37f0; mkScan 0 0 0 0; mkScan 0x3920 0x3920 0x3920 0x3920; mkScan 0 0 0 0;
  mkScan 0x3b00 0x5400 0x5e00 0x6800; mkScan 0x3c00 0x5500 0x5f00 0x6900; mkScan 0x3d00 0x5600 0x6000 0x6a00;
  mkScan 0x3e00 0x5700 0x6100 0x6b00; mkScan 0x3f00 0x5800 0x6200 0x6c00; mkScan 0x4000 0x5900 0x6300 0x6d00;
  mkScan 0x4100 0x5a00 0x6400 0x6e00; mkScan 0x4200 0x5b00 0x6500 0x6f00; mkScan 0x4300 0x5c00 0x6600 0x7000;
  mkScan 0x4400 0x5d00 0x6700 0x7100; mkScan 0 0 0 0; mkScan 0 0 0 0; mkScan 0x4700 0x4737 0x7700 0;
  mkScan 0x4800 0x4838 0x8d00 0; mkScan 0x4900 0x4939 0x8400 0; mkScan 0x4a2d 0x4a2d 0x8e00 0x4af0;
  mkScan 0x4b00 0x4b34 0x7300 0; mkScan 0x4c00 0x4c35 0x8f00 0; mkScan 0x4d00 0x4d36 0x7400 0;
  mkScan 0x4e2b 0x4e2b 0x9000 0x4ef0; mkScan 0x4f00 0x4f31 0x7500 0; mkScan 0x5000 0x5032 0x9100 0;
  mkScan 0x5100 0x5133 0x7600 0; mkScan 0x5200 0x5230 0x9200 0; mkScan 0x5300 0x532e 0x9300 0; mkScan 0 0 0 0;
  mkScan 0 0 0 0; mkScan 0x565c 0x567c 0 0; mkScan 0x8500 0x8700 0x8900 0x8b00;
  mkScan 0x8600 0x8800 0x8a00 0x8c00].

Definition key_ext_enter : scaninfo := mkScan 0xe00d 0xe00d 0xe00a 0xa600.
Definition key_ext_slash : scaninfo := mkScan 0xe02f 0xe02f 0x9500 0xa400.

Fixpoint ascii_search (l : list scaninfo) (ascii : Z) : Z :=
  match l with
  | [] => 0
  | i :: l' =>
    if Z.land (scan_normal i) 0xff =? ascii then scan_normal i
    else if Z.land (scan_shift i) 0xff =? ascii then scan_shift i
    else if Z.land (scan_control i) 0xff =? ascii then scan_control i
    else ascii_search l' ascii
  end.
Definition ascii_to_keycode (ascii : Z) : Z := ascii_search scan_to_keycode ascii.

Definition has (v bits : Z) : bool := negb (Z.land v bits =? 0).

(** The bursts of scan codes of the next yields. *)
Definition schedule : Type := list (list Z).

(** A service returns, or the machine is reset while it yields, or it waits
    for a key that the schedule does not bring. *)
Inductive kbd_result (A : Type) :=
| Returns (a : A) (m : mem) (p : schedule)
| Restarts (m : mem)
| Waits (m : mem).
Arguments Returns {A}.
Arguments Restarts {A}.
Arguments Waits {A}.

Definition K (A : Type) : Type := mem -> schedule -> kbd_result A.

#[export] Instance K_ret : MRet K := fun A a m p => Returns a m p.
#[export] Instance K_bind : MBind K := fun A B k c m p =>
  match c m p with
  | Returns a m p => k a m p
  | Restarts m => Restarts m
  | Waits m => Waits m
  end.

Section host.
Context {H : KbdHost}.

Definition kbd_set_flag (key_release : bool) (set_bit0 set_bit1 toggle_bit : Z) (m : mem) : mem :=
  let flags0 := GET_BDA 2 m kbd_flag0 in
  let flags1 := GET_BDA 1 m kbd_flag1 in
  let '(flags0, flags1) :=
    if key_release then (Z.land flags0 (Z.lnot set_bit0), Z.land flags1 (Z.lnot set_bit1))
    else (Z.lor (Z.lxor flags0 toggle_bit) set_bit0, Z.lor flags1 set_bit1) in
  SET_BDA 1 (SET_BDA 2 m kbd_flag0 flags0) kbd_flag1 flags1.

Definition kbd_ctrl_break (key_release : bool) (m : mem) : mem :=
  if negb key_release then m
  else
    let buffer_start := GET_BDA 2 m kbd_buf_start_offset in
    let m := SET_BDA 2 m kbd_buf_head buffer_start in
    let m := SET_BDA 2 m kbd_buf_tail (buffer_start + 2) in
    let m := SET_FARVAR 2 m SEG_BDA buffer_start 0 in
    int1b (SET_BDA 1 m break_flag 0x80).

Definition kbd_sysreq (key_release : bool) (m : mem) : mem := int15_85 (if key_release then 1 else 0) m.

Definition kbd_prtscr (key_release : bool) (m : mem) : mem := if key_release then m else int05 m.

(** The memory goes on, or the machine is reset. *)
Inductive live := Live (m : mem) | Reset (m : mem).

(** The key code of a generic key. *)
Definition generic_keycode (scancode flags0 flags1 : Z) (info : scaninfo) : Z :=
  let keycode :=
    if has flags0 KF0_ALTACTIVE then scan_alt info
    else if has flags0 KF0_CTRLACTIVE then scan_control info
    else
      let useshift := has flags0 (Z.lor KF0_RSHIFT KF0_LSHIFT) in
      let ascii := Z.land (scan_normal info) 0xff in
      let toggled := (has flags0 KF0_NUMACTIVE && (0x47 <=? scancode) && (scancode <=? 0x53))
        || (has flags0 KF0_CAPSACTIVE && (97 <=? ascii) && (ascii <=? 122)) in
      if xorb useshift toggled then scan_shift info else scan_normal info in
  if has flags1 KF1_LAST_E0 && (0x47 <=? scancode) && (scancode <=? 0x53) then
    if has flags0 KF0_ALTACTIVE then Z.shiftl (scancode + 0x50) 8
    else Z.lor (Z.land keycode 0xff00) 0xe0
  else keycode.

(** A key that is none of the special ones. *)
Definition generic_key (key_release : bool) (scancode flags1 : Z) (m : mem) : mem :=
  if key_release then m
  else
    match scan_to_keycode !! Z.to_nat scancode with
    | None => m
    | Some info =>
      if scancode =? 0 then m
      else
        let info := if has flags1 KF1_LAST_E0 && ((scancode =? 0x1c) || (scancode =? 0x35))
                    then if scancode =? 0x1c then key_ext_enter else key_ext_slash else info in
        let keycode := generic_keycode scancode (GET_BDA 2 m kbd_flag0) flags1 info in
        if keycode =? 0 then m else (enqueue_key keycode m).2
    end.

(** The modifiers and the other keys with a meaning of their own; [None] for a
    generic key. *)
Definition special_key (key_release : bool) (scancode flags1 : Z) (m : mem) : option live :=
  let e0 := has flags1 KF1_LAST_E0 in
  if scancode =? 0x3a then Some (Live (kbd_set_flag key_release KF0_CAPS 0 KF0_CAPSACTIVE m))
  else if scancode =? 0x2a then Some (Live (if e0 then m else kbd_set_flag key_release KF0_LSHIFT 0 0 m))
  else if scancode =? 0x36 then Some (Live (if e0 then m else kbd_set_flag key_release KF0_RSHIFT 0 0 m))
  else if scancode =? 0x1d then
    Some (Live (if e0 then kbd_set_flag key_release KF0_CTRLACTIVE KF1_RCTRL 0 m
                else kbd_set_flag key_release (Z.lor KF0_CTRLACTIVE KF0_LCTRL) 0 0 m))
  else if scancode =? 0x38 then
    Some (Live (if e0 then kbd_set_flag key_release KF0_ALTACTIVE KF1_RALT 0 m
                else kbd_set_flag key_release (Z.lor KF0_ALTACTIVE KF0_LALT) 0 0 m))
  else if scancode =? 0x45 then
    Some (Live (if has flags1 KF1_LAST_E1 then m else kbd_set_flag key_release KF0_NUM 0 KF0_NUMACTIVE m))
  else if scancode =? 0x46 then
    Some (Live (if e0 then kbd_ctrl_break key_release m else kbd_set_flag key_release KF0_SCROLL 0 KF0_SCROLLACTIVE m))
  else if scancode =? 0x37 then if e0 then Some (Live (kbd_prtscr key_release m)) else None
  else if scancode =? 0x54 then Some (Live (kbd_sysreq key_release m))
  else if scancode =? 0x53 then
    if (Z.land (GET_BDA 2 m kbd_flag0) (Z.lor KF0_CTRLACTIVE KF0_ALTACTIVE) =? Z.lor KF0_CTRLACTIVE KF0_ALTACTIVE)
       && negb key_release
    then Some (Reset (SET_BDA 2 m soft_reset_flag 0x1234))
    else None
  else None.

Definition __process_key (scancode : Z) (m : mem) : live :=
  let flags1 := GET_BDA 1 m kbd_flag1 in
  if (scancode =? 0xe0) || (scancode =? 0xe1) then
    Live (SET_BDA 1 m kbd_flag1 (Z.lor flags1 (if scancode =? 0xe0 then KF1_LAST_E0 else KF1_LAST_E1)))
  else
    let key_release := has scancode 0x80 in
    let scancode := Z.land scancode 0x7f in
    let last := Z.lor KF1_LAST_E0 KF1_LAST_E1 in
    if has flags1 last && (has flags1 KF1_LAST_E1 && (scancode =? 0x1d)) then Live m
    else
      let m := if has flags1 last then SET_BDA 1 m kbd_flag1 (Z.land flags1 (Z.lnot last)) else m in
      match special_key key_release scancode flags1 m with
      | Some l => l
      | None => Live (generic_key key_release scancode flags1 m)
      end.

Definition process_key (key : Z) (m : mem) : live :=
  match int15_4f key m with
  | (None, m) => Live m
  | (Some key, m) => __process_key (u8 key) m
  end.

Fixpoint process_keys (keys : list Z) (m : mem) : live :=
  match keys with
  | [] => Live m
  | k :: keys' => match process_key k m with Live m => process_keys keys' m | Reset m => Reset m end
  end.

(** * Services that yield *)

(** [yield] and [yield_toirq]: pending interrupts are served. *)
Definition yield : K unit := fun m p =>
  match process_keys (default [] (head p)) m with
  | Live m => Returns () m (tail p)
  | Reset m => Restarts m
  end.

(** A state update that does not yield. *)
Definition kdo {A : Type} (f : mem -> A * mem) : K A := fun m p => let '(a, m) := f m in Returns a m p.

(** The loop of [dequeue_key] that waits for a key. *)
Fixpoint wait_key (p : schedule) (m : mem) : kbd_result unit :=
  if negb (GET_BDA 2 m kbd_buf_head =? GET_BDA 2 m kbd_buf_tail) then Returns () m p
  else
    match p with
    | [] => Waits m
    | keys :: p' => match process_keys keys m with Live m => wait_key p' m | Reset m => Restarts m end
    end.

(** The translation of a key code for the caller. *)
Definition deliver (extended : bool) (keycode : Z) : Z :=
  let ascii := Z.land keycode 0xff in
  let keycode :=
    if extended then keycode
    else if (ascii =? 0xe0) && has keycode 0xff00 then Z.land keycode 0xff00
    else if (keycode =? 0xe00d) || (keycode =? 0xe00a) then Z.lor 0x1c00 ascii
    else if keycode =? 0xe02f then 0x352f
    else keycode in
  if (ascii =? 0xf0) && has keycode 0xff00 then Z.land keycode 0xff00 else keycode.

Definition take_key (m : mem) : mem :=
  let buffer_start := GET_BDA 2 m kbd_buf_start_offset in
  let buffer_end := GET_BDA 2 m kbd_buf_end_offset in
  let buffer_head := u16 (GET_BDA 2 m kbd_buf_head + 2) in
  SET_BDA 2 m kbd_buf_head (if buffer_end <=? buffer_head then buffer_start else buffer_head).

Definition dequeue_key (r : irq_regs) (incr extended : bool) : K irq_regs :=
  yield ;;
  empty ← kdo (fun m => (GET_BDA 2 m kbd_buf_head =? GET_BDA 2 m kbd_buf_tail, m));
  if negb incr && empty then mret (irq_zf true r)
  else
    (fun m p => wait_key p m) ;;
    kdo (fun m =>
      let keycode := GET_FARVAR 2 m SEG_BDA (GET_BDA 2 m kbd_buf_head) in
      let r := irq_with (with_ax (deliver extended keycode)) r in
      if incr then (r, take_key m) else (irq_zf false r, m)).

Definition kbd_command (command : Z) (param : list Z) (m : mem) : Z * list Z * mem :=
  if usb_kbd_active m then usb_kbd_command command param m else ps2_kbd_command command param m.

Definition handle_1600 (r : irq_regs) : K irq_regs := dequeue_key r true false.
Definition handle_1601 (r : irq_regs) : K irq_regs := dequeue_key r false false.
Definition handle_1602 (r : irq_regs) : K irq_regs :=
  yield ;; kdo (fun m => (irq_with (with_al (GET_BDA 2 m kbd_flag0)) r, m)).
Definition handle_1605 (r : irq_regs) : K irq_regs :=
  kdo (fun m => let '(ok, m) := enqueue_key (cx r) m in (irq_with (with_al (if ok =? 0 then 1 else 0)) r, m)).
Definition handle_1609 (r : irq_regs) : K irq_regs := mret (irq_with (with_al 0x30) r).
Definition handle_160a (r : irq_regs) : K irq_regs :=
  kdo (fun m =>
    let '(ret, param, m) := kbd_command ATKBD_CMD_GETID [0; 0] m in
    (irq_with (with_bx (if ret =? 0 then Z.lor (Z.shiftl (nth 1 param 0) 8) (nth 0 param 0) else 0)) r, m)).
Definition handle_1610 (r : irq_regs) : K irq_regs := dequeue_key r true true.
Definition handle_1611 (r : irq_regs) : K irq_regs := dequeue_key r false true.
Definition handle_1612 (r : irq_regs) : K irq_regs :=
  yield ;;
  kdo (fun m =>
    let both := Z.lor KF1_RCTRL KF1_RALT in
    (irq_with (with_ax (Z.lor (Z.land (GET_BDA 2 m kbd_flag0) (Z.lnot (Z.shiftl both 8)))
                          (Z.shiftl (Z.land (GET_BDA 1 m kbd_flag1) both) 8))) r, m)).
Definition handle_166f (r : irq_regs) : K irq_regs :=
  mret (if lo8 (ax r) =? 0x08 then irq_with (with_ah 2) r else r).
Definition handle_1692 (r : irq_regs) : K irq_regs := mret (irq_with (with_ah 0x80) r).
Definition handle_16a2 (r : irq_regs) : K irq_regs := mret r.

Definition set_leds : K unit := kdo (fun m =>
  let shift_flags := Z.land (Z.shiftr (GET_BDA 2 m kbd_flag0) 4) 0x07 in
  let led := GET_BDA 1 m kbd_led in
  if shift_flags =? Z.land led 0x07 then (tt, m)
  else
    let '(ret, _, m) := kbd_command ATKBD_CMD_SETLEDS [shift_flags] m in
    (tt, if ret =? 0 then SET_BDA 1 m kbd_led (Z.lor (Z.land led (Z.lnot 0x07)) shift_flags) else m)).

Definition handle_16 (r : irq_regs) : K irq_regs :=
  set_leds ;;
  let f := hi8 (ax r) in
  if f =? 0x00 then handle_1600 r
  else if f =? 0x01 then handle_1601 r
  else if f =? 0x02 then handle_1602 r
  else if f =? 0x05 then handle_1605 r
  else if f =? 0x09 then handle_1609 r
  else if f =? 0x0a then handle_160a r
  else if f =? 0x10 then handle_1610 r
  else if f =? 0x11 then handle_1611 r
  else if f =? 0x12 then handle_1612 r
  else if f =? 0x92 then handle_1692 r
  else if f =? 0xa2 then handle_16a2 r
  else if f =? 0x6f then handle_166f r
  else mret r.

End host.

(** * The keyboard as its users see it *)

(** The modifiers, and the key codes not yet read. *)
Record keyboard := mkKbd { k_flag0 : Z; k_flag1 : Z; k_queue : list Z }.

Inductive key_event := NoKey | Key (keycode : Z) | Break | Hook | Reboot.

(** The modifiers after a key that sets bits while it is down, and toggles
    others when it goes down. *)
Definition set_flag (release : bool) (s0 s1 t f0 f1 : Z) : Z * Z * key_event :=
  if release then (Z.land f0 (Z.lnot s0), Z.land f1 (Z.lnot s1), NoKey)
  else (u16 (Z.lor (Z.lxor f0 t) s0), u8 (Z.lor f1 s1), NoKey).

Definition decode_generic (release : bool) (sc f0 f1 : Z) : key_event :=
  if release then NoKey
  else
    match scan_to_keycode !! Z.to_nat sc with
    | None => NoKey
    | Some info =>
      if sc =? 0 then NoKey
      else
        let info := if has f1 KF1_LAST_E0 && ((sc =? 0x1c) || (sc =? 0x35))
                    then if sc =? 0x1c then key_ext_enter else key_ext_slash else info in
        let keycode := generic_keycode sc f0 f1 info in
        if keycode =? 0 then NoKey else Key (u16 keycode)
    end.

(** What a scan code does to the modifiers [f0] and [f1], and what else it
    means; [old] is the second modifier byte before the prefix was cleared. *)
Definition decode_key (release : bool) (sc old f0 f1 : Z) : Z * Z * key_event :=
  let e0 := has old KF1_LAST_E0 in
  let same e := (f0, f1, e) in
  if sc =? 0x3a then set_flag release KF0_CAPS 0 KF0_CAPSACTIVE f0 f1
  else if sc =? 0x2a then if e0 then same NoKey else set_flag release KF0_LSHIFT 0 0 f0 f1
  else if sc =? 0x36 then if e0 then same NoKey else set_flag release KF0_RSHIFT 0 0 f0 f1
  else if sc =? 0x1d then
    if e0 then set_flag release KF0_CTRLACTIVE KF1_RCTRL 0 f0 f1
    else set_flag release (Z.lor KF0_CTRLACTIVE KF0_LCTRL) 0 0 f0 f1
  else if sc =? 0x38 then
    if e0 then set_flag release KF0_ALTACTIVE KF1_RALT 0 f0 f1
    else set_flag release (Z.lor KF0_ALTACTIVE KF0_LALT) 0 0 f0 f1
  else if sc =? 0x45 then
    if has old KF1_LAST_E1 then same NoKey else set_flag release KF0_NUM 0 KF0_NUMACTIVE f0 f1
  else if sc =? 0x46 then
    if e0 then same (if release then Break else NoKey) else set_flag release KF0_SCROLL 0 KF0_SCROLLACTIVE f0 f1
  else if (sc =? 0x37) && e0 then same Hook
  else if sc =? 0x54 then same Hook
  else if (sc =? 0x53) && (Z.land f0 (Z.lor KF0_CTRLACTIVE KF0_ALTACTIVE) =? Z.lor KF0_CTRLACTIVE KF0_ALTACTIVE)
          && negb release then same Reboot
  else same (decode_generic release sc f0 old).

Definition kbd_decode (sc f0 f1 : Z) : Z * Z * key_event :=
  if (sc =? 0xe0) || (sc =? 0xe1) then (f0, Z.lor f1 (if sc =? 0xe0 then KF1_LAST_E0 else KF1_LAST_E1), NoKey)
  else
    let release := has sc 0x80 in
    let sc := Z.land sc 0x7f in
    if has f1 KF1_LAST_E1 && (sc =? 0x1d) then (f0, f1, NoKey)
    else decode_key release sc f1 f0 (Z.land f1 (Z.lnot (Z.lor KF1_LAST_E0 KF1_LAST_E1))).

(** Fifteen key codes fit. *)
Definition push (keycode : Z) (q : list Z) : list Z := if (length q <? 15)%nat then q ++ [keycode] else q.

(** The keyboard after what a scan code means. *)
Definition after_event (q : list Z) (d : Z * Z * key_event) : option keyboard :=
  let '(f0, f1, e) := d in
  match e with
  | Reboot => None
  | Key kc => Some (mkKbd f0 f1 (push kc q))
  | Break => Some (mkKbd f0 f1 [0])
  | NoKey | Hook => Some (mkKbd f0 f1 q)
  end.

Definition strike (sc : Z) (k : keyboard) : option keyboard :=
  after_event (k_queue k) (kbd_decode sc (k_flag0 k) (k_flag1 k)).

(** What the code relies on of its host: hooks and commands leave the
    keyboard's bytes alone, and the hook of function 4Fh maps or swallows a
    scan code whatever the memory. *)
Definition kbd_byte (a : Z) : Prop :=
  0x417 <= a < 0x419 \/ 0x41a <= a < 0x43e \/ 0x480 <= a < 0x484 \/ a = 0x496.

Definition quiet (f : mem -> mem) : Prop :=
  forall m, mem_ok m -> mem_ok (f m) /\ forall a, kbd_byte a -> f m a = m a.

Class KbdHostOk (H : KbdHost) := {
  filter_key : Z -> option Z;
  host_4f : forall k m, (int15_4f k m).1 = filter_key k;
  host_4f_quiet : forall k, quiet (fun m => (int15_4f k m).2);
  host_85_quiet : forall al, quiet (int15_85 al);
  host_05_quiet : quiet int05;
  host_1b_quiet : quiet int1b;
  host_usb_quiet : forall c p, quiet (fun m => (usb_kbd_command c p m).2);
  host_ps2_quiet : forall c p, quiet (fun m => (ps2_kbd_command c p m).2)
}.

(** What a service answers, on the keyboard of its users. *)
Inductive answer (A : Type) := Answer (a : A) (k : keyboard) (p : schedule) | Restarted | Waiting.
Arguments Answer {A}.
Arguments Restarted {A}.
Arguments Waiting {A}.

Section spec.
Context `{KbdHostOk}.

Definition strike_through (key : Z) (k : keyboard) : option keyboard :=
  match filter_key key with Some key => strike (u8 key) k | None => Some k end.

Fixpoint strikes (keys : list Z) (k : keyboard) : option keyboard :=
  match keys with
  | [] => Some k
  | key :: keys' => match strike_through key k with Some k => strikes keys' k | None => None end
  end.

Fixpoint await (p : schedule) (k : keyboard) (f : Z -> list Z -> schedule -> keyboard -> answer irq_regs) :
  answer irq_regs :=
  match k_queue k, p with
  | kc :: q, _ => f kc q p k
  | [], [] => Waiting
  | [], keys :: p' => match strikes keys k with Some k => await p' k f | None => Restarted end
  end.

Definition after_yield (p : schedule) (k : keyboard) (f : schedule -> keyboard -> answer irq_regs) : answer irq_regs :=
  match strikes (default [] (head p)) k with Some k => f (tail p) k | None => Restarted end.

Definition read_key (r : irq_regs) (extended : bool) (p : schedule) (k : keyboard) : answer irq_regs :=
  after_yield p k (fun p k => await p k (fun kc q p k =>
    Answer (irq_with (with_ax (deliver extended kc)) r) (mkKbd (k_flag0 k) (k_flag1 k) q) p)).

Definition peek_key (r : irq_regs) (extended : bool) (p : schedule) (k : keyboard) : answer irq_regs :=
  after_yield p k (fun p k =>
    match k_queue k with
    | [] => Answer (irq_zf true r) k p
    | kc :: _ => Answer (irq_zf false (irq_with (with_ax (deliver extended kc)) r)) k p
    end).

Definition service (r : irq_regs) (p : schedule) (k : keyboard) : answer irq_regs :=
  let f := hi8 (ax r) in
  let both := Z.lor KF1_RCTRL KF1_RALT in
  if f =? 0x00 then read_key r false p k
  else if f =? 0x01 then peek_key r false p k
  else if f =? 0x02 then after_yield p k (fun p k => Answer (irq_with (with_al (k_flag0 k)) r) k p)
  else if f =? 0x05 then
    Answer (irq_with (with_al (if (length (k_queue k) <? 15)%nat then 0 else 1)) r)
      (mkKbd (k_flag0 k) (k_flag1 k) (push (u16 (cx r)) (k_queue k))) p
  else if f =? 0x09 then Answer (irq_with (with_al 0x30) r) k p
  else if f =? 0x10 then read_key r true p k
  else if f =? 0x11 then peek_key r true p k
  else if f =? 0x12 then after_yield p k (fun p k =>
    Answer (irq_with (with_ax (Z.lor (Z.land (k_flag0 k) (Z.lnot (Z.shiftl both 8)))
                                 (Z.shiftl (Z.land (k_flag1 k) both) 8))) r) k p)
  else if f =? 0x92 then Answer (irq_with (with_ah 0x80) r) k p
  else if f =? 0xa2 then Answer r k p
  else if f =? 0x6f then Answer (if lo8 (ax r) =? 0x08 then irq_with (with_ah 2) r else r) k p
  else Answer r k p.

Fixpoint services (rs : list irq_regs) (p : schedule) (k : keyboard) : answer (list irq_regs) :=
  match rs with
  | [] => Answer [] k p
  | r :: rs' =>
    match service r p k with
    | Answer r' k p =>
      match services rs' p k with
      | Answer l k p => Answer (r' :: l) k p
      | Restarted => Restarted
      | Waiting => Waiting
      end
    | Restarted => Restarted
    | Waiting => Waiting
    end
  end.

End spec.

(** A program that calls interrupt 16h again and again. *)
Fixpoint serve {H : KbdHost} (rs : list irq_regs) : K (list irq_regs) :=
  match rs with
  | [] => mret []
  | r :: rs' => r' ← handle_16 r; l ← serve rs'; mret (r' :: l)
  end.

(** * The data area of the keyboard *)

Definition slot (i : Z) : Z := 0x1e + 2 * (i mod 16).

(** The ring buffer holds [q], the oldest at slot [h]. *)
Definition ring (m : mem) (h : Z) (q : list Z) : Prop :=
  GET_BDA 2 m kbd_buf_head = slot h /\ GET_BDA 2 m kbd_buf_tail = slot (h + Z.of_nat (length q)) /\
  (length q <= 15)%nat /\
  forall i kc, q !! i = Some kc -> GET_FARVAR 2 m SEG_BDA (slot (h + Z.of_nat i)) = kc.

Record represents (m : mem) (k : keyboard) : Prop := {
  rep_ok : mem_ok m;
  rep_flag0 : GET_BDA 2 m kbd_flag0 = k_flag0 k;
  rep_flag1 : GET_BDA 1 m kbd_flag1 = k_flag1 k;
  rep_start : GET_BDA 2 m kbd_buf_start_offset = 0x1e;
  rep_end : GET_BDA 2 m kbd_buf_end_offset = 0x3e;
  rep_ring : exists h, ring m h (k_queue k)
}.

Lemma slot_range i : 0x1e <= slot i <= 0x3c.
Proof. unfold slot. pose proof (Z.mod_pos_bound i 16). lia. Qed.

Lemma slot_next i : (let t := u16 (slot i + 2) in if 0x3e <=? t then 0x1e else t) = slot (i + 1).
Proof.
  pose proof (slot_range i). rewrite wrap_small by (unfold fits; lia). unfold slot in *. cbv zeta.
  destruct (Z.leb_spec 0x3e (0x1e + 2 * (i mod 16) + 2)); Z.div_mod_to_equations; lia.
Qed.

Lemma slot_inj i j : slot i = slot j -> i mod 16 = j mod 16.
Proof. unfold slot. lia. Qed.

Lemma slot_apart h i j : 0 <= i < 16 -> 0 <= j < 16 -> i <> j -> slot (h + i) + 2 <= slot (h + j) \/ slot (h + j) + 2 <= slot (h + i).
Proof. unfold slot. intros. Z.div_mod_to_equations. lia. Qed.

(** Only the bytes of the keyboard matter. *)
Lemma represents_bytes m m' k : represents m k -> mem_ok m' -> (forall a, kbd_byte a -> m' a = m a) -> represents m' k.
Proof.
  intros [Hok H0 H1 Hs He [h (Hh & Ht & Hl & Hq)]] Hok' Hm.
  assert (forall n off, (forall a, 0x400 + off <= a < 0x400 + off + Z.of_nat n -> kbd_byte a) -> GET_FARVAR n m' SEG_BDA off = GET_FARVAR n m SEG_BDA off) as Hg.
  { intros n off Hb. apply load_ext. intros a Ha. apply Hm, Hb. unfold far, SEG_BDA in Ha. lia. }
  unfold GET_BDA in *. unfold kbd_byte in Hg.
  assert (ring m' h (k_queue k)) as Hr.
  2: { split; [done|..|by exists h]; unfold GET_BDA;
       rewrite Hg by (unfold kbd_flag0, kbd_flag1, kbd_buf_start_offset, kbd_buf_end_offset; lia); done. } unfold ring, GET_BDA. rewrite !Hg by (unfold kbd_buf_head, kbd_buf_tail; lia). split; [done|]. split; [done|]. split; [done|].
  intros i kc Hi. pose proof (slot_range (h + Z.of_nat i)). rewrite Hg by lia. by apply Hq.
Qed.

Lemma represents_quiet f m k : quiet f -> represents m k -> represents (f m) k.
Proof. intros Hf Hr. destruct (Hf m (rep_ok _ _ Hr)) as [Hok Hb]. by apply (represents_bytes m). Qed.

(** A write of the data area outside the ring buffer and its pointers. *)
Lemma ring_elsewhere m n off v h q : off + Z.of_nat n <= 0x1a \/ 0x3e <= off -> ring m h q -> ring (SET_BDA n m off v) h q.
Proof.
  intros Ho (Hh & Ht & Hl & Hq). unfold ring. rewrite !bda_other by (unfold kbd_buf_head, kbd_buf_tail; lia).
  split; [done|]. split; [done|]. split; [done|]. intros i kc Hi. pose proof (slot_range (h + Z.of_nat i)).
  change (GET_FARVAR 2 (SET_BDA n m off v) SEG_BDA (slot (h + Z.of_nat i)))
    with (GET_BDA 2 (SET_BDA n m off v) (slot (h + Z.of_nat i))). rewrite bda_other by lia. by apply Hq.
Qed.

Lemma enqueue_ring m h q kc : ring m h q -> GET_BDA 2 m kbd_buf_start_offset = 0x1e ->
  GET_BDA 2 m kbd_buf_end_offset = 0x3e ->
  (enqueue_key kc m).1 = (if (length q <? 15)%nat then 1 else 0) /\ ring (enqueue_key kc m).2 h (push (u16 kc) q).
Proof.
  intros (Hh & Ht & Hl & Hq) Hs He. unfold enqueue_key. rewrite Hs, He, Hh, Ht.
  pose proof (slot_next (h + Z.of_nat (length q))) as Hn. cbv zeta in Hn. rewrite Hn. unfold push.
  destruct (Nat.ltb_spec (length q) 15) as [Hr|Hr].
  - destruct (Z.eqb_spec (slot (h + Z.of_nat (length q) + 1)) (slot h)) as [Hc|_].
    { exfalso. apply slot_inj in Hc. Z.div_mod_to_equations. lia. }
    cbn [fst snd]. split; [done|].
    pose proof (slot_range (h + Z.of_nat (length q))) as Hsl. pose proof (slot_range (h + Z.of_nat (length q) + 1)) as Hsl'.
    change (SET_FARVAR 2 m SEG_BDA (slot (h + Z.of_nat (length q))) kc) with (SET_BDA 2 m (slot (h + Z.of_nat (length q))) kc).
    unfold ring. rewrite length_app. cbn [length]. rewrite bda_same, !bda_other by (unfold kbd_buf_head, kbd_buf_tail; lia).
    split; [done|]. split; [rewrite wrap_small by (unfold fits; lia); f_equal; lia|]. split; [lia|]. intros i c Hi.
    change (GET_FARVAR 2 ?m SEG_BDA ?o) with (GET_BDA 2 m o). pose proof (slot_range (h + Z.of_nat i)).
    rewrite bda_other by (unfold kbd_buf_tail; lia). apply lookup_app_Some in Hi as [Hi|[Hi1 Hi2]].
    + apply lookup_lt_Some in Hi as Hil. rewrite bda_other by (apply slot_apart; lia). by apply Hq.
    + apply list_lookup_singleton_Some in Hi2 as [Hi2 <-]. assert (i = length q) as -> by lia. apply bda_same.
  - assert (length q = 15)%nat as Hlen by lia.
    destruct (Z.eqb_spec (slot (h + Z.of_nat (length q) + 1)) (slot h)) as [_|Hc].
    + done.
    + exfalso. apply Hc. unfold slot. rewrite Hlen. Z.div_mod_to_equations. lia.
Qed.

(** What a write in the ring buffer or its tail pointer leaves. *)
Lemma enqueue_frame m kc n off : (forall h q, ring m h q -> off + Z.of_nat n <= 0x1c \/ 0x3e <= off) ->
  (exists h q, ring m h q) -> GET_BDA n (enqueue_key kc m).2 off = GET_BDA n m off.
Proof.
  intros Ho (h & q & Hr). specialize (Ho h q Hr). destruct Hr as (_ & Ht & _). unfold enqueue_key. cbv zeta.
  case_match; [done|]. cbn [snd]. rewrite bda_other by (unfold kbd_buf_tail; lia).
  pose proof (slot_range (h + Z.of_nat (length q))). change (SET_FARVAR 2 m SEG_BDA ?o kc) with (SET_BDA 2 m o kc).
  rewrite Ht, bda_other by lia. done.
Qed.

Lemma enqueue_ok m kc : mem_ok m -> mem_ok (enqueue_key kc m).2.
Proof. intros Hm. unfold enqueue_key. cbv zeta. case_match; [done|]. by apply store_ok, store_ok. Qed.

Lemma enqueue_represents m k kc : represents m k ->
  (enqueue_key kc m).1 = (if (length (k_queue k) <? 15)%nat then 1 else 0) /\
  represents (enqueue_key kc m).2 (mkKbd (k_flag0 k) (k_flag1 k) (push (u16 kc) (k_queue k))).
Proof.
  intros [Hok H0 H1 Hs He [h Hr]]. destruct (enqueue_ring m h _ kc Hr Hs He) as [Hret Hring]. split; [done|].
  assert (exists h q, ring m h q) as Hex by (by exists h, (k_queue k)).
  split; [by apply enqueue_ok|..|by exists h]; cbn [k_flag0 k_flag1];
    rewrite enqueue_frame by (done || (intros; unfold kbd_flag0, kbd_flag1, kbd_buf_start_offset, kbd_buf_end_offset; lia)); done.
Qed.

(** Setting the modifiers. *)
Lemma represents_flags m k f0 f1 : represents m k ->
  represents (SET_BDA 1 (SET_BDA 2 m kbd_flag0 f0) kbd_flag1 f1) (mkKbd (u16 f0) (u8 f1) (k_queue k)).
Proof.
  intros [Hok H0 H1 Hs He [h Hr]]. split; cbn [k_flag0 k_flag1 k_queue].
  - by apply store_ok, store_ok.
  - rewrite bda_other by (unfold kbd_flag0, kbd_flag1; lia). apply bda_same.
  - apply bda_same.
  - rewrite !bda_other by (unfold kbd_flag0, kbd_flag1, kbd_buf_start_offset; lia). done.
  - rewrite !bda_other by (unfold kbd_flag0, kbd_flag1, kbd_buf_end_offset; lia). done.
  - exists h. by apply ring_elsewhere, ring_elsewhere; [unfold kbd_flag1; lia|unfold kbd_flag0; lia|].
Qed.

Lemma represents_flag1 m k f1 : represents m k ->
  represents (SET_BDA 1 m kbd_flag1 f1) (mkKbd (k_flag0 k) (u8 f1) (k_queue k)).
Proof.
  intros [Hok H0 H1 Hs He [h Hr]]. split; cbn [k_flag0 k_flag1 k_queue].
  - by apply store_ok.
  - by rewrite bda_other by (unfold kbd_flag0, kbd_flag1; lia).
  - apply bda_same.
  - by rewrite bda_other by (unfold kbd_flag1, kbd_buf_start_offset; lia).
  - by rewrite bda_other by (unfold kbd_flag1, kbd_buf_end_offset; lia).
  - exists h. apply ring_elsewhere; [unfold kbd_flag1; lia|done].
Qed.

Lemma represents_fits m k : represents m k -> fits 16 (k_flag0 k) /\ fits 8 (k_flag1 k).
Proof. intros [Hok <- <- _ _ _]. split; [apply (load_fits 2)|apply (load_fits 1)]; done. Qed.

Lemma set_flag_represents m k release s0 s1 t : represents m k ->
  let '(f0, f1, e) := set_flag release s0 s1 t (k_flag0 k) (k_flag1 k) in
  represents (kbd_set_flag release s0 s1 t m) (mkKbd f0 f1 (k_queue k)) /\ e = NoKey.
Proof.
  intros Hr. pose proof (represents_fits m k Hr) as [Hf0 Hf1]. unfold set_flag, kbd_set_flag.
  rewrite (rep_flag0 _ _ Hr), (rep_flag1 _ _ Hr). destruct release; (split; [|done]).
  - pose proof (represents_flags m k (Z.land (k_flag0 k) (Z.lnot s0)) (Z.land (k_flag1 k) (Z.lnot s1)) Hr) as Hn.
    by rewrite !wrap_small in Hn by (apply fits_mask; (done || lia)).
  - by apply represents_flags.
Qed.

Definition live_represents (l : live) (o : option keyboard) : Prop :=
  match l, o with Live m, Some k => represents m k | Reset _, None => True | _, _ => False end.

Section process.
Context `{Ho : KbdHostOk}.

Lemma set_flag_live m k release s0 s1 t : represents m k ->
  live_represents (Live (kbd_set_flag release s0 s1 t m))
    (after_event (k_queue k) (set_flag release s0 s1 t (k_flag0 k) (k_flag1 k))).
Proof.
  intros Hr. pose proof (set_flag_represents m k release s0 s1 t Hr) as Hs.
  destruct (set_flag release s0 s1 t _ _) as [[f0 f1] e]. by destruct Hs as [Hs ->].
Qed.

Lemma break_represents m k release : represents m k ->
  represents (kbd_ctrl_break release m) (if release then mkKbd (k_flag0 k) (k_flag1 k) [0] else k).
Proof.
  intros Hr. unfold kbd_ctrl_break. destruct release; cbn [negb]; [|done].
  apply represents_quiet; [apply host_1b_quiet|]. destruct Hr as [Hok H0 H1 Hs He _]. rewrite Hs.
  change (SET_FARVAR 2 ?m SEG_BDA 0x1e 0) with (SET_BDA 2 m 0x1e 0). split; cbn [k_flag0 k_flag1 k_queue].
  - by repeat apply store_ok.
  - by rewrite !bda_skip by reflexivity.
  - by rewrite !bda_skip by reflexivity.
  - by rewrite !bda_skip by reflexivity.
  - by rewrite !bda_skip by reflexivity.
  - exists 0. split; [by rewrite !bda_skip, bda_same by reflexivity|].
    split; [by rewrite !bda_skip, bda_same by reflexivity|]. split; [cbn; lia|].
    intros [|i] kc Hi; [|done]. injection Hi as <-. change (GET_FARVAR 2 ?m SEG_BDA (slot _)) with (GET_BDA 2 m 0x1e).
    by rewrite bda_skip, bda_same by reflexivity.
Qed.

Lemma generic_represents m k release sc old : represents m k ->
  live_represents (Live (generic_key release sc old m))
    (after_event (k_queue k) (k_flag0 k, k_flag1 k, decode_generic release sc (k_flag0 k) old)).
Proof.
  intros Hr. unfold generic_key, decode_generic. assert (mkKbd (k_flag0 k) (k_flag1 k) (k_queue k) = k) as Hk by by destruct k.
  assert (forall e, e = NoKey -> live_represents (Live m) (after_event (k_queue k) (k_flag0 k, k_flag1 k, e))) as Hno
    by (intros e ->; cbn; by rewrite Hk).
  destruct release; [by apply Hno|]. destruct (scan_to_keycode !! Z.to_nat sc) as [info|]; [|by apply Hno].
  destruct (sc =? 0); [by apply Hno|]. rewrite (rep_flag0 _ _ Hr). case_match; [by apply Hno|].
  cbn [live_represents after_event]. by apply enqueue_represents.
Qed.

Lemma special_represents m k release sc old : represents m k ->
  live_represents
    (match special_key release sc old m with Some l => l | None => Live (generic_key release sc old m) end)
    (after_event (k_queue k) (decode_key release sc old (k_flag0 k) (k_flag1 k))).
Proof.
  intros Hr. unfold special_key, decode_key. assert (mkKbd (k_flag0 k) (k_flag1 k) (k_queue k) = k) as Hk by by destruct k.
  assert (forall m', represents m' k -> live_represents (Live m') (after_event (k_queue k) (k_flag0 k, k_flag1 k, NoKey))) as Hno
    by (intros m' Hm'; cbn; by rewrite Hk).
  assert (forall f, quiet f -> live_represents (Live (f m)) (after_event (k_queue k) (k_flag0 k, k_flag1 k, Hook))) as Hq
    by (intros f Hf; cbn; rewrite Hk; by apply represents_quiet).
  rewrite (rep_flag0 _ _ Hr).
  repeat match goal with |- context [if sc =? ?c then _ else _] => destruct (Z.eqb_spec sc c); [subst sc; cbn [andb Z.eqb Pos.eqb]|] end;
    cbn [andb]; try (destruct (has old _)); try (by apply set_flag_live); try (by apply Hno); try (by apply generic_represents).
  - cbn [live_represents after_event]. pose proof (break_represents m k release Hr) as Hb. destruct release; [done|by rewrite Hk].
  - apply (Hq (kbd_prtscr release)). unfold kbd_prtscr. destruct release; [by intros m'|apply host_05_quiet].
  - apply (Hq (kbd_sysreq release)), host_85_quiet.
  - destruct ((Z.land (k_flag0 k) _ =? _) && negb release); [exact I|by apply generic_represents].
Qed.

Lemma process_represents m k sc : represents m k -> live_represents (__process_key sc m) (strike sc k).
Proof.
  intros Hr. pose proof (represents_fits m k Hr) as [Hf0 Hf1]. unfold __process_key, strike, kbd_decode.
  rewrite (rep_flag1 _ _ Hr). set (last := Z.lor KF1_LAST_E0 KF1_LAST_E1).
  destruct ((sc =? 0xe0) || (sc =? 0xe1)).
  { cbn [live_represents after_event]. assert (fits 8 (if sc =? 0xe0 then KF1_LAST_E0 else KF1_LAST_E1)) as Hl
      by (case_match; unfold fits, KF1_LAST_E0, KF1_LAST_E1; lia).
    pose proof (represents_flag1 m k (Z.lor (k_flag1 k) (if sc =? 0xe0 then KF1_LAST_E0 else KF1_LAST_E1)) Hr) as Hn.
    by rewrite (wrap_small 8) in Hn by (apply fits_lor; (done || lia)). }
  cbv zeta. assert (has (k_flag1 k) KF1_LAST_E1 = true -> has (k_flag1 k) last = true) as Hlast.
  { unfold has, last. rewrite !negb_true_iff, !Z.eqb_neq, Z.land_lor_distr_r, Z.lor_eq_0_iff. tauto. }
  destruct (has (k_flag1 k) KF1_LAST_E1 && (Z.land sc 0x7f =? 0x1d)) eqn:Hp.
  { apply andb_prop in Hp as [Hp _]. rewrite (Hlast Hp). cbn. by destruct k. }
  rewrite andb_false_r.
  assert (represents (if has (k_flag1 k) last then SET_BDA 1 m kbd_flag1 (Z.land (k_flag1 k) (Z.lnot last)) else m)
    (mkKbd (k_flag0 k) (Z.land (k_flag1 k) (Z.lnot last)) (k_queue k))) as Hn.
  { destruct (has (k_flag1 k) last) eqn:Hh.
    - pose proof (represents_flag1 m k (Z.land (k_flag1 k) (Z.lnot last)) Hr) as Hn.
      by rewrite (wrap_small 8) in Hn by (apply fits_mask; (done || lia)).
    - apply negb_false_iff, Z.eqb_eq in Hh. replace (Z.land (k_flag1 k) (Z.lnot last)) with (k_flag1 k); [by destruct k|].
      rewrite <- Z.ldiff_land. symmetry. apply Z.bits_inj'. intros n Hn0. rewrite Z.ldiff_spec.
      apply (f_equal (fun z => Z.testbit z n)) in Hh. rewrite Z.land_spec, Z.bits_0 in Hh.
      by destruct (Z.testbit (k_flag1 k) n), (Z.testbit last n). }
  exact (special_represents _ _ (has sc 0x80) (Z.land sc 0x7f) (k_flag1 k) Hn).
Qed.

Lemma keys_represent keys : forall m k, represents m k -> live_represents (process_keys keys m) (strikes keys k).
Proof.
  induction keys as [|key keys IH]; intros m k Hr; cbn [process_keys strikes]; [done|].
  unfold process_key, strike_through. pose proof (host_4f key m) as Hf. pose proof (host_4f_quiet key) as Hq.
  pose proof (represents_quiet _ m k Hq Hr) as Hr'. cbn beta in Hr'. destruct (int15_4f key m) as [o m']. cbn [fst snd] in *.
  subst o. destruct (filter_key key) as [key'|]; [|by apply IH].
  pose proof (process_represents m' k (u8 key') Hr') as Hp.
  destruct (__process_key (u8 key') m'), (strike (u8 key') k); try done. by apply IH.
Qed.

(** * The services *)

Definition matches {A : Type} (c : kbd_result A) (a : answer A) : Prop :=
  match c, a with
  | Returns x m p, Answer y k q => x = y /\ p = q /\ represents m k
  | Restarts _, Restarted => True
  | Waits _, Waiting => True
  | _, _ => False
  end.

Lemma queue_empty m k : represents m k ->
  (GET_BDA 2 m kbd_buf_head =? GET_BDA 2 m kbd_buf_tail) = match k_queue k with [] => true | _ => false end.
Proof.
  intros [_ _ _ _ _ [h (Hh & Ht & Hl & _)]]. rewrite Hh, Ht. destruct (k_queue k) as [|kc q].
  - cbn [length]. rewrite Z.add_0_r. apply Z.eqb_refl.
  - apply Z.eqb_neq. intros He. apply slot_inj in He. cbn [length] in *. Z.div_mod_to_equations. lia.
Qed.

Lemma queue_head m k kc q : represents m k -> k_queue k = kc :: q ->
  GET_FARVAR 2 m SEG_BDA (GET_BDA 2 m kbd_buf_head) = kc /\
  represents (take_key m) (mkKbd (k_flag0 k) (k_flag1 k) q).
Proof.
  intros [Hok H0 H1 Hs He [h (Hh & Ht & Hl & Hq)]] Hk. rewrite Hk in *. split.
  - rewrite Hh. rewrite <- (Hq 0%nat kc eq_refl). f_equal. f_equal. lia.
  - unfold take_key. rewrite Hs, He, Hh. pose proof (slot_next h) as Hn. cbv zeta in Hn. rewrite Hn.
    pose proof (slot_range (h + 1)). split; cbn [k_flag0 k_flag1 k_queue].
    + by apply store_ok.
    + by rewrite bda_skip by reflexivity.
    + by rewrite bda_skip by reflexivity.
    + by rewrite bda_skip by reflexivity.
    + by rewrite bda_skip by reflexivity.
    + exists (h + 1). split; [rewrite bda_same; apply wrap_small; unfold fits; lia|].
      split; [rewrite bda_skip by reflexivity; rewrite Ht; cbn [length]; f_equal; lia|].
      split; [cbn [length] in Hl; lia|]. intros i c Hi. pose proof (slot_range (h + 1 + Z.of_nat i)).
      change (GET_FARVAR 2 ?m SEG_BDA ?o) with (GET_BDA 2 m o).
      rewrite bda_other by (unfold kbd_buf_head; lia). rewrite <- (Hq (S i) c Hi). unfold GET_BDA. f_equal. f_equal. lia.
Qed.

Lemma after_yield_matches m k p (c : K irq_regs) f : represents m k ->
  (forall m' k' p', represents m' k' -> matches (c m' p') (f p' k')) ->
  matches ((yield ;; c) m p) (after_yield p k f).
Proof.
  intros Hr Hc. unfold after_yield, mbind, K_bind, yield. pose proof (keys_represent (default [] (head p)) m k Hr) as Hk.
  destruct (process_keys _ m), (strikes _ k); try done. by apply Hc.
Qed.

Lemma wait_matches p : forall m k (c : K irq_regs) f, represents m k ->
  (forall m' k' p' kc q, represents m' k' -> k_queue k' = kc :: q -> matches (c m' p') (f kc q p' k')) ->
  matches (((fun m p => wait_key p m) ;; c) m p) (await p k f).
Proof.
  unfold mbind, K_bind. induction p as [|keys p IH]; intros m k c f Hr Hc; cbn [wait_key await];
    rewrite (queue_empty m k Hr); destruct (k_queue k) as [|kc q] eqn:Hq; cbn [negb]; try (by apply Hc); [done|].
  pose proof (keys_represent keys m k Hr) as Hk. destruct (process_keys keys m), (strikes keys k); try done. by apply IH.
Qed.

Lemma kdo_bind {A B} (f : mem -> A * mem) (g : A -> K B) m p : mbind g (kdo f) m p = let '(a, m') := f m in g a m' p.
Proof. unfold mbind, K_bind, kdo. by destruct (f m). Qed.

Lemma read_matches m k p r extended : represents m k ->
  matches (dequeue_key r true extended m p) (read_key r extended p k).
Proof.
  intros Hr. unfold dequeue_key, read_key. apply after_yield_matches; [done|].
  intros m1 k1 p1 Hr1. rewrite kdo_bind. cbn [negb andb].
  apply wait_matches; [done|]. intros m2 k2 p2 kc q Hr2 Hq. destruct (queue_head m2 k2 kc q Hr2 Hq) as [Hkc Ht].
  unfold kdo. by rewrite Hkc.
Qed.

Lemma peek_matches m k p r extended : represents m k ->
  matches (dequeue_key r false extended m p) (peek_key r extended p k).
Proof.
  intros Hr. unfold dequeue_key, peek_key. apply after_yield_matches; [done|].
  intros m1 k1 p1 Hr1. rewrite kdo_bind, (queue_empty m1 k1 Hr1).
  destruct (k_queue k1) as [|kc q] eqn:Hq; cbn [negb andb]; [exact (conj eq_refl (conj eq_refl Hr1))|].
  destruct (queue_head m1 k1 kc q Hr1 Hq) as [Hkc _]. unfold mbind, K_bind.
  assert (wait_key p1 m1 = Returns () m1 p1) as -> by (destruct p1; cbn [wait_key]; by rewrite (queue_empty m1 k1 Hr1), Hq).
  unfold kdo. by rewrite Hkc.
Qed.

Lemma command_quiet c p : quiet (fun m => (kbd_command c p m).2).
Proof.
  intros m Hm. unfold kbd_command. destruct (usb_kbd_active m);
    [apply (host_usb_quiet c p m Hm)|apply (host_ps2_quiet c p m Hm)].
Qed.

Lemma leds_represent m k p : represents m k -> exists m', set_leds m p = Returns () m' p /\ represents m' k.
Proof.
  intros Hr. unfold set_leds, kdo. cbv zeta. destruct (_ =? Z.land _ 0x07); [by exists m|].
  pose proof (represents_quiet _ m k (command_quiet ATKBD_CMD_SETLEDS
    [Z.land (Z.shiftr (GET_BDA 2 m kbd_flag0) 4) 0x07]) Hr) as Hc. cbn beta in Hc.
  destruct (kbd_command _ _ m) as [[ret l] m']. cbn [snd] in Hc. eexists. split; [reflexivity|]. destruct (ret =? 0); [|done].
  apply (represents_bytes m'); [done|apply store_ok, Hc|]. intros a Ha. apply store_out.
  unfold kbd_byte, far, SEG_BDA, kbd_led in *. lia.
Qed.

Lemma service_matches m k p (r : irq_regs) : represents m k -> hi8 (ax r) <> 0x0a -> matches (handle_16 r m p) (service r p k).
Proof.
  intros Hr Hn. unfold handle_16, service. unfold mbind at 1, K_bind at 1.
  destruct (leds_represent m k p Hr) as (m1 & -> & Hr1). clear Hr m. apply Z.eqb_neq in Hn. rewrite Hn.
  assert (forall r' : irq_regs, matches (Returns r' m1 p) (Answer r' k p)) as Hsame by done. cbv beta iota zeta.
  repeat match goal with |- matches ((if ?c then _ else _) _ _) _ => destruct c end;
    try (by apply read_matches); try (by apply peek_matches); try (by apply Hsame).
  - apply after_yield_matches; [done|]. intros m2 k2 p2 Hr2. unfold kdo.
    by rewrite (rep_flag0 _ _ Hr2).
  - unfold handle_1605, kdo. destruct (enqueue_represents m1 k (cx r) Hr1) as [He Hk].
    destruct (enqueue_key (cx r) m1) as [ok m2]. cbn [fst snd] in *. subst ok. split; [by destruct (length (k_queue k) <? 15)%nat|done].
  - apply after_yield_matches; [done|]. intros m2 k2 p2 Hr2. unfold kdo.
    by rewrite (rep_flag0 _ _ Hr2), (rep_flag1 _ _ Hr2).
Qed.

Lemma session_matches rs : forall m k p, represents m k -> Forall (fun r : irq_regs => hi8 (ax r) <> 0x0a) rs ->
  matches (serve rs m p) (services rs p k).
Proof.
  induction rs as [|r rs IH]; intros m k p Hr Hf; cbn [serve services]; [done|].
  apply Forall_cons in Hf as [Hn Hf]. pose proof (service_matches m k p r Hr Hn) as Hs. unfold mbind at 1, K_bind at 1.
  destruct (handle_16 r m p) as [r' m1 p1| |], (service r p k) as [a k1 q1| |]; try done. destruct Hs as (-> & -> & Hr1).
  pose proof (IH m1 k1 q1 Hr1 Hf) as Hl. unfold mbind, K_bind.
  destruct (serve rs m1 q1), (services rs q1 k1); try done. by destruct Hl as (-> & -> & ?).
Qed.

Lemma init_represents m : mem_ok m -> represents (kbd_init m) (mkKbd (GET_BDA 2 m kbd_flag0) KF1_101KBD []).
Proof.
  intros Hok. unfold kbd_init. split; cbn [k_flag0 k_flag1 k_queue].
  - by repeat apply store_ok.
  - by rewrite !bda_skip by reflexivity.
  - rewrite !bda_skip by reflexivity. apply bda_same.
  - rewrite !bda_skip by reflexivity. apply bda_same.
  - apply bda_same.
  - exists 0. split; [rewrite !bda_skip by reflexivity; apply bda_same|].
    split; [rewrite !bda_skip by reflexivity; apply bda_same|]. split; [cbn; lia|]. intros i kc Hi. by rewrite lookup_nil in Hi.
Qed.

End process.

(** * Typing characters *)

(** The scan codes of a character on an American keyboard: its key, with the
    left shift or the left control key where it needs one. *)
Fixpoint typed_as (l : list scaninfo) (sc c : Z) : list Z :=
  match l with
  | [] => []
  | i :: l' =>
    if Z.land (scan_normal i) 0xff =? c then [sc; Z.lor sc 0x80]
    else if Z.land (scan_shift i) 0xff =? c then [0x2a; sc; Z.lor sc 0x80; 0xaa]
    else if Z.land (scan_control i) 0xff =? c then [0x1d; sc; Z.lor sc 0x80; 0x9d]
    else typed_as l' (sc + 1) c
  end.
Definition keys_of (c : Z) : list Z := typed_as scan_to_keycode 0 c.

(** The modifiers and the key codes scan codes make when they neither break
    nor reboot. *)
Fixpoint flow (keys : list Z) (f0 f1 : Z) : option (Z * Z * list Z) :=
  match keys with
  | [] => Some (f0, f1, [])
  | sc :: keys' =>
    let '(g0, g1, e) := kbd_decode sc f0 f1 in
    '(h0, h1, l) ← flow keys' g0 g1;
    match e with
    | Key kc => Some (h0, h1, kc :: l)
    | NoKey | Hook => Some (h0, h1, l)
    | Break | Reboot => None
    end
  end.

Lemma flow_app keys1 : forall keys2 f0 f1, flow (keys1 ++ keys2) f0 f1 =
  '(g0, g1, l1) ← flow keys1 f0 f1; '(h0, h1, l2) ← flow keys2 g0 g1; Some (h0, h1, l1 ++ l2).
Proof.
  induction keys1 as [|sc keys1 IH]; intros keys2 f0 f1; cbn [flow app].
  - cbn. by destruct (flow keys2 f0 f1) as [[[? ?] ?]|].
  - destruct (kbd_decode sc f0 f1) as [[g0 g1] e]. rewrite IH. destruct (flow keys1 g0 g1) as [[[a0 a1] l1]|]; [|done]. cbn.
    destruct e; cbn; try done; by destruct (flow keys2 a0 a1) as [[[b0 b1] l2]|].
Qed.

(** Every character of the ASCII set but NUL can be typed. *)
Definition flows (c : Z) : bool :=
  bool_decide (flow (keys_of c) 0 KF1_101KBD = Some (0, KF1_101KBD, [ascii_to_keycode c])) &&
  (lo8 (deliver false (ascii_to_keycode c)) =? c) && forallb (fun k => (0 <=? k) && (k <? 256)) (keys_of c).

Lemma ascii_flows c : 1 <= c < 128 -> flows c = true.
Proof.
  intros Hc. assert (forallb flows (seqZ 1 127) = true) as H by (vm_compute; reflexivity).
  rewrite forallb_forall in H. apply H, list_elem_of_In, elem_of_seqZ. lia.
Qed.

Lemma text_flows cs : Forall (fun c => 1 <= c < 128) cs ->
  flow (concat (keys_of <$> cs)) 0 KF1_101KBD = Some (0, KF1_101KBD, ascii_to_keycode <$> cs).
Proof.
  induction 1 as [|c cs Hc _ IH]; [done|]. cbn [fmap list_fmap concat]. rewrite flow_app.
  pose proof (ascii_flows c Hc) as Hf. apply andb_prop in Hf as [Hf _]. apply andb_prop in Hf as [Hf _].
  apply bool_decide_eq_true in Hf. rewrite Hf. cbn. by rewrite IH.
Qed.

Section typing.
Context `{Ho : KbdHostOk}.
Hypothesis Hplain : forall key, filter_key key = Some key.

Lemma strikes_flow keys : forall f0 f1 q g0 g1 e, Forall (fits 8) keys -> flow keys f0 f1 = Some (g0, g1, e) ->
  (length q + length e <= 15)%nat -> strikes keys (mkKbd f0 f1 q) = Some (mkKbd g0 g1 (q ++ e)).
Proof.
  induction keys as [|sc keys IH]; intros f0 f1 q g0 g1 e Hk Hf Hl; cbn [flow strikes] in *.
  - injection Hf as <- <- <-. by rewrite app_nil_r.
  - apply Forall_cons in Hk as [Hsc Hk]. unfold strike_through. rewrite Hplain, (wrap_small 8) by done.
    unfold strike. cbn [k_flag0 k_flag1 k_queue]. destruct (kbd_decode sc f0 f1) as [[a0 a1] ev].
    destruct (flow keys a0 a1) as [[[b0 b1] l]|] eqn:Hfl; [|done]. cbn in Hf.
    destruct ev; try done; injection Hf as <- <- <-; cbn [after_event].
    + by apply (IH a0 a1 q b0 b1 l Hk Hfl).
    + cbn [length] in Hl. unfold push. assert ((length q <? 15)%nat = true) as -> by (apply Nat.ltb_lt; lia).
      rewrite (IH a0 a1 (q ++ [keycode]) b0 b1 l Hk Hfl) by (rewrite length_app; cbn; lia). by rewrite <- app_assoc.
    + by apply (IH a0 a1 q b0 b1 l Hk Hfl).
Qed.

(** A keyboard with [q] read in and the scan codes of [p] to come will have
    delivered the key codes [l]. *)
Definition brings (k : keyboard) (p : schedule) (l : list Z) : Prop :=
  Forall (fits 8) (concat p) /\ exists g0 g1 e, flow (concat p) (k_flag0 k) (k_flag1 k) = Some (g0, g1, e) /\
  k_queue k ++ e = l /\ (length l <= 15)%nat.

Lemma brings_burst k keys p l : brings k (keys :: p) l -> exists k', strikes keys k = Some k' /\ brings k' p l.
Proof.
  intros [Hk (g0 & g1 & e & Hf & Hq & Hl)]. destruct k as [f0 f1 q]. cbn [k_flag0 k_flag1 k_queue] in *.
  cbn [concat] in *. apply Forall_app in Hk as [Hk1 Hk2]. rewrite flow_app in Hf.
  destruct (flow keys f0 f1) as [[[a0 a1] l1]|] eqn:Hf1; [|done]. cbn in Hf.
  destruct (flow (concat p) a0 a1) as [[[b0 b1] l2]|] eqn:Hf2; [|done]. cbn in Hf. injection Hf as <- <- <-.
  rewrite <- Hq, !length_app in Hl. exists (mkKbd a0 a1 (q ++ l1)). split; [apply strikes_flow; (done || lia)|].
  split; [done|]. exists b0, b1, l2. cbn [k_flag0 k_flag1 k_queue]. split; [done|]. rewrite <- app_assoc.
  split; [done|]. rewrite <- Hq, !length_app. lia.
Qed.

Lemma brings_take k p kc q l : brings k p l -> k_queue k = kc :: q -> exists l', l = kc :: l' /\
  brings (mkKbd (k_flag0 k) (k_flag1 k) q) p l'.
Proof.
  intros [Hk (g0 & g1 & e & Hf & Hq & Hl)] Hkq. rewrite Hkq in Hq. cbn in Hq. exists (q ++ e). split; [done|].
  split; [done|]. exists g0, g1, e. split; [done|]. split; [done|]. rewrite <- Hq in Hl. cbn in Hl. lia.
Qed.

Lemma await_brings (r : irq_regs) p : forall k kc l, brings k p (kc :: l) ->
  exists k' p', await p k (fun kc q p k => Answer (irq_with (with_ax (deliver false kc)) r) (mkKbd (k_flag0 k) (k_flag1 k) q) p)
    = Answer (irq_with (with_ax (deliver false kc)) r) k' p' /\ brings k' p' l.
Proof.
  induction p as [|keys p IH]; intros k kc l Hb; cbn [await]; destruct (k_queue k) as [|c q] eqn:Hq.
  - exfalso. destruct Hb as [_ (g0 & g1 & e & Hf & He & _)]. rewrite Hq in He. cbn in Hf, He. injection Hf as <- <- <-. done.
  - destruct (brings_take k [] c q _ Hb Hq) as (l' & Heq & Hb'). injection Heq as <- <-. by eexists _, _.
  - destruct (brings_burst k keys p _ Hb) as (k1 & -> & Hb1). by apply IH.
  - destruct (brings_take k (keys :: p) c q _ Hb Hq) as (l' & Heq & Hb'). injection Heq as <- <-. by eexists _, _.
Qed.

Lemma read_brings (r : irq_regs) k p kc l : brings k p (kc :: l) ->
  exists k' p', read_key r false p k = Answer (irq_with (with_ax (deliver false kc)) r) k' p' /\ brings k' p' l.
Proof.
  intros Hb. unfold read_key, after_yield. destruct p as [|keys p]; cbn [head default tail].
  - apply (await_brings r [] k kc l Hb).
  - cbn. destruct (brings_burst k keys p _ Hb) as (k1 & -> & Hb1). by apply await_brings.
Qed.

Lemma reads_bring (r : irq_regs) l : hi8 (ax r) = 0 -> forall k p, brings k p l ->
  exists k' p', services (replicate (length l) r) p k =
    Answer ((fun kc => irq_with (with_ax (deliver false kc)) r) <$> l) k' p'.
Proof.
  intros Hah. induction l as [|kc l IH]; intros k p Hb; cbn [length replicate services]; [by eexists _, _|].
  unfold service. rewrite Hah. cbn [Z.eqb]. destruct (read_brings r k p kc l Hb) as (k1 & p1 & -> & Hb1).
  destruct (IH k1 p1 Hb1) as (k2 & p2 & ->). by eexists _, _.
Qed.

End typing.

(** * Two control keys *)

(** With both control keys down, releasing the left one makes control inactive
    although the right one is recorded as down. *)
Lemma one_control_released :
  flow [0x1d; 0xe0; 0x1d; 0x9d] 0 KF1_101KBD = Some (0, Z.lor KF1_101KBD KF1_RCTRL, []).
Proof. reflexivity. Qed.

(** * Claims *)

(** A host whose hooks do nothing and whose keyboards accept every command. *)
Definition plain_host : KbdHost := {|
  int15_4f k m := (Some k, m);
  int15_85 _ m := m;
  int05 m := m;
  int1b m := m;
  usb_kbd_active _ := false;
  usb_kbd_command _ p m := (0, p, m);
  ps2_kbd_command _ p m := (0, p, m)
|}.

Definition plain_host_ok : KbdHostOk plain_host.
Proof. by refine {| filter_key := Some |}; intros. Defined.

(** C15: from the state [kbd_init] leaves, a program that makes any sequence of
    calls of interrupt 16h (but function 0Ah), while any scan codes arrive
    when the services yield, gets exactly the answers of the reference
    keyboard: modifiers as [kbd_decode] says and key codes in the order they
    were typed, fifteen at most; a call waits, or the machine restarts,
    exactly when it does there. *)
Theorem keyboard_refines {H : KbdHost} {Ho : KbdHostOk H} (m : mem) (p : schedule) (rs : list irq_regs)
  (Hok : mem_ok m) (Hid : Forall (fun r : irq_regs => hi8 (ax r) <> 0x0a) rs) :
  matches (serve rs (kbd_init m) p) (services rs p (mkKbd (GET_BDA 2 m kbd_flag0) KF1_101KBD [])).
Proof. by apply session_matches, Hid; apply init_represents. Qed.

(** C16: text is read as it was typed.  Up to fifteen ASCII characters typed on
    a keyboard with no modifier down, however their scan codes are cut into
    bursts between the calls, are returned by as many calls of function 00h,
    in order. *)
Theorem typed_text_read {H : KbdHost} {Ho : KbdHostOk H} (Hplain : forall key, filter_key key = Some key)
  (m : mem) (cs : list Z) (p : schedule) (r : irq_regs) :
  mem_ok m -> GET_BDA 2 m kbd_flag0 = 0 -> hi8 (ax r) = 0 -> Forall (fun c => 1 <= c < 128) cs ->
  (length cs <= 15)%nat -> concat p = concat (keys_of <$> cs) ->
  exists rs m' p', serve (replicate (length cs) r) (kbd_init m) p = Returns rs m' p' /\
    (fun r' : irq_regs => lo8 (ax r')) <$> rs = cs.
Proof.
  intros Hok H0 Hah Hcs Hl Hp. pose proof (text_flows cs Hcs) as Hfl.
  assert (brings (mkKbd 0 KF1_101KBD []) p (ascii_to_keycode <$> cs)) as Hb.
  { split; [|rewrite Hp; exists 0, KF1_101KBD, (ascii_to_keycode <$> cs); by rewrite length_fmap].
    rewrite Hp. apply Forall_concat, Forall_fmap. eapply Forall_impl; [exact Hcs|]. intros c Hc. cbn beta.
    pose proof (ascii_flows c Hc) as Hf. apply andb_prop in Hf as [_ Hf]. rewrite forallb_forall in Hf.
    apply Forall_forall. intros k Hk. apply list_elem_of_In, Hf, andb_prop in Hk as [H1 H2].
    apply Z.leb_le in H1. apply Z.ltb_lt in H2. unfold fits. lia. }
  destruct (reads_bring Hplain r (ascii_to_keycode <$> cs) Hah _ p Hb) as (k' & p' & Hs). rewrite length_fmap in Hs.
  assert (Forall (fun r' : irq_regs => hi8 (ax r') <> 0x0a) (replicate (length cs) r)) as Hid
    by (apply Forall_replicate; rewrite Hah; lia).
  pose proof (init_represents m Hok) as Hr. rewrite H0 in Hr.
  pose proof (session_matches _ _ _ p Hr Hid) as Hm. rewrite Hs in Hm.
  destruct (serve _ _ p) as [rs m' p''| |]; try done. destruct Hm as (-> & -> & _). eexists _, m', p'. split; [done|].
  rewrite <- !list_fmap_compose. transitivity (id <$> cs); [|apply list_fmap_id].
  apply list_fmap_ext. intros i c Hi. cbn [compose irq_with irq_r with_ax ax id].
  rewrite Forall_lookup in Hcs. pose proof (ascii_flows c (Hcs i c Hi)) as Hf. apply andb_prop in Hf as [Hf _].
  apply andb_prop in Hf as [_ Hf]. apply Z.eqb_eq in Hf. rewrite <- Hf at 2.
  unfold lo8. apply wrap_wrap_le. lia.
Qed.

#[local] Existing Instance plain_host.
#[local] Existing Instance plain_host_ok.

(** The registers of a call of function [ah]. *)
Definition call16 (ah : Z) : irq_regs := mkIrq (mkRegs (256 * ah) 0 0 0 0 0 0) 0.

(** Shift and [a], a check, a read; then a check of the empty buffer. *)
Lemma keyboard_refines_witness :
  exists m', serve [call16 1; call16 0; call16 1] (kbd_init (fun _ => 0)) [[0x2a; 0x1e; 0x9e; 0xaa]] =
    Returns [mkIrq (mkRegs 0x1e41 0 0 0 0 0 0) 0; mkIrq (mkRegs 0x1e41 0 0 0 0 0 0) 0;
             mkIrq (mkRegs 0x0100 0 0 0 0 0 0) F_ZF] m' [].
Proof.
  pose proof (keyboard_refines (fun _ => 0) [[0x2a; 0x1e; 0x9e; 0xaa]] [call16 1; call16 0; call16 1]) as Hm.
  destruct (serve _ _ _) as [rs m' p'| |].
  - destruct Hm as (-> & -> & _).
    + by intros a.
    + by repeat (apply Forall_cons; split; [vm_compute; congruence|]).
    + by exists m'.
  - destruct Hm; [by intros a|]. by repeat (apply Forall_cons; split; [vm_compute; congruence|]).
  - destruct Hm; [by intros a|]. by repeat (apply Forall_cons; split; [vm_compute; congruence|]).
Defined.

(** [Hi!], cut in the middle of the scan codes of [H]. *)
Lemma typed_text_read_witness :
  exists rs m' p', serve (replicate 3 (call16 0)) (kbd_init (fun _ => 0)) [[0x2a; 0x23]; [0xa3; 0xaa; 0x17; 0x97]; [0x2a; 0x02; 0x82; 0xaa]] =
    Returns rs m' p' /\ (fun r' : irq_regs => lo8 (ax r')) <$> rs = [0x48; 0x69; 0x21].
Proof.
  apply (typed_text_read (H := plain_host) (Ho := plain_host_ok) (fun key => eq_refl) (fun _ => 0) [0x48; 0x69; 0x21]
    [[0x2a; 0x23]; [0xa3; 0xaa; 0x17; 0x97]; [0x2a; 0x02; 0x82; 0xaa]] (call16 0)).
  - by intros a.
  - reflexivity.
  - reflexivity.
  - repeat (apply Forall_cons; split; [lia|]). by apply Forall_nil.
  - cbn. lia.
  - vm_compute. reflexivity.
Defined.
