(* ===== verification/SeaBlock.v ===== *)
(** The drives of SeaBIOS ([seabios/src/block.c]), with the two drivers that
    are software only: the memory disk ([hw/ramdisk.c]) and the disk image of a
    bootable CD ([cdemu_read] of [cdrom.c]).

    The variables of the BIOS ([IDMap], the drive descriptions, [CDEmu], ...)
    are the record [block]; a pointer to a description is its address, 0 is
    none.  Memory as the machine sees it, with the data area and the buffers of
    callers, is [mem].  The drivers that operate a controller are the class
    [BlockHost]: a driver gets the description and the request and changes
    memory and the device.  The configuration is the one of a compatibility
    support module: [CONFIG_QEMU] is off, everything else has its default. *)

From stdpp Require Import base numbers list.
From Stdlib Require Import ZArith Lia.
From S2P Require Import Prelude Memory SeaString CcInt VgaState VgaFb VgaVbe VgaBios.

(** * Constants *)

Definition DISK_RET_SUCCESS : Z := 0x00.
Definition DISK_RET_EPARAM : Z := 0x01.
Definition DISK_RET_EWRITEPROTECT : Z := 0x03.
Definition DISK_RET_ECHANGED : Z := 0x06.
Definition DISK_RET_EBOUNDARY : Z := 0x09.
Definition DISK_RET_EBADTRACK : Z := 0x0c.
Definition DISK_RET_ENOTLOCKED : Z := 0xb0.
Definition DISK_RET_ELOCKED : Z := 0xb1.
Definition DISK_RET_ENOTREMOVABLE : Z := 0xb2.
Definition DISK_RET_ETOOMANYLOCKS : Z := 0xb4.

Definition CMD_RESET : Z := 0x00.
Definition CMD_READ : Z := 0x02.
Definition CMD_WRITE : Z := 0x03.
Definition CMD_VERIFY : Z := 0x04.
Definition CMD_FORMAT : Z := 0x05.
Definition CMD_SEEK : Z := 0x07.
Definition CMD_ISREADY : Z := 0x10.

Definition DTYPE_FLOPPY : Z := 0x10.
Definition DTYPE_ATA : Z := 0x20.
Definition DTYPE_ATA_ATAPI : Z := 0x21.
Definition DTYPE_RAMDISK : Z := 0x30.
Definition DTYPE_CDEMU : Z := 0x40.
Definition DTYPE_AHCI : Z := 0x50.
Definition DTYPE_AHCI_ATAPI : Z := 0x51.
Definition DTYPE_VIRTIO_SCSI : Z := 0x60.
Definition DTYPE_VIRTIO_BLK : Z := 0x61.
Definition DTYPE_USB : Z := 0x70.
Definition DTYPE_USB_32 : Z := 0x71.
Definition DTYPE_UAS : Z := 0x72.
Definition DTYPE_UAS_32 : Z := 0x73.
Definition DTYPE_LSI_SCSI : Z := 0x80.
Definition DTYPE_ESP_SCSI : Z := 0x81.
Definition DTYPE_MEGASAS : Z := 0x82.
Definition DTYPE_PVSCSI : Z := 0x83.
Definition DTYPE_MPT_SCSI : Z := 0x84.
Definition DTYPE_SDCARD : Z := 0x90.
Definition DTYPE_NVME : Z := 0x91.

Definition TRANSLATION_NONE : Z := 0.
Definition TRANSLATION_LBA : Z := 1.
Definition TRANSLATION_LARGE : Z := 2.
Definition TRANSLATION_RECHS : Z := 3.
Definition TRANSLATION_HOST : Z := 4.

Definition EXTTYPE_FLOPPY : nat := 0.
Definition EXTTYPE_HD : nat := 1.
Definition EXTTYPE_CD : nat := 2.
Definition BUILD_MAX_EXTDRIVE : Z := 16.

Definition DISK_SECTOR_SIZE : Z := 512.
Definition CDROM_SECTOR_SIZE : Z := 2048.

Definition ebda_seg : Z := 0x0e.
Definition hdcount : Z := 0x75.
Definition floppy_harddisk_info : Z := 0x8f.

(** * Data *)

Record chs_s := mkChs { chs_head : Z; chs_cylinder : Z; chs_sector : Z }.

Record drive_s := mkDrive {
  d_type : Z;
  floppy_type : Z;
  lchs : chs_s;
  sectors : Z;
  cntl_id : Z;
  translation : Z;
  blksize : Z;
  pchs : chs_s
}.

Record disk_op_s := mkDop {
  buf_fl : Z;
  drive_fl : Z;
  command : Z;
  count : Z;
  lba : Z
}.

(** [struct packed_chs_s] and [struct eltorito_s]. *)
Record packed_chs_s := mkPacked { pc_heads : Z; pc_sptcyl : Z; pc_cyllow : Z }.

Record eltorito_s := mkEltorito {
  el_size : Z;
  el_media : Z;
  el_emulated_drive : Z;
  el_controller_index : Z;
  el_ilba : Z;
  el_device_spec : Z;
  el_buffer_segment : Z;
  el_load_segment : Z;
  el_sector_count : Z;
  el_chs : packed_chs_s
}.

(** The part of [struct atadrive_s] and of its channel the descriptions use. *)
Record atadrive_s := mkAta {
  ata_slave : Z;
  ata_iobase1 : Z;
  ata_iobase2 : Z;
  ata_irq : Z;
  ata_chanid : Z;
  ata_pci_bdf : Z
}.

Record block := mkBlock {
  drives : Z -> drive_s;
  atadrives : Z -> atadrive_s;
  IDMap : list (list Z);
  FloppyCount : Z;
  CDCount : Z;
  bounce_buf_fl : Z;
  CDEmu : eltorito_s;
  emulated_drive_gf : Z;
  cdemu_drive_gf : Z;
  CDRom_locks : list Z
}.

Definition set_drive (p : Z) (d : drive_s) (b : block) : block :=
  mkBlock (fun q => if decide (q = p) then d else drives b q) (atadrives b) (IDMap b) (FloppyCount b) (CDCount b)
    (bounce_buf_fl b) (CDEmu b) (emulated_drive_gf b) (cdemu_drive_gf b) (CDRom_locks b).
Definition set_idmap (t : nat) (l : list Z) (b : block) : block :=
  mkBlock (drives b) (atadrives b) (<[t := l]> (IDMap b)) (FloppyCount b) (CDCount b)
    (bounce_buf_fl b) (CDEmu b) (emulated_drive_gf b) (cdemu_drive_gf b) (CDRom_locks b).
Definition set_counts (fl cd : Z) (b : block) : block :=
  mkBlock (drives b) (atadrives b) (IDMap b) fl cd
    (bounce_buf_fl b) (CDEmu b) (emulated_drive_gf b) (cdemu_drive_gf b) (CDRom_locks b).
Definition set_emulation (e : eltorito_s) (p : Z) (b : block) : block :=
  mkBlock (drives b) (atadrives b) (IDMap b) (FloppyCount b) (CDCount b)
    (bounce_buf_fl b) e p (cdemu_drive_gf b) (CDRom_locks b).
Definition set_locks (l : list Z) (b : block) : block :=
  mkBlock (drives b) (atadrives b) (IDMap b) (FloppyCount b) (CDCount b)
    (bounce_buf_fl b) (CDEmu b) (emulated_drive_gf b) (cdemu_drive_gf b) l.

Definition set_lchs (c : chs_s) (t : Z) (d : drive_s) : drive_s :=
  mkDrive (d_type d) (floppy_type d) c (sectors d) (cntl_id d) t (blksize d) (pchs d).

Definition getDrive (exttype : nat) (extdriveoffset : Z) (b : block) : Z :=
  if BUILD_MAX_EXTDRIVE <=? extdriveoffset then 0
  else default 0 (default [] (IDMap b !! exttype) !! Z.to_nat extdriveoffset).

Fixpoint find_drive (k : nat) (i : Z) (exttype : nat) (drive : Z) (b : block) : Z :=
  match k with
  | O => -1
  | S k' => if getDrive exttype i b =? drive then i else find_drive k' (i + 1) exttype drive b
  end.
Definition getDriveId (exttype : nat) (drive : Z) (b : block) : Z :=
  find_drive (Z.to_nat BUILD_MAX_EXTDRIVE) 0 exttype drive b.

(** * Geometry *)

Definition host_lchs_supplied (d : drive_s) : bool :=
  (chs_head (lchs d) <=? 255) && (0 <? chs_sector (lchs d)) && (chs_sector (lchs d) <=? 63).

(** The product of the cylinders and the heads is an [int]. *)
Definition get_translation (d : drive_s) : outcome Z :=
  if host_lchs_supplied d then mret TRANSLATION_HOST
  else
    let heads := chs_head (pchs d) in
    let cylinders := chs_cylinder (pchs d) in
    let spt := chs_sector (pchs d) in
    let psectors := u64 (heads * cylinders * spt) in
    if (heads =? 0) || (cylinders =? 0) || (spt =? 0) || (sectors d <? psectors) then mret TRANSLATION_LBA
    else if (cylinders <=? 1024) && (heads <=? 16) && (spt <=? 63) then mret TRANSLATION_NONE
    else
      p ← signed 32 (cylinders * heads);
      mret (if p <=? 131072 then TRANSLATION_LARGE else TRANSLATION_LBA).

(** The loop of the bit-shift translation; sixteen rounds take any 16-bit
    number of cylinders to zero. *)
Fixpoint large_loop (fuel : nat) (cylinders heads : Z) : Z * Z :=
  match fuel with
  | O => (cylinders, heads)
  | S f =>
    if cylinders <=? 1024 then (cylinders, heads)
    else
      let cylinders := Z.shiftr cylinders 1 in
      let heads := u16 (Z.shiftl heads 1) in
      if 127 <? heads then (cylinders, heads) else large_loop f cylinders heads
  end.

Definition lba_heads (sect : Z) : Z :=
  let heads := u16 (sect / 1024) in
  if 128 <? heads then 255 else if 64 <? heads then 128 else if 32 <? heads then 64
  else if 16 <? heads then 32 else 16.

(** The [switch] of [setup_translation]: cylinders, heads and sectors. *)
Definition translate (t : Z) (d : drive_s) : Z * Z * Z :=
  let heads := chs_head (pchs d) in
  let cylinders := chs_cylinder (pchs d) in
  let spt := chs_sector (pchs d) in
  if t =? TRANSLATION_LBA then
    if 63 * 255 * 1024 <? sectors d then (1024, 255, 63)
    else
      let sect := u32 (sectors d) / 63 in
      let heads := lba_heads sect in
      (u16 (sect / heads), heads, 63)
  else if (t =? TRANSLATION_RECHS) || (t =? TRANSLATION_LARGE) then
    let '(cylinders, heads) :=
      if (t =? TRANSLATION_RECHS) && (heads =? 16) then (u16 (Z.min cylinders 61439 * 16 / 15), 15)
      else (cylinders, heads) in
    let '(cylinders, heads) := large_loop 16 cylinders heads in
    (cylinders, heads, spt)
  else if t =? TRANSLATION_HOST then (chs_cylinder (lchs d), chs_head (lchs d), chs_sector (lchs d))
  else (cylinders, heads, spt).

Definition setup_translation (d : drive_s) : outcome drive_s :=
  t ← get_translation d;
  let '(cylinders, heads, spt) := translate t d in
  mret (set_lchs (mkChs heads (Z.min cylinders 1024) spt) t d).

(** * Mapping drives *)

(** [fdpt_s] in the extended data area: 16 bytes for each of two drives. *)
Definition fdpt_offset (hdid : Z) : Z := 0x3d + 16 * hdid.

Definition fill_fdpt (d : drive_s) (hdid : Z) (m : mem) : mem :=
  if 1 <? hdid then m
  else
    let nlc := chs_cylinder (lchs d) in
    let nlh := chs_head (lchs d) in
    let nls := chs_sector (lchs d) in
    let npc := chs_cylinder (pchs d) in
    let nph := chs_head (pchs d) in
    let nps := chs_sector (pchs d) in
    let seg := GET_BDA 2 m ebda_seg in
    let fdpt := far seg (fdpt_offset hdid) in
    let m := store 2 m (fdpt + 5) 0xffff in
    let m := store 1 m (fdpt + 8) (Z.lor 0xc0 (Z.shiftl (if 8 <? nph then 1 else 0) 3)) in
    let m := store 2 m (fdpt + 12) npc in
    let m := store 2 m fdpt nlc in
    let m := store 1 m (fdpt + 2) nlh in
    let m := store 1 m (fdpt + 14) nls in
    let m :=
      if (nlc =? npc) && (nlh =? nph) && (nls =? nps) then m
      else
        let m := store 2 m (fdpt + 9) npc in
        let m := store 1 m (fdpt + 11) nph in
        let m := store 1 m (fdpt + 4) nps in
        let m := store 1 m (fdpt + 3) 0xa0 in
        store 1 m (fdpt + 15) (load 1 m (fdpt + 15) - checksum m fdpt 16) in
    SET_IVT m (if hdid =? 0 then 0x41 else 0x46) (SEGOFF (GET_BDA 2 m ebda_seg) (fdpt_offset hdid)).

(** The row of [IDMap] with the drive in its next free place, and the count. *)
Definition add_drive (row : list Z) (n drive : Z) : list Z * Z :=
  if BUILD_MAX_EXTDRIVE <=? n then (row, n) else (<[Z.to_nat n := drive]> row, u8 (n + 1)).

Definition id_row (t : nat) (b : block) : list Z := default [] (IDMap b !! t).

Definition map_hd_drive (p : Z) (b : block) (m : mem) : outcome (block * mem) :=
  let hdid := GET_BDA 1 m hdcount in
  let '(row, n) := add_drive (id_row EXTTYPE_HD b) hdid p in
  let b := set_idmap EXTTYPE_HD row b in
  let m := SET_BDA 1 m hdcount n in
  d ← setup_translation (drives b p);
  mret (set_drive p d b, fill_fdpt d hdid m).

Definition map_cd_drive (p : Z) (b : block) : block :=
  let '(row, n) := add_drive (id_row EXTTYPE_CD b) (CDCount b) p in
  set_counts (FloppyCount b) n (set_idmap EXTTYPE_CD row b).

Definition map_floppy_drive (p : Z) (b : block) (m : mem) : block * mem :=
  let '(row, n) := add_drive (id_row EXTTYPE_FLOPPY b) (FloppyCount b) p in
  let b := set_counts n (CDCount b) (set_idmap EXTTYPE_FLOPPY row b) in
  if n =? 1 then (b, SET_BDA 1 (set_equipment_flags 0x41 0x01 m) floppy_harddisk_info 0x07)
  else if 2 <=? n then (b, SET_BDA 1 (set_equipment_flags 0x41 0x41 m) floppy_harddisk_info 0x77)
  else (b, m).

(** * Drive parameters (EDD) *)

Definition EDD_ISA : Z := 0x01.
Definition EDD_PCI : Z := 0x02.
Definition EDD_BUS_MASK : Z := 0x0f.
Definition EDD_ATA : Z := 0x10.
Definition EDD_SCSI : Z := 0x20.
Definition EDD_IFACE_MASK : Z := 0xf0.

(** The offsets of [struct int13dpt_s]. *)
Definition dpt_infos : Z := 2.
Definition dpt_cylinders : Z := 4.
Definition dpt_heads : Z := 8.
Definition dpt_spt : Z := 12.
Definition dpt_sector_count : Z := 16.
Definition dpt_blksize : Z := 24.
Definition dpt_dpte : Z := 26.
Definition dpt_key : Z := 30.
Definition dpt_dpi_length : Z := 32.
Definition dpt_reserved1 : Z := 33.
Definition dpt_reserved2 : Z := 34.
Definition dpt_host_bus : Z := 36.
Definition dpt_iface_type : Z := 40.
Definition dpt_iface_path : Z := 48.
Definition dpt_device_path : Z := 56.

(** ["ISA "], ["PCI "], ["ATA     "] and ["SCSI    "]. *)
Definition str_isa : list Z := [73; 83; 65; 32].
Definition str_pci : list Z := [80; 67; 73; 32].
Definition str_ata : list Z := [65; 84; 65; 32; 32; 32; 32; 32].
Definition str_scsi : list Z := [83; 67; 83; 73; 32; 32; 32; 32].

(** EDD 1.x: the first 26 bytes. *)
Definition fill_edd1 (seg off : Z) (d : drive_s) (m : mem) : mem :=
  let npc := chs_cylinder (pchs d) in
  let nph := chs_head (pchs d) in
  let nps := chs_sector (pchs d) in
  let m := SET_FARVAR 2 m seg off 26 in
  let m :=
    if sectors d =? 2 ^ 64 - 1 then
      let m := SET_FARVAR 2 m seg (off + dpt_infos) 0x74 in
      let m := SET_FARVAR 4 m seg (off + dpt_cylinders) 0xffffffff in
      let m := SET_FARVAR 4 m seg (off + dpt_heads) 0xffffffff in
      SET_FARVAR 4 m seg (off + dpt_spt) 0xffffffff
    else
      let m :=
        if nps * nph * 0x3fff <? sectors d then
          SET_FARVAR 4 (SET_FARVAR 2 m seg (off + dpt_infos) 0x00) seg (off + dpt_cylinders) 0x3fff
        else SET_FARVAR 4 (SET_FARVAR 2 m seg (off + dpt_infos) 0x02) seg (off + dpt_cylinders) npc in
      let m := SET_FARVAR 4 m seg (off + dpt_heads) nph in
      SET_FARVAR 4 m seg (off + dpt_spt) nps in
  let m := SET_FARVAR 8 m seg (off + dpt_sector_count) (sectors d) in
  SET_FARVAR 2 m seg (off + dpt_blksize) (blksize d).

(** EDD 3.x: the device path and its checksum. *)
Definition fill_edd3 (seg off : Z) (t13 : bool) (bus_iface iface_path device_path : Z) (m : mem) : mem :=
  let m := SET_FARVAR 2 m seg (off + dpt_key) 0xbedd in
  let m := SET_FARVAR 1 m seg (off + dpt_dpi_length) (if t13 then 44 else 36) in
  let m := SET_FARVAR 1 m seg (off + dpt_reserved1) 0 in
  let m := SET_FARVAR 2 m seg (off + dpt_reserved2) 0 in
  let pci := Z.land bus_iface EDD_BUS_MASK =? EDD_PCI in
  let iface_path := if pci && negb t13 then Z.land iface_path 0x00ffffff else iface_path in
  let m := put_far_bytes seg (off + dpt_host_bus) (if pci then str_pci else str_isa) m in
  let m := SET_FARVAR 8 m seg (off + dpt_iface_path) iface_path in
  let m := put_far_bytes seg (off + dpt_iface_type)
             (if Z.land bus_iface EDD_IFACE_MASK =? EDD_SCSI then str_scsi else str_ata) m in
  let m := SET_FARVAR 8 m seg (off + dpt_device_path) device_path in
  if t13 then
    let m := SET_FARVAR 8 m seg (off + dpt_device_path + 8) 0 in
    SET_FARVAR 1 m seg (off + dpt_device_path + 17) (- checksum_far m seg (off + 30) 43)
  else SET_FARVAR 1 m seg (off + dpt_device_path + 9) (- checksum_far m seg (off + 30) 35).

Definition fill_generic_edd (seg off : Z) (d : drive_s) (dpte_so bus_iface iface_path device_path : Z) (m : mem) : Z * mem :=
  let size := GET_FARVAR 2 m seg off in
  if size <? 26 then (DISK_RET_EPARAM, m)
  else
    let m := fill_edd1 seg off d m in
    if (size <? 30) || (dpte_so =? 0) then (DISK_RET_SUCCESS, m)
    else
      let m := SET_FARVAR 2 m seg off 30 in
      let m := SET_FARVAR 4 m seg (off + dpt_dpte) dpte_so in
      if (size <? 66) || (bus_iface =? 0) then (DISK_RET_SUCCESS, m)
      else (DISK_RET_SUCCESS, fill_edd3 seg off (size =? 74) bus_iface iface_path device_path m).

Definition edd_pci_path (bdf channel : Z) : Z :=
  Z.lor (Z.lor (Z.lor (Z.shiftr bdf 8) (Z.shiftl (Z.land (Z.shiftr bdf 3) 0x1f) 8)) (Z.shiftl (Z.land bdf 0x07) 16))
    (Z.shiftl channel 24).

(** * Drivers *)

(** The functions [process_op] dispatches to that operate a controller. *)
Inductive driver :=
| floppy | ata | ata_atapi | usb | uas | lsi_scsi | esp_scsi | megasas | mpt_scsi
| virtio_blk | ahci | ahci_atapi | sdcard | virtio_scsi | pvscsi | nvme.

#[export] Instance driver_eq_dec : EqDecision driver.
Proof. solve_decision. Defined.

Class BlockHost (dev : Type) := {
  (** A request: the status, the count it leaves, memory and the device. *)
  driver_op : driver -> drive_s -> disk_op_s -> mem -> dev -> Z * Z * mem * dev;
  (** [call32] works: the processor is not in protected mode. *)
  real_mode : bool;
  (** Interrupt 0x15, function 52h, for a drive number: the medium may go. *)
  int15_52 : Z -> mem -> bool * mem;
  SEG_LOW : Z;
  off_DefaultDPTE : Z;
  diskette_param_table2 : Z
}.

(** What a request works on. *)
Record st (dev : Type) := mkSt { s_mem : mem; s_dev : dev; s_block : block }.
Arguments mkSt {dev} _ _ _.
Arguments s_mem {dev} _.
Arguments s_dev {dev} _.
Arguments s_block {dev} _.

Definition set_mem {dev : Type} (m : mem) (s : st dev) : st dev := mkSt m (s_dev s) (s_block s).
Definition set_block {dev : Type} (b : block) (s : st dev) : st dev := mkSt (s_mem s) (s_dev s) b.

Definition with_count (n : Z) (op : disk_op_s) : disk_op_s := mkDop (buf_fl op) (drive_fl op) (command op) n (lba op).

Definition default_process_op (command : Z) : Z :=
  if (command =? CMD_FORMAT) || (command =? CMD_RESET) || (command =? CMD_ISREADY) || (command =? CMD_VERIFY)
     || (command =? CMD_SEEK)
  then DISK_RET_SUCCESS else DISK_RET_EPARAM.

(** [memcpy_fl] in 16-bit mode. *)
Definition memcpy_fl (m : mem) (d s len : Z) : mem :=
  memcpy_far m (u16 (Z.shiftr (u32 d) 4)) (Z.land (u32 d) 0xf) (u16 (Z.shiftr (u32 s) 4)) (Z.land (u32 s) 0xf) len.

Section host.
Context {dev : Type} {H : BlockHost dev}.

Definition fill_ata_edd (seg off p : Z) (s : st dev) : Z * mem :=
  let d := drives (s_block s) p in
  let a := atadrives (s_block s) p in
  let options :=
    if d_type d =? DTYPE_ATA then
      let t := translation d in
      if (t =? TRANSLATION_NONE) || (t =? TRANSLATION_HOST) then 0
      else
        Z.lor (Z.lor (Z.shiftl 1 3) (if t =? TRANSLATION_LBA then Z.shiftl 1 9 else 0))
          (if t =? TRANSLATION_RECHS then Z.shiftl 3 9 else 0)
    else Z.lor (Z.shiftl 1 5) (Z.shiftl 1 6) in
  let options := Z.lor options (Z.shiftl 1 4) in
  let o := off_DefaultDPTE in
  let m := SET_FARVAR 2 (s_mem s) SEG_LOW o (ata_iobase1 a) in
  let m := SET_FARVAR 2 m SEG_LOW (o + 2) (ata_iobase2 a + 2) in
  let m := SET_FARVAR 1 m SEG_LOW (o + 4) (Z.lor (if ata_slave a =? 0 then 0xa0 else 0xb0) 0x40) in
  let m := SET_FARVAR 1 m SEG_LOW (o + 5) 0xcb in
  let m := SET_FARVAR 1 m SEG_LOW (o + 6) (ata_irq a) in
  let m := SET_FARVAR 1 m SEG_LOW (o + 7) 1 in
  let m := SET_FARVAR 1 m SEG_LOW (o + 8) 0 in
  let m := SET_FARVAR 1 m SEG_LOW (o + 9) 0 in
  let m := SET_FARVAR 2 m SEG_LOW (o + 10) options in
  let m := SET_FARVAR 2 m SEG_LOW (o + 12) 0 in
  let m := SET_FARVAR 1 m SEG_LOW (o + 14) 0x11 in
  let m := SET_FARVAR 1 m SEG_LOW (o + 15) (- checksum_far m SEG_LOW o 15) in
  let '(bustype, ifpath) :=
    if 0 <=? ata_pci_bdf a then (EDD_PCI, edd_pci_path (u16 (ata_pci_bdf a)) (ata_chanid a))
    else (EDD_ISA, ata_iobase1 a) in
  fill_generic_edd seg off d (SEGOFF SEG_LOW o) (Z.lor bustype EDD_ATA) ifpath (ata_slave a) m.

Definition fill_edd (seg off p : Z) (s : st dev) : Z * mem :=
  let d := drives (s_block s) p in
  if (d_type d =? DTYPE_ATA) || (d_type d =? DTYPE_ATA_ATAPI) then fill_ata_edd seg off p s
  else if (d_type d =? DTYPE_VIRTIO_BLK) || (d_type d =? DTYPE_VIRTIO_SCSI) then
    fill_generic_edd seg off d 0xffffffff (Z.lor EDD_PCI EDD_SCSI) (edd_pci_path (u16 (cntl_id d)) 0) 0 (s_mem s)
  else fill_generic_edd seg off d 0 0 0 0 (s_mem s).

(** A request as [process_op] and its helpers answer it: the status and the
    count of the request. *)
Definition answer : Type := Z * Z * st dev.

Definition run (dr : driver) (op : disk_op_s) (s : st dev) : answer :=
  let '(ret, n, m, v) := driver_op dr (drives (s_block s) (drive_fl op)) op (s_mem s) (s_dev s) in
  (ret, n, mkSt m v (s_block s)).

(** Interrupt 0x15, function 87h: the carry it returns with, which the handler
    clears, and memory. *)
Definition int15_87 (m : mem) (dst src count : Z) : bool * mem := (false, handle_1587 m dst src count).

(** The memory disk moves its sectors with it. *)
Definition ramdisk_copy (op : disk_op_s) (iswrite : bool) (s : st dev) : answer :=
  let offset := u32 (cntl_id (drives (s_block s) (drive_fl op)) + u32 (lba op) * DISK_SECTOR_SIZE) in
  let cx := u16 (count op * DISK_SECTOR_SIZE / 2) in
  let '(cf, m) :=
    if iswrite then int15_87 (s_mem s) offset (u32 (buf_fl op)) cx
    else int15_87 (s_mem s) (u32 (buf_fl op)) offset cx in
  (if cf then DISK_RET_EBADTRACK else DISK_RET_SUCCESS, count op, set_mem m s).

Definition ramdisk_process_op (op : disk_op_s) (s : st dev) : answer :=
  if command op =? CMD_READ then ramdisk_copy op false s
  else if command op =? CMD_WRITE then ramdisk_copy op true s
  else (default_process_op (command op), count op, s).

(** [cdemu_read]: at most three requests to the CD, the first and the last
    through the bounce buffer.  [process] is [process_op]; a part returns the
    status and either goes on with the sectors still to read, the buffer, the
    sectors read and the block of the CD, or stops. *)
Section cdemu.
Variable process : disk_op_s -> st dev -> outcome answer.

Definition cd_progress : Type := Z * Z * Z * Z.

Definition cdemu_first (op : disk_op_s) (s : st dev) : outcome (Z * cd_progress * st dev) :=
  let b := s_block s in
  let at_block := u64 (el_ilba (CDEmu b) + lba op / 4) in
  let part := Z.land (lba op) 3 in
  if part =? 0 then mret (0, (count op, buf_fl op, 0, at_block), s)
  else
    '(ret, _, s) ← process (mkDop (bounce_buf_fl b) (emulated_drive_gf b) (command op) 1 at_block) s;
    if negb (ret =? 0) then mret (ret, (count op, buf_fl op, 0, at_block), s)
    else
      let thiscount := Z.min (4 - part) (count op) in
      let m := memcpy_fl (s_mem s) (buf_fl op) (bounce_buf_fl b + part * 512) (thiscount * 512) in
      mret (0, (count op - thiscount, u32 (buf_fl op + thiscount * 512), thiscount, u64 (at_block + 1)), set_mem m s).

Definition cdemu_middle (op : disk_op_s) (g : cd_progress) (s : st dev) : outcome (Z * cd_progress * st dev) :=
  let b := s_block s in
  let '(n, buf, done, at_block) := g in
  if n <=? 3 then mret (0, g, s)
  else
    '(ret, cnt, s) ← process (mkDop buf (emulated_drive_gf b) (command op) (n / 4) at_block) s;
    let done := u16 (done + cnt * 4) in
    if negb (ret =? 0) then mret (ret, (n, buf, done, at_block), s)
    else
      let thiscount := u8 (Z.land n (Z.lnot 3)) in
      mret (0, (Z.land n 3, u32 (buf + thiscount * 512), done, u64 (at_block + thiscount / 4)), s).

Definition cdemu_last (op : disk_op_s) (g : cd_progress) (s : st dev) : outcome answer :=
  let b := s_block s in
  let '(n, buf, done, at_block) := g in
  if n =? 0 then mret (DISK_RET_SUCCESS, done, s)
  else
    '(ret, _, s) ← process (mkDop (bounce_buf_fl b) (emulated_drive_gf b) (command op) 1 at_block) s;
    if negb (ret =? 0) then mret (ret, done, s)
    else
      let m := memcpy_fl (s_mem s) buf (bounce_buf_fl b) (u8 n * 512) in
      mret (DISK_RET_SUCCESS, u16 (done + u8 n), set_mem m s).

Definition cdemu_read (op : disk_op_s) (s : st dev) : outcome answer :=
  '(ret, g, s) ← cdemu_first op s;
  if negb (ret =? 0) then mret (ret, g.1.2, s)
  else
    '(ret, g, s) ← cdemu_middle op g s;
    if negb (ret =? 0) then mret (ret, g.1.2, s) else cdemu_last op g s.

Definition cdemu_process_op (op : disk_op_s) (s : st dev) : outcome answer :=
  if command op =? CMD_READ then cdemu_read op s
  else if (command op =? CMD_WRITE) || (command op =? CMD_FORMAT) then mret (DISK_RET_EWRITEPROTECT, count op, s)
  else mret (default_process_op (command op), count op, s).
End cdemu.

(** * Dispatch *)

(** The drivers of both modes; [otherwise] is the rest of the function. *)
Definition process_op_both (otherwise : st dev -> answer) (op : disk_op_s) (s : st dev) : answer :=
  let t := d_type (drives (s_block s) (drive_fl op)) in
  if t =? DTYPE_ATA_ATAPI then run ata_atapi op s
  else if t =? DTYPE_USB then run usb op s
  else if t =? DTYPE_UAS then run uas op s
  else if t =? DTYPE_LSI_SCSI then run lsi_scsi op s
  else if t =? DTYPE_ESP_SCSI then run esp_scsi op s
  else if t =? DTYPE_MEGASAS then run megasas op s
  else if t =? DTYPE_MPT_SCSI then run mpt_scsi op s
  else otherwise s.

Definition process_op_32 (op : disk_op_s) (s : st dev) : answer :=
  let t := d_type (drives (s_block s) (drive_fl op)) in
  if t =? DTYPE_VIRTIO_BLK then run virtio_blk op s
  else if t =? DTYPE_AHCI then run ahci op s
  else if t =? DTYPE_AHCI_ATAPI then run ahci_atapi op s
  else if t =? DTYPE_SDCARD then run sdcard op s
  else if t =? DTYPE_USB_32 then run usb op s
  else if t =? DTYPE_UAS_32 then run uas op s
  else if t =? DTYPE_VIRTIO_SCSI then run virtio_scsi op s
  else if t =? DTYPE_PVSCSI then run pvscsi op s
  else if t =? DTYPE_NVME then run nvme op s
  else process_op_both (fun s => (DISK_RET_EPARAM, count op, s)) op s.

Definition process_op_16 (process : disk_op_s -> st dev -> outcome answer) (op : disk_op_s) (s : st dev) : outcome answer :=
  let t := d_type (drives (s_block s) (drive_fl op)) in
  if t =? DTYPE_FLOPPY then mret (run floppy op s)
  else if t =? DTYPE_ATA then mret (run ata op s)
  else if t =? DTYPE_RAMDISK then mret (ramdisk_process_op op s)
  else if t =? DTYPE_CDEMU then cdemu_process_op process op s
  else
    mret (process_op_both
      (fun s => if real_mode then process_op_32 op s else (DISK_RET_EPARAM, count op, s)) op s).

(** [process_op] in 16-bit mode ([seg]) or 32-bit mode.  Only the image of a
    CD calls it again, for the CD; [fuel] bounds the depth, beyond which the
    stack overflows. *)
Fixpoint process_op (fuel : nat) (seg : bool) (op : disk_op_s) (s : st dev) : outcome answer :=
  match fuel with
  | O => Undefined
  | S f =>
    if 64 * 1024 <? count op * blksize (drives (s_block s) (drive_fl op)) then mret (DISK_RET_EBOUNDARY, 0, s)
    else
      '(ret, n, s) ← (if seg then process_op_16 (process_op f true) op s else mret (process_op_32 op s));
      mret (ret, if negb (ret =? 0) && (n =? count op) then 0 else n, s)
  end.

End host.

(** * Geometry: the logical geometry lies on the disk *)

(** A description as a driver leaves it: fields of their widths, and a physical
    geometry with the numbers of heads and sectors a drive can have. *)
Record drive_ok (d : drive_s) : Prop := {
  ok_cylinders : fits 16 (chs_cylinder (pchs d));
  ok_heads : 0 <= chs_head (pchs d) <= 255;
  ok_spt : 0 <= chs_sector (pchs d) <= 63;
  ok_sectors : fits 64 (sectors d)
}.

Definition capacity (c : chs_s) : Z := chs_cylinder c * chs_head c * chs_sector c.

(** What the registers of interrupt 0x13 can name. *)
Definition addressable (c : chs_s) : Prop :=
  0 <= chs_cylinder c <= 1024 /\ 1 <= chs_head c <= 255 /\ 1 <= chs_sector c <= 63.

Lemma large_loop_spec fuel c h : 0 <= c -> 1 <= h <= 255 -> c * h <= 131072 ->
  0 <= (large_loop fuel c h).1 /\ 1 <= (large_loop fuel c h).2 <= 255 /\
  (large_loop fuel c h).1 * (large_loop fuel c h).2 <= c * h.
Proof.
  revert c h; induction fuel as [|f IH]; intros c h Hc Hh Hp; cbn [large_loop]; [cbn; lia|].
  destruct (Z.leb_spec c 1024); [cbn; lia|].
  rewrite Z.shiftr_div_pow2, Z.shiftl_mul_pow2 by lia. change (2 ^ 1) with 2.
  assert (h <= 127) by nia. rewrite wrap_small by (unfold fits; lia).
  assert (c / 2 * 2 <= c) by (pose proof (Z.mul_div_le c 2); lia).
  assert (0 <= c / 2) by (apply Z.div_pos; lia).
  destruct (Z.ltb_spec 127 (h * 2)); [cbn; nia|].
  destruct (IH (c / 2) (h * 2)) as (? & ? & ?); [lia|lia|nia|]. nia.
Qed.

(** The loop ends because no cylinders are left to halve, not for want of fuel. *)
Lemma large_loop_fuel fuel c h : 0 <= c < 2 ^ (10 + Z.of_nat fuel) ->
  large_loop (S fuel) c h = large_loop fuel c h.
Proof.
  revert c h; induction fuel as [|f IH]; intros c h Hc.
  - cbn [large_loop]. destruct (Z.leb_spec c 1024); [done|]. cbn in Hc. lia.
  - cbn [large_loop] in *. destruct (Z.leb_spec c 1024); [done|].
    destruct (127 <? _); [done|]. apply IH. rewrite Z.shiftr_div_pow2 by lia.
    split; [apply Z.div_pos; lia|]. apply Z.div_lt_upper_bound; [lia|]. rewrite <- Z.pow_add_r by lia.
    eapply Z.lt_le_trans; [apply Hc|]. apply Z.pow_le_mono_r; lia.
Qed.

Lemma lba_heads_spec sect : 0 <= sect <= 255 * 1024 ->
  16 <= lba_heads sect <= 255 /\ sect < (lba_heads sect + 1) * 1024.
Proof.
  intros Hs. unfold lba_heads.
  assert (0 <= sect / 1024 <= 255) by (split; [apply Z.div_pos; lia|apply Z.div_le_upper_bound; lia]).
  rewrite wrap_small by (unfold fits; lia). pose proof (Z.div_mod sect 1024). pose proof (Z.mod_pos_bound sect 1024).
  repeat (ztest; [lia|]). lia.
Qed.

(** The geometry a translation gives is addressable and lies on the disk; the
    LBA translation leaves little of a disk out. *)
Definition sound (d : drive_s) (t : Z) (g : chs_s) : Prop :=
  addressable g /\ capacity g <= sectors d /\
  (t = TRANSLATION_LBA -> sectors d <= 63 * 255 * 1024 -> sectors d - capacity g < 63 * 1025).

Definition translated (t : Z) (d : drive_s) : chs_s :=
  let '(c, h, n) := translate t d in mkChs h (Z.min c 1024) n.

Lemma lba_sound d : fits 64 (sectors d) -> sound d TRANSLATION_LBA (translated TRANSLATION_LBA d).
Proof.
  intros [Hs _]. unfold sound, translated, translate, addressable, capacity. rewrite Z.eqb_refl.
  destruct (Z.ltb_spec (63 * 255 * 1024) (sectors d)) as [Hbig|Hsmall]; cbn [chs_cylinder chs_head chs_sector]; [lia|].
  rewrite (wrap_small 32) by (unfold fits; lia). set (sect := sectors d / 63).
  assert (0 <= sect <= 255 * 1024) as Hsect.
  { split; [apply Z.div_pos; lia|apply Z.div_le_upper_bound; lia]. }
  destruct (lba_heads_spec sect Hsect) as [Hh Hlt]. set (h := lba_heads sect) in *.
  assert (0 <= sect / h <= 16320) by (split; [apply Z.div_pos; lia|apply Z.div_le_upper_bound; nia]).
  rewrite wrap_small by (unfold fits; lia). cbn [chs_cylinder chs_head chs_sector].
  pose proof (Z.div_mod (sectors d) 63). pose proof (Z.mod_pos_bound (sectors d) 63).
  pose proof (Z.div_mod sect h). pose proof (Z.mod_pos_bound sect h).
  destruct (Z.min_spec (sect / h) 1024) as [[? ->]|[? ->]]; repeat split; nia.
Qed.

Lemma none_sound d : drive_ok d -> 1 <= chs_head (pchs d) -> 1 <= chs_sector (pchs d) ->
  chs_cylinder (pchs d) <= 1024 -> capacity (pchs d) <= sectors d -> sound d TRANSLATION_NONE (translated TRANSLATION_NONE d).
Proof.
  intros [[Hc _] Hh Hn _] ? ? ? ?. unfold sound, translated, translate, addressable. cbn. unfold capacity in *. cbn.
  rewrite Z.min_l by done. repeat split; (lia || discriminate).
Qed.

Lemma large_sound d : drive_ok d -> 1 <= chs_head (pchs d) -> 1 <= chs_sector (pchs d) ->
  chs_cylinder (pchs d) * chs_head (pchs d) <= 131072 -> capacity (pchs d) <= sectors d ->
  sound d TRANSLATION_LARGE (translated TRANSLATION_LARGE d).
Proof.
  intros [[Hc _] Hh Hn _] ? ? ? Hcap. unfold sound, translated, translate, addressable.
  cbn [Z.eqb Pos.eqb TRANSLATION_LARGE TRANSLATION_LBA TRANSLATION_RECHS orb andb].
  pose proof (large_loop_spec 16 (chs_cylinder (pchs d)) (chs_head (pchs d))) as (? & ? & ?); [lia..|].
  destruct (large_loop 16 _ _) as [c h]. cbn [fst snd] in *. unfold capacity in *. cbn [chs_cylinder chs_head chs_sector].
  destruct (Z.min_spec c 1024) as [[? ->]|[? ->]]; repeat split; (lia || discriminate || nia).
Qed.

Lemma get_translation_sound d : drive_ok d -> host_lchs_supplied d = false ->
  exists t, get_translation d = Done t /\ sound d t (translated t d).
Proof.
  intros Hd Hhost. pose proof Hd as [[Hc ?] Hh Hn [Hs ?]]. unfold get_translation. rewrite Hhost.
  set (c := chs_cylinder (pchs d)) in *. set (h := chs_head (pchs d)) in *. set (n := chs_sector (pchs d)) in *.
  assert (sound d TRANSLATION_LBA (translated TRANSLATION_LBA d)) as Hlba by (apply lba_sound, Hd).
  assert (0 <= h * c <= 255 * 65535) by (change (2 ^ 16) with 65536 in *; nia).
  rewrite wrap_small by (unfold fits; rewrite pow2_64; nia).
  destruct (Z.eqb_spec h 0); [by exists TRANSLATION_LBA|].
  destruct (Z.eqb_spec c 0); [by exists TRANSLATION_LBA|].
  destruct (Z.eqb_spec n 0); [by exists TRANSLATION_LBA|].
  destruct (Z.ltb_spec (sectors d) (h * c * n)); [by exists TRANSLATION_LBA|]. cbn [orb].
  assert (capacity (pchs d) <= sectors d) by (unfold capacity; fold c h n; lia).
  destruct (Z.leb_spec c 1024); cbn [andb].
  - destruct (Z.leb_spec h 16); cbn [andb].
    + destruct (Z.leb_spec n 63); [|lia]. exists TRANSLATION_NONE. split; [done|]. apply none_sound; [done|lia..].
    + unfold signed. rewrite decide_True by (unfold sfits; cbn; lia). run_outcome.
      destruct (Z.leb_spec (c * h) 131072); [|by exists TRANSLATION_LBA].
      exists TRANSLATION_LARGE. split; [done|]. apply large_sound; [done|lia..].
  - unfold signed. rewrite decide_True by (unfold sfits; cbn; lia). run_outcome.
    destruct (Z.leb_spec (c * h) 131072); [|by exists TRANSLATION_LBA].
    exists TRANSLATION_LARGE. split; [done|]. apply large_sound; [done|lia..].
Qed.

(** Whatever physical geometry a drive reports, [setup_translation]
    succeeds without overflow and leaves a logical geometry that the registers
    of interrupt 0x13 can express and that lies on the disk: no cylinder, head
    and sector within it is past the last sector.  With the LBA translation
    of a disk of at most 8 GB, fewer than 64575 sectors cannot be reached. *)
Lemma translation_sound (d : drive_s) : drive_ok d -> host_lchs_supplied d = false ->
  exists d', setup_translation d = Done d' /\ addressable (lchs d') /\ capacity (lchs d') <= sectors d /\
    (translation d' = TRANSLATION_LBA -> sectors d <= 63 * 255 * 1024 -> sectors d - capacity (lchs d') < 63 * 1025).
Proof.
  intros Hd Hhost. destruct (get_translation_sound d Hd Hhost) as (t & Ht & Hs).
  unfold setup_translation. rewrite Ht. run_outcome. unfold translated in Hs. destruct (translate t d) as [[c h] n].
  eexists. by split.
Qed.

(** A disk of 500107862016 bytes and one of 120 MB. *)
Lemma translation_sound_witness :
  (exists d', setup_translation (mkDrive DTYPE_AHCI 0 (mkChs 0 0 0) 976773168 0 0 512 (mkChs 16 16383 63)) = Done d' /\
     capacity (lchs d') = 16450560) /\
  exists d', setup_translation (mkDrive DTYPE_ATA 0 (mkChs 0 0 0) 245760 0 0 512 (mkChs 16 1024 15)) = Done d' /\
     capacity (lchs d') = 245760.
Proof.
  split.
  - destruct (translation_sound (mkDrive DTYPE_AHCI 0 (mkChs 0 0 0) 976773168 0 0 512 (mkChs 16 16383 63))) as (d' & Hd & _).
    + split; cbn; unfold fits; lia.
    + reflexivity.
    + exists d'. split; [done|]. vm_compute in Hd. injection Hd as <-. reflexivity.
  - destruct (translation_sound (mkDrive DTYPE_ATA 0 (mkChs 0 0 0) 245760 0 0 512 (mkChs 16 1024 15))) as (d' & Hd & _).
    + split; cbn; unfold fits; lia.
    + reflexivity.
    + exists d'. split; [done|]. vm_compute in Hd. injection Hd as <-. reflexivity.
Defined.
