(* ===== verification/SeaDisk.v ===== *)
(** The disk services of SeaBIOS (interrupts 0x13 and 0x40,
    [seabios/src/disk.c]).

    A handler has the registers of the caller and the state [st] of the block
    layer; what it cannot do without undefined behaviour is [Undefined].  The
    fields of a request the source leaves unset are 0. *)

From stdpp Require Import base numbers list.
From Stdlib Require Import ZArith Lia.
From S2P Require Import Prelude Memory SeaString CcInt VgaState VgaFb VgaVbe VgaBios SeaBlock.

Definition EXTSTART_HD : Z := 0x80.
Definition EXTSTART_CD : Z := 0xE0.

Definition floppy_last_status : Z := 0x41.
Definition disk_last_status : Z := 0x74.
Definition disk_interrupt_flag : Z := 0x8e.

(** The registers of a call: those of [bregs], [si], [ds] and the carry. *)
Record disk_regs := mkDregs { dr :> bregs; r_si : Z; r_ds : Z; r_cf : bool }.

Definition dr_with (f : bregs -> bregs) (r : disk_regs) : disk_regs := mkDregs (f r) (r_si r) (r_ds r) (r_cf r).
Definition set_cf (c : bool) (r : disk_regs) : disk_regs := mkDregs r (r_si r) (r_ds r) c.
Definition with_es_di (s o : Z) (r : bregs) : bregs := mkRegs (ax r) (bx r) (cx r) (dx r) (u16 o) (bp r) (u16 s).
Definition with_ch (v : Z) (r : bregs) : bregs := with_cx (put_hi8 (cx r) v) r.
Definition with_cl (v : Z) (r : bregs) : bregs := with_cx (put_lo8 (cx r) v) r.

Definition MAKE_FLATPTR (seg off : Z) : Z := u32 (u32 (Z.shiftl seg 4) + u32 off).

(** The 19 bytes of [struct eltorito_s]. *)
Definition eltorito_bytes (e : eltorito_s) : list Z :=
  [el_size e; el_media e; el_emulated_drive e; el_controller_index e] ++ le_bytes 4 (el_ilba e)
  ++ le_bytes 2 (el_device_spec e) ++ le_bytes 2 (el_buffer_segment e) ++ le_bytes 2 (el_load_segment e)
  ++ le_bytes 2 (el_sector_count e)
  ++ [pc_heads (el_chs e); pc_sptcyl (el_chs e); pc_cyllow (el_chs e)].

Definition set_media (v : Z) (e : eltorito_s) : eltorito_s :=
  mkEltorito (el_size e) v (el_emulated_drive e) (el_controller_index e) (el_ilba e) (el_device_spec e)
    (el_buffer_segment e) (el_load_segment e) (el_sector_count e) (el_chs e).

Definition getLCHS (p : Z) (b : block) : chs_s :=
  if p =? cdemu_drive_gf b then
    let c := el_chs (CDEmu b) in
    let sptcyl := pc_sptcyl c in
    mkChs (u16 (pc_heads c + 1)) (u16 (pc_cyllow c + Z.land (Z.shiftl sptcyl 2) 0x300 + 1)) (Z.land sptcyl 0x3f)
  else lchs (drives b p).

Section host.
Context {dev : Type} {H : BlockHost dev}.

Definition result : Type := outcome (disk_regs * st dev).

(** * Return status *)

Definition set_status (r : disk_regs) (code : Z) (s : st dev) : st dev :=
  set_mem (SET_BDA 1 (s_mem s) (if lo8 (dx r) <? EXTSTART_HD then floppy_last_status else disk_last_status) code) s.

Definition disk_ret (r : disk_regs) (code : Z) (s : st dev) : result :=
  let code := u8 code in
  mret (set_cf (negb (code =? 0)) (dr_with (with_ah code) r), set_status r code s).

Definition disk_ret_unimplemented (r : disk_regs) (code : Z) (s : st dev) : result :=
  let code := u8 code in
  mret (set_cf true (dr_with (with_ah code) r), set_status r code s).

Definition disk_stub (r : disk_regs) (s : st dev) : result := disk_ret r DISK_RET_SUCCESS s.

(** What a handler does after it set the status. *)
Definition and_then (x : result) (f : disk_regs -> disk_regs) : result :=
  '(r, s) ← x; mret (f r, s).

(** * Accesses *)

(** A request goes at most to the image of a CD and from there to the CD. *)
Definition send_disk_op (op : disk_op_s) (s : st dev) : outcome answer := process_op 2 true op s.

Definition basic_access (command : Z) (r : disk_regs) (p : Z) (s : st dev) : result :=
  let count := lo8 (ax r) in
  let cylinder := Z.lor (hi8 (cx r)) (Z.land (Z.shiftl (lo8 (cx r)) 2) 0x300) in
  let sector := Z.land (lo8 (cx r)) 0x3f in
  let head := hi8 (dx r) in
  if (128 <? count) || (count =? 0) || (sector =? 0) then disk_ret r DISK_RET_EPARAM s
  else
    let chs := getLCHS p (s_block s) in
    let nlc := chs_cylinder chs in
    let nlh := chs_head chs in
    let nls := chs_sector chs in
    if (nlc <=? cylinder) || (nlh <=? head) || (nls <? sector) then disk_ret r DISK_RET_EPARAM s
    else
      let lba := u32 ((cylinder * nlh + head) * nls + sector - 1) in
      '(status, n, s) ← send_disk_op (mkDop (MAKE_FLATPTR (es r) (bx r)) p command count lba) s;
      disk_ret (dr_with (with_al n) r) status s.

(** The offsets of [struct int13ext_s]. *)
Definition ext_count : Z := 2.
Definition ext_data : Z := 4.
Definition ext_lba : Z := 8.

Definition extended_access (command : Z) (r : disk_regs) (p : Z) (s : st dev) : result :=
  let lba := GET_FARVAR 8 (s_mem s) (r_ds r) (r_si r + ext_lba) in
  if sectors (drives (s_block s) p) <=? lba then disk_ret r DISK_RET_EPARAM s
  else
    let data := GET_FARVAR 4 (s_mem s) (r_ds r) (r_si r + ext_data) in
    let count := GET_FARVAR 2 (s_mem s) (r_ds r) (r_si r + ext_count) in
    if count =? 0 then disk_ret r DISK_RET_SUCCESS s
    else
      '(status, n, s) ← send_disk_op (mkDop (MAKE_FLATPTR (so_seg data) (so_offset data)) p command count lba) s;
      disk_ret r status (set_mem (SET_FARVAR 2 (s_mem s) (r_ds r) (r_si r + ext_count) n) s).

(** * Functions 00h to 16h *)

Definition disk_1300 (r : disk_regs) (p : Z) (s : st dev) : result :=
  '(status, _, s) ← send_disk_op (mkDop 0 p CMD_RESET 0 0) s;
  disk_ret r status s.

Definition disk_1301 (r : disk_regs) (p : Z) (s : st dev) : result :=
  let v := GET_BDA 1 (s_mem s) (if lo8 (dx r) <? EXTSTART_HD then floppy_last_status else disk_last_status) in
  mret (set_cf (negb (v =? 0)) (dr_with (with_ah v) r), s).

Definition disk_1302 : disk_regs -> Z -> st dev -> result := basic_access CMD_READ.
Definition disk_1303 : disk_regs -> Z -> st dev -> result := basic_access CMD_WRITE.
Definition disk_1304 : disk_regs -> Z -> st dev -> result := basic_access CMD_VERIFY.

Definition disk_1305 (r : disk_regs) (p : Z) (s : st dev) : result :=
  let chs := getLCHS p (s_block s) in
  let nlc := chs_cylinder chs in
  let nlh := chs_head chs in
  let nls := chs_sector chs in
  let count := lo8 (ax r) in
  let cylinder := hi8 (cx r) in
  let head := hi8 (dx r) in
  if (nlc <=? cylinder) || (nlh <=? head) || (count =? 0) || (nls <? count) then disk_ret r DISK_RET_EPARAM s
  else
    '(status, _, s) ← send_disk_op
      (mkDop (MAKE_FLATPTR (es r) (bx r)) p CMD_FORMAT count (u32 ((cylinder * nlh + head) * nls))) s;
    disk_ret r status s.

Definition disk_1308 (r : disk_regs) (p : Z) (s : st dev) : result :=
  let b := s_block s in
  let chs := getLCHS p b in
  let nlc := u16 (chs_cylinder chs - 1) in
  let nlh := u16 (chs_head chs - 1) in
  let nls := chs_sector chs in
  let dl := lo8 (dx r) in
  if EXTSTART_CD <=? dl then disk_ret r DISK_RET_EPARAM s
  else
    let '(count, nlc, r) :=
      if dl <? EXTSTART_HD then
        let bx := if p =? cdemu_drive_gf b then el_media (CDEmu b) * 2 else floppy_type (drives b p) in
        (FloppyCount b, nlc, dr_with (with_es_di SEG_BIOS diskette_param_table2) (dr_with (with_bx bx) r))
      else (GET_BDA 1 (s_mem s) hdcount, u16 (nlc - 1), r) in
    let count :=
      if el_media (CDEmu b) =? 0 then count
      else
        let count := if Z.land (Z.lxor (el_emulated_drive (CDEmu b)) dl) 0x80 =? 0 then u8 (count + 1) else count in
        if (dl <? EXTSTART_HD) && (2 <? count) then 2 else count in
    let r := dr_with (with_al 0) r in
    let r := dr_with (with_ch (Z.land nlc 0xff)) r in
    let r := dr_with (with_cl (Z.lor (Z.land (Z.shiftr nlc 2) 0xc0) (Z.land nls 0x3f))) r in
    let r := dr_with (with_dh nlh) r in
    and_then (disk_ret r DISK_RET_SUCCESS s) (dr_with (with_dl count)).

Definition disk_1309 (r : disk_regs) (p : Z) (s : st dev) : result := disk_stub r s.
Definition disk_130c (r : disk_regs) (p : Z) (s : st dev) : result := disk_stub r s.
Definition disk_130d (r : disk_regs) (p : Z) (s : st dev) : result := disk_stub r s.

Definition disk_1310 (r : disk_regs) (p : Z) (s : st dev) : result :=
  '(status, _, s) ← send_disk_op (mkDop 0 p CMD_ISREADY 0 0) s;
  disk_ret r status s.

Definition disk_1311 (r : disk_regs) (p : Z) (s : st dev) : result := disk_stub r s.
Definition disk_1314 (r : disk_regs) (p : Z) (s : st dev) : result := disk_stub r s.

Definition disk_1315 (r : disk_regs) (p : Z) (s : st dev) : result :=
  and_then (disk_ret r DISK_RET_SUCCESS s) (fun r =>
    if (lo8 (dx r) <? EXTSTART_HD) || (EXTSTART_CD <=? lo8 (dx r)) then dr_with (with_ah 1) r
    else
      let chs := getLCHS p (s_block s) in
      let lba := u32 (u32 (chs_cylinder chs - 1) * chs_head chs * chs_sector chs) in
      let r := dr_with (with_cx (Z.shiftr lba 16)) r in
      let r := dr_with (with_dx (Z.land lba 0xffff)) r in
      dr_with (with_ah 3) r).

Definition disk_1316 (r : disk_regs) (p : Z) (s : st dev) : result :=
  if EXTSTART_HD <=? lo8 (dx r) then disk_ret r DISK_RET_EPARAM s else disk_ret r DISK_RET_ECHANGED s.

(** * Functions 41h to 4eh *)

Definition disk_1341 (r : disk_regs) (p : Z) (s : st dev) : result :=
  let r := dr_with (with_bx 0xaa55) r in
  let r := dr_with (with_cx 0x0007) r in
  and_then (disk_ret r DISK_RET_SUCCESS s) (dr_with (with_ah 0x30)).

Definition disk_1342 : disk_regs -> Z -> st dev -> result := extended_access CMD_READ.
Definition disk_1343 : disk_regs -> Z -> st dev -> result := extended_access CMD_WRITE.
Definition disk_1344 : disk_regs -> Z -> st dev -> result := extended_access CMD_VERIFY.

(** The lock count of the CD the call is for; the array has 16. *)
Definition get_locks (r : disk_regs) (s : st dev) : outcome Z :=
  match CDRom_locks (s_block s) !! Z.to_nat (lo8 (dx r) - EXTSTART_CD) with
  | Some locks => mret locks
  | None => Undefined
  end.
Definition put_locks (r : disk_regs) (v : Z) (s : st dev) : st dev :=
  set_block (set_locks (<[Z.to_nat (lo8 (dx r) - EXTSTART_CD) := u8 v]> (CDRom_locks (s_block s))) (s_block s)) s.

Definition disk_134500 (r : disk_regs) (p : Z) (s : st dev) : result :=
  locks ← get_locks r s;
  let r := dr_with (with_al 1) r in
  if locks =? 0xff then disk_ret r DISK_RET_ETOOMANYLOCKS s
  else disk_ret r DISK_RET_SUCCESS (put_locks r (locks + 1) s).

Definition disk_134501 (r : disk_regs) (p : Z) (s : st dev) : result :=
  locks ← get_locks r s;
  if locks =? 0 then disk_ret (dr_with (with_al 0) r) DISK_RET_ENOTLOCKED s
  else
    let locks := locks - 1 in
    let s := put_locks r locks s in
    disk_ret (dr_with (with_al (if locks =? 0 then 0 else 1)) r) DISK_RET_SUCCESS s.

Definition disk_134502 (r : disk_regs) (p : Z) (s : st dev) : result :=
  locks ← get_locks r s;
  disk_ret (dr_with (with_al (if locks =? 0 then 0 else 1)) r) DISK_RET_SUCCESS s.

Definition disk_1345XX (r : disk_regs) (p : Z) (s : st dev) : result := disk_ret_unimplemented r DISK_RET_EPARAM s.

Definition disk_1345 (r : disk_regs) (p : Z) (s : st dev) : result :=
  if lo8 (dx r) <? EXTSTART_CD then disk_ret r DISK_RET_SUCCESS s
  else if lo8 (ax r) =? 0x00 then disk_134500 r p s
  else if lo8 (ax r) =? 0x01 then disk_134501 r p s
  else if lo8 (ax r) =? 0x02 then disk_134502 r p s
  else disk_1345XX r p s.

Definition disk_1346 (r : disk_regs) (p : Z) (s : st dev) : result :=
  if lo8 (dx r) <? EXTSTART_CD then disk_ret r DISK_RET_ENOTREMOVABLE s
  else
    locks ← get_locks r s;
    if negb (locks =? 0) then disk_ret r DISK_RET_ELOCKED s
    else
      let '(ok, m) := int15_52 (lo8 (dx r)) (s_mem s) in
      disk_ret r (if ok : bool then DISK_RET_SUCCESS else DISK_RET_ELOCKED) (set_mem m s).

Definition disk_1347 : disk_regs -> Z -> st dev -> result := extended_access CMD_SEEK.

Definition disk_1348 (r : disk_regs) (p : Z) (s : st dev) : result :=
  let '(ret, m) := fill_edd (r_ds r) (r_si r) p s in
  disk_ret r ret (set_mem m s).

Definition disk_1349 (r : disk_regs) (p : Z) (s : st dev) : result :=
  if lo8 (dx r) <? EXTSTART_CD then disk_ret r DISK_RET_SUCCESS s
  else mret (dr_with (with_ah DISK_RET_ECHANGED) (set_cf true r), s).

Definition disk_134e (r : disk_regs) (p : Z) (s : st dev) : result :=
  let al := lo8 (ax r) in
  if (al =? 0x01) || (al =? 0x03) || (al =? 0x04) || (al =? 0x06) then disk_ret r DISK_RET_SUCCESS s
  else disk_ret r DISK_RET_EPARAM s.

Definition disk_13XX (r : disk_regs) (s : st dev) : result := disk_ret_unimplemented r DISK_RET_EPARAM s.

(** * Dispatch *)

Definition handlers : list (Z * (disk_regs -> Z -> st dev -> result)) :=
  [(0x00, disk_1300); (0x01, disk_1301); (0x02, disk_1302); (0x03, disk_1303); (0x04, disk_1304);
   (0x05, disk_1305); (0x08, disk_1308); (0x09, disk_1309); (0x0c, disk_130c); (0x0d, disk_130d);
   (0x10, disk_1310); (0x11, disk_1311); (0x14, disk_1314); (0x15, disk_1315); (0x16, disk_1316);
   (0x41, disk_1341); (0x42, disk_1342); (0x43, disk_1343); (0x44, disk_1344); (0x45, disk_1345);
   (0x46, disk_1346); (0x47, disk_1347); (0x48, disk_1348); (0x49, disk_1349); (0x4e, disk_134e)].

Fixpoint dispatch (l : list (Z * (disk_regs -> Z -> st dev -> result))) (r : disk_regs) (p : Z) (s : st dev) : result :=
  match l with
  | [] => disk_13XX r s
  | (ah, f) :: l' => if hi8 (ax r) =? ah then f r p s else dispatch l' r p s
  end.

Definition disk_13 (r : disk_regs) (p : Z) (s : st dev) : result :=
  dispatch handlers r p (set_mem (SET_BDA 1 (s_mem s) disk_interrupt_flag 0) s).

Definition floppy_functions : list Z := [0x00; 0x01; 0x02; 0x03; 0x04; 0x05; 0x08; 0x15; 0x16].

Definition floppy_13 (r : disk_regs) (p : Z) (s : st dev) : result :=
  if bool_decide (hi8 (ax r) ∈ floppy_functions) then disk_13 r p s else disk_13XX r s.

Definition cdemu_134b (r : disk_regs) (s : st dev) : result :=
  let b := s_block s in
  let s := set_mem (put_far_bytes (r_ds r) (r_si r) (eltorito_bytes (CDEmu b)) (s_mem s)) s in
  let s := if lo8 (ax r) =? 0x00
           then set_block (set_emulation (set_media 0 (CDEmu b)) (emulated_drive_gf b) b) s else s in
  disk_ret r DISK_RET_SUCCESS s.

Definition handle_legacy_disk (r : disk_regs) (extdrive : Z) (s : st dev) : result :=
  let b := s_block s in
  if extdrive <? EXTSTART_HD then
    let p := getDrive EXTTYPE_FLOPPY extdrive b in
    if p =? 0 then disk_ret r DISK_RET_EPARAM s else floppy_13 r p s
  else
    let p := if EXTSTART_CD <=? extdrive then getDrive EXTTYPE_CD (extdrive - EXTSTART_CD) b
             else getDrive EXTTYPE_HD (extdrive - EXTSTART_HD) b in
    if p =? 0 then disk_ret r DISK_RET_EPARAM s else disk_13 r p s.

Definition handle_40 (r : disk_regs) (s : st dev) : result := handle_legacy_disk r (lo8 (dx r)) s.

Definition handle_13 (r : disk_regs) (s : st dev) : result :=
  let e := CDEmu (s_block s) in
  let extdrive := lo8 (dx r) in
  if hi8 (ax r) =? 0x4b then cdemu_134b r s
  else if el_media e =? 0 then handle_legacy_disk r extdrive s
  else if extdrive =? el_emulated_drive e then
    if 0x16 <? hi8 (ax r) then disk_13XX r s else disk_13 r (cdemu_drive_gf (s_block s)) s
  else if (extdrive <? EXTSTART_CD) && (Z.land (Z.lxor (el_emulated_drive e) extdrive) 0x80 =? 0)
  then handle_legacy_disk r (u8 (extdrive - 1)) s
  else handle_legacy_disk r extdrive s.

(** The completion interrupt; the controller it acknowledges is left out. *)
Definition handle_76 (m : mem) : mem := SET_BDA 1 m disk_interrupt_flag 0xff.

End host.
