(* ===== verification/SeaDiskSpec.v ===== *)
(** What the disk services of SeaBIOS ([SeaBlock], [SeaDisk]) do for a caller.

    [BlockMedia] says what the services rely on in a driver: a successful read
    puts the bytes of the medium in the buffer and touches nothing else, a
    successful write puts the buffer on the medium.  From it the requests of
    [process_op], the image of a CD and interrupt 0x13 are shown to move the
    right bytes. *)

From stdpp Require Import base numbers list.
From Stdlib Require Import ZArith Lia.
From S2P Require Import Prelude Memory SeaString CcInt VgaState VgaFb VgaDraw VgaVbe VgaBios SeaBlock SeaDisk.

Definition in_range (a len x : Z) : Prop := a <= x < a + len.

(** ** Halves of a register *)

Lemma put_lo8_sum v b : put_lo8 v b = u8 b + hi8 v * 256.
Proof. unfold put_lo8. rewrite Z.lor_comm, lor_add_shift; [done|lia|by apply wrap_fits]. Qed.

Lemma put_hi8_sum v b : put_hi8 v b = lo8 v + u8 b * 256.
Proof. unfold put_hi8. rewrite Z.lor_comm, lor_add_shift; [done|lia|by apply wrap_fits]. Qed.

Lemma reg_halves a b : fits 8 a -> fits 8 b -> lo8 (u16 (a + b * 256)) = a /\ hi8 (u16 (a + b * 256)) = b.
Proof.
  intros Ha Hb. assert (fits 16 (a + b * 256)) by (unfold fits in *; lia). rewrite (wrap_small 16) by done.
  unfold lo8, hi8. rewrite Z.shiftr_div_pow2 by lia. unfold wrap, fits in *. change (2 ^ 8) with 256 in *. split.
  - rewrite Z.mod_add by lia. by apply Z.mod_small.
  - rewrite Z.div_add by lia. rewrite (Z.div_small a) by lia. by apply Z.mod_small.
Qed.

Lemma lo8_fits v : fits 8 (lo8 v).
Proof. by apply wrap_fits. Qed.
Lemma hi8_fits v : fits 8 (hi8 v).
Proof. by apply wrap_fits. Qed.

Lemma put_lo8_halves v b : lo8 (u16 (put_lo8 v b)) = u8 b /\ hi8 (u16 (put_lo8 v b)) = hi8 v.
Proof. rewrite put_lo8_sum. apply reg_halves; [by apply wrap_fits|apply hi8_fits]. Qed.

Lemma put_hi8_halves v b : lo8 (u16 (put_hi8 v b)) = lo8 v /\ hi8 (u16 (put_hi8 v b)) = u8 b.
Proof. rewrite put_hi8_sum. apply reg_halves; [apply lo8_fits|by apply wrap_fits]. Qed.

(** * Drivers that work *)

Class BlockMedia (dev : Type) {H : BlockHost dev} := {
  (** The bytes of a drive. *)
  media : dev -> Z -> Z -> Z;
  driver_read : forall dr d op m v ret n m' v',
    driver_op dr d op m v = (ret, n, m', v') -> command op = CMD_READ -> mem_ok m ->
    fits 8 ret /\ mem_ok m' /\ (forall a, ~ in_range (buf_fl op) (count op * blksize d) a -> m' a = m a) /\
    (forall p i, media v' p i = media v p i) /\
    (ret = 0 -> n = count op /\ forall i, 0 <= i < count op * blksize d ->
       m' (buf_fl op + i) = media v (drive_fl op) (lba op * blksize d + i));
  driver_write : forall dr d op m v ret n m' v',
    driver_op dr d op m v = (ret, n, m', v') -> command op = CMD_WRITE -> mem_ok m ->
    fits 8 ret /\ (forall a, m' a = m a) /\
    (forall p i, ~ (p = drive_fl op /\ in_range (lba op * blksize d) (count op * blksize d) i) ->
       media v' p i = media v p i) /\
    (ret = 0 -> n = count op /\ forall i, 0 <= i < count op * blksize d ->
       media v' (drive_fl op) (lba op * blksize d + i) = m (buf_fl op + i))
}.

(** [memcpy_fl] below 1 MB. *)
Definition low (a len : Z) : Prop := 0 <= a /\ a + len <= 2 ^ 20.

Lemma flat_far a len : low a len -> 0 <= len -> a < 2 ^ 20 ->
  far (u16 (Z.shiftr (u32 a) 4)) (Z.land (u32 a) 0xf) = a /\ 0 <= Z.land (u32 a) 0xf < 16.
Proof.
  intros [Ha Hl] ? ?. rewrite land_15, Z.shiftr_div_pow2, (wrap_small 32) by (lia || (unfold fits; lia)).
  change (2 ^ 4) with 16. rewrite wrap_small by (unfold fits; split; [apply Z.div_pos; lia|apply Z.div_lt_upper_bound; lia]).
  unfold far. pose proof (Z.div_mod a 16). pose proof (Z.mod_pos_bound a 16). lia.
Qed.

Lemma memcpy_fl_spec m d s len : mem_ok m -> low d len -> low s len -> 0 <= len <= 2048 -> d < 2 ^ 20 -> s < 2 ^ 20 ->
  d + len <= s \/ s + len <= d ->
  mem_ok (memcpy_fl m d s len) /\
  (forall i, 0 <= i < len -> memcpy_fl m d s len (d + i) = m (s + i)) /\
  (forall x, ~ in_range d len x -> memcpy_fl m d s len x = m x).
Proof.
  intros Hok Hd Hs Hl Hd' Hs' Hsep. unfold memcpy_fl.
  destruct (flat_far d len) as [Hfd Hod]; [done|lia|done|]. destruct (flat_far s len) as [Hfs Hos]; [done|lia|done|].
  set (ds := u16 (Z.shiftr (u32 d) 4)) in *. set (dof := Z.land (u32 d) 0xf) in *.
  set (ss := u16 (Z.shiftr (u32 s) 4)) in *. set (sof := Z.land (u32 s) 0xf) in *.
  split; [|split].
  - unfold memcpy_far. generalize (Z.to_nat (u16 len)) as k. clear -Hok. intros k. revert m Hok.
    generalize dof, sof. induction k as [|k IH]; intros a b m Hok; [done|]. cbn [memcpy_far_loop]. apply IH. by apply store8_ok.
  - intros i Hi. rewrite <- Hfd at 1. rewrite <- Hfs. unfold memcpy_far. rewrite wrap_small by (unfold fits; lia).
    rewrite memcpy_far_loop_in; [done|done|lia..].
  - intros x Hx. apply memcpy_far_out; [unfold in_segment; lia|]. rewrite Hfd. unfold in_range in Hx. lia.
Qed.

(** * Requests to hardware *)

Definition drivers_16 : list (Z * driver) := [(DTYPE_FLOPPY, floppy); (DTYPE_ATA, ata)].
Definition drivers_both : list (Z * driver) :=
  [(DTYPE_ATA_ATAPI, ata_atapi); (DTYPE_USB, usb); (DTYPE_UAS, uas); (DTYPE_LSI_SCSI, lsi_scsi);
   (DTYPE_ESP_SCSI, esp_scsi); (DTYPE_MEGASAS, megasas); (DTYPE_MPT_SCSI, mpt_scsi)].
Definition drivers_32 : list (Z * driver) :=
  [(DTYPE_VIRTIO_BLK, virtio_blk); (DTYPE_AHCI, ahci); (DTYPE_AHCI_ATAPI, ahci_atapi); (DTYPE_SDCARD, sdcard);
   (DTYPE_USB_32, usb); (DTYPE_UAS_32, uas); (DTYPE_VIRTIO_SCSI, virtio_scsi); (DTYPE_PVSCSI, pvscsi);
   (DTYPE_NVME, nvme)].

Section host.
Context {dev : Type} {H : BlockHost dev}.

(** The drivers a mode reaches, by the type of the drive. *)
Definition reached (seg : bool) : list (Z * driver) :=
  if seg then drivers_16 ++ drivers_both ++ (if real_mode then drivers_32 else []) else drivers_32 ++ drivers_both.

Definition type_of (p : Z) (s : st dev) : Z := d_type (drives (s_block s) p).
Definition size_of (p : Z) (s : st dev) : Z := blksize (drives (s_block s) p).

(** [p] is a drive of a controller that requests of mode [seg] reach. *)
Definition hardware (seg : bool) (p : Z) (s : st dev) : Prop := exists dr, (type_of p s, dr) ∈ reached seg.

Lemma process_driver fuel seg op s dr : (type_of (drive_fl op) s, dr) ∈ reached seg ->
  count op * size_of (drive_fl op) s <= 64 * 1024 ->
  process_op (S fuel) seg op s =
    Done (let '(ret, n, s') := run dr op s in (ret, if negb (ret =? 0) && (n =? count op) then 0 else n, s')).
Proof.
  intros Hdr Hn. cbn [process_op]. unfold size_of in Hn. destruct (Z.ltb_spec (64 * 1024)
    (count op * blksize (drives (s_block s) (drive_fl op)))); [lia|].
  match goal with |- mbind _ ?x = _ => enough (x = Done (run dr op s)) as Hx end.
  { etransitivity; [apply (f_equal (mbind _) Hx)|]. run_outcome. by destruct (run dr op s) as [[ret n] s']. }
  unfold type_of in Hdr. unfold reached in Hdr. unfold process_op_16, process_op_32, process_op_both.
  destruct seg; [destruct real_mode|]; cbn [app drivers_16 drivers_both drivers_32] in Hdr;
    repeat (apply elem_of_cons in Hdr as [[= Ht ->]|Hdr]; [rewrite Ht; reflexivity|]); by apply elem_of_nil in Hdr.
Qed.

Lemma process_hardware fuel seg op s : hardware seg (drive_fl op) s ->
  count op * size_of (drive_fl op) s <= 64 * 1024 ->
  exists dr, process_op (S fuel) seg op s =
    Done (let '(ret, n, s') := run dr op s in (ret, if negb (ret =? 0) && (n =? count op) then 0 else n, s')).
Proof. intros [dr Hdr] Hn. exists dr. by apply process_driver. Qed.

Context {M : BlockMedia dev}.

(** A read that did its work: with status 0 the buffer holds the bytes
    [content] has at the place of the request; memory outside the buffer and
    outside [scratch], the media and the block layer are as before. *)
Definition read_spec (bs : Z) (op : disk_op_s) (content : Z -> Z) (scratch : Z -> Prop) (s : st dev) (a : answer) : Prop :=
  let '(ret, n, s') := a in
  fits 8 ret /\ s_block s' = s_block s /\ mem_ok (s_mem s') /\
  (forall p i, media (s_dev s') p i = media (s_dev s) p i) /\
  (forall x, ~ in_range (buf_fl op) (count op * bs) x -> ~ scratch x -> s_mem s' x = s_mem s x) /\
  (ret = 0 -> n = count op /\ forall i, 0 <= i < count op * bs -> s_mem s' (buf_fl op + i) = content (lba op * bs + i)).

Lemma hardware_read fuel seg op s : hardware seg (drive_fl op) s -> command op = CMD_READ -> mem_ok (s_mem s) ->
  count op * size_of (drive_fl op) s <= 64 * 1024 ->
  exists a, process_op (S fuel) seg op s = Done a /\
    read_spec (size_of (drive_fl op) s) op (media (s_dev s) (drive_fl op)) (fun _ => False) s a.
Proof.
  intros Hh Hc Hok Hn. destruct (process_hardware fuel seg op s Hh Hn) as [dr Hp]. rewrite Hp. clear Hp.
  eexists. split; [reflexivity|]. unfold run.
  destruct (driver_op dr _ op _ _) as [[[ret n] m'] v'] eqn:Hd.
  destruct (driver_read _ _ _ _ _ _ _ _ _ Hd Hc Hok) as (Hret & Hok' & Hout & Hmed & Hin).
  cbn [s_block s_mem s_dev]. do 4 (split; [done|]). split; [intros x Hx _; by apply Hout|].
  intros ->. destruct (Hin eq_refl) as [-> Hi]. done.
Qed.
(** * The memory disk *)

Lemma ramdisk_move m dst src n : 0 <= n <= 128 ->
  handle_1587 m dst src (u16 (n * DISK_SECTOR_SIZE / 2)) = movs 4 (Z.to_nat (n * 128)) m dst src 0.
Proof.
  intros Hn. unfold DISK_SECTOR_SIZE. replace (n * 512) with (n * 256 * 2) by lia. rewrite Z.div_mul, wrap_small by (lia || (unfold fits; lia)).
  unfold handle_1587. replace (Z.odd (n * 256)) with false by (replace (n * 256) with (2 * (n * 128)) by lia; by rewrite Z.odd_mul).
  rewrite Z.shiftr_div_pow2 by lia. do 2 f_equal. change (2 ^ 1) with 2. replace (n * 256) with (n * 128 * 2) by lia. by apply Z.div_mul.
Qed.

(** A memory disk at [base] reads as the memory there. *)
Lemma ramdisk_read fuel op s : let base := cntl_id (drives (s_block s) (drive_fl op)) in
  type_of (drive_fl op) s = DTYPE_RAMDISK -> size_of (drive_fl op) s = 512 -> command op = CMD_READ -> mem_ok (s_mem s) ->
  1 <= count op <= 128 -> 0 <= lba op -> 0 <= base -> base + (lba op + count op) * 512 <= 2 ^ 32 ->
  0 <= buf_fl op -> buf_fl op + count op * 512 <= 2 ^ 32 ->
  (buf_fl op + count op * 512 <= base + lba op * 512 \/ base + (lba op + count op) * 512 <= buf_fl op) ->
  exists a, process_op (S fuel) true op s = Done a /\
    read_spec 512 op (fun i => s_mem s (base + i)) (fun _ => False) s a.
Proof.
  intros base Ht Hz Hc Hok Hn Hl Hb Hbe Hf Hfe Hap. cbn [process_op]. fold (size_of (drive_fl op) s). rewrite Hz.
  destruct (Z.ltb_spec (64 * 1024) (count op * 512)); [lia|].
  unfold process_op_16. fold (type_of (drive_fl op) s). rewrite Ht. cbn [Z.eqb Pos.eqb DTYPE_RAMDISK DTYPE_FLOPPY DTYPE_ATA].
  unfold ramdisk_process_op. rewrite Hc. cbn [Z.eqb Pos.eqb CMD_READ]. unfold ramdisk_copy, int15_87. fold base. rewrite ramdisk_move by lia.
  run_outcome. change DISK_SECTOR_SIZE with 512. rewrite !(wrap_small 32) by (unfold fits; rewrite ?wrap_small; unfold fits; lia).
  eexists. split; [reflexivity|]. cbn [s_block s_mem s_dev set_mem].
  split; [done|]. split; [done|]. split; [by apply movs_ok|]. split; [done|]. split.
  - intros x Hx _. apply movs_out; unfold in_range in Hx; lia.
  - intros _. split; [done|]. intros i Hi. cbn [s_mem set_mem]. rewrite movs_in by (done || lia). f_equal. lia.
Qed.

(** * The image of a CD *)

Definition cd_of (s : st dev) : Z := emulated_drive_gf (s_block s).
Definition ilba (s : st dev) : Z := el_ilba (CDEmu (s_block s)).
Definition bounce (s : st dev) : Z -> Prop := in_range (bounce_buf_fl (s_block s)) 2048.

(** The bytes of the image: those of the CD from its first block on. *)
Definition image (s : st dev) (i : Z) : Z := media (s_dev s) (cd_of s) (ilba s * 2048 + i).

(** A request for the image, of at most 64 KB, to a buffer in low memory apart
    from the bounce buffer; the CD is a drive that is reached. *)
Record emulated (op : disk_op_s) (s : st dev) : Prop := {
  em_cmd : command op = CMD_READ;
  em_cd : hardware true (cd_of s) s;
  em_cd_size : size_of (cd_of s) s = 2048;
  em_count : 0 <= count op <= 128;
  em_lba : 0 <= lba op /\ 0 <= ilba s /\ ilba s + lba op + 128 < 2 ^ 64;
  em_buf : 0 <= buf_fl op /\ buf_fl op + count op * 512 < 2 ^ 20;
  em_bounce : 0 <= bounce_buf_fl (s_block s) /\ bounce_buf_fl (s_block s) + 2048 < 2 ^ 20;
  em_apart : buf_fl op + count op * 512 <= bounce_buf_fl (s_block s) \/ bounce_buf_fl (s_block s) + 2048 <= buf_fl op
}.

(** What no part of a read changes. *)
Definition kept (op : disk_op_s) (s s' : st dev) : Prop :=
  s_block s' = s_block s /\ mem_ok (s_mem s') /\ (forall p i, media (s_dev s') p i = media (s_dev s) p i) /\
  (forall x, ~ in_range (buf_fl op) (count op * 512) x -> ~ bounce s x -> s_mem s' x = s_mem s x).

Lemma cd_request op s s' buf n at_block : emulated op s -> kept op s s' -> 0 <= n <= 32 ->
  (forall x, in_range buf (n * 2048) x -> in_range (buf_fl op) (count op * 512) x \/ bounce s x) ->
  exists ret k s'', process_op 1 true (mkDop buf (cd_of s) (command op) n at_block) s' = Done (ret, k, s'') /\
    fits 8 ret /\ kept op s s'' /\ (forall x, ~ in_range buf (n * 2048) x -> s_mem s'' x = s_mem s' x) /\
    (ret = 0 -> k = n /\ forall i, 0 <= i < n * 2048 -> s_mem s'' (buf + i) = media (s_dev s) (cd_of s) (at_block * 2048 + i)).
Proof.
  intros He (Hb & Hok & Hmed & Hfr) Hn Hin.
  destruct (hardware_read 0 true (mkDop buf (cd_of s) (command op) n at_block) s') as (a & Ha & Hr).
  - cbn. unfold hardware, type_of. rewrite Hb. apply (em_cd _ _ He).
  - apply (em_cmd _ _ He).
  - done.
  - cbn. unfold size_of. rewrite Hb. fold (size_of (cd_of s) s). rewrite (em_cd_size _ _ He). lia.
  - assert (size_of (cd_of s) s' = 2048) as Hsz by (unfold size_of; rewrite Hb; apply (em_cd_size _ _ He)).
    cbn [drive_fl] in Hr. rewrite Hsz in Hr. destruct a as [[ret k] s'']. destruct Hr as (Hst & Hb' & Hok' & Hmed' & Hfr' & Hret).
    cbn [buf_fl count lba drive_fl] in *. exists ret, k, s''. split; [done|]. split; [done|]. split; [|split].
    + split; [congruence|]. split; [done|]. split; [intros p i; by rewrite Hmed', Hmed|].
      intros x Hx1 Hx2. rewrite Hfr'; [by apply Hfr| |tauto]. intros Hx. destruct (Hin x Hx); tauto.
    + intros x Hx. apply Hfr'; tauto.
    + intros Hr0. destruct (Hret Hr0) as [-> Hi]. split; [done|]. intros i Hi0. rewrite Hi by done. apply Hmed.
Qed.

(** Where a read stands: [done] sectors are in the buffer, [n] are not; the
    next of them starts a block. *)
Definition progress (op : disk_op_s) (s : st dev) (g : cd_progress) (s' : st dev) : Prop :=
  let '(n, buf, done, at_block) := g in
  kept op s s' /\ 0 <= n /\ 0 <= done /\ done + n = count op /\ buf = buf_fl op + done * 512 /\
  (forall i, 0 <= i < done * 512 -> s_mem s' (buf_fl op + i) = image s (lba op * 512 + i)) /\
  (0 < n -> at_block * 4 = ilba s * 4 + lba op + done).

Lemma disk_kept_refl op s : mem_ok (s_mem s) -> kept op s s.
Proof. by intros Hok. Qed.

Lemma kept_copy op s s' buf len m : kept op s s' -> mem_ok m ->
  (forall x, in_range buf len x -> in_range (buf_fl op) (count op * 512) x) ->
  (forall x, ~ in_range buf len x -> m x = s_mem s' x) -> kept op s (set_mem m s').
Proof.
  intros (Hb & Hok & Hmed & Hfr) Hm Hin Hout. split; [done|]. split; [done|]. split; [done|].
  intros x Hx1 Hx2. cbn. rewrite Hout; [by apply Hfr|]. intros Hx. by apply Hx1, Hin.
Qed.

Lemma first_progress op s : emulated op s -> mem_ok (s_mem s) ->
  exists ret g s', cdemu_first (process_op 1 true) op s = Done (ret, g, s') /\ fits 8 ret /\ kept op s s' /\
    (ret = 0 -> progress op s g s').
Proof.
  intros He Hok. pose proof He as [Hcmd _ _ Hn (Hl & Hil & Hlr) Hbuf Hbb Hap].
  unfold cdemu_first. fold (cd_of s) (ilba s). rewrite land_3.
  pose proof (Z.div_mod (lba op) 4) as Hdm. pose proof (Z.mod_pos_bound (lba op) 4).
  set (q := lba op / 4) in *. set (part := lba op mod 4) in *. rewrite (wrap_small 64 (ilba s + q)) by (unfold fits; lia).
  destruct (Z.eqb_spec part 0) as [Hp|Hp].
  - eexists _, _, _. split; [reflexivity|]. split; [done|]. split; [by apply disk_kept_refl|]. intros _. unfold progress.
    split; [by apply disk_kept_refl|]. split; [lia|]. split; [lia|]. split; [lia|]. split; [lia|]. split; [lia|]. lia.
  - destruct (cd_request op s s (bounce_buf_fl (s_block s)) 1 (ilba s + q) He) as (ret & k & s' & Hpr & Hst & Hk & Hfr & Hret);
      [by apply disk_kept_refl|lia|by right|].
    rewrite Hpr. run_outcome. destruct (Z.eqb_spec ret 0) as [->|Hr]; cbn [negb].
    2: { eexists _, _, _. split; [reflexivity|]. split; [done|]. split; [done|]. lia. }
    destruct (Hret eq_refl) as [_ Hi]. set (t := Z.min (4 - part) (count op)).
    assert (0 <= t <= 4 - part /\ t <= count op) as [Ht Htc] by lia.
    destruct (memcpy_fl_spec (s_mem s') (buf_fl op) (bounce_buf_fl (s_block s) + part * 512) (t * 512)) as (Hok' & Hcp & Hout);
      [apply Hk|unfold low; lia|unfold low; lia|lia|lia|lia|lia|].
    assert (kept op s (set_mem (memcpy_fl (s_mem s') (buf_fl op) (bounce_buf_fl (s_block s) + part * 512) (t * 512)) s')) as Hk'.
    { eapply kept_copy; [done|done| |exact Hout]. unfold in_range. lia. }
    eexists _, _, _. split; [reflexivity|]. split; [done|]. split; [exact Hk'|]. intros _. unfold progress.
    split; [exact Hk'|]. split; [lia|]. split; [lia|]. split; [lia|].
    split; [rewrite wrap_small; [done|unfold fits; lia]|]. split.
    + intros i Hi0. cbn [s_mem set_mem]. rewrite Hcp by lia. rewrite <- Z.add_assoc, Hi by lia. unfold image. f_equal. lia.
    + intros Hpos. rewrite wrap_small by (unfold fits; lia). lia.
Qed.

Lemma middle_progress op s g s1 : emulated op s -> progress op s g s1 ->
  exists ret g' s', cdemu_middle (process_op 1 true) op g s1 = Done (ret, g', s') /\ fits 8 ret /\ kept op s s' /\
    (ret = 0 -> progress op s g' s' /\ g'.1.1.1 <= 3).
Proof.
  intros He Hg. pose proof He as [Hcmd _ _ Hn (Hl & Hil & Hlr) Hbuf Hbb Hap].
  destruct g as [[[n buf] done] blk]. destruct Hg as (Hk & Hn0 & Hd0 & Hsum & -> & Hc & Hblk).
  unfold cdemu_middle. destruct (Z.leb_spec n 3) as [Hle|Hgt].
  { eexists _, _, _. split; [reflexivity|]. split; [done|]. split; [done|]. done. }
  pose proof (Z.div_mod n 4). pose proof (Z.mod_pos_bound n 4). set (q := n / 4) in *.
  destruct Hk as (Hb & Hk'). rewrite Hb. fold (cd_of s).
  destruct (cd_request op s s1 (buf_fl op + done * 512) q blk He) as (ret & k & s' & Hpr & Hst & Hk2 & Hfr & Hret);
    [done|lia|unfold in_range; lia|].
  rewrite Hpr. run_outcome. destruct (Z.eqb_spec ret 0) as [->|Hr]; cbn [negb].
  2: { eexists _, _, _. split; [reflexivity|]. split; [done|]. split; [done|]. lia. }
  destruct (Hret eq_refl) as [-> Hi].
  assert (u8 (Z.land n (Z.lnot 3)) = q * 4) as ->.
  { rewrite <- Z.ldiff_land. change 3 with (Z.ones 2). rewrite Z.ldiff_ones_r, Z.shiftr_div_pow2, Z.shiftl_mul_pow2 by lia.
    change (2 ^ 2) with 4. fold q. apply wrap_small. unfold fits. lia. }
  rewrite land_3. replace (n mod 4) with (n - 4 * q) by lia. rewrite Z.div_mul by lia.
  eexists _, _, _. split; [reflexivity|]. split; [done|]. split; [done|]. intros _. cbn [fst]. split; [|lia]. unfold progress.
  rewrite !wrap_small by (unfold fits; lia). split; [done|]. split; [lia|]. split; [lia|]. split; [lia|]. split; [lia|]. split.
  - intros i Hi0. destruct (decide (i < done * 512)).
    + rewrite Hfr; [apply Hc; lia|unfold in_range; lia].
    + replace (buf_fl op + i) with (buf_fl op + done * 512 + (i - done * 512)) by lia.
      rewrite Hi by lia. unfold image. f_equal. lia.
  - intros Hpos. lia.
Qed.

Lemma kept_failed op s s' ret n : fits 8 ret -> kept op s s' -> ret <> 0 -> read_spec 512 op (image s) (bounce s) s (ret, n, s').
Proof. intros Hst (? & ? & ? & ?) Hr. by do 5 (split; [done|]). Qed.

(** The requests of [cdemu_read] together read the sectors of the image. *)
Lemma last_progress op s g s1 : emulated op s -> progress op s g s1 -> g.1.1.1 <= 3 ->
  exists a, cdemu_last (process_op 1 true) op g s1 = Done a /\ read_spec 512 op (image s) (bounce s) s a.
Proof.
  intros He Hg Hle. pose proof He as [Hcmd _ _ Hn (Hl & Hil & Hlr) Hbuf Hbb Hap].
  destruct g as [[[n buf] done] blk]. destruct Hg as (Hk & Hn0 & Hd0 & Hsum & -> & Hc & Hblk). cbn [fst] in Hle.
  unfold cdemu_last. destruct (Z.eqb_spec n 0) as [->|Hnz].
  { eexists. split; [reflexivity|]. destruct Hk as (Hb & Hok & Hmed & Hfr).
    do 5 (split; [done|]). intros _. split; [lia|]. intros i Hi. apply Hc. lia. }
  destruct Hk as (Hb & Hk'). rewrite Hb. fold (cd_of s).
  destruct (cd_request op s s1 (bounce_buf_fl (s_block s)) 1 blk He) as (ret & k & s' & Hpr & Hst & Hk2 & Hfr & Hret);
    [done|lia|by right|].
  rewrite Hpr. run_outcome. destruct (Z.eqb_spec ret 0) as [->|Hr]; cbn [negb].
  2: { eexists. split; [reflexivity|]. by apply kept_failed. }
  destruct (Hret eq_refl) as [_ Hi]. rewrite !(wrap_small 8) by (unfold fits; lia). rewrite wrap_small by (unfold fits; lia).
  destruct (memcpy_fl_spec (s_mem s') (buf_fl op + done * 512) (bounce_buf_fl (s_block s)) (n * 512)) as (Hok' & Hcp & Hout);
    [apply Hk2|unfold low; lia|unfold low; lia|lia|lia|lia|lia|].
  eassert (kept op s (set_mem _ s')) as (? & ? & ? & ?).
  { eapply kept_copy; [exact Hk2|exact Hok'| |exact Hout]. unfold in_range. lia. }
  eexists. split; [reflexivity|]. do 5 (split; [done|]). intros _. split; [lia|]. intros i Hi0. cbn [s_mem set_mem]. destruct (decide (i < done * 512)).
  - rewrite Hout by (unfold in_range; lia). rewrite Hfr by (unfold in_range; lia). apply Hc. lia.
  - replace (buf_fl op + i) with (buf_fl op + done * 512 + (i - done * 512)) by lia.
    rewrite Hcp by lia. rewrite Hi by lia. unfold image. f_equal. specialize (Hblk ltac:(lia)). lia.
Qed.

Lemma image_read op s : emulated op s -> mem_ok (s_mem s) ->
  exists a, cdemu_read (process_op 1 true) op s = Done a /\ read_spec 512 op (image s) (bounce s) s a.
Proof.
  intros He Hok. unfold cdemu_read. destruct (first_progress op s He Hok) as (ret & g & s1 & -> & Hst & Hk & Hg).
  run_outcome. destruct (Z.eqb_spec ret 0) as [->|Hr]; cbn [negb].
  2: { eexists. split; [reflexivity|]. by apply kept_failed. }
  destruct (middle_progress op s g s1 He (Hg eq_refl)) as (ret & g' & s2 & -> & Hst2 & Hk2 & Hg').
  run_outcome. destruct (Z.eqb_spec ret 0) as [->|Hr]; cbn [negb].
  2: { eexists. split; [reflexivity|]. by apply kept_failed. }
  destruct (Hg' eq_refl) as [Hp Hle]. by apply last_progress.
Qed.

Lemma emulated_read op s : type_of (drive_fl op) s = DTYPE_CDEMU -> size_of (drive_fl op) s = 512 ->
  emulated op s -> mem_ok (s_mem s) ->
  exists a, process_op 2 true op s = Done a /\ read_spec 512 op (image s) (bounce s) s a.
Proof.
  intros Ht Hz He Hok. destruct (image_read op s He Hok) as (a & Ha & Hr).
  change (process_op 2 true op s) with
    (if 64 * 1024 <? count op * size_of (drive_fl op) s then mret (DISK_RET_EBOUNDARY, 0, s)
     else '(ret, n, s) ← process_op_16 (process_op 1 true) op s;
          mret (M := outcome) (ret, if negb (ret =? 0) && (n =? count op) then 0 else n, s)).
  rewrite Hz. pose proof (em_count _ _ He). destruct (Z.ltb_spec (64 * 1024) (count op * 512)); [lia|].
  unfold process_op_16. fold (type_of (drive_fl op) s). rewrite Ht.
  cbn [Z.eqb Pos.eqb DTYPE_CDEMU DTYPE_FLOPPY DTYPE_ATA DTYPE_RAMDISK].
  unfold cdemu_process_op. rewrite (em_cmd _ _ He). cbn [Z.eqb Pos.eqb CMD_READ]. rewrite Ha. run_outcome.
  destruct a as [[ret n] s']. eexists. split; [reflexivity|]. destruct Hr as (? & ? & ? & ? & ? & Hret).
  do 5 (split; [done|]). intros ->. by apply Hret.
Qed.

(** * Interrupt 0x13 *)

(** The drive a call is for, 0 when there is none. *)
Definition legacy_drive (x : Z) (b : block) : Z :=
  if x <? EXTSTART_HD then getDrive EXTTYPE_FLOPPY x b
  else if EXTSTART_CD <=? x then getDrive EXTTYPE_CD (x - EXTSTART_CD) b
  else getDrive EXTTYPE_HD (x - EXTSTART_HD) b.

Definition drive_for (dl : Z) (b : block) : Z :=
  let e := CDEmu b in
  if el_media e =? 0 then legacy_drive dl b
  else if dl =? el_emulated_drive e then cdemu_drive_gf b
  else if (dl <? EXTSTART_CD) && (Z.land (Z.lxor (el_emulated_drive e) dl) 0x80 =? 0) then legacy_drive (u8 (dl - 1)) b
  else legacy_drive dl b.

Lemma legacy_call (r : disk_regs) (x : Z) (s : st dev) : legacy_drive x (s_block s) <> 0 -> hi8 (ax r) ∈ floppy_functions ->
  handle_legacy_disk r x s = disk_13 r (legacy_drive x (s_block s)) s.
Proof.
  intros Hp Hf. unfold handle_legacy_disk, legacy_drive in *. destruct (x <? EXTSTART_HD).
  - apply Z.eqb_neq in Hp as ->. unfold floppy_13. by rewrite bool_decide_eq_true_2.
  - destruct (EXTSTART_CD <=? x); by apply Z.eqb_neq in Hp as ->.
Qed.

Lemma old_function ah : ah ∈ floppy_functions -> (ah =? 0x4b) = false /\ (0x16 <? ah) = false.
Proof.
  intros Ha. repeat (apply elem_of_cons in Ha as [->|Ha]; [by split|]). by apply elem_of_nil in Ha.
Qed.

Lemma old_call (r : disk_regs) (s : st dev) : drive_for (lo8 (dx r)) (s_block s) <> 0 -> hi8 (ax r) ∈ floppy_functions ->
  handle_13 r s = disk_13 r (drive_for (lo8 (dx r)) (s_block s)) s.
Proof.
  intros Hp Hf. destruct (old_function _ Hf) as [H4b H16]. unfold handle_13, drive_for in *. rewrite H4b, H16.
  destruct (el_media _ =? 0); [by apply legacy_call|]. destruct (lo8 (dx r) =? _); [done|].
  destruct (_ && _); by apply legacy_call.
Qed.

Lemma listed_02 : 0x02 ∈ floppy_functions.
Proof. unfold floppy_functions. do 2 right. left. Qed.
Lemma listed_03 : 0x03 ∈ floppy_functions.
Proof. unfold floppy_functions. do 3 right. left. Qed.

(** ** Cylinder, head and sector *)

Definition r_count (r : disk_regs) : Z := lo8 (ax r).
Definition r_cylinder (r : disk_regs) : Z := Z.lor (hi8 (cx r)) (Z.land (Z.shiftl (lo8 (cx r)) 2) 0x300).
Definition r_sector (r : disk_regs) : Z := Z.land (lo8 (cx r)) 0x3f.
Definition r_head (r : disk_regs) : Z := hi8 (dx r).
Definition r_buffer (r : disk_regs) : Z := MAKE_FLATPTR (es r) (bx r).

(** The call names sectors of the geometry [g], from [chs_lba] on. *)
Definition within (r : disk_regs) (g : chs_s) : Prop :=
  1 <= r_count r <= 128 /\ 1 <= r_sector r <= chs_sector g /\ r_cylinder r < chs_cylinder g /\ r_head r < chs_head g.
Definition chs_lba (r : disk_regs) (g : chs_s) : Z :=
  (r_cylinder r * chs_head g + r_head r) * chs_sector g + r_sector r - 1.

Lemma r_ranges r : 0 <= r_count r < 256 /\ 0 <= r_cylinder r < 1024 /\ 0 <= r_sector r < 64 /\ 0 <= r_head r < 256.
Proof.
  split; [apply lo8_fits|]. split; [|split; [|apply hi8_fits]].
  - apply (fits_lor 10); [lia|eapply fits_mono; [|apply hi8_fits]; lia|].
    apply fits_land_l; [lia|lia|]. apply fits_shiftl; [lia|]. apply lo8_fits.
  - unfold r_sector. change 0x3f with (Z.ones 6). rewrite Z.land_ones by lia. by apply Z.mod_pos_bound.
Qed.

Lemma chs_lba_bounds r g : addressable g -> within r g -> 0 <= chs_lba r g < capacity g.
Proof.
  intros (Hc & Hh & Hs) (Hn & Hsec & Hcyl & Hhd). destruct (r_ranges r) as (_ & ? & _ & ?). unfold chs_lba, capacity.
  assert (0 <= r_cylinder r * chs_head g) by nia.
  assert (r_cylinder r * chs_head g + r_head r + 1 <= chs_cylinder g * chs_head g) by nia. nia.
Qed.

Lemma capacity_bound g : addressable g -> 0 <= capacity g <= 1024 * 255 * 63.
Proof.
  intros (? & ? & ?). unfold capacity. assert (0 <= chs_cylinder g * chs_head g <= 1024 * 255) by nia. nia.
Qed.

(** The registers determine the sector: one cylinder, head and sector for each
    sector of the geometry. *)
Lemma chs_lba_inj r r' g : within r g -> within r' g -> addressable g -> chs_lba r g = chs_lba r' g ->
  r_cylinder r = r_cylinder r' /\ r_head r = r_head r' /\ r_sector r = r_sector r'.
Proof.
  intros (_ & Hs & _ & Hh) (_ & Hs' & _ & Hh') (_ & Hg & Hn) E. destruct (r_ranges r) as (_ & ? & _ & ?).
  destruct (r_ranges r') as (_ & ? & _ & ?). unfold chs_lba in E.
  destruct (Z.div_mod_unique (chs_sector g) (r_cylinder r * chs_head g + r_head r) (r_cylinder r' * chs_head g + r_head r')
    (r_sector r - 1) (r_sector r' - 1)) as [E1 E2]; [lia..|].
  destruct (Z.div_mod_unique (chs_head g) (r_cylinder r) (r_cylinder r') (r_head r) (r_head r')) as [E3 E4]; lia.
Qed.

(** ** Old-style accesses *)

(** The state a handler of [disk_13] starts from. *)
Definition entered (s : st dev) : st dev := set_mem (SET_BDA 1 (s_mem s) disk_interrupt_flag 0) s.

Definition in_bda : Z -> Prop := in_range 0x400 0x100.

Lemma set_bda_out m off v x : 0 <= off < 256 -> ~ in_bda x -> SET_BDA 1 m off v x = m x.
Proof. intros Ho Hx. apply store_out. unfold far, SEG_BDA, in_bda, in_range in *. lia. Qed.

Lemma entered_ok s : mem_ok (s_mem s) -> mem_ok (s_mem (entered s)).
Proof. apply store_ok. Qed.

Lemma entered_out s x : ~ in_bda x -> s_mem (entered s) x = s_mem s x.
Proof. by apply set_bda_out. Qed.

Definition chs_request (command : Z) (r : disk_regs) (p : Z) (s : st dev) : disk_op_s :=
  mkDop (r_buffer r) p command (r_count r) (chs_lba r (getLCHS p (s_block s))).

Lemma basic_within command r p s : addressable (getLCHS p (s_block s)) -> within r (getLCHS p (s_block s)) ->
  basic_access command r p s =
    mbind (M := outcome) (fun a : answer => let '(status, n, s) := a in disk_ret (dr_with (with_al n) r) status s)
      (send_disk_op (chs_request command r p s) s).
Proof.
  intros Ha Hw. pose proof (chs_lba_bounds _ _ Ha Hw) as Hl. destruct Hw as (Hn & Hs & Hc & Hh). pose proof Ha as (? & ? & ?).
  unfold basic_access. fold (r_count r) (r_cylinder r) (r_sector r) (r_head r) (r_buffer r).
  destruct (Z.ltb_spec 128 (r_count r)); [lia|]. destruct (Z.eqb_spec (r_count r) 0); [lia|].
  destruct (Z.eqb_spec (r_sector r) 0); [lia|]. cbn [orb].
  destruct (Z.leb_spec (chs_cylinder (getLCHS p (s_block s))) (r_cylinder r)); [lia|].
  destruct (Z.leb_spec (chs_head (getLCHS p (s_block s))) (r_head r)); [lia|].
  destruct (Z.ltb_spec (chs_sector (getLCHS p (s_block s))) (r_sector r)); [lia|]. cbn [orb].
  unfold chs_request. fold (chs_lba r (getLCHS p (s_block s))). rewrite wrap_small; [done|].
  pose proof (capacity_bound _ Ha). unfold fits. lia.
Qed.

Lemma basic_outside command r p s : 0 < chs_sector (getLCHS p (s_block s)) -> ~ within r (getLCHS p (s_block s)) ->
  basic_access command r p s = disk_ret r DISK_RET_EPARAM s.
Proof.
  intros Hs Hw. destruct (r_ranges r) as (? & ? & ? & ?). unfold within in Hw.
  unfold basic_access. fold (r_count r) (r_cylinder r) (r_sector r) (r_head r) (r_buffer r).
  destruct (Z.ltb_spec 128 (r_count r)); [done|]. destruct (Z.eqb_spec (r_count r) 0); [done|].
  destruct (Z.eqb_spec (r_sector r) 0); [done|]. cbn [orb].
  destruct (Z.leb_spec (chs_cylinder (getLCHS p (s_block s))) (r_cylinder r)); [done|].
  destruct (Z.leb_spec (chs_head (getLCHS p (s_block s))) (r_head r)); [done|].
  destruct (Z.ltb_spec (chs_sector (getLCHS p (s_block s))) (r_sector r)); [done|]. lia.
Qed.

(** What the status leaves: the code in AH, the carry for an error, and memory
    as it was but for the status byte. *)
Lemma disk_ret_spec (r : disk_regs) code (s : st dev) : fits 8 code ->
  exists r' s', disk_ret r code s = Done (r', s') /\ s_block s' = s_block s /\ s_dev s' = s_dev s /\
    (mem_ok (s_mem s) -> mem_ok (s_mem s')) /\ (forall x, ~ in_bda x -> s_mem s' x = s_mem s x) /\
    lo8 (ax r') = lo8 (ax r) /\ hi8 (ax r') = code /\ r_cf r' = negb (code =? 0).
Proof.
  intros Hc. unfold disk_ret. rewrite (wrap_small 8) by done. eexists _, _. split; [reflexivity|]. do 2 (split; [done|]).
  split; [apply store_ok|]. split; [intros x Hx; apply set_bda_out; [|done]; by destruct (_ <? _)|].
  destruct (put_hi8_halves (ax r) code) as [E1 E2]. rewrite (wrap_small 8) in E2 by done. by split.
Qed.

(** What a call that reads leaves, when it succeeds and when it does not. *)
Definition call_reads (buf n from : Z) (content : Z -> Z) (scratch : Z -> Prop) (s : st dev) (r' : disk_regs) (s' : st dev) : Prop :=
  s_block s' = s_block s /\ mem_ok (s_mem s') /\ (forall p i, media (s_dev s') p i = media (s_dev s) p i) /\
  (forall x, ~ in_range buf (n * 512) x -> ~ scratch x -> ~ in_bda x -> s_mem s' x = s_mem s x) /\
  r_cf r' = negb (hi8 (ax r') =? 0) /\
  (r_cf r' = false -> forall i, 0 <= i < n * 512 -> s_mem s' (buf + i) = content (from * 512 + i)).

Lemma chs_read_call (r : disk_regs) (s : st dev) p content scratch : drive_for (lo8 (dx r)) (s_block s) = p -> p <> 0 -> hi8 (ax r) = 0x02 ->
  addressable (getLCHS p (s_block s)) -> within r (getLCHS p (s_block s)) -> 0x500 <= r_buffer r ->
  (exists a, send_disk_op (chs_request CMD_READ r p s) (entered s) = Done a /\
     read_spec 512 (chs_request CMD_READ r p s) content scratch (entered s) a) ->
  exists r' s', handle_13 r s = Done (r', s') /\ (r_cf r' = false -> lo8 (ax r') = r_count r) /\
    call_reads (r_buffer r) (r_count r) (chs_lba r (getLCHS p (s_block s))) content scratch s r' s'.
Proof.
  intros Hp Hp0 Hah Ha Hw Hbuf (a & Hs & Hr).
  rewrite old_call by (rewrite ?Hp, ?Hah; first [done|apply listed_02]). rewrite Hp.
  unfold disk_13. fold (entered s). cbn [handlers dispatch]. rewrite Hah. cbn [Z.eqb Pos.eqb].
  unfold disk_1302. rewrite basic_within by done. change (chs_request CMD_READ r p (entered s)) with (chs_request CMD_READ r p s).
  rewrite Hs. destruct a as [[ret n] s1]. run_outcome. destruct Hr as (Hst & Hb & Hok & Hmed & Hfr & Hret).
  destruct (disk_ret_spec (dr_with (with_al n) r) ret s1 Hst) as (r' & s' & -> & Hb' & Hd' & Hok' & Hm' & Hal & Hah' & Hcf).
  exists r', s'. split; [done|]. split.
  - rewrite Hcf. destruct (Z.eqb_spec ret 0) as [->|]; [|done]. intros _. destruct (Hret eq_refl) as [-> _]. rewrite Hal. cbn.
    destruct (put_lo8_halves (ax r) (r_count r)) as [E _]. rewrite E. apply wrap_small. destruct (r_ranges r). by unfold fits.
  - split; [by rewrite Hb', Hb|]. split; [by apply Hok'|]. split; [intros; by rewrite Hd', Hmed|]. split; [|split].
    + intros x H1 H2 H3. rewrite Hm' by done. rewrite Hfr by done. by apply entered_out.
    + by rewrite Hcf, Hah'.
    + rewrite Hcf. destruct (Z.eqb_spec ret 0) as [->|]; [|done]. intros _ i Hi. destruct (Hret eq_refl) as [_ Hin].
      rewrite Hm' by (unfold in_bda, in_range; lia). by apply Hin.
Qed.

(** The status of a call within the geometry is the one the driver gives the
    request for the sectors. *)
Definition driver_status (dr : driver) (op : disk_op_s) (s : st dev) : Z :=
  (driver_op dr (drives (s_block s) (drive_fl op)) op (s_mem s) (s_dev s)).1.1.1.

Lemma chs_read_status (r : disk_regs) (s : st dev) p dr r' s' :
  drive_for (lo8 (dx r)) (s_block s) = p -> p <> 0 -> hi8 (ax r) = 0x02 ->
  addressable (getLCHS p (s_block s)) -> within r (getLCHS p (s_block s)) ->
  (type_of p s, dr) ∈ reached true -> size_of p s = 512 -> mem_ok (s_mem s) ->
  handle_13 r s = Done (r', s') -> hi8 (ax r') = driver_status dr (chs_request CMD_READ r p s) (entered s).
Proof.
  intros Hp Hp0 Hah Ha Hw Hdr Hsz Hok.
  rewrite old_call by (rewrite ?Hp, ?Hah; first [done|apply listed_02]). rewrite Hp.
  unfold disk_13. fold (entered s). cbn [handlers dispatch]. rewrite Hah. cbn [Z.eqb Pos.eqb].
  unfold disk_1302. rewrite basic_within by done. change (chs_request CMD_READ r p (entered s)) with (chs_request CMD_READ r p s).
  unfold send_disk_op. rewrite (process_driver 1 true _ (entered s) dr); [|done|].
  2:{ destruct Hw as [? _]. change (r_count r * size_of p s <= 64 * 1024). lia. }
  unfold run, driver_status. destruct (driver_op _ _ _ _ _) as [[[ret n] m'] v'] eqn:Hd. run_outcome.
  destruct (driver_read _ _ _ _ _ _ _ _ _ Hd eq_refl (entered_ok s Hok)) as [Hret _].
  intros E. match type of E with disk_ret ?r1 _ ?s1 = _ => destruct (disk_ret_spec r1 ret s1 Hret)
    as (r2 & s2 & E2 & _ & _ & _ & _ & _ & Hst & _) end. rewrite E in E2. by injection E2 as -> _.
Qed.

(** ** Writes *)

(** A write leaves memory alone and changes the drive only where it was asked
    to; with status 0 the buffer is there. *)
Definition write_spec (bs : Z) (op : disk_op_s) (s : st dev) (a : answer) : Prop :=
  let '(ret, n, s') := a in
  fits 8 ret /\ s_block s' = s_block s /\ (forall x, s_mem s' x = s_mem s x) /\
  (forall p i, ~ (p = drive_fl op /\ in_range (lba op * bs) (count op * bs) i) ->
     media (s_dev s') p i = media (s_dev s) p i) /\
  (ret = 0 -> n = count op /\ forall i, 0 <= i < count op * bs ->
     media (s_dev s') (drive_fl op) (lba op * bs + i) = s_mem s (buf_fl op + i)).

Lemma hardware_write fuel seg op s : hardware seg (drive_fl op) s -> command op = CMD_WRITE -> mem_ok (s_mem s) ->
  count op * size_of (drive_fl op) s <= 64 * 1024 ->
  exists a, process_op (S fuel) seg op s = Done a /\ write_spec (size_of (drive_fl op) s) op s a.
Proof.
  intros Hh Hc Hok Hn. destruct (process_hardware fuel seg op s Hh Hn) as [dr Hp]. rewrite Hp. clear Hp.
  eexists. split; [reflexivity|]. unfold run.
  destruct (driver_op dr _ op _ _) as [[[ret n] m'] v'] eqn:Hd.
  destruct (driver_write _ _ _ _ _ _ _ _ _ Hd Hc Hok) as (Hret & Hm & Hmed & Hin).
  cbn [s_block s_mem s_dev]. do 4 (split; [done|]). intros ->. destruct (Hin eq_refl) as [-> Hi]. done.
Qed.

(** What a call that writes leaves. *)
Definition call_writes (buf n p from : Z) (s : st dev) (r' : disk_regs) (s' : st dev) : Prop :=
  s_block s' = s_block s /\ (forall x, ~ in_bda x -> s_mem s' x = s_mem s x) /\
  (forall q i, ~ (q = p /\ in_range (from * 512) (n * 512) i) -> media (s_dev s') q i = media (s_dev s) q i) /\
  r_cf r' = negb (hi8 (ax r') =? 0) /\
  (r_cf r' = false -> forall i, 0 <= i < n * 512 -> media (s_dev s') p (from * 512 + i) = s_mem s (buf + i)).

Lemma chs_write_call (r : disk_regs) (s : st dev) p : drive_for (lo8 (dx r)) (s_block s) = p -> p <> 0 -> hi8 (ax r) = 0x03 ->
  addressable (getLCHS p (s_block s)) -> within r (getLCHS p (s_block s)) -> 0x500 <= r_buffer r ->
  hardware true p s -> size_of p s = 512 -> mem_ok (s_mem s) ->
  exists r' s', handle_13 r s = Done (r', s') /\
    call_writes (r_buffer r) (r_count r) p (chs_lba r (getLCHS p (s_block s))) s r' s'.
Proof.
  intros Hp Hp0 Hah Ha Hw Hbuf Hh Hsz Hok.
  rewrite old_call by (rewrite ?Hp, ?Hah; first [done|apply listed_03]). rewrite Hp.
  unfold disk_13. fold (entered s). cbn [handlers dispatch]. rewrite Hah. cbn [Z.eqb Pos.eqb].
  unfold disk_1303. rewrite basic_within by done. change (chs_request CMD_WRITE r p (entered s)) with (chs_request CMD_WRITE r p s).
  destruct (hardware_write 1 true (chs_request CMD_WRITE r p s) (entered s)) as (a & Hs & Hr); [done|done|by apply entered_ok| |].
  { destruct Hw as [? _]. change (r_count r * size_of p s <= 64 * 1024). lia. }
  change (size_of (drive_fl (chs_request CMD_WRITE r p s)) (entered s)) with (size_of p s) in Hr. rewrite Hsz in Hr.
  unfold send_disk_op. rewrite Hs. destruct a as [[ret n] s1]. run_outcome. destruct Hr as (Hst & Hb & Hm & Hmed & Hret).
  destruct (disk_ret_spec (dr_with (with_al n) r) ret s1 Hst) as (r' & s' & -> & Hb' & Hd' & _ & Hm' & _ & Hah' & Hcf).
  exists r', s'. split; [done|]. split; [by rewrite Hb', Hb|]. split; [|split; [|split]].
  - intros x Hx. rewrite Hm', Hm by done. by apply entered_out.
  - intros q i Hq. rewrite Hd'. by apply Hmed.
  - by rewrite Hcf, Hah'.
  - rewrite Hcf, Hd'. destruct (Z.eqb_spec ret 0) as [->|]; [|done]. intros _ i Hi. destruct (Hret eq_refl) as [_ Hin].
    cbn [chs_request lba buf_fl drive_fl] in Hin. rewrite Hin by done. apply entered_out. unfold in_bda, in_range. lia.
Qed.

(** ** Accesses with a packet *)

Definition packet (r : disk_regs) : Z := far (r_ds r) (r_si r).
Definition p_lba (r : disk_regs) (m : mem) : Z := load 8 m (packet r + ext_lba).
Definition p_count (r : disk_regs) (m : mem) : Z := load 2 m (packet r + ext_count).
Definition p_buffer (r : disk_regs) (m : mem) : Z :=
  let data := load 4 m (packet r + ext_data) in MAKE_FLATPTR (so_seg data) (so_offset data).

(** The registers and the packet of a call for [n] sectors of [p] from [from]
    on; the packet is in neither the data area nor the buffer. *)
Record packet_call (ah : Z) (r : disk_regs) (p n from : Z) (s : st dev) : Prop := {
  pk_ah : hi8 (ax r) = ah;
  pk_drive : drive_for (lo8 (dx r)) (s_block s) = p;
  pk_plain : el_media (CDEmu (s_block s)) = 0;
  pk_disk : EXTSTART_HD <= lo8 (dx r);
  pk_lba : p_lba r (s_mem s) = from;
  pk_count : p_count r (s_mem s) = n;
  pk_bounds : from < sectors (drives (s_block s) p);
  pk_place : 0x500 <= packet r;
  pk_buffer : 0x500 <= p_buffer r (s_mem s);
  pk_apart : packet r + 16 <= p_buffer r (s_mem s) \/ p_buffer r (s_mem s) + n * 512 <= packet r
}.

Lemma extended_within command (r : disk_regs) (p n from : Z) (s s0 : st dev) :
  (forall i, 0 <= i < 16 -> s_mem s0 (packet r + i) = s_mem s (packet r + i)) -> s_block s0 = s_block s ->
  p_lba r (s_mem s) = from -> p_count r (s_mem s) = n -> from < sectors (drives (s_block s) p) -> n <> 0 ->
  extended_access command r p s0 =
    mbind (M := outcome) (fun a : answer => let '(status, k, s) := a in
        disk_ret r status (set_mem (store 2 (s_mem s) (packet r + ext_count) k) s))
      (send_disk_op (mkDop (p_buffer r (s_mem s)) p command n from) s0).
Proof.
  intros Hpk Hb Hl Hn Hlt Hn0. unfold extended_access, GET_FARVAR, SET_FARVAR.
  replace (far (r_ds r) (r_si r + ext_lba)) with (packet r + ext_lba) by (unfold packet, far; lia).
  replace (far (r_ds r) (r_si r + ext_data)) with (packet r + ext_data) by (unfold packet, far; lia).
  replace (far (r_ds r) (r_si r + ext_count)) with (packet r + ext_count) by (unfold packet, far; lia).
  assert (forall k off, 0 <= off -> off + Z.of_nat k <= 16 -> load k (s_mem s0) (packet r + off) = load k (s_mem s) (packet r + off))
    as Hld.
  { intros k off ? ?. apply load_ext. intros a Ha. replace a with (packet r + (a - packet r)) by lia. apply Hpk. lia. }
  rewrite !Hld by (unfold ext_lba, ext_data, ext_count; lia). rewrite Hb. fold (p_lba r (s_mem s)) (p_count r (s_mem s)).
  rewrite Hl, Hn. destruct (Z.leb_spec (sectors (drives (s_block s) p)) from); [lia|].
  destruct (Z.eqb_spec n 0); [done|]. done.
Qed.

Lemma packet_dispatch ah (r : disk_regs) p n from (s : st dev) : packet_call ah r p n from s -> p <> 0 -> ah <> 0x4b ->
  handle_13 r s = disk_13 r p s.
Proof.
  intros [Hah Hp Hpl Hdl _ _ _ _ _ _] Hp0 H4b. unfold handle_13, drive_for, legacy_drive in *. rewrite Hah, Hpl in *. cbn [Z.eqb] in *.
  apply Z.eqb_neq in H4b as ->. unfold handle_legacy_disk. destruct (Z.ltb_spec (lo8 (dx r)) EXTSTART_HD); [lia|].
  destruct (EXTSTART_CD <=? lo8 (dx r)); rewrite Hp; by apply Z.eqb_neq in Hp0 as ->.
Qed.

Lemma packet_entered ah (r : disk_regs) p n from (s : st dev) : packet_call ah r p n from s ->
  forall i, 0 <= i < 16 -> s_mem (entered s) (packet r + i) = s_mem s (packet r + i).
Proof. intros Hk i Hi. apply entered_out. pose proof (pk_place _ _ _ _ _ _ Hk). unfold in_bda, in_range. lia. Qed.

Lemma packet_read_call (r : disk_regs) (s : st dev) p n from : packet_call 0x42 r p n from s -> p <> 0 -> 1 <= n <= 128 ->
  hardware true p s -> size_of p s = 512 -> mem_ok (s_mem s) ->
  exists r' s', handle_13 r s = Done (r', s') /\ call_reads (p_buffer r (s_mem s)) n from (media (s_dev s) p)
    (in_range (packet r + ext_count) 2) s r' s'.
Proof.
  intros Hk Hp0 Hn Hh Hsz Hok. rewrite (packet_dispatch _ _ _ _ _ _ Hk) by done.
  unfold disk_13. fold (entered s). cbn [handlers dispatch]. rewrite (pk_ah _ _ _ _ _ _ Hk). cbn [Z.eqb Pos.eqb].
  pose proof (packet_entered _ _ _ _ _ _ Hk) as Hpe. pose proof Hk as [_ _ _ _ Hl Hc Hb Hpl Hbuf Hap].
  unfold disk_1342. rewrite (extended_within _ _ _ n from s) by (done || lia).
  set (op := mkDop (p_buffer r (s_mem s)) p CMD_READ n from).
  destruct (hardware_read 1 true op (entered s)) as (a & Hs & Hr); [done|done|by apply entered_ok| |].
  { change (n * size_of p s <= 64 * 1024). lia. }
  change (size_of (drive_fl op) (entered s)) with (size_of p s) in Hr. rewrite Hsz in Hr.
  unfold send_disk_op. rewrite Hs. destruct a as [[ret k] s1]. run_outcome. destruct Hr as (Hst & Hbk & Hok1 & Hmed & Hfr & Hret).
  destruct (disk_ret_spec r ret (set_mem (store 2 (s_mem s1) (packet r + ext_count) k) s1) Hst)
    as (r' & s' & -> & Hb' & Hd' & Hok' & Hm' & _ & Hah' & Hcf).
  exists r', s'. split; [done|]. cbn [s_mem s_dev s_block set_mem buf_fl count lba drive_fl op] in *.
  split; [by rewrite Hb', Hbk|]. split; [by apply Hok', store_ok|]. split; [intros; by rewrite Hd', Hmed|].
  split; [|split].
  - intros x H1 H2 H3. rewrite Hm' by done. rewrite store_out by (unfold in_range, ext_count in *; lia).
    rewrite Hfr by (done || tauto). by apply entered_out.
  - by rewrite Hcf, Hah'.
  - rewrite Hcf. destruct (Z.eqb_spec ret 0) as [->|]; [|done]. intros _ i Hi. destruct (Hret eq_refl) as [_ Hin].
    rewrite Hm' by (unfold in_bda, in_range; lia). rewrite store_out by (unfold ext_count; lia). by apply Hin.
Qed.

(** C17: what is written is read back.  After a successful write of function
    03h, by cylinder, head and sector, a successful read of function 42h, by
    the number of the sector, puts the bytes written in the buffer it names,
    whatever the program did to memory in between; the write changed no other
    sector of any drive. *)
Theorem disk_write_read (r1 r2 : disk_regs) (s s1 s3 : st dev) (m2 : mem) (r1' r2' : disk_regs) (p : Z) :
  drive_for (lo8 (dx r1)) (s_block s) = p -> p <> 0 -> hi8 (ax r1) = 0x03 ->
  addressable (getLCHS p (s_block s)) -> within r1 (getLCHS p (s_block s)) -> 0x500 <= r_buffer r1 ->
  hardware true p s -> size_of p s = 512 -> mem_ok (s_mem s) -> mem_ok m2 ->
  handle_13 r1 s = Done (r1', s1) -> r_cf r1' = false ->
  packet_call 0x42 r2 p (r_count r1) (chs_lba r1 (getLCHS p (s_block s))) (set_mem m2 s1) ->
  handle_13 r2 (set_mem m2 s1) = Done (r2', s3) -> r_cf r2' = false ->
  (forall i, 0 <= i < r_count r1 * 512 -> s_mem s3 (p_buffer r2 m2 + i) = s_mem s (r_buffer r1 + i)) /\
  (forall q i, ~ (q = p /\ in_range (chs_lba r1 (getLCHS p (s_block s)) * 512) (r_count r1 * 512) i) ->
     media (s_dev s3) q i = media (s_dev s) q i).
Proof.
  intros Hp Hp0 Hah Ha Hw Hbuf Hh Hsz Hok Hok2 H1 Hcf1 Hk H2 Hcf2.
  destruct (chs_write_call r1 s p) as (? & ? & E1 & Hwr); [done..|]. rewrite H1 in E1. injection E1 as <- <-.
  destruct Hwr as (Hb1 & _ & Hoth & _ & Hput). specialize (Hput Hcf1).
  destruct (packet_read_call r2 (set_mem m2 s1) p (r_count r1) (chs_lba r1 (getLCHS p (s_block s)))) as (? & ? & E2 & Hrd).
  - done.
  - done.
  - by destruct Hw.
  - unfold hardware, type_of. cbn. by rewrite Hb1.
  - unfold size_of. cbn. by rewrite Hb1.
  - done.
  - rewrite H2 in E2. injection E2 as <- <-. destruct Hrd as (_ & _ & Hmed & _ & _ & Hget). cbn [s_mem s_dev set_mem] in *. split.
    + intros i Hi. rewrite (Hget Hcf2) by done. by apply Hput.
    + intros q i Hq. rewrite Hmed. by apply Hoth.
Qed.

(** Function 02h reads the sectors a program names.  For a drive of a
    controller with a logical geometry the registers can express, a call whose
    cylinder, head, sector and count are within it returns; it changes nothing
    but the buffer and the data area, and without the carry the buffer holds
    the sectors; any other cylinder, head, sector or count is refused with
    status 1 and changes nothing but the data area. *)
Lemma disk_read_exact (r : disk_regs) (s : st dev) (p : Z) :
  drive_for (lo8 (dx r)) (s_block s) = p -> p <> 0 -> hi8 (ax r) = 0x02 ->
  addressable (getLCHS p (s_block s)) -> hardware true p s -> size_of p s = 512 -> mem_ok (s_mem s) -> 0x500 <= r_buffer r ->
  let g := getLCHS p (s_block s) in
  exists r' s', handle_13 r s = Done (r', s') /\
    (within r g -> call_reads (r_buffer r) (r_count r) (chs_lba r g) (media (s_dev s) p) (fun _ => False) s r' s' /\
       0 <= chs_lba r g < capacity g /\ (r_cf r' = false -> lo8 (ax r') = r_count r)) /\
    (~ within r g -> r_cf r' = true /\ hi8 (ax r') = DISK_RET_EPARAM /\ s_block s' = s_block s /\ s_dev s' = s_dev s /\
       forall x, ~ in_bda x -> s_mem s' x = s_mem s x).
Proof.
  intros Hp Hp0 Hah Ha Hh Hsz Hok Hbuf g. assert (Decision (within r g)) as [Hw|Hw] by (unfold within; apply _).
  - destruct (chs_read_call r s p (media (s_dev s) p) (fun _ => False)) as (r' & s' & E & Hal & Hc); [done..| |].
    { destruct (hardware_read 1 true (chs_request CMD_READ r p s) (entered s)) as (a & Hs & Hr);
        [done|done|by apply entered_ok| |].
      - destruct Hw as [? _]. change (r_count r * size_of p s <= 64 * 1024). lia.
      - exists a. split; [done|]. change (size_of (drive_fl (chs_request CMD_READ r p s)) (entered s)) with (size_of p s) in Hr.
        by rewrite Hsz in Hr. }
    exists r', s'. split; [done|]. split; [|done]. intros _. split; [done|]. split; [|done]. by apply chs_lba_bounds.
  - destruct (disk_ret_spec r DISK_RET_EPARAM (entered s)) as (r' & s' & E & Hb & Hd & _ & Hm & _ & Hah' & Hcf); [done|].
    exists r', s'. rewrite old_call by (rewrite ?Hp, ?Hah; first [done|apply listed_02]). rewrite Hp.
    unfold disk_13. fold (entered s). cbn [handlers dispatch]. rewrite Hah. cbn [Z.eqb Pos.eqb].
    unfold disk_1302. rewrite basic_outside by (done || (destruct Ha as (_ & _ & Hs & _); eapply Z.lt_le_trans, Hs; done)).
    split; [done|]. split; [done|]. intros _. rewrite Hcf, Hah'. do 4 (split; [done|]).
    intros x Hx. rewrite Hm by done. by apply entered_out.
Qed.

(** ** Every sector has its registers *)

Lemma high_cylinder v : fits 8 v -> Z.land (Z.shiftl v 2) 0x300 = Z.shiftl (v / 64) 8.
Proof.
  intros Hv. apply Z.eqb_eq.
  assert (Forall (fun v => (Z.land (Z.shiftl v 2) 0x300 =? Z.shiftl (v / 64) 8) = true) (seqZ 0 256)) as Hall.
  { apply (bool_decide_unpack _). vm_compute. done. }
  rewrite Forall_forall in Hall. apply Hall, elem_of_seqZ. unfold fits in Hv. lia.
Qed.

Lemma r_cylinder_sum (r : disk_regs) : r_cylinder r = hi8 (cx r) + lo8 (cx r) / 64 * 256.
Proof. unfold r_cylinder. rewrite high_cylinder by apply lo8_fits. by rewrite lor_add_shift by (lia || apply hi8_fits). Qed.

Lemma r_sector_mod (r : disk_regs) : r_sector r = lo8 (cx r) mod 64.
Proof. unfold r_sector. change 0x3f with (Z.ones 6). by rewrite Z.land_ones by lia. Qed.

(** CX and DH for a sector of the geometry. *)
Definition chs_cx (g : chs_s) (n : Z) : Z :=
  let c := n / (chs_head g * chs_sector g) in
  c / 256 * 64 + (n mod chs_sector g + 1) + c mod 256 * 256.
Definition chs_dh (g : chs_s) (n : Z) : Z := n / chs_sector g mod chs_head g.

Lemma chs_registers (g : chs_s) (n : Z) (r : disk_regs) : addressable g -> 0 <= n < capacity g ->
  cx r = chs_cx g n -> r_head r = chs_dh g n -> r_count r = 1 -> within r g /\ chs_lba r g = n.
Proof.
  intros (Hc & Hh & Hs) Hn Hcx Hdh Hcount. unfold capacity in Hn.
  set (hs := chs_head g * chs_sector g) in *.
  assert (0 <= n / hs < chs_cylinder g) as Hcyl by (split; [apply Z.div_pos; nia|apply Z.div_lt_upper_bound; nia]).
  pose proof (Z.mod_pos_bound n (chs_sector g)) as Hms. pose proof (Z.div_mod n (chs_sector g)) as Hds.
  pose proof (Z.mod_pos_bound (n / chs_sector g) (chs_head g)) as Hmh.
  pose proof (Z.div_mod (n / chs_sector g) (chs_head g)) as Hdh'.
  assert (n / chs_sector g / chs_head g = n / hs) as Hq by (rewrite Z.div_div by lia; by rewrite Z.mul_comm).
  rewrite Hq in Hdh'. set (c := n / hs) in *. set (m := n mod chs_sector g) in *.
  assert (lo8 (cx r) = c / 256 * 64 + (m + 1) /\ hi8 (cx r) = c mod 256) as [Elo Ehi].
  { pose proof (Z.mod_pos_bound c 256). assert (0 <= c / 256 <= 3) by (split; [apply Z.div_pos; lia|apply Z.lt_succ_r, Z.div_lt_upper_bound; lia]).
    destruct (reg_halves (c / 256 * 64 + (m + 1)) (c mod 256)) as [E1 E2]; [unfold fits; lia..|].
    unfold chs_cx in Hcx. fold hs c m in Hcx. rewrite <- Hcx in E1, E2. rewrite wrap_small in E1, E2; [done|..];
      rewrite Hcx; unfold fits; lia. }
  assert (r_sector r = m + 1) as Esec by (rewrite r_sector_mod, Elo; rewrite Z.add_comm, Z.mod_add by lia; apply Z.mod_small; lia).
  assert (r_cylinder r = c) as Ecyl.
  { rewrite r_cylinder_sum, Elo, Ehi. rewrite Z.add_comm with (m := m + 1), Z.div_add by lia.
    rewrite (Z.div_small (m + 1)) by lia. pose proof (Z.div_mod c 256). lia. }
  unfold chs_dh in Hdh. unfold within, chs_lba. rewrite Ecyl, Esec, Hdh, Hcount. split; [lia|]. nia.
Qed.

(** ** Mapped disks *)

Lemma fill_fdpt_ok d hdid m : mem_ok m -> mem_ok (fill_fdpt d hdid m).
Proof.
  intros Hok. unfold fill_fdpt. destruct (1 <? hdid); [done|]. apply store_ok.
  destruct (_ && _); repeat apply store_ok; done.
Qed.

(** Mapping a disk makes it the next one, with a logical geometry on it. *)
Lemma map_hd_spec p b m row : drive_ok (drives b p) -> host_lchs_supplied (drives b p) = false -> mem_ok m ->
  IDMap b !! EXTTYPE_HD = Some row -> length row = 16%nat -> GET_BDA 1 m hdcount < 16 ->
  exists b1 m1, map_hd_drive p b m = Done (b1, m1) /\ mem_ok m1 /\
    getDrive EXTTYPE_HD (GET_BDA 1 m hdcount) b1 = p /\ addressable (lchs (drives b1 p)) /\
    capacity (lchs (drives b1 p)) <= sectors (drives b p) /\ d_type (drives b1 p) = d_type (drives b p) /\
    blksize (drives b1 p) = blksize (drives b p) /\ CDEmu b1 = CDEmu b /\ cdemu_drive_gf b1 = cdemu_drive_gf b.
Proof.
  intros Hd Hh Hok Hrow Hlen Hn. pose proof (load_fits 1 m (far SEG_BDA hdcount) Hok) as [H0 _].
  change (load 1 m (far SEG_BDA hdcount)) with (GET_BDA 1 m hdcount) in H0.
  set (i := GET_BDA 1 m hdcount) in *. unfold map_hd_drive. fold i. unfold add_drive, id_row, BUILD_MAX_EXTDRIVE. rewrite Hrow. cbn [from_option id].
  destruct (Z.leb_spec 16 i); [lia|]. destruct (get_translation_sound (drives b p) Hd Hh) as (t & Ht & Hsnd).
  unfold setup_translation. cbn [drives set_idmap]. rewrite Ht. run_outcome. unfold translated in Hsnd.
  destruct (translate t (drives b p)) as [[c h] n]. eexists _, _. split; [reflexivity|]. destruct Hsnd as (Ha & Hcap & _).
  cbn [drives set_drive IDMap set_idmap CDEmu cdemu_drive_gf]. rewrite !decide_True by done. cbn [lchs set_lchs d_type blksize].
  split; [apply fill_fdpt_ok, store_ok, Hok|]. split; [|done]. unfold getDrive, BUILD_MAX_EXTDRIVE. cbn [IDMap set_drive set_idmap].
  destruct (Z.leb_spec 16 i); [lia|]. apply lookup_lt_Some in Hrow as Hlt. rewrite list_lookup_insert_eq by done. cbn [from_option id].
  rewrite list_lookup_insert_eq by lia. done.
Qed.

(** C18: a disk that was mapped can be read, all of what its geometry names.
    [map_hd_drive] gives the next drive number to a disk of a controller with
    sectors of 512 bytes, and a logical geometry on the disk.  Then for every
    sector below the capacity of that geometry there are registers with which
    function 02h asks the driver of the disk for exactly that sector into the
    buffer.  The call has the status the driver gives; it is without the carry
    when that is 0, the buffer then holds the bytes of the sector, and nothing
    else but the data area is changed. *)
Theorem mapped_disk_readable (p : Z) (b : block) (m : mem) (v : dev) (row : list Z) (dr : driver) :
  drive_ok (drives b p) -> host_lchs_supplied (drives b p) = false -> mem_ok m ->
  (d_type (drives b p), dr) ∈ reached true -> blksize (drives b p) = 512 -> p <> 0 -> p <> cdemu_drive_gf b ->
  el_media (CDEmu b) = 0 -> IDMap b !! EXTTYPE_HD = Some row -> length row = 16%nat -> GET_BDA 1 m hdcount < 16 ->
  exists b1 m1, map_hd_drive p b m = Done (b1, m1) /\ let g := lchs (drives b1 p) in
    addressable g /\ capacity g <= sectors (drives b p) /\
    forall (n : Z) (r : disk_regs), 0 <= n < capacity g -> hi8 (ax r) = 0x02 -> lo8 (ax r) = 1 ->
      cx r = chs_cx g n -> hi8 (dx r) = chs_dh g n -> lo8 (dx r) = EXTSTART_HD + GET_BDA 1 m hdcount -> 0x500 <= r_buffer r ->
      exists r' s', handle_13 r (mkSt m1 v b1) = Done (r', s') /\
        hi8 (ax r') = driver_status dr (mkDop (r_buffer r) p CMD_READ 1 n) (entered (mkSt m1 v b1)) /\
        call_reads (r_buffer r) 1 n (media v p) (fun _ => False) (mkSt m1 v b1) r' s'.
Proof.
  intros Hd Hh Hok Hdr Hbs Hp0 Hpc Hem Hrow Hlen Hn.
  destruct (map_hd_spec p b m row Hd Hh Hok Hrow Hlen Hn) as (b1 & m1 & E & Hok1 & Hget & Ha & Hcap & Hty & Hbs1 & Hcd & Hcg).
  exists b1, m1. split; [done|]. intros g. split; [done|]. split; [done|]. intros n r Hnr Hah Hal Hcx Hdh Hdl Hbuf.
  pose proof (load_fits 1 m (far SEG_BDA hdcount) Hok) as [H0 _].
  change (load 1 m (far SEG_BDA hdcount)) with (GET_BDA 1 m hdcount) in H0. unfold EXTSTART_HD in Hdl.
  assert (getLCHS p b1 = g) as Hg by (unfold getLCHS; rewrite Hcg; by apply Z.eqb_neq in Hpc as ->).
  destruct (chs_registers g n r) as [Hw Hlba]; [done..|].
  assert (drive_for (lo8 (dx r)) b1 = p) as Hfor.
  { unfold drive_for, legacy_drive, EXTSTART_HD, EXTSTART_CD. rewrite Hcd, Hem. cbn [Z.eqb]. rewrite Hdl.
    destruct (Z.ltb_spec (0x80 + GET_BDA 1 m hdcount) 0x80); [lia|].
    destruct (Z.leb_spec 0xe0 (0x80 + GET_BDA 1 m hdcount)); [lia|]. etransitivity; [|exact Hget]. f_equal. lia. }
  assert ((type_of p (mkSt m1 v b1), dr) ∈ reached true) as Hdr1 by (unfold type_of; cbn; by rewrite Hty).
  assert (size_of p (mkSt m1 v b1) = 512) as Hsz1 by (unfold size_of; cbn; by rewrite Hbs1).
  destruct (disk_read_exact r (mkSt m1 v b1) p) as (r' & s' & Hcall & Hin & _); cbn [s_block s_mem s_dev].
  - done.
  - done.
  - done.
  - by rewrite Hg.
  - by exists dr.
  - done.
  - done.
  - done.
  - pose proof (chs_read_status r (mkSt m1 v b1) p dr r' s') as Hst. unfold chs_request in Hst. cbn [s_block s_mem s_dev] in Hin, Hst.
    rewrite Hg in Hin, Hst. destruct (Hin Hw) as [Hc _]. rewrite Hlba in Hc, Hst.
    unfold r_count in Hc, Hst. rewrite Hal in Hc, Hst. exists r', s'. split; [done|]. split; [|done]. by apply Hst.
Qed.

(** ** The drive of an emulated CD *)

(** A program started from a CD with an emulated disk sees the image.  For
    the emulated drive a call of function 02h within the geometry of the boot
    catalogue returns and changes nothing but the buffer, the bounce buffer and
    the data area; without the carry the buffer holds the 512-byte sectors of
    the image, at whatever offset in the blocks of 2048 bytes of the CD they
    start and end. *)
Lemma image_read_call (r : disk_regs) (s : st dev) (p : Z) :
  el_media (CDEmu (s_block s)) <> 0 -> lo8 (dx r) = el_emulated_drive (CDEmu (s_block s)) ->
  cdemu_drive_gf (s_block s) = p -> p <> 0 -> type_of p s = DTYPE_CDEMU -> size_of p s = 512 ->
  hi8 (ax r) = 0x02 -> addressable (getLCHS p (s_block s)) -> within r (getLCHS p (s_block s)) ->
  hardware true (cd_of s) s -> size_of (cd_of s) s = 2048 -> fits 32 (ilba s) -> mem_ok (s_mem s) ->
  0x500 <= r_buffer r -> r_buffer r + r_count r * 512 < 2 ^ 20 ->
  0x500 <= bounce_buf_fl (s_block s) -> bounce_buf_fl (s_block s) + 2048 < 2 ^ 20 ->
  r_buffer r + r_count r * 512 <= bounce_buf_fl (s_block s) \/ bounce_buf_fl (s_block s) + 2048 <= r_buffer r ->
  exists r' s', handle_13 r s = Done (r', s') /\ (r_cf r' = false -> lo8 (ax r') = r_count r) /\
    call_reads (r_buffer r) (r_count r) (chs_lba r (getLCHS p (s_block s))) (image s) (bounce s) s r' s'.
Proof.
  intros Hem Hdl Hp Hp0 Hty Hsz Hah Ha Hw Hcd Hcz Hil Hok Hb1 Hb2 Hb3 Hb4 Hap.
  apply chs_read_call; [|done..|].
  - unfold drive_for. apply Z.eqb_neq in Hem as ->. rewrite <- Hdl, Z.eqb_refl. done.
  - pose proof (chs_lba_bounds _ _ Ha Hw) as Hl. pose proof (capacity_bound _ Ha). destruct Hw as [Hcount _].
    destruct (emulated_read (chs_request CMD_READ r p s) (entered s)) as (a & Hs & Hr); [done|done| |by apply entered_ok|].
    + split; try done; cbn [command count lba buf_fl chs_request]; change (ilba (entered s)) with (ilba s);
        change (s_block (entered s)) with (s_block s); unfold fits in Hil; lia.
    + exists a. split; [done|]. exact Hr.
Qed.

End host.

(** * A machine with such drives *)

(** The bytes of each drive are a function; every request succeeds. *)
Definition plain_dev : Type := Z -> Z -> Z.

Definition plain_driver (d : drive_s) (op : disk_op_s) (m : mem) (v : plain_dev) : Z * Z * mem * plain_dev :=
  let at_byte := lba op * blksize d in
  let len := count op * blksize d in
  if command op =? CMD_READ then
    (0, count op, fun a => if (buf_fl op <=? a) && (a <? buf_fl op + len) then u8 (v (drive_fl op) (at_byte + (a - buf_fl op))) else m a, v)
  else if command op =? CMD_WRITE then
    (0, count op, m, fun p i => if (p =? drive_fl op) && (at_byte <=? i) && (i <? at_byte + len) then m (buf_fl op + (i - at_byte)) else v p i)
  else (default_process_op (command op), count op, m, v).

Definition plain_disks : BlockHost plain_dev := {|
  driver_op := fun _ => plain_driver;
  real_mode := true;
  int15_52 := fun _ m => (true, m);
  SEG_LOW := 0x9fc0;
  off_DefaultDPTE := 0x100;
  diskette_param_table2 := 0xefc7
|}.

Definition plain_media : BlockMedia plain_dev (H := plain_disks).
Proof.
  refine {| media := fun v p i => u8 (v p i) |}; intros dr d op m v ret n m' v' E Hc Hok; cbn in E; unfold plain_driver in E;
    rewrite Hc in E; cbn [Z.eqb Pos.eqb CMD_READ CMD_WRITE] in E; injection E as <- <- <- <-.
  - split; [done|]. split; [|split; [|split; [done|]]].
    + intros a. destruct (_ && _); [by apply wrap_fits|apply Hok].
    + intros a Ha. unfold in_range in Ha. destruct (Z.leb_spec (buf_fl op) a), (Z.ltb_spec a (buf_fl op + count op * blksize d)); (done || lia).
    + intros _. split; [done|]. intros i Hi. destruct (Z.leb_spec (buf_fl op) (buf_fl op + i)); [|lia].
      destruct (Z.ltb_spec (buf_fl op + i) (buf_fl op + count op * blksize d)); [|lia]. cbn [andb]. do 2 f_equal. lia.
  - split; [done|]. split; [done|]. split.
    + intros p i Hp. unfold in_range in Hp. destruct (Z.eqb_spec p (drive_fl op)), (Z.leb_spec (lba op * blksize d) i),
        (Z.ltb_spec i (lba op * blksize d + count op * blksize d)); (done || (exfalso; apply Hp; lia)).
    + intros _. split; [done|]. intros i Hi. rewrite Z.eqb_refl. destruct (Z.leb_spec (lba op * blksize d) (lba op * blksize d + i)); [|lia].
      destruct (Z.ltb_spec (lba op * blksize d + i) (lba op * blksize d + count op * blksize d)); [|lia]. cbn [andb].
      replace (buf_fl op + (lba op * blksize d + i - lba op * blksize d)) with (buf_fl op + i) by lia. apply wrap_small, Hok.
Defined.

(** A disk of 20 MB at 0x20000 and a CD at 0x30000, whose drive is emulated
    with the description at 0x40000. *)
Definition demo_disk : drive_s := mkDrive DTYPE_AHCI 0 (mkChs 4 615 17) 41820 0 0 512 (mkChs 4 615 17).
Definition demo_cd : drive_s := mkDrive DTYPE_AHCI_ATAPI 0 (mkChs 0 0 0) (2 ^ 64 - 1) 0 0 2048 (mkChs 0 0 0).
Definition demo_image : drive_s := mkDrive DTYPE_CDEMU 0 (mkChs 0 0 0) (2 ^ 64 - 1) 0 0 512 (mkChs 0 0 0).

Definition demo_block (media : Z) : block :=
  mkBlock (fun p => if p =? 0x20000 then demo_disk else if p =? 0x30000 then demo_cd else demo_image)
    (fun _ => mkAta 0 0 0 0 0 0)
    [replicate 16 0; 0x20000 :: replicate 15 0; 0x30000 :: replicate 15 0] 0 1 0x60000
    (mkEltorito 19 media 0 0 0x100 0 0 0x7c0 4 (mkPacked 1 18 79)) 0x30000 0x40000 (replicate 16 0).

Definition demo_bytes : plain_dev := fun p i => p + i.
Definition demo_state (media : Z) : st plain_dev := mkSt (fun a => u8 a) demo_bytes (demo_block media).

(** A call of function [ah] for [n] sectors at [cx] and [dx], to 0x1000:[bx]. *)
Definition call13 (ah n cx dx bx si : Z) : disk_regs := mkDregs (mkRegs (256 * ah + n) bx cx dx 0 0 0x1000) si 0x2000 false.

Lemma demo_ok media : mem_ok (s_mem (demo_state media)).
Proof. intros a. by apply wrap_fits. Qed.

Lemma demo_hardware media seg p : p = 0x20000 \/ p = 0x30000 -> hardware (H := plain_disks) seg p (demo_state media).
Proof.
  intros [-> | ->]; [exists ahci|exists ahci_atapi]; destruct seg; apply (bool_decide_unpack _); vm_compute; done.
Qed.

(** Two sectors written at cylinder 1, head 2, sector 3 and read back as
    sectors 104 and 105. *)
Definition demo_packet : mem :=
  store_bytes (fun a => u8 a) 0x20100 [16; 0; 2; 0; 0; 0; 0; 0x30; 104; 0; 0; 0; 0; 0; 0; 0].

Lemma disk_write_read_witness : exists s3 : st plain_dev,
  (forall i, 0 <= i < 1024 -> s_mem s3 (0x30000 + i) = u8 (0x10000 + i)) /\ u8 (s_dev s3 0x20000 0) = 0.
Proof.
  set (r1 := call13 3 2 0x0103 0x0280 0 0). set (r2 := call13 0x42 0 0 0x80 0 0x100). set (s := demo_state 0).
  assert (addressable (getLCHS 0x20000 (s_block s))) as Ha by (vm_compute; intuition congruence).
  assert (within r1 (getLCHS 0x20000 (s_block s))) as Hw by (vm_compute; intuition congruence).
  assert (0x500 <= r_buffer r1) as Hbuf by (vm_compute; congruence).
  destruct (chs_write_call (H := plain_disks) (M := plain_media) r1 s 0x20000) as (r1' & s1 & E1 & Hb1 & _);
    [reflexivity|lia|reflexivity|done|done|done|apply demo_hardware; lia|reflexivity|apply demo_ok|].
  assert (r_cf r1' = false) as Hc1.
  { assert ((fun x => r_cf x.1) <$> handle_13 (H := plain_disks) r1 s = Done false) as E by (vm_compute; reflexivity).
    rewrite E1 in E. by injection E. }
  destruct s1 as [m1 v1 b1]. cbn [s_block] in Hb1. subst b1.
  assert (mem_ok demo_packet) as Hm2 by (apply store_bytes_ok; intros a; by apply wrap_fits).
  assert (packet_call 0x42 r2 0x20000 2 104 (mkSt demo_packet v1 (s_block s))) as Hk.
  { split; vm_compute; (reflexivity || congruence || (left; congruence)). }
  destruct (packet_read_call (H := plain_disks) (M := plain_media) r2 (mkSt demo_packet v1 (s_block s)) 0x20000 2 104)
    as (r2' & s3 & E2 & _); [done|lia|lia|apply demo_hardware; lia|reflexivity|done|].
  assert (r_cf r2' = false) as Hc2.
  { assert ((fun x => r_cf x.1) <$> handle_13 (H := plain_disks) r2 (mkSt demo_packet v1 (s_block s)) = Done false) as E
      by (vm_compute; reflexivity).
    rewrite E2 in E. by injection E. }
  destruct (disk_write_read (H := plain_disks) (M := plain_media) r1 r2 s (mkSt m1 v1 (s_block s)) s3 demo_packet r1' r2' 0x20000)
    as [Hget Hoth]; [reflexivity|lia|reflexivity|done|done|done|apply demo_hardware; lia|reflexivity|apply demo_ok|done|done|done|done|done|done|].
  exists s3. split.
  - intros i Hi. apply Hget. exact Hi.
  - apply (Hoth 0x20000 0). intros [_ Hr]. vm_compute in Hr. by destruct Hr.
Defined.

(** The disk when it is mapped first. *)
Definition fresh_block : block :=
  set_drive 0x20000 (mkDrive DTYPE_AHCI 0 (mkChs 0 0 0) 41820 0 0 512 (mkChs 4 615 17))
    (set_idmap EXTTYPE_HD (replicate 16 0) (demo_block 0)).

Lemma mapped_disk_readable_witness : exists b1 m1,
  map_hd_drive 0x20000 fresh_block (fun _ => 0) = Done (b1, m1) /\ capacity (lchs (drives b1 0x20000)) = 41820 /\
  exists r r' s', handle_13 (H := plain_disks) r (mkSt m1 demo_bytes b1) = Done (r', s') /\
    r_cf r' = false /\ s_mem s' 0x10000 = u8 (0x20000 + 41819 * 512).
Proof.
  destruct (mapped_disk_readable (H := plain_disks) (M := plain_media) 0x20000 fresh_block (fun _ => 0) demo_bytes (replicate 16 0) ahci)
    as (b1 & m1 & E & Ha & Hcap & Hread).
  - split; vm_compute; intuition congruence.
  - reflexivity.
  - by intros a.
  - apply (bool_decide_unpack _). vm_compute. done.
  - reflexivity.
  - lia.
  - vm_compute. congruence.
  - reflexivity.
  - reflexivity.
  - reflexivity.
  - vm_compute. reflexivity.
  - assert ((fun x => lchs (drives x.1 0x20000)) <$> map_hd_drive 0x20000 fresh_block (fun _ => 0) = Done (mkChs 4 615 17)) as Eg
      by (vm_compute; reflexivity).
    rewrite E in Eg. injection Eg as Eg. exists b1, m1. split; [done|]. rewrite Eg in *. split; [reflexivity|].
    destruct (Hread 41819 (call13 2 1 (chs_cx (mkChs 4 615 17) 41819) (256 * chs_dh (mkChs 4 615 17) 41819 + 0x80) 0 0))
      as (r' & s' & Ec & Hst & _ & _ & _ & _ & Hcf & Hin); [vm_compute; intuition congruence|reflexivity..|vm_compute; congruence|].
    change (hi8 (ax r') = 0) in Hst. rewrite Hst in Hcf.
    eexists _, r', s'. split; [exact Ec|]. split; [exact Hcf|]. apply (Hin Hcf 0). lia.
Defined.

(** Sectors 2 to 7 of the image: from the middle of a block to the end of
    another. *)
Lemma image_read_call_witness : exists r' s',
  handle_13 (H := plain_disks) (call13 2 6 0x0003 0x0000 0 0) (demo_state 2) = Done (r', s') /\ r_cf r' = false /\
  s_mem s' 0x10000 = u8 (0x30000 + (0x100 * 2048 + 2 * 512)).
Proof.
  destruct (image_read_call (H := plain_disks) (M := plain_media) (call13 2 6 0x0003 0x0000 0 0) (demo_state 2) 0x40000)
    as (r' & s' & E & _ & _ & _ & _ & _ & _ & Hin);
    [vm_compute; congruence|reflexivity|reflexivity|lia|reflexivity|reflexivity|reflexivity|vm_compute; intuition congruence|
     vm_compute; intuition congruence|apply demo_hardware; by right|reflexivity|vm_compute; intuition congruence|apply demo_ok|
     vm_compute; congruence|vm_compute; reflexivity|vm_compute; congruence|vm_compute; reflexivity|left; vm_compute; congruence|].
  assert (r_cf r' = false) as Hc.
  { assert ((fun x => r_cf x.1) <$> handle_13 (H := plain_disks) (call13 2 6 0x0003 0x0000 0 0) (demo_state 2) = Done false) as Ec
      by (vm_compute; reflexivity).
    rewrite E in Ec. by injection Ec. }
  exists r', s'. split; [exact E|]. split; [exact Hc|]. apply (Hin Hc 0). vm_compute. intuition congruence.
Defined.
