(* ===== verification/SeaCd.v ===== *)
(** Booting from a CD ([cdrom_boot] of [seabios/src/cdrom.c], the El Torito
    boot catalogue).

    The code runs in 32-bit mode and reads the CD with [process_op] into a
    local array of 2048 bytes, whose address is [buffer].  The check that the
    drive is ready, whose result is only printed, is [scsi_is_ready]; the
    measurement of the catalogue by a security module is left out. *)

From stdpp Require Import base numbers list.
From Stdlib Require Import ZArith Lia.
From S2P Require Import Prelude Memory SeaString CcInt VgaState VgaFb VgaVbe VgaBios SeaBlock SeaDisk SeaDiskSpec.

(** ["CD001\001EL TORITO SPECIFICATION"] with its terminator. *)
Definition eltorito_id : list Z :=
  [67; 68; 48; 48; 49; 1; 69; 76; 32; 84; 79; 82; 73; 84; 79; 32; 83; 80; 69; 67; 73; 70; 73; 67; 65; 84; 73; 79; 78; 0].

(** The fields of [CDEmu] that [cdrom_boot] sets before it loads the image. *)
Definition set_catalogue (seg n ilba cntl : Z) (e : eltorito_s) : eltorito_s :=
  mkEltorito (el_size e) (el_media e) (el_emulated_drive e) (u8 (cntl / 2)) ilba (u16 (cntl mod 2)) 0 seg n (el_chs e).

Definition set_emulated_drive (v : Z) (e : eltorito_s) : eltorito_s :=
  mkEltorito (el_size e) (el_media e) (u8 v) (el_controller_index e) (el_ilba e) (el_device_spec e)
    (el_buffer_segment e) (el_load_segment e) (el_sector_count e) (el_chs e).

Definition set_chs (c : packed_chs_s) (e : eltorito_s) : eltorito_s :=
  mkEltorito (el_size e) (el_media e) (el_emulated_drive e) (el_controller_index e) (el_ilba e) (el_device_spec e)
    (el_buffer_segment e) (el_load_segment e) (el_sector_count e) c.

Definition put_cdemu {dev : Type} (e : eltorito_s) (s : st dev) : st dev :=
  set_block (set_emulation e (emulated_drive_gf (s_block s)) (s_block s)) s.

(** The geometry of the three floppy formats. *)
Definition floppy_chs (media : Z) (c : packed_chs_s) : packed_chs_s :=
  if media =? 1 then mkPacked 1 15 79 else if media =? 2 then mkPacked 1 18 79 else if media =? 3 then mkPacked 1 36 79 else c.

Section boot.
Context {dev : Type} {H : BlockHost dev}.
Variable scsi_is_ready : Z -> mem -> dev -> mem * dev.
Variable buffer : Z.

Definition read_blocks (p lba n buf : Z) (s : st dev) : outcome (Z * Z * st dev) :=
  process_op 1 false (mkDop buf p CMD_READ n lba) s.

(** The loop that loads the image, at most 64 KB at a time. *)
Fixpoint load_image (fuel : nat) (p nbsectors lba buf : Z) (s : st dev) : outcome (Z * st dev) :=
  if nbsectors =? 0 then mret (0, s)
  else
    match fuel with
    | O => Undefined
    | S f =>
      let count := Z.min nbsectors (64 * 1024 / CDROM_SECTOR_SIZE) in
      '(ret, _, s) ← read_blocks p lba count buf s;
      if negb (ret =? 0) then mret (12, s)
      else load_image f p (nbsectors - count) (u64 (lba + count)) (u32 (buf + count * CDROM_SECTOR_SIZE)) s
    end.

(** The checks of the catalogue. *)
Definition catalogue_error (m : mem) : Z :=
  if negb (m buffer =? 0x01) then 8
  else if negb (m (buffer + 1) =? 0x00) then 9
  else if negb (m (buffer + 0x1e) =? 0x55) then 10
  else if negb (m (buffer + 0x1f) =? 0xaa) then 10
  else if negb (m (buffer + 0x20) =? 0x88) then 11
  else 0.

(** The emulation that was asked for. *)
Definition start_emulation (media seg cdid : Z) (s : st dev) : Z * st dev :=
  let e := CDEmu (s_block s) in
  if media =? 0 then (0, put_cdemu (set_emulated_drive (EXTSTART_CD + cdid) e) s)
  else if cdemu_drive_gf (s_block s) =? 0 then (13, s)
  else
    let '(e, m) :=
      if media <? 4 then
        (set_chs (floppy_chs media (el_chs e)) (set_emulated_drive 0x00 e), set_equipment_flags 0x41 0x41 (s_mem s))
      else
        let m := SET_BDA 1 (s_mem s) hdcount (GET_BDA 1 (s_mem s) hdcount + 1) in
        let mbr := MAKE_FLATPTR seg 0 in
        (set_chs (mkPacked (m (mbr + 0x1c3)) (m (mbr + 0x1c4)) (m (mbr + 0x1c5))) (set_emulated_drive 0x80 e), m) in
    (0, put_cdemu (set_media media e) (set_mem m s)).

Definition cdrom_boot (p : Z) (s : st dev) : outcome (Z * st dev) :=
  let cdid := getDriveId EXTTYPE_CD p (s_block s) in
  if (p =? 0) || (cdid <? 0) then mret (1, s)
  else
    let '(m, v) := scsi_is_ready p (s_mem s) (s_dev s) in
    '(ret, _, s) ← read_blocks p 0x11 1 buffer (mkSt m v (s_block s));
    let m := s_mem s in
    if negb (ret =? 0) then mret (3, s)
    else if negb (m buffer =? 0) then mret (4, s)
    else if negb (bool_decide (load_bytes m (buffer + 1) 30 = eltorito_id)) then mret (5, s)
    else
      '(ret, _, s) ← read_blocks p (load 4 m (buffer + 0x47)) 1 buffer s;
      let m := s_mem s in
      if negb (ret =? 0) then mret (7, s)
      else if negb (catalogue_error m =? 0) then mret (catalogue_error m, s)
      else
        let media := m (buffer + 0x21) in
        let seg := if load 2 m (buffer + 0x22) =? 0 then 0x07c0 else load 2 m (buffer + 0x22) in
        let nbsectors := load 2 m (buffer + 0x26) in
        let lba := load 4 m (buffer + 0x28) in
        let e := set_catalogue seg nbsectors lba (cntl_id (drives (s_block s) p)) (CDEmu (s_block s)) in
        let s := set_block (set_emulation e p (s_block s)) s in
        let n := DIV_ROUND_UP nbsectors 4 in
        '(ret, s) ← load_image (Z.to_nat n) p n lba (MAKE_FLATPTR seg 0) s;
        if negb (ret =? 0) then mret (ret, s) else mret (start_emulation media seg cdid s).

End boot.

(** * What is loaded *)

Section spec.
Context {dev : Type} {H : BlockHost dev} {M : BlockMedia dev}.

(** The state after requests to a CD: the block layer and the media as they
    were, memory too but for a range. *)
Definition loaded (a len : Z) (s s' : st dev) : Prop :=
  s_block s' = s_block s /\ mem_ok (s_mem s') /\ (forall q i, media (s_dev s') q i = media (s_dev s) q i) /\
  (forall x, ~ in_range a len x -> s_mem s' x = s_mem s x).

Lemma read_blocks_spec p lba n buf (s : st dev) : hardware false p s -> size_of p s = 2048 -> mem_ok (s_mem s) -> 0 <= n <= 32 ->
  exists ret k s', read_blocks p lba n buf s = Done (ret, k, s') /\ loaded buf (n * 2048) s s' /\
    (ret = 0 -> forall i, 0 <= i < n * 2048 -> s_mem s' (buf + i) = media (s_dev s) p (lba * 2048 + i)).
Proof.
  intros Hh Hsz Hok Hn. unfold read_blocks.
  destruct (hardware_read 0 false (mkDop buf p CMD_READ n lba) s) as (a & Ha & Hr); [done|done|done| |].
  { cbn. rewrite Hsz. lia. }
  destruct a as [[ret k] s']. cbn [drive_fl] in Hr. rewrite Hsz in Hr. destruct Hr as (_ & Hb & Hok' & Hmed & Hfr & Hret).
  exists ret, k, s'. split; [done|]. split; [|intros Hr0; by apply Hret].
  split; [done|]. split; [done|]. split; [done|]. intros x Hx. apply Hfr; [done|tauto].
Qed.

Lemma hardware_block seg p (s s' : st dev) : s_block s' = s_block s -> hardware seg p s -> hardware seg p s'.
Proof. unfold hardware, type_of. by intros ->. Qed.

Lemma load_image_spec fuel p n lba buf (s : st dev) : hardware false p s -> size_of p s = 2048 -> mem_ok (s_mem s) ->
  0 <= n <= Z.of_nat fuel -> 0 <= buf -> buf + n * 2048 < 2 ^ 32 -> 0 <= lba -> lba + n < 2 ^ 64 ->
  exists ret s', load_image fuel p n lba buf s = Done (ret, s') /\ loaded buf (n * 2048) s s' /\
    (ret = 0 -> forall i, 0 <= i < n * 2048 -> s_mem s' (buf + i) = media (s_dev s) p (lba * 2048 + i)).
Proof.
  revert n lba buf s; induction fuel as [|f IH]; intros n lba buf s Hh Hsz Hok Hn Hb Hbn Hl Hln.
  { assert (n = 0) as -> by lia. exists 0, s. split; [done|]. split; [done|]. lia. }
  cbn [load_image]. destruct (Z.eqb_spec n 0) as [->|Hnz]; [exists 0, s; split; [done|]; split; [done|lia]|].
  change (64 * 1024 / CDROM_SECTOR_SIZE) with 32. unfold CDROM_SECTOR_SIZE. set (c := Z.min n 32).
  assert (1 <= c <= 32 /\ c <= n) as [Hc Hcn] by lia.
  destruct (read_blocks_spec p lba c buf s) as (ret & k & s1 & -> & (Hb1 & Hok1 & Hm1 & Hf1) & Hr1); [done|done|done|lia|].
  run_outcome. destruct (Z.eqb_spec ret 0) as [->|Hr]; cbn [negb].
  2: { exists 12, s1. split; [done|]. split; [|lia]. split; [done|]. split; [done|]. split; [done|].
       intros x Hx. apply Hf1. unfold in_range in *. lia. }
  rewrite !wrap_small by (unfold fits; lia).
  destruct (IH (n - c) (lba + c) (buf + c * 2048) s1) as (ret & s2 & -> & (Hb2 & Hok2 & Hm2 & Hf2) & Hr2);
    [by eapply hardware_block|unfold size_of; by rewrite Hb1|done|lia..|].
  exists ret, s2. split; [done|]. split.
  - split; [congruence|]. split; [done|]. split; [intros; by rewrite Hm2, Hm1|].
    intros x Hx. rewrite Hf2, Hf1; [done|unfold in_range in *; lia..].
  - intros Hr0 i Hi. destruct (decide (i < c * 2048)).
    + rewrite Hf2 by (unfold in_range; lia). apply Hr1; [done|lia].
    + replace (buf + i) with (buf + c * 2048 + (i - c * 2048)) by lia. rewrite (Hr2 Hr0) by lia. rewrite Hm1. f_equal. lia.
Qed.

(** * The catalogue on the CD *)

(** The bytes of a CD, of its boot record and of its catalogue; content is
    addressed like memory. *)
Definition boot_record (cd : mem) : mem := fun i => cd (0x11 * 2048 + i).
Definition catalogue (cd : mem) : mem := fun i => cd (load 4 (boot_record cd) 0x47 * 2048 + i).
Definition cat_media (cd : mem) : Z := catalogue cd 0x21.
Definition cat_segment (cd : mem) : Z :=
  if load 2 (catalogue cd) 0x22 =? 0 then 0x07c0 else load 2 (catalogue cd) 0x22.
Definition cat_blocks (cd : mem) : Z := DIV_ROUND_UP (load 2 (catalogue cd) 0x26) 4.
Definition cat_lba (cd : mem) : Z := load 4 (catalogue cd) 0x28.

Lemma load_copy n m a cd b : (forall i, 0 <= i < 2048 -> m (a + i) = cd (b + i)) ->
  forall off, 0 <= off -> off + Z.of_nat n <= 2048 -> load n m (a + off) = load n (fun i => cd (b + i)) off.
Proof.
  intros Heq off Ho Hn. unfold load. f_equal. apply load_bytes_shift. intros i Hi. rewrite <- Z.add_assoc. apply Heq. lia.
Qed.

Lemma start_emulation_dev media seg cdid (s : st dev) ret s' :
  start_emulation media seg cdid s = (ret, s') -> s_dev s' = s_dev s.
Proof.
  unfold start_emulation. cbv zeta. destruct (media =? 0); [by intros [= <- <-]|].
  destruct (_ =? 0); [by intros [= <- <-]|]. destruct (media <? 4); by intros [= <- <-].
Qed.

(** What [start_emulation] leaves. *)
Lemma start_emulation_spec media seg cdid (s : st dev) ret s' : start_emulation media seg cdid s = (ret, s') -> ret = 0 -> fits 8 media ->
  s_dev s' = s_dev s /\ (forall x, ~ in_bda x -> s_mem s' x = s_mem s x) /\ cd_of s' = cd_of s /\ ilba s' = ilba s /\
  drives (s_block s') = drives (s_block s) /\ bounce_buf_fl (s_block s') = bounce_buf_fl (s_block s) /\
  cdemu_drive_gf (s_block s') = cdemu_drive_gf (s_block s) /\
  (1 <= media <= 3 -> cdemu_drive_gf (s_block s') <> 0 /\ el_media (CDEmu (s_block s')) = media /\
     el_emulated_drive (CDEmu (s_block s')) = 0 /\ el_chs (CDEmu (s_block s')) = floppy_chs media (el_chs (CDEmu (s_block s)))).
Proof.
  unfold start_emulation. intros E -> Hm. destruct (Z.eqb_spec media 0) as [->|Hm0].
  { injection E as <-. repeat (split; [done|]). lia. }
  destruct (Z.eqb_spec (cdemu_drive_gf (s_block s)) 0); [done|].
  destruct (Z.ltb_spec media 4); injection E as <-.
  - split; [done|]. split; [|by repeat (split; [done|])]. intros x Hx. apply store_out. unfold in_bda, in_range, far, SEG_BDA, equipment_list_flags in *. lia.
  - split; [done|]. split; [|repeat (split; [done|]); lia]. intros x Hx. by apply set_bda_out.
Qed.

(** What a successful boot from a CD with the bytes [cd] leaves. *)
Definition booted (cd : mem) (p : Z) (s s' : st dev) : Prop :=
  load_bytes (boot_record cd) 1 30 = eltorito_id /\ fits 32 (cat_lba cd) /\
  (forall i, 0 <= i < cat_blocks cd * 2048 -> ~ in_bda (16 * cat_segment cd + i) ->
     s_mem s' (16 * cat_segment cd + i) = cd (cat_lba cd * 2048 + i)) /\
  cd_of s' = p /\ ilba s' = cat_lba cd /\ drives (s_block s') = drives (s_block s) /\
  bounce_buf_fl (s_block s') = bounce_buf_fl (s_block s) /\ cdemu_drive_gf (s_block s') = cdemu_drive_gf (s_block s) /\
  (1 <= cat_media cd <= 3 ->
     cdemu_drive_gf (s_block s) <> 0 /\ el_media (CDEmu (s_block s')) = cat_media cd /\
     el_emulated_drive (CDEmu (s_block s')) = 0 /\
     getLCHS (cdemu_drive_gf (s_block s)) (s_block s') =
       mkChs 2 80 (if cat_media cd =? 1 then 15 else if cat_media cd =? 2 then 18 else 36)).

(** Calls of function 02h for drive 0 read the image of the CD [p]. *)
Definition serves_image (cd : mem) (p : Z) (g : chs_s) (s : st dev) : Prop :=
  forall (s2 : st dev) (r : disk_regs),
    s_block s2 = s_block s -> (forall q i, media (s_dev s2) q i = media (s_dev s) q i) -> mem_ok (s_mem s2) ->
    hi8 (ax r) = 0x02 -> lo8 (dx r) = 0 -> within r g ->
    0x500 <= r_buffer r -> r_buffer r + r_count r * 512 < 2 ^ 20 ->
    r_buffer r + r_count r * 512 <= bounce_buf_fl (s_block s) \/ bounce_buf_fl (s_block s) + 2048 <= r_buffer r ->
    exists r' s3, handle_13 r s2 = Done (r', s3) /\ r_cf r' = negb (hi8 (ax r') =? 0) /\
      (r_cf r' = false -> forall i, 0 <= i < r_count r * 512 ->
         s_mem s3 (r_buffer r + i) = cd (cat_lba cd * 2048 + chs_lba r g * 512 + i)).

(** The block layer is ready to emulate a drive from [p]: [cdrom_prepboot] made
    the description and the bounce buffer. *)
Record emulation_ready (p : Z) (s : st dev) : Prop := {
  er_type : type_of (cdemu_drive_gf (s_block s)) s = DTYPE_CDEMU;
  er_size : size_of (cdemu_drive_gf (s_block s)) s = 512;
  er_cd : hardware true p s;
  er_bounce : 0x500 <= bounce_buf_fl (s_block s);
  er_bounce_end : bounce_buf_fl (s_block s) + 2048 < 2 ^ 20
}.

Lemma booted_serves cd p (s s' : st dev) : booted cd p s s' -> emulation_ready p s -> size_of p s = 2048 ->
  (forall i, media (s_dev s') p i = cd i) -> 1 <= cat_media cd <= 3 ->
  serves_image cd p (mkChs 2 80 (if cat_media cd =? 1 then 15 else if cat_media cd =? 2 then 18 else 36)) s'.
Proof.
  intros (_ & Hlf & _ & Hcd & Hil & Hdr & Hbb & Hcg & Hfl) [Hty Hsz Hhw Hb1 Hb2] Hcz Hmed Hk s2 r Hb Hm2 Hok Hah Hdl Hw Hr1 Hr2 Hap.
  destruct (Hfl Hk) as (Hg0 & Hme & Hed & Hg). set (g := mkChs 2 80 _) in *. rewrite Hbb in Hap.
  assert (cd_of s2 = p) as Hcd2 by (unfold cd_of in *; by rewrite Hb).
  assert (forall q, drives (s_block s2) q = drives (s_block s) q) as Hd2 by (intros q; by rewrite Hb, Hdr).
  assert (cdemu_drive_gf (s_block s2) = cdemu_drive_gf (s_block s)) as Hg2 by congruence.
  assert (getLCHS (cdemu_drive_gf (s_block s)) (s_block s2) = g) as Hgg by (by rewrite Hb).
  destruct (image_read_call r s2 (cdemu_drive_gf (s_block s))) as (r' & s3 & E & _ & _ & _ & _ & _ & Hcf & Hin).
  - rewrite Hb, Hme. lia.
  - by rewrite Hb, Hed.
  - done.
  - done.
  - unfold type_of in *. by rewrite Hd2.
  - unfold size_of in *. by rewrite Hd2.
  - done.
  - rewrite Hgg. unfold addressable, g. cbn. destruct (_ =? 1); [|destruct (_ =? 2)]; lia.
  - by rewrite Hgg.
  - rewrite Hcd2. destruct Hhw as [dr Hdr']. exists dr. unfold type_of in *. by rewrite Hd2.
  - rewrite Hcd2. unfold size_of in *. by rewrite Hd2.
  - unfold ilba in *. by rewrite Hb, Hil.
  - done.
  - done.
  - done.
  - by rewrite Hb, Hbb.
  - by rewrite Hb, Hbb.
  - by rewrite Hb, Hbb.
  - exists r', s3. split; [done|]. split; [done|]. intros Hc i Hi. rewrite (Hin Hc) by done. unfold image.
    rewrite Hcd2, Hm2, Hmed, Hgg. unfold ilba in *. rewrite Hb, Hil. f_equal. lia.
Qed.

Variable scsi_is_ready : Z -> mem -> dev -> mem * dev.
Variable buffer : Z.
Hypothesis ready_keeps : forall p m v, mem_ok m -> mem_ok (scsi_is_ready p m v).1 /\
  forall q i, media (scsi_is_ready p m v).2 q i = media v q i.

(** The last part: the image is loaded and the emulation started. *)
Lemma boot_tail p cdid (s s2 : st dev) : let cd := media (s_dev s) p in
  hardware false p s2 -> size_of p s2 = 2048 -> mem_ok (s_mem s2) -> s_block s2 = s_block s ->
  (forall q i, media (s_dev s2) q i = media (s_dev s) q i) ->
  load_bytes (boot_record cd) 1 30 = eltorito_id ->
  (forall i, 0 <= i < 2048 -> s_mem s2 (buffer + i) = catalogue cd i) ->
  let m := s_mem s2 in
  let seg := if load 2 m (buffer + 0x22) =? 0 then 0x07c0 else load 2 m (buffer + 0x22) in
  let n := DIV_ROUND_UP (load 2 m (buffer + 0x26)) 4 in
  let lba := load 4 m (buffer + 0x28) in
  let e := set_catalogue seg (load 2 m (buffer + 0x26)) lba (cntl_id (drives (s_block s2) p)) (CDEmu (s_block s2)) in
  exists ret s', (x ← load_image (Z.to_nat n) p n lba (MAKE_FLATPTR seg 0) (set_block (set_emulation e p (s_block s2)) s2);
      let '(ret, s) := x in
      if negb (ret =? 0) then mret (ret, s) else mret (start_emulation (m (buffer + 0x21)) seg cdid s)) = Done (ret, s') /\
    (forall q i, media (s_dev s') q i = media (s_dev s) q i) /\ (ret = 0 -> booted cd p s s').
Proof.
  intros cd Hh Hsz Hok Hb Hmed Hid Hcat m seg n lba e.
  assert (forall k off, 0 <= off -> off + Z.of_nat k <= 2048 -> load k m (buffer + off) = load k (catalogue cd) off) as Hld
    by (intros k off; by apply (load_copy k m buffer cd (load 4 (boot_record cd) 0x47 * 2048))).
  assert (seg = cat_segment cd) as Hseg by (unfold seg, cat_segment; by rewrite !Hld).
  assert (n = cat_blocks cd) as Hn by (unfold n, cat_blocks; by rewrite Hld).
  assert (lba = cat_lba cd) as Hlba by (unfold lba, cat_lba; by rewrite Hld).
  assert (m (buffer + 0x21) = cat_media cd) as Hmd by (apply Hcat; lia).
  assert (fits 16 seg) as Hsf by (unfold seg; destruct (_ =? 0); [done|by apply (load_fits 2)]).
  assert (0 <= n <= 16384) as Hnf.
  { pose proof (load_fits 2 m (buffer + 0x26) Hok) as [? ?]. unfold n, DIV_ROUND_UP.
    split; [apply Z.div_pos; lia|apply Z.lt_succ_r, Z.div_lt_upper_bound; lia]. }
  assert (fits 32 lba) as Hlf by apply (load_fits 4 m _ Hok).
  assert (MAKE_FLATPTR seg 0 = 16 * seg) as Hfl.
  { unfold MAKE_FLATPTR. rewrite Z.shiftl_mul_pow2 by lia. unfold fits in Hsf. rewrite !wrap_small; unfold fits; rewrite ?wrap_small; unfold fits; lia. }
  rewrite Hfl. unfold fits in *.
  destruct (load_image_spec (Z.to_nat n) p n lba (16 * seg) (set_block (set_emulation e p (s_block s2)) s2))
    as (ret & s3 & -> & (Hb3 & Hok3 & Hm3 & Hf3) & Hr3); [done|done|done|lia..|].
  run_outcome. destruct (Z.eqb_spec ret 0) as [->|Hr]; cbn [negb].
  2: { exists ret, s3. split; [done|]. split; [intros; by rewrite Hm3; apply Hmed|done]. }
  destruct (start_emulation (m (buffer + 0x21)) seg cdid s3) as [ret s'] eqn:Es. exists ret, s'. split; [done|].
  pose proof (start_emulation_dev _ _ _ _ _ _ Es) as Hd'.
  split; [intros; rewrite Hd', Hm3; apply Hmed|]. intros Hr0.
  destruct (start_emulation_spec _ _ _ _ _ _ Es Hr0) as (_ & Hmem & Hcd & Hil & Hdr & Hbb & Hcg & Hfl'); [apply Hok|].
  assert (drives (s_block s3) = drives (s_block s)) as Hd3 by (rewrite Hb3; cbn; by rewrite Hb).
  assert (cdemu_drive_gf (s_block s3) = cdemu_drive_gf (s_block s)) as Hg3 by (rewrite Hb3; cbn; by rewrite Hb).
  split; [done|]. split; [by rewrite <- Hlba|]. split; [|split; [|split; [|split; [|split; [|split]]]]].
  - intros i Hi Hx. rewrite <- Hseg in *. rewrite Hmem by done. rewrite (Hr3 eq_refl) by (rewrite Hn; lia).
    rewrite <- Hlba. apply Hmed.
  - rewrite Hcd. unfold cd_of. by rewrite Hb3.
  - rewrite Hil. unfold ilba. rewrite Hb3. cbn. done.
  - congruence.
  - rewrite Hbb, Hb3. cbn. by rewrite Hb.
  - congruence.
  - rewrite Hmd in *. intros Hk. destruct (Hfl' Hk) as (Hz & H1 & H2 & H3). rewrite Hcg, Hg3 in Hz. split; [done|]. split; [done|]. split; [done|].
    unfold getLCHS. rewrite Hcg, Hg3, Z.eqb_refl, H3. unfold floppy_chs.
    assert (cat_media cd = 1 \/ cat_media cd = 2 \/ cat_media cd = 3) as [-> |[-> | ->]] by lia; reflexivity.
Qed.

Lemma cdrom_boot_spec (p : Z) (s : st dev) : hardware false p s -> size_of p s = 2048 -> mem_ok (s_mem s) ->
  exists ret s', cdrom_boot scsi_is_ready buffer p s = Done (ret, s') /\
    (forall q i, media (s_dev s') q i = media (s_dev s) q i) /\ (ret = 0 -> booted (media (s_dev s) p) p s s').
Proof.
  intros Hh Hsz Hok. unfold cdrom_boot. destruct ((p =? 0) || _); [by exists 1, s|].
  destruct (scsi_is_ready p (s_mem s) (s_dev s)) as [m0 v0] eqn:Er.
  destruct (ready_keeps p (s_mem s) (s_dev s) Hok) as [Hok0 Hm0]. rewrite Er in Hok0, Hm0. cbn [fst snd] in *.
  destruct (read_blocks_spec p 0x11 1 buffer (mkSt m0 v0 (s_block s))) as (ret & k & s1 & -> & (Hb1 & Hok1 & Hm1 & _) & Hr1);
    [done..|lia|]. cbn [s_block s_dev s_mem] in *. run_outcome.
  assert (forall q i, media (s_dev s1) q i = media (s_dev s) q i) as Hmed1 by (intros; by rewrite Hm1).
  destruct (Z.eqb_spec ret 0) as [->|]; cbn [negb]; [|by exists 3, s1].
  destruct (Z.eqb_spec (s_mem s1 buffer) 0); cbn [negb]; [|by exists 4, s1].
  assert (forall i, 0 <= i < 2048 -> s_mem s1 (buffer + i) = media (s_dev s) p (0x11 * 2048 + i)) as Hrec
    by (intros i Hi; rewrite (Hr1 eq_refl) by lia; apply Hm0).
  case_bool_decide as Hid; cbn [negb]; [|by exists 5, s1].
  assert (load_bytes (boot_record (media (s_dev s) p)) 1 30 = eltorito_id) as Hid'.
  { rewrite <- Hid. symmetry. apply load_bytes_shift. intros i Hi. rewrite <- Z.add_assoc. apply Hrec. lia. }
  rewrite (load_copy 4 _ _ _ _ Hrec) by lia. fold (boot_record (media (s_dev s) p)).
  set (cat := load 4 (boot_record (media (s_dev s) p)) 0x47) in *.
  destruct (read_blocks_spec p cat 1 buffer s1) as (ret & k2 & s2 & -> & (Hb2 & Hok2 & Hm2 & _) & Hr2);
    [by apply (hardware_block false p s)|unfold size_of; by rewrite Hb1|done|lia|]. run_outcome.
  assert (forall q i, media (s_dev s2) q i = media (s_dev s) q i) as Hmed2 by (intros; by rewrite Hm2).
  destruct (Z.eqb_spec ret 0) as [->|]; cbn [negb]; [|by exists 7, s2].
  destruct (Z.eqb_spec (catalogue_error buffer (s_mem s2)) 0) as [|Hce]; cbn [negb]; [|by eexists _, s2].
  apply boot_tail; [apply (hardware_block false p s); [congruence|done]|unfold size_of; by rewrite Hb2, Hb1|done|congruence|done|done|].
  intros i Hi. rewrite (Hr2 eq_refl) by lia. apply Hmed1.
Qed.
(** C19: booting from a CD loads the image of its catalogue.  Whatever is on the
    CD, [cdrom_boot] returns and no medium changes; when it reports success,
    the boot record had the El Torito signature, the boot segment holds the
    first blocks of the image the catalogue names, as many as its sector count
    asks for, and the block layer has the CD and the first block of that image
    from which the emulated drive is read.  For the three floppy formats this
    is drive 0 with the geometry of the format: later calls of interrupt 0x13
    that succeed return the sectors of the same image. *)
Theorem cd_boot_image (p : Z) (s : st dev) : hardware false p s -> size_of p s = 2048 -> mem_ok (s_mem s) ->
  exists ret s', cdrom_boot scsi_is_ready buffer p s = Done (ret, s') /\
    (forall q i, media (s_dev s') q i = media (s_dev s) q i) /\ (ret = 0 -> let cd := media (s_dev s) p in booted cd p s s' /\
      (1 <= cat_media cd <= 3 -> emulation_ready p s ->
       serves_image cd p (mkChs 2 80 (if cat_media cd =? 1 then 15 else if cat_media cd =? 2 then 18 else 36)) s')).
Proof.
  intros Hh Hsz Hok. destruct (cdrom_boot_spec p s Hh Hsz Hok) as (ret & s' & E & Hm & Hbt).
  exists ret, s'. split; [done|]. split; [done|]. intros Hr cd. specialize (Hbt Hr). split; [done|].
  intros Hk Hrd. by apply (booted_serves cd p s s').
Qed.
End spec.

(** * A CD *)

(** The boot record is block 17, the catalogue block 18; the image of a 1.44 MB
    floppy starts at block 32 and four of its sectors are to be loaded. *)
Definition demo_cd_bytes : mem :=
  store_bytes (store_bytes (store_bytes (store_bytes (fun i => u8 i) 0x8800 (0 :: eltorito_id)) 0x8847 [0x12; 0; 0; 0])
    0x9000 [1; 0]) 0x901e [0x55; 0xaa; 0x88; 2; 0; 0; 0; 0; 4; 0; 0x20; 0; 0; 0].

Definition demo_boot : st plain_dev := mkSt (fun a => u8 a) (fun _ => demo_cd_bytes) (demo_block 0).

Lemma cd_boot_image_witness : exists s',
  cdrom_boot (H := plain_disks) (fun _ m v => (m, v)) 0x80000 0x30000 demo_boot = Done (0, s') /\
  s_mem s' 0x7cff = 0xff /\ el_emulated_drive (CDEmu (s_block s')) = 0 /\
  exists r' s3, handle_13 (H := plain_disks) (call13 2 1 0x0001 0 0 0) (set_mem (fun a => u8 a) s') = Done (r', s3) /\
    (r_cf r' = false -> s_mem s3 0x100ff = 0xff).
Proof.
  destruct (cd_boot_image (H := plain_disks) (M := plain_media) (fun _ m v => (m, v)) 0x80000 (fun p m v Hm => conj Hm (fun q i => eq_refl))
    0x30000 demo_boot) as (ret & s' & E & _ & Hb); [apply (demo_hardware 0); by right|reflexivity|apply (demo_ok 0)|].
  assert ((fun x => x.1) <$> cdrom_boot (H := plain_disks) (fun _ m v => (m, v)) 0x80000 0x30000 demo_boot = Done 0) as Er
    by (vm_compute; reflexivity).
  rewrite E in Er. injection Er as ->. destruct (Hb eq_refl) as [Hbt Hserve].
  exists s'. split; [exact E|]. destruct Hbt as (_ & _ & Hmem & _ & _ & _ & Hbb & _ & Hfl). split; [|split].
  - etransitivity; [apply (Hmem 0xff); vm_compute; intuition congruence|vm_compute; reflexivity].
  - apply Hfl. vm_compute. intuition congruence.
  - destruct Hserve with (s2 := set_mem (fun a => u8 a) s') (r := call13 2 1 0x0001 0 0 0) as (r' & s3 & E3 & _ & Hin).
    + vm_compute. intuition congruence.
    + split; [reflexivity|reflexivity|apply (demo_hardware 0); by right|vm_compute; congruence|vm_compute; reflexivity].
    + reflexivity.
    + reflexivity.
    + apply (demo_ok 0).
    + reflexivity.
    + reflexivity.
    + vm_compute. intuition congruence.
    + vm_compute. congruence.
    + vm_compute. reflexivity.
    + left. rewrite Hbb. vm_compute. congruence.
    + exists r', s3. split; [exact E3|]. intros Hc. etransitivity; [apply (Hin Hc 0xff); vm_compute; intuition congruence|].
      vm_compute. reflexivity.
Defined.
