(* ===== verification/SeaEdd.v ===== *)
(** What functions 08h, 15h and 48h of interrupt 0x13 report ([disk_1308],
    [disk_1315] of [seabios/src/disk.c], [fill_generic_edd] of [block.c]). *)

From stdpp Require Import base numbers list.
From Stdlib Require Import ZArith Lia.
From S2P Require Import Prelude Memory SeaString CcInt VgaState VgaFb VgaVbe VgaBios SeaBlock SeaDisk SeaDiskSpec.

(** * The geometry *)

Lemma packed_sector c n : 0 <= c < 1024 -> 0 <= n < 64 ->
  Z.lor (Z.land (Z.shiftr c 2) 0xc0) (Z.land n 0x3f) = c / 256 * 64 + n.
Proof.
  intros Hc Hn. change 0x3f with (Z.ones 6). rewrite Z.land_ones, (Z.mod_small n) by lia.
  assert (Z.land (Z.shiftr c 2) 0xc0 = Z.shiftl (c / 256) 6) as ->.
  { apply Z.eqb_eq.
    assert (Forall (fun c => (Z.land (Z.shiftr c 2) 0xc0 =? Z.shiftl (c / 256) 6) = true) (seqZ 0 1024)) as Hall.
    { apply (bool_decide_unpack _). vm_compute. done. }
    rewrite Forall_forall in Hall. apply Hall, elem_of_seqZ. lia. }
  rewrite Z.lor_comm, lor_add_shift by (lia || (unfold fits; lia)). lia.
Qed.

(** CX of function 08h names the cylinder and the sector. *)
Lemma packed_cx (r : disk_regs) v c n : 0 <= c < 1024 -> 0 <= n < 64 ->
  cx r = u16 (put_lo8 (u16 (put_hi8 v (Z.land c 0xff))) (Z.lor (Z.land (Z.shiftr c 2) 0xc0) (Z.land n 0x3f))) ->
  r_cylinder r = c /\ r_sector r = n.
Proof.
  intros Hc Hn E. rewrite packed_sector in E by done.
  destruct (put_lo8_halves (u16 (put_hi8 v (Z.land c 0xff))) (c / 256 * 64 + n)) as [Elo Ehi].
  destruct (put_hi8_halves v (Z.land c 0xff)) as [_ Eh]. rewrite Eh in Ehi. rewrite <- E in Elo, Ehi.
  assert (0 <= c / 256 <= 3) by (split; [apply Z.div_pos; lia|apply Z.lt_succ_r, Z.div_lt_upper_bound; lia]).
  rewrite wrap_small in Elo by (unfold fits; lia). rewrite land_255, wrap_wrap in Ehi.
  rewrite r_cylinder_sum, r_sector_mod, Elo, Ehi. unfold wrap. change (2 ^ 8) with 256.
  rewrite Z.add_comm with (n := c / 256 * 64), Z.div_add, Z.mod_add, (Z.div_small n), (Z.mod_small n) by lia.
  pose proof (Z.div_mod c 256). lia.
Qed.

(** DH survives the number of drives put in DL. *)
Lemma packed_dh (r : disk_regs) v h n : dx r = u16 (put_lo8 (u16 (put_hi8 v h)) n) -> r_head r = u8 h.
Proof.
  intros E. unfold r_head. rewrite E. destruct (put_lo8_halves (u16 (put_hi8 v h)) n) as [_ ->]. apply put_hi8_halves.
Qed.

Lemma halves_of_32 n : fits 32 n -> u16 (Z.shiftr n 16) * 2 ^ 16 + u16 (Z.land n 0xffff) = n.
Proof.
  intros Hn. rewrite land_65535, wrap_wrap, Z.shiftr_div_pow2 by lia. unfold wrap, fits in *.
  assert (0 <= n / 2 ^ 16 < 2 ^ 16) by (split; [apply Z.div_pos; lia|apply Z.div_lt_upper_bound; lia]).
  rewrite (Z.mod_small (n / 2 ^ 16)) by done. pose proof (Z.div_mod n (2 ^ 16)). lia.
Qed.

Section geometry.
Context {dev : Type} {H : BlockHost dev}.

(** C21: the reports of a hard disk agree.  Function 08h names the last
    cylinder but one, the last head and the last sector of the logical geometry
    that function 02h accepts, and the number of sectors function 15h gives is
    that of the cylinders function 08h names. *)
Theorem geometry_reported (r8 r15 : disk_regs) (s : st dev) (p : Z) : let g := getLCHS p (s_block s) in
  hi8 (ax r8) = 0x08 -> hi8 (ax r15) = 0x15 -> lo8 (dx r15) = lo8 (dx r8) -> drive_for (lo8 (dx r8)) (s_block s) = p -> p <> 0 ->
  EXTSTART_HD <= lo8 (dx r8) < EXTSTART_CD -> addressable g -> 2 <= chs_cylinder g ->
  exists r8' s8 r15' s15, handle_13 r8 s = Done (r8', s8) /\ handle_13 r15 s = Done (r15', s15) /\
    r_cf r8' = false /\ r_cylinder r8' = chs_cylinder g - 2 /\ r_head r8' = chs_head g - 1 /\ r_sector r8' = chs_sector g /\
    r_cf r15' = false /\ hi8 (ax r15') = 3 /\
    cx r15' * 2 ^ 16 + dx r15' = (r_cylinder r8' + 1) * (r_head r8' + 1) * r_sector r8'.
Proof.
  intros g H8 H15 Hdl Hp Hp0 Hr Ha Hc2. pose proof Ha as (Hc & Hh & Hs).
  rewrite (old_call r8), (old_call r15) by (rewrite ?Hdl, ?Hp, ?H8, ?H15; first [done|apply (bool_decide_unpack _); done]).
  rewrite Hdl, Hp. unfold disk_13. fold (entered s). cbn [handlers dispatch]. rewrite H8, H15. cbn [Z.eqb Pos.eqb].
  unfold disk_1308, disk_1315. change (getLCHS p (s_block (entered s))) with g.
  destruct (Z.leb_spec EXTSTART_CD (lo8 (dx r8))); [lia|]. destruct (Z.ltb_spec (lo8 (dx r8)) EXTSTART_HD); [lia|].
  rewrite !(wrap_small 16) by (unfold fits; rewrite ?wrap_small; unfold fits; lia).
  replace (chs_cylinder g - 1 - 1) with (chs_cylinder g - 2) by lia. unfold and_then, disk_ret. run_outcome.
  match goal with |- context [if (lo8 (dx ?x) <? _) || _ then _ else _] => change (dx x) with (dx r15) end.
  rewrite Hdl. destruct (Z.ltb_spec (lo8 (dx r8)) EXTSTART_HD); [lia|]. destruct (Z.leb_spec EXTSTART_CD (lo8 (dx r8))); [lia|].
  cbn [orb]. eexists _, _, _, _. split; [reflexivity|]. split; [reflexivity|]. split; [reflexivity|].
  match goal with |- r_cylinder ?x = _ /\ _ => destruct (packed_cx x (cx r8) (chs_cylinder g - 2) (chs_sector g)) as [Ec Es] end;
    [lia|lia|reflexivity|].
  match goal with |- _ /\ r_head ?x = _ /\ _ => pose proof (packed_dh x (dx r8) (chs_head g - 1) _ eq_refl) as Eh end.
  rewrite (wrap_small 8 (chs_head g - 1)) in Eh by (unfold fits; lia). rewrite Ec, Es, Eh. do 4 (split; [done|]).
  split; [apply put_hi8_halves|]. etransitivity; [apply halves_of_32|]; rewrite (wrap_small 32 (chs_cylinder g - 1)) by (unfold fits; lia).
  - by apply wrap_fits.
  - assert (0 <= (chs_cylinder g - 1) * chs_head g <= 1023 * 255) by nia. rewrite wrap_small by (unfold fits; nia). lia.
Qed.
End geometry.

(** * Sums of bytes *)

Lemma checksum_far_loop_spec k i sum m seg off : mem_ok m ->
  checksum_far_loop k i (u8 sum) m seg off = u8 (sum + byte_sum m (far seg off + i) k).
Proof.
  intros Hok. revert i sum; induction k as [|k IH]; intros i sum; cbn [checksum_far_loop].
  - unfold byte_sum. cbn. by rewrite Z.add_0_r.
  - rewrite wrap_add_l, IH. unfold byte_sum. cbn [load_bytes foldr]. unfold GET_FARVAR. rewrite load1.
    replace (far seg (off + i)) with (far seg off + i) by (unfold far; lia). f_equal. rewrite !Z.add_assoc. done.
Qed.

Lemma checksum_far_spec m seg off len : mem_ok m -> checksum_far m seg off len = u8 (byte_sum m (far seg off) (Z.to_nat len)).
Proof.
  intros Hok. unfold checksum_far. change 0 with (u8 0) at 2. rewrite checksum_far_loop_spec by done. by rewrite Z.add_0_r, Z.add_0_l.
Qed.

(** A byte that completes a sum to zero. *)
Lemma completed_sum m a n v : mem_ok m -> v = u8 (byte_sum m a n) ->
  u8 (byte_sum (store 1 m (a + Z.of_nat n) (- v)) a (n + 1)) = 0.
Proof.
  intros Hok ->. rewrite byte_sum_app. rewrite (byte_sum_ext _ m a a n).
  - pose proof (load_store_same 1 m (a + Z.of_nat n) (- u8 (byte_sum m a n))) as E. rewrite load1 in E.
    unfold byte_sum at 2. cbn [load_bytes foldr]. rewrite E. change (8 * Z.of_nat 1) with 8.
    rewrite Z.add_0_r, wrap_add_r, Z.add_opp_r, wrap_sub_r, Z.sub_diag. done.
  - intros i Hi. apply store_out. lia.
Qed.

(** * Places *)

(** [m'] is [m] but for a range. *)
Definition wrote (a len : Z) (m m' : mem) : Prop := mem_ok m' /\ forall x, ~ in_range a len x -> m' x = m x.

Lemma wrote_refl a len m : mem_ok m -> wrote a len m m.
Proof. by split. Qed.

Lemma wrote_set a len m m' n seg off v : wrote a len m m' -> a <= far seg off -> far seg off + Z.of_nat n <= a + len ->
  wrote a len m (SET_FARVAR n m' seg off v).
Proof.
  intros [Hm Hx] H1 H2. split; [by apply store_ok|]. intros x Hr. rewrite <- Hx by done. apply store_out. unfold in_range in Hr. lia.
Qed.

Lemma wrote_bytes a len m m' seg off l : wrote a len m m' -> 0 <= off -> off + Z.of_nat (length l) <= 2 ^ 16 ->
  a <= far seg off -> far seg off + Z.of_nat (length l) <= a + len -> wrote a len m (put_far_bytes seg off l m').
Proof.
  revert off m'; induction l as [|c l IH]; intros off m' [Hm Hx] Ho Ho2 H1 H2; [by split|]. cbn [put_far_bytes length] in *.
  apply IH; [|unfold far in *; lia..]. split; [by apply store8_ok|]. intros x Hr. rewrite <- Hx by done. apply store8_ne.
  rewrite wrap_small by (unfold fits; lia). unfold in_range in Hr. lia.
Qed.

Lemma wrote_weaken a len a' len' m m' : wrote a len m m' -> a' <= a -> a + len <= a' + len' -> wrote a' len' m m'.
Proof. intros [Hm Hx] H1 H2. split; [done|]. intros x Hr. apply Hx. unfold in_range in *. lia. Qed.

Lemma wrote_ok a len m m' : wrote a len m m' -> mem_ok m'.
Proof. by intros [? _]. Qed.

Lemma wrote_trans a len m1 m2 m3 : wrote a len m1 m2 -> wrote a len m2 m3 -> wrote a len m1 m3.
Proof. intros [_ H1] [H2 H3]. split; [done|]. intros x Hr. by rewrite H3, H1. Qed.

Lemma wrote_load a len m m' n b : wrote a len m m' -> b + Z.of_nat n <= a \/ a + len <= b -> load n m' b = load n m b.
Proof. intros [_ Hx] Hb. apply load_ext. intros x Hr. apply Hx. unfold in_range. lia. Qed.

(** * The parts of the answer *)

(** Go through the writes of a part, the last one first. *)
Ltac through_writes :=
  repeat match goal with
  | |- wrote _ _ _ (if ?c then _ else _) => destruct c
  | |- wrote _ _ _ (SET_FARVAR _ _ _ _ _) => apply wrote_set; [|unfold far; cbn; lia..]
  | |- wrote _ _ _ (put_far_bytes _ _ (if ?c then _ else _) _) => destruct c
  | |- wrote _ _ _ (put_far_bytes _ _ _ _) => apply wrote_bytes; [|unfold far; cbn; lia..]
  end; try by apply wrote_refl.

Section edd.
Variables (seg off : Z).
Hypothesis Hoff : 0 <= off.
Hypothesis Hend : off + 74 <= 2 ^ 16.

Lemma edd1_wrote d m : mem_ok m -> wrote (far seg off) 26 m (fill_edd1 seg off d m).
Proof.
  intros Hm. unfold fill_edd1, dpt_infos, dpt_cylinders, dpt_heads, dpt_spt, dpt_sector_count, dpt_blksize. cbv zeta.
  through_writes.
Qed.

Lemma edd1_fields d m : mem_ok m -> fits 64 (sectors d) -> fits 16 (blksize d) ->
  load 8 (fill_edd1 seg off d m) (far seg off + 16) = sectors d /\ load 2 (fill_edd1 seg off d m) (far seg off + 24) = blksize d.
Proof.
  intros Hm Hs Hb. unfold fill_edd1, dpt_sector_count, dpt_blksize. cbv zeta.
  match goal with |- context [SET_FARVAR 8 ?x _ _ _] => generalize x as y end. intros y. unfold SET_FARVAR.
  replace (far seg (off + 16)) with (far seg off + 16) by (unfold far; lia).
  replace (far seg (off + 24)) with (far seg off + 24) by (unfold far; lia). split.
  - rewrite load_store_other, load_store_same by lia. by apply wrap_small.
  - rewrite load_store_same. by apply wrap_small.
Qed.

(** The device path, from its key to its checksum: 36 bytes, or 44 when the
    caller left room for them. *)
Definition path_length (t13 : bool) : Z := if t13 then 44 else 36.

Lemma edd3_wrote t13 bus ip dp m : mem_ok m ->
  wrote (far seg off + 30) (path_length t13) m (fill_edd3 seg off t13 bus ip dp m).
Proof.
  intros Hm. unfold fill_edd3, path_length, dpt_key, dpt_dpi_length, dpt_reserved1, dpt_reserved2, dpt_host_bus, dpt_iface_path,
    dpt_iface_type, dpt_device_path. cbv zeta. destruct t13; through_writes.
Qed.


Lemma path_sum n o x : mem_ok x -> o = off + 30 + Z.of_nat n ->
  u8 (byte_sum (SET_FARVAR 1 x seg o (- checksum_far x seg (off + 30) (Z.of_nat n))) (far seg off + 30) (n + 1)) = 0.
Proof.
  intros Hx ->. unfold SET_FARVAR. replace (far seg (off + 30 + Z.of_nat n)) with (far seg off + 30 + Z.of_nat n) by (unfold far; lia).
  apply completed_sum; [done|]. rewrite checksum_far_spec by done. rewrite Nat2Z.id. do 2 f_equal. unfold far. lia.
Qed.

Lemma edd3_sum t13 bus ip dp m : mem_ok m ->
  u8 (byte_sum (fill_edd3 seg off t13 bus ip dp m) (far seg off + 30) (Z.to_nat (path_length t13))) = 0.
Proof.
  intros Hm. unfold fill_edd3, path_length, dpt_key, dpt_dpi_length, dpt_reserved1, dpt_reserved2, dpt_host_bus, dpt_iface_path,
    dpt_iface_type, dpt_device_path. cbv zeta. destruct t13.
  - apply (path_sum 43); [|lia]. apply (wrote_ok (far seg off) 74 m). through_writes.
  - apply (path_sum 35); [|lia]. apply (wrote_ok (far seg off) 74 m). through_writes.
Qed.

(** What [fill_generic_edd] fills in: the sizes of the disk, and with room for
    it a device path whose bytes sum to zero. *)
Definition edd_length (size dpte bus : Z) : Z :=
  if (size <? 30) || (dpte =? 0) then 26 else if (size <? 66) || (bus =? 0) then 30 else if size =? 74 then 74 else 66.

Lemma generic_edd d dpte bus ip dp m : mem_ok m -> fits 64 (sectors d) -> fits 16 (blksize d) ->
  let size := load 2 m (far seg off) in
  exists ret m', fill_generic_edd seg off d dpte bus ip dp m = (ret, m') /\
    (size < 26 -> ret = DISK_RET_EPARAM /\ m' = m) /\
    (26 <= size -> ret = DISK_RET_SUCCESS /\ wrote (far seg off) (edd_length size dpte bus) m m' /\
       load 8 m' (far seg off + 16) = sectors d /\ load 2 m' (far seg off + 24) = blksize d /\
       (66 <= edd_length size dpte bus ->
          u8 (byte_sum m' (far seg off + 30) (Z.to_nat (edd_length size dpte bus - 30))) = 0)).
Proof.
  intros Hm Hs Hb size. unfold fill_generic_edd, edd_length. change (GET_FARVAR 2 m seg off) with size.
  destruct (Z.ltb_spec size 26); [eexists _, _; split; [done|]; split; [done|lia]|].
  set (m1 := fill_edd1 seg off d m). pose proof (edd1_wrote d m Hm) as H1. destruct (edd1_fields d m Hm Hs Hb) as [F1 F2].
  fold m1 in H1, F1, F2. destruct ((size <? 30) || (dpte =? 0)) eqn:E30.
  { eexists _, _. split; [done|]. split; [lia|]. intros _. do 4 (split; [done|]). lia. }
  set (m2 := SET_FARVAR 4 (SET_FARVAR 2 m1 seg off 30) seg (off + dpt_dpte) dpte).
  assert (wrote (far seg off) 30 m m2) as H2.
  { unfold m2, dpt_dpte. apply wrote_set; [apply wrote_set|unfold far; lia..]; [|lia..]. eapply wrote_weaken; [done|lia..]. }
  assert (load 8 m2 (far seg off + 16) = sectors d /\ load 2 m2 (far seg off + 24) = blksize d) as [G1 G2].
  { unfold m2, SET_FARVAR, dpt_dpte. replace (far seg (off + 26)) with (far seg off + 26) by (unfold far; lia).
    by rewrite !load_store_other by lia. }
  destruct ((size <? 66) || (bus =? 0)) eqn:E66.
  { eexists _, _. split; [done|]. split; [lia|]. intros _. do 4 (split; [done|]). lia. }
  pose proof (edd3_wrote (size =? 74) bus ip dp m2 (wrote_ok _ _ _ _ H2)) as H3.
  pose proof (edd3_sum (size =? 74) bus ip dp m2 (wrote_ok _ _ _ _ H2)) as Hsum.
  eexists _, _. split; [done|]. split; [lia|]. intros _. split; [done|].
  assert ((if size =? 74 then 74 else 66) - 30 = path_length (size =? 74)) as Hpl by (by destruct (size =? 74)). rewrite Hpl.
  split; [|split; [|split; [|done]]].
  - assert (0 <= path_length (size =? 74)) by (by destruct (size =? 74)).
    apply (wrote_trans _ _ m m2); [apply (wrote_weaken _ _ _ _ _ _ H2)|apply (wrote_weaken _ _ _ _ _ _ H3)]; lia.
  - rewrite (wrote_load _ _ _ _ _ _ H3) by lia. done.
  - rewrite (wrote_load _ _ _ _ _ _ H3) by lia. done.
Qed.

(** The length the caller reads back does not count the device path. *)
Lemma edd_size_short d dpte bus ip dp m : mem_ok m -> 66 <= load 2 m (far seg off) -> dpte <> 0 -> bus <> 0 ->
  load 2 (fill_generic_edd seg off d dpte bus ip dp m).2 (far seg off) = 30.
Proof.
  intros Hm Hs Hd Hb. unfold fill_generic_edd. change (GET_FARVAR 2 m seg off) with (load 2 m (far seg off)).
  set (size := load 2 m (far seg off)) in *. destruct (Z.ltb_spec size 26); [lia|]. destruct (Z.ltb_spec size 30); [lia|].
  apply Z.eqb_neq in Hd as ->. destruct (Z.ltb_spec size 66); [lia|]. apply Z.eqb_neq in Hb as ->. cbn [orb snd].
  set (m1 := SET_FARVAR 2 (fill_edd1 seg off d m) seg off 30).
  assert (mem_ok (SET_FARVAR 4 m1 seg (off + dpt_dpte) dpte)) as Hm2 by (apply store_ok, store_ok, (edd1_wrote d m Hm)).
  rewrite (wrote_load _ _ _ _ _ _ (edd3_wrote (size =? 74) bus ip dp _ Hm2)) by lia.
  unfold m1, SET_FARVAR, dpt_dpte. rewrite load_store_other by (unfold far; lia). by rewrite load_store_same.
Qed.
End edd.

Lemma edd_length_fits size dpte bus : 26 <= size -> 26 <= edd_length size dpte bus <= size.
Proof.
  intros Hs. unfold edd_length. destruct (Z.ltb_spec size 30); [cbn; lia|]. destruct (dpte =? 0); [cbn; lia|].
  destruct (Z.ltb_spec size 66); [cbn; lia|]. destruct (bus =? 0); [cbn; lia|]. cbn. destruct (Z.eqb_spec size 74); lia.
Qed.

Section call.
Context {dev : Type} {H : BlockHost dev}.

(** The 16 bytes of [DefaultDPTE]. *)
Definition dpte_place : Z := far SEG_LOW off_DefaultDPTE.

(** The buffer of the caller, apart from the table of the BIOS. *)
Record edd_buffer (seg off : Z) : Prop := {
  eb_off : 0 <= off;
  eb_end : off + 74 <= 2 ^ 16;
  eb_apart : far seg off + 74 <= dpte_place \/ dpte_place + 16 <= far seg off
}.

(** The answer for a drive in [m']; [m] is memory before the call. *)
Definition edd_answer (a : Z) (d : drive_s) (ret : Z) (m m' : mem) : Prop :=
  let size := load 2 m a in
  if size <? 26 then ret = DISK_RET_EPARAM /\ forall x, ~ in_range dpte_place 16 x -> ~ in_bda x -> m' x = m x
  else
    ret = DISK_RET_SUCCESS /\ load 8 m' (a + 16) = sectors d /\ load 2 m' (a + 24) = blksize d /\
    exists len, 26 <= len <= size /\ (forall x, ~ in_range a len x -> ~ in_range dpte_place 16 x -> ~ in_bda x -> m' x = m x) /\
      (66 <= len -> u8 (byte_sum m' (a + 30) (Z.to_nat (len - 30))) = 0).

Lemma generic_answer seg off d dpte bus ip dp m m0 : edd_buffer seg off -> fits 64 (sectors d) -> fits 16 (blksize d) ->
  wrote dpte_place 16 m m0 ->
  exists ret m', fill_generic_edd seg off d dpte bus ip dp m0 = (ret, m') /\ mem_ok m' /\ edd_answer (far seg off) d ret m m' /\
    (ret = 0 \/ ret = 1).
Proof.
  intros [Ho He Ha] Hs Hb Hw. destruct (generic_edd seg off Ho He d dpte bus ip dp m0 (wrote_ok _ _ _ _ Hw) Hs Hb)
    as (ret & m' & E & Hsmall & Hbig).
  rewrite (wrote_load _ _ _ _ 2 (far seg off) Hw) in Hsmall, Hbig by lia. set (size := load 2 m (far seg off)) in *.
  exists ret, m'. split; [done|]. unfold edd_answer. fold size. destruct (Z.ltb_spec size 26) as [Hlt|Hge].
  - destruct (Hsmall Hlt) as [-> ->]. split; [by eapply wrote_ok|]. split; [|by right]. split; [done|].
    intros x Hx _. by apply Hw.
  - destruct (Hbig Hge) as (-> & Hw' & Hse & Hbl & Hsum). split; [by eapply wrote_ok|]. split; [|by left].
    do 3 (split; [done|]). exists (edd_length size dpte bus). split; [by apply edd_length_fits|]. split; [|done].
    intros x Hx1 Hx2 _. destruct Hw as [_ Hw]. destruct Hw' as [_ Hw']. by rewrite Hw', Hw.
Qed.

(** Only memory outside the data area matters. *)
Lemma answer_elsewhere a d ret m1 m2 m m' : 0x500 <= a -> edd_answer a d ret m1 m2 -> (forall x, ~ in_bda x -> m1 x = m x) ->
  (forall x, ~ in_bda x -> m' x = m2 x) -> edd_answer a d ret m m'.
Proof.
  intros Ha Hans H1 H2. assert (forall x, a <= x -> ~ in_bda x) as Hout by (unfold in_bda, in_range; lia).
  assert (forall n k, 0 <= k -> load n m' (a + k) = load n m2 (a + k)) as Hl
    by (intros; apply load_ext; intros; apply H2, Hout; lia).
  unfold edd_answer in *. rewrite (load_ext 2 m1 m a) in Hans by (intros; apply H1, Hout; lia).
  destruct (_ <? 26).
  - destruct Hans as [-> Hx]. split; [done|]. intros x Hx1 Hx2. rewrite H2, Hx, H1; done.
  - destruct Hans as (-> & Hs & Hb & len & Hlen & Hx & Hsum). split; [done|]. rewrite !Hl by lia. do 2 (split; [done|]).
    exists len. split; [done|]. split; [intros x Hx1 Hx2 Hx3; rewrite H2, Hx, H1; done|].
    intros H66. rewrite <- (Hsum H66). f_equal. apply byte_sum_ext. intros i Hi. apply H2, Hout. lia.
Qed.

Lemma fill_edd_answer seg off p (s : st dev) : edd_buffer seg off -> mem_ok (s_mem s) ->
  fits 64 (sectors (drives (s_block s) p)) -> fits 16 (blksize (drives (s_block s) p)) ->
  exists ret m', fill_edd seg off p s = (ret, m') /\ mem_ok m' /\ edd_answer (far seg off) (drives (s_block s) p) ret (s_mem s) m' /\
    (ret = 0 \/ ret = 1).
Proof.
  intros Hbuf Hok Hs Hb. unfold fill_edd. destruct (_ || _).
  - unfold fill_ata_edd. cbv zeta. destruct (if 0 <=? _ then _ else _) as [bt ifp]. apply generic_answer; [done..|].
    unfold dpte_place. generalize off_DefaultDPTE as o. intros o. through_writes.
  - destruct (_ || _); (apply generic_answer; [done..|by apply wrote_refl]).
Qed.

(** C20: function 48h reports a disk as it is.  For a drive that is not a floppy
    the call returns.  With a buffer of at least 26 bytes it succeeds: the
    number of sectors and the size of a sector are those of the drive, nothing
    is written past the length the caller gave, nor anywhere but in that
    buffer, the parameter table of the BIOS and the data area, and when a
    device path is filled in its bytes sum to zero.  A shorter buffer is
    refused with status 1 and left alone. *)
Theorem edd_reports_disk (r : disk_regs) (s : st dev) (p : Z) :
  hi8 (ax r) = 0x48 -> drive_for (lo8 (dx r)) (s_block s) = p -> p <> 0 -> el_media (CDEmu (s_block s)) = 0 ->
  EXTSTART_HD <= lo8 (dx r) -> mem_ok (s_mem s) -> fits 64 (sectors (drives (s_block s) p)) ->
  fits 16 (blksize (drives (s_block s) p)) -> edd_buffer (r_ds r) (r_si r) -> 0x500 <= packet r ->
  exists r' s', handle_13 r s = Done (r', s') /\ s_block s' = s_block s /\ s_dev s' = s_dev s /\
    r_cf r' = negb (hi8 (ax r') =? 0) /\ edd_answer (packet r) (drives (s_block s) p) (hi8 (ax r')) (s_mem s) (s_mem s').
Proof.
  intros Hah Hp Hp0 Hem Hdl Hok Hs Hb Hbuf Hpl.
  assert (handle_13 r s = disk_13 r p s) as ->.
  { unfold handle_13, drive_for, legacy_drive in *. rewrite Hah, Hem in *. cbn [Z.eqb Pos.eqb] in *. unfold handle_legacy_disk.
    destruct (Z.ltb_spec (lo8 (dx r)) EXTSTART_HD); [lia|].
    destruct (EXTSTART_CD <=? lo8 (dx r)); rewrite Hp; by apply Z.eqb_neq in Hp0 as ->. }
  unfold disk_13. fold (entered s). cbn [handlers dispatch]. rewrite Hah. cbn [Z.eqb Pos.eqb]. unfold disk_1348.
  destruct (fill_edd_answer (r_ds r) (r_si r) p (entered s)) as (ret & m' & -> & Hok' & Ha & Hr);
    [done|by apply entered_ok|done|done|].
  destruct (disk_ret_spec r ret (set_mem m' (entered s))) as (r' & s' & -> & Hb' & Hd' & _ & Hm' & _ & Hah' & Hcf).
  { destruct Hr as [-> | ->]; unfold fits; lia. }
  exists r', s'. split; [done|]. split; [by rewrite Hb'|]. split; [by rewrite Hd'|]. rewrite Hcf, Hah'. split; [done|].
  apply (answer_elsewhere _ _ _ (s_mem (entered s)) m'); [done|done| |done]. intros x Hx. by apply entered_out.
Qed.
End call.

(** A disk of 41820 sectors and a buffer of 66 bytes at 0x20100. *)
Definition demo_edd : st plain_dev := mkSt (store 2 (fun a => u8 a) 0x20100 66) demo_bytes (demo_block 0).

Lemma edd_reports_disk_witness : exists r' s',
  handle_13 (H := plain_disks) (call13 0x48 0 0 0x80 0 0x100) demo_edd = Done (r', s') /\ hi8 (ax r') = 0 /\
  load 8 (s_mem s') 0x20110 = 41820 /\ load 2 (s_mem s') 0x20118 = 512.
Proof.
  destruct (edd_reports_disk (H := plain_disks) (call13 0x48 0 0 0x80 0 0x100) demo_edd 0x20000) as (r' & s' & E & _ & _ & _ & Ha);
    [reflexivity|reflexivity|lia|reflexivity|vm_compute; congruence|apply store_ok; intros a; by apply wrap_fits|
     vm_compute; intuition congruence|vm_compute; intuition congruence|split; vm_compute; (congruence || (left; congruence))|
     vm_compute; congruence|].
  exists r', s'. split; [exact E|]. unfold edd_answer in Ha. vm_compute (load 2 _ _ <? 26) in Ha. by destruct Ha as (? & ? & ? & _).
Defined.

Lemma geometry_reported_witness : exists r8' s8,
  handle_13 (H := plain_disks) (call13 8 0 0 0x80 0 0) (demo_state 0) = Done (r8', s8) /\
  r_cylinder r8' = 613 /\ r_head r8' = 3 /\ r_sector r8' = 17.
Proof.
  destruct (geometry_reported (H := plain_disks) (call13 8 0 0 0x80 0 0) (call13 0x15 0 0 0x80 0 0) (demo_state 0) 0x20000)
    as (r8' & s8 & _ & _ & E & _ & _ & Hc & Hh & Hs & _);
    [reflexivity|reflexivity|reflexivity|reflexivity|lia|vm_compute; intuition congruence|vm_compute; intuition congruence|
     vm_compute; congruence|].
  exists r8', s8. split; [exact E|]. split; [exact Hc|]. split; [exact Hh|exact Hs].
Defined.
