(* ===== verification/SeaTimer.v ===== *)
(** The internal timer of SeaBIOS ([seabios/src/hw/timer.c]).

    A program is a function of the memory, the variables of the BIOS and the
    machine; [None] is a polling loop that used up its fuel.  The time comes
    from one of three counters: the time-stamp counter shifted right, the
    24-bit timer of ACPI or the 16-bit counter of the 8254.  [Timers] says how
    they count; [delay_waits] shows that a delay returns and lasts as long as
    it was asked to, whichever counter drives it, and [rate_bounded] that every
    way to select a counter keeps its rate below 6000 per millisecond, which
    is what the products of the code need not to overflow. *)

From stdpp Require Import base numbers list.
From Stdlib Require Import ZArith Lia.
From S2P Require Import Prelude Memory Machine CcInt VgaState.

(** * Programs *)

Definition P (S A : Type) : Type := S -> option (A * S).

#[export] Instance P_ret {S} : MRet (P S) := fun A x s => Some (x, s).
#[export] Instance P_bind {S} : MBind (P S) := fun A B k p s =>
  match p s with Some (x, s') => k x s' | None => None end.

(** A step whose outcome is known. *)
Lemma p_step {S A B} (p : P S A) (k : A -> P S B) (s s' : S) (x : A) :
  p s = Some (x, s') -> (p ≫= k) s = k x s'.
Proof. intros H. unfold mbind, P_bind. by rewrite H. Qed.

(** The variables of [timer.c], [rtc.c], [clock.c] and the one of [floppy.c]
    the timer interrupt touches. *)
Record clock_vars := mkClockVars {
  TimerKHz : Z;
  TimerPort : Z;
  ShiftTSC : Z;
  TimerLast : Z;
  RTCusers : Z;
  Century : Z;
  FloppyDOR : Z
}.

Record clk (W : Type) := mkClk { c_mem : mem; c_vars : clock_vars; c_dev : W }.
Arguments mkClk {W}.
Arguments c_mem {W}.
Arguments c_vars {W}.
Arguments c_dev {W}.

Definition set_timer (khz port shift : Z) (v : clock_vars) : clock_vars :=
  mkClockVars khz port shift (TimerLast v) (RTCusers v) (Century v) (FloppyDOR v).
Definition set_last (x : Z) (v : clock_vars) : clock_vars :=
  mkClockVars (TimerKHz v) (TimerPort v) (ShiftTSC v) x (RTCusers v) (Century v) (FloppyDOR v).
Definition set_users (x : Z) (v : clock_vars) : clock_vars :=
  mkClockVars (TimerKHz v) (TimerPort v) (ShiftTSC v) (TimerLast v) x (Century v) (FloppyDOR v).
Definition set_century (x : Z) (v : clock_vars) : clock_vars :=
  mkClockVars (TimerKHz v) (TimerPort v) (ShiftTSC v) (TimerLast v) (RTCusers v) x (FloppyDOR v).
Definition set_dor (x : Z) (v : clock_vars) : clock_vars :=
  mkClockVars (TimerKHz v) (TimerPort v) (ShiftTSC v) (TimerLast v) (RTCusers v) (Century v) x.

(** What the code calls: other threads and interrupts at a yield, handlers of
    software interrupts, the drivers the timer interrupt polls; [cpuid] gives
    [eax], [ebx], [ecx] and [edx]. *)
Class ClockHost (W : Type) := {
  host_yield : clk W -> clk W;
  host_yield_toirq : clk W -> clk W;
  host_preempt : clk W -> clk W;
  host_int : Z -> clk W -> clk W;
  usb_check_event : clk W -> clk W;
  sercon_check_event : clk W -> clk W;
  cpuid : Z -> Z * Z * Z * Z;
  entry_08 : Z;
  entry_70 : Z
}.

Definition PORT_PIT_COUNTER0 : Z := 0x40.
Definition PORT_PIT_COUNTER2 : Z := 0x42.
Definition PORT_PIT_MODE : Z := 0x43.
Definition PORT_PS2_CTRLB : Z := 0x61.

Definition PM_SEL_TIMER2_WORD_MODE0 : Z := 0xb0.
Definition PM_SEL_TIMER0_WORD_MODE2 : Z := 0x34.
Definition PM_SEL_READBACK_VALUE0 : Z := 0xd2.

Definition PPCB_T2GATE : Z := 0x01.
Definition PPCB_SPKR : Z := 0x02.
Definition PPCB_T2OUT : Z := 0x20.

Definition PMTIMER_HZ : Z := 3579545.
Definition PMTIMER_TO_PIT : Z := 3.
Definition CALIBRATE_COUNT : Z := 0x800.
Definition PIT_TICK_INTERVAL : Z := 65536.
Definition CPUID_TSC : Z := 0x10.

(** [DIV_ROUND_UP] of an unsigned operand of width [w]. *)
Definition div_up (w n d : Z) : Z := wrap w (n + d - 1) / d.

Definition vars_at_start : clock_vars :=
  mkClockVars (div_up 32 PMTIMER_HZ (1000 * PMTIMER_TO_PIT)) PORT_PIT_COUNTER0 0 0 0 0 0.

Section programs.
Context {W : Type} {Mc : Machine W} {H : ClockHost W}.

Abbreviation prog := (P (clk W)).

Definition vars : prog clock_vars := fun s => Some (c_vars s, s).
Definition with_vars (f : clock_vars -> clock_vars) : prog unit :=
  fun s => Some (tt, mkClk (c_mem s) (f (c_vars s)) (c_dev s)).
Definition get_bda (n : nat) (off : Z) : prog Z := fun s => Some (GET_BDA n (c_mem s) off, s).
Definition set_bda (n : nat) (off v : Z) : prog unit :=
  fun s => Some (tt, mkClk (SET_BDA n (c_mem s) off v) (c_vars s) (c_dev s)).
Definition run (f : clk W -> clk W) : prog unit := fun s => Some (tt, f s).

(** An instruction of the machine. *)
Definition dev {A} (m : M W A) : prog A := fun s =>
  let '(x, w) := m (c_dev s) in Some (x, mkClk (c_mem s) (c_vars s) w).

Definition pinb (port : Z) : prog Z := dev (inb port).
Definition pinl (port : Z) : prog Z := dev (inl port).
Definition poutb (val port : Z) : prog unit := dev (outb port val).

Definition rdtscll : prog Z :=
  '(hi, lo) ← dev rdtsc_asm; mret (Z.lor (Z.shiftl hi 32) lo).

(** * Set-up *)

(** The loops that halve a rate until it is below a limit. *)
Fixpoint halve (fuel : nat) (w limit t shift : Z) : Z * Z :=
  match fuel with
  | O => (t, shift)
  | S k => if limit <=? t then halve k w limit (Z.shiftr (wrap w (t + 1)) 1) (u8 (shift + 1)) else (t, shift)
  end.

Fixpoint wait_t2out (fuel : nat) : prog unit :=
  match fuel with
  | O => fun _ => None
  | S k => b ← pinb PORT_PS2_CTRLB; if Z.land b PPCB_T2OUT =? 0 then wait_t2out k else mret tt
  end.

Definition tsctimer_setup (fuel : nat) : prog unit :=
  orig ← pinb PORT_PS2_CTRLB;
  poutb (Z.lor (Z.land orig (Z.lnot PPCB_SPKR)) PPCB_T2GATE) PORT_PS2_CTRLB;;
  poutb PM_SEL_TIMER2_WORD_MODE0 PORT_PIT_MODE;;
  poutb (Z.land CALIBRATE_COUNT 0xff) PORT_PIT_COUNTER2;;
  poutb (Z.shiftr CALIBRATE_COUNT 8) PORT_PIT_COUNTER2;;
  start ← rdtscll;
  wait_t2out fuel;;
  finish ← rdtscll;
  poutb orig PORT_PS2_CTRLB;;
  let diff := u64 (finish - start) in
  let t := div_up 64 (u64 (diff * PMTIMER_HZ)) CALIBRATE_COUNT in
  v ← vars;
  let '(t, shift) := halve 64 64 (Z.shiftl 1 24) t (ShiftTSC v) in
  with_vars (set_timer (div_up 32 (u32 t) (1000 * PMTIMER_TO_PIT)) 0 shift).

Definition timer_setup (fuel : nat) : prog unit :=
  v ← vars;
  if negb (TimerPort v =? PORT_PIT_COUNTER0) then mret tt
  else
    let '(eax, _, _, _) := cpuid 0 in
    let cpuid_features := if 0 <? eax then let '(_, _, _, edx) := cpuid 1 in edx else 0 in
    if negb (Z.land cpuid_features CPUID_TSC =? 0) then tsctimer_setup fuel else mret tt.

Definition tsctimer_setfreq (khz : Z) : prog unit :=
  v ← vars;
  if negb (TimerPort v =? PORT_PIT_COUNTER0) then mret tt
  else
    let '(khz, shift) := halve 32 32 6000 khz 0 in
    with_vars (set_timer khz 0 shift).

Definition pmtimer_setup (ioport : Z) : prog unit :=
  v ← vars;
  if negb (TimerPort v =? PORT_PIT_COUNTER0) then mret tt
  else with_vars (set_timer (div_up 32 PMTIMER_HZ 1000) ioport (ShiftTSC v)).

(** * Reading *)

Definition timer_adjust_bits (value validbits : Z) : prog Z :=
  v ← vars;
  let last := TimerLast v in
  let value := Z.lor (Z.land last (u32 (Z.lnot validbits))) (Z.land value validbits) in
  let value := if value <? last then u32 (value + (validbits + 1)) else value in
  with_vars (set_last value);;
  mret value.

Definition timer_read : prog Z :=
  v ← vars;
  let port := TimerPort v in
  if port =? 0 then
    t ← rdtscll;
    mret (u32 (Z.shiftr t (ShiftTSC v)))
  else if negb (port =? PORT_PIT_COUNTER0) then
    x ← pinl port;
    timer_adjust_bits x 0xffffff
  else
    poutb PM_SEL_READBACK_VALUE0 PORT_PIT_MODE;;
    lo ← pinb PORT_PIT_COUNTER0;
    hi ← pinb PORT_PIT_COUNTER0;
    let v := Z.lor lo (Z.shiftl hi 8) in
    timer_adjust_bits (u32 (- v)) 0xffff.

Definition timer_calc (msecs : Z) : prog Z :=
  t ← timer_read;
  v ← vars;
  mret (u32 (t + u32 (TimerKHz v * msecs))).

Definition timer_calc_usec (usecs : Z) : prog Z :=
  cur ← timer_read;
  v ← vars;
  let khz := TimerKHz v in
  if 500000 <? usecs then mret (u32 (cur + u32 (div_up 32 usecs 1000 * khz)))
  else mret (u32 (cur + div_up 32 (u32 (usecs * khz)) 1000)).

Definition timer_calc_nsec (nsecs : Z) : prog Z :=
  cur ← timer_read;
  v ← vars;
  let khz := TimerKHz v in
  if 500000 <? nsecs then mret (u32 (cur + u32 (div_up 32 nsecs 1000000 * khz)))
  else mret (u32 (cur + div_up 32 (u32 (nsecs * khz)) 1000000)).

Definition timer_check (end_ : Z) : prog bool :=
  t ← timer_read;
  mret (0 <? to_signed 32 (u32 (t - end_))).

Fixpoint timer_delay (fuel : nat) (end_ : Z) : prog unit :=
  match fuel with
  | O => fun _ => None
  | S k => c ← timer_check end_; if c : bool then mret tt else timer_delay k end_
  end.

Fixpoint timer_sleep (fuel : nat) (end_ : Z) : prog unit :=
  match fuel with
  | O => fun _ => None
  | S k => c ← timer_check end_; if c : bool then mret tt else run host_yield;; timer_sleep k end_
  end.

Definition ndelay (fuel : nat) (count : Z) : prog unit := e ← timer_calc_nsec count; timer_delay fuel e.
Definition udelay (fuel : nat) (count : Z) : prog unit := e ← timer_calc_usec count; timer_delay fuel e.
Definition mdelay (fuel : nat) (count : Z) : prog unit := e ← timer_calc count; timer_delay fuel e.
Definition nsleep (fuel : nat) (count : Z) : prog unit := e ← timer_calc_nsec count; timer_sleep fuel e.
Definition usleep (fuel : nat) (count : Z) : prog unit := e ← timer_calc_usec count; timer_sleep fuel e.
Definition msleep (fuel : nat) (count : Z) : prog unit := e ← timer_calc count; timer_sleep fuel e.

Definition pit_setup : prog unit :=
  poutb PM_SEL_TIMER0_WORD_MODE2 PORT_PIT_MODE;;
  poutb 0 PORT_PIT_COUNTER0;;
  poutb 0 PORT_PIT_COUNTER0.

End programs.

(** * Timer interrupts and milliseconds *)

Definition ticks_to_ms (ticks : Z) : Z :=
  let t := u32 (PIT_TICK_INTERVAL * 1000 * PMTIMER_TO_PIT * ticks) in
  div_up 32 t PMTIMER_HZ.

Definition ticks_from_ms (ms : Z) : Z :=
  let t := u32 (div_up 64 (u64 (ms * PMTIMER_HZ)) PIT_TICK_INTERVAL) in
  div_up 32 t (1000 * PMTIMER_TO_PIT).

(** The interrupts of a time of up to 21 hours, 50 minutes and 34 seconds: the
    least number that lasts as long. *)
Lemma ticks_from_ms_least ms : 0 <= ms <= 78634000 ->
  (ticks_from_ms ms - 1) * (PIT_TICK_INTERVAL * 1000 * PMTIMER_TO_PIT) < ms * PMTIMER_HZ <=
  ticks_from_ms ms * (PIT_TICK_INTERVAL * 1000 * PMTIMER_TO_PIT).
Proof.
  intros Hms. unfold ticks_from_ms, div_up, PMTIMER_HZ, PIT_TICK_INTERVAL, PMTIMER_TO_PIT.
  rewrite (wrap_small 64 (ms * 3579545)) by (unfold fits; lia).
  rewrite (wrap_small 64 (_ - 1)) by (unfold fits; lia).
  set (q := (_ - 1) / 65536). assert (q * 65536 < ms * 3579545 + 65536 <= (q + 1) * 65536) as Hq.
  { unfold q. pose proof (Z.div_mod (ms * 3579545 + 65536 - 1) 65536). pose proof (Z.mod_pos_bound (ms * 3579545 + 65536 - 1) 65536). lia. }
  rewrite (wrap_small 32 q) by (unfold fits; lia). rewrite wrap_small by (unfold fits; lia).
  pose proof (Z.div_mod (q + 1000 * 3 - 1) (1000 * 3)). pose proof (Z.mod_pos_bound (q + 1000 * 3 - 1) (1000 * 3)). lia.
Qed.

(** Later in the day the product overflows. *)
Lemma ticks_from_ms_late ms : 78635000 <= ms <= 86400000 ->
  (ticks_from_ms ms + 1431654) * (PIT_TICK_INTERVAL * 1000 * PMTIMER_TO_PIT) < ms * PMTIMER_HZ <=
  (ticks_from_ms ms + 1431656) * (PIT_TICK_INTERVAL * 1000 * PMTIMER_TO_PIT).
Proof.
  intros Hms. unfold ticks_from_ms, div_up, PMTIMER_HZ, PIT_TICK_INTERVAL, PMTIMER_TO_PIT.
  rewrite (wrap_small 64 (ms * 3579545)) by (unfold fits; lia).
  rewrite (wrap_small 64 (_ - 1)) by (unfold fits; lia).
  set (q := (_ - 1) / 65536). assert (q * 65536 < ms * 3579545 + 65536 <= (q + 1) * 65536) as Hq.
  { unfold q. pose proof (Z.div_mod (ms * 3579545 + 65536 - 1) 65536). pose proof (Z.mod_pos_bound (ms * 3579545 + 65536 - 1) 65536). lia. }
  assert (u32 q = q - 2 ^ 32) as -> by (symmetry; apply (Z.mod_unique_pos _ _ 1); lia).
  rewrite wrap_small by (unfold fits; lia).
  pose proof (Z.div_mod (q - 2 ^ 32 + 1000 * 3 - 1) (1000 * 3)). pose proof (Z.mod_pos_bound (q - 2 ^ 32 + 1000 * 3 - 1) (1000 * 3)). lia.
Qed.

(** * The rate of the timer *)

Lemma halved w t b : 0 < w -> 0 <= t < 2 ^ w -> t <= 2 * b ->
  0 <= Z.shiftr (wrap w (t + 1)) 1 < 2 ^ w /\ Z.shiftr (wrap w (t + 1)) 1 <= b.
Proof.
  intros Hw Ht Hb.
  assert (0 <= wrap w (t + 1) <= t + 1) as [? ?].
  { unfold wrap. pose proof (Z.mod_pos_bound (t + 1) (2 ^ w) ltac:(lia)).
    pose proof (Z.mod_le (t + 1) (2 ^ w) ltac:(lia) ltac:(lia)). lia. }
  rewrite Z.shiftr_div_pow2 by lia. change (2 ^ 1) with 2. split.
  - split; [apply Z.div_pos; lia|apply Z.div_lt_upper_bound; lia].
  - enough (wrap w (t + 1) / 2 < b + 1) by lia. apply Z.div_lt_upper_bound; lia.
Qed.

Lemma halve_spec fuel w limit t shift : 0 < limit -> 0 < w ->
  0 <= t < 2 ^ w -> t <= (limit - 1) * 2 ^ Z.of_nat fuel ->
  0 <= (halve fuel w limit t shift).1 < limit.
Proof.
  intros Hl Hw. revert t shift. induction fuel as [|k IH]; intros t shift Ht Hf; cbn [halve].
  - cbn [fst]. change (2 ^ Z.of_nat 0) with 1 in Hf. lia.
  - ztest; [|cbn [fst]; lia]. rewrite Nat2Z.inj_succ, Z.pow_succ_r in Hf by lia.
    destruct (halved w t ((limit - 1) * 2 ^ Z.of_nat k)) as [? ?]; [done|lia|lia|]. by apply IH.
Qed.

(** The rate fits the products of the code, and a counter is selected. *)
Definition timer_ok (pm_port : Z) (v : clock_vars) : Prop :=
  0 <= TimerKHz v < 6000 /\ fits 32 (TimerLast v) /\ (0 <= ShiftTSC v <= 32 /\ (TimerPort v <> 0 -> ShiftTSC v = 0)) /\
  (TimerPort v = 0 \/ TimerPort v = pm_port \/ TimerPort v = PORT_PIT_COUNTER0).

Lemma div_up_bound w n d limit : 0 <= n -> 0 < d -> n + d - 1 < 2 ^ w -> n + d - 1 < limit * d ->
  0 <= div_up w n d < limit.
Proof.
  intros. unfold div_up. rewrite wrap_small by (unfold fits; lia).
  split; [apply Z.div_pos; lia|apply Z.div_lt_upper_bound; lia].
Qed.

Lemma div_up_fits w n d : 0 <= w -> 0 < d -> fits w (div_up w n d).
Proof.
  intros Hw Hd. pose proof (wrap_fits w (n + d - 1) Hw) as [H0 H1]. unfold div_up. split; [by apply Z.div_pos|].
  apply Z.div_lt_upper_bound; [done|]. nia.
Qed.

Lemma halve_shift fuel w limit t shift m : 0 < w -> 0 <= t < 2 ^ w -> t <= (limit - 1) * 2 ^ Z.of_nat m ->
  0 < limit -> 0 <= shift -> shift + Z.of_nat m < 2 ^ 8 ->
  0 <= (halve fuel w limit t shift).2 <= shift + Z.of_nat m.
Proof.
  intros Hw. revert t shift m. induction fuel as [|k IH]; intros t shift m Ht Hm Hl Hs Hb; cbn [halve]; [cbn [snd]; lia|].
  ztest; [|cbn [snd]; lia]. destruct m as [|m]; [change (2 ^ Z.of_nat 0) with 1 in Hm; lia|].
  destruct (halved w t ((limit - 1) * 2 ^ Z.of_nat m)) as [Hh0 Hh1]; [done|done| |].
  { rewrite Nat2Z.inj_succ, Z.pow_succ_r in Hm by lia. lia. }
  rewrite (wrap_small 8 (shift + 1)) by (unfold fits; lia).
  destruct (IH (Z.shiftr (wrap w (t + 1)) 1) (shift + 1) m) as [H0 H1]; [lia|lia|lia|lia|lia|]. lia.
Qed.

Section rate.
Context {W : Type} {Mc : Machine W} {H : ClockHost W}.

(** What holds if a program returns. *)
Definition leads {A} (p : P (clk W) A) (s : clk W) (Q : A -> clk W -> Prop) : Prop :=
  forall x s', p s = Some (x, s') -> Q x s'.

Lemma leads_bind {A B} (p : P (clk W) A) (k : A -> P (clk W) B) s Q :
  leads p s (fun x s' => leads (k x) s' Q) -> leads (p ≫= k) s Q.
Proof.
  intros Hp x s' E. unfold mbind, P_bind in E. destruct (p s) as [[y s1]|] eqn:E1; [|done].
  exact (Hp y s1 E1 x s' E).
Qed.

Lemma leads_dev {A} (m : M W A) s (Q : A -> clk W -> Prop) :
  (forall x w, Q x (mkClk (c_mem s) (c_vars s) w)) -> leads (dev m) s Q.
Proof. intros HQ x s' E. unfold dev in E. destruct (m (c_dev s)) as [y w]. injection E as <- <-. apply HQ. Qed.

Lemma leads_ret {A} (x : A) s (Q : A -> clk W -> Prop) : Q x s -> leads (mret x) s Q.
Proof. intros HQ y s' E. by injection E as <- <-. Qed.

Lemma leads_wait fuel s (Q : unit -> clk W -> Prop) :
  (forall w, Q tt (mkClk (c_mem s) (c_vars s) w)) -> leads (wait_t2out fuel) s Q.
Proof.
  revert s. induction fuel as [|k IH]; intros s HQ; cbn [wait_t2out]; [done|].
  apply leads_bind, leads_dev. intros b w. ztest; [apply IH|apply leads_ret]; intros; apply HQ.
Qed.

Lemma leads_rdtsc s (Q : Z -> clk W -> Prop) :
  (forall x w, Q x (mkClk (c_mem s) (c_vars s) w)) -> leads rdtscll s Q.
Proof. intros HQ. apply leads_bind, leads_dev. intros [hi lo] w. apply leads_ret, HQ. Qed.

Lemma leads_vars s (Q : clock_vars -> clk W -> Prop) : Q (c_vars s) s -> leads vars s Q.
Proof. intros HQ x s' E. by injection E as <- <-. Qed.

Lemma leads_with f s (Q : unit -> clk W -> Prop) : Q tt (mkClk (c_mem s) (f (c_vars s)) (c_dev s)) -> leads (with_vars f) s Q.
Proof. intros HQ x s' E. by injection E as <- <-. Qed.

Lemma timer_ok_start pm_port : timer_ok pm_port vars_at_start.
Proof. do 3 (split; [by vm_compute|]). by right; right. Qed.

(** One step of a program of which only the result matters. *)
Ltac leads_step :=
  lazymatch goal with
  | |- leads (mbind _ _) _ _ => apply leads_bind
  | |- leads (dev _) _ _ => apply leads_dev; intros ? ?; cbn [c_mem c_vars c_dev]
  | |- leads rdtscll _ _ => apply leads_rdtsc; intros ? ?; cbn [c_mem c_vars c_dev]
  | |- leads (wait_t2out _) _ _ => apply leads_wait; intros ?; cbn [c_mem c_vars c_dev]
  | |- leads vars _ _ => apply leads_vars; cbn [c_mem c_vars c_dev]
  | |- leads (with_vars _) _ _ => apply leads_with; cbn [c_mem c_vars c_dev]
  | |- leads (mret _) _ _ => apply leads_ret
  end.

Lemma calibrated_rate pm_port fuel s : timer_ok pm_port (c_vars s) -> TimerPort (c_vars s) <> 0 ->
  leads (tsctimer_setup fuel) s (fun _ s' => timer_ok pm_port (c_vars s')).
Proof.
  intros (Hk & Hl & [Hs Hs0] & _) Hp. unfold tsctimer_setup, poutb, pinb. repeat leads_step. cbv zeta.
  set (n := u64 (_ * PMTIMER_HZ)).
  assert (0 <= div_up 64 n CALIBRATE_COUNT < 2 ^ 53) as Ht.
  { pose proof (wrap_fits 64 (n + CALIBRATE_COUNT - 1) ltac:(lia)) as [? ?]. unfold div_up, CALIBRATE_COUNT in *.
    split; [apply Z.div_pos; lia|apply Z.div_lt_upper_bound; lia]. }
  set (t := div_up 64 _ _) in *. rewrite (Hs0 Hp).
  pose proof (halve_spec 64 64 (1 ≪ 24) t 0) as Hh.
  pose proof (halve_shift 64 64 (1 ≪ 24) t 0 32) as Hs'.
  destruct (halve _ _ _ _ _) as [t' shift]. cbn [fst snd] in *. change (1 ≪ 24) with 16777216 in *.
  change (2 ^ Z.of_nat 64) with (2 ^ 64) in Hh. change (2 ^ Z.of_nat 32) with (2 ^ 32) in Hs'.
  leads_step. unfold timer_ok; cbn. split; [|split; [done|split; [split; [apply Hs'; lia|done]|by left]]].
  rewrite wrap_small by (unfold fits; lia). apply div_up_bound; unfold PMTIMER_TO_PIT; lia.
Qed.

(** Every way to select a counter keeps the rate in its bounds. *)
Lemma setups_rate pm_port fuel khz s : fits 32 khz -> timer_ok pm_port (c_vars s) ->
  leads (timer_setup fuel) s (fun _ s' => timer_ok pm_port (c_vars s')) /\
  leads (tsctimer_setfreq khz) s (fun _ s' => timer_ok pm_port (c_vars s')) /\
  leads (pmtimer_setup pm_port) s (fun _ s' => timer_ok pm_port (c_vars s')).
Proof.
  intros Hkhz Hok. split; [|split].
  - unfold timer_setup. do 2 leads_step. destruct (Z.eqb_spec (TimerPort (c_vars s)) PORT_PIT_COUNTER0) as [Ep|]; cbn [negb]; [|by leads_step].
    destruct (cpuid 0) as [[[eax ?] ?] ?]. cbv zeta. case_match; [|by leads_step].
    apply calibrated_rate; [done|by rewrite Ep].
  - unfold tsctimer_setfreq. do 2 leads_step. destruct (Z.eqb_spec (TimerPort (c_vars s)) PORT_PIT_COUNTER0) as [Ep|]; cbn [negb]; [|by leads_step].
    destruct Hok as (Hk & Hl & Hs & Hp). destruct Hkhz as [Hk0 Hk1].
    pose proof (halve_spec 32 32 6000 khz 0) as Hh. pose proof (halve_shift 32 32 6000 khz 0 32) as Hs'.
    destruct (halve _ _ _ _ _) as [k shift]. cbn [fst snd] in *. change (2 ^ Z.of_nat 32) with (2 ^ 32) in *.
    leads_step. unfold timer_ok; cbn. split; [apply Hh; lia|]. split; [done|].
    split; [split; [apply Hs'; lia|done]|by left].
  - unfold pmtimer_setup. do 2 leads_step. destruct (Z.eqb_spec (TimerPort (c_vars s)) PORT_PIT_COUNTER0) as [Ep|]; cbn [negb]; [|by leads_step].
    destruct Hok as (Hk & Hl & Hs & Hp). leads_step. unfold timer_ok; cbn.
    split; [by vm_compute|]. split; [done|]. split; [split; [apply Hs|]|by right; left].
    intros _. apply (proj2 Hs). by rewrite Ep.
Qed.

End rate.

(** * The counters *)

(** How the counters count: [tsc], [pmt] and [pit] are the clocks counted up
    to the last sample, and the next sample is taken before the counter can
    overtake it.  The ACPI timer has 24 bits, whatever it shows above them;
    the 8254 counts down from 65536 and latches its count for two reads. *)
Class Timers (W : Type) {Mc : Machine W} := {
  tsc : W -> Z;
  pmt : W -> Z;
  pit : W -> Z;
  pm_port : Z;
  pm_port_ok : fits 16 pm_port /\ pm_port <> 0 /\ pm_port <> PORT_PIT_COUNTER0;
  tsc_counts w : exists hi lo w', rdtsc_asm w = ((hi, lo), w') /\ fits 32 hi /\ fits 32 lo /\
    hi * 2 ^ 32 + lo = u64 (tsc w') /\ 0 <= tsc w' /\ tsc w < tsc w' < tsc w + 2 ^ 31;
  pmt_counts w : exists x w', in_port 4 pm_port w = (x, w') /\ fits 32 x /\
    x mod 2 ^ 24 = pmt w' mod 2 ^ 24 /\ pmt w < pmt w' < pmt w + 2 ^ 24;
  pit_counts w : exists lo hi w1 w2 w', out_port 1 PORT_PIT_MODE PM_SEL_READBACK_VALUE0 w = (tt, w1) /\
    in_port 1 PORT_PIT_COUNTER0 w1 = (lo, w2) /\ in_port 1 PORT_PIT_COUNTER0 w2 = (hi, w') /\
    fits 8 lo /\ fits 8 hi /\ lo + 256 * hi = (- pit w') mod 2 ^ 16 /\ pit w < pit w' < pit w + 2 ^ 16
}.

Section counters.
Context {W : Type} {Mc : Machine W} {H : ClockHost W} {T : Timers W}.

(** The clocks counted, and the bits of a clock the timer drops. *)
Definition clocks (s : clk W) : Z :=
  if TimerPort (c_vars s) =? 0 then tsc (c_dev s)
  else if TimerPort (c_vars s) =? PORT_PIT_COUNTER0 then pit (c_dev s) else pmt (c_dev s).
Definition dropped (s : clk W) : Z := if TimerPort (c_vars s) =? 0 then ShiftTSC (c_vars s) else 0.

(** The bits a counter has. *)
Definition counter_bits (s : clk W) : Z := if TimerPort (c_vars s) =? PORT_PIT_COUNTER0 then 16 else 24.

(** The timer stands at [R]: what the next sample extends. *)
Definition stands (s : clk W) (R : Z) : Prop :=
  timer_ok pm_port (c_vars s) /\ 0 <= R /\
  if TimerPort (c_vars s) =? 0 then R = tsc (c_dev s)
  else TimerLast (c_vars s) = u32 R /\ R mod 2 ^ counter_bits s = clocks s mod 2 ^ counter_bits s.

(** The same timer, with its settings. *)
Definition same_timer (v v' : clock_vars) : Prop :=
  TimerKHz v' = TimerKHz v /\ TimerPort v' = TimerPort v /\ ShiftTSC v' = ShiftTSC v.

Lemma keep_high k z : 0 <= k <= 32 -> fits 32 z -> Z.land z (u32 (Z.lnot (2 ^ k - 1))) = z - z mod 2 ^ k.
Proof.
  intros Hk Hz. rewrite <- (land_clear_low 32 k z) by done. f_equal.
  rewrite Z.shiftl_mul_pow2, Z.ones_equiv by lia. unfold Z.pred. rewrite Z.mul_add_distr_r, <- Z.pow_add_r by lia.
  replace (32 - k + k) with 32 by lia. unfold wrap, Z.lnot, Z.pred. symmetry.
  apply (Z.mod_unique_pos _ _ (-1)).
  - pose proof (Z.pow_le_mono_r 2 k 32). lia.
  - lia.
Qed.

Lemma adjusted k last value : 0 <= k <= 32 -> fits 32 last ->
  let x := Z.lor (Z.land last (u32 (Z.lnot (2 ^ k - 1)))) (Z.land value (2 ^ k - 1)) in
  (if x <? last then u32 (x + (2 ^ k - 1 + 1)) else x) = u32 (last + (value - last) mod 2 ^ k).
Proof.
  intros Hk Hl x.
  assert (0 < 2 ^ k) as Hp by lia. pose proof (Z.div_mod last (2 ^ k) ltac:(lia)) as Hd.
  assert (x = last - last mod 2 ^ k + value mod 2 ^ k) as ->.
  { unfold x. rewrite keep_high by done. replace (2 ^ k - 1) with (Z.ones k) by (rewrite Z.ones_equiv; lia). rewrite land_ones_wrap by lia.
    rewrite Z.lor_comm. replace (last - last mod 2 ^ k) with (last / 2 ^ k * 2 ^ k) by lia.
    rewrite <- Z.shiftl_mul_pow2, lor_add_shift by (try apply wrap_fits; lia).
    rewrite Z.shiftl_mul_pow2 by lia. unfold wrap. lia. }
  pose proof (Z.mod_pos_bound last (2 ^ k) Hp). pose proof (Z.mod_pos_bound value (2 ^ k) Hp).
  rewrite Zminus_mod. set (a := last mod 2 ^ k) in *. set (b := value mod 2 ^ k) in *.
  ztest.
  - f_equal. rewrite <- (Z.mod_unique_pos (b - a) (2 ^ k) (-1) (b - a + 2 ^ k)); lia.
  - rewrite (Z.mod_small (b - a)) by lia. rewrite wrap_small; [lia|]. split; [destruct Hl; lia|].
    assert (last / 2 ^ k < 2 ^ (32 - k)).
    { apply Z.div_lt_upper_bound; [done|]. rewrite <- Z.pow_add_r by lia. replace (k + (32 - k)) with 32 by lia. apply Hl. }
    assert (2 ^ 32 = 2 ^ k * 2 ^ (32 - k)) as -> by (rewrite <- Z.pow_add_r by lia; f_equal; lia).
    fold a in Hd. nia.
Qed.

Lemma adjust_extends k (s : clk W) value : 0 <= k <= 32 -> fits 32 (TimerLast (c_vars s)) ->
  let v := u32 (TimerLast (c_vars s) + (value - TimerLast (c_vars s)) mod 2 ^ k) in
  timer_adjust_bits value (2 ^ k - 1) s = Some (v, mkClk (c_mem s) (set_last v (c_vars s)) (c_dev s)).
Proof.
  intros Hk Hl v. unfold timer_adjust_bits, mbind, P_bind, vars, with_vars, mret, P_ret. cbv zeta.
  by rewrite (adjusted k _ value Hk Hl).
Qed.

(** The three ways to take a sample. *)
Lemma shifted_low x d : 0 <= d <= 32 -> u32 (u64 x / 2 ^ d) = u32 (x / 2 ^ d).
Proof.
  intros Hd. rewrite <- !Z.shiftr_div_pow2 by lia. apply Z.bits_inj'. intros i Hi.
  rewrite !wrap_testbit, !Z.shiftr_spec, wrap_testbit by lia. ztest; [|done]. ztest; [done|lia].
Qed.

Lemma read_tsc (s : clk W) : TimerPort (c_vars s) = 0 -> 0 <= ShiftTSC (c_vars s) <= 32 ->
  exists w', timer_read s = Some (u32 (tsc w' / 2 ^ ShiftTSC (c_vars s)), mkClk (c_mem s) (c_vars s) w') /\
    0 <= tsc w' /\ tsc (c_dev s) < tsc w' < tsc (c_dev s) + 2 ^ 31.
Proof.
  intros Hp Hs. destruct (tsc_counts (c_dev s)) as (hi & lo & w' & E & Hhi & Hlo & Et & Hlt).
  exists w'. split; [|done]. unfold timer_read, rdtscll, dev, mbind, P_bind, vars, mret, P_ret.
  rewrite Hp. cbn [Z.eqb]. rewrite E. rewrite Z.lor_comm, lor_add_shift by (done || lia).
  rewrite Z.shiftr_div_pow2 by lia. replace (lo + hi * 2 ^ 32) with (u64 (tsc w')) by lia. by rewrite shifted_low.
Qed.

Lemma read_pmt (s : clk W) : TimerPort (c_vars s) = pm_port -> fits 32 (TimerLast (c_vars s)) ->
  exists x w', let v := u32 (TimerLast (c_vars s) + (x - TimerLast (c_vars s)) mod 2 ^ 24) in
    timer_read s = Some (v, mkClk (c_mem s) (set_last v (c_vars s)) w') /\
    x mod 2 ^ 24 = pmt w' mod 2 ^ 24 /\ pmt (c_dev s) < pmt w' < pmt (c_dev s) + 2 ^ 24.
Proof.
  intros Hp Hl. destruct (pmt_counts (c_dev s)) as (x & w' & E & Hx & Em & Hlt).
  destruct pm_port_ok as (Hf & H0 & H40). exists x, w'. split; [|done].
  unfold timer_read, pinl, inl. rewrite (p_step _ _ s s (c_vars s)) by done. cbv zeta. rewrite Hp.
  rewrite (proj2 (Z.eqb_neq _ _) H0), (proj2 (Z.eqb_neq _ _) H40). cbn [negb].
  rewrite (p_step _ _ s (mkClk (c_mem s) (c_vars s) w') x).
  - by apply (adjust_extends 24 (mkClk (c_mem s) (c_vars s) w') x).
  - unfold dev. rewrite (wrap_small 16 pm_port) by done. by rewrite E.
Qed.

Lemma read_pit (s : clk W) : TimerPort (c_vars s) = PORT_PIT_COUNTER0 -> fits 32 (TimerLast (c_vars s)) ->
  exists x w', let v := u32 (TimerLast (c_vars s) + (x - TimerLast (c_vars s)) mod 2 ^ 16) in
    timer_read s = Some (v, mkClk (c_mem s) (set_last v (c_vars s)) w') /\
    x mod 2 ^ 16 = pit w' mod 2 ^ 16 /\ pit (c_dev s) < pit w' < pit (c_dev s) + 2 ^ 16.
Proof.
  intros Hp Hl. destruct (pit_counts (c_dev s)) as (lo & hi & w1 & w2 & w' & E1 & E2 & E3 & Hlo & Hhi & Em & Hlt).
  exists (u32 (- (lo + 256 * hi))), w'. split; [|split; [|done]].
  - unfold timer_read, poutb, pinb. rewrite (p_step _ _ s s (c_vars s)) by done. cbv zeta. rewrite Hp.
    change (PORT_PIT_COUNTER0 =? 0) with false. change (PORT_PIT_COUNTER0 =? PORT_PIT_COUNTER0) with true. cbn [negb].
    rewrite (p_step _ _ s (mkClk (c_mem s) (c_vars s) w1) tt) by (unfold dev, outb; change (u16 PORT_PIT_MODE) with PORT_PIT_MODE;
      change (u8 PM_SEL_READBACK_VALUE0) with PM_SEL_READBACK_VALUE0; by rewrite E1).
    rewrite (p_step _ _ _ (mkClk (c_mem s) (c_vars s) w2) lo) by (unfold dev, inb; cbn [c_dev]; change (u16 PORT_PIT_COUNTER0) with PORT_PIT_COUNTER0; by rewrite E2).
    rewrite (p_step _ _ _ (mkClk (c_mem s) (c_vars s) w') hi) by (unfold dev, inb; cbn [c_dev]; change (u16 PORT_PIT_COUNTER0) with PORT_PIT_COUNTER0; by rewrite E3).
    rewrite lor_add_shift by (done || lia). replace (lo + hi * 2 ^ 8) with (lo + 256 * hi) by lia.
    by apply (adjust_extends 16 (mkClk (c_mem s) (c_vars s) w')).
  - change (wrap 16 (u32 (- (lo + 256 * hi))) = wrap 16 (pit w')). rewrite wrap_wrap_le, Em by lia. unfold wrap.
    rewrite <- (Z.sub_0_l ((- pit w') mod 2 ^ 16)), Zminus_mod_idemp_r. f_equal. lia.
Qed.

(** Extending the count [R] of a counter of [k] bits by a sample of it. *)
Lemma extend_count k R x c c' : 0 <= k <= 32 -> 0 <= R -> x mod 2 ^ k = c' mod 2 ^ k -> c < c' < c + 2 ^ k ->
  let R' := R + (x - R) mod 2 ^ k in
  u32 (u32 R + (x - u32 R) mod 2 ^ k) = u32 R' /\ 0 <= R' /\ R' mod 2 ^ k = c' mod 2 ^ k /\
  (R mod 2 ^ k = c mod 2 ^ k -> R' - R = c' - c).
Proof.
  intros Hk HR Ex Hc R'. assert (0 < 2 ^ k) as Hp by lia.
  assert ((x - u32 R) mod 2 ^ k = (x - R) mod 2 ^ k) as ->.
  { rewrite Zminus_mod. change (u32 R mod 2 ^ k) with (wrap k (u32 R)). rewrite wrap_wrap_le by lia. unfold wrap.
    by rewrite <- Zminus_mod. }
  pose proof (Z.mod_pos_bound (x - R) (2 ^ k) Hp). split; [by rewrite wrap_add_l|]. split; [lia|]. split.
  - unfold R'. rewrite Zplus_mod_idemp_r. rewrite <- Ex. f_equal. lia.
  - intros E. unfold R'. enough ((x - R) mod 2 ^ k = c' - c) by lia.
    rewrite Zminus_mod, Ex, E, <- Zminus_mod. apply Z.mod_small. lia.
Qed.

Lemma set_last_ok p x v : timer_ok p v -> timer_ok p (set_last (u32 x) v).
Proof. intros (Hk & _ & Hs & Hp). split; [done|]. split; [by apply wrap_fits|done]. Qed.

(** A sample moves the timer by the clocks that went by. *)
Definition sampled (s : clk W) (R : Z) : Prop :=
  exists R' s', timer_read s = Some (u32 (R' / 2 ^ dropped s), s') /\ stands s' R' /\
    same_timer (c_vars s) (c_vars s') /\ clocks s < clocks s' < clocks s + 2 ^ 31 /\
    (stands s R -> R' - R = clocks s' - clocks s).

Lemma sample_adjusted (s : clk W) R x w' :
  let last := TimerLast (c_vars s) in
  let v := u32 (last + (x - last) mod 2 ^ counter_bits s) in
  let s' := mkClk (c_mem s) (set_last v (c_vars s)) w' in
  timer_ok pm_port (c_vars s) -> TimerPort (c_vars s) <> 0 -> 0 <= R -> last = u32 R ->
  timer_read s = Some (v, s') -> x mod 2 ^ counter_bits s = clocks s' mod 2 ^ counter_bits s ->
  clocks s < clocks s' < clocks s + 2 ^ counter_bits s -> sampled s R.
Proof.
  intros last v s' Hok Hp HR Hl E Ex Hlt.
  assert (0 <= counter_bits s <= 24) as Hb by (unfold counter_bits; case_match; lia).
  destruct (extend_count (counter_bits s) R x _ _ ltac:(lia) HR Ex Hlt) as (Ev & HR' & Em & Hd).
  exists (R + (x - R) mod 2 ^ counter_bits s), s'. unfold dropped, stands.
  rewrite (proj2 (Z.eqb_neq _ _) Hp). change (TimerPort (c_vars s')) with (TimerPort (c_vars s)).
  rewrite (proj2 (Z.eqb_neq _ _) Hp), (Z.div_1_r _ : _ / 2 ^ 0 = _).
  rewrite <- Hl in Ev. split; [by rewrite E; f_equal; f_equal|].
  split; [split; [by apply set_last_ok|split; [done|split; [exact Ev|exact Em]]]|].
  split; [done|]. split; [pose proof (Z.pow_le_mono_r 2 (counter_bits s) 31); lia|].
  intros (_ & _ & _ & Es). by apply Hd.
Qed.

Lemma sample (s : clk W) (R : Z) : timer_ok pm_port (c_vars s) -> 0 <= R ->
  (TimerPort (c_vars s) <> 0 -> TimerLast (c_vars s) = u32 R) -> sampled s R.
Proof.
  intros Hok HR Hl. destruct (Hok) as (Hk & Hf & Hs & Hp). destruct (pm_port_ok) as (_ & H0 & H40).
  destruct Hp as [Hp|[Hp|Hp]].
  - destruct (read_tsc s Hp (proj1 Hs)) as (w' & E & H0' & Hlt). exists (tsc w'), (mkClk (c_mem s) (c_vars s) w').
    unfold dropped, clocks, stands. cbn [c_vars c_dev]. rewrite Hp, E. cbn [Z.eqb].
    do 4 (split; [done|]). by intros (_ & _ & ->).
  - destruct (read_pmt s Hp Hf) as (x & w' & E & Ex & Hlt).
    assert (counter_bits s = 24) as Eb by (unfold counter_bits; by rewrite Hp, (proj2 (Z.eqb_neq _ _) H40)).
    apply (sample_adjusted s R x w'); rewrite ?Eb; try done; unfold clocks; cbn [c_vars c_dev set_last TimerPort];
      rewrite ?Hp, ?(proj2 (Z.eqb_neq _ _) H0), ?(proj2 (Z.eqb_neq _ _) H40); try done.
    apply Hl. by rewrite Hp.
  - destruct (read_pit s Hp Hf) as (x & w' & E & Ex & Hlt).
    assert (counter_bits s = 16) as Eb by (unfold counter_bits; by rewrite Hp).
    apply (sample_adjusted s R x w'); rewrite ?Eb; try done; unfold clocks; cbn [c_vars c_dev set_last TimerPort];
      rewrite ?Hp; try done.
    apply Hl. by rewrite Hp.
Qed.

(** * Delays *)

Lemma stands_sampled (s : clk W) R : stands s R -> sampled s R.
Proof.
  intros (Hok & HR & Hl). apply sample; [done..|]. intros Hp. rewrite (proj2 (Z.eqb_neq _ _) Hp) in Hl. apply Hl.
Qed.

(** The comparison of two times less than half the range apart. *)
Lemma later_sound a b : - 2 ^ 31 < a - b < 2 ^ 31 -> (0 <? to_signed 32 (u32 (u32 a - u32 b))) = (b <? a).
Proof.
  intros Hab. rewrite to_signed_wrap. rewrite (to_signed_cong 32 _ (a - b)).
  - rewrite to_signed_small by (unfold sfits; lia). ztest; ztest; lia.
  - by rewrite wrap_sub_l, wrap_sub_r.
Qed.

Lemma div_step R R' d : 0 <= d -> R < R' < R + 2 ^ 31 -> R / 2 ^ d <= R' / 2 ^ d < R / 2 ^ d + 2 ^ 31.
Proof.
  intros Hd HR. assert (0 < 2 ^ d) by lia. split; [apply Z.div_le_mono; lia|].
  apply Z.div_lt_upper_bound; [done|]. pose proof (Z.div_mod R (2 ^ d) ltac:(lia)).
  pose proof (Z.mod_pos_bound R (2 ^ d) ltac:(lia)). nia.
Qed.

Lemma dropped_same (s s' : clk W) : same_timer (c_vars s) (c_vars s') -> dropped s' = dropped s.
Proof. intros (_ & Ep & Es). unfold dropped. by rewrite Ep, Es. Qed.

Lemma dropped_pos (s : clk W) R : stands s R -> 0 <= dropped s.
Proof. intros ((_ & _ & [[Hs _] _] & _) & _). unfold dropped. by case_match. Qed.

Lemma delay_runs fuel (s : clk W) R t n : stands s R -> 0 <= n < 2 ^ 31 -> t <= R / 2 ^ dropped s <= t + n ->
  (t + n + 1) * 2 ^ dropped s < R + Z.of_nat fuel ->
  exists s', timer_delay fuel (u32 (t + n)) s = Some (tt, s') /\
    (t + n + 1) * 2 ^ dropped s <= R + (clocks s' - clocks s).
Proof.
  revert s R. induction fuel as [|k IH]; intros s R Hs Hn Ht Hf.
  { pose proof (dropped_pos s R Hs). assert (0 < 2 ^ dropped s) by lia.
    pose proof (Z.mul_succ_div_gt R (2 ^ dropped s) ltac:(lia)). nia. }
  destruct (stands_sampled s R Hs) as (R' & s' & E & Hs' & Hsame & Hlt & Hd). specialize (Hd Hs).
  pose proof (dropped_pos s R Hs) as Hpos. pose proof (div_step R R' _ Hpos ltac:(lia)) as Hq.
  cbn [timer_delay]. unfold timer_check, mbind, P_bind. rewrite E. cbn [mret P_ret].
  rewrite later_sound by lia. ztest.
  - exists s'. split; [done|]. replace (R + _) with R' by lia.
    pose proof (Z.mul_div_le R' (2 ^ dropped s) ltac:(lia)). nia.
  - rewrite <- (dropped_same s s' Hsame) in *.
    destruct (IH s' R' Hs' Hn ltac:(lia) ltac:(lia)) as (s2 & E2 & Hc). exists s2. split; [exact E2|]. lia.
Qed.

Lemma calc_then_delay fuel (s : clk W) (calc : P (clk W) Z) n : timer_ok pm_port (c_vars s) -> 0 <= n < 2 ^ 31 ->
  (forall c s1, timer_read s = Some (c, s1) -> TimerKHz (c_vars s1) = TimerKHz (c_vars s) ->
    calc s = Some (u32 (c + n), s1)) ->
  (n + 1) * 2 ^ dropped s < Z.of_nat fuel ->
  exists s', (e ← calc; timer_delay fuel e) s = Some (tt, s') /\ n * 2 ^ dropped s < clocks s' - clocks s.
Proof.
  intros Hok Hn Hcalc Hf. destruct (Hok) as (_ & Hl & _).
  destruct (sample s (TimerLast (c_vars s)) Hok) as (R & s1 & E & Hs1 & Hsame & Hlt & _).
  { apply Hl. }
  { intros _. by rewrite wrap_small. }
  rewrite (p_step _ _ _ _ _ (Hcalc _ s1 E (proj1 Hsame))). rewrite wrap_add_l.
  rewrite <- (dropped_same s s1 Hsame) in *. pose proof (dropped_pos s1 R Hs1).
  assert (0 < 2 ^ dropped s1) by lia. pose proof (Z.mul_div_le R (2 ^ dropped s1) ltac:(lia)).
  pose proof (Z.mul_succ_div_gt R (2 ^ dropped s1) ltac:(lia)).
  destruct (delay_runs fuel s1 R (R / 2 ^ dropped s1) n Hs1 Hn ltac:(lia) ltac:(nia)) as (s' & E' & Hc).
  exists s'. split; [done|]. nia.
Qed.

(** The ticks of a count of units, [k] to the millisecond and [big] units the
    largest count that is scaled before it is divided. *)
Definition ticks_of (k khz count : Z) : Z :=
  if 500000 <? count then (count + k - 1) / k * khz else (count * khz + k - 1) / k.

Lemma ticks_of_bounds k khz count : 1000 <= k <= 1000000 -> 0 <= khz < 6000 -> 0 <= count <= 357000 * k ->
  count + k - 1 < 2 ^ 32 ->
  count * khz <= k * ticks_of k khz count /\ 0 <= ticks_of k khz count < 2 ^ 31 /\
  ticks_of k khz count <= count * khz / k + khz + 1 /\
  (if 500000 <? count then u32 (div_up 32 count k * khz) else div_up 32 (u32 (count * khz)) k) = ticks_of k khz count.
Proof.
  intros Hk Hz Hc Ho. unfold ticks_of, div_up. ztest.
  - pose proof (Z.mul_succ_div_gt (count + k - 1) k ltac:(lia)).
    pose proof (Z.mul_div_le (count + k - 1) k ltac:(lia)).
    assert (0 <= (count + k - 1) / k <= 357000) by (split; [apply Z.div_pos; lia|]; nia).
    rewrite (wrap_small 32 (count + k - 1)) by (unfold fits; lia).
    split; [nia|]. split; [nia|]. split; [|apply wrap_small; unfold fits; nia].
    pose proof (Z.mul_succ_div_gt (count * khz) k ltac:(lia)).
    enough (k * ((count + k - 1) / k * khz) < k * (count * khz / k + khz + 1)) by nia. nia.
  - assert (0 <= count * khz <= 500000 * 5999) as [? ?] by nia. set (x := count * khz) in *.
    rewrite (wrap_small 32 x) by (unfold fits; lia). rewrite (wrap_small 32 (x + k - 1)) by (unfold fits; lia).
    pose proof (Z.mul_succ_div_gt (x + k - 1) k ltac:(lia)). pose proof (Z.mul_div_le (x + k - 1) k ltac:(lia)).
    pose proof (Z.mul_succ_div_gt x k ltac:(lia)).
    split; [lia|]. split; [split; [apply Z.div_pos; lia|apply Z.div_lt_upper_bound; lia]|]. split; [|done].
    enough (k * ((x + k - 1) / k) < k * (x / k + khz + 2)) by nia. nia.
Qed.

(** The clocks a counter makes in a millisecond, by the rate of the code. *)
Definition rate (s : clk W) : Z := TimerKHz (c_vars s) * 2 ^ dropped s.

Lemma unit_delay fuel (s : clk W) calc k count : timer_ok pm_port (c_vars s) ->
  1000 <= k <= 1000000 -> 0 <= count <= 357000 * k -> count + k - 1 < 2 ^ 32 ->
  (forall c s1, timer_read s = Some (c, s1) -> TimerKHz (c_vars s1) = TimerKHz (c_vars s) ->
    calc s = Some (u32 (c + ticks_of k (TimerKHz (c_vars s)) count), s1)) ->
  (count * TimerKHz (c_vars s) / k + TimerKHz (c_vars s) + 2) * 2 ^ dropped s < Z.of_nat fuel ->
  exists s', (e ← calc; timer_delay fuel e) s = Some (tt, s') /\ count * rate s < k * (clocks s' - clocks s).
Proof.
  intros Hok Hk Hc Ho Hcalc Hf. destruct (ticks_of_bounds k (TimerKHz (c_vars s)) count Hk (proj1 Hok) Hc Ho) as (H1 & H2 & H3 & _).
  assert (0 <= dropped s) by (destruct Hok as (_ & _ & [[? _] _] & _); unfold dropped; by case_match).
  assert (0 < 2 ^ dropped s) by lia.
  destruct (calc_then_delay fuel s calc _ Hok H2 Hcalc) as (s' & E & Hlt); [nia|].
  exists s'. split; [done|]. unfold rate. nia.
Qed.

Lemma calc_usec_ticks (s s1 : clk W) c count : timer_ok pm_port (c_vars s) -> 0 <= count <= 357000000 ->
  timer_read s = Some (c, s1) -> TimerKHz (c_vars s1) = TimerKHz (c_vars s) ->
  timer_calc_usec count s = Some (u32 (c + ticks_of 1000 (TimerKHz (c_vars s)) count), s1).
Proof.
  intros Hok Hc E Ek. unfold timer_calc_usec, mbind, P_bind. rewrite E. cbn [vars mret P_ret]. rewrite Ek.
  destruct (ticks_of_bounds 1000 (TimerKHz (c_vars s)) count) as (_ & _ & _ & <-); [lia|apply Hok|lia..|]. by case_match.
Qed.

Lemma calc_nsec_ticks (s s1 : clk W) c count : timer_ok pm_port (c_vars s) -> 0 <= count <= 4293967296 ->
  timer_read s = Some (c, s1) -> TimerKHz (c_vars s1) = TimerKHz (c_vars s) ->
  timer_calc_nsec count s = Some (u32 (c + ticks_of 1000000 (TimerKHz (c_vars s)) count), s1).
Proof.
  intros Hok Hc E Ek. unfold timer_calc_nsec, mbind, P_bind. rewrite E. cbn [vars mret P_ret]. rewrite Ek.
  destruct (ticks_of_bounds 1000000 (TimerKHz (c_vars s)) count) as (_ & _ & _ & <-); [lia|apply Hok|lia..|]. by case_match.
Qed.

(** C25: A delay of [count] nanoseconds, microseconds or milliseconds returns,
    and by then the counter that drives it has counted more clocks than its
    rate makes in that time.  This holds for the time-stamp counter, the
    24-bit timer of ACPI and the 8254, across any number of their overflows,
    for every rate the set-up code can leave and for delays of up to 357
    seconds. *)
Theorem delay_waits fuel (s : clk W) count : timer_ok pm_port (c_vars s) -> 0 <= count -> forall khz,
  khz = TimerKHz (c_vars s) ->
  (count <= 4293967296 -> (count * khz / 1000000 + khz + 2) * 2 ^ dropped s < Z.of_nat fuel ->
    exists s', ndelay fuel count s = Some (tt, s') /\ count * rate s < 1000000 * (clocks s' - clocks s)) /\
  (count <= 357000000 -> (count * khz / 1000 + khz + 2) * 2 ^ dropped s < Z.of_nat fuel ->
    exists s', udelay fuel count s = Some (tt, s') /\ count * rate s < 1000 * (clocks s' - clocks s)) /\
  (count <= 357000 -> (count * khz + 1) * 2 ^ dropped s < Z.of_nat fuel ->
    exists s', mdelay fuel count s = Some (tt, s') /\ count * rate s < clocks s' - clocks s).
Proof.
  intros Hok Hc khz ->. split; [|split]; intros Hb Hf.
  - apply (unit_delay fuel s (timer_calc_nsec count) 1000000 count); [done|lia|lia|lia| |done].
    intros c s1 E Ek. by apply calc_nsec_ticks.
  - apply (unit_delay fuel s (timer_calc_usec count) 1000 count); [done|lia|lia|lia| |done].
    intros c s1 E Ek. by apply calc_usec_ticks.
  - destruct (Hok) as (Hk & _).
    destruct (calc_then_delay fuel s (timer_calc count) (count * TimerKHz (c_vars s)) Hok) as (s' & E & Hlt);
      [nia| |done|].
    + intros c s1 E Ek. unfold timer_calc, mbind, P_bind. rewrite E. cbn [vars mret P_ret].
      rewrite Ek, (Z.mul_comm (TimerKHz _)), wrap_add_r. done.
    + exists s'. split; [done|]. unfold rate. lia.
Qed.

End counters.

(** * A machine whose counters move by five clocks between samples *)

Record demo_pc := mkDemoPc { demo_count : N; demo_second : bool }.

Definition demo_tick (p : demo_pc) : demo_pc := mkDemoPc (demo_count p + 5) false.

#[export] Instance demo_machine : Machine demo_pc := {|
  in_port n port p :=
    if bool_decide (n = 4%nat) then (Z.of_N (demo_count (demo_tick p)) mod 2 ^ 24, demo_tick p)
    else
      let v := (- Z.of_N (demo_count p)) mod 2 ^ 16 in
      ((if demo_second p then v / 256 else v mod 256), mkDemoPc (demo_count p) (negb (demo_second p)));
  out_port n port v p := (tt, demo_tick p);
  read_mem n a p := (0, p);
  write_mem n a v p := (tt, p);
  clflush a p := (tt, p);
  rdmsr_asm r p := ((0, 0), p);
  wrmsr_asm r h l p := (tt, p);
  rdtsc_asm p := ((u64 (Z.of_N (demo_count (demo_tick p))) / 2 ^ 32, u64 (Z.of_N (demo_count (demo_tick p))) mod 2 ^ 32), demo_tick p)
|}.

#[export] Instance demo_host : ClockHost demo_pc := {|
  host_yield s := s; host_yield_toirq s := s; host_preempt s := s; host_int v s := s;
  usb_check_event s := s; sercon_check_event s := s; cpuid i := (0, 0, 0, 0); entry_08 := 0; entry_70 := 0
|}.

#[export, refine] Instance demo_timers : Timers demo_pc := {|
  tsc p := Z.of_N (demo_count p); pmt p := Z.of_N (demo_count p); pit p := Z.of_N (demo_count p); pm_port := 0x608
|}.
Proof.
  - by vm_compute.
  - intros p. exists (u64 (Z.of_N (demo_count (demo_tick p))) / 2 ^ 32), (u64 (Z.of_N (demo_count (demo_tick p))) mod 2 ^ 32), (demo_tick p).
    split; [done|]. pose proof (wrap_fits 64 (Z.of_N (demo_count (demo_tick p))) ltac:(lia)) as [? ?].
    split; [split; [apply Z.div_pos; lia|apply Z.div_lt_upper_bound; lia]|].
    split; [apply Z.mod_pos_bound; lia|]. split; [rewrite Z.mul_comm; symmetry; by apply Z.div_mod|]. unfold demo_tick; cbn [demo_count]. lia.
  - intros p. exists (Z.of_N (demo_count (demo_tick p)) mod 2 ^ 24), (demo_tick p). split; [done|].
    pose proof (Z.mod_pos_bound (Z.of_N (demo_count (demo_tick p))) (2 ^ 24) ltac:(lia)).
    split; [unfold fits; lia|]. split; [by rewrite Z.mod_mod|]. unfold demo_tick; cbn [demo_count]. lia.
  - intros p. set (v := (- Z.of_N (demo_count (demo_tick p))) mod 2 ^ 16).
    pose proof (Z.mod_pos_bound (- Z.of_N (demo_count (demo_tick p))) (2 ^ 16) ltac:(lia)) as Hv. fold v in Hv.
    exists (v mod 256), (v / 256), (demo_tick p), (mkDemoPc (demo_count (demo_tick p)) true), (demo_tick p).
    do 3 (split; [done|]). split; [apply Z.mod_pos_bound; lia|].
    split; [split; [apply Z.div_pos; lia|apply Z.div_lt_upper_bound; lia]|]. split.
    { change (v mod 256 + 256 * (v / 256) = v). pose proof (Z.div_mod v 256). lia. }
    unfold demo_tick; cbn [demo_count]. lia.
Defined.

Definition demo_clock : clk demo_pc := mkClk (fun _ => 0) vars_at_start (mkDemoPc 0 false).

Lemma delay_waits_witness : exists s', udelay 1300 3 demo_clock = Some (tt, s') /\ 3 * rate demo_clock < 1000 * (clocks s' - clocks demo_clock).
Proof.
  refine (proj1 (proj2 (delay_waits 1300 demo_clock 3 (timer_ok_start _) _ _ eq_refl)) _ _).
  - lia.
  - lia.
  - by vm_compute.
Defined.
