(* ===== verification/SeaClock.v ===== *)
(** The clock services of SeaBIOS: the real-time clock chip
    ([seabios/src/hw/rtc.c]), the timer interrupt, interrupt 1Ah, the waits of
    interrupt 15h and the timers counted in timer interrupts
    ([seabios/src/clock.c]).

    Programs are those of [SeaTimer]; the registers of a call are those of the
    disk services. *)

From stdpp Require Import base numbers list.
From Stdlib Require Import ZArith Lia.
From S2P Require Import Prelude Memory Machine CcInt VgaState VgaVbe SeaDisk SeaTimer.

Definition PORT_CMOS_INDEX : Z := 0x70.
Definition PORT_CMOS_DATA : Z := 0x71.
Definition NMI_DISABLE_BIT : Z := 0x80.

Definition CMOS_RTC_SECONDS : Z := 0x00.
Definition CMOS_RTC_SECONDS_ALARM : Z := 0x01.
Definition CMOS_RTC_MINUTES : Z := 0x02.
Definition CMOS_RTC_MINUTES_ALARM : Z := 0x03.
Definition CMOS_RTC_HOURS : Z := 0x04.
Definition CMOS_RTC_HOURS_ALARM : Z := 0x05.
Definition CMOS_RTC_DAY_MONTH : Z := 0x07.
Definition CMOS_RTC_MONTH : Z := 0x08.
Definition CMOS_RTC_YEAR : Z := 0x09.
Definition CMOS_STATUS_A : Z := 0x0a.
Definition CMOS_STATUS_B : Z := 0x0b.
Definition CMOS_STATUS_C : Z := 0x0c.
Definition CMOS_STATUS_D : Z := 0x0d.

Definition RTC_A_UIP : Z := 0x80.
Definition RTC_B_SET : Z := 0x80.
Definition RTC_B_PIE : Z := 0x40.
Definition RTC_B_AIE : Z := 0x20.
Definition RTC_B_24HR : Z := 0x02.
Definition RTC_B_DSE : Z := 0x01.

Definition floppy_motor_counter : Z := 0x40.
Definition timer_counter : Z := 0x6c.
Definition timer_rollover : Z := 0x70.
Definition user_wait_complete_flag : Z := 0x98.
Definition user_wait_timeout : Z := 0x9c.
Definition rtc_wait_flag : Z := 0xa0.

Definition RWS_WAIT_PENDING : Z := 1.
Definition TICKS_PER_DAY : Z := 1573040.

Definition PORT_PIC1_CMD : Z := 0x20.
Definition PORT_PIC1_DATA : Z := 0x21.
Definition PORT_PIC2_CMD : Z := 0xa0.
Definition PORT_PIC2_DATA : Z := 0xa1.
Definition BIOS_HWIRQ0_VECTOR : Z := 0x08.
Definition BIOS_HWIRQ8_VECTOR : Z := 0x70.

Definition PORT_FD_DOR : Z := 0x3f2.
Definition FLOPPY_DOR_MOTOR_MASK : Z := 0xf0.

Definition RET_EUNSUPPORTED : Z := 0x86.
Definition RET_ECLOCKINUSE : Z := 0x83.

Section programs.
Context {W : Type} {Mc : Machine W} {H : ClockHost W}.

Abbreviation prog := (P (clk W)).

(** * The chip *)

Definition rtc_read (index : Z) : prog Z :=
  poutb (Z.lor index NMI_DISABLE_BIT) PORT_CMOS_INDEX;;
  pinb PORT_CMOS_DATA.

Definition rtc_write (index val : Z) : prog unit :=
  poutb (Z.lor index NMI_DISABLE_BIT) PORT_CMOS_INDEX;;
  poutb val PORT_CMOS_DATA.

Definition rtc_mask (index off on : Z) : prog unit :=
  poutb (Z.lor index NMI_DISABLE_BIT) PORT_CMOS_INDEX;;
  val ← pinb PORT_CMOS_DATA;
  poutb (Z.lor (Z.land val (Z.lnot (u8 off))) (u8 on)) PORT_CMOS_DATA.

Fixpoint rtc_updating_wait (fuel : nat) (end_ : Z) : prog Z :=
  match fuel with
  | O => fun _ => None
  | S k =>
    a ← rtc_read CMOS_STATUS_A;
    if Z.land a RTC_A_UIP =? 0 then mret 0
    else
      c ← timer_check end_;
      if c : bool then mret (-1) else run host_yield;; rtc_updating_wait k end_
  end.

Definition rtc_updating (fuel : nat) : prog Z :=
  a ← rtc_read CMOS_STATUS_A;
  if Z.land a RTC_A_UIP =? 0 then mret 0
  else
    e ← timer_calc 15;
    rtc_updating_wait fuel e.

Definition rtc_setup : prog unit :=
  rtc_write CMOS_STATUS_A 0x26;;
  rtc_mask CMOS_STATUS_B (Z.lnot RTC_B_DSE) RTC_B_24HR;;
  rtc_read CMOS_STATUS_C;;
  rtc_read CMOS_STATUS_D;;
  mret tt.

Definition rtc_use : prog unit :=
  v ← vars;
  let count := RTCusers v in
  with_vars (set_users (count + 1));;
  if negb (count =? 0) then mret tt else rtc_mask CMOS_STATUS_B 0 RTC_B_PIE.

Definition rtc_release : prog unit :=
  v ← vars;
  let count := RTCusers v in
  with_vars (set_users (count - 1));;
  if negb (count =? 1) then mret tt else rtc_mask CMOS_STATUS_B RTC_B_PIE 0.

(** * The interrupt controller *)

Definition pic_irqmask_mask (off on : Z) : prog unit :=
  a ← pinb PORT_PIC1_DATA;
  poutb (Z.lor (Z.land a (Z.lnot (u8 off))) (u8 on)) PORT_PIC1_DATA;;
  b ← pinb PORT_PIC2_DATA;
  poutb (Z.lor (Z.land b (Z.lnot (u8 (Z.shiftr off 8)))) (u8 (Z.shiftr on 8))) PORT_PIC2_DATA.

Definition set_ivt (vector func : Z) : prog unit :=
  fun s => Some (tt, mkClk (SET_IVT (c_mem s) vector func) (c_vars s) (c_dev s)).

Definition enable_hwirq (hwirq func : Z) : prog unit :=
  pic_irqmask_mask (u16 (Z.shiftl 1 hwirq)) 0;;
  set_ivt (if hwirq <? 8 then BIOS_HWIRQ0_VECTOR + hwirq else BIOS_HWIRQ8_VECTOR + hwirq - 8) func.

Definition pic_eoi1 : prog unit := poutb 0x20 PORT_PIC1_CMD.
Definition pic_eoi2 : prog unit := poutb 0x20 PORT_PIC2_CMD;; pic_eoi1.

(** * Start *)

Definition bcd2bin (val : Z) : Z := Z.land val 0xf + Z.shiftr val 4 * 10.

Definition clock_setup (fuel : nat) : prog unit :=
  pit_setup;;
  rtc_setup;;
  rtc_updating fuel;;
  a ← rtc_read CMOS_RTC_SECONDS;
  let seconds := bcd2bin a in
  b ← rtc_read CMOS_RTC_MINUTES;
  let minutes := bcd2bin b in
  c ← rtc_read CMOS_RTC_HOURS;
  let hours := bcd2bin c in
  let ticks := ticks_from_ms (u32 (((hours * 60 + minutes) * 60 + seconds) * 1000)) in
  set_bda 4 timer_counter (ticks mod TICKS_PER_DAY);;
  year ← rtc_read CMOS_RTC_YEAR;
  with_vars (set_century (if 0x80 <? year then 0x19 else 0x20));;
  enable_hwirq 0 entry_08;;
  enable_hwirq 8 entry_70.

(** * Interrupt 1Ah *)

(** The registers of a call with the carry. *)
Abbreviation regs := disk_regs.

Definition set_success (r : regs) : regs := set_cf false r.
Definition set_invalid (r : regs) : regs := set_cf true r.
Definition set_code_invalid (r : regs) (code : Z) : regs := set_cf true (dr_with (with_ah code) r).

Definition handle_1a00 (r : regs) : prog regs :=
  run host_yield;;
  ticks ← get_bda 4 timer_counter;
  let r := dr_with (with_dx ticks) (dr_with (with_cx (Z.shiftr ticks 16)) r) in
  rollover ← get_bda 1 timer_rollover;
  let r := dr_with (with_al rollover) r in
  set_bda 1 timer_rollover 0;;
  mret (set_success r).

Definition handle_1a01 (r : regs) : prog regs :=
  let ticks := Z.lor (Z.shiftl (cx r) 16) (dx r) in
  set_bda 4 timer_counter ticks;;
  set_bda 1 timer_rollover 0;;
  mret (set_success (dr_with (with_ah 0) r)).

Definition handle_1a02 (fuel : nat) (r : regs) : prog regs :=
  u ← rtc_updating fuel;
  if negb (u =? 0) then mret (set_invalid r)
  else
    a ← rtc_read CMOS_RTC_SECONDS;
    let r := dr_with (with_dh a) r in
    b ← rtc_read CMOS_RTC_MINUTES;
    let r := dr_with (with_cl b) r in
    c ← rtc_read CMOS_RTC_HOURS;
    let r := dr_with (with_ch c) r in
    d ← rtc_read CMOS_STATUS_B;
    let r := dr_with (with_dl (Z.land d RTC_B_DSE)) r in
    let r := dr_with (with_ah 0) r in
    mret (set_success (dr_with (with_al (hi8 (cx r))) r)).

Definition handle_1a03 (fuel : nat) (r : regs) : prog regs :=
  u ← rtc_updating fuel;
  (if negb (u =? 0) then rtc_setup else mret tt);;
  rtc_write CMOS_RTC_SECONDS (hi8 (dx r));;
  rtc_write CMOS_RTC_MINUTES (lo8 (cx r));;
  rtc_write CMOS_RTC_HOURS (hi8 (cx r));;
  b ← rtc_read CMOS_STATUS_B;
  let val8 := Z.lor (Z.lor (Z.land b (Z.lor RTC_B_PIE RTC_B_AIE)) RTC_B_24HR) (Z.land (lo8 (dx r)) RTC_B_DSE) in
  rtc_write CMOS_STATUS_B val8;;
  mret (set_success (dr_with (with_al val8) (dr_with (with_ah 0) r))).

Definition handle_1a04 (fuel : nat) (r : regs) : prog regs :=
  let r := dr_with (with_ah 0) r in
  u ← rtc_updating fuel;
  if negb (u =? 0) then mret (set_invalid r)
  else
    a ← rtc_read CMOS_RTC_YEAR;
    let r := dr_with (with_cl a) r in
    b ← rtc_read CMOS_RTC_MONTH;
    let r := dr_with (with_dh b) r in
    c ← rtc_read CMOS_RTC_DAY_MONTH;
    let r := dr_with (with_dl c) r in
    v ← vars;
    let r := dr_with (with_ch (Century v)) r in
    mret (set_success (dr_with (with_al (hi8 (cx r))) r)).

Definition handle_1a05 (fuel : nat) (r : regs) : prog regs :=
  u ← rtc_updating fuel;
  if negb (u =? 0) then rtc_setup;; mret (set_invalid r)
  else
    rtc_write CMOS_RTC_YEAR (lo8 (cx r));;
    rtc_write CMOS_RTC_MONTH (hi8 (dx r));;
    rtc_write CMOS_RTC_DAY_MONTH (lo8 (dx r));;
    with_vars (set_century (hi8 (cx r)));;
    b ← rtc_read CMOS_STATUS_B;
    let val8 := Z.land b (u8 (Z.lnot RTC_B_SET)) in
    rtc_write CMOS_STATUS_B val8;;
    mret (set_success (dr_with (with_al val8) (dr_with (with_ah 0) r))).

Definition handle_1a06 (fuel : nat) (r : regs) : prog regs :=
  val8 ← rtc_read CMOS_STATUS_B;
  let r := dr_with (with_ax 0) r in
  if negb (Z.land val8 RTC_B_AIE =? 0) then mret (set_invalid r)
  else
    u ← rtc_updating fuel;
    (if negb (u =? 0) then rtc_setup else mret tt);;
    rtc_write CMOS_RTC_SECONDS_ALARM (hi8 (dx r));;
    rtc_write CMOS_RTC_MINUTES_ALARM (lo8 (cx r));;
    rtc_write CMOS_RTC_HOURS_ALARM (hi8 (cx r));;
    rtc_write CMOS_STATUS_B (Z.lor (Z.land val8 (u8 (Z.lnot RTC_B_SET))) RTC_B_AIE);;
    mret (set_success r).

Definition handle_1a07 (r : regs) : prog regs :=
  val8 ← rtc_read CMOS_STATUS_B;
  rtc_write CMOS_STATUS_B (Z.land val8 (u8 (Z.lnot (Z.lor RTC_B_SET RTC_B_AIE))));;
  mret (set_success (dr_with (with_al val8) (dr_with (with_ah 0) r))).

(** The build has no TPM support. *)
Definition handle_1abb (r : regs) : prog regs := mret r.

Definition handle_1aXX (r : regs) : prog regs := mret (set_cf true r).

Definition handle_1a (fuel : nat) (r : regs) : prog regs :=
  match hi8 (ax r) with
  | 0x00 => handle_1a00 r
  | 0x01 => handle_1a01 r
  | 0x02 => handle_1a02 fuel r
  | 0x03 => handle_1a03 fuel r
  | 0x04 => handle_1a04 fuel r
  | 0x05 => handle_1a05 fuel r
  | 0x06 => handle_1a06 fuel r
  | 0x07 => handle_1a07 r
  | 0xbb => handle_1abb r
  | _ => handle_1aXX r
  end.

(** * The timer interrupt *)

Definition floppy_tick : prog unit :=
  fcount ← get_bda 1 floppy_motor_counter;
  if fcount =? 0 then mret tt
  else
    let fcount := fcount - 1 in
    set_bda 1 floppy_motor_counter fcount;;
    if fcount =? 0 then
      v ← vars;
      let val := Z.land (FloppyDOR v) (u8 (Z.lnot FLOPPY_DOR_MOTOR_MASK)) in
      poutb val PORT_FD_DOR;;
      with_vars (set_dor val)
    else mret tt.

(** [ps2_check_event] does nothing in a build with hardware interrupts. *)
Definition clock_update : prog unit :=
  counter ← get_bda 4 timer_counter;
  let counter := u32 (counter + 1) in
  (if TICKS_PER_DAY <=? counter then
     n ← get_bda 1 timer_rollover;
     set_bda 1 timer_rollover (n + 1);;
     set_bda 4 timer_counter 0
   else set_bda 4 timer_counter counter);;
  floppy_tick;;
  run usb_check_event;;
  run sercon_check_event.

Definition handle_08 : prog unit :=
  clock_update;;
  run (host_int 0x1c);;
  pic_eoi1.

(** * Timers counted in interrupts *)

Definition irqtimer_calc_ticks (count : Z) : prog Z :=
  t ← get_bda 4 timer_counter;
  mret (u32 (t + count + 1) mod TICKS_PER_DAY).

Definition irqtimer_calc (msecs : Z) : prog Z :=
  if msecs =? 0 then get_bda 4 timer_counter else irqtimer_calc_ticks (ticks_from_ms msecs).

Definition irqtimer_check (end_ : Z) : prog bool :=
  t ← get_bda 4 timer_counter;
  mret (u32 (t + TICKS_PER_DAY - end_) mod TICKS_PER_DAY <? TICKS_PER_DAY / 2).

(** * The waits of interrupt 15h *)

Definition set_usertimer (usecs seg offset : Z) : prog Z :=
  f ← get_bda 1 rtc_wait_flag;
  if negb (Z.land f RWS_WAIT_PENDING =? 0) then mret (-1)
  else
    set_bda 1 rtc_wait_flag RWS_WAIT_PENDING;;
    set_bda 4 user_wait_complete_flag (SEGOFF (u16 seg) (u16 offset));;
    set_bda 4 user_wait_timeout usecs;;
    rtc_use;;
    mret 0.

Definition clear_usertimer : prog unit :=
  f ← get_bda 1 rtc_wait_flag;
  if Z.land f RWS_WAIT_PENDING =? 0 then mret tt
  else set_bda 1 rtc_wait_flag 0;; rtc_release.

Definition get_far (seg off : Z) : prog Z := fun s => Some (GET_FARVAR 1 (c_mem s) seg off, s).
Definition set_far (seg off v : Z) : prog unit :=
  fun s => Some (tt, mkClk (SET_FARVAR 1 (c_mem s) seg off v) (c_vars s) (c_dev s)).

Fixpoint wait_flag (fuel : nat) (seg off : Z) : prog unit :=
  match fuel with
  | O => fun _ => None
  | S k =>
    f ← get_far seg off;
    if negb (f =? 0) then mret tt else run host_yield_toirq;; wait_flag k seg off
  end.

(** The flag is a local variable, at [ss]:[sp]. *)
Definition handle_1586 (fuel : nat) (ss sp : Z) (r : regs) : prog regs :=
  set_far ss sp 0;;
  let count := Z.lor (Z.shiftl (cx r) 16) (dx r) in
  ret ← set_usertimer count ss sp;
  if negb (ret =? 0) then mret (set_code_invalid r RET_ECLOCKINUSE)
  else
    wait_flag fuel ss sp;;
    mret (set_success r).

Definition handle_158300 (r : regs) : prog regs :=
  ret ← set_usertimer (Z.lor (Z.shiftl (cx r) 16) (dx r)) (es r) (bx r);
  if negb (ret =? 0) then mret (set_code_invalid r RET_EUNSUPPORTED) else mret (set_success r).

Definition handle_158301 (r : regs) : prog regs :=
  clear_usertimer;; mret (set_success r).

Definition handle_1583XX (r : regs) : prog regs :=
  let r := set_code_invalid r RET_EUNSUPPORTED in
  mret (dr_with (with_al (u8 (lo8 (ax r) - 1))) r).

Definition handle_1583 (r : regs) : prog regs :=
  match lo8 (ax r) with
  | 0x00 => handle_158300 r
  | 0x01 => handle_158301 r
  | _ => handle_1583XX r
  end.

Definition USEC_PER_RTC : Z := (1000000 + 1024 / 2) / 1024.

Definition count_down : prog unit :=
  f ← get_bda 1 rtc_wait_flag;
  if f =? 0 then mret tt
  else
    time ← get_bda 4 user_wait_timeout;
    if time <? USEC_PER_RTC then
      p ← get_bda 4 user_wait_complete_flag;
      oldval ← get_far (so_seg p) (so_offset p);
      set_far (so_seg p) (so_offset p) (Z.lor oldval 0x80);;
      clear_usertimer
    else set_bda 4 user_wait_timeout (time - USEC_PER_RTC).

Definition handle_70 : prog unit :=
  registerB ← rtc_read CMOS_STATUS_B;
  registerC ← rtc_read CMOS_STATUS_C;
  (if Z.land registerB (Z.lor RTC_B_PIE RTC_B_AIE) =? 0 then mret tt
   else
     (if negb (Z.land registerC RTC_B_AIE =? 0) then run (host_int 0x4a) else mret tt);;
     if Z.land registerC RTC_B_PIE =? 0 then mret tt
     else run host_preempt;; count_down);;
  pic_eoi2.

End programs.
