(* ===== verification/SeaClockSpec.v ===== *)
(** What the clock services of [SeaClock] do.

    [Cmos] says what the clock chip does at its two ports between two updates
    of its time.  [boot_clock] gives the tick count [clock_setup] derives from
    the time of day, [timer_exact] shows that a timer calculated in ticks
    expires at its tick and not before, across midnight, [user_wait] that a
    wait of interrupt 15h ends at the right periodic interrupt, and
    [clock_set_read] that the date and the time of interrupt 1Ah read back as
    they were set. *)

From stdpp Require Import base numbers list.
From Stdlib Require Import ZArith Lia.
From S2P Require Import Prelude Memory Machine CcInt VgaState VgaVbe SeaDisk SeaDiskSpec SeaTimer SeaClock.

(** * The chip *)

(** A write to a register: the update flag and registers C and D cannot be
    written, and halting the clock disables the update interrupt. *)
Definition cmos_written (i v : Z) (f : Z -> Z) (j : Z) : Z :=
  if negb (j =? i) then f j
  else if i =? CMOS_STATUS_A then Z.lor (Z.land v 0x7f) (Z.land (f i) RTC_A_UIP)
  else if i =? CMOS_STATUS_B then (if Z.land v RTC_B_SET =? 0 then v else Z.land v 0xef)
  else if (i =? CMOS_STATUS_C) || (i =? CMOS_STATUS_D) then f i
  else v.

Lemma written_ext i v f g j : f j = g j -> cmos_written i v f j = cmos_written i v g j.
Proof. intros E. unfold cmos_written. destruct (Z.eqb_spec j i) as [->|]; cbn [negb]; by rewrite E. Qed.

Definition updating (f : Z -> Z) : bool := negb (Z.land (f CMOS_STATUS_A) RTC_A_UIP =? 0).

(** The chip while it is not updating its time; [periodic] is the chip when
    its periodic interrupt has happened. *)
Class Cmos (W : Type) {Mc : Machine W} := {
  cmos_sel : W -> Z;
  cmos : W -> Z -> Z;
  cmos_select w v : exists w', out_port 1 PORT_CMOS_INDEX v w = (tt, w') /\
    cmos_sel w' = Z.land v 0x7f /\ forall i, cmos w' i = cmos w i;
  cmos_in w : updating (cmos w) = false -> exists w', in_port 1 PORT_CMOS_DATA w = (cmos w (cmos_sel w), w') /\
    cmos_sel w' = cmos_sel w /\ forall i, i <> CMOS_STATUS_C \/ cmos_sel w <> CMOS_STATUS_C -> cmos w' i = cmos w i;
  cmos_out w v : exists w', out_port 1 PORT_CMOS_DATA v w = (tt, w') /\
    forall i, i <> CMOS_STATUS_C -> cmos w' i = cmos_written (cmos_sel w) v (cmos w) i;
  cmos_in_other n p w : p <> PORT_CMOS_INDEX -> p <> PORT_CMOS_DATA ->
    forall i, cmos (in_port n p w).2 i = cmos w i;
  cmos_out_other n p v w : p <> PORT_CMOS_INDEX -> p <> PORT_CMOS_DATA ->
    forall i, cmos (out_port n p v w).2 i = cmos w i;
  periodic : W -> W;
  periodic_fires w i : cmos (periodic w) i = if i =? CMOS_STATUS_C then 0xc0 else cmos w i
}.

Lemma land_u8 x m : Z.land 255 m = m -> Z.land (u8 x) m = Z.land x m.
Proof. intros E. by rewrite <- land_255, <- Z.land_assoc, E. Qed.

(** The masks of register B. *)
Lemma time_mask b d m : Z.land 255 m = m ->
  Z.land (u8 (Z.lor (Z.lor (Z.land b (Z.lor RTC_B_PIE RTC_B_AIE)) RTC_B_24HR) (Z.land d RTC_B_DSE))) m =
  Z.lor (Z.lor (Z.land b (Z.land 0x60 m)) (Z.land 2 m)) (Z.land d (Z.land 1 m)).
Proof. intros E. by rewrite land_u8, !Z.land_lor_distr_l, <- !Z.land_assoc by done. Qed.

Definition bcd (n : Z) : Z := n / 10 * 16 + n mod 10.

Section chip.
Context {W : Type} {Mc : Machine W} {H : ClockHost W} {C : Cmos W}.

(** The chip shows [f], but for the flags that are cleared when read. *)
Definition shows (s : clk W) (f : Z -> Z) : Prop := forall i, i <> CMOS_STATUS_C -> cmos (c_dev s) i = f i.

(** Only the device has changed. *)
Definition same_soft (s s' : clk W) : Prop := c_mem s' = c_mem s /\ c_vars s' = c_vars s.

Lemma shows_updating s f : shows s f -> updating (cmos (c_dev s)) = updating f.
Proof. intros Hs. unfold updating. by rewrite Hs. Qed.

Lemma run_select i (s : clk W) : 0 <= i < 0x80 -> exists s', poutb (Z.lor i NMI_DISABLE_BIT) PORT_CMOS_INDEX s = Some (tt, s') /\
  cmos_sel (c_dev s') = i /\ same_soft s s' /\ forall j, cmos (c_dev s') j = cmos (c_dev s) j.
Proof.
  intros Hi. destruct (cmos_select (c_dev s) (u8 (Z.lor i NMI_DISABLE_BIT))) as (w' & E & Es & Ec).
  exists (mkClk (c_mem s) (c_vars s) w'). split; [unfold poutb, dev, outb; change (u16 PORT_CMOS_INDEX) with PORT_CMOS_INDEX; by rewrite E|].
  split; [|by split]. cbn [c_dev]. rewrite Es. apply Z.bits_inj'. intros k Hk.
  change 0x7f with (Z.ones 7). change NMI_DISABLE_BIT with (2 ^ 7).
  rewrite Z.land_spec, wrap_testbit, Z.lor_spec, Z.pow2_bits_eqb by lia.
  rewrite Z.testbit_ones_nonneg by lia. destruct (Z.ltb_spec k 7).
  - rewrite (proj2 (Z.eqb_neq _ _)), (proj2 (Z.ltb_lt _ _)) by lia. by rewrite orb_false_r, !andb_true_r.
  - rewrite andb_false_r. symmetry. apply (fits_testbit_high 7); [unfold fits|]; lia.
Qed.

Lemma run_read i s f : 0 <= i < 0x80 -> shows s f -> updating f = false ->
  exists s', rtc_read i s = Some (cmos (c_dev s) i, s') /\ same_soft s s' /\ shows s' f.
Proof.
  intros Hi Hs Hu. destruct (run_select i s Hi) as (s1 & E1 & Es & [Hm Hv] & Ec).
  destruct (cmos_in (c_dev s1)) as (w' & E2 & _ & Ec2).
  { unfold updating. rewrite Ec. by rewrite <- (shows_updating s f Hs) in Hu. }
  exists (mkClk (c_mem s1) (c_vars s1) w'). split; [|split; [by split|]].
  - unfold rtc_read. rewrite (p_step _ _ _ _ _ E1). unfold pinb, dev, inb.
    change (u16 PORT_CMOS_DATA) with PORT_CMOS_DATA. by rewrite E2, Es, Ec.
  - intros j Hj. cbn [c_dev]. rewrite Ec2, Ec by (try done; by left). by apply Hs.
Qed.

Lemma run_write i v s f : 0 <= i < 0x80 -> shows s f ->
  exists s', rtc_write i v s = Some (tt, s') /\ same_soft s s' /\ shows s' (cmos_written i (u8 v) f).
Proof.
  intros Hi Hs. destruct (run_select i s Hi) as (s1 & E1 & Es & [Hm Hv] & Ec).
  destruct (cmos_out (c_dev s1) (u8 v)) as (w' & E2 & Ec2).
  exists (mkClk (c_mem s1) (c_vars s1) w'). split; [|split; [by split|]].
  - unfold rtc_write. rewrite (p_step _ _ _ _ _ E1). unfold poutb, dev, outb.
    change (u16 PORT_CMOS_DATA) with PORT_CMOS_DATA. by rewrite E2.
  - intros j Hj. cbn [c_dev]. rewrite Ec2, Es by done. apply written_ext. rewrite Ec. by apply Hs.
Qed.

Lemma run_shown i s f : 0 <= i < 0x80 -> i <> CMOS_STATUS_C -> shows s f -> updating f = false ->
  exists s', rtc_read i s = Some (f i, s') /\ same_soft s s' /\ shows s' f.
Proof. intros Hi Hc Hs Hu. rewrite <- (Hs i Hc). by apply run_read. Qed.

Lemma run_idle fuel s f : shows s f -> updating f = false ->
  exists s', rtc_updating fuel s = Some (0, s') /\ same_soft s s' /\ shows s' f.
Proof.
  intros Hs Hu. destruct (run_shown CMOS_STATUS_A s f) as (s' & E & Hsoft & Hs'); [done..|].
  exists s'. split; [|done]. unfold rtc_updating. rewrite (p_step _ _ _ _ _ E).
  unfold updating in Hu. apply negb_false_iff in Hu. by rewrite Hu.
Qed.

Lemma same_soft_trans s1 s2 s3 : same_soft s1 s2 -> same_soft s2 s3 -> same_soft s1 s3.
Proof. intros [E1 E2] [E3 E4]. split; congruence. Qed.

Lemma updating_written i v f : updating (cmos_written i v f) = updating f.
Proof.
  unfold updating, cmos_written. destruct (Z.eqb_spec CMOS_STATUS_A i) as [<-|]; cbn [negb]; [|done].
  rewrite Z.eqb_refl, Z.land_lor_distr_l, <- !Z.land_assoc. change (Z.land 0x7f RTC_A_UIP) with 0. by rewrite Z.land_0_r.
Qed.

Lemma written_other i j v f : j <> i -> cmos_written i v f j = f j.
Proof. intros Hj. unfold cmos_written. by rewrite (proj2 (Z.eqb_neq j i)). Qed.

Lemma written_plain i v f : i < CMOS_STATUS_A -> cmos_written i v f i = v.
Proof.
  unfold cmos_written, CMOS_STATUS_A, CMOS_STATUS_B, CMOS_STATUS_C, CMOS_STATUS_D. intros Hi. rewrite Z.eqb_refl. cbn [negb].
  by rewrite !(proj2 (Z.eqb_neq i _)) by lia.
Qed.

Lemma written_running v f : Z.land v RTC_B_SET = 0 -> cmos_written CMOS_STATUS_B v f CMOS_STATUS_B = v.
Proof. intros E. unfold cmos_written. cbn. by rewrite E. Qed.

Lemma run_mask i off on s f : 0 <= i < 0x80 -> i <> CMOS_STATUS_C -> shows s f -> updating f = false ->
  exists s', rtc_mask i off on s = Some (tt, s') /\ same_soft s s' /\
    shows s' (cmos_written i (u8 (Z.lor (Z.land (f i) (Z.lnot (u8 off))) (u8 on))) f).
Proof.
  intros Hi Hn Hs Hu. destruct (run_select i s Hi) as (s1 & E1 & Es & [Hm Hv] & Ec).
  destruct (cmos_in (c_dev s1)) as (w2 & E2 & Es2 & Ec2).
  { unfold updating. rewrite Ec. by rewrite <- (shows_updating s f Hs) in Hu. }
  destruct (cmos_out w2 (u8 (Z.lor (Z.land (f i) (Z.lnot (u8 off))) (u8 on)))) as (w3 & E3 & Ec3).
  rewrite Es, Ec, Hs in E2 by done.
  exists (mkClk (c_mem s1) (c_vars s1) w3). split; [|split; [by split|]].
  - unfold rtc_mask. rewrite (p_step _ _ _ _ _ E1).
    rewrite (p_step _ _ s1 (mkClk (c_mem s1) (c_vars s1) w2) (f i)).
    + unfold poutb, dev, outb. change (u16 PORT_CMOS_DATA) with PORT_CMOS_DATA. cbn [c_dev]. by rewrite E3.
    + unfold pinb, dev, inb. change (u16 PORT_CMOS_DATA) with PORT_CMOS_DATA. by rewrite E2.
  - intros j Hj. cbn [c_dev]. rewrite Ec3, Es2, Es by done. apply written_ext. rewrite Ec2, Ec by (try done; by left). by apply Hs.
Qed.

(** Ports that are not the chip's. *)
Lemma run_out v p s f : u16 p <> PORT_CMOS_INDEX -> u16 p <> PORT_CMOS_DATA -> shows s f ->
  exists s', poutb v p s = Some (tt, s') /\ same_soft s s' /\ shows s' f.
Proof.
  intros H0 H1 Hs. unfold poutb, dev, outb. pose proof (cmos_out_other 1 (u16 p) (u8 v) (c_dev s) H0 H1) as Hc.
  destruct (out_port 1 (u16 p) (u8 v) (c_dev s)) as [[] w]. eexists. split; [done|]. split; [done|].
  intros i Hi. cbn [c_dev snd] in *. rewrite Hc. by apply Hs.
Qed.

Lemma run_in p s f : u16 p <> PORT_CMOS_INDEX -> u16 p <> PORT_CMOS_DATA -> shows s f ->
  exists x s', pinb p s = Some (x, s') /\ same_soft s s' /\ shows s' f.
Proof.
  intros H0 H1 Hs. unfold pinb, dev, inb. pose proof (cmos_in_other 1 (u16 p) (c_dev s) H0 H1) as Hc.
  destruct (in_port 1 (u16 p) (c_dev s)) as [x w]. eexists _, _. split; [done|]. split; [done|].
  intros i Hi. cbn [c_dev snd] in *. rewrite Hc. by apply Hs.
Qed.

(** Run the next access to the chip; afterwards [Hs] says what it shows. *)
Ltac chip_step :=
  lazymatch goal with
  | Hs : shows ?s ?f, Hu : updating ?f = false |- _ =>
    let s' := fresh "s" in let E := fresh "E" in let Hsoft := fresh "Hsoft" in let Hs' := fresh "Hs" in
    let Hu' := fresh "Hu" in
    lazymatch goal with
    | |- context [mbind _ (poutb ?v ?p) s] => destruct (run_out v p s f ltac:(done) ltac:(done) Hs) as (s' & E & Hsoft & Hs')
    | |- context [mbind _ (pinb ?p) s] =>
      let x := fresh "x" in destruct (run_in p s f ltac:(done) ltac:(done) Hs) as (x & s' & E & Hsoft & Hs')
    | |- context [mbind _ (rtc_mask ?i ?a ?b) s] =>
      destruct (run_mask i a b s f ltac:(done) ltac:(done) Hs Hu) as (s' & E & Hsoft & Hs')
    | |- context [mbind _ (rtc_read CMOS_STATUS_C) s] =>
      destruct (run_read CMOS_STATUS_C s f ltac:(done) Hs Hu) as (s' & E & Hsoft & Hs')
    | |- context [mbind _ (rtc_read ?i) s] =>
      destruct (run_shown i s f ltac:(done) ltac:(done) Hs Hu) as (s' & E & Hsoft & Hs')
    | |- context [mbind _ (rtc_updating ?n) s] => destruct (run_idle n s f Hs Hu) as (s' & E & Hsoft & Hs')
    | |- context [mbind _ (rtc_write ?i ?v) s] => destruct (run_write i v s f ltac:(done) Hs) as (s' & E & Hsoft & Hs')
    end;
    rewrite (p_step _ _ _ _ _ E); clear E Hs;
    lazymatch type of Hs' with shows _ ?g =>
      assert (updating g = false) as Hu' by (revert Hu; rewrite ?updating_written; done); clear Hu end;
    rename Hs' into Hs, Hu' into Hu;
    cbn [Z.eqb negb]
  end.

Lemma u8_hi8 v : u8 (hi8 v) = hi8 v.
Proof. apply wrap_wrap. Qed.
Lemma u8_lo8 v : u8 (lo8 v) = lo8 v.
Proof. apply wrap_wrap. Qed.

Ltac soft := repeat (eapply same_soft_trans; [eassumption|]); done.
Ltac chip_values := repeat first [rewrite written_plain by done|rewrite written_other by done]; rewrite ?u8_hi8, ?u8_lo8.

Lemma set_time fuel (r : disk_regs) s f : shows s f -> updating f = false ->
  exists r' s' g, handle_1a03 fuel r s = Some (r', s') /\ r_cf r' = false /\ same_soft s s' /\ shows s' g /\
    updating g = false /\ g CMOS_RTC_SECONDS = hi8 (dx r) /\ g CMOS_RTC_MINUTES = lo8 (cx r) /\
    g CMOS_RTC_HOURS = hi8 (cx r) /\ Z.land (g CMOS_STATUS_B) RTC_B_DSE = Z.land (lo8 (dx r)) RTC_B_DSE.
Proof.
  intros Hs Hu. unfold handle_1a03. chip_step. rewrite (p_step (mret tt) _ _ _ tt eq_refl). do 5 chip_step.
  eexists _, s5, _. split; [reflexivity|]. split; [done|]. split; [soft|]. split; [exact Hs|]. split; [exact Hu|].
  rewrite (written_running _ (cmos_written _ _ _)) by (rewrite time_mask by done; cbn; by rewrite !Z.land_0_r).
  rewrite time_mask by done. chip_values. split; [done|]. split; [done|]. split; [done|]. by rewrite Z.land_0_r.
Qed.

Lemma set_date fuel (r : disk_regs) s f : shows s f -> updating f = false ->
  exists r' s' g, handle_1a05 fuel r s = Some (r', s') /\ r_cf r' = false /\
    c_mem s' = c_mem s /\ c_vars s' = set_century (hi8 (cx r)) (c_vars s) /\ shows s' g /\
    updating g = false /\ g CMOS_RTC_YEAR = lo8 (cx r) /\ g CMOS_RTC_MONTH = hi8 (dx r) /\
    g CMOS_RTC_DAY_MONTH = lo8 (dx r) /\ Z.land (g CMOS_STATUS_B) RTC_B_DSE = Z.land (f CMOS_STATUS_B) RTC_B_DSE /\
    forall i, i < CMOS_RTC_DAY_MONTH -> g i = f i.
Proof.
  intros Hs Hu. unfold handle_1a05. do 4 chip_step.
  rewrite (p_step _ _ s3 (mkClk (c_mem s3) (set_century (hi8 (cx r)) (c_vars s3)) (c_dev s3)) tt) by done.
  assert (shows (mkClk (c_mem s3) (set_century (hi8 (cx r)) (c_vars s3)) (c_dev s3)) _) as Hs' by exact Hs. clear Hs.
  do 2 chip_step. assert (same_soft s s3) as [Em Ev] by soft.
  eexists _, _, _. split; [reflexivity|]. split; [done|].
  destruct Hsoft3 as [Em4 Ev4], Hsoft4 as [Em5 Ev5]. cbn in Em4, Ev4. split; [congruence|].
  split; [by rewrite Ev5, Ev4, Ev|]. split; [exact Hs'|]. split; [exact Hu|].
  rewrite (written_running _ (cmos_written _ _ _)) by (by rewrite land_u8, <- Z.land_assoc, Z.land_0_r by done).
  rewrite land_u8, <- Z.land_assoc by done. chip_values. do 4 (split; [done|]).
  intros i Hi. unfold CMOS_RTC_DAY_MONTH in Hi.
  rewrite !written_other; [done|unfold CMOS_RTC_YEAR, CMOS_RTC_MONTH, CMOS_RTC_DAY_MONTH, CMOS_STATUS_B; lia..].
Qed.

(** A register whose two halves are written one after the other. *)
Lemma halves_low_first v a b : lo8 (u16 (put_hi8 (u16 (put_lo8 v a)) b)) = u8 a /\ hi8 (u16 (put_hi8 (u16 (put_lo8 v a)) b)) = u8 b.
Proof. destruct (put_hi8_halves (u16 (put_lo8 v a)) b) as [-> ->]. by destruct (put_lo8_halves v a) as [-> _]. Qed.

Lemma halves_high_first v a b : lo8 (u16 (put_lo8 (u16 (put_hi8 v a)) b)) = u8 b /\ hi8 (u16 (put_lo8 (u16 (put_hi8 v a)) b)) = u8 a.
Proof. destruct (put_lo8_halves (u16 (put_hi8 v a)) b) as [-> ->]. by destruct (put_hi8_halves v a) as [_ ->]. Qed.

Lemma read_time fuel (r : disk_regs) s f : shows s f -> updating f = false ->
  exists r' s', handle_1a02 fuel r s = Some (r', s') /\ r_cf r' = false /\ same_soft s s' /\ shows s' f /\
    hi8 (dx r') = u8 (f CMOS_RTC_SECONDS) /\ lo8 (cx r') = u8 (f CMOS_RTC_MINUTES) /\
    hi8 (cx r') = u8 (f CMOS_RTC_HOURS) /\ lo8 (dx r') = Z.land (f CMOS_STATUS_B) RTC_B_DSE.
Proof.
  intros Hs Hu. unfold handle_1a02. do 5 chip_step.
  eexists _, _. split; [reflexivity|]. split; [done|]. split; [soft|]. split; [done|].
  cbn [dr_with dr with_al with_ah with_dl with_dh with_cl with_ch with_ax with_cx with_dx cx dx ax set_success set_cf].
  destruct (halves_high_first (dx r) (f CMOS_RTC_SECONDS) (Z.land (f CMOS_STATUS_B) RTC_B_DSE)) as [-> ->].
  destruct (halves_low_first (cx r) (f CMOS_RTC_MINUTES) (f CMOS_RTC_HOURS)) as [-> ->].
  do 3 (split; [done|]). apply wrap_small. change RTC_B_DSE with 1. rewrite land_1.
  pose proof (Z.mod_pos_bound (f CMOS_STATUS_B) 2 ltac:(lia)). unfold fits. lia.
Qed.

Lemma read_date fuel (r : disk_regs) s f : shows s f -> updating f = false ->
  exists r' s', handle_1a04 fuel r s = Some (r', s') /\ r_cf r' = false /\ same_soft s s' /\ shows s' f /\
    lo8 (cx r') = u8 (f CMOS_RTC_YEAR) /\ hi8 (dx r') = u8 (f CMOS_RTC_MONTH) /\
    lo8 (dx r') = u8 (f CMOS_RTC_DAY_MONTH) /\ hi8 (cx r') = u8 (Century (c_vars s)).
Proof.
  intros Hs Hu. unfold handle_1a04. do 4 chip_step. rewrite (p_step _ _ s3 s3 (c_vars s3)) by done.
  assert (same_soft s s3) as [Em Ev] by soft.
  eexists _, _. split; [reflexivity|]. split; [done|]. split; [soft|]. split; [done|].
  cbn [dr_with dr with_al with_ah with_dl with_dh with_cl with_ch with_ax with_cx with_dx cx dx ax set_success set_cf].
  destruct (halves_high_first (dx r) (f CMOS_RTC_MONTH) (f CMOS_RTC_DAY_MONTH)) as [-> ->].
  destruct (halves_low_first (cx r) (f CMOS_RTC_YEAR) (Century (c_vars s3))) as [-> ->]. by rewrite Ev.
Qed.

(** Turning the alarm off answers with register B as it was before, which the
    comment in the source calls the value last written to it, and keeps bit 3,
    which the table in the source shows cleared. *)
Lemma alarm_off_answer (r : disk_regs) s f : shows s f -> updating f = false ->
  exists r' s', handle_1a07 r s = Some (r', s') /\ r_cf r' = false /\ lo8 (ax r') = u8 (f CMOS_STATUS_B) /\
    shows s' (cmos_written CMOS_STATUS_B (u8 (Z.land (f CMOS_STATUS_B) 0x5f)) f).
Proof.
  intros Hs Hu. unfold handle_1a07. do 2 chip_step. eexists _, _. split; [reflexivity|]. split; [done|].
  split; [|exact Hs]. cbn [dr_with dr with_al with_ah with_ax ax set_success set_cf]. apply put_lo8_halves.
Qed.

(** Setting the time of day (interrupt 1Ah function 03h) and the date
    (function 05h) and reading both back (functions 02h and 04h) returns the
    hours, minutes, seconds, daylight-saving flag, century, year, month and day
    that were set: neither call disturbs what the other wrote. *)
Lemma clock_set_read fuel (rt rd r2 r4 : disk_regs) (s : clk W) :
  updating (cmos (c_dev s)) = false ->
  hi8 (ax rt) = 3 -> hi8 (ax rd) = 5 -> hi8 (ax r2) = 2 -> hi8 (ax r4) = 4 ->
  exists at_ ad a2 a4 s1 s2 s3 s4,
    handle_1a fuel rt s = Some (at_, s1) /\ handle_1a fuel rd s1 = Some (ad, s2) /\
    handle_1a fuel r2 s2 = Some (a2, s3) /\ handle_1a fuel r4 s3 = Some (a4, s4) /\
    r_cf at_ = false /\ r_cf ad = false /\ r_cf a2 = false /\ r_cf a4 = false /\
    hi8 (cx a2) = hi8 (cx rt) /\ lo8 (cx a2) = lo8 (cx rt) /\ hi8 (dx a2) = hi8 (dx rt) /\
    lo8 (dx a2) = Z.land (lo8 (dx rt)) RTC_B_DSE /\
    hi8 (cx a4) = hi8 (cx rd) /\ lo8 (cx a4) = lo8 (cx rd) /\ hi8 (dx a4) = hi8 (dx rd) /\ lo8 (dx a4) = lo8 (dx rd).
Proof.
  intros Hu Et Ed E2 E4. unfold handle_1a. rewrite Et, Ed, E2, E4.
  destruct (set_time fuel rt s (cmos (c_dev s))) as (at_ & s1 & f & R1 & C1 & So1 & Hs & Uf & T1 & T2 & T3 & T4); [done..|].
  destruct (set_date fuel rd s1 f Hs Uf) as (ad & s2 & g & R2 & C2 & Em2 & Ev2 & Hs2 & Ug & D1 & D2 & D3 & D4 & D5).
  destruct (read_time fuel r2 s2 g Hs2 Ug) as (a2 & s3 & R3 & C3 & [Em3 Ev3] & Hs3 & F1 & F2 & F3 & F4).
  destruct (read_date fuel r4 s3 g Hs3 Ug) as (a4 & s4 & R4 & C4 & So4 & Hs4 & G1 & G2 & G3 & G4).
  exists at_, ad, a2, a4, s1, s2, s3, s4. do 8 (split; [done|]).
  rewrite (D5 CMOS_RTC_SECONDS) in F1 by done. rewrite (D5 CMOS_RTC_MINUTES) in F2 by done.
  rewrite (D5 CMOS_RTC_HOURS) in F3 by done. rewrite Ev3, Ev2 in G4.
  rewrite F1, F2, F3, F4, G1, G2, G3, G4, T1, T2, T3, D4, T4, D1, D2, D3. cbn [set_century Century].
  by rewrite !u8_hi8, !u8_lo8.
Qed.

(** A read of another register keeps the flags. *)
Lemma run_plain i s : 0 <= i < 0x80 -> i <> CMOS_STATUS_C -> updating (cmos (c_dev s)) = false ->
  exists s', rtc_read i s = Some (cmos (c_dev s) i, s') /\ same_soft s s' /\ forall j, cmos (c_dev s') j = cmos (c_dev s) j.
Proof.
  intros Hi Hn Hu. destruct (run_select i s Hi) as (s1 & E1 & Es & [Hm Hv] & Ec).
  destruct (cmos_in (c_dev s1)) as (w' & E2 & _ & Ec2).
  { unfold updating. rewrite Ec. exact Hu. }
  exists (mkClk (c_mem s1) (c_vars s1) w'). split; [|split; [by split|]].
  - unfold rtc_read. rewrite (p_step _ _ _ _ _ E1). unfold pinb, dev, inb.
    change (u16 PORT_CMOS_DATA) with PORT_CMOS_DATA. by rewrite E2, Es, Ec.
  - intros j. cbn [c_dev]. rewrite Ec2, Ec by (right; by rewrite Es). done.
Qed.

(** * The clock at the start *)

Lemma run_rtc_setup s f : shows s f -> updating f = false ->
  exists s' g, rtc_setup s = Some (tt, s') /\ same_soft s s' /\ shows s' g /\ updating g = false /\
    forall i, i < CMOS_STATUS_A -> g i = f i.
Proof.
  intros Hs Hu. unfold rtc_setup. do 4 chip_step. eexists _, _. split; [reflexivity|]. split; [soft|].
  split; [exact Hs|]. split; [exact Hu|]. intros i Hi. unfold CMOS_STATUS_A in Hi.
  by rewrite !written_other by (unfold CMOS_STATUS_A, CMOS_STATUS_B; lia).
Qed.

Lemma run_pit_setup s f : shows s f -> updating f = false -> exists s', pit_setup s = Some (tt, s') /\ same_soft s s' /\ shows s' f.
Proof.
  intros Hs Hu. unfold pit_setup. do 2 chip_step.
  destruct (run_out 0 SeaTimer.PORT_PIT_COUNTER0 s1 f) as (s2 & E & Hsoft2 & Hs2); [done..|].
  exists s2. split; [exact E|]. split; [soft|done].
Qed.

Lemma run_irqmask off on s f : shows s f -> updating f = false ->
  exists s', pic_irqmask_mask off on s = Some (tt, s') /\ same_soft s s' /\ shows s' f.
Proof.
  intros Hs Hu. unfold pic_irqmask_mask. do 3 chip_step.
  destruct (run_out (Z.lor (Z.land x0 (Z.lnot (u8 (off ≫ 8)))) (u8 (on ≫ 8))) PORT_PIC2_DATA s2 f) as (s3 & E & Hsoft3 & Hs3); [done..|].
  exists s3. split; [exact E|]. split; [soft|done].
Qed.

Lemma run_enable irq func s f : shows s f -> updating f = false -> exists s', enable_hwirq irq func s = Some (tt, s') /\
  c_mem s' = SET_IVT (c_mem s) (if irq <? 8 then BIOS_HWIRQ0_VECTOR + irq else BIOS_HWIRQ8_VECTOR + irq - 8) func /\
  c_vars s' = c_vars s /\ shows s' f.
Proof.
  intros Hs Hu. unfold enable_hwirq.
  destruct (run_irqmask (u16 (1 ≪ irq)) 0 s f Hs Hu) as (s1 & E & [Em Ev] & Hs1).
  rewrite (p_step _ _ _ _ _ E). eexists. split; [reflexivity|]. cbn [c_mem c_vars]. by rewrite Em.
Qed.

Lemma bcd_roundtrip n : 0 <= n < 100 -> bcd2bin (bcd n) = n.
Proof.
  intros Hn. unfold bcd2bin, bcd. rewrite land_15, Z.shiftr_div_pow2 by lia. change (2 ^ 4) with 16. unfold wrap. change (2 ^ 4) with 16.
  pose proof (Z.div_mod n 10 ltac:(lia)). pose proof (Z.mod_pos_bound n 10 ltac:(lia)).
  rewrite Z.div_add_l, (Z.add_comm (_ * 16)), Z.mod_add, (Z.mod_small (n mod 10) 16), (Z.div_small (n mod 10) 16) by lia. lia.
Qed.

(** What [clock_setup] leaves in the memory. *)
Lemma clock_memory m n a b : fits 32 n ->
  let m' := SET_IVT (SET_IVT (SET_BDA 4 m timer_counter n) (BIOS_HWIRQ0_VECTOR + 0) a) (BIOS_HWIRQ8_VECTOR + 8 - 8) b in
  GET_IVT m' 0x08 = u32 a /\ GET_IVT m' 0x70 = u32 b /\ GET_BDA 4 m' timer_counter = n.
Proof.
  intros Hn m'. unfold m', GET_IVT, SET_IVT, GET_BDA, SET_BDA, GET_FARVAR, SET_FARVAR.
  unfold far, SEG_IVT, SEG_BDA, BIOS_HWIRQ0_VECTOR, BIOS_HWIRQ8_VECTOR, timer_counter. cbn [Z.add Z.mul Z.sub].
  split; [|split].
  - rewrite load_store_other by lia. apply load_store_same.
  - apply load_store_same.
  - rewrite !load_store_other by lia. rewrite load_store_same. by apply wrap_small.
Qed.

(** C24: At the start, with the chip at [h]:[m]:[sec] and not updating,
    [clock_setup] returns with the interrupt vectors of the two clocks
    installed and the century inferred from the year, and sets the tick count.
    Up to 21:50:34 the count is the least number of timer interrupts that lasts
    as long as the day has.  From 21:50:35 on the intermediate product
    overflows 32 bits, and the count is 1431655 or 1431656 too small: the day
    starts again. *)
Theorem boot_clock fuel (s : clk W) h m sec : updating (cmos (c_dev s)) = false ->
  0 <= h < 24 -> 0 <= m < 60 -> 0 <= sec < 60 ->
  cmos (c_dev s) CMOS_RTC_HOURS = bcd h -> cmos (c_dev s) CMOS_RTC_MINUTES = bcd m ->
  cmos (c_dev s) CMOS_RTC_SECONDS = bcd sec ->
  exists s', clock_setup fuel s = Some (tt, s') /\
    GET_IVT (c_mem s') 0x08 = u32 entry_08 /\ GET_IVT (c_mem s') 0x70 = u32 entry_70 /\
    Century (c_vars s') = (if 0x80 <? cmos (c_dev s) CMOS_RTC_YEAR then 0x19 else 0x20) /\
    let now := (h * 60 + m) * 60 + sec in
    let ticks := GET_BDA 4 (c_mem s') timer_counter in
    (now <= 78634 -> (ticks - 1) * 196608000 < now * 1000 * PMTIMER_HZ <= ticks * 196608000) /\
    (78634 < now -> (ticks + 1431654) * 196608000 < now * 1000 * PMTIMER_HZ <= (ticks + 1431656) * 196608000).
Proof.
  intros Hu Hh Hm Hsec Eh Em Es. set (f := cmos (c_dev s)) in *. assert (shows s f) as Hs by done. unfold clock_setup.
  destruct (run_pit_setup s f Hs Hu) as (s0 & E0 & So0 & Hs0). rewrite (p_step _ _ _ _ _ E0).
  destruct (run_rtc_setup s0 f Hs0 Hu) as (s1 & g & E1 & So1 & Hs1 & Hug & Hg). rewrite (p_step _ _ _ _ _ E1).
  clear Hs Hs0 Hu E0 E1. do 4 chip_step.
  rewrite !Hg, Eh, Em, Es, !bcd_roundtrip by (done || lia). set (now := (h * 60 + m) * 60 + sec).
  assert (0 <= now < 86400) as Hnow by (unfold now; lia). clearbody now.
  rewrite (wrap_small 32) by (unfold fits; lia).
  assert (0 <= ticks_from_ms (now * 1000) < TICKS_PER_DAY) as Hd.
  { pose proof (ticks_from_ms_least (now * 1000)). pose proof (ticks_from_ms_late (now * 1000)).
    unfold PIT_TICK_INTERVAL, PMTIMER_TO_PIT, PMTIMER_HZ, TICKS_PER_DAY in *. destruct (Z.le_gt_cases now 78634); lia. }
  rewrite (Z.mod_small _ TICKS_PER_DAY Hd). set (n := ticks_from_ms (now * 1000)) in *.
  set (s6 := mkClk (SET_BDA 4 (c_mem s5) timer_counter n) (c_vars s5) (c_dev s5)).
  rewrite (p_step _ _ s5 s6 tt) by done. assert (shows s6 g) as Hs6 by exact Hs1. clear Hs1.
  chip_step. rewrite Hg by done. set (c := if 128 <? f CMOS_RTC_YEAR then 25 else 32).
  set (s8 := mkClk (c_mem s7) (set_century c (c_vars s7)) (c_dev s7)).
  rewrite (p_step _ _ s7 s8 tt) by done. assert (shows s8 g) as Hs8 by exact Hs6. clear Hs6.
  destruct (run_enable 0 entry_08 s8 g Hs8 Hug) as (s9 & E9 & Em9 & Ev9 & Hs9). rewrite (p_step _ _ _ _ _ E9).
  destruct (run_enable 8 entry_70 s9 g Hs9 Hug) as (s10 & E10 & Em10 & Ev10 & Hs10).
  exists s10. split; [exact E10|]. rewrite Em10, Em9, Ev10, Ev9. cbn [s8 c_mem c_vars set_century Century].
  destruct Hsoft3 as [Em7 _]. rewrite Em7.
  change (0 <? 8) with true. change (8 <? 8) with false. cbn [s6 c_mem].
  destruct (clock_memory (c_mem s5) n entry_08 entry_70) as (-> & -> & ->); [unfold fits, TICKS_PER_DAY in *; lia|].
  do 3 (split; [done|]). split; intros Hl; [apply ticks_from_ms_least|apply ticks_from_ms_late]; lia.
Qed.

End chip.

(** * Timer interrupts *)

Section ticks.
Context {W : Type} {Mc : Machine W} {H : ClockHost W}.

Definition bda_addr (a : Z) : Z := 0x400 + a.

(** A program of others leaves the tick count and the midnight count alone. *)
Definition keeps_count (f : clk W -> clk W) : Prop :=
  forall s a, bda_addr timer_counter <= a <= bda_addr timer_rollover -> c_mem (f s) a = c_mem s a.

Context (Husb : keeps_count usb_check_event) (Hsercon : keeps_count sercon_check_event)
  (Huser : keeps_count (host_int 0x1c)).

Definition counted (s : clk W) (t r : Z) : Prop :=
  GET_BDA 4 (c_mem s) timer_counter = t /\ GET_BDA 1 (c_mem s) timer_rollover = r.

Lemma counted_ext (s s' : clk W) t r :
  (forall a, bda_addr timer_counter <= a <= bda_addr timer_rollover -> c_mem s' a = c_mem s a) ->
  counted s t r -> counted s' t r.
Proof.
  intros He [<- <-]. unfold bda_addr, timer_counter, timer_rollover in He.
  split; apply load_ext; intros x Hx; apply He; unfold far, SEG_BDA, timer_counter, timer_rollover in Hx; lia.
Qed.

Lemma poutb_runs v p (s : clk W) : exists s', poutb v p s = Some (tt, s') /\ same_soft s s'.
Proof.
  unfold poutb, dev. destruct (outb p v (c_dev s)) as [[] w]. by eexists.
Qed.

Lemma floppy_tick_runs (s : clk W) : exists s', floppy_tick s = Some (tt, s') /\
  forall a, a <> bda_addr floppy_motor_counter -> c_mem s' a = c_mem s a.
Proof.
  unfold floppy_tick. rewrite (p_step _ _ _ _ _ eq_refl). ztest; [by eexists|].
  rewrite (p_step _ _ _ _ _ eq_refl). set (s1 := mkClk _ _ _).
  assert (forall a, a <> bda_addr floppy_motor_counter -> c_mem s1 a = c_mem s a) as Hm.
  { intros a Ha. apply store_out. unfold bda_addr, floppy_motor_counter, far, SEG_BDA in *. lia. }
  ztest; [|by exists s1]. rewrite (p_step _ _ _ _ _ eq_refl).
  destruct (poutb_runs (Z.land (FloppyDOR (c_vars s1)) (u8 (Z.lnot FLOPPY_DOR_MOTOR_MASK))) PORT_FD_DOR s1) as (s2 & E & Em & Ev).
  rewrite (p_step _ _ _ _ _ E). eexists. split; [reflexivity|]. cbn [c_mem]. intros a Ha. by rewrite Em, Hm.
Qed.

(** The part of [clock_update] that counts. *)
Lemma count_up (s : clk W) t r : counted s t r -> 0 <= t < TICKS_PER_DAY -> fits 8 r ->
  exists s1, counted s1 ((t + 1) mod TICKS_PER_DAY) (u8 (r + (t + 1) / TICKS_PER_DAY)) /\
    (if TICKS_PER_DAY <=? u32 (t + 1) then
       n ← get_bda 1 timer_rollover; set_bda 1 timer_rollover (n + 1);; set_bda 4 timer_counter 0
     else set_bda 4 timer_counter (u32 (t + 1))) s = Some (tt, s1).
Proof.
  intros [Et Er] Ht Hr. unfold TICKS_PER_DAY in *. rewrite (wrap_small 32) by (unfold fits; lia). ztest.
  - eexists. split; [|reflexivity]. replace (t + 1) with 1573040 by lia.
    split; cbn [c_mem]; [by rewrite bda_same|]. rewrite bda_skip, bda_same, Er by done. done.
  - eexists. split; [|reflexivity]. rewrite Z.mod_small, Z.div_small, Z.add_0_r by lia.
    split; cbn [c_mem]; [rewrite bda_same; apply wrap_small; unfold fits; lia|].
    by rewrite bda_skip, Er, wrap_small by done.
Qed.

(** The count after an interrupt. *)
Lemma handle_08_counts (s : clk W) t r : counted s t r -> 0 <= t < TICKS_PER_DAY -> fits 8 r ->
  exists s', handle_08 s = Some (tt, s') /\ counted s' ((t + 1) mod TICKS_PER_DAY) (u8 (r + (t + 1) / TICKS_PER_DAY)).
Proof.
  intros Hc Ht Hr. destruct (count_up s t r Hc Ht Hr) as (s1 & Hc1 & E1).
  destruct (floppy_tick_runs s1) as (s2 & E2 & Hm2).
  set (s3 := host_int 0x1c (sercon_check_event (usb_check_event s2))).
  destruct (poutb_runs 0x20 PORT_PIC1_CMD s3) as (s4 & E4 & Em4 & _).
  exists s4. split.
  - unfold handle_08. rewrite (p_step _ _ s (sercon_check_event (usb_check_event s2)) tt); [exact E4|].
    unfold clock_update. rewrite (p_step _ _ s s t) by (unfold get_bda; by rewrite (proj1 Hc)).
    rewrite (p_step _ _ s s1 tt) by exact E1. by rewrite (p_step _ _ s1 s2 tt).
  - apply (counted_ext s1); [|done]. intros a Ha. rewrite Em4. unfold s3. rewrite Huser, Hsercon, Husb by done.
    apply Hm2. unfold bda_addr, floppy_motor_counter, timer_counter in *. lia.
Qed.

(** [n] timer interrupts. *)
Fixpoint interrupts (n : nat) : P (clk W) unit :=
  match n with O => mret tt | S k => handle_08;; interrupts k end.

Lemma interrupts_count n (s : clk W) t r : counted s t r -> 0 <= t < TICKS_PER_DAY -> fits 8 r ->
  exists s', interrupts n s = Some (tt, s') /\
    counted s' ((t + Z.of_nat n) mod TICKS_PER_DAY) (u8 (r + (t + Z.of_nat n) / TICKS_PER_DAY)).
Proof.
  revert s t r. induction n as [|k IH]; intros s t r Hc Ht Hr.
  - exists s. split; [done|]. rewrite Z.add_0_r, Z.mod_small, Z.div_small, Z.add_0_r, wrap_small by done. done.
  - destruct (handle_08_counts s t r Hc Ht Hr) as (s1 & E1 & Hc1).
    destruct (IH s1 _ _ Hc1) as (s2 & E2 & Hc2); [apply Z.mod_pos_bound; done|by apply wrap_fits|].
    exists s2. split; [cbn [interrupts]; by rewrite (p_step _ _ _ _ _ E1)|].
    replace (t + Z.of_nat (S k)) with (t + 1 + Z.of_nat k) by lia.
    set (d := TICKS_PER_DAY) in *. assert (0 < d) by done. set (u := t + 1) in *.
    rewrite Zplus_mod_idemp_l, wrap_add_l in Hc2. replace (r + (u + Z.of_nat k) / d) with (r + u / d + (u mod d + Z.of_nat k) / d); [done|].
    pose proof (Z.div_mod u d ltac:(lia)). replace (u + Z.of_nat k) with (u mod d + Z.of_nat k + u / d * d) by lia.
    rewrite Z.div_add by lia. lia.
Qed.

(** The time since a deadline, round the clock. *)
Lemma deadline t n k : 0 <= t < TICKS_PER_DAY -> 0 <= n < TICKS_PER_DAY / 2 -> 0 <= k <= n + TICKS_PER_DAY / 2 ->
  (u32 ((t + k) mod TICKS_PER_DAY + TICKS_PER_DAY - u32 (t + n + 1) mod TICKS_PER_DAY) mod TICKS_PER_DAY
    <? TICKS_PER_DAY / 2) = (n <? k).
Proof.
  unfold TICKS_PER_DAY. change (1573040 / 2) with 786520. intros Ht Hn Hk.
  rewrite (wrap_small 32 (t + n + 1)) by (unfold fits; lia).
  pose proof (Z.mod_pos_bound (t + k) 1573040 ltac:(lia)). pose proof (Z.mod_pos_bound (t + n + 1) 1573040 ltac:(lia)).
  rewrite (wrap_small 32) by (unfold fits; lia).
  rewrite Zminus_mod_idemp_r, <- Z.add_sub_assoc, Zplus_mod_idemp_l.
  replace (t + k + _) with (k - n - 1 + 1 * 1573040) by lia. rewrite Z.mod_add by lia.
  destruct (Z.ltb_spec n k).
  - rewrite Z.mod_small by lia. apply Z.ltb_lt. lia.
  - rewrite <- (Z.mod_add _ 1), Z.mod_small by lia. apply Z.ltb_ge. lia.
Qed.

(** C26: A timer of [msecs] milliseconds counted in timer interrupts
    ([irqtimer_calc]) expires exactly when one interrupt more than that time
    lasts has happened: [irqtimer_check] denies it before and confirms it for
    half a day from then on.  Midnight may fall in between, and the interrupt
    handlers of others may do anything but change the tick count. *)
Theorem timer_exact (s : clk W) t r msecs : counted s t r -> 0 <= t < TICKS_PER_DAY -> fits 8 r ->
  0 < msecs <= 43199000 ->
  exists e n, irqtimer_calc msecs s = Some (e, s) /\ n = ticks_from_ms msecs /\
    (n - 1) * (PIT_TICK_INTERVAL * 1000 * PMTIMER_TO_PIT) < msecs * PMTIMER_HZ <= n * (PIT_TICK_INTERVAL * 1000 * PMTIMER_TO_PIT) /\
    forall k, Z.of_nat k <= n + TICKS_PER_DAY / 2 ->
      exists s', interrupts k s = Some (tt, s') /\ irqtimer_check e s' = Some (n <? Z.of_nat k, s').
Proof.
  intros Hc Ht Hr Hms. pose proof (ticks_from_ms_least msecs ltac:(lia)) as Hn.
  exists (u32 (t + ticks_from_ms msecs + 1) mod TICKS_PER_DAY), (ticks_from_ms msecs).
  split; [|split; [done|split; [done|]]].
  - unfold irqtimer_calc. rewrite (proj2 (Z.eqb_neq _ _)) by lia. unfold irqtimer_calc_ticks.
    rewrite (p_step _ _ s s t) by (unfold get_bda; by rewrite (proj1 Hc)). done.
  - intros k Hk. destruct (interrupts_count k s t r Hc Ht Hr) as (s' & E & Hc').
    exists s'. split; [done|]. unfold irqtimer_check.
    rewrite (p_step _ _ s' s' ((t + Z.of_nat k) mod TICKS_PER_DAY)) by (unfold get_bda; by rewrite (proj1 Hc')).
    rewrite deadline; [done|done| |lia].
    change (TICKS_PER_DAY / 2) with 786520. unfold PIT_TICK_INTERVAL, PMTIMER_TO_PIT, PMTIMER_HZ in *. lia.
Qed.

End ticks.

(** * Waits *)

Lemma segoff_halves seg off : fits 16 seg -> fits 16 off ->
  u32 (SEGOFF seg off) = SEGOFF seg off /\ so_seg (SEGOFF seg off) = seg /\ so_offset (SEGOFF seg off) = off.
Proof.
  intros Hs Ho. unfold SEGOFF, so_seg, so_offset. rewrite !(wrap_small 16) by done.
  rewrite Z.lor_comm, lor_add_shift by (done || lia). destruct Hs, Ho. split; [apply wrap_small; unfold fits; lia|].
  rewrite Z.shiftr_div_pow2, Z.div_add, Z.div_small, Z.add_0_l by lia. split; [by apply wrap_small|].
  unfold wrap. by rewrite Z.mod_add, Z.mod_small by lia.
Qed.

Section waits.
Context {W : Type} {Mc : Machine W} {H : ClockHost W} {C : Cmos W}.
Context (seg off : Z) (Hseg : fits 16 seg) (Hoff : fits 16 off).

(** The flag byte of the caller is not one of the wait's variables. *)
Context (Hflag : far seg off < bda_addr user_wait_complete_flag \/ bda_addr rtc_wait_flag < far seg off).

(** A program of others leaves the wait alone. *)
Definition keeps_wait (f : clk W -> clk W) : Prop := forall s,
  (forall a, bda_addr user_wait_complete_flag <= a <= bda_addr rtc_wait_flag \/ a = far seg off -> c_mem (f s) a = c_mem s a) /\
  RTCusers (c_vars (f s)) = RTCusers (c_vars s) /\ forall i, cmos (c_dev (f s)) i = cmos (c_dev s) i.

Context (Hpre : keeps_wait host_preempt).

(** A wait for [left] microseconds, the flag byte being [v]. *)
Definition waiting (s : clk W) (v left : Z) (f : Z -> Z) : Prop :=
  GET_BDA 1 (c_mem s) rtc_wait_flag = RWS_WAIT_PENDING /\ GET_BDA 4 (c_mem s) user_wait_timeout = left /\
  GET_BDA 4 (c_mem s) user_wait_complete_flag = SEGOFF seg off /\ c_mem s (far seg off) = v /\
  RTCusers (c_vars s) = 1 /\ shows s f.

(** The periodic interrupt of the chip. *)
Definition fire (s : clk W) : clk W := mkClk (c_mem s) (c_vars s) (periodic (c_dev s)).

Lemma waiting_ext (s s' : clk W) v left f : waiting s v left f ->
  (forall a, bda_addr user_wait_complete_flag <= a <= bda_addr rtc_wait_flag \/ a = far seg off -> c_mem s' a = c_mem s a) ->
  RTCusers (c_vars s') = RTCusers (c_vars s) -> shows s' f -> waiting s' v left f.
Proof.
  intros (E1 & E2 & E3 & E4 & E5 & E6) Hm Hu Hs.
  assert (forall n o, user_wait_complete_flag <= o -> o + Z.of_nat n <= rtc_wait_flag + 1 ->
    GET_BDA n (c_mem s') o = GET_BDA n (c_mem s) o) as He.
  { intros n o H1 H2. apply load_ext. intros x Hx. apply Hm. left. unfold far, SEG_BDA, bda_addr in *. lia. }
  unfold waiting. rewrite !He by done. rewrite Hm by (by right). by rewrite Hu.
Qed.

Lemma pie_enabled b : Z.land b RTC_B_PIE <> 0 -> Z.land b (Z.lor RTC_B_PIE RTC_B_AIE) <> 0.
Proof.
  intros Hp E. apply Hp. change RTC_B_PIE with (Z.land (Z.lor RTC_B_PIE RTC_B_AIE) RTC_B_PIE) at 1.
  by rewrite Z.land_assoc, E.
Qed.

Lemma fire_step (s : clk W) v left f : waiting s v left f -> updating f = false ->
  Z.land (f CMOS_STATUS_B) RTC_B_PIE <> 0 ->
  exists s1, waiting s1 v left f /\
    forall s2 g, count_down s1 = Some (tt, s2) -> shows s2 g ->
      exists s', handle_70 (fire s) = Some (tt, s') /\ same_soft s2 s' /\ shows s' g.
Proof.
  intros Hw Hu Hp. destruct (Hw) as (_ & _ & _ & _ & _ & Hs).
  assert (shows (fire s) f) as Hs0.
  { intros i Hi. cbn [fire c_dev]. rewrite periodic_fires, (proj2 (Z.eqb_neq _ _) Hi). by apply Hs. }
  assert (updating (cmos (c_dev (fire s))) = false) as Hu0 by (by rewrite (shows_updating _ f Hs0)).
  destruct (run_plain CMOS_STATUS_B (fire s)) as (s1 & E1 & [Em1 Ev1] & Hc1); [done..|].
  assert (shows s1 f) as Hs1 by (intros i Hi; rewrite Hc1; by apply Hs0).
  destruct (run_read CMOS_STATUS_C s1 f) as (s2 & E2 & [Em2 Ev2] & Hs2); [done..|].
  destruct (Hpre s2) as (Hm & Hv & Hc). exists (host_preempt s2). split.
  - apply (waiting_ext s); [done| | |].
    + intros a Ha. by rewrite Hm, Em2, Em1.
    + by rewrite Hv, Ev2, Ev1.
    + intros i Hi. rewrite Hc. by apply Hs2.
  - intros s3 g E3 Hg. destruct (run_out 0x20 PORT_PIC2_CMD s3 g) as (s4 & E4 & So4 & Hs4); [done..|].
    destruct (run_out 0x20 PORT_PIC1_CMD s4 g) as (s5 & E5 & So5 & Hs5); [done..|].
    exists s5. split; [|split; [by eapply same_soft_trans|done]].
    unfold handle_70. rewrite (p_step _ _ _ _ _ E1), (p_step _ _ _ _ _ E2).
    rewrite Hc1, (Hs0 CMOS_STATUS_B) by done. cbn [fire c_dev]. rewrite periodic_fires.
    rewrite (proj2 (Z.eqb_neq _ _) (pie_enabled _ Hp)). change (CMOS_STATUS_C =? CMOS_STATUS_C) with true. cbn [negb].
    change (Z.land 0xc0 RTC_B_AIE =? 0) with true. change (Z.land 0xc0 RTC_B_PIE =? 0) with false. cbn [negb].
    rewrite (p_step _ _ s2 s3 tt) by exact E3. unfold pic_eoi2. by rewrite (p_step _ _ _ _ _ E4).
Qed.

(** An interrupt with time left. *)
Lemma wait_goes_on (s : clk W) v left f : waiting s v left f -> updating f = false ->
  Z.land (f CMOS_STATUS_B) RTC_B_PIE <> 0 -> USEC_PER_RTC <= left -> fits 32 left ->
  exists s', handle_70 (fire s) = Some (tt, s') /\ waiting s' v (left - USEC_PER_RTC) f.
Proof.
  intros Hw Hu Hp Hl Hf. destruct (fire_step s v left f Hw Hu Hp) as (s1 & Hw1 & Hrun).
  destruct (Hw1) as (E1 & E2 & E3 & E4 & E5 & E6).
  destruct (Hrun (mkClk (SET_BDA 4 (c_mem s1) user_wait_timeout (left - USEC_PER_RTC)) (c_vars s1) (c_dev s1)) f)
    as (s' & E & [Em Ev] & Hs').
  { unfold count_down. rewrite (p_step _ _ s1 s1 RWS_WAIT_PENDING) by (unfold get_bda; by rewrite E1).
    cbn [Z.eqb RWS_WAIT_PENDING]. rewrite (p_step _ _ s1 s1 left) by (unfold get_bda; by rewrite E2).
    by rewrite (proj2 (Z.ltb_ge _ _) Hl). }
  { exact E6. }
  exists s'. split; [done|]. unfold waiting. rewrite Em, Ev. cbn [c_mem c_vars].
  rewrite bda_same, (bda_skip _ 1), (bda_skip _ 4) by done.
  split; [done|]. split; [apply wrap_small; change USEC_PER_RTC with 977 in *; unfold fits in *; lia|]. split; [done|].
  split; [|done]. rewrite <- E4. apply store_out.
  unfold far, bda_addr, SEG_BDA, user_wait_timeout, user_wait_complete_flag, rtc_wait_flag in *. lia.
Qed.

Lemma clear_pending m v w s3 : GET_BDA 1 m rtc_wait_flag = RWS_WAIT_PENDING -> RTCusers v = 1 ->
  rtc_mask CMOS_STATUS_B RTC_B_PIE 0 (mkClk (SET_BDA 1 m rtc_wait_flag 0) (set_users 0 v) w) = Some (tt, s3) ->
  clear_usertimer (mkClk m v w) = Some (tt, s3).
Proof.
  intros E1 E2 E3. unfold clear_usertimer, rtc_release.
  rewrite (p_step _ _ _ (mkClk m v w) RWS_WAIT_PENDING) by (unfold get_bda; cbn [c_mem]; by rewrite E1).
  change (Z.land RWS_WAIT_PENDING RWS_WAIT_PENDING =? 0) with false. cbn match.
  rewrite !(p_step _ _ _ _ _ eq_refl). cbn [c_vars c_mem c_dev]. rewrite E2. exact E3.
Qed.

(** The last interrupt. *)
Lemma wait_ends (s : clk W) v left f : waiting s v left f -> updating f = false ->
  Z.land (f CMOS_STATUS_B) RTC_B_PIE <> 0 -> left < USEC_PER_RTC ->
  exists s' g, handle_70 (fire s) = Some (tt, s') /\ c_mem s' (far seg off) = u8 (Z.lor v 0x80) /\
    GET_BDA 1 (c_mem s') rtc_wait_flag = 0 /\ RTCusers (c_vars s') = 0 /\ shows s' g /\
    Z.land (g CMOS_STATUS_B) RTC_B_PIE = 0.
Proof.
  intros Hw Hu Hp Hl. destruct (fire_step s v left f Hw Hu Hp) as (s1 & Hw1 & Hrun).
  destruct (Hw1) as (E1 & E2 & E3 & E4 & E5 & E6). destruct (segoff_halves seg off Hseg Hoff) as (_ & Es & Eo).
  set (s2 := mkClk (SET_BDA 1 (SET_FARVAR 1 (c_mem s1) seg off (Z.lor v 0x80)) rtc_wait_flag 0)
    (set_users 0 (c_vars s1)) (c_dev s1)).
  destruct (run_mask CMOS_STATUS_B RTC_B_PIE 0 s2 f) as (s3 & Em3 & [Hm3 Hv3] & Hs3); [done..|].
  assert (GET_BDA 1 (SET_FARVAR 1 (c_mem s1) seg off (Z.lor v 0x80)) rtc_wait_flag = RWS_WAIT_PENDING) as Hfw.
  { rewrite <- E1. apply load_store_other.
    unfold far, bda_addr, SEG_BDA, user_wait_complete_flag, rtc_wait_flag in *. lia. }
  assert (count_down s1 = Some (tt, s3)) as Ecd.
  { unfold count_down. rewrite (p_step _ _ s1 s1 RWS_WAIT_PENDING) by (unfold get_bda; by rewrite E1).
    cbn [Z.eqb RWS_WAIT_PENDING]. rewrite (p_step _ _ s1 s1 left) by (unfold get_bda; by rewrite E2).
    rewrite (proj2 (Z.ltb_lt _ _) Hl), (p_step _ _ s1 s1 (SEGOFF seg off)) by (unfold get_bda; by rewrite E3).
    rewrite Es, Eo, (p_step _ _ s1 s1 v) by (unfold get_far, GET_FARVAR; by rewrite load1, E4).
    rewrite (p_step _ _ s1 (mkClk (SET_FARVAR 1 (c_mem s1) seg off (Z.lor v 0x80)) (c_vars s1) (c_dev s1)) tt) by done.
    exact (clear_pending _ _ _ s3 Hfw E5 Em3). }
  destruct (Hrun s3 _ Ecd Hs3) as (s' & E & [Em Ev] & Hs').
  eexists s', _. split; [done|]. rewrite Em, Ev, Hm3, Hv3. cbn [s2 c_mem c_vars set_users RTCusers].
  split; [|split; [by rewrite bda_same|split; [done|split; [exact Hs'|]]]].
  - unfold SET_BDA, SET_FARVAR. rewrite store_out.
    + rewrite <- load1, load_store_same. done.
    + unfold far, bda_addr, SEG_BDA, user_wait_complete_flag, rtc_wait_flag in *. lia.
  - set (b := u8 _). assert (Z.land b RTC_B_PIE = 0) as Hb.
    { unfold b. rewrite land_u8, Z.land_lor_distr_l, <- Z.land_assoc by done. change (Z.land (Z.lnot (u8 RTC_B_PIE)) RTC_B_PIE) with 0.
      by rewrite Z.land_0_r. }
    unfold cmos_written. cbn. case_match; [done|]. by rewrite <- Z.land_assoc.
Qed.

(** [n] periodic interrupts. *)
Fixpoint periods (n : nat) : P (clk W) unit :=
  match n with O => mret tt | S k => run fire;; handle_70;; periods k end.

Lemma periods_wait n (s : clk W) v left f : waiting s v left f -> updating f = false ->
  Z.land (f CMOS_STATUS_B) RTC_B_PIE <> 0 -> fits 32 left -> Z.of_nat n * USEC_PER_RTC <= left ->
  exists s', periods n s = Some (tt, s') /\ waiting s' v (left - Z.of_nat n * USEC_PER_RTC) f.
Proof.
  revert s left. change USEC_PER_RTC with 977. induction n as [|k IH]; intros s left Hw Hu Hp Hf Hl.
  - exists s. split; [done|]. by rewrite Z.sub_0_r.
  - destruct (wait_goes_on s v left f Hw Hu Hp) as (s1 & E1 & Hw1); [change USEC_PER_RTC with 977; lia|done|].
    change USEC_PER_RTC with 977 in Hw1.
    destruct (IH s1 _ Hw1 Hu Hp) as (s2 & E2 & Hw2); [unfold fits in *; lia|lia|].
    exists s2. split.
    + cbn [periods]. rewrite (p_step _ _ s (fire s) tt) by done. by rewrite (p_step _ _ _ _ _ E1).
    + by replace (left - Z.of_nat (S k) * 977) with (left - 977 - Z.of_nat k * 977) by lia.
Qed.

Lemma periods_app n m (s s1 : clk W) : periods n s = Some (tt, s1) -> periods (n + m) s = periods m s1.
Proof.
  revert s. induction n as [|k IH]; intros s; [by intros [= ->]|].
  cbn [periods Nat.add]. rewrite !(p_step _ _ s (fire s) tt) by done. unfold mbind, P_bind.
  destruct (handle_70 (fire s)) as [[[] s2]|]; [apply IH|done].
Qed.

Lemma pie_written f : Z.land (cmos_written CMOS_STATUS_B
  (u8 (Z.lor (Z.land (f CMOS_STATUS_B) (Z.lnot (u8 0))) (u8 RTC_B_PIE))) f CMOS_STATUS_B) RTC_B_PIE <> 0.
Proof.
  set (b := u8 _). assert (Z.land b RTC_B_PIE <> 0) as Hb.
  { unfold b. rewrite land_u8, Z.land_lor_distr_l by done. intros [_ Hz]%Z.lor_eq_0_iff. done. }
  unfold cmos_written. cbn. case_match; [done|]. by rewrite <- Z.land_assoc.
Qed.

Lemma user_start (r : disk_regs) (s : clk W) usecs : lo8 (ax r) = 0 -> es r = seg -> bx r = off ->
  usecs = Z.lor (Z.shiftl (cx r) 16) (dx r) -> fits 32 usecs ->
  Z.land (GET_BDA 1 (c_mem s) rtc_wait_flag) RWS_WAIT_PENDING = 0 -> RTCusers (c_vars s) = 0 ->
  updating (cmos (c_dev s)) = false ->
  exists r' s1 g, handle_1583 r s = Some (r', s1) /\ r_cf r' = false /\
    waiting s1 (c_mem s (far seg off)) usecs g /\ updating g = false /\ Z.land (g CMOS_STATUS_B) RTC_B_PIE <> 0.
Proof.
  intros Ha Hes Hbx -> Hf Hw Hn Hu. destruct (segoff_halves seg off Hseg Hoff) as (Eu & _).
  set (usecs := Z.lor _ _) in *.
  set (m := SET_BDA 4 (SET_BDA 4 (SET_BDA 1 (c_mem s) rtc_wait_flag RWS_WAIT_PENDING) user_wait_complete_flag
    (SEGOFF seg off)) user_wait_timeout usecs).
  set (s1 := mkClk m (set_users 1 (c_vars s)) (c_dev s)).
  destruct (run_mask CMOS_STATUS_B 0 RTC_B_PIE s1 (cmos (c_dev s))) as (s2 & E2 & [Em Ev] & Hs2); [done..|].
  eexists _, s2, _. split; [|split; [|split; [|split; [|]]]].
  - unfold handle_1583, handle_158300. rewrite Ha, Hes, Hbx. fold usecs.
    rewrite (p_step _ _ s s2 0); [reflexivity|]. unfold set_usertimer.
    rewrite (p_step _ _ s s _ eq_refl), Hw. cbn [Z.eqb negb]. rewrite (wrap_small 16 seg), (wrap_small 16 off) by done.
    rewrite !(p_step _ _ _ _ _ eq_refl). fold m.
    rewrite (p_step _ _ _ s2 tt); [reflexivity|].
    unfold rtc_use. rewrite !(p_step _ _ _ _ _ eq_refl). cbn [c_vars]. rewrite Hn. exact E2.
  - reflexivity.
  - split; [|split; [|split; [|split; [|split; [|exact Hs2]]]]]; rewrite ?Em, ?Ev; unfold s1, m; cbn [c_mem c_vars].
    + by rewrite !bda_skip, bda_same by done.
    + rewrite bda_same. by apply wrap_small.
    + by rewrite bda_skip, bda_same by done.
    + unfold SET_BDA, SET_FARVAR. rewrite !store_out; [done|..];
        unfold far, bda_addr, SEG_BDA, user_wait_timeout, user_wait_complete_flag, rtc_wait_flag in *; lia.
    + done.
  - rewrite updating_written. exact Hu.
  - apply pie_written.
Qed.

(** C27: A wait requested with interrupt 15h function 83h for CX:DX microseconds
    and the flag byte ES:BX succeeds when none is pending.  During the next
    [usecs] / 977 periodic interrupts of the clock chip the flag byte keeps
    its value and the wait stays pending; the interrupt after them sets bit 7 of
    the byte, ends the wait and turns the periodic interrupt off again. *)
Theorem user_wait (r : disk_regs) (s : clk W) usecs : lo8 (ax r) = 0 -> es r = seg -> bx r = off ->
  usecs = Z.lor (Z.shiftl (cx r) 16) (dx r) -> fits 32 usecs ->
  Z.land (GET_BDA 1 (c_mem s) rtc_wait_flag) RWS_WAIT_PENDING = 0 -> RTCusers (c_vars s) = 0 ->
  updating (cmos (c_dev s)) = false ->
  exists r' s1, handle_1583 r s = Some (r', s1) /\ r_cf r' = false /\
    (forall n, Z.of_nat n <= usecs / USEC_PER_RTC -> exists s', periods n s1 = Some (tt, s') /\
      c_mem s' (far seg off) = c_mem s (far seg off) /\ GET_BDA 1 (c_mem s') rtc_wait_flag = RWS_WAIT_PENDING) /\
    exists s', periods (Z.to_nat (usecs / USEC_PER_RTC) + 1) s1 = Some (tt, s') /\
      c_mem s' (far seg off) = u8 (Z.lor (c_mem s (far seg off)) 0x80) /\
      GET_BDA 1 (c_mem s') rtc_wait_flag = 0 /\ RTCusers (c_vars s') = 0 /\
      Z.land (cmos (c_dev s') CMOS_STATUS_B) RTC_B_PIE = 0.
Proof.
  intros Ha Hes Hbx Hus Hf Hw Hn Hu.
  destruct (user_start r s usecs Ha Hes Hbx Hus Hf Hw Hn Hu) as (r' & s1 & g & E & Hcf & Hwait & Hug & Hp).
  exists r', s1. split; [done|]. split; [done|]. change USEC_PER_RTC with 977.
  pose proof (Z.mul_div_le usecs 977 ltac:(lia)). pose proof (Z.mul_succ_div_gt usecs 977 ltac:(lia)).
  assert (0 <= usecs / 977) by (apply Z.div_pos; [apply Hf|lia]). split.
  - intros n Hle. destruct (periods_wait n s1 _ usecs g Hwait Hug Hp Hf) as (s' & E' & Hw');
      [change USEC_PER_RTC with 977; lia|]. exists s'. split; [done|]. split; apply Hw'.
  - destruct (periods_wait (Z.to_nat (usecs / 977)) s1 _ usecs g Hwait Hug Hp Hf) as (s2 & E2 & Hw2);
      [change USEC_PER_RTC with 977; lia|].
    destruct (wait_ends s2 _ _ g Hw2 Hug Hp) as (s' & g' & E3 & Hm & Hb & Hr & Hs' & Hpie);
      [change USEC_PER_RTC with 977; lia|].
    exists s'. split.
    + rewrite (periods_app _ 1 _ _ E2). cbn [periods]. rewrite (p_step _ _ s2 (fire s2) tt) by done.
      by rewrite (p_step _ _ _ _ _ E3).
    + by rewrite (Hs' CMOS_STATUS_B) by done.
Qed.

End waits.

(** * A chip, and the services on it *)

Record chip := mkChip { chip_sel : Z; chip_regs : Z -> Z }.

Definition with_flags (v : Z) (f : Z -> Z) (i : Z) : Z := if i =? CMOS_STATUS_C then v else f i.

#[export] Instance chip_machine : Machine chip := {|
  in_port n p w :=
    if p =? PORT_CMOS_DATA then
      (chip_regs w (chip_sel w),
       mkChip (chip_sel w) (if chip_sel w =? CMOS_STATUS_C then with_flags 0 (chip_regs w) else chip_regs w))
    else (0, w);
  out_port n p v w :=
    (tt, if p =? PORT_CMOS_INDEX then mkChip (Z.land v 0x7f) (chip_regs w)
         else if p =? PORT_CMOS_DATA then mkChip (chip_sel w) (cmos_written (chip_sel w) v (chip_regs w)) else w);
  read_mem n a w := (0, w);
  write_mem n a v w := (tt, w);
  clflush a w := (tt, w);
  rdmsr_asm r w := ((0, 0), w);
  wrmsr_asm r h l w := (tt, w);
  rdtsc_asm w := ((0, 0), w)
|}.

#[export] Instance chip_host : ClockHost chip := {|
  host_yield s := s; host_yield_toirq s := s; host_preempt s := s; host_int v s := s;
  usb_check_event s := s; sercon_check_event s := s; cpuid i := (0, 0, 0, 0);
  entry_08 := 0xf000fea5; entry_70 := 0xf000f0a4
|}.

#[export, refine] Instance chip_cmos : Cmos chip := {|
  cmos_sel := chip_sel; cmos := chip_regs; periodic w := mkChip (chip_sel w) (with_flags 0xc0 (chip_regs w))
|}.
Proof.
  - intros w v. by eexists.
  - intros w _. eexists. split; [reflexivity|]. split; [reflexivity|]. cbn [chip_regs].
    intros i Hi. destruct (Z.eqb_spec (chip_sel w) CMOS_STATUS_C) as [E|]; [|done].
    unfold with_flags. destruct Hi as [Hi|]; [|done]. by rewrite (proj2 (Z.eqb_neq _ _) Hi).
  - intros w v. eexists. split; [reflexivity|]. done.
  - intros n p w _ Hp i. cbn. by rewrite (proj2 (Z.eqb_neq _ _) Hp).
  - intros n p v w Hp Hd i. cbn. by rewrite (proj2 (Z.eqb_neq _ _) Hp), (proj2 (Z.eqb_neq _ _) Hd).
  - done.
Defined.

(** 23:59:58, one tick before midnight. *)
Definition late_regs (i : Z) : Z :=
  if i =? CMOS_RTC_HOURS then 0x23 else if i =? CMOS_RTC_MINUTES then 0x59
  else if i =? CMOS_RTC_SECONDS then 0x58 else if i =? CMOS_RTC_YEAR then 0x26 else 0.

Definition late : clk chip :=
  mkClk (SET_BDA 4 (fun _ => 0) timer_counter (TICKS_PER_DAY - 1)) vars_at_start (mkChip 0 late_regs).

Definition clock_regs (a b c d e : Z) : disk_regs := mkDregs (mkRegs a b c d 0 0 e) 0 0 true.

Lemma clock_set_read_witness : exists a1 a2 a3 a4 s1 s2 s3 s4,
  handle_1a 0 (clock_regs 0x0300 0 0x2150 0x3501 0) late = Some (a1, s1) /\
  handle_1a 0 (clock_regs 0x0500 0 0x2026 0x1115 0) s1 = Some (a2, s2) /\
  handle_1a 0 (clock_regs 0x0200 0 0 0 0) s2 = Some (a3, s3) /\
  handle_1a 0 (clock_regs 0x0400 0 0 0 0) s3 = Some (a4, s4) /\ hi8 (cx a3) = 0x21 /\ hi8 (cx a4) = 0x20.
Proof.
  destruct (clock_set_read (C := chip_cmos) 0 (clock_regs 0x0300 0 0x2150 0x3501 0) (clock_regs 0x0500 0 0x2026 0x1115 0)
    (clock_regs 0x0200 0 0 0 0) (clock_regs 0x0400 0 0 0 0) late eq_refl eq_refl eq_refl eq_refl eq_refl)
    as (a1 & a2 & a3 & a4 & s1 & s2 & s3 & s4 & E1 & E2 & E3 & E4 & _ & _ & _ & _ & H1 & _ & _ & _ & H2 & _).
  exists a1, a2, a3, a4, s1, s2, s3, s4. do 4 (split; [assumption|]). split; [exact H1|exact H2].
Defined.

Lemma boot_clock_witness : exists s', clock_setup 0 late = Some (tt, s') /\
  86398 * 1000 * PMTIMER_HZ <= (GET_BDA 4 (c_mem s') timer_counter + 1431656) * 196608000.
Proof.
  destruct (boot_clock (C := chip_cmos) 0 late 23 59 58) as (s' & E & _ & _ & _ & _ & Hl);
    [reflexivity|lia|lia|lia|reflexivity|reflexivity|reflexivity|].
  exists s'. split; [exact E|]. apply Hl. reflexivity.
Defined.

Lemma timer_exact_witness : exists e s', irqtimer_calc 100 late = Some (e, late) /\
  interrupts 3 late = Some (tt, s') /\ irqtimer_check e s' = Some (true, s').
Proof.
  destruct (timer_exact (Mc := chip_machine) (H := chip_host) (fun _ _ _ => eq_refl) (fun _ _ _ => eq_refl) (fun _ _ _ => eq_refl)
    late (TICKS_PER_DAY - 1) 0 100) as (e & n & E & En & _ & Hk).
  - split; vm_compute; reflexivity.
  - split; [discriminate|reflexivity].
  - split; [discriminate|reflexivity].
  - lia.
  - destruct (Hk 3%nat) as (s' & E1 & E2); [rewrite En; vm_compute; discriminate|].
    exists e, s'. split; [exact E|]. split; [exact E1|]. rewrite E2, En. reflexivity.
Defined.

Lemma user_wait_witness : exists r' s1 s', handle_1583 (clock_regs 0x8300 0x10 0 2000 0x2000) late = Some (r', s1) /\
  periods 3 s1 = Some (tt, s') /\ c_mem s' 0x20010 = 0x80.
Proof.
  destruct (user_wait (H := chip_host) (C := chip_cmos) 0x2000 0x10 ltac:(split; [discriminate|reflexivity]) ltac:(split; [discriminate|reflexivity])
    ltac:(right; reflexivity) (fun s => conj (fun _ _ => eq_refl) (conj eq_refl (fun _ => eq_refl)))
    (clock_regs 0x8300 0x10 0 2000 0x2000) late 2000) as (r' & s1 & E & _ & _ & s' & E' & Hm & _);
    [reflexivity|reflexivity|reflexivity|reflexivity|split; [discriminate|reflexivity]|reflexivity|reflexivity|reflexivity|].
  exists r', s1, s'. split; [exact E|]. split; [exact E'|exact Hm].
Defined.
