(* ===== verification/SeaBoot.v ===== *)
(** How SeaBIOS chooses what to boot ([seabios/src/boot.c]).

    Drivers and option ROMs register what can be booted; the list is kept in
    the order of priorities, from which [bcv_prepboot] maps the drives and
    makes the sequence that interrupts 19h and 18h work through.  The state is
    the variables [boot_vars] and the state of the block layer; the code of
    option ROMs and boot sectors, the screen, the keyboard and the timer are the
    class [BootHost].  A C string is the list of its bytes. *)

From stdpp Require Import base numbers list strings.
From Stdlib Require Import ZArith Lia.
From S2P Require Import Prelude Memory CcInt Nanoprintf VgaState VgaVbe SeaBlock SeaDisk SeaCd.

(** * Searching *)

(** [glob_prefix], whose result is the rest of the string; every turn consumes
    a character of one of the two. *)
Fixpoint glob_loop (fuel : nat) (glob str : list Z) : option (list Z) :=
  match fuel with
  | O => None
  | S k =>
    let g := cur_char glob in
    let c := cur_char str in
    if (g =? 0) && ((c =? 0) || (c =? 47)) then Some str
    else if g =? 42 then
      if (c =? 0) || (c =? 47) || (c =? cur_char (tail glob)) then glob_loop k (tail glob) str
      else glob_loop k glob (tail str)
    else if negb (g =? c) then None
    else glob_loop k (tail glob) (tail str)
  end.

Definition glob_prefix (glob str : list Z) : option (list Z) :=
  glob_loop (length glob + length str + 1) glob str.

(** [snprintf] at the end of a buffer of [max] bytes. *)
Definition emit (max : Z) (s piece : list Z) : list Z := take (Z.to_nat (max - 1)) (s ++ piece).

Definition hexdigit (v : Z) : Z := if v <=? 9 then 48 + v else 97 + v - 10.

Fixpoint hex_digits (k : nat) (v : Z) : list Z :=
  match k with
  | O => []
  | S k' => hex_digits k' (Z.shiftr v 4) ++ [hexdigit (Z.land v 0xf)]
  end.

(** [putprettyhex]: at least [width] characters, padded with zeros. *)
Fixpoint hex_count (k : nat) (v : Z) : nat :=
  match k with
  | O => 1
  | S k' => if Z.shiftr v 4 =? 0 then 1 else S (hex_count k' (Z.shiftr v 4))
  end.

Definition hex (width : nat) (v : Z) : list Z :=
  let v := u32 v in
  let n := hex_count 7 v in
  replicate (width - n) 48 ++ hex_digits n v.

(** [struct pci_device]: what the paths are made of. *)
Inductive pci_device :=
| OnRoot (bdf rootbus : Z)
| Behind (bdf : Z) (parent : pci_device).

Definition pci_bdf (pci : pci_device) : Z := match pci with OnRoot bdf _ | Behind bdf _ => bdf end.

Definition FW_PCI_DOMAIN : list Z := chars "/pci@i0cf8".

Definition pci_bdf_to_dev (bdf : Z) : Z := Z.land (Z.shiftr bdf 3) 0x1f.
Definition pci_bdf_to_fn (bdf : Z) : Z := Z.land bdf 0x07.

Fixpoint build_pci_path (max : Z) (devname : list Z) (pci : pci_device) : list Z :=
  let p :=
    match pci with
    | Behind _ parent => build_pci_path max (chars "pci-bridge") parent
    | OnRoot _ rootbus =>
      let p := emit max [] FW_PCI_DOMAIN in
      if rootbus =? 0 then p else emit max p (chars "," ++ hex 0 rootbus)
    end in
  let p := emit max p (chars "/" ++ devname ++ chars "@" ++ hex 0 (pci_bdf_to_dev (pci_bdf pci))) in
  let fn := pci_bdf_to_fn (pci_bdf pci) in
  if fn =? 0 then p else emit max p (chars "," ++ hex 0 fn).

Definition build_scsi_path (max : Z) (pci : pci_device) (target lun : Z) : list Z :=
  emit max (build_pci_path max (chars "*") pci) (chars "/*@0/*@" ++ hex 0 target ++ chars "," ++ hex 0 lun).

Definition build_ata_path (max : Z) (pci : pci_device) (chanid slave : Z) : list Z :=
  emit max (build_pci_path max (chars "*") pci) (chars "/drive@" ++ hex 0 chanid ++ chars "/disk@" ++ hex 0 slave).

(** A hub, by the port of the hub it is plugged into, and the controller of a
    root hub; [portmap] is the renumbering of ports some controllers have. *)
Inductive usbhub_s :=
| RootHub
| HubAt (port : Z) (hub : usbhub_s).

Definition usb_portmap (portmap : usbhub_s -> option (Z -> Z)) (hub : usbhub_s) (port : Z) : Z :=
  match portmap hub with Some f => f port | None => port + 1 end.

Fixpoint build_usb_path (portmap : usbhub_s -> option (Z -> Z)) (max : Z) (buf : list Z) (hub : usbhub_s) : list Z :=
  match hub with
  | RootHub => buf
  | HubAt port up =>
    let p := build_usb_path portmap max buf up in
    emit max p (chars "/hub@" ++ hex 0 (usb_portmap portmap up port))
  end.

Inductive usb_cntl := CntlPci (pci : pci_device) | CntlMmio (mmio : Z) | CntlNone.

(** The lines of a file; [strchr] splits at a line feed. *)
Fixpoint split_lines (f line : list Z) : list (list Z) :=
  match f with
  | [] => [rev line]
  | c :: f' => if c =? 10 then rev line :: split_lines f' [] else split_lines f' (c :: line)
  end.

(** [nullTrailingSpace]; characters are signed. *)
Fixpoint drop_blanks (s : list Z) : list Z :=
  match s with
  | c :: s' => if to_signed 8 c <=? 32 then drop_blanks s' else s
  | [] => []
  end.

Definition nullTrailingSpace (s : list Z) : list Z := drop_blanks (rev (drop_blanks (rev s))).

Fixpoint find_line (i : Z) (glob : list Z) (lines : list (list Z)) : Z :=
  match lines with
  | [] => -1
  | l :: lines' => match glob_prefix glob l with Some _ => i + 1 | None => find_line (i + 1) glob lines' end
  end.

(** * Geometry overrides *)

Record BootDeviceLCHS := mkGeometry { geo_name : list Z; lcyls : Z; lheads : Z; lsecs : Z }.

Fixpoint parse_digits (m : Z) (s : list Z) : Z * list Z :=
  match s with
  | c :: s' => if (48 <=? c) && (c <=? 57) then parse_digits (u32 (10 * m + (c - 48))) s' else (m, s)
  | [] => (m, [])
  end.

(** [parse_u32]: the number and where the next one starts. *)
Definition parse_u32 (cur : option (list Z)) : Z * option (list Z) :=
  match cur with
  | None => (0, None)
  | Some s => let '(m, rest) := parse_digits 0 s in (m, Some (tail rest))
  end.

Fixpoint split_space (s name : list Z) : list Z * option (list Z) :=
  match s with
  | [] => (rev name, None)
  | c :: s' => if c =? 32 then (rev name, Some s') else split_space s' (c :: name)
  end.

Definition parse_geometry (line : list Z) : BootDeviceLCHS :=
  let '(name, v) := split_space line [] in
  let '(c, v) := parse_u32 v in
  let '(h, v) := parse_u32 v in
  let '(n, _) := parse_u32 v in
  mkGeometry name c h n.

(** * The variables *)

Definition IPL_TYPE_FLOPPY : Z := 0x01.
Definition IPL_TYPE_HARDDISK : Z := 0x02.
Definition IPL_TYPE_CDROM : Z := 0x03.
Definition IPL_TYPE_CBFS : Z := 0x20.
Definition IPL_TYPE_BEV : Z := 0x80.
Definition IPL_TYPE_BCV : Z := 0x81.
Definition IPL_TYPE_HALT : Z := 0xf0.

Definition DEFAULT_PRIO : Z := 9999.

(** A description: text of the BIOS, or the text at an address. *)
Inductive description := Literal (text : list Z) | TextAt (address : Z).

Record bootentry_s := mkEntry { be_type : Z; be_data : Z; be_priority : Z; be_description : description }.
Record bev_s := mkBev { bev_type : Z; bev_vector : Z }.

Record boot_vars := mkBoot {
  BootList : list bootentry_s;
  DefaultFloppyPrio : Z;
  DefaultCDPrio : Z;
  DefaultHDPrio : Z;
  DefaultBEVPrio : Z;
  Bootorder : list (list Z);
  BiosGeometry : list BootDeviceLCHS;
  BootRetryTime : Z;
  CheckFloppySig : Z;
  BEV : list bev_s;
  HaveHDBoot : Z;
  HaveFDBoot : Z;
  BootSequence : Z
}.

Definition set_list (l : list bootentry_s) (v : boot_vars) : boot_vars :=
  mkBoot l (DefaultFloppyPrio v) (DefaultCDPrio v) (DefaultHDPrio v) (DefaultBEVPrio v) (Bootorder v) (BiosGeometry v)
    (BootRetryTime v) (CheckFloppySig v) (BEV v) (HaveHDBoot v) (HaveFDBoot v) (BootSequence v).
Definition set_bevprio (p : Z) (v : boot_vars) : boot_vars :=
  mkBoot (BootList v) (DefaultFloppyPrio v) (DefaultCDPrio v) (DefaultHDPrio v) p (Bootorder v) (BiosGeometry v)
    (BootRetryTime v) (CheckFloppySig v) (BEV v) (HaveHDBoot v) (HaveFDBoot v) (BootSequence v).
Definition set_files (order : list (list Z)) (geometry : list BootDeviceLCHS) (retry : Z) (v : boot_vars) : boot_vars :=
  mkBoot (BootList v) (DefaultFloppyPrio v) (DefaultCDPrio v) (DefaultHDPrio v) (DefaultBEVPrio v) order geometry
    retry (CheckFloppySig v) (BEV v) (HaveHDBoot v) (HaveFDBoot v) (BootSequence v).
Definition set_bevs (l : list bev_s) (hd fd : Z) (v : boot_vars) : boot_vars :=
  mkBoot (BootList v) (DefaultFloppyPrio v) (DefaultCDPrio v) (DefaultHDPrio v) (DefaultBEVPrio v) (Bootorder v)
    (BiosGeometry v) (BootRetryTime v) (CheckFloppySig v) l hd fd (BootSequence v).
Definition set_sequence (n : Z) (v : boot_vars) : boot_vars :=
  mkBoot (BootList v) (DefaultFloppyPrio v) (DefaultCDPrio v) (DefaultHDPrio v) (DefaultBEVPrio v) (Bootorder v)
    (BiosGeometry v) (BootRetryTime v) (CheckFloppySig v) (BEV v) (HaveHDBoot v) (HaveFDBoot v) n.

Definition boot_vars_at_start : boot_vars := mkBoot [] 101 102 103 104 [] [] 0 1 [] 0 0 (-1).

(** What the code calls: the allocators of temporary memory, the files, the
    screen, the keyboard interrupt (function 01h: whether a key is there;
    function 00h: its code), timers counted in interrupts, interrupt 13h, option
    ROMs and boot sectors; code at an entry point that returns gives the state
    it leaves. *)
Class BootHost (dev : Type) := {
  malloc_tmp : st dev -> bool * st dev;
  malloc_tmphigh : Z -> st dev -> bool * st dev;
  romfile_loadfile : string -> st dev -> option (list Z) * st dev;
  romfile_loadint : string -> Z -> Z;
  screen : list Z -> st dev -> st dev;
  enable_bootsplash : st dev -> st dev;
  disable_bootsplash : st dev -> st dev;
  wait_threads : st dev -> st dev;
  int16_check : st dev -> bool * st dev;
  int16_read : st dev -> Z * st dev;
  irq_calc : Z -> st dev -> Z;
  irq_check : Z -> st dev -> bool;
  yield_toirq : st dev -> st dev;
  int13 : disk_regs -> st dev -> outcome (disk_regs * st dev);
  call_bcv : Z -> Z -> st dev -> st dev;
  scsi_is_ready : Z -> mem -> dev -> mem * dev;
  cd_buffer : Z;
  farcall16 : Z -> bregs -> st dev -> option (st dev)
}.

Section boot.
Context {dev : Type} {H : BlockHost dev} {B : BootHost dev}.

(** * Priorities *)

Definition find_prio (glob : list Z) (v : boot_vars) : Z := find_line 0 glob (Bootorder v).

Definition loadBootOrder (v : boot_vars) (s : st dev) : boot_vars * st dev :=
  let '(f, s) := romfile_loadfile "bootorder" s in
  match f with
  | None => (v, s)
  | Some f =>
    let lines := split_lines f [] in
    let '(ok, s) := malloc_tmphigh (Z.of_nat (length lines) * 4) s in
    if ok : bool then (set_files (nullTrailingSpace <$> lines) (BiosGeometry v) (BootRetryTime v) v, s)
    else (set_files [] (BiosGeometry v) (BootRetryTime v) v, s)
  end.

Definition loadBiosGeometry (v : boot_vars) (s : st dev) : boot_vars * st dev :=
  let '(f, s) := romfile_loadfile "bios-geometry" s in
  match f with
  | None => (v, s)
  | Some f =>
    let lines := split_lines f [] in
    let '(ok, s) := malloc_tmphigh (Z.of_nat (length lines) * 16) s in
    if ok : bool then (set_files (Bootorder v) (parse_geometry <$> lines) (BootRetryTime v) v, s)
    else (set_files (Bootorder v) [] (BootRetryTime v) v, s)
  end.

Definition boot_lchs_find (glob : list Z) (v : boot_vars) : option BootDeviceLCHS :=
  head (filter (fun d => is_Some (glob_prefix glob (geo_name d))) (BiosGeometry v)).

Definition boot_lchs (glob : list Z) (v : boot_vars) : option chs_s :=
  (fun d => mkChs (u16 (lheads d)) (u16 (lcyls d)) (u16 (lsecs d))) <$> boot_lchs_find glob v.

Definition boot_lchs_find_pci_device (pci : pci_device) : boot_vars -> option chs_s :=
  boot_lchs (build_pci_path 256 (chars "*") pci).
Definition boot_lchs_find_scsi_device (pci : option pci_device) (target lun : Z) (v : boot_vars) : option chs_s :=
  pci ← pci; boot_lchs (build_scsi_path 256 pci target lun) v.
Definition boot_lchs_find_ata_device (pci : option pci_device) (chanid slave : Z) (v : boot_vars) : option chs_s :=
  pci ← pci; boot_lchs (build_ata_path 256 pci chanid slave) v.

Definition bootprio_find_mmio_device (mmio : Z) : boot_vars -> Z :=
  find_prio (emit 256 [] (chars "/virtio-mmio@" ++ hex 16 mmio ++ chars "/*")).
Definition bootprio_find_scsi_device (pci : option pci_device) (target lun : Z) (v : boot_vars) : Z :=
  match pci with None => -1 | Some pci => find_prio (build_scsi_path 256 pci target lun) v end.
Definition bootprio_find_scsi_mmio_device (mmio target lun : Z) : boot_vars -> Z :=
  find_prio (emit 256 [] (chars "/virtio-mmio@" ++ hex 16 mmio ++ chars "/*@0/*@" ++ hex 0 target ++ chars "," ++ hex 0 lun)).
Definition bootprio_find_pci_rom (pci : pci_device) (instance : Z) : boot_vars -> Z :=
  let p := build_pci_path 256 (chars "*") pci in
  find_prio (if instance =? 0 then p else emit 256 p (chars ":rom" ++ hex 0 instance)).
Definition bootprio_find_named_rom (name : list Z) (instance : Z) : boot_vars -> Z :=
  let p := emit 256 [] (chars "/rom@" ++ name) in
  find_prio (if instance =? 0 then p else emit 256 p (chars ":rom" ++ hex 0 instance)).

Definition bootprio_find_usb (portmap : usbhub_s -> option (Z -> Z)) (cntl : usb_cntl) (hub : usbhub_s) (port lun : Z)
    (v : boot_vars) : Z :=
  match
    match cntl with
    | CntlPci pci => Some (build_pci_path 256 (chars "usb") pci)
    | CntlMmio mmio => Some (emit 256 [] (chars "/*@" ++ hex 16 mmio))
    | CntlNone => None
    end
  with
  | None => -1
  | Some p =>
    let p := build_usb_path portmap 256 p hub in
    let n := usb_portmap portmap hub port in
    let ret := find_prio (emit 256 p (chars "/storage@" ++ hex 0 n ++ chars "/*@0/*@0," ++ hex 0 lun)) v in
    if 0 <=? ret then ret else find_prio (emit 256 p (chars "/usb-*@" ++ hex 0 n)) v
  end.

(** * The boot list *)

(** No emulator: the defaults stay. *)
Definition boot_init (v : boot_vars) (s : st dev) : boot_vars * st dev :=
  let v := set_files (Bootorder v) (BiosGeometry v) (romfile_loadint "etc/boot-fail-wait" (60 * 1000)) v in
  let '(v, s) := loadBootOrder v s in
  loadBiosGeometry v s.

Definition comes_before (b : block) (be pos : bootentry_s) : bool :=
  if be_priority be <? be_priority pos then true
  else if be_priority pos <? be_priority be then false
  else if be_type be <? be_type pos then true
  else if be_type pos <? be_type be then false
  else
    let d := drives b (be_data be) in
    let e := drives b (be_data pos) in
    (be_type be <=? IPL_TYPE_CDROM)
    && ((d_type d <? d_type e) || ((d_type d =? d_type e) && (cntl_id d <? cntl_id e))).

Fixpoint insert_entry (b : block) (be : bootentry_s) (l : list bootentry_s) : list bootentry_s :=
  match l with
  | [] => [be]
  | pos :: l' => if comes_before b be pos then be :: l else pos :: insert_entry b be l'
  end.

Definition bootentry_add (type prio data : Z) (desc : option description) (v : boot_vars) (s : st dev) : boot_vars * st dev :=
  let '(ok, s) := malloc_tmp s in
  if ok : bool then
    let be := mkEntry type data prio (default (Literal (chars "?")) desc) in
    (set_list (insert_entry (s_block s) be (BootList v)) v, s)
  else (v, s).

Definition defPrio (priority defaultprio : Z) : Z := if priority <? 0 then defaultprio else priority.

Definition rom_text (seg desc : Z) (otherwise : string) : option description :=
  Some (if desc =? 0 then Literal (chars otherwise) else TextAt (MAKE_FLATPTR seg desc)).

Definition boot_add_bev (seg bev desc prio : Z) (v : boot_vars) (s : st dev) : boot_vars * st dev :=
  let '(v, s) := bootentry_add IPL_TYPE_BEV (defPrio prio (DefaultBEVPrio v)) (SEGOFF seg bev) (rom_text seg desc "Unknown") v s in
  (set_bevprio DEFAULT_PRIO v, s).

Definition boot_add_bcv (seg ip desc prio : Z) (v : boot_vars) (s : st dev) : boot_vars * st dev :=
  bootentry_add IPL_TYPE_BCV (defPrio prio (DefaultHDPrio v)) (SEGOFF seg ip) (rom_text seg desc "Legacy option rom") v s.

Definition boot_add_floppy (drive : Z) (desc : option description) (prio : Z) (v : boot_vars) : st dev -> boot_vars * st dev :=
  bootentry_add IPL_TYPE_FLOPPY (defPrio prio (DefaultFloppyPrio v)) drive desc v.
Definition boot_add_hd (drive : Z) (desc : option description) (prio : Z) (v : boot_vars) : st dev -> boot_vars * st dev :=
  bootentry_add IPL_TYPE_HARDDISK (defPrio prio (DefaultHDPrio v)) drive desc v.
(** Nothing sets [PF_QEMU] without support for emulators, so the description is
    taken as it is. *)
Definition boot_add_cd (drive : Z) (desc : option description) (prio : Z) (v : boot_vars) : st dev -> boot_vars * st dev :=
  bootentry_add IPL_TYPE_CDROM (defPrio prio (DefaultCDPrio v)) drive desc v.
Definition boot_add_cbfs (data : Z) (desc : option description) (prio : Z) (v : boot_vars) : st dev -> boot_vars * st dev :=
  bootentry_add IPL_TYPE_CBFS (defPrio prio DEFAULT_PRIO) data desc v.

(** * The boot menu *)

Fixpoint wait_keystroke (fuel : nat) (end_ : Z) (s : st dev) : option (Z * st dev) :=
  match fuel with
  | O => None
  | S k =>
    let '(pending, s) := int16_check s in
    if pending : bool then Some (int16_read s)
    else if irq_check end_ s then Some (-1, s) else wait_keystroke k end_ (yield_toirq s)
  end.

Definition get_keystroke_full (fuel : nat) (msec : Z) (s : st dev) : option (Z * st dev) :=
  wait_keystroke fuel (irq_calc msec s) s.

Definition get_keystroke (fuel : nat) (msec : Z) (s : st dev) : option (Z * st dev) :=
  '(k, s) ← get_keystroke_full fuel msec s;
  mret ((if k <? 0 then k else Z.shiftr k 8), s).

Fixpoint drain_keys (fuel : nat) (s : st dev) : option (st dev) :=
  match fuel with
  | O => None
  | S k => '(c, s) ← get_keystroke fuel 0 s; if 0 <=? c then drain_keys k s else mret s
  end.

Definition menuchars : list Z := chars "123456789abcdefghijklmnopqrsuvwxyz".

(** The text of a description, at most [n] characters ([strtcpy]). *)
Fixpoint text_at (n : nat) (m : mem) (a : Z) : list Z :=
  match n with
  | O => []
  | S k => if m a =? 0 then [] else m a :: text_at k m (a + 1)
  end.

Definition description_text (n : nat) (m : mem) (d : description) : list Z :=
  match d with Literal t => take n t | TextAt a => text_at n m a end.

Fixpoint show_items (items : list Z) (l : list bootentry_s) (s : st dev) : st dev :=
  match items, l with
  | c :: items', pos :: l' =>
    show_items items' l' (screen ([c] ++ chars ". " ++ description_text 76 (s_mem s) (be_description pos) ++ [10]) s)
  | _, _ => s
  end.

(** The entry of a key. *)
Fixpoint menu_index (items : list Z) (l : list bootentry_s) (key : Z) : option nat :=
  match items, l with
  | c :: items', _ :: l' => if key =? c then Some 0%nat else S <$> menu_index items' l' key
  | _, _ => None
  end.

Fixpoint menu_loop (fuel : nat) (esc_accepted_time : Z) (l : list bootentry_s) (s : st dev) : option (option nat * st dev) :=
  match fuel with
  | O => None
  | S k =>
    '(keystroke, s) ← get_keystroke_full fuel 1000 s;
    if (keystroke =? 0x011b) && negb (irq_check esc_accepted_time s) then menu_loop k esc_accepted_time l s
    else if keystroke <? 0 then menu_loop k esc_accepted_time l s
    else if Z.shiftr keystroke 8 =? 1 then Some (None, screen [10] s)
    else
      match menu_index menuchars l (Z.land keystroke 0xff) with
      | Some i => Some (Some i, s)
      | None => menu_loop k esc_accepted_time l s
      end
  end.

Definition make_first (i : nat) (l : list bootentry_s) : list bootentry_s :=
  match l !! i with
  | Some e => mkEntry (be_type e) (be_data e) 0 (be_description e) :: delete i l
  | None => l
  end.

Definition choose (fuel : nat) (menukey : Z) (v : boot_vars) (s : st dev) : option (boot_vars * st dev) :=
  s ← drain_keys fuel s;
  let s := wait_threads (screen (chars "Select boot device:" ++ [10; 10]) s) in
  let s := show_items menuchars (BootList v) s in
  '(i, s) ← menu_loop fuel (irq_calc (if menukey =? 1 then 1500 else 0) s) (BootList v) s;
  match i with
  | None => mret (v, s)
  | Some i => mret (set_list (make_first i (BootList v)) v, screen [10] s)
  end.

Definition interactive_bootmenu (fuel : nat) (v : boot_vars) (s : st dev) : option (boot_vars * st dev) :=
  let show_boot_menu := romfile_loadint "etc/show-boot-menu" 1 in
  if show_boot_menu =? 0 then mret (v, s)
  else if (show_boot_menu =? 2) && (length (BootList v) =? 1)%nat then mret (v, screen [10] s)
  else
    let menutime := romfile_loadint "etc/boot-menu-wait" 2500 in
    let menukey := romfile_loadint "etc/boot-menu-key" 1 in
    if 0 <=? menutime then
      s ← drain_keys fuel s;
      let '(bootmsg, s) := romfile_loadfile "etc/boot-menu-message" s in
      let s := screen (default ([10] ++ chars "Press ESC for boot menu." ++ [10; 10]) bootmsg) s in
      '(scan_code, s) ← get_keystroke fuel menutime (enable_bootsplash s);
      let s := disable_bootsplash s in
      if negb (scan_code =? menukey) then mret (v, s) else choose fuel menukey v s
    else choose fuel menukey v s.

(** * The boot sequence *)

Definition MAX_BEV : nat := 20.

Definition add_bev (type vector : Z) (v : boot_vars) : boot_vars :=
  let hd := HaveHDBoot v in
  let fd := HaveFDBoot v in
  let hd' := if type =? IPL_TYPE_HARDDISK then hd + 1 else hd in
  if (type =? IPL_TYPE_HARDDISK) && negb (hd =? 0) then set_bevs (BEV v) hd' fd v
  else
    let fd' := if type =? IPL_TYPE_FLOPPY then fd + 1 else fd in
    if (type =? IPL_TYPE_FLOPPY) && negb (fd =? 0) then set_bevs (BEV v) hd' fd' v
    else if (MAX_BEV <=? length (BEV v))%nat then set_bevs (BEV v) hd' fd' v
    else set_bevs (BEV v ++ [mkBev type vector]) hd' fd' v.

Definition prepare_entry (pos : bootentry_s) (v : boot_vars) (s : st dev) : outcome (boot_vars * st dev) :=
  if be_type pos =? IPL_TYPE_BCV then
    let s := call_bcv (so_seg (be_data pos)) (so_offset (be_data pos)) s in
    mret (add_bev IPL_TYPE_HARDDISK 0 v, s)
  else if be_type pos =? IPL_TYPE_FLOPPY then
    let '(b, m) := map_floppy_drive (be_data pos) (s_block s) (s_mem s) in
    mret (add_bev IPL_TYPE_FLOPPY 0 v, mkSt m (s_dev s) b)
  else if be_type pos =? IPL_TYPE_HARDDISK then
    '(b, m) ← map_hd_drive (be_data pos) (s_block s) (s_mem s);
    mret (add_bev IPL_TYPE_HARDDISK 0 v, mkSt m (s_dev s) b)
  else if be_type pos =? IPL_TYPE_CDROM then
    mret (add_bev (be_type pos) (be_data pos) v, set_block (map_cd_drive (be_data pos) (s_block s)) s)
  else mret (add_bev (be_type pos) (be_data pos) v, s).

Fixpoint prepare_entries (l : list bootentry_s) (v : boot_vars) (s : st dev) : outcome (boot_vars * st dev) :=
  match l with
  | [] => mret (v, s)
  | pos :: l' => mbind (M := outcome) (fun x : boot_vars * st dev => prepare_entries l' x.1 x.2) (prepare_entry pos v s)
  end.

Definition bcv_prepboot (v : boot_vars) (s : st dev) : outcome (boot_vars * st dev) :=
  let haltprio := find_prio (chars "HALT") v in
  let '(v, s) := if 0 <=? haltprio then bootentry_add IPL_TYPE_HALT haltprio 0 (Some (Literal (chars "HALT"))) v s else (v, s) in
  mbind (M := outcome) (fun x : boot_vars * st dev =>
    mret (add_bev IPL_TYPE_HARDDISK 0 (add_bev IPL_TYPE_FLOPPY 0 x.1), x.2)) (prepare_entries (BootList v) v s).

(** * Booting *)

(** An entry point that was called, the drive in DL and the state it found; a
    reboot; or waiting still. *)
Inductive boot_result :=
| Started (entry bootdrv : Z) (s : st dev)
| Reset (s : st dev)
| Unfinished.

(** An attempt to boot: it fails, or calls the entry point. *)
Definition attempt : Type := outcome (option (Z * Z) * st dev).

Definition MBR_SIGNATURE : Z := 0xaa55.

Definition line (s : string) : list Z := chars s ++ [10].

(** The registers of the call that reads the boot sector. *)
Definition read_regs (bootdrv bootseg : Z) : disk_regs :=
  mkDregs (with_al 1 (with_ah 2 (mkRegs 0 0 (put_lo8 0 1) (put_lo8 0 bootdrv) 0 0 bootseg))) 0 0 false.

Definition canonical (bootseg : Z) : Z :=
  SEGOFF (Z.land bootseg 0xf000) (u16 (Z.shiftl (Z.land bootseg 0x0fff) 4)).

Definition boot_disk (bootdrv : Z) (checksig : bool) (s : st dev) : attempt :=
  let bootseg := 0x07c0 in
  mbind (M := outcome) (fun x : disk_regs * st dev =>
    let '(r, s) := x in
    if r_cf r then mret (None, screen (chars "Boot failed: could not read the boot disk" ++ [10; 10]) s)
    else if checksig && negb (GET_FARVAR 2 (s_mem s) bootseg 0x1fe =? MBR_SIGNATURE)
    then mret (None, screen (chars "Boot failed: not a bootable disk" ++ [10; 10]) s)
    else mret (Some (canonical bootseg, bootdrv), s)) (int13 (read_regs bootdrv bootseg) s).

Definition boot_cdrom (drive : Z) (s : st dev) : attempt :=
  let s := screen (line "Booting from DVD/CD...") s in
  mbind (M := outcome) (fun x : Z * st dev =>
    let '(status, s) := x in
    if negb (status =? 0)
    then mret (None, screen (chars "Boot failed: Could not read from CDROM (code " ++ hex 4 status ++ line ")") s)
    else
      let e := CDEmu (s_block s) in
      mret (Some (canonical (el_load_segment e), el_emulated_drive e), s)) (cdrom_boot scsi_is_ready cd_buffer drive s).

(** Not built for coreboot: there are no payloads. *)
Definition boot_cbfs (s : st dev) : attempt := mret (None, s).

Definition boot_rom (vector : Z) (s : st dev) : attempt :=
  mret (Some (vector, 0), screen (line "Booting from ROM...") s).

Definition boot_regs (bootdrv : Z) : bregs := mkRegs 0xaa55 0 0 (put_lo8 0 bootdrv) 0 0 0.

Fixpoint decimal_from (k : nat) (n : Z) : list Z :=
  match k with
  | O => []
  | S k' => (if n / 10 =? 0 then [] else decimal_from k' (n / 10)) ++ [48 + n mod 10]
  end.

Definition decimal (n : Z) : list Z := if n <? 0 then 45 :: decimal_from 10 (- n) else decimal_from 10 n.

Fixpoint retry_wait (fuel : nat) (end_ : Z) (s : st dev) : option (st dev) :=
  match fuel with
  | O => None
  | S k => if irq_check end_ s then Some s else retry_wait k end_ (yield_toirq s)
  end.

Definition boot_fail (fuel : nat) (v : boot_vars) (s : st dev) : boot_result :=
  let t := u32 (BootRetryTime v) in
  if t =? 2 ^ 32 - 1 then Unfinished
  else
    let s := screen (chars "No bootable device.  Retrying in " ++ decimal (Z.quot (to_signed 32 t) 1000) ++ line " seconds.") s in
    match retry_wait fuel (irq_calc t s) s with
    | Some s => Reset (screen (line "Rebooting.") s)
    | None => Unfinished
    end.

Definition try_bev (ie : bev_s) (v : boot_vars) (s : st dev) : attempt :=
  let type := bev_type ie in
  if type =? IPL_TYPE_FLOPPY then
    boot_disk 0x00 (negb (CheckFloppySig v =? 0)) (screen (line "Booting from Floppy...") s)
  else if type =? IPL_TYPE_HARDDISK then boot_disk 0x80 true (screen (line "Booting from Hard Disk...") s)
  else if type =? IPL_TYPE_CDROM then boot_cdrom (bev_vector ie) s
  else if type =? IPL_TYPE_CBFS then boot_cbfs s
  else if type =? IPL_TYPE_BEV then boot_rom (bev_vector ie) s
  else mret (None, s).

(** [do_boot] with the recovery through interrupt 18h ([handle_18]), which
    tries the next entry; the fuel counts the entries. *)
Fixpoint do_boot (fuel : nat) (seq_nr : Z) (v : boot_vars) (s : st dev) : outcome boot_result :=
  match fuel with
  | O => mret Unfinished
  | S k =>
    match BEV v !! Z.to_nat seq_nr with
    | None => mret (boot_fail fuel v s)
    | Some ie =>
      if bev_type ie =? IPL_TYPE_HALT then mret (boot_fail fuel v s)
      else
        let handle_18 (s : st dev) := do_boot k (BootSequence v + 1) (set_sequence (BootSequence v + 1) v) s in
        mbind (M := outcome) (fun x : option (Z * Z) * st dev =>
          match x with
          | (None, s) => handle_18 s
          | (Some (entry, bootdrv), s) =>
            match farcall16 entry (boot_regs bootdrv) s with
            | None => mret (Started entry bootdrv s)
            | Some s => handle_18 s
            end
          end) (try_bev ie v s)
    end
  end.

Definition handle_18 (fuel : nat) (v : boot_vars) (s : st dev) : outcome boot_result :=
  do_boot fuel (BootSequence v + 1) (set_sequence (BootSequence v + 1) v) s.

Definition handle_19 (fuel : nat) (v : boot_vars) (s : st dev) : outcome boot_result :=
  do_boot fuel 0 (set_sequence 0 v) s.

End boot.
