(* ===== verification/SeaBootSpec.v ===== *)
(** What the boot code of [SeaBoot] does: the boot list is ordered
    ([boot_list_ordered]), the disk at its head is the one that is booted
    ([boots_first_disk]), the menu puts an entry there ([menu_choice]), and a
    search pattern matches what it should ([glob_match]). *)

From stdpp Require Import base numbers list strings sorting.
From Stdlib Require Import ZArith Lia.
From S2P Require Import Prelude Memory CcInt Nanoprintf VgaState VgaVbe VgaBios SeaBlock SeaDisk SeaDiskSpec SeaCd SeaBoot.

(** * The order of the boot list *)

(** The lexicographic order of sequences of equal length. *)
Fixpoint lex_lt (k l : list Z) : Prop :=
  match k, l with
  | x :: k', y :: l' => x < y \/ x = y /\ lex_lt k' l'
  | _, _ => False
  end.

Section order.
Context (b : block).

(** What an entry is ordered by: the priority, the type and, for floppies, disks
    and CDs, the controller's type and number. *)
Definition rank (e : bootentry_s) : list Z :=
  [be_priority e; be_type e] ++
  if decide (be_type e <= 3) then [d_type (drives b (be_data e)); cntl_id (drives b (be_data e))] else [0; 0].

Definition before (x y : bootentry_s) : Prop := lex_lt (rank x) (rank y).

Lemma comes_before_rank x y : comes_before b x y = true <-> before x y.
Proof.
  unfold before, rank, comes_before. cbn [app lex_lt]. ztest; [split; [by left|done]|]. ztest; [split; [done|lia]|].
  ztest; [split; [right; lia|done]|]. ztest; [split; [done|lia]|].
  rewrite andb_true_iff, orb_true_iff, andb_true_iff, Z.leb_le, !Z.ltb_lt, Z.eqb_eq. unfold IPL_TYPE_CDROM.
  repeat case_decide; cbn [lex_lt]; lia.
Qed.

Lemma rank_shape e : exists p t c n, rank e = [p; t; c; n].
Proof. unfold rank. case_decide; cbn [app]; by eexists _, _, _, _. Qed.

Ltac ranks := repeat match goal with |- context [rank ?e] =>
  let E := fresh in destruct (rank_shape e) as (? & ? & ? & ? & E); rewrite !E; clear E end; cbn [lex_lt].

Lemma not_before_trans x y z : ~ before y x -> ~ before z y -> ~ before z x.
Proof. unfold before. ranks. lia. Qed.

Lemma before_later x y z : before x y -> ~ before z y -> before x z.
Proof. unfold before. ranks. lia. Qed.

Lemma before_asym x y : before x y -> ~ before y x.
Proof. unfold before. ranks. lia. Qed.

Lemma before_rank x y : before x y -> rank x <> rank y.
Proof. unfold before. intros Hb E. rewrite E in Hb. revert Hb. ranks. lia. Qed.

Lemma not_before_le x y : ~ before y x -> rank x = rank y \/ lex_lt (rank x) (rank y).
Proof.
  unfold before. destruct (rank_shape x) as (a1 & a2 & a3 & a4 & ->), (rank_shape y) as (b1 & b2 & b3 & b4 & ->).
  cbn [lex_lt]. intros Hn. destruct (decide ((a1, a2, a3, a4) = (b1, b2, b3, b4))) as [[= -> -> -> ->]|Hd]; [by left|].
  right. assert (~ (a1 = b1 /\ a2 = b2 /\ a3 = b3 /\ a4 = b4)) by (intros (-> & -> & -> & ->); done). lia.
Qed.

Definition sorted : list bootentry_s -> Prop := StronglySorted (fun x y => ~ before y x).

Lemma sorted_rank l : sorted l -> StronglySorted (fun x y => rank x = rank y \/ lex_lt (rank x) (rank y)) l.
Proof.
  induction 1 as [|x l Hl IH Hx]; constructor; [done|]. eapply Forall_impl; [exact Hx|]. intros y. apply not_before_le.
Qed.

Lemma insert_perm e l : insert_entry b e l ≡ₚ e :: l.
Proof.
  induction l as [|x l IH]; cbn [insert_entry]; [done|]. destruct (comes_before b e x); [done|].
  rewrite IH. apply Permutation_swap.
Qed.

Lemma insert_sorted e l : sorted l -> sorted (insert_entry b e l).
Proof.
  induction 1 as [|x l Hl IH Hx]; cbn [insert_entry]; [repeat constructor|].
  destruct (comes_before b e x) eqn:E.
  - apply comes_before_rank in E. constructor; [by constructor|]. constructor; [by apply before_asym|].
    eapply Forall_impl; [exact Hx|]. intros y Hy. apply (not_before_trans e x y); [by apply before_asym|done].
  - constructor; [done|]. rewrite insert_perm. constructor; [|done]. rewrite <- comes_before_rank. by rewrite E.
Qed.

Lemma filter_none k l : Forall (fun x => rank x <> k) l -> filter (fun x => rank x = k) l = [].
Proof. induction 1 as [|x l Hx _ IH]; [done|]. by rewrite filter_cons_False. Qed.

Lemma insert_stable e l k : sorted l ->
  filter (fun x => rank x = k) (insert_entry b e l) = filter (fun x => rank x = k) l ++ filter (fun x => rank x = k) [e].
Proof.
  induction 1 as [|x l Hl IH Hx]; cbn [insert_entry]; [done|].
  destruct (comes_before b e x) eqn:E.
  - apply comes_before_rank in E. destruct (decide (rank e = k)) as [<-|Hk].
    + rewrite (filter_cons_True _ e), (filter_cons_True _ e []) by done. rewrite (filter_none _ (x :: l)); [done|].
      constructor; [by apply not_eq_sym, before_rank|].
      eapply Forall_impl; [exact Hx|]. intros y Hy. by apply not_eq_sym, before_rank, (before_later e x y).
    + rewrite (filter_cons_False _ e), (filter_cons_False _ e []) by done. by rewrite app_nil_r.
  - rewrite !(filter_cons _ x), IH. by case_decide.
Qed.

End order.

Section boot.
Context {dev : Type} {H : BlockHost dev} {B : BootHost dev}.

(** Registering entries one after the other. *)
Fixpoint register (es : list bootentry_s) (v : boot_vars) (s : st dev) : boot_vars * st dev :=
  match es with
  | [] => (v, s)
  | e :: es' =>
    let '(v, s) := bootentry_add (be_type e) (be_priority e) (be_data e) (Some (be_description e)) v s in
    register es' v s
  end.

(** The allocator has room, and leaves the drives alone. *)
Definition has_room : Prop := forall s : st dev, (malloc_tmp s).1 = true /\ s_block (malloc_tmp s).2 = s_block s.

Lemma register_spec es v (s : st dev) : has_room -> sorted (s_block s) (BootList v) ->
  let l := BootList (register es v s).1 in
  sorted (s_block s) l /\ l ≡ₚ BootList v ++ es /\
  forall k, filter (fun x => rank (s_block s) x = k) l =
    filter (fun x => rank (s_block s) x = k) (BootList v) ++ filter (fun x => rank (s_block s) x = k) es.
Proof.
  intros Hr. revert v s. induction es as [|e es IH]; intros v s Hs; cbn [register].
  - cbn. split; [done|]. split; [by rewrite app_nil_r|]. intros k. by rewrite app_nil_r.
  - unfold bootentry_add. destruct (Hr s) as [E1 E2]. destruct (malloc_tmp s) as [ok s']. cbn in E1, E2. subst ok.
    cbn [from_option id]. rewrite E2. set (x := mkEntry _ _ _ _). assert (x = e) as -> by (by destruct e).
    destruct (IH (set_list (insert_entry (s_block s) e (BootList v)) v) s') as (H1 & H2 & H3).
    { rewrite E2. by apply insert_sorted. }
    rewrite E2 in H1, H3. split; [done|]. split.
    + etransitivity; [exact H2|]. cbn [BootList set_list]. rewrite insert_perm. apply Permutation_middle.
    + intros k. rewrite H3. cbn [BootList set_list]. rewrite insert_stable by done.
      by rewrite <- app_assoc, <- filter_app.
Qed.

(** C23: Whatever is registered in whatever order, the boot list holds all of it,
    ordered by priority, then by type, then, for drives, by controller type and
    controller; entries that tie stay in the order of registration. *)
Theorem boot_list_ordered es v (s : st dev) : has_room -> BootList v = [] ->
  let l := BootList (register es v s).1 in
  StronglySorted (fun x y => rank (s_block s) x = rank (s_block s) y \/ lex_lt (rank (s_block s) x) (rank (s_block s) y)) l /\
  l ≡ₚ es /\ forall k, filter (fun x => rank (s_block s) x = k) l = filter (fun x => rank (s_block s) x = k) es.
Proof.
  intros Hr Hv. destruct (register_spec es v s Hr) as (H1 & H2 & H3); [rewrite Hv; constructor|].
  rewrite Hv in H2, H3. split; [by apply sorted_rank|done].
Qed.

(** * Mapping the drives of the list *)

Definition low_data (a : Z) : Prop := 0x400 <= a < 0x500.

(** The tables of the first two disks are not in the data area. *)
Lemma fill_fdpt_low d hdid m a : 0 <= hdid -> 0x100 <= GET_BDA 2 m ebda_seg -> low_data a -> fill_fdpt d hdid m a = m a.
Proof.
  intros Hi Hs [Ha1 Ha2]. unfold fill_fdpt. ztest; [done|]. set (seg := GET_BDA 2 m ebda_seg) in *.
  unfold SET_IVT, SET_FARVAR. rewrite store_out by (unfold far, SEG_IVT; case_match; lia).
  unfold far, fdpt_offset. case_match; by rewrite !store_out by lia.
Qed.

Lemma bda_low_ext m m' n off : (forall a, low_data a -> m' a = m a) -> 0 <= off -> off + Z.of_nat n <= 0x100 ->
  GET_BDA n m' off = GET_BDA n m off.
Proof. intros He H0 H1. apply load_ext. intros x Hx. apply He. unfold low_data, far, SEG_BDA in *. lia. Qed.

(** The disk [p], mapped first, stays the first one. *)
Record first_disk (p : Z) (d : drive_s) (s : st dev) : Prop := {
  fd_row : exists row, IDMap (s_block s) !! EXTTYPE_HD = Some row /\ length row = 16%nat /\ row !! 0%nat = Some p;
  fd_count : 1 <= GET_BDA 1 (s_mem s) hdcount <= 16;
  fd_drive : drives (s_block s) p = d;
  fd_ebda : 0x100 <= GET_BDA 2 (s_mem s) ebda_seg;
  fd_ok : mem_ok (s_mem s)
}.

(** What mapping a disk leaves alone. *)
Lemma map_hd_frame q b m row : drive_ok (drives b q) -> host_lchs_supplied (drives b q) = false -> mem_ok m ->
  IDMap b !! EXTTYPE_HD = Some row -> length row = 16%nat -> GET_BDA 1 m hdcount <= 16 -> 0x100 <= GET_BDA 2 m ebda_seg ->
  exists b1 m1, map_hd_drive q b m = Done (b1, m1) /\ mem_ok m1 /\ (forall x, x <> q -> drives b1 x = drives b x) /\
    IDMap b1 = <[EXTTYPE_HD := (add_drive row (GET_BDA 1 m hdcount) q).1]> (IDMap b) /\
    GET_BDA 1 m1 hdcount = Z.min 16 (GET_BDA 1 m hdcount + 1) /\ GET_BDA 2 m1 ebda_seg = GET_BDA 2 m ebda_seg /\
    CDEmu b1 = CDEmu b /\ cdemu_drive_gf b1 = cdemu_drive_gf b.
Proof.
  intros Hd Hh Hok Hrow Hlen Hn He. pose proof (load_fits 1 m (far SEG_BDA hdcount) Hok) as [H0 _].
  change (load 1 m (far SEG_BDA hdcount)) with (GET_BDA 1 m hdcount) in H0. unfold map_hd_drive.
  set (i := GET_BDA 1 m hdcount) in *. unfold id_row. rewrite Hrow. cbn [from_option id].
  destruct (get_translation_sound (drives b q) Hd Hh) as (t & Ht & _).
  destruct (add_drive row i q) as [row' n] eqn:E.
  assert (n = Z.min 16 (i + 1)) as En.
  { unfold add_drive, BUILD_MAX_EXTDRIVE in E. ztest_in E; injection E as <- <-; [lia|]. rewrite wrap_small by (unfold fits; lia). lia. }
  unfold setup_translation. cbn [drives set_idmap]. rewrite Ht. run_outcome.
  destruct (translate t (drives b q)) as [[c h] k]. eexists _, _. split; [reflexivity|].
  split; [apply fill_fdpt_ok, store_ok, Hok|]. split.
  { intros x Hx. cbn [drives set_drive set_idmap]. by rewrite decide_False. }
  split; [done|]. set (m1 := SET_BDA 1 m hdcount n).
  assert (GET_BDA 2 m1 ebda_seg = GET_BDA 2 m ebda_seg) as Ee by (by apply bda_skip).
  set (d := set_lchs _ _ _).
  assert (forall a, low_data a -> fill_fdpt d i m1 a = m1 a) as Hlow.
  { intros a Ha. apply fill_fdpt_low; [done|by rewrite Ee|done]. }
  rewrite (bda_low_ext m1 _ 1 hdcount Hlow), (bda_low_ext m1 _ 2 ebda_seg Hlow) by done.
  split; [|done]. unfold m1. rewrite bda_same, En. apply wrap_small. unfold fits. lia.
Qed.

(** A disk of at least 1008 sectors has a cylinder. *)
Lemma lba_heads_small sect : 16 <= sect <= 255 * 1024 -> 1 <= lba_heads sect <= sect.
Proof.
  intros Hs. unfold lba_heads. rewrite wrap_small.
  - pose proof (Z.div_mod sect 1024). pose proof (Z.mod_pos_bound sect 1024). repeat (ztest; [lia|]). lia.
  - split; [apply Z.div_pos; lia|]. apply Z.div_lt_upper_bound; lia.
Qed.

Lemma large_loop_positive fuel c h : 1 <= c -> 1 <= (large_loop fuel c h).1.
Proof.
  revert c h. induction fuel as [|k IH]; intros c h Hc; cbn [large_loop]; [done|].
  destruct (Z.leb_spec c 1024); [done|]. assert (1 <= Z.shiftr c 1).
  { rewrite Z.shiftr_div_pow2 by lia. apply Z.div_le_lower_bound; lia. }
  destruct (127 <? _); [done|by apply IH].
Qed.

Lemma geometry_positive d d' : fits 64 (sectors d) -> 1008 <= sectors d -> 0 <= chs_cylinder (pchs d) ->
  host_lchs_supplied d = false -> setup_translation d = Done d' -> 1 <= chs_cylinder (lchs d').
Proof.
  intros Hf Hs Hc Hh. unfold setup_translation.
  assert (1 <= (translate TRANSLATION_LBA d).1.1) as Hlba.
  { unfold translate. rewrite Z.eqb_refl. ztest; [done|]. cbn [fst]. rewrite (wrap_small 32) by (unfold fits; lia).
    set (sect := sectors d / 63). assert (16 <= sect <= 255 * 1024) as Hsect.
    { split; [apply Z.div_le_lower_bound; lia|apply Z.div_le_upper_bound; lia]. }
    pose proof (lba_heads_small sect Hsect). destruct (lba_heads_spec sect) as [Hh16 _]; [lia|].
    assert (1 <= sect / lba_heads sect <= 16320).
    { split; [apply Z.div_le_lower_bound; lia|apply Z.div_le_upper_bound; nia]. }
    rewrite wrap_small by (unfold fits; lia). lia. }
  assert (forall t, get_translation d = Done t -> 1 <= (translate t d).1.1) as Ht.
  { unfold get_translation. rewrite Hh. intros t. cbv zeta. destruct (_ || _ || _ || _) eqn:E; [by intros [= <-]|].
    apply orb_false_iff in E as [[[_ E]%orb_false_iff _]%orb_false_iff _]. apply Z.eqb_neq in E.
    destruct (_ && _ && _); [intros [= <-]; cbn; lia|].
    unfold signed. case_match; run_outcome; [|done]. intros [= <-]. destruct (_ <=? 131072); [|done].
    unfold translate. cbn [Z.eqb Pos.eqb TRANSLATION_LARGE TRANSLATION_LBA TRANSLATION_RECHS orb andb].
    pose proof (large_loop_positive 16 (chs_cylinder (pchs d)) (chs_head (pchs d)) ltac:(lia)).
    by destruct (large_loop _ _ _). }
  destruct (get_translation d) as [t| |]; [|done..]. specialize (Ht t eq_refl). run_outcome.
  destruct (translate t d) as [[c h] k]. cbn [fst] in Ht. intros [= <-]. cbn. lia.
Qed.

Lemma map_hd_result q b m b1 m1 : map_hd_drive q b m = Done (b1, m1) -> setup_translation (drives b q) = Done (drives b1 q).
Proof.
  unfold map_hd_drive. destruct (add_drive _ _ _) as [row n]. cbn [drives set_idmap].
  destruct (setup_translation _) as [d| |]; [|done..]. run_outcome. intros [= <- <-]. cbn [drives set_drive set_idmap].
  by rewrite decide_True.
Qed.

(** An entry that is not the code of an option ROM, and whose disk, if it is one,
    is another one than [p] and has a geometry. *)
Definition entry_ok (p : Z) (b : block) (e : bootentry_s) : Prop :=
  be_type e <> IPL_TYPE_BCV /\
  (be_type e = IPL_TYPE_HARDDISK -> be_data e <> p /\ drive_ok (drives b (be_data e)) /\
    host_lchs_supplied (drives b (be_data e)) = false).

(** What preparing entries keeps. *)
Definition prepared (s s' : st dev) : Prop :=
  s_dev s' = s_dev s /\ CDEmu (s_block s') = CDEmu (s_block s) /\ cdemu_drive_gf (s_block s') = cdemu_drive_gf (s_block s).

Lemma add_bev_prefix type vector v : exists x, BEV (add_bev type vector v) = BEV v ++ x.
Proof.
  unfold add_bev. cbv zeta. case_match; [exists []; by rewrite app_nil_r|]. case_match; [exists []; by rewrite app_nil_r|].
  case_match; [exists []; by rewrite app_nil_r|]. by exists [mkBev type vector].
Qed.

Lemma prepare_hd p d q v (s : st dev) : first_disk p d s -> q <> p -> drive_ok (drives (s_block s) q) ->
  host_lchs_supplied (drives (s_block s) q) = false ->
  exists b1 m1, map_hd_drive q (s_block s) (s_mem s) = Done (b1, m1) /\ first_disk p d (mkSt m1 v b1) /\
    CDEmu b1 = CDEmu (s_block s) /\ cdemu_drive_gf b1 = cdemu_drive_gf (s_block s) /\
    forall x, x <> q -> drives b1 x = drives (s_block s) x.
Proof.
  intros [(row & Hr & Hl & H0) Hc Hd He Hok] Hq Hdk Hh.
  destruct (map_hd_frame q (s_block s) (s_mem s) row) as (b1 & m1 & E & Hok1 & Hdr & Hid & Hn & Hs & Hcd & Hg); [done..|lia|done|].
  exists b1, m1. split; [done|]. split; [|done]. split; cbn [s_block s_mem].
  - exists (add_drive row (GET_BDA 1 (s_mem s) hdcount) q).1. rewrite Hid.
    split; [apply list_lookup_insert_eq; by eapply lookup_lt_Some|].
    unfold add_drive. case_match; cbn [fst]; [done|]. rewrite length_insert. split; [done|].
    rewrite list_lookup_insert_ne by lia. done.
  - rewrite Hn. lia.
  - rewrite Hdr by done. done.
  - by rewrite Hs.
  - done.
Qed.

Lemma first_disk_same p d (s s' : st dev) : first_disk p d s -> drives (s_block s') = drives (s_block s) ->
  IDMap (s_block s') !! EXTTYPE_HD = IDMap (s_block s) !! EXTTYPE_HD ->
  GET_BDA 1 (s_mem s') hdcount = GET_BDA 1 (s_mem s) hdcount -> GET_BDA 2 (s_mem s') ebda_seg = GET_BDA 2 (s_mem s) ebda_seg ->
  mem_ok (s_mem s') -> first_disk p d s'.
Proof. intros [Hr Hc Hd He Hok] E1 E2 E3 E4 Hok'. split; [by rewrite E2|by rewrite E3|by rewrite E1|by rewrite E4|done]. Qed.

Lemma prepare_floppy p d q (s : st dev) : first_disk p d s ->
  exists b1 m1, map_floppy_drive q (s_block s) (s_mem s) = (b1, m1) /\ first_disk p d (mkSt m1 (s_dev s) b1) /\
    prepared s (mkSt m1 (s_dev s) b1) /\ forall x, drives b1 x = drives (s_block s) x.
Proof.
  intros Hf. pose proof (fd_ok _ _ _ Hf) as Hok. unfold map_floppy_drive. destruct (add_drive _ _ _) as [row n].
  assert (forall m1, mem_ok m1 -> GET_BDA 1 m1 hdcount = GET_BDA 1 (s_mem s) hdcount ->
    GET_BDA 2 m1 ebda_seg = GET_BDA 2 (s_mem s) ebda_seg ->
    first_disk p d (mkSt m1 (s_dev s) (set_counts n (CDCount (s_block s)) (set_idmap EXTTYPE_FLOPPY row (s_block s))))) as Hm.
  { intros m1 H1 H2 H3. apply (first_disk_same p d s); try done. by apply list_lookup_insert_ne. }
  assert (forall off on w, mem_ok (SET_BDA 1 (set_equipment_flags off on (s_mem s)) floppy_harddisk_info w)) as Hs
    by (intros; by apply store_ok, store_ok).
  case_match; [|case_match]; eexists _, _; (split; [reflexivity|]); (split; [|done]); apply Hm; try done;
    unfold set_equipment_flags; by rewrite !bda_skip.
Qed.

Lemma prepare_step p d e v (s : st dev) : first_disk p d s -> entry_ok p (s_block s) e ->
  exists v' s' x, prepare_entry e v s = Done (v', s') /\ first_disk p d s' /\ BEV v' = BEV v ++ x /\ prepared s s' /\
    forall q, (be_type e = IPL_TYPE_HARDDISK -> q <> be_data e) -> drives (s_block s') q = drives (s_block s) q.
Proof.
  intros Hf [Hb Hh]. unfold prepare_entry. rewrite (proj2 (Z.eqb_neq _ _) Hb).
  destruct (Z.eqb_spec (be_type e) IPL_TYPE_FLOPPY) as [E|_].
  { destruct (prepare_floppy p d (be_data e) s Hf) as (b1 & m1 & E1 & Hf1 & Hp1 & Hdr).
    destruct (add_bev_prefix IPL_TYPE_FLOPPY 0 v) as [x Hx]. rewrite E1. eexists _, _, x.
    split; [reflexivity|]. by split. }
  destruct (Z.eqb_spec (be_type e) IPL_TYPE_HARDDISK) as [E|_].
  { destruct (Hh E) as (Hq & Hd & Hs).
    destruct (prepare_hd p d (be_data e) (s_dev s) s Hf Hq Hd Hs) as (b1 & m1 & E1 & Hf1 & Hc & Hg & Hdr).
    destruct (add_bev_prefix IPL_TYPE_HARDDISK 0 v) as [x Hx]. rewrite E1. run_outcome. eexists _, _, x.
    split; [reflexivity|]. split; [done|]. split; [done|]. split; [done|]. intros q Hq'. apply Hdr. by apply Hq'. }
  destruct (Z.eqb_spec (be_type e) IPL_TYPE_CDROM) as [E|_].
  { destruct (add_bev_prefix (be_type e) (be_data e) v) as [x Hx]. eexists _, _, x. split; [reflexivity|].
    unfold map_cd_drive. destruct (add_drive _ _ _) as [row n].
    split; [|done]. apply (first_disk_same p d s); try done; [by apply list_lookup_insert_ne|apply Hf]. }
  destruct (add_bev_prefix (be_type e) (be_data e) v) as [x Hx]. eexists _, _, x. by split; [reflexivity|].
Qed.

(** The disks of a list. *)
Definition hd_drives (l : list bootentry_s) : list Z := be_data <$> filter (fun e => be_type e = IPL_TYPE_HARDDISK) l.

Lemma entry_ok_ext p b b1 e : entry_ok p b e ->
  (be_type e = IPL_TYPE_HARDDISK -> drives b1 (be_data e) = drives b (be_data e)) -> entry_ok p b1 e.
Proof. intros [Hb Hh] He. split; [done|]. intros E. rewrite (He E). by apply Hh. Qed.

Lemma prepare_rest p d l : forall v (s : st dev), first_disk p d s -> Forall (entry_ok p (s_block s)) l -> NoDup (hd_drives l) ->
  exists v' s' x, prepare_entries l v s = Done (v', s') /\ first_disk p d s' /\ BEV v' = BEV v ++ x /\ prepared s s'.
Proof.
  induction l as [|e l IH]; intros v s Hf Hok Hnd; cbn [prepare_entries].
  - exists v, s, []. split; [done|]. split; [done|]. by rewrite app_nil_r.
  - inversion Hok as [|? ? He Hl]; subst.
    destruct (prepare_step p d e v s Hf He) as (v1 & s1 & x1 & E1 & Hf1 & Hx1 & (P1 & P2 & P3) & Hdr).
    rewrite E1. run_outcome. cbn [fst snd].
    destruct (IH v1 s1 Hf1) as (v2 & s2 & x2 & E2 & Hf2 & Hx2 & (P4 & P5 & P6)).
    + apply Forall_forall. intros e' He'. rewrite Forall_forall in Hl. apply (entry_ok_ext p (s_block s)); [by apply Hl|].
      intros Ht'. apply Hdr. intros Ht Heq. unfold hd_drives in Hnd. rewrite filter_cons_True in Hnd by done.
      apply NoDup_cons in Hnd as [Hn _]. apply Hn. rewrite <- Heq. apply list_elem_of_fmap_2. by apply list_elem_of_filter.
    + unfold hd_drives in *. rewrite filter_cons in Hnd. case_decide; [by apply NoDup_cons in Hnd as [_ ?]|done].
    + exists v2, s2, (x1 ++ x2). split; [done|]. split; [done|]. split; [by rewrite Hx2, Hx1, app_assoc|].
      split; [congruence|]. split; congruence.
Qed.

(** * Booting from the first disk *)

Context {M : BlockMedia dev}.

(** A disk of a controller with its geometry not yet set up. *)
Record new_disk (p : Z) (s : st dev) : Prop := {
  nd_ok : drive_ok (drives (s_block s) p);
  nd_host : host_lchs_supplied (drives (s_block s) p) = false;
  nd_driver : exists dr, (d_type (drives (s_block s) p), dr) ∈ reached true;
  nd_size : blksize (drives (s_block s) p) = 512;
  nd_sectors : 1008 <= sectors (drives (s_block s) p);
  nd_pointer : p <> 0 /\ p <> cdemu_drive_gf (s_block s)
}.

(** No drive is mapped yet. *)
Record unmapped (s : st dev) : Prop := {
  un_row : exists row, IDMap (s_block s) !! EXTTYPE_HD = Some row /\ length row = 16%nat;
  un_count : GET_BDA 1 (s_mem s) hdcount = 0;
  un_cd : el_media (CDEmu (s_block s)) = 0;
  un_ebda : 0x100 <= GET_BDA 2 (s_mem s) ebda_seg;
  un_ok : mem_ok (s_mem s)
}.

Lemma map_first p (s : st dev) : new_disk p s -> unmapped s ->
  exists b1 m1, map_hd_drive p (s_block s) (s_mem s) = Done (b1, m1) /\
    first_disk p (drives b1 p) (mkSt m1 (s_dev s) b1) /\ prepared s (mkSt m1 (s_dev s) b1) /\
    addressable (lchs (drives b1 p)) /\ 1 <= chs_cylinder (lchs (drives b1 p)) /\ d_type (drives b1 p) = d_type (drives (s_block s) p) /\
    blksize (drives b1 p) = 512 /\ forall x, x <> p -> drives b1 x = drives (s_block s) x.
Proof.
  intros [Hd Hh _ Hbs Hsec _] [(row & Hr & Hl) Hc _ He Hok].
  destruct (map_hd_spec p (s_block s) (s_mem s) row) as (b1 & m1 & E & _ & _ & Ha & _ & Ht & Hb & _); [done..|lia|].
  destruct (map_hd_frame p (s_block s) (s_mem s) row) as (b2 & m2 & E2 & Hok2 & Hdr & Hid & Hn & Hs & Hcd & Hg); [done..|lia|done|].
  rewrite E in E2. injection E2 as <- <-. exists b1, m1. split; [done|]. split.
  - split; cbn [s_block s_mem]; [|rewrite Hn, Hc; lia|done|by rewrite Hs|done].
    exists (add_drive row (GET_BDA 1 (s_mem s) hdcount) p).1. rewrite Hid, Hc.
    split; [apply list_lookup_insert_eq; by eapply lookup_lt_Some|].
    change (add_drive row 0 p).1 with (<[0%nat := p]> row). rewrite length_insert. split; [done|].
    apply list_lookup_insert_eq. lia.
  - split; [done|]. split; [done|]. split; [|by split; [|split; [congruence|]]].
    pose proof Hd as [[Hcy _] _ _ Hsf]. by apply (geometry_positive (drives (s_block s) p)); [..|by eapply map_hd_result].
Qed.

Lemma prepboot_first p e rest v (s : st dev) : BootList v = e :: rest -> be_type e = IPL_TYPE_HARDDISK -> be_data e = p ->
  Bootorder v = [] -> BEV v = [] -> HaveHDBoot v = 0 -> new_disk p s -> unmapped s ->
  Forall (entry_ok p (s_block s)) rest -> NoDup (hd_drives rest) ->
  exists v1 s1 x d, bcv_prepboot v s = Done (v1, s1) /\ BEV v1 = mkBev IPL_TYPE_HARDDISK 0 :: x /\ first_disk p d s1 /\
    prepared s s1 /\ addressable (lchs d) /\ 1 <= chs_cylinder (lchs d) /\ d_type d = d_type (drives (s_block s) p) /\ blksize d = 512.
Proof.
  intros Hl He Hp Ho Hb Hh Hn Hu Hr Hnd.
  destruct (map_first p s Hn Hu) as (b1 & m1 & E & Hf & (P1 & P2 & P3) & Ha & Hcy & Ht & Hs & Hdr).
  set (s0 := mkSt m1 (s_dev s) b1) in *. set (v0 := add_bev IPL_TYPE_HARDDISK 0 v).
  destruct (prepare_rest p (drives b1 p) rest v0 s0 Hf) as (v1 & s1 & x & E1 & Hf1 & Hx & (P4 & P5 & P6)); [|done|].
  { rewrite Forall_forall in *. intros e' He'. apply (entry_ok_ext p (s_block s)); [by apply Hr|].
    intros Ht'. apply Hdr. by apply (Hr e' He'). }
  assert (BEV v0 = [mkBev IPL_TYPE_HARDDISK 0]) as E0 by (unfold v0, add_bev; rewrite Hh, Hb; reflexivity).
  destruct (add_bev_prefix IPL_TYPE_FLOPPY 0 v1) as [x1 Hx1].
  destruct (add_bev_prefix IPL_TYPE_HARDDISK 0 (add_bev IPL_TYPE_FLOPPY 0 v1)) as [x2 Hx2].
  eexists _, s1, (x ++ x1 ++ x2), (drives b1 p). split.
  - unfold bcv_prepboot, find_prio. rewrite Ho. cbn [find_line Z.leb]. change (0 <=? -1) with false. cbn match.
    rewrite Hl. cbn [prepare_entries]. unfold prepare_entry. rewrite He, Hp.
    change (IPL_TYPE_HARDDISK =? IPL_TYPE_BCV) with false. change (IPL_TYPE_HARDDISK =? IPL_TYPE_FLOPPY) with false.
    change (IPL_TYPE_HARDDISK =? IPL_TYPE_HARDDISK) with true. cbn match. rewrite E. run_outcome. cbn [fst snd].
    fold v0 s0. rewrite E1. run_outcome. reflexivity.
  - cbn [fst]. rewrite Hx2, Hx1, Hx, E0. split; [by rewrite <- !app_assoc|]. split; [done|]. split; [|done].
    unfold prepared in *. cbn in *. split; [congruence|]. split; congruence.
Qed.

(** The screen is not the business of the drives, and interrupt 13h is the
    BIOS's own. *)
Definition quiet_screen : Prop := forall text (s : st dev), s_block (screen text s) = s_block s /\
  s_dev (screen text s) = s_dev s /\ (mem_ok (s_mem s) -> mem_ok (s_mem (screen text s))).
Definition own_int13 : Prop := forall r (s : st dev), int13 r s = handle_13 r s.

(** The call of [boot_disk] for the first disk. *)
Lemma sector_read p d (s : st dev) :
  (exists row, IDMap (s_block s) !! EXTTYPE_HD = Some row /\ length row = 16%nat /\ row !! 0%nat = Some p) ->
  drives (s_block s) p = d -> mem_ok (s_mem s) -> addressable (lchs d) -> 1 <= chs_cylinder (lchs d) ->
  (exists dr, (d_type d, dr) ∈ reached true) -> blksize d = 512 -> p <> 0 -> p <> cdemu_drive_gf (s_block s) -> el_media (CDEmu (s_block s)) = 0 ->
  exists r' s', handle_13 (read_regs 0x80 0x07c0) s = Done (r', s') /\
    (r_cf r' = false -> forall i, 0 <= i < 512 -> s_mem s' (0x7c00 + i) = media (s_dev s) p i).
Proof.
  intros (row & Hr & _ & H0) Hd Hok Ha Hcy Hdr Hb Hp Hg Hm.
  assert (getLCHS p (s_block s) = lchs d) as Eg.
  { unfold getLCHS. by rewrite (proj2 (Z.eqb_neq _ _) Hg), Hd. }
  destruct (disk_read_exact (read_regs 0x80 0x07c0) s p) as (r' & s' & E & Hin & _).
  - unfold drive_for. rewrite Hm. cbn [Z.eqb]. change (lo8 (dx (read_regs 0x80 0x07c0))) with 0x80.
    unfold legacy_drive. change (0x80 <? EXTSTART_HD) with false. change (EXTSTART_CD <=? 0x80) with false. cbn match.
    unfold getDrive. change (BUILD_MAX_EXTDRIVE <=? 0x80 - EXTSTART_HD) with false. cbn match. rewrite Hr. cbn [from_option id].
    change (Z.to_nat (0x80 - EXTSTART_HD)) with 0%nat. by rewrite H0.
  - done.
  - reflexivity.
  - by rewrite Eg.
  - unfold hardware, type_of. by rewrite Hd.
  - unfold size_of. by rewrite Hd.
  - done.
  - vm_compute. discriminate.
  - exists r', s'. split; [done|]. rewrite Eg in Hin. destruct Ha as (Hc & Hh & Hs).
    destruct (chs_registers (lchs d) 0 (read_regs 0x80 0x07c0)) as [Hw Hl]; [done|unfold capacity; split; [done|]; apply Z.mul_pos_pos; [apply Z.mul_pos_pos|]; lia|..].
    + unfold chs_cx. by rewrite Z.div_0_l, Z.mod_0_l by nia.
    + unfold chs_dh. by rewrite Z.div_0_l, Z.mod_0_l by lia.
    + reflexivity.
    + destruct (Hin Hw) as ((_ & _ & _ & _ & _ & Hread) & _ & _). rewrite Hl in Hread.
      intros Hcf i Hi. exact (Hread Hcf i Hi).
Qed.

(** The loaded sector has the signature when the disk has it. *)
Lemma signature_read m b0 b1 : m 0x7dfe = b0 -> m 0x7dff = b1 -> GET_FARVAR 2 m 0x07c0 0x1fe = b0 + 256 * b1.
Proof. intros <- <-. unfold GET_FARVAR, load. cbn [load_bytes le_val]. change (far 0x07c0 0x1fe) with 0x7dfe. change (0x7dfe + 1) with 0x7dff. lia. Qed.

Definition signed_sector (d : dev) (p : Z) : Prop := media d p 510 + 256 * media d p 511 = MBR_SIGNATURE.

(** What [handle_19] makes of the answer to the read. *)
Lemma handle_19_disk fuel x v (s s2 : st dev) r2 : BEV v = mkBev IPL_TYPE_HARDDISK 0 :: x ->
  int13 (read_regs 0x80 0x07c0) (screen (line "Booting from Hard Disk...") s) = Done (r2, s2) ->
  handle_19 (S fuel) v s =
    if r_cf r2 then handle_18 fuel (set_sequence 0 v) (screen (chars "Boot failed: could not read the boot disk" ++ [10; 10]) s2)
    else if negb (GET_FARVAR 2 (s_mem s2) 0x07c0 0x1fe =? MBR_SIGNATURE)
    then handle_18 fuel (set_sequence 0 v) (screen (chars "Boot failed: not a bootable disk" ++ [10; 10]) s2)
    else match farcall16 0x7c00 (boot_regs 0x80) s2 with
         | None => Done (Started 0x7c00 0x80 s2)
         | Some s3 => handle_18 fuel (set_sequence 0 v) s3
         end.
Proof.
  intros Hb Hi. unfold handle_19. cbn [do_boot set_sequence BEV]. rewrite Hb.
  change ((?a :: x) !! Z.to_nat 0) with (Some a). cbn [bev_type].
  change (IPL_TYPE_HARDDISK =? IPL_TYPE_HALT) with false. cbn match. unfold try_bev. cbn [bev_type].
  change (IPL_TYPE_HARDDISK =? IPL_TYPE_FLOPPY) with false. change (IPL_TYPE_HARDDISK =? IPL_TYPE_HARDDISK) with true. cbn match.
  unfold boot_disk. rewrite Hi. run_outcome. destruct (r_cf r2); [reflexivity|]. cbn [andb].
  destruct (negb _); reflexivity.
Qed.

(** Nothing is prepared for booting yet. *)
Definition unprepared (v : boot_vars) : Prop := Bootorder v = [] /\ BEV v = [] /\ HaveHDBoot v = 0.

(** C22: When a hard disk heads the boot list, preparing the list makes it drive
    80h, and interrupt 19h then reads its first sector to 7C00h through interrupt
    13h: if the read succeeds and the sector on the disk ends in the boot
    signature, the sector is in memory and control goes to 0000:7C00 with 80h in
    DL; if not, the next entry is tried. *)
Theorem boots_first_disk fuel p e rest v (s : st dev) : BootList v = e :: rest ->
  be_type e = IPL_TYPE_HARDDISK -> be_data e = p -> unprepared v -> new_disk p s -> unmapped s -> Forall (entry_ok p (s_block s)) rest ->
  NoDup (hd_drives rest) -> quiet_screen -> own_int13 ->
  exists v1 s1 r2 s2, bcv_prepboot v s = Done (v1, s1) /\
    handle_13 (read_regs 0x80 0x07c0) (screen (line "Booting from Hard Disk...") s1) = Done (r2, s2) /\
    (r_cf r2 = false -> signed_sector (s_dev s) p ->
      (forall i, 0 <= i < 512 -> s_mem s2 (0x7c00 + i) = media (s_dev s) p i) /\
      (farcall16 0x7c00 (boot_regs 0x80) s2 = None -> handle_19 (S fuel) v1 s1 = Done (Started 0x7c00 0x80 s2)) /\
      forall s3, farcall16 0x7c00 (boot_regs 0x80) s2 = Some s3 ->
        handle_19 (S fuel) v1 s1 = handle_18 fuel (set_sequence 0 v1) s3) /\
    (r_cf r2 = true \/ ~ signed_sector (s_dev s) p -> exists text,
      handle_19 (S fuel) v1 s1 = handle_18 fuel (set_sequence 0 v1) (screen text s2)).
Proof.
  intros Hl Ht He (Ho & Hb & Hh) Hn Hu Hr Hnd Hq Hi.
  destruct (prepboot_first p e rest v s Hl Ht He Ho Hb Hh Hn Hu Hr Hnd)
    as (v1 & s1 & x & d & E1 & Hx & Hf & (P1 & P2 & P3) & Ha & Hc & Hty & Hs).
  destruct Hn as [_ _ Hdr _ _ [Hp Hg]]. destruct Hf as [Hrow _ Hd _ Hok].
  set (s' := screen (line "Booting from Hard Disk...") s1). destruct (Hq (line "Booting from Hard Disk...") s1) as (Q1 & Q2 & Q3).
  fold s' in Q1, Q2, Q3. destruct (sector_read p d s') as (r2 & s2 & E2 & Hread);
    [by rewrite Q1|by rewrite Q1|by apply Q3|done|done|by rewrite Hty|done|done|by rewrite Q1, P3|rewrite Q1, P2; apply Hu|].
  rewrite Q2, P1 in Hread. exists v1, s1, r2, s2. split; [done|]. split; [done|].
  assert (int13 (read_regs 0x80 0x07c0) s' = Done (r2, s2)) as Ei by (by rewrite Hi). rewrite (handle_19_disk fuel x v1 s1 s2 r2 Hx Ei).
  destruct (r_cf r2) eqn:Ecf; [by split; [|intros _; eexists]|].
  rewrite (signature_read _ _ _ (Hread eq_refl 510 ltac:(lia)) (Hread eq_refl 511 ltac:(lia))). split.
  - intros _ Hsig. unfold signed_sector in Hsig. rewrite Hsig, Z.eqb_refl. cbn [negb]. split; [by apply Hread|].
    split; [by intros ->|]. by intros s3 ->.
  - intros [|Hsig]; [done|]. unfold signed_sector in Hsig. rewrite (proj2 (Z.eqb_neq _ _) Hsig). cbn [negb]. by eexists.
Qed.

(** The entry chosen in the menu heads the list with the highest priority, and
    the others stay as they were. *)
Lemma menu_choice fuel v (s : st dev) v' s' : interactive_bootmenu fuel v s = Some (v', s') ->
  v' = v \/ exists i e, BootList v !! i = Some e /\
    v' = set_list (mkEntry (be_type e) (be_data e) 0 (be_description e) :: delete i (BootList v)) v.
Proof.
  assert (forall l items key i, menu_index items l key = Some i -> is_Some (l !! i)) as Hidx.
  { induction l as [|x l IH]; intros [|c items] key i; cbn [menu_index]; [done..|]. case_match; [by intros [= <-]|].
    destruct (menu_index items l key) as [j|] eqn:E; [|done]. intros [= <-]. by apply (IH items key). }
  assert (forall l k t s i s', menu_loop k t l s = Some (Some i, s') -> is_Some (l !! i)) as Hloop.
  { intros l k t. induction k as [|k IH]; intros s0 i s1; cbn [menu_loop]; [done|].
    destruct (get_keystroke_full _ _ _) as [[key s2]|]; [|done]. cbn [mbind option_bind]. case_match; [apply IH|].
    case_match; [apply IH|]. case_match; [done|]. destruct (menu_index _ _ _) as [j|] eqn:E; [|apply IH].
    intros [= <- <-]. by eapply Hidx. }
  assert (forall key s0, choose fuel key v s0 = Some (v', s') -> v' = v \/ exists i e, BootList v !! i = Some e /\
    v' = set_list (mkEntry (be_type e) (be_data e) 0 (be_description e) :: delete i (BootList v)) v) as Hch.
  { intros key s0. unfold choose. destruct (drain_keys fuel s0) as [s1|]; [|done]. cbn [mbind option_bind].
    destruct (menu_loop _ _ _ _) as [[[i|] s2]|] eqn:E; [| |done]; cbn [mbind option_bind]; [|intros [= <- <-]; by left].
    intros [= <- <-]. right. destruct (Hloop _ _ _ _ _ _ E) as [e He]. exists i, e. split; [done|].
    unfold make_first. by rewrite He. }
  unfold interactive_bootmenu. case_match; [intros [= <- <-]; by left|]. case_match; [intros [= <- <-]; by left|].
  case_match; [|apply Hch]. destruct (drain_keys fuel s) as [s1|]; [|done]. cbn [mbind option_bind].
  destruct (romfile_loadfile _ _) as [msg s2]. destruct (get_keystroke _ _ _) as [[c s3]|]; [|done]. cbn [mbind option_bind].
  case_match; [intros [= <- <-]; by left|apply Hch].
Qed.

End boot.

(** * Search patterns *)

(** Where a star stops: at the end, at a slash or at the character after it. *)
Definition stops (glob str : list Z) : Prop := cur_char str = 0 \/ cur_char str = 47 \/ cur_char str = cur_char glob.
#[export] Instance stops_dec glob str : Decision (stops glob str).
Proof. unfold stops. apply _. Defined.

(** [globs g s r]: the pattern [g] matches a prefix of the path [s], made of
    whole parts, and [r] is left. *)
Inductive globs : list Z -> list Z -> list Z -> Prop :=
| globs_end s : cur_char s = 0 \/ cur_char s = 47 -> globs [] s s
| globs_char c g s r : c <> 42 -> globs g s r -> globs (c :: g) (c :: s) r
| globs_stop g s r : stops g s -> globs g s r -> globs (42 :: g) s r
| globs_skip c g s r : ~ stops g (c :: s) -> globs (42 :: g) s r -> globs (42 :: g) (c :: s) r.

(** [glob_prefix] returns, and decides the relation. *)
Lemma glob_match g s r : Forall (fun c => c <> 0) g -> Forall (fun c => c <> 0) s ->
  glob_prefix g s = Some r <-> globs g s r.
Proof.
  intros Hg Hs. unfold glob_prefix. assert (length g + length s < length g + length s + 1)%nat as Hf by lia.
  revert Hf. generalize (length g + length s + 1)%nat as fuel. intros fuel. revert g s Hg Hs.
  induction fuel as [|k IH]; intros g s Hg Hs Hf; [lia|]. cbn [glob_loop].
  destruct Hg as [|a g Ha Hg].
  { cbn [cur_char]. change (0 =? 0) with true. cbn [andb].
    destruct (Z.eqb_spec (cur_char s) 0); cbn [orb]; [|destruct (Z.eqb_spec (cur_char s) 47)].
    1,2: split; [intros [= <-]; constructor; by auto|by inversion 1].
    change (0 =? 42) with false. cbn match. destruct (Z.eqb_spec 0 (cur_char s)); [congruence|]. cbn [negb].
    split; [done|]. inversion 1 as [? [?|?]| | |]; congruence. }
  cbn [cur_char tail]. rewrite (proj2 (Z.eqb_neq _ _) Ha). cbn [andb]. cbn [length] in Hf.
  destruct (Z.eqb_spec a 42) as [->|H42].
  - destruct (decide (stops g s)) as [Hstop|Hstop].
    + assert ((cur_char s =? 0) || (cur_char s =? 47) || (cur_char s =? cur_char g) = true) as ->.
      { rewrite !orb_true_iff, !Z.eqb_eq. unfold stops in Hstop. tauto. }
      rewrite IH by (done || lia). split; [by constructor|]. inversion 1; by subst.
    + assert ((cur_char s =? 0) || (cur_char s =? 47) || (cur_char s =? cur_char g) = false) as ->.
      { rewrite !orb_false_iff, !Z.eqb_neq. unfold stops in Hstop. tauto. }
      destruct Hs as [|c s Hc Hs]; [unfold stops in Hstop; cbn in Hstop; tauto|]. cbn [tail].
      cbn [length] in Hf. rewrite IH by (first [by constructor|cbn [length]; lia|done]).
      split; [by constructor|]. inversion 1; by subst.
  - destruct Hs as [|c s Hc Hs]; cbn [cur_char tail].
    + rewrite (proj2 (Z.eqb_neq _ _) Ha). cbn [negb]. split; [done|]. inversion 1; by subst.
    + destruct (Z.eqb_spec a c) as [->|Hac]; cbn [negb].
      * cbn [length] in Hf. rewrite IH by (done || lia). split; [by constructor|]. inversion 1; by subst.
      * split; [done|]. inversion 1; by subst.
Qed.

(** * A machine with three drives *)

#[local] Instance boot_disks : BlockHost plain_dev := plain_disks.
#[local] Instance boot_media : BlockMedia plain_dev := plain_media.

(** A machine that prints to the corner of the text screen. *)
#[local] Instance plain_boot : BootHost plain_dev := {|
  malloc_tmp s := (true, s);
  malloc_tmphigh _ s := (true, s);
  romfile_loadfile _ s := (None, s);
  romfile_loadint _ d := d;
  screen text s := mkSt (store 1 (s_mem s) 0xb8000 (cur_char text)) (s_dev s) (s_block s);
  enable_bootsplash s := s;
  disable_bootsplash s := s;
  wait_threads s := s;
  int16_check s := (false, s);
  int16_read s := (0, s);
  irq_calc _ _ := 0;
  irq_check _ _ := true;
  yield_toirq s := s;
  int13 := handle_13;
  call_bcv _ _ s := s;
  scsi_is_ready _ m d := (m, d);
  cd_buffer := 0x80000;
  farcall16 _ _ _ := None
|}.

(** Disks with a boot sector. *)
Definition boot_bytes : plain_dev := fun p i => if i =? 510 then 0x55 else if i =? 511 then 0xaa else p + i.

Definition boot_block : block :=
  set_drive 0x60000 (mkDrive DTYPE_AHCI 1 (mkChs 0 0 0) 100000000 0 0 512 (mkChs 16 16383 63)) fresh_block.

Definition boot_state : st plain_dev := mkSt (store 2 (fun _ => 0) 0x40e 0x9fc0) boot_bytes boot_block.

Definition boot_entries : list bootentry_s :=
  [mkEntry IPL_TYPE_CDROM 0x30000 101 (Literal (chars "DVD")); mkEntry IPL_TYPE_HARDDISK 0x60000 102 (Literal (chars "disk 2"));
   mkEntry IPL_TYPE_HARDDISK 0x20000 1 (Literal (chars "disk 1"))].

Definition boot_start : boot_vars := mkBoot [] 101 103 104 9999 [] [] 60000 1 [] 0 0 (-1).

Lemma boot_list_ordered_witness :
  be_data <$> BootList (register boot_entries boot_start boot_state).1 = [0x20000; 0x30000; 0x60000] /\
  BootList (register boot_entries boot_start boot_state).1 ≡ₚ boot_entries.
Proof.
  split; [vm_compute; reflexivity|].
  destruct (boot_list_ordered boot_entries boot_start boot_state) as (_ & H & _); [done|reflexivity|exact H].
Defined.

Lemma boots_first_disk_witness : exists v1 s1 s2,
  bcv_prepboot (register boot_entries boot_start boot_state).1 boot_state = Done (v1, s1) /\
  handle_19 1 v1 s1 = Done (Started 0x7c00 0x80 s2) /\ s_mem s2 0x7c03 = 3.
Proof.
  set (v := (register boot_entries boot_start boot_state).1).
  destruct (boots_first_disk 0 0x20000 (mkEntry IPL_TYPE_HARDDISK 0x20000 1 (Literal (chars "disk 1")))
    [mkEntry IPL_TYPE_CDROM 0x30000 101 (Literal (chars "DVD")); mkEntry IPL_TYPE_HARDDISK 0x60000 102 (Literal (chars "disk 2"))] v boot_state)
    as (v1 & s1 & r2 & s2 & E1 & E2 & Hok & _).
  - vm_compute. reflexivity.
  - reflexivity.
  - reflexivity.
  - done.
  - split; [split; vm_compute; intuition congruence|reflexivity| |reflexivity|vm_compute; congruence|done].
    exists ahci. apply (bool_decide_unpack _). vm_compute. done.
  - split; [exists (replicate 16 0); done|reflexivity..|vm_compute; congruence|apply store_ok; by intros a].
  - apply Forall_cons. split; [by split|]. apply Forall_cons. split; [|by apply Forall_nil]. split; [done|]. intros _.
    split; [done|]. split; [|done]. split; vm_compute; intuition congruence.
  - apply (bool_decide_unpack _). vm_compute. done.
  - intros text s. split; [done|]. split; [done|]. apply store_ok.
  - by intros r s.
  - assert ((fun x => r_cf x.1) <$> mbind (M := outcome) (fun x : boot_vars * st plain_dev =>
      handle_13 (read_regs 0x80 0x07c0) (screen (line "Booting from Hard Disk...") x.2)) (bcv_prepboot v boot_state) = Done false) as E by (vm_compute; reflexivity).
    rewrite E1 in E. cbn [mbind outcome_bind snd] in E. rewrite E2 in E. injection E as E.
    destruct (Hok E) as (Hm & Hgo & _); [vm_compute; reflexivity|].
    exists v1, s1, s2. split; [done|]. split; [by apply Hgo|]. apply (Hm 3). lia.
Defined.
