(* ===== verification/Display.v ===== *)
(** From the firmware's graphics output to the VESA functions.

    CSMWrap writes the framebuffer of the current mode into a coreboot table,
    SeaBIOS' video BIOS finds the table and registers the mode as 0x143, and
    function 4F01h of interrupt 10h reports it to the operating system. *)

From stdpp Require Import base numbers list.
From Stdlib Require Import ZArith Lia.
From S2P Require Import Prelude Memory Coreboot Machine Firmware Video CcInt VgaState VgaPal VgaCb VgaFb.
From S2P Require Import VgaMode VgaVbe VgaVbeSpec.

(** A mode the video BIOS can register. *)
Definition usable (address : Z) (info : mode_information) : Prop :=
  0 < address < 2 ^ 32 /\ 0 < HorizontalResolution info < 2 ^ 16 /\ 0 < VerticalResolution info < 2 ^ 16 /\
  HorizontalResolution info <= PixelsPerScanLine info < 2 ^ 16 /\
  VerticalResolution info * (4 * PixelsPerScanLine info) < 2 ^ 31 - 64 * 1024.

Lemma usable_valid address info : usable address info ->
  fb_invalid address (u32 (4 * PixelsPerScanLine info)) (HorizontalResolution info) (VerticalResolution info) 32 = false.
Proof.
  intros (Ha & Hx & Hy & Hp & Hs). unfold fb_invalid, min_stride. cbn [Z.eqb negb andb Pos.eqb].
  rewrite !(wrap_small 32) by (unfold fits; lia).
  repeat match goal with |- context [?a =? ?b] => destruct (Z.eqb_spec a b); try lia
    | |- context [?a <? ?b] => destruct (Z.ltb_spec a b); try lia end; done.
Qed.

Section layout.
Context {L : Layout}.
Hypothesis Hoff : 0 < off_CBmodeinfo.

(** The set-up of the video BIOS on a table that describes the mode, then the
    mode information of mode 0x143. *)
Lemma table_reaches_vbe ss resume sum m cbfb address info :
  find_cb_table m = Some CB_TABLE_START -> find_cb_subtable m CB_TABLE_START CB_TAG_FRAMEBUFFER = Some cbfb ->
  describes (read_framebuffer m cbfb) address info -> usable address info ->
  exists V m1, cbvga_setup ss (initial_vga resume sum) m = Done (0, V, m1) /\
    (forall a, ~ in_direct ss a -> m1 a = m a) /\
    forall r m2, Z.land (cx r) (Z.lnot MF_VBEFLAGS) = 0x143 -> in_segment (di r) 256 ->
    exists V' m3, vbe_104f01 r V m2 = Done (with_ax 0x004f r, V', m3) /\
      reports m3 (es r) (di r) address (HorizontalResolution info) (VerticalResolution info) 32
        (4 * PixelsPerScanLine info) /\
      (forall a, a < far (es r) (di r) \/ far (es r) (di r) + 256 <= a -> m3 a = m2 a).
Proof.
  intros Ht Hs Hd Hu. unfold describes in Hd. destruct (printed_masks info) as [[red green] blue].
  destruct Hd as (H1 & H2 & H3 & H4 & H5 & _).
  destruct (setup_shows ss (initial_vga resume sum) m CB_TABLE_START cbfb) as (V & m1 & Hrun & Hsh & _ & Hfr); try done.
  - rewrite H5. by right.
  - rewrite H1, H2, H3, H4, H5. by apply usable_valid.
  - exists V, m1. split; [done|]. split; [done|]. intros r m2 Hr Hseg.
    rewrite H1, H2, H3, H4, H5 in Hsh. destruct Hu as (Ha & Hx & Hy & Hp & Hsz).
    destruct Hsh as (Hcb & Hfb & Hln & _ & (seg & Hmi) & _).
    rewrite (wrap_small 32) in Hfb, Hln by (unfold fits; lia).
    rewrite !(wrap_small 16) in Hmi by (unfold fits; lia).
    assert (cbvga_find_mode V (Z.land (cx r) (Z.lnot MF_VBEFLAGS)) = off_CBmodeinfo) as Hf.
    { unfold cbvga_find_mode. by rewrite Hr, Hcb. }
    destruct (mode_info_spec r V m2 (CBmodeinfo V)) as (V' & m3 & pages & Hv & _ & -> & Hfr3); try done.
    + rewrite Hf. lia.
    + rewrite Hf. unfold mode_at. by rewrite Z.eqb_refl.
    + unfold sizable. rewrite Hln, Hmi. cbn. split; nia.
    + exists V'. eexists. split; [exact Hv|]. split; [|exact Hfr3].
      pose proof (direct_fields V (CBmodeinfo V) (CBlinelength V) pages (es r) (di r)
        (memset_far m2 (es r) (di r) 0 256)) as Hrep.
      rewrite Hfb in Hrep. rewrite Hmi, Hln in Hrep |- *. apply Hrep; [done|lia].
Qed.

End layout.

Section claims.
Context {L : Layout}.
Context {W : Type} `{BootServices W} `{VideoServices W}.

(** C7: the mode the firmware set is the mode the VESA functions report.  When
    the display set-up chooses the built-in video BIOS and the mode is one a
    video BIOS can describe, the video BIOS initialises from the table CSMWrap
    builds, and function 4F01h for mode 0x143 then fills the caller's block
    with the framebuffer's address, size, depth and pitch, changing no byte
    outside that block. *)
Theorem display_reaches_vbe (vgabios_bin sizeof_vgabios_bin : Z)
  (Hmodes : forall g n w, mode_ok (QueryMode g n w).1.2)
  (fuel n : nat) (s : video_state) (w : W) (ss resume sum : Z) :
  0 < off_CBmodeinfo -> mem_ok (v_mem s) ->
  rom_finite (v_mem s) fuel n (vga_pci_io (v_priv (FindGopPciDevice s w).1.2)) ->
  0x540 <= cb_fb (v_priv s) -> vbios_loc s = 0 ->
  (forall k, 0 <= k < 80 -> load32 (v_mem s) (16 * k) <> CB_HEADER_SIGNATURE) ->
  exists status s' w',
    csmwrap_video_init vgabios_bin sizeof_vgabios_bin fuel n s w = (Some (status, s'), w') /\
    (status = EFI_SUCCESS -> video_type (v_priv s') = CSMWRAP_VIDEO_SEAVGABIOS ->
     exists address info, current_mode (v_mem s) (gop (v_priv s')) address info /\
     (usable address info ->
      exists V m1,
        cbvga_setup ss (initial_vga resume sum)
          (build_coreboot_table (v_mem s') (video_type (v_priv s')) (cb_fb (v_priv s'))) = Done (0, V, m1) /\
        forall r m2, Z.land (cx r) (Z.lnot MF_VBEFLAGS) = 0x143 -> in_segment (di r) 256 ->
        exists V' m3, vbe_104f01 r V m2 = Done (with_ax 0x004f r, V', m3) /\
          reports m3 (es r) (di r) address (HorizontalResolution info) (VerticalResolution info) 32
            (4 * PixelsPerScanLine info) /\
          (forall a, a < far (es r) (di r) \/ far (es r) (di r) + 256 <= a -> m3 a = m2 a))).
Proof.
  intros Hoff Hok Hrom Hfb Hv Hsig.
  destruct (display_reaches_seavgabios vgabios_bin sizeof_vgabios_bin Hmodes fuel n s w Hok Hrom Hfb Hv Hsig)
    as (status & s' & w' & Hrun & Hr).
  exists status, s', w'. split; [exact Hrun|]. intros Hst Hty.
  destruct (Hr Hst Hty) as (H1 & H2 & address & info & Hc & _ & Hd).
  exists address, info. split; [done|]. intros Hu.
  destruct (table_reaches_vbe Hoff ss resume sum _ _ address info H1 H2 Hd Hu) as (V & m1 & Hs & _ & Hall).
  exists V, m1. split; [exact Hs|exact Hall].
Qed.

End claims.

#[local] Existing Instance demo_boot.
#[local] Existing Instance demo_video.
#[local] Existing Instance demo_layout.

(** The machine of [Video] after its display was set up. *)
Definition demo_after : video_state :=
  match fst (csmwrap_video_init 0x500000 0x8000 1 0 demo_state ()) with Some (_, s') => s' | None => demo_state end.

Lemma display_reaches_vbe_witness :
  exists V m1 V' m3,
    cbvga_setup 0x9000 (initial_vga 0 0) (build_coreboot_table (v_mem demo_after) CSMWRAP_VIDEO_SEAVGABIOS 0x9000) =
      Done (0, V, m1) /\
    vbe_104f01 (mkRegs 0x4f01 0 0x4143 0 0x100 0 0x8000) V m1 =
      Done (with_ax 0x004f (mkRegs 0x4f01 0 0x4143 0 0x100 0 0x8000), V', m3) /\
    reports m3 0x8000 0x100 0xE0000000 1024 768 32 4096.
Proof.
  destruct (display_reaches_vbe 0x500000 0x8000 demo_modes_ok 1 0 demo_state () 0x9000 0 0)
    as (st & s' & [] & Hrun & Hr).
  - done.
  - apply demo_mem_ok.
  - apply demo_rom.
  - vm_compute. congruence.
  - reflexivity.
  - intros k Hk. cbn [v_mem demo_state]. unfold demo_mem. loads. vm_compute. congruence.
  - assert (st = EFI_SUCCESS /\ s' = demo_after) as [-> ->].
    { clear Hr. unfold demo_after. rewrite Hrun. vm_compute in Hrun. by injection Hrun as <- <-. }
    destruct (Hr eq_refl ltac:(vm_compute; reflexivity)) as (address & info & (Ha & w1 & st1 & w2 & Hq & _) & Hall).
    injection Hq as _ <- _. assert (address = 0xE0000000) as -> by (rewrite Ha; vm_compute; reflexivity).
    destruct Hall as (V & m1 & Hs & Hv).
    { unfold usable. cbn. lia. }
    destruct (Hv (mkRegs 0x4f01 0 0x4143 0 0x100 0 0x8000) m1) as (V' & m3 & Hrun' & Hrep & _); [done|unfold in_segment; cbn; lia|].
    exists V, m1, V', m3. split; [exact Hs|]. split; [exact Hrun'|exact Hrep].
Defined.
